(* ===== verification/_CoqProject ===== *)
-Q . S2P
Prelude.v
Errors.v
Sha256.v
GoStrings.v
Utf8Facts.v
States.v
Values.v
Ids.v
Idempotency.v
Models.v
Evidence.v
Records.v
Store.v
StoreFacts.v
Requests.v
Machine.v
Replay.v
Sync.v
Advance.v
Integrity.v
Refs.v
Sessions.v
Targets.v
Termination.v
Incidents.v
Completion.v
System.v
Admission.v
Guarantees.v
Quiesce.v
Effects.v
Hazards.v
Frames.v
LedgerCodec.v
Subscriptions.v
Ledger.v
LedgerDisk.v
LedgerIndex.v
LedgerRecovery.v
LedgerAppend.v
LedgerSafety.v
LedgerRuns.v
LedgerHazards.v
GoText.v
Capacity.v
CapacityFacts.v
CapacityOrder.v
Reducer.v
ReducerFacts.v
ReducerSafety.v
Capability.v
Materials.v
MaterialFacts.v
Observations.v
BundleBuild.v
BundleFacts.v
BundleStore.v
BundleSafety.v
BundleScenario.v
RunFinalization.v
Policy.v
PolicyRules.v
PolicyObservation.v
PolicyCompile.v
PolicyAuthority.v
PolicyFacts.v
PolicySafety.v
PolicyResolution.v
PolicyScenario.v
Registry.v
RegistrySafety.v
Inventory.v
PhysicalPlans.v
Startup.v
StartupSafety.v
Docker.v
ContainerPlan.v
TargetDriver.v
TargetDriverSafety.v
Witnesses.v
