(* ===== verification/Prelude.v ===== *)
(** * Verification of the control plane of the world management layer

    The program (Go, under [src/]) manages research sessions.  A session leases
    an agent workspace and may own targets (containers or virtual devices); work
    is done as execs in the workspace and as runs and operations on the targets;
    failures are recorded as incidents.  Its core is a control plane that keeps
    all of this as an append-only, hash-chained journal in a SQLite store and an
    in-memory projection of it.  Every command validates its request, brings the
    projection up to date, runs one idempotent transaction that reads the
    projection and appends journal rows, and brings the projection up to date
    again.  Restarting rebuilds the projection by replaying the journal, which
    validates every row again.

    Observations of the targets go to a second durable store, the observation
    ledger: a directory of segment files with checksummed, hash-chained frames,
    one numbered log shared by all sources, read by cursor and followed by
    bounded subscriptions.

    When a run ends its evidence is checked and sealed, once, as a bundle in the
    directory of the run; the control plane then records the digest of the
    published bundle with the run's terminal state.

    Accepted observations are reduced to a live snapshot (topology, metrics,
    coverage, incidents, pressure) of which clients see an authorized projection.
    Before a session starts, its resources are admitted against the capacity of
    the node; under memory, I/O, CPU or disk pressure work is shed in fixed
    stages.

    What a session may do is fixed by a policy document.  It is validated,
    completed with defaults and compiled against the capabilities of a node into
    an effective policy; agents, targets, runs, captures and exports are admitted
    only within it.

    When the control plane starts it derives from the journal which containers
    and devices have to exist, compares that with the inventories of the drivers,
    removes what belongs to generations that are over, and refuses to start on
    anything it cannot account for.

    The driver of Linux targets turns the plan of a target generation into a
    Docker container, replaces it when the target is reset, and after a restart
    identifies the containers it owns.

    This library models these parts ([internal/domain], [internal/store],
    [internal/application] and the few functions of [internal/ports] they call;
    [internal/framing] and [internal/ledger]; [internal/observationbundle];
    [internal/observation];
    [internal/admission]; [policy], [internal/androidcontract], [internal/policyregistry] and
    [internal/orchestration/policyauthority]; the reconciliation of
    [internal/orchestration] at startup; [internal/drivers/target/linuxcontainer] over
    [internal/drivers/dockercli]) as executable definitions, and proves that they work.

    ** Files and sources

    Foundations:
    - [Prelude]: results, record update, loops with early return, instants,
      machine integers, tactics and the [res] and [bools] hint databases.
    - [Errors]: [domain/errors.go], [application/errors.go].
    - [Sha256], [GoStrings], [Utf8Facts]: what the code uses of the Go standard
      library ([crypto/sha256], [strings], [unicode/utf8], [encoding/hex],
      [path], [sort]), executable, with the facts proofs need.

    Domain ([internal/domain]):
    - [States]: [states.go], the thirteen state machines.
    - [Values]: [revision.go], [validation.go].
    - [Ids]: [ids.go].  [Idempotency]: [idempotency.go].
    - [Models] (Module [Domain]): [lifecycle_models.go].
    - [Evidence]: incidents and their evidence, [Observations]: captures,
      events, change sets, summaries and bundles, of [evidence_models.go] and
      [observation.go].
    - [Materials]: [material_models.go].
      [MaterialFacts]: what a manifest guarantees.

    Store and machine:
    - [Store]: [store/store.go], [store/objects.go] as pure functions on tables;
      [StoreFacts] its properties.
    - [Records], [Requests]: the types of [application/types.go] and the request
      and result types beside the commands.
    - [Machine]: [Core], its store and the environment as a state monad, with
      [appendControl] and [RunIdempotent], with their properties.

    Projection:
    - [Replay]: [application/replay_validation.go].
    - [Sync]: [application/core.go] ([apply], [syncLocked], [NewCore], reads,
      [Authorize], admission checks), with its properties.
    - [Advance], [Integrity], [Refs]: what replay guarantees, as relations
      between successive projections and an invariant of one.

    Commands ([internal/application]), one definition per method and one per
    transaction body:
    - [Sessions]: [sessions.go], [agent_plan_binding.go], [execs.go].
    - [Targets]: [targets.go], [target_plan_binding.go],
      [target_run_plan_binding.go].
    - [Termination]: [lease_termination.go].
    - [Incidents]: [incidents.go], [incident_evidence_sealing.go].

    System: [System] puts the 28 mutating commands, authorization and restart
    into one step relation; a command that fails or is interrupted by a fault is
    a step like any other.

    Observation ledger ([internal/framing], [internal/ledger]):
    - [Frames]: [framing.go].  [LedgerCodec]: [types.go], [codec.go].
    - [Subscriptions]: [subscription.go], the bounded queues and the callers
      that wait on them.
    - [Ledger]: [segment.go], [store.go] and [Subscribe], over a file system
      whose calls may fail, whose writes may be partial and whose crashes lose
      unsynced bytes.
    - [LedgerDisk], [LedgerIndex], [LedgerRecovery],
      [LedgerAppend], [LedgerSafety]: frames of a log, directories that hold
      one, the window of source sequences, and the invariant with one lemma per
      operation.  [LedgerRuns]: all runs of a ledger and the theorems.

    Observation bundles ([internal/observationbundle], [internal/safepath]):
    - [BundleBuild]: [build.go], the checks on the evidence of a run and the
      metadata of its bundle; [BundleFacts]: they are one condition.
    - [BundleStore]: [finalizer.go] over directories whose calls may fail and
      whose unsynced names a crash may lose; [BundleSafety]: all runs of a
      finalizer and the theorems.
    - [RunFinalization]: [application/run_finalization.go], the core and the
      finalizer together.
    - [BundleScenario]: a concrete bundle, and an answer that a crash takes
      back.

    Live observation ([internal/observation]):
    - [Reducer]: [types.go], [reducer.go], [projection.go].  [ReducerFacts]:
      the forest of subjects, removal and the loops of projection;
      [ReducerSafety]: the theorems, and a concrete topology.

    Admission ([internal/admission]):
    - [Capacity]: [resources.go], [pressure.go].  [CapacityFacts]: resource
      vectors as amounts per dimension, and admission; [CapacityOrder]: the
      stable sort, the queue and the pressure stages, and a concrete node.

    Policies ([policy], [internal/orchestration/policyauthority]):
    - [GoText]: what the code uses of float64, on the executable binary64
      numbers of the Standard Library; [net.ParseCIDR], the regular expressions and the functions of
      [strings] the rules use.
    - [Capability]: [internal/domain/capability.go], whose canonical encoding
      is unambiguous.
    - [Policy]: [types.go].  [PolicyRules], [PolicyObservation]: [validate.go],
      [errors.go] and [internal/androidcontract].  [PolicyCompile]:
      [defaults.go], [capabilities.go], [compiler.go].
    - [PolicyAuthority]: [authority.go], [validation.go] and
      the sums of [orchestration/policy_admission.go].
    - [PolicyFacts]: when a rule adds no problem and when a check passes;
      [PolicySafety], [PolicyResolution]: the theorems.  [PolicyScenario]: the documented example
      policy, compiled.
    - [Registry]: [internal/policyregistry/registry.go], publications on the
      write-once tables of [Store]; [RegistrySafety]: the theorems, and an
      interrupted publication.

    Startup ([internal/orchestration], [internal/ports/reconciliation.go]):
    - [Inventory]: the reports of the drivers and how [reconciliation.go] and
      [provisioning_reconciliation.go] judge them, with the exact conditions
      under which nothing is wrong ([assess_spec]).
    - [PhysicalPlans]: [resolvePersistedPhysicalPlans], from the persisted
      sessions to what is expected, removable, interrupted or lost, and the
      inventory requests made from it.
    - [Startup]: the part of [ReconcilePhysicalResources] that settles the
      inventories, with the calls it makes ([destroyAgentAndWorkspace] and
      [sealWorkspace] of [controller.go]).
    - [StartupSafety]: the theorems, and a concrete startup.

    Linux targets ([internal/drivers]):
    - [Docker]: [dockercli/configuration.go] and the types of
      [dockercli/inventory.go], the configuration of a container and when two
      are the same ([difference_fields]).
    - [ContainerPlan]: [linuxcontainer/plan.go] and [TargetPlan] of
      [ports/target.go]; what a plan confines a container to ([confined]).
    - [TargetDriver]: [driver.go] ([Create], [Reset], [Destroy]),
      [reconciliation.go], [provisioning_recovery.go], [lifecycle_state.go] and
      the part of [run_boundary.go] they use.
    - [TargetDriverSafety]: a logic of computations and the calls they may make
      ([wp]), one lemma per operation, the theorems, and a concrete driver.

    ** How the code is rendered

    A Go method that may fail is a function of the world returning a result or
    an error and the next world ([M]).  The world is the store, the projection
    and a counter of environment readings.  The environment ([Env]) says what
    each reading of the clock, the random source and each fault point returns; it
    is arbitrary, except that a successful random read fills its ten bytes and
    that JSON texts are not empty.  Early returns are [check] and [guard];
    pointers into slices are an index and an update; a transaction that fails
    restores the store.  The mutex of [Core] makes each method one atomic step,
    so concurrent callers are sequences of steps.  Revisions and generations are
    kept at 64 bits ([u64]).  A string-typed constant is a constructor, any
    other string its [..Unrecognized].

    A method of the ledger is a function of the directory, the ledger in memory
    and a counter of environment steps ([LM]); [DiskEnv] says which call fails,
    how much a failing write leaves, where a read fails and when the context is
    cancelled.  A file is its content and what its last sync made durable
    ([File]); a crash keeps a prefix of one of them that includes what they have
    in common ([crash_file]).

    A method of the finalizer is a function of its directories and a counter
    ([FM]); [BundleEnv] says which call fails and whether a failing publication
    left its name behind unsynced.  The run finalisation service runs on both
    states ([Service]).  [sort.Slice] is a parameter that permutes and sorts
    ([SliceSort]), since the order it gives equivalent elements is not
    specified; JSON texts and the strict decoder are parameters too
    ([BundleText], [MetadataText], [JsonText]), apart from the object written
    around a payload ([metadata_bytes]).

    A rule of a policy is a function from a part of the document to the list of
    problems it adds, in order; the positions of the fields in the source text
    ([Positions]) and the canonical text that is hashed ([PolicyText]) are
    parameters, and so is [strings.ToLower] on the domains of a network
    ([UnicodeLower]).  The registry runs on the tables and a counter ([RM]);
    [RegistryEnv] says which call fails, before or after it took effect.  A problem and a violation keep the format and the
    arguments of their message.

    Startup runs on the list of driver calls made so far ([DM]): what a call
    answers is an arbitrary function of that list ([Drivers]), so a driver may
    fail, lie or change its mind.  The plan of a generation is whatever the
    resolver returns ([PlanResolution], on the plan types of [Plans], of which
    only the generation is looked at); that it is the plan of the generation
    asked for is the hypothesis [plans_faithful] of the one theorem that needs
    it.  The reservations and the bundle directory of the service are read
    through the same interface.

    The Linux target driver runs on its state and the list of calls made so far
    ([TM]): what Docker, the guests, the directories, the record files and the
    clock answer is an arbitrary function of that list ([TargetHost]).  The
    order in which Go ranges over a map is a parameter ([MapRange]) where a
    result may depend on it; so are the JSON texts that are hashed
    ([PlanEncoding], [json_reset_intent]) and the working directory
    ([HostPaths]).  A diagnostic that quotes an error keeps its own text only.

    ** What is proved

    - Journal ([StoreFacts], [Sync], [Guarantees]): tamper evidence,
      preservation by every append, and for every reachable state a verified
      chain, contiguous revisions, snapshots equal to the latest rows and a
      projection that is the replay of a prefix; synchronisation in windows is
      one pass over the journal.
    - History ([Advance], [Integrity], [Refs], [Guarantees]): the projection is
      referentially intact and only advances.
    - Exactly-once mutations across faults and restarts ([Guarantees]).
    - Admission ([Admission], [Quiesce], [Effects]): a terminating lease and a
      quiescing generation never admit work again; authorization is sound; a
      journal that does not replay blocks every command but acquisition, which
      alone writes before it synchronises.
    - Effects of the operations ([Effects], [Completion]): what
      the termination, renewal, quarantine, run, reset, finalisation and
      listing operations write.
    - Values ([States], [Models], [Ids], [Idempotency]): lifecycles terminate,
      model transitions are exact, identities and digests have one text form,
      derived keys are canonical and unambiguous; an input view manifest is a
      tree of files named by its content ([MaterialFacts]).
    - [Hazards]: two runs whose journal cannot be replayed.
    - Ledger ([LedgerRuns], [Subscriptions]): acknowledged records survive
      failing calls, kills and crashes; [Append] refines a plan computed from
      the whole log, so no sequence is applied twice and gaps are declared;
      reads are pages of that log; subscriptions lose nothing silently, and
      their readers come to rest without one left blocked on a queued delivery.  [LedgerHazards]: what those theorems leave out, on runs
      that lose records.
    - Bundles ([BundleFacts], [BundleSafety], [RunFinalization]): a bundle is
      built exactly from complete evidence; each run gets one bundle and keeps
      it, whatever fails, as far as answers report that they created it or no
      crash loses names; a finalization can be repeated; what the control plane
      is given names the bytes on disk.  [BundleHazards]: how two failed syncs
      and a crash break this for an answer that only found the bundle.
    - Live observation ([ReducerSafety]): every replay terminates in a sound
      snapshot; removal takes exactly a subtree; a projection shows exactly what
      is granted together with its ancestors and depends on nothing else.
    - Admission ([CapacityFacts], [CapacityOrder]): a lease is admitted exactly
      when the integers fit in every dimension, whatever overflows; no queued
      lease starves; pressure moves one stage at a time.
    - Policies: a compiled policy confines every admitted agent and never
      contradicts its own aggregate limits ([PolicySafety]); what it requires of
      a node is the strongest of its demands ([PolicyResolution]); it compiles
      exactly on the nodes that support them ([PolicyResolution]), which a
      fingerprint identifies ([Capability]); every capture it offers can be
      granted, within its limits ([PolicySafety]).
    - Published policies ([RegistrySafety]): what is published resolves for good,
      if its JSON text decodes to it again, and what resolves is genuine, whatever calls fail; an interrupted
      publication fails closed and can be repeated.
    - Startup ([StartupSafety]): whatever the drivers report, only resources of
      generations that are over are destroyed; a startup that succeeds leaves
      nothing unaccounted for, and what has to run does (given resolvers that
      return plans of the right generation); an agent whose recovery
      is open hides the targets of its session and blocks startup.
    - Linux targets ([TargetDriverSafety]): a reset never loses the target;
      reconciliation acts only on durable authority and owns only what it has
      identified; in a clean inventory every target container is confined; a
      destruction and a creation touch only their own container.
    - [Hazards], [Witnesses], [LedgerHazards], [ReducerSafety], [StartupSafety],
      [CapacityOrder], [PolicyScenario], [MaterialDemo], [BundleScenario],
      [RunFinalization], [TargetDriverSafety]: concrete runs evaluated end to end, on which
      the theorems with hypotheses are applied.

    ** Bounds and fuel

    [syncLocked] loops over windows of 1000 rows; its fuel is the number of rows
    of the journal, and [syncLocked_single_pass] shows that it is never
    exhausted.  [sha256] processes one block per step with the padded length as
    fuel.  [uintString] counts down its 20-byte buffer and the UTF-8 truncation
    counts down the length, as in the code.  Scanning a segment takes one unit of
    fuel per byte of the file and one more, since every frame consumes bytes
    ([scan_loop_framed]); the write loop one per byte of the frame, since a
    write of nothing ends it.  The three loops of the reducer (the walk to a new
    parent's root, the closure of a removal, the pruning of a projection) take
    one unit per subject and one more; [reducer_keeps_forest] and
    [projection_exact] show that it is enough on every reachable snapshot.  The
    walk from a path to its parents takes one unit per byte of the path
    ([parent_seen_spec]).  All other recursion is structural.

    ** What is trusted or left out

    SQLite executes the statements as written and its transactions are atomic
    and durable; columns no query reads back are omitted.  A JSON text is
    identified with the value it decodes to, nil and empty slices with each
    other, and the text is only hashed and measured ([payload_bytes],
    [request_bytes]).  A sync makes the content of its file durable; creating,
    renaming and removing a file is durable at once (the code syncs the
    directory after them, before it relies on them).  SHA-256 is executable and never assumed collision free:
    statements exhibit the collision instead.  Error messages and wrapped causes,
    time zones, logging and contexts other than deadlines are not represented.
    Go's iteration order over maps is replaced by key order, which decides only
    which of several errors is reported.

    Reading YAML into a document and the text of quantities are outside the
    policy compiler.

    Startup is modelled from the resolution of plans to the settled inventory.
    What comes before the settlement and after it resumes interrupted work by
    calling drivers, collectors and the commands modelled here: execs, first
    provisioning, open recoveries, quarantines and destructions, interrupted
    runs.  The settlement therefore takes as arguments the reports they leave
    and which targets they destroyed.

    Not modelled, because what they do is to call systems that are not in the
    repository (Docker, Cuttlefish, ADB, gRPC, the file system and processes of
    a host) and their guarantees rest on those: the other handlers of the
    orchestration controller and its run observers, the other drivers, RPC and the
    conversions to generated types, generated code, research collectors and the
    commands under [cmd/].  Of the Linux target driver, what belongs to a run
    (preparing, starting and stopping it, quarantine, transports and
    materialization) and the Docker command line are left out.

    ** This file

    Notations, tactics, hint databases and generic lemmas used by every
    component. *)
From stdpp Require Export base gmap strings pretty list sorting fin_maps.
From Stdlib Require Export ZArith NArith Lia.
#[global] Open Scope string_scope.
#[global] Open Scope list_scope.

(** ** Functional record update

    [Settable R] carries the eta expansion of a record; [set getter] is then
    found by abstracting the getter in that expansion.  The notation
    [r <| f := v |>] renders the Go assignment [r.f = v] on a value copy. *)
Class Settable (R : Type) := { record_eta : R -> R }.

Class Setter {R T : Type} (getter : R -> T) := set : (T -> T) -> R -> R.
Arguments set {R T} getter {_} _ _ /.

Ltac solve_setter :=
  lazymatch goal with
  | |- @Setter ?R ?T ?getter =>
      let inst := constr:(_ : Settable R) in
      let e := eval hnf in (@record_eta R inst) in
      lazymatch eval pattern getter in e with
      | ?upd _ =>
          let u := eval cbv beta in
            (fun f : T -> T => upd (fun r : R => f (getter r))) in
          exact u
      end
  end.
#[export] Hint Extern 1 (Setter _) => solve_setter : typeclass_instances.

Declare Scope record_scope.
Open Scope record_scope.
Notation "r <| f := v |>" := (set f (fun _ => v) r)
  (at level 1, f at next level, v at level 200, left associativity) : record_scope.

(** ** Results of fallible Go functions: a value or an error *)
Inductive res (E A : Type) : Type :=
| Ok (a : A)
| Err (e : E).
Arguments Ok {E A} a.
Arguments Err {E A} e.

#[export] Instance res_mret E : MRet (res E) := fun A a => Ok a.
#[export] Instance res_mbind E : MBind (res E) :=
  fun A B f m => match m with Ok a => f a | Err e => Err e end.
#[export] Instance res_fmap E : FMap (res E) :=
  fun A B f m => match m with Ok a => Ok (f a) | Err e => Err e end.

Definition is_ok {E A} (r : res E A) : bool :=
  match r with Ok _ => true | Err _ => false end.

(** [check b e]: the early return [if !b { return e }]. *)
Definition check {E} (b : bool) (e : E) : res E unit :=
  if b then Ok tt else Err e.

Definition from_option_err {E A} (e : E) (o : option A) : res E A :=
  match o with Some a => Ok a | None => Err e end.

Create Rewrite HintDb res.

Lemma res_bind_ok {E A B} (m : res E A) (f : A -> res E B) b :
  (m ≫= f) = Ok b <-> exists a, m = Ok a /\ f a = Ok b.
Proof. destruct m; cbn; naive_solver. Qed.

Lemma Ok_inj {E A} (a b : A) : @Ok E A a = Ok b -> a = b.
Proof. by intros [= ->]. Qed.

Lemma check_ok {E} (b : bool) (e : E) (u : unit) : check b e = Ok u <-> b = true.
Proof. destruct b, u; cbn; naive_solver. Qed.

(** Sequencing unit-valued checks: both must pass. *)
Lemma unit_bind_ok {E B} (m : res E unit) (k : res E B) b :
  (m ≫= fun _ => k) = Ok b <-> m = Ok tt /\ k = Ok b.
Proof. destruct m as [[]|]; cbn; naive_solver. Qed.

Lemma check_bind_ok {E B} (c : bool) (e : E) (k : res E B) b :
  (check c e ≫= fun _ => k) = Ok b <-> c = true /\ k = Ok b.
Proof. destruct c; cbn; naive_solver. Qed.

Lemma from_option_err_ok {E A} (e : E) (o : option A) a :
  from_option_err e o = Ok a <-> o = Some a.
Proof. destruct o; cbn; naive_solver. Qed.

Lemma is_ok_true {E A} (r : res E A) : is_ok r = true <-> exists a, r = Ok a.
Proof. destruct r; cbn; naive_solver. Qed.

#[export] Hint Rewrite @check_ok @from_option_err_ok @is_ok_true : res.

(** [inv_res H] splits a successful chain of checks into its facts. *)
Ltac inv_res H :=
  repeat first
    [ rewrite res_bind_ok in H
    | rewrite check_ok in H
    | rewrite from_option_err_ok in H
    | match type of H with
      | exists _, _ => let x := fresh "x" in destruct H as [x H]
      | _ /\ _ => let H1 := fresh H in destruct H as [H1 H]; inv_res H1
      | Ok _ = Ok _ => apply Ok_inj in H; try subst
      | Some _ = Some _ => apply Some_inj in H; try subst
      | Err _ = Ok _ => discriminate H
      end ].

(** [res_each f i l]: the loop [for index, value := range l] with an early
    return, indices counted from [i]. *)
Fixpoint res_each {E A} (f : nat -> A -> res E unit) (i : nat) (l : list A) : res E unit :=
  match l with
  | [] => Ok tt
  | x :: r => _ ← f i x; res_each f (S i) r
  end.

(** The same loop collecting one result per element. *)
Fixpoint res_map {E A B} (f : nat -> A -> res E B) (i : nat) (l : list A) : res E (list B) :=
  match l with
  | [] => Ok []
  | x :: r => y ← f i x; ys ← res_map f (S i) r; Ok (y :: ys)
  end.

Lemma res_each_ok {E A} (f : nat -> A -> res E unit) i l :
  res_each f i l = Ok tt <-> forall j x, l !! j = Some x -> f (i + j)%nat x = Ok tt.
Proof.
  revert i; induction l as [|x r IH]; intros i; cbn [res_each]; [naive_solver|].
  rewrite res_bind_ok. setoid_rewrite IH. split.
  - intros ([] & H & Hr) [|j] y; cbn.
    + intros [= <-]. by rewrite Nat.add_0_r.
    + intros Hj. rewrite <-(Hr j y Hj). f_equal. lia.
  - intros H. exists tt. split.
    + rewrite <-(H 0%nat x eq_refl). f_equal. lia.
    + intros j y Hj. rewrite <-(H (S j) y Hj). f_equal. lia.
Qed.

Lemma res_map_ok {E A B} (f : nat -> A -> res E B) i l l' :
  res_map f i l = Ok l' ->
  length l' = length l /\ forall j x, l !! j = Some x -> exists y, l' !! j = Some y /\ f (i + j)%nat x = Ok y.
Proof.
  revert i l'; induction l as [|x r IH]; intros i l' H; cbn [res_map] in H.
  - by inv_res H.
  - inv_res H. destruct (IH _ _ H1) as [L F]. split; [cbn; lia|]. intros [|j] z; cbn.
    + intros [= <-]. exists x0. by rewrite Nat.add_0_r.
    + intros Hj. destruct (F _ _ Hj) as (y & ? & Hy). exists y. split; [done|].
      rewrite <-Hy. f_equal. lia.
Qed.

(** ** Machine integers *)
Definition two64 : N := 18446744073709551616.
Definition max_uint64 : N := 18446744073709551615.
Definition u64 (n : N) : N := (n mod two64)%N.

Lemma u64_small n : (n < two64)%N -> u64 n = n.
Proof. apply N.mod_small. Qed.

(** ** Instants

    [time.Time] is the number of nanoseconds since the zero instant
    (January 1, year 1), so [IsZero] is comparison with 0.  Locations are not
    represented: the code normalises every instant it stores with UTC(). *)
Abbreviation time := Z.
Abbreviation duration := Z.
Definition time_IsZero (t : time) : bool := (t =? 0)%Z.
Definition time_Before (a b : time) : bool := (a <? b)%Z.
Definition time_After (a b : time) : bool := (b <? a)%Z.
Definition time_Equal (a b : time) : bool := (a =? b)%Z.
Definition time_Add (a : time) (d : duration) : time := (a + d)%Z.
Definition unix_epoch : time := 62135596800000000000%Z.
Definition time_UnixMilli (t : time) : Z := ((t - unix_epoch) / 1000000)%Z.
Definition time_UnixNano (t : time) : Z := (t - unix_epoch)%Z.

(** [fmt.Sprintf("%s[%d]", field, i)] *)
Definition indexed (field : string) (i : nat) : string :=
  field +:+ "[" +:+ pretty (N.of_nat i) +:+ "]".

(** Boolean connectives and comparisons to propositions. *)
Create Rewrite HintDb bools.
#[export] Hint Rewrite andb_true_iff orb_true_iff negb_true_iff
  andb_false_iff orb_false_iff negb_false_iff
  bool_decide_eq_true bool_decide_eq_false
  Z.ltb_lt Z.ltb_ge Z.leb_le Z.leb_gt Z.eqb_eq Z.eqb_neq
  N.ltb_lt N.ltb_ge N.leb_le N.leb_gt N.eqb_eq N.eqb_neq : bools.

Ltac unfold_time :=
  unfold time_IsZero, time_Before, time_After, time_Equal, time_Add in *.

(** [to_prop] rewrites the boolean tests of the code into propositions. *)
Ltac to_prop := unfold_time; autorewrite with bools in *.

(** Case analysis on the next [match] of the goal, remembering the equation. *)
Ltac case_goal :=
  match goal with
  | |- context [match ?x with _ => _ end] => let E := fresh "E" in destruct x eqn:E
  end.
