(* ===== verification/Errors.v ===== *)
(** * Errors

    [internal/domain/errors.go] and the sentinel errors of the store and of
    the application core.  An error keeps its class, its code, the operation
    and the field it names; the human-readable message, the detail map and the
    wrapped cause are diagnostics and are not represented. *)
From S2P Require Import Prelude.
Inductive ErrorCode :=
| CodeInvalidArgument | CodeInvalidID | CodeInvalidState | CodeInvalidTransition
| CodeFailedPrecondition | CodeNotFound | CodeAlreadyExists | CodeConflict
| CodeStaleRevision | CodeUnauthorized | CodeForbidden | CodeDeadlineExceeded
| CodeResourceExhausted | CodeCapabilityUnavailable | CodeIntegrityViolation
| CodeUnavailable | CodeInternal.

#[export] Instance ErrorCode_eq_dec : EqDecision ErrorCode.
Proof. solve_decision. Defined.

(** [DomainError] is [*domain.Error]; the other constructors are the sentinel
    values compared with [errors.Is], and [ErrText] a plain [fmt.Errorf]. *)
Inductive err :=
| DomainError (code : ErrorCode) (op field : string)
| ErrNotFound
| ErrScope
| ErrIdempotencyConflict
| ErrRevisionConflict
| ErrIntegrity
| ErrPolicyConflict
| ErrObjectConflict
| ErrStoreNotFound
| ErrFault (point : string)
| ErrText (text : string).

#[export] Instance err_eq_dec : EqDecision err.
Proof. solve_decision. Defined.

Abbreviation result := (res err).

Definition NewError (code : ErrorCode) (op field : string) : err := DomainError code op field.

Definition ErrorCodeOf (e : err) : ErrorCode :=
  match e with DomainError c _ _ => c | _ => CodeInternal end.

(** [err] is [None] for Go's [nil]. *)
Definition IsCode (e : option err) (code : ErrorCode) : bool :=
  match e with None => false | Some e => bool_decide (ErrorCodeOf e = code) end.

(** [internal/application/errors.go] *)
Definition invalidArgument (op field : string) : err := NewError CodeInvalidArgument op field.
Definition failedPrecondition (op field : string) : err := NewError CodeFailedPrecondition op field.
Definition resourceExhausted (op field : string) : err := NewError CodeResourceExhausted op field.
Definition integrityViolation (op field : string) : err := NewError CodeIntegrityViolation op field.
