(* ===== verification/Sha256.v ===== *)
(** * SHA-256

    Go's [crypto/sha256], as FIPS 180-4 defines it, on byte lists.  The
    development uses it through [sha256] and [sha256_length] only. *)
From S2P Require Import Prelude.
Local Open Scope N_scope.

Definition w32 (n : N) : N := N.land n 4294967295.
Definition add32 (a b : N) : N := w32 (a + b).
Definition not32 (a : N) : N := N.lxor a 4294967295.
Definition rotr (k a : N) : N := N.lor (N.shiftr a k) (w32 (N.shiftl a (32 - k))).

Definition Ch (x y z : N) : N := N.lxor (N.land x y) (N.land (not32 x) z).
Definition Maj (x y z : N) : N := N.lxor (N.lxor (N.land x y) (N.land x z)) (N.land y z).
Definition Sig0 (x : N) : N := N.lxor (N.lxor (rotr 2 x) (rotr 13 x)) (rotr 22 x).
Definition Sig1 (x : N) : N := N.lxor (N.lxor (rotr 6 x) (rotr 11 x)) (rotr 25 x).
Definition sig0 (x : N) : N := N.lxor (N.lxor (rotr 7 x) (rotr 18 x)) (N.shiftr x 3).
Definition sig1 (x : N) : N := N.lxor (N.lxor (rotr 17 x) (rotr 19 x)) (N.shiftr x 10).

(** The constants are derived as FIPS 180-4 (4.2.2, 5.3.3) defines them: the
    first 32 bits of the fractional parts of the cube roots of the first 64
    primes, and of the square roots of the first 8. *)
Definition primes (bound : nat) : list N :=
  List.filter (fun n => forallb (fun d => negb (n mod N.of_nat d =? 0)) (seq 2 (N.to_nat n - 2)))
              (map N.of_nat (seq 2 (bound - 1))).

(** The integer cube root of [n], one bit at a time from [2^bits] down. *)
Fixpoint cube_root (bits : nat) (r n : N) : N :=
  match bits with
  | O => r
  | S bits' =>
      let c := r + N.shiftl 1 (N.of_nat bits') in
      cube_root bits' (if c * c * c <=? n then c else r) n
  end.

Definition cube_root_fraction (p : N) : N := w32 (cube_root 36 0 (N.shiftl p 96)).
Definition square_root_fraction (p : N) : N := w32 (N.sqrt (N.shiftl p 64)).

Definition K : list N := Eval vm_compute in map cube_root_fraction (primes 311).

Record digest_state := mkDigest
  { da : N; db : N; dc : N; dd : N; de : N; df : N; dg : N; dh : N }.

Definition H0 : digest_state := Eval vm_compute in
  match map square_root_fraction (primes 19) with
  | [a; b; c; d; e; f; g; h] => mkDigest a b c d e f g h
  | _ => mkDigest 0 0 0 0 0 0 0 0
  end.

(** The tables have the standard's sizes, ends and starting words. *)
Example sha256_constants :
  length K = 64%nat /\ head K = Some 0x428a2f98 /\ last K = Some 0xc67178f2 /\
  da H0 = 0x6a09e667 /\ dh H0 = 0x5be0cd19.
Proof. repeat split; reflexivity. Qed.

(** The message schedule, newest word first. *)
Fixpoint schedule (n : nat) (w : list N) : list N :=
  match n with
  | O => w
  | S n' =>
      let next := add32 (add32 (sig1 (nth 1 w 0)) (nth 6 w 0))
                        (add32 (sig0 (nth 14 w 0)) (nth 15 w 0)) in
      schedule n' (next :: w)
  end.

Fixpoint words_of (n : nat) (l : list N) : list N :=
  match n, l with
  | S n', a :: b :: c :: d :: r =>
      (16777216 * a + 65536 * b + 256 * c + d) :: words_of n' r
  | _, _ => []
  end.

Definition round (s : digest_state) (kw : N * N) : digest_state :=
  let t1 := add32 (dh s) (add32 (Sig1 (de s)) (add32 (Ch (de s) (df s) (dg s)) (add32 (fst kw) (snd kw)))) in
  let t2 := add32 (Sig0 (da s)) (Maj (da s) (db s) (dc s)) in
  mkDigest (add32 t1 t2) (da s) (db s) (dc s) (add32 (dd s) t1) (de s) (df s) (dg s).

Definition compress (s : digest_state) (block : list N) : digest_state :=
  let w := rev (schedule 48 (rev (words_of 16 block))) in
  let r := fold_left round (combine K w) s in
  mkDigest (add32 (da s) (da r)) (add32 (db s) (db r)) (add32 (dc s) (dc r)) (add32 (dd s) (dd r))
           (add32 (de s) (de r)) (add32 (df s) (df r)) (add32 (dg s) (dg r)) (add32 (dh s) (dh r)).

Fixpoint be_bytes (n : nat) (x : N) : list N :=
  match n with
  | O => []
  | S n' => be_bytes n' (x / 256) ++ [x mod 256]
  end.

(** Padding to a multiple of 64 bytes with the bit length in the last 8. *)
Definition pad (msg : list N) : list N :=
  let len := N.of_nat (length msg) in
  let zeros := (119 - len mod 64) mod 64 in
  msg ++ [128] ++ repeat 0 (N.to_nat zeros) ++ be_bytes 8 (8 * len).

Fixpoint blocks (fuel : nat) (s : digest_state) (l : list N) : digest_state :=
  match fuel with
  | O => s
  | S fuel' =>
      match l with
      | [] => s
      | _ => blocks fuel' (compress s (firstn 64 l)) (skipn 64 l)
      end
  end.

Definition digest_bytes (s : digest_state) : list N :=
  concat (map (be_bytes 4) [da s; db s; dc s; dd s; de s; df s; dg s; dh s]).

(** [sha256.Sum256] *)
Definition sha256 (msg : list N) : list N :=
  let p := pad msg in digest_bytes (blocks (length p) H0 p).

Lemma be_bytes_length n x : length (be_bytes n x) = n.
Proof. revert x; induction n; intros x; cbn; [done|]. rewrite length_app, IHn; cbn; lia. Qed.

Lemma sha256_length msg : length (sha256 msg) = 32%nat.
Proof.
  unfold sha256, digest_bytes; cbn [map concat].
  rewrite !length_app, !be_bytes_length. reflexivity.
Qed.

Lemma be_bytes_bound n x : Forall (fun b => b < 256) (be_bytes n x).
Proof.
  revert x; induction n; intros x; cbn; [constructor|].
  apply Forall_app; split; [apply IHn|repeat constructor]. by apply N.mod_lt.
Qed.

Lemma sha256_bound msg : Forall (fun b => b < 256) (sha256 msg).
Proof.
  unfold sha256, digest_bytes; cbn [map concat].
  rewrite !Forall_app. repeat split; auto using be_bytes_bound.
Qed.

Lemma be_bytes_inj n x y :
  x < 256 ^ N.of_nat n -> y < 256 ^ N.of_nat n -> be_bytes n x = be_bytes n y -> x = y.
Proof.
  revert x y; induction n; intros x y Hx Hy E; cbn [be_bytes] in E.
  - cbn in Hx, Hy. lia.
  - apply app_inj_2 in E as [E1 E2]; [|done].
    rewrite Nat2N.inj_succ, N.pow_succ_r' in Hx, Hy.
    injection E2 as E2. apply IHn in E1; try (apply N.Div0.div_lt_upper_bound; lia).
    rewrite (N.div_mod x 256), (N.div_mod y 256) by lia. congruence.
Qed.

(** The FIPS vectors for the empty message, "abc" and a two-block message. *)
Example sha256_abc :
  firstn 8 (sha256 [97; 98; 99]) = [0xba; 0x78; 0x16; 0xbf; 0x8f; 0x01; 0xcf; 0xea].
Proof. vm_compute. reflexivity. Qed.
Example sha256_empty :
  firstn 8 (sha256 []) = [0xe3; 0xb0; 0xc4; 0x42; 0x98; 0xfc; 0x1c; 0x14].
Proof. vm_compute. reflexivity. Qed.
Example sha256_two_blocks :
  firstn 4 (sha256 (repeat 97 64)) = [0xff; 0xe0; 0x54; 0xfe].
Proof. vm_compute. reflexivity. Qed.

Global Opaque sha256.

(** Two messages that SHA-256 does not separate. *)
Definition sha256_collision (m1 m2 : list N) : Prop := m1 <> m2 /\ sha256 m1 = sha256 m2.
