(* ===== verification/GoStrings.v ===== *)
(** * Go strings

    The parts of Go's [strings], [unicode/utf8], [encoding/hex] and [path]
    packages that the modelled code calls, on byte strings.  A Go [string] is
    a Rocq [string]: a sequence of 8-bit characters. *)
From Stdlib Require Import Ascii String.
From S2P Require Import Prelude.
Definition byte_of (a : ascii) : N := N_of_ascii a.
Definition slen (s : string) : Z := Z.of_nat (String.length s).

Definition bytes_of (s : string) : list N := byte_of <$> list_ascii_of_string s.
Definition string_of (l : list N) : string := string_of_list_ascii (ascii_of_N <$> l).

Definition srev (s : string) : string :=
  string_of_list_ascii (rev (list_ascii_of_string s)).

(** [strings.HasPrefix], [strings.TrimPrefix] *)
Definition HasPrefix (s prefix : string) : bool := String.prefix prefix s.

Fixpoint string_drop (n : nat) (s : string) : string :=
  match n, s with
  | S n', String _ s' => string_drop n' s'
  | _, _ => s
  end.
Fixpoint string_take (n : nat) (s : string) : string :=
  match n, s with
  | S n', String a s' => String a (string_take n' s')
  | _, _ => ""
  end.

Definition TrimPrefix (s prefix : string) : string :=
  if HasPrefix s prefix then string_drop (String.length prefix) s else s.

Definition HasSuffix (s suffix : string) : bool := HasPrefix (srev s) (srev suffix).

Definition TrimSuffix (s suffix : string) : string :=
  if HasSuffix s suffix then string_take (String.length s - String.length suffix) s else s.

(** [fmt.Sprintf("%0kd", n)] for [n < 10^k] *)
Fixpoint decimal_digits (k : nat) (n : N) : string :=
  match k with
  | O => ""
  | S k' => decimal_digits k' (n / 10)%N +:+ String (ascii_of_N (48 + n mod 10)%N) ""
  end.

(** [strings.IndexByte(s, c) >= 0], [strings.ContainsRune] for an ASCII rune *)
Fixpoint ContainsByte (s : string) (c : ascii) : bool :=
  match s with
  | "" => false
  | String a s' => if (a =? c)%char then true else ContainsByte s' c
  end.

Definition chr (n : N) : ascii := ascii_of_N n.
Definition NUL : ascii := chr 0.
Definition slash : ascii := chr 47.
Definition backslash : ascii := chr 92.
Definition dash : ascii := chr 45.

(** ** [strings.TrimSpace]

    Trims the UTF-8 encodings of the runes [unicode.IsSpace] accepts:
    \t \n \v \f \r space, U+0085, U+00A0, U+1680, U+2000..U+200A, U+2028,
    U+2029, U+202F, U+205F and U+3000.  Each encoding is self-delimiting, so
    matching it at either end is what decoding the first or last rune does. *)
Definition is_space1 (a : N) : bool := ((9 <=? a) && (a <=? 13) || (a =? 32))%N.
Definition is_space2 (a b : N) : bool := ((a =? 194) && ((b =? 133) || (b =? 160)))%N.
Definition is_space3 (a b c : N) : bool :=
  ((a =? 225) && (b =? 154) && (c =? 128)
   || (a =? 226) && (b =? 128) &&
        ((128 <=? c) && (c <=? 138) || (c =? 168) || (c =? 169) || (c =? 175))
   || (a =? 226) && (b =? 129) && (c =? 159)
   || (a =? 227) && (b =? 128) && (c =? 128))%N.

Fixpoint trim_left (s : string) : string :=
  match s with
  | "" => ""
  | String a s1 =>
      if is_space1 (byte_of a) then trim_left s1 else
      match s1 with
      | "" => s
      | String b s2 =>
          if is_space2 (byte_of a) (byte_of b) then trim_left s2 else
          match s2 with
          | "" => s
          | String c s3 =>
              if is_space3 (byte_of a) (byte_of b) (byte_of c)
              then trim_left s3 else s
          end
      end
  end.

(** The same on the reversed string: the last byte comes first. *)
Fixpoint trim_right_rev (s : string) : string :=
  match s with
  | "" => ""
  | String c s1 =>
      if is_space1 (byte_of c) then trim_right_rev s1 else
      match s1 with
      | "" => s
      | String b s2 =>
          if is_space2 (byte_of b) (byte_of c) then trim_right_rev s2 else
          match s2 with
          | "" => s
          | String a s3 =>
              if is_space3 (byte_of a) (byte_of b) (byte_of c)
              then trim_right_rev s3 else s
          end
      end
  end.

Definition trim_right (s : string) : string := srev (trim_right_rev (srev s)).
Definition TrimSpace (s : string) : string := trim_right (trim_left s).

(** [strings.TrimSpace(s) == ""] *)
Definition blank (s : string) : bool := bool_decide (TrimSpace s = "").

(** ** [utf8.ValidString] *)
Definition in_range (lo hi b : N) : bool := ((lo <=? b) && (b <=? hi))%N.
Definition is_cont (b : N) : bool := in_range 128 191 b.

Definition second_ok (a b : N) : bool :=
  if (a =? 224)%N then in_range 160 191 b
  else if (a =? 237)%N then in_range 128 159 b
  else if (a =? 240)%N then in_range 144 191 b
  else if (a =? 244)%N then in_range 128 143 b
  else is_cont b.

Fixpoint ValidString (s : string) : bool :=
  match s with
  | "" => true
  | String a s1 =>
      let x := byte_of a in
      if (x <? 128)%N then ValidString s1 else
      match s1 with
      | "" => false
      | String b s2 =>
          if in_range 194 223 x then is_cont (byte_of b) && ValidString s2 else
          match s2 with
          | "" => false
          | String c s3 =>
              if in_range 224 239 x
              then second_ok x (byte_of b) && is_cont (byte_of c) && ValidString s3 else
              match s3 with
              | "" => false
              | String d s4 =>
                  in_range 240 244 x && second_ok x (byte_of b) && is_cont (byte_of c)
                  && is_cont (byte_of d) && ValidString s4
              end
          end
      end
  end.

(** ** [encoding/hex] and lower-casing *)
Definition hex_digit (n : N) : ascii := if (n <? 10)%N then chr (48 + n) else chr (87 + n).

Fixpoint hex_encode (l : list N) : string :=
  match l with
  | [] => ""
  | b :: l' => String (hex_digit (b / 16)) (String (hex_digit (b mod 16)) (hex_encode l'))
  end.

(** [hex.DecodeString] accepts both letter cases. *)
Definition unhex (a : ascii) : option N :=
  let x := byte_of a in
  if in_range 48 57 x then Some (x - 48)%N
  else if in_range 97 102 x then Some (x - 87)%N
  else if in_range 65 70 x then Some (x - 55)%N
  else None.

Fixpoint hex_decode (s : string) : option (list N) :=
  match s with
  | "" => Some []
  | String a (String b s') =>
      x ← unhex a; y ← unhex b; l ← hex_decode s'; Some ((16 * x + y)%N :: l)
  | String _ "" => None
  end.

(** [strings.ToLower] on the ASCII letters; a string with other bytes is
    rejected by [hex_decode] on both sides of every comparison made here. *)
Definition to_lower_byte (a : ascii) : ascii :=
  if in_range 65 90 (byte_of a) then chr (byte_of a + 32) else a.
Fixpoint ToLower (s : string) : string :=
  match s with "" => "" | String a s' => String (to_lower_byte a) (ToLower s') end.

(** [strings.ReplaceAll(s, "-", "")] *)
Fixpoint RemoveByte (c : ascii) (s : string) : string :=
  match s with
  | "" => ""
  | String a s' => if (a =? c)%char then RemoveByte c s' else String a (RemoveByte c s')
  end.

(** ** [path.Clean] on slash-separated elements *)
Fixpoint split_on (c : ascii) (s : string) : list string :=
  match s with
  | "" => [""]
  | String a s' =>
      let rest := split_on c s' in
      if (a =? c)%char then "" :: rest else
      match rest with
      | [] => [String a ""]
      | e :: r => String a e :: r
      end
  end.

Fixpoint join (sep : string) (l : list string) : string :=
  match l with
  | [] => ""
  | [x] => x
  | x :: r => x +:+ sep +:+ join sep r
  end.

(** [out] holds the kept elements, last first. *)
Fixpoint clean_elements (rooted : bool) (out : list string) (l : list string) : list string :=
  match l with
  | [] => rev out
  | e :: r =>
      if bool_decide (e = "") || bool_decide (e = ".") then clean_elements rooted out r
      else if bool_decide (e = "..") then
        match out with
        | top :: out' =>
            if bool_decide (top = "..") then clean_elements rooted (".." :: out) r
            else clean_elements rooted out' r
        | [] => if rooted then clean_elements rooted [] r
                else clean_elements rooted [".."] r
        end
      else clean_elements rooted (e :: out) r
  end.

Definition path_Clean (p : string) : string :=
  if bool_decide (p = "") then "." else
  let rooted := HasPrefix p "/" in
  let body := join "/" (clean_elements rooted [] (split_on slash p)) in
  if rooted then "/" +:+ body
  else if bool_decide (body = "") then "." else body.

(** ** [sort.Strings]: byte-wise lexicographic order *)
Definition string_le (a b : string) : Prop := String.leb a b = true.
#[export] Instance string_le_dec : RelDecision string_le.
Proof. intros a b. unfold string_le. apply _. Defined.
Definition sort_Strings (l : list string) : list string := merge_sort string_le l.

(** [sort.Slice]: it permutes, and sorts when [less] is the strict part of a
    total preorder; the order of equivalent elements is not specified. *)
Class SliceSort := {
  sort_Slice : forall {A}, (A -> A -> bool) -> list A -> list A;
  sort_Slice_permutes : forall {A} (less : A -> A -> bool) l, sort_Slice less l ≡ₚ l;
  sort_Slice_sorts : forall {A} (less : A -> A -> bool) l,
    (forall a b, less b a = false \/ less a b = false) ->
    (forall a b c, less b a = false -> less c b = false -> less c a = false) ->
    StronglySorted (fun a b => less b a = false) (sort_Slice less l) }.
Definition string_ltb (a b : string) : bool := negb (String.leb b a).

(** ** Facts about the string operations *)
#[local] Arguments String.append : simpl nomatch.

Lemma append_nil_r s : s +:+ "" = s.
Proof. induction s as [|a s IH]; cbn; congruence. Qed.

Lemma append_assoc a b c : (a +:+ b) +:+ c = a +:+ b +:+ c.
Proof. induction a as [|x a IH]; cbn; congruence. Qed.

Lemma append_length a b : String.length (a +:+ b) = (String.length a + String.length b)%nat.
Proof. induction a as [|x a IH]; cbn; lia. Qed.

Lemma append_inv_head a b c : a +:+ b = a +:+ c -> b = c.
Proof. induction a as [|x a IH]; cbn; intros H; [done|]. injection H. auto. Qed.

Lemma append_inj a b c d :
  String.length a = String.length c -> a +:+ b = c +:+ d -> a = c /\ b = d.
Proof.
  revert c; induction a as [|x a IH]; intros [|y c] Hl H; cbn in *; try lia; [done|].
  injection H as -> H. injection Hl as Hl. destruct (IH _ Hl H); subst. done.
Qed.

Lemma HasPrefix_append p s : HasPrefix (p +:+ s) p = true.
Proof.
  unfold HasPrefix. induction p as [|a p IH]; cbn [String.prefix String.append]; [by destruct s|].
  by destruct (ascii_dec a a).
Qed.

Lemma string_drop_append p s : string_drop (String.length p) (p +:+ s) = s.
Proof. by induction p as [|a p IH]. Qed.

Lemma string_take_append p s : string_take (String.length p) (p +:+ s) = p.
Proof. induction p as [|a p IH]; cbn; [done|]. by rewrite IH. Qed.

Lemma string_take_drop n s : string_take n s +:+ string_drop n s = s.
Proof. revert s; induction n; intros [|a s]; cbn; try done. by rewrite IHn. Qed.

Lemma string_take_length n s : String.length (string_take n s) = Nat.min n (String.length s).
Proof. revert s; induction n; intros [|a s]; cbn; try lia. specialize (IHn s). lia. Qed.

Lemma TrimPrefix_append p s : TrimPrefix (p +:+ s) p = s.
Proof. unfold TrimPrefix. by rewrite HasPrefix_append, string_drop_append. Qed.

Lemma HasPrefix_true s p : HasPrefix s p = true -> exists r, s = p +:+ r.
Proof.
  unfold HasPrefix. revert s; induction p as [|a p IH]; intros s H; [by exists s|].
  destruct s as [|b s]; cbn [String.prefix] in H; [done|]. destruct (ascii_dec a b); [|done].
  subst. destruct (IH _ H) as [r ->]. by exists r.
Qed.

Lemma ContainsByte_append a b c : ContainsByte (a +:+ b) c = ContainsByte a c || ContainsByte b c.
Proof. induction a as [|x a IH]; cbn; [done|]. by destruct (x =? c)%char. Qed.

(** The sixteen hexadecimal digits. *)
Lemma hex_digit_cases (P : N -> Prop) :
  P 0%N -> P 1%N -> P 2%N -> P 3%N -> P 4%N -> P 5%N -> P 6%N -> P 7%N ->
  P 8%N -> P 9%N -> P 10%N -> P 11%N -> P 12%N -> P 13%N -> P 14%N -> P 15%N ->
  forall n, (n < 16)%N -> P n.
Proof.
  intros. destruct n as [|p]; [done|].
  do 4 (destruct p as [p|p|]; try done); exfalso; lia.
Qed.

Ltac hex_cases n H := pattern n; revert n H; apply hex_digit_cases; vm_compute; reflexivity.

Lemma unhex_hex_digit n : (n < 16)%N -> unhex (hex_digit n) = Some n.
Proof. intros H. hex_cases n H. Qed.
Lemma hex_digit_lower n : (n < 16)%N -> to_lower_byte (hex_digit n) = hex_digit n.
Proof. intros H. hex_cases n H. Qed.
Lemma hex_digit_dash n : (n < 16)%N -> (hex_digit n =? dash)%char = false.
Proof. intros H. hex_cases n H. Qed.
Lemma hex_digit_slash n : (n < 16)%N -> (hex_digit n =? slash)%char = false.
Proof. intros H. hex_cases n H. Qed.
Lemma hex_digit_ascii n : (n < 16)%N -> (byte_of (hex_digit n) <? 128)%N = true.
Proof. intros H. hex_cases n H. Qed.
Lemma hex_digit_space n : (n < 16)%N -> is_space1 (byte_of (hex_digit n)) = false.
Proof. intros H. hex_cases n H. Qed.

Abbreviation is_bytes l := (Forall (fun b => (b < 256)%N) l).

Lemma byte_nibbles b : (b < 256)%N -> (b / 16 < 16)%N /\ (b mod 16 < 16)%N.
Proof. intros. split; [apply N.Div0.div_lt_upper_bound; lia|by apply N.mod_lt]. Qed.

Lemma hex_encode_length l : String.length (hex_encode l) = (2 * List.length l)%nat.
Proof. induction l as [|b l IH]; cbn [hex_encode String.length List.length]; lia. Qed.

Lemma hex_encode_app l1 l2 : hex_encode (l1 ++ l2) = hex_encode l1 +:+ hex_encode l2.
Proof. induction l1 as [|b l IH]; cbn; [done|]. by rewrite IH. Qed.

Lemma hex_decode_encode l : is_bytes l -> hex_decode (hex_encode l) = Some l.
Proof.
  induction 1 as [|b l Hb _ IH]; cbn [hex_encode hex_decode]; [done|].
  destruct (byte_nibbles b Hb) as [H1 H2].
  rewrite (unhex_hex_digit _ H1), (unhex_hex_digit _ H2), IH. cbn.
  rewrite <-N.div_mod by lia. done.
Qed.

Lemma hex_encode_inj l1 l2 : is_bytes l1 -> is_bytes l2 -> hex_encode l1 = hex_encode l2 -> l1 = l2.
Proof.
  intros H1 H2 E. apply (f_equal hex_decode) in E.
  rewrite !hex_decode_encode in E by done. congruence.
Qed.

Lemma hex_encode_lower l : is_bytes l -> ToLower (hex_encode l) = hex_encode l.
Proof.
  induction 1 as [|b l Hb _ IH]; cbn [hex_encode ToLower]; [done|].
  destruct (byte_nibbles b Hb). by rewrite !hex_digit_lower, IH.
Qed.

Lemma hex_encode_dash l : is_bytes l -> RemoveByte dash (hex_encode l) = hex_encode l.
Proof.
  induction 1 as [|b l Hb _ IH]; cbn [hex_encode RemoveByte]; [done|].
  destruct (byte_nibbles b Hb). by rewrite !hex_digit_dash, IH.
Qed.

Lemma RemoveByte_append c a b : RemoveByte c (a +:+ b) = RemoveByte c a +:+ RemoveByte c b.
Proof. induction a as [|x a IH]; cbn; [done|]. destruct (x =? c)%char; cbn; by rewrite IH. Qed.

Lemma string_get_append a b n :
  String.get (String.length a + n) (a +:+ b) = String.get n b.
Proof. induction a as [|x a IH]; cbn; [done|]. apply IH. Qed.

Lemma unhex_bound a x : unhex a = Some x -> (x < 16)%N.
Proof.
  unfold unhex, in_range. intros H.
  repeat case_match; simplify_eq; to_prop; lia.
Qed.

Lemma hex_decode_bytes s l : hex_decode s = Some l -> is_bytes l.
Proof.
  revert l. induction s as [s IH] using (induction_ltof1 _ String.length); unfold ltof in IH.
  destruct s as [|a [|b s]]; cbn [hex_decode]; intros l H; simplify_eq; [constructor|].
  destruct (unhex a) as [x|] eqn:Ea; cbn in H; [|done].
  destruct (unhex b) as [y|] eqn:Eb; cbn in H; [|done].
  destruct (hex_decode s) as [l'|] eqn:Es; cbn in H; simplify_eq.
  apply unhex_bound in Ea, Eb. constructor; [lia|]. apply (IH s); [cbn; lia|done].
Qed.
