(* ===== verification/Utf8Facts.v ===== *)
(** * Facts on UTF-8 validity and trimming

    A valid string is a sequence of encoded runes; [TrimSpace] leaves a string
    unchanged exactly when neither its first nor its last rune is a space, and
    concatenating valid strings does not change their outer runes.  Then the
    order of file names. *)
From Stdlib Require Import Ascii.
From S2P Require Import Prelude GoStrings.
#[local] Arguments String.append : simpl nomatch.

(** The four shapes of an encoded rune. *)
Inductive rune : string -> Prop :=
| rune1 a : (byte_of a <? 128)%N = true -> rune (String a "")
| rune2 a b : (byte_of a <? 128)%N = false -> in_range 194 223 (byte_of a) = true ->
    is_cont (byte_of b) = true -> rune (String a (String b ""))
| rune3 a b c : (byte_of a <? 128)%N = false -> in_range 194 223 (byte_of a) = false ->
    in_range 224 239 (byte_of a) = true -> second_ok (byte_of a) (byte_of b) = true ->
    is_cont (byte_of c) = true -> rune (String a (String b (String c "")))
| rune4 a b c d : (byte_of a <? 128)%N = false -> in_range 194 223 (byte_of a) = false ->
    in_range 224 239 (byte_of a) = false -> in_range 240 244 (byte_of a) = true ->
    second_ok (byte_of a) (byte_of b) = true -> is_cont (byte_of c) = true ->
    is_cont (byte_of d) = true -> rune (String a (String b (String c (String d "")))).

Lemma ValidString_rune r s : rune r -> ValidString (r +:+ s) = ValidString s.
Proof.
  destruct 1; cbn [String.append ValidString];
    repeat match goal with H : _ = true |- _ => rewrite H; clear H
                         | H : _ = false |- _ => rewrite H; clear H end; reflexivity.
Qed.

Lemma ValidString_peel s :
  ValidString s = true -> s = "" \/ exists r t, rune r /\ s = r +:+ t /\ ValidString t = true.
Proof.
  intros H. destruct s as [|a s]; [by left|]. right. cbn [ValidString] in H.
  destruct (byte_of a <? 128)%N eqn:E1; [exists (String a ""), s; by repeat constructor|].
  destruct s as [|b s]; [done|].
  destruct (in_range 194 223 (byte_of a)) eqn:E2.
  { apply andb_true_iff in H as [? ?]. exists (String a (String b "")), s. by repeat constructor. }
  destruct s as [|c s]; [done|].
  destruct (in_range 224 239 (byte_of a)) eqn:E3.
  { rewrite !andb_true_iff in H. destruct H as [[? ?] ?].
    exists (String a (String b (String c ""))), s. by repeat constructor. }
  destruct s as [|d s]; [done|]. rewrite !andb_true_iff in H. destruct H as [[[[? ?] ?] ?] ?].
  exists (String a (String b (String c (String d "")))), s. by repeat constructor.
Qed.

Lemma rune_length r : rune r -> (1 <= String.length r)%nat.
Proof. destruct 1; cbn; lia. Qed.

Lemma valid_ind (P : string -> Prop) :
  P "" ->
  (forall r s, rune r -> ValidString s = true -> P s -> P (r +:+ s)) ->
  forall s, ValidString s = true -> P s.
Proof.
  intros P0 PS s. induction s as [s IH] using (induction_ltof1 _ String.length).
  unfold ltof in IH. intros H.
  destruct (ValidString_peel s H) as [->|(r & t & Hr & -> & Ht)]; [done|].
  apply PS; [done..|]. apply IH; [|done]. rewrite append_length. pose proof (rune_length r Hr). lia.
Qed.

Lemma ValidString_append a b :
  ValidString a = true -> ValidString (a +:+ b) = ValidString b.
Proof.
  revert a. apply (valid_ind (fun a => ValidString (a +:+ b) = ValidString b)); [done|].
  intros r s Hr _ IH. by rewrite append_assoc, ValidString_rune.
Qed.

Lemma valid_last s : ValidString s = true -> s <> "" ->
  exists t r, rune r /\ s = t +:+ r.
Proof.
  revert s. apply (valid_ind (fun s => s <> "" -> exists t r, rune r /\ s = t +:+ r)); [done|].
  intros r s Hr Hs IH _. destruct (decide (s = "")) as [->|N].
  - exists "", r. by rewrite append_nil_r.
  - destruct (IH N) as (t & r' & Hr' & ->). exists (r +:+ t), r'. by rewrite append_assoc.
Qed.

(** Whether the first (or, on a reversed string, the last) rune is a space. *)
Definition lead (s : string) : bool :=
  match s with
  | "" => false
  | String a s1 =>
      is_space1 (byte_of a) ||
      match s1 with
      | "" => false
      | String b s2 =>
          is_space2 (byte_of a) (byte_of b) ||
          match s2 with "" => false | String c _ => is_space3 (byte_of a) (byte_of b) (byte_of c) end
      end
  end.
Definition trail (s : string) : bool :=
  match s with
  | "" => false
  | String c s1 =>
      is_space1 (byte_of c) ||
      match s1 with
      | "" => false
      | String b s2 =>
          is_space2 (byte_of b) (byte_of c) ||
          match s2 with "" => false | String a _ => is_space3 (byte_of a) (byte_of b) (byte_of c) end
      end
  end.

Lemma trim_left_cases s :
  (lead s = false /\ trim_left s = s) \/
  (lead s = true /\ (String.length (trim_left s) < String.length s)%nat).
Proof.
  induction s as [s IH] using (induction_ltof1 _ String.length). unfold ltof in IH.
  assert (L : forall t, (String.length t < String.length s)%nat ->
              (String.length (trim_left t) <= String.length t)%nat).
  { intros t Ht. destruct (IH t Ht) as [[_ ->]|[_ ?]]; lia. }
  destruct s as [|a [|b [|c s]]]; cbn [trim_left lead String.length orb] in *;
    repeat case_match; cbn [orb]; try (by left); right; (split; [done|]);
    try (match goal with |- (String.length (trim_left ?t) < _)%nat => specialize (L t) end);
    cbn [String.length] in *; lia.
Qed.

Lemma trim_right_cases s :
  (trail s = false /\ trim_right_rev s = s) \/
  (trail s = true /\ (String.length (trim_right_rev s) < String.length s)%nat).
Proof.
  induction s as [s IH] using (induction_ltof1 _ String.length). unfold ltof in IH.
  assert (L : forall t, (String.length t < String.length s)%nat ->
              (String.length (trim_right_rev t) <= String.length t)%nat).
  { intros t Ht. destruct (IH t Ht) as [[_ ->]|[_ ?]]; lia. }
  destruct s as [|a [|b [|c s]]]; cbn [trim_right_rev trail String.length orb] in *;
    repeat case_match; cbn [orb]; try (by left); right; (split; [done|]);
    try (match goal with |- (String.length (trim_right_rev ?t) < _)%nat => specialize (L t) end);
    cbn [String.length] in *; lia.
Qed.

(** ** Reversal *)
Lemma list_ascii_append a b :
  String.list_ascii_of_string (a +:+ b) = String.list_ascii_of_string a ++ String.list_ascii_of_string b.
Proof. induction a as [|x a IH]; cbn; [done|]. by rewrite IH. Qed.
Lemma string_of_list_ascii_app a b :
  String.string_of_list_ascii (a ++ b) = String.string_of_list_ascii a +:+ String.string_of_list_ascii b.
Proof. induction a as [|x a IH]; cbn; [done|]. by rewrite IH. Qed.
Lemma srev_append a b : srev (a +:+ b) = srev b +:+ srev a.
Proof. unfold srev. by rewrite list_ascii_append, rev_app_distr, string_of_list_ascii_app. Qed.
Lemma srev_involutive s : srev (srev s) = s.
Proof.
  unfold srev.
  by rewrite String.list_ascii_of_string_of_list_ascii, rev_involutive, String.string_of_list_ascii_of_string.
Qed.
Lemma string_of_list_ascii_length l : String.length (String.string_of_list_ascii l) = length l.
Proof. induction l as [|a l IH]; cbn; [done|]. by rewrite IH. Qed.
Lemma list_ascii_length s : length (String.list_ascii_of_string s) = String.length s.
Proof. induction s as [|a s IH]; cbn; [done|]. by rewrite IH. Qed.
Lemma srev_length s : String.length (srev s) = String.length s.
Proof. unfold srev. by rewrite string_of_list_ascii_length, length_rev, list_ascii_length. Qed.

Lemma TrimSpace_fixed s :
  TrimSpace s = s <-> lead s = false /\ trail (srev s) = false.
Proof.
  unfold TrimSpace, trim_right. split.
  - intros E. apply (f_equal String.length) in E. rewrite srev_length in E.
    destruct (trim_left_cases s) as [[L E1]|[_ L]].
    + split; [done|]. rewrite E1 in E.
      destruct (trim_right_cases (srev s)) as [[T _]|[_ T]]; [done|]. rewrite srev_length in T. lia.
    + destruct (trim_right_cases (srev (trim_left s))) as [[_ E2]|[_ T]].
      * rewrite E2, srev_length in E. lia.
      * rewrite srev_length in T. lia.
  - intros [L T]. destruct (trim_left_cases s) as [[_ ->]|[L' _]]; [|congruence].
    destruct (trim_right_cases (srev s)) as [[_ ->]|[T' _]]; [|congruence].
    apply srev_involutive.
Qed.

(** ** The outer runes of a concatenation *)
Lemma not_range lo hi b x : in_range lo hi b = true -> (x < lo \/ hi < x)%N -> (b =? x)%N = false.
Proof. unfold in_range. intros. to_prop. lia. Qed.
Lemma not_small b x : (b <? 128)%N = true -> (128 <= x)%N -> (b =? x)%N = false.
Proof. intros. to_prop. lia. Qed.

Ltac runes :=
  repeat match goal with
  | |- context [(byte_of ?a =? ?x)%N] =>
      first [ rewrite (not_small (byte_of a) x) by first [done | lia]
            | erewrite (not_range _ _ (byte_of a) x) by first [eassumption | lia] ]
  end; cbn [andb orb].

Lemma lead_rune r s : rune r -> lead (r +:+ s) = lead r.
Proof.
  destruct 1; cbn [String.append lead]; [..|done|done]; unfold is_space2, is_space3.
  - destruct s as [|b [|c s]]; runes; by rewrite ?orb_false_r.
  - destruct s as [|c s]; [done|]. runes. by rewrite ?orb_false_r.
Qed.

Lemma space3_small a b c : (c <? 128)%N = true -> is_space3 a b c = false.
Proof. unfold is_space3. intros. to_prop. repeat split; lia. Qed.

Lemma trail_rune r s : rune r -> trail (srev r +:+ s) = trail (srev r).
Proof.
  destruct 1; cbn [srev String.list_ascii_of_string rev app String.string_of_list_ascii String.append trail];
    [..|done|done].
  - unfold is_space2. destruct s as [|b [|c s]]; rewrite ?(space3_small _ _ _ H); runes;
      rewrite ?andb_false_r, ?orb_false_r; done.
  - destruct s as [|c s]; [done|]. unfold is_space3. runes.
    by rewrite ?andb_false_r, ?orb_false_r.
Qed.

Lemma lead_valid a s : ValidString a = true -> a <> "" -> lead (a +:+ s) = lead a.
Proof.
  intros V N. destruct (ValidString_peel a V) as [->|(r & t & Hr & -> & _)]; [done|].
  by rewrite append_assoc, !lead_rune.
Qed.

Lemma trail_valid a s : ValidString a = true -> a <> "" -> trail (srev (s +:+ a)) = trail (srev a).
Proof.
  intros V N. destruct (valid_last a V N) as (t & r & Hr & ->).
  by rewrite !srev_append, append_assoc, !trail_rune.
Qed.

(** ** Names *)
(** A string that starts with a plain character is not blank. *)
Definition plain_char (c : ascii) : bool := (byte_of c <? 128)%N && negb (is_space1 (byte_of c)).

Lemma plain_char_narrow c :
  plain_char c = true ->
  is_space1 (byte_of c) = false /\ (forall b, is_space2 (byte_of c) b = false) /\ (forall b d, is_space3 (byte_of c) b d = false).
Proof.
  unfold plain_char, is_space2, is_space3. rewrite andb_true_iff, N.ltb_lt, negb_true_iff. intros [P ->].
  destruct (N.eqb_spec (byte_of c) 194), (N.eqb_spec (byte_of c) 225), (N.eqb_spec (byte_of c) 226), (N.eqb_spec (byte_of c) 227);
    by try lia.
Qed.

Lemma trim_right_plain c n r :
  plain_char c = true -> (String.length r <= n)%nat -> trim_right_rev (r +:+ String c "") <> "".
Proof.
  intros (S1 & S2 & S3)%plain_char_narrow. revert r. induction n as [|n IH]; intros [|x r] L.
  - change (trim_right_rev (String c "") <> ""). cbn [trim_right_rev]. by rewrite S1.
  - cbn in L. lia.
  - change (trim_right_rev (String c "") <> ""). cbn [trim_right_rev]. by rewrite S1.
  - cbn in L. change (String x r +:+ String c "") with (String x (r +:+ String c "")). cbn [trim_right_rev].
    destruct (is_space1 (byte_of x)); [apply IH; lia|]. destruct r as [|y r].
    { change ("" +:+ String c "") with (String c ""). cbn. by rewrite S2. }
    cbn in L. change (String y r +:+ String c "") with (String y (r +:+ String c "")). cbv iota.
    destruct (is_space2 _ _); [apply IH; lia|]. destruct r as [|z r].
    { change ("" +:+ String c "") with (String c ""). cbn. by rewrite S3. }
    cbn in L. change (String z r +:+ String c "") with (String z (r +:+ String c "")). cbv iota.
    destruct (is_space3 _ _ _); [apply IH; lia|done].
Qed.

Lemma plain_not_blank c s : plain_char c = true -> blank (String c s) = false.
Proof.
  intros P. unfold blank, TrimSpace. apply bool_decide_eq_false_2.
  pose proof (plain_char_narrow _ P) as (S1 & S2 & S3).
  assert (trim_left (String c s) = String c s) as ->.
  { cbn [trim_left]. rewrite S1. destruct s as [|b s]; [done|]. rewrite S2. destruct s as [|d s]; [done|]. by rewrite S3. }
  unfold trim_right. intros E. apply (f_equal srev) in E. rewrite srev_involutive in E. revert E.
  change (String c s) with (String c "" +:+ s). rewrite srev_append. by apply (trim_right_plain c (String.length (srev s))).
Qed.

(** ** Bytes *)
Lemma bytes_of_length s : length (bytes_of s) = String.length s.
Proof. unfold bytes_of. by rewrite length_fmap, list_ascii_length. Qed.

Lemma bytes_of_inj a b : bytes_of a = bytes_of b -> a = b.
Proof.
  unfold bytes_of. intros E.
  assert (I : Inj eq eq byte_of).
  { intros x y Hxy. apply (f_equal ascii_of_N) in Hxy. unfold byte_of in Hxy.
    by rewrite !ascii_N_embedding in Hxy. }
  apply (inj (fmap byte_of)) in E. apply (f_equal String.string_of_list_ascii) in E.
  by rewrite !String.string_of_list_ascii_of_string in E.
Qed.

(** * Sorted strings

    Byte order on strings, what [sort.Strings] returns, suffixes, and the order
    of zero-padded decimal numbers. *)
(** ** Byte order on strings is a total order *)
#[export] Instance string_le_total : Total string_le.
Proof. intros a b. apply String.leb_total. Qed.
#[export] Instance string_le_antisymm : AntiSymm (=) string_le.
Proof. intros a b. apply String.leb_antisym. Qed.
Lemma string_le_cons c1 s1 c2 s2 : string_le (String c1 s1) (String c2 s2) <->
  (N_of_ascii c1 < N_of_ascii c2)%N \/ (c1 = c2 /\ string_le s1 s2).
Proof.
  unfold string_le, String.leb. cbn [String.compare]. unfold Ascii.compare.
  destruct (N.compare_spec (N_of_ascii c1) (N_of_ascii c2)) as [E|L|L].
  - assert (c1 = c2) as -> by (rewrite <-(ascii_N_embedding c1), E; apply ascii_N_embedding).
    split; [by right|]. intros [?|[_ ?]]; [lia|done].
  - split; [by left|done].
  - split; [done|]. intros [?|[-> _]]; lia.
Qed.
#[export] Instance string_le_trans : Transitive string_le.
Proof.
  intros a. induction a as [|c1 s1 IH]; intros [|c2 s2] [|c3 s3]; try done.
  rewrite !string_le_cons. intros [?|[-> ?]] [?|[-> ?]]; [left; lia|by left|by left|].
  right. split; [done|]. by eapply IH.
Qed.

Lemma sort_Strings_sorted l : Sorted string_le (sort_Strings l).
Proof. apply (Sorted_merge_sort string_le). Qed.
Lemma sort_Strings_Permutation l : sort_Strings l ≡ₚ l.
Proof. apply merge_sort_Permutation. Qed.
Lemma sorted_unique (l1 l2 : list string) :
  Sorted string_le l1 -> Sorted string_le l2 -> NoDup l1 -> NoDup l2 ->
  (forall x, x ∈ l1 <-> x ∈ l2) -> l1 = l2.
Proof.
  intros S1 S2 N1 N2 E. apply (Sorted_unique string_le); [done..|]. by apply NoDup_Permutation.
Qed.

(** ** Suffixes *)
Lemma HasSuffix_append a b : HasSuffix (a +:+ b) b = true.
Proof. unfold HasSuffix. rewrite srev_append. apply HasPrefix_append. Qed.

Lemma TrimSuffix_append a b : TrimSuffix (a +:+ b) b = a.
Proof.
  unfold TrimSuffix. rewrite HasSuffix_append, append_length.
  replace (String.length a + String.length b - String.length b)%nat with (String.length a) by lia.
  apply string_take_append.
Qed.

(** ** Decimal numbers of fixed width *)
Lemma decimal_digits_length k n : String.length (decimal_digits k n) = k.
Proof. revert n; induction k as [|k IH]; intros n; cbn; [done|]. rewrite append_length, IH. cbn. lia. Qed.

Lemma string_le_append a b c d :
  String.length a = String.length b -> a <> b -> string_le a b -> string_le (a +:+ c) (b +:+ d).
Proof.
  revert b; induction a as [|x a IH]; intros [|y b] L N; try done.
  change (String x a +:+ c) with (String x (a +:+ c)). change (String y b +:+ d) with (String y (b +:+ d)).
  rewrite !string_le_cons. intros [?|[-> ?]]; [by left|]. right. split; [done|].
  apply IH; [by injection L|congruence|done].
Qed.

Lemma string_le_same a c d : string_le c d -> string_le (a +:+ c) (a +:+ d).
Proof. intros H. induction a as [|x a IH]; [done|]. cbn. apply string_le_cons. by right. Qed.

Lemma digit_ascii n : (n < 10)%N -> N_of_ascii (ascii_of_N (48 + n)) = (48 + n)%N.
Proof. intros H. apply N_ascii_embedding. lia. Qed.

Lemma decimal_digits_inj k a b :
  (a < 10 ^ N.of_nat k)%N -> (b < 10 ^ N.of_nat k)%N -> decimal_digits k a = decimal_digits k b -> a = b.
Proof.
  revert a b; induction k as [|k IH]; intros a b Ha Hb; [cbn in *; lia|].
  rewrite Nat2N.inj_succ, N.pow_succ_r' in Ha, Hb. cbn [decimal_digits]. intros E.
  apply append_inj in E as [E1 E2]; [|by rewrite !decimal_digits_length].
  apply IH in E1; [|apply N.Div0.div_lt_upper_bound; lia..].
  injection E2 as E2. apply (f_equal N_of_ascii) in E2.
  pose proof (N.mod_lt a 10). pose proof (N.mod_lt b 10).
  rewrite !digit_ascii in E2 by lia.
  rewrite (N.div_mod a 10), (N.div_mod b 10) by lia. lia.
Qed.

Lemma decimal_digits_le k a b :
  (a < 10 ^ N.of_nat k)%N -> (b < 10 ^ N.of_nat k)%N -> (a <= b)%N ->
  string_le (decimal_digits k a) (decimal_digits k b).
Proof.
  revert a b; induction k as [|k IH]; intros a b Ha Hb L; [done|].
  rewrite Nat2N.inj_succ, N.pow_succ_r' in Ha, Hb. cbn [decimal_digits].
  destruct (N.eq_dec (a / 10) (b / 10)) as [E|E].
  - rewrite E. apply string_le_same, string_le_cons.
    pose proof (N.mod_lt a 10). pose proof (N.mod_lt b 10).
    pose proof (N.div_mod a 10). pose proof (N.div_mod b 10).
    rewrite !digit_ascii by lia.
    destruct (N.eq_dec (a mod 10) (b mod 10)) as [->|]; [by right|left; lia].
  - assert (D : (a / 10 <= b / 10)%N) by (by apply N.Div0.div_le_mono).
    assert (a / 10 < 10 ^ N.of_nat k)%N by (apply N.Div0.div_lt_upper_bound; lia).
    assert (b / 10 < 10 ^ N.of_nat k)%N by (apply N.Div0.div_lt_upper_bound; lia).
    apply string_le_append; [by rewrite !decimal_digits_length| |by apply IH].
    intros X. by apply E, (decimal_digits_inj k).
Qed.
