(* ===== verification/States.v ===== *)
(** * Lifecycle state machines

    [internal/domain/states.go]: the thirteen resource state machines, their
    declarative transition tables and [guardTransition], the only transition
    decision point.  A Go state is a string; the constructors are its
    constants and [..Unrecognized s] any other string. *)
From S2P Require Import Prelude Errors.
(** [transitionTable] is [map[S]map[S]struct{}], as an association list. *)
Definition transitionTable (S : Type) := list (S * list S).

Section Guard.
Context {S : Type} `{EqDecision S}.

Fixpoint table_get (table : transitionTable S) (from : S) : option (list S) :=
  match table with
  | [] => None
  | (k, row) :: rest => if decide (k = from) then Some row else table_get rest from
  end.

(** [table[from][to] = struct{}{}] after [table[from]] was created on demand *)
Fixpoint table_put (table : transitionTable S) (from to : S) : transitionTable S :=
  match table with
  | [] => [(from, [to])]
  | (k, row) :: rest =>
      if decide (k = from) then (k, row ++ [to]) :: rest
      else (k, row) :: table_put rest from to
  end.

Definition newTransitionTable (transitions : list (S * S)) : transitionTable S :=
  fold_left (fun table item => table_put table (fst item) (snd item)) transitions [].

(** The nested loops [for from { for to { table[from][to] = {} } }] of the
    failure-aware builders; a write to a missing row is a write to a nil map,
    which panics ([None]). *)
Definition put_existing (table : option (transitionTable S)) (edge : S * S)
  : option (transitionTable S) :=
  t ← table;
  match table_get t (fst edge) with
  | Some _ => Some (table_put t (fst edge) (snd edge))
  | None => None
  end.

Definition addFailureTransitions (table : transitionTable S) (froms tos : list S)
  : option (transitionTable S) :=
  fold_left put_existing (flat_map (fun from => map (pair from) tos) froms) (Some table).

Definition table_allows (table : transitionTable S) (from to : S) : bool :=
  match table_get table from with
  | Some row => bool_decide (to ∈ row)
  | None => false
  end.

Definition guardTransition (resource : string) (valid : S -> bool)
    (table : transitionTable S) (from to : S) : result unit :=
  _ ← check (valid from) (NewError CodeInvalidState (resource +:+ ".transition") "from");
  _ ← check (valid to) (NewError CodeInvalidState (resource +:+ ".transition") "to");
  check (table_allows table from to)
    (NewError CodeInvalidTransition (resource +:+ ".transition") "state").

Lemma guardTransition_ok resource valid table from to :
  guardTransition resource valid table from to = Ok tt <->
  valid from = true /\ valid to = true /\ table_allows table from to = true.
Proof.
  unfold guardTransition. rewrite !res_bind_ok. setoid_rewrite res_bind_ok.
  setoid_rewrite check_ok. naive_solver.
Qed.
End Guard.

(** ** [ResearchSessionState] *)
Inductive ResearchSessionState :=
| ResearchSessionRequested | ResearchSessionAdmitted | ResearchSessionLeased | ResearchSessionReleasing
| ResearchSessionReleased | ResearchSessionQuarantined | ResearchSessionLost
| ResearchSessionUnrecognized (s : string).
#[export] Instance ResearchSessionState_eq_dec : EqDecision ResearchSessionState.
Proof. solve_decision. Defined.
Definition ResearchSessionState_String (s : ResearchSessionState) : string :=
  match s with
  | ResearchSessionRequested => "requested"
  | ResearchSessionAdmitted => "admitted"
  | ResearchSessionLeased => "leased"
  | ResearchSessionReleasing => "releasing"
  | ResearchSessionReleased => "released"
  | ResearchSessionQuarantined => "quarantined"
  | ResearchSessionLost => "lost"
  | ResearchSessionUnrecognized s => s
  end.
Definition ResearchSessionState_IsValid (s : ResearchSessionState) : bool :=
  match s with ResearchSessionUnrecognized _ => false | _ => true end.
Definition ResearchSessionState_Terminal (s : ResearchSessionState) : bool :=
  match s with
  | ResearchSessionReleased | ResearchSessionQuarantined | ResearchSessionLost => true
  | _ => false
  end.
Definition sessionTransitions : transitionTable ResearchSessionState :=
  newTransitionTable
    [(ResearchSessionRequested, ResearchSessionAdmitted);
     (ResearchSessionAdmitted, ResearchSessionLeased);
     (ResearchSessionLeased, ResearchSessionReleasing);
     (ResearchSessionReleasing, ResearchSessionReleased);
     (ResearchSessionRequested, ResearchSessionQuarantined);
     (ResearchSessionRequested, ResearchSessionLost);
     (ResearchSessionAdmitted, ResearchSessionQuarantined);
     (ResearchSessionAdmitted, ResearchSessionLost);
     (ResearchSessionLeased, ResearchSessionQuarantined);
     (ResearchSessionLeased, ResearchSessionLost);
     (ResearchSessionReleasing, ResearchSessionQuarantined);
     (ResearchSessionReleasing, ResearchSessionLost)].
Definition RequireResearchSessionTransition (from to : ResearchSessionState) : result unit :=
  guardTransition "research_session" ResearchSessionState_IsValid sessionTransitions from to.
Definition CanResearchSessionTransition (from to : ResearchSessionState) : bool := is_ok (RequireResearchSessionTransition from to).

(** ** [LeaseState] *)
Inductive LeaseState :=
| LeaseActive | LeaseReleasing | LeaseReleased | LeaseExpired
| LeaseRevoked | LeaseQuarantined | LeaseLost
| LeaseUnrecognized (s : string).
#[export] Instance LeaseState_eq_dec : EqDecision LeaseState.
Proof. solve_decision. Defined.
Definition LeaseState_String (s : LeaseState) : string :=
  match s with
  | LeaseActive => "active"
  | LeaseReleasing => "releasing"
  | LeaseReleased => "released"
  | LeaseExpired => "expired"
  | LeaseRevoked => "revoked"
  | LeaseQuarantined => "quarantined"
  | LeaseLost => "lost"
  | LeaseUnrecognized s => s
  end.
Definition LeaseState_IsValid (s : LeaseState) : bool :=
  match s with LeaseUnrecognized _ => false | _ => true end.
Definition LeaseState_Terminal (s : LeaseState) : bool :=
  match s with
  | LeaseReleased | LeaseExpired | LeaseRevoked | LeaseQuarantined | LeaseLost => true
  | _ => false
  end.
Definition leaseTransitions : transitionTable LeaseState :=
  newTransitionTable
    [(LeaseActive, LeaseReleasing);
     (LeaseReleasing, LeaseReleased);
     (LeaseActive, LeaseExpired);
     (LeaseActive, LeaseRevoked);
     (LeaseActive, LeaseQuarantined);
     (LeaseActive, LeaseLost);
     (LeaseReleasing, LeaseRevoked);
     (LeaseReleasing, LeaseQuarantined);
     (LeaseReleasing, LeaseLost)].
Definition RequireLeaseTransition (from to : LeaseState) : result unit :=
  guardTransition "lease" LeaseState_IsValid leaseTransitions from to.
Definition CanLeaseTransition (from to : LeaseState) : bool := is_ok (RequireLeaseTransition from to).

(** ** [AgentGenerationState] *)
Inductive AgentGenerationState :=
| AgentGenerationProvisioning | AgentGenerationBooting | AgentGenerationReady | AgentGenerationRunning
| AgentGenerationQuiescing | AgentGenerationSealed | AgentGenerationFailed | AgentGenerationQuarantined | AgentGenerationLost
| AgentGenerationUnrecognized (s : string).
#[export] Instance AgentGenerationState_eq_dec : EqDecision AgentGenerationState.
Proof. solve_decision. Defined.
Definition AgentGenerationState_String (s : AgentGenerationState) : string :=
  match s with
  | AgentGenerationProvisioning => "provisioning"
  | AgentGenerationBooting => "booting"
  | AgentGenerationReady => "ready"
  | AgentGenerationRunning => "running"
  | AgentGenerationQuiescing => "quiescing"
  | AgentGenerationSealed => "sealed"
  | AgentGenerationFailed => "failed"
  | AgentGenerationQuarantined => "quarantined"
  | AgentGenerationLost => "lost"
  | AgentGenerationUnrecognized s => s
  end.
Definition AgentGenerationState_IsValid (s : AgentGenerationState) : bool :=
  match s with AgentGenerationUnrecognized _ => false | _ => true end.
Definition AgentGenerationState_Terminal (s : AgentGenerationState) : bool :=
  match s with
  | AgentGenerationSealed | AgentGenerationFailed | AgentGenerationQuarantined | AgentGenerationLost => true
  | _ => false
  end.
Definition buildFailureAwareAgentTransitions : option (transitionTable AgentGenerationState) :=
  addFailureTransitions
    (newTransitionTable
    [(AgentGenerationProvisioning, AgentGenerationBooting);
     (AgentGenerationBooting, AgentGenerationReady);
     (AgentGenerationReady, AgentGenerationRunning);
     (AgentGenerationReady, AgentGenerationQuiescing);
     (AgentGenerationRunning, AgentGenerationQuiescing);
     (AgentGenerationQuiescing, AgentGenerationSealed)])
    [AgentGenerationProvisioning; AgentGenerationBooting; AgentGenerationReady; AgentGenerationRunning; AgentGenerationQuiescing]
    [AgentGenerationFailed; AgentGenerationQuarantined; AgentGenerationLost].
Definition agentGenerationTransitions : transitionTable AgentGenerationState := default [] buildFailureAwareAgentTransitions.
Definition RequireAgentGenerationTransition (from to : AgentGenerationState) : result unit :=
  guardTransition "agent_generation" AgentGenerationState_IsValid agentGenerationTransitions from to.
Definition CanAgentGenerationTransition (from to : AgentGenerationState) : bool := is_ok (RequireAgentGenerationTransition from to).

(** ** [TargetGenerationState] *)
Inductive TargetGenerationState :=
| TargetGenerationProvisioning | TargetGenerationInstrumenting | TargetGenerationReady | TargetGenerationResettable
| TargetGenerationDestroyed | TargetGenerationFailed | TargetGenerationQuarantined | TargetGenerationLost
| TargetGenerationUnrecognized (s : string).
#[export] Instance TargetGenerationState_eq_dec : EqDecision TargetGenerationState.
Proof. solve_decision. Defined.
Definition TargetGenerationState_String (s : TargetGenerationState) : string :=
  match s with
  | TargetGenerationProvisioning => "provisioning"
  | TargetGenerationInstrumenting => "instrumenting"
  | TargetGenerationReady => "ready"
  | TargetGenerationResettable => "resettable"
  | TargetGenerationDestroyed => "destroyed"
  | TargetGenerationFailed => "failed"
  | TargetGenerationQuarantined => "quarantined"
  | TargetGenerationLost => "lost"
  | TargetGenerationUnrecognized s => s
  end.
Definition TargetGenerationState_IsValid (s : TargetGenerationState) : bool :=
  match s with TargetGenerationUnrecognized _ => false | _ => true end.
Definition TargetGenerationState_Terminal (s : TargetGenerationState) : bool :=
  match s with
  | TargetGenerationDestroyed | TargetGenerationFailed | TargetGenerationQuarantined | TargetGenerationLost => true
  | _ => false
  end.
Definition buildFailureAwareTargetTransitions : option (transitionTable TargetGenerationState) :=
  addFailureTransitions
    (newTransitionTable
    [(TargetGenerationProvisioning, TargetGenerationInstrumenting);
     (TargetGenerationInstrumenting, TargetGenerationReady);
     (TargetGenerationReady, TargetGenerationResettable);
     (TargetGenerationResettable, TargetGenerationDestroyed)])
    [TargetGenerationProvisioning; TargetGenerationInstrumenting; TargetGenerationReady; TargetGenerationResettable]
    [TargetGenerationFailed; TargetGenerationQuarantined; TargetGenerationLost].
Definition targetGenerationTransitions : transitionTable TargetGenerationState := default [] buildFailureAwareTargetTransitions.
Definition RequireTargetGenerationTransition (from to : TargetGenerationState) : result unit :=
  guardTransition "target_generation" TargetGenerationState_IsValid targetGenerationTransitions from to.
Definition CanTargetGenerationTransition (from to : TargetGenerationState) : bool := is_ok (RequireTargetGenerationTransition from to).

(** ** [TargetRunState] *)
Inductive TargetRunState :=
| TargetRunRequested | TargetRunPreparing | TargetRunObserving | TargetRunRunning
| TargetRunFinalizing | TargetRunCompleted | TargetRunFailed | TargetRunQuarantined | TargetRunLost
| TargetRunUnrecognized (s : string).
#[export] Instance TargetRunState_eq_dec : EqDecision TargetRunState.
Proof. solve_decision. Defined.
Definition TargetRunState_String (s : TargetRunState) : string :=
  match s with
  | TargetRunRequested => "requested"
  | TargetRunPreparing => "preparing"
  | TargetRunObserving => "observing"
  | TargetRunRunning => "running"
  | TargetRunFinalizing => "finalizing"
  | TargetRunCompleted => "completed"
  | TargetRunFailed => "failed"
  | TargetRunQuarantined => "quarantined"
  | TargetRunLost => "lost"
  | TargetRunUnrecognized s => s
  end.
Definition TargetRunState_IsValid (s : TargetRunState) : bool :=
  match s with TargetRunUnrecognized _ => false | _ => true end.
Definition TargetRunState_Terminal (s : TargetRunState) : bool :=
  match s with
  | TargetRunCompleted | TargetRunFailed | TargetRunQuarantined | TargetRunLost => true
  | _ => false
  end.
Definition buildFailureAwareRunTransitions : option (transitionTable TargetRunState) :=
  addFailureTransitions
    (newTransitionTable
    [(TargetRunRequested, TargetRunPreparing);
     (TargetRunPreparing, TargetRunObserving);
     (TargetRunObserving, TargetRunRunning);
     (TargetRunRunning, TargetRunFinalizing);
     (TargetRunFinalizing, TargetRunCompleted)])
    [TargetRunRequested; TargetRunPreparing; TargetRunObserving; TargetRunRunning; TargetRunFinalizing]
    [TargetRunFailed; TargetRunQuarantined; TargetRunLost].
Definition targetRunTransitions : transitionTable TargetRunState := default [] buildFailureAwareRunTransitions.
Definition RequireTargetRunTransition (from to : TargetRunState) : result unit :=
  guardTransition "target_run" TargetRunState_IsValid targetRunTransitions from to.
Definition CanTargetRunTransition (from to : TargetRunState) : bool := is_ok (RequireTargetRunTransition from to).

(** ** [ExecState] *)
Inductive ExecState :=
| ExecRequested | ExecStarting | ExecRunning | ExecCompleted
| ExecFailed | ExecCancelled | ExecLost
| ExecUnrecognized (s : string).
#[export] Instance ExecState_eq_dec : EqDecision ExecState.
Proof. solve_decision. Defined.
Definition ExecState_String (s : ExecState) : string :=
  match s with
  | ExecRequested => "requested"
  | ExecStarting => "starting"
  | ExecRunning => "running"
  | ExecCompleted => "completed"
  | ExecFailed => "failed"
  | ExecCancelled => "cancelled"
  | ExecLost => "lost"
  | ExecUnrecognized s => s
  end.
Definition ExecState_IsValid (s : ExecState) : bool :=
  match s with ExecUnrecognized _ => false | _ => true end.
Definition ExecState_Terminal (s : ExecState) : bool :=
  match s with
  | ExecCompleted | ExecFailed | ExecCancelled | ExecLost => true
  | _ => false
  end.
Definition execTransitions : transitionTable ExecState :=
  newTransitionTable
    [(ExecRequested, ExecStarting);
     (ExecStarting, ExecRunning);
     (ExecRunning, ExecCompleted);
     (ExecRequested, ExecCancelled);
     (ExecStarting, ExecCancelled);
     (ExecRunning, ExecCancelled);
     (ExecRequested, ExecFailed);
     (ExecStarting, ExecFailed);
     (ExecRunning, ExecFailed);
     (ExecRequested, ExecLost);
     (ExecStarting, ExecLost);
     (ExecRunning, ExecLost)].
Definition RequireExecTransition (from to : ExecState) : result unit :=
  guardTransition "exec" ExecState_IsValid execTransitions from to.
Definition CanExecTransition (from to : ExecState) : bool := is_ok (RequireExecTransition from to).

(** ** [TargetOperationState] *)
Inductive TargetOperationState :=
| TargetOperationRequested | TargetOperationRunning | TargetOperationCompleted | TargetOperationFailed
| TargetOperationCancelled | TargetOperationLost
| TargetOperationUnrecognized (s : string).
#[export] Instance TargetOperationState_eq_dec : EqDecision TargetOperationState.
Proof. solve_decision. Defined.
Definition TargetOperationState_String (s : TargetOperationState) : string :=
  match s with
  | TargetOperationRequested => "requested"
  | TargetOperationRunning => "running"
  | TargetOperationCompleted => "completed"
  | TargetOperationFailed => "failed"
  | TargetOperationCancelled => "cancelled"
  | TargetOperationLost => "lost"
  | TargetOperationUnrecognized s => s
  end.
Definition TargetOperationState_IsValid (s : TargetOperationState) : bool :=
  match s with TargetOperationUnrecognized _ => false | _ => true end.
Definition TargetOperationState_Terminal (s : TargetOperationState) : bool :=
  match s with
  | TargetOperationCompleted | TargetOperationFailed | TargetOperationCancelled | TargetOperationLost => true
  | _ => false
  end.
Definition targetOperationTransitions : transitionTable TargetOperationState :=
  newTransitionTable
    [(TargetOperationRequested, TargetOperationRunning);
     (TargetOperationRunning, TargetOperationCompleted);
     (TargetOperationRequested, TargetOperationFailed);
     (TargetOperationRunning, TargetOperationFailed);
     (TargetOperationRequested, TargetOperationCancelled);
     (TargetOperationRunning, TargetOperationCancelled);
     (TargetOperationRequested, TargetOperationLost);
     (TargetOperationRunning, TargetOperationLost)].
Definition RequireTargetOperationTransition (from to : TargetOperationState) : result unit :=
  guardTransition "target_operation" TargetOperationState_IsValid targetOperationTransitions from to.
Definition CanTargetOperationTransition (from to : TargetOperationState) : bool := is_ok (RequireTargetOperationTransition from to).

(** ** [InputViewState] *)
Inductive InputViewState :=
| InputViewBuilding | InputViewReady | InputViewRetired | InputViewFailed
| InputViewQuarantined | InputViewLost
| InputViewUnrecognized (s : string).
#[export] Instance InputViewState_eq_dec : EqDecision InputViewState.
Proof. solve_decision. Defined.
Definition InputViewState_String (s : InputViewState) : string :=
  match s with
  | InputViewBuilding => "building"
  | InputViewReady => "ready"
  | InputViewRetired => "retired"
  | InputViewFailed => "failed"
  | InputViewQuarantined => "quarantined"
  | InputViewLost => "lost"
  | InputViewUnrecognized s => s
  end.
Definition InputViewState_IsValid (s : InputViewState) : bool :=
  match s with InputViewUnrecognized _ => false | _ => true end.
Definition InputViewState_Terminal (s : InputViewState) : bool :=
  match s with
  | InputViewRetired | InputViewFailed | InputViewQuarantined | InputViewLost => true
  | _ => false
  end.
Definition inputViewTransitions : transitionTable InputViewState :=
  newTransitionTable
    [(InputViewBuilding, InputViewReady);
     (InputViewReady, InputViewRetired);
     (InputViewBuilding, InputViewFailed);
     (InputViewReady, InputViewFailed);
     (InputViewBuilding, InputViewQuarantined);
     (InputViewReady, InputViewQuarantined);
     (InputViewBuilding, InputViewLost);
     (InputViewReady, InputViewLost)].
Definition RequireInputViewTransition (from to : InputViewState) : result unit :=
  guardTransition "input_view" InputViewState_IsValid inputViewTransitions from to.
Definition CanInputViewTransition (from to : InputViewState) : bool := is_ok (RequireInputViewTransition from to).

(** ** [WorkspaceState] *)
Inductive WorkspaceState :=
| WorkspacePreparing | WorkspaceReady | WorkspaceMounted | WorkspaceQuiescing
| WorkspaceSealing | WorkspaceSealed | WorkspaceReleased | WorkspaceFailed | WorkspaceQuarantined | WorkspaceLost
| WorkspaceUnrecognized (s : string).
#[export] Instance WorkspaceState_eq_dec : EqDecision WorkspaceState.
Proof. solve_decision. Defined.
Definition WorkspaceState_String (s : WorkspaceState) : string :=
  match s with
  | WorkspacePreparing => "preparing"
  | WorkspaceReady => "ready"
  | WorkspaceMounted => "mounted"
  | WorkspaceQuiescing => "quiescing"
  | WorkspaceSealing => "sealing"
  | WorkspaceSealed => "sealed"
  | WorkspaceReleased => "released"
  | WorkspaceFailed => "failed"
  | WorkspaceQuarantined => "quarantined"
  | WorkspaceLost => "lost"
  | WorkspaceUnrecognized s => s
  end.
Definition WorkspaceState_IsValid (s : WorkspaceState) : bool :=
  match s with WorkspaceUnrecognized _ => false | _ => true end.
Definition WorkspaceState_Terminal (s : WorkspaceState) : bool :=
  match s with
  | WorkspaceReleased | WorkspaceFailed | WorkspaceQuarantined | WorkspaceLost => true
  | _ => false
  end.
Definition buildWorkspaceTransitions : option (transitionTable WorkspaceState) :=
  addFailureTransitions
    (newTransitionTable
    [(WorkspacePreparing, WorkspaceReady);
     (WorkspaceReady, WorkspaceMounted);
     (WorkspaceMounted, WorkspaceQuiescing);
     (WorkspaceQuiescing, WorkspaceSealing);
     (WorkspaceSealing, WorkspaceSealed);
     (WorkspaceSealed, WorkspaceReleased)])
    [WorkspacePreparing; WorkspaceReady; WorkspaceMounted; WorkspaceQuiescing; WorkspaceSealing; WorkspaceSealed]
    [WorkspaceFailed; WorkspaceQuarantined; WorkspaceLost].
Definition workspaceTransitions : transitionTable WorkspaceState := default [] buildWorkspaceTransitions.
Definition RequireWorkspaceTransition (from to : WorkspaceState) : result unit :=
  guardTransition "workspace" WorkspaceState_IsValid workspaceTransitions from to.
Definition CanWorkspaceTransition (from to : WorkspaceState) : bool := is_ok (RequireWorkspaceTransition from to).

(** ** [CaptureState] *)
Inductive CaptureState :=
| CaptureRequested | CaptureRunning | CaptureFinalizing | CaptureCompleted
| CaptureFailed | CaptureCancelled | CaptureLost
| CaptureUnrecognized (s : string).
#[export] Instance CaptureState_eq_dec : EqDecision CaptureState.
Proof. solve_decision. Defined.
Definition CaptureState_String (s : CaptureState) : string :=
  match s with
  | CaptureRequested => "requested"
  | CaptureRunning => "running"
  | CaptureFinalizing => "finalizing"
  | CaptureCompleted => "completed"
  | CaptureFailed => "failed"
  | CaptureCancelled => "cancelled"
  | CaptureLost => "lost"
  | CaptureUnrecognized s => s
  end.
Definition CaptureState_IsValid (s : CaptureState) : bool :=
  match s with CaptureUnrecognized _ => false | _ => true end.
Definition CaptureState_Terminal (s : CaptureState) : bool :=
  match s with
  | CaptureCompleted | CaptureFailed | CaptureCancelled | CaptureLost => true
  | _ => false
  end.
Definition captureTransitions : transitionTable CaptureState :=
  newTransitionTable
    [(CaptureRequested, CaptureRunning);
     (CaptureRunning, CaptureFinalizing);
     (CaptureFinalizing, CaptureCompleted);
     (CaptureRequested, CaptureCancelled);
     (CaptureRunning, CaptureCancelled);
     (CaptureRequested, CaptureFailed);
     (CaptureRunning, CaptureFailed);
     (CaptureFinalizing, CaptureFailed);
     (CaptureRequested, CaptureLost);
     (CaptureRunning, CaptureLost);
     (CaptureFinalizing, CaptureLost)].
Definition RequireCaptureTransition (from to : CaptureState) : result unit :=
  guardTransition "capture" CaptureState_IsValid captureTransitions from to.
Definition CanCaptureTransition (from to : CaptureState) : bool := is_ok (RequireCaptureTransition from to).

(** ** [ExportState] *)
Inductive ExportState :=
| ExportDeclared | ExportCommitting | ExportCommitted | ExportFailed
| ExportCancelled
| ExportUnrecognized (s : string).
#[export] Instance ExportState_eq_dec : EqDecision ExportState.
Proof. solve_decision. Defined.
Definition ExportState_String (s : ExportState) : string :=
  match s with
  | ExportDeclared => "declared"
  | ExportCommitting => "committing"
  | ExportCommitted => "committed"
  | ExportFailed => "failed"
  | ExportCancelled => "cancelled"
  | ExportUnrecognized s => s
  end.
Definition ExportState_IsValid (s : ExportState) : bool :=
  match s with ExportUnrecognized _ => false | _ => true end.
Definition ExportState_Terminal (s : ExportState) : bool :=
  match s with
  | ExportCommitted | ExportFailed | ExportCancelled => true
  | _ => false
  end.
Definition exportTransitions : transitionTable ExportState :=
  newTransitionTable
    [(ExportDeclared, ExportCommitting);
     (ExportCommitting, ExportCommitted);
     (ExportDeclared, ExportCancelled);
     (ExportDeclared, ExportFailed);
     (ExportCommitting, ExportFailed)].
Definition RequireExportTransition (from to : ExportState) : result unit :=
  guardTransition "export" ExportState_IsValid exportTransitions from to.
Definition CanExportTransition (from to : ExportState) : bool := is_ok (RequireExportTransition from to).

(** ** [ObservationBundleState] *)
Inductive ObservationBundleState :=
| ObservationBundleBuilding | ObservationBundleSealed | ObservationBundleFailed

| ObservationBundleUnrecognized (s : string).
#[export] Instance ObservationBundleState_eq_dec : EqDecision ObservationBundleState.
Proof. solve_decision. Defined.
Definition ObservationBundleState_String (s : ObservationBundleState) : string :=
  match s with
  | ObservationBundleBuilding => "building"
  | ObservationBundleSealed => "sealed"
  | ObservationBundleFailed => "failed"
  | ObservationBundleUnrecognized s => s
  end.
Definition ObservationBundleState_IsValid (s : ObservationBundleState) : bool :=
  match s with ObservationBundleUnrecognized _ => false | _ => true end.
Definition ObservationBundleState_Terminal (s : ObservationBundleState) : bool :=
  match s with
  | ObservationBundleSealed | ObservationBundleFailed => true
  | _ => false
  end.
Definition observationBundleTransitions : transitionTable ObservationBundleState :=
  newTransitionTable
    [(ObservationBundleBuilding, ObservationBundleSealed);
     (ObservationBundleBuilding, ObservationBundleFailed)].
Definition RequireObservationBundleTransition (from to : ObservationBundleState) : result unit :=
  guardTransition "observation_bundle" ObservationBundleState_IsValid observationBundleTransitions from to.
Definition CanObservationBundleTransition (from to : ObservationBundleState) : bool := is_ok (RequireObservationBundleTransition from to).

(** ** [IncidentState] *)
Inductive IncidentState :=
| IncidentOpen | IncidentEvidenceSealed | IncidentRecovering | IncidentResolved

| IncidentUnrecognized (s : string).
#[export] Instance IncidentState_eq_dec : EqDecision IncidentState.
Proof. solve_decision. Defined.
Definition IncidentState_String (s : IncidentState) : string :=
  match s with
  | IncidentOpen => "open"
  | IncidentEvidenceSealed => "evidence_sealed"
  | IncidentRecovering => "recovering"
  | IncidentResolved => "resolved"
  | IncidentUnrecognized s => s
  end.
Definition IncidentState_IsValid (s : IncidentState) : bool :=
  match s with IncidentUnrecognized _ => false | _ => true end.
Definition IncidentState_Terminal (s : IncidentState) : bool :=
  match s with
  | IncidentResolved => true
  | _ => false
  end.
Definition incidentTransitions : transitionTable IncidentState :=
  newTransitionTable
    [(IncidentOpen, IncidentEvidenceSealed);
     (IncidentEvidenceSealed, IncidentRecovering);
     (IncidentEvidenceSealed, IncidentResolved);
     (IncidentRecovering, IncidentResolved)].
Definition RequireIncidentTransition (from to : IncidentState) : result unit :=
  guardTransition "incident" IncidentState_IsValid incidentTransitions from to.
Definition CanIncidentTransition (from to : IncidentState) : bool := is_ok (RequireIncidentTransition from to).
(** ** The lifecycle interface

    What the rest of the system relies on about a state machine: an allowed
    transition connects recognised states, leaves a non-terminal state and
    strictly increases a rank bounded by [lc_bound]; and a recognised
    non-terminal state always has a way out. *)
Class Lifecycle (S : Type) := {
  lc_valid : S -> bool;
  lc_terminal : S -> bool;
  lc_require : S -> S -> result unit;
  lc_rank : S -> nat;
  lc_bound : nat;
  lc_table : forall from to, lc_require from to = Ok tt ->
    lc_valid from = true /\ lc_valid to = true /\ lc_terminal from = false /\
    (lc_rank from < lc_rank to)%nat;
  lc_bounded : forall s, lc_valid s = true -> (lc_rank s <= lc_bound)%nat;
  lc_exit : forall s, lc_valid s = true -> lc_terminal s = false ->
    exists t, lc_require s t = Ok tt
}.

Definition lc_step {S} `{Lifecycle S} (a b : S) : Prop := lc_require a b = Ok tt.

Section LifecycleFacts.
Context {S : Type} `{Lifecycle S}.

(** A path of [n] transitions climbs [n] ranks. *)
Lemma lc_nsteps_rank n (a b : S) : nsteps lc_step n a b -> (lc_rank a + n <= lc_rank b)%nat.
Proof.
  induction 1 as [|n a b c Hab _ IH]; [lia|].
  apply lc_table in Hab as (_ & _ & _ & ?). lia.
Qed.

Lemma lc_nsteps_valid n (a b : S) :
  nsteps lc_step n a b -> lc_valid a = true -> lc_valid b = true.
Proof. induction 1 as [|n a b c Hab _ IH]; [done|]. apply lc_table in Hab. naive_solver. Qed.

Lemma lc_reaches_terminal (s : S) :
  lc_valid s = true -> exists t, rtc lc_step s t /\ lc_terminal t = true.
Proof.
  remember (lc_bound - lc_rank s)%nat as k eqn:Hk. revert s Hk.
  induction (lt_wf k) as [k _ IH]; intros s Hk Hs.
  destruct (lc_terminal s) eqn:Ht; [by exists s|].
  destruct (lc_exit s Hs Ht) as [u Hu].
  destruct (lc_table _ _ Hu) as (_ & Hv & _ & Hlt).
  pose proof (lc_bounded u Hv).
  destruct (IH (lc_bound - lc_rank u)%nat ltac:(lia) u eq_refl Hv) as (t & ? & ?).
  exists t. split; [by eapply rtc_l|done].
Qed.
End LifecycleFacts.

(** Decides the three table obligations of a concrete machine by evaluation. *)
Ltac solve_lifecycle :=
  match goal with
  | |- forall from to, _ = Ok tt -> _ =>
      intros [] [] Hstep; vm_compute in Hstep; try discriminate Hstep;
      repeat split; vm_compute; repeat constructor
  | |- forall s, _ = true -> (_ <= _)%nat =>
      intros [] Hv; vm_compute in Hv; try discriminate Hv; vm_compute; repeat constructor
  end.

Ltac lifecycle_exit exits :=
  intros s Hv Ht; exists (exits s); destruct s; vm_compute in Hv, Ht |- *;
  congruence.

#[export, refine] Instance ResearchSessionState_lifecycle : Lifecycle ResearchSessionState := {|
  lc_valid := ResearchSessionState_IsValid;
  lc_terminal := ResearchSessionState_Terminal;
  lc_require := RequireResearchSessionTransition;
  lc_rank s := match s with
    | ResearchSessionRequested => 0%nat | ResearchSessionAdmitted => 1%nat | ResearchSessionLeased => 2%nat | ResearchSessionReleasing => 3%nat | ResearchSessionReleased => 4%nat | ResearchSessionQuarantined => 4%nat | ResearchSessionLost => 4%nat | ResearchSessionUnrecognized _ => 0%nat end;
  lc_bound := 4%nat |}.
Proof.
  1,2: solve_lifecycle.
  lifecycle_exit (fun s => match s with
    | ResearchSessionRequested => ResearchSessionAdmitted | ResearchSessionAdmitted => ResearchSessionLeased | ResearchSessionLeased => ResearchSessionReleasing | ResearchSessionReleasing => ResearchSessionReleased | t => t end).
Defined.

#[export, refine] Instance LeaseState_lifecycle : Lifecycle LeaseState := {|
  lc_valid := LeaseState_IsValid;
  lc_terminal := LeaseState_Terminal;
  lc_require := RequireLeaseTransition;
  lc_rank s := match s with
    | LeaseActive => 0%nat | LeaseReleasing => 1%nat | LeaseReleased => 2%nat | LeaseExpired => 1%nat | LeaseRevoked => 2%nat | LeaseQuarantined => 2%nat | LeaseLost => 2%nat | LeaseUnrecognized _ => 0%nat end;
  lc_bound := 2%nat |}.
Proof.
  1,2: solve_lifecycle.
  lifecycle_exit (fun s => match s with
    | LeaseActive => LeaseReleasing | LeaseReleasing => LeaseReleased | t => t end).
Defined.

#[export, refine] Instance AgentGenerationState_lifecycle : Lifecycle AgentGenerationState := {|
  lc_valid := AgentGenerationState_IsValid;
  lc_terminal := AgentGenerationState_Terminal;
  lc_require := RequireAgentGenerationTransition;
  lc_rank s := match s with
    | AgentGenerationProvisioning => 0%nat | AgentGenerationBooting => 1%nat | AgentGenerationReady => 2%nat | AgentGenerationRunning => 3%nat | AgentGenerationQuiescing => 4%nat | AgentGenerationSealed => 5%nat | AgentGenerationFailed => 5%nat | AgentGenerationQuarantined => 5%nat | AgentGenerationLost => 5%nat | AgentGenerationUnrecognized _ => 0%nat end;
  lc_bound := 5%nat |}.
Proof.
  1,2: solve_lifecycle.
  lifecycle_exit (fun s => match s with
    | AgentGenerationProvisioning => AgentGenerationBooting | AgentGenerationBooting => AgentGenerationReady | AgentGenerationReady => AgentGenerationRunning | AgentGenerationRunning => AgentGenerationQuiescing | AgentGenerationQuiescing => AgentGenerationSealed | t => t end).
Defined.

#[export, refine] Instance TargetGenerationState_lifecycle : Lifecycle TargetGenerationState := {|
  lc_valid := TargetGenerationState_IsValid;
  lc_terminal := TargetGenerationState_Terminal;
  lc_require := RequireTargetGenerationTransition;
  lc_rank s := match s with
    | TargetGenerationProvisioning => 0%nat | TargetGenerationInstrumenting => 1%nat | TargetGenerationReady => 2%nat | TargetGenerationResettable => 3%nat | TargetGenerationDestroyed => 4%nat | TargetGenerationFailed => 4%nat | TargetGenerationQuarantined => 4%nat | TargetGenerationLost => 4%nat | TargetGenerationUnrecognized _ => 0%nat end;
  lc_bound := 4%nat |}.
Proof.
  1,2: solve_lifecycle.
  lifecycle_exit (fun s => match s with
    | TargetGenerationProvisioning => TargetGenerationInstrumenting | TargetGenerationInstrumenting => TargetGenerationReady | TargetGenerationReady => TargetGenerationResettable | TargetGenerationResettable => TargetGenerationDestroyed | t => t end).
Defined.

#[export, refine] Instance TargetRunState_lifecycle : Lifecycle TargetRunState := {|
  lc_valid := TargetRunState_IsValid;
  lc_terminal := TargetRunState_Terminal;
  lc_require := RequireTargetRunTransition;
  lc_rank s := match s with
    | TargetRunRequested => 0%nat | TargetRunPreparing => 1%nat | TargetRunObserving => 2%nat | TargetRunRunning => 3%nat | TargetRunFinalizing => 4%nat | TargetRunCompleted => 5%nat | TargetRunFailed => 5%nat | TargetRunQuarantined => 5%nat | TargetRunLost => 5%nat | TargetRunUnrecognized _ => 0%nat end;
  lc_bound := 5%nat |}.
Proof.
  1,2: solve_lifecycle.
  lifecycle_exit (fun s => match s with
    | TargetRunRequested => TargetRunPreparing | TargetRunPreparing => TargetRunObserving | TargetRunObserving => TargetRunRunning | TargetRunRunning => TargetRunFinalizing | TargetRunFinalizing => TargetRunCompleted | t => t end).
Defined.

#[export, refine] Instance ExecState_lifecycle : Lifecycle ExecState := {|
  lc_valid := ExecState_IsValid;
  lc_terminal := ExecState_Terminal;
  lc_require := RequireExecTransition;
  lc_rank s := match s with
    | ExecRequested => 0%nat | ExecStarting => 1%nat | ExecRunning => 2%nat | ExecCompleted => 3%nat | ExecFailed => 3%nat | ExecCancelled => 3%nat | ExecLost => 3%nat | ExecUnrecognized _ => 0%nat end;
  lc_bound := 3%nat |}.
Proof.
  1,2: solve_lifecycle.
  lifecycle_exit (fun s => match s with
    | ExecRequested => ExecStarting | ExecStarting => ExecRunning | ExecRunning => ExecCompleted | t => t end).
Defined.

#[export, refine] Instance TargetOperationState_lifecycle : Lifecycle TargetOperationState := {|
  lc_valid := TargetOperationState_IsValid;
  lc_terminal := TargetOperationState_Terminal;
  lc_require := RequireTargetOperationTransition;
  lc_rank s := match s with
    | TargetOperationRequested => 0%nat | TargetOperationRunning => 1%nat | TargetOperationCompleted => 2%nat | TargetOperationFailed => 2%nat | TargetOperationCancelled => 2%nat | TargetOperationLost => 2%nat | TargetOperationUnrecognized _ => 0%nat end;
  lc_bound := 2%nat |}.
Proof.
  1,2: solve_lifecycle.
  lifecycle_exit (fun s => match s with
    | TargetOperationRequested => TargetOperationRunning | TargetOperationRunning => TargetOperationCompleted | t => t end).
Defined.

#[export, refine] Instance InputViewState_lifecycle : Lifecycle InputViewState := {|
  lc_valid := InputViewState_IsValid;
  lc_terminal := InputViewState_Terminal;
  lc_require := RequireInputViewTransition;
  lc_rank s := match s with
    | InputViewBuilding => 0%nat | InputViewReady => 1%nat | InputViewRetired => 2%nat | InputViewFailed => 2%nat | InputViewQuarantined => 2%nat | InputViewLost => 2%nat | InputViewUnrecognized _ => 0%nat end;
  lc_bound := 2%nat |}.
Proof.
  1,2: solve_lifecycle.
  lifecycle_exit (fun s => match s with
    | InputViewBuilding => InputViewReady | InputViewReady => InputViewRetired | t => t end).
Defined.

#[export, refine] Instance WorkspaceState_lifecycle : Lifecycle WorkspaceState := {|
  lc_valid := WorkspaceState_IsValid;
  lc_terminal := WorkspaceState_Terminal;
  lc_require := RequireWorkspaceTransition;
  lc_rank s := match s with
    | WorkspacePreparing => 0%nat | WorkspaceReady => 1%nat | WorkspaceMounted => 2%nat | WorkspaceQuiescing => 3%nat | WorkspaceSealing => 4%nat | WorkspaceSealed => 5%nat | WorkspaceReleased => 6%nat | WorkspaceFailed => 6%nat | WorkspaceQuarantined => 6%nat | WorkspaceLost => 6%nat | WorkspaceUnrecognized _ => 0%nat end;
  lc_bound := 6%nat |}.
Proof.
  1,2: solve_lifecycle.
  lifecycle_exit (fun s => match s with
    | WorkspacePreparing => WorkspaceReady | WorkspaceReady => WorkspaceMounted | WorkspaceMounted => WorkspaceQuiescing | WorkspaceQuiescing => WorkspaceSealing | WorkspaceSealing => WorkspaceSealed | WorkspaceSealed => WorkspaceReleased | t => t end).
Defined.

#[export, refine] Instance CaptureState_lifecycle : Lifecycle CaptureState := {|
  lc_valid := CaptureState_IsValid;
  lc_terminal := CaptureState_Terminal;
  lc_require := RequireCaptureTransition;
  lc_rank s := match s with
    | CaptureRequested => 0%nat | CaptureRunning => 1%nat | CaptureFinalizing => 2%nat | CaptureCompleted => 3%nat | CaptureFailed => 3%nat | CaptureCancelled => 2%nat | CaptureLost => 3%nat | CaptureUnrecognized _ => 0%nat end;
  lc_bound := 3%nat |}.
Proof.
  1,2: solve_lifecycle.
  lifecycle_exit (fun s => match s with
    | CaptureRequested => CaptureRunning | CaptureRunning => CaptureFinalizing | CaptureFinalizing => CaptureCompleted | t => t end).
Defined.

#[export, refine] Instance ExportState_lifecycle : Lifecycle ExportState := {|
  lc_valid := ExportState_IsValid;
  lc_terminal := ExportState_Terminal;
  lc_require := RequireExportTransition;
  lc_rank s := match s with
    | ExportDeclared => 0%nat | ExportCommitting => 1%nat | ExportCommitted => 2%nat | ExportFailed => 2%nat | ExportCancelled => 1%nat | ExportUnrecognized _ => 0%nat end;
  lc_bound := 2%nat |}.
Proof.
  1,2: solve_lifecycle.
  lifecycle_exit (fun s => match s with
    | ExportDeclared => ExportCommitting | ExportCommitting => ExportCommitted | t => t end).
Defined.

#[export, refine] Instance ObservationBundleState_lifecycle : Lifecycle ObservationBundleState := {|
  lc_valid := ObservationBundleState_IsValid;
  lc_terminal := ObservationBundleState_Terminal;
  lc_require := RequireObservationBundleTransition;
  lc_rank s := match s with
    | ObservationBundleBuilding => 0%nat | ObservationBundleSealed => 1%nat | ObservationBundleFailed => 1%nat | ObservationBundleUnrecognized _ => 0%nat end;
  lc_bound := 1%nat |}.
Proof.
  1,2: solve_lifecycle.
  lifecycle_exit (fun s => match s with
    | ObservationBundleBuilding => ObservationBundleSealed | t => t end).
Defined.

#[export, refine] Instance IncidentState_lifecycle : Lifecycle IncidentState := {|
  lc_valid := IncidentState_IsValid;
  lc_terminal := IncidentState_Terminal;
  lc_require := RequireIncidentTransition;
  lc_rank s := match s with
    | IncidentOpen => 0%nat | IncidentEvidenceSealed => 1%nat | IncidentRecovering => 2%nat | IncidentResolved => 3%nat | IncidentUnrecognized _ => 0%nat end;
  lc_bound := 3%nat |}.
Proof.
  1,2: solve_lifecycle.
  lifecycle_exit (fun s => match s with
    | IncidentOpen => IncidentEvidenceSealed | IncidentEvidenceSealed => IncidentRecovering | IncidentRecovering => IncidentResolved | t => t end).
Defined.

(** The contract of one machine, spelled out on its own definitions. *)
Definition lifecycle_ok (S : Type) `{Lifecycle S} : Prop :=
  (forall s : S, lc_valid s = true -> (lc_terminal s = true <-> forall t, ~ lc_step s t))
  /\ (forall n (a b : S), nsteps lc_step n a b -> (n <= lc_bound)%nat)
  /\ (forall s : S, lc_valid s = true -> exists t, rtc lc_step s t /\ lc_terminal t = true).

Lemma lifecycle_ok_intro (S : Type) `{Lifecycle S} : lifecycle_ok S.
Proof.
  split; [|split; [|apply lc_reaches_terminal]].
  - intros s Hs; split.
    + intros Ht t Hst. destruct (lc_table _ _ Hst) as (_ & _ & ? & _). congruence.
    + intros Hno. destruct (lc_terminal s) eqn:Ht; [done|].
      destruct (lc_exit s Hs Ht) as [t Hst]. by destruct (Hno t).
  - intros [|n] a b Hn; [lia|].
    assert (lc_valid a = true) as Ha.
    { inversion Hn as [|? ? ? ? Hab]; subst. by destruct (lc_table _ _ Hab). }
    pose proof (lc_nsteps_rank _ _ _ Hn).
    pose proof (lc_bounded b (lc_nsteps_valid _ _ _ Hn Ha)). lia.
Qed.

(** C39: In each of the thirteen lifecycle state machines the terminal states
    are exactly the recognised states with no allowed transition, no chain of
    allowed transitions is longer than the machine's bound (a resource never
    re-enters a state), and a terminal state is reachable from every
    recognised state. *)
Theorem lifecycles_terminate :
  lifecycle_ok ResearchSessionState /\ lifecycle_ok LeaseState /\
  lifecycle_ok AgentGenerationState /\ lifecycle_ok TargetGenerationState /\
  lifecycle_ok TargetRunState /\ lifecycle_ok ExecState /\
  lifecycle_ok TargetOperationState /\ lifecycle_ok InputViewState /\
  lifecycle_ok WorkspaceState /\ lifecycle_ok CaptureState /\
  lifecycle_ok ExportState /\ lifecycle_ok ObservationBundleState /\
  lifecycle_ok IncidentState.
Proof.
  repeat match goal with
         | |- lifecycle_ok _ => apply lifecycle_ok_intro
         | |- _ /\ _ => split
         end.
Qed.
