(* ===== verification/Values.v ===== *)
(** * Scalar domain values

    [internal/domain/revision.go] (revisions and generations as 64-bit
    counters) and the field validators of [internal/domain/validation.go]. *)
From S2P Require Import Prelude Errors GoStrings.
(** ** Revisions and generations *)
Abbreviation Revision := N.
Definition InitialRevision : Revision := 1%N.
Definition Revision_IsValid (r : Revision) : bool := (InitialRevision <=? r)%N.

Definition Revision_Next (r : Revision) : result Revision :=
  _ ← check (Revision_IsValid r) (NewError CodeInvalidArgument "revision.next" "revision");
  _ ← check (negb (r =? max_uint64)%N) (NewError CodeResourceExhausted "revision.next" "revision");
  Ok (u64 (r + 1)).

Definition RequireRevision (actual expected : Revision) : result unit :=
  _ ← check (Revision_IsValid expected) (NewError CodeInvalidArgument "revision.require" "expected_revision");
  check (actual =? expected)%N (NewError CodeStaleRevision "revision.require" "expected_revision").

Abbreviation AgentGeneration := N.
Abbreviation TargetGeneration := N.
Definition InitialAgentGeneration : AgentGeneration := 1%N.
Definition InitialTargetGeneration : TargetGeneration := 1%N.
Definition AgentGeneration_IsValid (g : AgentGeneration) : bool := (InitialAgentGeneration <=? g)%N.
Definition TargetGeneration_IsValid (g : TargetGeneration) : bool := (InitialTargetGeneration <=? g)%N.

Definition AgentGeneration_Next (g : AgentGeneration) : result AgentGeneration :=
  _ ← check (AgentGeneration_IsValid g) (NewError CodeInvalidArgument "agent_generation.next" "generation");
  _ ← check (negb (g =? max_uint64)%N) (NewError CodeResourceExhausted "agent_generation.next" "generation");
  Ok (u64 (g + 1)).

Definition TargetGeneration_Next (g : TargetGeneration) : result TargetGeneration :=
  _ ← check (TargetGeneration_IsValid g) (NewError CodeInvalidArgument "target_generation.next" "generation");
  _ ← check (negb (g =? max_uint64)%N) (NewError CodeResourceExhausted "target_generation.next" "generation");
  Ok (u64 (g + 1)).

(** [uintString]: decimal digits written backwards into a 20-byte buffer.
    [None] would be a write past the front of the buffer. *)
Fixpoint uintString_loop (i : nat) (value : N) (acc : string) : option string :=
  if (value =? 0)%N then Some acc else
  match i with
  | O => None
  | S i' => uintString_loop i' (value / 10) (String (chr (48 + value mod 10)) acc)
  end.
Definition uintString (value : N) : option string :=
  if (value =? 0)%N then Some "0" else uintString_loop 20 value "".

(** ** Field validators *)
Definition requireNonBlank (field value : string) : result unit :=
  check (negb (blank value)) (NewError CodeInvalidArgument "validate" field).

Definition requireTime (field : string) (value : time) : result unit :=
  check (negb (time_IsZero value)) (NewError CodeInvalidArgument "validate" field).

Definition requireNonNegative (field : string) (value : Z) : result unit :=
  check (negb (value <? 0)%Z) (NewError CodeInvalidArgument "validate" field).

(** The argument is the identity's [IsZero()]. *)
Definition requireID (field : string) (is_zero : bool) : result unit :=
  check (negb is_zero) (NewError CodeInvalidID "validate" field).

Definition nextModelRevision (current expected : Revision) (updatedAt at_ : time) : result Revision :=
  _ ← RequireRevision current expected;
  _ ← requireTime "at" at_;
  _ ← check (negb (time_Before at_ updatedAt)) (NewError CodeInvalidArgument "model.transition" "at");
  Revision_Next current.

Definition requireRelativePath (field value : string) (allowDot : bool) : result unit :=
  _ ← requireNonBlank field value;
  let bad := NewError CodeInvalidArgument "validate" field in
  _ ← check (negb (ContainsByte value NUL)) bad;
  _ ← check (negb (ContainsByte value backslash)) bad;
  _ ← check (negb (HasPrefix value "/")) bad;
  let cleaned := path_Clean value in
  _ ← check (bool_decide (cleaned = value) && negb (bool_decide (cleaned = ".."))
             && negb (HasPrefix cleaned "../")) bad;
  check (allowDot || negb (bool_decide (cleaned = "."))) bad.

Definition requireOrderedTimes (startField : string) (start : time) (endField : string) (end_ : time)
  : result unit :=
  _ ← requireTime startField start;
  _ ← requireTime endField end_;
  check (negb (time_Before end_ start)) (NewError CodeInvalidArgument "validate" endField).

(** [uniqueNonBlank]: the values unchanged, or the first blank or repeated one. *)
Fixpoint uniqueNonBlank_loop (field : string) (i : nat) (seen values : list string) : result unit :=
  match values with
  | [] => Ok tt
  | v :: r =>
      _ ← requireNonBlank (indexed field i) v;
      _ ← check (negb (bool_decide (v ∈ seen))) (NewError CodeInvalidArgument "validate" field);
      uniqueNonBlank_loop field (S i) (v :: seen) r
  end.
Definition uniqueNonBlank (values : list string) (field : string) : result (list string) :=
  _ ← uniqueNonBlank_loop field 0 [] values; Ok values.

(** ** Facts used by the components *)
Lemma Revision_Next_ok r r' :
  (r < two64)%N -> Revision_Next r = Ok r' <-> (1 <= r < max_uint64)%N /\ r' = (r + 1)%N.
Proof.
  unfold Revision_Next, Revision_IsValid, InitialRevision, u64, two64, max_uint64.
  intros Hr. split.
  - intros H; inv_res H. to_prop. rewrite N.mod_small by lia. lia.
  - intros [? ->]. rewrite N.mod_small by lia.
    replace (1 <=? r)%N with true by (symmetry; to_prop; lia).
    replace (r =? 18446744073709551615)%N with false by (symmetry; to_prop; lia). done.
Qed.

Lemma nextModelRevision_ok current expected updatedAt at_ r :
  (current < two64)%N ->
  nextModelRevision current expected updatedAt at_ = Ok r <->
  expected = current /\ (1 <= current < max_uint64)%N /\ at_ <> 0%Z /\ (updatedAt <= at_)%Z /\
  r = (current + 1)%N.
Proof.
  intros Hc. unfold nextModelRevision, RequireRevision, requireTime, Revision_IsValid, InitialRevision.
  split.
  - intros H; inv_res H. apply (Revision_Next_ok _ _ Hc) in H as [? ->]. to_prop. lia.
  - intros (-> & Hr & Hz & Ht & ->).
    rewrite (proj2 (Revision_Next_ok _ _ Hc) (conj Hr eq_refl)).
    unfold_time.
    rewrite (proj2 (N.leb_le 1 current)), N.eqb_refl, (proj2 (Z.eqb_neq at_ 0)),
      (proj2 (Z.ltb_ge at_ updatedAt)) by lia. done.
Qed.

Lemma uniqueNonBlank_loop_ok field i seen values :
  uniqueNonBlank_loop field i seen values = Ok tt <->
  Forall (fun v => blank v = false) values /\ NoDup values /\ (forall v, v ∈ values -> v ∉ seen).
Proof.
  revert i seen; induction values as [|v r IH]; intros i seen; cbn [uniqueNonBlank_loop].
  - split; [intros _; repeat split; [constructor|constructor|set_solver]|done].
  - unfold requireNonBlank. rewrite !res_bind_ok. setoid_rewrite res_bind_ok.
    setoid_rewrite check_ok. setoid_rewrite IH. setoid_rewrite negb_true_iff.
    setoid_rewrite bool_decide_eq_false. rewrite Forall_cons, NoDup_cons.
    split.
    + intros (_ & ? & _ & ? & ? & ? & Hr). repeat split; try done; set_solver.
    + intros ([? ?] & [? ?] & Hr). exists tt; split; [done|]. exists tt; set_solver.
Qed.

Lemma uniqueNonBlank_ok values field l :
  uniqueNonBlank values field = Ok l <->
  l = values /\ Forall (fun v => blank v = false) values /\ NoDup values.
Proof.
  unfold uniqueNonBlank. rewrite res_bind_ok. split.
  - intros ([] & H & [= <-]). apply uniqueNonBlank_loop_ok in H. naive_solver.
  - intros (-> & ? & ?). exists tt. split; [|done]. apply uniqueNonBlank_loop_ok. set_solver.
Qed.
