(* ===== verification/Ids.v ===== *)
(** * Typed identities and digests

    [internal/domain/ids.go]: prefixed UUIDv7 identities, SHA-256 digests and
    input-view identities.  A [typedID[P]] is its 16 bytes; the phantom prefix
    type [P] becomes the [prefix] argument of the operations. *)
From Stdlib Require Import Ascii.
From S2P Require Import Prelude Errors Sha256 GoStrings Values.
Abbreviation uuidV7 := (list N).

Definition prefix_researchSession := "rs".
Definition prefix_lease := "lease".
Definition prefix_agentWorkspace := "aw".
Definition prefix_exec := "exec".
Definition prefix_target := "target".
Definition prefix_targetRun := "run".
Definition prefix_targetOperation := "op".
Definition prefix_workspace := "ws".
Definition prefix_incident := "incident".
Definition prefix_capture := "capture".
Definition prefix_bundle := "bundle".
Definition prefix_export := "export".
Definition prefix_event := "event".
Definition prefix_correlation := "corr".
Definition prefix_collector := "collector".
Definition prefix_subject := "subject".

Definition id_prefixes : list string :=
  [prefix_researchSession; prefix_lease; prefix_agentWorkspace; prefix_exec; prefix_target;
   prefix_targetRun; prefix_targetOperation; prefix_workspace; prefix_incident; prefix_capture;
   prefix_bundle; prefix_export; prefix_event; prefix_correlation; prefix_collector; prefix_subject].

Definition zero_uuid : uuidV7 := repeat 0%N 16.
Definition id_IsZero (id : uuidV7) : bool := bool_decide (id = zero_uuid).

Definition formatUUID (v : uuidV7) : string :=
  hex_encode (firstn 4 v) +:+ "-" +:+ hex_encode (firstn 2 (skipn 4 v)) +:+ "-" +:+
  hex_encode (firstn 2 (skipn 6 v)) +:+ "-" +:+ hex_encode (firstn 2 (skipn 8 v)) +:+ "-" +:+
  hex_encode (skipn 10 v).

Definition id_String (prefix : string) (id : uuidV7) : string :=
  if id_IsZero id then "" else prefix +:+ "_" +:+ formatUUID id.

(** The big-endian 48-bit timestamp: [value[i] = byte(millis)] from 5 down to 0. *)
Definition millis_bytes (millis : N) : list N := be_bytes 6 millis.

(** [generateID]: [random] is what [io.ReadFull] delivers into [value[6:]],
    ten bytes, or [None] when it fails. *)
Definition generateID (now : time) (random : option (list N)) : result uuidV7 :=
  _ ← check (negb (time_IsZero now)) (NewError CodeInvalidArgument "id.generate" "time");
  let ms := time_UnixMilli now in
  _ ← check (negb ((ms <? 0)%Z || (281474976710655 <? ms)%Z))
        (NewError CodeInvalidArgument "id.generate" "time");
  entropy ← from_option_err (NewError CodeUnavailable "id.generate" "random") random;
  match entropy with
  | r6 :: r7 :: r8 :: rest =>
      Ok (millis_bytes (Z.to_N ms) ++
          [N.lor (N.land r6 15) 112; r7; N.lor (N.land r8 63) 128] ++ rest)
  | _ => Err (NewError CodeUnavailable "id.generate" "random")
  end.

Definition is_byte_at (n : nat) (s : string) (c : ascii) : bool :=
  match String.get n s with Some a => (a =? c)%char | None => false end.

Definition parseUUIDv7 (text : string) : result uuidV7 :=
  let bad := NewError CodeInvalidID "id.parse" "id" in
  _ ← check (bool_decide (String.length text = 36%nat) && is_byte_at 8 text dash
             && is_byte_at 13 text dash && is_byte_at 18 text dash && is_byte_at 23 text dash) bad;
  let compact := RemoveByte dash text in
  _ ← check (bool_decide (compact = ToLower compact)) bad;
  decoded ← from_option_err bad (hex_decode compact);
  _ ← check (bool_decide (length decoded = 16%nat)) bad;
  _ ← check (N.shiftr (nth 6 decoded 0%N) 4 =? 7)%N bad;
  _ ← check (N.shiftr (nth 8 decoded 0%N) 6 =? 2)%N bad;
  Ok decoded.

Definition parseID (prefix text : string) : result uuidV7 :=
  let bad := NewError CodeInvalidID "id.parse" "id" in
  _ ← check (HasPrefix text (prefix +:+ "_")) bad;
  value ← parseUUIDv7 (TrimPrefix text (prefix +:+ "_"));
  _ ← check (bool_decide (id_String prefix value = text)) bad;
  Ok value.

(** ** Digests *)
Definition zero_digest : list N := repeat 0%N 32.
Definition digest_IsZero (d : list N) : bool := bool_decide (d = zero_digest).
Definition digest_prefix := "sha256:".
Definition digest_String (d : list N) : string :=
  if digest_IsZero d then "" else digest_prefix +:+ hex_encode d.
Definition NewDigest (data : list N) : list N := sha256 data.

Definition ParseDigest (text : string) : result (list N) :=
  let bad := NewError CodeInvalidArgument "digest.parse" "digest" in
  _ ← check (HasPrefix text digest_prefix && bool_decide (String.length text = 71%nat)) bad;
  let hexText := TrimPrefix text digest_prefix in
  _ ← check (bool_decide (hexText = ToLower hexText)) bad;
  decoded ← from_option_err bad (hex_decode hexText);
  _ ← check (negb (digest_IsZero decoded) && bool_decide (digest_String decoded = text)) bad;
  Ok decoded.

(** ** Input views are named by a digest *)
Definition inputView_String (d : list N) : string :=
  if digest_IsZero d then "" else "iv_" +:+ TrimPrefix (digest_String d) digest_prefix.

Definition ParseInputViewID (text : string) : result (list N) :=
  let bad := NewError CodeInvalidID "input_view_id.parse" "id" in
  _ ← check (HasPrefix text "iv_") bad;
  digest ← match ParseDigest (digest_prefix +:+ TrimPrefix text "iv_") with
           | Ok d => Ok d | Err _ => Err bad end;
  _ ← check (bool_decide (inputView_String digest = text)) bad;
  Ok digest.

Definition inputView_domain : list N := bytes_of "world.input-view.v1" ++ [0%N].
Definition NewInputViewID (canonicalManifest : list N) : list N :=
  NewDigest (inputView_domain ++ canonicalManifest).

(** ** Observation cursors *)
Definition ObservationCursor_Next (c : N) : result N :=
  _ ← check (negb (c =? max_uint64)%N) (NewError CodeResourceExhausted "cursor.next" "cursor");
  Ok (u64 (c + 1)).

Example generate_and_parse :
  let id := generateID (unix_epoch + 1700000000000000000)%Z (Some (repeat 171%N 10)) in
  (id_String prefix_lease <$> id) = Ok "lease_018bcfe5-6800-7bab-abab-abababababab"
  /\ parseID prefix_lease "lease_018bcfe5-6800-7bab-abab-abababababab" = id.
Proof. split; vm_compute; reflexivity. Qed.

(** ** Facts *)

(** The sixteen bytes of an identity the codec can produce. *)
Record uuid_ok (v : uuidV7) : Prop := {
  uo_bytes : is_bytes v;
  uo_length : length v = 16%nat;
  uo_version : N.shiftr (nth 6 v 0%N) 4 = 7%N;
  uo_variant : N.shiftr (nth 8 v 0%N) 6 = 2%N }.

Lemma uuid_ok_nonzero v : uuid_ok v -> id_IsZero v = false.
Proof.
  intros [_ _ Hv _]. unfold id_IsZero. case_bool_decide; [|done]. subst. by vm_compute in Hv.
Qed.

(** An identity is sixteen explicit bytes, on which the text codec computes. *)
Lemma uuid_split (v : uuidV7) : length v = 16%nat ->
  exists a b c d e f g h i j k l m n o p, v = [a;b;c;d;e;f;g;h;i;j;k;l;m;n;o;p].
Proof. intros L. do 16 (destruct v as [|? v]; [done|]). destruct v; [|done]. by repeat eexists. Qed.

Lemma formatUUID_shape v : length v = 16%nat ->
  String.length (formatUUID v) = 36%nat /\
  is_byte_at 8 (formatUUID v) dash && is_byte_at 13 (formatUUID v) dash
  && is_byte_at 18 (formatUUID v) dash && is_byte_at 23 (formatUUID v) dash = true.
Proof.
  intros L. destruct (uuid_split v L) as (? & ? & ? & ? & ? & ? & ? & ? & ? & ? & ? & ? & ? & ? & ? & ? & ->).
  split; reflexivity.
Qed.

Lemma formatUUID_compact v : is_bytes v -> RemoveByte dash (formatUUID v) = hex_encode v.
Proof.
  intros B. unfold formatUUID. rewrite !RemoveByte_append.
  change (RemoveByte dash "-") with "".
  rewrite !hex_encode_dash by (repeat first [apply Forall_take | apply Forall_drop]; done).
  assert (Z : forall x, "" +:+ x = x) by done. rewrite !Z, <-!hex_encode_app. f_equal.
  change 10%nat with (2 + 8)%nat. rewrite <-skipn_skipn, firstn_skipn.
  change 8%nat with (2 + 6)%nat. rewrite <-skipn_skipn, firstn_skipn.
  change 6%nat with (2 + 4)%nat. by rewrite <-skipn_skipn, !firstn_skipn.
Qed.

Lemma parseUUIDv7_format v : uuid_ok v -> parseUUIDv7 (formatUUID v) = Ok v.
Proof.
  intros [B L V R]. destruct (formatUUID_shape v L) as [L' D]. unfold parseUUIDv7.
  rewrite L', formatUUID_compact, hex_encode_lower by done.
  rewrite !andb_true_iff in D. destruct D as [[[-> ->] ->] ->].
  rewrite hex_decode_encode by done. rewrite !bool_decide_eq_true_2 by done. cbn.
  rewrite bool_decide_eq_true_2 by done. cbn. rewrite V, R. done.
Qed.

Lemma parseID_String prefix v : uuid_ok v -> parseID prefix (id_String prefix v) = Ok v.
Proof.
  intros Hv. assert (E : id_String prefix v = (prefix +:+ "_") +:+ formatUUID v).
  { unfold id_String. by rewrite (uuid_ok_nonzero v Hv), append_assoc. }
  unfold parseID. rewrite E, HasPrefix_append, TrimPrefix_append, (parseUUIDv7_format v Hv).
  cbn. by rewrite E, bool_decide_eq_true_2.
Qed.

Lemma parseID_canonical prefix text v :
  parseID prefix text = Ok v -> text = id_String prefix v /\ id_IsZero v = false.
Proof.
  unfold parseID. intros H. inv_res H. to_prop. split; [done|].
  destruct (HasPrefix_true _ _ H0) as [r E]. destruct (id_IsZero v) eqn:Z; [|done].
  exfalso. subst text. unfold id_String in E. rewrite Z in E.
  apply (f_equal String.length) in E. rewrite !append_length in E. cbn in E. lia.
Qed.

(** The part of a text before its first underscore. *)
Fixpoint before_underscore (s : string) : string :=
  match s with
  | "" => ""
  | String a s' => if (a =? chr 95)%char then "" else String a (before_underscore s')
  end.

Lemma before_underscore_append p s :
  ContainsByte p (chr 95) = false -> before_underscore (p +:+ "_" +:+ s) = p.
Proof.
  induction p as [|a p IH]; [done|].
  change (String a p +:+ ?x) with (String a (p +:+ x)). cbn -[chr].
  destruct (a =? chr 95)%char; [done|]. intros H. by rewrite IH.
Qed.

Lemma id_prefixes_plain p : p ∈ id_prefixes -> ContainsByte p (chr 95) = false.
Proof.
  intros H. assert (F : Forall (fun q => ContainsByte q (chr 95) = false) id_prefixes)
    by (repeat constructor).
  by eapply (proj1 (Forall_forall _ _)) in F.
Qed.

(** Generated identities carry the version and variant bits the parser wants. *)
Lemma lor_version r : (r < 256)%N -> N.shiftr (N.lor (N.land r 15) 112) 4 = 7%N.
Proof.
  intros. rewrite N.shiftr_lor, N.shiftr_land. change (N.shiftr 15 4) with 0%N.
  by rewrite N.land_0_r.
Qed.
Lemma lor_variant r : (r < 256)%N -> N.shiftr (N.lor (N.land r 63) 128) 6 = 2%N.
Proof.
  intros. rewrite N.shiftr_lor, N.shiftr_land. change (N.shiftr 63 6) with 0%N.
  by rewrite N.land_0_r.
Qed.
Lemma lor_byte a b : (a < 256)%N -> (b < 256)%N -> (N.lor a b < 256)%N.
Proof.
  intros. destruct (N.eq_dec (N.lor a b) 0) as [->|]; [lia|].
  change 256%N with (2 ^ 8)%N in *. apply N.log2_lt_pow2; [lia|]. rewrite N.log2_lor.
  apply N.max_lub_lt.
  - destruct (N.eq_dec a 0) as [->|]; [done|]. apply N.log2_lt_pow2; lia.
  - destruct (N.eq_dec b 0) as [->|]; [done|]. apply N.log2_lt_pow2; lia.
Qed.
Lemma land_byte a m : (m < 256)%N -> (N.land a m < 256)%N.
Proof.
  intros. destruct (N.eq_dec (N.land a m) 0) as [->|]; [lia|].
  change 256%N with (2 ^ 8)%N in *. apply N.log2_lt_pow2; [lia|].
  eapply N.le_lt_trans; [apply N.log2_land|].
  eapply N.le_lt_trans; [apply N.le_min_r|].
  destruct (N.eq_dec m 0) as [->|]; [done|]. apply N.log2_lt_pow2; lia.
Qed.

Lemma generateID_uuid_ok now entropy id :
  length entropy = 10%nat -> is_bytes entropy ->
  generateID now (Some entropy) = Ok id ->
  uuid_ok id /\ firstn 6 id = millis_bytes (Z.to_N (time_UnixMilli now)).
Proof.
  intros L B H. destruct entropy as [|r6 [|r7 [|r8 rest]]]; try done.
  unfold generateID in H. inv_res H.
  inversion_clear B as [|?? B6 B']. inversion_clear B' as [|?? B7 B'']. inversion_clear B'' as [|?? B8 B9].
  assert (LM : length (millis_bytes (Z.to_N (time_UnixMilli now))) = 6%nat) by apply be_bytes_length.
  split; [split|].
  - apply Forall_app; split; [apply be_bytes_bound|].
    repeat constructor; auto using lor_byte, land_byte; apply lor_byte; try apply land_byte; lia.
  - rewrite !length_app, LM. cbn in *. lia.
  - rewrite app_nth2 by (rewrite LM; lia). rewrite LM. by apply lor_version.
  - rewrite app_nth2 by (rewrite LM; lia). rewrite LM. by apply lor_variant.
  - by rewrite take_app_le, take_ge by lia.
Qed.

(** C40: The text of a generated identity parses back to it, and under no other
    kind: for any instant and any ten random bytes for which [generateID]
    returns an identity, [parseID] with the identity's own prefix returns it,
    and [parseID] with any other prefix of the package returns an error.  The
    sixteen kinds have sixteen different prefixes. *)
Theorem generated_id_parses_only_as_its_kind now entropy id p q :
  length entropy = 10%nat -> is_bytes entropy ->
  generateID now (Some entropy) = Ok id ->
  p ∈ id_prefixes -> q ∈ id_prefixes -> p <> q ->
  parseID p (id_String p id) = Ok id /\ is_ok (parseID q (id_String p id)) = false /\
  NoDup id_prefixes /\ length id_prefixes = 16%nat.
Proof.
  intros L B G Hp Hq N. destruct (generateID_uuid_ok _ _ _ L B G) as [U _].
  split; [by apply parseID_String|]. split; [|by split; [apply (bool_decide_unpack _); vm_compute|]].
  destruct (parseID q (id_String p id)) as [v|] eqn:E; [|done]. exfalso.
  destruct (parseID_canonical _ _ _ E) as [T Z]. unfold id_String in T.
  rewrite (uuid_ok_nonzero id U), Z in T. apply (f_equal before_underscore) in T.
  by rewrite !before_underscore_append in T by (by apply id_prefixes_plain).
Qed.

Lemma generated_id_parses_only_as_its_kind_witness :
  let now := (unix_epoch + 1700000000000000000)%Z in
  let id := [1;139;207;229;104;0;123;171;171;171;171;171;171;171;171;171]%N in
  generateID now (Some (repeat 171%N 10)) = Ok id /\
  parseID "lease" (id_String "lease" id) = Ok id /\
  is_ok (parseID "exec" (id_String "lease" id)) = false /\ NoDup id_prefixes /\ length id_prefixes = 16%nat.
Proof.
  split; [vm_compute; reflexivity|].
  apply (generated_id_parses_only_as_its_kind (unix_epoch + 1700000000000000000)%Z (repeat 171%N 10)).
  - reflexivity.
  - repeat constructor.
  - vm_compute; reflexivity.
  - by apply (bool_decide_unpack ("lease" ∈ id_prefixes)).
  - by apply (bool_decide_unpack ("exec" ∈ id_prefixes)).
  - done.
Defined.

(** The digest text form is canonical: [ParseDigest] accepts a text exactly
    when it is the [String] form of 32 nonzero bytes, and then returns them, so
    parsing and printing are inverse and no digest has two spellings. *)
Theorem ParseDigest_iff text d :
  ParseDigest text = Ok d <->
  text = digest_String d /\ length d = 32%nat /\ is_bytes d /\ digest_IsZero d = false.
Proof.
  split.
  - intros H. unfold ParseDigest in H. inv_res H. to_prop. destruct H0 as [P L].
    destruct H3 as [Z T]. split; [done|]. split; [|by eauto using hex_decode_bytes].
    destruct (HasPrefix_true _ _ P) as [r ->]. rewrite TrimPrefix_append in *.
    unfold digest_String in T. rewrite Z in T. apply append_inv_head in T. subst r.
    rewrite append_length, hex_encode_length in L. cbn in L. lia.
  - intros (-> & L & B & Z). unfold ParseDigest, digest_String. rewrite Z.
    rewrite HasPrefix_append, TrimPrefix_append, append_length, hex_encode_length, L.
    rewrite hex_encode_lower, hex_decode_encode by done. cbn.
    rewrite (bool_decide_eq_true_2 (hex_encode d = _)) by done. cbn.
    unfold digest_String. rewrite Z. by rewrite bool_decide_eq_true_2.
Qed.
