(* ===== verification/Idempotency.v ===== *)
(** * Idempotency keys

    [internal/domain/idempotency.go]: which keys are canonical, and the
    derivation of a child key from a parent key and a suffix.  The derivation
    never leaves the canonical keys and, up to a SHA-256 collision, never
    sends two pairs to one key. *)
From Stdlib Require Import Ascii.
From S2P Require Import Prelude Sha256 GoStrings Utf8Facts.
Definition MaximumIdempotencyKeyBytes : nat := 1024.
Definition derivedIdempotencyDigestMarker : string := "//sha256:".
Definition derivedIdempotencyDomain : list N :=
  bytes_of "world-management-layer.idempotency-child.v1" ++ [0%N].

Definition IsCanonicalIdempotencyKey (value : string) : bool :=
  negb (bool_decide (value = "")) && (String.length value <=? MaximumIdempotencyKeyBytes)%nat
  && bool_decide (TrimSpace value = value) && ValidString value.

(** What [writeIdempotencyFrame] writes: the length in 8 big-endian bytes, then
    the bytes. *)
Definition writeIdempotencyFrame (value : string) : list N :=
  be_bytes 8 (N.of_nat (String.length value)) ++ bytes_of value.

(** The bytes hashed for a pair, and their digest. *)
Definition pair_preimage (parent suffix : string) : list N :=
  derivedIdempotencyDomain ++ writeIdempotencyFrame parent ++ writeIdempotencyFrame suffix.
Definition derivedIdempotencyPairDigest (parent suffix : string) : list N :=
  sha256 (pair_preimage parent suffix).

(** The loop [for !utf8.ValidString(value) { value = value[:len(value)-1] }] on
    [value[:n]]; an empty value is valid, so it ends there at the latest. *)
Fixpoint truncate_loop (n : nat) (value : string) : string :=
  let cut := string_take n value in
  if ValidString cut then cut else
  match n with O => cut | S n' => truncate_loop n' value end.

Definition truncateValidUTF8 (value : string) (maximumBytes : nat) : string :=
  if (String.length value <=? maximumBytes)%nat then value else truncate_loop maximumBytes value.

Definition pair_marker (parent suffix : string) : string :=
  derivedIdempotencyDigestMarker +:+ hex_encode (derivedIdempotencyPairDigest parent suffix).

Definition DeriveIdempotencyKey (parent suffix : string) : string :=
  if negb (IsCanonicalIdempotencyKey parent) || negb (IsCanonicalIdempotencyKey suffix) then ""
  else
    let candidate := parent +:+ "/" +:+ suffix in
    if negb (ContainsByte parent slash) && negb (ContainsByte suffix slash)
       && (String.length candidate <=? MaximumIdempotencyKeyBytes)%nat
    then candidate
    else
      let marker := pair_marker parent suffix in
      let prefix :=
        truncateValidUTF8 candidate (MaximumIdempotencyKeyBytes - String.length marker) in
      prefix +:+ marker.

Example derive_plain : DeriveIdempotencyKey "release" "agent" = "release/agent".
Proof. vm_compute. reflexivity. Qed.
Example derive_slash :
  DeriveIdempotencyKey "a/b" "c" =
  "a/b/c//sha256:" +:+ hex_encode (derivedIdempotencyPairDigest "a/b" "c").
Proof. vm_compute. reflexivity. Qed.
Example derive_rejects : DeriveIdempotencyKey " a" "c" = "".
Proof. vm_compute. reflexivity. Qed.

(** ** Facts *)
Lemma canonical_spec v :
  IsCanonicalIdempotencyKey v = true <->
  v <> "" /\ (String.length v <= 1024)%nat /\ lead v = false /\ trail (srev v) = false
  /\ ValidString v = true.
Proof.
  unfold IsCanonicalIdempotencyKey. rewrite !andb_true_iff, negb_true_iff, bool_decide_eq_false,
    Nat.leb_le, bool_decide_eq_true, TrimSpace_fixed. unfold MaximumIdempotencyKeyBytes. tauto.
Qed.

Lemma truncate_loop_spec n value :
  ValidString (truncate_loop n value) = true /\ (String.length (truncate_loop n value) <= n)%nat /\
  exists rest, value = truncate_loop n value +:+ rest.
Proof.
  induction n as [|n IH]; cbn [truncate_loop].
  - cbn. repeat split; [lia|by exists value].
  - case_match eqn:V.
    + repeat split; [done|rewrite string_take_length; lia|].
      exists (string_drop (S n) value). by rewrite string_take_drop.
    + destruct IH as (? & ? & ?). repeat split; [done|lia|done].
Qed.

(** Any valid prefix within the bound is a prefix of what the loop returns. *)
Lemma truncate_loop_longest n value p rest :
  value = p +:+ rest -> ValidString p = true -> (String.length p <= n)%nat ->
  (String.length p <= String.length (truncate_loop n value))%nat.
Proof.
  intros -> V. induction n as [|n IH]; intros L; cbn [truncate_loop].
  - destruct p; cbn in *; lia.
  - case_match eqn:T.
    + rewrite string_take_length, append_length. lia.
    + destruct (decide (String.length p = S n)) as [E|N]; [|apply IH; lia].
      rewrite <-E, string_take_append in T. congruence.
Qed.

Lemma truncateValidUTF8_spec value n :
  ValidString value = true ->
  ValidString (truncateValidUTF8 value n) = true /\
  (String.length (truncateValidUTF8 value n) <= n)%nat /\ exists rest, value = truncateValidUTF8 value n +:+ rest.
Proof.
  intros V. unfold truncateValidUTF8. destruct (Nat.leb_spec (String.length value) n).
  - repeat split; [done|lia|]. exists "". by rewrite append_nil_r.
  - apply truncate_loop_spec.
Qed.

(** [truncateValidUTF8] returns the longest valid prefix of a valid value that
    fits the bound. *)
Lemma truncateValidUTF8_longest value n p rest :
  value = p +:+ rest -> ValidString p = true -> (String.length p <= n)%nat ->
  (String.length p <= String.length (truncateValidUTF8 value n))%nat.
Proof.
  intros -> V L. unfold truncateValidUTF8. destruct (Nat.leb_spec (String.length (p +:+ rest)) n).
  - rewrite append_length. lia.
  - by eapply truncate_loop_longest.
Qed.

Lemma rune_length_le r : rune r -> (String.length r <= 4)%nat.
Proof. destruct 1; cbn; lia. Qed.

(** A nonempty valid value truncated to four bytes or more is nonempty. *)
Lemma truncateValidUTF8_nonempty value n :
  ValidString value = true -> value <> "" -> (4 <= n)%nat -> truncateValidUTF8 value n <> "".
Proof.
  intros V N L E. destruct (ValidString_peel value V) as [->|(r & t & Hr & -> & _)]; [done|].
  assert (Vr : ValidString r = true).
  { pose proof (ValidString_rune r "" Hr) as R. by rewrite append_nil_r in R. }
  pose proof (rune_length r Hr). pose proof (rune_length_le r Hr).
  pose proof (truncateValidUTF8_longest (r +:+ t) n r t eq_refl Vr ltac:(lia)) as C.
  rewrite E in C. cbn in C. lia.
Qed.

Lemma pair_marker_length parent suffix : String.length (pair_marker parent suffix) = 73%nat.
Proof.
  unfold pair_marker, derivedIdempotencyPairDigest.
  by rewrite append_length, hex_encode_length, sha256_length.
Qed.

Lemma ValidString_ascii a s : (byte_of a <? 128)%N = true -> ValidString (String a s) = ValidString s.
Proof. intros H. cbn [ValidString]. by rewrite H. Qed.

Lemma hex_encode_valid l : is_bytes l -> ValidString (hex_encode l) = true.
Proof.
  induction 1 as [|b l Hb _ IH]; [done|]. destruct (byte_nibbles b Hb) as [H1 H2].
  cbn [hex_encode]. rewrite !ValidString_ascii; [done|by apply hex_digit_ascii..].
Qed.

(** The last byte of a nonempty hexadecimal text is not a space. *)
Lemma hex_encode_trail l s : is_bytes l -> l <> [] -> trail (srev (s +:+ hex_encode l)) = false.
Proof.
  destruct l as [|b l _] using rev_ind; [done|]. rewrite Forall_app.
  intros [_ Hb] _. inversion_clear Hb as [|?? Hb' _]. destruct (byte_nibbles b Hb') as [H1 H2].
  rewrite hex_encode_app. cbn [hex_encode].
  change (String (hex_digit (b / 16)) (String (hex_digit (b mod 16)) ""))
    with (String (hex_digit (b / 16)) "" +:+ String (hex_digit (b mod 16)) "").
  rewrite <-!append_assoc, trail_valid.
  - cbn. by rewrite hex_digit_space.
  - rewrite ValidString_ascii; [done|by apply hex_digit_ascii].
  - done.
Qed.

Lemma digest_bytes parent suffix : is_bytes (derivedIdempotencyPairDigest parent suffix).
Proof. apply sha256_bound. Qed.
Lemma digest_nonempty parent suffix : derivedIdempotencyPairDigest parent suffix <> [].
Proof. intros E. pose proof (sha256_length (pair_preimage parent suffix)) as L.
  unfold derivedIdempotencyPairDigest in E. by rewrite E in L. Qed.

Lemma marker_valid parent suffix : ValidString (pair_marker parent suffix) = true.
Proof.
  unfold pair_marker. rewrite ValidString_append by done. apply hex_encode_valid, digest_bytes.
Qed.

Lemma candidate_valid parent suffix :
  ValidString parent = true -> ValidString suffix = true ->
  ValidString (parent +:+ "/" +:+ suffix) = true.
Proof. intros P S. rewrite ValidString_append by done. by rewrite (ValidString_append "/"). Qed.

(** Deriving a child key never leaves the canonical keys: for canonical
    [parent] and [suffix], [DeriveIdempotencyKey] returns a key that is
    nonempty, at most 1024 bytes, trimmed and valid UTF-8, whether or not the
    readable form overflows or contains a slash; for any other pair it returns
    the empty string. *)
Theorem DeriveIdempotencyKey_canonical parent suffix :
  if IsCanonicalIdempotencyKey parent && IsCanonicalIdempotencyKey suffix
  then IsCanonicalIdempotencyKey (DeriveIdempotencyKey parent suffix) = true
  else DeriveIdempotencyKey parent suffix = "".
Proof.
  unfold DeriveIdempotencyKey. rewrite <-negb_andb.
  destruct (IsCanonicalIdempotencyKey parent && _) eqn:C; [|done]. cbn [negb].
  rewrite andb_true_iff, !canonical_spec in C.
  destruct C as [(NP & LP & LeP & TrP & VP) (NS & LS & LeS & TrS & VS)].
  case_match eqn:B; apply canonical_spec.
  - rewrite !andb_true_iff, Nat.leb_le in B. destruct B as [_ B]. repeat split.
    + by destruct parent.
    + done.
    + by rewrite lead_valid.
    + by rewrite <-append_assoc, trail_valid.
    + by apply candidate_valid.
  - pose proof (candidate_valid _ _ VP VS) as VC.
    set (n := (MaximumIdempotencyKeyBytes - _)%nat).
    assert (Hn : n = 951%nat) by (subst n; by rewrite pair_marker_length).
    destruct (truncateValidUTF8_spec _ n VC) as (VT & LT & rest & E).
    assert (NT : truncateValidUTF8 (parent +:+ "/" +:+ suffix) n <> "").
    { apply truncateValidUTF8_nonempty; [done|by destruct parent|lia]. }
    set (p := truncateValidUTF8 _ n) in *. repeat split.
    + intros Z. apply NT. by destruct p.
    + rewrite append_length, pair_marker_length. lia.
    + rewrite lead_valid by done. rewrite <-(lead_valid p rest), <-E by done.
      by rewrite lead_valid.
    + unfold pair_marker. rewrite <-append_assoc.
      apply hex_encode_trail; [apply digest_bytes|apply digest_nonempty].
    + rewrite ValidString_append by done. apply marker_valid.
Qed.

(** ** Unambiguity *)
#[local] Arguments String.append : simpl nomatch.

Fixpoint count_byte (c : ascii) (s : string) : nat :=
  match s with
  | "" => 0
  | String a s' => (if (a =? c)%char then 1 else 0) + count_byte c s'
  end.

Lemma count_byte_append c a b : count_byte c (a +:+ b) = (count_byte c a + count_byte c b)%nat.
Proof.
  induction a as [|x a IH]; cbn; lia.
Qed.

Lemma count_byte_absent c s : ContainsByte s c = false -> count_byte c s = 0%nat.
Proof. induction s as [|a s IH]; cbn; [done|]. by destruct (a =? c)%char. Qed.

Lemma plain_inj p1 s1 p2 s2 :
  ContainsByte p1 slash = false -> ContainsByte p2 slash = false ->
  p1 +:+ "/" +:+ s1 = p2 +:+ "/" +:+ s2 -> p1 = p2 /\ s1 = s2.
Proof.
  revert p2. induction p1 as [|a p1 IH]; intros [|b p2] H1 H2 E.
  - by injection E.
  - injection E as <- _. by cbn in H2.
  - injection E as -> _. by cbn in H1.
  - cbn [ContainsByte] in H1, H2. injection E as -> E. destruct (b =? slash)%char; [done|].
    destruct (IH p2 H1 H2 E). by subst.
Qed.

(** A frame can be read back from the front of a byte stream. *)
Lemma frame_inj a b x y :
  (String.length a <= 1024)%nat -> (String.length b <= 1024)%nat ->
  writeIdempotencyFrame a ++ x = writeIdempotencyFrame b ++ y -> a = b /\ x = y.
Proof.
  unfold writeIdempotencyFrame. rewrite <-!app_assoc. intros La Lb E.
  apply app_inj_1 in E as [E1 E]; [|by rewrite !be_bytes_length].
  apply be_bytes_inj in E1; [|cbn; lia..]. apply Nat2N.inj in E1.
  apply app_inj_1 in E as [E2 E]; [|by rewrite !bytes_of_length].
  apply bytes_of_inj in E2. done.
Qed.

Lemma pair_preimage_inj p1 s1 p2 s2 :
  (String.length p1 <= 1024)%nat -> (String.length s1 <= 1024)%nat ->
  (String.length p2 <= 1024)%nat -> (String.length s2 <= 1024)%nat ->
  pair_preimage p1 s1 = pair_preimage p2 s2 -> p1 = p2 /\ s1 = s2.
Proof.
  unfold pair_preimage. intros ???? E. apply app_inj_1 in E as [_ E]; [|done].
  apply frame_inj in E as [-> E]; [|done..].
  rewrite <-(app_nil_r (writeIdempotencyFrame s1)), <-(app_nil_r (writeIdempotencyFrame s2)) in E.
  by apply frame_inj in E as [-> _].
Qed.

Lemma marker_inj q1 q2 p1 s1 p2 s2 :
  q1 +:+ pair_marker p1 s1 = q2 +:+ pair_marker p2 s2 ->
  derivedIdempotencyPairDigest p1 s1 = derivedIdempotencyPairDigest p2 s2.
Proof.
  intros E. assert (L : String.length q1 = String.length q2).
  { apply (f_equal String.length) in E. rewrite !append_length, !pair_marker_length in E. lia. }
  apply append_inj in E as [_ E]; [|done]. apply append_inv_head in E.
  apply hex_encode_inj in E; [done|apply digest_bytes..].
Qed.

(** Key derivation is unambiguous: if two canonical pairs derive the same
    child key then they are the same pair, or else the two length-framed
    byte strings the derivation hashes are an explicit SHA-256 collision.  In
    particular component boundaries ("a/b","c") and ("a","b/c") never collapse. *)
Theorem DeriveIdempotencyKey_injective p1 s1 p2 s2 :
  IsCanonicalIdempotencyKey p1 = true -> IsCanonicalIdempotencyKey s1 = true ->
  IsCanonicalIdempotencyKey p2 = true -> IsCanonicalIdempotencyKey s2 = true ->
  DeriveIdempotencyKey p1 s1 = DeriveIdempotencyKey p2 s2 ->
  (p1 = p2 /\ s1 = s2) \/ sha256_collision (pair_preimage p1 s1) (pair_preimage p2 s2).
Proof.
  intros C1 C2 C3 C4. unfold DeriveIdempotencyKey. rewrite C1, C2, C3, C4. cbn [negb orb].
  assert (Count : forall p s q, (2 <= count_byte slash (q +:+ pair_marker p s))%nat).
  { intros. unfold pair_marker. rewrite !count_byte_append. cbn. lia. }
  assert (Plain : forall p s, negb (ContainsByte p slash) && negb (ContainsByte s slash)
     && (String.length (p +:+ "/" +:+ s) <=? MaximumIdempotencyKeyBytes)%nat = true ->
     ContainsByte p slash = false /\ count_byte slash (p +:+ "/" +:+ s) = 1%nat).
  { intros p s B. rewrite !andb_true_iff, !negb_true_iff in B. destruct B as [[B1 B2] _].
    split; [done|].
    by rewrite !count_byte_append, (count_byte_absent slash p B1), (count_byte_absent slash s B2). }
  case_match eqn:B1; case_match eqn:B2; intros E.
  - apply Plain in B1 as [? _], B2 as [? _]. left. by apply plain_inj.
  - apply Plain in B1 as [_ B1]. rewrite E in B1.
    match type of B1 with count_byte _ (?q +:+ _) = _ => specialize (Count p2 s2 q) end. lia.
  - apply Plain in B2 as [_ B2]. rewrite <-E in B2.
    match type of B2 with count_byte _ (?q +:+ _) = _ => specialize (Count p1 s1 q) end. lia.
  - apply marker_inj in E. apply canonical_spec in C1, C2, C3, C4.
    destruct (decide (pair_preimage p1 s1 = pair_preimage p2 s2)) as [P|N].
    + left. apply pair_preimage_inj in P; tauto.
    + by right.
Qed.

Lemma DeriveIdempotencyKey_injective_witness :
  DeriveIdempotencyKey "a/b" "c" = DeriveIdempotencyKey "a/b" "c" /\
  (("a/b" = "a/b" /\ "c" = "c") \/
   sha256_collision (pair_preimage "a/b" "c") (pair_preimage "a/b" "c")).
Proof.
  split; [reflexivity|].
  apply (DeriveIdempotencyKey_injective "a/b" "c" "a/b" "c");
    [vm_compute; reflexivity..|reflexivity].
Defined.
