(* ===== verification/Models.v ===== *)
(** * Lifecycle models

    [internal/domain/lifecycle_models.go]: the immutable value models of the
    sessions, leases, agent workspaces, execs, targets, runs and operations,
    their validating constructors and their revisioned transitions.  Read
    accessors are the record projections; [cloneSlice] copies are the value
    itself. *)
From S2P Require Import Prelude Errors GoStrings States Values Ids.
Module Domain.

Record ResearchSession := mkResearchSession {
  rs_id : uuidV7; rs_state : ResearchSessionState; rs_revision : Revision;
  rs_createdAt : time; rs_updatedAt : time }.
#[global] Instance : Settable ResearchSession := {| record_eta r :=
  mkResearchSession (rs_id r) (rs_state r) (rs_revision r) (rs_createdAt r) (rs_updatedAt r) |}.

Definition NewResearchSession (id : uuidV7) (createdAt : time) : result ResearchSession :=
  _ ← requireID "research_session_id" (id_IsZero id);
  _ ← requireTime "created_at" createdAt;
  Ok (mkResearchSession id ResearchSessionRequested InitialRevision createdAt createdAt).

Definition ResearchSession_Transition (s : ResearchSession) (next : ResearchSessionState)
    (expected : Revision) (at_ : time) : result ResearchSession :=
  _ ← RequireResearchSessionTransition (rs_state s) next;
  revision ← nextModelRevision (rs_revision s) expected (rs_updatedAt s) at_;
  Ok (s <| rs_state := next |> <| rs_revision := revision |> <| rs_updatedAt := at_ |>).

Record LeaseSpec := mkLeaseSpec {
  ls_ID : uuidV7; ls_ResearchSessionID : uuidV7; ls_AgentWorkspaceID : uuidV7;
  ls_AgentGeneration : AgentGeneration; ls_InputViewID : list N; ls_PolicyDigest : list N;
  ls_CapabilityFingerprintDigest : list N; ls_ExpiresAt : time; ls_CreatedAt : time }.
#[global] Instance : Settable LeaseSpec := {| record_eta r :=
  mkLeaseSpec (ls_ID r) (ls_ResearchSessionID r) (ls_AgentWorkspaceID r) (ls_AgentGeneration r)
    (ls_InputViewID r) (ls_PolicyDigest r) (ls_CapabilityFingerprintDigest r) (ls_ExpiresAt r)
    (ls_CreatedAt r) |}.

Record Lease := mkLease {
  l_spec : LeaseSpec; l_state : LeaseState; l_revision : Revision; l_updatedAt : time }.
#[global] Instance : Settable Lease := {| record_eta r :=
  mkLease (l_spec r) (l_state r) (l_revision r) (l_updatedAt r) |}.

Definition NewLease (spec : LeaseSpec) : result Lease :=
  _ ← requireID "lease_id" (id_IsZero (ls_ID spec));
  _ ← requireID "research_session_id" (id_IsZero (ls_ResearchSessionID spec));
  _ ← requireID "agent_workspace_id" (id_IsZero (ls_AgentWorkspaceID spec));
  _ ← check (AgentGeneration_IsValid (ls_AgentGeneration spec))
        (NewError CodeInvalidArgument "lease.new" "agent_generation");
  _ ← check (negb (digest_IsZero (ls_InputViewID spec)))
        (NewError CodeInvalidID "lease.new" "input_view_id");
  _ ← check (negb (digest_IsZero (ls_PolicyDigest spec)))
        (NewError CodeInvalidArgument "lease.new" "policy_digest");
  _ ← check (negb (digest_IsZero (ls_CapabilityFingerprintDigest spec)))
        (NewError CodeInvalidArgument "lease.new" "capability_fingerprint_digest");
  _ ← requireOrderedTimes "created_at" (ls_CreatedAt spec) "expires_at" (ls_ExpiresAt spec);
  _ ← check (time_After (ls_ExpiresAt spec) (ls_CreatedAt spec))
        (NewError CodeInvalidArgument "lease.new" "expires_at");
  Ok (mkLease spec LeaseActive InitialRevision (ls_CreatedAt spec)).

Definition Lease_Renew (l : Lease) (expected : Revision) (expiresAt at_ : time) : result Lease :=
  _ ← check (bool_decide (l_state l = LeaseActive))
        (NewError CodeFailedPrecondition "lease.renew" "state");
  _ ← check (time_After expiresAt (ls_ExpiresAt (l_spec l)))
        (NewError CodeInvalidArgument "lease.renew" "expires_at");
  _ ← check (time_After expiresAt at_) (NewError CodeInvalidArgument "lease.renew" "expires_at");
  revision ← nextModelRevision (l_revision l) expected (l_updatedAt l) at_;
  Ok (l <| l_spec := (l_spec l) <| ls_ExpiresAt := expiresAt |> |>
        <| l_revision := revision |> <| l_updatedAt := at_ |>).

Definition Lease_Transition (l : Lease) (next : LeaseState) (expected : Revision) (at_ : time)
  : result Lease :=
  _ ← RequireLeaseTransition (l_state l) next;
  revision ← nextModelRevision (l_revision l) expected (l_updatedAt l) at_;
  Ok (l <| l_state := next |> <| l_revision := revision |> <| l_updatedAt := at_ |>).

Record AgentWorkspace := mkAgentWorkspace {
  aw_id : uuidV7; aw_researchSessionID : uuidV7; aw_currentGeneration : AgentGeneration;
  aw_revision : Revision; aw_createdAt : time; aw_updatedAt : time }.
#[global] Instance : Settable AgentWorkspace := {| record_eta r :=
  mkAgentWorkspace (aw_id r) (aw_researchSessionID r) (aw_currentGeneration r) (aw_revision r)
    (aw_createdAt r) (aw_updatedAt r) |}.

Definition NewAgentWorkspace (id sessionID : uuidV7) (generation : AgentGeneration)
    (createdAt : time) : result AgentWorkspace :=
  _ ← requireID "agent_workspace_id" (id_IsZero id);
  _ ← requireID "research_session_id" (id_IsZero sessionID);
  _ ← check (AgentGeneration_IsValid generation)
        (NewError CodeInvalidArgument "agent_workspace.new" "generation");
  _ ← requireTime "created_at" createdAt;
  Ok (mkAgentWorkspace id sessionID generation InitialRevision createdAt createdAt).

Definition AgentWorkspace_AdvanceGeneration (w : AgentWorkspace) (expected : Revision)
    (next : AgentGeneration) (at_ : time) : result AgentWorkspace :=
  wanted ← AgentGeneration_Next (aw_currentGeneration w);
  _ ← check (next =? wanted)%N (NewError CodeConflict "agent_workspace.advance_generation" "generation");
  revision ← nextModelRevision (aw_revision w) expected (aw_updatedAt w) at_;
  Ok (w <| aw_currentGeneration := next |> <| aw_revision := revision |> <| aw_updatedAt := at_ |>).

Record AgentWorkspaceGenerationSpec := mkAgentWorkspaceGenerationSpec {
  ags_AgentWorkspaceID : uuidV7; ags_Generation : AgentGeneration; ags_WorkspaceID : uuidV7;
  ags_InputViewID : list N; ags_PolicyDigest : list N; ags_CapabilityFingerprintDigest : list N;
  ags_PreviousGeneration : AgentGeneration; ags_RecoveryIncidentID : uuidV7; ags_CreatedAt : time }.

Record AgentWorkspaceGenerationRecord := mkAgentWorkspaceGenerationRecord {
  ag_spec : AgentWorkspaceGenerationSpec; ag_state : AgentGenerationState;
  ag_revision : Revision; ag_updatedAt : time }.
#[global] Instance : Settable AgentWorkspaceGenerationRecord := {| record_eta r :=
  mkAgentWorkspaceGenerationRecord (ag_spec r) (ag_state r) (ag_revision r) (ag_updatedAt r) |}.

Definition NewAgentWorkspaceGeneration (spec : AgentWorkspaceGenerationSpec)
  : result AgentWorkspaceGenerationRecord :=
  _ ← requireID "agent_workspace_id" (id_IsZero (ags_AgentWorkspaceID spec));
  _ ← check (AgentGeneration_IsValid (ags_Generation spec))
        (NewError CodeInvalidArgument "agent_generation.new" "generation");
  _ ← requireID "workspace_id" (id_IsZero (ags_WorkspaceID spec));
  _ ← check (negb (digest_IsZero (ags_InputViewID spec)))
        (NewError CodeInvalidID "agent_generation.new" "input_view_id");
  _ ← check (negb (digest_IsZero (ags_PolicyDigest spec)
                   || digest_IsZero (ags_CapabilityFingerprintDigest spec)))
        (NewError CodeInvalidArgument "agent_generation.new" "provenance_digest");
  _ ← (if (ags_Generation spec =? InitialAgentGeneration)%N
       then check (negb (negb (ags_PreviousGeneration spec =? 0)%N
                         || negb (id_IsZero (ags_RecoveryIncidentID spec))))
              (NewError CodeInvalidArgument "agent_generation.new" "previous_generation")
       else check (ags_PreviousGeneration spec =? ags_Generation spec - 1)%N
              (NewError CodeInvalidArgument "agent_generation.new" "previous_generation"));
  _ ← requireTime "created_at" (ags_CreatedAt spec);
  Ok (mkAgentWorkspaceGenerationRecord spec AgentGenerationProvisioning InitialRevision
        (ags_CreatedAt spec)).

Definition AgentWorkspaceGenerationRecord_Transition (g : AgentWorkspaceGenerationRecord)
    (next : AgentGenerationState) (expected : Revision) (at_ : time)
  : result AgentWorkspaceGenerationRecord :=
  _ ← RequireAgentGenerationTransition (ag_state g) next;
  revision ← nextModelRevision (ag_revision g) expected (ag_updatedAt g) at_;
  Ok (g <| ag_state := next |> <| ag_revision := revision |> <| ag_updatedAt := at_ |>).

Inductive ExecKind := ExecProvider | ExecTool | ExecKindUnrecognized (s : string).
#[global] Instance ExecKind_eq_dec : EqDecision ExecKind.
Proof. solve_decision. Defined.
Definition ExecKind_IsValid (k : ExecKind) : bool :=
  match k with ExecKindUnrecognized _ => false | _ => true end.

Record ExecSpec := mkExecSpec {
  es_ID : uuidV7; es_LeaseID : uuidV7; es_AgentWorkspaceID : uuidV7;
  es_AgentGeneration : AgentGeneration; es_Kind : ExecKind; es_Executable : string;
  es_Argv : list string; es_WorkingDirectory : string; es_CreatedAt : time }.
Record Exec := mkExec {
  e_spec : ExecSpec; e_state : ExecState; e_revision : Revision; e_updatedAt : time }.
#[global] Instance : Settable Exec := {| record_eta r :=
  mkExec (e_spec r) (e_state r) (e_revision r) (e_updatedAt r) |}.

Definition NewExec (spec : ExecSpec) : result Exec :=
  _ ← requireID "exec_id" (id_IsZero (es_ID spec));
  _ ← requireID "lease_id" (id_IsZero (es_LeaseID spec));
  _ ← requireID "agent_workspace_id" (id_IsZero (es_AgentWorkspaceID spec));
  _ ← check (AgentGeneration_IsValid (es_AgentGeneration spec))
        (NewError CodeInvalidArgument "exec.new" "agent_generation");
  _ ← check (ExecKind_IsValid (es_Kind spec)) (NewError CodeInvalidArgument "exec.new" "kind");
  _ ← requireNonBlank "executable" (es_Executable spec);
  _ ← requireRelativePath "working_directory" (es_WorkingDirectory spec) true;
  _ ← requireTime "created_at" (es_CreatedAt spec);
  Ok (mkExec spec ExecRequested InitialRevision (es_CreatedAt spec)).

Definition Exec_Transition (e : Exec) (next : ExecState) (expected : Revision) (at_ : time)
  : result Exec :=
  _ ← RequireExecTransition (e_state e) next;
  revision ← nextModelRevision (e_revision e) expected (e_updatedAt e) at_;
  Ok (e <| e_state := next |> <| e_revision := revision |> <| e_updatedAt := at_ |>).

Inductive TargetKind :=
| TargetLinuxContainer | TargetAndroidVirtualDevice | TargetPhysicalDevice
| TargetKindUnrecognized (s : string).
#[global] Instance TargetKind_eq_dec : EqDecision TargetKind.
Proof. solve_decision. Defined.
Definition TargetKind_IsValid (k : TargetKind) : bool :=
  match k with TargetKindUnrecognized _ => false | _ => true end.

Record Target := mkTarget {
  t_id : uuidV7; t_researchSessionID : uuidV7; t_kind : TargetKind;
  t_currentGeneration : TargetGeneration; t_revision : Revision; t_createdAt : time;
  t_updatedAt : time }.
#[global] Instance : Settable Target := {| record_eta r :=
  mkTarget (t_id r) (t_researchSessionID r) (t_kind r) (t_currentGeneration r) (t_revision r)
    (t_createdAt r) (t_updatedAt r) |}.

Definition NewTarget (id sessionID : uuidV7) (kind : TargetKind) (generation : TargetGeneration)
    (createdAt : time) : result Target :=
  _ ← requireID "target_id" (id_IsZero id);
  _ ← requireID "research_session_id" (id_IsZero sessionID);
  _ ← check (TargetKind_IsValid kind) (NewError CodeInvalidArgument "target.new" "kind");
  _ ← check (TargetGeneration_IsValid generation) (NewError CodeInvalidArgument "target.new" "generation");
  _ ← requireTime "created_at" createdAt;
  Ok (mkTarget id sessionID kind generation InitialRevision createdAt createdAt).

Definition Target_AdvanceGeneration (t : Target) (expected : Revision) (next : TargetGeneration)
    (at_ : time) : result Target :=
  wanted ← TargetGeneration_Next (t_currentGeneration t);
  _ ← check (next =? wanted)%N (NewError CodeConflict "target.advance_generation" "generation");
  revision ← nextModelRevision (t_revision t) expected (t_updatedAt t) at_;
  Ok (t <| t_currentGeneration := next |> <| t_revision := revision |> <| t_updatedAt := at_ |>).

Record TargetGenerationSpec := mkTargetGenerationSpec {
  tgs_TargetID : uuidV7; tgs_Generation : TargetGeneration; tgs_PolicyDigest : list N;
  tgs_CapabilityFingerprintDigest : list N; tgs_PreviousGeneration : TargetGeneration;
  tgs_RecoveryIncidentID : uuidV7; tgs_CreatedAt : time }.
Record TargetGenerationRecord := mkTargetGenerationRecord {
  tg_spec : TargetGenerationSpec; tg_state : TargetGenerationState; tg_revision : Revision;
  tg_updatedAt : time }.
#[global] Instance : Settable TargetGenerationRecord := {| record_eta r :=
  mkTargetGenerationRecord (tg_spec r) (tg_state r) (tg_revision r) (tg_updatedAt r) |}.

Definition NewTargetGeneration (spec : TargetGenerationSpec) : result TargetGenerationRecord :=
  _ ← requireID "target_id" (id_IsZero (tgs_TargetID spec));
  _ ← check (TargetGeneration_IsValid (tgs_Generation spec))
        (NewError CodeInvalidArgument "target_generation.new" "generation");
  _ ← check (negb (digest_IsZero (tgs_PolicyDigest spec)
                   || digest_IsZero (tgs_CapabilityFingerprintDigest spec)))
        (NewError CodeInvalidArgument "target_generation.new" "provenance_digest");
  _ ← (if (tgs_Generation spec =? InitialTargetGeneration)%N
       then check (negb (negb (tgs_PreviousGeneration spec =? 0)%N
                         || negb (id_IsZero (tgs_RecoveryIncidentID spec))))
              (NewError CodeInvalidArgument "target_generation.new" "previous_generation")
       else check (tgs_PreviousGeneration spec =? tgs_Generation spec - 1)%N
              (NewError CodeInvalidArgument "target_generation.new" "previous_generation"));
  _ ← requireTime "created_at" (tgs_CreatedAt spec);
  Ok (mkTargetGenerationRecord spec TargetGenerationProvisioning InitialRevision (tgs_CreatedAt spec)).

Definition TargetGenerationRecord_Transition (g : TargetGenerationRecord)
    (next : TargetGenerationState) (expected : Revision) (at_ : time)
  : result TargetGenerationRecord :=
  _ ← RequireTargetGenerationTransition (tg_state g) next;
  revision ← nextModelRevision (tg_revision g) expected (tg_updatedAt g) at_;
  Ok (g <| tg_state := next |> <| tg_revision := revision |> <| tg_updatedAt := at_ |>).

Record TargetRunSpec := mkTargetRunSpec {
  trs_ID : uuidV7; trs_LeaseID : uuidV7; trs_TargetID : uuidV7;
  trs_TargetGeneration : TargetGeneration; trs_AgentWorkspaceID : uuidV7;
  trs_AgentGeneration : AgentGeneration; trs_MaterializationDigest : list N; trs_CreatedAt : time }.
Record TargetRun := mkTargetRun {
  tr_spec : TargetRunSpec; tr_state : TargetRunState; tr_revision : Revision; tr_updatedAt : time }.
#[global] Instance : Settable TargetRun := {| record_eta r :=
  mkTargetRun (tr_spec r) (tr_state r) (tr_revision r) (tr_updatedAt r) |}.

Definition NewTargetRun (spec : TargetRunSpec) : result TargetRun :=
  _ ← requireID "target_run_id" (id_IsZero (trs_ID spec));
  _ ← requireID "lease_id" (id_IsZero (trs_LeaseID spec));
  _ ← requireID "target_id" (id_IsZero (trs_TargetID spec));
  _ ← requireID "agent_workspace_id" (id_IsZero (trs_AgentWorkspaceID spec));
  _ ← check (TargetGeneration_IsValid (trs_TargetGeneration spec))
        (NewError CodeInvalidArgument "target_run.new" "target_generation");
  _ ← check (AgentGeneration_IsValid (trs_AgentGeneration spec))
        (NewError CodeInvalidArgument "target_run.new" "agent_generation");
  _ ← check (negb (digest_IsZero (trs_MaterializationDigest spec)))
        (NewError CodeInvalidArgument "target_run.new" "materialization_digest");
  _ ← requireTime "created_at" (trs_CreatedAt spec);
  Ok (mkTargetRun spec TargetRunRequested InitialRevision (trs_CreatedAt spec)).

Definition TargetRun_Transition (r : TargetRun) (next : TargetRunState) (expected : Revision)
    (at_ : time) : result TargetRun :=
  _ ← RequireTargetRunTransition (tr_state r) next;
  revision ← nextModelRevision (tr_revision r) expected (tr_updatedAt r) at_;
  Ok (r <| tr_state := next |> <| tr_revision := revision |> <| tr_updatedAt := at_ |>).

Inductive TargetOperationKind :=
| TargetOperationExec | TargetOperationShell | TargetOperationPush | TargetOperationPull
| TargetOperationADBService | TargetOperationLifecycle
| TargetOperationKindUnrecognized (s : string).
#[global] Instance TargetOperationKind_eq_dec : EqDecision TargetOperationKind.
Proof. solve_decision. Defined.
Definition TargetOperationKind_IsValid (k : TargetOperationKind) : bool :=
  match k with TargetOperationKindUnrecognized _ => false | _ => true end.

Record TargetOperationSpec := mkTargetOperationSpec {
  tos_ID : uuidV7; tos_LeaseID : uuidV7; tos_TargetID : uuidV7;
  tos_TargetGeneration : TargetGeneration; tos_TargetRunID : uuidV7;
  tos_Kind : TargetOperationKind; tos_CommandDisplay : string; tos_ContentDigest : list N;
  tos_CreatedAt : time }.
Record TargetOperation := mkTargetOperation {
  to_spec : TargetOperationSpec; to_state : TargetOperationState; to_revision : Revision;
  to_updatedAt : time }.
#[global] Instance : Settable TargetOperation := {| record_eta r :=
  mkTargetOperation (to_spec r) (to_state r) (to_revision r) (to_updatedAt r) |}.

Definition NewTargetOperation (spec : TargetOperationSpec) : result TargetOperation :=
  _ ← requireID "target_operation_id" (id_IsZero (tos_ID spec));
  _ ← requireID "lease_id" (id_IsZero (tos_LeaseID spec));
  _ ← requireID "target_id" (id_IsZero (tos_TargetID spec));
  _ ← requireID "target_run_id" (id_IsZero (tos_TargetRunID spec));
  _ ← check (TargetGeneration_IsValid (tos_TargetGeneration spec))
        (NewError CodeInvalidArgument "target_operation.new" "target_generation");
  _ ← check (TargetOperationKind_IsValid (tos_Kind spec))
        (NewError CodeInvalidArgument "target_operation.new" "kind");
  _ ← check (negb (bool_decide (tos_CommandDisplay spec = "") && digest_IsZero (tos_ContentDigest spec)))
        (NewError CodeInvalidArgument "target_operation.new" "description");
  _ ← requireTime "created_at" (tos_CreatedAt spec);
  Ok (mkTargetOperation spec TargetOperationRequested InitialRevision (tos_CreatedAt spec)).

Definition TargetOperation_Transition (o : TargetOperation) (next : TargetOperationState)
    (expected : Revision) (at_ : time) : result TargetOperation :=
  _ ← RequireTargetOperationTransition (to_state o) next;
  revision ← nextModelRevision (to_revision o) expected (to_updatedAt o) at_;
  Ok (o <| to_state := next |> <| to_revision := revision |> <| to_updatedAt := at_ |>).

End Domain.

(** ** The revisioned-model interface

    What every lifecycle model promises its callers: its [Transition] is the
    state-machine guard, then the optimistic-concurrency check, then an update
    of exactly the state, the revision and the update instant. *)
Class RevisionedModel (M S : Type) := {
  rm_state : M -> S;
  rm_revision : M -> Revision;
  rm_updatedAt : M -> time;
  rm_require : S -> S -> result unit;
  rm_put : M -> S -> Revision -> time -> M;
  rm_Transition : M -> S -> Revision -> time -> result M;
  rm_eq : forall m next expected at_,
    rm_Transition m next expected at_ =
    (_ ← rm_require (rm_state m) next;
     revision ← nextModelRevision (rm_revision m) expected (rm_updatedAt m) at_;
     Ok (rm_put m next revision at_))
}.

Section Instances.
Import Domain.
#[export, refine] Instance session_model : RevisionedModel ResearchSession ResearchSessionState := {|
  rm_state := rs_state; rm_revision := rs_revision; rm_updatedAt := rs_updatedAt;
  rm_require := RequireResearchSessionTransition; rm_Transition := ResearchSession_Transition;
  rm_put m s r t := m <| rs_state := s |> <| rs_revision := r |> <| rs_updatedAt := t |> |}.
Proof. reflexivity. Defined.
#[export, refine] Instance lease_model : RevisionedModel Lease LeaseState := {|
  rm_state := l_state; rm_revision := l_revision; rm_updatedAt := l_updatedAt;
  rm_require := RequireLeaseTransition; rm_Transition := Lease_Transition;
  rm_put m s r t := m <| l_state := s |> <| l_revision := r |> <| l_updatedAt := t |> |}.
Proof. reflexivity. Defined.
#[export, refine] Instance agent_generation_model :
    RevisionedModel AgentWorkspaceGenerationRecord AgentGenerationState := {|
  rm_state := ag_state; rm_revision := ag_revision; rm_updatedAt := ag_updatedAt;
  rm_require := RequireAgentGenerationTransition;
  rm_Transition := AgentWorkspaceGenerationRecord_Transition;
  rm_put m s r t := m <| ag_state := s |> <| ag_revision := r |> <| ag_updatedAt := t |> |}.
Proof. reflexivity. Defined.
#[export, refine] Instance exec_model : RevisionedModel Exec ExecState := {|
  rm_state := e_state; rm_revision := e_revision; rm_updatedAt := e_updatedAt;
  rm_require := RequireExecTransition; rm_Transition := Exec_Transition;
  rm_put m s r t := m <| e_state := s |> <| e_revision := r |> <| e_updatedAt := t |> |}.
Proof. reflexivity. Defined.
#[export, refine] Instance target_generation_model :
    RevisionedModel TargetGenerationRecord TargetGenerationState := {|
  rm_state := tg_state; rm_revision := tg_revision; rm_updatedAt := tg_updatedAt;
  rm_require := RequireTargetGenerationTransition;
  rm_Transition := TargetGenerationRecord_Transition;
  rm_put m s r t := m <| tg_state := s |> <| tg_revision := r |> <| tg_updatedAt := t |> |}.
Proof. reflexivity. Defined.
#[export, refine] Instance target_run_model : RevisionedModel TargetRun TargetRunState := {|
  rm_state := tr_state; rm_revision := tr_revision; rm_updatedAt := tr_updatedAt;
  rm_require := RequireTargetRunTransition; rm_Transition := TargetRun_Transition;
  rm_put m s r t := m <| tr_state := s |> <| tr_revision := r |> <| tr_updatedAt := t |> |}.
Proof. reflexivity. Defined.
#[export, refine] Instance target_operation_model :
    RevisionedModel TargetOperation TargetOperationState := {|
  rm_state := to_state; rm_revision := to_revision; rm_updatedAt := to_updatedAt;
  rm_require := RequireTargetOperationTransition; rm_Transition := TargetOperation_Transition;
  rm_put m s r t := m <| to_state := s |> <| to_revision := r |> <| to_updatedAt := t |> |}.
Proof. reflexivity. Defined.
End Instances.

Lemma unit_result (r : result unit) : (exists u, r = Ok u) <-> r = Ok tt.
Proof. split; [intros [[] ->]; done|intros ->; by exists tt]. Qed.

Lemma rm_Transition_ok {M S} `{RevisionedModel M S} (m m' : M) next expected at_ :
  (rm_revision m < two64)%N ->
  rm_Transition m next expected at_ = Ok m' <->
  rm_require (rm_state m) next = Ok tt /\ expected = rm_revision m /\
  (1 <= rm_revision m < max_uint64)%N /\ at_ <> 0%Z /\ (rm_updatedAt m <= at_)%Z /\
  m' = rm_put m next (rm_revision m + 1)%N at_.
Proof.
  intros B. rewrite rm_eq, res_bind_ok. setoid_rewrite res_bind_ok.
  setoid_rewrite (nextModelRevision_ok _ _ _ _ _ B). split.
  - intros ([] & ? & r & (? & ? & ? & ? & ->) & E). apply Ok_inj in E. done.
  - intros (? & ? & ? & ? & ? & ->). eauto 10.
Qed.

(** The contract of a model's [Transition], on a revision that fits 64 bits. *)
Definition transition_contract (M S : Type) `{RevisionedModel M S} : Prop :=
  forall (m m' : M) (next : S) expected at_,
    (rm_revision m < two64)%N ->
    rm_Transition m next expected at_ = Ok m' <->
    rm_require (rm_state m) next = Ok tt /\ expected = rm_revision m /\
    (1 <= rm_revision m < max_uint64)%N /\ at_ <> 0%Z /\ (rm_updatedAt m <= at_)%Z /\
    m' = rm_put m next (rm_revision m + 1)%N at_.

(** Each of the seven lifecycle models transitions exactly when its state
    machine allows the step, the caller's expected revision is the current one,
    the revision is in 1..2^64-2 (so the successor does not wrap) and the
    instant is set and not before the last update; the result then differs from
    the model in its state, a revision one higher and the update instant. *)
Theorem model_transitions_exact :
  transition_contract Domain.ResearchSession ResearchSessionState /\
  transition_contract Domain.Lease LeaseState /\
  transition_contract Domain.AgentWorkspaceGenerationRecord AgentGenerationState /\
  transition_contract Domain.Exec ExecState /\
  transition_contract Domain.TargetGenerationRecord TargetGenerationState /\
  transition_contract Domain.TargetRun TargetRunState /\
  transition_contract Domain.TargetOperation TargetOperationState.
Proof.
  repeat match goal with
         | |- transition_contract _ _ => intros m m' next expected at_; apply rm_Transition_ok
         | |- _ /\ _ => split
         end.
Qed.
