(* ===== verification/Evidence.v ===== *)
(** * Evidence models

    The parts of [internal/domain/observation.go] and
    [internal/domain/evidence_models.go] that incidents are made of: metric
    samples, gaps, collector coverage, artifact references, cause assessments
    and the incident model itself.  A [float64] is a [spec_float], compared as
    IEEE 754 prescribes. *)
From Stdlib Require Import SpecFloat.
From S2P Require Import Prelude Errors GoStrings States Values Ids.
#[export] Instance spec_float_eq_dec : EqDecision spec_float.
Proof. solve_decision. Defined.

(** The comparisons the code makes: all are false on NaN. *)
Definition float_zero : spec_float := S754_zero false.
Definition float_one : spec_float := S754_finite false 4503599627370496 (-52).
Definition float_lt (a b : spec_float) : bool := SFltb a b.
Definition float_eq (a b : spec_float) : bool := SFeqb a b.
Definition float_IsNaN (a : spec_float) : bool := match a with S754_nan => true | _ => false end.
Definition float_IsInf (a : spec_float) : bool := match a with S754_infinity _ => true | _ => false end.


Inductive Sensitivity :=
| SensitivityPublic | SensitivityInternal | SensitivityRestricted | SensitivitySecret
| SensitivityUnrecognized (s : string).
#[export] Instance Sensitivity_eq_dec : EqDecision Sensitivity.
Proof. solve_decision. Defined.
Definition Sensitivity_IsValid (k : Sensitivity) : bool :=
  match k with SensitivityUnrecognized _ => false | _ => true end.

Inductive CollectorPlacement :=
| CollectorPlacementHost | CollectorPlacementObserverNamespace | CollectorPlacementGuest
| CollectorPlacementInjectedProcess | CollectorPlacementExternal
| CollectorPlacementUnrecognized (s : string).
#[export] Instance CollectorPlacement_eq_dec : EqDecision CollectorPlacement.
Proof. solve_decision. Defined.
Definition CollectorPlacement_IsValid (k : CollectorPlacement) : bool :=
  match k with CollectorPlacementUnrecognized _ => false | _ => true end.

Inductive CoverageLevel :=
| CoverageLevelUnknown | CoverageLevelNone | CoverageLevelPartial | CoverageLevelComplete
| CoverageLevelUnrecognized (s : string).
#[export] Instance CoverageLevel_eq_dec : EqDecision CoverageLevel.
Proof. solve_decision. Defined.
Definition CoverageLevel_IsValid (k : CoverageLevel) : bool :=
  match k with CoverageLevelUnrecognized _ => false | _ => true end.

Inductive CoverageStatus :=
| CoverageUnknown | CoverageAvailable | CoverageDegraded | CoverageLost | CoverageUnsupported
| CoverageStatusUnrecognized (s : string).
#[export] Instance CoverageStatus_eq_dec : EqDecision CoverageStatus.
Proof. solve_decision. Defined.
Definition CoverageStatus_IsValid (k : CoverageStatus) : bool :=
  match k with CoverageStatusUnrecognized _ => false | _ => true end.

Inductive GapKind :=
| GapDropped | GapOverflow | GapUnavailable | GapStale | GapCompacted | GapCollectorRestart
| GapClockUncertainty | GapLedgerRepair
| GapKindUnrecognized (s : string).
#[export] Instance GapKind_eq_dec : EqDecision GapKind.
Proof. solve_decision. Defined.
Definition GapKind_IsValid (k : GapKind) : bool :=
  match k with GapKindUnrecognized _ => false | _ => true end.

Inductive MetricKind :=
| MetricCounter | MetricGauge | MetricRate
| MetricKindUnrecognized (s : string).
#[export] Instance MetricKind_eq_dec : EqDecision MetricKind.
Proof. solve_decision. Defined.
Definition MetricKind_IsValid (k : MetricKind) : bool :=
  match k with MetricKindUnrecognized _ => false | _ => true end.

Inductive MetricAvailability :=
| MetricAvailable | MetricUnsupported | MetricStale | MetricLost | MetricUnknown
| MetricAvailabilityUnrecognized (s : string).
#[export] Instance MetricAvailability_eq_dec : EqDecision MetricAvailability.
Proof. solve_decision. Defined.
Definition MetricAvailability_IsValid (k : MetricAvailability) : bool :=
  match k with MetricAvailabilityUnrecognized _ => false | _ => true end.

Inductive SubjectKind :=
| SubjectHost | SubjectLease | SubjectAgentWorkspace | SubjectExec | SubjectLinuxTarget
| SubjectAndroidRuntime | SubjectAndroidGuest | SubjectAndroidApp | SubjectProcess
| SubjectCollector | SubjectInputView | SubjectNetwork
| SubjectKindUnrecognized (s : string).
#[export] Instance SubjectKind_eq_dec : EqDecision SubjectKind.
Proof. solve_decision. Defined.
Definition SubjectKind_IsValid (k : SubjectKind) : bool :=
  match k with SubjectKindUnrecognized _ => false | _ => true end.

Inductive IncidentClassification :=
| IncidentAgentExecFailure | IncidentAgentWorkspaceFailure | IncidentTargetWorkloadExit
| IncidentLinuxTargetFailure | IncidentEmulatorFailure | IncidentAndroidFailure
| IncidentDeviceDisconnect | IncidentHostPressure | IncidentResourceEviction
| IncidentObserverFailure | IncidentWorkspaceIntegrity | IncidentControlPlaneFailure
| IncidentClassificationUnrecognized (s : string).
#[export] Instance IncidentClassification_eq_dec : EqDecision IncidentClassification.
Proof. solve_decision. Defined.
Definition IncidentClassification_IsValid (k : IncidentClassification) : bool :=
  match k with IncidentClassificationUnrecognized _ => false | _ => true end.

Inductive CauseKind :=
| CauseProven | CauseCorrelated | CauseUnknown
| CauseKindUnrecognized (s : string).
#[export] Instance CauseKind_eq_dec : EqDecision CauseKind.
Proof. solve_decision. Defined.
Definition CauseKind_IsValid (k : CauseKind) : bool :=
  match k with CauseKindUnrecognized _ => false | _ => true end.

Abbreviation ObservationCursor := N.

Record GapSpec := mkGapSpec {
  gs_Kind : GapKind; gs_Source : string; gs_SourceInstance : string; gs_FirstSourceSequence : N;
  gs_LastSourceSequence : N; gs_FirstCursor : N; gs_LastCursor : N; gs_StartedAt : time;
  gs_EndedAt : time; gs_LostRecords : N; gs_Reason : string }.
#[export] Instance : Settable GapSpec := {| record_eta r :=
  mkGapSpec (gs_Kind r) (gs_Source r) (gs_SourceInstance r) (gs_FirstSourceSequence r)
    (gs_LastSourceSequence r) (gs_FirstCursor r) (gs_LastCursor r) (gs_StartedAt r) (gs_EndedAt r)
    (gs_LostRecords r) (gs_Reason r) |}.
#[export] Instance GapSpec_eq_dec : EqDecision GapSpec.
Proof. solve_decision. Defined.

(** [Gap], [CollectorCoverage], [MetricSample], [ArtifactReference] and
    [CauseAssessment] each wrap their validated specification. *)
Definition time_range_ok (start end_ : time) : bool :=
  Bool.eqb (time_IsZero start) (time_IsZero end_).

Definition NewGap (spec : GapSpec) : result GapSpec :=
  let bad := NewError CodeInvalidArgument "gap.new" in
  _ ← check (GapKind_IsValid (gs_Kind spec)) (bad "kind");
  _ ← requireNonBlank "source" (gs_Source spec);
  _ ← requireNonBlank "reason" (gs_Reason spec);
  _ ← check (negb ((0 <? gs_LastSourceSequence spec)%N
                   && (gs_LastSourceSequence spec <? gs_FirstSourceSequence spec)%N))
        (bad "last_source_sequence");
  _ ← check (negb ((0 <? gs_LastCursor spec)%N && (gs_LastCursor spec <? gs_FirstCursor spec)%N))
        (bad "last_cursor");
  _ ← check (time_range_ok (gs_StartedAt spec) (gs_EndedAt spec)) (bad "time_range");
  _ ← check (negb (negb (time_IsZero (gs_StartedAt spec))
                   && time_Before (gs_EndedAt spec) (gs_StartedAt spec))) (bad "ended_at");
  Ok spec.

Record CollectorCoverageSpec := mkCollectorCoverageSpec {
  cs_CollectorID : uuidV7; cs_SignalFamily : string; cs_Placement : CollectorPlacement;
  cs_Level : CoverageLevel; cs_Status : CoverageStatus; cs_Required : bool; cs_StartedAt : time;
  cs_EndedAt : time; cs_DroppedRecords : N; cs_Gaps : list GapSpec }.
#[export] Instance : Settable CollectorCoverageSpec := {| record_eta r :=
  mkCollectorCoverageSpec (cs_CollectorID r) (cs_SignalFamily r) (cs_Placement r) (cs_Level r)
    (cs_Status r) (cs_Required r) (cs_StartedAt r) (cs_EndedAt r) (cs_DroppedRecords r)
    (cs_Gaps r) |}.
#[export] Instance CollectorCoverageSpec_eq_dec : EqDecision CollectorCoverageSpec.
Proof. solve_decision. Defined.

Definition NewCollectorCoverage (spec : CollectorCoverageSpec) : result CollectorCoverageSpec :=
  let bad := NewError CodeInvalidArgument "coverage.new" in
  _ ← check (negb (id_IsZero (cs_CollectorID spec)))
        (NewError CodeInvalidID "coverage.new" "collector_id");
  _ ← requireNonBlank "signal_family" (cs_SignalFamily spec);
  _ ← check (CollectorPlacement_IsValid (cs_Placement spec)) (bad "placement");
  _ ← check (CoverageLevel_IsValid (cs_Level spec)) (bad "level");
  _ ← check (CoverageStatus_IsValid (cs_Status spec)) (bad "status");
  _ ← check (time_range_ok (cs_StartedAt spec) (cs_EndedAt spec)) (bad "time_range");
  _ ← check (negb (negb (time_IsZero (cs_StartedAt spec))
                   && time_Before (cs_EndedAt spec) (cs_StartedAt spec))) (bad "ended_at");
  _ ← check (negb (bool_decide (cs_Status spec = CoverageUnsupported)
                   && negb (bool_decide (cs_Level spec = CoverageLevelNone)))) (bad "level");
  _ ← check (negb (bool_decide (cs_Level spec = CoverageLevelComplete)
                   && ((0 <? cs_DroppedRecords spec)%N || negb (bool_decide (cs_Gaps spec = []))
                       || negb (bool_decide (cs_Status spec = CoverageAvailable))))) (bad "level");
  Ok spec.

Record MetricSampleSpec := mkMetricSampleSpec {
  ms_SubjectID : uuidV7; ms_SubjectKind : SubjectKind; ms_Name : string; ms_Unit : string;
  ms_Kind : MetricKind; ms_Availability : MetricAvailability; ms_CounterValue : option N;
  ms_NumericValue : option spec_float; ms_CollectedAt : time; ms_PublishedAt : time;
  ms_Cursor : ObservationCursor; ms_Labels : gmap string string; ms_ExecID : uuidV7;
  ms_TargetRunID : uuidV7 }.
#[export] Instance : Settable MetricSampleSpec := {| record_eta r :=
  mkMetricSampleSpec (ms_SubjectID r) (ms_SubjectKind r) (ms_Name r) (ms_Unit r) (ms_Kind r)
    (ms_Availability r) (ms_CounterValue r) (ms_NumericValue r) (ms_CollectedAt r)
    (ms_PublishedAt r) (ms_Cursor r) (ms_Labels r) (ms_ExecID r) (ms_TargetRunID r) |}.

(** [validateStringMap]: every key and value is non-blank.  Go visits the map
    in an unspecified order; the error names the operation and field only. *)
Definition validateStringMap (op field : string) (values : gmap string string) : result unit :=
  check (forallb (fun kv => negb (blank (fst kv)) && negb (blank (snd kv))) (map_to_list values))
    (NewError CodeInvalidArgument op field).

Definition is_Some_b {A} (o : option A) : bool := match o with Some _ => true | None => false end.

Definition NewMetricSample (spec : MetricSampleSpec) : result MetricSampleSpec :=
  let bad := NewError CodeInvalidArgument "metric.new" in
  _ ← check (negb (id_IsZero (ms_SubjectID spec))) (NewError CodeInvalidID "metric.new" "subject_id");
  _ ← check (SubjectKind_IsValid (ms_SubjectKind spec)) (bad "subject_kind");
  _ ← requireNonBlank "name" (ms_Name spec);
  _ ← requireNonBlank "unit" (ms_Unit spec);
  _ ← check (MetricKind_IsValid (ms_Kind spec)) (bad "kind");
  _ ← check (MetricAvailability_IsValid (ms_Availability spec)) (bad "availability");
  _ ← requireOrderedTimes "collected_at" (ms_CollectedAt spec) "published_at" (ms_PublishedAt spec);
  _ ← validateStringMap "metric.new" "labels" (ms_Labels spec);
  _ ← (if bool_decide (ms_Availability spec = MetricAvailable) then
         if bool_decide (ms_Kind spec = MetricCounter)
         then check (is_Some_b (ms_CounterValue spec) && negb (is_Some_b (ms_NumericValue spec)))
                (bad "value")
         else
           match ms_NumericValue spec, ms_CounterValue spec with
           | Some v, None => check (negb (float_IsNaN v || float_IsInf v)) (bad "numeric_value")
           | _, _ => Err (bad "value")
           end
       else check (negb (is_Some_b (ms_CounterValue spec) || is_Some_b (ms_NumericValue spec)))
              (bad "value"));
  Ok spec.

Record ArtifactReferenceSpec := mkArtifactReferenceSpec {
  as_Reference : string; as_Digest : list N; as_Size : Z; as_Role : string;
  as_Sensitivity : Sensitivity }.
#[export] Instance : Settable ArtifactReferenceSpec := {| record_eta r :=
  mkArtifactReferenceSpec (as_Reference r) (as_Digest r) (as_Size r) (as_Role r)
    (as_Sensitivity r) |}.
#[export] Instance ArtifactReferenceSpec_eq_dec : EqDecision ArtifactReferenceSpec.
Proof. solve_decision. Defined.

Definition NewArtifactReference (spec : ArtifactReferenceSpec) : result ArtifactReferenceSpec :=
  _ ← requireNonBlank "reference" (as_Reference spec);
  _ ← check (negb (digest_IsZero (as_Digest spec)))
        (NewError CodeInvalidArgument "artifact_reference.new" "digest");
  _ ← requireNonNegative "size" (as_Size spec);
  _ ← requireNonBlank "role" (as_Role spec);
  _ ← check (Sensitivity_IsValid (as_Sensitivity spec))
        (NewError CodeInvalidArgument "artifact_reference.new" "sensitivity");
  Ok spec.

Record CauseAssessmentSpec := mkCauseAssessmentSpec {
  cas_Kind : CauseKind; cas_Summary : string; cas_Method : string; cas_Confidence : spec_float }.
#[export] Instance : Settable CauseAssessmentSpec := {| record_eta r :=
  mkCauseAssessmentSpec (cas_Kind r) (cas_Summary r) (cas_Method r) (cas_Confidence r) |}.
#[export] Instance CauseAssessmentSpec_eq_dec : EqDecision CauseAssessmentSpec.
Proof. solve_decision. Defined.

Definition NewCauseAssessment (spec : CauseAssessmentSpec) : result CauseAssessmentSpec :=
  let bad := NewError CodeInvalidArgument "cause.new" in
  _ ← check (CauseKind_IsValid (cas_Kind spec)) (bad "kind");
  _ ← requireNonBlank "summary" (cas_Summary spec);
  _ ← check (negb (float_lt (cas_Confidence spec) float_zero
                   || float_lt float_one (cas_Confidence spec))) (bad "confidence");
  _ ← (if bool_decide (cas_Kind spec = CauseCorrelated)
       then requireNonBlank "method" (cas_Method spec)
       else check (bool_decide (cas_Method spec = "")) (bad "method"));
  _ ← check (negb (bool_decide (cas_Kind spec = CauseProven)
                   && negb (float_eq (cas_Confidence spec) float_one))) (bad "confidence");
  Ok spec.

Record IncidentSpec := mkIncidentSpec {
  is_ID : uuidV7; is_Classification : IncidentClassification; is_ResearchSessionID : uuidV7;
  is_LeaseID : uuidV7; is_AgentWorkspaceID : uuidV7; is_AgentGeneration : AgentGeneration;
  is_ExecID : uuidV7; is_TargetID : uuidV7; is_TargetGeneration : TargetGeneration;
  is_TargetRunID : uuidV7; is_Trigger : string; is_LastKnownState : string;
  is_Cause : CauseAssessmentSpec; is_HighWaterMetrics : list MetricSampleSpec;
  is_FirstRelevantCursor : ObservationCursor; is_LastRelevantCursor : ObservationCursor;
  is_Coverage : list CollectorCoverageSpec; is_ObservationBundleID : uuidV7;
  is_Artifacts : list ArtifactReferenceSpec; is_RecoveryActions : list string;
  is_VisibilityAcknowledgements : list string; is_OccurredAt : time }.
#[export] Instance : Settable IncidentSpec := {| record_eta r :=
  mkIncidentSpec (is_ID r) (is_Classification r) (is_ResearchSessionID r) (is_LeaseID r)
    (is_AgentWorkspaceID r) (is_AgentGeneration r) (is_ExecID r) (is_TargetID r)
    (is_TargetGeneration r) (is_TargetRunID r) (is_Trigger r) (is_LastKnownState r) (is_Cause r)
    (is_HighWaterMetrics r) (is_FirstRelevantCursor r) (is_LastRelevantCursor r) (is_Coverage r)
    (is_ObservationBundleID r) (is_Artifacts r) (is_RecoveryActions r)
    (is_VisibilityAcknowledgements r) (is_OccurredAt r) |}.

Record Incident := mkIncident {
  i_spec : IncidentSpec; i_state : IncidentState; i_revision : Revision; i_updatedAt : time }.
#[export] Instance : Settable Incident := {| record_eta r :=
  mkIncident (i_spec r) (i_state r) (i_revision r) (i_updatedAt r) |}.

Definition validateConstructedEvidence (metrics : list MetricSampleSpec)
    (coverage : list CollectorCoverageSpec) (artifacts : list ArtifactReferenceSpec) : result unit :=
  let bad name i := NewError CodeInvalidArgument "evidence.validate" (indexed name i) in
  _ ← res_each (fun i m => check (negb (bool_decide (ms_Name m = ""))) (bad "metrics" i)) 0 metrics;
  _ ← res_each (fun i c => check (negb (id_IsZero (cs_CollectorID c))) (bad "coverage" i)) 0 coverage;
  res_each (fun i a => check (negb (bool_decide (as_Reference a = "") || digest_IsZero (as_Digest a)))
                         (bad "artifacts" i)) 0 artifacts.

Definition NewIncident (spec : IncidentSpec) : result Incident :=
  let bad := NewError CodeInvalidArgument "incident.new" in
  _ ← requireID "incident_id" (id_IsZero (is_ID spec));
  _ ← check (IncidentClassification_IsValid (is_Classification spec)) (bad "classification");
  _ ← requireID "research_session_id" (id_IsZero (is_ResearchSessionID spec));
  _ ← requireNonBlank "trigger" (is_Trigger spec);
  _ ← requireNonBlank "last_known_state" (is_LastKnownState spec);
  _ ← check (CauseKind_IsValid (cas_Kind (is_Cause spec))) (bad "cause");
  _ ← requireTime "occurred_at" (is_OccurredAt spec);
  _ ← check (negb (negb (id_IsZero (is_ExecID spec))
                   && (id_IsZero (is_AgentWorkspaceID spec)
                       || negb (AgentGeneration_IsValid (is_AgentGeneration spec))))) (bad "exec_id");
  _ ← check (negb ((0 <? is_AgentGeneration spec)%N && id_IsZero (is_AgentWorkspaceID spec)))
        (bad "agent_generation");
  _ ← check (negb ((0 <? is_TargetGeneration spec)%N && id_IsZero (is_TargetID spec)))
        (bad "target_generation");
  _ ← check (negb (negb (id_IsZero (is_TargetRunID spec))
                   && (id_IsZero (is_TargetID spec)
                       || negb (TargetGeneration_IsValid (is_TargetGeneration spec)))))
        (bad "target_run_id");
  _ ← check (negb ((0 <? is_LastRelevantCursor spec)%N
                   && (is_LastRelevantCursor spec <? is_FirstRelevantCursor spec)%N))
        (bad "last_relevant_cursor");
  _ ← validateConstructedEvidence (is_HighWaterMetrics spec) (is_Coverage spec) (is_Artifacts spec);
  _ ← uniqueNonBlank (is_RecoveryActions spec) "recovery_actions";
  _ ← uniqueNonBlank (is_VisibilityAcknowledgements spec) "visibility_acknowledgements";
  Ok (mkIncident spec IncidentOpen InitialRevision (is_OccurredAt spec)).

Definition Incident_Transition (i : Incident) (next : IncidentState) (expected : Revision)
    (at_ : time) : result Incident :=
  _ ← RequireIncidentTransition (i_state i) next;
  revision ← nextModelRevision (i_revision i) expected (i_updatedAt i) at_;
  Ok (i <| i_state := next |> <| i_revision := revision |> <| i_updatedAt := at_ |>).
