(* ===== verification/Records.v ===== *)
(** * Application records

    [internal/application/types.go]: the materialised records of the control
    core, which are also the payloads of its journal.  A Go slice is a list (a
    nil and an empty slice are both [[]]), a pointer an [option], a record map a
    [gmap] keyed by the record's text identity.  The deep copies [cloneX] and
    [detachedRecord] are identities here: every value of the model is
    immutable. *)
From Stdlib Require Import SpecFloat.
From S2P Require Import Prelude Errors GoStrings States Values Ids Idempotency Models Evidence.
Record MutationMeta := mkMutationMeta {
  meta_IdempotencyKey : string; meta_CorrelationID : string; meta_CausationID : string;
  meta_AuthorizedPolicyReference : string; meta_Deadline : time }.
#[export] Instance : Settable MutationMeta := {| record_eta r :=
  mkMutationMeta (meta_IdempotencyKey r) (meta_CorrelationID r) (meta_CausationID r)
    (meta_AuthorizedPolicyReference r) (meta_Deadline r) |}.
#[export] Instance MutationMeta_eq_dec : EqDecision MutationMeta.
Proof. solve_decision. Defined.

(** [ctx] is the deadline of the call's context, if it has one. *)
Definition MutationMeta_Validate (m : MutationMeta) (ctx : option time) (now : time) : result unit :=
  let bad := invalidArgument "mutation_meta.validate" in
  _ ← check (IsCanonicalIdempotencyKey (meta_IdempotencyKey m)) (bad "idempotency_key");
  _ ← check (negb (blank (meta_AuthorizedPolicyReference m))) (bad "authorized_policy_reference");
  _ ← check (is_ok (parseID prefix_correlation (meta_CorrelationID m))) (bad "correlation_id");
  _ ← check (bool_decide (meta_CausationID m = "") || is_ok (parseID prefix_event (meta_CausationID m)))
        (bad "causation_id");
  _ ← check (negb (time_IsZero (meta_Deadline m) || negb (time_After (meta_Deadline m) now)))
        (bad "deadline");
  match ctx with
  | Some deadline => check (negb (time_After deadline (meta_Deadline m))) (bad "deadline")
  | None => Ok tt
  end.

Record SessionRecord := mkSessionRecord {
  session_ID : string; session_OwnerSubject : string; session_AcquisitionIdempotencyKey : string;
  session_State : ResearchSessionState; session_Revision : N; session_LeaseID : string;
  session_AgentWorkspaceID : string; session_InputViewID : string; session_PolicyDigest : string;
  session_CapabilityDigest : string; session_CreatedAt : time; session_UpdatedAt : time }.
#[export] Instance : Settable SessionRecord := {| record_eta r :=
  mkSessionRecord (session_ID r) (session_OwnerSubject r) (session_AcquisitionIdempotencyKey r)
    (session_State r) (session_Revision r) (session_LeaseID r) (session_AgentWorkspaceID r)
    (session_InputViewID r) (session_PolicyDigest r) (session_CapabilityDigest r)
    (session_CreatedAt r) (session_UpdatedAt r) |}.
#[export] Instance SessionRecord_eq_dec : EqDecision SessionRecord.
Proof. solve_decision. Defined.

Inductive LeaseTerminationKind :=
| LeaseTerminationRelease | LeaseTerminationExpiry | LeaseTerminationKindUnrecognized (s : string).
#[export] Instance LeaseTerminationKind_eq_dec : EqDecision LeaseTerminationKind.
Proof. solve_decision. Defined.
Definition LeaseTerminationKind_IsValid (k : LeaseTerminationKind) : bool :=
  match k with LeaseTerminationKindUnrecognized _ => false | _ => true end.

Inductive LeaseTerminationState :=
| LeaseTerminationReleasing | LeaseTerminationExpiring | LeaseTerminationReleased
| LeaseTerminationExpired | LeaseTerminationStateUnrecognized (s : string).
#[export] Instance LeaseTerminationState_eq_dec : EqDecision LeaseTerminationState.
Proof. solve_decision. Defined.
Definition LeaseTerminationState_IsValid (s : LeaseTerminationState) : bool :=
  match s with LeaseTerminationStateUnrecognized _ => false | _ => true end.
Definition LeaseTerminationState_Terminal (s : LeaseTerminationState) : bool :=
  match s with LeaseTerminationReleased | LeaseTerminationExpired => true | _ => false end.

Record LeaseTerminationRecord := mkLeaseTerminationRecord {
  term_Kind : LeaseTerminationKind; term_State : LeaseTerminationState; term_Reason : string;
  term_BeginIdempotencyKey : string; term_BeginRequestDigest : string;
  term_InitiatedLeaseRevision : N; term_InitiatedAt : time; term_CompleteIdempotencyKey : string;
  term_CompleteRequestDigest : string; term_CompletedAt : time }.
#[export] Instance : Settable LeaseTerminationRecord := {| record_eta r :=
  mkLeaseTerminationRecord (term_Kind r) (term_State r) (term_Reason r)
    (term_BeginIdempotencyKey r) (term_BeginRequestDigest r) (term_InitiatedLeaseRevision r)
    (term_InitiatedAt r) (term_CompleteIdempotencyKey r) (term_CompleteRequestDigest r)
    (term_CompletedAt r) |}.
#[export] Instance LeaseTerminationRecord_eq_dec : EqDecision LeaseTerminationRecord.
Proof. solve_decision. Defined.

(** The zero value [LeaseTerminationRecord{}]. *)
Definition zero_termination : LeaseTerminationRecord :=
  mkLeaseTerminationRecord (LeaseTerminationKindUnrecognized "")
    (LeaseTerminationStateUnrecognized "") "" "" "" 0 0 "" "" 0.
Definition LeaseTerminationRecord_Empty (r : LeaseTerminationRecord) : bool :=
  bool_decide (r = zero_termination).
Definition LeaseTerminationRecord_InProgress (r : LeaseTerminationRecord) : bool :=
  bool_decide (term_State r = LeaseTerminationReleasing)
  || bool_decide (term_State r = LeaseTerminationExpiring).
Definition LeaseTerminationRecord_Terminal (r : LeaseTerminationRecord) : bool :=
  LeaseTerminationState_Terminal (term_State r).

Record LeaseRecord := mkLeaseRecord {
  lease_ID : string; lease_SessionID : string; lease_AgentWorkspaceID : string;
  lease_AgentGeneration : N; lease_InputViewID : string; lease_PolicyDigest : string;
  lease_CapabilityDigest : string; lease_State : LeaseState; lease_Revision : N;
  lease_ExpiresAt : time; lease_Termination : LeaseTerminationRecord; lease_CreatedAt : time;
  lease_UpdatedAt : time }.
#[export] Instance : Settable LeaseRecord := {| record_eta r :=
  mkLeaseRecord (lease_ID r) (lease_SessionID r) (lease_AgentWorkspaceID r)
    (lease_AgentGeneration r) (lease_InputViewID r) (lease_PolicyDigest r)
    (lease_CapabilityDigest r) (lease_State r) (lease_Revision r) (lease_ExpiresAt r)
    (lease_Termination r) (lease_CreatedAt r) (lease_UpdatedAt r) |}.
#[export] Instance LeaseRecord_eq_dec : EqDecision LeaseRecord.
Proof. solve_decision. Defined.

(** The zero value a missing map key reads as. *)
Definition zero_lease : LeaseRecord :=
  mkLeaseRecord "" "" "" 0 "" "" "" (LeaseUnrecognized "") 0 0 zero_termination 0 0.

Record ExecRecord := mkExecRecord {
  exec_ID : string; exec_SessionID : string; exec_LeaseID : string;
  exec_AgentWorkspaceID : string; exec_AgentGeneration : N; exec_Kind : Domain.ExecKind;
  exec_Executable : string; exec_Argv : list string; exec_WorkingDirectory : string;
  exec_State : ExecState; exec_Revision : N; exec_ExitCode : option Z; exec_Signal : string;
  exec_IncidentIDs : list string; exec_CleanupConfirmed : bool; exec_Error : string;
  exec_CreatedAt : time; exec_UpdatedAt : time }.
#[export] Instance : Settable ExecRecord := {| record_eta r :=
  mkExecRecord (exec_ID r) (exec_SessionID r) (exec_LeaseID r) (exec_AgentWorkspaceID r)
    (exec_AgentGeneration r) (exec_Kind r) (exec_Executable r) (exec_Argv r)
    (exec_WorkingDirectory r) (exec_State r) (exec_Revision r) (exec_ExitCode r) (exec_Signal r)
    (exec_IncidentIDs r) (exec_CleanupConfirmed r) (exec_Error r) (exec_CreatedAt r)
    (exec_UpdatedAt r) |}.
#[export] Instance ExecRecord_eq_dec : EqDecision ExecRecord.
Proof. solve_decision. Defined.

Record AgentGenerationRecord := mkAgentGenerationRecord {
  agen_Generation : N; agen_WorkspaceID : string; agen_InputViewID : string;
  agen_PolicyDigest : string; agen_CapabilityDigest : string;
  agen_ProvisioningPlanDigest : string; agen_WorkspaceProvisioningKey : string;
  agen_AgentProvisioningKey : string; agen_Previous : N; agen_RecoveryIncident : string;
  agen_State : AgentGenerationState; agen_Revision : N; agen_CreatedAt : time;
  agen_UpdatedAt : time }.
#[export] Instance : Settable AgentGenerationRecord := {| record_eta r :=
  mkAgentGenerationRecord (agen_Generation r) (agen_WorkspaceID r) (agen_InputViewID r)
    (agen_PolicyDigest r) (agen_CapabilityDigest r) (agen_ProvisioningPlanDigest r)
    (agen_WorkspaceProvisioningKey r) (agen_AgentProvisioningKey r) (agen_Previous r)
    (agen_RecoveryIncident r) (agen_State r) (agen_Revision r) (agen_CreatedAt r)
    (agen_UpdatedAt r) |}.
#[export] Instance AgentGenerationRecord_eq_dec : EqDecision AgentGenerationRecord.
Proof. solve_decision. Defined.

Record AgentWorkspaceRecord := mkAgentWorkspaceRecord {
  agent_ID : string; agent_SessionID : string; agent_CurrentGeneration : N; agent_Revision : N;
  agent_CreatedAt : time; agent_UpdatedAt : time;
  agent_Generations : list AgentGenerationRecord }.
#[export] Instance : Settable AgentWorkspaceRecord := {| record_eta r :=
  mkAgentWorkspaceRecord (agent_ID r) (agent_SessionID r) (agent_CurrentGeneration r)
    (agent_Revision r) (agent_CreatedAt r) (agent_UpdatedAt r) (agent_Generations r) |}.
#[export] Instance AgentWorkspaceRecord_eq_dec : EqDecision AgentWorkspaceRecord.
Proof. solve_decision. Defined.

Record TargetGenerationRecord := mkTargetGenerationRecord {
  tgen_Generation : N; tgen_PolicyDigest : string; tgen_CapabilityDigest : string;
  tgen_ProvisioningPlanDigest : string; tgen_ProvisioningKey : string; tgen_Previous : N;
  tgen_RecoveryIncident : string; tgen_State : TargetGenerationState; tgen_Revision : N;
  tgen_CreatedAt : time; tgen_UpdatedAt : time }.
#[export] Instance : Settable TargetGenerationRecord := {| record_eta r :=
  mkTargetGenerationRecord (tgen_Generation r) (tgen_PolicyDigest r) (tgen_CapabilityDigest r)
    (tgen_ProvisioningPlanDigest r) (tgen_ProvisioningKey r) (tgen_Previous r)
    (tgen_RecoveryIncident r) (tgen_State r) (tgen_Revision r) (tgen_CreatedAt r)
    (tgen_UpdatedAt r) |}.
#[export] Instance TargetGenerationRecord_eq_dec : EqDecision TargetGenerationRecord.
Proof. solve_decision. Defined.

Record TargetRunRecord := mkTargetRunRecord {
  run_ID : string; run_Generation : N; run_AgentWorkspaceID : string; run_AgentGeneration : N;
  run_MaterializationDigest : string; run_ProvisioningPlanDigest : string;
  run_ProvisioningKey : string; run_State : TargetRunState; run_Revision : N;
  run_BundleID : string; run_BundleArtifact : string; run_BundleDigest : string;
  run_IncidentIDs : list string; run_CreatedAt : time; run_UpdatedAt : time }.
#[export] Instance : Settable TargetRunRecord := {| record_eta r :=
  mkTargetRunRecord (run_ID r) (run_Generation r) (run_AgentWorkspaceID r) (run_AgentGeneration r)
    (run_MaterializationDigest r) (run_ProvisioningPlanDigest r) (run_ProvisioningKey r)
    (run_State r) (run_Revision r) (run_BundleID r) (run_BundleArtifact r) (run_BundleDigest r)
    (run_IncidentIDs r) (run_CreatedAt r) (run_UpdatedAt r) |}.
#[export] Instance TargetRunRecord_eq_dec : EqDecision TargetRunRecord.
Proof. solve_decision. Defined.

Record TargetOperationRecord := mkTargetOperationRecord {
  op_ID : string; op_RunID : string; op_Generation : N; op_Kind : Domain.TargetOperationKind;
  op_CommandDisplay : string; op_ContentDigest : string; op_State : TargetOperationState;
  op_Revision : N; op_CreatedAt : time; op_UpdatedAt : time }.
#[export] Instance : Settable TargetOperationRecord := {| record_eta r :=
  mkTargetOperationRecord (op_ID r) (op_RunID r) (op_Generation r) (op_Kind r)
    (op_CommandDisplay r) (op_ContentDigest r) (op_State r) (op_Revision r) (op_CreatedAt r)
    (op_UpdatedAt r) |}.
#[export] Instance TargetOperationRecord_eq_dec : EqDecision TargetOperationRecord.
Proof. solve_decision. Defined.

Record TargetRecord := mkTargetRecord {
  target_ID : string; target_SessionID : string; target_LeaseID : string;
  target_CreationIdempotencyKey : string; target_Template : string;
  target_Kind : Domain.TargetKind; target_CurrentGeneration : N; target_Revision : N;
  target_CreatedAt : time; target_UpdatedAt : time;
  target_Generations : list TargetGenerationRecord; target_Runs : list TargetRunRecord;
  target_Operations : list TargetOperationRecord }.
#[export] Instance : Settable TargetRecord := {| record_eta r :=
  mkTargetRecord (target_ID r) (target_SessionID r) (target_LeaseID r)
    (target_CreationIdempotencyKey r) (target_Template r) (target_Kind r)
    (target_CurrentGeneration r) (target_Revision r) (target_CreatedAt r) (target_UpdatedAt r)
    (target_Generations r) (target_Runs r) (target_Operations r) |}.
#[export] Instance TargetRecord_eq_dec : EqDecision TargetRecord.
Proof. solve_decision. Defined.

Record CauseRecord := mkCauseRecord {
  cause_Kind : CauseKind; cause_Summary : string; cause_Method : string;
  cause_Confidence : spec_float }.
#[export] Instance : Settable CauseRecord := {| record_eta r :=
  mkCauseRecord (cause_Kind r) (cause_Summary r) (cause_Method r) (cause_Confidence r) |}.
#[export] Instance CauseRecord_eq_dec : EqDecision CauseRecord.
Proof. solve_decision. Defined.

Record IncidentMetricRecord := mkIncidentMetricRecord {
  metric_SubjectID : string; metric_SubjectKind : SubjectKind; metric_Name : string;
  metric_Unit : string; metric_Kind : MetricKind; metric_Availability : MetricAvailability;
  metric_CounterValue : option N; metric_NumericValue : option spec_float;
  metric_CollectedAt : time; metric_PublishedAt : time; metric_Cursor : N;
  metric_Labels : gmap string string; metric_ExecID : string; metric_TargetRunID : string }.
#[export] Instance : Settable IncidentMetricRecord := {| record_eta r :=
  mkIncidentMetricRecord (metric_SubjectID r) (metric_SubjectKind r) (metric_Name r)
    (metric_Unit r) (metric_Kind r) (metric_Availability r) (metric_CounterValue r)
    (metric_NumericValue r) (metric_CollectedAt r) (metric_PublishedAt r) (metric_Cursor r)
    (metric_Labels r) (metric_ExecID r) (metric_TargetRunID r) |}.
#[export] Instance IncidentMetricRecord_eq_dec : EqDecision IncidentMetricRecord.
Proof. solve_decision. Defined.

Record IncidentGapRecord := mkIncidentGapRecord {
  gap_Kind : GapKind; gap_Source : string; gap_SourceInstance : string;
  gap_FirstSourceSequence : N; gap_LastSourceSequence : N; gap_FirstCursor : N;
  gap_LastCursor : N; gap_StartedAt : time; gap_EndedAt : time; gap_LostRecords : N;
  gap_Reason : string }.
#[export] Instance : Settable IncidentGapRecord := {| record_eta r :=
  mkIncidentGapRecord (gap_Kind r) (gap_Source r) (gap_SourceInstance r)
    (gap_FirstSourceSequence r) (gap_LastSourceSequence r) (gap_FirstCursor r) (gap_LastCursor r)
    (gap_StartedAt r) (gap_EndedAt r) (gap_LostRecords r) (gap_Reason r) |}.
#[export] Instance IncidentGapRecord_eq_dec : EqDecision IncidentGapRecord.
Proof. solve_decision. Defined.

Record IncidentCoverageRecord := mkIncidentCoverageRecord {
  cov_CollectorID : string; cov_SignalFamily : string; cov_Placement : CollectorPlacement;
  cov_Level : CoverageLevel; cov_Status : CoverageStatus; cov_Required : bool;
  cov_StartedAt : time; cov_EndedAt : time; cov_DroppedRecords : N;
  cov_Gaps : list IncidentGapRecord }.
#[export] Instance : Settable IncidentCoverageRecord := {| record_eta r :=
  mkIncidentCoverageRecord (cov_CollectorID r) (cov_SignalFamily r) (cov_Placement r)
    (cov_Level r) (cov_Status r) (cov_Required r) (cov_StartedAt r) (cov_EndedAt r)
    (cov_DroppedRecords r) (cov_Gaps r) |}.
#[export] Instance IncidentCoverageRecord_eq_dec : EqDecision IncidentCoverageRecord.
Proof. solve_decision. Defined.

Record IncidentArtifactRecord := mkIncidentArtifactRecord {
  art_Reference : string; art_Digest : string; art_Size : Z; art_Role : string;
  art_Sensitivity : Sensitivity }.
#[export] Instance : Settable IncidentArtifactRecord := {| record_eta r :=
  mkIncidentArtifactRecord (art_Reference r) (art_Digest r) (art_Size r) (art_Role r)
    (art_Sensitivity r) |}.
#[export] Instance IncidentArtifactRecord_eq_dec : EqDecision IncidentArtifactRecord.
Proof. solve_decision. Defined.

Record IncidentRecord := mkIncidentRecord {
  inc_ID : string; inc_Classification : IncidentClassification; inc_SessionID : string;
  inc_LeaseID : string; inc_AgentWorkspaceID : string; inc_AgentGeneration : N;
  inc_ExecID : string; inc_TargetID : string; inc_TargetGeneration : N; inc_TargetRunID : string;
  inc_Trigger : string; inc_LastKnownState : string; inc_Cause : CauseRecord;
  inc_HighWaterMetrics : list IncidentMetricRecord; inc_FirstRelevantCursor : N;
  inc_LastRelevantCursor : N; inc_Coverage : list IncidentCoverageRecord;
  inc_ObservationBundleID : string; inc_Artifacts : list IncidentArtifactRecord;
  inc_RecoveryActions : list string; inc_VisibilityAcknowledgements : list string;
  inc_State : IncidentState; inc_Revision : N; inc_OccurredAt : time; inc_UpdatedAt : time }.
#[export] Instance : Settable IncidentRecord := {| record_eta r :=
  mkIncidentRecord (inc_ID r) (inc_Classification r) (inc_SessionID r) (inc_LeaseID r)
    (inc_AgentWorkspaceID r) (inc_AgentGeneration r) (inc_ExecID r) (inc_TargetID r)
    (inc_TargetGeneration r) (inc_TargetRunID r) (inc_Trigger r) (inc_LastKnownState r)
    (inc_Cause r) (inc_HighWaterMetrics r) (inc_FirstRelevantCursor r) (inc_LastRelevantCursor r)
    (inc_Coverage r) (inc_ObservationBundleID r) (inc_Artifacts r) (inc_RecoveryActions r)
    (inc_VisibilityAcknowledgements r) (inc_State r) (inc_Revision r) (inc_OccurredAt r)
    (inc_UpdatedAt r) |}.
#[export] Instance IncidentRecord_eq_dec : EqDecision IncidentRecord.
Proof. solve_decision. Defined.

Record ResearchSessionView := mkResearchSessionView {
  view_Session : SessionRecord; view_Lease : LeaseRecord; view_Agent : AgentWorkspaceRecord;
  view_Execs : list ExecRecord; view_Targets : list TargetRecord;
  view_Incidents : list IncidentRecord }.
#[export] Instance : Settable ResearchSessionView := {| record_eta r :=
  mkResearchSessionView (view_Session r) (view_Lease r) (view_Agent r) (view_Execs r)
    (view_Targets r) (view_Incidents r) |}.
