(* ===== verification/Store.v ===== *)
(** * The control store

    [internal/store/store.go] and [objects.go]: the hash-chained journal of
    control records, the snapshot table, the idempotency table and the
    write-once tables.  A table is a list in primary-key order or a [gmap]; a
    query is a function on it.  The database itself (SQLite, its transactions
    and its durability) is trusted; columns that no query reads back
    ([created_at], [updated_at]) are not represented.

    [P] is the type of the payloads and [payload_bytes] their bytes: the store
    only measures and hashes them.  [R] is the type of the responses, which it
    only keeps. *)
From S2P Require Import Prelude Errors Sha256 GoStrings.
(** The signed reading of the low 64 bits, as stored in an INTEGER column. *)
Definition int64 (z : Z) : Z := ((z + 9223372036854775808) mod 18446744073709551616 - 9223372036854775808)%Z.
Definition uint64_of (z : Z) : N := Z.to_N (z mod 18446744073709551616).

Definition zero_hash : list N := repeat 0%N 32.

Record ControlRecord (P : Type) := mkControlRecord {
  cr_Sequence : Z; cr_AggregateKind : string; cr_AggregateID : string; cr_Revision : N;
  cr_Kind : string; cr_Payload : P; cr_AcceptedAt : time; cr_PreviousHash : list N;
  cr_Hash : list N }.
Arguments mkControlRecord {P}.
Arguments cr_Sequence {P}. Arguments cr_AggregateKind {P}. Arguments cr_AggregateID {P}.
Arguments cr_Revision {P}. Arguments cr_Kind {P}. Arguments cr_Payload {P}.
Arguments cr_AcceptedAt {P}. Arguments cr_PreviousHash {P}. Arguments cr_Hash {P}.
#[export] Instance ControlRecord_settable {P} : Settable (ControlRecord P) := {| record_eta r :=
  mkControlRecord (cr_Sequence r) (cr_AggregateKind r) (cr_AggregateID r) (cr_Revision r)
    (cr_Kind r) (cr_Payload r) (cr_AcceptedAt r) (cr_PreviousHash r) (cr_Hash r) |}.

Record SegmentIndex := mkSegmentIndex {
  seg_SegmentID : string; seg_FirstCursor : N; seg_LastCursor : N; seg_Path : string;
  seg_Digest : string; seg_Finalized : bool; seg_ArtifactRef : string }.

(** The tables.  [st_nextSequence] is the AUTOINCREMENT counter. *)
Record Store (P R : Type) := mkStore {
  st_records : list (ControlRecord P);
  st_nextSequence : Z;
  st_idempotency : gmap (string * string) (list N * R);
  st_snapshots : gmap (string * string) (N * P);
  st_policies : gmap string (list N);
  st_objects : gmap (string * string) (list N);
  st_segments : gmap string SegmentIndex }.
Arguments mkStore {P R}.
Arguments st_records {P R}. Arguments st_nextSequence {P R}. Arguments st_idempotency {P R}.
Arguments st_snapshots {P R}. Arguments st_policies {P R}. Arguments st_objects {P R}.
Arguments st_segments {P R}.
#[export] Instance Store_settable {P R} : Settable (Store P R) := {| record_eta r :=
  mkStore (st_records r) (st_nextSequence r) (st_idempotency r) (st_snapshots r) (st_policies r)
    (st_objects r) (st_segments r) |}.

Definition empty_store {P R} : Store P R := mkStore [] 1 ∅ ∅ ∅ ∅ ∅.

Section Store.
Context {P R : Type} (payload_bytes : P -> list N).

(** [writeHashBytes], [writeHashString] *)
Definition writeHashBytes (value : list N) : list N :=
  be_bytes 8 (u64 (N.of_nat (length value))) ++ value.
Definition writeHashString (value : string) : list N := writeHashBytes (bytes_of value).

Definition control_domain : list N := bytes_of "world-control-record-v1" ++ [0%N].

(** The bytes [hashControl] feeds to SHA-256. *)
Definition control_preimage (record : ControlRecord P) : list N :=
  control_domain ++ cr_PreviousHash record ++
  writeHashString (cr_AggregateKind record) ++ writeHashString (cr_AggregateID record) ++
  be_bytes 8 (cr_Revision record) ++ be_bytes 8 (uint64_of (time_UnixNano (cr_AcceptedAt record))) ++
  writeHashString (cr_Kind record) ++ writeHashBytes (payload_bytes (cr_Payload record)).
Definition hashControl (record : ControlRecord P) : list N := sha256 (control_preimage record).

(** [SELECT revision ... ORDER BY revision DESC LIMIT 1], 0 with no row. *)
Definition latest_revision (records : list (ControlRecord P)) (kind id : string) : N :=
  fold_left (fun acc r =>
    if bool_decide (cr_AggregateKind r = kind) && bool_decide (cr_AggregateID r = id)
    then N.max acc (cr_Revision r) else acc) records 0%N.

(** [SELECT hash ... ORDER BY sequence DESC LIMIT 1], 32 zero bytes with no row. *)
Definition last_hash (records : list (ControlRecord P)) : list N :=
  match last records with Some r => cr_Hash r | None => zero_hash end.

(** [AppendControl]; [now] is what the store's clock returns if it is asked.
    [database/sql] refuses a uint64 argument with the high bit set. *)
Definition AppendControl (s : Store P R) (record : ControlRecord P) (now : time)
  : result (ControlRecord P * Store P R) :=
  _ ← check (negb (bool_decide (cr_AggregateKind record = "") || bool_decide (cr_AggregateID record = "")
                   || bool_decide (cr_Kind record = "") || (cr_Revision record =? 0)%N
                   || bool_decide (payload_bytes (cr_Payload record) = [])))
        (ErrText "complete control record is required");
  let latest := latest_revision (st_records s) (cr_AggregateKind record) (cr_AggregateID record) in
  _ ← check (cr_Revision record =? u64 (latest + 1))%N ErrRevisionConflict;
  let accepted := if time_IsZero (cr_AcceptedAt record) then now else cr_AcceptedAt record in
  let row accepted hash :=
    mkControlRecord (st_nextSequence s) (cr_AggregateKind record) (cr_AggregateID record)
      (cr_Revision record) (cr_Kind record) (cr_Payload record) accepted
      (last_hash (st_records s)) hash in
  let hash := hashControl (row accepted (cr_Hash record)) in
  _ ← check (cr_Revision record <? 9223372036854775808)%N
        (ErrText "uint64 values with high bit set are not supported");
  let stored := row (unix_epoch + int64 (time_UnixNano accepted))%Z hash in
  Ok (row accepted hash,
      s <| st_records := st_records s ++ [stored] |>
        <| st_nextSequence := (st_nextSequence s + 1)%Z |>).

(** [PutSnapshot]: the row is replaced only by a higher revision. *)
Definition PutSnapshot (s : Store P R) (kind id : string) (revision : N) (payload : P)
  : result (Store P R) :=
  _ ← check (negb (bool_decide (kind = "") || bool_decide (id = "") || (revision =? 0)%N
                   || bool_decide (payload_bytes payload = [])))
        (ErrText "complete snapshot is required");
  _ ← check (revision <? 9223372036854775808)%N
        (ErrText "uint64 values with high bit set are not supported");
  match st_snapshots s !! (kind, id) with
  | Some (stored, _) =>
      if (stored <? revision)%N
      then Ok (s <| st_snapshots := <[(kind, id) := (revision, payload)]> (st_snapshots s) |>)
      else Ok s
  | None => Ok (s <| st_snapshots := <[(kind, id) := (revision, payload)]> (st_snapshots s) |>)
  end.

Definition Snapshot (s : Store P R) (kind id : string) : result (N * P) :=
  from_option_err ErrStoreNotFound (st_snapshots s !! (kind, id)).

(** [Records]: the window of rows after a sequence number. *)
Definition Records (s : Store P R) (after limit : Z) : result (list (ControlRecord P)) :=
  _ ← check (negb ((after <? 0)%Z || (limit <=? 0)%Z || (10000 <? limit)%Z))
        (ErrText "invalid record window");
  let rows := firstn (Z.to_nat limit)
                (List.filter (fun r => (after <? cr_Sequence r)%Z) (st_records s)) in
  _ ← check (forallb (fun r => bool_decide (length (cr_PreviousHash r) = 32%nat)
                            && bool_decide (length (cr_Hash r) = 32%nat)) rows) ErrIntegrity;
  Ok rows.

(** [Verify]: the chain of hashes from 32 zero bytes to the last row. *)
Fixpoint Verify_from (expectedPrevious : list N) (rows : list (ControlRecord P)) : result unit :=
  match rows with
  | [] => Ok tt
  | record :: rest =>
      _ ← check (bool_decide (length (cr_PreviousHash record) = 32%nat)
                 && bool_decide (length (cr_Hash record) = 32%nat)) ErrIntegrity;
      _ ← check (bool_decide (cr_PreviousHash record = expectedPrevious)
                 && bool_decide (hashControl record = cr_Hash record)) ErrIntegrity;
      Verify_from (cr_Hash record) rest
  end.
Definition Verify (s : Store P R) : result unit := Verify_from zero_hash (st_records s).

(** [equalHash]: equal lengths, then the OR of the byte differences. *)
Definition equalHash (left right : list N) : bool :=
  if negb (bool_decide (length left = length right)) then false
  else (fold_left (fun difference '(a, b) => N.lor difference (N.lxor a b)) (zip left right) 0 =? 0)%N.

(** ** Write-once tables *)
Definition PutPolicy (s : Store P R) (digest : string) (canonicalJSON : list N) : result (Store P R) :=
  _ ← check (negb (bool_decide (digest = "") || bool_decide (canonicalJSON = [])))
        (ErrText "policy digest and document are required");
  match st_policies s !! digest with
  | Some stored => if bool_decide (stored = canonicalJSON) then Ok s else Err ErrPolicyConflict
  | None => Ok (s <| st_policies := <[digest := canonicalJSON]> (st_policies s) |>)
  end.
Definition Policy (s : Store P R) (digest : string) : result (list N) :=
  from_option_err ErrStoreNotFound (st_policies s !! digest).

Definition PutObject (s : Store P R) (kind id : string) (payload : list N) : result (Store P R) :=
  _ ← check (negb (bool_decide (kind = "") || bool_decide (id = "") || bool_decide (payload = [])))
        (ErrText "object kind, id, and payload are required");
  match st_objects s !! (kind, id) with
  | Some stored => if bool_decide (stored = payload) then Ok s else Err ErrObjectConflict
  | None => Ok (s <| st_objects := <[(kind, id) := payload]> (st_objects s) |>)
  end.
Definition Object (s : Store P R) (kind id : string) : result (list N) :=
  from_option_err ErrStoreNotFound (st_objects s !! (kind, id)).

Definition PutSegmentIndex (s : Store P R) (index : SegmentIndex) : result (Store P R) :=
  _ ← check (negb (bool_decide (seg_SegmentID index = "") || (seg_FirstCursor index =? 0)%N
                   || (seg_LastCursor index <? seg_FirstCursor index)%N
                   || bool_decide (seg_Path index = "") || bool_decide (seg_Digest index = "")))
        (ErrText "invalid segment index");
  _ ← check ((seg_FirstCursor index <? 9223372036854775808)%N
             && (seg_LastCursor index <? 9223372036854775808)%N)
        (ErrText "uint64 values with high bit set are not supported");
  Ok (s <| st_segments := <[seg_SegmentID index := index]> (st_segments s) |>).
End Store.
