(* ===== verification/StoreFacts.v ===== *)
(** * Properties of the control store

    The journal is a hash chain that detects tampering, numbers its rows
    without gaps and gives every aggregate the revisions 1, 2, 3, ...; the
    write-once tables never change an entry. *)
From S2P Require Import Prelude Errors Sha256 GoStrings Utf8Facts Store.
Section Facts.
Context {P R : Type} (payload_bytes : P -> list N).
Implicit Types (s : Store P R) (r : ControlRecord P) (rows : list (ControlRecord P)).
Local Abbreviation hashControl := (hashControl payload_bytes).
Local Abbreviation control_preimage := (control_preimage payload_bytes).
Local Abbreviation Verify_from := (Verify_from payload_bytes).
Local Abbreviation Verify := (Verify payload_bytes).
Local Abbreviation AppendControl := (AppendControl payload_bytes).

(** ** Timestamps survive the INTEGER column *)
Lemma uint64_of_int64 z : uint64_of (int64 z) = uint64_of z.
Proof.
  unfold uint64_of, int64. f_equal.
  rewrite Zminus_mod, Z.mod_mod, <-Zminus_mod by lia. f_equal. lia.
Qed.

Lemma uint64_of_bound z : (uint64_of z < two64)%N.
Proof.
  unfold uint64_of, two64. pose proof (Z.mod_pos_bound z 18446744073709551616 ltac:(lia)). lia.
Qed.

(** ** Framing *)
Lemma u64_be_inj a b : (a < two64)%N -> (b < two64)%N -> be_bytes 8 a = be_bytes 8 b -> a = b.
Proof. intros. by eapply (be_bytes_inj 8). Qed.

Lemma hash_frame_inj (a b x y : list N) :
  (N.of_nat (length a) < two64)%N -> (N.of_nat (length b) < two64)%N ->
  writeHashBytes a ++ x = writeHashBytes b ++ y -> a = b /\ x = y.
Proof.
  unfold writeHashBytes. rewrite <-!app_assoc. intros La Lb E.
  apply app_inj_1 in E as [E1 E]; [|by rewrite !be_bytes_length].
  rewrite !u64_small in E1 by done. apply u64_be_inj in E1; [|done..].
  apply Nat2N.inj in E1. by apply app_inj_1 in E.
Qed.

(** What a row of the table can hold: 64-bit counters and lengths. *)
Record row_fits r : Prop := {
  rf_rev : (cr_Revision r < two64)%N;
  rf_kind : (N.of_nat (String.length (cr_AggregateKind r)) < two64)%N;
  rf_id : (N.of_nat (String.length (cr_AggregateID r)) < two64)%N;
  rf_event : (N.of_nat (String.length (cr_Kind r)) < two64)%N;
  rf_payload : (N.of_nat (length (payload_bytes (cr_Payload r))) < two64)%N }.

(** The hashed content of a row. *)
Record same_content r1 r2 : Prop := {
  sc_kind : cr_AggregateKind r1 = cr_AggregateKind r2;
  sc_id : cr_AggregateID r1 = cr_AggregateID r2;
  sc_rev : cr_Revision r1 = cr_Revision r2;
  sc_time : uint64_of (time_UnixNano (cr_AcceptedAt r1)) = uint64_of (time_UnixNano (cr_AcceptedAt r2));
  sc_event : cr_Kind r1 = cr_Kind r2;
  sc_payload : payload_bytes (cr_Payload r1) = payload_bytes (cr_Payload r2) }.

Lemma control_preimage_inj r1 r2 :
  row_fits r1 -> row_fits r2 ->
  length (cr_PreviousHash r1) = 32%nat -> length (cr_PreviousHash r2) = 32%nat ->
  control_preimage r1 = control_preimage r2 ->
  cr_PreviousHash r1 = cr_PreviousHash r2 /\ same_content r1 r2.
Proof.
  intros [? K1 I1 E1 ?] [? K2 I2 E2 ?] L1 L2 E. unfold control_preimage in E.
  apply app_inv_head in E. apply app_inj_1 in E as [Hp E]; [|congruence].
  unfold writeHashString in E.
  rewrite <-bytes_of_length in K1, I1, E1, K2, I2, E2.
  apply hash_frame_inj in E as [Hk E]; [|done..].
  apply hash_frame_inj in E as [Hi E]; [|done..].
  apply app_inj_1 in E as [Hr E]; [|by rewrite !be_bytes_length].
  apply app_inj_1 in E as [Ht E]; [|by rewrite !be_bytes_length].
  apply hash_frame_inj in E as [He E]; [|done..].
  rewrite <-(app_nil_r (writeHashBytes (payload_bytes (cr_Payload r1)))),
    <-(app_nil_r (writeHashBytes (payload_bytes (cr_Payload r2)))) in E.
  apply hash_frame_inj in E as [Hb _]; [|done..].
  apply bytes_of_inj in Hk, Hi, He.
  apply u64_be_inj in Hr; [|done..]. apply u64_be_inj in Ht; [|apply uint64_of_bound..].
  by split.
Qed.

(** ** The chain *)
Definition end_hash (h : list N) rows : list N :=
  match last rows with Some r => cr_Hash r | None => h end.

Lemma end_hash_snoc h rows r : end_hash h (rows ++ [r]) = cr_Hash r.
Proof. unfold end_hash. by rewrite last_snoc. Qed.

Lemma Verify_cons h r rows :
  Verify_from h (r :: rows) = Ok tt <->
  length (cr_PreviousHash r) = 32%nat /\ length (cr_Hash r) = 32%nat /\
  cr_PreviousHash r = h /\ hashControl r = cr_Hash r /\ Verify_from (cr_Hash r) rows = Ok tt.
Proof.
  cbn [Store.Verify_from]. rewrite !check_bind_ok, !andb_true_iff, !bool_decide_eq_true. tauto.
Qed.

Lemma Verify_app h rows1 rows2 :
  Verify_from h (rows1 ++ rows2) = Ok tt <->
  Verify_from h rows1 = Ok tt /\ Verify_from (end_hash h rows1) rows2 = Ok tt.
Proof.
  revert h. induction rows1 as [|r rows1 IH]; intros h; [naive_solver|].
  rewrite <-app_comm_cons, !Verify_cons, IH.
  replace (end_hash h (r :: rows1)) with (end_hash (cr_Hash r) rows1); [tauto|].
  unfold end_hash. rewrite last_cons. by destruct (last rows1).
Qed.

Lemma Verify_snoc h rows r :
  Verify_from h (rows ++ [r]) = Ok tt <->
  Verify_from h rows = Ok tt /\
  length (cr_PreviousHash r) = 32%nat /\ length (cr_Hash r) = 32%nat /\
  cr_PreviousHash r = end_hash h rows /\ hashControl r = cr_Hash r.
Proof. rewrite Verify_app, Verify_cons. cbn. naive_solver. Qed.

(** C20: The journal's hash chain is tamper-evident: two journals that both
    pass [Verify] and end in the same hash hold the same sequence of rows
    (aggregate, revision, instant, event and payload bytes), or else two of
    their rows are an explicit SHA-256 collision or some row hashes to 32 zero
    bytes.  So no row can be altered, inserted, removed or reordered under a
    given head hash. *)
Theorem Verify_tamper_evident rows1 rows2 :
  Forall row_fits rows1 -> Forall row_fits rows2 ->
  Verify_from zero_hash rows1 = Ok tt -> Verify_from zero_hash rows2 = Ok tt ->
  end_hash zero_hash rows1 = end_hash zero_hash rows2 ->
  Forall2 same_content rows1 rows2 \/
  (exists r1 r2, r1 ∈ rows1 /\ r2 ∈ rows2 /\
     sha256_collision (control_preimage r1) (control_preimage r2)) \/
  (exists r, r ∈ rows1 ++ rows2 /\ hashControl r = zero_hash).
Proof.
  revert rows2. induction rows1 as [|r1 rows1 IH] using rev_ind;
    intros rows2 F1 F2 V1 V2 E; destruct rows2 as [|r2 rows2 _] using rev_ind.
  - left. constructor.
  - right; right. exists r2. rewrite end_hash_snoc in E.
    apply Verify_snoc in V2 as (_ & _ & _ & _ & V2). split; [set_solver|]. by rewrite V2, <-E.
  - right; right. exists r1. rewrite end_hash_snoc in E.
    apply Verify_snoc in V1 as (_ & _ & _ & _ & V1). split; [set_solver|]. by rewrite V1, E.
  - rewrite !end_hash_snoc in E. rewrite Forall_app, Forall_singleton in F1, F2.
    destruct F1 as [F1 G1], F2 as [F2 G2].
    apply Verify_snoc in V1 as (V1 & L1 & _ & Hp1 & H1).
    apply Verify_snoc in V2 as (V2 & L2 & _ & Hp2 & H2).
    destruct (decide (control_preimage r1 = control_preimage r2)) as [Q|N].
    + apply control_preimage_inj in Q as [Q C]; [|done..].
      destruct (IH rows2 F1 F2 V1 V2 ltac:(congruence)) as [A|[(x & y & ? & ? & ?)|(x & ? & ?)]].
      * left. by apply Forall2_app; [|constructor].
      * right; left. exists x, y. set_solver.
      * right; right. exists x. set_solver.
    + right; left. exists r1, r2. split; [set_solver|]. split; [set_solver|].
      split; [done|]. unfold Store.hashControl in H1, H2. congruence.
Qed.

(** ** Rows of one aggregate *)
Definition of_aggregate (kind id : string) r : bool :=
  bool_decide (cr_AggregateKind r = kind) && bool_decide (cr_AggregateID r = id).
Definition rows_of (kind id : string) rows : list (ControlRecord P) :=
  List.filter (of_aggregate kind id) rows.
Definition revisions_of (kind id : string) rows : list N := cr_Revision <$> rows_of kind id rows.

(** The revisions of an aggregate are 1, 2, ..., in journal order. *)
Definition contiguous (l : list N) : Prop := l = N.of_nat <$> seq 1 (length l).

Lemma contiguous_snoc l : contiguous l -> contiguous (l ++ [N.of_nat (length l) + 1]%N).
Proof.
  intros H. unfold contiguous in *. rewrite length_app, seq_app, fmap_app, <-H. cbn.
  do 2 f_equal. lia.
Qed.

Lemma rows_of_snoc kind id rows r :
  rows_of kind id (rows ++ [r]) =
  rows_of kind id rows ++ (if of_aggregate kind id r then [r] else []).
Proof. unfold rows_of. rewrite List.filter_app. cbn. by destruct (of_aggregate kind id r). Qed.

Lemma latest_revision_snoc kind id rows r :
  latest_revision (rows ++ [r]) kind id =
  if of_aggregate kind id r then N.max (latest_revision rows kind id) (cr_Revision r)
  else latest_revision rows kind id.
Proof. unfold latest_revision. by rewrite fold_left_app. Qed.

Lemma latest_revision_contiguous kind id rows :
  contiguous (revisions_of kind id rows) ->
  latest_revision rows kind id = N.of_nat (length (revisions_of kind id rows)).
Proof.
  unfold revisions_of. induction rows as [|r rows IH] using rev_ind; [done|].
  rewrite rows_of_snoc, latest_revision_snoc. destruct (of_aggregate kind id r); [|by rewrite app_nil_r].
  rewrite fmap_app, length_app. intros C. cbn [fmap list_fmap length] in *.
  unfold contiguous in C. rewrite length_app, seq_app, fmap_app in C.
  apply app_inj_2 in C as [C1 C2]; [|done]. injection C2 as C2. cbn [length] in C2.
  rewrite (IH C1), C2. lia.
Qed.

Record store_ok s : Prop := {
  so_chain : Verify s = Ok tt;
  so_seq : forall i r, st_records s !! i = Some r -> cr_Sequence r = (Z.of_nat i + 1)%Z;
  so_next : st_nextSequence s = (Z.of_nat (length (st_records s)) + 1)%Z;
  so_revs : forall kind id, contiguous (revisions_of kind id (st_records s));
  so_bound : forall r, r ∈ st_records s -> (cr_Revision r < 9223372036854775808)%N }.

Lemma empty_store_ok : store_ok empty_store.
Proof. split; try done. intros r H. by apply elem_of_nil in H. Qed.

(** The row [AppendControl] adds. *)
Record appended_row s r row : Prop := {
  ar_kind : cr_AggregateKind row = cr_AggregateKind r;
  ar_id : cr_AggregateID row = cr_AggregateID r;
  ar_event : cr_Kind row = cr_Kind r;
  ar_payload : cr_Payload row = cr_Payload r;
  ar_rev : cr_Revision row = cr_Revision r;
  ar_seq : cr_Sequence row = st_nextSequence s;
  ar_prev : cr_PreviousHash row = last_hash (st_records s);
  ar_hash : cr_Hash row = hashControl row;
  ar_next : cr_Revision r =
    u64 (latest_revision (st_records s) (cr_AggregateKind r) (cr_AggregateID r) + 1);
  ar_bound : (cr_Revision r < 9223372036854775808)%N }.

Definition add_row s row : Store P R :=
  s <| st_records := st_records s ++ [row] |> <| st_nextSequence := (st_nextSequence s + 1)%Z |>.

Lemma hashControl_content r1 r2 :
  cr_PreviousHash r1 = cr_PreviousHash r2 -> same_content r1 r2 -> hashControl r1 = hashControl r2.
Proof.
  intros Hp [Hk Hi Hr Ht He Hb]. unfold Store.hashControl, Store.control_preimage.
  by rewrite Hp, Hk, Hi, Hr, Ht, He, Hb.
Qed.

(** An instant read back from its INTEGER column hashes to the same bytes. *)
Lemma stored_instant t :
  uint64_of (time_UnixNano (unix_epoch + int64 (time_UnixNano t))) = uint64_of (time_UnixNano t).
Proof. unfold time_UnixNano at 1. by rewrite Z.add_simpl_l, uint64_of_int64. Qed.

Lemma AppendControl_inv s r now r' s' :
  AppendControl s r now = Ok (r', s') -> exists row, s' = add_row s row /\ appended_row s r row.
Proof.
  unfold Store.AppendControl. rewrite !check_bind_ok. intros (_ & V & B & E).
  apply Ok_inj, pair_eq in E as [_ <-]. eexists. split; [reflexivity|].
  apply N.eqb_eq in V. apply N.ltb_lt in B.
  split; [reflexivity..| |done|done]. cbn [cr_Hash].
  apply hashControl_content; [reflexivity|].
  split; [reflexivity..|symmetry; apply stored_instant|reflexivity|reflexivity].
Qed.

Lemma last_hash_end rows : last_hash rows = end_hash zero_hash rows.
Proof. done. Qed.

Lemma last_hash_length s : Verify s = Ok tt -> length (last_hash (st_records s)) = 32%nat.
Proof.
  unfold Store.Verify, last_hash. intros V. destruct (st_records s) as [|r l _] using rev_ind; [done|].
  rewrite last_snoc. apply Verify_snoc in V. tauto.
Qed.

(** On a well-formed store the number of revisions of an aggregate is below
    2^63, so the store's [latest+1] never wraps. *)
Lemma revisions_bound s kind id :
  store_ok s -> (N.of_nat (length (revisions_of kind id (st_records s))) < 9223372036854775808)%N.
Proof.
  intros [_ _ _ V B]. specialize (V kind id). unfold revisions_of, contiguous in *.
  remember (rows_of kind id (st_records s)) as l0 eqn:E.
  destruct l0 as [|r l _] using rev_ind; [cbn; lia|].
  rewrite fmap_app, length_app, seq_app, fmap_app in V.
  apply app_inj_2 in V as [_ V]; [|done]. injection V as V.
  assert (In : r ∈ st_records s).
  { assert (r ∈ rows_of kind id (st_records s)) by (rewrite <-E; set_solver).
    unfold rows_of in *. rewrite list_elem_of_In, filter_In in *. tauto. }
  specialize (B r In). rewrite fmap_app, length_app. cbn [fmap list_fmap length] in *. lia.
Qed.

Lemma appended_revision s r row :
  store_ok s -> appended_row s r row ->
  cr_Revision r =
  (N.of_nat (length (revisions_of (cr_AggregateKind r) (cr_AggregateID r) (st_records s))) + 1)%N.
Proof.
  intros Ok A. rewrite (ar_next _ _ _ A), latest_revision_contiguous by apply Ok.
  pose proof (revisions_bound s (cr_AggregateKind r) (cr_AggregateID r) Ok).
  apply u64_small. unfold two64. lia.
Qed.

Lemma add_row_ok s r row : store_ok s -> appended_row s r row -> store_ok (add_row s row).
Proof.
  intros Ok A. pose proof (appended_revision s r row Ok A) as Rv.
  destruct Ok as [C Q N V B]. split; cbn [add_row st_records st_nextSequence set].
  - unfold Store.Verify. cbn [st_records]. apply Verify_snoc. split; [exact C|].
    rewrite (ar_prev _ _ _ A), (ar_hash _ _ _ A). split; [by apply last_hash_length|].
    split; [apply sha256_length|]. done.
  - intros i x. rewrite lookup_app_Some. intros [Hx|[Hl Hx]]; [by apply Q|].
    apply list_lookup_singleton_Some in Hx as [Hi <-]. rewrite (ar_seq _ _ _ A), N. lia.
  - rewrite length_app, N. cbn. lia.
  - intros kind id. unfold revisions_of. rewrite rows_of_snoc.
    destruct (of_aggregate kind id row) eqn:O; [|rewrite app_nil_r; apply V].
    unfold of_aggregate in O. rewrite andb_true_iff, !bool_decide_eq_true in O. destruct O as [<- <-].
    rewrite fmap_app, (ar_kind _ _ _ A), (ar_id _ _ _ A). cbn [fmap list_fmap].
    rewrite (ar_rev _ _ _ A), Rv. apply contiguous_snoc, V.
  - intros x. rewrite elem_of_app, list_elem_of_singleton. intros [Hx| ->]; [by apply B|].
    rewrite (ar_rev _ _ _ A). apply A.
Qed.

(** The journal invariant is preserved by every append: [AppendControl]
    on a well-formed store (verified chain, rows numbered 1, 2, ..., every
    aggregate's revisions 1, 2, 3, ... in journal order, all below 2^63)
    yields a well-formed store with exactly one more row, and the aggregate's
    revisions grow by the appended one. *)
Theorem AppendControl_preserves s r now r' s' :
  store_ok s -> AppendControl s r now = Ok (r', s') ->
  store_ok s' /\ length (st_records s') = S (length (st_records s)) /\
  revisions_of (cr_AggregateKind r) (cr_AggregateID r) (st_records s') =
  revisions_of (cr_AggregateKind r) (cr_AggregateID r) (st_records s) ++ [cr_Revision r].
Proof.
  intros Ok H. apply AppendControl_inv in H as (row & -> & A).
  split; [by eapply add_row_ok|]. split; [cbn; rewrite length_app; cbn; lia|].
  unfold revisions_of. cbn [add_row st_records set]. rewrite rows_of_snoc, fmap_app.
  unfold of_aggregate. rewrite (ar_kind _ _ _ A), (ar_id _ _ _ A), !bool_decide_eq_true_2 by done.
  cbn. by rewrite (ar_rev _ _ _ A).
Qed.

(** ** Write-once tables *)
(** Policies and objects are write-once.  A put that succeeds makes the
    entry readable with exactly its content, keeps every other entry and the
    journal, and from then on only a put of the same content succeeds, without
    changing anything: any other content is refused as a conflict. *)
Theorem write_once_tables s :
  (forall digest doc s', PutPolicy s digest doc = Ok s' ->
     Policy s' digest = Ok doc /\ st_records s' = st_records s /\
     (forall d x, Policy s d = Ok x -> Policy s' d = Ok x) /\
     forall doc', doc' <> [] ->
       PutPolicy s' digest doc' = if bool_decide (doc = doc') then Ok s' else Err ErrPolicyConflict) /\
  (forall kind id doc s', PutObject s kind id doc = Ok s' ->
     Object s' kind id = Ok doc /\ st_records s' = st_records s /\
     (forall k i x, Object s k i = Ok x -> Object s' k i = Ok x) /\
     forall doc', doc' <> [] ->
       PutObject s' kind id doc' = if bool_decide (doc = doc') then Ok s' else Err ErrObjectConflict).
Proof.
  split.
  - intros digest doc s' E. unfold PutPolicy in E. rewrite check_bind_ok in E. destruct E as [C E]. to_prop.
    assert (L : st_policies s' !! digest = Some doc /\ st_records s' = st_records s /\
      forall d x, st_policies s !! d = Some x -> st_policies s' !! d = Some x).
    { destruct (st_policies s !! digest) as [stored|] eqn:L.
      - case_bool_decide; simplify_eq. auto.
      - injection E as <-. cbn. rewrite lookup_insert_eq. split; [done|]. split; [done|].
        intros d x Hx. rewrite lookup_insert_ne by congruence. done. }
    destruct L as (L & Rc & K). unfold Policy. rewrite L. split; [done|]. split; [done|]. split.
    + intros d x. rewrite !from_option_err_ok. apply K.
    + intros doc' N. unfold PutPolicy. rewrite L, (bool_decide_false (digest = "")), (bool_decide_false (doc' = []))
        by (naive_solver || done). done.
  - intros kind id doc s' E. unfold PutObject in E. rewrite check_bind_ok in E. destruct E as [C E]. to_prop.
    assert (L : st_objects s' !! (kind, id) = Some doc /\ st_records s' = st_records s /\
      forall k x, st_objects s !! k = Some x -> st_objects s' !! k = Some x).
    { destruct (st_objects s !! (kind, id)) as [stored|] eqn:L.
      - case_bool_decide; simplify_eq. auto.
      - injection E as <-. cbn. rewrite lookup_insert_eq. split; [done|]. split; [done|].
        intros d x Hx. rewrite lookup_insert_ne by congruence. done. }
    destruct L as (L & Rc & K). unfold Object. rewrite L. split; [done|]. split; [done|]. split.
    + intros k i x. rewrite !from_option_err_ok. apply K.
    + intros doc' N. unfold PutObject. rewrite L, (bool_decide_false (kind = "")), (bool_decide_false (id = "")),
        (bool_decide_false (doc' = [])) by (naive_solver || done). done.
Qed.
End Facts.
