(* ===== verification/Requests.v ===== *)
(** * Requests and responses

    The request structures of [internal/application] and the results its
    transactions store.  [request] is what the code marshals for the
    idempotency table: the [Deadline] of a [MutationMeta] is tagged [json:"-"],
    so [stableMeta] clears it.  The checks of [internal/ports] on what such a
    request selects are at the end. *)
From S2P Require Import Prelude Errors GoStrings States Values Ids Models Evidence Records.
Record InputPathMappingRequest := mkInputPathMappingRequest {
  ipm_OccurrenceRef : string; ipm_LogicalPath : string }.
#[export] Instance : Settable InputPathMappingRequest := {| record_eta r :=
  mkInputPathMappingRequest (ipm_OccurrenceRef r) (ipm_LogicalPath r) |}.

Record InputSelectionRequest := mkInputSelectionRequest {
  isel_FrozenSelectionRef : string; isel_OccurrenceRefs : list string;
  isel_PathMappings : list InputPathMappingRequest; isel_AllowedSidecars : list string;
  isel_SecurityScope : string; isel_RequireZeroCopy : bool }.
#[export] Instance : Settable InputSelectionRequest := {| record_eta r :=
  mkInputSelectionRequest (isel_FrozenSelectionRef r) (isel_OccurrenceRefs r)
    (isel_PathMappings r) (isel_AllowedSidecars r) (isel_SecurityScope r) (isel_RequireZeroCopy r) |}.

Definition InputSelectionRequest_Empty (r : InputSelectionRequest) : bool :=
  bool_decide (isel_FrozenSelectionRef r = "") && (length (isel_OccurrenceRefs r) =? 0)%nat
  && (length (isel_PathMappings r) =? 0)%nat && (length (isel_AllowedSidecars r) =? 0)%nat
  && bool_decide (isel_SecurityScope r = "") && negb (isel_RequireZeroCopy r).

Record AcquireRequest := mkAcquireRequest {
  acq_Meta : MutationMeta; acq_OwnerSubject : string; acq_InputViewID : string;
  acq_InputSelection : InputSelectionRequest; acq_PolicyDigest : string;
  acq_CapabilityDigest : string; acq_TTL : duration }.
#[export] Instance : Settable AcquireRequest := {| record_eta r :=
  mkAcquireRequest (acq_Meta r) (acq_OwnerSubject r) (acq_InputViewID r) (acq_InputSelection r)
    (acq_PolicyDigest r) (acq_CapabilityDigest r) (acq_TTL r) |}.

Record RenewLeaseRequest := mkRenewLeaseRequest {
  renew_Meta : MutationMeta; renew_LeaseID : string; renew_ExpectedRevision : N;
  renew_TTL : duration }.
#[export] Instance : Settable RenewLeaseRequest := {| record_eta r :=
  mkRenewLeaseRequest (renew_Meta r) (renew_LeaseID r) (renew_ExpectedRevision r) (renew_TTL r) |}.

Record TransitionAgentRequest := mkTransitionAgentRequest {
  tagent_Meta : MutationMeta; tagent_AgentWorkspaceID : string; tagent_Generation : N;
  tagent_ExpectedRevision : N; tagent_State : AgentGenerationState }.
#[export] Instance : Settable TransitionAgentRequest := {| record_eta r :=
  mkTransitionAgentRequest (tagent_Meta r) (tagent_AgentWorkspaceID r) (tagent_Generation r)
    (tagent_ExpectedRevision r) (tagent_State r) |}.

Record CreateExecRequest := mkCreateExecRequest {
  cexec_Meta : MutationMeta; cexec_LeaseID : string; cexec_Kind : Domain.ExecKind;
  cexec_Executable : string; cexec_Argv : list string; cexec_WorkingDirectory : string }.
#[export] Instance : Settable CreateExecRequest := {| record_eta r :=
  mkCreateExecRequest (cexec_Meta r) (cexec_LeaseID r) (cexec_Kind r) (cexec_Executable r)
    (cexec_Argv r) (cexec_WorkingDirectory r) |}.

Record TransitionExecRequest := mkTransitionExecRequest {
  texec_Meta : MutationMeta; texec_ExecID : string; texec_ExpectedRevision : N;
  texec_State : ExecState }.
#[export] Instance : Settable TransitionExecRequest := {| record_eta r :=
  mkTransitionExecRequest (texec_Meta r) (texec_ExecID r) (texec_ExpectedRevision r)
    (texec_State r) |}.

Record FinalizeExecRequest := mkFinalizeExecRequest {
  fexec_Meta : MutationMeta; fexec_ExecID : string; fexec_ExpectedRevision : N;
  fexec_State : ExecState; fexec_ExitCode : option Z; fexec_Signal : string;
  fexec_IncidentIDs : list string; fexec_CleanupConfirmed : bool; fexec_Error : string }.
#[export] Instance : Settable FinalizeExecRequest := {| record_eta r :=
  mkFinalizeExecRequest (fexec_Meta r) (fexec_ExecID r) (fexec_ExpectedRevision r) (fexec_State r)
    (fexec_ExitCode r) (fexec_Signal r) (fexec_IncidentIDs r) (fexec_CleanupConfirmed r)
    (fexec_Error r) |}.

Record BindAgentGenerationPlanRequest := mkBindAgentGenerationPlanRequest {
  bagent_Meta : MutationMeta; bagent_AgentWorkspaceID : string; bagent_Generation : N;
  bagent_ExpectedRevision : N; bagent_ProvisioningPlanDigest : string;
  bagent_WorkspaceProvisioningKey : string; bagent_AgentProvisioningKey : string }.
#[export] Instance : Settable BindAgentGenerationPlanRequest := {| record_eta r :=
  mkBindAgentGenerationPlanRequest (bagent_Meta r) (bagent_AgentWorkspaceID r)
    (bagent_Generation r) (bagent_ExpectedRevision r) (bagent_ProvisioningPlanDigest r)
    (bagent_WorkspaceProvisioningKey r) (bagent_AgentProvisioningKey r) |}.

Record BindTargetGenerationPlanRequest := mkBindTargetGenerationPlanRequest {
  btarget_Meta : MutationMeta; btarget_TargetID : string; btarget_Generation : N;
  btarget_ExpectedRevision : N; btarget_ProvisioningPlanDigest : string;
  btarget_ProvisioningKey : string }.
#[export] Instance : Settable BindTargetGenerationPlanRequest := {| record_eta r :=
  mkBindTargetGenerationPlanRequest (btarget_Meta r) (btarget_TargetID r) (btarget_Generation r)
    (btarget_ExpectedRevision r) (btarget_ProvisioningPlanDigest r) (btarget_ProvisioningKey r) |}.

Record BindTargetRunPlanRequest := mkBindTargetRunPlanRequest {
  brun_Meta : MutationMeta; brun_TargetID : string; brun_RunID : string;
  brun_ExpectedRevision : N; brun_ProvisioningPlanDigest : string;
  brun_ProvisioningKey : string }.
#[export] Instance : Settable BindTargetRunPlanRequest := {| record_eta r :=
  mkBindTargetRunPlanRequest (brun_Meta r) (brun_TargetID r) (brun_RunID r)
    (brun_ExpectedRevision r) (brun_ProvisioningPlanDigest r) (brun_ProvisioningKey r) |}.

Record CreateTargetRequest := mkCreateTargetRequest {
  ctarget_Meta : MutationMeta; ctarget_LeaseID : string; ctarget_Template : string;
  ctarget_Kind : Domain.TargetKind; ctarget_PolicyDigest : string;
  ctarget_CapabilityDigest : string }.
#[export] Instance : Settable CreateTargetRequest := {| record_eta r :=
  mkCreateTargetRequest (ctarget_Meta r) (ctarget_LeaseID r) (ctarget_Template r) (ctarget_Kind r)
    (ctarget_PolicyDigest r) (ctarget_CapabilityDigest r) |}.

Record TransitionTargetGenerationRequest := mkTransitionTargetGenerationRequest {
  ttgen_Meta : MutationMeta; ttgen_TargetID : string; ttgen_Generation : N;
  ttgen_ExpectedRevision : N; ttgen_State : TargetGenerationState }.
#[export] Instance : Settable TransitionTargetGenerationRequest := {| record_eta r :=
  mkTransitionTargetGenerationRequest (ttgen_Meta r) (ttgen_TargetID r) (ttgen_Generation r)
    (ttgen_ExpectedRevision r) (ttgen_State r) |}.

(** [ports.TargetRef] and [ports.TargetQuarantineEvidence] *)

Record TargetRef := mkTargetRef {
  tref_ID : uuidV7; tref_Generation : N }.
#[export] Instance : Settable TargetRef := {| record_eta r :=
  mkTargetRef (tref_ID r) (tref_Generation r) |}.

#[export] Instance TargetRef_eq_dec : EqDecision TargetRef.
Proof. solve_decision. Defined.

Record TargetQuarantineEvidence := mkTargetQuarantineEvidence {
  qev_Target : TargetRef; qev_RuntimeID : string; qev_ExecutionStopped : bool;
  qev_NetworkUnreachable : bool; qev_StatePreserved : bool; qev_ObservedAt : time }.
#[export] Instance : Settable TargetQuarantineEvidence := {| record_eta r :=
  mkTargetQuarantineEvidence (qev_Target r) (qev_RuntimeID r) (qev_ExecutionStopped r)
    (qev_NetworkUnreachable r) (qev_StatePreserved r) (qev_ObservedAt r) |}.

Record QuarantineTargetRequest := mkQuarantineTargetRequest {
  quar_Meta : MutationMeta; quar_TargetID : string; quar_ExpectedRevision : N;
  quar_Reason : string; quar_Evidence : TargetQuarantineEvidence }.
#[export] Instance : Settable QuarantineTargetRequest := {| record_eta r :=
  mkQuarantineTargetRequest (quar_Meta r) (quar_TargetID r) (quar_ExpectedRevision r)
    (quar_Reason r) (quar_Evidence r) |}.

Record StartTargetRunRequest := mkStartTargetRunRequest {
  srun_Meta : MutationMeta; srun_TargetID : string; srun_MaterializationDigest : string;
  srun_SpecimenOccurrenceRefs : list string; srun_FixtureRefs : list string }.
#[export] Instance : Settable StartTargetRunRequest := {| record_eta r :=
  mkStartTargetRunRequest (srun_Meta r) (srun_TargetID r) (srun_MaterializationDigest r)
    (srun_SpecimenOccurrenceRefs r) (srun_FixtureRefs r) |}.

Record TransitionTargetRunRequest := mkTransitionTargetRunRequest {
  trun_Meta : MutationMeta; trun_TargetID : string; trun_RunID : string;
  trun_ExpectedRevision : N; trun_State : TargetRunState }.
#[export] Instance : Settable TransitionTargetRunRequest := {| record_eta r :=
  mkTransitionTargetRunRequest (trun_Meta r) (trun_TargetID r) (trun_RunID r)
    (trun_ExpectedRevision r) (trun_State r) |}.

Record FinalizeTargetRunRequest := mkFinalizeTargetRunRequest {
  frun_Meta : MutationMeta; frun_TargetID : string; frun_RunID : string;
  frun_ExpectedRevision : N; frun_Failed : bool; frun_BundleID : string;
  frun_BundleArtifact : string; frun_BundleDigest : string; frun_IncidentIDs : list string }.
#[export] Instance : Settable FinalizeTargetRunRequest := {| record_eta r :=
  mkFinalizeTargetRunRequest (frun_Meta r) (frun_TargetID r) (frun_RunID r)
    (frun_ExpectedRevision r) (frun_Failed r) (frun_BundleID r) (frun_BundleArtifact r)
    (frun_BundleDigest r) (frun_IncidentIDs r) |}.

Record CreateTargetOperationRequest := mkCreateTargetOperationRequest {
  cop_Meta : MutationMeta; cop_TargetID : string; cop_RunID : string;
  cop_Kind : Domain.TargetOperationKind; cop_CommandDisplay : string;
  cop_ContentDigest : string }.
#[export] Instance : Settable CreateTargetOperationRequest := {| record_eta r :=
  mkCreateTargetOperationRequest (cop_Meta r) (cop_TargetID r) (cop_RunID r) (cop_Kind r)
    (cop_CommandDisplay r) (cop_ContentDigest r) |}.

(** [ports.ResetMode] *)
Inductive ResetMode := ResetRecreate | ResetBaseline | ResetSnapshot | ResetModeUnrecognized (s : string).
#[export] Instance ResetMode_eq_dec : EqDecision ResetMode.
Proof. solve_decision. Defined.
Definition ResetMode_IsValid (m : ResetMode) : bool :=
  match m with ResetModeUnrecognized _ => false | _ => true end.

Record ResetTargetRequest := mkResetTargetRequest {
  reset_Meta : MutationMeta; reset_TargetID : string; reset_ExpectedRevision : N;
  reset_Mode : ResetMode; reset_SnapshotName : string; reset_RecoveryIncidentID : string }.
#[export] Instance : Settable ResetTargetRequest := {| record_eta r :=
  mkResetTargetRequest (reset_Meta r) (reset_TargetID r) (reset_ExpectedRevision r) (reset_Mode r)
    (reset_SnapshotName r) (reset_RecoveryIncidentID r) |}.

Record TransitionTargetOperationRequest := mkTransitionTargetOperationRequest {
  top_Meta : MutationMeta; top_TargetID : string; top_OperationID : string;
  top_ExpectedRevision : N; top_State : TargetOperationState }.
#[export] Instance : Settable TransitionTargetOperationRequest := {| record_eta r :=
  mkTransitionTargetOperationRequest (top_Meta r) (top_TargetID r) (top_OperationID r)
    (top_ExpectedRevision r) (top_State r) |}.

Record CreateIncidentRequest := mkCreateIncidentRequest {
  cinc_Meta : MutationMeta; cinc_Classification : IncidentClassification;
  cinc_SessionID : string; cinc_LeaseID : string; cinc_AgentWorkspaceID : string;
  cinc_AgentGeneration : N; cinc_ExecID : string; cinc_TargetID : string;
  cinc_TargetGeneration : N; cinc_TargetRunID : string; cinc_Trigger : string;
  cinc_LastKnownState : string; cinc_Cause : CauseRecord;
  cinc_HighWaterMetrics : list IncidentMetricRecord; cinc_FirstRelevantCursor : N;
  cinc_LastRelevantCursor : N; cinc_Coverage : list IncidentCoverageRecord;
  cinc_ObservationBundleID : string; cinc_Artifacts : list IncidentArtifactRecord }.
#[export] Instance : Settable CreateIncidentRequest := {| record_eta r :=
  mkCreateIncidentRequest (cinc_Meta r) (cinc_Classification r) (cinc_SessionID r)
    (cinc_LeaseID r) (cinc_AgentWorkspaceID r) (cinc_AgentGeneration r) (cinc_ExecID r)
    (cinc_TargetID r) (cinc_TargetGeneration r) (cinc_TargetRunID r) (cinc_Trigger r)
    (cinc_LastKnownState r) (cinc_Cause r) (cinc_HighWaterMetrics r) (cinc_FirstRelevantCursor r)
    (cinc_LastRelevantCursor r) (cinc_Coverage r) (cinc_ObservationBundleID r) (cinc_Artifacts r) |}.

Record TransitionIncidentRequest := mkTransitionIncidentRequest {
  tinc_Meta : MutationMeta; tinc_IncidentID : string; tinc_ExpectedRevision : N;
  tinc_State : IncidentState; tinc_RecoveryActions : list string;
  tinc_VisibilityAcknowledgements : list string }.
#[export] Instance : Settable TransitionIncidentRequest := {| record_eta r :=
  mkTransitionIncidentRequest (tinc_Meta r) (tinc_IncidentID r) (tinc_ExpectedRevision r)
    (tinc_State r) (tinc_RecoveryActions r) (tinc_VisibilityAcknowledgements r) |}.

Inductive RecoveryResource :=
| RecoveryResourceTarget | RecoveryResourceAgent | RecoveryResourceUnrecognized (s : string).
#[export] Instance RecoveryResource_eq_dec : EqDecision RecoveryResource.
Proof. solve_decision. Defined.
Definition RecoveryResource_valid (r : RecoveryResource) : bool :=
  match r with RecoveryResourceUnrecognized _ => false | _ => true end.
Definition RecoveryResource_string (r : RecoveryResource) : string :=
  match r with
  | RecoveryResourceTarget => "target"
  | RecoveryResourceAgent => "agent_workspace"
  | RecoveryResourceUnrecognized s => s
  end.

Record RecoverIncidentRequest := mkRecoverIncidentRequest {
  rinc_Meta : MutationMeta; rinc_IncidentID : string; rinc_ExpectedIncidentRevision : N;
  rinc_Resource : RecoveryResource; rinc_Strategy : string;
  rinc_VisibilityAcknowledgement : string }.
#[export] Instance : Settable RecoverIncidentRequest := {| record_eta r :=
  mkRecoverIncidentRequest (rinc_Meta r) (rinc_IncidentID r) (rinc_ExpectedIncidentRevision r)
    (rinc_Resource r) (rinc_Strategy r) (rinc_VisibilityAcknowledgement r) |}.

Record RecoveryOutcome := mkRecoveryOutcome {
  rout_Incident : IncidentRecord; rout_Target : option TargetRecord;
  rout_Agent : option AgentWorkspaceRecord; rout_Lease : option LeaseRecord }.
#[export] Instance : Settable RecoveryOutcome := {| record_eta r :=
  mkRecoveryOutcome (rout_Incident r) (rout_Target r) (rout_Agent r) (rout_Lease r) |}.

Record SealRunIncidentsRequest := mkSealRunIncidentsRequest {
  seal_Meta : MutationMeta; seal_TargetID : string; seal_RunID : string; seal_BundleID : string;
  seal_BundleArtifact : IncidentArtifactRecord; seal_IncidentIDs : list string }.
#[export] Instance : Settable SealRunIncidentsRequest := {| record_eta r :=
  mkSealRunIncidentsRequest (seal_Meta r) (seal_TargetID r) (seal_RunID r) (seal_BundleID r)
    (seal_BundleArtifact r) (seal_IncidentIDs r) |}.

Record ReleaseResearchSessionRequest := mkReleaseResearchSessionRequest {
  rel_Meta : MutationMeta; rel_LeaseID : string; rel_ExpectedRevision : N; rel_Reason : string }.
#[export] Instance : Settable ReleaseResearchSessionRequest := {| record_eta r :=
  mkReleaseResearchSessionRequest (rel_Meta r) (rel_LeaseID r) (rel_ExpectedRevision r)
    (rel_Reason r) |}.

Record ReleaseOutcome := mkReleaseOutcome {
  relout_SessionID : string; relout_LeaseID : string; relout_ReleasedAt : time }.
#[export] Instance : Settable ReleaseOutcome := {| record_eta r :=
  mkReleaseOutcome (relout_SessionID r) (relout_LeaseID r) (relout_ReleasedAt r) |}.

Record ReleasePreparation := mkReleasePreparation {
  relprep_View : ResearchSessionView; relprep_ReleasingLeaseRevision : N }.
#[export] Instance : Settable ReleasePreparation := {| record_eta r :=
  mkReleasePreparation (relprep_View r) (relprep_ReleasingLeaseRevision r) |}.

Record BeginLeaseExpiryRequest := mkBeginLeaseExpiryRequest {
  bexp_LeaseID : string; bexp_ExpectedRevision : N }.
#[export] Instance : Settable BeginLeaseExpiryRequest := {| record_eta r :=
  mkBeginLeaseExpiryRequest (bexp_LeaseID r) (bexp_ExpectedRevision r) |}.

Record CompleteLeaseTerminationRequest := mkCompleteLeaseTerminationRequest {
  cterm_LeaseID : string; cterm_ExpectedRevision : N }.
#[export] Instance : Settable CompleteLeaseTerminationRequest := {| record_eta r :=
  mkCompleteLeaseTerminationRequest (cterm_LeaseID r) (cterm_ExpectedRevision r) |}.

Record LeaseTerminationPreparation := mkLeaseTerminationPreparation {
  tprep_View : ResearchSessionView; tprep_Kind : LeaseTerminationKind;
  tprep_TerminatingLeaseRevision : N }.
#[export] Instance : Settable LeaseTerminationPreparation := {| record_eta r :=
  mkLeaseTerminationPreparation (tprep_View r) (tprep_Kind r) (tprep_TerminatingLeaseRevision r) |}.

Record LeaseTerminationOutcome := mkLeaseTerminationOutcome {
  tout_SessionID : string; tout_LeaseID : string; tout_Kind : LeaseTerminationKind;
  tout_LeaseState : LeaseState; tout_CompletedAt : time }.
#[export] Instance : Settable LeaseTerminationOutcome := {| record_eta r :=
  mkLeaseTerminationOutcome (tout_SessionID r) (tout_LeaseID r) (tout_Kind r) (tout_LeaseState r)
    (tout_CompletedAt r) |}.

Record LeaseTerminationWork := mkLeaseTerminationWork {
  work_LeaseID : string; work_SessionID : string; work_Kind : LeaseTerminationKind;
  work_State : LeaseTerminationState; work_LeaseRevision : N; work_ExpiresAt : time;
  work_NeedsBegin : bool }.
#[export] Instance : Settable LeaseTerminationWork := {| record_eta r :=
  mkLeaseTerminationWork (work_LeaseID r) (work_SessionID r) (work_Kind r) (work_State r)
    (work_LeaseRevision r) (work_ExpiresAt r) (work_NeedsBegin r) |}.

(** The [json:"-"] deadline is no part of the marshalled request. *)
Definition stableMeta (m : MutationMeta) : MutationMeta := m <| meta_Deadline := 0%Z |>.

(** One constructor per marshalled request type. *)
Inductive request :=
| QAcquire (r : AcquireRequest) | QRenewLease (r : RenewLeaseRequest)
| QTransitionAgent (r : TransitionAgentRequest) | QCreateExec (r : CreateExecRequest)
| QTransitionExec (r : TransitionExecRequest) | QFinalizeExec (r : FinalizeExecRequest)
| QBindAgentPlan (r : BindAgentGenerationPlanRequest)
| QBindTargetPlan (r : BindTargetGenerationPlanRequest) | QBindRunPlan (r : BindTargetRunPlanRequest)
| QCreateTarget (r : CreateTargetRequest) | QTransitionTarget (r : TransitionTargetGenerationRequest)
| QQuarantineTarget (r : QuarantineTargetRequest) | QStartRun (r : StartTargetRunRequest)
| QTransitionRun (r : TransitionTargetRunRequest) | QFinalizeRun (r : FinalizeTargetRunRequest)
| QCreateOperation (r : CreateTargetOperationRequest) | QResetTarget (r : ResetTargetRequest)
| QTransitionOperation (r : TransitionTargetOperationRequest)
| QCreateIncident (r : CreateIncidentRequest) | QTransitionIncident (r : TransitionIncidentRequest)
| QRecoverIncident (r : RecoverIncidentRequest) | QSealIncidents (r : SealRunIncidentsRequest)
| QRelease (r : ReleaseResearchSessionRequest) | QBeginExpiry (r : BeginLeaseExpiryRequest)
| QCompleteTermination (r : CompleteLeaseTerminationRequest).

(** The marshalled results of the transactions, as stored for replay. *)
Inductive response :=
| RSessionID (id : string)
| RLease (v : LeaseRecord)
| RAgent (v : AgentWorkspaceRecord)
| RExecID (id : string)
| RExec (v : ExecRecord)
| RTargetID (id : string)
| RTarget (v : TargetRecord)
| RRun (targetID runID : string)
| ROperation (targetID operationID : string)
| RIncidentID (id : string)
| RIncident (v : IncidentRecord)
| RRecovery (v : RecoveryOutcome)
| RSealed (ids : list string)
| RReleasePreparation (sessionID : string) (releasingLeaseRevision : N)
| RRelease (v : ReleaseOutcome)
| RTermination (v : LeaseTerminationOutcome).

(** The journal payloads: the JSON text of a record is represented by the
    record it strictly decodes to, [PRaw] stands for bytes that decode to none. *)
Inductive payload :=
| PSession (v : SessionRecord)
| PLease (v : LeaseRecord)
| PAgent (v : AgentWorkspaceRecord)
| PExec (v : ExecRecord)
| PTarget (v : TargetRecord)
| PIncident (v : IncidentRecord)
| PRaw (bytes : list N).

(** ** The checks of [internal/ports] *)
Definition ValidateResetSelection (mode : ResetMode) (snapshotName : string) : result unit :=
  let bad := NewError CodeInvalidArgument "ports.validate_reset_selection" in
  _ ← check (ResetMode_IsValid mode) (bad "mode");
  if bool_decide (mode = ResetSnapshot) then
    _ ← check (negb (blank snapshotName)) (bad "snapshot_name");
    check (bool_decide (snapshotName = TrimSpace snapshotName)) (bad "snapshot_name")
  else check (bool_decide (snapshotName = "")) (bad "snapshot_name").

Definition TargetRef_Validate (r : TargetRef) : result unit :=
  check (negb (id_IsZero (tref_ID r) || negb (TargetGeneration_IsValid (tref_Generation r))))
    (NewError CodeInvalidArgument "ports.target_ref.validate" "scope").

Definition TargetQuarantineEvidence_Validate (e : TargetQuarantineEvidence) (expected : TargetRef)
  : result unit :=
  let operation := "ports.target_quarantine_evidence.validate" in
  _ ← TargetRef_Validate expected;
  _ ← check (bool_decide (qev_Target e = expected)) (NewError CodeIntegrityViolation operation "target");
  _ ← check (negb (blank (qev_RuntimeID e) || time_IsZero (qev_ObservedAt e)))
        (NewError CodeIntegrityViolation operation "observation");
  check (negb (negb (qev_ExecutionStopped e) || negb (qev_NetworkUnreachable e)
               || negb (qev_StatePreserved e)))
    (NewError CodeFailedPrecondition operation "confirmation").
