(* ===== verification/Machine.v ===== *)
(** * The control core as a state machine

    The state of [application.Core] over its store, and the effects its
    commands use: the clock, the identity generator, the fault-injection points
    of the store, journal appends and [RunIdempotent]'s transaction.

    A command is a function of the state that returns a result or an error
    together with the next state.  Every reading of the clock, of the random
    source or of a fault point consumes one tick of an environment that is
    arbitrary: theorems say what they need of it.  The core's mutex makes
    commands atomic, so concurrent callers are sequences of commands. *)
From S2P Require Import Prelude Errors Sha256 GoStrings States Values Ids Records Store StoreFacts Requests.
Record Core := mkCore {
  core_lastSequence : Z;
  core_sessions : gmap string SessionRecord;
  core_leases : gmap string LeaseRecord;
  core_agents : gmap string AgentWorkspaceRecord;
  core_execs : gmap string ExecRecord;
  core_targets : gmap string TargetRecord;
  core_incidents : gmap string IncidentRecord }.
#[export] Instance : Settable Core := {| record_eta r :=
  mkCore (core_lastSequence r) (core_sessions r) (core_leases r) (core_agents r) (core_execs r)
    (core_targets r) (core_incidents r) |}.

Definition empty_core : Core := mkCore 0 ∅ ∅ ∅ ∅ ∅ ∅.

Abbreviation CoreStore := (Store payload response).

Record World := mkWorld { w_store : CoreStore; w_core : Core; w_tick : nat }.
#[export] Instance : Settable World := {| record_eta r := mkWorld (w_store r) (w_core r) (w_tick r) |}.

(** The environment: what the n-th reading of the clock, of the random source
    and of a fault point returns (the random source fills ten bytes or fails),
    and the JSON texts the code measures and hashes (never empty). *)
Class Env := {
  clock_at : nat -> time;
  random_at : nat -> option (list N);
  fault_at : nat -> string -> option err;
  payload_bytes : payload -> list N;
  request_bytes : request -> list N;
  random_ten : forall n l, random_at n = Some l -> length l = 10%nat /\ is_bytes l;
  payload_bytes_nonempty : forall p, payload_bytes p <> [];
  request_bytes_nonempty : forall r, request_bytes r <> [] }.

Definition M (A : Type) : Type := World -> result A * World.
#[export] Instance M_ret : MRet M := fun A a w => (Ok a, w).
#[export] Instance M_bind : MBind M := fun A B f m w =>
  match m w with
  | (Ok a, w') => f a w'
  | (Err e, w') => (Err e, w')
  end.

Definition fail {A} (e : err) : M A := fun w => (Err e, w).
Definition lift {A} (r : result A) : M A := fun w => (r, w).
Definition guard (b : bool) (e : err) : M unit := lift (check b e).
Definition getCore : M Core := fun w => (Ok (w_core w), w).
Definition tick (w : World) : World := w <| w_tick := S (w_tick w) |>.

Section Machine.
Context `{Env}.

(** [c.clock()] *)
Definition clock : M time := fun w => (Ok (clock_at (w_tick w)), tick w).

(** [c.ids.XID()]: the generator reads the clock, then the random source. *)
Definition random : M (option (list N)) := fun w => (Ok (random_at (w_tick w)), tick w).
Definition newID : M uuidV7 :=
  now ← clock; bytes ← random; lift (generateID now bytes).

(** [s.faults.Hit(ctx, point)] *)
Definition hit (point : string) : M unit :=
  fun w => (match fault_at (w_tick w) point with Some e => Err e | None => Ok tt end, tick w).

(** [tx.AppendControl] and [tx.PutSnapshot] *)
Definition txAppendControl (record : ControlRecord payload) (now : time) : M unit := fun w =>
  match AppendControl payload_bytes (w_store w) record now with
  | Err e => (Err e, w)
  | Ok (_, s) => (Ok tt, w <| w_store := s |>)
  end.
Definition txPutSnapshot (kind id : string) (revision : N) (value : payload) : M unit := fun w =>
  match PutSnapshot payload_bytes (w_store w) kind id revision value with
  | Err e => (Err e, w)
  | Ok s => (Ok tt, w <| w_store := s |>)
  end.

(** [appendControl]: the journal row, then the snapshot. *)
Definition appendControl (aggregateKind aggregateID eventKind : string) (revision : N)
    (value : payload) : M unit :=
  now ← clock;
  _ ← txAppendControl (mkControlRecord 0%Z aggregateKind aggregateID revision eventKind value 0%Z
                         zero_hash zero_hash) now;
  txPutSnapshot aggregateKind aggregateID revision value.

(** [tx.Rollback()] on error: the store returns to where the transaction
    began; readings already made stay made. *)
Definition transaction {A} (m : M A) : M A := fun w =>
  match m w with
  | (Ok a, w') => (Ok a, w')
  | (Err e, w') => (Err e, w' <| w_store := w_store w |>)
  end.

Definition lookupIdempotency (namespace key : string) : M (option (list N * response)) :=
  fun w => (Ok (st_idempotency (w_store w) !! (namespace, key)), w).
Definition insertIdempotency (namespace key : string) (hash : list N) (r : response) : M unit :=
  fun w => (Ok tt, w <| w_store := (w_store w) <| st_idempotency :=
              <[(namespace, key) := (hash, r)]> (st_idempotency (w_store w)) |> |>).

(** The body of the transaction. *)
Definition RunIdempotent_tx (namespace key : string) (requestHash : list N) (handler : M response)
  : M (response * bool) :=
  _ ← hit "store.after_begin";
  stored ← lookupIdempotency namespace key;
  match stored with
  | Some (storedHash, storedResponse) =>
      if equalHash storedHash requestHash then mret (storedResponse, true)
      else fail ErrIdempotencyConflict
  | None =>
      _ ← hit "store.before_handler";
      response ← handler;
      _ ← hit "store.before_idempotency_insert";
      _ ← insertIdempotency namespace key requestHash response;
      _ ← hit "store.before_commit";
      mret (response, false)
  end.

(** [RunIdempotent]; the boolean is [replayed]. *)
Definition RunIdempotent (namespace key : string) (req : list N) (handler : M response)
  : M (response * bool) :=
  _ ← guard (negb (bool_decide (namespace = "") || bool_decide (key = "") || bool_decide (req = [])))
        (ErrText "namespace, key, request, and handler are required");
  _ ← hit "store.before_begin";
  outcome ← transaction (RunIdempotent_tx namespace key (sha256 req) handler);
  if (snd outcome : bool) then mret outcome
  else _ ← hit "store.after_commit"; mret outcome.
End Machine.

(** * Properties of the transaction machinery

    The inversion tactic of the monad, and the possible outcomes of
    [RunIdempotent]: refused with nothing changed, answered from the idempotency
    table, or committed together with its entry. *)
(** ** Inversion of the monad *)
Lemma M_bind_inv {A B} (m : M A) (f : A -> M B) w r w' :
  (m ≫= f) w = (r, w') ->
  (exists a w1, m w = (Ok a, w1) /\ f a w1 = (r, w')) \/
  (exists e, m w = (Err e, w') /\ r = Err e).
Proof.
  unfold mbind, M_bind. destruct (m w) as [[a|e] w1]; intros E; [left; eauto|].
  right. simplify_eq. eauto.
Qed.

Lemma M_bind_ok {A B} (m : M A) (f : A -> M B) w b w' :
  (m ≫= f) w = (Ok b, w') <-> exists a w1, m w = (Ok a, w1) /\ f a w1 = (Ok b, w').
Proof.
  unfold mbind, M_bind. destruct (m w) as [[a|e] w1]; split.
  - eauto.
  - intros (? & ? & E & ?). by simplify_eq.
  - done.
  - by intros (? & ? & E & ?).
Qed.

Lemma lift_ok {A} (x : result A) w a w' : lift x w = (Ok a, w') <-> x = Ok a /\ w' = w.
Proof. unfold lift. naive_solver. Qed.

Lemma guard_ok b e w u w' : guard b e w = (Ok u, w') <-> b = true /\ w' = w.
Proof. unfold guard. rewrite lift_ok, check_ok. done. Qed.

Lemma getCore_ok w c w' : getCore w = (Ok c, w') <-> c = w_core w /\ w' = w.
Proof. unfold getCore. naive_solver. Qed.

Lemma mret_ok {A} (a b : A) w w' : (mret a : M A) w = (Ok b, w') <-> b = a /\ w' = w.
Proof. unfold mret, M_ret. naive_solver. Qed.

Lemma fail_ok {A} e w (a : A) w' : fail e w = (Ok a, w') <-> False.
Proof. unfold fail. naive_solver. Qed.

(** [inv_M H] splits a successful run into the runs of its parts. *)
Ltac inv_M H :=
  lazymatch type of H with
  | (_ ≫= _) _ = (Ok _, _) =>
      let x := fresh "x" in let w := fresh "w" in let H1 := fresh H in
      apply M_bind_ok in H; destruct H as (x & w & H1 & H); inv_M H1; inv_M H
  | lift _ _ = (Ok _, _) =>
      let H1 := fresh H in apply lift_ok in H; destruct H as [H H1]; try subst
  | guard _ _ _ = (Ok _, _) =>
      let H1 := fresh H in apply guard_ok in H; destruct H as [H H1]; try subst
  | getCore _ = (Ok _, _) => apply getCore_ok in H; destruct H; try subst
  | mret _ _ = (Ok _, _) => apply mret_ok in H; destruct H; try subst
  | fail _ _ = (Ok _, _) => exfalso; exact (proj1 (fail_ok _ _ _ _) H)
  | (let _ := _ in _) = _ => cbv zeta in H; inv_M H
  | _ => idtac
  end.

Lemma equalHash_spec a b : equalHash a b = true <-> a = b.
Proof.
  unfold equalHash.
  assert (G : forall l acc, fold_left (fun d '(x, y) => N.lor d (N.lxor x y)) l acc = 0%N <->
     acc = 0%N /\ Forall (fun '(x, y) => x = y) l).
  { induction l as [|[x y] l IH]; intros acc; cbn [fold_left].
    - split; [intros ->|intros [-> _]]; done.
    - rewrite IH, Forall_cons, N.lor_eq_0_iff, N.lxor_eq_0_iff. tauto. }
  case_bool_decide as L; cbn [negb].
  - rewrite N.eqb_eq, G. split.
    + intros [_ F]. revert b L F. induction a as [|x a IH]; intros [|y b] L F; try done.
      cbn in *. inversion_clear F. f_equal; [done|]. apply IH; [lia|done].
    + intros ->. split; [done|]. clear L G. induction b; constructor; done.
  - split; [done|]. congruence.
Qed.

Section Facts.
Context `{Env}.

(** A world that differs only in the readings consumed. *)
Definition same_state (w w' : World) : Prop := w_store w' = w_store w /\ w_core w' = w_core w.

Lemma clock_ok w t w' : clock w = (Ok t, w') <-> t = clock_at (w_tick w) /\ w' = tick w.
Proof. unfold clock. naive_solver. Qed.

Lemma hit_inv point w r w' : hit point w = (r, w') ->
  w' = tick w /\ r = match fault_at (w_tick w) point with Some e => Err e | None => Ok tt end.
Proof. unfold hit. naive_solver. Qed.

(** [RunIdempotent] has exactly four outcomes. *)
Inductive idempotent_outcome (namespace key : string) (req : list N) (handler : M response)
    (w : World) : result (response * bool) -> World -> Prop :=
| IO_rejected e w' :
    w_store w' = w_store w ->
    idempotent_outcome namespace key req handler w (Err e) w'
| IO_replayed r w' :
    same_state w w' -> st_idempotency (w_store w) !! (namespace, key) = Some (sha256 req, r) ->
    idempotent_outcome namespace key req handler w (Ok (r, true)) w'
| IO_committed r wh wh' out w' :
    st_idempotency (w_store w) !! (namespace, key) = None ->
    same_state w wh -> handler wh = (Ok r, wh') ->
    w_core w' = w_core wh' ->
    w_store w' = (w_store wh') <| st_idempotency :=
      <[(namespace, key) := (sha256 req, r)]> (st_idempotency (w_store wh')) |> ->
    out = Ok (r, false) \/ (exists e, out = Err e) ->
    idempotent_outcome namespace key req handler w out w'.

Lemma RunIdempotent_tx_inv namespace key hash handler w r w' :
  RunIdempotent_tx namespace key hash handler w = (r, w') ->
  (exists e, r = Err e) \/
  (exists x, r = Ok (x, true) /\ same_state w w' /\
     st_idempotency (w_store w) !! (namespace, key) = Some (hash, x)) \/
  (exists x wh wh', r = Ok (x, false) /\
     st_idempotency (w_store w) !! (namespace, key) = None /\
     same_state w wh /\ handler wh = (Ok x, wh') /\ w_core w' = w_core wh' /\
     w_store w' = (w_store wh') <| st_idempotency :=
       <[(namespace, key) := (hash, x)]> (st_idempotency (w_store wh')) |>).
Proof.
  destruct r as [x|e]; [|by eauto]. unfold RunIdempotent_tx. intros E. inv_M E. right.
  apply hit_inv in E0 as [-> _].
  unfold lookupIdempotency in E1. cbn [tick set w_store] in E1. simplify_eq.
  destruct (st_idempotency (w_store w) !! (namespace, key)) as [[h y]|] eqn:L.
  - left. destruct (equalHash h hash) eqn:Q; inv_M E. apply equalHash_spec in Q as ->.
    by exists y.
  - right. inv_M E. apply hit_inv in E0 as [-> _], E2 as [-> _], E4 as [-> _].
    unfold insertIdempotency in E3. simplify_eq.
    do 3 eexists. split; [done|]. split; [done|]. split; [|split; [exact E1|done]]. done.
Qed.

Lemma RunIdempotent_outcome namespace key req handler w r w' :
  RunIdempotent namespace key req handler w = (r, w') ->
  idempotent_outcome namespace key req handler w r w'.
Proof.
  unfold RunIdempotent. intros E. apply M_bind_inv in E as [(u & w1 & G & E)|(e & G & ->)].
  2: { unfold guard, lift in G. simplify_eq. by apply IO_rejected. }
  apply guard_ok in G as [_ ->].
  apply M_bind_inv in E as [([] & w1 & Hh & E)|(e & Hh & ->)].
  2: { apply hit_inv in Hh as [-> _]. by apply IO_rejected. }
  apply hit_inv in Hh as [-> _].
  apply M_bind_inv in E as [(out & w2 & T & E)|(e & T & ->)]; unfold transaction in T.
  - destruct (RunIdempotent_tx _ _ _ _ _) as [[o|e] w3] eqn:TX; simplify_eq.
    apply RunIdempotent_tx_inv in TX as [[e ?]|[(x & Ex & S & L)|(x & wh & wh' & Ex & N & S & Hx & C & St)]];
      [done|..]; simplify_eq; cbn [snd] in E.
    + unfold mret, M_ret in E. simplify_eq. by apply IO_replayed.
    + apply M_bind_inv in E as [([] & w4 & Hh & E)|(e & Hh & ->)]; apply hit_inv in Hh as [-> _].
      * unfold mret, M_ret in E. simplify_eq. eapply IO_committed; eauto.
      * eapply IO_committed; eauto.
  - destruct (RunIdempotent_tx _ _ _ _ _) as [[o|e'] w3]; simplify_eq. by apply IO_rejected.
Qed.

(** Code that leaves the projection alone. *)
Definition core_fixed {A} (m : M A) : Prop := forall w r w', m w = (r, w') -> w_core w' = w_core w.

Lemma core_fixed_bind {A B} (m : M A) (f : A -> M B) :
  core_fixed m -> (forall a, core_fixed (f a)) -> core_fixed (m ≫= f).
Proof.
  intros Cm Cf w r w' E. apply M_bind_inv in E as [(a & w1 & E1 & E2)|(e & E1 & ->)].
  - rewrite (Cf _ _ _ _ E2). by eapply Cm.
  - by eapply Cm.
Qed.
Lemma core_fixed_hit point : core_fixed (hit point).
Proof. unfold hit. intros ????. by simplify_eq. Qed.

Lemma RunIdempotent_core_fixed namespace key req handler :
  core_fixed handler -> core_fixed (RunIdempotent namespace key req handler).
Proof.
  intros Hc. assert (R : forall A (r : result A), core_fixed (lift r)) by (intros ????? E; by injection E as <- <-).
  apply core_fixed_bind; [apply R|intros _]. apply core_fixed_bind; [apply core_fixed_hit|intros _].
  apply core_fixed_bind.
  2: { intros [r []]; cbn [snd]; [intros ??? E; by injection E as <- <-|].
       apply core_fixed_bind; [apply core_fixed_hit|]. intros _ ??? E. by injection E as <- <-. }
  assert (T : core_fixed (RunIdempotent_tx namespace key (sha256 req) handler)).
  { apply core_fixed_bind; [apply core_fixed_hit|intros _].
    apply core_fixed_bind; [intros ??? E; by injection E as <- <-|].
    intros [[h r]|]; [destruct (equalHash _ _); intros ??? E; by injection E as <- <-|].
    repeat (apply core_fixed_bind; [first [apply core_fixed_hit|exact Hc|intros ??? E; by injection E as <- <-]|intros ?]).
    intros ??? E. by injection E as <- <-. }
  intros w r w' E. unfold transaction in E. destruct (RunIdempotent_tx _ _ _ _ w) as [[x|e] w1] eqn:X;
    apply T in X; by injection E as <- <-.
Qed.

(** No fault point fires from reading [n] on. *)
Definition quiet_from (n : nat) : Prop := forall m point, (n <= m)%nat -> fault_at m point = None.

Lemma hit_quiet n point w : quiet_from n -> (n <= w_tick w)%nat -> hit point w = (Ok tt, tick w).
Proof. intros Q L. unfold hit. by rewrite Q. Qed.

Lemma RunIdempotent_guard namespace key req handler w r w' :
  RunIdempotent namespace key req handler w = (r, w') -> w_store w' <> w_store w ->
  negb (bool_decide (namespace = "") || bool_decide (key = "") || bool_decide (req = [])) = true.
Proof.
  unfold RunIdempotent, guard, lift, mbind at 1, M_bind at 1.
  destruct (negb _); [done|]. cbn. intros [= <- <-]. done.
Qed.

(** A key that is already in the table: the handler is not run. *)
Lemma RunIdempotent_hit namespace key req handler w h r :
  negb (bool_decide (namespace = "") || bool_decide (key = "") || bool_decide (req = [])) = true ->
  quiet_from (w_tick w) ->
  st_idempotency (w_store w) !! (namespace, key) = Some (h, r) ->
  RunIdempotent namespace key req handler w =
  (if equalHash h (sha256 req) then Ok (r, true) else Err ErrIdempotencyConflict, tick (tick w)).
Proof.
  intros G Q L. unfold RunIdempotent, RunIdempotent_tx, transaction, mbind, M_bind, guard, lift.
  rewrite G. cbn [check]. rewrite !(hit_quiet (w_tick w)) by (done || cbn; lia).
  unfold lookupIdempotency. cbn [tick set w_store]. rewrite L.
  destruct (equalHash h (sha256 req)); [done|]. by destruct w.
Qed.

(** A committed call is never run again while its entry is in the table. *)
Lemma RunIdempotent_again namespace key req handler w out w1 req' handler' w2 :
  RunIdempotent namespace key req handler w = (out, w1) ->
  w_store w1 <> w_store w ->
  st_idempotency (w_store w1) ⊆ st_idempotency (w_store w2) ->
  quiet_from (w_tick w2) -> req' <> [] ->
  exists r, (out = Ok (r, false) \/ exists e, out = Err e) /\
    w_store (snd (RunIdempotent namespace key req' handler' w2)) = w_store w2 /\
    (req' = req -> fst (RunIdempotent namespace key req' handler' w2) = Ok (r, true)) /\
    (req' <> req ->
     fst (RunIdempotent namespace key req' handler' w2) = Err ErrIdempotencyConflict \/
     sha256_collision req req').
Proof.
  intros E N K Q NE. pose proof (RunIdempotent_guard _ _ _ _ _ _ _ E N) as G.
  apply RunIdempotent_outcome in E. revert N K.
  destruct E as [? ? S|? ? [S _] ?|r wh wh' out w1 L S Hh C St Ho]; intros N K; [done..|].
  rewrite St in K. cbn [set st_idempotency] in K.
  eapply lookup_weaken in K; [|apply lookup_insert_eq].
  assert (G' : negb (bool_decide (namespace = "") || bool_decide (key = "") || bool_decide (req' = [])) = true).
  { rewrite negb_true_iff, !orb_false_iff, !bool_decide_eq_false in G |- *. tauto. }
  rewrite (RunIdempotent_hit _ _ _ _ _ _ _ G' Q K). exists r. cbn [fst snd].
  split; [done|]. split; [done|]. split.
  - intros ->. by rewrite (proj2 (equalHash_spec _ _) eq_refl).
  - intros D. destruct (equalHash _ _) eqn:Eq; [|by left].
    apply equalHash_spec in Eq. right. by split; [apply not_eq_sym|].
Qed.
End Facts.

(** * How commands change the journal

    [appendControl] keeps the hash chain, the row numbering, the revisions and
    the snapshot table in order.  [journals m] states what a transaction body
    may do (append rows, never touch the projection or the idempotency table),
    is closed under the monad, and is proved of every handler by [journaling]. *)
Section Journal.
Context `{Env}.
Implicit Types s : CoreStore.

(** The snapshot table holds exactly the latest row of every aggregate. *)
Definition snapshots_ok s : Prop := forall kind id,
  st_snapshots s !! (kind, id) =
  (fun r => (cr_Revision r, cr_Payload r)) <$> last (rows_of kind id (st_records s)).

Definition journal_ok s : Prop := store_ok payload_bytes s /\ snapshots_ok s.

Lemma empty_journal_ok : journal_ok empty_store.
Proof. split; [apply empty_store_ok|]. done. Qed.

Lemma snapshot_below s kind id stored p (row : ControlRecord payload) :
  journal_ok s -> st_snapshots s !! (kind, id) = Some (stored, p) ->
  cr_Revision row = (N.of_nat (length (revisions_of kind id (st_records s))) + 1)%N ->
  (stored < cr_Revision row)%N.
Proof.
  intros [Ok Sn]. rewrite Sn. destruct (last _) as [r|] eqn:L; cbn; [|done].
  intros [= <- <-] ->. pose proof (so_revs _ _ Ok kind id) as C. unfold contiguous, revisions_of in *.
  rewrite length_fmap in C |- *. apply last_Some in L as [l L]. rewrite L in C |- *.
  rewrite fmap_app, length_app, seq_app, fmap_app in C. apply app_inj_2 in C as [_ C]; [|done].
  injection C as C. rewrite length_app. cbn [length]. lia.
Qed.

(** [appendControl] that succeeds adds one row carrying the payload. *)
Record journal_step kind id revision (value : payload) s s' : Prop := {
  js_row : exists row, st_records s' = st_records s ++ [row] /\ cr_AggregateKind row = kind /\
    cr_AggregateID row = id /\ cr_Revision row = revision /\ cr_Payload row = value;
  js_idem : st_idempotency s' = st_idempotency s;
  js_ok : journal_ok s -> journal_ok s' }.

Lemma appendControl_inv kind id event revision value w u w' :
  appendControl kind id event revision value w = (Ok u, w') ->
  w_core w' = w_core w /\ journal_step kind id revision value (w_store w) (w_store w').
Proof.
  unfold appendControl. intros E. inv_M E. apply clock_ok in E0 as [-> ->].
  unfold txAppendControl in E1. destruct (AppendControl _ _ _ _) as [[r s1]|e] eqn:A; [|done].
  apply AppendControl_inv in A as (row & -> & A). apply pair_eq in E1 as [_ <-].
  cbn [w_store w_core set tick] in E. unfold txPutSnapshot in E. cbn [w_store w_core set tick] in E.
  destruct (PutSnapshot _ _ _ _ _ _) as [s2|] eqn:Sn; [|done]. apply pair_eq in E as [_ <-].
  cbn [w_store w_core set tick]. split; [done|].
  unfold PutSnapshot in Sn. rewrite !check_bind_ok in Sn. destruct Sn as (_ & _ & Sn).
  cbn [add_row st_snapshots set] in Sn.
  pose proof (ar_rev _ _ _ _ A) as Rv. pose proof (ar_kind _ _ _ _ A) as Rk.
  pose proof (ar_id _ _ _ _ A) as Ri. pose proof (ar_payload _ _ _ _ A) as Rp.
  cbn [cr_AggregateKind cr_AggregateID cr_Revision cr_Payload] in Rv, Rk, Ri, Rp.
  assert (Q : journal_ok (w_store w) ->
    s2 = (add_row (w_store w) row) <| st_snapshots :=
           <[(kind, id) := (revision, value)]> (st_snapshots (w_store w)) |>).
  { intros J. destruct (st_snapshots (w_store w) !! (kind, id)) as [[stored p]|] eqn:L;
      [|by apply Ok_inj in Sn].
    pose proof (appended_revision _ _ _ _ (proj1 J) A) as V. cbn [cr_AggregateKind cr_AggregateID cr_Revision] in V.
    pose proof (snapshot_below _ _ _ _ _ row J L ltac:(by rewrite Rv)) as B. rewrite Rv in B.
    rewrite (proj2 (N.ltb_lt _ _) B) in Sn. by apply Ok_inj in Sn. }
  assert (st_records s2 = st_records (w_store w) ++ [row] /\ st_idempotency s2 = st_idempotency (w_store w)) as [Er Ei].
  { clear Q. destruct (st_snapshots (w_store w) !! (kind, id)) as [[stored p]|];
      [destruct (stored <? revision)%N|]; apply Ok_inj in Sn as <-; done. }
  split; [|exact Ei|].
  - exists row. auto.
  - intros J. rewrite (Q J). split.
    + pose proof (add_row_ok _ _ _ _ (proj1 J) A) as [C1 C2 C3 C4 C5]. by split.
    + intros k i. cbn [st_snapshots st_records add_row set]. rewrite rows_of_snoc.
      unfold of_aggregate. rewrite Rk, Ri.
      destruct (decide ((kind, id) = (k, i))) as [[= -> ->]|N].
      * rewrite lookup_insert_eq, !bool_decide_true by done. cbn [andb].
        rewrite last_snoc. cbn. by rewrite Rv, Rp.
      * rewrite lookup_insert_ne by done. rewrite (proj2 J k i).
        replace (bool_decide (kind = k) && bool_decide (id = i)) with false.
        { by rewrite app_nil_r. }
        symmetry. rewrite andb_false_iff, !bool_decide_eq_false.
        destruct (decide (kind = k)) as [->|]; [right; congruence|by left].
Qed.

(** ** What a transaction body may do *)
Record extends s s' : Prop := {
  ex_records : st_records s `prefix_of` st_records s';
  ex_idem : st_idempotency s' = st_idempotency s;
  ex_ok : journal_ok s -> journal_ok s' }.

#[global] Instance extends_preorder : PreOrder extends.
Proof.
  split; [by split|]. intros s1 s2 s3 [R1 I1 O1] [R2 I2 O2].
  split; [by etrans|congruence|auto].
Qed.

(** The projection is never touched; what is done before an error is rolled
    back by the transaction, so only success has to extend the journal. *)
Definition journals {A} (m : M A) : Prop := forall w r w',
  m w = (r, w') -> w_core w' = w_core w /\ (is_ok r = true -> extends (w_store w) (w_store w')).

Lemma journals_same {A} (m : M A) :
  (forall w r w', m w = (r, w') -> same_state w w') -> journals m.
Proof. intros S w r w' E. destruct (S _ _ _ E) as [Es Ec]. split; [done|]. by rewrite Es. Qed.

Lemma journals_bind {A B} (m : M A) (f : A -> M B) :
  journals m -> (forall a, journals (f a)) -> journals (m ≫= f).
Proof.
  intros Jm Jf w r w' E. apply M_bind_inv in E as [(a & w1 & E1 & E2)|(e & E1 & ->)].
  - destruct (Jm _ _ _ E1) as [C1 X1], (Jf _ _ _ _ E2) as [C2 X2].
    split; [congruence|]. intros O. etrans; [by apply X1|by apply X2].
  - destruct (Jm _ _ _ E1) as [C1 _]. done.
Qed.

Lemma journals_ret {A} (a : A) : journals (mret a).
Proof. apply journals_same. unfold mret, M_ret. intros. by simplify_eq. Qed.
Lemma journals_lift {A} (r : result A) : journals (lift r).
Proof. apply journals_same. unfold lift. intros. by simplify_eq. Qed.
Lemma journals_getCore : journals getCore.
Proof. apply journals_same. unfold getCore. intros. by simplify_eq. Qed.
Lemma journals_clock : journals clock.
Proof. apply journals_same. unfold clock. intros. by simplify_eq. Qed.
Lemma journals_random : journals random.
Proof. apply journals_same. unfold random. intros. by simplify_eq. Qed.
Lemma journals_newID : journals newID.
Proof.
  apply journals_bind; [apply journals_clock|intros].
  apply journals_bind; [apply journals_random|intros]. apply journals_lift.
Qed.

Lemma appendControl_core kind id event revision value w r w' :
  appendControl kind id event revision value w = (r, w') -> w_core w' = w_core w.
Proof.
  unfold appendControl, mbind, M_bind, clock, txAppendControl, txPutSnapshot. cbn [w_store tick set].
  destruct (AppendControl _ _ _ _) as [[? s1]|]; [|by intros; simplify_eq].
  cbn [w_store set]. destruct (PutSnapshot _ _ _ _ _ _); intros; by simplify_eq.
Qed.
Lemma journals_append kind id event revision value :
  journals (appendControl kind id event revision value).
Proof.
  intros w r w' E. split; [by eapply appendControl_core|]. destruct r as [u|]; [intros _|done].
  apply appendControl_inv in E as [C [(row & Er & _) I O]].
  split; [|done|done]. rewrite Er. by apply prefix_app_r.
Qed.

(** [RunIdempotent] leaves the projection alone. *)
Lemma RunIdempotent_core namespace key req handler w r w' :
  journals handler -> RunIdempotent namespace key req handler w = (r, w') -> w_core w' = w_core w.
Proof.
  intros J. apply RunIdempotent_core_fixed. intros w1 r1 w1' E. exact (proj1 (J _ _ _ E)).
Qed.
End Journal.

Create HintDb journals.
#[export] Hint Resolve journals_ret journals_lift journals_getCore journals_clock journals_random
  journals_newID journals_append : journals.

(** [journaling] walks a handler: binds, branches and the primitives. *)
Ltac journaling :=
  repeat first
    [ solve [eauto 2 with journals]
    | apply journals_bind; [|intros ?]
    | match goal with
      | |- journals (let _ := _ in _) => cbv zeta
      | |- journals (if ?b then _ else _) => destruct b
      | |- journals (match ?x with _ => _ end) => destruct x
      | |- journals (guard _ _) => unfold guard
      end ].
