(* ===== verification/Replay.v ===== *)
(** * Replay validation

    [internal/application/replay_validation.go]: what a journal record must
    satisfy, on its own and against the projection built so far, before the
    core accepts it. *)
From Stdlib Require Import SpecFloat.
From S2P Require Import Prelude Errors GoStrings States Values Ids Idempotency Models Evidence Records Requests Machine.
Definition replayOperation : string := "application.replay".
Definition replayViolation (field : string) : err := integrityViolation replayOperation field.

(** [if err := f(); err != nil { return replayViolation(field, ...) }] *)
Definition orViolation {A} (field : string) (r : result A) : result A :=
  match r with Ok a => Ok a | Err _ => Err (replayViolation field) end.

Definition parsePersisted {A} (field value : string) (parse : string -> result A) : result A :=
  orViolation field (parse value).
Definition parseOptionalPersisted {A} (zero : A) (field value : string) (parse : string -> result A)
  : result A :=
  if bool_decide (value = "") then Ok zero else parsePersisted field value parse.
Definition parsePersistedDigest (field value : string) : result (list N) :=
  parsePersisted field value ParseDigest.

Definition requirePersistedState (field : string) (valid : bool) : result unit :=
  check valid (replayViolation field).
Definition requirePersistedRevision (field : string) (revision : N) : result unit :=
  check (Revision_IsValid revision) (replayViolation field).

Definition requirePersistedTimes (prefix createdName : string) (created updated : time) : result unit :=
  _ ← check (negb (time_IsZero created)) (replayViolation (prefix +:+ "." +:+ createdName));
  _ ← check (negb (time_IsZero updated)) (replayViolation (prefix +:+ ".updated_at"));
  check (negb (time_Before updated created)) (replayViolation (prefix +:+ ".updated_at")).

Definition requireContainedTimes (prefix : string) (parentCreated parentUpdated created updated : time)
  : result unit :=
  _ ← requirePersistedTimes prefix "created_at" created updated;
  _ ← check (negb (time_Before created parentCreated)) (replayViolation (prefix +:+ ".created_at"));
  check (negb (time_After updated parentUpdated)) (replayViolation (prefix +:+ ".updated_at")).

Definition requireNonBlankPersisted (field value : string) : result unit :=
  check (negb (blank value)) (replayViolation field).

Definition validateGenerationSequence {T} (field : string) (current : N) (values : list T)
    (generation : T -> N) (validate : nat -> T -> result unit) : result unit :=
  _ ← check (negb ((current =? 0)%N || negb (N.of_nat (length values) =? current)%N))
        (replayViolation field);
  res_each (fun index value =>
    _ ← check (generation value =? N.of_nat (index + 1))%N
          (replayViolation (indexed field index +:+ ".generation"));
    validate index value) 0 values.

(** The [seen] set of [rememberPersistedID] threads through a loop: element
    [index] must not repeat an identity of an earlier element. *)
Definition rememberPersistedID {T} (ids : T -> string) (values : list T) (field : string)
    (index : nat) (value : T) : result unit :=
  check (negb (bool_decide (ids value ∈ ids <$> firstn index values))) (replayViolation field).

Definition validatePersistedIncidentIDs (field : string) (values : list string) : result unit :=
  res_each (fun index value =>
    let itemField := indexed field index in
    _ ← parsePersisted itemField value (parseID prefix_incident);
    rememberPersistedID id values itemField index value) 0 values.

(** ** Self-contained validation of one record *)
Definition validateReplaySession (value : SessionRecord) : result unit :=
  sessionID ← parsePersisted "session.id" (session_ID value) (parseID prefix_researchSession);
  _ ← parsePersisted "session.lease_id" (session_LeaseID value) (parseID prefix_lease);
  _ ← parsePersisted "session.agent_workspace_id" (session_AgentWorkspaceID value) (parseID prefix_agentWorkspace);
  _ ← parsePersisted "session.input_view_id" (session_InputViewID value) ParseInputViewID;
  _ ← parsePersistedDigest "session.policy_digest" (session_PolicyDigest value);
  _ ← parsePersistedDigest "session.capability_digest" (session_CapabilityDigest value);
  _ ← requireNonBlankPersisted "session.owner_subject" (session_OwnerSubject value);
  _ ← check (IsCanonicalIdempotencyKey (session_AcquisitionIdempotencyKey value))
        (replayViolation "session.acquisition_idempotency_key");
  _ ← orViolation "session" (Domain.NewResearchSession sessionID (session_CreatedAt value));
  _ ← requirePersistedState "session.state" (ResearchSessionState_IsValid (session_State value));
  _ ← requirePersistedRevision "session.revision" (session_Revision value);
  requirePersistedTimes "session" "created_at" (session_CreatedAt value) (session_UpdatedAt value).

Definition validateReplayLeaseTermination (value : LeaseRecord) : result unit :=
  let t := lease_Termination value in
  if LeaseTerminationRecord_Empty t then
    check (negb (bool_decide (lease_State value = LeaseReleasing)
                 || bool_decide (lease_State value = LeaseReleased)
                 || bool_decide (lease_State value = LeaseExpired))) (replayViolation "lease.termination")
  else
  _ ← check (LeaseTerminationKind_IsValid (term_Kind t)) (replayViolation "lease.termination.kind");
  _ ← check (LeaseTerminationState_IsValid (term_State t)) (replayViolation "lease.termination.state");
  _ ← requireNonBlankPersisted "lease.termination.reason" (term_Reason t);
  _ ← check (IsCanonicalIdempotencyKey (term_BeginIdempotencyKey t))
        (replayViolation "lease.termination.begin_idempotency_key");
  _ ← parsePersistedDigest "lease.termination.begin_request_digest" (term_BeginRequestDigest t);
  _ ← check (negb ((term_InitiatedLeaseRevision t <? 2)%N
                   || (lease_Revision value <? term_InitiatedLeaseRevision t)%N))
        (replayViolation "lease.termination.initiated_lease_revision");
  _ ← check (negb (time_IsZero (term_InitiatedAt t)
                   || time_Before (term_InitiatedAt t) (lease_CreatedAt value)
                   || time_After (term_InitiatedAt t) (lease_UpdatedAt value)))
        (replayViolation "lease.termination.initiated_at");
  _ ← match term_Kind t with
      | LeaseTerminationRelease =>
          _ ← check (bool_decide (term_State t = LeaseTerminationReleasing)
                     || bool_decide (term_State t = LeaseTerminationReleased))
                (replayViolation "lease.termination.state");
          _ ← check (negb (bool_decide (term_State t = LeaseTerminationReleasing)
                           && negb (bool_decide (lease_State value = LeaseReleasing))))
                (replayViolation "lease.state");
          _ ← check (negb (bool_decide (term_State t = LeaseTerminationReleased)
                           && negb (bool_decide (lease_State value = LeaseReleased))))
                (replayViolation "lease.state");
          check (time_Before (term_InitiatedAt t) (lease_ExpiresAt value))
            (replayViolation "lease.termination.initiated_at")
      | LeaseTerminationExpiry =>
          _ ← check (bool_decide (term_State t = LeaseTerminationExpiring)
                     || bool_decide (term_State t = LeaseTerminationExpired))
                (replayViolation "lease.termination.state");
          _ ← check (negb (time_Before (term_InitiatedAt t) (lease_ExpiresAt value)))
                (replayViolation "lease.termination.initiated_at");
          _ ← check (negb (bool_decide (term_State t = LeaseTerminationExpiring)
                           && negb (bool_decide (lease_State value = LeaseActive))))
                (replayViolation "lease.state");
          check (negb (bool_decide (term_State t = LeaseTerminationExpired)
                       && negb (bool_decide (lease_State value = LeaseExpired))))
            (replayViolation "lease.state")
      | LeaseTerminationKindUnrecognized _ => Ok tt
      end;
  if LeaseTerminationState_Terminal (term_State t) then
    _ ← check (IsCanonicalIdempotencyKey (term_CompleteIdempotencyKey t))
          (replayViolation "lease.termination.complete_idempotency_key");
    _ ← parsePersistedDigest "lease.termination.complete_request_digest" (term_CompleteRequestDigest t);
    _ ← check (negb (time_IsZero (term_CompletedAt t)
                     || time_Before (term_CompletedAt t) (term_InitiatedAt t)
                     || negb (time_Equal (term_CompletedAt t) (lease_UpdatedAt value))))
          (replayViolation "lease.termination.completed_at");
    check (lease_Revision value =? u64 (term_InitiatedLeaseRevision t + 1))%N
      (replayViolation "lease.revision")
  else
    _ ← check (negb (negb (bool_decide (term_CompleteIdempotencyKey t = ""))
                     || negb (bool_decide (term_CompleteRequestDigest t = ""))
                     || negb (time_IsZero (term_CompletedAt t)))) (replayViolation "lease.termination");
    check (lease_Revision value =? term_InitiatedLeaseRevision t)%N (replayViolation "lease.revision").

Definition validateReplayLease (value : LeaseRecord) : result unit :=
  leaseID ← parsePersisted "lease.id" (lease_ID value) (parseID prefix_lease);
  sessionID ← parsePersisted "lease.session_id" (lease_SessionID value) (parseID prefix_researchSession);
  agentID ← parsePersisted "lease.agent_workspace_id" (lease_AgentWorkspaceID value) (parseID prefix_agentWorkspace);
  inputViewID ← parsePersisted "lease.input_view_id" (lease_InputViewID value) ParseInputViewID;
  policyDigest ← parsePersistedDigest "lease.policy_digest" (lease_PolicyDigest value);
  capabilityDigest ← parsePersistedDigest "lease.capability_digest" (lease_CapabilityDigest value);
  _ ← orViolation "lease" (Domain.NewLease (Domain.mkLeaseSpec leaseID sessionID agentID
        (lease_AgentGeneration value) inputViewID policyDigest capabilityDigest
        (lease_ExpiresAt value) (lease_CreatedAt value)));
  _ ← requirePersistedState "lease.state" (LeaseState_IsValid (lease_State value));
  _ ← requirePersistedRevision "lease.revision" (lease_Revision value);
  _ ← validateReplayLeaseTermination value;
  requirePersistedTimes "lease" "created_at" (lease_CreatedAt value) (lease_UpdatedAt value).

Definition agentProvisioningBindingEmpty (g : AgentGenerationRecord) : bool :=
  bool_decide (agen_ProvisioningPlanDigest g = "") && bool_decide (agen_WorkspaceProvisioningKey g = "")
  && bool_decide (agen_AgentProvisioningKey g = "").
Definition agentProvisioningBindingComplete (g : AgentGenerationRecord) : bool :=
  negb (bool_decide (agen_ProvisioningPlanDigest g = ""))
  && negb (bool_decide (agen_WorkspaceProvisioningKey g = ""))
  && negb (bool_decide (agen_AgentProvisioningKey g = "")).
Definition sameAgentProvisioningBinding (left right : AgentGenerationRecord) : bool :=
  bool_decide (agen_ProvisioningPlanDigest left = agen_ProvisioningPlanDigest right)
  && bool_decide (agen_WorkspaceProvisioningKey left = agen_WorkspaceProvisioningKey right)
  && bool_decide (agen_AgentProvisioningKey left = agen_AgentProvisioningKey right).

Definition validateAgentProvisioningBinding (prefix : string) (g : AgentGenerationRecord) : result unit :=
  if agentProvisioningBindingEmpty g then Ok tt else
  _ ← check (agentProvisioningBindingComplete g) (replayViolation (prefix +:+ ".provisioning"));
  _ ← parsePersistedDigest (prefix +:+ ".provisioning_plan_digest") (agen_ProvisioningPlanDigest g);
  check (IsCanonicalIdempotencyKey (agen_WorkspaceProvisioningKey g)
         && IsCanonicalIdempotencyKey (agen_AgentProvisioningKey g))
    (replayViolation (prefix +:+ ".provisioning_key")).

Definition validateReplayAgentGeneration (value : AgentWorkspaceRecord) (agentID : uuidV7)
    (index : nat) (g : AgentGenerationRecord) : result unit :=
  let prefix := indexed "agent_workspace.generations" index in
  workspaceID ← parsePersisted (prefix +:+ ".workspace_id") (agen_WorkspaceID g) (parseID prefix_workspace);
  _ ← rememberPersistedID agen_WorkspaceID (agent_Generations value) (prefix +:+ ".workspace_id") index g;
  inputViewID ← parsePersisted (prefix +:+ ".input_view_id") (agen_InputViewID g) ParseInputViewID;
  policyDigest ← parsePersistedDigest (prefix +:+ ".policy_digest") (agen_PolicyDigest g);
  capabilityDigest ← parsePersistedDigest (prefix +:+ ".capability_digest") (agen_CapabilityDigest g);
  _ ← validateAgentProvisioningBinding prefix g;
  recoveryIncident ← parseOptionalPersisted zero_uuid (prefix +:+ ".recovery_incident")
                       (agen_RecoveryIncident g) (parseID prefix_incident);
  _ ← orViolation prefix (Domain.NewAgentWorkspaceGeneration (Domain.mkAgentWorkspaceGenerationSpec
        agentID (agen_Generation g) workspaceID inputViewID policyDigest capabilityDigest
        (agen_Previous g) recoveryIncident (agen_CreatedAt g)));
  _ ← requirePersistedState (prefix +:+ ".state") (AgentGenerationState_IsValid (agen_State g));
  _ ← requirePersistedRevision (prefix +:+ ".revision") (agen_Revision g);
  requireContainedTimes prefix (agent_CreatedAt value) (agent_UpdatedAt value)
    (agen_CreatedAt g) (agen_UpdatedAt g).

Definition validateReplayAgentWorkspace (value : AgentWorkspaceRecord) : result unit :=
  agentID ← parsePersisted "agent_workspace.id" (agent_ID value) (parseID prefix_agentWorkspace);
  sessionID ← parsePersisted "agent_workspace.session_id" (agent_SessionID value) (parseID prefix_researchSession);
  _ ← orViolation "agent_workspace" (Domain.NewAgentWorkspace agentID sessionID
        (agent_CurrentGeneration value) (agent_CreatedAt value));
  _ ← requirePersistedRevision "agent_workspace.revision" (agent_Revision value);
  _ ← requirePersistedTimes "agent_workspace" "created_at" (agent_CreatedAt value) (agent_UpdatedAt value);
  validateGenerationSequence "agent_workspace.generations" (agent_CurrentGeneration value)
    (agent_Generations value) agen_Generation (validateReplayAgentGeneration value agentID).

(** [validateExecCommand] of [execs.go] *)
Definition validateExecCommand (executable : string) (argv : list string) (workingDirectory : string)
  : result unit :=
  let op := "exec.validate_command" in
  _ ← check (negb (blank executable || ContainsByte executable NUL)) (invalidArgument op "executable");
  _ ← check (negb ((4096 <? slen executable)%Z || (4096 <? slen workingDirectory)%Z
                   || (4096 <? Z.of_nat (length argv))%Z)) (resourceExhausted op "command");
  _ ← check (negb (ContainsByte workingDirectory NUL)) (invalidArgument op "working_directory");
  res_each (fun index argument =>
    check (negb ((1048576 <? slen argument)%Z || ContainsByte argument NUL))
      (invalidArgument op (indexed "argv" index))) 0 argv.

(** [value.ExitCode == nil || *value.ExitCode != 0 || !value.CleanupConfirmed] *)
Definition incomplete_completion (exitCode : option Z) (cleanupConfirmed : bool) : bool :=
  match exitCode with None => true | Some c => negb (c =? 0)%Z || negb cleanupConfirmed end.

Definition validateReplayExec (value : ExecRecord) : result unit :=
  execID ← parsePersisted "exec.id" (exec_ID value) (parseID prefix_exec);
  _ ← parsePersisted "exec.session_id" (exec_SessionID value) (parseID prefix_researchSession);
  leaseID ← parsePersisted "exec.lease_id" (exec_LeaseID value) (parseID prefix_lease);
  agentID ← parsePersisted "exec.agent_workspace_id" (exec_AgentWorkspaceID value) (parseID prefix_agentWorkspace);
  _ ← orViolation "exec.command"
        (validateExecCommand (exec_Executable value) (exec_Argv value) (exec_WorkingDirectory value));
  _ ← orViolation "exec" (Domain.NewExec (Domain.mkExecSpec execID leaseID agentID
        (exec_AgentGeneration value) (exec_Kind value) (exec_Executable value) (exec_Argv value)
        (exec_WorkingDirectory value) (exec_CreatedAt value)));
  _ ← requirePersistedState "exec.state" (ExecState_IsValid (exec_State value));
  _ ← requirePersistedRevision "exec.revision" (exec_Revision value);
  _ ← requirePersistedTimes "exec" "created_at" (exec_CreatedAt value) (exec_UpdatedAt value);
  _ ← check (negb (bool_decide (exec_State value = ExecCompleted)
                   && incomplete_completion (exec_ExitCode value) (exec_CleanupConfirmed value)))
        (replayViolation "exec.terminal");
  validatePersistedIncidentIDs "exec.incident_ids" (exec_IncidentIDs value).

Definition targetProvisioningBindingEmpty (g : TargetGenerationRecord) : bool :=
  bool_decide (tgen_ProvisioningPlanDigest g = "") && bool_decide (tgen_ProvisioningKey g = "").
Definition targetProvisioningBindingComplete (g : TargetGenerationRecord) : bool :=
  negb (bool_decide (tgen_ProvisioningPlanDigest g = "")) && negb (bool_decide (tgen_ProvisioningKey g = "")).
Definition sameTargetProvisioningBinding (left right : TargetGenerationRecord) : bool :=
  bool_decide (tgen_ProvisioningPlanDigest left = tgen_ProvisioningPlanDigest right)
  && bool_decide (tgen_ProvisioningKey left = tgen_ProvisioningKey right).

Definition validateTargetProvisioningBinding (prefix : string) (g : TargetGenerationRecord) : result unit :=
  if targetProvisioningBindingEmpty g then Ok tt else
  _ ← check (targetProvisioningBindingComplete g) (replayViolation (prefix +:+ ".provisioning"));
  _ ← parsePersistedDigest (prefix +:+ ".provisioning_plan_digest") (tgen_ProvisioningPlanDigest g);
  check (IsCanonicalIdempotencyKey (tgen_ProvisioningKey g)) (replayViolation (prefix +:+ ".provisioning_key")).

Definition targetRunProvisioningBindingEmpty (r : TargetRunRecord) : bool :=
  bool_decide (run_ProvisioningPlanDigest r = "") && bool_decide (run_ProvisioningKey r = "").
Definition targetRunProvisioningBindingComplete (r : TargetRunRecord) : bool :=
  negb (bool_decide (run_ProvisioningPlanDigest r = "")) && negb (bool_decide (run_ProvisioningKey r = "")).
Definition sameTargetRunProvisioningBinding (left right : TargetRunRecord) : bool :=
  bool_decide (run_ProvisioningPlanDigest left = run_ProvisioningPlanDigest right)
  && bool_decide (run_ProvisioningKey left = run_ProvisioningKey right).

Definition validateTargetRunProvisioningBinding (prefix : string) (r : TargetRunRecord) : result unit :=
  if targetRunProvisioningBindingEmpty r then Ok tt else
  _ ← check (targetRunProvisioningBindingComplete r) (replayViolation (prefix +:+ ".provisioning"));
  _ ← parsePersistedDigest (prefix +:+ ".provisioning_plan_digest") (run_ProvisioningPlanDigest r);
  check (IsCanonicalIdempotencyKey (run_ProvisioningKey r)) (replayViolation (prefix +:+ ".provisioning_key")).

Definition validateReplayTargetGeneration (value : TargetRecord) (targetID : uuidV7) (index : nat)
    (g : TargetGenerationRecord) : result unit :=
  let prefix := indexed "target.generations" index in
  policyDigest ← parsePersistedDigest (prefix +:+ ".policy_digest") (tgen_PolicyDigest g);
  capabilityDigest ← parsePersistedDigest (prefix +:+ ".capability_digest") (tgen_CapabilityDigest g);
  recoveryIncident ← parseOptionalPersisted zero_uuid (prefix +:+ ".recovery_incident")
                       (tgen_RecoveryIncident g) (parseID prefix_incident);
  _ ← orViolation prefix (Domain.NewTargetGeneration (Domain.mkTargetGenerationSpec targetID
        (tgen_Generation g) policyDigest capabilityDigest (tgen_Previous g) recoveryIncident
        (tgen_CreatedAt g)));
  _ ← requirePersistedState (prefix +:+ ".state") (TargetGenerationState_IsValid (tgen_State g));
  _ ← requirePersistedRevision (prefix +:+ ".revision") (tgen_Revision g);
  _ ← validateTargetProvisioningBinding prefix g;
  requireContainedTimes prefix (target_CreatedAt value) (target_UpdatedAt value)
    (tgen_CreatedAt g) (tgen_UpdatedAt g).

Definition validateReplayRun (value : TargetRecord) (targetID leaseID : uuidV7) (index : nat)
    (run : TargetRunRecord) : result unit :=
  let prefix := indexed "target.runs" index in
  runID ← parsePersisted (prefix +:+ ".id") (run_ID run) (parseID prefix_targetRun);
  _ ← rememberPersistedID run_ID (target_Runs value) (prefix +:+ ".id") index run;
  _ ← check (negb ((run_Generation run =? 0)%N || (target_CurrentGeneration value <? run_Generation run)%N))
        (replayViolation (prefix +:+ ".generation"));
  agentID ← parsePersisted (prefix +:+ ".agent_workspace_id") (run_AgentWorkspaceID run)
              (parseID prefix_agentWorkspace);
  materializationDigest ← parsePersistedDigest (prefix +:+ ".materialization_digest")
                            (run_MaterializationDigest run);
  _ ← orViolation prefix (Domain.NewTargetRun (Domain.mkTargetRunSpec runID leaseID targetID
        (run_Generation run) agentID (run_AgentGeneration run) materializationDigest
        (run_CreatedAt run)));
  _ ← requirePersistedState (prefix +:+ ".state") (TargetRunState_IsValid (run_State run));
  _ ← requirePersistedRevision (prefix +:+ ".revision") (run_Revision run);
  _ ← validateTargetRunProvisioningBinding prefix run;
  _ ← requireContainedTimes prefix (target_CreatedAt value) (target_UpdatedAt value)
        (run_CreatedAt run) (run_UpdatedAt run);
  _ ← parseOptionalPersisted zero_uuid (prefix +:+ ".bundle_id") (run_BundleID run) (parseID prefix_bundle);
  _ ← check (Bool.eqb (bool_decide (run_BundleArtifact run = "")) (bool_decide (run_BundleDigest run = "")))
        (replayViolation (prefix +:+ ".bundle"));
  _ ← check (negb (negb (bool_decide (run_BundleArtifact run = "")) && bool_decide (run_BundleID run = "")))
        (replayViolation (prefix +:+ ".bundle"));
  _ ← (if bool_decide (run_BundleDigest run = "") then Ok [] else
       parsePersistedDigest (prefix +:+ ".bundle_digest") (run_BundleDigest run));
  _ ← check (negb ((bool_decide (run_State run = TargetRunCompleted)
                    || bool_decide (run_State run = TargetRunFailed))
                   && bool_decide (run_BundleID run = ""))) (replayViolation (prefix +:+ ".bundle_id"));
  validatePersistedIncidentIDs (prefix +:+ ".incident_ids") (run_IncidentIDs run).

(** [targetRunByID]; also the lookup [runGenerations[operation.RunID]] *)
Definition targetRunByID (target : TargetRecord) (runID : string) : option TargetRunRecord :=
  List.find (fun run => bool_decide (run_ID run = runID)) (target_Runs target).

Definition validateReplayOperation (value : TargetRecord) (targetID leaseID : uuidV7) (index : nat)
    (operation : TargetOperationRecord) : result unit :=
  let prefix := indexed "target.operations" index in
  operationID ← parsePersisted (prefix +:+ ".id") (op_ID operation) (parseID prefix_targetOperation);
  _ ← rememberPersistedID op_ID (target_Operations value) (prefix +:+ ".id") index operation;
  _ ← check (match targetRunByID value (op_RunID operation) with
             | Some run => (op_Generation operation =? run_Generation run)%N
             | None => false
             end) (replayViolation (prefix +:+ ".run_id"));
  runID ← parsePersisted (prefix +:+ ".run_id") (op_RunID operation) (parseID prefix_targetRun);
  contentDigest ← (if bool_decide (op_ContentDigest operation = "") then Ok zero_digest else
                   parsePersistedDigest (prefix +:+ ".content_digest") (op_ContentDigest operation));
  _ ← orViolation prefix (Domain.NewTargetOperation (Domain.mkTargetOperationSpec operationID leaseID
        targetID (op_Generation operation) runID (op_Kind operation) (op_CommandDisplay operation)
        contentDigest (op_CreatedAt operation)));
  _ ← requirePersistedState (prefix +:+ ".state") (TargetOperationState_IsValid (op_State operation));
  _ ← requirePersistedRevision (prefix +:+ ".revision") (op_Revision operation);
  requireContainedTimes prefix (target_CreatedAt value) (target_UpdatedAt value)
    (op_CreatedAt operation) (op_UpdatedAt operation).

Definition validateReplayTarget (value : TargetRecord) : result unit :=
  targetID ← parsePersisted "target.id" (target_ID value) (parseID prefix_target);
  sessionID ← parsePersisted "target.session_id" (target_SessionID value) (parseID prefix_researchSession);
  leaseID ← parsePersisted "target.lease_id" (target_LeaseID value) (parseID prefix_lease);
  _ ← requireNonBlankPersisted "target.template" (target_Template value);
  _ ← check (IsCanonicalIdempotencyKey (target_CreationIdempotencyKey value))
        (replayViolation "target.creation_idempotency_key");
  _ ← orViolation "target" (Domain.NewTarget targetID sessionID (target_Kind value)
        (target_CurrentGeneration value) (target_CreatedAt value));
  _ ← requirePersistedRevision "target.revision" (target_Revision value);
  _ ← requirePersistedTimes "target" "created_at" (target_CreatedAt value) (target_UpdatedAt value);
  _ ← validateGenerationSequence "target.generations" (target_CurrentGeneration value)
        (target_Generations value) tgen_Generation (validateReplayTargetGeneration value targetID);
  _ ← res_each (validateReplayRun value targetID leaseID) 0 (target_Runs value);
  res_each (validateReplayOperation value targetID leaseID) 0 (target_Operations value).

(** ** Incident evidence ([incidents.go]) *)

(** [optionalLeaseID], [optionalAgentID], ...: the empty text is the zero identity. *)
Definition optionalID (prefix value : string) : result uuidV7 :=
  if bool_decide (value = "") then Ok zero_uuid else parseID prefix value.

Definition incidentMetricModel (record : IncidentMetricRecord) : result MetricSampleSpec :=
  subjectID ← parseID prefix_subject (metric_SubjectID record);
  execID ← optionalID prefix_exec (metric_ExecID record);
  runID ← optionalID prefix_targetRun (metric_TargetRunID record);
  NewMetricSample (mkMetricSampleSpec subjectID (metric_SubjectKind record) (metric_Name record)
    (metric_Unit record) (metric_Kind record) (metric_Availability record)
    (metric_CounterValue record) (metric_NumericValue record) (metric_CollectedAt record)
    (metric_PublishedAt record) (metric_Cursor record) (metric_Labels record) execID runID).
Definition incidentMetricModels (records : list IncidentMetricRecord) : result (list MetricSampleSpec) :=
  res_map (fun _ => incidentMetricModel) 0 records.

Definition incidentGapModel (gap : IncidentGapRecord) : result GapSpec :=
  NewGap (mkGapSpec (gap_Kind gap) (gap_Source gap) (gap_SourceInstance gap)
    (gap_FirstSourceSequence gap) (gap_LastSourceSequence gap) (gap_FirstCursor gap)
    (gap_LastCursor gap) (gap_StartedAt gap) (gap_EndedAt gap) (gap_LostRecords gap)
    (gap_Reason gap)).
Definition incidentCoverageModel (record : IncidentCoverageRecord) : result CollectorCoverageSpec :=
  collectorID ← parseID prefix_collector (cov_CollectorID record);
  gaps ← res_map (fun _ => incidentGapModel) 0 (cov_Gaps record);
  NewCollectorCoverage (mkCollectorCoverageSpec collectorID (cov_SignalFamily record)
    (cov_Placement record) (cov_Level record) (cov_Status record) (cov_Required record)
    (cov_StartedAt record) (cov_EndedAt record) (cov_DroppedRecords record) gaps).
Definition incidentCoverageModels (records : list IncidentCoverageRecord)
  : result (list CollectorCoverageSpec) :=
  res_map (fun _ => incidentCoverageModel) 0 records.

Definition incidentArtifactModel (record : IncidentArtifactRecord) : result ArtifactReferenceSpec :=
  digest ← ParseDigest (art_Digest record);
  NewArtifactReference (mkArtifactReferenceSpec (art_Reference record) digest (art_Size record)
    (art_Role record) (art_Sensitivity record)).
Definition incidentArtifactModels (records : list IncidentArtifactRecord)
  : result (list ArtifactReferenceSpec) :=
  res_map (fun _ => incidentArtifactModel) 0 records.

Definition causeModel (cause : CauseRecord) : result CauseAssessmentSpec :=
  NewCauseAssessment (mkCauseAssessmentSpec (cause_Kind cause) (cause_Summary cause)
    (cause_Method cause) (cause_Confidence cause)).

Definition validateReplayIncident (value : IncidentRecord) : result unit :=
  incidentID ← parsePersisted "incident.id" (inc_ID value) (parseID prefix_incident);
  sessionID ← parsePersisted "incident.session_id" (inc_SessionID value) (parseID prefix_researchSession);
  leaseID ← parseOptionalPersisted zero_uuid "incident.lease_id" (inc_LeaseID value) (parseID prefix_lease);
  agentID ← parseOptionalPersisted zero_uuid "incident.agent_workspace_id" (inc_AgentWorkspaceID value)
              (parseID prefix_agentWorkspace);
  execID ← parseOptionalPersisted zero_uuid "incident.exec_id" (inc_ExecID value) (parseID prefix_exec);
  targetID ← parseOptionalPersisted zero_uuid "incident.target_id" (inc_TargetID value) (parseID prefix_target);
  runID ← parseOptionalPersisted zero_uuid "incident.target_run_id" (inc_TargetRunID value)
            (parseID prefix_targetRun);
  bundleID ← parseOptionalPersisted zero_uuid "incident.observation_bundle_id"
               (inc_ObservationBundleID value) (parseID prefix_bundle);
  cause ← orViolation "incident.cause" (causeModel (inc_Cause value));
  metrics ← orViolation "incident.high_water_metrics" (incidentMetricModels (inc_HighWaterMetrics value));
  coverage ← orViolation "incident.coverage" (incidentCoverageModels (inc_Coverage value));
  artifacts ← orViolation "incident.artifacts" (incidentArtifactModels (inc_Artifacts value));
  _ ← orViolation "incident" (NewIncident (mkIncidentSpec incidentID (inc_Classification value) sessionID
        leaseID agentID (inc_AgentGeneration value) execID targetID (inc_TargetGeneration value) runID
        (inc_Trigger value) (inc_LastKnownState value) cause metrics (inc_FirstRelevantCursor value)
        (inc_LastRelevantCursor value) coverage bundleID artifacts (inc_RecoveryActions value)
        (inc_VisibilityAcknowledgements value) (inc_OccurredAt value)));
  _ ← requirePersistedState "incident.state" (IncidentState_IsValid (inc_State value));
  _ ← requirePersistedRevision "incident.revision" (inc_Revision value);
  _ ← check (negb (negb (bool_decide (inc_State value = IncidentOpen))
                   && bool_decide (inc_ObservationBundleID value = "")
                   && bool_decide (inc_Artifacts value = []))) (replayViolation "incident.state");
  _ ← check (negb (bool_decide (inc_State value = IncidentRecovering)
                   && (bool_decide (inc_RecoveryActions value = [])
                       || bool_decide (inc_VisibilityAcknowledgements value = []))))
        (replayViolation "incident.state");
  requirePersistedTimes "incident" "occurred_at" (inc_OccurredAt value) (inc_UpdatedAt value).

(** ** Advances between revisions *)
Definition requireReplayRevisionAdvance (prefix : string) (previous next : N)
    (previousUpdated nextUpdated : time) : result unit :=
  _ ← check (negb ((previous =? max_uint64)%N || negb (next =? previous + 1)%N))
        (replayViolation (prefix +:+ ".revision"));
  check (negb (time_Before nextUpdated previousUpdated)) (replayViolation (prefix +:+ ".updated_at")).

Definition requireReplayGenerationAdvance (field : string) (previous next : N) : result unit :=
  check (negb ((next <? previous)%N || (1 <? next - previous)%N)) (replayViolation field).

Definition requireReplayStateAdvance {S} `{EqDecision S} (prefix : string)
    (previousRevision nextRevision : N) (previousUpdated nextUpdated : time)
    (previousState nextState : S) (transition : S -> S -> result unit) : result unit :=
  _ ← requireReplayRevisionAdvance prefix previousRevision nextRevision previousUpdated nextUpdated;
  if bool_decide (previousState = nextState) then Ok tt
  else orViolation (prefix +:+ ".state") (transition previousState nextState).

Definition requireNestedReplayStateAdvance {S} `{EqDecision S} (prefix : string)
    (previousRevision nextRevision : N) (previousUpdated nextUpdated : time)
    (previousState nextState : S) (transition : S -> S -> result unit) : result unit :=
  if (nextRevision =? previousRevision)%N then
    check (negb (negb (bool_decide (previousState = nextState))
                 || negb (time_Equal previousUpdated nextUpdated)))
      (replayViolation (prefix +:+ ".revision"))
  else requireReplayStateAdvance prefix previousRevision nextRevision previousUpdated nextUpdated
         previousState nextState transition.

(** [agent.Generations[generation-1].Generation == generation] within bounds *)
Definition hasAgentGeneration (agent : AgentWorkspaceRecord) (generation : N) : bool :=
  (0 <? generation)%N && (generation <=? N.of_nat (length (agent_Generations agent)))%N
  && match agent_Generations agent !! N.to_nat (generation - 1) with
     | Some g => (agen_Generation g =? generation)%N
     | None => false
     end.
Definition hasTargetGeneration (target : TargetRecord) (generation : N) : bool :=
  (0 <? generation)%N && (generation <=? N.of_nat (length (target_Generations target)))%N
  && match target_Generations target !! N.to_nat (generation - 1) with
     | Some g => (tgen_Generation g =? generation)%N
     | None => false
     end.

Definition validateAgentGenerationStep (index : nat) (before after : AgentGenerationRecord) : result unit :=
  let prefix := indexed "agent_workspace.generations" index in
  _ ← check ((agen_Generation before =? agen_Generation after)%N
             && bool_decide (agen_WorkspaceID before = agen_WorkspaceID after)
             && bool_decide (agen_InputViewID before = agen_InputViewID after)
             && bool_decide (agen_PolicyDigest before = agen_PolicyDigest after)
             && bool_decide (agen_CapabilityDigest before = agen_CapabilityDigest after)
             && (agen_Previous before =? agen_Previous after)%N
             && bool_decide (agen_RecoveryIncident before = agen_RecoveryIncident after)
             && time_Equal (agen_CreatedAt before) (agen_CreatedAt after)) (replayViolation prefix);
  _ ← check (negb (negb (sameAgentProvisioningBinding before after)
                   && (negb (agentProvisioningBindingEmpty before)
                       || negb (agentProvisioningBindingComplete after))))
        (replayViolation (prefix +:+ ".provisioning"));
  requireNestedReplayStateAdvance prefix (agen_Revision before) (agen_Revision after)
    (agen_UpdatedAt before) (agen_UpdatedAt after) (agen_State before) (agen_State after)
    RequireAgentGenerationTransition.

Definition validateAgentGenerationHistory (previous next : list AgentGenerationRecord) : result unit :=
  _ ← check (negb ((length next <? length previous)%nat || (length previous + 1 <? length next)%nat))
        (replayViolation "agent_workspace.generations");
  res_each (fun index '(before, after) => validateAgentGenerationStep index before after) 0
    (zip previous next).

Definition validateTargetGenerationStep (index : nat) (before after : TargetGenerationRecord) : result unit :=
  let prefix := indexed "target.generations" index in
  _ ← check ((tgen_Generation before =? tgen_Generation after)%N
             && bool_decide (tgen_PolicyDigest before = tgen_PolicyDigest after)
             && bool_decide (tgen_CapabilityDigest before = tgen_CapabilityDigest after)
             && (tgen_Previous before =? tgen_Previous after)%N
             && bool_decide (tgen_RecoveryIncident before = tgen_RecoveryIncident after)
             && time_Equal (tgen_CreatedAt before) (tgen_CreatedAt after)) (replayViolation prefix);
  _ ← check (negb (negb (sameTargetProvisioningBinding before after)
                   && (negb (targetProvisioningBindingEmpty before)
                       || negb (targetProvisioningBindingComplete after))))
        (replayViolation (prefix +:+ ".provisioning"));
  requireNestedReplayStateAdvance prefix (tgen_Revision before) (tgen_Revision after)
    (tgen_UpdatedAt before) (tgen_UpdatedAt after) (tgen_State before) (tgen_State after)
    RequireTargetGenerationTransition.

Definition validateTargetGenerationHistory (previous next : list TargetGenerationRecord) : result unit :=
  _ ← check (negb ((length next <? length previous)%nat || (length previous + 1 <? length next)%nat))
        (replayViolation "target.generations");
  res_each (fun index '(before, after) => validateTargetGenerationStep index before after) 0
    (zip previous next).

(** [nextByID[id]]: the last element of [next] with that identity. *)
Definition last_by {T} (ids : T -> string) (id : string) (l : list T) : option T :=
  List.find (fun x => bool_decide (ids x = id)) (rev l).

Definition validateTargetRunStep (next : list TargetRunRecord) (index : nat) (before : TargetRunRecord)
  : result unit :=
  let prefix := indexed "target.runs" index in
  after ← from_option_err (replayViolation prefix) (last_by run_ID (run_ID before) next);
  _ ← check ((run_Generation before =? run_Generation after)%N
             && bool_decide (run_AgentWorkspaceID before = run_AgentWorkspaceID after)
             && (run_AgentGeneration before =? run_AgentGeneration after)%N
             && bool_decide (run_MaterializationDigest before = run_MaterializationDigest after)
             && time_Equal (run_CreatedAt before) (run_CreatedAt after)) (replayViolation prefix);
  _ ← check (negb (negb (sameTargetRunProvisioningBinding before after)
                   && (negb (targetRunProvisioningBindingEmpty before)
                       || negb (targetRunProvisioningBindingComplete after))))
        (replayViolation (prefix +:+ ".provisioning"));
  _ ← requireNestedReplayStateAdvance prefix (run_Revision before) (run_Revision after)
        (run_UpdatedAt before) (run_UpdatedAt after) (run_State before) (run_State after)
        RequireTargetRunTransition;
  check (negb ((run_Revision before =? run_Revision after)%N
               && (negb (bool_decide (run_BundleID before = run_BundleID after))
                   || negb (bool_decide (run_BundleArtifact before = run_BundleArtifact after))
                   || negb (bool_decide (run_BundleDigest before = run_BundleDigest after)))))
    (replayViolation (prefix +:+ ".bundle")).

Definition validateTargetRunHistory (previous next : list TargetRunRecord) : result unit :=
  _ ← check (negb (length next <? length previous)%nat) (replayViolation "target.runs");
  res_each (validateTargetRunStep next) 0 previous.

Definition validateTargetOperationStep (next : list TargetOperationRecord) (index : nat)
    (before : TargetOperationRecord) : result unit :=
  let prefix := indexed "target.operations" index in
  after ← from_option_err (replayViolation prefix) (last_by op_ID (op_ID before) next);
  _ ← check (bool_decide (op_RunID before = op_RunID after)
             && (op_Generation before =? op_Generation after)%N
             && bool_decide (op_Kind before = op_Kind after)
             && bool_decide (op_CommandDisplay before = op_CommandDisplay after)
             && bool_decide (op_ContentDigest before = op_ContentDigest after)
             && time_Equal (op_CreatedAt before) (op_CreatedAt after)) (replayViolation prefix);
  requireNestedReplayStateAdvance prefix (op_Revision before) (op_Revision after)
    (op_UpdatedAt before) (op_UpdatedAt after) (op_State before) (op_State after)
    RequireTargetOperationTransition.

Definition validateTargetOperationHistory (previous next : list TargetOperationRecord) : result unit :=
  _ ← check (negb (length next <? length previous)%nat) (replayViolation "target.operations");
  res_each (validateTargetOperationStep next) 0 previous.

(** [sameIncidentIdentity]: equality with the mutable fields cleared. *)
Definition incident_identity (i : IncidentRecord) : IncidentRecord :=
  mkIncidentRecord (inc_ID i) (inc_Classification i) (inc_SessionID i) (inc_LeaseID i)
    (inc_AgentWorkspaceID i) (inc_AgentGeneration i) (inc_ExecID i) (inc_TargetID i)
    (inc_TargetGeneration i) (inc_TargetRunID i) (inc_Trigger i) (inc_LastKnownState i) (inc_Cause i)
    (inc_HighWaterMetrics i) (inc_FirstRelevantCursor i) (inc_LastRelevantCursor i) (inc_Coverage i)
    "" [] [] [] (IncidentUnrecognized "") 0 (inc_OccurredAt i) 0.
Definition sameIncidentIdentity (previous next : IncidentRecord) : bool :=
  bool_decide (incident_identity previous = incident_identity next).

Definition requireIncidentEvidenceAdvance (previous next : IncidentRecord) : result unit :=
  if bool_decide (inc_ObservationBundleID previous = inc_ObservationBundleID next)
     && bool_decide (inc_Artifacts previous = inc_Artifacts next) then Ok tt else
  _ ← check (negb (negb (bool_decide (inc_State previous = IncidentOpen))
                   || negb (bool_decide (inc_State next = IncidentEvidenceSealed))
                   || bool_decide (inc_ObservationBundleID next = "")))
        (replayViolation "incident.evidence");
  _ ← check (negb (negb (bool_decide (inc_ObservationBundleID previous = ""))
                   && negb (bool_decide (inc_ObservationBundleID previous = inc_ObservationBundleID next))))
        (replayViolation "incident.observation_bundle_id");
  _ ← res_each (fun _ artifact => check (bool_decide (artifact ∈ inc_Artifacts next))
                  (replayViolation "incident.artifacts")) 0 (inc_Artifacts previous);
  check (negb ((length (inc_Artifacts next) <? length (inc_Artifacts previous))%nat
               || (length (inc_Artifacts next) =? length (inc_Artifacts previous))%nat
                  && bool_decide (inc_ObservationBundleID previous = inc_ObservationBundleID next)))
    (replayViolation "incident.artifacts").

(** ** Validation against the projection *)
Definition validateReplaySessionProjection (c : Core) (value : SessionRecord) : result unit :=
  _ ← validateReplaySession value;
  _ ← match core_sessions c !! session_ID value with
      | Some previous =>
          _ ← check (bool_decide (session_OwnerSubject previous = session_OwnerSubject value)
                     && bool_decide (session_AcquisitionIdempotencyKey previous = session_AcquisitionIdempotencyKey value)
                     && bool_decide (session_LeaseID previous = session_LeaseID value)
                     && bool_decide (session_AgentWorkspaceID previous = session_AgentWorkspaceID value)
                     && bool_decide (session_InputViewID previous = session_InputViewID value)
                     && bool_decide (session_PolicyDigest previous = session_PolicyDigest value)
                     && bool_decide (session_CapabilityDigest previous = session_CapabilityDigest value)
                     && time_Equal (session_CreatedAt previous) (session_CreatedAt value))
                (replayViolation "session");
          requireReplayStateAdvance "session" (session_Revision previous) (session_Revision value)
            (session_UpdatedAt previous) (session_UpdatedAt value) (session_State previous)
            (session_State value) RequireResearchSessionTransition
      | None => Ok tt
      end;
  _ ← match core_leases c !! session_LeaseID value with
      | Some lease =>
          check (bool_decide (lease_SessionID lease = session_ID value)
                 && bool_decide (lease_AgentWorkspaceID lease = session_AgentWorkspaceID value)
                 && bool_decide (lease_InputViewID lease = session_InputViewID value)
                 && bool_decide (lease_PolicyDigest lease = session_PolicyDigest value)
                 && bool_decide (lease_CapabilityDigest lease = session_CapabilityDigest value))
            (replayViolation "session.lease_id")
      | None => Ok tt
      end;
  match core_agents c !! session_AgentWorkspaceID value with
  | Some agent => check (bool_decide (agent_SessionID agent = session_ID value))
                    (replayViolation "session.agent_workspace_id")
  | None => Ok tt
  end.

Definition validateReplayLeaseTerminationAdvance (previous next : LeaseTerminationRecord) : result unit :=
  let bad := replayViolation "lease.termination.state" in
  if LeaseTerminationRecord_Empty previous then
    check (LeaseTerminationRecord_Empty next || LeaseTerminationRecord_InProgress next) bad
  else
  _ ← check (negb (LeaseTerminationRecord_Empty next)) (replayViolation "lease.termination");
  _ ← check (bool_decide (term_Kind previous = term_Kind next)
             && bool_decide (term_Reason previous = term_Reason next)
             && bool_decide (term_BeginIdempotencyKey previous = term_BeginIdempotencyKey next)
             && bool_decide (term_BeginRequestDigest previous = term_BeginRequestDigest next)
             && (term_InitiatedLeaseRevision previous =? term_InitiatedLeaseRevision next)%N
             && time_Equal (term_InitiatedAt previous) (term_InitiatedAt next))
        (replayViolation "lease.termination");
  _ ← check (negb (LeaseTerminationState_Terminal (term_State previous))) bad;
  let want := if bool_decide (term_State previous = LeaseTerminationExpiring)
              then LeaseTerminationExpired else LeaseTerminationReleased in
  check (bool_decide (term_State next = want)) bad.

Definition validateReplayLeaseProjection (c : Core) (value : LeaseRecord) : result unit :=
  _ ← validateReplayLease value;
  _ ← check (match core_sessions c !! lease_SessionID value with
             | Some session =>
                 bool_decide (session_LeaseID session = lease_ID value)
                 && bool_decide (session_AgentWorkspaceID session = lease_AgentWorkspaceID value)
                 && bool_decide (session_InputViewID session = lease_InputViewID value)
                 && bool_decide (session_PolicyDigest session = lease_PolicyDigest value)
                 && bool_decide (session_CapabilityDigest session = lease_CapabilityDigest value)
             | None => false
             end) (replayViolation "lease.session_id");
  _ ← match core_leases c !! lease_ID value with
      | Some previous =>
          _ ← check (bool_decide (lease_SessionID previous = lease_SessionID value)
                     && bool_decide (lease_AgentWorkspaceID previous = lease_AgentWorkspaceID value)
                     && bool_decide (lease_InputViewID previous = lease_InputViewID value)
                     && bool_decide (lease_PolicyDigest previous = lease_PolicyDigest value)
                     && bool_decide (lease_CapabilityDigest previous = lease_CapabilityDigest value)
                     && time_Equal (lease_CreatedAt previous) (lease_CreatedAt value))
                (replayViolation "lease");
          _ ← requireReplayGenerationAdvance "lease.agent_generation" (lease_AgentGeneration previous)
                (lease_AgentGeneration value);
          _ ← check (negb (time_Before (lease_ExpiresAt value) (lease_ExpiresAt previous)))
                (replayViolation "lease.expires_at");
          _ ← check (negb (negb (LeaseTerminationRecord_Empty (lease_Termination value))
                           && negb (time_Equal (lease_ExpiresAt value) (lease_ExpiresAt previous))))
                (replayViolation "lease.expires_at");
          _ ← check (negb (negb (LeaseTerminationRecord_Empty (lease_Termination value))
                           && negb (lease_AgentGeneration value =? lease_AgentGeneration previous)%N))
                (replayViolation "lease.agent_generation");
          _ ← validateReplayLeaseTerminationAdvance (lease_Termination previous) (lease_Termination value);
          requireReplayStateAdvance "lease" (lease_Revision previous) (lease_Revision value)
            (lease_UpdatedAt previous) (lease_UpdatedAt value) (lease_State previous) (lease_State value)
            RequireLeaseTransition
      | None =>
          check (negb (negb (lease_Revision value =? InitialRevision)%N
                       || negb (bool_decide (lease_State value = LeaseActive))
                       || negb (LeaseTerminationRecord_Empty (lease_Termination value))))
            (replayViolation "lease")
      end;
  match core_agents c !! lease_AgentWorkspaceID value with
  | Some agent =>
      check (bool_decide (agent_SessionID agent = lease_SessionID value)
             && negb (agent_CurrentGeneration agent <? lease_AgentGeneration value)%N
             && hasAgentGeneration agent (lease_AgentGeneration value))
        (replayViolation "lease.agent_workspace_id")
  | None => Ok tt
  end.

Definition validateReplayAgentWorkspaceProjection (c : Core) (value : AgentWorkspaceRecord) : result unit :=
  _ ← validateReplayAgentWorkspace value;
  let bad := replayViolation "agent_workspace.session_id" in
  session ← from_option_err bad (core_sessions c !! agent_SessionID value);
  lease ← from_option_err bad (core_leases c !! session_LeaseID session);
  _ ← check (bool_decide (session_AgentWorkspaceID session = agent_ID value)
             && bool_decide (lease_AgentWorkspaceID lease = agent_ID value)
             && bool_decide (lease_SessionID lease = agent_SessionID value)) bad;
  _ ← check (negb ((agent_CurrentGeneration value <? lease_AgentGeneration lease)%N
                   || (1 <? agent_CurrentGeneration value - lease_AgentGeneration lease)%N))
        (replayViolation "agent_workspace.current_generation");
  _ ← res_each (fun index g =>
        check (bool_decide (agen_InputViewID g = lease_InputViewID lease)
               && bool_decide (agen_PolicyDigest g = lease_PolicyDigest lease)
               && bool_decide (agen_CapabilityDigest g = lease_CapabilityDigest lease))
          (replayViolation (indexed "agent_workspace.generations" index))) 0 (agent_Generations value);
  match core_agents c !! agent_ID value with
  | Some previous =>
      _ ← check (bool_decide (agent_SessionID previous = agent_SessionID value)
                 && time_Equal (agent_CreatedAt previous) (agent_CreatedAt value))
            (replayViolation "agent_workspace");
      _ ← requireReplayGenerationAdvance "agent_workspace.current_generation"
            (agent_CurrentGeneration previous) (agent_CurrentGeneration value);
      _ ← requireReplayRevisionAdvance "agent_workspace" (agent_Revision previous) (agent_Revision value)
            (agent_UpdatedAt previous) (agent_UpdatedAt value);
      validateAgentGenerationHistory (agent_Generations previous) (agent_Generations value)
  | None => Ok tt
  end.

Definition validateReplayExecProjection (c : Core) (value : ExecRecord) : result unit :=
  _ ← validateReplayExec value;
  _ ← check (match core_sessions c !! exec_SessionID value, core_leases c !! exec_LeaseID value,
                   core_agents c !! exec_AgentWorkspaceID value with
             | Some session, Some lease, Some agent =>
                 bool_decide (session_LeaseID session = exec_LeaseID value)
                 && bool_decide (lease_SessionID lease = exec_SessionID value)
                 && bool_decide (lease_AgentWorkspaceID lease = exec_AgentWorkspaceID value)
                 && bool_decide (agent_SessionID agent = exec_SessionID value)
                 && hasAgentGeneration agent (exec_AgentGeneration value)
             | _, _, _ => false
             end) (replayViolation "exec.session_id");
  _ ← match core_execs c !! exec_ID value with
      | Some previous =>
          _ ← check (bool_decide (exec_SessionID previous = exec_SessionID value)
                     && bool_decide (exec_LeaseID previous = exec_LeaseID value)
                     && bool_decide (exec_AgentWorkspaceID previous = exec_AgentWorkspaceID value)
                     && (exec_AgentGeneration previous =? exec_AgentGeneration value)%N
                     && bool_decide (exec_Kind previous = exec_Kind value)
                     && bool_decide (exec_Executable previous = exec_Executable value)
                     && bool_decide (exec_Argv previous = exec_Argv value)
                     && bool_decide (exec_WorkingDirectory previous = exec_WorkingDirectory value)
                     && time_Equal (exec_CreatedAt previous) (exec_CreatedAt value))
                (replayViolation "exec");
          requireReplayStateAdvance "exec" (exec_Revision previous) (exec_Revision value)
            (exec_UpdatedAt previous) (exec_UpdatedAt value) (exec_State previous) (exec_State value)
            RequireExecTransition
      | None => Ok tt
      end;
  res_each (fun index incidentID =>
    check (match core_incidents c !! incidentID with
           | Some incident =>
               bool_decide (inc_SessionID incident = exec_SessionID value)
               && bool_decide (inc_LeaseID incident = exec_LeaseID value)
               && bool_decide (inc_AgentWorkspaceID incident = exec_AgentWorkspaceID value)
               && (inc_AgentGeneration incident =? exec_AgentGeneration value)%N
               && bool_decide (inc_ExecID incident = exec_ID value)
           | None => false
           end) (replayViolation (indexed "exec.incident_ids" index))) 0 (exec_IncidentIDs value).

Definition validateReplayRunLinks (c : Core) (value : TargetRecord) (runIndex : nat)
    (run : TargetRunRecord) : result unit :=
  _ ← check (match core_agents c !! run_AgentWorkspaceID run with
             | Some agent => bool_decide (agent_SessionID agent = target_SessionID value)
                             && hasAgentGeneration agent (run_AgentGeneration run)
             | None => false
             end) (replayViolation (indexed "target.runs" runIndex +:+ ".agent_workspace_id"));
  res_each (fun incidentIndex incidentID =>
    check (match core_incidents c !! incidentID with
           | Some incident =>
               bool_decide (inc_SessionID incident = target_SessionID value)
               && bool_decide (inc_TargetID incident = target_ID value)
               && (inc_TargetGeneration incident =? run_Generation run)%N
               && bool_decide (inc_TargetRunID incident = run_ID run)
           | None => false
           end)
      (replayViolation (indexed (indexed "target.runs" runIndex +:+ ".incident_ids") incidentIndex)))
    0 (run_IncidentIDs run).

Definition validateReplayTargetProjection (c : Core) (value : TargetRecord) : result unit :=
  _ ← validateReplayTarget value;
  _ ← check (match core_sessions c !! target_SessionID value, core_leases c !! target_LeaseID value with
             | Some session, Some lease =>
                 bool_decide (session_LeaseID session = target_LeaseID value)
                 && bool_decide (lease_SessionID lease = target_SessionID value)
             | _, _ => false
             end) (replayViolation "target.session_id");
  _ ← res_each (validateReplayRunLinks c value) 0 (target_Runs value);
  match core_targets c !! target_ID value with
  | Some previous =>
      _ ← check (bool_decide (target_SessionID previous = target_SessionID value)
                 && bool_decide (target_LeaseID previous = target_LeaseID value)
                 && bool_decide (target_CreationIdempotencyKey previous = target_CreationIdempotencyKey value)
                 && bool_decide (target_Template previous = target_Template value)
                 && bool_decide (target_Kind previous = target_Kind value)
                 && time_Equal (target_CreatedAt previous) (target_CreatedAt value))
            (replayViolation "target");
      _ ← requireReplayGenerationAdvance "target.current_generation" (target_CurrentGeneration previous)
            (target_CurrentGeneration value);
      _ ← requireReplayRevisionAdvance "target" (target_Revision previous) (target_Revision value)
            (target_UpdatedAt previous) (target_UpdatedAt value);
      _ ← validateTargetGenerationHistory (target_Generations previous) (target_Generations value);
      _ ← validateTargetRunHistory (target_Runs previous) (target_Runs value);
      validateTargetOperationHistory (target_Operations previous) (target_Operations value)
  | None => Ok tt
  end.

(** [if value != "" { ... }] *)
Definition unless_blank (value : string) (b : bool) : bool := bool_decide (value = "") || b.

Definition validateReplayIncidentProjection (c : Core) (value : IncidentRecord) : result unit :=
  _ ← validateReplayIncident value;
  session ← from_option_err (replayViolation "incident.session_id") (core_sessions c !! inc_SessionID value);
  _ ← check (unless_blank (inc_LeaseID value)
              (match core_leases c !! inc_LeaseID value with
               | Some lease => bool_decide (lease_SessionID lease = inc_SessionID value)
                               && bool_decide (session_LeaseID session = inc_LeaseID value)
               | None => false
               end)) (replayViolation "incident.lease_id");
  _ ← check (unless_blank (inc_AgentWorkspaceID value)
              (match core_agents c !! inc_AgentWorkspaceID value with
               | Some agent => bool_decide (agent_SessionID agent = inc_SessionID value)
                               && negb ((0 <? inc_AgentGeneration value)%N
                                        && negb (hasAgentGeneration agent (inc_AgentGeneration value)))
               | None => false
               end)) (replayViolation "incident.agent_workspace_id");
  _ ← check (unless_blank (inc_ExecID value)
              (match core_execs c !! inc_ExecID value with
               | Some execution =>
                   bool_decide (exec_SessionID execution = inc_SessionID value)
                   && bool_decide (exec_LeaseID execution = inc_LeaseID value)
                   && bool_decide (exec_AgentWorkspaceID execution = inc_AgentWorkspaceID value)
                   && (exec_AgentGeneration execution =? inc_AgentGeneration value)%N
               | None => false
               end)) (replayViolation "incident.exec_id");
  _ ← (if bool_decide (inc_TargetID value = "") then Ok tt else
       target ← from_option_err (replayViolation "incident.target_id") (core_targets c !! inc_TargetID value);
       _ ← check (bool_decide (target_SessionID target = inc_SessionID value)
                  && unless_blank (inc_LeaseID value) (bool_decide (target_LeaseID target = inc_LeaseID value))
                  && negb ((0 <? inc_TargetGeneration value)%N
                           && negb (hasTargetGeneration target (inc_TargetGeneration value))))
             (replayViolation "incident.target_id");
       check (unless_blank (inc_TargetRunID value)
               (match targetRunByID target (inc_TargetRunID value) with
                | Some run =>
                    (run_Generation run =? inc_TargetGeneration value)%N
                    && unless_blank (inc_AgentWorkspaceID value)
                         (bool_decide (run_AgentWorkspaceID run = inc_AgentWorkspaceID value)
                          && (run_AgentGeneration run =? inc_AgentGeneration value)%N)
                | None => false
                end)) (replayViolation "incident.target_run_id"));
  match core_incidents c !! inc_ID value with
  | Some previous =>
      _ ← check (sameIncidentIdentity previous value) (replayViolation "incident");
      _ ← requireIncidentEvidenceAdvance previous value;
      requireReplayStateAdvance "incident" (inc_Revision previous) (inc_Revision value)
        (inc_UpdatedAt previous) (inc_UpdatedAt value) (inc_State previous) (inc_State value)
        RequireIncidentTransition
  | None => Ok tt
  end.
