(* ===== verification/Sync.v ===== *)
(** * Applying the journal

    [apply], [syncLocked], the read accessors and [Authorize] of
    [internal/application/core.go]: how the in-memory projection follows the
    journal. *)
From S2P Require Import Prelude Errors Sha256 GoStrings States Values Ids Records Store StoreFacts Requests Machine.
From S2P Require Import Replay.
(** [decodeReplayAggregate]: the envelope must match the payload, and a
    validation error that is not an integrity violation becomes one. *)
Definition decodeReplayAggregate {T} (record : ControlRecord payload) (decode : payload -> option T)
    (identity : T -> string * N) (validate : T -> result unit) : result T :=
  value ← from_option_err (replayViolation "payload") (decode (cr_Payload record));
  _ ← check (bool_decide (fst (identity value) = cr_AggregateID record)) (replayViolation "aggregate_id");
  _ ← check (snd (identity value) =? cr_Revision record)%N (replayViolation "revision");
  match validate value with
  | Ok _ => Ok value
  | Err e => if IsCode (Some e) CodeIntegrityViolation then Err e else Err (replayViolation "payload")
  end.

Definition as_session (p : payload) : option SessionRecord := match p with PSession v => Some v | _ => None end.
Definition as_lease (p : payload) : option LeaseRecord := match p with PLease v => Some v | _ => None end.
Definition as_agent (p : payload) : option AgentWorkspaceRecord := match p with PAgent v => Some v | _ => None end.
Definition as_exec (p : payload) : option ExecRecord := match p with PExec v => Some v | _ => None end.
Definition as_target (p : payload) : option TargetRecord := match p with PTarget v => Some v | _ => None end.
Definition as_incident (p : payload) : option IncidentRecord := match p with PIncident v => Some v | _ => None end.

Definition apply (c : Core) (record : ControlRecord payload) : result Core :=
  let kind := cr_AggregateKind record in
  if bool_decide (kind = "session") then
    value ← decodeReplayAggregate record as_session (fun v => (session_ID v, session_Revision v))
              (validateReplaySessionProjection c);
    Ok (c <| core_sessions := <[session_ID value := value]> (core_sessions c) |>)
  else if bool_decide (kind = "lease") then
    value ← decodeReplayAggregate record as_lease (fun v => (lease_ID v, lease_Revision v))
              (validateReplayLeaseProjection c);
    Ok (c <| core_leases := <[lease_ID value := value]> (core_leases c) |>)
  else if bool_decide (kind = "agent_workspace") then
    value ← decodeReplayAggregate record as_agent (fun v => (agent_ID v, agent_Revision v))
              (validateReplayAgentWorkspaceProjection c);
    Ok (c <| core_agents := <[agent_ID value := value]> (core_agents c) |>)
  else if bool_decide (kind = "exec") then
    value ← decodeReplayAggregate record as_exec (fun v => (exec_ID v, exec_Revision v))
              (validateReplayExecProjection c);
    Ok (c <| core_execs := <[exec_ID value := value]> (core_execs c) |>)
  else if bool_decide (kind = "target") then
    value ← decodeReplayAggregate record as_target (fun v => (target_ID v, target_Revision v))
              (validateReplayTargetProjection c);
    Ok (c <| core_targets := <[target_ID value := value]> (core_targets c) |>)
  else if bool_decide (kind = "incident") then
    value ← decodeReplayAggregate record as_incident (fun v => (inc_ID v, inc_Revision v))
              (validateReplayIncidentProjection c);
    Ok (c <| core_incidents := <[inc_ID value := value]> (core_incidents c) |>)
  else Err (replayViolation "aggregate_kind").

(** One batch: an error leaves the records before it applied. *)
Fixpoint apply_batch (records : list (ControlRecord payload)) (c : Core) : result unit * Core :=
  match records with
  | [] => (Ok tt, c)
  | record :: rest =>
      match apply c record with
      | Err e => (Err e, c)
      | Ok c' => apply_batch rest (c' <| core_lastSequence := cr_Sequence record |>)
      end
  end.

(** The loop of [syncLocked]; [fuel] bounds the number of batches. *)
Fixpoint sync_loop (fuel : nat) (s : CoreStore) (c : Core) : result unit * Core :=
  match Records s (core_lastSequence c) 1000 with
  | Err e => (Err e, c)
  | Ok records =>
      match apply_batch records c with
      | (Err e, c') => (Err e, c')
      | (Ok _, c') =>
          if (length records <? 1000)%nat then (Ok tt, c') else
          match fuel with
          | O => (Err (ErrText "out of fuel"), c')
          | S fuel' => sync_loop fuel' s c'
          end
      end
  end.

(** A batch that is full advances the position by 1000 records, so one round
    per record is more than enough. *)
Definition syncLocked : M unit := fun w =>
  let '(r, c) := sync_loop (length (st_records (w_store w))) (w_store w) (w_core w) in
  (r, w <| w_core := c |>).

(** ** Lookups and scope checks *)
Definition requireStoredID (field value prefix : string) : result uuidV7 :=
  match parseID prefix value with
  | Ok id => Ok id
  | Err _ => Err (integrityViolation "application.require_stored_id" field)
  end.

Definition requireLeaseActive (lease : LeaseRecord) (now : time) : result unit :=
  check (negb (negb (bool_decide (lease_State lease = LeaseActive))
               || negb (LeaseTerminationRecord_Empty (lease_Termination lease))
               || negb (time_After (lease_ExpiresAt lease) now))) ErrScope.

(** The loops [for index := range ...]: the first element that matches. *)
Definition find_index {T} (p : T -> bool) (l : list T) : option (nat * T) :=
  list_find (fun x => p x = true) l.

Definition findAgentGeneration (agent : AgentWorkspaceRecord) (generation : N)
  : result (nat * AgentGenerationRecord) :=
  from_option_err ErrNotFound
    (find_index (fun g => (agen_Generation g =? generation)%N) (agent_Generations agent)).
Definition findTargetGeneration (target : TargetRecord) (generation : N)
  : result (nat * TargetGenerationRecord) :=
  from_option_err ErrNotFound
    (find_index (fun g => (tgen_Generation g =? generation)%N) (target_Generations target)).
Definition findRun (target : TargetRecord) (runID : string) : result (nat * TargetRunRecord) :=
  from_option_err ErrNotFound
    (find_index (fun r => bool_decide (run_ID r = runID)) (target_Runs target)).
Definition findOperation (target : TargetRecord) (operationID : string)
  : result (nat * TargetOperationRecord) :=
  from_option_err ErrNotFound
    (find_index (fun o => bool_decide (op_ID o = operationID)) (target_Operations target)).

Definition requireAgentGenerationAcceptingWork (c : Core) (operation workspaceID : string)
    (generation : N) : result AgentWorkspaceRecord :=
  agent ← from_option_err ErrScope (core_agents c !! workspaceID);
  _ ← check (agent_CurrentGeneration agent =? generation)%N ErrScope;
  '(_, record) ← findAgentGeneration agent generation;
  _ ← check (bool_decide (agen_State record = AgentGenerationReady)
             || bool_decide (agen_State record = AgentGenerationRunning))
        (failedPrecondition operation "agent_generation");
  Ok agent.

(** [requireAgentGenerationIdle].  The maps are visited in key order here; Go's
    order is unspecified and only decides which busy resource is reported. *)
Definition requireAgentGenerationIdle (c : Core) (workspaceID : string) (generation : N) : result unit :=
  let operation := "agent_generation.quiesce" in
  _ ← res_each (fun _ '(_, execution) =>
        check (negb (bool_decide (exec_AgentWorkspaceID execution = workspaceID)
                     && (exec_AgentGeneration execution =? generation)%N
                     && negb (ExecState_Terminal (exec_State execution))))
          (failedPrecondition operation "exec")) 0 (map_to_list (core_execs c));
  res_each (fun _ '(_, target) =>
    res_each (fun _ targetOperation =>
      if TargetOperationState_Terminal (op_State targetOperation) then Ok tt else
      match findRun target (op_RunID targetOperation) with
      | Err _ => Err (integrityViolation operation "target_operation.run_id")
      | Ok (_, run) =>
          check (negb (bool_decide (run_AgentWorkspaceID run = workspaceID)
                       && (run_AgentGeneration run =? generation)%N))
            (failedPrecondition operation "target_operation")
      end) 0 (target_Operations target)) 0 (map_to_list (core_targets c)).

(** [targetIDsForLease], [execIDsForLease]: sorted identities. *)
Definition targetIDsForLease (c : Core) (leaseID : string) : list string :=
  sort_Strings (fst <$> List.filter (fun '(_, t) => bool_decide (target_LeaseID t = leaseID))
                          (map_to_list (core_targets c))).
Definition execIDsForLease (c : Core) (leaseID : string) : list string :=
  sort_Strings (fst <$> List.filter (fun '(_, e) => bool_decide (exec_LeaseID e = leaseID))
                          (map_to_list (core_execs c))).

(** ** Views *)
Definition by_id_le {T} (ids : T -> string) (a b : T) : Prop := string_le (ids a) (ids b).
#[export] Instance by_id_le_dec {T} (ids : T -> string) : RelDecision (by_id_le ids).
Proof. intros a b. unfold by_id_le. apply _. Defined.
Definition sort_by_id {T} (ids : T -> string) (l : list T) : list T := merge_sort (by_id_le ids) l.

Definition researchSessionViewLocked (c : Core) (session : SessionRecord) : result ResearchSessionView :=
  lease ← from_option_err ErrNotFound (core_leases c !! session_LeaseID session);
  agent ← from_option_err ErrNotFound (core_agents c !! session_AgentWorkspaceID session);
  let own {T} (sessionOf : T -> string) (m : gmap string T) : list T :=
    List.filter (fun x => bool_decide (sessionOf x = session_ID session)) (snd <$> map_to_list m) in
  Ok (mkResearchSessionView session lease agent
        (sort_by_id exec_ID (own exec_SessionID (core_execs c)))
        (sort_by_id target_ID (own target_SessionID (core_targets c)))
        (sort_by_id inc_ID (own inc_SessionID (core_incidents c)))).

(** [sessionViewLocked] of [sessions.go] *)
Definition sessionViewLocked (c : Core) (sessionID : string) : result ResearchSessionView :=
  session ← from_option_err ErrNotFound (core_sessions c !! sessionID);
  lease ← from_option_err ErrNotFound (core_leases c !! session_LeaseID session);
  agent ← from_option_err ErrNotFound (core_agents c !! session_AgentWorkspaceID session);
  let own {T} (sessionOf : T -> string) (m : gmap string T) : list T :=
    List.filter (fun x => bool_decide (sessionOf x = sessionID)) (snd <$> map_to_list m) in
  Ok (mkResearchSessionView session lease agent
        (sort_by_id exec_ID (own exec_SessionID (core_execs c)))
        (sort_by_id target_ID (own target_SessionID (core_targets c)))
        (sort_by_id inc_ID (own inc_SessionID (core_incidents c)))).

Section Reads.
Context `{Env}.

(** [NewCore]: an empty projection brought up to date. *)
Definition NewCore : M unit := fun w => syncLocked (w <| w_core := empty_core |>).

Definition GetResearchSession (sessionID : string) : M ResearchSessionView :=
  _ ← syncLocked; c ← getCore;
  session ← lift (from_option_err ErrNotFound (core_sessions c !! sessionID));
  lift (researchSessionViewLocked c session).

Definition GetResearchSessionByLease (leaseID : string) : M ResearchSessionView :=
  _ ← syncLocked; c ← getCore;
  lease ← lift (from_option_err ErrNotFound (core_leases c !! leaseID));
  session ← lift (from_option_err ErrNotFound (core_sessions c !! lease_SessionID lease));
  _ ← guard (bool_decide (session_LeaseID session = leaseID)) ErrNotFound;
  lift (researchSessionViewLocked c session).

Definition ListResearchSessions : M (list ResearchSessionView) :=
  _ ← syncLocked; c ← getCore;
  lift (res_map (fun _ id =>
          session ← from_option_err ErrNotFound (core_sessions c !! id);
          researchSessionViewLocked c session) 0
        (sort_Strings (fst <$> map_to_list (core_sessions c)))).

Definition GetExec (execID : string) : M ExecRecord :=
  _ ← syncLocked; c ← getCore; lift (from_option_err ErrNotFound (core_execs c !! execID)).
Definition GetTarget (targetID : string) : M TargetRecord :=
  _ ← syncLocked; c ← getCore; lift (from_option_err ErrNotFound (core_targets c !! targetID)).
Definition GetIncident (incidentID : string) : M IncidentRecord :=
  _ ← syncLocked; c ← getCore; lift (from_option_err ErrNotFound (core_incidents c !! incidentID)).

Record AuthorizationRequest := mkAuthorizationRequest {
  auth_Subject : string; auth_PolicyReference : string; auth_SessionID : string;
  auth_LeaseID : string; auth_AgentWorkspaceID : string; auth_ExecID : string;
  auth_TargetID : string; auth_TargetRunID : string; auth_IncidentID : string }.

(** One [if request.X != "" { identifiers++; ... }] block: the identifier
    count and the owning session it resolves to. *)
Definition resolve_identifier {T} (value : string) (lookup : string -> option T)
    (owner : T -> string) (acc : nat * string) : result (nat * string) :=
  if bool_decide (value = "") then Ok acc else
  record ← from_option_err ErrNotFound (lookup value);
  Ok (S (fst acc), owner record).

Definition target_of_run (c : Core) (runID : string) : option TargetRecord :=
  List.find (fun t => existsb (fun r => bool_decide (run_ID r = runID)) (target_Runs t))
    (snd <$> map_to_list (core_targets c)).

Definition resolve_owner (c : Core) (request : AuthorizationRequest) : result (nat * string) :=
  let acc := (if bool_decide (auth_SessionID request = "") then 0%nat else 1%nat,
              auth_SessionID request) in
  acc ← resolve_identifier (auth_LeaseID request) (fun k => core_leases c !! k) lease_SessionID acc;
  acc ← resolve_identifier (auth_AgentWorkspaceID request) (fun k => core_agents c !! k) agent_SessionID acc;
  acc ← resolve_identifier (auth_ExecID request) (fun k => core_execs c !! k) exec_SessionID acc;
  acc ← resolve_identifier (auth_TargetID request) (fun k => core_targets c !! k) target_SessionID acc;
  acc ← resolve_identifier (auth_TargetRunID request) (target_of_run c) target_SessionID acc;
  resolve_identifier (auth_IncidentID request) (fun k => core_incidents c !! k) inc_SessionID acc.

Definition Authorize (request : AuthorizationRequest) : M unit :=
  _ ← guard (negb (blank (auth_Subject request))) ErrScope;
  _ ← syncLocked; c ← getCore;
  acc ← lift (resolve_owner c request);
  _ ← guard (fst acc =? 1)%nat (invalidArgument "authorize" "resource_identity");
  session ← lift (from_option_err ErrNotFound (core_sessions c !! snd acc));
  _ ← guard (negb (bool_decide (session_OwnerSubject session = "")
                   || negb (bool_decide (session_OwnerSubject session = auth_Subject request)))) ErrScope;
  if bool_decide (auth_PolicyReference request = "") then mret tt else
  _ ← guard (bool_decide (auth_PolicyReference request = session_PolicyDigest session)) ErrScope;
  lease ← lift (from_option_err ErrNotFound (core_leases c !! session_LeaseID session));
  _ ← guard (bool_decide (lease_SessionID lease = session_ID session)) ErrNotFound;
  now ← clock;
  guard (is_ok (requireLeaseActive lease now)) ErrScope.
End Reads.

(** * The projection follows the journal

    [syncLocked] reads the journal in windows of 1000 rows.  On a well-formed
    journal this is one pass over the rows not yet applied, and the projection
    is at all times the replay of a prefix of the journal. *)
Implicit Types (c : Core) (rows : list (ControlRecord payload)).

Lemma apply_batch_app rows1 rows2 c :
  apply_batch (rows1 ++ rows2) c =
  match apply_batch rows1 c with
  | (Ok _, c') => apply_batch rows2 c'
  | (Err e, c') => (Err e, c')
  end.
Proof.
  revert c. induction rows1 as [|r rows1 IH]; intros c; [done|].
  cbn [apply_batch app]. destruct (apply c r); [apply IH|done].
Qed.

(** A batch that fails has applied the rows before the one it rejects. *)
Lemma apply_batch_err rows c e c' :
  apply_batch rows c = (Err e, c') ->
  exists j, (j < length rows)%nat /\ apply_batch (take j rows) c = (Ok tt, c').
Proof.
  revert c. induction rows as [|r rows IH]; intros c; [done|]. cbn [apply_batch].
  destruct (apply c r) as [c1|e1] eqn:A.
  - intros E. apply IH in E as (j & L & E). exists (S j). cbn [length take apply_batch].
    split; [lia|]. by rewrite A.
  - intros E. simplify_eq. exists 0%nat. cbn. split; [lia|done].
Qed.

(** [apply] never moves the position; the batch does. *)
Lemma apply_sequence c r c' : apply c r = Ok c' -> core_lastSequence c' = core_lastSequence c.
Proof.
  unfold apply. intros E. repeat case_match; inv_res E; done.
Qed.

Lemma apply_batch_sequence rows c c' :
  apply_batch rows c = (Ok tt, c') ->
  core_lastSequence c' = match last rows with Some r => cr_Sequence r | None => core_lastSequence c end.
Proof.
  revert c. induction rows as [|r rows IH]; intros c; cbn [apply_batch]; [by intros [= ->]|].
  destruct (apply c r) as [c1|]; [|done]. intros E. rewrite (IH _ E), last_cons.
  by destruct (last rows).
Qed.

(** ** The window query *)
Section Window.
Context `{Env}.
Implicit Types s : CoreStore.

Lemma filter_all {A} (p : A -> bool) (l : list A) :
  (forall x, x ∈ l -> p x = true) -> List.filter p l = l.
Proof.
  induction l as [|x l IH]; intros F; [done|]. cbn. rewrite (F x) by set_solver.
  f_equal. apply IH. set_solver.
Qed.
Lemma filter_none {A} (p : A -> bool) (l : list A) :
  (forall x, x ∈ l -> p x = false) -> List.filter p l = [].
Proof.
  induction l as [|x l IH]; intros F; [done|]. cbn. rewrite (F x) by set_solver.
  apply IH. set_solver.
Qed.

Lemma after_drop s k :
  store_ok payload_bytes s -> (k <= length (st_records s))%nat ->
  List.filter (fun r => (Z.of_nat k <? cr_Sequence r)%Z) (st_records s) = drop k (st_records s).
Proof.
  intros Ok K. pose proof (so_seq _ _ Ok) as Q.
  rewrite <-(take_drop k (st_records s)) at 1. rewrite List.filter_app, filter_none, filter_all; [done|..].
  - intros r Hr. apply list_elem_of_lookup in Hr as [i Hr]. rewrite lookup_drop in Hr.
    apply Z.ltb_lt. rewrite (Q _ _ Hr). lia.
  - intros r Hr. apply list_elem_of_lookup in Hr as [i Hr].
    apply lookup_take_Some in Hr as [Hr Hi]. apply Z.ltb_ge. rewrite (Q _ _ Hr). lia.
Qed.

Lemma hashes_32 s :
  store_ok payload_bytes s ->
  forallb (fun r => bool_decide (length (cr_PreviousHash r) = 32%nat)
                    && bool_decide (length (cr_Hash r) = 32%nat)) (st_records s) = true.
Proof.
  intros [C _ _ _ _]. unfold Verify in C. generalize dependent zero_hash.
  induction (st_records s) as [|r rows IH]; intros h C; [done|]. apply Verify_cons in C as (L1 & L2 & _ & _ & C).
  cbn [forallb]. rewrite !bool_decide_true by done. by eapply IH.
Qed.

Lemma Records_window s k :
  store_ok payload_bytes s -> (k <= length (st_records s))%nat ->
  Records s (Z.of_nat k) 1000 = Ok (take 1000 (drop k (st_records s))).
Proof.
  intros O K. unfold Records. rewrite (after_drop s k O K).
  change (firstn (Z.to_nat 1000) (drop k (st_records s))) with (take 1000 (drop k (st_records s))).
  replace (negb _) with true.
  2: { symmetry. rewrite negb_true_iff, !orb_false_iff. repeat split; [|done..]. apply Z.ltb_ge. lia. }
  cbn [check mbind res_mbind]. replace (forallb _ _) with true; [done|].
  pose proof (hashes_32 s O) as F. rewrite List.forallb_forall in F.
  symmetry. apply List.forallb_forall. intros r Hr. apply F. apply list_elem_of_In in Hr.
  apply list_elem_of_In.
  apply list_elem_of_lookup in Hr as [i Hr]. apply lookup_take_Some in Hr as [Hr _].
  rewrite lookup_drop in Hr. by eapply list_elem_of_lookup_2.
Qed.

(** ** The projection of a prefix *)
Definition replayed s c (k : nat) : Prop :=
  (k <= length (st_records s))%nat /\ apply_batch (take k (st_records s)) empty_core = (Ok tt, c).

Lemma replayed_sequence s c k :
  store_ok payload_bytes s -> replayed s c k -> core_lastSequence c = Z.of_nat k.
Proof.
  intros O [K E]. rewrite (apply_batch_sequence _ _ _ E). destruct k as [|k]; [done|].
  destruct (lookup_lt_is_Some_2 (st_records s) k ltac:(lia)) as [r Hr].
  rewrite (take_S_r _ _ _ Hr), last_snoc. rewrite (so_seq _ _ O _ _ Hr). lia.
Qed.

Lemma sync_loop_pass fuel s c k :
  store_ok payload_bytes s -> (k <= length (st_records s))%nat ->
  core_lastSequence c = Z.of_nat k -> (length (st_records s) - k <= fuel)%nat ->
  sync_loop fuel s c = apply_batch (drop k (st_records s)) c.
Proof.
  intros O. revert k c. induction fuel as [|fuel IH]; intros k c K Q F; cbn [sync_loop]; rewrite Q, (Records_window s k O K).
  - rewrite drop_ge by lia. done.
  - transitivity (apply_batch (take 1000 (drop k (st_records s)) ++ drop 1000 (drop k (st_records s))) c);
      [|by rewrite take_drop].
    rewrite apply_batch_app.
    destruct (apply_batch (take 1000 _) c) as [[[]|e] c1] eqn:B; [|done].
    rewrite length_take, length_drop.
    destruct (Nat.ltb_spec (1000 `min` (length (st_records s) - k)) 1000) as [L|L].
    + rewrite drop_drop, drop_ge by lia. done.
    + rewrite (IH (k + 1000)%nat); [by rewrite drop_drop|lia| |lia].
      rewrite (apply_batch_sequence _ _ _ B).
      destruct (lookup_lt_is_Some_2 (st_records s) (k + 999) ltac:(lia)) as [r Hr].
      replace (take 1000 (drop k (st_records s))) with (take 999 (drop k (st_records s)) ++ [r]).
      2: { symmetry. apply (take_S_r _ 999). by rewrite lookup_drop. }
      rewrite last_snoc, (so_seq _ _ O _ _ Hr). lia.
Qed.

Lemma syncLocked_pass w k :
  store_ok payload_bytes (w_store w) -> replayed (w_store w) (w_core w) k ->
  syncLocked w =
  (fst (apply_batch (drop k (st_records (w_store w))) (w_core w)),
   w <| w_core := snd (apply_batch (drop k (st_records (w_store w))) (w_core w)) |>).
Proof.
  intros O Rp. unfold syncLocked.
  rewrite (sync_loop_pass _ _ _ k O (proj1 Rp) (replayed_sequence _ _ _ O Rp)) by lia.
  by destruct (apply_batch _ _).
Qed.

Lemma syncLocked_replayed w k r w' :
  store_ok payload_bytes (w_store w) -> replayed (w_store w) (w_core w) k -> syncLocked w = (r, w') ->
  w_store w' = w_store w /\ w_tick w' = w_tick w /\
  exists k', (k <= k')%nat /\ replayed (w_store w) (w_core w') k' /\
    (r = Ok tt -> k' = length (st_records (w_store w))).
Proof.
  intros O Rp. rewrite (syncLocked_pass w k O Rp).
  destruct (apply_batch (drop k _) _) as [[[]|e] c'] eqn:B; intros E; simplify_eq; cbn [fst snd w_store w_core w_tick set].
  - split; [done|]. split; [done|]. exists (length (st_records (w_store w))). destruct Rp as [K R].
    split; [done|]. split; [|done]. split; [done|].
    rewrite take_ge by done. rewrite <-(take_drop k (st_records (w_store w))), apply_batch_app, R. exact B.
  - split; [done|]. split; [done|]. destruct Rp as [K R].
    apply apply_batch_err in B as (j & L & B). rewrite length_drop in L.
    exists (k + j)%nat. split; [lia|]. split; [|done]. split; [lia|].
    rewrite <-take_take_drop, apply_batch_app, R. exact B.
Qed.

(** C19: Catching up in windows of 1000 rows is one pass over the journal.  On
    a well-formed journal, whatever prefix of it the projection has applied,
    [syncLocked] terminates with exactly the result of applying all the
    remaining rows in order: no row is skipped, none is applied twice, and the
    bound on the number of windows is never reached.  When it succeeds, a
    restart ([NewCore], which rebuilds the projection from the first row)
    succeeds too and arrives at the same projection. *)
Theorem syncLocked_single_pass w k :
  store_ok payload_bytes (w_store w) -> replayed (w_store w) (w_core w) k ->
  let '(r, c) := apply_batch (drop k (st_records (w_store w))) (w_core w) in
  syncLocked w = (r, w <| w_core := c |>) /\
  (r = Ok tt -> NewCore w = (Ok tt, w <| w_core := c |>)).
Proof.
  intros O Rp. rewrite (syncLocked_pass w k O Rp).
  destruct (apply_batch _ _) as [r c] eqn:B. cbn [fst snd]. split; [done|]. intros ->.
  unfold NewCore. rewrite (syncLocked_pass _ 0%nat); [|done|by split; [cbn; lia|]].
  cbn [w_store w_core set]. destruct Rp as [K R].
  rewrite drop_0, <-(take_drop k (st_records (w_store w))), apply_batch_app, R, B. done.
Qed.
End Window.
