(* ===== verification/Advance.v ===== *)
(** * What replay lets a record become

    One relation per record kind: the identity of a record and what it was
    created with never change, revisions, times, generations and expiries only
    grow, states follow the lifecycle tables, a plan binding or a termination
    intent is set at most once.  [apply_le] proves that every accepted journal
    row moves the projection along these relations only. *)
From S2P Require Import Prelude Errors GoStrings States Values Ids Models Evidence Records Store Requests Machine.
From S2P Require Import Replay Sync.
(** A chain of allowed transitions. *)
Definition follows {S} `{Lifecycle S} : relation S := rtc lc_step.

Lemma follows_terminal {S} `{Lifecycle S} (a b : S) : follows a b -> lc_terminal a = true -> b = a.
Proof.
  intros F T. destruct F as [|a b c St _]; [done|]. destruct (lc_table _ _ St) as (_ & _ & ? & _). congruence.
Qed.

(** ** The relations *)
Record session_adv (s s' : SessionRecord) : Prop := {
  sa_ID : session_ID s' = session_ID s;
  sa_OwnerSubject : session_OwnerSubject s' = session_OwnerSubject s;
  sa_Key : session_AcquisitionIdempotencyKey s' = session_AcquisitionIdempotencyKey s;
  sa_LeaseID : session_LeaseID s' = session_LeaseID s;
  sa_AgentWorkspaceID : session_AgentWorkspaceID s' = session_AgentWorkspaceID s;
  sa_InputViewID : session_InputViewID s' = session_InputViewID s;
  sa_PolicyDigest : session_PolicyDigest s' = session_PolicyDigest s;
  sa_CapabilityDigest : session_CapabilityDigest s' = session_CapabilityDigest s;
  sa_CreatedAt : session_CreatedAt s' = session_CreatedAt s;
  sa_Revision : (session_Revision s <= session_Revision s')%N;
  sa_UpdatedAt : (session_UpdatedAt s <= session_UpdatedAt s')%Z;
  sa_State : follows (session_State s) (session_State s') }.

(** Once begun, a termination keeps its intent. *)
Record term_adv (t t' : LeaseTerminationRecord) : Prop := {
  ta_begun : t <> zero_termination -> t' <> zero_termination;
  ta_Kind : t <> zero_termination -> term_Kind t' = term_Kind t;
  ta_Reason : t <> zero_termination -> term_Reason t' = term_Reason t;
  ta_Key : t <> zero_termination -> term_BeginIdempotencyKey t' = term_BeginIdempotencyKey t;
  ta_At : t <> zero_termination -> term_InitiatedAt t' = term_InitiatedAt t }.

Record lease_adv (l l' : LeaseRecord) : Prop := {
  la_ID : lease_ID l' = lease_ID l;
  la_SessionID : lease_SessionID l' = lease_SessionID l;
  la_AgentWorkspaceID : lease_AgentWorkspaceID l' = lease_AgentWorkspaceID l;
  la_InputViewID : lease_InputViewID l' = lease_InputViewID l;
  la_PolicyDigest : lease_PolicyDigest l' = lease_PolicyDigest l;
  la_CapabilityDigest : lease_CapabilityDigest l' = lease_CapabilityDigest l;
  la_CreatedAt : lease_CreatedAt l' = lease_CreatedAt l;
  la_AgentGeneration : (lease_AgentGeneration l <= lease_AgentGeneration l')%N;
  la_ExpiresAt : (lease_ExpiresAt l <= lease_ExpiresAt l')%Z;
  la_Revision : (lease_Revision l <= lease_Revision l')%N;
  la_UpdatedAt : (lease_UpdatedAt l <= lease_UpdatedAt l')%Z;
  la_Termination : term_adv (lease_Termination l) (lease_Termination l');
  la_frozen : lease_Termination l <> zero_termination ->
    lease_ExpiresAt l' = lease_ExpiresAt l /\ lease_AgentGeneration l' = lease_AgentGeneration l;
  la_State : follows (lease_State l) (lease_State l') }.

Record agen_adv (g g' : AgentGenerationRecord) : Prop := {
  ga_Generation : agen_Generation g' = agen_Generation g;
  ga_WorkspaceID : agen_WorkspaceID g' = agen_WorkspaceID g;
  ga_InputViewID : agen_InputViewID g' = agen_InputViewID g;
  ga_PolicyDigest : agen_PolicyDigest g' = agen_PolicyDigest g;
  ga_CapabilityDigest : agen_CapabilityDigest g' = agen_CapabilityDigest g;
  ga_Previous : agen_Previous g' = agen_Previous g;
  ga_RecoveryIncident : agen_RecoveryIncident g' = agen_RecoveryIncident g;
  ga_CreatedAt : agen_CreatedAt g' = agen_CreatedAt g;
  ga_binding : agentProvisioningBindingEmpty g = false ->
    agen_ProvisioningPlanDigest g' = agen_ProvisioningPlanDigest g /\
    agen_WorkspaceProvisioningKey g' = agen_WorkspaceProvisioningKey g /\
    agen_AgentProvisioningKey g' = agen_AgentProvisioningKey g;
  ga_Revision : (agen_Revision g <= agen_Revision g')%N;
  ga_UpdatedAt : (agen_UpdatedAt g <= agen_UpdatedAt g')%Z;
  ga_State : follows (agen_State g) (agen_State g') }.

(** Every element stays at its position. *)
Definition list_adv {T} (R : relation T) (l l' : list T) : Prop :=
  forall i x, l !! i = Some x -> exists x', l' !! i = Some x' /\ R x x'.

Record agent_adv (a a' : AgentWorkspaceRecord) : Prop := {
  wa_ID : agent_ID a' = agent_ID a;
  wa_SessionID : agent_SessionID a' = agent_SessionID a;
  wa_CreatedAt : agent_CreatedAt a' = agent_CreatedAt a;
  wa_CurrentGeneration : (agent_CurrentGeneration a <= agent_CurrentGeneration a')%N;
  wa_Revision : (agent_Revision a <= agent_Revision a')%N;
  wa_UpdatedAt : (agent_UpdatedAt a <= agent_UpdatedAt a')%Z;
  wa_Generations : list_adv agen_adv (agent_Generations a) (agent_Generations a') }.

Record exec_adv (e e' : ExecRecord) : Prop := {
  ea_ID : exec_ID e' = exec_ID e;
  ea_SessionID : exec_SessionID e' = exec_SessionID e;
  ea_LeaseID : exec_LeaseID e' = exec_LeaseID e;
  ea_AgentWorkspaceID : exec_AgentWorkspaceID e' = exec_AgentWorkspaceID e;
  ea_AgentGeneration : exec_AgentGeneration e' = exec_AgentGeneration e;
  ea_Kind : exec_Kind e' = exec_Kind e;
  ea_Executable : exec_Executable e' = exec_Executable e;
  ea_Argv : exec_Argv e' = exec_Argv e;
  ea_WorkingDirectory : exec_WorkingDirectory e' = exec_WorkingDirectory e;
  ea_CreatedAt : exec_CreatedAt e' = exec_CreatedAt e;
  ea_Revision : (exec_Revision e <= exec_Revision e')%N;
  ea_UpdatedAt : (exec_UpdatedAt e <= exec_UpdatedAt e')%Z;
  ea_State : follows (exec_State e) (exec_State e') }.

Record tgen_adv (g g' : TargetGenerationRecord) : Prop := {
  ha_Generation : tgen_Generation g' = tgen_Generation g;
  ha_PolicyDigest : tgen_PolicyDigest g' = tgen_PolicyDigest g;
  ha_CapabilityDigest : tgen_CapabilityDigest g' = tgen_CapabilityDigest g;
  ha_Previous : tgen_Previous g' = tgen_Previous g;
  ha_RecoveryIncident : tgen_RecoveryIncident g' = tgen_RecoveryIncident g;
  ha_CreatedAt : tgen_CreatedAt g' = tgen_CreatedAt g;
  ha_binding : targetProvisioningBindingEmpty g = false ->
    tgen_ProvisioningPlanDigest g' = tgen_ProvisioningPlanDigest g /\
    tgen_ProvisioningKey g' = tgen_ProvisioningKey g;
  ha_Revision : (tgen_Revision g <= tgen_Revision g')%N;
  ha_UpdatedAt : (tgen_UpdatedAt g <= tgen_UpdatedAt g')%Z;
  ha_State : follows (tgen_State g) (tgen_State g') }.

Record run_adv (r r' : TargetRunRecord) : Prop := {
  ra_ID : run_ID r' = run_ID r;
  ra_Generation : run_Generation r' = run_Generation r;
  ra_AgentWorkspaceID : run_AgentWorkspaceID r' = run_AgentWorkspaceID r;
  ra_AgentGeneration : run_AgentGeneration r' = run_AgentGeneration r;
  ra_MaterializationDigest : run_MaterializationDigest r' = run_MaterializationDigest r;
  ra_CreatedAt : run_CreatedAt r' = run_CreatedAt r;
  ra_binding : targetRunProvisioningBindingEmpty r = false ->
    run_ProvisioningPlanDigest r' = run_ProvisioningPlanDigest r /\
    run_ProvisioningKey r' = run_ProvisioningKey r;
  ra_Revision : (run_Revision r <= run_Revision r')%N;
  ra_UpdatedAt : (run_UpdatedAt r <= run_UpdatedAt r')%Z;
  ra_State : follows (run_State r) (run_State r') }.

Record op_adv (o o' : TargetOperationRecord) : Prop := {
  oa_ID : op_ID o' = op_ID o;
  oa_RunID : op_RunID o' = op_RunID o;
  oa_Generation : op_Generation o' = op_Generation o;
  oa_Kind : op_Kind o' = op_Kind o;
  oa_CommandDisplay : op_CommandDisplay o' = op_CommandDisplay o;
  oa_ContentDigest : op_ContentDigest o' = op_ContentDigest o;
  oa_CreatedAt : op_CreatedAt o' = op_CreatedAt o;
  oa_Revision : (op_Revision o <= op_Revision o')%N;
  oa_UpdatedAt : (op_UpdatedAt o <= op_UpdatedAt o')%Z;
  oa_State : follows (op_State o) (op_State o') }.

(** Every element is kept, at some position. *)
Definition set_adv {T} (R : relation T) (l l' : list T) : Prop :=
  forall x, x ∈ l -> exists x', x' ∈ l' /\ R x x'.

Record target_adv (t t' : TargetRecord) : Prop := {
  da_ID : target_ID t' = target_ID t;
  da_SessionID : target_SessionID t' = target_SessionID t;
  da_LeaseID : target_LeaseID t' = target_LeaseID t;
  da_Key : target_CreationIdempotencyKey t' = target_CreationIdempotencyKey t;
  da_Template : target_Template t' = target_Template t;
  da_Kind : target_Kind t' = target_Kind t;
  da_CreatedAt : target_CreatedAt t' = target_CreatedAt t;
  da_CurrentGeneration : (target_CurrentGeneration t <= target_CurrentGeneration t')%N;
  da_Revision : (target_Revision t <= target_Revision t')%N;
  da_UpdatedAt : (target_UpdatedAt t <= target_UpdatedAt t')%Z;
  da_Generations : list_adv tgen_adv (target_Generations t) (target_Generations t');
  da_Runs : set_adv run_adv (target_Runs t) (target_Runs t');
  da_Operations : set_adv op_adv (target_Operations t) (target_Operations t') }.

Record incident_adv (i i' : IncidentRecord) : Prop := {
  ia_identity : incident_identity i' = incident_identity i;
  ia_evidence : inc_State i <> IncidentOpen ->
    inc_ObservationBundleID i' = inc_ObservationBundleID i /\ inc_Artifacts i' = inc_Artifacts i;
  ia_Revision : (inc_Revision i <= inc_Revision i')%N;
  ia_UpdatedAt : (inc_UpdatedAt i <= inc_UpdatedAt i')%Z;
  ia_State : follows (inc_State i) (inc_State i') }.

(** ** They are preorders *)
Ltac adv_preorder :=
  split;
  [ intros ?; split; intros; first [done|lia|reflexivity|split; reflexivity]
  | intros ??? [] []; split; intros;
    first [congruence|lia|by etrans|naive_solver congruence|idtac] ].

#[export] Instance session_adv_pre : PreOrder session_adv.
Proof. adv_preorder. Qed.
#[export] Instance term_adv_pre : PreOrder term_adv.
Proof. adv_preorder. Qed.
#[export] Instance lease_adv_pre : PreOrder lease_adv.
Proof.
  adv_preorder. repeat match goal with F : term_adv _ _ |- _ => destruct F end.
  repeat match goal with F : _ <> zero_termination -> _ |- _ => specialize (F ltac:(auto)) end.
  intuition congruence.
Qed.

(** A binding that is set keeps later ones fixed. *)
Ltac chain_binding E :=
  match goal with
  | F1 : ?b ?x = false -> _, F2 : ?b ?y = false -> _, G : ?b ?x = false |- _ =>
      specialize (F1 G);
      assert (b y = false) as E
        by (rewrite <-G; unfold b; repeat match type of F1 with _ /\ _ =>
              let Q := fresh in destruct F1 as [Q F1]; rewrite Q end; by rewrite F1);
      specialize (F2 E); intuition congruence
  end.

#[export] Instance agen_adv_pre : PreOrder agen_adv.
Proof. adv_preorder. chain_binding E. Qed.
#[export] Instance tgen_adv_pre : PreOrder tgen_adv.
Proof. adv_preorder. chain_binding E. Qed.
#[export] Instance run_adv_pre : PreOrder run_adv.
Proof. adv_preorder. chain_binding E. Qed.
#[export] Instance op_adv_pre : PreOrder op_adv.
Proof. adv_preorder. Qed.
#[export] Instance exec_adv_pre : PreOrder exec_adv.
Proof. adv_preorder. Qed.

#[export] Instance list_adv_pre {T} (R : relation T) `{!PreOrder R} : PreOrder (list_adv R).
Proof.
  split; [intros l i x Hx; by exists x|]. intros l1 l2 l3 A B i x Hx.
  destruct (A _ _ Hx) as (y & Hy & Rxy), (B _ _ Hy) as (z & Hz & Ryz). exists z. split; [done|by etrans].
Qed.
#[export] Instance set_adv_pre {T} (R : relation T) `{!PreOrder R} : PreOrder (set_adv R).
Proof.
  split; [intros l x Hx; by exists x|]. intros l1 l2 l3 A B x Hx.
  destruct (A _ Hx) as (y & Hy & Rxy), (B _ Hy) as (z & Hz & Ryz). exists z. split; [done|by etrans].
Qed.

#[export] Instance agent_adv_pre : PreOrder agent_adv.
Proof. adv_preorder. Qed.
#[export] Instance target_adv_pre : PreOrder target_adv.
Proof. adv_preorder. Qed.

Lemma follows_open (b : IncidentState) (a : IncidentState) :
  follows a b -> a <> IncidentOpen -> b <> IncidentOpen.
Proof.
  unfold follows. induction 1 as [|a b c St _ IH]; [done|]. intros _. apply IH. intros ->.
  destruct a; vm_compute in St; discriminate St.
Qed.
#[export] Instance incident_adv_pre : PreOrder incident_adv.
Proof.
  adv_preorder. destruct (ia_evidence0 H) as [<- <-].
  apply ia_evidence1. by apply (follows_open _ (inc_State x)).
Qed.

(** ** The projection *)
Definition kind_le {V} (R : relation V) (m m' : gmap string V) : Prop :=
  forall k v, m !! k = Some v -> exists v', m' !! k = Some v' /\ R v v'.
#[export] Instance kind_le_pre {V} (R : relation V) `{!PreOrder R} : PreOrder (kind_le R).
Proof.
  split; [intros m k v Hv; by exists v|]. intros m1 m2 m3 A B k v Hv.
  destruct (A _ _ Hv) as (v2 & H2 & R2), (B _ _ H2) as (v3 & H3 & R3). exists v3. split; [done|by etrans].
Qed.

Lemma kind_le_insert {V} (R : relation V) `{!PreOrder R} (m : gmap string V) k v :
  (forall v0, m !! k = Some v0 -> R v0 v) -> kind_le R m (<[k := v]> m).
Proof.
  intros A j u Hu. destruct (decide (j = k)) as [->|N].
  - exists v. rewrite lookup_insert_eq. auto.
  - exists u. rewrite lookup_insert_ne by done. split; [done|reflexivity].
Qed.

Record core_le (c c' : Core) : Prop := {
  cl_sessions : kind_le session_adv (core_sessions c) (core_sessions c');
  cl_leases : kind_le lease_adv (core_leases c) (core_leases c');
  cl_agents : kind_le agent_adv (core_agents c) (core_agents c');
  cl_execs : kind_le exec_adv (core_execs c) (core_execs c');
  cl_targets : kind_le target_adv (core_targets c) (core_targets c');
  cl_incidents : kind_le incident_adv (core_incidents c) (core_incidents c') }.
#[export] Instance core_le_pre : PreOrder core_le.
Proof.
  split; [intros ?; split; reflexivity|]. intros c1 c2 c3 [] []. split; by etrans.
Qed.

(** ** What the advance checks establish *)
Lemma state_advance {S} `{Lifecycle S} `{EqDecision S} transition prefix r r' t t' (a b : S) (u : unit) :
  (forall x y : S, transition x y = lc_require x y) ->
  requireReplayStateAdvance prefix r r' t t' a b transition = Ok u ->
  (r <= r')%N /\ (t <= t')%Z /\ follows a b.
Proof.
  unfold requireReplayStateAdvance, requireReplayRevisionAdvance, orViolation. intros Tr E. inv_res E.
  rewrite Tr in E. to_prop. split; [lia|]. split; [lia|].
  destruct (bool_decide (a = b)) eqn:B; [apply bool_decide_eq_true in B as ->; constructor|].
  destruct (lc_require a b) as [[]|] eqn:L; [|done]. by apply rtc_once.
Qed.
