(* ===== verification/Integrity.v ===== *)
(** * Every accepted row advances the projection

    The validation of [replay_validation.go] implies the relations of
    [Advance]; by induction any two replays of prefixes of one journal are
    ordered by [core_le]. *)
From S2P Require Import Prelude Errors GoStrings States Values Ids Models Evidence Records Store Requests Machine.
From S2P Require Import Replay Sync Advance.
Lemma nested_advance {S} `{Lifecycle S} `{EqDecision S} transition prefix r r' t t' (a b : S) (u : unit) :
  (forall x y : S, transition x y = lc_require x y) ->
  requireNestedReplayStateAdvance prefix r r' t t' a b transition = Ok u ->
  (r <= r')%N /\ (t <= t')%Z /\ follows a b.
Proof.
  unfold requireNestedReplayStateAdvance. intros Tr.
  destruct (r' =? r)%N eqn:E; [|by apply state_advance]. apply N.eqb_eq in E as ->. intros C. inv_res C. to_prop. destruct C as [-> ->].
  repeat split; [lia..|constructor].
Qed.

(** [split_checks H] turns a conjunction of tests into equations. *)
Ltac split_checks H :=
  to_prop; repeat match type of H with
    | _ /\ _ => let Q := fresh "Q" in destruct H as [H Q]
    end.

Lemma frozen_binding (same empty complete : bool) :
  same = true \/ empty = true /\ complete = true -> empty = false -> same = true.
Proof. intros [?|[? ?]] ?; congruence. Qed.

Lemma agen_step i g g' : validateAgentGenerationStep i g g' = Ok tt -> agen_adv g g'.
Proof.
  unfold validateAgentGenerationStep. intros E. inv_res E.
  apply (nested_advance RequireAgentGenerationTransition) in E as (R & T & F); [|done].
  split_checks E0. split; try congruence; [|done..].
  intros Em. apply (frozen_binding _ _ _ E1) in Em. unfold sameAgentProvisioningBinding in Em.
  to_prop. intuition congruence.
Qed.

Lemma tgen_step i g g' : validateTargetGenerationStep i g g' = Ok tt -> tgen_adv g g'.
Proof.
  unfold validateTargetGenerationStep. intros E. inv_res E.
  apply (nested_advance RequireTargetGenerationTransition) in E as (R & T & F); [|done].
  split_checks E0. split; try congruence; [|done..].
  intros Em. apply (frozen_binding _ _ _ E1) in Em. unfold sameTargetProvisioningBinding in Em.
  to_prop. intuition congruence.
Qed.

Lemma last_by_elem {T} (ids : T -> string) id l x :
  last_by ids id l = Some x -> x ∈ l /\ ids x = id.
Proof.
  unfold last_by. intros F. apply List.find_some in F as [I E]. to_prop.
  split; [|done]. apply list_elem_of_In. by apply in_rev.
Qed.

Lemma run_step next i r : validateTargetRunStep next i r = Ok tt ->
  exists r', r' ∈ next /\ run_adv r r'.
Proof.
  unfold validateTargetRunStep. intros E. inv_res E. apply last_by_elem in E0 as [I Ei].
  exists x. split; [done|]. apply (nested_advance RequireTargetRunTransition) in E3 as (R & T & F); [|done].
  split_checks E1. split; try congruence; [|done..].
  intros Em. apply (frozen_binding _ _ _ E2) in Em. unfold sameTargetRunProvisioningBinding in Em.
  to_prop. intuition congruence.
Qed.

Lemma op_step next i o : validateTargetOperationStep next i o = Ok tt ->
  exists o', o' ∈ next /\ op_adv o o'.
Proof.
  unfold validateTargetOperationStep. intros E. inv_res E. apply last_by_elem in E0 as [I Ei].
  exists x. split; [done|]. apply (nested_advance RequireTargetOperationTransition) in E as (R & T & F); [|done].
  split_checks E1. split; try congruence; done.
Qed.

(** Histories of generations, runs and operations. *)
Lemma zip_each_list_adv {T} (R : relation T) (f : nat -> T -> T -> result unit) l l' :
  (forall i x y, f i x y = Ok tt -> R x y) -> (length l <= length l')%nat ->
  res_each (fun i '(x, y) => f i x y) 0 (zip l l') = Ok tt -> list_adv R l l'.
Proof.
  intros Rf L E i x Hx. rewrite res_each_ok in E.
  destruct (lookup_lt_is_Some_2 l' i) as [y Hy]; [apply lookup_lt_Some in Hx; lia|].
  exists y. split; [done|]. apply (Rf i). apply (E i (x, y)).
  apply lookup_zip_with_Some. eauto 6.
Qed.
Lemma each_set_adv {T} (R : relation T) (f : nat -> T -> result unit) l l' :
  (forall i x, f i x = Ok tt -> exists y, y ∈ l' /\ R x y) ->
  res_each f 0 l = Ok tt -> set_adv R l l'.
Proof.
  intros Rf E x Hx. rewrite res_each_ok in E. apply list_elem_of_lookup in Hx as [i Hx].
  by eapply Rf, E.
Qed.

Lemma agent_history l l' : validateAgentGenerationHistory l l' = Ok tt -> list_adv agen_adv l l'.
Proof.
  unfold validateAgentGenerationHistory. intros E. inv_res E.
  rewrite negb_true_iff, orb_false_iff, !Nat.ltb_ge in E0.
  eapply zip_each_list_adv; [apply agen_step|lia|exact E].
Qed.
Lemma target_history l l' : validateTargetGenerationHistory l l' = Ok tt -> list_adv tgen_adv l l'.
Proof.
  unfold validateTargetGenerationHistory. intros E. inv_res E.
  rewrite negb_true_iff, orb_false_iff, !Nat.ltb_ge in E0.
  eapply zip_each_list_adv; [apply tgen_step|lia|exact E].
Qed.

(** ** Records are stored under their identity *)
Definition keyed {V} (ids : V -> string) (m : gmap string V) : Prop :=
  forall k v, m !! k = Some v -> ids v = k.
Lemma keyed_insert {V} (ids : V -> string) m v : keyed ids m -> keyed ids (<[ids v := v]> m).
Proof.
  intros K k u. destruct (decide (k = ids v)) as [->|N].
  - rewrite lookup_insert_eq. by intros [= ->].
  - rewrite lookup_insert_ne by done. apply K.
Qed.

Record core_keyed (c : Core) : Prop := {
  ck_sessions : keyed session_ID (core_sessions c);
  ck_leases : keyed lease_ID (core_leases c);
  ck_agents : keyed agent_ID (core_agents c);
  ck_execs : keyed exec_ID (core_execs c);
  ck_targets : keyed target_ID (core_targets c);
  ck_incidents : keyed inc_ID (core_incidents c) }.

(** ** One row per record kind *)
Lemma session_step c v p : core_keyed c -> validateReplaySessionProjection c v = Ok tt ->
  core_sessions c !! session_ID v = Some p -> session_adv p v.
Proof.
  intros K E L. pose proof (ck_sessions _ K _ _ L) as Ei. unfold validateReplaySessionProjection in E.
  rewrite L in E. inv_res E. apply (state_advance RequireResearchSessionTransition) in E1 as (R & T & F); [|done].
  to_prop. destruct_and!. split; congruence || done.
Qed.

Lemma termination_advance t t' : validateReplayLeaseTerminationAdvance t t' = Ok tt -> term_adv t t'.
Proof.
  unfold validateReplayLeaseTerminationAdvance, LeaseTerminationRecord_Empty.
  case_bool_decide as Z; [split; congruence|]. intros E. inv_res E. split_checks E1. to_prop.
  split; intros _; congruence.
Qed.

Lemma lease_step c v p : core_keyed c -> validateReplayLeaseProjection c v = Ok tt ->
  core_leases c !! lease_ID v = Some p -> lease_adv p v.
Proof.
  intros K E L. pose proof (ck_leases _ K _ _ L) as Ei. unfold validateReplayLeaseProjection in E.
  rewrite L in E. inv_res E.
  match goal with G : validateReplayLeaseTerminationAdvance _ _ = Ok ?u |- _ =>
    destruct u; apply termination_advance in G as Tm end.
  match goal with G : requireReplayStateAdvance _ _ _ _ _ _ _ _ = _ |- _ =>
    apply (state_advance RequireLeaseTransition) in G as (R & T & F); [|done] end.
  match goal with G : requireReplayGenerationAdvance _ _ _ = _ |- _ =>
    unfold requireReplayGenerationAdvance in G; rewrite check_ok in G end.
  unfold LeaseTerminationRecord_Empty in *. to_prop. destruct_and!.
  split; try (congruence || done || lia).
  intros N. pose proof (ta_begun _ _ Tm N). intuition congruence.
Qed.

Lemma agent_step c v p : core_keyed c -> validateReplayAgentWorkspaceProjection c v = Ok tt ->
  core_agents c !! agent_ID v = Some p -> agent_adv p v.
Proof.
  intros K E L. pose proof (ck_agents _ K _ _ L) as Ei. unfold validateReplayAgentWorkspaceProjection in E.
  rewrite L in E. inv_res E. apply agent_history in E.
  unfold requireReplayGenerationAdvance, requireReplayRevisionAdvance in *.
  repeat match goal with G : (_ ≫= _) = Ok _ |- _ => inv_res G | G : check _ _ = Ok _ |- _ => inv_res G end.
  to_prop. destruct_and!. split; try (congruence || done || lia).
Qed.

Lemma exec_step c v p : core_keyed c -> validateReplayExecProjection c v = Ok tt ->
  core_execs c !! exec_ID v = Some p -> exec_adv p v.
Proof.
  intros K E L. pose proof (ck_execs _ K _ _ L) as Ei. unfold validateReplayExecProjection in E.
  rewrite L in E. inv_res E.
  match goal with G : requireReplayStateAdvance _ _ _ _ _ _ _ _ = _ |- _ =>
    apply (state_advance RequireExecTransition) in G as (R & T & F); [|done] end.
  to_prop. destruct_and!. split; congruence || done.
Qed.

Lemma target_step c v p : core_keyed c -> validateReplayTargetProjection c v = Ok tt ->
  core_targets c !! target_ID v = Some p -> target_adv p v.
Proof.
  intros K E L. pose proof (ck_targets _ K _ _ L) as Ei. unfold validateReplayTargetProjection in E.
  rewrite L in E. inv_res E.
  match goal with G : validateTargetGenerationHistory _ _ = Ok ?u |- _ =>
    destruct u; apply target_history in G as Hg end.
  match goal with G : validateTargetRunHistory _ _ = Ok ?u |- _ =>
    destruct u; unfold validateTargetRunHistory in G; inv_res G; rename G into Hr end.
  unfold validateTargetOperationHistory in E. inv_res E.
  apply (each_set_adv run_adv _ _ (target_Runs v)) in Hr; [|intros; by eapply run_step].
  apply (each_set_adv op_adv _ _ (target_Operations v)) in E; [|intros; by eapply op_step].
  unfold requireReplayGenerationAdvance, requireReplayRevisionAdvance in *.
  repeat match goal with G : (_ ≫= _) = Ok _ |- _ => inv_res G | G : check _ _ = Ok _ |- _ => inv_res G end.
  to_prop. destruct_and!. split; try (congruence || done || lia).
Qed.

Lemma incident_step c v p : core_keyed c -> validateReplayIncidentProjection c v = Ok tt ->
  core_incidents c !! inc_ID v = Some p -> incident_adv p v.
Proof.
  intros K E L. unfold validateReplayIncidentProjection in E.
  rewrite L in E. inv_res E.
  match goal with G : sameIncidentIdentity _ _ = true |- _ => rename G into Id end.
  match goal with G : requireIncidentEvidenceAdvance _ _ = Ok ?u |- _ => destruct u; rename G into Ev end.
  apply (state_advance RequireIncidentTransition) in E as (R & T & F); [|done].
  clear - Id Ev R T F. unfold sameIncidentIdentity in Id. to_prop. split; try done.
  intros N. unfold requireIncidentEvidenceAdvance in Ev.
  destruct (bool_decide (inc_ObservationBundleID p = inc_ObservationBundleID v)
            && bool_decide (inc_Artifacts p = inc_Artifacts v)) eqn:B.
  - to_prop. intuition congruence.
  - exfalso. inv_res Ev. to_prop. tauto.
Qed.

(** ** [apply], case by case *)
Inductive applied (c : Core) (r : ControlRecord payload) : Core -> Prop :=
| ap_session v : cr_AggregateKind r = "session" -> cr_AggregateID r = session_ID v ->
    cr_Payload r = PSession v -> validateReplaySessionProjection c v = Ok tt ->
    applied c r (c <| core_sessions := <[session_ID v := v]> (core_sessions c) |>)
| ap_lease v : cr_AggregateKind r = "lease" -> cr_AggregateID r = lease_ID v ->
    cr_Payload r = PLease v -> validateReplayLeaseProjection c v = Ok tt ->
    applied c r (c <| core_leases := <[lease_ID v := v]> (core_leases c) |>)
| ap_agent v : cr_AggregateKind r = "agent_workspace" -> cr_AggregateID r = agent_ID v ->
    cr_Payload r = PAgent v -> validateReplayAgentWorkspaceProjection c v = Ok tt ->
    applied c r (c <| core_agents := <[agent_ID v := v]> (core_agents c) |>)
| ap_exec v : cr_AggregateKind r = "exec" -> cr_AggregateID r = exec_ID v ->
    cr_Payload r = PExec v -> validateReplayExecProjection c v = Ok tt ->
    applied c r (c <| core_execs := <[exec_ID v := v]> (core_execs c) |>)
| ap_target v : cr_AggregateKind r = "target" -> cr_AggregateID r = target_ID v ->
    cr_Payload r = PTarget v -> validateReplayTargetProjection c v = Ok tt ->
    applied c r (c <| core_targets := <[target_ID v := v]> (core_targets c) |>)
| ap_incident v : cr_AggregateKind r = "incident" -> cr_AggregateID r = inc_ID v ->
    cr_Payload r = PIncident v -> validateReplayIncidentProjection c v = Ok tt ->
    applied c r (c <| core_incidents := <[inc_ID v := v]> (core_incidents c) |>).

Lemma decode_inv {T} (r : ControlRecord payload) (decode : payload -> option T) identity validate v :
  decodeReplayAggregate r decode identity validate = Ok v ->
  decode (cr_Payload r) = Some v /\ cr_AggregateID r = fst (identity v) /\
  cr_Revision r = snd (identity v) /\ validate v = Ok tt.
Proof.
  unfold decodeReplayAggregate. intros E. inv_res E.
  destruct (validate x) as [[]|e] eqn:V; [|destruct (IsCode _ _); discriminate].
  apply Ok_inj in E as ->. to_prop. auto.
Qed.

Lemma apply_inv c r c' : apply c r = Ok c' -> applied c r c'.
Proof.
  unfold apply. intros E.
  repeat match type of E with
    | (if ?b then _ else _) = _ => let Hk := fresh "Hk" in destruct b eqn:Hk
    end; [..|discriminate E]; to_prop; rewrite res_bind_ok in E; destruct E as (v & D & E);
    apply decode_inv in D as (Pd & I & _ & V); cbn [fst snd] in I;
    destruct (cr_Payload r) eqn:Pr; try discriminate Pd; apply Some_inj in Pd as ->;
    apply Ok_inj in E as <-; by constructor.
Qed.

Lemma apply_keyed c r c' : core_keyed c -> apply c r = Ok c' -> core_keyed c'.
Proof.
  intros [] E. apply apply_inv in E as []; split; cbn; try done; by apply keyed_insert.
Qed.

Lemma apply_le c r c' : core_keyed c -> apply c r = Ok c' -> core_le c c'.
Proof.
  intros K E. apply apply_inv in E as [v _ _ _ V|v _ _ _ V|v _ _ _ V|v _ _ _ V|v _ _ _ V|v _ _ _ V];
    split; cbn; try reflexivity; (apply kind_le_insert; [apply _|]); intros p L.
  - by eapply session_step.
  - by eapply lease_step.
  - by eapply agent_step.
  - by eapply exec_step.
  - by eapply target_step.
  - by eapply incident_step.
Qed.

Lemma empty_keyed : core_keyed empty_core.
Proof. by split. Qed.

Lemma keyed_sequence c n : core_keyed c -> core_keyed (c <| core_lastSequence := n |>).
Proof. by intros []. Qed.

Lemma apply_batch_keyed rows c r c' :
  core_keyed c -> apply_batch rows c = (r, c') -> core_keyed c' /\ core_le c c'.
Proof.
  revert c. induction rows as [|x rows IH]; intros c K; cbn [apply_batch].
  - intros [= _ <-]. done.
  - destruct (apply c x) as [c1|e] eqn:A.
    + intros E. destruct (IH _ (keyed_sequence _ _ (apply_keyed _ _ _ K A)) E) as [K' L].
      split; [done|]. etrans; [by eapply apply_le|]. destruct L. by split.
    + intros [= _ <-]. done.
Qed.
