(* ===== verification/Refs.v ===== *)
(** * Referential integrity of the projection

    Every record of the projection refers to records that exist and agree with
    it, and generations are numbered 1, 2, ..., up to the current one. *)
From S2P Require Import Prelude Errors GoStrings States Values Ids Models Evidence Records Store Requests Machine.
From S2P Require Import Replay Sync Advance Integrity.
Implicit Types c : Core.

(** ** References *)
Definition lease_refs c (l : LeaseRecord) : Prop :=
  exists s, core_sessions c !! lease_SessionID l = Some s /\ session_LeaseID s = lease_ID l /\
    session_AgentWorkspaceID s = lease_AgentWorkspaceID l /\ session_InputViewID s = lease_InputViewID l /\
    session_PolicyDigest s = lease_PolicyDigest l /\ session_CapabilityDigest s = lease_CapabilityDigest l.

Definition agent_refs c (a : AgentWorkspaceRecord) : Prop :=
  exists s l, core_sessions c !! agent_SessionID a = Some s /\ session_AgentWorkspaceID s = agent_ID a /\
    core_leases c !! session_LeaseID s = Some l /\ lease_AgentWorkspaceID l = agent_ID a /\
    lease_SessionID l = agent_SessionID a.

Definition exec_refs c (e : ExecRecord) : Prop :=
  exists s l a, core_sessions c !! exec_SessionID e = Some s /\ core_leases c !! exec_LeaseID e = Some l /\
    core_agents c !! exec_AgentWorkspaceID e = Some a /\ session_LeaseID s = exec_LeaseID e /\
    lease_SessionID l = exec_SessionID e /\ lease_AgentWorkspaceID l = exec_AgentWorkspaceID e /\
    agent_SessionID a = exec_SessionID e /\ hasAgentGeneration a (exec_AgentGeneration e) = true.

Definition run_refs c (t : TargetRecord) (r : TargetRunRecord) : Prop :=
  exists a, core_agents c !! run_AgentWorkspaceID r = Some a /\ agent_SessionID a = target_SessionID t /\
    hasAgentGeneration a (run_AgentGeneration r) = true.

Definition target_refs c (t : TargetRecord) : Prop :=
  (exists s l, core_sessions c !! target_SessionID t = Some s /\ core_leases c !! target_LeaseID t = Some l /\
    session_LeaseID s = target_LeaseID t /\ lease_SessionID l = target_SessionID t) /\
  forall r, r ∈ target_Runs t -> run_refs c t r.

Definition incident_refs c (i : IncidentRecord) : Prop :=
  (exists s, core_sessions c !! inc_SessionID i = Some s) /\
  (inc_ExecID i <> "" -> exists e, core_execs c !! inc_ExecID i = Some e /\
     exec_SessionID e = inc_SessionID i /\ exec_LeaseID e = inc_LeaseID i) /\
  (inc_TargetID i <> "" -> exists t, core_targets c !! inc_TargetID i = Some t /\
     target_SessionID t = inc_SessionID i /\
     (inc_TargetRunID i <> "" -> exists r, r ∈ target_Runs t /\ run_ID r = inc_TargetRunID i /\
        run_Generation r = inc_TargetGeneration i)).

(** ** Shape of the nested records *)
Definition numbered {T} (generation : T -> N) (current : N) (l : list T) : Prop :=
  N.of_nat (length l) = current /\ (0 < current)%N /\
  forall i g, l !! i = Some g -> generation g = N.of_nat (i + 1).

Definition agent_shape (a : AgentWorkspaceRecord) : Prop :=
  numbered agen_Generation (agent_CurrentGeneration a) (agent_Generations a).

Definition target_shape (t : TargetRecord) : Prop :=
  numbered tgen_Generation (target_CurrentGeneration t) (target_Generations t) /\
  NoDup (run_ID <$> target_Runs t) /\ NoDup (op_ID <$> target_Operations t) /\
  (forall r, r ∈ target_Runs t -> (0 < run_Generation r <= target_CurrentGeneration t)%N) /\
  (forall o, o ∈ target_Operations t -> exists r, r ∈ target_Runs t /\ run_ID r = op_RunID o /\
     run_Generation r = op_Generation o).

(** A lease is never ahead of the workspace of its session, and at most one
    generation behind. *)
Definition generation_gap c : Prop := forall k l a,
  core_leases c !! k = Some l -> core_agents c !! lease_AgentWorkspaceID l = Some a ->
  agent_SessionID a = lease_SessionID l ->
  (lease_AgentGeneration l <= agent_CurrentGeneration a <= lease_AgentGeneration l + 1)%N.

Record core_ok c : Prop := {
  co_keyed : core_keyed c;
  co_leases : map_Forall (fun _ => lease_refs c) (core_leases c);
  co_agents : map_Forall (fun _ => agent_refs c) (core_agents c);
  co_execs : map_Forall (fun _ => exec_refs c) (core_execs c);
  co_targets : map_Forall (fun _ => target_refs c) (core_targets c);
  co_incidents : map_Forall (fun _ => incident_refs c) (core_incidents c);
  co_agent_shape : map_Forall (fun _ => agent_shape) (core_agents c);
  co_target_shape : map_Forall (fun _ => target_shape) (core_targets c);
  co_gap : generation_gap c }.

(** ** References survive later rows *)
Lemma has_generation_adv a a' n :
  agent_adv a a' -> hasAgentGeneration a n = true -> hasAgentGeneration a' n = true.
Proof.
  intros A. unfold hasAgentGeneration. rewrite !andb_true_iff. intros [[P L] G].
  destruct (agent_Generations a !! N.to_nat (n - 1)) as [g|] eqn:Hg; [|done].
  destruct (wa_Generations _ _ A _ _ Hg) as (g' & Hg' & Ag). rewrite Hg', (ga_Generation _ _ Ag).
  apply lookup_lt_Some in Hg'. to_prop. repeat split; [lia|lia|done].
Qed.

Lemma lease_refs_later c c' l : core_le c c' -> lease_refs c l -> lease_refs c' l.
Proof.
  intros M (s & Ls & ?). apply (cl_sessions _ _ M) in Ls as (s' & Ls' & []).
  exists s'. split; [done|]. intuition congruence.
Qed.
Lemma agent_refs_later c c' a : core_le c c' -> agent_refs c a -> agent_refs c' a.
Proof.
  intros M (s & l & Ls & ? & Ll & ? & ?). apply (cl_sessions _ _ M) in Ls as (s' & Ls' & []).
  apply (cl_leases _ _ M) in Ll as (l' & Ll' & []). exists s', l'. intuition congruence.
Qed.
Lemma exec_refs_later c c' e : core_le c c' -> exec_refs c e -> exec_refs c' e.
Proof.
  intros M (s & l & a & Ls & Ll & La & ? & ? & ? & ? & G).
  apply (cl_sessions _ _ M) in Ls as (s' & Ls' & []).
  apply (cl_leases _ _ M) in Ll as (l' & Ll' & []).
  apply (cl_agents _ _ M) in La as (a' & La' & A). pose proof (has_generation_adv _ _ _ A G).
  destruct A. exists s', l', a'. intuition congruence.
Qed.
Lemma run_refs_later c c' t r : core_le c c' -> run_refs c t r -> run_refs c' t r.
Proof.
  intros M (a & La & ? & G). apply (cl_agents _ _ M) in La as (a' & La' & A).
  pose proof (has_generation_adv _ _ _ A G). destruct A. exists a'. intuition congruence.
Qed.
Lemma target_refs_later c c' t : core_le c c' -> target_refs c t -> target_refs c' t.
Proof.
  intros M [(s & l & Ls & Ll & ? & ?) Rr]. split.
  - apply (cl_sessions _ _ M) in Ls as (s' & Ls' & []).
    apply (cl_leases _ _ M) in Ll as (l' & Ll' & []). exists s', l'. intuition congruence.
  - intros r Hr. by eapply run_refs_later, Rr.
Qed.
Lemma incident_refs_later c c' i : core_le c c' -> incident_refs c i -> incident_refs c' i.
Proof.
  intros M ((s & Ls) & Le & Lt). split; [|split].
  - apply (cl_sessions _ _ M) in Ls as (s' & Ls' & _). eauto.
  - intros N. destruct (Le N) as (e & He & ?). apply (cl_execs _ _ M) in He as (e' & He' & []).
    exists e'. intuition congruence.
  - intros N. destruct (Lt N) as (t & Ht & ? & Rr). apply (cl_targets _ _ M) in Ht as (t' & Ht' & T).
    exists t'. split; [done|]. split; [destruct T; congruence|]. intros N2.
    destruct (Rr N2) as (r & Hr & ? & ?). destruct (da_Runs _ _ T _ Hr) as (r' & Hr' & []).
    exists r'. split; [done|]. split; congruence.
Qed.

(** ** What validation establishes *)
Lemma lease_validated c v : validateReplayLeaseProjection c v = Ok tt -> lease_refs c v.
Proof.
  unfold validateReplayLeaseProjection. intros E. inv_res E.
  destruct (core_sessions c !! lease_SessionID v) as [s|] eqn:L; [|done].
  exists s. split; [done|]. to_prop. intuition.
Qed.

Lemma agent_validated c v : validateReplayAgentWorkspaceProjection c v = Ok tt -> agent_refs c v.
Proof.
  unfold validateReplayAgentWorkspaceProjection. intros E. inv_res E. to_prop. destruct_and!.
  eexists _, _. eauto 8.
Qed.

Lemma exec_validated c v : validateReplayExecProjection c v = Ok tt -> exec_refs c v.
Proof.
  unfold validateReplayExecProjection. intros E. inv_res E.
  destruct (core_sessions c !! exec_SessionID v) as [s|] eqn:Ls; [|done].
  destruct (core_leases c !! exec_LeaseID v) as [l|] eqn:Ll; [|done].
  destruct (core_agents c !! exec_AgentWorkspaceID v) as [a|] eqn:La; [|done].
  to_prop. destruct_and!. exists s, l, a. auto 10.
Qed.

Lemma target_validated c v : validateReplayTargetProjection c v = Ok tt -> target_refs c v.
Proof.
  unfold validateReplayTargetProjection. intros E. inv_res E.
  destruct (core_sessions c !! target_SessionID v) as [s|] eqn:Ls; [|done].
  destruct (core_leases c !! target_LeaseID v) as [l|] eqn:Ll; [|done].
  split; [to_prop; destruct_and!; exists s, l; auto|].
  match goal with G : res_each (validateReplayRunLinks c v) _ _ = Ok ?u |- _ =>
    destruct u; rename G into Lk end.
  rewrite res_each_ok in Lk. intros r Hr. apply list_elem_of_lookup in Hr as [i Hr].
  specialize (Lk _ _ Hr). unfold validateReplayRunLinks in Lk. inv_res Lk.
  destruct (core_agents c !! run_AgentWorkspaceID r) as [a|] eqn:La; [|done].
  exists a. to_prop. tauto.
Qed.

Lemma run_by_id t id r : targetRunByID t id = Some r -> r ∈ target_Runs t /\ run_ID r = id.
Proof.
  unfold targetRunByID. intros F. apply List.find_some in F as [I E]. to_prop.
  split; [by apply list_elem_of_In|done].
Qed.

Lemma incident_validated c v : validateReplayIncidentProjection c v = Ok tt -> incident_refs c v.
Proof.
  unfold validateReplayIncidentProjection. intros E. inv_res E.
  unfold unless_blank in *. split; [eauto|]. split; intros N.
  - rewrite (bool_decide_false (inc_ExecID v = "")) in * by done. cbn [orb] in *.
    destruct (core_execs c !! inc_ExecID v) as [e|]; [|done]. exists e. to_prop. tauto.
  - rewrite (bool_decide_false (inc_TargetID v = "")) in * by done.
    match goal with G : (_ ≫= _) = Ok _ |- _ => inv_res G end.
    eexists. split; [eassumption|]. split; [to_prop; tauto|]. intros N2.
    rewrite (bool_decide_false (inc_TargetRunID v = "")) in * by done. cbn [orb] in *.
    match goal with G : match targetRunByID ?t _ with _ => _ end = true |- _ =>
      destruct (targetRunByID t (inc_TargetRunID v)) as [r|] eqn:F; [|done] end.
    apply run_by_id in F as [? ?]. exists r. to_prop. tauto.
Qed.

Lemma generation_sequence {T} field current (l : list T) generation validate u :
  validateGenerationSequence field current l generation validate = Ok u ->
  numbered generation current l.
Proof.
  unfold validateGenerationSequence. intros E. inv_res E. destruct u. rewrite res_each_ok in E.
  to_prop. split; [tauto|]. split; [lia|]. intros i g Hg. specialize (E _ _ Hg). inv_res E.
  to_prop. by rewrite E1.
Qed.

Lemma agent_self_validated v u : validateReplayAgentWorkspace v = Ok u -> agent_shape v.
Proof. unfold validateReplayAgentWorkspace. intros E. inv_res E. by eapply generation_sequence. Qed.

(** A loop that remembers identities accepts only distinct ones. *)
Lemma remembered_NoDup {T} (ids : T -> string) (l : list T) :
  (forall i x, l !! i = Some x -> ids x ∉ ids <$> take i l) -> NoDup (ids <$> l).
Proof.
  intros F. induction l as [|x l IH] using rev_ind; [constructor|]. rewrite fmap_app.
  apply NoDup_app. split; [|split; [|apply NoDup_singleton]].
  - apply IH. intros i y Hy. specialize (F i y). rewrite take_app_le in F
      by (apply lookup_lt_Some in Hy; lia). apply F. by apply lookup_app_l_Some.
  - intros id Hid Hx. apply list_elem_of_singleton in Hx as ->.
    specialize (F (length l) x). rewrite take_app_length in F. apply F; [|done].
    by apply list_lookup_middle.
Qed.

Lemma target_self_validated v u : validateReplayTarget v = Ok u -> target_shape v.
Proof.
  unfold validateReplayTarget. intros E. inv_res E. destruct u.
  match goal with G : validateGenerationSequence _ _ _ _ _ = Ok _ |- _ => apply generation_sequence in G end.
  match goal with G : res_each (validateReplayRun v _ _) _ _ = Ok ?u |- _ => destruct u; rename G into Er end.
  rewrite res_each_ok in Er. rewrite res_each_ok in E. split; [done|].
  assert (Rr : forall i r, target_Runs v !! i = Some r ->
    run_ID r ∉ run_ID <$> take i (target_Runs v) /\ (0 < run_Generation r <= target_CurrentGeneration v)%N).
  { intros i r Hr. specialize (Er _ _ Hr). unfold validateReplayRun, rememberPersistedID in Er.
    inv_res Er. to_prop. split; [done|]. lia. }
  assert (Ro : forall i o, target_Operations v !! i = Some o ->
    op_ID o ∉ op_ID <$> take i (target_Operations v) /\
    exists r, r ∈ target_Runs v /\ run_ID r = op_RunID o /\ run_Generation r = op_Generation o).
  { intros i o Ho. specialize (E _ _ Ho). unfold validateReplayOperation, rememberPersistedID in E.
    inv_res E. to_prop. split; [done|].
    destruct (targetRunByID v (op_RunID o)) as [r|] eqn:F; [|done]. apply run_by_id in F as [? ?].
    exists r. to_prop. auto. }
  split; [apply remembered_NoDup; intros; by eapply Rr|].
  split; [apply remembered_NoDup; intros; by eapply Ro|].
  split; [intros r Hr|intros o Ho];
    match goal with G : _ ∈ _ |- _ => apply list_elem_of_lookup in G as [i G] end;
    [by eapply Rr|by eapply Ro].
Qed.

(** ** Preservation *)
Lemma map_Forall_insert_later {V} (Q Q' : V -> Prop) (m : gmap string V) k v :
  (forall u, Q u -> Q' u) -> map_Forall (fun _ => Q) m -> Q' v ->
  map_Forall (fun _ => Q') (<[k := v]> m).
Proof.
  intros I A Qv j u. destruct (decide (j = k)) as [->|N].
  - rewrite lookup_insert_eq. by intros [= <-].
  - rewrite lookup_insert_ne by done. intros L. by eapply I, A.
Qed.
Lemma map_Forall_later {V} (Q Q' : V -> Prop) (m : gmap string V) :
  (forall u, Q u -> Q' u) -> map_Forall (fun _ => Q) m -> map_Forall (fun _ => Q') m.
Proof. intros I A j u L. by eapply I, A. Qed.

Lemma gap_lease c v :
  core_ok c -> validateReplayLeaseProjection c v = Ok tt ->
  generation_gap (c <| core_leases := <[lease_ID v := v]> (core_leases c) |>).
Proof.
  intros O V k l a. cbn. destruct (decide (k = lease_ID v)) as [->|N]; [|rewrite lookup_insert_ne by done; apply O].
  rewrite lookup_insert_eq. intros [= <-] La Sa.
  assert (lease_AgentGeneration v <= agent_CurrentGeneration a)%N as Lo.
  { unfold validateReplayLeaseProjection in V. inv_res V. rewrite La, check_ok in V. to_prop. tauto. }
  split; [done|].
  destruct (core_leases c !! lease_ID v) as [p|] eqn:Lp.
  - pose proof (lease_step _ _ _ (co_keyed _ O) V Lp) as [].
    pose proof (co_gap _ O _ p a Lp ltac:(congruence) ltac:(congruence)). lia.
  - exfalso. apply lease_validated in V as (s & Ls & Es & _).
    destruct (co_agents _ O _ _ La) as (s' & l' & Ls' & _ & Ll & _). congruence.
Qed.

Lemma gap_agent c v :
  core_ok c -> validateReplayAgentWorkspaceProjection c v = Ok tt ->
  generation_gap (c <| core_agents := <[agent_ID v := v]> (core_agents c) |>).
Proof.
  intros O V k l a. cbn. intros Ll.
  destruct (decide (lease_AgentWorkspaceID l = agent_ID v)) as [E|N].
  2: { rewrite lookup_insert_ne by done. by apply (co_gap _ O k). }
  rewrite E, lookup_insert_eq. intros [= <-] Sa.
  pose proof (ck_leases _ (co_keyed _ O) _ _ Ll) as Ek.
  destruct (co_leases _ O _ _ Ll) as (s & Ls & Es & _).
  unfold validateReplayAgentWorkspaceProjection in V. inv_res V.
  assert (x0 = s) as -> by congruence. assert (x1 = l) as -> by congruence. to_prop. lia.
Qed.

Lemma apply_core_ok c r c' : core_ok c -> apply c r = Ok c' -> core_ok c'.
Proof.
  intros O A. pose proof (apply_le _ _ _ (co_keyed _ O) A) as Le.
  pose proof (apply_keyed _ _ _ (co_keyed _ O) A) as K.
  apply apply_inv in A. pose proof O as [_ Ol Oa Oe Ot Oi Sa St G].
  destruct A as [v _ _ _ V|v _ _ _ V|v _ _ _ V|v _ _ _ V|v _ _ _ V|v _ _ _ V];
    (split; [exact K|..|try exact G]); cbn [core_leases core_agents core_execs core_targets core_incidents set];
    try exact Sa; try exact St;
    try (eapply map_Forall_later; [intros u; first
      [by apply lease_refs_later|by apply agent_refs_later|by apply exec_refs_later
      |by apply target_refs_later|by apply incident_refs_later]|done]).
  - eapply map_Forall_insert_later; [intros u; by apply lease_refs_later|done|].
    by eapply lease_refs_later, lease_validated.
  - by apply gap_lease.
  - eapply map_Forall_insert_later; [intros u; by apply agent_refs_later|done|].
    by eapply agent_refs_later, agent_validated.
  - eapply map_Forall_insert_later; [intros u Q; exact Q|done|].
    unfold validateReplayAgentWorkspaceProjection in V. inv_res V. by eapply agent_self_validated.
  - by apply gap_agent.
  - eapply map_Forall_insert_later; [intros u; by apply exec_refs_later|done|].
    by eapply exec_refs_later, exec_validated.
  - eapply map_Forall_insert_later; [intros u; by apply target_refs_later|done|].
    by eapply target_refs_later, target_validated.
  - eapply map_Forall_insert_later; [intros u Q; exact Q|done|].
    unfold validateReplayTargetProjection in V. inv_res V. by eapply target_self_validated.
  - eapply map_Forall_insert_later; [intros u; by apply incident_refs_later|done|].
    by eapply incident_refs_later, incident_validated.
Qed.

Lemma empty_core_ok : core_ok empty_core.
Proof. split; [apply empty_keyed|done..]. Qed.

Lemma apply_batch_core_ok rows c r c' : core_ok c -> apply_batch rows c = (r, c') -> core_ok c'.
Proof.
  revert c. induction rows as [|x rows IH]; intros c O; cbn [apply_batch].
  - by intros [= _ <-].
  - destruct (apply c x) as [c1|e] eqn:A; [|by intros [= _ <-]].
    intros E. eapply IH; [|exact E]. pose proof (apply_core_ok _ _ _ O A) as [[] ? ? ? ? ? ? ? ?].
    by split.
Qed.
