(* ===== verification/Sessions.v ===== *)
(** * Sessions, leases and agent generations

    [internal/application/sessions.go], the retirement paths of [core.go] and
    [agent_plan_binding.go]; then the execs of [execs.go]. *)
From S2P Require Import Prelude Errors Sha256 GoStrings States Values Ids Idempotency Models Records Store Requests.
From S2P Require Import Machine Replay Sync.
Definition decode_response {T} (decode : response -> option T) (r : response) : M T :=
  lift (from_option_err (ErrText "json: cannot unmarshal") (decode r)).

(** [list[i] = x] through a pointer into the slice. *)
Definition put_agen (agent : AgentWorkspaceRecord) (i : nat) (g : AgentGenerationRecord)
  : AgentWorkspaceRecord := agent <| agent_Generations := <[i := g]> (agent_Generations agent) |>.
Definition put_tgen (target : TargetRecord) (i : nat) (g : TargetGenerationRecord) : TargetRecord :=
  target <| target_Generations := <[i := g]> (target_Generations target) |>.

(** [x.State, x.Revision, x.UpdatedAt = state, x.Revision+1, now] *)
Definition move_agen (g : AgentGenerationRecord) (state : AgentGenerationState) (now : time) :=
  g <| agen_State := state |> <| agen_Revision := u64 (agen_Revision g + 1) |> <| agen_UpdatedAt := now |>.
Definition move_tgen (g : TargetGenerationRecord) (state : TargetGenerationState) (now : time) :=
  g <| tgen_State := state |> <| tgen_Revision := u64 (tgen_Revision g + 1) |> <| tgen_UpdatedAt := now |>.
(** [x.Revision++; x.UpdatedAt = now] *)
Definition bump_agent (agent : AgentWorkspaceRecord) (now : time) : AgentWorkspaceRecord :=
  agent <| agent_Revision := u64 (agent_Revision agent + 1) |> <| agent_UpdatedAt := now |>.
Definition bump_target (target : TargetRecord) (now : time) : TargetRecord :=
  target <| target_Revision := u64 (target_Revision target + 1) |> <| target_UpdatedAt := now |>.

(** [targetGenerationRetirementPath], [agentGenerationRetirementPath] *)
Definition targetGenerationRetirementPath (state : TargetGenerationState)
  : result (list TargetGenerationState) :=
  match state with
  | TargetGenerationReady => Ok [TargetGenerationResettable; TargetGenerationDestroyed]
  | TargetGenerationResettable => Ok [TargetGenerationDestroyed]
  | TargetGenerationProvisioning | TargetGenerationInstrumenting => Ok [TargetGenerationFailed]
  | TargetGenerationDestroyed | TargetGenerationFailed | TargetGenerationQuarantined
  | TargetGenerationLost => Ok []
  | _ => Err (failedPrecondition "target_generation.retire" "state")
  end.
Definition agentGenerationRetirementPath (state : AgentGenerationState)
  : result (list AgentGenerationState) :=
  match state with
  | AgentGenerationReady | AgentGenerationRunning => Ok [AgentGenerationQuiescing; AgentGenerationSealed]
  | AgentGenerationQuiescing => Ok [AgentGenerationSealed]
  | AgentGenerationProvisioning | AgentGenerationBooting => Ok [AgentGenerationFailed]
  | AgentGenerationSealed | AgentGenerationFailed | AgentGenerationQuarantined
  | AgentGenerationLost => Ok []
  | _ => Err (failedPrecondition "agent_generation.retire" "state")
  end.

Section Sessions.
Context `{Env}.

(** [appendTargetGenerationTransitions], [appendAgentGenerationTransitions]:
    one revision of the aggregate per state of the path; [i] is the position
    of the generation pointed to. *)
Fixpoint appendTargetGenerationTransitions (target : TargetRecord) (i : nat)
    (generation : TargetGenerationRecord) (states : list TargetGenerationState)
    (eventKind : string) (at_ : time) : M TargetRecord :=
  match states with
  | [] => mret target
  | next :: rest =>
      _ ← lift (RequireTargetGenerationTransition (tgen_State generation) next);
      let generation := move_tgen generation next at_ in
      let target := bump_target (put_tgen target i generation) at_ in
      _ ← appendControl "target" (target_ID target) eventKind (target_Revision target) (PTarget target);
      appendTargetGenerationTransitions target i generation rest eventKind at_
  end.
Fixpoint appendAgentGenerationTransitions (agent : AgentWorkspaceRecord) (i : nat)
    (generation : AgentGenerationRecord) (states : list AgentGenerationState)
    (eventKind : string) (at_ : time) : M AgentWorkspaceRecord :=
  match states with
  | [] => mret agent
  | next :: rest =>
      _ ← lift (RequireAgentGenerationTransition (agen_State generation) next);
      let generation := move_agen generation next at_ in
      let agent := bump_agent (put_agen agent i generation) at_ in
      _ ← appendControl "agent_workspace" (agent_ID agent) eventKind (agent_Revision agent) (PAgent agent);
      appendAgentGenerationTransitions agent i generation rest eventKind at_
  end.

(** ** [AcquireResearchSession] *)
Definition acquire_handler (request : AcquireRequest) (inputViewID policyDigest capabilityDigest : list N)
  : M response :=
  now ← clock;
  sessionID ← newID;
  leaseID ← newID;
  agentID ← newID;
  workspaceID ← newID;
  sessionModel ← lift (Domain.NewResearchSession sessionID now);
  let session := mkSessionRecord (id_String prefix_researchSession sessionID) (acq_OwnerSubject request)
    (meta_IdempotencyKey (acq_Meta request)) (Domain.rs_state sessionModel)
    (Domain.rs_revision sessionModel) (id_String prefix_lease leaseID)
    (id_String prefix_agentWorkspace agentID) (acq_InputViewID request) (acq_PolicyDigest request)
    (acq_CapabilityDigest request) now now in
  _ ← appendControl "session" (session_ID session) "session.requested" (session_Revision session) (PSession session);
  sessionModel ← lift (Domain.ResearchSession_Transition sessionModel ResearchSessionAdmitted
                         (Domain.rs_revision sessionModel) now);
  let session := session <| session_State := Domain.rs_state sessionModel |>
                   <| session_Revision := Domain.rs_revision sessionModel |> in
  _ ← appendControl "session" (session_ID session) "session.admitted" (session_Revision session) (PSession session);
  sessionModel ← lift (Domain.ResearchSession_Transition sessionModel ResearchSessionLeased
                         (Domain.rs_revision sessionModel) now);
  let session := session <| session_State := Domain.rs_state sessionModel |>
                   <| session_Revision := Domain.rs_revision sessionModel |> in
  _ ← appendControl "session" (session_ID session) "session.leased" (session_Revision session) (PSession session);
  leaseModel ← lift (Domain.NewLease (Domain.mkLeaseSpec leaseID sessionID agentID
                 InitialAgentGeneration inputViewID policyDigest capabilityDigest
                 (time_Add now (acq_TTL request)) now));
  let lease := mkLeaseRecord (id_String prefix_lease leaseID) (session_ID session)
    (id_String prefix_agentWorkspace agentID) 1 (acq_InputViewID request) (acq_PolicyDigest request)
    (acq_CapabilityDigest request) (Domain.l_state leaseModel) (Domain.l_revision leaseModel)
    (Domain.ls_ExpiresAt (Domain.l_spec leaseModel)) zero_termination now now in
  _ ← appendControl "lease" (lease_ID lease) "lease.created" (lease_Revision lease) (PLease lease);
  agentModel ← lift (Domain.NewAgentWorkspace agentID sessionID InitialAgentGeneration now);
  generationModel ← lift (Domain.NewAgentWorkspaceGeneration (Domain.mkAgentWorkspaceGenerationSpec
    agentID InitialAgentGeneration workspaceID inputViewID policyDigest capabilityDigest 0 zero_uuid now));
  let generation := mkAgentGenerationRecord 1 (id_String prefix_workspace workspaceID)
    (acq_InputViewID request) (acq_PolicyDigest request) (acq_CapabilityDigest request) "" "" "" 0 ""
    (Domain.ag_state generationModel) (Domain.ag_revision generationModel) now now in
  let agent := mkAgentWorkspaceRecord (id_String prefix_agentWorkspace agentID) (session_ID session) 1
    (Domain.aw_revision agentModel) now now [generation] in
  _ ← appendControl "agent_workspace" (agent_ID agent) "agent_workspace.created" (agent_Revision agent) (PAgent agent);
  mret (RSessionID (session_ID session)).

Definition AcquireResearchSession (ctx : option time) (request : AcquireRequest) : M ResearchSessionView :=
  now ← clock;
  _ ← lift (MutationMeta_Validate (acq_Meta request) ctx now);
  inputViewID ← lift (ParseInputViewID (acq_InputViewID request));
  policyDigest ← lift (ParseDigest (acq_PolicyDigest request));
  capabilityDigest ← lift (ParseDigest (acq_CapabilityDigest request));
  _ ← guard (0 <? acq_TTL request)%Z (invalidArgument "research_session.acquire" "ttl");
  let request := request <| acq_OwnerSubject := TrimSpace (acq_OwnerSubject request) |> in
  _ ← guard (negb (bool_decide (acq_OwnerSubject request = "")))
        (invalidArgument "research_session.acquire" "owner_subject");
  '(r, _) ← RunIdempotent "acquire_research_session" (meta_IdempotencyKey (acq_Meta request))
    (request_bytes (QAcquire (request <| acq_Meta := stableMeta (acq_Meta request) |>)))
    (acquire_handler request inputViewID policyDigest capabilityDigest);
  _ ← syncLocked;
  sessionID ← decode_response (fun r => match r with RSessionID id => Some id | _ => None end) r;
  c ← getCore;
  lift (sessionViewLocked c sessionID).

(** ** [RenewLease] *)
Definition renew_handler (request : RenewLeaseRequest) : M response :=
  c ← getCore;
  lease ← lift (from_option_err ErrNotFound (core_leases c !! renew_LeaseID request));
  _ ← guard (lease_Revision lease =? renew_ExpectedRevision request)%N ErrRevisionConflict;
  at_ ← clock;
  _ ← lift (requireLeaseActive lease at_);
  now ← clock;
  let nextExpiry := time_Add now (renew_TTL request) in
  _ ← guard (time_After nextExpiry (lease_ExpiresAt lease)) (invalidArgument "lease.renew" "ttl");
  let lease := lease <| lease_Revision := u64 (lease_Revision lease + 1) |>
                 <| lease_ExpiresAt := nextExpiry |> <| lease_UpdatedAt := now |> in
  _ ← appendControl "lease" (lease_ID lease) "lease.renewed" (lease_Revision lease) (PLease lease);
  mret (RLease lease).

Definition RenewLease (ctx : option time) (request : RenewLeaseRequest) : M LeaseRecord :=
  now ← clock;
  _ ← lift (MutationMeta_Validate (renew_Meta request) ctx now);
  _ ← lift (parseID prefix_lease (renew_LeaseID request));
  _ ← guard (0 <? renew_TTL request)%Z (invalidArgument "lease.renew" "ttl");
  _ ← syncLocked;
  '(r, _) ← RunIdempotent "renew_lease" (meta_IdempotencyKey (renew_Meta request))
    (request_bytes (QRenewLease (request <| renew_Meta := stableMeta (renew_Meta request) |>)))
    (renew_handler request);
  _ ← syncLocked;
  decode_response (fun r => match r with RLease v => Some v | _ => None end) r.

(** ** [TransitionAgentGeneration] *)
Definition transition_agent_handler (request : TransitionAgentRequest) : M response :=
  c ← getCore;
  agent ← lift (from_option_err ErrNotFound (core_agents c !! tagent_AgentWorkspaceID request));
  '(i, generation) ← lift (findAgentGeneration agent (tagent_Generation request));
  _ ← guard (agen_Revision generation =? tagent_ExpectedRevision request)%N ErrRevisionConflict;
  _ ← lift (RequireAgentGenerationTransition (agen_State generation) (tagent_State request));
  _ ← (if bool_decide (tagent_State request = AgentGenerationQuiescing)
       then lift (requireAgentGenerationIdle c (agent_ID agent) (agen_Generation generation))
       else mret tt);
  now ← clock;
  let generation := move_agen generation (tagent_State request) now in
  let agent := bump_agent (put_agen agent i generation) (agen_UpdatedAt generation) in
  _ ← appendControl "agent_workspace" (agent_ID agent) "agent_generation.transitioned"
        (agent_Revision agent) (PAgent agent);
  mret (RAgent agent).

Definition TransitionAgentGeneration (ctx : option time) (request : TransitionAgentRequest)
  : M AgentWorkspaceRecord :=
  now ← clock;
  _ ← lift (MutationMeta_Validate (tagent_Meta request) ctx now);
  _ ← syncLocked;
  '(r, _) ← RunIdempotent "transition_agent_generation" (meta_IdempotencyKey (tagent_Meta request))
    (request_bytes (QTransitionAgent (request <| tagent_Meta := stableMeta (tagent_Meta request) |>)))
    (transition_agent_handler request);
  _ ← syncLocked;
  decode_response (fun r => match r with RAgent v => Some v | _ => None end) r.

(** ** [BindAgentGenerationPlan] *)
Definition bind_agent_handler (request : BindAgentGenerationPlanRequest) : M response :=
  let operation := "agent_generation.bind_plan" in
  c ← getCore;
  agent ← lift (from_option_err ErrNotFound (core_agents c !! bagent_AgentWorkspaceID request));
  _ ← guard (agent_CurrentGeneration agent =? bagent_Generation request)%N
        (failedPrecondition operation "generation");
  '(i, generation) ← lift (findAgentGeneration agent (bagent_Generation request));
  _ ← guard (agen_Revision generation =? bagent_ExpectedRevision request)%N ErrRevisionConflict;
  _ ← guard (bool_decide (agen_State generation = AgentGenerationProvisioning))
        (failedPrecondition operation "state");
  _ ← guard (agentProvisioningBindingEmpty generation) ErrIdempotencyConflict;
  session ← lift (from_option_err ErrNotFound (core_sessions c !! agent_SessionID agent));
  lease ← lift (from_option_err ErrScope (core_leases c !! session_LeaseID session));
  _ ← guard (bool_decide (lease_AgentWorkspaceID lease = agent_ID agent)
             && (lease_AgentGeneration lease =? agen_Generation generation)%N) ErrScope;
  at_ ← clock;
  _ ← lift (requireLeaseActive lease at_);
  now ← clock;
  let generation := generation
        <| agen_ProvisioningPlanDigest := bagent_ProvisioningPlanDigest request |>
        <| agen_WorkspaceProvisioningKey := bagent_WorkspaceProvisioningKey request |>
        <| agen_AgentProvisioningKey := bagent_AgentProvisioningKey request |>
        <| agen_Revision := u64 (agen_Revision generation + 1) |>
        <| agen_UpdatedAt := now |> in
  let agent := bump_agent (put_agen agent i generation) now in
  _ ← appendControl "agent_workspace" (agent_ID agent) "agent_generation.plan_bound"
        (agent_Revision agent) (PAgent agent);
  mret (RAgent agent).

Definition BindAgentGenerationPlan (ctx : option time) (request : BindAgentGenerationPlanRequest)
  : M AgentWorkspaceRecord :=
  let operation := "agent_generation.bind_plan" in
  now ← clock;
  _ ← lift (MutationMeta_Validate (bagent_Meta request) ctx now);
  _ ← lift (parseID prefix_agentWorkspace (bagent_AgentWorkspaceID request));
  _ ← guard (negb (negb (AgentGeneration_IsValid (bagent_Generation request))
                   || (bagent_ExpectedRevision request =? 0)%N)) (invalidArgument operation "generation");
  _ ← guard (is_ok (ParseDigest (bagent_ProvisioningPlanDigest request)))
        (invalidArgument operation "provisioning_plan_digest");
  _ ← guard (IsCanonicalIdempotencyKey (bagent_WorkspaceProvisioningKey request)
             && IsCanonicalIdempotencyKey (bagent_AgentProvisioningKey request))
        (invalidArgument operation "provisioning_key");
  _ ← syncLocked;
  '(r, _) ← RunIdempotent "bind_agent_generation_plan" (meta_IdempotencyKey (bagent_Meta request))
    (request_bytes (QBindAgentPlan (request <| bagent_Meta := stableMeta (bagent_Meta request) |>)))
    (bind_agent_handler request);
  _ ← syncLocked;
  decode_response (fun r => match r with RAgent v => Some v | _ => None end) r.
End Sessions.

(** * Execs

    [internal/application/execs.go], with [normalizedNonBlank] and
    [mergedNonBlank] of [incidents.go]. *)
(** The loop keeps the values accepted so far, which are also the [seen] set. *)
Fixpoint normalizedNonBlank_loop (result values : list string) : res err (list string) :=
  match values with
  | [] => Ok (sort_Strings result)
  | value :: rest =>
      let value := TrimSpace value in
      _ ← check (negb (bool_decide (value = ""))) (invalidArgument "normalize_non_blank" "values");
      if bool_decide (value ∈ result) then normalizedNonBlank_loop result rest
      else normalizedNonBlank_loop (result ++ [value]) rest
  end.
Definition normalizedNonBlank (values : list string) : result (list string) :=
  normalizedNonBlank_loop [] values.
Definition mergedNonBlank (current additional : list string) : result (list string) :=
  normalizedNonBlank (current ++ additional).

(** The zero [ExecRecord], what a map lookup of an absent key yields. *)
Definition zero_exec : ExecRecord :=
  mkExecRecord "" "" "" "" 0 (Domain.ExecKindUnrecognized "") "" [] "" (ExecUnrecognized "") 0 None ""
    [] false "" 0 0.

Section Execs.
Context `{Env}.

(** ** [CreateExec] *)
Definition create_exec_handler (request : CreateExecRequest) : M response :=
  let operation := "exec.create" in
  c ← getCore;
  lease ← lift (from_option_err ErrNotFound (core_leases c !! cexec_LeaseID request));
  at_ ← clock;
  _ ← lift (requireLeaseActive lease at_);
  agent ← lift (requireAgentGenerationAcceptingWork c operation (lease_AgentWorkspaceID lease)
                  (lease_AgentGeneration lease));
  execID ← newID;
  now ← clock;
  leaseID ← lift (requireStoredID "lease.id" (lease_ID lease) prefix_lease);
  agentID ← lift (requireStoredID "agent_workspace.id" (agent_ID agent) prefix_agentWorkspace);
  model ← lift (Domain.NewExec (Domain.mkExecSpec execID leaseID agentID (agent_CurrentGeneration agent)
    (cexec_Kind request) (cexec_Executable request) (cexec_Argv request)
    (cexec_WorkingDirectory request) now));
  let execution := mkExecRecord (id_String prefix_exec execID) (lease_SessionID lease) (lease_ID lease)
    (agent_ID agent) (agent_CurrentGeneration agent) (cexec_Kind request) (cexec_Executable request)
    (cexec_Argv request) (cexec_WorkingDirectory request) (Domain.e_state model)
    (Domain.e_revision model) None "" [] false "" now now in
  _ ← appendControl "exec" (exec_ID execution) "exec.requested" (exec_Revision execution) (PExec execution);
  mret (RExecID (exec_ID execution)).

Definition CreateExec (ctx : option time) (request : CreateExecRequest) : M ExecRecord :=
  let operation := "exec.create" in
  now ← clock;
  _ ← lift (MutationMeta_Validate (cexec_Meta request) ctx now);
  _ ← lift (parseID prefix_lease (cexec_LeaseID request));
  _ ← guard (Domain.ExecKind_IsValid (cexec_Kind request)) (invalidArgument operation "kind");
  let request := if bool_decide (cexec_WorkingDirectory request = "")
                 then request <| cexec_WorkingDirectory := "." |> else request in
  _ ← lift (validateExecCommand (cexec_Executable request) (cexec_Argv request)
              (cexec_WorkingDirectory request));
  _ ← syncLocked;
  '(r, _) ← RunIdempotent "create_exec" (meta_IdempotencyKey (cexec_Meta request))
    (request_bytes (QCreateExec (request <| cexec_Meta := stableMeta (cexec_Meta request) |>)))
    (create_exec_handler request);
  _ ← syncLocked;
  execID ← decode_response (fun r => match r with RExecID id => Some id | _ => None end) r;
  c ← getCore;
  mret (default zero_exec (core_execs c !! execID)).

(** ** [mutateExec] *)
Definition mutate_exec_handler (execID : string) (requireActiveLease : bool)
    (mutate : ExecRecord -> M (ExecRecord * string)) : M response :=
  c ← getCore;
  execution ← lift (from_option_err ErrNotFound (core_execs c !! execID));
  _ ← (if requireActiveLease then
         lease ← lift (from_option_err ErrNotFound (core_leases c !! exec_LeaseID execution));
         at_ ← clock;
         lift (requireLeaseActive lease at_)
       else mret tt);
  '(execution, event) ← mutate execution;
  _ ← appendControl "exec" (exec_ID execution) event (exec_Revision execution) (PExec execution);
  mret (RExec execution).

Definition mutateExec (namespace : string) (meta : MutationMeta) (request : request) (execID : string)
    (requireActiveLease : bool) (mutate : ExecRecord -> M (ExecRecord * string)) : M ExecRecord :=
  _ ← syncLocked;
  '(r, _) ← RunIdempotent namespace (meta_IdempotencyKey meta) (request_bytes request)
    (mutate_exec_handler execID requireActiveLease mutate);
  _ ← syncLocked;
  decode_response (fun r => match r with RExec v => Some v | _ => None end) r.

(** ** [TransitionExec] *)
Definition start_exec_generation (c : Core) (execution : ExecRecord) (now : time) : M unit :=
  let operation := "exec.transition" in
  agent ← lift (from_option_err ErrNotFound (core_agents c !! exec_AgentWorkspaceID execution));
  '(i, generation) ← lift (findAgentGeneration agent (exec_AgentGeneration execution));
  if bool_decide (agen_State generation = AgentGenerationReady) then
    _ ← lift (RequireAgentGenerationTransition (agen_State generation) AgentGenerationRunning);
    let generation := move_agen generation AgentGenerationRunning now in
    let agent := bump_agent (put_agen agent i generation) now in
    appendControl "agent_workspace" (agent_ID agent) "agent_generation.exec_started"
      (agent_Revision agent) (PAgent agent)
  else guard (bool_decide (agen_State generation = AgentGenerationRunning))
         (failedPrecondition operation "agent_generation").

Definition transition_exec_mutate (request : TransitionExecRequest) (execution : ExecRecord)
  : M (ExecRecord * string) :=
  c ← getCore;
  _ ← guard (exec_Revision execution =? texec_ExpectedRevision request)%N ErrRevisionConflict;
  _ ← lift (RequireExecTransition (exec_State execution) (texec_State request));
  now ← clock;
  _ ← (if bool_decide (texec_State request = ExecRunning)
       then start_exec_generation c execution now else mret tt);
  mret (execution <| exec_State := texec_State request |>
          <| exec_Revision := u64 (exec_Revision execution + 1) |>
          <| exec_UpdatedAt := now |>, "exec.transitioned").

Definition TransitionExec (ctx : option time) (request : TransitionExecRequest) : M ExecRecord :=
  now ← clock;
  _ ← lift (MutationMeta_Validate (texec_Meta request) ctx now);
  _ ← lift (parseID prefix_exec (texec_ExecID request));
  _ ← guard (negb (ExecState_Terminal (texec_State request)))
        (failedPrecondition "exec.transition" "state");
  mutateExec "transition_exec" (texec_Meta request)
    (QTransitionExec (request <| texec_Meta := stableMeta (texec_Meta request) |>))
    (texec_ExecID request) true (transition_exec_mutate request).

(** ** [FinalizeExec] *)
Definition finalize_exec_mutate (request : FinalizeExecRequest) (execution : ExecRecord)
  : M (ExecRecord * string) :=
  c ← getCore;
  _ ← guard (exec_Revision execution =? fexec_ExpectedRevision request)%N ErrRevisionConflict;
  _ ← lift (res_each (fun _ incidentID =>
        incident ← from_option_err ErrNotFound (core_incidents c !! incidentID);
        check (negb (negb (bool_decide (inc_SessionID incident = exec_SessionID execution))
                     || negb (bool_decide (inc_ExecID incident = exec_ID execution))
                     || negb (bool_decide (inc_AgentWorkspaceID incident = exec_AgentWorkspaceID execution))
                     || negb (inc_AgentGeneration incident =? exec_AgentGeneration execution)%N))
          ErrScope) 0 (fexec_IncidentIDs request));
  _ ← lift (RequireExecTransition (exec_State execution) (fexec_State request));
  now ← clock;
  incidentIDs ← lift (mergedNonBlank (exec_IncidentIDs execution) (fexec_IncidentIDs request));
  mret (mkExecRecord (exec_ID execution) (exec_SessionID execution) (exec_LeaseID execution)
    (exec_AgentWorkspaceID execution) (exec_AgentGeneration execution) (exec_Kind execution)
    (exec_Executable execution) (exec_Argv execution) (exec_WorkingDirectory execution)
    (fexec_State request) (u64 (exec_Revision execution + 1))
    (match fexec_ExitCode request with Some code => Some code | None => exec_ExitCode execution end)
    (fexec_Signal request) incidentIDs (fexec_CleanupConfirmed request)
    (TrimSpace (fexec_Error request)) (exec_CreatedAt execution) now, "exec.finalized").

Definition FinalizeExec (ctx : option time) (request : FinalizeExecRequest) : M ExecRecord :=
  let operation := "exec.finalize" in
  now ← clock;
  _ ← lift (MutationMeta_Validate (fexec_Meta request) ctx now);
  _ ← lift (parseID prefix_exec (fexec_ExecID request));
  _ ← guard (ExecState_Terminal (fexec_State request)) (invalidArgument operation "state");
  _ ← guard (negb (bool_decide (fexec_State request = ExecCompleted)
                   && incomplete_completion (fexec_ExitCode request) (fexec_CleanupConfirmed request)))
        (invalidArgument operation "terminal");
  _ ← guard (negb ((256 <? slen (fexec_Signal request))%Z || (4096 <? slen (fexec_Error request))%Z))
        (resourceExhausted operation "terminal");
  _ ← lift (res_each (fun _ incidentID => _ ← parseID prefix_incident incidentID; Ok tt) 0
              (fexec_IncidentIDs request));
  incidentIDs ← lift (normalizedNonBlank (fexec_IncidentIDs request));
  let request := request <| fexec_IncidentIDs := incidentIDs |> in
  mutateExec "finalize_exec" (fexec_Meta request)
    (QFinalizeExec (request <| fexec_Meta := stableMeta (fexec_Meta request) |>))
    (fexec_ExecID request) false (finalize_exec_mutate request).
End Execs.
