(* ===== verification/Targets.v ===== *)
(** * Targets, runs and target operations

    [internal/application/targets.go], [target_plan_binding.go],
    [target_run_plan_binding.go]. *)
From S2P Require Import Prelude Errors Sha256 GoStrings States Values Ids Idempotency Models Records Store Requests.
From S2P Require Import Machine Replay Sync Sessions.
(** ** Lease modes and pointers into a target's slices *)
Inductive targetLeaseMode := targetLeaseActiveOnly | targetLeaseCleanup.
#[export] Instance targetLeaseMode_eq_dec : EqDecision targetLeaseMode.
Proof. solve_decision. Defined.

Definition requireTargetMutationLease (lease : LeaseRecord) (now : time) (mode : targetLeaseMode)
  : result unit :=
  if bool_decide (mode = targetLeaseCleanup) && LeaseTerminationRecord_InProgress (lease_Termination lease)
  then Ok tt else requireLeaseActive lease now.

Definition put_run (target : TargetRecord) (i : nat) (r : TargetRunRecord) : TargetRecord :=
  target <| target_Runs := <[i := r]> (target_Runs target) |>.
Definition put_operation (target : TargetRecord) (i : nat) (o : TargetOperationRecord) : TargetRecord :=
  target <| target_Operations := <[i := o]> (target_Operations target) |>.

(** [x.State, x.Revision, x.UpdatedAt = state, x.Revision+1, now] *)
Definition move_run (r : TargetRunRecord) (state : TargetRunState) (now : time) :=
  r <| run_State := state |> <| run_Revision := u64 (run_Revision r + 1) |> <| run_UpdatedAt := now |>.
Definition move_operation (o : TargetOperationRecord) (state : TargetOperationState) (now : time) :=
  o <| op_State := state |> <| op_Revision := u64 (op_Revision o + 1) |> <| op_UpdatedAt := now |>.

Definition zero_target : TargetRecord :=
  mkTargetRecord "" "" "" "" "" (Domain.TargetKindUnrecognized "") 0 0 0 0 [] [] [].

Section Targets.
Context `{Env}.

(** ** [mutateTargetJournalWithLeaseMode]: [record] is its closure over the
    detached target. *)
Definition record_target (target : TargetRecord) (event : string) : M TargetRecord :=
  now ← clock;
  let target := bump_target target now in
  _ ← appendControl "target" (target_ID target) event (target_Revision target) (PTarget target);
  mret target.

Definition mutate_target_handler (targetID : string) (leaseMode : targetLeaseMode)
    (mutate : TargetRecord -> M TargetRecord) : M response :=
  c ← getCore;
  target ← lift (from_option_err ErrNotFound (core_targets c !! targetID));
  let lease := default zero_lease (core_leases c !! target_LeaseID target) in
  at_ ← clock;
  _ ← lift (requireTargetMutationLease lease at_ leaseMode);
  target ← mutate target;
  mret (RTarget target).

Definition mutateTargetJournalWithLeaseMode (namespace : string) (meta : MutationMeta)
    (request : request) (targetID : string) (leaseMode : targetLeaseMode)
    (mutate : TargetRecord -> M TargetRecord) : M TargetRecord :=
  _ ← syncLocked;
  '(r, _) ← RunIdempotent namespace (meta_IdempotencyKey meta) (request_bytes request)
    (mutate_target_handler targetID leaseMode mutate);
  _ ← syncLocked;
  decode_response (fun r => match r with RTarget v => Some v | _ => None end) r.

(** [mutateTargetWithLeaseMode]: one event after the mutation.  [mutateTarget]
    and [mutateTargetDuringTermination] fix the mode. *)
Definition mutate_then_record (mutate : TargetRecord -> M (TargetRecord * string))
    (target : TargetRecord) : M TargetRecord :=
  '(target, event) ← mutate target; record_target target event.
Definition mutateTargetWithLeaseMode (namespace : string) (meta : MutationMeta) (request : request)
    (targetID : string) (leaseMode : targetLeaseMode)
    (mutate : TargetRecord -> M (TargetRecord * string)) : M TargetRecord :=
  mutateTargetJournalWithLeaseMode namespace meta request targetID leaseMode (mutate_then_record mutate).

(** ** [CreateTarget] *)
Definition create_target_handler (request : CreateTargetRequest) (policyDigest capabilityDigest : list N)
  : M response :=
  c ← getCore;
  lease ← lift (from_option_err ErrNotFound (core_leases c !! ctarget_LeaseID request));
  at_ ← clock;
  _ ← lift (requireLeaseActive lease at_);
  now ← clock;
  targetID ← newID;
  sessionID ← lift (requireStoredID "lease.session_id" (lease_SessionID lease) prefix_researchSession);
  targetModel ← lift (Domain.NewTarget targetID sessionID (ctarget_Kind request) InitialTargetGeneration now);
  generationModel ← lift (Domain.NewTargetGeneration (Domain.mkTargetGenerationSpec targetID
    InitialTargetGeneration policyDigest capabilityDigest 0 zero_uuid now));
  let target := mkTargetRecord (id_String prefix_target targetID) (lease_SessionID lease) (lease_ID lease)
    (meta_IdempotencyKey (ctarget_Meta request)) (ctarget_Template request) (ctarget_Kind request) 1
    (Domain.t_revision targetModel) now now
    [mkTargetGenerationRecord 1 (ctarget_PolicyDigest request) (ctarget_CapabilityDigest request) "" ""
       0 "" (Domain.tg_state generationModel) (Domain.tg_revision generationModel) now now] [] [] in
  _ ← appendControl "target" (target_ID target) "target.created" (target_Revision target) (PTarget target);
  mret (RTargetID (target_ID target)).

Definition CreateTarget (ctx : option time) (request : CreateTargetRequest) : M TargetRecord :=
  now ← clock;
  _ ← lift (MutationMeta_Validate (ctarget_Meta request) ctx now);
  _ ← lift (parseID prefix_lease (ctarget_LeaseID request));
  policyDigest ← lift (ParseDigest (ctarget_PolicyDigest request));
  capabilityDigest ← lift (ParseDigest (ctarget_CapabilityDigest request));
  _ ← guard (negb (blank (ctarget_Template request) || negb (Domain.TargetKind_IsValid (ctarget_Kind request))))
        (invalidArgument "target.create" "template_kind");
  _ ← syncLocked;
  '(r, _) ← RunIdempotent "create_target" (meta_IdempotencyKey (ctarget_Meta request))
    (request_bytes (QCreateTarget (request <| ctarget_Meta := stableMeta (ctarget_Meta request) |>)))
    (create_target_handler request policyDigest capabilityDigest);
  _ ← syncLocked;
  targetID ← decode_response (fun r => match r with RTargetID id => Some id | _ => None end) r;
  c ← getCore;
  mret (default zero_target (core_targets c !! targetID)).

(** ** [QuarantineTarget] *)
Definition cancel_operations (current : N) (now : time) (operations : list TargetOperationRecord)
  : result (list TargetOperationRecord) :=
  res_map (fun _ operation =>
    if negb (op_Generation operation =? current)%N || TargetOperationState_Terminal (op_State operation)
    then Ok operation else
    _ ← RequireTargetOperationTransition (op_State operation) TargetOperationCancelled;
    Ok (move_operation operation TargetOperationCancelled now)) 0 operations.
Definition quarantine_runs (current : N) (now : time) (runs : list TargetRunRecord)
  : result (list TargetRunRecord) :=
  res_map (fun _ run =>
    if negb (run_Generation run =? current)%N || TargetRunState_Terminal (run_State run)
    then Ok run else
    _ ← RequireTargetRunTransition (run_State run) TargetRunQuarantined;
    Ok (move_run run TargetRunQuarantined now)) 0 runs.

Definition quarantine_mutate (request : QuarantineTargetRequest) (target : TargetRecord) : M TargetRecord :=
  _ ← guard (target_Revision target =? quar_ExpectedRevision request)%N ErrRevisionConflict;
  '(i, generation) ← lift (findTargetGeneration target (target_CurrentGeneration target));
  targetID ← lift (requireStoredID "target.id" (target_ID target) prefix_target);
  _ ← lift (TargetQuarantineEvidence_Validate (quar_Evidence request)
              (mkTargetRef targetID (target_CurrentGeneration target)));
  if bool_decide (tgen_State generation = TargetGenerationQuarantined) then mret target else
  _ ← lift (RequireTargetGenerationTransition (tgen_State generation) TargetGenerationQuarantined);
  now ← clock;
  operations ← lift (cancel_operations (target_CurrentGeneration target) now (target_Operations target));
  runs ← lift (quarantine_runs (target_CurrentGeneration target) now (target_Runs target));
  let target := put_tgen (target <| target_Operations := operations |> <| target_Runs := runs |>) i
                  (move_tgen generation TargetGenerationQuarantined now) in
  record_target target "target.quarantined".

Definition QuarantineTarget (ctx : option time) (request : QuarantineTargetRequest) : M TargetRecord :=
  now ← clock;
  _ ← lift (MutationMeta_Validate (quar_Meta request) ctx now);
  _ ← lift (parseID prefix_target (quar_TargetID request));
  _ ← guard (negb (negb (bool_decide (quar_Reason request = TrimSpace (quar_Reason request)))
                   || bool_decide (quar_Reason request = "") || (4096 <? slen (quar_Reason request))%Z))
        (NewError CodeInvalidArgument "target.quarantine" "reason");
  mutateTargetJournalWithLeaseMode "quarantine_target" (quar_Meta request)
    (QQuarantineTarget (request <| quar_Meta := stableMeta (quar_Meta request) |>))
    (quar_TargetID request) targetLeaseCleanup (quarantine_mutate request).

(** ** [TransitionTargetGeneration] *)
Definition transition_target_mutate (request : TransitionTargetGenerationRequest) (target : TargetRecord)
  : M (TargetRecord * string) :=
  '(i, generation) ← lift (findTargetGeneration target (ttgen_Generation request));
  _ ← guard (tgen_Revision generation =? ttgen_ExpectedRevision request)%N ErrRevisionConflict;
  _ ← lift (RequireTargetGenerationTransition (tgen_State generation) (ttgen_State request));
  now ← clock;
  mret (put_tgen target i (move_tgen generation (ttgen_State request) now), "target_generation.transitioned").

Definition TransitionTargetGeneration (ctx : option time) (request : TransitionTargetGenerationRequest)
  : M TargetRecord :=
  now ← clock;
  _ ← lift (MutationMeta_Validate (ttgen_Meta request) ctx now);
  mutateTargetWithLeaseMode "transition_target_generation" (ttgen_Meta request)
    (QTransitionTarget (request <| ttgen_Meta := stableMeta (ttgen_Meta request) |>))
    (ttgen_TargetID request) targetLeaseActiveOnly (transition_target_mutate request).

(** ** [StartTargetRun] *)
Definition start_run_handler (request : StartTargetRunRequest) (materialDigest : list N) : M response :=
  let operation := "target_run.start" in
  c ← getCore;
  target ← lift (from_option_err ErrNotFound (core_targets c !! srun_TargetID request));
  let lease := default zero_lease (core_leases c !! target_LeaseID target) in
  at_ ← clock;
  _ ← lift (requireLeaseActive lease at_);
  _ ← lift (requireAgentGenerationAcceptingWork c operation (lease_AgentWorkspaceID lease)
              (lease_AgentGeneration lease));
  '(_, generation) ← lift (findTargetGeneration target (target_CurrentGeneration target));
  _ ← guard (bool_decide (tgen_State generation = TargetGenerationReady))
        (failedPrecondition operation "target_generation");
  _ ← lift (res_each (fun _ run =>
        check (negb (run_Generation run =? target_CurrentGeneration target)%N)
          (failedPrecondition operation "target_generation")) 0 (target_Runs target));
  now ← clock;
  runID ← newID;
  leaseID ← lift (requireStoredID "target.lease_id" (target_LeaseID target) prefix_lease);
  targetID ← lift (requireStoredID "target.id" (target_ID target) prefix_target);
  agentID ← lift (requireStoredID "lease.agent_workspace_id" (lease_AgentWorkspaceID lease)
                    prefix_agentWorkspace);
  runModel ← lift (Domain.NewTargetRun (Domain.mkTargetRunSpec runID leaseID targetID
    (target_CurrentGeneration target) agentID (lease_AgentGeneration lease) materialDigest now));
  let run := mkTargetRunRecord (id_String prefix_targetRun runID) (target_CurrentGeneration target)
    (lease_AgentWorkspaceID lease) (lease_AgentGeneration lease) (srun_MaterializationDigest request)
    "" "" (Domain.tr_state runModel) (Domain.tr_revision runModel) "" "" "" [] now now in
  let target := bump_target (target <| target_Runs := target_Runs target ++ [run] |>) now in
  _ ← appendControl "target" (target_ID target) "target_run.requested" (target_Revision target) (PTarget target);
  mret (RRun (target_ID target) (run_ID run)).

Definition StartTargetRun (ctx : option time) (request : StartTargetRunRequest) : M TargetRunRecord :=
  now ← clock;
  _ ← lift (MutationMeta_Validate (srun_Meta request) ctx now);
  materialDigest ← lift (ParseDigest (srun_MaterializationDigest request));
  _ ← syncLocked;
  '(r, _) ← RunIdempotent "start_target_run" (meta_IdempotencyKey (srun_Meta request))
    (request_bytes (QStartRun (request <| srun_Meta := stableMeta (srun_Meta request) |>)))
    (start_run_handler request materialDigest);
  _ ← syncLocked;
  ids ← decode_response (fun r => match r with RRun t i => Some (t, i) | _ => None end) r;
  c ← getCore;
  '(_, run) ← lift (findRun (default zero_target (core_targets c !! fst ids)) (snd ids));
  mret run.

(** ** [TransitionTargetRun] *)
Definition transition_run_mutate (request : TransitionTargetRunRequest) (target : TargetRecord)
  : M (TargetRecord * string) :=
  '(i, run) ← lift (findRun target (trun_RunID request));
  _ ← guard (run_Revision run =? trun_ExpectedRevision request)%N ErrRevisionConflict;
  _ ← guard (negb (bool_decide (trun_State request = TargetRunCompleted)
                   || bool_decide (trun_State request = TargetRunFailed)))
        (failedPrecondition "target_run.transition" "state");
  _ ← lift (RequireTargetRunTransition (run_State run) (trun_State request));
  now ← clock;
  mret (put_run target i (move_run run (trun_State request) now), "target_run.transitioned").

Definition TransitionTargetRun (ctx : option time) (request : TransitionTargetRunRequest)
  : M TargetRunRecord :=
  now ← clock;
  _ ← lift (MutationMeta_Validate (trun_Meta request) ctx now);
  let mode := if TargetRunState_Terminal (trun_State request) then targetLeaseCleanup
              else targetLeaseActiveOnly in
  target ← mutateTargetWithLeaseMode "transition_target_run" (trun_Meta request)
    (QTransitionRun (request <| trun_Meta := stableMeta (trun_Meta request) |>))
    (trun_TargetID request) mode (transition_run_mutate request);
  '(_, run) ← lift (findRun target (trun_RunID request));
  mret run.

(** ** [FinalizeTargetRun] *)
Definition finalize_generation (target : TargetRecord) (generation : N) : M TargetRecord :=
  match findTargetGeneration target generation with
  | Ok (i, g) =>
      if bool_decide (tgen_State g = TargetGenerationReady)
         && is_ok (RequireTargetGenerationTransition (tgen_State g) TargetGenerationResettable)
      then now ← clock; mret (put_tgen target i (move_tgen g TargetGenerationResettable now))
      else mret target
  | Err _ => mret target
  end.

Definition finalize_run_mutate (request : FinalizeTargetRunRequest) (target : TargetRecord)
  : M TargetRecord :=
  c ← getCore;
  '(i, run) ← lift (findRun target (frun_RunID request));
  _ ← guard (run_Revision run =? frun_ExpectedRevision request)%N ErrRevisionConflict;
  _ ← lift (res_each (fun _ incidentID =>
        incident ← from_option_err ErrNotFound (core_incidents c !! incidentID);
        check (negb (negb (bool_decide (inc_SessionID incident = target_SessionID target))
                     || negb (bool_decide (inc_TargetID incident = target_ID target))
                     || negb (bool_decide (inc_TargetRunID incident = run_ID run))
                     || negb (inc_TargetGeneration incident =? run_Generation run)%N))
          ErrScope) 0 (frun_IncidentIDs request));
  let terminal := if frun_Failed request then TargetRunFailed else TargetRunCompleted in
  '(target, run) ←
    (if negb (frun_Failed request) && negb (bool_decide (run_State run = TargetRunFinalizing)) then
       _ ← lift (RequireTargetRunTransition (run_State run) TargetRunFinalizing);
       now ← clock;
       let run := move_run run TargetRunFinalizing now in
       target ← record_target (put_run target i run) "target_run.finalizing";
       mret (target, run)
     else mret (target, run));
  _ ← lift (RequireTargetRunTransition (run_State run) terminal);
  now ← clock;
  incidentIDs ← lift (mergedNonBlank (run_IncidentIDs run) (frun_IncidentIDs request));
  let run := mkTargetRunRecord (run_ID run) (run_Generation run) (run_AgentWorkspaceID run)
    (run_AgentGeneration run) (run_MaterializationDigest run) (run_ProvisioningPlanDigest run)
    (run_ProvisioningKey run) terminal (u64 (run_Revision run + 1)) (frun_BundleID request)
    (frun_BundleArtifact request) (frun_BundleDigest request) incidentIDs (run_CreatedAt run) now in
  target ← finalize_generation (put_run target i run) (run_Generation run);
  record_target target "target_run.finalized".

Definition FinalizeTargetRun (ctx : option time) (request : FinalizeTargetRunRequest) : M TargetRunRecord :=
  now ← clock;
  _ ← lift (MutationMeta_Validate (frun_Meta request) ctx now);
  _ ← lift (parseID prefix_bundle (frun_BundleID request));
  _ ← guard (Bool.eqb (bool_decide (frun_BundleArtifact request = ""))
               (bool_decide (frun_BundleDigest request = "")))
        (invalidArgument "target_run.finalize" "bundle");
  _ ← (if bool_decide (frun_BundleDigest request = "") then mret tt
       else _ ← lift (ParseDigest (frun_BundleDigest request)); mret tt);
  _ ← lift (res_each (fun _ id => _ ← parseID prefix_incident id; Ok tt) 0 (frun_IncidentIDs request));
  incidentIDs ← lift (normalizedNonBlank (frun_IncidentIDs request));
  let request := request <| frun_IncidentIDs := incidentIDs |> in
  target ← mutateTargetJournalWithLeaseMode "finalize_target_run" (frun_Meta request)
    (QFinalizeRun (request <| frun_Meta := stableMeta (frun_Meta request) |>))
    (frun_TargetID request) targetLeaseCleanup (finalize_run_mutate request);
  '(_, run) ← lift (findRun target (frun_RunID request));
  mret run.

(** ** [CreateTargetOperation] *)
Definition create_operation_handler (request : CreateTargetOperationRequest) (contentDigest : list N)
  : M response :=
  let operationName := "target_operation.create" in
  c ← getCore;
  target ← lift (from_option_err ErrNotFound (core_targets c !! cop_TargetID request));
  '(_, run) ← lift (findRun target (cop_RunID request));
  _ ← guard (bool_decide (run_State run = TargetRunRunning)) (failedPrecondition operationName "target_run");
  lease ← lift (from_option_err ErrNotFound (core_leases c !! target_LeaseID target));
  at_ ← clock;
  _ ← lift (requireLeaseActive lease at_);
  _ ← lift (requireAgentGenerationAcceptingWork c operationName (run_AgentWorkspaceID run)
              (run_AgentGeneration run));
  operationID ← newID;
  now ← clock;
  leaseID ← lift (requireStoredID "target.lease_id" (target_LeaseID target) prefix_lease);
  targetID ← lift (requireStoredID "target.id" (target_ID target) prefix_target);
  runID ← lift (requireStoredID "target_run.id" (run_ID run) prefix_targetRun);
  model ← lift (Domain.NewTargetOperation (Domain.mkTargetOperationSpec operationID leaseID targetID
    (run_Generation run) runID (cop_Kind request) (cop_CommandDisplay request) contentDigest now));
  let operation := mkTargetOperationRecord (id_String prefix_targetOperation operationID) (run_ID run)
    (run_Generation run) (cop_Kind request) (cop_CommandDisplay request) (cop_ContentDigest request)
    (Domain.to_state model) (Domain.to_revision model) now now in
  let target := bump_target (target <| target_Operations := target_Operations target ++ [operation] |>) now in
  _ ← appendControl "target" (target_ID target) "target_operation.requested" (target_Revision target)
        (PTarget target);
  mret (ROperation (target_ID target) (op_ID operation)).

Definition CreateTargetOperation (ctx : option time) (request : CreateTargetOperationRequest)
  : M TargetOperationRecord :=
  now ← clock;
  _ ← lift (MutationMeta_Validate (cop_Meta request) ctx now);
  _ ← guard (negb (4096 <? slen (cop_CommandDisplay request))%Z)
        (resourceExhausted "target_operation.create" "command_display");
  contentDigest ← (if bool_decide (cop_ContentDigest request = "") then mret zero_digest
                   else lift (ParseDigest (cop_ContentDigest request)));
  _ ← syncLocked;
  '(r, _) ← RunIdempotent "create_target_operation" (meta_IdempotencyKey (cop_Meta request))
    (request_bytes (QCreateOperation (request <| cop_Meta := stableMeta (cop_Meta request) |>)))
    (create_operation_handler request contentDigest);
  _ ← syncLocked;
  ids ← decode_response (fun r => match r with ROperation t i => Some (t, i) | _ => None end) r;
  c ← getCore;
  '(_, operation) ← lift (findOperation (default zero_target (core_targets c !! fst ids)) (snd ids));
  mret operation.

(** ** [ResetTarget] *)
Definition reset_mutate (request : ResetTargetRequest) (incidentID : uuidV7) (target : TargetRecord)
  : M (TargetRecord * string) :=
  let operation := "target.reset" in
  _ ← guard (target_Revision target =? reset_ExpectedRevision request)%N ErrRevisionConflict;
  _ ← lift (res_each (fun _ run =>
        check (negb ((run_Generation run =? target_CurrentGeneration target)%N
                     && negb (TargetRunState_Terminal (run_State run))))
          (failedPrecondition operation "target_run")) 0 (target_Runs target));
  '(i, old) ← lift (findTargetGeneration target (target_CurrentGeneration target));
  target ←
    (if bool_decide (tgen_State old = TargetGenerationResettable) then
       _ ← lift (RequireTargetGenerationTransition (tgen_State old) TargetGenerationDestroyed);
       now ← clock;
       mret (put_tgen target i (move_tgen old TargetGenerationDestroyed now))
     else
       _ ← guard (bool_decide (tgen_State old = TargetGenerationFailed)
                  || bool_decide (tgen_State old = TargetGenerationDestroyed))
             (failedPrecondition operation "target_generation");
       mret target);
  let newGeneration := u64 (tgen_Generation old + 1) in
  policyDigest ← lift (ParseDigest (tgen_PolicyDigest old));
  capabilityDigest ← lift (ParseDigest (tgen_CapabilityDigest old));
  now ← clock;
  targetID ← lift (requireStoredID "target.id" (target_ID target) prefix_target);
  model ← lift (Domain.NewTargetGeneration (Domain.mkTargetGenerationSpec targetID newGeneration
    policyDigest capabilityDigest (tgen_Generation old) incidentID now));
  let generation := mkTargetGenerationRecord newGeneration (tgen_PolicyDigest old)
    (tgen_CapabilityDigest old) "" "" (tgen_Generation old) (reset_RecoveryIncidentID request)
    (Domain.tg_state model) (Domain.tg_revision model) now now in
  mret (target <| target_CurrentGeneration := newGeneration |>
          <| target_Generations := target_Generations target ++ [generation] |>, "target.reset").

Definition ResetTarget (ctx : option time) (request : ResetTargetRequest) : M TargetRecord :=
  now ← clock;
  _ ← lift (MutationMeta_Validate (reset_Meta request) ctx now);
  _ ← lift (ValidateResetSelection (reset_Mode request) (reset_SnapshotName request));
  incidentID ← (if bool_decide (reset_RecoveryIncidentID request = "") then mret zero_uuid
                else lift (parseID prefix_incident (reset_RecoveryIncidentID request)));
  mutateTargetWithLeaseMode "reset_target" (reset_Meta request)
    (QResetTarget (request <| reset_Meta := stableMeta (reset_Meta request) |>))
    (reset_TargetID request) targetLeaseActiveOnly (reset_mutate request incidentID).

(** ** [TransitionTargetOperation] *)
Definition transition_operation_mutate (request : TransitionTargetOperationRequest)
    (target : TargetRecord) : M (TargetRecord * string) :=
  '(i, operation) ← lift (findOperation target (top_OperationID request));
  _ ← guard (op_Revision operation =? top_ExpectedRevision request)%N ErrRevisionConflict;
  _ ← lift (RequireTargetOperationTransition (op_State operation) (top_State request));
  now ← clock;
  mret (put_operation target i (move_operation operation (top_State request) now),
        "target_operation.transitioned").

Definition TransitionTargetOperation (ctx : option time) (request : TransitionTargetOperationRequest)
  : M TargetOperationRecord :=
  now ← clock;
  _ ← lift (MutationMeta_Validate (top_Meta request) ctx now);
  let mode := if TargetOperationState_Terminal (top_State request) then targetLeaseCleanup
              else targetLeaseActiveOnly in
  target ← mutateTargetWithLeaseMode "transition_target_operation" (top_Meta request)
    (QTransitionOperation (request <| top_Meta := stableMeta (top_Meta request) |>))
    (top_TargetID request) mode (transition_operation_mutate request);
  '(_, operation) ← lift (findOperation target (top_OperationID request));
  mret operation.

(** ** [BindTargetGenerationPlan] and [BindTargetRunPlan] *)
Definition bind_target_mutate (request : BindTargetGenerationPlanRequest) (target : TargetRecord)
  : M (TargetRecord * string) :=
  let operation := "target_generation.bind_plan" in
  _ ← guard (target_CurrentGeneration target =? btarget_Generation request)%N
        (failedPrecondition operation "generation");
  '(i, generation) ← lift (findTargetGeneration target (btarget_Generation request));
  _ ← guard (tgen_Revision generation =? btarget_ExpectedRevision request)%N ErrRevisionConflict;
  _ ← guard (bool_decide (tgen_State generation = TargetGenerationProvisioning))
        (failedPrecondition operation "state");
  _ ← guard (targetProvisioningBindingEmpty generation) ErrIdempotencyConflict;
  now ← clock;
  let generation := generation
        <| tgen_ProvisioningPlanDigest := btarget_ProvisioningPlanDigest request |>
        <| tgen_ProvisioningKey := btarget_ProvisioningKey request |>
        <| tgen_Revision := u64 (tgen_Revision generation + 1) |>
        <| tgen_UpdatedAt := now |> in
  mret (put_tgen target i generation, "target_generation.plan_bound").

Definition BindTargetGenerationPlan (ctx : option time) (request : BindTargetGenerationPlanRequest)
  : M TargetRecord :=
  let operation := "target_generation.bind_plan" in
  now ← clock;
  _ ← lift (MutationMeta_Validate (btarget_Meta request) ctx now);
  _ ← lift (parseID prefix_target (btarget_TargetID request));
  _ ← guard (negb (negb (TargetGeneration_IsValid (btarget_Generation request))
                   || (btarget_ExpectedRevision request =? 0)%N)) (invalidArgument operation "generation");
  _ ← guard (is_ok (ParseDigest (btarget_ProvisioningPlanDigest request)))
        (invalidArgument operation "provisioning_plan_digest");
  _ ← guard (IsCanonicalIdempotencyKey (btarget_ProvisioningKey request))
        (invalidArgument operation "provisioning_key");
  mutateTargetWithLeaseMode "bind_target_generation_plan" (btarget_Meta request)
    (QBindTargetPlan (request <| btarget_Meta := stableMeta (btarget_Meta request) |>))
    (btarget_TargetID request) targetLeaseActiveOnly (bind_target_mutate request).

Definition bind_run_mutate (request : BindTargetRunPlanRequest) (target : TargetRecord)
  : M (TargetRecord * string) :=
  '(i, run) ← lift (findRun target (brun_RunID request));
  _ ← guard (run_Revision run =? brun_ExpectedRevision request)%N ErrRevisionConflict;
  _ ← guard (bool_decide (run_State run = TargetRunRequested))
        (failedPrecondition "target_run.bind_plan" "state");
  _ ← guard (targetRunProvisioningBindingEmpty run) ErrIdempotencyConflict;
  now ← clock;
  let run := run <| run_ProvisioningPlanDigest := brun_ProvisioningPlanDigest request |>
               <| run_ProvisioningKey := brun_ProvisioningKey request |>
               <| run_Revision := u64 (run_Revision run + 1) |>
               <| run_UpdatedAt := now |> in
  mret (put_run target i run, "target_run.plan_bound").

Definition BindTargetRunPlan (ctx : option time) (request : BindTargetRunPlanRequest) : M TargetRunRecord :=
  let operation := "target_run.bind_plan" in
  now ← clock;
  _ ← lift (MutationMeta_Validate (brun_Meta request) ctx now);
  _ ← lift (parseID prefix_target (brun_TargetID request));
  _ ← lift (parseID prefix_targetRun (brun_RunID request));
  _ ← guard (negb (brun_ExpectedRevision request =? 0)%N) (invalidArgument operation "expected_revision");
  _ ← guard (is_ok (ParseDigest (brun_ProvisioningPlanDigest request)))
        (invalidArgument operation "provisioning_plan_digest");
  _ ← guard (IsCanonicalIdempotencyKey (brun_ProvisioningKey request))
        (invalidArgument operation "provisioning_key");
  target ← mutateTargetWithLeaseMode "bind_target_run_plan" (brun_Meta request)
    (QBindRunPlan (request <| brun_Meta := stableMeta (brun_Meta request) |>))
    (brun_TargetID request) targetLeaseActiveOnly (bind_run_mutate request);
  '(_, run) ← lift (findRun target (brun_RunID request));
  mret run.
End Targets.
