(* ===== verification/Termination.v ===== *)
(** * Lease termination

    [internal/application/lease_termination.go]: the two-phase release and the
    expiry of a lease, the controller's work list and the completion that
    retires the target and agent generations. *)
From S2P Require Import Prelude Errors Sha256 GoStrings States Values Ids Idempotency Models Records Store Requests.
From S2P Require Import Machine Replay Sync Sessions.
Definition leaseExpiryReason := "lease lifetime elapsed".

(** [stableRelease]: the deadline is dropped and the reason trimmed. *)
Definition stableRelease (request : ReleaseResearchSessionRequest) : ReleaseResearchSessionRequest :=
  mkReleaseResearchSessionRequest (stableMeta (rel_Meta request)) (rel_LeaseID request)
    (rel_ExpectedRevision request) (TrimSpace (rel_Reason request)).

Definition ReleaseResearchSessionRequest_validate (r : ReleaseResearchSessionRequest)
    (ctx : option time) (now : time) : result unit :=
  let operation := "research_session.release" in
  _ ← MutationMeta_Validate (rel_Meta r) ctx now;
  _ ← parseID prefix_lease (rel_LeaseID r);
  _ ← check (negb (blank (rel_Reason r))) (invalidArgument operation "reason");
  check (negb (rel_ExpectedRevision r =? 0)%N) (invalidArgument operation "expected_revision").

Definition validateTrustedTerminationRequest (operation leaseID : string) (expectedRevision : N)
  : result unit :=
  _ ← parseID prefix_lease leaseID;
  check (negb (expectedRevision =? 0)%N) (invalidArgument operation "expected_revision").

(** [requireLeaseWorkFinalized] *)
Definition requireLeaseWorkFinalized (c : Core) (operation leaseID : string) : result unit :=
  _ ← res_each (fun _ execID =>
        check (match core_execs c !! execID with
               | Some execution => ExecState_Terminal (exec_State execution)
               | None => ExecState_Terminal (ExecUnrecognized "")
               end) (failedPrecondition operation "exec")) 0 (execIDsForLease c leaseID);
  res_each (fun _ targetID =>
    match core_targets c !! targetID with
    | None => Ok tt
    | Some target =>
        _ ← res_each (fun _ run =>
              check (TargetRunState_Terminal (run_State run)) (failedPrecondition operation "target_run"))
              0 (target_Runs target);
        res_each (fun _ targetOperation =>
          check (TargetOperationState_Terminal (op_State targetOperation))
            (failedPrecondition operation "target_operation")) 0 (target_Operations target)
    end) 0 (targetIDsForLease c leaseID).

(** The item [ListLeaseTerminationWork] emits for a lease, if any. *)
Definition termination_work (now : time) (lease : LeaseRecord) : option LeaseTerminationWork :=
  let item kind state needsBegin :=
    mkLeaseTerminationWork (lease_ID lease) (lease_SessionID lease) kind state (lease_Revision lease)
      (lease_ExpiresAt lease) needsBegin in
  if LeaseTerminationRecord_InProgress (lease_Termination lease) then
    Some (item (term_Kind (lease_Termination lease)) (term_State (lease_Termination lease)) false)
  else if LeaseTerminationRecord_Empty (lease_Termination lease)
          && bool_decide (lease_State lease = LeaseActive) && negb (time_After (lease_ExpiresAt lease) now)
  then Some (item LeaseTerminationExpiry (LeaseTerminationStateUnrecognized "") true)
  else None.

(** Its order: by expiry, then by lease identity. *)
Definition work_le (a b : LeaseTerminationWork) : Prop :=
  if time_Equal (work_ExpiresAt a) (work_ExpiresAt b) then string_le (work_LeaseID a) (work_LeaseID b)
  else time_Before (work_ExpiresAt a) (work_ExpiresAt b) = true.
#[export] Instance work_le_dec : RelDecision work_le.
Proof. intros a b. unfold work_le. destruct (time_Equal _ _); apply _. Defined.

Record beginLeaseTerminationParams := mkBeginParams {
  begin_Operation : string; begin_Kind : LeaseTerminationKind; begin_Reason : string;
  begin_ExpectedRevision : N; begin_IdempotencyKey : string; begin_RequestDigest : string }.

Record completionIdentity := mkCompletionIdentity {
  complete_Operation : string; complete_ExpectedRevision : N;
  complete_IdempotencyKey : string; complete_RequestDigest : string }.

(** The lease, its termination record and the session as the two phases write
    them. *)
Definition begun_lease (lease : LeaseRecord) (state : LeaseState) (terminationState : LeaseTerminationState)
    (params : beginLeaseTerminationParams) (now : time) : LeaseRecord :=
  let revision := u64 (lease_Revision lease + 1) in
  lease <| lease_State := state |> <| lease_Revision := revision |> <| lease_UpdatedAt := now |>
    <| lease_Termination := mkLeaseTerminationRecord (begin_Kind params)
         terminationState (begin_Reason params) (begin_IdempotencyKey params)
         (begin_RequestDigest params) revision now "" "" 0 |>.

Definition completed_termination (t : LeaseTerminationRecord) (state : LeaseTerminationState)
    (identity : completionIdentity) (now : time) : LeaseTerminationRecord :=
  mkLeaseTerminationRecord (term_Kind t) state (term_Reason t) (term_BeginIdempotencyKey t)
    (term_BeginRequestDigest t) (term_InitiatedLeaseRevision t) (term_InitiatedAt t)
    (complete_IdempotencyKey identity) (complete_RequestDigest identity) now.

Definition completed_lease (lease : LeaseRecord) (state : LeaseState) (terminationState : LeaseTerminationState)
    (identity : completionIdentity) (now : time) : LeaseRecord :=
  lease <| lease_State := state |> <| lease_Revision := u64 (lease_Revision lease + 1) |>
    <| lease_UpdatedAt := now |>
    <| lease_Termination := completed_termination (lease_Termination lease) terminationState identity now |>.

Definition move_session (session : SessionRecord) (state : ResearchSessionState) (now : time)
  : SessionRecord :=
  session <| session_State := state |> <| session_Revision := u64 (session_Revision session + 1) |>
    <| session_UpdatedAt := now |>.

Section Termination.
Context `{Env}.

(** [canonicalRequest]: the digest stored beside the termination intent. *)
Definition canonicalDigest (r : request) : string := digest_String (sha256 (request_bytes r)).

(** ** [beginLeaseTermination] *)
Definition beginLeaseTermination (lease : LeaseRecord) (params : beginLeaseTerminationParams) : M response :=
  c ← getCore;
  _ ← guard (LeaseTerminationRecord_Empty (lease_Termination lease)) ErrIdempotencyConflict;
  _ ← guard (lease_Revision lease =? begin_ExpectedRevision params)%N ErrRevisionConflict;
  _ ← guard (bool_decide (lease_State lease = LeaseActive))
        (failedPrecondition (begin_Operation params) "lease");
  _ ← (if bool_decide (begin_Kind params = LeaseTerminationRelease)
       then at_ ← clock; lift (requireLeaseActive lease at_) else mret tt);
  session ← lift (from_option_err ErrNotFound (core_sessions c !! lease_SessionID lease));
  now ← clock;
  '(nextLeaseState, nextTerminationState, leaseEvent) ←
    (if bool_decide (begin_Kind params = LeaseTerminationRelease) then
       _ ← lift (RequireLeaseTransition (lease_State lease) LeaseReleasing);
       mret (LeaseReleasing, LeaseTerminationReleasing, "lease.releasing")
     else mret (lease_State lease, LeaseTerminationExpiring, "lease.expiring"));
  let lease := begun_lease lease nextLeaseState nextTerminationState params now in
  _ ← appendControl "lease" (lease_ID lease) leaseEvent (lease_Revision lease) (PLease lease);
  _ ← lift (RequireResearchSessionTransition (session_State session) ResearchSessionReleasing);
  let session := move_session session ResearchSessionReleasing now in
  _ ← appendControl "session" (session_ID session) "session.releasing" (session_Revision session)
        (PSession session);
  mret (RReleasePreparation (session_ID session) (lease_Revision lease)).

Definition begin_release_handler (request : ReleaseResearchSessionRequest) : M response :=
  let stable := stableRelease request in
  c ← getCore;
  lease ← lift (from_option_err ErrNotFound (core_leases c !! rel_LeaseID request));
  beginLeaseTermination lease (mkBeginParams "research_session.begin_release" LeaseTerminationRelease
    (rel_Reason stable) (rel_ExpectedRevision request) (meta_IdempotencyKey (rel_Meta request))
    (canonicalDigest (QRelease stable))).

Definition as_preparation (r : response) : option (string * N) :=
  match r with RReleasePreparation s n => Some (s, n) | _ => None end.

Definition BeginReleaseResearchSession (ctx : option time) (request : ReleaseResearchSessionRequest)
  : M ReleasePreparation :=
  now ← clock;
  _ ← lift (ReleaseResearchSessionRequest_validate request ctx now);
  _ ← syncLocked;
  '(r, _) ← RunIdempotent "begin_release_research_session" (meta_IdempotencyKey (rel_Meta request))
    (request_bytes (QRelease (stableRelease request))) (begin_release_handler request);
  _ ← syncLocked;
  result ← decode_response as_preparation r;
  c ← getCore;
  view ← lift (sessionViewLocked c (fst result));
  mret (mkReleasePreparation view (snd result)).

(** ** [BeginDueLeaseExpiry] *)
Definition begin_expiry_handler (request : BeginLeaseExpiryRequest) (idempotencyKey : string) : M response :=
  let operation := "lease.begin_expiry" in
  c ← getCore;
  lease ← lift (from_option_err ErrNotFound (core_leases c !! bexp_LeaseID request));
  now ← clock;
  _ ← guard (negb (time_Before now (lease_ExpiresAt lease))) (failedPrecondition operation "expires_at");
  beginLeaseTermination lease (mkBeginParams operation LeaseTerminationExpiry leaseExpiryReason
    (bexp_ExpectedRevision request) idempotencyKey (canonicalDigest (QBeginExpiry request))).

Definition BeginDueLeaseExpiry (request : BeginLeaseExpiryRequest) : M LeaseTerminationPreparation :=
  _ ← lift (validateTrustedTerminationRequest "lease.begin_expiry" (bexp_LeaseID request)
              (bexp_ExpectedRevision request));
  let idempotencyKey := DeriveIdempotencyKey "expiry" (bexp_LeaseID request) in
  _ ← syncLocked;
  '(r, _) ← RunIdempotent "begin_due_lease_expiry" idempotencyKey
    (request_bytes (QBeginExpiry request)) (begin_expiry_handler request idempotencyKey);
  _ ← syncLocked;
  result ← decode_response as_preparation r;
  c ← getCore;
  view ← lift (sessionViewLocked c (fst result));
  mret (mkLeaseTerminationPreparation view (term_Kind (lease_Termination (view_Lease view))) (snd result)).

(** ** The controller's view of unfinished terminations *)
Definition ListLeaseTerminationWork : M (list LeaseTerminationWork) :=
  _ ← syncLocked; c ← getCore;
  now ← clock;
  mret (merge_sort work_le (omap (termination_work now) (snd <$> map_to_list (core_leases c)))).

Definition ResumeLeaseTermination (leaseID : string) : M LeaseTerminationPreparation :=
  _ ← lift (parseID prefix_lease leaseID);
  _ ← syncLocked; c ← getCore;
  lease ← lift (from_option_err ErrNotFound (core_leases c !! leaseID));
  _ ← guard (LeaseTerminationRecord_InProgress (lease_Termination lease))
        (failedPrecondition "lease.resume_termination" "termination");
  view ← lift (sessionViewLocked c (lease_SessionID lease));
  mret (mkLeaseTerminationPreparation view (term_Kind (lease_Termination lease)) (lease_Revision lease)).

(** ** [completeLeaseTermination] *)
Fixpoint retire_targets (c : Core) (now : time) (targetIDs : list string) : M unit :=
  match targetIDs with
  | [] => mret tt
  | targetID :: rest =>
      target ← lift (from_option_err ErrNotFound (core_targets c !! targetID));
      '(i, generation) ← lift (findTargetGeneration target (target_CurrentGeneration target));
      states ← lift (targetGenerationRetirementPath (tgen_State generation));
      _ ← appendTargetGenerationTransitions target i generation states "target.termination_transition" now;
      retire_targets c now rest
  end.

Definition completeLeaseTermination (lease : LeaseRecord) (identity : completionIdentity)
  : M LeaseTerminationOutcome :=
  c ← getCore;
  _ ← guard (LeaseTerminationRecord_InProgress (lease_Termination lease))
        (if LeaseTerminationRecord_Terminal (lease_Termination lease) then ErrIdempotencyConflict
         else failedPrecondition (complete_Operation identity) "termination");
  _ ← guard (negb (negb (bool_decide (term_CompleteIdempotencyKey (lease_Termination lease) = ""))
                   || negb (bool_decide (term_CompleteRequestDigest (lease_Termination lease) = ""))))
        ErrIdempotencyConflict;
  _ ← guard (lease_Revision lease =? complete_ExpectedRevision identity)%N ErrRevisionConflict;
  _ ← lift (requireLeaseWorkFinalized c (complete_Operation identity) (lease_ID lease));
  session ← lift (from_option_err ErrNotFound (core_sessions c !! lease_SessionID lease));
  agent ← lift (from_option_err ErrNotFound (core_agents c !! lease_AgentWorkspaceID lease));
  now ← clock;
  _ ← retire_targets c now (targetIDsForLease c (lease_ID lease));
  '(i, agentGeneration) ← lift (findAgentGeneration agent (agent_CurrentGeneration agent));
  agentStates ← lift (agentGenerationRetirementPath (agen_State agentGeneration));
  _ ← appendAgentGenerationTransitions agent i agentGeneration agentStates
        "agent_generation.termination_transition" now;
  let expiry := bool_decide (term_Kind (lease_Termination lease) = LeaseTerminationExpiry) in
  let nextLeaseState := if expiry then LeaseExpired else LeaseReleased in
  let nextTerminationState := if expiry then LeaseTerminationExpired else LeaseTerminationReleased in
  _ ← lift (RequireLeaseTransition (lease_State lease) nextLeaseState);
  let lease := completed_lease lease nextLeaseState nextTerminationState identity now in
  _ ← appendControl "lease" (lease_ID lease)
        ("lease." +:+ LeaseState_String nextLeaseState) (lease_Revision lease) (PLease lease);
  _ ← lift (RequireResearchSessionTransition (session_State session) ResearchSessionReleased);
  let session := move_session session ResearchSessionReleased now in
  _ ← appendControl "session" (session_ID session) "session.released" (session_Revision session)
        (PSession session);
  mret (mkLeaseTerminationOutcome (session_ID session) (lease_ID lease)
          (term_Kind (lease_Termination lease)) nextLeaseState now).

Definition complete_release_handler (request : ReleaseResearchSessionRequest) : M response :=
  let stable := stableRelease request in
  c ← getCore;
  lease ← lift (from_option_err ErrNotFound (core_leases c !! rel_LeaseID request));
  _ ← guard (negb (negb (bool_decide (term_Kind (lease_Termination lease) = LeaseTerminationRelease))
                   || negb (bool_decide (term_Reason (lease_Termination lease) = rel_Reason stable))))
        ErrIdempotencyConflict;
  outcome ← completeLeaseTermination lease (mkCompletionIdentity "research_session.complete_release"
    (rel_ExpectedRevision request) (meta_IdempotencyKey (rel_Meta request)) (canonicalDigest (QRelease stable)));
  mret (RRelease (mkReleaseOutcome (tout_SessionID outcome) (tout_LeaseID outcome)
                    (tout_CompletedAt outcome))).

Definition CompleteReleaseResearchSession (ctx : option time) (request : ReleaseResearchSessionRequest)
  : M ReleaseOutcome :=
  now ← clock;
  _ ← lift (ReleaseResearchSessionRequest_validate request ctx now);
  _ ← syncLocked;
  '(r, _) ← RunIdempotent "complete_release_research_session" (meta_IdempotencyKey (rel_Meta request))
    (request_bytes (QRelease (stableRelease request))) (complete_release_handler request);
  _ ← syncLocked;
  decode_response (fun r => match r with RRelease v => Some v | _ => None end) r.

Definition complete_termination_handler (request : CompleteLeaseTerminationRequest)
    (idempotencyKey : string) : M response :=
  c ← getCore;
  lease ← lift (from_option_err ErrNotFound (core_leases c !! cterm_LeaseID request));
  outcome ← completeLeaseTermination lease (mkCompletionIdentity "lease.complete_termination"
    (cterm_ExpectedRevision request) idempotencyKey (canonicalDigest (QCompleteTermination request)));
  mret (RTermination outcome).

Definition CompleteLeaseTermination (request : CompleteLeaseTerminationRequest)
  : M LeaseTerminationOutcome :=
  _ ← lift (validateTrustedTerminationRequest "lease.complete_termination" (cterm_LeaseID request)
              (cterm_ExpectedRevision request));
  let idempotencyKey := DeriveIdempotencyKey "termination" (cterm_LeaseID request) in
  _ ← syncLocked;
  '(r, _) ← RunIdempotent "complete_lease_termination" idempotencyKey
    (request_bytes (QCompleteTermination request)) (complete_termination_handler request idempotencyKey);
  _ ← syncLocked;
  decode_response (fun r => match r with RTermination v => Some v | _ => None end) r.

(** ** [ReleaseResearchSession]: the logical-only two phases in one call. *)
Definition ReleaseResearchSession (ctx : option time) (request : ReleaseResearchSessionRequest)
  : M ReleaseOutcome :=
  _ ← syncLocked; c ← getCore;
  _ ← lift (requireLeaseWorkFinalized c "research_session.release" (rel_LeaseID request));
  preparation ← BeginReleaseResearchSession ctx request;
  let view := relprep_View preparation in
  if bool_decide (lease_State (view_Lease view) = LeaseReleased) then
    mret (mkReleaseOutcome (session_ID (view_Session view)) (lease_ID (view_Lease view))
            (lease_UpdatedAt (view_Lease view)))
  else CompleteReleaseResearchSession ctx
         (request <| rel_ExpectedRevision := relprep_ReleasingLeaseRevision preparation |>).
End Termination.
