(* ===== verification/Incidents.v ===== *)
(** * Incidents and recovery

    [internal/application/incidents.go] and [incident_evidence_sealing.go].  The
    conversions to domain models ([incidentMetricModels] and so on) are in
    [Replay], [normalizedNonBlank] is in [Sessions]. *)
From Stdlib Require Import SpecFloat.
From S2P Require Import Prelude Errors Sha256 GoStrings States Values Ids Idempotency Models Evidence Records Store.
From S2P Require Import Requests Machine Replay Sync Sessions Targets.
Definition zero_incident : IncidentRecord :=
  mkIncidentRecord "" (IncidentClassificationUnrecognized "") "" "" "" 0 "" "" 0 "" "" ""
    (mkCauseRecord (CauseKindUnrecognized "") "" "" (S754_zero false)) [] 0 0 [] "" [] [] []
    (IncidentUnrecognized "") 0 0 0.

Definition stringSetContainsAll (values required : list string) : bool :=
  forallb (fun value => bool_decide (value ∈ values)) required.

(** The physical action a recovery action asks for, or [""]. *)
Definition recovery_candidate (action : string) : string :=
  let agent := RecoveryResource_string RecoveryResourceAgent +:+ ":" in
  let target := RecoveryResource_string RecoveryResourceTarget +:+ ":" in
  if HasPrefix action agent then
    let strategy := TrimPrefix action agent in
    if bool_decide (strategy = "") then "" else "physical-agent:" +:+ strategy
  else if HasPrefix action target then
    let strategy := TrimPrefix action target in
    if bool_decide (strategy = "") then "" else "physical-target:" +:+ strategy
  else "".

Fixpoint expected_recovery (expected : string) (existing : list string) : result string :=
  match existing with
  | [] => Ok expected
  | action :: rest =>
      let candidate := recovery_candidate action in
      if bool_decide (candidate = "") then expected_recovery expected rest else
      _ ← check (negb (negb (bool_decide (expected = "")) && negb (bool_decide (expected = candidate))))
            (NewError CodeIntegrityViolation "incident.complete_recovery" "recovery_actions");
      expected_recovery candidate rest
  end.

Definition requireExactPhysicalRecoveryCompletion (existing completed : list string) : result unit :=
  let operation := "incident.complete_recovery" in
  expected ← expected_recovery "" existing;
  _ ← check (negb (bool_decide (expected = "")))
        (NewError CodeIntegrityViolation operation "recovery_actions");
  check (existsb (fun action => bool_decide (action = expected)) completed)
    (failedPrecondition operation "recovery_actions").

(** [appendExactIncidentArtifact], [incidentHasBundleEvidence] *)
Fixpoint artifact_conflict (existing : list IncidentArtifactRecord) (desired : IncidentArtifactRecord)
  : option (result unit) :=
  match existing with
  | [] => None
  | artifact :: rest =>
      if negb (bool_decide (art_Reference artifact = art_Reference desired))
      then artifact_conflict rest desired
      else Some (check (bool_decide (artifact = desired))
                   (NewError CodeIntegrityViolation "incident.seal_run_evidence" "bundle_artifact"))
  end.
Definition appendExactIncidentArtifact (existing : list IncidentArtifactRecord)
    (desired : IncidentArtifactRecord) : result (list IncidentArtifactRecord) :=
  match artifact_conflict existing desired with
  | Some verdict => _ ← verdict; Ok existing
  | None => Ok (existing ++ [desired])
  end.

Definition incidentHasBundleEvidence (incident : IncidentRecord) (bundleID : string)
    (artifact : IncidentArtifactRecord) : bool :=
  bool_decide (inc_ObservationBundleID incident = bundleID)
  && existsb (fun candidate => bool_decide (candidate = artifact)) (inc_Artifacts incident).

(** [i.State, i.Revision, i.UpdatedAt = state, i.Revision+1, now], with new
    evidence and histories. *)
Definition update_incident (i : IncidentRecord) (state : IncidentState) (now : time) (bundleID : string)
    (artifacts : list IncidentArtifactRecord) (actions acknowledgements : list string) : IncidentRecord :=
  mkIncidentRecord (inc_ID i) (inc_Classification i) (inc_SessionID i) (inc_LeaseID i)
    (inc_AgentWorkspaceID i) (inc_AgentGeneration i) (inc_ExecID i) (inc_TargetID i)
    (inc_TargetGeneration i) (inc_TargetRunID i) (inc_Trigger i) (inc_LastKnownState i) (inc_Cause i)
    (inc_HighWaterMetrics i) (inc_FirstRelevantCursor i) (inc_LastRelevantCursor i) (inc_Coverage i)
    bundleID artifacts actions acknowledgements state (u64 (inc_Revision i + 1)) (inc_OccurredAt i) now.

(** ** The scope checks of [CreateIncident] *)
Definition incident_exec_scope (c : Core) (request : CreateIncidentRequest) : result (option ExecRecord) :=
  if bool_decide (cinc_ExecID request = "") then Ok None else
  value ← from_option_err ErrScope (core_execs c !! cinc_ExecID request);
  _ ← check (bool_decide (exec_SessionID value = cinc_SessionID request)
             && bool_decide (exec_LeaseID value = cinc_LeaseID request)
             && bool_decide (exec_AgentWorkspaceID value = cinc_AgentWorkspaceID request)
             && (exec_AgentGeneration value =? cinc_AgentGeneration request)%N) ErrScope;
  Ok (Some value).

Definition incident_target_scope (c : Core) (request : CreateIncidentRequest) : result (option TargetRecord) :=
  if bool_decide (cinc_TargetID request = "") then Ok None else
  value ← from_option_err ErrScope (core_targets c !! cinc_TargetID request);
  _ ← check (bool_decide (target_SessionID value = cinc_SessionID request)) ErrScope;
  _ ← check (negb ((0 <? cinc_TargetGeneration request)%N
                   && negb (is_ok (findTargetGeneration value (cinc_TargetGeneration request))))) ErrScope;
  _ ← (if bool_decide (cinc_TargetRunID request = "") then Ok tt else
       match findRun value (cinc_TargetRunID request) with
       | Err _ => Err ErrScope
       | Ok (_, run) =>
           _ ← check (run_Generation run =? cinc_TargetGeneration request)%N ErrScope;
           check (negb (negb (bool_decide (cinc_AgentWorkspaceID request = ""))
                        && (negb (bool_decide (run_AgentWorkspaceID run = cinc_AgentWorkspaceID request))
                            || negb (run_AgentGeneration run =? cinc_AgentGeneration request)%N))) ErrScope
       end);
  Ok (Some value).

Definition incident_scope (c : Core) (request : CreateIncidentRequest)
  : result (option ExecRecord * option TargetRecord) :=
  _ ← from_option_err ErrNotFound (core_sessions c !! cinc_SessionID request);
  _ ← (if bool_decide (cinc_LeaseID request = "") then Ok tt else
       lease ← from_option_err ErrScope (core_leases c !! cinc_LeaseID request);
       check (bool_decide (lease_SessionID lease = cinc_SessionID request)) ErrScope);
  _ ← (if bool_decide (cinc_AgentWorkspaceID request = "") then Ok tt else
       agent ← from_option_err ErrScope (core_agents c !! cinc_AgentWorkspaceID request);
       _ ← check (bool_decide (agent_SessionID agent = cinc_SessionID request)) ErrScope;
       check (negb ((0 <? cinc_AgentGeneration request)%N
                    && negb (is_ok (findAgentGeneration agent (cinc_AgentGeneration request))))) ErrScope);
  execution ← incident_exec_scope c request;
  target ← incident_target_scope c request;
  Ok (execution, target).

(** The models [CreateIncident] builds before its transaction. *)
Record incident_models := mkIncidentModels {
  im_cause : CauseAssessmentSpec; im_sessionID : uuidV7; im_leaseID : uuidV7; im_agentID : uuidV7;
  im_execID : uuidV7; im_targetID : uuidV7; im_runID : uuidV7; im_metrics : list MetricSampleSpec;
  im_coverage : list CollectorCoverageSpec; im_bundleID : uuidV7; im_artifacts : list ArtifactReferenceSpec }.

Definition create_incident_models (request : CreateIncidentRequest) : result incident_models :=
  cause ← causeModel (cinc_Cause request);
  sessionID ← parseID prefix_researchSession (cinc_SessionID request);
  leaseID ← optionalID prefix_lease (cinc_LeaseID request);
  agentID ← optionalID prefix_agentWorkspace (cinc_AgentWorkspaceID request);
  execID ← optionalID prefix_exec (cinc_ExecID request);
  targetID ← optionalID prefix_target (cinc_TargetID request);
  runID ← optionalID prefix_targetRun (cinc_TargetRunID request);
  metrics ← incidentMetricModels (cinc_HighWaterMetrics request);
  coverage ← incidentCoverageModels (cinc_Coverage request);
  bundleID ← optionalID prefix_bundle (cinc_ObservationBundleID request);
  artifacts ← incidentArtifactModels (cinc_Artifacts request);
  Ok (mkIncidentModels cause sessionID leaseID agentID execID targetID runID metrics coverage bundleID artifacts).

Section Incidents.
Context `{Env}.

(** ** [CreateIncident] *)
Definition link_run (target : TargetRecord) (runID incidentID : string) (now : time) : M unit :=
  '(i, run) ← lift (findRun target runID);
  incidentIDs ← lift (mergedNonBlank (run_IncidentIDs run) [incidentID]);
  let target := bump_target (put_run target i (run <| run_IncidentIDs := incidentIDs |>)) now in
  appendControl "target" (target_ID target) "target_run.incident_linked" (target_Revision target)
    (PTarget target).
Definition link_exec (execution : ExecRecord) (incidentID : string) (now : time) : M unit :=
  incidentIDs ← lift (mergedNonBlank (exec_IncidentIDs execution) [incidentID]);
  let execution := execution <| exec_IncidentIDs := incidentIDs |>
                     <| exec_Revision := u64 (exec_Revision execution + 1) |>
                     <| exec_UpdatedAt := now |> in
  appendControl "exec" (exec_ID execution) "exec.incident_linked" (exec_Revision execution) (PExec execution).

Definition create_incident_handler (request : CreateIncidentRequest) (m : incident_models) : M response :=
  c ← getCore;
  '(execution, target) ← lift (incident_scope c request);
  now ← clock;
  incidentID ← newID;
  model ← lift (NewIncident (mkIncidentSpec incidentID (cinc_Classification request) (im_sessionID m)
    (im_leaseID m) (im_agentID m) (cinc_AgentGeneration request) (im_execID m) (im_targetID m)
    (cinc_TargetGeneration request) (im_runID m) (cinc_Trigger request) (cinc_LastKnownState request)
    (im_cause m) (im_metrics m) (cinc_FirstRelevantCursor request) (cinc_LastRelevantCursor request)
    (im_coverage m) (im_bundleID m) (im_artifacts m) [] [] now));
  let incident := mkIncidentRecord (id_String prefix_incident incidentID) (cinc_Classification request)
    (cinc_SessionID request) (cinc_LeaseID request) (cinc_AgentWorkspaceID request)
    (cinc_AgentGeneration request) (cinc_ExecID request) (cinc_TargetID request)
    (cinc_TargetGeneration request) (cinc_TargetRunID request) (cinc_Trigger request)
    (cinc_LastKnownState request) (cinc_Cause request) (cinc_HighWaterMetrics request)
    (cinc_FirstRelevantCursor request) (cinc_LastRelevantCursor request) (cinc_Coverage request)
    (cinc_ObservationBundleID request) (cinc_Artifacts request) [] [] (i_state model) (i_revision model)
    now now in
  _ ← appendControl "incident" (inc_ID incident) "incident.opened" (inc_Revision incident) (PIncident incident);
  _ ← match target with
      | Some target => if bool_decide (cinc_TargetRunID request = "") then mret tt
                       else link_run target (cinc_TargetRunID request) (inc_ID incident) now
      | None => mret tt
      end;
  _ ← match execution with
      | Some execution => link_exec execution (inc_ID incident) now
      | None => mret tt
      end;
  mret (RIncidentID (inc_ID incident)).

Definition CreateIncident (ctx : option time) (request : CreateIncidentRequest) : M IncidentRecord :=
  now ← clock;
  _ ← lift (MutationMeta_Validate (cinc_Meta request) ctx now);
  _ ← guard (negb (negb (IncidentClassification_IsValid (cinc_Classification request))
                   || blank (cinc_Trigger request) || blank (cinc_LastKnownState request)))
        (invalidArgument "incident.create" "classification_trigger_state");
  models ← lift (create_incident_models request);
  _ ← syncLocked;
  '(r, _) ← RunIdempotent "create_incident" (meta_IdempotencyKey (cinc_Meta request))
    (request_bytes (QCreateIncident (request <| cinc_Meta := stableMeta (cinc_Meta request) |>)))
    (create_incident_handler request models);
  _ ← syncLocked;
  incidentID ← decode_response (fun r => match r with RIncidentID id => Some id | _ => None end) r;
  c ← getCore;
  mret (default zero_incident (core_incidents c !! incidentID)).

(** ** [transitionIncident] *)
Definition transition_incident_handler (operation : string) (request : TransitionIncidentRequest)
    (recoveryCompletion : bool) : M response :=
  c ← getCore;
  incident ← lift (from_option_err ErrNotFound (core_incidents c !! tinc_IncidentID request));
  _ ← guard (inc_Revision incident =? tinc_ExpectedRevision request)%N ErrRevisionConflict;
  _ ← guard (negb (bool_decide (tinc_State request = IncidentEvidenceSealed)
                   && (length (inc_Artifacts incident) =? 0)%nat
                   && bool_decide (inc_ObservationBundleID incident = "")))
        (failedPrecondition operation "evidence");
  _ ← guard (negb (bool_decide (inc_State incident = IncidentRecovering)
                   && bool_decide (tinc_State request = IncidentResolved) && negb recoveryCompletion))
        (failedPrecondition operation "state");
  _ ← (if recoveryCompletion then
         _ ← guard (bool_decide (inc_State incident = IncidentRecovering)) (failedPrecondition operation "state");
         _ ← guard (stringSetContainsAll (tinc_RecoveryActions request) (inc_RecoveryActions incident)
                    && stringSetContainsAll (tinc_VisibilityAcknowledgements request)
                         (inc_VisibilityAcknowledgements incident))
               (NewError CodeIntegrityViolation operation "history");
         lift (requireExactPhysicalRecoveryCompletion (inc_RecoveryActions incident)
                 (tinc_RecoveryActions request))
       else mret tt);
  _ ← lift (RequireIncidentTransition (inc_State incident) (tinc_State request));
  now ← clock;
  let incident := update_incident incident (tinc_State request) now (inc_ObservationBundleID incident)
    (inc_Artifacts incident) (tinc_RecoveryActions request) (tinc_VisibilityAcknowledgements request) in
  _ ← appendControl "incident" (inc_ID incident) "incident.transitioned" (inc_Revision incident)
        (PIncident incident);
  mret (RIncident incident).

Definition transitionIncident (ctx : option time) (operation namespace : string)
    (request : TransitionIncidentRequest) (recoveryCompletion : bool) : M IncidentRecord :=
  now ← clock;
  _ ← lift (MutationMeta_Validate (tinc_Meta request) ctx now);
  _ ← lift (parseID prefix_incident (tinc_IncidentID request));
  _ ← guard (negb (bool_decide (tinc_State request = IncidentRecovering)))
        (failedPrecondition operation "state");
  actions ← lift (normalizedNonBlank (tinc_RecoveryActions request));
  acknowledgements ← lift (normalizedNonBlank (tinc_VisibilityAcknowledgements request));
  let request := request <| tinc_RecoveryActions := actions |>
                   <| tinc_VisibilityAcknowledgements := acknowledgements |> in
  _ ← syncLocked;
  '(r, _) ← RunIdempotent namespace (meta_IdempotencyKey (tinc_Meta request))
    (request_bytes (QTransitionIncident (request <| tinc_Meta := stableMeta (tinc_Meta request) |>)))
    (transition_incident_handler operation request recoveryCompletion);
  _ ← syncLocked;
  decode_response (fun r => match r with RIncident v => Some v | _ => None end) r.

Definition TransitionIncident (ctx : option time) (request : TransitionIncidentRequest) : M IncidentRecord :=
  transitionIncident ctx "incident.transition" "transition_incident" request false.
Definition CompleteIncidentRecovery (ctx : option time) (request : TransitionIncidentRequest)
  : M IncidentRecord :=
  let operation := "incident.complete_recovery" in
  _ ← guard (bool_decide (tinc_State request = IncidentResolved)) (invalidArgument operation "state");
  transitionIncident ctx operation "complete_incident_recovery" request true.

(** ** [RecoverIncident] *)
Definition recoverTargetGeneration (incidentID : uuidV7) (incident : IncidentRecord) (lease : LeaseRecord)
    (now : time) : M TargetRecord :=
  let operation := "incident.recover_target" in
  c ← getCore;
  _ ← guard (negb (bool_decide (inc_TargetID incident = "") || (inc_TargetGeneration incident =? 0)%N))
        (failedPrecondition operation "incident");
  target ← lift (from_option_err ErrScope (core_targets c !! inc_TargetID incident));
  _ ← guard (bool_decide (target_SessionID target = inc_SessionID incident)
             && bool_decide (target_LeaseID target = lease_ID lease)) ErrScope;
  _ ← guard (target_CurrentGeneration target =? inc_TargetGeneration incident)%N
        (failedPrecondition operation "target_generation");
  _ ← lift (res_each (fun _ run =>
        if negb (run_Generation run =? target_CurrentGeneration target)%N then Ok tt else
        check (negb (negb (TargetRunState_Terminal (run_State run)) || bool_decide (run_BundleID run = "")))
          (failedPrecondition operation "target_run")) 0 (target_Runs target));
  '(i, old) ← lift (findTargetGeneration target (target_CurrentGeneration target));
  path ← lift (targetGenerationRetirementPath (tgen_State old));
  target ← appendTargetGenerationTransitions target i old path "target_generation.recovery_retirement" now;
  policyDigest ← lift (ParseDigest (tgen_PolicyDigest old));
  capabilityDigest ← lift (ParseDigest (tgen_CapabilityDigest old));
  let newGeneration := u64 (tgen_Generation old + 1) in
  targetID ← lift (requireStoredID "target.id" (target_ID target) prefix_target);
  model ← lift (Domain.NewTargetGeneration (Domain.mkTargetGenerationSpec targetID newGeneration
    policyDigest capabilityDigest (tgen_Generation old) incidentID now));
  let generation := mkTargetGenerationRecord newGeneration (tgen_PolicyDigest old)
    (tgen_CapabilityDigest old) "" "" (tgen_Generation old) (inc_ID incident)
    (Domain.tg_state model) (Domain.tg_revision model) now now in
  let target := bump_target (target <| target_CurrentGeneration := newGeneration |>
                  <| target_Generations := target_Generations target ++ [generation] |>) now in
  _ ← appendControl "target" (target_ID target) "target_generation.recovery_created"
        (target_Revision target) (PTarget target);
  mret target.

Definition recoverAgentGeneration (incidentID : uuidV7) (incident : IncidentRecord) (lease : LeaseRecord)
    (now : time) : M (AgentWorkspaceRecord * LeaseRecord) :=
  let operation := "incident.recover_agent" in
  c ← getCore;
  _ ← guard (negb (bool_decide (inc_AgentWorkspaceID incident = "") || (inc_AgentGeneration incident =? 0)%N))
        (failedPrecondition operation "incident");
  agent ← lift (from_option_err ErrScope (core_agents c !! inc_AgentWorkspaceID incident));
  _ ← guard (bool_decide (agent_SessionID agent = inc_SessionID incident)
             && bool_decide (lease_AgentWorkspaceID lease = agent_ID agent)) ErrScope;
  _ ← guard ((agent_CurrentGeneration agent =? inc_AgentGeneration incident)%N
             && (lease_AgentGeneration lease =? inc_AgentGeneration incident)%N)
        (failedPrecondition operation "agent_generation");
  _ ← lift (res_each (fun _ execID =>
        let execution := default zero_exec (core_execs c !! execID) in
        check (negb ((exec_AgentGeneration execution =? agent_CurrentGeneration agent)%N
                     && negb (ExecState_Terminal (exec_State execution))))
          (failedPrecondition operation "exec")) 0 (execIDsForLease c (lease_ID lease)));
  _ ← lift (res_each (fun _ targetID =>
        res_each (fun _ run =>
          check (negb (bool_decide (run_AgentWorkspaceID run = agent_ID agent)
                       && (run_AgentGeneration run =? agent_CurrentGeneration agent)%N
                       && (negb (TargetRunState_Terminal (run_State run))
                           || bool_decide (run_BundleID run = ""))))
            (failedPrecondition operation "target_run"))
          0 (target_Runs (default zero_target (core_targets c !! targetID))))
        0 (targetIDsForLease c (lease_ID lease)));
  '(i, old) ← lift (findAgentGeneration agent (agent_CurrentGeneration agent));
  path ← lift (agentGenerationRetirementPath (agen_State old));
  agent ← appendAgentGenerationTransitions agent i old path "agent_generation.recovery_retirement" now;
  workspaceID ← newID;
  inputViewID ← lift (ParseInputViewID (agen_InputViewID old));
  policyDigest ← lift (ParseDigest (agen_PolicyDigest old));
  capabilityDigest ← lift (ParseDigest (agen_CapabilityDigest old));
  let newGeneration := u64 (agen_Generation old + 1) in
  agentID ← lift (requireStoredID "agent_workspace.id" (agent_ID agent) prefix_agentWorkspace);
  model ← lift (Domain.NewAgentWorkspaceGeneration (Domain.mkAgentWorkspaceGenerationSpec agentID
    newGeneration workspaceID inputViewID policyDigest capabilityDigest (agen_Generation old) incidentID now));
  let generation := mkAgentGenerationRecord newGeneration (id_String prefix_workspace workspaceID)
    (agen_InputViewID old) (agen_PolicyDigest old) (agen_CapabilityDigest old) "" "" ""
    (agen_Generation old) (inc_ID incident) (Domain.ag_state model) (Domain.ag_revision model) now now in
  let agent := bump_agent (agent <| agent_CurrentGeneration := newGeneration |>
                 <| agent_Generations := agent_Generations agent ++ [generation] |>) now in
  _ ← appendControl "agent_workspace" (agent_ID agent) "agent_generation.recovery_created"
        (agent_Revision agent) (PAgent agent);
  let lease := lease <| lease_AgentGeneration := newGeneration |>
                 <| lease_Revision := u64 (lease_Revision lease + 1) |>
                 <| lease_UpdatedAt := now |> in
  _ ← appendControl "lease" (lease_ID lease) "lease.agent_generation_changed" (lease_Revision lease)
        (PLease lease);
  mret (agent, lease).

Definition recover_incident_handler (request : RecoverIncidentRequest) (incidentID : uuidV7) : M response :=
  let operation := "incident.recover" in
  c ← getCore;
  incident ← lift (from_option_err ErrNotFound (core_incidents c !! rinc_IncidentID request));
  _ ← guard (inc_Revision incident =? rinc_ExpectedIncidentRevision request)%N ErrRevisionConflict;
  _ ← guard (bool_decide (inc_State incident = IncidentEvidenceSealed))
        (failedPrecondition operation "incident");
  lease ← lift (from_option_err ErrScope (core_leases c !! inc_LeaseID incident));
  _ ← guard (bool_decide (lease_SessionID lease = inc_SessionID incident)) ErrScope;
  at_ ← clock;
  _ ← lift (requireLeaseActive lease at_);
  now ← clock;
  _ ← lift (RequireIncidentTransition (inc_State incident) IncidentRecovering);
  actions ← lift (mergedNonBlank (inc_RecoveryActions incident)
                    [RecoveryResource_string (rinc_Resource request) +:+ ":" +:+ rinc_Strategy request]);
  acknowledgements ← lift (mergedNonBlank (inc_VisibilityAcknowledgements incident)
                             [rinc_VisibilityAcknowledgement request]);
  let incident := update_incident incident IncidentRecovering now (inc_ObservationBundleID incident)
                    (inc_Artifacts incident) actions acknowledgements in
  _ ← appendControl "incident" (inc_ID incident) "incident.recovery_started" (inc_Revision incident)
        (PIncident incident);
  match rinc_Resource request with
  | RecoveryResourceTarget =>
      target ← recoverTargetGeneration incidentID incident lease now;
      mret (RRecovery (mkRecoveryOutcome incident (Some target) None None))
  | RecoveryResourceAgent =>
      '(agent, updatedLease) ← recoverAgentGeneration incidentID incident lease now;
      mret (RRecovery (mkRecoveryOutcome incident None (Some agent) (Some updatedLease)))
  | RecoveryResourceUnrecognized _ => mret (RRecovery (mkRecoveryOutcome incident None None None))
  end.

Definition RecoverIncident (ctx : option time) (request : RecoverIncidentRequest) : M RecoveryOutcome :=
  now ← clock;
  _ ← lift (MutationMeta_Validate (rinc_Meta request) ctx now);
  incidentID ← lift (parseID prefix_incident (rinc_IncidentID request));
  let request := request <| rinc_Strategy := TrimSpace (rinc_Strategy request) |>
                   <| rinc_VisibilityAcknowledgement := TrimSpace (rinc_VisibilityAcknowledgement request) |> in
  _ ← guard (negb (negb (RecoveryResource_valid (rinc_Resource request))
                   || bool_decide (rinc_Strategy request = "")
                   || bool_decide (rinc_VisibilityAcknowledgement request = "")))
        (invalidArgument "incident.recover" "recovery");
  _ ← syncLocked;
  '(r, _) ← RunIdempotent "recover_incident" (meta_IdempotencyKey (rinc_Meta request))
    (request_bytes (QRecoverIncident (request <| rinc_Meta := stableMeta (rinc_Meta request) |>)))
    (recover_incident_handler request incidentID);
  _ ← syncLocked;
  decode_response (fun r => match r with RRecovery v => Some v | _ => None end) r.

(** ** [SealRunIncidents] *)
Fixpoint seal_incidents (c : Core) (request : SealRunIncidentsRequest) (target : TargetRecord)
    (run : TargetRunRecord) (now : time) (incidentIDs : list string) : M unit :=
  let operation := "incident.seal_run_evidence" in
  match incidentIDs with
  | [] => mret tt
  | incidentID :: rest =>
      incident ← lift (from_option_err ErrNotFound (core_incidents c !! incidentID));
      _ ← guard (negb (negb (bool_decide (inc_SessionID incident = target_SessionID target))
                       || negb (bool_decide (inc_LeaseID incident = target_LeaseID target))
                       || negb (bool_decide (inc_TargetID incident = target_ID target))
                       || negb (bool_decide (inc_TargetRunID incident = run_ID run))
                       || negb (inc_TargetGeneration incident =? run_Generation run)%N)) ErrScope;
      _ ← (if bool_decide (inc_State incident = IncidentEvidenceSealed) then
             guard (incidentHasBundleEvidence incident (seal_BundleID request) (seal_BundleArtifact request))
               (NewError CodeIntegrityViolation operation "incident")
           else
             _ ← guard (bool_decide (inc_State incident = IncidentOpen)) (failedPrecondition operation "incident");
             _ ← guard (negb (negb (bool_decide (inc_ObservationBundleID incident = ""))
                              && negb (bool_decide (inc_ObservationBundleID incident = seal_BundleID request))))
                   (NewError CodeIntegrityViolation operation "observation_bundle_id");
             artifacts ← lift (appendExactIncidentArtifact (inc_Artifacts incident) (seal_BundleArtifact request));
             _ ← lift (RequireIncidentTransition (inc_State incident) IncidentEvidenceSealed);
             let incident := update_incident incident IncidentEvidenceSealed now (seal_BundleID request)
                   artifacts (inc_RecoveryActions incident) (inc_VisibilityAcknowledgements incident) in
             appendControl "incident" (inc_ID incident) "incident.evidence_sealed" (inc_Revision incident)
               (PIncident incident));
      seal_incidents c request target run now rest
  end.

Definition seal_handler (request : SealRunIncidentsRequest) : M response :=
  c ← getCore;
  target ← lift (from_option_err ErrNotFound (core_targets c !! seal_TargetID request));
  '(_, run) ← lift (findRun target (seal_RunID request));
  _ ← guard (negb (negb (TargetRunState_Terminal (run_State run))
                   || negb (bool_decide (run_BundleID run = seal_BundleID request))
                   || negb (bool_decide (run_BundleArtifact run = art_Reference (seal_BundleArtifact request)))
                   || negb (bool_decide (run_BundleDigest run = art_Digest (seal_BundleArtifact request)))))
        (failedPrecondition "incident.seal_run_evidence" "target_run");
  now ← clock;
  _ ← seal_incidents c request target run now (seal_IncidentIDs request);
  mret (RSealed (seal_IncidentIDs request)).

Definition SealRunIncidents (ctx : option time) (request : SealRunIncidentsRequest) : M (list IncidentRecord) :=
  let operation := "incident.seal_run_evidence" in
  now ← clock;
  _ ← lift (MutationMeta_Validate (seal_Meta request) ctx now);
  _ ← lift (parseID prefix_target (seal_TargetID request));
  _ ← lift (parseID prefix_targetRun (seal_RunID request));
  _ ← lift (parseID prefix_bundle (seal_BundleID request));
  artifact ← lift (incidentArtifactModel (seal_BundleArtifact request));
  _ ← guard (bool_decide (as_Role artifact = "observation-bundle"))
        (invalidArgument operation "bundle_artifact.role");
  incidentIDs ← lift (normalizedNonBlank (seal_IncidentIDs request));
  let request := request <| seal_IncidentIDs := incidentIDs |> in
  _ ← guard (negb (length (seal_IncidentIDs request) =? 0)%nat) (invalidArgument operation "incident_ids");
  _ ← lift (res_each (fun _ incidentID => _ ← parseID prefix_incident incidentID; Ok tt) 0
              (seal_IncidentIDs request));
  _ ← syncLocked;
  '(r, _) ← RunIdempotent "seal_run_incidents" (meta_IdempotencyKey (seal_Meta request))
    (request_bytes (QSealIncidents (request <| seal_Meta := stableMeta (seal_Meta request) |>)))
    (seal_handler request);
  _ ← syncLocked;
  ids ← decode_response (fun r => match r with RSealed ids => Some ids | _ => None end) r;
  c ← getCore;
  lift (res_map (fun _ incidentID =>
          from_option_err (NewError CodeIntegrityViolation operation "incident")
            (core_incidents c !! incidentID)) 0 ids).
End Incidents.
