(* ===== verification/Completion.v ===== *)
(** * Completing a termination

    The retirement paths follow the lifecycle tables to a terminal state, and a
    termination that completes has found all work of the lease finished and
    leaves the lease, its session, its workspace and all its targets terminal in
    the journal.  Then the pure set and list routines: what [normalizedNonBlank],
    [requireExactPhysicalRecoveryCompletion], [appendExactIncidentArtifact] and
    [ListLeaseTerminationWork] compute, stated without their loops. *)
From Stdlib Require Import Ascii.
From S2P Require Import Prelude Errors Sha256 GoStrings Utf8Facts States Values Ids Models Records Store StoreFacts Requests.
From S2P Require Import Machine Replay Sync Advance Integrity Refs Sessions Targets Termination Incidents.
(** A chain of allowed transitions through the listed states. *)
Fixpoint chain {S} `{Lifecycle S} (s : S) (path : list S) : Prop :=
  match path with
  | [] => True
  | t :: rest => lc_step s t /\ chain t rest
  end.

(** Where a path from [s] ends. *)
Definition path_end {S} (s : S) (path : list S) : S := fold_left (fun _ t => t) path s.

(** Every recognised generation state can be retired: both retirement
    paths are defined on it, each step of the path is an allowed transition,
    and the path ends in a terminal state; an unrecognised state is refused. *)
Theorem retirement_paths_end_terminal :
  (forall s : AgentGenerationState, lc_valid s = is_ok (agentGenerationRetirementPath s) /\
     (forall path, agentGenerationRetirementPath s = Ok path ->
        chain s path /\ lc_terminal (path_end s path) = true)) /\
  (forall s : TargetGenerationState, lc_valid s = is_ok (targetGenerationRetirementPath s) /\
     (forall path, targetGenerationRetirementPath s = Ok path ->
        chain s path /\ lc_terminal (path_end s path) = true)).
Proof.
  split; intros []; (split; [reflexivity|]); intros path [= <-]; vm_compute; tauto.
Qed.

Lemma agent_path_terminal s path : agentGenerationRetirementPath s = Ok path ->
  AgentGenerationState_Terminal (path_end s path) = true.
Proof. destruct s; intros [= <-]; reflexivity. Qed.
Lemma target_path_terminal s path : targetGenerationRetirementPath s = Ok path ->
  TargetGenerationState_Terminal (path_end s path) = true.
Proof. destruct s; intros [= <-]; reflexivity. Qed.

(** The current generation is terminal. *)
Definition target_retired (t : TargetRecord) : Prop :=
  exists i g, findTargetGeneration t (target_CurrentGeneration t) = Ok (i, g) /\
    TargetGenerationState_Terminal (tgen_State g) = true.
Definition agent_retired (a : AgentWorkspaceRecord) : Prop :=
  exists i g, findAgentGeneration a (agent_CurrentGeneration a) = Ok (i, g) /\
    AgentGenerationState_Terminal (agen_State g) = true.

(** Replacing the found element by one with the same key finds the new one. *)
Lemma find_index_update {T} (p : T -> bool) l i x y :
  find_index p l = Some (i, x) -> p y = true -> find_index p (<[i := y]> l) = Some (i, y).
Proof.
  unfold find_index. rewrite !list_find_Some. intros (Hx & _ & Before) Py.
  split; [apply list_lookup_insert_eq; by eapply lookup_lt_Some|]. split; [done|].
  intros j z Hz Lj. rewrite list_lookup_insert_ne in Hz by lia. by eapply Before.
Qed.

Section Completion.
Context `{Env}.

(** The rows a body has added. *)
Definition added (w w' : World) (rows : list (ControlRecord payload)) : Prop :=
  st_records (w_store w') = st_records (w_store w) ++ rows.

Lemma added_nil w w' : same_state w w' -> added w w' [].
Proof. intros [Es _]. unfold added. by rewrite Es, app_nil_r. Qed.
Lemma added_trans w1 w2 w3 rows1 rows2 :
  added w1 w2 rows1 -> added w2 w3 rows2 -> added w1 w3 (rows1 ++ rows2).
Proof. unfold added. intros E1 E2. by rewrite E2, E1, app_assoc. Qed.

Lemma append_added kind id event revision value w u w' :
  appendControl kind id event revision value w = (Ok u, w') ->
  w_core w' = w_core w /\ exists row, added w w' [row] /\ cr_AggregateKind row = kind /\
    cr_AggregateID row = id /\ cr_Payload row = value.
Proof.
  intros E. apply appendControl_inv in E as [C [(row & Er & ? & ? & ? & ?) _ _]].
  split; [done|]. by exists row.
Qed.

(** The last row for an aggregate among the added ones. *)
Definition latest_of (kind id : string) (rows : list (ControlRecord payload)) : option payload :=
  cr_Payload <$> last (rows_of kind id rows).

Lemma latest_of_snoc kind id rows row :
  latest_of kind id (rows ++ [row]) =
  if of_aggregate kind id row then Some (cr_Payload row) else latest_of kind id rows.
Proof.
  unfold latest_of. rewrite rows_of_snoc. destruct (of_aggregate _ _ _); [by rewrite last_snoc|by rewrite app_nil_r].
Qed.
Lemma latest_of_app kind id rows1 rows2 :
  latest_of kind id (rows1 ++ rows2) =
  match latest_of kind id rows2 with Some p => Some p | None => latest_of kind id rows1 end.
Proof.
  induction rows2 as [|r rows2 IH] using rev_ind; [by rewrite app_nil_r|].
  rewrite app_assoc, !latest_of_snoc. by destruct (of_aggregate _ _ _).
Qed.

Lemma of_aggregate_true kind id (row : ControlRecord payload) : of_aggregate kind id row = true <->
  cr_AggregateKind row = kind /\ cr_AggregateID row = id.
Proof. unfold of_aggregate. by rewrite andb_true_iff, !bool_decide_eq_true. Qed.

Lemma latest_of_none kind id (rows : list (ControlRecord payload)) :
  (forall r, r ∈ rows -> cr_AggregateKind r <> kind \/ cr_AggregateID r <> id) ->
  latest_of kind id rows = None.
Proof.
  induction rows as [|r rows IH] using rev_ind; [done|]. intros F. rewrite latest_of_snoc, IH by set_solver.
  destruct (of_aggregate kind id r) eqn:E; [|done]. apply of_aggregate_true in E.
  destruct (F r); [set_solver|tauto..].
Qed.

Lemma latest_of_single kind id (row : ControlRecord payload) :
  cr_AggregateKind row = kind -> cr_AggregateID row = id ->
  latest_of kind id [row] = Some (cr_Payload row).
Proof.
  intros K I. change [row] with ([] ++ [row]). rewrite latest_of_snoc.
  by rewrite (proj2 (of_aggregate_true _ _ _)).
Qed.

(** ** One generation *)
Lemma found_tgen target i g s at_ :
  findTargetGeneration target (target_CurrentGeneration target) = Ok (i, g) ->
  findTargetGeneration (bump_target (put_tgen target i (move_tgen g s at_)) at_)
    (target_CurrentGeneration (bump_target (put_tgen target i (move_tgen g s at_)) at_)) =
  Ok (i, move_tgen g s at_).
Proof.
  unfold findTargetGeneration. rewrite !from_option_err_ok. intros F.
  eapply find_index_update; [exact F|]. apply list_find_Some in F as (_ & Q & _). exact Q.
Qed.
Lemma target_transitions_added target i g states event at_ w t' w' :
  findTargetGeneration target (target_CurrentGeneration target) = Ok (i, g) ->
  appendTargetGenerationTransitions target i g states event at_ w = (Ok t', w') ->
  w_core w' = w_core w /\ exists rows, added w w' rows /\
    (forall r, r ∈ rows -> cr_AggregateKind r = "target" /\ cr_AggregateID r = target_ID target) /\
    default (PTarget target) (latest_of "target" (target_ID target) rows) = PTarget t' /\
    target_ID t' = target_ID target /\
    exists g', findTargetGeneration t' (target_CurrentGeneration t') = Ok (i, g') /\
      tgen_State g' = path_end (tgen_State g) states.
Proof.
  revert target g w. induction states as [|s states IH]; intros target g w F E;
    cbn [appendTargetGenerationTransitions] in E.
  - inv_M E. split; [done|]. exists []. split; [by apply added_nil|]. split; [set_solver|].
    split; [done|]. split; [done|]. exists g. done.
  - inv_M E. apply append_added in E1 as (C1 & row & A1 & K1 & I1 & P1).
    change (target_ID (bump_target _ _)) with (target_ID target) in *.
    apply IH in E as (C2 & rows & A2 & R2 & L2 & Id2 & g' & F2 & S2); [|by apply found_tgen].
    change (target_ID (bump_target _ _)) with (target_ID target) in *.
    split; [congruence|]. exists ([row] ++ rows). split; [by eapply added_trans|].
    split; [intros r [->%list_elem_of_singleton|Hr]%elem_of_app; auto|]. split; [|split; [done|]].
    + rewrite latest_of_app. destruct (latest_of _ _ rows); [done|].
      rewrite latest_of_single by done. rewrite P1. exact L2.
    + by exists g'.
Qed.

Lemma found_agen agent i g s at_ :
  findAgentGeneration agent (agent_CurrentGeneration agent) = Ok (i, g) ->
  findAgentGeneration (bump_agent (put_agen agent i (move_agen g s at_)) at_)
    (agent_CurrentGeneration (bump_agent (put_agen agent i (move_agen g s at_)) at_)) =
  Ok (i, move_agen g s at_).
Proof.
  unfold findAgentGeneration. rewrite !from_option_err_ok. intros F.
  eapply find_index_update; [exact F|]. apply list_find_Some in F as (_ & Q & _). exact Q.
Qed.

Lemma agent_transitions_added agent i g states event at_ w a' w' :
  findAgentGeneration agent (agent_CurrentGeneration agent) = Ok (i, g) ->
  appendAgentGenerationTransitions agent i g states event at_ w = (Ok a', w') ->
  w_core w' = w_core w /\ exists rows, added w w' rows /\
    (forall r, r ∈ rows -> cr_AggregateKind r = "agent_workspace" /\ cr_AggregateID r = agent_ID agent) /\
    default (PAgent agent) (latest_of "agent_workspace" (agent_ID agent) rows) = PAgent a' /\
    agent_ID a' = agent_ID agent /\
    exists g', findAgentGeneration a' (agent_CurrentGeneration a') = Ok (i, g') /\
      agen_State g' = path_end (agen_State g) states.
Proof.
  revert agent g w. induction states as [|s states IH]; intros agent g w F E;
    cbn [appendAgentGenerationTransitions] in E.
  - inv_M E. split; [done|]. exists []. split; [by apply added_nil|]. split; [set_solver|].
    split; [done|]. split; [done|]. exists g. done.
  - inv_M E. apply append_added in E1 as (C1 & row & A1 & K1 & I1 & P1).
    change (agent_ID (bump_agent _ _)) with (agent_ID agent) in *.
    apply IH in E as (C2 & rows & A2 & R2 & L2 & Id2 & g' & F2 & S2); [|by apply found_agen].
    change (agent_ID (bump_agent _ _)) with (agent_ID agent) in *.
    split; [congruence|]. exists ([row] ++ rows). split; [by eapply added_trans|].
    split; [intros r [->%list_elem_of_singleton|Hr]%elem_of_app; auto|]. split; [|split; [done|]].
    + rewrite latest_of_app. destruct (latest_of _ _ rows); [done|].
      rewrite latest_of_single by done. rewrite P1. exact L2.
    + by exists g'.
Qed.

(** ** All targets of the lease *)
Definition target_left_retired (rows : list (ControlRecord payload)) (t : TargetRecord) : Prop :=
  exists t', default (PTarget t) (latest_of "target" (target_ID t) rows) = PTarget t' /\ target_retired t'.

Lemma retire_targets_added c now ids w u w' :
  keyed target_ID (core_targets c) -> NoDup ids ->
  retire_targets c now ids w = (Ok u, w') ->
  w_core w' = w_core w /\ exists rows, added w w' rows /\
    (forall r, r ∈ rows -> cr_AggregateKind r = "target" /\ cr_AggregateID r ∈ ids) /\
    forall id, id ∈ ids -> exists t, core_targets c !! id = Some t /\ target_left_retired rows t.
Proof.
  intros K. revert w. induction ids as [|id ids IH]; intros w ND E; cbn [retire_targets] in E.
  - inv_M E. split; [done|]. exists []. split; [by apply added_nil|]. split; set_solver.
  - apply NoDup_cons in ND as [Nid ND]. inv_M E. rewrite from_option_err_ok in E0.
    destruct x0 as [i g]. inv_M E. pose proof (K _ _ E0) as Ki.
    destruct (target_transitions_added _ _ _ _ _ _ _ _ _ E1 E3)
      as (C1 & rows1 & A1 & R1 & L1 & Id1 & g' & F1 & S1).
    destruct (IH _ ND E) as (C2 & rows2 & A2 & R2 & T2). split; [congruence|].
    exists (rows1 ++ rows2). split; [by eapply added_trans|].
    split. { intros r [Hr|Hr]%elem_of_app; [destruct (R1 _ Hr) as [-> ->]|destruct (R2 _ Hr)];
               (split; [done|]); set_solver. }
    intros j [->|Hj]%elem_of_cons.
    + exists x. split; [done|]. exists x1. split.
      * rewrite latest_of_app, (latest_of_none _ _ rows2); [done|].
        intros r Hr. right. destruct (R2 _ Hr) as [_ Q]. congruence.
      * exists i, g'. split; [done|]. rewrite S1. by apply target_path_terminal.
    + destruct (T2 _ Hj) as (t & Lt & t' & Dt & Rt). exists t. split; [done|]. exists t'. split; [|done].
      rewrite latest_of_app. pose proof (K _ _ Lt) as Kt.
      rewrite (latest_of_none _ _ rows1); [|intros r Hr; right; destruct (R1 _ Hr) as [_ Q]; congruence].
      by destruct (latest_of _ _ rows2).
Qed.

(** ** The work of a lease *)
Lemma elem_sorted_ids {V} (p : V -> bool) (m : gmap string V) k :
  k ∈ sort_Strings (fst <$> List.filter (fun '(_, v) => p v) (map_to_list m)) <->
  exists v, m !! k = Some v /\ p v = true.
Proof.
  unfold sort_Strings. rewrite merge_sort_Permutation, list_elem_of_fmap. split.
  - intros ([k' v] & -> & I). apply list_elem_of_In, List.filter_In in I as [I P].
    apply list_elem_of_In, elem_of_map_to_list in I. eauto.
  - intros (v & L & P). exists (k, v). split; [done|]. apply list_elem_of_In, List.filter_In.
    split; [|done]. by apply list_elem_of_In, elem_of_map_to_list.
Qed.
Lemma NoDup_sorted_ids {V} (p : V -> bool) (m : gmap string V) :
  NoDup (sort_Strings (fst <$> List.filter (fun '(_, v) => p v) (map_to_list m))).
Proof.
  unfold sort_Strings. rewrite merge_sort_Permutation.
  eapply sublist_NoDup; [apply (NoDup_fst_map_to_list m)|]. apply fmap_sublist.
  induction (map_to_list m) as [|[k v] l IH]; cbn; [constructor|].
  destruct (p v); [by apply sublist_skip|by apply sublist_cons].
Qed.

Record lease_work_finished (c : Core) (leaseID : string) : Prop := {
  lw_execs : forall k e, core_execs c !! k = Some e -> exec_LeaseID e = leaseID ->
    ExecState_Terminal (exec_State e) = true;
  lw_runs : forall k t r, core_targets c !! k = Some t -> target_LeaseID t = leaseID ->
    r ∈ target_Runs t -> TargetRunState_Terminal (run_State r) = true;
  lw_operations : forall k t o, core_targets c !! k = Some t -> target_LeaseID t = leaseID ->
    o ∈ target_Operations t -> TargetOperationState_Terminal (op_State o) = true }.

Lemma work_finalized c op leaseID u :
  requireLeaseWorkFinalized c op leaseID = Ok u -> lease_work_finished c leaseID.
Proof.
  unfold requireLeaseWorkFinalized. intros E. inv_res E. destruct x, u.
  rewrite res_each_ok in E0. rewrite res_each_ok in E.
  assert (Ht : forall k t, core_targets c !! k = Some t -> target_LeaseID t = leaseID ->
    (forall r, r ∈ target_Runs t -> TargetRunState_Terminal (run_State r) = true) /\
    (forall o, o ∈ target_Operations t -> TargetOperationState_Terminal (op_State o) = true)).
  { intros k t L Et. assert (I : k ∈ targetIDsForLease c leaseID).
    { apply (elem_sorted_ids (fun t => bool_decide (target_LeaseID t = leaseID))).
      exists t. by rewrite bool_decide_true. }
    apply list_elem_of_lookup in I as [i I]. specialize (E _ _ I). rewrite L in E. inv_res E.
    destruct x. rewrite res_each_ok in E1. rewrite res_each_ok in E.
    split; [intros r Hr|intros o Ho]; [apply list_elem_of_lookup in Hr as [j Hr]; specialize (E1 _ _ Hr)
      |apply list_elem_of_lookup in Ho as [j Ho]; specialize (E _ _ Ho)]; by rewrite check_ok in *. }
  split; [|intros; by eapply Ht..].
  intros k e L Ee. assert (I : k ∈ execIDsForLease c leaseID).
  { apply (elem_sorted_ids (fun e => bool_decide (exec_LeaseID e = leaseID))).
    exists e. by rewrite bool_decide_true. }
  apply list_elem_of_lookup in I as [i I]. specialize (E0 _ _ I). rewrite L, check_ok in E0. done.
Qed.

(** C17: A termination completes only over finished work and leaves everything
    terminal.  When [completeLeaseTermination] succeeds, every exec, run and
    operation of the lease is in a terminal state in the projection; and
    according to the rows it appends, every target of the lease has a terminal
    current generation, so has the lease's workspace, the lease is released or
    expired with its termination record terminal, and the session is
    released. *)
Theorem termination_completes_cleanly w lease identity out w' :
  core_keyed (w_core w) -> completeLeaseTermination lease identity w = (Ok out, w') ->
  lease_work_finished (w_core w) (lease_ID lease) /\
  exists rows, st_records (w_store w') = st_records (w_store w) ++ rows /\
    (forall k t, core_targets (w_core w) !! k = Some t -> target_LeaseID t = lease_ID lease ->
       target_left_retired rows t) /\
    (exists a a', core_agents (w_core w) !! lease_AgentWorkspaceID lease = Some a /\
       default (PAgent a) (latest_of "agent_workspace" (agent_ID a) rows) = PAgent a' /\ agent_retired a') /\
    (exists l', latest_of "lease" (lease_ID lease) rows = Some (PLease l') /\
       LeaseState_Terminal (lease_State l') = true /\
       LeaseTerminationRecord_Terminal (lease_Termination l') = true) /\
    exists s', latest_of "session" (lease_SessionID lease) rows = Some (PSession s') /\
      session_State s' = ResearchSessionReleased.
Proof.
  intros K E. unfold completeLeaseTermination in E. inv_M E.
  apply work_finalized in E3 as Wf. split; [done|].
  rewrite from_option_err_ok in E4. rewrite from_option_err_ok in E5. apply clock_ok in E6 as [-> ->]. destruct x7 as [i g]. inv_M E.
  clear E0 E1 E2 E3 E10 E12. set (now := clock_at (w_tick w)) in *. clearbody now.
  set (expiry := bool_decide _) in *. clearbody expiry.
  pose proof (ck_sessions _ K _ _ E4) as Ks.
  apply retire_targets_added in E7 as (_ & rows1 & A1 & R1 & T1);
    [|by apply ck_targets|apply NoDup_sorted_ids].
  apply (agent_transitions_added _ _ _ _ _ _ _ _ _ E8) in E9
    as (_ & rows2 & A2 & R2 & L2 & _ & g' & F2 & S2).
  apply append_added in E11 as (_ & lrow & A3 & K3 & I3 & P3).
  apply append_added in E13 as (_ & srow & A4 & K4 & I4 & P4).
  change (lease_ID (completed_lease _ _ _ _ _)) with (lease_ID lease) in I3.
  change (session_ID (move_session _ _ _)) with (session_ID x3) in I4. rewrite Ks in I4.
  exists (rows1 ++ rows2 ++ [lrow] ++ [srow]).
  split; [exact (added_trans _ _ _ _ _ A1 (added_trans _ _ _ _ _ A2 (added_trans _ _ _ _ _ A3 A4)))|].
  assert (Tail : forall kind, kind <> "lease" -> kind <> "session" ->
    forall r, r ∈ [lrow] ++ [srow] -> cr_AggregateKind r <> kind).
  { intros kind N1 N2 r [->%list_elem_of_singleton| ->%list_elem_of_singleton]%elem_of_app; congruence. }
  split; [|split; [|split]].
  - intros k t Lt Et. destruct (T1 k) as (t0 & Lt0 & t' & Dt & Rt).
    { apply (elem_sorted_ids (fun t => bool_decide (target_LeaseID t = lease_ID lease))).
      exists t. by rewrite bool_decide_true. }
    simplify_eq. exists t'. split; [|done]. rewrite latest_of_app, latest_of_none; [done|].
    intros r Hr. left. apply elem_of_app in Hr as [Hr|Hr]; [by destruct (R2 _ Hr) as [-> _]|].
    by apply Tail.
  - exists x4, x7. split; [done|]. split; [|exists i, g'; rewrite S2; eauto using agent_path_terminal].
    rewrite latest_of_app, latest_of_app, (latest_of_none _ _ ([lrow] ++ [srow]))
      by (intros; left; by apply Tail).
    rewrite (latest_of_none _ _ rows1); [by destruct (latest_of _ _ rows2)|].
    intros r Hr. left. by destruct (R1 _ Hr) as [-> _].
  - eexists. split.
    + rewrite !latest_of_app, (latest_of_none _ _ [srow])
        by (intros r ->%list_elem_of_singleton; left; by rewrite K4).
      rewrite latest_of_single by done. by rewrite P3.
    + by destruct expiry.
  - exists (move_session x3 ResearchSessionReleased now). split; [|done].
    rewrite !latest_of_app, (latest_of_single _ _ srow) by done. by rewrite P4.
Qed.
End Completion.

(** ** [normalizedNonBlank] *)
Lemma normalized_loop acc values out :
  NoDup acc -> normalizedNonBlank_loop acc values = Ok out <->
  (forall v, v ∈ values -> TrimSpace v <> "") /\
  exists set, out = sort_Strings set /\ NoDup set /\
    forall x, x ∈ set <-> x ∈ acc \/ x ∈ (TrimSpace <$> values).
Proof.
  revert acc. induction values as [|v values IH]; intros acc N; cbn [normalizedNonBlank_loop].
  - split.
    + intros [= <-]. split; [set_solver|]. exists acc. set_solver.
    + intros (_ & set & -> & Ns & E). f_equal. apply sorted_unique;
        [apply sort_Strings_sorted..|by rewrite sort_Strings_Permutation|by rewrite sort_Strings_Permutation|].
      intros x. rewrite !sort_Strings_Permutation, E. set_solver.
  - rewrite check_bind_ok, negb_true_iff, bool_decide_eq_false. case_bool_decide as I.
    + rewrite (IH acc) by done. split.
      * intros (V & F & set & -> & Ns & E). split; [set_solver|]. exists set. split; [done|]. split; [done|].
        intros x. rewrite E. set_solver.
      * intros (F & set & -> & Ns & E). split; [set_solver|]. split; [set_solver|].
        exists set. split; [done|]. split; [done|]. intros x. rewrite E. set_solver.
    + rewrite (IH (acc ++ [TrimSpace v])).
      2: { apply NoDup_app. split; [done|]. split; [set_solver|apply NoDup_singleton]. }
      split.
      * intros (V & F & set & -> & Ns & E). split; [set_solver|]. exists set. split; [done|]. split; [done|].
        intros x. rewrite E. set_solver.
      * intros (F & set & -> & Ns & E). split; [set_solver|]. split; [set_solver|].
        exists set. split; [done|]. split; [done|]. intros x. rewrite E. set_solver.
Qed.

(** [normalizedNonBlank] canonicalises a set of names: it succeeds exactly
    when no value is blank, and then returns the one strictly increasing list of
    the trimmed values.  So two lists with the same trimmed values normalise to
    the same list, whatever their order and repetitions. *)
Theorem normalizedNonBlank_canonical values out :
  normalizedNonBlank values = Ok out <->
  (forall v, v ∈ values -> TrimSpace v <> "") /\
  Sorted string_le out /\ NoDup out /\ forall x, x ∈ out <-> x ∈ (TrimSpace <$> values).
Proof.
  unfold normalizedNonBlank. rewrite normalized_loop by constructor. split.
  - intros (F & set & -> & N & E). split; [done|]. split; [apply sort_Strings_sorted|].
    rewrite sort_Strings_Permutation. split; [done|]. intros x. rewrite sort_Strings_Permutation, E. set_solver.
  - intros (F & S & N & E). split; [done|]. exists out. split; [|split; [done|set_solver]].
    apply sorted_unique; [done|apply sort_Strings_sorted|done|by rewrite sort_Strings_Permutation|].
    intros x. by rewrite sort_Strings_Permutation.
Qed.

(** ** [requireExactPhysicalRecoveryCompletion] *)
Lemma expected_recovery_ok expected existing out :
  expected_recovery expected existing = Ok out <->
  (forall a, a ∈ existing -> recovery_candidate a = "" \/ recovery_candidate a = out) /\
  (expected = out \/ (expected = "" /\ exists a, a ∈ existing /\ recovery_candidate a = out)).
Proof.
  revert expected. induction existing as [|a rest IH]; intros expected; cbn [expected_recovery].
  - split; [intros [= <-]; set_solver|]. by intros (_ & [->|(_ & a & ? & _)]); [|set_solver].
  - case_bool_decide as C.
    + rewrite IH. clear IH. split.
      * intros (F & G). split; [set_solver|]. destruct G as [->|(-> & b & ? & ?)]; [by left|].
        right. split; [done|]. exists b. set_solver.
      * intros (F & G). split; [set_solver|]. destruct G as [->|(-> & b & [->|Hb]%elem_of_cons & E)];
          [by left|left; congruence|]. right. split; [done|]. by exists b.
    + rewrite check_bind_ok, IH. clear IH.
      rewrite negb_true_iff, andb_false_iff, !negb_false_iff, !bool_decide_eq_true. split.
      * intros (K & F & [G|(G & _)]); [|done]. split; [set_solver|].
        destruct K as [->| ->]; [|by left]. right. split; [done|]. exists a. set_solver.
      * intros (F & G). assert (recovery_candidate a = out) as <-.
        { destruct (F a); [set_solver|done|done]. }
        split; [|split; [set_solver|by left]]. destruct G as [->|[-> _]]; auto.
Qed.

(** A recovery is complete only with exactly the physical action it asked
    for: [requireExactPhysicalRecoveryCompletion] accepts when the recorded
    actions name one physical action, all of them that name any name that one,
    and it is among the completed actions; and in no other case. *)
Theorem physical_recovery_exact existing completed :
  requireExactPhysicalRecoveryCompletion existing completed = Ok tt <->
  exists action, action <> "" /\ action ∈ completed /\
    (exists a, a ∈ existing /\ recovery_candidate a = action) /\
    forall a, a ∈ existing -> recovery_candidate a = "" \/ recovery_candidate a = action.
Proof.
  unfold requireExactPhysicalRecoveryCompletion. rewrite res_bind_ok.
  setoid_rewrite expected_recovery_ok. setoid_rewrite check_bind_ok. setoid_rewrite check_ok.
  setoid_rewrite negb_true_iff. setoid_rewrite bool_decide_eq_false. setoid_rewrite existsb_exists.
  setoid_rewrite bool_decide_eq_true. setoid_rewrite <-list_elem_of_In. split.
  - intros (out & (F & G) & N & b & Hb & ->). exists out. split; [done|]. split; [done|].
    destruct G as [<-|(_ & a & Ha & E)]; [done|]. split; [by exists a|done].
  - intros (out & N & C & (a & Ha & E) & F). exists out. split; [|split; [done|by exists out]].
    split; [done|]. right. split; [done|]. by exists a.
Qed.

(** ** [ListLeaseTerminationWork] *)
#[export] Instance work_le_total : Total work_le.
Proof.
  intros a b. unfold work_le. unfold_time. rewrite (Z.eqb_sym (work_ExpiresAt b)).
  destruct (work_ExpiresAt a =? work_ExpiresAt b)%Z eqn:E; [apply (total string_le)|].
  apply Z.eqb_neq in E. rewrite !Z.ltb_lt. lia.
Qed.

(** The termination controller misses no lease: [ListLeaseTerminationWork]
    returns, ordered by expiry and then identity, exactly one item for each lease
    of the synchronised projection whose termination is in progress or which is
    active, unterminated and expired at the one clock reading taken; a lease
    that still runs or is already terminal yields none. *)
Theorem termination_work_complete `{Env} w items w' :
  ListLeaseTerminationWork w = (Ok items, w') ->
  Sorted work_le items /\
  items ≡ₚ omap (termination_work (clock_at (w_tick w))) (snd <$> map_to_list (core_leases (w_core w'))) /\
  forall l now, is_Some (termination_work now l) <->
    LeaseTerminationRecord_InProgress (lease_Termination l) = true \/
    (lease_Termination l = zero_termination /\ lease_State l = LeaseActive /\ (lease_ExpiresAt l <= now)%Z).
Proof.
  unfold ListLeaseTerminationWork. intros E. inv_M E. apply clock_ok in E1 as [-> ->].
  assert (w_tick w0 = w_tick w) as ->.
  { revert E0. unfold syncLocked. destruct (sync_loop _ _ _). intros [= _ <-]. done. }
  split; [apply Sorted_merge_sort; apply _|]. split; [apply merge_sort_Permutation|].
  intros l now. unfold termination_work, LeaseTerminationRecord_Empty.
  destruct (LeaseTerminationRecord_InProgress _); [split; [by left|eauto]|].
  destruct (_ && _) eqn:B; to_prop.
  - split; [|eauto]. intros _. right. destruct B as [[? ?] ?]. done.
  - split; [by intros [? ?]|]. intros [?|(? & ? & ?)]; [done|]. exfalso. destruct B as [[?|?]|?]; [done..|lia].
Qed.
