(* ===== verification/System.v ===== *)
(** * The control plane as a transition system

    Every mutating command of [application.Core], a restart of the process and
    the invariants that hold in every state they can reach. *)
From S2P Require Import Prelude Errors Sha256 GoStrings States Values Ids Records Store StoreFacts Requests Machine.
From S2P Require Import Replay Sync Sessions Targets Termination Incidents.
(** The commands; [ctx] is the deadline of the caller's context. *)
Inductive command :=
| CAcquireResearchSession (ctx : option time) (r : AcquireRequest)
| CRenewLease (ctx : option time) (r : RenewLeaseRequest)
| CTransitionAgentGeneration (ctx : option time) (r : TransitionAgentRequest)
| CBindAgentGenerationPlan (ctx : option time) (r : BindAgentGenerationPlanRequest)
| CCreateExec (ctx : option time) (r : CreateExecRequest)
| CTransitionExec (ctx : option time) (r : TransitionExecRequest)
| CFinalizeExec (ctx : option time) (r : FinalizeExecRequest)
| CCreateTarget (ctx : option time) (r : CreateTargetRequest)
| CQuarantineTarget (ctx : option time) (r : QuarantineTargetRequest)
| CTransitionTargetGeneration (ctx : option time) (r : TransitionTargetGenerationRequest)
| CStartTargetRun (ctx : option time) (r : StartTargetRunRequest)
| CTransitionTargetRun (ctx : option time) (r : TransitionTargetRunRequest)
| CFinalizeTargetRun (ctx : option time) (r : FinalizeTargetRunRequest)
| CCreateTargetOperation (ctx : option time) (r : CreateTargetOperationRequest)
| CResetTarget (ctx : option time) (r : ResetTargetRequest)
| CTransitionTargetOperation (ctx : option time) (r : TransitionTargetOperationRequest)
| CBindTargetGenerationPlan (ctx : option time) (r : BindTargetGenerationPlanRequest)
| CBindTargetRunPlan (ctx : option time) (r : BindTargetRunPlanRequest)
| CBeginReleaseResearchSession (ctx : option time) (r : ReleaseResearchSessionRequest)
| CCompleteReleaseResearchSession (ctx : option time) (r : ReleaseResearchSessionRequest)
| CReleaseResearchSession (ctx : option time) (r : ReleaseResearchSessionRequest)
| CBeginDueLeaseExpiry (r : BeginLeaseExpiryRequest)
| CCompleteLeaseTermination (r : CompleteLeaseTerminationRequest)
| CCreateIncident (ctx : option time) (r : CreateIncidentRequest)
| CTransitionIncident (ctx : option time) (r : TransitionIncidentRequest)
| CCompleteIncidentRecovery (ctx : option time) (r : TransitionIncidentRequest)
| CRecoverIncident (ctx : option time) (r : RecoverIncidentRequest)
| CSealRunIncidents (ctx : option time) (r : SealRunIncidentsRequest)
| CAuthorize (r : AuthorizationRequest)
| CRestart.

Section System.
Context `{Env}.

Definition ignore {A} (m : M A) : M unit := _ ← m; mret tt.

Definition run (cmd : command) : M unit :=
  match cmd with
  | CAcquireResearchSession ctx r => ignore (AcquireResearchSession ctx r)
  | CRenewLease ctx r => ignore (RenewLease ctx r)
  | CTransitionAgentGeneration ctx r => ignore (TransitionAgentGeneration ctx r)
  | CBindAgentGenerationPlan ctx r => ignore (BindAgentGenerationPlan ctx r)
  | CCreateExec ctx r => ignore (CreateExec ctx r)
  | CTransitionExec ctx r => ignore (TransitionExec ctx r)
  | CFinalizeExec ctx r => ignore (FinalizeExec ctx r)
  | CCreateTarget ctx r => ignore (CreateTarget ctx r)
  | CQuarantineTarget ctx r => ignore (QuarantineTarget ctx r)
  | CTransitionTargetGeneration ctx r => ignore (TransitionTargetGeneration ctx r)
  | CStartTargetRun ctx r => ignore (StartTargetRun ctx r)
  | CTransitionTargetRun ctx r => ignore (TransitionTargetRun ctx r)
  | CFinalizeTargetRun ctx r => ignore (FinalizeTargetRun ctx r)
  | CCreateTargetOperation ctx r => ignore (CreateTargetOperation ctx r)
  | CResetTarget ctx r => ignore (ResetTarget ctx r)
  | CTransitionTargetOperation ctx r => ignore (TransitionTargetOperation ctx r)
  | CBindTargetGenerationPlan ctx r => ignore (BindTargetGenerationPlan ctx r)
  | CBindTargetRunPlan ctx r => ignore (BindTargetRunPlan ctx r)
  | CBeginReleaseResearchSession ctx r => ignore (BeginReleaseResearchSession ctx r)
  | CCompleteReleaseResearchSession ctx r => ignore (CompleteReleaseResearchSession ctx r)
  | CReleaseResearchSession ctx r => ignore (ReleaseResearchSession ctx r)
  | CBeginDueLeaseExpiry r => ignore (BeginDueLeaseExpiry r)
  | CCompleteLeaseTermination r => ignore (CompleteLeaseTermination r)
  | CCreateIncident ctx r => ignore (CreateIncident ctx r)
  | CTransitionIncident ctx r => ignore (TransitionIncident ctx r)
  | CCompleteIncidentRecovery ctx r => ignore (CompleteIncidentRecovery ctx r)
  | CRecoverIncident ctx r => ignore (RecoverIncident ctx r)
  | CSealRunIncidents ctx r => ignore (SealRunIncidents ctx r)
  | CAuthorize r => ignore (Authorize r)
  | CRestart => NewCore
  end.

(** A fresh database and an empty projection. *)
Definition initial_world : World := mkWorld empty_store empty_core 0.

Inductive step : World -> World -> Prop :=
| step_run cmd w : step w (snd (run cmd w)).

Inductive reachable : World -> Prop :=
| reachable_init : reachable initial_world
| reachable_step w w' : reachable w -> step w w' -> reachable w'.

(** ** The invariant and what a step may change *)
Definition safe (w : World) : Prop :=
  journal_ok (w_store w) /\ exists k, replayed (w_store w) (w_core w) k.

Record evolves (s s' : CoreStore) : Prop := {
  ev_records : st_records s `prefix_of` st_records s';
  ev_idem : st_idempotency s ⊆ st_idempotency s' }.
#[global] Instance evolves_preorder : PreOrder evolves.
Proof. split; [by split|]. intros s1 s2 s3 [R1 I1] [R2 I2]. split; by etrans. Qed.

Definition keeps {A} (m : M A) : Prop := forall w r w',
  safe w -> m w = (r, w') -> safe w' /\ evolves (w_store w) (w_store w').

Lemma keeps_same {A} (m : M A) :
  (forall w r w', m w = (r, w') -> same_state w w') -> keeps m.
Proof.
  intros S w r w' [J P] E. destruct (S _ _ _ E) as [Es Ec]. unfold safe. rewrite Es, Ec. done.
Qed.

Lemma keeps_bind {A B} (m : M A) (f : A -> M B) :
  keeps m -> (forall a, keeps (f a)) -> keeps (m ≫= f).
Proof.
  intros Km Kf w r w' Sf E. apply M_bind_inv in E as [(a & w1 & E1 & E2)|(e & E1 & ->)].
  - destruct (Km _ _ _ Sf E1) as [S1 V1], (Kf _ _ _ _ S1 E2) as [S2 V2]. split; [done|by etrans].
  - by eapply Km.
Qed.

Lemma keeps_lift {A} (r : result A) : keeps (lift r).
Proof. apply keeps_same. unfold lift. intros. by simplify_eq. Qed.
Lemma keeps_guard b e : keeps (guard b e).
Proof. apply keeps_lift. Qed.
Lemma keeps_ret {A} (a : A) : keeps (mret a).
Proof. apply keeps_same. unfold mret, M_ret. intros. by simplify_eq. Qed.
Lemma keeps_clock : keeps clock.
Proof. apply keeps_same. unfold clock. intros. by simplify_eq. Qed.
Lemma keeps_getCore : keeps getCore.
Proof. apply keeps_same. unfold getCore. intros. by simplify_eq. Qed.

Lemma keeps_sync : keeps syncLocked.
Proof.
  intros w r w' [J [k P]] E.
  destruct (syncLocked_replayed _ _ _ _ (proj1 J) P E) as (Es & _ & k' & _ & P' & _).
  unfold safe. rewrite Es. split; [eauto|done].
Qed.

Lemma keeps_NewCore : keeps NewCore.
Proof.
  intros w r w' [J _] E. refine (keeps_sync (w <| w_core := empty_core |>) _ _ _ E).
  split; [done|]. exists 0%nat. split; [cbn; lia|done].
Qed.

Lemma replayed_prefix (s s' : CoreStore) c k :
  st_records s `prefix_of` st_records s' -> replayed s c k -> replayed s' c k.
Proof.
  intros [l El] [K R]. split; rewrite El.
  - rewrite length_app. lia.
  - by rewrite take_app_le.
Qed.

Lemma safe_extend w w' :
  safe w -> st_records (w_store w) `prefix_of` st_records (w_store w') ->
  journal_ok (w_store w') -> w_core w' = w_core w -> safe w'.
Proof. intros [_ [k P]] R J C. split; [done|]. exists k. rewrite C. by eapply replayed_prefix. Qed.

Lemma journal_ok_idem s i : journal_ok s -> journal_ok (s <| st_idempotency := i |>).
Proof. intros [[C1 C2 C3 C4 C5] S]. split; [by split|exact S]. Qed.

Lemma keeps_RunIdempotent namespace key req handler :
  journals handler -> keeps (RunIdempotent namespace key req handler).
Proof.
  intros Jh w r w' Sf E. pose proof (RunIdempotent_core _ _ _ _ _ _ _ Jh E) as C.
  apply RunIdempotent_outcome in E.
  destruct E as [e w' S|x w' [S _] L|x wh wh' out w' L [Ss Sc] Hh Ec Es _].
  - unfold safe. by rewrite S, C.
  - unfold safe. by rewrite S, C.
  - destruct (Jh _ _ _ Hh) as [_ X]. specialize (X eq_refl) as [R I O]. rewrite Ss in R, I, O.
    split.
    + apply (safe_extend w); [done|by rewrite Es| |done]. rewrite Es.
      apply journal_ok_idem, O, Sf.
    + rewrite Es. split; [done|]. cbn [st_idempotency set]. rewrite I. by apply insert_subseteq.
Qed.

(** ** The transaction bodies only append to the journal *)
Lemma journals_target_transitions target i g states event at_ :
  journals (appendTargetGenerationTransitions target i g states event at_).
Proof. revert target g. induction states; intros; cbn [appendTargetGenerationTransitions]; journaling. Qed.
Lemma journals_agent_transitions agent i g states event at_ :
  journals (appendAgentGenerationTransitions agent i g states event at_).
Proof. revert agent g. induction states; intros; cbn [appendAgentGenerationTransitions]; journaling. Qed.
Hint Resolve journals_target_transitions journals_agent_transitions : journals.

Lemma journals_retire c now ids : journals (retire_targets c now ids).
Proof. induction ids; cbn [retire_targets]; journaling. Qed.
Lemma journals_seal c r t run now ids : journals (seal_incidents c r t run now ids).
Proof. induction ids; cbn [seal_incidents]; journaling. Qed.
Lemma journals_record target event : journals (record_target target event).
Proof. unfold record_target. journaling. Qed.
Hint Resolve journals_retire journals_seal journals_record : journals.

Lemma journals_begin lease params : journals (beginLeaseTermination lease params).
Proof. unfold beginLeaseTermination. journaling. Qed.
Lemma journals_complete lease identity : journals (completeLeaseTermination lease identity).
Proof. unfold completeLeaseTermination. journaling. Qed.
Lemma journals_recover_target id incident lease now :
  journals (recoverTargetGeneration id incident lease now).
Proof. unfold recoverTargetGeneration. journaling. Qed.
Lemma journals_recover_agent id incident lease now :
  journals (recoverAgentGeneration id incident lease now).
Proof. unfold recoverAgentGeneration. journaling. Qed.
Lemma journals_link_run target run incident now : journals (link_run target run incident now).
Proof. unfold link_run. journaling. Qed.
Lemma journals_link_exec execution incident now : journals (link_exec execution incident now).
Proof. unfold link_exec. journaling. Qed.
Lemma journals_start_exec c execution now : journals (start_exec_generation c execution now).
Proof. unfold start_exec_generation. journaling. Qed.
Lemma journals_finalize_generation target g : journals (finalize_generation target g).
Proof. unfold finalize_generation. journaling. Qed.
Hint Resolve journals_begin journals_complete journals_recover_target journals_recover_agent
  journals_link_run journals_link_exec journals_start_exec journals_finalize_generation : journals.

Lemma journals_mutate_exec id active mutate :
  (forall e, journals (mutate e)) -> journals (mutate_exec_handler id active mutate).
Proof. intros Jm. unfold mutate_exec_handler. journaling. Qed.
Lemma journals_mutate_target id mode mutate :
  (forall t, journals (mutate t)) -> journals (mutate_target_handler id mode mutate).
Proof. intros Jm. unfold mutate_target_handler. journaling. Qed.
Lemma journals_then_record mutate target :
  (forall t, journals (mutate t)) -> journals (mutate_then_record mutate target).
Proof. intros Jm. unfold mutate_then_record. journaling. Qed.

(** ** Every command keeps the invariant *)
Lemma keeps_decode {T} (decode : response -> option T) r : keeps (decode_response decode r).
Proof. apply keeps_lift. Qed.

Ltac keeping :=
  repeat lazymatch goal with
    | |- keeps syncLocked => apply keeps_sync
    | |- keeps clock => apply keeps_clock
    | |- keeps getCore => apply keeps_getCore
    | |- keeps (guard _ _) => apply keeps_guard
    | |- keeps (lift _) => apply keeps_lift
    | |- keeps (mret _) => apply keeps_ret
    | |- keeps (decode_response _ _) => apply keeps_decode
    | |- keeps (RunIdempotent _ _ _ _) => apply keeps_RunIdempotent
    | |- keeps (_ ≫= _) => apply keeps_bind; [|intros ?]
    | |- keeps (let _ := _ in _) => cbv zeta
    | |- keeps (if ?b then _ else _) => destruct b
    | |- keeps (match ?x with _ => _ end) => destruct x
    end.

Lemma keeps_mutateExec ns meta req id active mutate :
  (forall e, journals (mutate e)) -> keeps (mutateExec ns meta req id active mutate).
Proof. intros Jm. unfold mutateExec. keeping. by apply journals_mutate_exec. Qed.
Lemma keeps_mutateJournal ns meta req id mode mutate :
  (forall t, journals (mutate t)) -> keeps (mutateTargetJournalWithLeaseMode ns meta req id mode mutate).
Proof. intros Jm. unfold mutateTargetJournalWithLeaseMode. keeping. by apply journals_mutate_target. Qed.
Lemma keeps_mutateTarget ns meta req id mode mutate :
  (forall t, journals (mutate t)) -> keeps (mutateTargetWithLeaseMode ns meta req id mode mutate).
Proof. intros Jm. apply keeps_mutateJournal. intros t. by apply journals_then_record. Qed.

Lemma keeps_transitionIncident ctx op ns r b : keeps (transitionIncident ctx op ns r b).
Proof. unfold transitionIncident. keeping. unfold transition_incident_handler. journaling. Qed.
Lemma keeps_begin_release ctx r : keeps (BeginReleaseResearchSession ctx r).
Proof. unfold BeginReleaseResearchSession. keeping. unfold begin_release_handler. journaling. Qed.
Lemma keeps_complete_release ctx r : keeps (CompleteReleaseResearchSession ctx r).
Proof. unfold CompleteReleaseResearchSession. keeping. unfold complete_release_handler. journaling. Qed.

Lemma keeps_run cmd : keeps (run cmd).
Proof.
  destruct cmd; cbn [run]; try (apply keeps_bind; [|intros; apply keeps_ret]).
  - unfold AcquireResearchSession. keeping. unfold acquire_handler. journaling.
  - unfold RenewLease. keeping. unfold renew_handler. journaling.
  - unfold TransitionAgentGeneration. keeping. unfold transition_agent_handler. journaling.
  - unfold BindAgentGenerationPlan. keeping. unfold bind_agent_handler. journaling.
  - unfold CreateExec. keeping. all: unfold create_exec_handler; journaling.
  - unfold TransitionExec. keeping. apply keeps_mutateExec. intros. unfold transition_exec_mutate. journaling.
  - unfold FinalizeExec. keeping. apply keeps_mutateExec. intros. unfold finalize_exec_mutate. journaling.
  - unfold CreateTarget. keeping. unfold create_target_handler. journaling.
  - unfold QuarantineTarget. keeping. apply keeps_mutateJournal. intros. unfold quarantine_mutate. journaling.
  - unfold TransitionTargetGeneration. keeping. apply keeps_mutateTarget. intros.
    unfold transition_target_mutate. journaling.
  - unfold StartTargetRun. keeping. unfold start_run_handler. journaling.
  - unfold TransitionTargetRun. keeping. apply keeps_mutateTarget. intros. unfold transition_run_mutate. journaling.
  - unfold FinalizeTargetRun. keeping. all: apply keeps_mutateJournal; intros; unfold finalize_run_mutate; journaling.
  - unfold CreateTargetOperation. keeping. all: unfold create_operation_handler; journaling.
  - unfold ResetTarget. keeping. all: apply keeps_mutateTarget; intros; unfold reset_mutate; journaling.
  - unfold TransitionTargetOperation. keeping. apply keeps_mutateTarget. intros.
    unfold transition_operation_mutate. journaling.
  - unfold BindTargetGenerationPlan. keeping. apply keeps_mutateTarget. intros. unfold bind_target_mutate. journaling.
  - unfold BindTargetRunPlan. keeping. apply keeps_mutateTarget. intros. unfold bind_run_mutate. journaling.
  - apply keeps_begin_release.
  - apply keeps_complete_release.
  - unfold ReleaseResearchSession. keeping. all: first [apply keeps_begin_release|apply keeps_complete_release].
  - unfold BeginDueLeaseExpiry. keeping. unfold begin_expiry_handler. journaling.
  - unfold CompleteLeaseTermination. keeping. unfold complete_termination_handler. journaling.
  - unfold CreateIncident. keeping. unfold create_incident_handler. journaling.
  - apply keeps_transitionIncident.
  - unfold CompleteIncidentRecovery. keeping. apply keeps_transitionIncident.
  - unfold RecoverIncident. keeping. unfold recover_incident_handler. journaling.
  - unfold SealRunIncidents. keeping. unfold seal_handler. journaling.
  - unfold Authorize. keeping.
  - apply keeps_NewCore.
Qed.

Lemma step_keeps w w' : safe w -> step w w' -> safe w' /\ evolves (w_store w) (w_store w').
Proof. intros S St. destruct St as [cmd w0]. destruct (run cmd w0) eqn:E. exact (keeps_run _ _ _ _ S E). Qed.

Lemma safe_initial : safe initial_world.
Proof. split; [apply empty_journal_ok|]. exists 0%nat. split; [cbn; lia|done]. Qed.

Lemma reachable_safe w : reachable w -> safe w.
Proof.
  induction 1 as [|w w' _ IH S]; [apply safe_initial|]. by eapply step_keeps.
Qed.
End System.

(** * Commands that leave the store alone

    A command whose handler is refused changes nothing: the checks before it, the
    [syncLocked] calls around it and the decoding after it never write.  The
    tactics walk a command down to its handler. *)
Section Inert.
Context `{Env}.

Definition refuses (c : Core) {A} (m : M A) : Prop := forall w r w',
  w_core w = c -> m w = (r, w') -> is_ok r = false.
Definition still {A} (m : M A) : Prop := forall w r w', m w = (r, w') -> w_store w' = w_store w.
Definition inert_at (G : Core -> Prop) {A} (m : M A) : Prop := forall w r w',
  G (w_core w) -> m w = (r, w') -> w_store w' = w_store w.
(** The same, [G] being about the projection the first [syncLocked] yields, if
    it succeeds. *)
Definition inert (G : Core -> Prop) {A} (m : M A) : Prop := forall w r w',
  (is_ok (fst (syncLocked w)) = true -> G (w_core (snd (syncLocked w)))) ->
  m w = (r, w') -> w_store w' = w_store w.

Lemma sync_store w : w_store (snd (syncLocked w)) = w_store w.
Proof. unfold syncLocked. by destruct (sync_loop _ _ _). Qed.
Lemma sync_same w w' : same_state w w' ->
  fst (syncLocked w') = fst (syncLocked w) /\ w_core (snd (syncLocked w')) = w_core (snd (syncLocked w)).
Proof. intros [Es Ec]. unfold syncLocked. rewrite Es, Ec. by destruct (sync_loop _ _ _). Qed.

Lemma still_bind {A B} (m : M A) (f : A -> M B) : still m -> (forall a, still (f a)) -> still (m ≫= f).
Proof.
  intros Sm Sf w r w' E. apply M_bind_inv in E as [(a & w1 & E1 & E2)|(e & E1 & ->)];
    [rewrite (Sf _ _ _ _ E2)|]; by eapply Sm.
Qed.
Lemma still_lift {A} (r : result A) : still (lift r).
Proof. unfold lift. intros w r0 w' E. by simplify_eq. Qed.
Lemma still_ret {A} (a : A) : still (mret a).
Proof. intros w r0 w' E. by injection E as _ <-. Qed.
Lemma still_getCore : still getCore.
Proof. intros w r0 w' E. by injection E as _ <-. Qed.
Lemma still_sync : still syncLocked.
Proof. intros w r w' E. pose proof (sync_store w) as S. by rewrite E in S. Qed.

Lemma inert_run G namespace key req h :
  (forall c, G c -> refuses c h) -> inert_at G (RunIdempotent namespace key req h).
Proof.
  intros Rf w r w' C E. apply RunIdempotent_outcome in E as [e w2 S|x w2 [S _] _|x wh wh' out w2 _ [Ss Sc] Hh _ _ _];
    [done..|]. exfalso. assert (Q : is_ok (Ok x : result response) = false); [|done].
  by eapply (Rf _ C), Hh.
Qed.
Lemma inert_at_bind G {A B} (m : M A) (f : A -> M B) :
  inert_at G m -> (forall a, still (f a)) -> inert_at G (m ≫= f).
Proof.
  intros Im Sf w r w' C E. apply M_bind_inv in E as [(a & w1 & E1 & E2)|(e & E1 & ->)];
    [rewrite (Sf _ _ _ _ E2)|]; by eapply Im.
Qed.
Lemma inert_pre G {A B} (m : M A) (f : A -> M B) :
  (forall w r w', m w = (r, w') -> same_state w w') -> (forall a, inert G (f a)) -> inert G (m ≫= f).
Proof.
  intros Sm If w r w' C E. apply M_bind_inv in E as [(a & w1 & E1 & E2)|(e & E1 & ->)].
  - apply Sm in E1 as S. destruct (sync_same _ _ S) as [Q1 Q2].
    rewrite (If _ _ _ _ ltac:(by rewrite Q1, Q2) E2). apply S.
  - by apply Sm in E1 as [? _].
Qed.
Lemma inert_sync G {B} (f : unit -> M B) : inert_at G (f tt) -> inert G (syncLocked ≫= f).
Proof.
  intros If w r w' C E. apply M_bind_inv in E as [([] & w1 & E1 & E2)|(e & E1 & ->)].
  - rewrite E1 in C. rewrite (If _ _ _ (C eq_refl) E2). by eapply still_sync.
  - by eapply still_sync.
Qed.
Lemma inert_post G {A B} (m : M A) (f : A -> M B) :
  inert G m -> (forall a, still (f a)) -> inert G (m ≫= f).
Proof.
  intros Im Sf w r w' C E. apply M_bind_inv in E as [(a & w1 & E1 & E2)|(e & E1 & ->)];
    [rewrite (Sf _ _ _ _ E2)|]; by eapply Im.
Qed.
Lemma same_lift {A} (x : result A) w r w' : lift x w = (r, w') -> same_state w w'.
Proof. unfold lift. intros E. by simplify_eq. Qed.
Lemma same_ret {A} (a : A) w r w' : (mret a : M A) w = (r, w') -> same_state w w'.
Proof. intros E. by injection E as _ <-. Qed.
Lemma same_parse {A} (x : result A) w r w' :
  (lift x ≫= fun _ => mret tt) w = (r, w') -> same_state w w'.
Proof. destruct x; intros E; by injection E as _ <-. Qed.
Lemma same_clock w r w' : clock w = (r, w') -> same_state w w'.
Proof. unfold clock. intros E. by simplify_eq. Qed.
End Inert.

Ltac stillness :=
  repeat lazymatch goal with
    | |- still syncLocked => apply still_sync
    | |- still getCore => apply still_getCore
    | |- still (guard _ _) => apply still_lift
    | |- still (lift _) => apply still_lift
    | |- still (decode_response _ _) => apply still_lift
    | |- still (mret _) => apply still_ret
    | |- still (_ ≫= _) => apply still_bind; [|intros ?]
    | |- still (match ?x with _ => _ end) => destruct x
    | |- forall _, still _ => intros ?
    end.
(** Down to the handler of the command. *)
Ltac to_handler :=
  repeat lazymatch goal with
    | |- inert _ (clock ≫= _) => apply inert_pre; [apply same_clock|intros ?]
    | |- inert _ (lift _ ≫= _) => apply inert_pre; [apply same_lift|intros ?]
    | |- inert _ (guard _ _ ≫= _) => apply inert_pre; [apply same_lift|intros ?]
    | |- inert _ (syncLocked ≫= _) => apply inert_sync
    | |- inert_at _ (RunIdempotent _ _ _ _ ≫= _) => apply inert_at_bind; [apply inert_run; intros c G|stillness]
    | |- inert _ (let _ := _ in _) => cbv zeta
    | |- inert _ ((if ?b then _ else _) ≫= _) =>
        apply inert_pre; [destruct b; [apply same_ret|first [apply same_lift|apply same_parse]]|intros ?]
    | |- inert _ (ignore _) => apply inert_post; [|stillness]
    end.

(** Reads the success of a handler through its branches. *)
Ltac open_handler E :=
  repeat (inv_M E; match type of E with
    | (match ?x with _ => _ end) _ = _ => destruct x
    end); inv_M E.
