(* ===== verification/Admission.v ===== *)
(** * A terminating lease admits no new work

    The comment on [ReleasePreparation] promises that once a release is
    prepared "no new exec, target, or run can race with host cleanup".  Here it
    is proved for every command that requires an active lease, and for every
    later state: a lease whose termination is in the journal stays closed. *)
From S2P Require Import Prelude Errors Sha256 GoStrings States Values Ids Records Store StoreFacts Requests Machine.
From S2P Require Import Replay Sync Advance Integrity Refs Sessions Targets Termination Incidents System.
(** The journal holds a termination of the lease. *)
Definition lease_closed (s : CoreStore) (id : string) : Prop :=
  exists i r l, st_records s !! i = Some r /\ cr_Payload r = PLease l /\ lease_ID l = id /\
    lease_Termination l <> zero_termination.

(** The lease under which a command asks for an active lease. *)
Definition work_lease (c : Core) (cmd : command) : option string :=
  let of_target id := target_LeaseID <$> core_targets c !! id in
  match cmd with
  | CRenewLease _ r => Some (renew_LeaseID r)
  | CCreateExec _ r => Some (cexec_LeaseID r)
  | CTransitionExec _ r => exec_LeaseID <$> core_execs c !! texec_ExecID r
  | CCreateTarget _ r => Some (ctarget_LeaseID r)
  | CTransitionTargetGeneration _ r => of_target (ttgen_TargetID r)
  | CStartTargetRun _ r => of_target (srun_TargetID r)
  | CCreateTargetOperation _ r => of_target (cop_TargetID r)
  | CResetTarget _ r => of_target (reset_TargetID r)
  | CBindTargetGenerationPlan _ r => of_target (btarget_TargetID r)
  | CBindTargetRunPlan _ r => of_target (brun_TargetID r)
  | CBindAgentGenerationPlan _ r =>
      agent ← core_agents c !! bagent_AgentWorkspaceID r;
      session_LeaseID <$> core_sessions c !! agent_SessionID agent
  | CRecoverIncident _ r => inc_LeaseID <$> core_incidents c !! rinc_IncidentID r
  | _ => None
  end.

Lemma closed_inactive l t u : lease_Termination l <> zero_termination -> requireLeaseActive l t <> Ok u.
Proof.
  unfold requireLeaseActive, LeaseTerminationRecord_Empty. intros N E. inv_res E. to_prop. tauto.
Qed.

Section Admission.
Context `{Env}.

(** The projection of the whole journal has the termination. *)
Lemma closed_projection (s : CoreStore) c id :
  replayed s c (length (st_records s)) -> lease_closed s id ->
  exists l, core_leases c !! id = Some l /\ lease_Termination l <> zero_termination.
Proof.
  intros [_ R] (i & r & l & Hr & Pl & <- & N). rewrite firstn_all in R.
  rewrite <-(take_drop_middle _ _ _ Hr), apply_batch_app in R.
  destruct (apply_batch (take i (st_records s)) empty_core) as [[[]|e] c0] eqn:B; [|done].
  destruct (apply_batch_keyed _ _ _ _ empty_keyed B) as [K0 _].
  cbn [apply_batch] in R. destruct (apply c0 r) as [c1|e] eqn:A; [|done].
  pose proof (apply_keyed _ _ _ K0 A) as K1. apply apply_inv in A.
  destruct (apply_batch_keyed _ _ _ _ (keyed_sequence _ _ K1) R) as [_ L].
  assert (core_leases c1 !! lease_ID l = Some l) as L1.
  { destruct A; try congruence. cbn. replace v with l by congruence. apply lookup_insert_eq. }
  apply (cl_leases _ _ L) in L1 as (l' & L1 & Al). exists l'. split; [done|].
  by apply (ta_begun _ _ (la_Termination _ _ Al)).
Qed.

(** ** The refusals *)
(** Reads the success of [E] until the lease check, which contradicts [N]. *)
Tactic Notation "refused" reference(handler) :=
  let w := fresh "w" in let r := fresh "r" in let E := fresh "E" in
  intros w r ? ? E; subst; destruct r; [|done]; exfalso; unfold handler in E; open_handler E;
  rewrite ?from_option_err_ok in *; simplify_eq; try discriminate;
  repeat match goal with
    | Q : core_leases ?c !! ?k = Some _, G : context [default _ (core_leases ?c !! ?k)] |- _ =>
        rewrite Q in G; cbn [default] in G
    | G : requireTargetMutationLease _ _ targetLeaseActiveOnly = Ok _ |- _ =>
        change (requireTargetMutationLease ?x ?y targetLeaseActiveOnly) with (requireLeaseActive x y) in G
    | G : requireLeaseActive _ _ = Ok _ |- _ => apply closed_inactive in G; [done|]
    end; simplify_eq/=; try done.

Section Closed.
Context (c : Core) (id : string) (l : LeaseRecord).
Hypothesis (L : core_leases c !! id = Some l) (N : lease_Termination l <> zero_termination).

Lemma refuses_renew r : renew_LeaseID r = id -> refuses c (renew_handler r).
Proof. intros <-. refused renew_handler. Qed.
Lemma refuses_create_exec r : cexec_LeaseID r = id -> refuses c (create_exec_handler r).
Proof. intros <-. refused create_exec_handler. Qed.
Lemma refuses_create_target r p q : ctarget_LeaseID r = id -> refuses c (create_target_handler r p q).
Proof. intros <-. refused create_target_handler. Qed.
Lemma refuses_mutate_exec eid e mutate :
  core_execs c !! eid = Some e -> exec_LeaseID e = id -> refuses c (mutate_exec_handler eid true mutate).
Proof. intros Le <-. refused mutate_exec_handler. Qed.
Lemma refuses_mutate_target tid t mutate :
  core_targets c !! tid = Some t -> target_LeaseID t = id ->
  refuses c (mutate_target_handler tid targetLeaseActiveOnly mutate).
Proof. intros Lt <-. refused mutate_target_handler. Qed.
Lemma refuses_start_run r d t :
  core_targets c !! srun_TargetID r = Some t -> target_LeaseID t = id -> refuses c (start_run_handler r d).
Proof. intros Lt <-. refused start_run_handler. Qed.
Lemma refuses_create_operation r d t :
  core_targets c !! cop_TargetID r = Some t -> target_LeaseID t = id ->
  refuses c (create_operation_handler r d).
Proof. intros Lt <-. refused create_operation_handler. Qed.
Lemma refuses_bind_agent r a s :
  core_agents c !! bagent_AgentWorkspaceID r = Some a -> core_sessions c !! agent_SessionID a = Some s ->
  session_LeaseID s = id -> refuses c (bind_agent_handler r).
Proof. intros La Ls <-. refused bind_agent_handler. Qed.
Lemma refuses_recover r u i :
  core_incidents c !! rinc_IncidentID r = Some i -> inc_LeaseID i = id ->
  refuses c (recover_incident_handler r u).
Proof. intros Li <-. refused recover_incident_handler. Qed.
End Closed.

(** The projection has lease [id] terminating, and [cmd] is aimed at it. *)
Definition aimed_at_closed (cmd : command) (id : string) (c : Core) : Prop :=
  work_lease c cmd = Some id /\
  exists l, core_leases c !! id = Some l /\ lease_Termination l <> zero_termination.

Ltac aimed G :=
  let W := fresh "W" in destruct G as (W & ? & ? & ?); cbn [work_lease] in W;
  repeat match type of W with
    | _ <$> ?x = Some _ => let E := fresh "E" in destruct x eqn:E; [cbn in W|discriminate W]
    | (?x ≫= _) = Some _ => let E := fresh "E" in destruct x eqn:E; [cbn in W|discriminate W]
    end; apply Some_inj in W.

Definition needs_lease (cmd : command) : bool :=
  match cmd with
  | CRenewLease _ _ | CCreateExec _ _ | CTransitionExec _ _ | CCreateTarget _ _
  | CTransitionTargetGeneration _ _ | CStartTargetRun _ _ | CCreateTargetOperation _ _ | CResetTarget _ _
  | CBindTargetGenerationPlan _ _ | CBindTargetRunPlan _ _ | CBindAgentGenerationPlan _ _
  | CRecoverIncident _ _ => true
  | _ => false
  end.
Lemma work_lease_needs c cmd id : work_lease c cmd = Some id -> needs_lease cmd = true.
Proof. by destruct cmd. Qed.

Ltac unfold_target := unfold mutateTargetWithLeaseMode, mutateTargetJournalWithLeaseMode.

Lemma inert_closed id cmd : needs_lease cmd = true -> inert (aimed_at_closed cmd id) (run cmd).
Proof.
  destruct cmd; try discriminate; intros _; cbn [run]; (apply inert_post; [|stillness]).
  - unfold RenewLease. to_handler. aimed G. by eapply refuses_renew.
  - unfold BindAgentGenerationPlan. to_handler. aimed G. by eapply refuses_bind_agent.
  - unfold CreateExec. to_handler. aimed G. eapply refuses_create_exec; [done..|]. by case_bool_decide.
  - unfold TransitionExec. to_handler. unfold mutateExec. to_handler. aimed G. by eapply refuses_mutate_exec.
  - unfold CreateTarget. to_handler. aimed G. by eapply refuses_create_target.
  - unfold TransitionTargetGeneration. to_handler. unfold_target. to_handler. aimed G.
    by eapply refuses_mutate_target.
  - unfold StartTargetRun. to_handler. aimed G. by eapply refuses_start_run.
  - unfold CreateTargetOperation. to_handler. aimed G. by eapply refuses_create_operation.
  - unfold ResetTarget. to_handler. unfold_target. to_handler. aimed G. by eapply refuses_mutate_target.
  - unfold BindTargetGenerationPlan. to_handler. unfold_target. to_handler. aimed G.
    by eapply refuses_mutate_target.
  - unfold BindTargetRunPlan. to_handler. apply inert_post; [|stillness]. unfold_target. to_handler. aimed G.
    by eapply refuses_mutate_target.
  - unfold RecoverIncident. to_handler. aimed G. by eapply refuses_recover.
Qed.

(** Closed leases stay closed. *)
Lemma lease_closed_evolves (s s' : CoreStore) id : evolves s s' -> lease_closed s id -> lease_closed s' id.
Proof.
  intros [[x Er] _] (i & r & l & Hr & Rest). exists i, r, l. split; [|done].
  rewrite Er. by apply lookup_app_l_Some.
Qed.

(** C5: Admission stays closed.  Let the journal of a reachable state hold the
    begin of a release or of an expiry of lease [id], and let [cmd] be any of
    the twelve commands that need an active lease (renewing it, creating,
    starting or advancing an exec, a target, a generation, a run or an
    operation, binding a plan, recovering an incident), aimed at that lease in
    the projection the command works on.  Then in this and in every later
    state, whatever the clock, the random source and the faults do, the
    command leaves the whole store unchanged. *)
Theorem closed_lease_admits_nothing w w' id cmd :
  reachable w -> lease_closed (w_store w) id -> rtc step w w' ->
  work_lease (w_core (snd (syncLocked w'))) cmd = Some id ->
  w_store (snd (run cmd w')) = w_store w'.
Proof.
  intros R C S W. assert (safe w' /\ lease_closed (w_store w') id) as [Sf C'].
  { apply reachable_safe in R. clear W. induction S as [|w w1 w2 St _ IH]; [done|].
    destruct (step_keeps _ _ R St) as [S1 E1]. apply IH; [done|]. by eapply lease_closed_evolves. }
  destruct Sf as [[O Sn] [k P]]. destruct (run cmd w') as [r w2] eqn:E. cbn [snd].
  apply (inert_closed id cmd (work_lease_needs _ _ _ W) w' r w2); [|exact E]. intros Okay.
  split; [done|]. destruct (syncLocked w') as [[[]|e] w1] eqn:Sy; [|done].
  destruct (syncLocked_replayed _ _ _ _ O P Sy) as (_ & _ & k' & _ & P' & K'). rewrite (K' eq_refl) in P'.
  exact (closed_projection _ _ _ P' C').
Qed.

(** ** A journal that does not replay *)
Definition acquires (cmd : command) : bool :=
  match cmd with CAcquireResearchSession _ _ => true | _ => false end.

Lemma inert_unsynced cmd : acquires cmd = false -> inert (fun _ => False) (run cmd).
Proof.
  destruct cmd; try discriminate; intros _; cbn [run].
  all: try (intros w r0 w' _ E; exact (still_sync _ _ _ E)).
  all: apply inert_post; [|stillness].
  all: unfold RenewLease, TransitionAgentGeneration, BindAgentGenerationPlan, CreateExec, TransitionExec,
    FinalizeExec, CreateTarget, QuarantineTarget, TransitionTargetGeneration, StartTargetRun,
    TransitionTargetRun, FinalizeTargetRun, CreateTargetOperation, ResetTarget,
    TransitionTargetOperation, BindTargetGenerationPlan, BindTargetRunPlan,
    BeginReleaseResearchSession, CompleteReleaseResearchSession, ReleaseResearchSession,
    BeginDueLeaseExpiry, CompleteLeaseTermination, CreateIncident, TransitionIncident,
    CompleteIncidentRecovery, transitionIncident, RecoverIncident, SealRunIncidents, Authorize; to_handler.
  all: try done.
  all: try match goal with |- inert _ (_ ≫= _) => apply inert_post; [|stillness] end.
  all: unfold mutateExec, mutateTargetWithLeaseMode, mutateTargetJournalWithLeaseMode,
    transitionIncident; to_handler.
  all: try done.
  all: intros w r0 w' [].
Qed.

Lemma synced_iff w k :
  store_ok payload_bytes (w_store w) -> replayed (w_store w) (w_core w) k ->
  fst (syncLocked w) = fst (apply_batch (st_records (w_store w)) empty_core).
Proof.
  intros O P. rewrite (syncLocked_pass w k O P). cbn [fst]. destruct P as [_ P].
  rewrite <-(take_drop k (st_records (w_store w))) at 2. by rewrite apply_batch_app, P.
Qed.

(** The control plane fails closed.  If the journal of a reachable state
    is not accepted by replay, then it is not accepted in any later state
    either, whatever commands and restarts follow; and in all of them every
    command other than [AcquireResearchSession] (which alone writes before it
    reads) leaves the store unchanged. *)
Theorem unreplayable_journal_fails_closed w w' cmd :
  reachable w -> is_ok (fst (syncLocked w)) = false -> rtc step w w' ->
  is_ok (fst (syncLocked w')) = false /\
  (acquires cmd = false -> w_store (snd (run cmd w')) = w_store w').
Proof.
  intros R F S. assert (safe w' /\ is_ok (fst (syncLocked w')) = false) as [Sf F'].
  { apply reachable_safe in R. induction S as [|w w1 w2 St _ IH]; [done|].
    destruct (step_keeps _ _ R St) as [S1 [[x Er] _]]. apply IH; [done|].
    destruct R as [[O _] [k P]], S1 as [[O1 _] [k1 P1]].
    rewrite (synced_iff _ _ O P) in F. rewrite (synced_iff _ _ O1 P1), Er, apply_batch_app.
    by destruct (apply_batch _ _) as [[[]|e] c]. }
  split; [done|]. intros A. destruct (run cmd w') as [r w2] eqn:E. cbn [snd].
  apply (inert_unsynced cmd A w' r w2); [|exact E]. by rewrite F'.
Qed.
End Admission.
