(* ===== verification/Guarantees.v ===== *)
(** * Guarantees of every reachable state

    The system-wide properties: the journal and the snapshot table, the
    projection's referential integrity, the monotonicity of history, and
    exactly-once execution across restarts. *)
From S2P Require Import Prelude Errors Sha256 GoStrings States Values Ids Records Store StoreFacts Requests Machine.
From S2P Require Import Replay Sync Advance Integrity Refs Sessions Targets Termination Incidents System.
Section Guarantees.
Context `{Env}.

Lemma steps_keep w w' : safe w -> rtc step w w' -> safe w' /\ evolves (w_store w) (w_store w').
Proof.
  intros S St. induction St as [w|w w1 w2 St _ IH]; [done|].
  destruct (step_keeps _ _ S St) as [S1 E1]. destruct (IH S1) as [S2 E2]. split; [done|by etrans].
Qed.

Lemma safe_core_ok w : safe w -> core_ok (w_core w).
Proof. intros [_ [k [_ R]]]. exact (apply_batch_core_ok _ _ _ _ empty_core_ok R). Qed.

(** Two replays of prefixes of one journal are ordered. *)
Lemma replayed_le (s : CoreStore) c c' k k' :
  replayed s c k -> replayed s c' k' -> (k <= k')%nat -> core_le c c'.
Proof.
  intros [_ R] [K' R'] L. replace (take k' (st_records s)) with
    (take k (st_records s) ++ take (k' - k) (drop k (st_records s))) in R'.
  2: { rewrite take_take_drop. f_equal. lia. }
  rewrite apply_batch_app, R in R'.
  destruct (apply_batch_keyed _ _ _ _ empty_keyed R) as [K _].
  by destruct (apply_batch_keyed _ _ _ _ K R').
Qed.

(** Two successful synchronisations are ordered. *)
Lemma synced_le w w' : safe w -> rtc step w w' -> fst (syncLocked w') = Ok tt ->
  fst (syncLocked w) = Ok tt /\ core_le (w_core (snd (syncLocked w))) (w_core (snd (syncLocked w'))).
Proof.
  intros R S F. destruct (steps_keep _ _ R S) as [S' [Er Ei]].
  destruct R as [[O _] [k P]], S' as [[O' _] [k' P']].
  destruct (syncLocked w') as [r2 w2] eqn:E2. cbn [fst snd] in *. subst r2.
  destruct (syncLocked_replayed _ _ _ _ O' P' E2) as (_ & _ & j' & _ & Q' & J'). rewrite (J' eq_refl) in Q'.
  assert (fst (syncLocked w) = Ok tt) as F1.
  { rewrite (syncLocked_pass w k O P). cbn [fst]. destruct Q' as [_ Q']. rewrite firstn_all in Q'.
    destruct Er as [x Er]. rewrite Er, <-(take_drop k (st_records (w_store w))), <-app_assoc in Q'.
    rewrite apply_batch_app, (proj2 P), apply_batch_app in Q'.
    by destruct (apply_batch (drop k _) _) as [[[]|e] c]. }
  split; [done|]. destruct (syncLocked w) as [r1 w1] eqn:E1. cbn [fst snd] in *. subst r1.
  destruct (syncLocked_replayed _ _ _ _ O P E1) as (_ & _ & j & _ & Q & J). rewrite (J eq_refl) in Q.
  eapply replayed_le; [by eapply replayed_prefix|exact Q'|]. by apply prefix_length.
Qed.

(** The synchronised projection is intact. *)
Lemma synced_core_ok w : safe w -> core_ok (w_core (snd (syncLocked w))).
Proof.
  intros [[O _] [k P]]. destruct (syncLocked w) as [r w1] eqn:E.
  destruct (syncLocked_replayed _ _ _ _ O P E) as (_ & _ & j & _ & Q & _).
  exact (apply_batch_core_ok _ _ _ _ empty_core_ok (proj2 Q)).
Qed.

(** C1: In every state reachable from an empty database by any sequence of
    commands and restarts, with any clock, random source and injected faults,
    the hash chain of the journal verifies, its rows are numbered without
    gaps, every aggregate has exactly the revisions 1, 2, 3, ..., [Snapshot]
    returns the payload of the aggregate's latest row, and the in-memory
    projection is the replay of a prefix of the journal. *)
Theorem reachable_journal_ok w :
  reachable w ->
  Verify payload_bytes (w_store w) = Ok tt /\
  (forall i r, st_records (w_store w) !! i = Some r -> cr_Sequence r = (Z.of_nat i + 1)%Z) /\
  (forall kind id, contiguous (revisions_of kind id (st_records (w_store w)))) /\
  (forall kind id, Snapshot (w_store w) kind id =
     match last (rows_of kind id (st_records (w_store w))) with
     | Some r => Ok (cr_Revision r, cr_Payload r)
     | None => Err ErrStoreNotFound
     end) /\
  exists k, apply_batch (take k (st_records (w_store w))) empty_core = (Ok tt, w_core w).
Proof.
  intros R. destruct (reachable_safe _ R) as [[[C Q _ V _] Sn] [k [_ P]]].
  split; [done|]. split; [done|]. split; [done|]. split; [|by exists k].
  intros kind id. unfold Snapshot. rewrite (Sn kind id). by destruct (last _).
Qed.

(** C4: In every reachable state the projection is referentially intact: each
    record is stored under its own identity; each lease, workspace, exec,
    target, run and incident refers to a session, a lease, a workspace
    generation, an exec or a run that exists and agrees with it on the session;
    generations are numbered 1, 2, ..., up to the current one; runs and
    operations have distinct identities and belong to existing generations and
    runs; and a lease is never ahead of its session's workspace generation and
    at most one behind. *)
Theorem reachable_core_ok w : reachable w -> core_ok (w_core w).
Proof. intros R. by apply safe_core_ok, reachable_safe. Qed.

(** C3: History only advances.  From a reachable state on, whatever runs, the
    journal only grows at its end and no idempotency entry is ever changed or
    removed; and whenever the journal is replayed successfully at two moments,
    the later projection extends the earlier one: no record disappears, what a
    record was created with never changes, revisions, update times, expiries
    and generations never go back, each state is reached from the earlier one
    by allowed transitions (so terminal records keep their state), a bound
    plan and a begun termination are never changed, and the evidence of a
    sealed incident is frozen. *)
Theorem history_only_advances w w' :
  reachable w -> rtc step w w' ->
  st_records (w_store w) `prefix_of` st_records (w_store w') /\
  st_idempotency (w_store w) ⊆ st_idempotency (w_store w') /\
  (fst (syncLocked w') = Ok tt -> fst (syncLocked w) = Ok tt /\
   core_le (w_core (snd (syncLocked w))) (w_core (snd (syncLocked w')))).
Proof.
  intros R S. apply reachable_safe in R. destruct (steps_keep _ _ R S) as [_ [Er Ei]].
  split; [done|]. split; [done|]. by apply synced_le.
Qed.

(** C2: Mutations are exactly-once, across restarts.  Suppose a command's call
    of [RunIdempotent], in any state of the system, changed the store: it then
    committed its handler's result [r], even when a fault after the commit
    turned the reply into an error.  In every later state, once faults have
    stopped, a call with the same key never runs its handler and never changes
    the store: with the same request bytes it returns [r] as a replay, with
    other bytes it is refused with [ErrIdempotencyConflict], unless the two
    requests are a SHA-256 collision. *)
Theorem mutations_exactly_once namespace key req handler w out w1 req' handler' w2 :
  safe w -> journals handler ->
  RunIdempotent namespace key req handler w = (out, w1) -> w_store w1 <> w_store w ->
  rtc step w1 w2 -> quiet_from (w_tick w2) -> req' <> [] ->
  exists r, (out = Ok (r, false) \/ exists e, out = Err e) /\
    w_store (snd (RunIdempotent namespace key req' handler' w2)) = w_store w2 /\
    (req' = req -> fst (RunIdempotent namespace key req' handler' w2) = Ok (r, true)) /\
    (req' <> req ->
     fst (RunIdempotent namespace key req' handler' w2) = Err ErrIdempotencyConflict \/
     sha256_collision req req').
Proof.
  intros S J E N St Q NE. destruct (keeps_RunIdempotent _ _ _ _ J _ _ _ S E) as [S1 _].
  eapply RunIdempotent_again; try done. apply (steps_keep _ _ S1 St).
Qed.
End Guarantees.
