(* ===== verification/Quiesce.v ===== *)
(** * Quiescing a workspace generation

    A generation enters [quiescing] only when nothing runs in it, and from then
    on nothing is ever started in it again: the two checks
    [requireAgentGenerationIdle] and [requireAgentGenerationAcceptingWork]
    exclude each other over the whole history. *)
From S2P Require Import Prelude Errors Sha256 GoStrings States Values Ids Records Store StoreFacts Requests Machine.
From S2P Require Import Replay Sync Advance Integrity Refs Sessions Targets Termination Incidents Completion.
From S2P Require Import System Guarantees.
(** The generation is the current one of the workspace and ready or running. *)
Definition accepts_work (c : Core) (workspaceID : string) (n : N) : Prop :=
  exists a i g, core_agents c !! workspaceID = Some a /\ agent_CurrentGeneration a = n /\
    findAgentGeneration a n = Ok (i, g) /\
    (agen_State g = AgentGenerationReady \/ agen_State g = AgentGenerationRunning).

(** The generation is quiescing or already over. *)
Definition shut_state (s : AgentGenerationState) : bool :=
  bool_decide (s = AgentGenerationQuiescing) || AgentGenerationState_Terminal s.
Definition shut (c : Core) (workspaceID : string) (n : N) : Prop :=
  exists a i g, core_agents c !! workspaceID = Some a /\ findAgentGeneration a n = Ok (i, g) /\
    shut_state (agen_State g) = true.

(** No exec and no target operation of the generation is unfinished. *)
Record idle (c : Core) (workspaceID : string) (n : N) : Prop := {
  idle_execs : forall k e, core_execs c !! k = Some e -> exec_AgentWorkspaceID e = workspaceID ->
    exec_AgentGeneration e = n -> ExecState_Terminal (exec_State e) = true;
  idle_operations : forall k t o, core_targets c !! k = Some t -> o ∈ target_Operations t ->
    TargetOperationState_Terminal (op_State o) = false ->
    exists i r, findRun t (op_RunID o) = Ok (i, r) /\
      ~ (run_AgentWorkspaceID r = workspaceID /\ run_AgentGeneration r = n) }.

Lemma shut_follows (a b : AgentGenerationState) : follows a b -> shut_state a = true -> shut_state b = true.
Proof.
  unfold follows. induction 1 as [|a b c St _ IH]; [done|]. intros Sh. apply IH.
  destruct a; try discriminate Sh; destruct b; vm_compute in St |- *; done.
Qed.

Lemma accepting_ok c op ws n a :
  requireAgentGenerationAcceptingWork c op ws n = Ok a -> accepts_work c ws n.
Proof.
  unfold requireAgentGenerationAcceptingWork. intros E. inv_res E. destruct x1 as [i g]. inv_res E.
  to_prop. subst. by exists a, i, g.
Qed.

Lemma found_generation a n i g : findAgentGeneration a n = Ok (i, g) -> agen_Generation g = n.
Proof.
  unfold findAgentGeneration. rewrite from_option_err_ok. intros (_ & Q & _)%list_find_Some. by apply N.eqb_eq.
Qed.
Lemma put_found a n i g s now at_ :
  findAgentGeneration a n = Ok (i, g) ->
  findAgentGeneration (bump_agent (put_agen a i (move_agen g s now)) at_) n = Ok (i, move_agen g s now).
Proof.
  unfold findAgentGeneration. rewrite !from_option_err_ok. intros F.
  eapply find_index_update; [exact F|]. apply list_find_Some in F as (_ & Q & _). exact Q.
Qed.

Lemma idle_ok c ws n : requireAgentGenerationIdle c ws n = Ok tt <-> idle c ws n.
Proof.
  unfold requireAgentGenerationIdle. rewrite unit_bind_ok, !res_each_ok. split.
  - intros [Ee Et]. split.
    + intros k e L W G. apply elem_of_map_to_list, list_elem_of_lookup in L as [i L].
      specialize (Ee _ _ L). cbn in Ee. rewrite check_ok in Ee. to_prop. naive_solver.
    + intros k t o L Ho F. apply elem_of_map_to_list, list_elem_of_lookup in L as [i L].
      specialize (Et _ _ L). cbn in Et. rewrite res_each_ok in Et.
      apply list_elem_of_lookup in Ho as [j Ho]. specialize (Et _ _ Ho). cbn in Et. rewrite F in Et.
      destruct (findRun _ _) as [[q r]|]; [|done]. rewrite check_ok in Et. to_prop.
      exists q, r. split; [done|]. naive_solver.
  - intros [Ee Et]. split.
    + intros i [k e] L. apply check_ok. apply list_elem_of_lookup_2, elem_of_map_to_list in L.
      specialize (Ee _ _ L). to_prop. destruct (ExecState_Terminal _); [by right|].
      destruct (decide (exec_AgentWorkspaceID e = ws)); [|naive_solver].
      destruct (decide (exec_AgentGeneration e = n)); naive_solver.
    + intros i [k t] L. apply list_elem_of_lookup_2, elem_of_map_to_list in L.
      apply res_each_ok. intros j o Ho. apply list_elem_of_lookup_2 in Ho.
      destruct (TargetOperationState_Terminal _) eqn:T; [done|].
      destruct (Et _ _ _ L Ho T) as (q & r & -> & N). apply check_ok. to_prop.
      destruct (decide (run_AgentWorkspaceID r = ws)); [|naive_solver].
      destruct (decide (run_AgentGeneration r = n)); naive_solver.
Qed.

Section Quiesce.
Context `{Env}.

(** A generation starts quiescing only when it is idle.  When the
    transaction of [TransitionAgentGeneration] succeeds in moving a generation
    to [quiescing], every exec of that generation and every target operation
    of a run of that generation is in a terminal state, and the one row it
    appends is the workspace with that generation quiescing. *)
Theorem quiesce_only_when_idle request w out w' :
  core_keyed (w_core w) -> tagent_State request = AgentGenerationQuiescing ->
  transition_agent_handler request w = (Ok out, w') ->
  idle (w_core w) (tagent_AgentWorkspaceID request) (tagent_Generation request) /\
  exists a row, st_records (w_store w') = st_records (w_store w) ++ [row] /\ cr_Payload row = PAgent a /\
    agent_ID a = tagent_AgentWorkspaceID request /\
    exists i g, findAgentGeneration a (tagent_Generation request) = Ok (i, g) /\
      agen_State g = AgentGenerationQuiescing.
Proof.
  intros K Q E. unfold transition_agent_handler in E. rewrite Q in *. inv_M E.
  rewrite from_option_err_ok in E0. destruct x0 as [i g]. inv_M E.
  rewrite bool_decide_true in E4 by done. inv_M E4. apply clock_ok in E5 as [-> ->].
  pose proof (ck_agents _ K _ _ E0) as Ka. pose proof (found_generation _ _ _ _ E1) as Kg.
  rewrite Ka, Kg in E4. destruct x2. split; [by apply idle_ok|].
  apply append_added in E6 as (_ & row & A & _ & _ & P). eexists _, row.
  split; [exact A|]. split; [exact P|]. split; [exact Ka|].
  exists i, (move_agen g AgentGenerationQuiescing (clock_at (w_tick w))). split; [by apply put_found|done].
Qed.

(** ** Work is refused *)
(** The workspace generation a command would start work in. *)
Definition work_generation (c : Core) (cmd : command) : option (string * N) :=
  let of_lease id := l ← core_leases c !! id; Some (lease_AgentWorkspaceID l, lease_AgentGeneration l) in
  match cmd with
  | CCreateExec _ r => of_lease (cexec_LeaseID r)
  | CStartTargetRun _ r => t ← core_targets c !! srun_TargetID r; of_lease (target_LeaseID t)
  | CCreateTargetOperation _ r =>
      t ← core_targets c !! cop_TargetID r;
      match findRun t (cop_RunID r) with
      | Ok (_, run) => Some (run_AgentWorkspaceID run, run_AgentGeneration run)
      | Err _ => None
      end
  | _ => None
  end.

Definition aimed_at_shut (cmd : command) (ws : string) (n : N) (c : Core) : Prop :=
  work_generation c cmd = Some (ws, n) /\ ~ accepts_work c ws n.

Tactic Notation "not_accepting" reference(handler) :=
  let E := fresh "E" in let r := fresh "r" in
  intros w r ? ? E; subst; destruct r; [|done]; exfalso; unfold handler in E; open_handler E;
  repeat match goal with G : from_option_err _ _ = Ok _ |- _ => rewrite from_option_err_ok in G end;
  simplify_eq/=;
  repeat match goal with
    | A : findRun ?a ?b = Ok _, B : findRun ?a ?b = Ok _ |- _ => rewrite A in B; simplify_eq/=
    | Q : core_leases ?c !! ?k = Some _, G : context [default _ (core_leases ?c !! ?k)] |- _ =>
        rewrite Q in G; cbn [default] in G
    | G : requireAgentGenerationAcceptingWork _ _ _ _ = Ok _ |- _ => by apply accepting_ok in G
    end.

Lemma refuses_shut_exec c r l :
  core_leases c !! cexec_LeaseID r = Some l ->
  ~ accepts_work c (lease_AgentWorkspaceID l) (lease_AgentGeneration l) -> refuses c (create_exec_handler r).
Proof. intros L N. not_accepting create_exec_handler. Qed.
Lemma refuses_shut_run c r d t l :
  core_targets c !! srun_TargetID r = Some t -> core_leases c !! target_LeaseID t = Some l ->
  ~ accepts_work c (lease_AgentWorkspaceID l) (lease_AgentGeneration l) -> refuses c (start_run_handler r d).
Proof. intros T L N. not_accepting start_run_handler. Qed.
Lemma refuses_shut_operation c r d t i run :
  core_targets c !! cop_TargetID r = Some t -> findRun t (cop_RunID r) = Ok (i, run) ->
  ~ accepts_work c (run_AgentWorkspaceID run) (run_AgentGeneration run) ->
  refuses c (create_operation_handler r d).
Proof. intros T F N. not_accepting create_operation_handler. Qed.

Definition starts_work (cmd : command) : bool :=
  match cmd with CCreateExec _ _ | CStartTargetRun _ _ | CCreateTargetOperation _ _ => true | _ => false end.
Lemma work_generation_starts c cmd p : work_generation c cmd = Some p -> starts_work cmd = true.
Proof. by destruct cmd. Qed.

Ltac aimed_shut G :=
  let W := fresh "W" in destruct G as [W ?]; cbn [work_generation] in W; simplify_option_eq.

Lemma inert_shut cmd ws n : starts_work cmd = true -> inert (aimed_at_shut cmd ws n) (run cmd).
Proof.
  destruct cmd; try discriminate; intros _; cbn [run]; (apply inert_post; [|stillness]).
  - unfold CreateExec. to_handler. aimed_shut G; by eapply refuses_shut_exec.
  - unfold StartTargetRun. to_handler. aimed_shut G. by eapply refuses_shut_run.
  - unfold CreateTargetOperation. to_handler. aimed_shut G.
    destruct (findRun _ _) as [[i run]|] eqn:F; simplify_eq. by eapply refuses_shut_operation.
Qed.

(** Once shut, later projections do not accept work there. *)
Lemma shut_later c c' ws n : core_le c c' -> core_ok c -> core_ok c' -> shut c ws n -> ~ accepts_work c' ws n.
Proof.
  intros L O O' (a & i & g & La & F & Sh) (a' & i' & g' & La' & _ & F' & A).
  destruct (cl_agents _ _ L _ _ La) as (a2 & L2 & Ad). simplify_eq.
  pose proof (co_agent_shape _ O' _ _ La') as (_ & _ & N').
  pose proof (found_generation _ _ _ _ F) as G. pose proof (found_generation _ _ _ _ F') as G'.
  unfold findAgentGeneration in F, F'. rewrite from_option_err_ok in F, F'.
  apply list_find_Some in F as (F & _), F' as (F' & _).
  destruct (wa_Generations _ _ Ad _ _ F) as (g2 & H2 & Ag).
  pose proof (ga_Generation _ _ Ag) as G2. pose proof (N' _ _ H2). pose proof (N' _ _ F').
  assert (i' = i) as -> by lia. simplify_eq.
  pose proof (shut_follows _ _ (ga_State _ _ Ag) Sh) as Q. destruct A as [E|E]; rewrite E in Q; discriminate.
Qed.

(** C18: A generation that is quiescing, sealed, failed, quarantined or lost
    never gets work again.  From a reachable state on whose replayed
    projection has such a generation, in every later state, creating an exec,
    starting a run or creating a target operation in that generation leaves
    the whole store unchanged. *)
Theorem shut_generation_admits_no_work w w' ws n cmd :
  reachable w -> shut (w_core (snd (syncLocked w))) ws n -> rtc step w w' ->
  work_generation (w_core (snd (syncLocked w'))) cmd = Some (ws, n) ->
  w_store (snd (run cmd w')) = w_store w'.
Proof.
  intros R Sh St W. apply reachable_safe in R as S. destruct (steps_keep _ _ S St) as [S' _].
  destruct (run cmd w') as [r w2] eqn:E. cbn [snd].
  apply (inert_shut cmd ws n (work_generation_starts _ _ _ W) w' r w2); [|exact E]. intros F.
  split; [done|]. destruct (fst (syncLocked w')) as [[]|] eqn:F'; [|done].
  destruct (synced_le _ _ S St F') as [_ L].
  eapply shut_later; [exact L|by apply synced_core_ok..|done].
Qed.
End Quiesce.
