(* ===== verification/Effects.v ===== *)
(** * What the operations do

    The functional behaviour of the transactions, on success: which rows they
    append and how those relate to the records the operation started from. *)
From S2P Require Import Prelude Errors Sha256 GoStrings States Values Ids Models Records Store StoreFacts Requests.
From S2P Require Import Machine Replay Sync Advance Integrity Refs Sessions Targets Termination Incidents.
From S2P Require Import Completion System Admission.
Lemma lease_active_ok l t u : requireLeaseActive l t = Ok u <->
  lease_State l = LeaseActive /\ lease_Termination l = zero_termination /\ (t < lease_ExpiresAt l)%Z.
Proof.
  unfold requireLeaseActive, LeaseTerminationRecord_Empty. rewrite check_ok. to_prop. tauto.
Qed.

Section Effects.
Context `{Env}.

Lemma newID_same w id w' : newID w = (Ok id, w') -> same_state w w'.
Proof.
  unfold newID, clock, random, lift. intros E. apply M_bind_ok in E as (? & ? & [= _ <-] & E).
  apply M_bind_ok in E as (? & ? & [= _ <-] & E). by injection E as _ <-.
Qed.

(** The row of a begun termination closes the lease. *)
Lemma begun_closes w w' lrow srow lease st ts params now :
  added w w' [lrow; srow] -> cr_Payload lrow = PLease (begun_lease lease st ts params now) ->
  ts <> term_State zero_termination -> lease_closed (w_store w') (lease_ID lease).
Proof.
  intros A P N. exists (length (st_records (w_store w))), lrow. eexists. split; [|split; [exact P|]].
  - rewrite A. by apply list_lookup_middle.
  - split; [done|]. intros E. by rewrite <-E in N.
Qed.

(** A termination is begun at most once and closes the lease in the same
    transaction.  When [beginLeaseTermination] succeeds the lease was active,
    at the expected revision and without a termination, and for a release also
    not expired; it appends two rows, the lease with the termination intent
    (kind, reason, idempotency key, request digest) at its next revision and
    otherwise unchanged, and the session as releasing; the journal then holds
    the termination that closes the lease to new work. *)
Theorem termination_begins_once lease params w out w' :
  beginLeaseTermination lease params w = (Ok out, w') ->
  lease_Termination lease = zero_termination /\ lease_State lease = LeaseActive /\
  lease_Revision lease = begin_ExpectedRevision params /\
  (begin_Kind params = LeaseTerminationRelease -> (clock_at (w_tick w) < lease_ExpiresAt lease)%Z) /\
  lease_closed (w_store w') (lease_ID lease) /\
  exists now session lrow srow,
    core_sessions (w_core w) !! lease_SessionID lease = Some session /\
    st_records (w_store w') = st_records (w_store w) ++ [lrow; srow] /\
    cr_Payload srow = PSession (move_session session ResearchSessionReleasing now) /\
    cr_Payload lrow = PLease
      (if bool_decide (begin_Kind params = LeaseTerminationRelease)
       then begun_lease lease LeaseReleasing LeaseTerminationReleasing params now
       else begun_lease lease LeaseActive LeaseTerminationExpiring params now).
Proof.
  intros E. unfold beginLeaseTermination in E.
  destruct (bool_decide (begin_Kind params = _)) eqn:B; inv_M E; to_prop.
  - rewrite from_option_err_ok in E5. apply clock_ok in E4 as [-> ->]. apply clock_ok in E6 as [-> ->].
    apply lease_active_ok in E3 as (St & Em & Lt). do 4 (split; [done|]).
    apply append_added in E7 as (_ & lrow & A1 & _ & _ & P1).
    apply append_added in E10 as (_ & srow & A2 & _ & _ & P2).
    pose proof (added_trans _ _ _ _ _ A1 A2) as A. split; [by apply (begun_closes _ _ _ _ _ _ _ _ _ A P1)|].
    by eexists _, _, lrow, srow.
  - rewrite from_option_err_ok in E3. apply clock_ok in E4 as [-> ->]. rewrite E2 in *.
    unfold LeaseTerminationRecord_Empty in E0. to_prop. do 4 (split; [done|]).
    apply append_added in E5 as (_ & lrow & A1 & _ & _ & P1).
    apply append_added in E7 as (_ & srow & A2 & _ & _ & P2).
    pose proof (added_trans _ _ _ _ _ A1 A2) as A. split; [by apply (begun_closes _ _ _ _ _ _ _ _ _ A P1)|].
    by eexists _, _, lrow, srow.
Qed.

(** Renewal only extends.  When the transaction of [RenewLease] succeeds
    the lease was active, unterminated and unexpired at the clock reading and
    at the expected revision; the one row it appends, also its result, is the
    same lease at the next revision with the expiry moved to the second
    reading plus the TTL, which is later than the old expiry; the state, the
    scope and the generation of the lease are unchanged. *)
Theorem renewal_extends request w out w' :
  renew_handler request w = (Ok out, w') ->
  exists lease row, core_leases (w_core w) !! renew_LeaseID request = Some lease /\
    lease_State lease = LeaseActive /\ lease_Termination lease = zero_termination /\
    (clock_at (w_tick w) < lease_ExpiresAt lease)%Z /\
    lease_Revision lease = renew_ExpectedRevision request /\
    let now := clock_at (S (w_tick w)) in
    let renewed := mkLeaseRecord (lease_ID lease) (lease_SessionID lease) (lease_AgentWorkspaceID lease)
      (lease_AgentGeneration lease) (lease_InputViewID lease) (lease_PolicyDigest lease)
      (lease_CapabilityDigest lease) LeaseActive (u64 (lease_Revision lease + 1))
      (now + renew_TTL request)%Z zero_termination (lease_CreatedAt lease) now in
    out = RLease renewed /\ (lease_ExpiresAt lease < lease_ExpiresAt renewed)%Z /\
    st_records (w_store w') = st_records (w_store w) ++ [row] /\ cr_Payload row = PLease renewed.
Proof.
  intros E. unfold renew_handler in E. inv_M E. rewrite from_option_err_ok in E0.
  apply clock_ok in E2 as [-> ->]. apply clock_ok in E4 as [-> ->].
  apply lease_active_ok in E3 as (St & Em & Lt). to_prop.
  apply append_added in E6 as (_ & row & A & _ & _ & P). exists x, row. do 5 (split; [done|]).
  destruct x. cbn in *. subst. by split.
Qed.

(** ** Targets *)
(** The generation whose state an operation set, found again. *)
Lemma found_put_tgen target n i g s now :
  findTargetGeneration target n = Ok (i, g) ->
  findTargetGeneration (put_tgen target i (move_tgen g s now)) n = Ok (i, move_tgen g s now).
Proof.
  unfold findTargetGeneration. rewrite !from_option_err_ok. intros F.
  eapply find_index_update; [exact F|]. apply list_find_Some in F as (_ & Q & _). exact Q.
Qed.

Lemma record_target_added target event w out w' :
  record_target target event w = (Ok out, w') ->
  out = bump_target target (clock_at (w_tick w)) /\
  exists row, added w w' [row] /\ cr_Payload row = PTarget out.
Proof.
  unfold record_target. intros E. inv_M E. apply clock_ok in E0 as [-> ->].
  apply append_added in E1 as (_ & row & A & _ & _ & P). split; [done|]. by exists row.
Qed.

(** Cancelling and quarantining: what belongs to the generation ends terminal,
    the rest is untouched. *)
Lemma cancelled_operations current now ops ops' :
  cancel_operations current now ops = Ok ops' ->
  length ops' = length ops /\ forall j o, ops !! j = Some o -> exists o', ops' !! j = Some o' /\
    (op_Generation o = current -> TargetOperationState_Terminal (op_State o') = true) /\
    (o' = o \/ (op_Generation o = current /\ TargetOperationState_Terminal (op_State o) = false /\
                o' = move_operation o TargetOperationCancelled now)).
Proof.
  intros E. apply res_map_ok in E as [L F]. split; [done|]. intros j o Ho.
  destruct (F _ _ Ho) as (o' & Ho' & E). exists o'. split; [done|].
  destruct (_ || _) eqn:B; to_prop.
  - inv_res E. split; [|by left]. intros G. by destruct B as [B|B].
  - inv_res E. destruct B as [G T]. split; [done|]. by right.
Qed.
Lemma quarantined_runs current now runs runs' :
  quarantine_runs current now runs = Ok runs' ->
  length runs' = length runs /\ forall j r, runs !! j = Some r -> exists r', runs' !! j = Some r' /\
    (run_Generation r = current -> TargetRunState_Terminal (run_State r') = true) /\
    (r' = r \/ (run_Generation r = current /\ TargetRunState_Terminal (run_State r) = false /\
                r' = move_run r TargetRunQuarantined now)).
Proof.
  intros E. apply res_map_ok in E as [L F]. split; [done|]. intros j r Hr.
  destruct (F _ _ Hr) as (r' & Hr' & E). exists r'. split; [done|].
  destruct (_ || _) eqn:B; to_prop.
  - inv_res E. split; [|by left]. intros G. by destruct B as [B|B].
  - inv_res E. destruct B as [G T]. split; [done|]. by right.
Qed.

(** Quarantine needs proof and stops everything.  When the mutation of
    [QuarantineTarget] succeeds, the driver's evidence is for exactly this
    target and its current generation and confirms that execution is stopped,
    the network unreachable and the state preserved.  Either the generation
    was already quarantined and nothing is written, or one row is appended in
    which the current generation is quarantined, every operation and run of
    that generation is in a terminal state (those still live cancelled or
    quarantined in place), and operations and runs of other generations are
    unchanged. *)
Theorem quarantine_stops_generation request target w out w' :
  quarantine_mutate request target w = (Ok out, w') ->
  (let e := quar_Evidence request in
   qev_ExecutionStopped e = true /\ qev_NetworkUnreachable e = true /\ qev_StatePreserved e = true /\
   tref_Generation (qev_Target e) = target_CurrentGeneration target /\
   requireStoredID "target.id" (target_ID target) prefix_target = Ok (tref_ID (qev_Target e))) /\
  (exists i g, findTargetGeneration out (target_CurrentGeneration target) = Ok (i, g) /\
     tgen_State g = TargetGenerationQuarantined) /\
  ((out = target /\ w_store w' = w_store w) \/
   exists row now, st_records (w_store w') = st_records (w_store w) ++ [row] /\ cr_Payload row = PTarget out /\
     length (target_Operations out) = length (target_Operations target) /\
     length (target_Runs out) = length (target_Runs target) /\
     (forall j o, target_Operations target !! j = Some o -> exists o', target_Operations out !! j = Some o' /\
        (op_Generation o = target_CurrentGeneration target ->
         TargetOperationState_Terminal (op_State o') = true) /\
        (o' = o \/ (op_Generation o = target_CurrentGeneration target /\
           TargetOperationState_Terminal (op_State o) = false /\
           o' = move_operation o TargetOperationCancelled now))) /\
     (forall j r, target_Runs target !! j = Some r -> exists r', target_Runs out !! j = Some r' /\
        (run_Generation r = target_CurrentGeneration target ->
         TargetRunState_Terminal (run_State r') = true) /\
        (r' = r \/ (run_Generation r = target_CurrentGeneration target /\
           TargetRunState_Terminal (run_State r) = false /\
           r' = move_run r TargetRunQuarantined now)))).
Proof.
  intros E. unfold quarantine_mutate in E. inv_M E. destruct x0 as [i g]. inv_M E.
  unfold TargetQuarantineEvidence_Validate in E3. inv_res E3. to_prop. subst.
  split. { rewrite E5. naive_solver. }
  clear E0 E2 E3 E4 E5 E6.
  case_bool_decide as Q; inv_M E.
  - split; [by exists i, g|]. by left.
  - apply clock_ok in E2 as [-> ->].
    apply record_target_added in E as (-> & row & A & P).
    apply cancelled_operations in E3 as [L1 O1]. apply quarantined_runs in E4 as [L2 O2].
    split; [eexists i, _; split; [by apply found_put_tgen|done]|].
    right. exists row. eexists. by repeat (split; [eassumption|]).
Qed.

Lemma new_run_state spec m : Domain.NewTargetRun spec = Ok m ->
  Domain.tr_state m = TargetRunRequested /\ Domain.tr_revision m = InitialRevision.
Proof. unfold Domain.NewTargetRun. intros E. by inv_res E. Qed.
Lemma new_generation_state spec m : Domain.NewTargetGeneration spec = Ok m ->
  Domain.tg_state m = TargetGenerationProvisioning /\ Domain.tg_revision m = InitialRevision /\
  Domain.tgs_Generation spec = (Domain.tgs_PreviousGeneration spec + 1)%N.
Proof.
  unfold Domain.NewTargetGeneration, TargetGeneration_IsValid, InitialTargetGeneration. intros E. inv_res E.
  split; [done|]. split; [done|]. to_prop.
  destruct (Domain.tgs_Generation spec =? 1)%N eqn:G; inv_res E3; to_prop; lia.
Qed.
Lemma found_tgen_number target n i g : findTargetGeneration target n = Ok (i, g) -> tgen_Generation g = n.
Proof.
  unfold findTargetGeneration. rewrite from_option_err_ok. intros (_ & Q & _)%list_find_Some. by apply N.eqb_eq.
Qed.
Lemma found_tgen_at target n i g : findTargetGeneration target n = Ok (i, g) ->
  target_Generations target !! i = Some g.
Proof. unfold findTargetGeneration. rewrite from_option_err_ok. by intros (Q & _)%list_find_Some. Qed.

(** A target generation hosts at most one run.  When the transaction of
    [StartTargetRun] succeeds the lease was active, the current generation was
    ready and no run, live or finished, belonged to it; the one row it appends
    is the target with a new run added, in state requested at revision 1,
    bound to the current generation and to the lease's workspace generation,
    and otherwise unchanged. *)
Theorem run_needs_fresh_generation request digest w out w' :
  start_run_handler request digest w = (Ok out, w') ->
  exists target lease i g run row now,
    core_targets (w_core w) !! srun_TargetID request = Some target /\
    default zero_lease (core_leases (w_core w) !! target_LeaseID target) = lease /\
    lease_State lease = LeaseActive /\ lease_Termination lease = zero_termination /\
    findTargetGeneration target (target_CurrentGeneration target) = Ok (i, g) /\
    tgen_State g = TargetGenerationReady /\
    (forall r, r ∈ target_Runs target -> run_Generation r <> target_CurrentGeneration target) /\
    run_State run = TargetRunRequested /\ run_Revision run = 1%N /\
    run_Generation run = target_CurrentGeneration target /\
    run_AgentWorkspaceID run = lease_AgentWorkspaceID lease /\
    run_AgentGeneration run = lease_AgentGeneration lease /\
    run_MaterializationDigest run = srun_MaterializationDigest request /\
    st_records (w_store w') = st_records (w_store w) ++ [row] /\
    cr_Payload row = PTarget (bump_target (target <| target_Runs := target_Runs target ++ [run] |>) now) /\
    out = RRun (target_ID target) (run_ID run).
Proof.
  intros E. unfold start_run_handler in E. inv_M E. rewrite from_option_err_ok in E0.
  destruct x3 as [i g]. inv_M E. apply clock_ok in E1 as [-> ->].
  apply lease_active_ok in E2 as (St & Em & _). destruct x4. rewrite res_each_ok in E6.
  apply clock_ok in E7 as [-> ->]. apply newID_same in E8 as [S8 _].
  apply new_run_state in E12 as [R1 R2]. apply append_added in E13 as (_ & row & A & _ & _ & P).
  match type of P with context [_ ++ [?r]] => eexists x, _, i, g, r, row, _ end. split; [done|]. split; [done|].
  do 4 (split; [first [done|by to_prop]|]). to_prop.
  split. { intros r Hr. apply list_elem_of_lookup in Hr as [j Hr]. specialize (E6 _ _ Hr).
    rewrite check_ok in E6. by to_prop. }
  split; [exact R1|]. split; [exact R2|]. do 4 (split; [done|]).
  split; [|split; [exact P|done]]. unfold added in A. by rewrite A, S8.
Qed.

(** A reset opens the next generation over a finished one.  When the
    mutation of [ResetTarget] succeeds, no run of the current generation is
    live and the generation was resettable (it is destroyed in the same
    revision), failed or destroyed; the result keeps all runs, operations and
    other generations, and adds one generation numbered one higher than the
    current, which becomes the current one, provisioning at revision 1 with no
    plan bound, the predecessor's policy and capability digests and a link to
    it.  The generation number does not wrap around. *)
Theorem reset_opens_next_generation request incidentID target w target' event w' :
  reset_mutate request incidentID target w = (Ok (target', event), w') ->
  exists i old, findTargetGeneration target (target_CurrentGeneration target) = Ok (i, old) /\
    (forall r, r ∈ target_Runs target -> run_Generation r = target_CurrentGeneration target ->
       TargetRunState_Terminal (run_State r) = true) /\
    (tgen_State old = TargetGenerationResettable \/ tgen_State old = TargetGenerationFailed \/
     tgen_State old = TargetGenerationDestroyed) /\
    target_Runs target' = target_Runs target /\ target_Operations target' = target_Operations target /\
    target_CurrentGeneration target' = (target_CurrentGeneration target + 1)%N /\
    exists kept next, target_Generations target' = <[i := kept]> (target_Generations target) ++ [next] /\
      TargetGenerationState_Terminal (tgen_State kept) = true /\
      tgen_Generation kept = target_CurrentGeneration target /\
      tgen_Generation next = (target_CurrentGeneration target + 1)%N /\
      tgen_Previous next = target_CurrentGeneration target /\
      tgen_State next = TargetGenerationProvisioning /\ tgen_Revision next = 1%N /\
      targetProvisioningBindingEmpty next = true /\
      tgen_PolicyDigest next = tgen_PolicyDigest old /\
      tgen_CapabilityDigest next = tgen_CapabilityDigest old.
Proof.
  intros E. unfold reset_mutate in E. inv_M E. destruct x1 as [i old]. inv_M E.
  destruct x0. rewrite res_each_ok in E1. apply clock_ok in E6 as [-> ->].
  apply new_generation_state in E8 as (S1 & S2 & Pv).
  cbn [Domain.tgs_Generation Domain.tgs_PreviousGeneration] in Pv.
  pose proof (found_tgen_number _ _ _ _ E2) as G. rewrite Pv, G in H0.
  assert (Q : exists kept, x1 = put_tgen target i kept /\ TargetGenerationState_Terminal (tgen_State kept) = true
    /\ tgen_Generation kept = target_CurrentGeneration target /\
    (tgen_State old = TargetGenerationResettable \/ tgen_State old = TargetGenerationFailed \/
     tgen_State old = TargetGenerationDestroyed)).
  { case_bool_decide as R; inv_M E3.
    - apply clock_ok in E8 as [-> ->]. exists (move_tgen old TargetGenerationDestroyed (clock_at (w_tick w))). auto.
    - exists old. to_prop. split; [|split; [by destruct E6 as [-> | ->]|auto]].
      unfold put_tgen. rewrite list_insert_id by exact (found_tgen_at _ _ _ _ E2). by destruct target. }
  destruct Q as (kept & -> & T & Kg & D). exists i, old. split; [done|]. split.
  { intros r Hr Gr. apply list_elem_of_lookup in Hr as [j Hr]. specialize (E1 _ _ Hr). rewrite check_ok in E1.
    to_prop. destruct E1 as [?|?]; [done|done]. }
  injection H0 as -> ->. split; [done|]. do 3 (split; [done|]).
  match goal with |- context [_ ++ [?g]] => exists kept, g end. done.
Qed.

Lemma finalize_generation_runs target n w out w' :
  finalize_generation target n w = (Ok out, w') ->
  same_state w w' /\ target_Runs out = target_Runs target /\
  target_Operations out = target_Operations target /\
  target_CurrentGeneration out = target_CurrentGeneration target /\
  target_ID out = target_ID target /\
  forall i g, findTargetGeneration target n = Ok (i, g) -> tgen_State g = TargetGenerationReady ->
    exists g', findTargetGeneration out n = Ok (i, g') /\ tgen_State g' = TargetGenerationResettable.
Proof.
  unfold finalize_generation. intros E. destruct (findTargetGeneration target n) as [[i g]|] eqn:F.
  - destruct (_ && _) eqn:B; inv_M E.
    + apply clock_ok in E0 as [-> ->]. repeat (split; [done|]). intros ? ? [= <- <-] _.
      eexists. split; [by apply found_put_tgen|done].
    + repeat (split; [done|]). intros ? ? [= <- <-] R. by rewrite R in B.
  - inv_M E. by repeat (split; [done|]).
Qed.

Lemma find_run_put target i r r' id :
  findRun target id = Ok (i, r) -> run_ID r' = run_ID r -> findRun (put_run target i r') id = Ok (i, r').
Proof.
  unfold findRun. rewrite !from_option_err_ok. intros F E. eapply find_index_update; [exact F|].
  apply list_find_Some in F as (_ & Q & _). by rewrite E.
Qed.

(** Finalising a run seals it with its bundle.  When the mutation of
    [FinalizeTargetRun] succeeds the run was found at the expected revision and
    every named incident is one of this target and run; in the result the run
    has the terminal state asked for, the bundle's identity, artifact and
    digest, and is otherwise the same run; a generation that was ready becomes
    resettable, so that a second run cannot start in it.  A run that completes
    without having entered finalizing passes through it in a row of its own:
    two rows are appended then, one otherwise, and the last one is the
    result. *)
Theorem finalized_run_is_sealed request target w out w' :
  finalize_run_mutate request target w = (Ok out, w') ->
  exists i run run', findRun target (frun_RunID request) = Ok (i, run) /\
    run_Revision run = frun_ExpectedRevision request /\
    (forall id, id ∈ frun_IncidentIDs request -> exists incident,
       core_incidents (w_core w) !! id = Some incident /\ inc_TargetID incident = target_ID target /\
       inc_TargetRunID incident = run_ID run /\ inc_SessionID incident = target_SessionID target) /\
    findRun out (frun_RunID request) = Ok (i, run') /\
    run_State run' = (if frun_Failed request then TargetRunFailed else TargetRunCompleted) /\
    run_ID run' = run_ID run /\ run_Generation run' = run_Generation run /\
    run_BundleID run' = frun_BundleID request /\ run_BundleArtifact run' = frun_BundleArtifact request /\
    run_BundleDigest run' = frun_BundleDigest request /\
    target_Operations out = target_Operations target /\
    (forall j g, findTargetGeneration target (run_Generation run) = Ok (j, g) ->
       tgen_State g = TargetGenerationReady -> exists g',
       findTargetGeneration out (run_Generation run) = Ok (j, g') /\
       tgen_State g' = TargetGenerationResettable) /\
    exists rows last, st_records (w_store w') = st_records (w_store w) ++ rows ++ [last] /\
      cr_Payload last = PTarget out /\
      length rows = (if negb (frun_Failed request) && negb (bool_decide (run_State run = TargetRunFinalizing))
                     then 1 else 0)%nat.
Proof.
  intros E. unfold finalize_run_mutate in E. inv_M E. destruct x as [i run]. inv_M E.
  assert (Ph : exists rows, added w w0 rows /\ findRun (fst x1) (frun_RunID request) = Ok (i, snd x1) /\
    length rows = (if negb (frun_Failed request) && negb (bool_decide (run_State run = TargetRunFinalizing))
                   then 1 else 0)%nat /\
    run_ID (snd x1) = run_ID run /\ run_Generation (snd x1) = run_Generation run /\
    target_Operations (fst x1) = target_Operations target /\
    target_Generations (fst x1) = target_Generations target).
  { destruct (_ && _); inv_M E3.
    - apply clock_ok in E5 as [-> ->]. apply record_target_added in E6 as (-> & row & A & P).
      exists [row]. split; [exact A|]. split; [by apply (find_run_put _ _ _ _ _ E0)|done].
    - exists []. split; [by apply added_nil|done]. }
  destruct Ph as (rows & A0 & F1 & L1 & I1 & G1 & O1 & S1). clear E3.
  destruct x1 as [target1 run1]. cbn [fst snd] in *. inv_M E. apply clock_ok in E4 as [-> ->].
  apply finalize_generation_runs in E6 as ([Sg _] & Ru & Op & _ & _ & Fg).
  apply record_target_added in E as (-> & row & A & P). to_prop.
  match type of Ru with context [put_run _ _ ?r] => exists i, run, r end.
  split; [done|]. split; [done|]. split.
  { intros id Hid. apply list_elem_of_lookup in Hid as [j Hid]. destruct x0. rewrite res_each_ok in E2.
    specialize (E2 _ _ Hid).
    apply res_bind_ok in E2 as (incident & Li & E2). rewrite from_option_err_ok in Li.
    rewrite check_ok in E2. to_prop. exists incident. tauto. }
  split. { etrans; [|by apply (find_run_put _ _ _ _ _ F1)]. unfold findRun. by rewrite <-Ru. }
  do 3 (split; [done|]). do 3 (split; [done|]). split; [by etrans; [exact Op|]|]. split.
  { intros j g Fj R. rewrite <-G1 in *. apply (Fg j g); [|done]. by rewrite <-Fj; unfold findTargetGeneration; cbn; rewrite S1. }
  exists rows, row. split; [|done]. unfold added in *. change (w_store w2 = w_store w0) in Sg.
  by rewrite A, Sg, A0, app_assoc.
Qed.
End Effects.

(** * Authorization

    What a successful [Authorize] establishes about the caller, the resource and
    the lease. *)
Definition identifiers (r : AuthorizationRequest) : list string :=
  [auth_SessionID r; auth_LeaseID r; auth_AgentWorkspaceID r; auth_ExecID r; auth_TargetID r;
   auth_TargetRunID r; auth_IncidentID r].

(** Each identifier that is given names a record of the session. *)
Record belongs (c : Core) (r : AuthorizationRequest) (sid : string) : Prop := {
  bl_session : auth_SessionID r <> "" -> auth_SessionID r = sid;
  bl_lease : auth_LeaseID r <> "" -> exists l, core_leases c !! auth_LeaseID r = Some l /\ lease_SessionID l = sid;
  bl_agent : auth_AgentWorkspaceID r <> "" ->
    exists a, core_agents c !! auth_AgentWorkspaceID r = Some a /\ agent_SessionID a = sid;
  bl_exec : auth_ExecID r <> "" -> exists e, core_execs c !! auth_ExecID r = Some e /\ exec_SessionID e = sid;
  bl_target : auth_TargetID r <> "" ->
    exists t, core_targets c !! auth_TargetID r = Some t /\ target_SessionID t = sid;
  bl_run : auth_TargetRunID r <> "" -> exists k t run, core_targets c !! k = Some t /\
    run ∈ target_Runs t /\ run_ID run = auth_TargetRunID r /\ target_SessionID t = sid;
  bl_incident : auth_IncidentID r <> "" ->
    exists i, core_incidents c !! auth_IncidentID r = Some i /\ inc_SessionID i = sid }.

Lemma resolve_identifier_ok {T} value (lookup : string -> option T) owner acc acc' :
  resolve_identifier value lookup owner acc = Ok acc' ->
  (value = "" /\ acc' = acc) \/
  (value <> "" /\ exists x, lookup value = Some x /\ acc' = (S (fst acc), owner x)).
Proof.
  unfold resolve_identifier. case_bool_decide as V; intros E; inv_res E; [by left|].
  right. split; [done|]. by exists x.
Qed.

Lemma target_of_run_ok c id t : target_of_run c id = Some t ->
  exists k run, core_targets c !! k = Some t /\ run ∈ target_Runs t /\ run_ID run = id.
Proof.
  unfold target_of_run. intros F. apply find_some in F as [I B]. apply list_elem_of_In in I.
  apply list_elem_of_fmap in I as ([k t'] & -> & I). apply elem_of_map_to_list in I.
  apply existsb_exists in B as (run & Hr & Q). apply list_elem_of_In in Hr. to_prop. by exists k, run.
Qed.

(** With a count of one, exactly one identifier was given, and the owner is what
    it resolved to. *)
Lemma resolve_owner_one c r sid : resolve_owner c r = Ok (1%nat, sid) ->
  length (List.filter (fun v => negb (bool_decide (v = ""))) (identifiers r)) = 1%nat /\ belongs c r sid.
Proof.
  unfold resolve_owner. intros E. inv_res E.
  apply resolve_identifier_ok in E0, E1, E2, E3, E4, E. unfold identifiers. cbn [List.filter].
  repeat match goal with
    | Q : (_ = "" /\ _) \/ _ |- _ => 
        destruct Q as [[? Q]|(? & ? & ? & Q)]; simplify_eq; cbn [fst] in *
    end.
  all: case_bool_decide; simplify_eq; repeat match goal with
    | Q : ?v = "" |- context [bool_decide (?v = "")] => rewrite (bool_decide_true (v = "")) by exact Q
    | Q : ?v <> "" |- context [bool_decide (?v = "")] => rewrite (bool_decide_false (v = "")) by exact Q
    end.
  all: split; [done|]; split; intros; try done; eauto.
  match goal with F : target_of_run _ _ = Some ?t |- _ =>
    apply target_of_run_ok in F as (k & run & ? & ? & ?); by exists k, t, run end.
Qed.

Section Access.
Context `{Env}.

(** C38: Authorization is sound.  When [Authorize] succeeds the subject is not
    blank, the request names exactly one resource, that resource belongs to a
    session owned by exactly that subject, and nothing is written; if the
    request carries a policy reference it is the session's, and the session's
    lease is active, not terminating and not expired at the clock reading. *)
Theorem authorization_sound request w w' :
  Authorize request w = (Ok tt, w') ->
  let c := w_core (snd (syncLocked w)) in
  blank (auth_Subject request) = false /\ w_store w' = w_store w /\
  length (List.filter (fun v => negb (bool_decide (v = ""))) (identifiers request)) = 1%nat /\
  exists sid session, core_sessions c !! sid = Some session /\ belongs c request sid /\
    session_OwnerSubject session = auth_Subject request /\ session_OwnerSubject session <> "" /\
    (auth_PolicyReference request <> "" ->
     auth_PolicyReference request = session_PolicyDigest session /\
     exists lease, core_leases c !! session_LeaseID session = Some lease /\
       lease_SessionID lease = session_ID session /\ lease_State lease = LeaseActive /\
       lease_Termination lease = zero_termination /\
       (clock_at (w_tick w) < lease_ExpiresAt lease)%Z).
Proof.
  intros E. unfold Authorize in E. inv_M E. destruct x1 as [n sid]. cbn [fst snd] in *.
  rewrite from_option_err_ok in E4. to_prop. apply Nat.eqb_eq in E3 as ->.
  apply resolve_owner_one in E2 as [L B]. pose proof (sync_store w) as Sw. rewrite E1 in *. cbn [snd] in *.
  split; [done|].
  assert (T : w_tick w0 = w_tick w).
  { revert E1. unfold syncLocked. destruct (sync_loop _ _ _). by intros [= _ <-]. }
  case_bool_decide as P; inv_M E.
  - split; [done|]. split; [done|]. exists sid, x3. naive_solver.
  - rewrite from_option_err_ok in E3. apply clock_ok in E7 as [-> ->]. rewrite T in *.
    apply is_ok_true in E as [u E]. apply lease_active_ok in E as (S1 & S2 & S3). to_prop.
    split; [done|]. split; [done|]. exists sid, x3. naive_solver.
Qed.
End Access.
