(* ===== verification/Hazards.v ===== *)
(** * A concrete run

    An environment whose clock advances by one second per reading, and a
    session that is acquired, provisioned, used and released in it.  The
    witnesses of the library's theorems evaluate on these states. *)
From S2P Require Import Prelude Errors Sha256 GoStrings States Values Ids Idempotency Models Evidence Records Store.
From S2P Require Import StoreFacts Requests Machine Replay Sync Sessions Targets Termination Incidents System.
Module Demo.
Definition second : Z := 1000000000%Z.
Definition start : time := (unix_epoch + 1700000000 * second)%Z.

(** Ten bytes that differ from reading to reading. *)
Definition entropy (n : nat) : list N := be_bytes 10 (N.of_nat n + 1).
Lemma entropy_ten n l : Some (entropy n) = Some l -> length l = 10%nat /\ is_bytes l.
Proof. intros [= <-]. split; [apply be_bytes_length|apply be_bytes_bound]. Qed.

(** The texts are stood for by short byte strings naming the kind of record or
    request: the code only hashes and compares them. *)
Definition payload_text (p : payload) : list N :=
  match p with
  | PSession _ => [1] | PLease _ => [2] | PAgent _ => [3] | PExec _ => [4] | PTarget _ => [5]
  | PIncident _ => [6] | PRaw _ => [7]
  end%N.
Definition request_text (r : request) : list N :=
  match r with
  | QAcquire _ => [1] | QRenewLease _ => [2] | QTransitionAgent _ => [3] | QCreateExec _ => [4]
  | QTransitionExec _ => [5] | QFinalizeExec _ => [6] | QCreateTarget _ => [7] | QRelease _ => [8]
  | QBeginExpiry _ => [9] | QCompleteTermination _ => [10] | _ => [11]
  end%N.

Lemma payload_text_nonempty p : payload_text p <> [].
Proof. by destruct p. Qed.
Lemma request_text_nonempty r : request_text r <> [].
Proof. by destruct r. Qed.

Definition env_with (clock : nat -> time) : Env :=
  {| clock_at := clock; random_at n := Some (entropy n); fault_at _ _ := None;
     payload_bytes := payload_text; request_bytes := request_text;
     random_ten := entropy_ten; payload_bytes_nonempty := payload_text_nonempty;
     request_bytes_nonempty := request_text_nonempty |}.

(** The commands one after the other. *)
Fixpoint run_all `{Env} (cmds : list command) (w : World) : World :=
  match cmds with [] => w | cmd :: rest => run_all rest (snd (run cmd w)) end.

(** One second per reading. *)
#[export] Instance env : Env := env_with (fun n => start + Z.of_nat n * second)%Z.

(** ** Requests *)
Definition digest : string := Eval vm_compute in digest_String (sha256 [1%N]).
Definition inputView : string := Eval vm_compute in inputView_String (sha256 [2%N]).
Definition meta (key : string) : MutationMeta :=
  mkMutationMeta key "corr_018bcfe5-6800-7000-8000-000000000007" "" "policy" (start + 1000000 * second)%Z.
Definition acquire : command := CAcquireResearchSession None
  (mkAcquireRequest (meta "acquire") "alice" inputView (mkInputSelectionRequest "" [] [] [] "" false)
     digest digest (3600 * second)%Z).

Definition key_of {V} (m : gmap string V) : string := default "" (fst <$> head (map_to_list m)).

Definition w_acquired : World := run_all [acquire] initial_world.
Definition sessionID : string := Eval vm_compute in key_of (core_sessions (w_core w_acquired)).
Definition leaseID : string := Eval vm_compute in key_of (core_leases (w_core w_acquired)).
Definition agentID : string := Eval vm_compute in key_of (core_agents (w_core w_acquired)).

Definition boot : command := CTransitionAgentGeneration None
  (mkTransitionAgentRequest (meta "boot") agentID 1 1 AgentGenerationBooting).
Definition ready : command := CTransitionAgentGeneration None
  (mkTransitionAgentRequest (meta "ready") agentID 1 2 AgentGenerationReady).
Definition quiesce : command := CTransitionAgentGeneration None
  (mkTransitionAgentRequest (meta "quiesce") agentID 1 3 AgentGenerationQuiescing).
Definition createExecRequest : CreateExecRequest :=
  mkCreateExecRequest (meta "exec") leaseID Domain.ExecTool "/bin/true" ["-v"] ".".
Definition createExec : command := CCreateExec None createExecRequest.
Definition createTargetRequest : CreateTargetRequest :=
  mkCreateTargetRequest (meta "target") leaseID "template" Domain.TargetLinuxContainer digest digest.
Definition createTarget : command := CCreateTarget None createTargetRequest.

Definition w_ready : World := run_all [boot; ready] w_acquired.
Definition w_target : World := run_all [createTarget] w_ready.
Definition targetID : string := Eval vm_compute in key_of (core_targets (w_core w_target)).
Definition instrument : command := CTransitionTargetGeneration None
  (mkTransitionTargetGenerationRequest (meta "instrument") targetID 1 1 TargetGenerationInstrumenting).
Definition targetReady : command := CTransitionTargetGeneration None
  (mkTransitionTargetGenerationRequest (meta "target-ready") targetID 1 2 TargetGenerationReady).
Definition w_targetReady : World := run_all [instrument; targetReady] w_target.
Definition startRunRequest : StartTargetRunRequest :=
  mkStartTargetRunRequest (meta "run") targetID digest [] [].
Definition startRun : command := CStartTargetRun None startRunRequest.
Definition w_run : World := run_all [startRun] w_targetReady.
Definition w_exec : World := run_all [createExec] w_ready.
Definition execID : string := Eval vm_compute in key_of (core_execs (w_core w_exec)).

Definition releaseRequest (revision : N) : ReleaseResearchSessionRequest :=
  mkReleaseResearchSessionRequest (meta "release") leaseID revision "done".
Definition beginRelease : command := CBeginReleaseResearchSession None (releaseRequest 1).
Definition completeRelease : command := CCompleteReleaseResearchSession None (releaseRequest 2).
Definition w_releasing : World := run_all [beginRelease] w_targetReady.
Definition w_released : World := run_all [completeRelease] w_releasing.
End Demo.

(** * Two ways to write a journal that does not replay

    Replay rejects a release that began at or after the lease's expiry and a
    record whose update time goes back; the operations that write those times do
    not make sure of either.  Both are shown on concrete runs without any
    fault. *)
Import Demo.

(** The lease of [acquire] lives for an hour from the first reading.  Two hours
    pass between reading 25, at which [beginLeaseTermination] checks that the
    lease has not expired, and reading 26, which it stores as the moment the
    release began. *)
Definition crossing_clock (n : nat) : time :=
  (start + Z.of_nat n * second + (if (n <=? 25)%nat then 0 else 7200 * second))%Z.
Definition crossing : Env := env_with crossing_clock.
Definition w_crossed : World := @run_all crossing [acquire; beginRelease] initial_world.

(** The clock is set back by an hour after the acquisition. *)
Definition stepped_clock (n : nat) : time :=
  (start + Z.of_nat n * second - (if (n <=? 21)%nat then 0 else 3600 * second))%Z.
Definition stepped : Env := env_with stepped_clock.
Definition w_stepped : World := @run_all stepped [acquire; boot] initial_world.

Lemma run_all_from_start (e : Env) cmds : @reachable e (@run_all e cmds initial_world).
Proof.
  assert (G : forall w, @reachable e w -> @reachable e (@run_all e cmds w)).
  { induction cmds as [|cmd cmds IH]; intros w R; [done|]. apply IH.
    eapply reachable_step; [exact R|constructor]. }
  apply G. constructor.
Qed.
Lemma crossing_monotone n m : (n <= m)%nat -> (crossing_clock n <= crossing_clock m)%Z.
Proof.
  intros L. unfold crossing_clock, second. destruct (n <=? 25)%nat eqn:E1, (m <=? 25)%nat eqn:E2; try lia.
  apply Nat.leb_le in E2. apply Nat.leb_nle in E1. lia.
Qed.

(** The release a journal row begins, and the expiry of its lease. *)
Definition release_of (r : ControlRecord payload) : option (time * time) :=
  match cr_Payload r with
  | PLease l => if bool_decide (term_Kind (lease_Termination l) = LeaseTerminationRelease)
                then Some (term_InitiatedAt (lease_Termination l), lease_ExpiresAt l) else None
  | _ => None
  end.

(** C21: A release that races with the expiry makes the journal unreplayable.
    With a clock that never goes back and without faults, a session is acquired
    and its release begun while the clock crosses the expiry between the two
    readings [beginLeaseTermination] makes: the transaction commits, the chain
    of hashes verifies, but the release is recorded as begun after the expiry
    and replay rejects that row, so the projection can no longer follow the
    journal, here and after every restart. *)
Theorem release_at_expiry_breaks_replay :
  (forall n m, (n <= m)%nat -> (@clock_at crossing n <= @clock_at crossing m)%Z) /\
  (forall n point, @fault_at crossing n point = None) /\
  @reachable crossing w_crossed /\
  Verify (@payload_bytes crossing) (w_store w_crossed) = Ok tt /\
  List.existsb (fun r => match release_of r with Some (at_, expiry) => (expiry <=? at_)%Z | None => false end)
    (st_records (w_store w_crossed)) = true /\
  is_ok (fst (syncLocked w_crossed)) = false /\ is_ok (fst (NewCore w_crossed)) = false.
Proof.
  split; [exact crossing_monotone|]. split; [done|]. split; [apply run_all_from_start|].
  repeat (apply conj; [vm_compute; reflexivity|]). vm_compute; reflexivity.
Qed.

(** A clock that is set back makes the journal unreplayable.  Without faults,
    a workspace is acquired, the clock is set back by an hour and the workspace
    transitions: the transaction commits a row whose update time is before the
    creation time, and replay rejects it. *)
Theorem clock_step_back_breaks_replay :
  (forall n point, @fault_at stepped n point = None) /\
  @reachable stepped w_stepped /\
  Verify (@payload_bytes stepped) (w_store w_stepped) = Ok tt /\
  length (st_records (w_store w_stepped)) = 6%nat /\
  is_ok (fst (syncLocked w_stepped)) = false /\ is_ok (fst (NewCore w_stepped)) = false.
Proof.
  split; [done|]. split; [apply run_all_from_start|].
  repeat (apply conj; [vm_compute; reflexivity|]). vm_compute; reflexivity.
Qed.
