(* ===== verification/Frames.v ===== *)
(** * Binary frames

    [internal/framing/framing.go]: the bounded, versioned frame format of the
    observation ledger and of the exec protocol, with what it uses of
    [hash/crc32], [encoding/binary] and [io]. *)
From S2P Require Import Prelude Sha256 GoStrings.
Local Open Scope N_scope.

(** ** [hash/crc32] with the Castagnoli polynomial (reversed: 0x82f63b78) *)
Definition crc_bit (c : N) : N :=
  if N.testbit c 0 then N.lxor (N.shiftr c 1) 2197175160 else N.shiftr c 1.
Definition crc_byte (c b : N) : N := Nat.iter 8 crc_bit (N.lxor c b).
Definition crc32c (l : list N) : N := N.lxor (fold_left crc_byte l 4294967295) 4294967295.

(** ** [encoding/binary.BigEndian]; [be_bytes n] is [PutUint] at [8*n] bits *)
Definition be_value (l : list N) : N := fold_left (fun acc b => 256 * acc + b) l 0.

(** ** [io.Reader] over a file or connection

    The bytes that can still be read, and how reading ends after them. *)
Inductive stream_end := EndEOF | EndError.
Record Reader := mkReader { rd_bytes : list N; rd_end : stream_end }.
#[export] Instance stream_end_eq_dec : EqDecision stream_end.
Proof. solve_decision. Defined.

Inductive read_err := ReadEOF | ReadUnexpectedEOF | ReadFailed.
#[export] Instance read_err_eq_dec : EqDecision read_err.
Proof. solve_decision. Defined.

(** [io.ReadFull]: the bytes read, an error when fewer than [n], the rest. *)
Definition ReadFull (n : nat) (r : Reader) : list N * option read_err * Reader :=
  if (n <=? length (rd_bytes r))%nat
  then (firstn n (rd_bytes r), None, mkReader (skipn n (rd_bytes r)) (rd_end r))
  else (rd_bytes r,
        Some (match rd_end r with
              | EndError => ReadFailed
              | EndEOF => if bool_decide (rd_bytes r = []) then ReadEOF else ReadUnexpectedEOF
              end),
        mkReader [] (rd_end r)).

(** ** Frames *)
Definition HeaderSize : nat := 12.
Definition TrailerSize : nat := 4.
Definition magic : list N := Eval vm_compute in bytes_of "GWFR".

Inductive frame_err :=
| FrameEOF
| ErrIncompleteFrame
| ErrInvalidMagic
| ErrChecksum
| ErrFrameTooLarge
| ErrInvalidVersion.
#[export] Instance frame_err_eq_dec : EqDecision frame_err.
Proof. solve_decision. Defined.

Record Frame := mkFrame { frame_Version : N; frame_Flags : N; frame_Payload : list N }.

(** [Decoder.Read]: the frame or an error, the bytes consumed, and the reader
    after it. *)
Definition Decoder_Read (maxPayload : N) (r : Reader) : res frame_err Frame * nat * Reader :=
  if maxPayload =? 0 then (Err ErrFrameTooLarge, 0%nat, r) else
  let '(header, e, r1) := ReadFull HeaderSize r in
  match e with
  | Some e =>
      if bool_decide (e = ReadEOF) && (length header =? 0)%nat then (Err FrameEOF, 0%nat, r1)
      else (Err ErrIncompleteFrame, length header, r1)
  | None =>
      if negb (bool_decide (firstn 4 header = magic)) then (Err ErrInvalidMagic, HeaderSize, r1) else
      let version := be_value (firstn 2 (skipn 4 header)) in
      if version =? 0 then (Err ErrInvalidVersion, HeaderSize, r1) else
      let flags := be_value (firstn 2 (skipn 6 header)) in
      let payloadLength := be_value (firstn 4 (skipn 8 header)) in
      if maxPayload <? payloadLength then (Err ErrFrameTooLarge, HeaderSize, r1) else
      let '(payload, e, r2) := ReadFull (N.to_nat payloadLength) r1 in
      let consumed := (HeaderSize + length payload)%nat in
      match e with
      | Some _ => (Err ErrIncompleteFrame, consumed, r2)
      | None =>
          let '(trailer, e, r3) := ReadFull TrailerSize r2 in
          let consumed := (consumed + length trailer)%nat in
          match e with
          | Some _ => (Err ErrIncompleteFrame, consumed, r3)
          | None =>
              let want := be_value trailer in
              if crc32c (header ++ payload) =? want
              then (Ok (mkFrame version flags payload), consumed, r3)
              else (Err ErrChecksum, consumed, r3)
          end
      end
  end.

Definition frame_header (f : Frame) : list N :=
  magic ++ be_bytes 2 (frame_Version f) ++ be_bytes 2 (frame_Flags f)
        ++ be_bytes 4 (N.of_nat (length (frame_Payload f))).

(** [Marshal] *)
Definition Marshal (f : Frame) (maxPayload : N) : res frame_err (list N) :=
  if frame_Version f =? 0 then Err ErrInvalidVersion else
  if maxPayload <? N.of_nat (length (frame_Payload f)) then Err ErrFrameTooLarge else
  let covered := frame_header f ++ frame_Payload f in
  Ok (covered ++ be_bytes 4 (crc32c covered)).

(** [io.Writer]: for each call how many of the offered bytes it takes and
    whether it reports an error. *)
Inductive write_err := WriteMarshal (e : frame_err) | WriteFailed | ErrShortWrite.

(** The loop of [Write] (and of the ledger's [writeAll]): the bytes accepted
    and an error.  A call that takes nothing ends the loop, so the offered
    bytes bound its rounds. *)
Fixpoint write_loop (fuel : nat) (responses : nat -> nat * bool) (round : nat) (value : list N)
  : list N * option write_err :=
  match fuel, value with
  | _, [] => ([], None)
  | O, _ => ([], Some ErrShortWrite)
  | S fuel', _ =>
      let '(n, failed) := responses round in
      let n := Nat.min n (length value) in
      if (failed : bool) then (firstn n value, Some WriteFailed) else
      if (n =? 0)%nat then ([], Some ErrShortWrite) else
      let '(out, e) := write_loop fuel' responses (S round) (skipn n value) in
      (firstn n value ++ out, e)
  end.

(** [Write] *)
Definition frame_Write (responses : nat -> nat * bool) (f : Frame) (maxPayload : N)
  : list N * option write_err :=
  match Marshal f maxPayload with
  | Err e => ([], Some (WriteMarshal e))
  | Ok encoded => write_loop (length encoded) responses 0 encoded
  end.

(** The check value of CRC-32C. *)
Example crc32c_check : crc32c (bytes_of "123456789") = 3808858755.
Proof. vm_compute. reflexivity. Qed.

(** ** Lemmas *)
Lemma be_value_app a b : be_value (a ++ b) = 256 ^ N.of_nat (length b) * be_value a + be_value b.
Proof.
  unfold be_value. rewrite fold_left_app.
  generalize (fold_left (fun acc b => 256 * acc + b) a 0). intros v.
  induction b as [|x b IH] using rev_ind; cbn [fold_left length]; [cbn; lia|].
  rewrite !fold_left_app, length_app; cbn [fold_left length].
  rewrite IH, Nat.add_1_r, Nat2N.inj_succ, N.pow_succ_r'. lia.
Qed.

Lemma be_value_be_bytes n x : x < 256 ^ N.of_nat n -> be_value (be_bytes n x) = x.
Proof.
  revert x; induction n as [|n IH]; intros x Hx; cbn [be_bytes].
  - cbn in Hx. change (be_value []) with 0. lia.
  - rewrite Nat2N.inj_succ, N.pow_succ_r' in Hx.
    rewrite be_value_app, IH by (apply N.Div0.div_lt_upper_bound; lia).
    change (be_value [x mod 256]) with (256 * 0 + x mod 256).
    change (256 ^ N.of_nat (length [x mod 256])) with 256.
    rewrite (N.div_mod x 256) at 3 by lia. lia.
Qed.

Lemma be_bytes_be_value l : is_bytes l -> be_bytes (length l) (be_value l) = l.
Proof.
  induction l as [|x l IH] using rev_ind; [done|]. intros H.
  apply Forall_app in H as [Hl Hx]. apply Forall_inv in Hx.
  rewrite length_app, Nat.add_1_r; cbn [be_bytes].
  rewrite be_value_app. cbn [length]. change (256 ^ N.of_nat 1) with 256.
  change (be_value [x]) with (256 * 0 + x).
  rewrite <-(N.div_unique (256 * be_value l + (256 * 0 + x)) 256 (be_value l) x) by lia.
  rewrite <-(N.mod_unique (256 * be_value l + (256 * 0 + x)) 256 (be_value l) x) by lia.
  by rewrite IH.
Qed.

Lemma frame_header_length f : length (frame_header f) = HeaderSize.
Proof. unfold frame_header. rewrite !length_app, !be_bytes_length. reflexivity. Qed.

Lemma Marshal_length f max bs :
  Marshal f max = Ok bs -> length bs = (HeaderSize + length (frame_Payload f) + TrailerSize)%nat.
Proof.
  unfold Marshal. do 2 (case_match; [done|]). intros <-%Ok_inj.
  rewrite !length_app, frame_header_length, be_bytes_length. unfold TrailerSize. lia.
Qed.

(** A well-formed frame has fields of the width the format gives them. *)
Record frame_ok (f : Frame) : Prop := {
  fo_version : frame_Version f < 65536;
  fo_flags : frame_Flags f < 65536;
  fo_payload : N.of_nat (length (frame_Payload f)) < 4294967296 }.


Lemma lt_pow2_bits a k : a < 2 ^ k <-> forall i, k <= i -> N.testbit a i = false.
Proof.
  split.
  - intros H i Hi. destruct (N.eq_dec a 0) as [->|Hn]; [apply N.bits_0|].
    apply N.bits_above_log2. apply N.log2_lt_pow2 in H; lia.
  - intros H. destruct (N.eq_dec a 0) as [->|Hn]; [apply N.neq_0_lt_0, N.pow_nonzero; lia|].
    apply N.log2_lt_pow2; [lia|]. destruct (N.lt_ge_cases (N.log2 a) k); [done|].
    pose proof (N.bit_log2 a Hn) as B. by rewrite H in B.
Qed.

Lemma lxor_lt_pow2 a b k : a < 2 ^ k -> b < 2 ^ k -> N.lxor a b < 2 ^ k.
Proof.
  rewrite !lt_pow2_bits. intros Ha Hb i Hi. by rewrite N.lxor_spec, Ha, Hb.
Qed.

Lemma shiftr_lt_pow2 a n k : a < 2 ^ k -> N.shiftr a n < 2 ^ k.
Proof. rewrite !lt_pow2_bits. intros Ha i Hi. rewrite N.shiftr_spec by lia. apply Ha. lia. Qed.

Lemma crc_bit_bound c : c < 2 ^ 32 -> crc_bit c < 2 ^ 32.
Proof.
  intros H. unfold crc_bit. destruct (N.testbit c 0); [|by apply shiftr_lt_pow2].
  apply lxor_lt_pow2; [by apply shiftr_lt_pow2|done].
Qed.

Lemma crc32c_bound l : is_bytes l -> crc32c l < 2 ^ 32.
Proof.
  intros Hl. apply lxor_lt_pow2; [|done].
  assert (G : forall c, c < 2 ^ 32 -> fold_left crc_byte l c < 2 ^ 32); [|by apply G].
  induction Hl as [|b l Hb Hl IH]; intros c Hc; cbn [fold_left]; [done|].
  apply IH. unfold crc_byte.
  assert (H0 : N.lxor c b < 2 ^ 32) by (apply lxor_lt_pow2; [done|]; eapply N.lt_trans; [apply Hb|done]).
  revert H0; generalize (N.lxor c b); intros x Hx. cbn [Nat.iter nat_rect].
  repeat apply crc_bit_bound. exact Hx.
Qed.

Lemma ReadFull_app a b e : ReadFull (length a) (mkReader (a ++ b) e) = (a, None, mkReader b e).
Proof.
  unfold ReadFull; cbn [rd_bytes rd_end]. rewrite length_app.
  replace (length a <=? length a + length b)%nat with true by (symmetry; apply Nat.leb_le; lia).
  by rewrite drop_app_length, take_app_length.
Qed.

Lemma ReadFull_short n r :
  (length (rd_bytes r) < n)%nat ->
  ReadFull n r = (rd_bytes r,
    Some (match rd_end r with
          | EndError => ReadFailed
          | EndEOF => if bool_decide (rd_bytes r = []) then ReadEOF else ReadUnexpectedEOF
          end), mkReader [] (rd_end r)).
Proof. intros H. unfold ReadFull. by apply Nat.leb_gt in H as ->. Qed.

Lemma firstn_skipn_app {A} (p a r : list A) n m :
  length p = n -> length a = m -> firstn m (skipn n (p ++ a ++ r)) = a.
Proof. intros <- <-. by rewrite drop_app_length, take_app_length. Qed.

Section Fields.
Variable f : Frame.
Let m := magic.
Let v := be_bytes 2 (frame_Version f).
Let g := be_bytes 2 (frame_Flags f).
Let n := be_bytes 4 (N.of_nat (length (frame_Payload f))).

Lemma header_magic : firstn 4 (frame_header f) = magic.
Proof. reflexivity. Qed.
Lemma header_version : firstn 2 (skipn 4 (frame_header f)) = v.
Proof. unfold frame_header. apply firstn_skipn_app; [done|apply be_bytes_length]. Qed.
Lemma header_flags : firstn 2 (skipn 6 (frame_header f)) = g.
Proof.
  unfold frame_header. rewrite (app_assoc magic).
  apply firstn_skipn_app; [by rewrite length_app, be_bytes_length|apply be_bytes_length].
Qed.
Lemma header_payload_length : firstn 4 (skipn 8 (frame_header f)) = n.
Proof.
  unfold frame_header. rewrite <-(app_nil_r (be_bytes 4 _)), (app_assoc magic), (app_assoc (magic ++ _)).
  apply firstn_skipn_app; [by rewrite !length_app, !be_bytes_length|apply be_bytes_length].
Qed.
End Fields.

Lemma Marshal_ok f max bs :
  Marshal f max = Ok bs ->
  frame_Version f <> 0 /\ N.of_nat (length (frame_Payload f)) <= max /\
  bs = frame_header f ++ frame_Payload f ++ be_bytes 4 (crc32c (frame_header f ++ frame_Payload f)).
Proof.
  unfold Marshal. do 2 (case_match; [done|]). intros <-%Ok_inj. to_prop.
  by rewrite <-app_assoc.
Qed.

Lemma frame_header_bytes f : is_bytes (frame_header f).
Proof.
  unfold frame_header. rewrite !Forall_app. repeat split; try apply be_bytes_bound.
  repeat constructor.
Qed.

(** Decoding what [Marshal] encoded, whatever follows it. *)
Lemma Decoder_Read_Marshal f max bs rest e :
  frame_ok f -> is_bytes (frame_Payload f) -> Marshal f max = Ok bs -> max <> 0 ->
  Decoder_Read max (mkReader (bs ++ rest) e) = (Ok f, length bs, mkReader rest e).
Proof.
  intros [Hv Hg Hn] Hb M Hmax. pose proof (Marshal_length _ _ _ M) as L.
  apply Marshal_ok in M as (V & B & ->).
  unfold Decoder_Read. apply N.eqb_neq in Hmax as ->.
  rewrite <-!app_assoc, <-(frame_header_length f), ReadFull_app.
  rewrite header_magic, bool_decide_eq_true_2, header_version, header_flags, header_payload_length by done.
  cbn [negb]. rewrite !be_value_be_bytes by done.
  apply N.eqb_neq in V as ->. apply N.ltb_ge in B as ->.
  rewrite Nat2N.id, ReadFull_app.
  replace TrailerSize with (length (be_bytes 4 (crc32c (frame_header f ++ frame_Payload f))))
    by apply be_bytes_length.
  rewrite ReadFull_app, be_value_be_bytes, N.eqb_refl.
  - by destruct f; rewrite !length_app, Nat.add_assoc.
  - apply crc32c_bound, Forall_app. split; [apply frame_header_bytes|done].
Qed.

(** Every strict prefix of a frame reads as the end of the stream (when it is
    empty) or as an incomplete frame, never as another error. *)
Lemma Decoder_Read_prefix f max bs t s :
  frame_ok f -> Marshal f max = Ok bs -> max <> 0 -> bs = t ++ s -> s <> [] ->
  fst (fst (Decoder_Read max (mkReader t EndEOF))) =
    Err (if bool_decide (t = []) then FrameEOF else ErrIncompleteFrame).
Proof.
  intros [Hv Hg Hn] M Hmax E Hs. pose proof (Marshal_length _ _ _ M) as L.
  apply Marshal_ok in M as (V & B & M). rewrite E in M, L. rewrite length_app in L.
  assert (Ls : (0 < length s)%nat) by (destruct s; cbn; [done|lia]).
  unfold Decoder_Read. apply N.eqb_neq in Hmax as ->.
  destruct (decide (length t < HeaderSize)%nat) as [Ht|Ht].
  { rewrite ReadFull_short by done; cbn [rd_bytes rd_end].
    destruct t as [|x t]; [done|]. by rewrite !bool_decide_eq_false_2 by done. }
  pose proof (frame_header_length f) as LH.
  assert (exists t1, t = frame_header f ++ t1) as [t1 ->].
  { exists (skipn HeaderSize t). rewrite <-(firstn_skipn HeaderSize t) at 1. f_equal.
    apply (f_equal (firstn HeaderSize)) in M.
    rewrite firstn_app, firstn_app, LH, Nat.sub_diag in M.
    replace (HeaderSize - length t)%nat with 0%nat in M by lia.
    rewrite (firstn_all2 (frame_header f)) in M by lia. by rewrite !app_nil_r in M. }
  rewrite <-app_assoc in M. apply app_inv_head in M.
  rewrite <-LH, ReadFull_app, header_magic, bool_decide_eq_true_2, header_version, header_flags,
    header_payload_length by done.
  cbn [negb]. rewrite !be_value_be_bytes by done.
  apply N.eqb_neq in V as ->. apply N.ltb_ge in B as ->. rewrite Nat2N.id.
  rewrite (bool_decide_eq_false_2 (_ ++ _ = [])) by (destruct (frame_header f); [done|by intros [=]]).
  destruct (decide (length t1 < length (frame_Payload f))%nat) as [H1|H1].
  { by rewrite ReadFull_short. }
  assert (exists t2, t1 = frame_Payload f ++ t2) as [t2 ->].
  { exists (skipn (length (frame_Payload f)) t1). rewrite <-(firstn_skipn (length (frame_Payload f)) t1) at 1.
    f_equal. apply (f_equal (firstn (length (frame_Payload f)))) in M.
    rewrite !firstn_app, Nat.sub_diag in M.
    replace (length (frame_Payload f) - length t1)%nat with 0%nat in M by lia.
    rewrite firstn_all in M. by rewrite !app_nil_r in M. }
  rewrite ReadFull_app. rewrite !length_app in L.
  rewrite ReadFull_short; [done|]. cbn. rewrite LH in L. unfold TrailerSize in *. lia.
Qed.
