(* ===== verification/LedgerCodec.v ===== *)
(** * Ledger records and their encoding

    [internal/ledger/types.go] and [internal/ledger/codec.go]: the record of
    the observation ledger, the checks on its shape, and the binary encoding of
    a record and of the hash-chained wire record around it.

    The numeric types [RecordKind], [OriginClass], [CollectorPlacement] and
    [GapCause] are [uint8] in the code and numbers here; a [float64] is its bit
    pattern, and the comparisons made with it are computed on the pattern.
    Strings are byte strings and payloads byte lists; a nil payload is the
    empty one. *)
From Stdlib Require Import Ascii.
From S2P Require Import Prelude Sha256 GoStrings Utf8Facts Frames.
Local Open Scope N_scope.

(** ** Errors of the ledger; [ErrIO] is an error of a file-system call *)
Inductive lerr :=
| ErrClosed
| ErrCursorOutOfRange
| ErrCursorOrder
| ErrHashChain
| ErrCorruptSegment (segment : string) (offset : nat)
| ErrUnsupportedVersion
| ErrInvalidRecord
| ErrMultipleOpenSegments
| ErrRecordTooLarge
| ErrRecoveryRequired
| ErrFrame (e : frame_err)
| ErrFieldTooLarge
| ErrDecode
| ErrOptions
| ErrEOF
| ErrIO (call : string)
| ErrCanceled.
#[export] Instance lerr_eq_dec : EqDecision lerr.
Proof. solve_decision. Defined.

Definition segmentFrameVersion : N := 1.
Definition recordEncodingVersion : N := 1.

(** [RecordKind] *)
Definition RecordObservation : N := 1.
Definition RecordGap : N := 8.
Definition RecordDuplicate : N := 9.

(** [GapCause] *)
Definition GapSourceSequence : N := 5.
Definition GapSubscriberOverflow : N := 6.
Definition GapSegmentRepair : N := 7.

Record Identity := mkIdentity {
  id_ResearchSessionID : string; id_LeaseID : string; id_AgentWorkspaceID : string;
  id_AgentGeneration : N; id_ExecID : string; id_TargetID : string; id_TargetGeneration : N;
  id_TargetRunID : string; id_TargetOperationID : string }.

Record CollectorContext := mkCollector {
  cc_ID : string; cc_Placement : N; cc_Coverage : string }.

Record ProcessIdentity := mkProcess { pi_ID : Z; pi_StartTimeUnixNano : Z }.

Record CausalContext := mkCausal {
  ca_CausationID : string; ca_CorrelationID : string; ca_CorrelationMethod : string;
  ca_Confidence : N }.

Record Gap := mkGap {
  gap_Cause : N; gap_Source : string; gap_SourceInstance : string;
  gap_FromSequence : N; gap_ThroughSequence : N;
  gap_FromCursor : N; gap_ThroughCursor : N; gap_Detail : string }.

Record Duplicate := mkDuplicate {
  dup_Source : string; dup_SourceInstance : string; dup_SourceSequence : N;
  dup_OriginalCursor : N; dup_ConflictingPayload : bool }.

Record LedgerRecord := mkRecord {
  r_Cursor : N; r_Kind : N; r_EventID : string; r_Identity : Identity;
  r_SignalFamily : string; r_SubjectID : string; r_Source : string; r_SourceInstance : string;
  r_HasSourceSequence : bool; r_SourceSequence : N;
  r_ObservedWallUnixNano : Z; r_ObservedMonotonicNanos : Z;
  r_ClockDomain : string; r_ClockSyncEpoch : N;
  r_Collector : CollectorContext; r_Process : ProcessIdentity;
  r_PolicyDigest : string; r_CapabilityDigest : string;
  r_Origin : N; r_OriginEvidence : string; r_Causal : CausalContext;
  r_Payload : list N; r_Gap : option Gap; r_Duplicate : option Duplicate;
  r_ChainHash : list N }.
#[export] Instance : Settable LedgerRecord := {| record_eta r :=
  mkRecord (r_Cursor r) (r_Kind r) (r_EventID r) (r_Identity r) (r_SignalFamily r) (r_SubjectID r)
    (r_Source r) (r_SourceInstance r) (r_HasSourceSequence r) (r_SourceSequence r)
    (r_ObservedWallUnixNano r) (r_ObservedMonotonicNanos r) (r_ClockDomain r) (r_ClockSyncEpoch r)
    (r_Collector r) (r_Process r) (r_PolicyDigest r) (r_CapabilityDigest r) (r_Origin r)
    (r_OriginEvidence r) (r_Causal r) (r_Payload r) (r_Gap r) (r_Duplicate r) (r_ChainHash r) |}.

Definition zero_chain : list N := repeat 0 32.

(** ** [float64] bit patterns *)
Definition f64_magnitude (b : N) : N := N.land b 9223372036854775807.
Definition f64_negative (b : N) : bool := N.testbit b 63.
Definition f64_IsNaN (b : N) : bool := 9218868437227405312 <? f64_magnitude b.
(** [b < 0] and [b > 1] *)
Definition f64_lt_zero (b : N) : bool :=
  negb (f64_IsNaN b) && f64_negative b && negb (f64_magnitude b =? 0).
Definition f64_gt_one (b : N) : bool :=
  negb (f64_IsNaN b) && negb (f64_negative b) && (4607182418800017408 <? f64_magnitude b).

(** [validateRecordShape] *)
Definition validateRecordShape (r : LedgerRecord) : res lerr unit :=
  let has {A} (o : option A) := bool_decide (is_Some o) in
  _ ← check ((RecordObservation <=? r_Kind r) && (r_Kind r <=? RecordDuplicate)) ErrInvalidRecord;
  _ ← (if r_Kind r =? RecordGap
       then check (has (r_Gap r) && negb (has (r_Duplicate r))) ErrInvalidRecord
       else check (negb (has (r_Gap r))) ErrInvalidRecord);
  _ ← (if r_Kind r =? RecordDuplicate
       then check (has (r_Duplicate r) && negb (has (r_Gap r))) ErrInvalidRecord
       else check (negb (has (r_Duplicate r))) ErrInvalidRecord);
  _ ← check (bool_decide (ca_CorrelationID (r_Causal r) = "")
             || negb (bool_decide (ca_CorrelationMethod (r_Causal r) = "")
                      || f64_IsNaN (ca_Confidence (r_Causal r))
                      || f64_lt_zero (ca_Confidence (r_Causal r))
                      || f64_gt_one (ca_Confidence (r_Causal r)))) ErrInvalidRecord;
  check (negb (r_HasSourceSequence r
               && (bool_decide (r_Source r = "") || bool_decide (r_SourceInstance r = ""))))
    ErrInvalidRecord.

(** [Record.Validate] *)
Definition Record_Validate (r : LedgerRecord) : res lerr unit :=
  _ ← check ((r_Cursor r =? 0) && bool_decide (r_ChainHash r = zero_chain)) ErrInvalidRecord;
  validateRecordShape r.

(** ** [binaryEncoder]

    A list of writes.  The only error is a field longer than [MaxUint32]; once
    it is set the result is an error whatever is written after it. *)
Abbreviation encoder := (list (res lerr (list N))).

Fixpoint encoder_result (ws : encoder) : res lerr (list N) :=
  match ws with
  | [] => Ok []
  | w :: ws => b ← w; bs ← encoder_result ws; Ok (b ++ bs)
  end.

Definition int64_bits (v : Z) : N := Z.to_N (v mod 18446744073709551616).

Definition e_uint8 (v : N) : res lerr (list N) := Ok (be_bytes 1 v).
Definition e_uint16 (v : N) : res lerr (list N) := Ok (be_bytes 2 v).
Definition e_uint64 (v : N) : res lerr (list N) := Ok (be_bytes 8 v).
Definition e_int64 (v : Z) : res lerr (list N) := e_uint64 (int64_bits v).
Definition e_float64 (v : N) : res lerr (list N) := e_uint64 v.
Definition e_boolean (v : bool) : res lerr (list N) := e_uint8 (if v then 1 else 0).
Definition e_bytes (v : list N) : res lerr (list N) :=
  if 4294967295 <? N.of_nat (length v) then Err ErrFieldTooLarge
  else Ok (be_bytes 4 (N.of_nat (length v)) ++ v).
Definition e_string (v : string) : res lerr (list N) := e_bytes (bytes_of v).
Definition e_hash (v : list N) : res lerr (list N) := Ok v.

(** ** [binaryDecoder]

    A reader of the remaining bytes.  The code keeps the first error and
    ignores later reads, whose results are never used: this is an early
    return. *)
Definition decoder (A : Type) : Type := list N -> res lerr (A * list N).
#[export] Instance decoder_ret : MRet decoder := fun A a l => Ok (a, l).
#[export] Instance decoder_bind : MBind decoder := fun A B f d l =>
  match d l with Ok (a, r) => f a r | Err e => Err e end.

Definition d_fail {A} : decoder A := fun _ => Err ErrDecode.

(** [binary.Read] of a fixed-size value: [io.ReadFull]. *)
Definition d_fixed (n : nat) : decoder N := fun l =>
  if (n <=? length l)%nat then Ok (be_value (firstn n l), skipn n l) else Err ErrDecode.
Definition d_uint8 : decoder N := d_fixed 1.
Definition d_uint16 : decoder N := d_fixed 2.
Definition d_uint32 : decoder N := d_fixed 4.
Definition d_uint64 : decoder N := d_fixed 8.
Definition int64_value (n : N) : Z :=
  if n <? 9223372036854775808 then Z.of_N n else (Z.of_N n - 18446744073709551616)%Z.
Definition d_int64 : decoder Z := n ← d_uint64; mret (int64_value n).
Definition d_float64 : decoder N := d_uint64.
Definition d_boolean : decoder bool :=
  v ← d_uint8; if 1 <? v then d_fail else mret (v =? 1).

(** [bytes.Reader.Read]: nothing left is [io.EOF], even for an empty buffer;
    fewer bytes than asked for is not an error. *)
Definition d_read (n : nat) : decoder (list N) := fun l =>
  if bool_decide (l = []) then Err ErrDecode else Ok (firstn n l, skipn n l).
Definition d_remaining : decoder N := fun l => Ok (N.of_nat (length l), l).
Definition d_bytes : decoder (list N) :=
  n ← d_uint32; remaining ← d_remaining;
  if remaining <? n then d_fail else d_read (N.to_nat n).
Definition d_string : decoder string := b ← d_bytes; mret (string_of b).
(** A short read leaves the rest of the array zero. *)
Definition d_hash : decoder (list N) :=
  b ← d_read 32; mret (b ++ repeat 0 (32 - length b)).

Definition decoder_done {A} (d : decoder A) (l : list N) : res lerr A :=
  match d l with
  | Err e => Err e
  | Ok (a, rest) => if bool_decide (rest = []) then Ok a else Err ErrDecode
  end.

(** ** Records *)
Definition encodeIdentity (i : Identity) : encoder :=
  [e_string (id_ResearchSessionID i); e_string (id_LeaseID i); e_string (id_AgentWorkspaceID i);
   e_uint64 (id_AgentGeneration i); e_string (id_ExecID i); e_string (id_TargetID i);
   e_uint64 (id_TargetGeneration i); e_string (id_TargetRunID i); e_string (id_TargetOperationID i)].

Definition encodeCausalContext (c : CausalContext) : encoder :=
  [e_string (ca_CausationID c); e_string (ca_CorrelationID c); e_string (ca_CorrelationMethod c);
   e_float64 (ca_Confidence c)].

Definition encodeGap (gap : option Gap) : encoder :=
  e_boolean (bool_decide (is_Some gap)) ::
  match gap with
  | None => []
  | Some g =>
      [e_uint8 (gap_Cause g); e_string (gap_Source g); e_string (gap_SourceInstance g);
       e_uint64 (gap_FromSequence g); e_uint64 (gap_ThroughSequence g);
       e_uint64 (gap_FromCursor g); e_uint64 (gap_ThroughCursor g); e_string (gap_Detail g)]
  end.

Definition encodeDuplicate (duplicate : option Duplicate) : encoder :=
  e_boolean (bool_decide (is_Some duplicate)) ::
  match duplicate with
  | None => []
  | Some d =>
      [e_string (dup_Source d); e_string (dup_SourceInstance d); e_uint64 (dup_SourceSequence d);
       e_uint64 (dup_OriginalCursor d); e_boolean (dup_ConflictingPayload d)]
  end.

Definition marshalRecord (r : LedgerRecord) : res lerr (list N) :=
  encoder_result
    ([e_uint8 (r_Kind r); e_uint64 (r_Cursor r); e_string (r_EventID r)]
     ++ encodeIdentity (r_Identity r)
     ++ [e_string (r_SignalFamily r); e_string (r_SubjectID r); e_string (r_Source r);
         e_string (r_SourceInstance r); e_boolean (r_HasSourceSequence r);
         e_uint64 (r_SourceSequence r); e_int64 (r_ObservedWallUnixNano r);
         e_int64 (r_ObservedMonotonicNanos r); e_string (r_ClockDomain r);
         e_uint64 (r_ClockSyncEpoch r); e_string (cc_ID (r_Collector r));
         e_uint8 (cc_Placement (r_Collector r)); e_string (cc_Coverage (r_Collector r));
         e_int64 (pi_ID (r_Process r)); e_int64 (pi_StartTimeUnixNano (r_Process r));
         e_string (r_PolicyDigest r); e_string (r_CapabilityDigest r);
         e_uint8 (r_Origin r); e_string (r_OriginEvidence r)]
     ++ encodeCausalContext (r_Causal r)
     ++ [e_bytes (r_Payload r)]
     ++ encodeGap (r_Gap r)
     ++ encodeDuplicate (r_Duplicate r)).

Definition decodeIdentity : decoder Identity :=
  a ← d_string; b ← d_string; c ← d_string; d ← d_uint64; e ← d_string; f ← d_string;
  g ← d_uint64; h ← d_string; i ← d_string; mret (mkIdentity a b c d e f g h i).

Definition decodeCausalContext : decoder CausalContext :=
  a ← d_string; b ← d_string; c ← d_string; d ← d_float64; mret (mkCausal a b c d).

Definition decodeGap : decoder (option Gap) :=
  present ← d_boolean;
  if (present : bool) then
    a ← d_uint8; b ← d_string; c ← d_string; d ← d_uint64; e ← d_uint64; f ← d_uint64;
    g ← d_uint64; h ← d_string; mret (Some (mkGap a b c d e f g h))
  else mret None.

Definition decodeDuplicate : decoder (option Duplicate) :=
  present ← d_boolean;
  if (present : bool) then
    a ← d_string; b ← d_string; c ← d_uint64; d ← d_uint64; e ← d_boolean;
    mret (Some (mkDuplicate a b c d e))
  else mret None.

Definition decodeRecord : decoder LedgerRecord :=
  kind ← d_uint8; cursor ← d_uint64; eventID ← d_string; identity ← decodeIdentity;
  signalFamily ← d_string; subjectID ← d_string; source ← d_string; instance ← d_string;
  hasSequence ← d_boolean; sequence ← d_uint64; wall ← d_int64; monotonic ← d_int64;
  clockDomain ← d_string; epoch ← d_uint64;
  collectorID ← d_string; placement ← d_uint8; coverage ← d_string;
  pid ← d_int64; start ← d_int64;
  policy ← d_string; capability ← d_string; origin ← d_uint8; evidence ← d_string;
  causal ← decodeCausalContext; payload ← d_bytes; gap ← decodeGap; duplicate ← decodeDuplicate;
  mret (mkRecord cursor kind eventID identity signalFamily subjectID source instance hasSequence
          sequence wall monotonic clockDomain epoch (mkCollector collectorID placement coverage)
          (mkProcess pid start) policy capability origin evidence causal payload gap duplicate
          zero_chain).

Definition unmarshalRecord (encoded : list N) : res lerr LedgerRecord :=
  r ← decoder_done decodeRecord encoded;
  _ ← check (negb (r_Cursor r =? 0)) ErrInvalidRecord;
  _ ← validateRecordShape r;
  Ok r.

(** [marshalWireRecord]: the wire bytes and the chain hash. *)
Definition marshalWireRecord (r : LedgerRecord) (previousHash : list N)
  : res lerr (list N * list N) :=
  recordBytes ← marshalRecord r;
  let chainHash := sha256 (previousHash ++ recordBytes) in
  wire ← encoder_result [e_uint16 recordEncodingVersion; e_hash previousHash; e_hash chainHash;
                         e_bytes recordBytes];
  Ok (wire, chainHash).

Definition decodeWire : decoder (N * list N * list N * list N) :=
  version ← d_uint16; previousHash ← d_hash; storedHash ← d_hash; recordBytes ← d_bytes;
  mret (version, previousHash, storedHash, recordBytes).

(** [unmarshalWireRecord]: the record with its chain hash, and the hash it
    follows. *)
Definition unmarshalWireRecord (encoded : list N) : res lerr (LedgerRecord * list N) :=
  '(version, previousHash, storedHash, recordBytes) ← decoder_done decodeWire encoded;
  _ ← check (version =? recordEncodingVersion) ErrUnsupportedVersion;
  _ ← check (bool_decide (sha256 (previousHash ++ recordBytes) = storedHash)) ErrHashChain;
  r ← unmarshalRecord recordBytes;
  Ok (r <| r_ChainHash := storedHash |>, previousHash).

(** ** What the encoding can represent *)
Definition fits64 (v : Z) : Prop := (- 9223372036854775808 <= v < 9223372036854775808)%Z.

Record gap_wf (g : Gap) : Prop := {
  gw_cause : gap_Cause g < 256; gw_from : gap_FromSequence g < two64;
  gw_through : gap_ThroughSequence g < two64; gw_fromc : gap_FromCursor g < two64;
  gw_throughc : gap_ThroughCursor g < two64 }.

Record duplicate_wf (d : Duplicate) : Prop := {
  dw_sequence : dup_SourceSequence d < two64; dw_cursor : dup_OriginalCursor d < two64 }.

(** The fields hold values of their Go types. *)
Record record_wf (r : LedgerRecord) : Prop := {
  rw_kind : r_Kind r < 256; rw_cursor : r_Cursor r < two64;
  rw_agent : id_AgentGeneration (r_Identity r) < two64;
  rw_target : id_TargetGeneration (r_Identity r) < two64;
  rw_sequence : r_SourceSequence r < two64; rw_wall : fits64 (r_ObservedWallUnixNano r);
  rw_monotonic : fits64 (r_ObservedMonotonicNanos r); rw_epoch : r_ClockSyncEpoch r < two64;
  rw_placement : cc_Placement (r_Collector r) < 256; rw_pid : fits64 (pi_ID (r_Process r));
  rw_start : fits64 (pi_StartTimeUnixNano (r_Process r)); rw_origin : r_Origin r < 256;
  rw_confidence : ca_Confidence (r_Causal r) < two64; rw_payload : is_bytes (r_Payload r);
  rw_gap : forall g, r_Gap r = Some g -> gap_wf g;
  rw_duplicate : forall d, r_Duplicate r = Some d -> duplicate_wf d }.

(** ** Round trips

    [parses d a ws]: decoding what the writes produce gives [a] and leaves
    what follows, as long as something follows ([bytes.Reader] reports the end
    of its input even to an empty read).  [parses_any] is the same without
    that condition. *)
Definition parses {A} (d : decoder A) (a : A) (ws : encoder) : Prop :=
  forall bs rest, encoder_result ws = Ok bs -> rest <> [] -> d (bs ++ rest) = Ok (a, rest).
Definition parses_any {A} (d : decoder A) (a : A) (ws : encoder) : Prop :=
  forall bs rest, encoder_result ws = Ok bs -> d (bs ++ rest) = Ok (a, rest).
Definition produces (ws : encoder) : Prop := forall bs, encoder_result ws = Ok bs -> bs <> [].

Create HintDb wire.

Lemma encoder_result_app a b bs :
  encoder_result (a ++ b) = Ok bs <->
  exists x y, encoder_result a = Ok x /\ encoder_result b = Ok y /\ bs = x ++ y.
Proof.
  revert bs; induction a as [|w a IH]; intros bs; cbn [encoder_result app].
  - split; [|naive_solver]. intros H. by exists [], bs.
  - split.
    + intros H. inv_res H. apply IH in H1 as (u & v & Hu & Hv & ->).
      exists (x ++ u), v. rewrite Hu; cbn. by rewrite app_assoc.
    + intros (x & y & Hx & Hy & ->). inv_res Hx. cbn.
      replace (encoder_result (a ++ b)) with (@Ok lerr _ (x1 ++ y)) by (symmetry; apply IH; eauto).
      cbn. by rewrite app_assoc.
Qed.

Lemma parses_any_parses {A} (d : decoder A) a ws : parses_any d a ws -> parses d a ws.
Proof. intros H bs rest E _. by apply H. Qed.

Lemma decoder_bind_ok {A B} (d : decoder A) (k : A -> decoder B) l a r :
  d l = Ok (a, r) -> (d ≫= k) l = k a r.
Proof. unfold mbind, decoder_bind. by intros ->. Qed.

Lemma parses_bind {A B} (d : decoder A) (k : A -> decoder B) a b ws1 ws2 :
  parses d a ws1 -> parses (k a) b ws2 -> parses (d ≫= k) b (ws1 ++ ws2).
Proof.
  intros H1 H2 bs rest (x & y & Hx & Hy & ->)%encoder_result_app Hr.
  rewrite <-app_assoc. erewrite decoder_bind_ok; [by apply H2|].
  apply H1; [done|]. by intros [_ ?]%app_eq_nil.
Qed.

Lemma parses_bind_any {A B} (d : decoder A) (k : A -> decoder B) a b ws1 ws2 :
  parses d a ws1 -> parses_any (k a) b ws2 -> produces ws2 -> parses_any (d ≫= k) b (ws1 ++ ws2).
Proof.
  intros H1 H2 P bs rest (x & y & Hx & Hy & ->)%encoder_result_app.
  rewrite <-app_assoc. erewrite decoder_bind_ok; [by apply H2|].
  apply H1; [done|]. intros [N1 _]%app_eq_nil. by apply (P y).
Qed.

Lemma parses_ret {A} (a : A) : parses (mret a) a [].
Proof. intros bs rest E _. cbn in E. by apply Ok_inj in E as <-. Qed.
Lemma parses_any_ret {A} (a : A) : parses_any (mret a) a [].
Proof. intros bs rest E. cbn in E. by apply Ok_inj in E as <-. Qed.

(** Steps over one write. *)
Lemma parses_cons {A B} (d : decoder A) (k : A -> decoder B) a b w ws :
  parses d a [w] -> parses (k a) b ws -> parses (d ≫= k) b (w :: ws).
Proof. intros. by apply (parses_bind d k a b [w]). Qed.
Lemma parses_cons_any {A B} (d : decoder A) (k : A -> decoder B) a b w ws :
  parses d a [w] -> parses_any (k a) b ws -> produces ws -> parses_any (d ≫= k) b (w :: ws).
Proof. intros. by apply (parses_bind_any d k a b [w]). Qed.

Lemma produces_app_r a b : produces b -> produces (a ++ b).
Proof. intros P bs (x & y & Hx & Hy & ->)%encoder_result_app [_ N]%app_eq_nil. by apply (P y). Qed.
Lemma produces_boolean b ws : produces (e_boolean b :: ws).
Proof. intros bs E. cbn in E. by inv_res E. Qed.

Lemma encoder_one w bs : encoder_result [w] = Ok bs -> w = Ok bs.
Proof. cbn. intros E. inv_res E. by rewrite app_nil_r. Qed.

Lemma d_fixed_be n v rest : v < 256 ^ N.of_nat n -> d_fixed n (be_bytes n v ++ rest) = Ok (v, rest).
Proof.
  intros H. unfold d_fixed. rewrite length_app, be_bytes_length.
  replace (n <=? n + length rest)%nat with true by (symmetry; apply Nat.leb_le; lia).
  by rewrite take_app_length', drop_app_length', be_value_be_bytes by (done || by rewrite be_bytes_length).
Qed.

Lemma parses_uint8 v : v < 256 -> parses_any d_uint8 v [e_uint8 v].
Proof. intros H bs rest <-%encoder_one%Ok_inj. by apply d_fixed_be. Qed.
Lemma parses_uint16 v : v < 65536 -> parses_any d_uint16 v [e_uint16 v].
Proof. intros H bs rest <-%encoder_one%Ok_inj. by apply d_fixed_be. Qed.
Lemma parses_uint64 v : v < two64 -> parses_any d_uint64 v [e_uint64 v].
Proof. intros H bs rest <-%encoder_one%Ok_inj. by apply d_fixed_be. Qed.

Lemma int64_round v : fits64 v -> int64_bits v < two64 /\ int64_value (int64_bits v) = v.
Proof.
  unfold fits64, int64_bits, int64_value, two64. intros H.
  destruct (Z.le_gt_cases 0 v) as [Hv|Hv].
  - rewrite Z.mod_small by lia. split; [lia|].
    destruct (_ <? _) eqn:E; [|apply N.ltb_ge in E; lia]. lia.
  - assert (E : (v mod 18446744073709551616 = v + 18446744073709551616)%Z)
      by (symmetry; apply (Z.mod_unique _ _ (-1)); lia).
    rewrite E. split; [lia|]. destruct (_ <? _) eqn:E'; [apply N.ltb_lt in E'; lia|]. lia.
Qed.

Lemma parses_int64 v : fits64 v -> parses_any d_int64 v [e_int64 v].
Proof.
  intros H bs rest E. destruct (int64_round v H) as [B R].
  unfold d_int64. erewrite decoder_bind_ok; [|by apply parses_uint64]. by rewrite R.
Qed.

Lemma parses_boolean b : parses_any d_boolean b [e_boolean b].
Proof.
  intros bs rest E. unfold d_boolean. erewrite decoder_bind_ok; [|apply parses_uint8; [|exact E]]; by destruct b.
Qed.

Lemma d_bytes_app v rest :
  N.of_nat (length v) < 4294967296 -> v ++ rest <> [] ->
  d_bytes (be_bytes 4 (N.of_nat (length v)) ++ v ++ rest) = Ok (v, rest).
Proof.
  intros L Hr. unfold d_bytes. erewrite decoder_bind_ok; [|by apply d_fixed_be].
  erewrite decoder_bind_ok; [|reflexivity].
  destruct (_ <? _) eqn:B; [apply N.ltb_lt in B; rewrite length_app in B; lia|].
  unfold d_read. rewrite Nat2N.id, bool_decide_eq_false_2 by done.
  by rewrite take_app_length, drop_app_length.
Qed.

Lemma e_bytes_ok v bs :
  e_bytes v = Ok bs -> N.of_nat (length v) < 4294967296 /\ bs = be_bytes 4 (N.of_nat (length v)) ++ v.
Proof. unfold e_bytes. destruct (_ <? _) eqn:B; [done|]. intros <-%Ok_inj. to_prop. split; [lia|done]. Qed.

Lemma parses_bytes v : parses d_bytes v [e_bytes v].
Proof.
  intros bs rest (L & ->)%encoder_one%e_bytes_ok Hr. rewrite <-app_assoc.
  apply d_bytes_app; [done|]. by intros [_ ?]%app_eq_nil.
Qed.

Lemma string_of_bytes_of s : string_of (bytes_of s) = s.
Proof.
  unfold string_of, bytes_of. rewrite <-list_fmap_compose.
  rewrite (list_fmap_ext _ id), list_fmap_id; [apply String.string_of_list_ascii_of_string|].
  intros _ x _. apply Ascii.ascii_N_embedding.
Qed.

Lemma parses_string s : parses d_string s [e_string s].
Proof.
  intros bs rest E Hr. unfold d_string. erewrite decoder_bind_ok; [|by apply parses_bytes].
  by rewrite string_of_bytes_of.
Qed.

#[export] Hint Resolve parses_uint8 parses_uint16 parses_uint64 parses_int64 parses_boolean
  parses_any_parses parses_bytes parses_string parses_ret parses_any_ret : wire.

(** [wire_step] consumes one write or one sub-structure. *)
Ltac wire_fields :=
  repeat (eapply parses_cons; [solve [eauto with wire]|]; cbn beta).

Lemma produces_cons w ws : produces ws -> produces (w :: ws).
Proof. apply (produces_app_r [w]). Qed.
Ltac solve_produces := solve [repeat first [solve [apply produces_boolean] | apply produces_cons | apply produces_app_r]].

Lemma parses_Identity i :
  id_AgentGeneration i < two64 -> id_TargetGeneration i < two64 ->
  parses decodeIdentity i (encodeIdentity i).
Proof. intros. unfold decodeIdentity, encodeIdentity. wire_fields. destruct i; apply parses_ret. Qed.

Lemma parses_Causal c :
  ca_Confidence c < two64 -> parses decodeCausalContext c (encodeCausalContext c).
Proof. intros. unfold decodeCausalContext, encodeCausalContext. wire_fields. destruct c; apply parses_ret. Qed.

Lemma parses_Gap o : (forall g, o = Some g -> gap_wf g) -> parses decodeGap o (encodeGap o).
Proof.
  intros W. unfold decodeGap, encodeGap. eapply parses_cons; [eauto with wire|]; cbn beta.
  destruct o as [g|]; cbn; [|apply parses_ret].
  destruct (W g eq_refl). wire_fields. destruct g; apply parses_ret.
Qed.

Lemma parses_Duplicate o :
  (forall d, o = Some d -> duplicate_wf d) -> parses_any decodeDuplicate o (encodeDuplicate o).
Proof.
  intros W. unfold decodeDuplicate, encodeDuplicate. destruct o as [d|].
  - rewrite bool_decide_eq_true_2 by eauto. destruct (W d eq_refl).
    repeat (eapply parses_cons_any; [solve [eauto with wire]| |];
            [cbn beta iota|solve_produces]).
    intros bs rest E. rewrite (decoder_bind_ok _ _ _ _ _ (parses_boolean _ _ _ E)). by destruct d.
  - intros bs rest E. rewrite (decoder_bind_ok _ _ _ _ _ (parses_boolean _ _ _ E)).
    by rewrite bool_decide_eq_false_2 by by intros [].
Qed.

#[export] Hint Resolve parses_Identity parses_Causal parses_Gap parses_Duplicate : wire.

(** The same steps towards the end of the input. *)
Ltac wire_any :=
  repeat first
    [ eapply parses_cons_any; [solve [eauto with wire]| |solve_produces]
    | eapply parses_bind_any; [solve [eauto with wire]| |solve_produces] ]; cbn beta.

Lemma decoder_done_parses {A} (d : decoder A) a ws bs :
  parses_any d a ws -> encoder_result ws = Ok bs -> decoder_done d bs = Ok a.
Proof.
  intros P E. unfold decoder_done. rewrite <-(app_nil_r bs), (P _ _ E).
  by rewrite bool_decide_eq_true_2.
Qed.

Lemma decodeRecord_marshal r bs :
  record_wf r -> marshalRecord r = Ok bs ->
  decoder_done decodeRecord bs = Ok (r <| r_ChainHash := zero_chain |>).
Proof.
  intros [] E. unfold marshalRecord in E. revert E. apply decoder_done_parses.
  unfold decodeRecord. cbn [app]. wire_any.
  intros bs' rest E. rewrite (decoder_bind_ok _ _ _ _ _ (parses_Duplicate _ ltac:(done) _ _ E)).
  destruct r as [? ? ? ? ? ? ? ? ? ? ? ? ? ? [] [] ? ? ? ? ? ? ? ? ?]. done.
Qed.

(** Changing only the chain hash changes neither the shape nor the encoding. *)
Lemma validateRecordShape_hash r h : validateRecordShape (r <| r_ChainHash := h |>) = validateRecordShape r.
Proof. done. Qed.
Lemma marshalRecord_hash r h : marshalRecord (r <| r_ChainHash := h |>) = marshalRecord r.
Proof. done. Qed.

Lemma unmarshalRecord_marshal r bs :
  record_wf r -> validateRecordShape r = Ok tt -> r_Cursor r <> 0 -> marshalRecord r = Ok bs ->
  unmarshalRecord bs = Ok (r <| r_ChainHash := zero_chain |>).
Proof.
  intros W V C E. unfold unmarshalRecord. rewrite (decodeRecord_marshal _ _ W E).
  apply N.eqb_neq in C. cbn -[validateRecordShape]. rewrite C; cbn -[validateRecordShape].
  change (validateRecordShape _) with (validateRecordShape r). by rewrite V.
Qed.

Lemma bytes_of_bytes s : is_bytes (bytes_of s).
Proof.
  unfold bytes_of. apply Forall_fmap, Forall_true. intros x. unfold compose, byte_of.
  apply N_ascii_bounded.
Qed.

Definition writes_bytes (w : res lerr (list N)) : Prop := forall b, w = Ok b -> is_bytes b.

Lemma encoder_result_bytes ws bs : Forall writes_bytes ws -> encoder_result ws = Ok bs -> is_bytes bs.
Proof.
  intros H; revert bs; induction H as [|w ws Hw Hs IH]; intros bs E; cbn in E.
  - by apply Ok_inj in E as <-.
  - inv_res E. apply Forall_app; split; [by apply Hw|by apply IH].
Qed.

Lemma writes_uint n v : writes_bytes (Ok (be_bytes n v)).
Proof. intros b <-%Ok_inj. apply be_bytes_bound. Qed.
Lemma writes_blob v : is_bytes v -> writes_bytes (e_bytes v).
Proof. intros H b (_ & ->)%e_bytes_ok. apply Forall_app; split; [apply be_bytes_bound|done]. Qed.
Lemma writes_string s : writes_bytes (e_string s).
Proof. apply writes_blob, bytes_of_bytes. Qed.
Lemma writes_hash h : is_bytes h -> writes_bytes (e_hash h).
Proof. by intros H b <-%Ok_inj. Qed.
#[export] Hint Resolve writes_uint writes_blob writes_string writes_hash : wire.

Lemma marshalRecord_bytes r bs : is_bytes (r_Payload r) -> marshalRecord r = Ok bs -> is_bytes bs.
Proof.
  intros P. apply encoder_result_bytes. cbn [app encodeIdentity encodeCausalContext encodeGap].
  destruct (r_Gap r), (r_Duplicate r); cbn [app encodeDuplicate];
    repeat (constructor; [first [apply writes_string | apply writes_uint | by apply writes_blob]|]);
    constructor.
Qed.

Lemma marshalRecord_nonempty r bs : marshalRecord r = Ok bs -> bs <> [].
Proof.
  assert (P : produces ([e_uint8 (r_Kind r)] ++ encodeDuplicate (r_Duplicate r)));
    [unfold encodeDuplicate; solve_produces|].
  unfold marshalRecord. intros E. cbn [app] in E. cbn [encoder_result] in E.
  apply res_bind_ok in E as (b & <-%Ok_inj & E). inv_res E. by intros [N1 _]%app_eq_nil.
Qed.

Lemma marshalWireRecord_ok r prev wire h :
  marshalWireRecord r prev = Ok (wire, h) ->
  exists body, marshalRecord r = Ok body /\ h = sha256 (prev ++ body) /\
    N.of_nat (length body) < 4294967296 /\
    wire = be_bytes 2 recordEncodingVersion ++ prev ++ h ++ be_bytes 4 (N.of_nat (length body)) ++ body.
Proof.
  unfold marshalWireRecord. intros E. apply res_bind_ok in E as (body & Hb & E).
  apply res_bind_ok in E as (w & Hw & [= <- <-]%Ok_inj). exists body. split; [done|]. split; [done|].
  cbn [encoder_result] in Hw. unfold e_uint16, e_hash in Hw.
  apply res_bind_ok in Hw as (? & <-%Ok_inj & Hw).
  apply res_bind_ok in Hw as (? & Hw & <-%Ok_inj).
  apply res_bind_ok in Hw as (? & <-%Ok_inj & Hw).
  apply res_bind_ok in Hw as (? & Hw & <-%Ok_inj).
  apply res_bind_ok in Hw as (? & <-%Ok_inj & Hw).
  apply res_bind_ok in Hw as (? & Hw & <-%Ok_inj).
  apply res_bind_ok in Hw as (? & (L & ->)%e_bytes_ok & Hw).
  apply res_bind_ok in Hw as (? & <-%Ok_inj & <-%Ok_inj). by rewrite app_nil_r.
Qed.

Lemma d_hash_app h rest : length h = 32%nat -> d_hash (h ++ rest) = Ok (h, rest).
Proof.
  intros L. unfold d_hash. rewrite (decoder_bind_ok _ _ _ h rest).
  - by rewrite L, app_nil_r.
  - unfold d_read. rewrite bool_decide_eq_false_2 by (by destruct h).
    by rewrite take_app_length', drop_app_length' by done.
Qed.

(** A record written after hash [prev] is read back with its chain hash. *)
Lemma unmarshalWireRecord_marshal r prev wire h :
  record_wf r -> validateRecordShape r = Ok tt -> r_Cursor r <> 0 -> length prev = 32%nat ->
  marshalWireRecord r prev = Ok (wire, h) ->
  unmarshalWireRecord wire = Ok (r <| r_ChainHash := h |>, prev).
Proof.
  intros W V C L E. apply marshalWireRecord_ok in E as (body & Hb & -> & Lb & ->).
  assert (D : decoder_done decodeWire (be_bytes 2 recordEncodingVersion ++ prev ++
     sha256 (prev ++ body) ++ be_bytes 4 (N.of_nat (length body)) ++ body)
     = Ok (recordEncodingVersion, prev, sha256 (prev ++ body), body)).
  { unfold decoder_done, decodeWire.
    rewrite (decoder_bind_ok _ _ _ _ _ (d_fixed_be 2 recordEncodingVersion _ eq_refl)).
    rewrite (decoder_bind_ok _ _ _ _ _ (d_hash_app prev _ L)).
    rewrite (decoder_bind_ok _ _ _ _ _ (d_hash_app _ _ (sha256_length _))).
    pose proof (d_bytes_app body [] Lb) as B. rewrite app_nil_r in B.
    rewrite (decoder_bind_ok _ _ _ _ _ (B (marshalRecord_nonempty _ _ Hb))).
    by cbn. }
  unfold unmarshalWireRecord. rewrite D; cbn -[unmarshalRecord sha256 recordEncodingVersion].
  rewrite N.eqb_refl, bool_decide_eq_true_2 by done; cbn -[unmarshalRecord].
  by rewrite (unmarshalRecord_marshal _ _ W V C Hb).
Qed.

Lemma marshalWireRecord_bytes r prev wire h :
  is_bytes (r_Payload r) -> is_bytes prev -> marshalWireRecord r prev = Ok (wire, h) ->
  is_bytes wire /\ is_bytes h /\ length h = 32%nat.
Proof.
  intros P B E. apply marshalWireRecord_ok in E as (body & Hb & -> & _ & ->).
  split; [|split; [apply sha256_bound|apply sha256_length]].
  rewrite !Forall_app. pose proof (marshalRecord_bytes _ _ P Hb).
  repeat split; auto using be_bytes_bound, sha256_bound.
Qed.
