(* ===== verification/Subscriptions.v ===== *)
(** * Live subscriptions to the ledger

    [internal/ledger/subscription.go]: bounded queues that never block the
    producer, and the hub that fans records out to them.  Each method holds the
    subscription's mutex and is one atomic step; [Next] is the loop of such
    steps with the wait on its channels between them. *)
From S2P Require Import Prelude Sha256 GoStrings Frames LedgerCodec.
Local Open Scope N_scope.

(** [Delivery]; the code fills exactly one of the two pointers. *)
Record Delivery := mkDelivery { dl_Record : option LedgerRecord; dl_Gap : option Gap }.

(** [sub_notify] is the token in the one-slot channel [notify]; [sub_closed] is
    the flag and the closed channel [done], which [terminate] sets together. *)
Record Subscription := mkSubscription {
  sub_queue : list Delivery; sub_capacity : nat; sub_notify : bool; sub_closed : bool;
  sub_err : option lerr }.
#[export] Instance : Settable Subscription := {| record_eta r :=
  mkSubscription (sub_queue r) (sub_capacity r) (sub_notify r) (sub_closed r) (sub_err r) |}.

Definition newSubscription (capacity : nat) : Subscription := mkSubscription [] capacity false false None.

Definition signalLocked (s : Subscription) : Subscription := s <| sub_notify := true |>.

Definition deliveryRange (d : Delivery) : N * N :=
  match dl_Gap d, dl_Record d with
  | Some g, _ => (gap_FromCursor g, gap_ThroughCursor g)
  | None, Some r => (r_Cursor r, r_Cursor r)
  | None, None => (0, 0)
  end.

Definition overflow_gap (from through : N) : Gap :=
  mkGap GapSubscriberOverflow "" "" 0 0 from through
    "slow subscriber queue overflow; durable replay remains available".

(** The loop that finds the last cursor of the queue. *)
Definition merge_through (through : N) (d : Delivery) : N :=
  let queuedThrough := snd (deliveryRange d) in
  if through <? queuedThrough then queuedThrough else through.

(** [enqueueRecord]; [None] is the index panic on an empty queue, which needs a
    capacity of zero. *)
Definition enqueueRecord (s : Subscription) (r : LedgerRecord) : option Subscription :=
  if sub_closed s then Some s else
  let delivery := mkDelivery (Some r) None in
  if (length (sub_queue s) <? sub_capacity s)%nat
  then Some (signalLocked (s <| sub_queue := sub_queue s ++ [delivery] |>))
  else match sub_queue s with
       | [] => None
       | first :: queued =>
           let '(from, through) := deliveryRange first in
           let through := merge_through (fold_left merge_through queued through) delivery in
           Some (signalLocked (s <| sub_queue := [mkDelivery None (Some (overflow_gap from through))] |>))
       end.

Definition terminate (s : Subscription) (e : lerr) : Subscription :=
  if sub_closed s then s else s <| sub_closed := true |> <| sub_err := Some e |>.

(** One round of [Next] under the mutex: a delivery, the end, or a wait. *)
Inductive next_round := Delivered (d : Delivery) | Ended (e : lerr) | Waits.

Definition Next_round (s : Subscription) : next_round * Subscription :=
  match sub_queue s with
  | d :: rest =>
      let s' := s <| sub_queue := rest |> in
      (Delivered d, if bool_decide (rest = []) then s' else signalLocked s')
  | [] =>
      if sub_closed s then (Ended (default ErrEOF (sub_err s)), s) else (Waits, s)
  end.

(** ** [fanoutHub]

    [hub_heap] holds every subscription a caller may still have, also after it
    left the hub; [hub_registered] is the code's map. *)
Record fanoutHub := mkHub {
  hub_nextID : N; hub_heap : gmap N Subscription; hub_registered : gset N;
  hub_closed : bool; hub_closeErr : option lerr }.
#[export] Instance : Settable fanoutHub := {| record_eta r :=
  mkHub (hub_nextID r) (hub_heap r) (hub_registered r) (hub_closed r) (hub_closeErr r) |}.

Definition newFanoutHub : fanoutHub := mkHub 0 ∅ ∅ false None.

Definition hub_add (h : fanoutHub) (s : Subscription) : res lerr (N * fanoutHub) :=
  if hub_closed h then Err (default ErrClosed (hub_closeErr h)) else
  let id := u64 (hub_nextID h + 1) in
  Ok (id, h <| hub_nextID := id |> <| hub_heap := <[id := s]> (hub_heap h) |>
            <| hub_registered := {[id]} ∪ hub_registered h |>).

Definition hub_remove (h : fanoutHub) (id : N) : fanoutHub :=
  h <| hub_registered := hub_registered h ∖ {[id]} |>.

Definition hub_publish (h : fanoutHub) (r : LedgerRecord) : fanoutHub :=
  if hub_closed h then h else
  h <| hub_heap := map_imap (fun id s =>
         Some (if bool_decide (id ∈ hub_registered h) then default s (enqueueRecord s r) else s))
         (hub_heap h) |>.

Definition hub_close (h : fanoutHub) (e : lerr) : fanoutHub :=
  if hub_closed h then h else
  h <| hub_closed := true |> <| hub_closeErr := Some e |> <| hub_registered := ∅ |>
    <| hub_heap := map_imap (fun id s =>
         Some (if bool_decide (id ∈ hub_registered h) then terminate s e else s)) (hub_heap h) |>.

(** [Subscription.Close] *)
Definition Subscription_Close (h : fanoutHub) (id : N) : fanoutHub :=
  let h := hub_remove h id in
  h <| hub_heap := alter (fun s => terminate s ErrEOF) id (hub_heap h) |>.

(** ** No silent loss

    [tiles lo ds hi]: the deliveries, in order, cover exactly the cursors after
    [lo] up to [hi]. *)
Fixpoint tiles (lo : N) (ds : list Delivery) (hi : N) : Prop :=
  match ds with
  | [] => lo = hi
  | d :: ds => fst (deliveryRange d) = lo + 1 /\ lo < snd (deliveryRange d) /\
               tiles (snd (deliveryRange d)) ds hi
  end.

(** A delivery of a record of the log is that record; anything else is an
    overflow gap. *)
Definition honest (log : list LedgerRecord) (d : Delivery) : Prop :=
  (exists r, d = mkDelivery (Some r) None /\ log !! N.to_nat (r_Cursor r - 1) = Some r) \/
  (exists from through, d = mkDelivery None (Some (overflow_gap from through))).

Lemma tiles_app lo ds ds' hi :
  tiles lo (ds ++ ds') hi <-> exists mid, tiles lo ds mid /\ tiles mid ds' hi.
Proof.
  revert lo; induction ds as [|d ds IH]; intros lo; cbn [tiles app]; [naive_solver|].
  rewrite IH. naive_solver.
Qed.

Lemma tiles_le lo ds hi : tiles lo ds hi -> lo <= hi.
Proof. revert lo; induction ds as [|d ds IH]; intros lo; cbn [tiles]; [lia|]. intros (_ & L & H%IH). lia. Qed.

Lemma tiles_merge lo ds hi : tiles lo ds hi -> fold_left merge_through ds lo = hi.
Proof.
  revert lo; induction ds as [|d ds IH]; intros lo; cbn [tiles fold_left]; [done|].
  intros (_ & L & T). apply N.ltb_lt in L. unfold merge_through at 2. rewrite L. by apply IH.
Qed.

(** The history of one subscription: what its readers received, and its state,
    after [log] was recorded; it was opened after cursor [after]. *)
Inductive subscriber (after : N) (capacity : nat)
  : list LedgerRecord -> list Delivery -> Subscription -> Prop :=
| sub_open log :
    N.of_nat (length log) = after ->
    subscriber after capacity log [] (newSubscription capacity)
| sub_record log received s r s' :
    subscriber after capacity log received s ->
    sub_closed s = false ->
    r_Cursor r = N.of_nat (length log) + 1 ->
    enqueueRecord s r = Some s' ->
    subscriber after capacity (log ++ [r]) received s'
| sub_next log received s d s' :
    subscriber after capacity log received s ->
    Next_round s = (Delivered d, s') ->
    subscriber after capacity log (received ++ [d]) s'
| sub_waits log received s :
    subscriber after capacity log received s ->
    subscriber after capacity log received (s <| sub_notify := false |>)
| sub_terminate log received s e :
    subscriber after capacity log received s ->
    subscriber after capacity log received (terminate s e).

Lemma honest_snoc log r d : honest log d -> honest (log ++ [r]) d.
Proof. intros [(x & -> & H)|H]; [left|by right]. exists x. split; [done|]. by apply lookup_app_l_Some. Qed.

Lemma enqueueRecord_tiles lo hi s r s' :
  tiles lo (sub_queue s) hi -> r_Cursor r = hi + 1 -> sub_closed s = false ->
  enqueueRecord s r = Some s' -> tiles lo (sub_queue s') (hi + 1).
Proof.
  intros T C Hc E. unfold enqueueRecord in E. rewrite Hc in E.
  destruct (_ <? _)%nat.
  - injection E as <-. cbn. apply tiles_app. exists hi. split; [done|]. cbn. lia.
  - destruct (sub_queue s) as [|d ds]; [done|]. cbn [tiles] in T. destruct T as (F & L & T).
    destruct (deliveryRange d) as [from through]; cbn in *.
    apply tiles_merge in T as M. injection E as <-. rewrite M. cbn.
    pose proof (tiles_le _ _ _ T). unfold merge_through; cbn.
    assert (B : hi <? r_Cursor r = true) by (apply N.ltb_lt; lia). rewrite B. lia.
Qed.

Lemma enqueueRecord_shape s r s' P :
  Forall P (sub_queue s) -> P (mkDelivery (Some r) None) ->
  (forall from through, P (mkDelivery None (Some (overflow_gap from through)))) ->
  (length (sub_queue s) <= sub_capacity s)%nat -> (0 < sub_capacity s)%nat ->
  enqueueRecord s r = Some s' ->
  Forall P (sub_queue s') /\ (length (sub_queue s') <= sub_capacity s')%nat /\
  sub_capacity s' = sub_capacity s.
Proof.
  intros H Hr Hg L C E. unfold enqueueRecord in E. destruct (sub_closed s); [by injection E as <-|].
  destruct (_ <? _)%nat eqn:B.
  - injection E as <-. apply Nat.ltb_lt in B. cbn. rewrite length_app. split; [|cbn; lia].
    apply Forall_app; split; [done|by constructor].
  - destruct (sub_queue s) as [|d ds]; [done|]. destruct (deliveryRange d).
    injection E as <-. cbn. split; [by constructor|lia].
Qed.

Lemma enqueueRecord_total s r :
  (0 < sub_capacity s)%nat -> exists s', enqueueRecord s r = Some s'.
Proof.
  intros C. unfold enqueueRecord. destruct (sub_closed s); [eauto|].
  destruct (_ <? _)%nat eqn:B; [eauto|]. destruct (sub_queue s) eqn:Q.
  - apply Nat.ltb_ge in B. cbn in B. lia.
  - destruct (deliveryRange _). eauto.
Qed.

Lemma terminate_queue s e : sub_queue (terminate s e) = sub_queue s /\ sub_capacity (terminate s e) = sub_capacity s.
Proof. unfold terminate. by destruct (sub_closed s). Qed.

Lemma Next_round_delivered s d s' :
  Next_round s = (Delivered d, s') ->
  sub_queue s = d :: sub_queue s' /\ sub_capacity s' = sub_capacity s /\ sub_closed s' = sub_closed s /\
  (sub_queue s' <> [] -> sub_notify s' = true).
Proof.
  unfold Next_round. destruct (sub_queue s) as [|x rest]; [by destruct (sub_closed s)|].
  intros [= <- <-]. destruct (bool_decide (rest = [])) eqn:B; cbn; [|by auto].
  apply bool_decide_eq_true in B as ->. done.
Qed.

(** C22: Whatever the order of appends and reads, what a subscription has
    delivered followed by what it still holds covers every cursor after its
    starting point up to the head, in order and without overlap; each delivery
    is the durable record at its cursor or an explicit overflow gap; the queue
    never exceeds its capacity and enqueueing never panics. *)
Theorem subscription_no_silent_loss after capacity log received s :
  (0 < capacity)%nat ->
  subscriber after capacity log received s ->
  tiles after (received ++ sub_queue s) (N.of_nat (length log)) /\
  Forall (honest log) (received ++ sub_queue s) /\
  (length (sub_queue s) <= capacity)%nat /\
  (forall r, exists s', enqueueRecord s r = Some s').
Proof.
  intros C H.
  assert (G : tiles after (received ++ sub_queue s) (N.of_nat (length log)) /\
    Forall (honest log) (received ++ sub_queue s) /\
    (length (sub_queue s) <= sub_capacity s)%nat /\ sub_capacity s = capacity).
  { induction H as [log L | log received s r s' H IH Hc Hr E | log received s d s' H IH E
                   | log received s H IH | log received s e H IH].
    - cbn. repeat split; [lia|constructor|lia].
    - destruct IH as (T & F & Q & <-). apply tiles_app in T as (mid & T1 & T2).
      apply Forall_app in F as [F1 F2].
      destruct (enqueueRecord_shape s r s' (honest (log ++ [r]))) as (F3 & Q3 & C3); try done.
      + eapply Forall_impl; [exact F2|]. intros; by apply honest_snoc.
      + left. exists r. split; [done|]. rewrite Hr, N.add_sub, Nat2N.id.
        by apply list_lookup_middle.
      + intros; right; eauto.
      + repeat split; [|apply Forall_app; split; [|done]|lia|lia].
        * rewrite length_app, Nat2N.inj_add. apply tiles_app. exists mid. split; [done|].
          by eapply enqueueRecord_tiles.
        * eapply Forall_impl; [exact F1|]. intros; by apply honest_snoc.
    - destruct (Next_round_delivered _ _ _ E) as (Q & Cs & _ & _).
      rewrite Q in IH. rewrite <-app_assoc; cbn [app]. rewrite Cs. cbn in IH.
      destruct IH as (T & F & L & K). repeat split; try done. lia.
    - exact IH.
    - destruct (terminate_queue s e) as [-> ->]. exact IH. }
  destruct G as (T & F & L & K). repeat split; try done; [lia|].
  intros r. apply enqueueRecord_total. lia.
Qed.

(** ** No lost wake-up

    The calls of [Next] in progress on one subscription: some are about to take
    the mutex, some wait on the channels. *)
Record callers := mkCallers { c_sub : Subscription; c_checking : nat; c_waiting : nat }.

(** The steps of the calls in progress, which need nobody else. *)
Inductive reader_step : callers -> option Delivery -> callers -> Prop :=
| c_take s k w d s' : Next_round s = (Delivered d, s') ->
    reader_step (mkCallers s (S k) w) (Some d) (mkCallers s' k w)
| c_end s k w e s' : Next_round s = (Ended e, s') ->
    reader_step (mkCallers s (S k) w) None (mkCallers s' k w)
| c_wait s k w s' : Next_round s = (Waits, s') ->
    reader_step (mkCallers s (S k) w) None (mkCallers s' k (S w))
| c_wake s k w : sub_notify s = true ->
    reader_step (mkCallers s k (S w)) None (mkCallers (s <| sub_notify := false |>) (S k) w)
| c_done s k w : sub_closed s = true ->
    reader_step (mkCallers s k (S w)) None (mkCallers s (S k) w).

(** What moves a subscription: its readers, new calls, cancelled waits, the
    hub's appends and the end of the subscription. *)
Inductive caller_step : callers -> option Delivery -> callers -> Prop :=
| c_reader c o c' : reader_step c o c' -> caller_step c o c'
| c_call s k w : caller_step (mkCallers s k w) None (mkCallers s (S k) w)
| c_cancel s k w : caller_step (mkCallers s k (S w)) None (mkCallers s k w)
| c_enqueue s k w r s' : enqueueRecord s r = Some s' ->
    caller_step (mkCallers s k w) None (mkCallers s' k w)
| c_terminate s k w e : caller_step (mkCallers s k w) None (mkCallers (terminate s e) k w).

Inductive callers_reach (capacity : nat) : callers -> Prop :=
| cr_init : callers_reach capacity (mkCallers (newSubscription capacity) 0 0)
| cr_step c o c' : callers_reach capacity c -> caller_step c o c' -> callers_reach capacity c'.

(** [reader_run n c ds c']: the calls in progress alone take [n] steps, in any
    order, and return the deliveries [ds]. *)
Inductive reader_run : nat -> callers -> list Delivery -> callers -> Prop :=
| rr_stop c : reader_run 0 c [] c
| rr_step n c o c1 ds c' : reader_step c o c1 -> reader_run n c1 ds c' ->
    reader_run (S n) c (option_list o ++ ds) c'.

(** No call in progress can move. *)
Definition quiet_callers (c : callers) : Prop := forall o c', ~ reader_step c o c'.

(** A pending delivery has a token or a caller that is about to look. *)
Definition attended (c : callers) : Prop :=
  sub_queue (c_sub c) <> [] -> sub_notify (c_sub c) = true \/ (0 < c_checking c)%nat.

Lemma enqueueRecord_notifies s r s' :
  enqueueRecord s r = Some s' -> sub_notify s' = true \/ s' = s.
Proof.
  unfold enqueueRecord. destruct (sub_closed s); [intros [= <-]; auto|].
  destruct (_ <? _)%nat; [intros [= <-]; auto|].
  destruct (sub_queue s); [done|]. destruct (deliveryRange _). intros [= <-]; auto.
Qed.

Lemma Next_round_idle s o s' :
  Next_round s = (o, s') -> (forall d, o <> Delivered d) -> s' = s /\ sub_queue s = [].
Proof.
  unfold Next_round. destruct (sub_queue s); [|by intros [= <- <-] H; destruct (H _ eq_refl)].
  destruct (sub_closed s); by intros [= <- <-].
Qed.

Lemma attended_reader c o c' : attended c -> reader_step c o c' -> attended c'.
Proof.
  intros A S. destruct S as [s k w d s' H|s k w e s' H|s k w s' H|s k w H|s k w H];
    unfold attended in *; cbn in *; intros Q; try (right; lia).
  - left. by apply (Next_round_delivered _ _ _ H).
  - apply Next_round_idle in H as [-> ?]; done.
  - apply Next_round_idle in H as [-> ?]; done.
Qed.

Lemma attended_step c o c' : attended c -> caller_step c o c' -> attended c'.
Proof.
  intros A S. destruct S as [c o c' S|s k w|s k w|s k w r s' H|s k w e]; [by eapply attended_reader|..];
    unfold attended in *; cbn in *; intros Q; try (right; lia).
  - auto.
  - destruct (enqueueRecord_notifies _ _ _ H) as [?| ->]; auto.
  - unfold terminate in *. destruct (sub_closed s); cbn in *; auto.
Qed.

Lemma reach_attended capacity c : callers_reach capacity c -> attended c.
Proof. induction 1; [by intros []|]. by eapply attended_step. Qed.

(** Each step of a reader uses up a delivery, a token or a wait. *)
Definition load (c : callers) : nat :=
  let s := c_sub c in
  2 * length (sub_queue s) + 2 * Nat.b2n (sub_notify s) +
  (if sub_closed s then c_checking c + 2 * c_waiting c else 2 * c_checking c + c_waiting c).

Lemma Next_round_cases s :
  match Next_round s with
  | (Delivered d, s') => sub_queue s = d :: sub_queue s' /\ sub_closed s' = sub_closed s
  | (Ended _, s') => s' = s /\ sub_queue s = [] /\ sub_closed s = true
  | (Waits, s') => s' = s /\ sub_queue s = [] /\ sub_closed s = false
  end.
Proof.
  unfold Next_round. destruct (sub_queue s) as [|d rest] eqn:Q.
  - destruct (sub_closed s) eqn:C; by rewrite ?Q, ?C.
  - by destruct (bool_decide _).
Qed.

Lemma reader_step_load c o c' :
  reader_step c o c' ->
  (load c' < load c)%nat /\ sub_queue (c_sub c) = option_list o ++ sub_queue (c_sub c').
Proof.
  intros S. unfold load. destruct S as [s k w d s' H|s k w e s' H|s k w s' H|s k w H|s k w H]; cbn;
    try (pose proof (Next_round_cases s) as N; rewrite H in N).
  - destruct N as [Q C]. rewrite Q, C. cbn. split; [|done].
    destruct (sub_notify s'), (sub_notify s), (sub_closed s); cbn; lia.
  - destruct N as (-> & -> & ->). split; [lia|done].
  - destruct N as (-> & -> & ->). split; [lia|done].
  - rewrite H. split; [destruct (sub_closed s); cbn; lia|done].
  - rewrite H. split; [lia|done].
Qed.

(** A call about to take the mutex can; a waiting one can once there is a token
    or the subscription ended. *)
Lemma reader_quiet_or_steps c :
  (exists o c', reader_step c o c') \/
  (c_checking c = 0%nat /\
   (c_waiting c = 0%nat \/ sub_notify (c_sub c) = false /\ sub_closed (c_sub c) = false)).
Proof.
  destruct c as [s [|k] w]; cbn.
  - destruct w as [|w]; [by right; auto|].
    destruct (sub_closed s) eqn:C; [by left; eauto using c_done|].
    destruct (sub_notify s) eqn:N; [by left; eauto using c_wake|by right; auto].
  - left. destruct (Next_round s) as [[d|e|] s'] eqn:E; eauto using c_take, c_end, c_wait.
Qed.

Lemma reader_quiescence c : exists n ds c', reader_run n c ds c' /\ quiet_callers c'.
Proof.
  induction c as [c IH] using (induction_ltof1 _ load).
  destruct (reader_quiet_or_steps c) as [(o & c1 & St)|Q].
  - destruct (IH c1) as (n & ds & c' & R & Qc); [exact (proj1 (reader_step_load _ _ _ St))|].
    exists (S n), (option_list o ++ ds), c'. split; [by eapply rr_step|done].
  - exists 0%nat, [], c. split; [constructor|]. intros o c' St. destruct Q as (K & W).
    destruct St; cbn in *; try lia; destruct W as [W|[N C]]; congruence.
Qed.

Lemma reader_run_load n c ds c' :
  reader_run n c ds c' -> attended c ->
  (n + load c' <= load c)%nat /\ sub_queue (c_sub c) = ds ++ sub_queue (c_sub c') /\ attended c'.
Proof.
  induction 1 as [c|n c o c1 ds c' S R IH]; intros A; [by auto|].
  destruct (reader_step_load _ _ _ S) as [L ->].
  destruct (IH (attended_reader _ _ _ A S)) as (L1 & -> & A1). rewrite <-app_assoc. split; [lia|done].
Qed.

(** C23: No wake-up is lost, however new calls, appends, other readers,
    cancellations and the end of the subscription interleaved before: from any
    reachable state the calls of [Next] then in progress, with no further call
    or append, come to rest; they do so however they are scheduled, within
    [load] steps, and take the queue's deliveries in order.  At rest no call is
    left, or every call left waits on a live subscription whose queue is
    empty: a call is never left blocked while a delivery is queued, or after
    the subscription ended. *)
Theorem next_never_stuck capacity c :
  callers_reach capacity c ->
  (exists n ds c', reader_run n c ds c' /\ quiet_callers c') /\
  (forall n ds c', reader_run n c ds c' ->
     (n <= load c)%nat /\ sub_queue (c_sub c) = ds ++ sub_queue (c_sub c') /\
     (quiet_callers c' ->
      c_checking c' = 0%nat /\
      (c_waiting c' = 0%nat \/ sub_queue (c_sub c') = [] /\ sub_closed (c_sub c') = false))).
Proof.
  intros A%reach_attended. split; [apply reader_quiescence|]. intros n ds c' R.
  destruct (reader_run_load _ _ _ _ R A) as (L & Q & A'). split; [lia|]. split; [done|]. intros Qc.
  destruct (reader_quiet_or_steps c') as [(o & c1 & S)|(K & W)]; [by destruct (Qc o c1)|].
  split; [done|]. destruct W as [W|[N C]]; [by left|right]. split; [|done].
  destruct (sub_queue (c_sub c')) as [|d q] eqn:E; [done|].
  destruct A' as [T|T]; rewrite ?E; [done|congruence|lia].
Qed.
