(* ===== verification/Ledger.v ===== *)
(** * The observation ledger

    [internal/ledger/segment.go] and [internal/ledger/store.go]: segments of
    framed, hash-chained records in a directory, appended to and synced one
    batch at a time, recovered by scanning.

    A method is a function of the world: the directory, the rebuildable index
    beside it, and the ledger in memory.  Each file-system call consumes one
    tick of an arbitrary environment that says whether it fails, how much a
    failing write still put into the file, and where reading fails.  A process
    that dies in the middle of a method is the run in which every call from
    that point on fails, followed by [crash].  The mutex of the ledger makes a
    method one step. *)
From S2P Require Import Prelude Sha256 GoStrings Frames LedgerCodec Subscriptions.
Local Open Scope N_scope.

(** ** Files

    [f_content] is what a reader sees, [f_durable] what the last successful
    sync made durable. *)
Record File := mkFile { f_content : list N; f_durable : list N }.
Abbreviation Files := (gmap string File).

Definition clean_file (b : list N) : File := mkFile b b.

Definition file_append (b : list N) (f : File) : File := mkFile (f_content f ++ b) (f_durable f).
Definition file_sync (f : File) : File := clean_file (f_content f).
Definition file_truncate (n : nat) (f : File) : File :=
  mkFile (firstn n (f_content f) ++ repeat 0 (n - length (f_content f))) (f_durable f).

(** What a crash of the machine may leave in a file: part of its content or of
    what was durable, and everything the two have in common. *)
Definition crash_file (f : File) (x : list N) : Prop :=
  (x `prefix_of` f_content f \/ x `prefix_of` f_durable f) /\
  forall p, p `prefix_of` f_content f -> p `prefix_of` f_durable f -> p `prefix_of` x.
Definition crash_files (files files' : Files) : Prop :=
  forall name, match files !! name, files' !! name with
    | None, None => True
    | Some f, Some f' => exists x, crash_file f x /\ f' = clean_file x
    | _, _ => False
    end.

(** ** Types of the ledger *)
Record Options := mkOptions {
  o_Directory : string; o_MaxSegmentBytes : Z; o_MaxFramePayload : N; o_SubscriberBuffer : Z;
  o_MaxSourceSequences : Z }.

Record SegmentMetadata := mkMetadata {
  sm_Path : string; sm_FirstCursor : N; sm_LastCursor : N; sm_FrameCount : N; sm_ByteSize : nat;
  sm_PreviousHash : list N; sm_FirstHash : list N; sm_LastHash : list N; sm_Finalized : bool }.
#[export] Instance : Settable SegmentMetadata := {| record_eta r :=
  mkMetadata (sm_Path r) (sm_FirstCursor r) (sm_LastCursor r) (sm_FrameCount r) (sm_ByteSize r)
    (sm_PreviousHash r) (sm_FirstHash r) (sm_LastHash r) (sm_Finalized r) |}.

Record Repair := mkRepair {
  rp_Segment : string; rp_Offset : nat; rp_RemovedBytes : nat; rp_Cause : N }.

Record OpenReport := mkReport { or_Repairs : list Repair; or_Segments : list SegmentMetadata }.

Record AppendResult := mkAppendResult { ar_Records : list LedgerRecord; ar_Duplicate : bool }.

Record scannedSegment := mkScanned {
  sc_metadata : SegmentMetadata; sc_records : list LedgerRecord; sc_lastGoodOffset : nat;
  sc_incompleteTail : bool; sc_fileSize : nat }.
#[export] Instance : Settable scannedSegment := {| record_eta r :=
  mkScanned (sc_metadata r) (sc_records r) (sc_lastGoodOffset r) (sc_incompleteTail r) (sc_fileSize r) |}.

Record sourceOccurrence := mkOccurrence { oc_cursor : N; oc_fingerprint : list N }.

Record sourceState := mkSourceState {
  ss_hasMaximum : bool; ss_maximum : N; ss_seen : gmap N sourceOccurrence; ss_order : list N;
  ss_next : nat }.
#[export] Instance : Settable sourceState := {| record_eta r :=
  mkSourceState (ss_hasMaximum r) (ss_maximum r) (ss_seen r) (ss_order r) (ss_next r) |}.

Definition new_sourceState : sourceState := mkSourceState false 0 ∅ [] 0.

(** [l_active] is the index of the active segment; its handle is the file of
    that segment's path.  [l_indexErr] is whether the last index write failed. *)
Record Ledger := mkLedger {
  l_options : Options; l_segments : list SegmentMetadata; l_active : option nat; l_head : N;
  l_lastHash : list N; l_sources : gmap (string * string) sourceState; l_repairs : list Repair;
  l_hub : fanoutHub; l_indexErr : bool; l_failed : option lerr; l_closed : bool }.
#[export] Instance : Settable Ledger := {| record_eta r :=
  mkLedger (l_options r) (l_segments r) (l_active r) (l_head r) (l_lastHash r) (l_sources r)
    (l_repairs r) (l_hub r) (l_indexErr r) (l_failed r) (l_closed r) |}.

(** ** The world and its effects *)
Record LWorld := mkLWorld {
  lw_files : Files; lw_index : option (list SegmentMetadata); lw_tick : nat; lw_ledger : Ledger }.
#[export] Instance : Settable LWorld := {| record_eta r :=
  mkLWorld (lw_files r) (lw_index r) (lw_tick r) (lw_ledger r) |}.

Class DiskEnv := {
  io_fault : nat -> bool;
  io_partial : nat -> nat;
  io_read : nat -> option nat;
  ctx_canceled : nat -> bool }.

Definition LM (A : Type) : Type := LWorld -> res lerr A * LWorld.
#[export] Instance LM_ret : MRet LM := fun A a w => (Ok a, w).
#[export] Instance LM_bind : MBind LM := fun A B f m w =>
  match m w with
  | (Ok a, w') => f a w'
  | (Err e, w') => (Err e, w')
  end.

Definition prim {A} (f : LWorld -> res lerr A * LWorld) : LM A := f.
Definition l_fail {A} (e : lerr) : LM A := fun w => (Err e, w).
Definition l_lift {A} (r : res lerr A) : LM A := fun w => (r, w).
Definition l_guard (b : bool) (e : lerr) : LM unit := l_lift (check b e).
Definition l_get : LM Ledger := fun w => (Ok (lw_ledger w), w).
Definition l_modify (f : Ledger -> Ledger) : LM unit :=
  fun w => (Ok tt, w <| lw_ledger := f (lw_ledger w) |>).
(** The error of a call as a value, where the code goes on after it. *)
Definition attempt {A} (m : LM A) : LM (res lerr A) := fun w => let '(r, w') := m w in (Ok r, w').

Definition ledger_tick (w : LWorld) : LWorld := w <| lw_tick := S (lw_tick w) |>.

Section Ledger.
Context `{DiskEnv}.

(** [ctx.Err()] *)
Definition ctx_err : LM unit := fun w =>
  (if ctx_canceled (lw_tick w) then Err ErrCanceled else Ok tt, ledger_tick w).

(** A file-system call with its effect on the directory, when it succeeds. *)
Definition fs_call (name : string) (effect : Files -> option Files) : LM unit := fun w =>
  if io_fault (lw_tick w) then (Err (ErrIO name), ledger_tick w) else
  match effect (lw_files w) with
  | None => (Err (ErrIO name), ledger_tick w)
  | Some files => (Ok tt, (ledger_tick w) <| lw_files := files |>)
  end.
Definition fs_simple (name : string) : LM unit := fs_call name Some.

Definition fs_on (name path : string) (f : File -> File) : LM unit :=
  fs_call name (fun files => file ← files !! path; Some (<[path := f file]> files)).

Definition fs_open (path : string) : LM unit := fs_on "open" path id.
Definition fs_create (path : string) : LM unit :=
  fs_call "create" (fun files =>
    match files !! path with Some _ => None | None => Some (<[path := clean_file []]> files) end).
Definition fs_remove (path : string) : LM unit := fs_call "remove" (fun files => Some (delete path files)).
Definition fs_rename (old new : string) : LM unit :=
  fs_call "rename" (fun files => file ← files !! old; Some (<[new := file]> (delete old files))).
Definition fs_truncate (path : string) (size : nat) : LM unit := fs_on "truncate" path (file_truncate size).
Definition fs_sync (path : string) : LM unit := fs_on "sync" path file_sync.
Definition fs_close : LM unit := fs_simple "close".

(** [writeAll] on a file opened for appending: [os.File.Write] takes everything
    or reports an error with what it took. *)
Definition writeAll (path : string) (value : list N) : LM nat := fun w =>
  match lw_files w !! path with
  | None => (Err (ErrIO "write"), ledger_tick w)
  | Some file =>
      let taken := if io_fault (lw_tick w) then firstn (io_partial (lw_tick w)) value else value in
      let w' := (ledger_tick w) <| lw_files := <[path := file_append taken file]> (lw_files w) |> in
      if io_fault (lw_tick w) then (Err (ErrIO "write"), w') else (Ok (length value), w')
  end.

(** [os.Open], [Stat] and the reader over the file's content. *)
Definition fs_reader (path : string) : LM (Reader * nat) :=
  _ ← fs_open path;
  _ ← fs_simple "stat";
  prim (fun w =>
    let content := from_option f_content [] (lw_files w !! path) in
    let reader := match io_read (lw_tick w) with
                  | Some n => mkReader (firstn n content) EndError
                  | None => mkReader content EndEOF
                  end in
    (Ok (reader, length content), ledger_tick w)).

(** ** Segments *)
Definition segmentName (first : N) (finalized : bool) : string :=
  "segment-" +:+ decimal_digits 20 first +:+ (if finalized then ".seg" else ".open").

(** [discoverSegmentPaths] *)
Definition is_segment_name (name : string) : bool :=
  HasPrefix name "segment-" && (HasSuffix name ".open" || HasSuffix name ".seg").
Definition discoverSegmentPaths : LM (list string) :=
  _ ← fs_simple "readdir";
  prim (fun w =>
    let paths := filter (fun name => is_segment_name name = true) (elements (dom (lw_files w))) in
    let openCount := length (filter (fun name => HasSuffix name ".open" = true) paths) in
    if (1 <? openCount)%nat then (Err ErrMultipleOpenSegments, w)
    else (Ok (sort_Strings paths), w)).

Definition empty_metadata (path : string) (previous : list N) (finalized : bool) : SegmentMetadata :=
  mkMetadata path 0 0 0 0 previous zero_chain zero_chain finalized.

(** The bookkeeping of one record, in [scanSegment] and [appendBatchLocked]. *)
Definition metadata_add (m : SegmentMetadata) (r : LedgerRecord) : SegmentMetadata :=
  let m := if sm_FrameCount m =? 0
           then m <| sm_FirstCursor := r_Cursor r |> <| sm_FirstHash := r_ChainHash r |> else m in
  m <| sm_LastCursor := r_Cursor r |> <| sm_LastHash := r_ChainHash r |>
    <| sm_FrameCount := u64 (sm_FrameCount m + 1) |>.

(** The loop of [scanSegment].  Each frame takes at least its header, so the
    bytes of the file bound the rounds. *)
Fixpoint scan_loop (fuel : nat) (path : string) (maxFramePayload : N) (reader : Reader)
    (offset : nat) (expectedCursor : N) (currentHash : list N) (result : scannedSegment)
  : res lerr scannedSegment :=
  match fuel with
  | O => Err (ErrCorruptSegment path offset)
  | S fuel' =>
      let '(frame, consumed, reader') := Decoder_Read maxFramePayload reader in
      match frame with
      | Err FrameEOF =>
          Ok (result <| sc_lastGoodOffset := offset |>
                     <| sc_metadata := (sc_metadata result) <| sm_ByteSize := offset |> |>)
      | Err ErrIncompleteFrame =>
          Ok (result <| sc_lastGoodOffset := offset |> <| sc_incompleteTail := true |>
                     <| sc_metadata := (sc_metadata result) <| sm_ByteSize := offset |> |>)
      | Err _ => Err (ErrCorruptSegment path offset)
      | Ok frame =>
          if negb (frame_Version frame =? segmentFrameVersion)
          then Err (ErrCorruptSegment path offset) else
          match unmarshalWireRecord (frame_Payload frame) with
          | Err _ => Err (ErrCorruptSegment path offset)
          | Ok (record, previousHash) =>
              if negb (bool_decide (previousHash = currentHash))
              then Err (ErrCorruptSegment path offset) else
              if negb (r_Cursor record =? expectedCursor)
              then Err (ErrCorruptSegment path offset) else
              let offset' := (offset + consumed)%nat in
              scan_loop fuel' path maxFramePayload reader' offset' (u64 (expectedCursor + 1))
                (r_ChainHash record)
                (result <| sc_metadata := metadata_add (sc_metadata result) record |>
                        <| sc_records := sc_records result ++ [record] |>
                        <| sc_lastGoodOffset := offset' |>)
          end
      end
  end.

Definition scanSegment (path : string) (maxFramePayload : N) (expectedCursor : N)
    (expectedHash : list N) : LM scannedSegment :=
  '(reader, size) ← fs_reader path;
  l_lift (scan_loop (S (length (rd_bytes reader))) path maxFramePayload reader 0 expectedCursor
    expectedHash
    (mkScanned (empty_metadata path expectedHash (HasSuffix path ".seg")) [] 0 false size)).

(** [flushIndexLocked]: the index file is replaced by a rename at the end of
    [writeSegmentIndex], so a failure of any of its calls leaves it as it was. *)
Definition writeSegmentIndex (segments : list SegmentMetadata) : LM unit :=
  _ ← fs_simple "index";
  prim (fun w => (Ok tt, w <| lw_index := Some segments |>)).
Definition syncDirectory : LM unit := fs_simple "syncdir".
Definition flushIndexLocked : LM unit :=
  l ← l_get;
  outcome ← attempt (_ ← writeSegmentIndex (l_segments l); syncDirectory);
  _ ← l_modify (fun l => l <| l_indexErr := negb (is_ok outcome) |>);
  l_lift outcome.

(** ** The index of source sequences *)
Definition sourceStateOf (l : Ledger) (source instance : string) : sourceState :=
  default new_sourceState (l_sources l !! (source, instance)).

(** [l.sourceState]: the entry is created when it is missing. *)
Definition sourceState_get (source instance : string) : LM sourceState :=
  l ← l_get;
  let state := sourceStateOf l source instance in
  _ ← l_modify (fun l => l <| l_sources := <[(source, instance) := state]> (l_sources l) |>);
  mret state.

Definition state_index (maxSequences : Z) (state : sourceState) (record : LedgerRecord) : sourceState :=
  let sequence := r_SourceSequence record in
  let state :=
    match ss_seen state !! sequence with
    | Some _ => state
    | None =>
        if (Z.of_nat (length (ss_order state)) <? maxSequences)%Z
        then state <| ss_order := ss_order state ++ [sequence] |>
        else
          let evicted := nth (ss_next state) (ss_order state) 0 in
          state <| ss_seen := delete evicted (ss_seen state) |>
                <| ss_order := <[ss_next state := sequence]> (ss_order state) |>
                <| ss_next := (S (ss_next state) mod length (ss_order state))%nat |>
    end in
  let state := state <| ss_seen :=
    <[sequence := mkOccurrence (r_Cursor record) (sha256 (r_Payload record))]> (ss_seen state) |> in
  if negb (ss_hasMaximum state) || (ss_maximum state <? sequence)
  then state <| ss_hasMaximum := true |> <| ss_maximum := sequence |> else state.

(** A record that applies a source sequence, as opposed to a duplicate or gap. *)
Definition applies_sequence (record : LedgerRecord) : bool :=
  r_HasSourceSequence record && negb (r_Kind record =? RecordDuplicate)
  && negb (r_Kind record =? RecordGap).

Definition indexSourceRecord (l : Ledger) (record : LedgerRecord) : Ledger :=
  if negb (applies_sequence record) then l else
  let key := (r_Source record, r_SourceInstance record) in
  let state := sourceStateOf l (r_Source record) (r_SourceInstance record) in
  l <| l_sources := <[key := state_index (o_MaxSourceSequences (l_options l)) state record]> (l_sources l) |>.

(** Where scanning goes on after a segment. *)
Definition scan_next (scanned : scannedSegment) (expectedCursor : N) (expectedHash : list N)
  : N * list N :=
  if 0 <? sm_FrameCount (sc_metadata scanned)
  then (u64 (sm_LastCursor (sc_metadata scanned) + 1), sm_LastHash (sc_metadata scanned))
  else (expectedCursor, expectedHash).

Definition matches_source (source instance : string) (sequence : N) (record : LedgerRecord) : bool :=
  applies_sequence record && bool_decide (r_Source record = source)
  && bool_decide (r_SourceInstance record = instance) && (r_SourceSequence record =? sequence).

(** The loop of [findSourceOccurrenceLocked] over the segments. *)
Fixpoint find_loop (max : N) (source instance : string) (sequence : N)
    (segments : list SegmentMetadata) (expectedCursor : N) (expectedHash : list N)
  : LM (option sourceOccurrence) :=
  match segments with
  | [] => mret None
  | metadata :: segments =>
      _ ← ctx_err;
      scanned ← scanSegment (sm_Path metadata) max expectedCursor expectedHash;
      _ ← l_guard (negb (sc_incompleteTail scanned))
            (ErrCorruptSegment (sm_Path metadata) (sc_lastGoodOffset scanned));
      match List.find (matches_source source instance sequence) (sc_records scanned) with
      | Some record => mret (Some (mkOccurrence (r_Cursor record) (sha256 (r_Payload record))))
      | None =>
          let '(cursor, hash) := scan_next scanned expectedCursor expectedHash in
          find_loop max source instance sequence segments cursor hash
      end
  end.

Definition findSourceOccurrenceLocked (source instance : string) (sequence : N)
  : LM (option sourceOccurrence) :=
  l ← l_get;
  find_loop (o_MaxFramePayload (l_options l)) source instance sequence (l_segments l) 1 zero_chain.

Definition makeDuplicateRecord (input : LedgerRecord) (occurrence : sourceOccurrence) : LedgerRecord :=
  input <| r_Kind := RecordDuplicate |> <| r_HasSourceSequence := false |>
        <| r_SourceSequence := 0 |> <| r_Payload := [] |> <| r_Gap := None |>
        <| r_Duplicate := Some (mkDuplicate (r_Source input) (r_SourceInstance input)
             (r_SourceSequence input) (oc_cursor occurrence)
             (negb (bool_decide (oc_fingerprint occurrence = sha256 (r_Payload input))))) |>.

Definition makeSequenceGapRecord (input : LedgerRecord) (from through : N) : LedgerRecord :=
  mkRecord 0 RecordGap "" (r_Identity input) (r_SignalFamily input) (r_SubjectID input)
    (r_Source input) (r_SourceInstance input) false 0 (r_ObservedWallUnixNano input)
    (r_ObservedMonotonicNanos input) (r_ClockDomain input) (r_ClockSyncEpoch input)
    (r_Collector input) (mkProcess 0 0) (r_PolicyDigest input) (r_CapabilityDigest input)
    (r_Origin input) (r_OriginEvidence input) (mkCausal "" "" "" 0) []
    (Some (mkGap GapSourceSequence (r_Source input) (r_SourceInstance input) from through 0 0
             "source-local sequence discontinuity")) None zero_chain.

(** ** Appending *)
Definition active_metadata (l : Ledger) (index : nat) : SegmentMetadata :=
  default (empty_metadata "" [] false) (l_segments l !! index).
Definition set_segment (index : nat) (m : SegmentMetadata) (l : Ledger) : Ledger :=
  l <| l_segments := <[index := m]> (l_segments l) |>.

(** [ensureActiveLocked] *)
Definition ensureActiveLocked (first : N) : LM unit :=
  l ← l_get;
  match l_active l with
  | Some _ => mret tt
  | None =>
      let name := segmentName first false in
      _ ← fs_create name;
      outcome ← attempt syncDirectory;
      match outcome with
      | Err e =>
          _ ← attempt fs_close;
          _ ← attempt (fs_remove name);
          l_fail e
      | Ok _ =>
          l_modify (fun l => l
            <| l_segments := l_segments l ++ [empty_metadata name (l_lastHash l) false] |>
            <| l_active := Some (length (l_segments l)) |>)
      end
  end.

(** [rollbackActiveLocked]: an error when any of its calls failed. *)
Definition rollbackActiveLocked (path : string) (offset : nat) : LM unit :=
  closed ← attempt fs_close;
  opened ← attempt (fs_open path);
  match opened with
  | Err e => l_fail e
  | Ok _ =>
      truncated ← attempt (fs_truncate path offset);
      synced ← (if is_ok truncated then attempt (fs_sync path) else mret (Ok tt));
      reclosed ← attempt fs_close;
      reopened ← attempt (fs_open path);
      l_guard (is_ok closed && is_ok truncated && is_ok synced && is_ok reclosed && is_ok reopened)
        (ErrIO "rollback")
  end.

(** [failAfterRollbackLocked]: the error [Append] returns. *)
Definition failAfterRollbackLocked {A} (path : string) (offset : nat) (appendErr : lerr) : LM A :=
  outcome ← attempt (rollbackActiveLocked path offset);
  match outcome with
  | Ok _ => l_fail appendErr
  | Err _ =>
      _ ← l_modify (fun l => l <| l_failed := Some ErrRecoveryRequired |>);
      l_fail ErrRecoveryRequired
  end.

(** [finalizeActiveLocked] *)
Definition finalizeActiveLocked : LM unit :=
  l ← l_get;
  match l_active l with
  | None => mret tt
  | Some index =>
      let metadata := active_metadata l index in
      _ ← fs_sync (sm_Path metadata);
      closed ← attempt fs_close;
      match closed with
      | Err _ =>
          _ ← l_modify (fun l => l <| l_failed := Some ErrRecoveryRequired |>);
          l_fail ErrRecoveryRequired
      | Ok _ =>
          let newName := TrimSuffix (sm_Path metadata) ".open" +:+ ".seg" in
          renamed ← attempt (fs_rename (sm_Path metadata) newName);
          match renamed with
          | Err e =>
              reopened ← attempt (fs_open (sm_Path metadata));
              match reopened with
              | Ok _ => l_fail e
              | Err _ =>
                  _ ← l_modify (fun l => l <| l_failed := Some ErrRecoveryRequired |>);
                  l_fail ErrRecoveryRequired
              end
          | Ok _ =>
              _ ← l_modify (fun l =>
                    (set_segment index (metadata <| sm_Path := newName |> <| sm_Finalized := true |>) l)
                      <| l_active := None |>);
              _ ← attempt flushIndexLocked;
              mret tt
          end
      end
  end.

(** The encoding loop of [appendBatchLocked]: the stored records and the bytes. *)
Fixpoint encode_batch (o : Options) (head : N) (index : N) (previousHash : list N) (encoded : nat)
    (records : list LedgerRecord) : res lerr (list LedgerRecord * list N) :=
  match records with
  | [] => Ok ([], [])
  | record :: records =>
      let record := record <| r_Cursor := u64 (u64 (head + index) + 1) |> in
      '(wire, chainHash) ← marshalWireRecord record previousHash;
      match Marshal (mkFrame segmentFrameVersion 0 wire) (o_MaxFramePayload o) with
      | Err e => Err (ErrFrame e)
      | Ok frame =>
          if (o_MaxSegmentBytes o <? Z.of_nat (encoded + length frame))%Z then Err ErrRecordTooLarge else
          '(stored, bytes) ← encode_batch o head (index + 1) chainHash (encoded + length frame) records;
          Ok (record <| r_ChainHash := chainHash |> :: stored, frame ++ bytes)
      end
  end.

(** Rotation before an append that does not fit the active segment. *)
Definition rotate_if_full (size : nat) : LM unit :=
  l ← l_get;
  match l_active l with
  | None => mret tt
  | Some index =>
      let metadata := active_metadata l index in
      if (0 <? sm_FrameCount metadata)
         && (o_MaxSegmentBytes (l_options l) <? Z.of_nat (sm_ByteSize metadata + size))%Z
      then finalizeActiveLocked else mret tt
  end.

(** The in-memory effects of a durable batch. *)
Definition accept_batch (index : nat) (written : nat) (stored : list LedgerRecord) (l : Ledger) : Ledger :=
  let metadata := fold_left metadata_add stored (active_metadata l index) in
  let l := set_segment index (metadata <| sm_ByteSize := (sm_ByteSize metadata + written)%nat |>) l in
  let l := fold_left indexSourceRecord stored l in
  match last stored with
  | None => l
  | Some r => l <| l_head := r_Cursor r |> <| l_lastHash := r_ChainHash r |>
  end.

Definition publish_all (stored : list LedgerRecord) (l : Ledger) : Ledger :=
  l <| l_hub := fold_left hub_publish stored (l_hub l) |>.

(** The write, the sync and the bookkeeping of [appendBatchLocked]. *)
Definition commit_batch (stored : list LedgerRecord) (encoded : list N) : LM (list LedgerRecord) :=
  l ← l_get;
  let index := default 0%nat (l_active l) in
  let path := sm_Path (active_metadata l index) in
  let offset := sm_ByteSize (active_metadata l index) in
  written ← attempt (writeAll path encoded);
  match written with
  | Err e => failAfterRollbackLocked path offset e
  | Ok n =>
      if negb (n =? length encoded)%nat then failAfterRollbackLocked path offset (ErrIO "short write") else
      synced ← attempt (fs_sync path);
      match synced with
      | Err e => failAfterRollbackLocked path offset e
      | Ok _ =>
          _ ← l_modify (accept_batch index n stored);
          _ ← attempt flushIndexLocked;
          _ ← l_modify (publish_all stored);
          mret stored
      end
  end.

(** [appendBatchLocked] *)
Definition appendBatchLocked (records : list LedgerRecord) : LM (list LedgerRecord) :=
  match records with
  | [] => mret []
  | _ =>
      l ← l_get;
      '(stored, encoded) ← l_lift (encode_batch (l_options l) (l_head l) 0 (l_lastHash l) 0 records);
      _ ← rotate_if_full (length encoded);
      _ ← ensureActiveLocked (from_option r_Cursor 0 (head stored));
      commit_batch stored encoded
  end.

Definition check_open : LM unit :=
  l ← l_get;
  _ ← l_guard (negb (l_closed l)) ErrClosed;
  match l_failed l with Some e => l_fail e | None => mret tt end.

(** What one input turns into: the records to append and whether it is a
    duplicate. *)
Definition plan_append (input : LedgerRecord) : LM (list LedgerRecord * bool) :=
  if negb (r_HasSourceSequence input) then mret ([input], false) else
  state ← sourceState_get (r_Source input) (r_SourceInstance input);
  let sequence := r_SourceSequence input in
  found ← (match ss_seen state !! sequence with
           | Some occurrence => mret (Some occurrence)
           | None =>
               if ss_hasMaximum state && (sequence <=? ss_maximum state)
               then findSourceOccurrenceLocked (r_Source input) (r_SourceInstance input) sequence
               else mret None
           end);
  match found with
  | Some occurrence => mret ([makeDuplicateRecord input occurrence], true)
  | None =>
      if ss_hasMaximum state && (ss_maximum state <? max_uint64) && (u64 (ss_maximum state + 1) <? sequence)
      then mret ([makeSequenceGapRecord input (u64 (ss_maximum state + 1)) (sequence - 1); input], false)
      else mret ([input], false)
  end.

(** [Append] *)
Definition Append (input : LedgerRecord) : LM AppendResult :=
  _ ← l_lift (Record_Validate input);
  _ ← ctx_err;
  _ ← check_open;
  _ ← ctx_err;
  '(records, duplicate) ← plan_append input;
  stored ← appendBatchLocked records;
  mret (mkAppendResult stored duplicate).

(** [AppendGap] *)
Definition gap_envelope (envelope : LedgerRecord) (gap : Gap) : LedgerRecord :=
  envelope <| r_Kind := RecordGap |> <| r_Cursor := 0 |> <| r_ChainHash := zero_chain |>
           <| r_HasSourceSequence := false |> <| r_SourceSequence := 0 |> <| r_Payload := [] |>
           <| r_Duplicate := None |> <| r_Gap := Some gap |>.
Definition AppendGap (envelope : LedgerRecord) (gap : Gap) : LM LedgerRecord :=
  result ← Append (gap_envelope envelope gap);
  match last (ar_Records result) with
  | Some r => mret r
  | None => l_fail (ErrIO "panic: index out of range")
  end.

(** [Rotate] *)
Definition metadataWithFinalizedName (m : SegmentMetadata) : SegmentMetadata :=
  m <| sm_Path := TrimSuffix (sm_Path m) ".open" +:+ ".seg" |> <| sm_Finalized := true |>.
Definition zero_metadata : SegmentMetadata := empty_metadata "" zero_chain false.
Definition Rotate : LM SegmentMetadata :=
  _ ← check_open;
  l ← l_get;
  match l_active l with
  | None => if l_indexErr l then (_ ← flushIndexLocked; mret zero_metadata) else mret zero_metadata
  | Some index =>
      let metadata := active_metadata l index in
      _ ← finalizeActiveLocked;
      mret (metadataWithFinalizedName metadata)
  end.

(** [Close] *)
Definition Close : LM unit :=
  l ← l_get;
  if l_closed l then mret tt else
  match l_failed l with
  | Some e =>
      _ ← (match l_active l with
           | Some _ => _ ← attempt fs_close; l_modify (fun l => l <| l_active := None |>)
           | None => mret tt
           end);
      _ ← l_modify (fun l => l <| l_closed := true |> <| l_hub := hub_close (l_hub l) e |>);
      l_fail e
  | None =>
      _ ← finalizeActiveLocked;
      l ← l_get;
      _ ← (if l_indexErr l then flushIndexLocked else mret tt);
      l_modify (fun l => l <| l_closed := true |> <| l_hub := hub_close (l_hub l) ErrClosed |>)
  end.

(** ** Reading *)
Definition in_window (after through : N) (r : LedgerRecord) : bool :=
  (after <? r_Cursor r) && (r_Cursor r <=? through).

(** The inner loop of [readAfterLocked]; the boolean is the early return. *)
Fixpoint collect_records (after through : N) (limit : Z) (found : list LedgerRecord)
    (records : list LedgerRecord) : list LedgerRecord * bool :=
  match records with
  | [] => (found, false)
  | record :: records =>
      if in_window after through record then
        let found := found ++ [record] in
        if (0 <? limit)%Z && (limit <=? Z.of_nat (length found))%Z then (found, true)
        else collect_records after through limit found records
      else collect_records after through limit found records
  end.

Fixpoint read_loop (max : N) (after through : N) (limit : Z) (found : list LedgerRecord)
    (segments : list SegmentMetadata) (expectedCursor : N) (expectedHash : list N)
  : LM (list LedgerRecord) :=
  match segments with
  | [] => mret found
  | metadata :: segments =>
      scanned ← scanSegment (sm_Path metadata) max expectedCursor expectedHash;
      _ ← l_guard (negb (sc_incompleteTail scanned))
            (ErrCorruptSegment (sm_Path metadata) (sc_lastGoodOffset scanned));
      let '(found, full) := collect_records after through limit found (sc_records scanned) in
      if (full : bool) then mret found else
      let '(cursor, hash) := scan_next scanned expectedCursor expectedHash in
      read_loop max after through limit found segments cursor hash
  end.

Definition readAfterLocked (after through : N) (limit : Z) : LM (list LedgerRecord) :=
  l ← l_get;
  read_loop (o_MaxFramePayload (l_options l)) after through limit [] (l_segments l) 1 zero_chain.

(** [ReadAfter] *)
Definition ReadAfter (after : N) (limit : Z) : LM (list LedgerRecord) :=
  l ← l_get;
  _ ← l_guard (negb (l_head l <? after)) ErrCursorOutOfRange;
  _ ← match l_failed l with Some e => l_fail e | None => mret tt end;
  readAfterLocked after (l_head l) limit.

(** [Subscribe]: the identifier of the new subscription. *)
Definition Subscribe (after : N) (capacity : Z) : LM N :=
  l ← l_get;
  let capacity := if (capacity =? 0)%Z then o_SubscriberBuffer (l_options l) else capacity in
  _ ← l_guard (1 <=? capacity)%Z ErrOptions;
  _ ← check_open;
  _ ← l_guard (negb (l_head l <? after)) ErrCursorOutOfRange;
  history ← readAfterLocked after (l_head l) 0;
  let subscription := fold_left (fun s r => default s (enqueueRecord s r)) history
                        (newSubscription (Z.to_nat capacity)) in
  '(id, hub) ← l_lift (hub_add (l_hub l) subscription);
  _ ← l_modify (fun l => l <| l_hub := hub |>);
  mret id.

(** ** Opening *)
Definition normalizeOptions (o : Options) : res lerr Options :=
  _ ← check (negb (bool_decide (o_Directory o = ""))) ErrOptions;
  let segment := if (o_MaxSegmentBytes o =? 0)%Z then 67108864%Z else o_MaxSegmentBytes o in
  let payload := if o_MaxFramePayload o =? 0 then 8388608 else o_MaxFramePayload o in
  let buffer := if (o_SubscriberBuffer o =? 0)%Z then 128%Z else o_SubscriberBuffer o in
  let sequences := if (o_MaxSourceSequences o =? 0)%Z then 4096%Z else o_MaxSourceSequences o in
  _ ← check (negb ((segment <=? 0)%Z || (payload =? 0) || (buffer <=? 0)%Z || (sequences <=? 0)%Z))
        ErrOptions;
  Ok (mkOptions (o_Directory o) segment payload buffer sequences).

Definition new_ledger (o : Options) : Ledger :=
  mkLedger o [] None 0 zero_chain ∅ [] newFanoutHub false None false.

Definition truncateAndSync (path : string) (size : nat) : LM unit :=
  _ ← fs_open path; _ ← fs_truncate path size; fs_sync path.

(** The repair of an incomplete tail. *)
Definition repair_tail (path : string) (isOpen : bool) (scanned : scannedSegment) : LM unit :=
  if sc_incompleteTail scanned then
    _ ← l_guard isOpen (ErrCorruptSegment path (sc_lastGoodOffset scanned));
    _ ← truncateAndSync path (sc_lastGoodOffset scanned);
    l_modify (fun l => l <| l_repairs := l_repairs l ++
      [mkRepair path (sc_lastGoodOffset scanned) (sc_fileSize scanned - sc_lastGoodOffset scanned)
         GapSegmentRepair] |>)
  else mret tt.

(** What [Open] keeps of a scanned segment. *)
Definition adopt_segment (scanned : scannedSegment) (l : Ledger) : Ledger :=
  let l := l <| l_segments := l_segments l ++ [sc_metadata scanned] |> in
  let l := fold_left indexSourceRecord (sc_records scanned) l in
  if 0 <? sm_FrameCount (sc_metadata scanned)
  then l <| l_head := sm_LastCursor (sc_metadata scanned) |>
         <| l_lastHash := sm_LastHash (sc_metadata scanned) |>
  else l.

(** The loop of [Open] over the discovered paths. *)
Fixpoint open_loop (paths : list string) (expectedCursor : N) (expectedHash : list N) : LM unit :=
  match paths with
  | [] => mret tt
  | path :: rest =>
      let isOpen := HasSuffix path ".open" in
      _ ← l_guard (negb (isOpen && negb (bool_decide (rest = [])))) (ErrCorruptSegment path 0);
      l ← l_get;
      scanned ← scanSegment path (o_MaxFramePayload (l_options l)) expectedCursor expectedHash;
      _ ← repair_tail path isOpen scanned;
      _ ← l_modify (adopt_segment scanned);
      let '(cursor, hash) := scan_next scanned expectedCursor expectedHash in
      _ ← (if isOpen then
             _ ← fs_open path;
             l_modify (fun l => l <| l_active := Some (length (l_segments l) - 1)%nat |>)
           else mret tt);
      open_loop rest cursor hash
  end.

(** [Open] *)
Definition Open (options : Options) : LM OpenReport :=
  normalized ← l_lift (normalizeOptions options);
  _ ← fs_simple "mkdir";
  _ ← l_modify (fun _ => new_ledger normalized);
  paths ← discoverSegmentPaths;
  _ ← open_loop paths 1 zero_chain;
  _ ← flushIndexLocked;
  l ← l_get;
  mret (mkReport (l_repairs l) (l_segments l)).
End Ledger.
