(* ===== verification/LedgerDisk.v ===== *)
(** * Segments of the ledger: names, contents and scanning

    [framed max prev c rs b]: the bytes [b] are the frames of the records [rs],
    numbered from cursor [c] and chained from hash [prev].  Scanning such bytes,
    followed by an incomplete frame or by nothing, finds exactly [rs]. *)
From S2P Require Import Prelude Sha256 GoStrings Utf8Facts Frames LedgerCodec Subscriptions Ledger.
Local Open Scope N_scope.

(** ** Segment names *)
Definition ten20 : N := 10 ^ 20.

Lemma two64_ten20 n : n <= two64 -> n < ten20.
Proof. unfold two64, ten20. intros. eapply N.le_lt_trans; [eassumption|]. reflexivity. Qed.

Lemma segmentName_open_suffix c f : HasSuffix (segmentName c f) ".open" = negb f.
Proof.
  unfold segmentName, HasSuffix. rewrite !srev_append.
  destruct f; [|apply (HasPrefix_append (srev ".open"))]. reflexivity.
Qed.
Lemma segmentName_seg_suffix c f : HasSuffix (segmentName c f) ".seg" = f.
Proof.
  unfold segmentName, HasSuffix. rewrite !srev_append.
  destruct f; [apply (HasPrefix_append (srev ".seg"))|]. reflexivity.
Qed.
Lemma segmentName_is_segment c f : is_segment_name (segmentName c f) = true.
Proof.
  unfold is_segment_name. rewrite segmentName_open_suffix, segmentName_seg_suffix.
  unfold segmentName. by rewrite HasPrefix_append; destruct f.
Qed.
Lemma segmentName_finalized c : TrimSuffix (segmentName c false) ".open" +:+ ".seg" = segmentName c true.
Proof. unfold segmentName. by rewrite <-!append_assoc, TrimSuffix_append. Qed.

Lemma segmentName_inj c1 f1 c2 f2 :
  c1 < ten20 -> c2 < ten20 -> segmentName c1 f1 = segmentName c2 f2 -> c1 = c2 /\ f1 = f2.
Proof.
  intros H1 H2 E. unfold segmentName in E. apply append_inv_head in E.
  apply append_inj in E as [E1 E2]; [|by rewrite !decimal_digits_length].
  split; [by apply (decimal_digits_inj 20)|by destruct f1, f2].
Qed.

Lemma segmentName_le c1 f1 c2 f2 :
  c1 < ten20 -> c2 < ten20 -> c1 < c2 -> string_le (segmentName c1 f1) (segmentName c2 f2).
Proof.
  intros H1 H2 L. unfold segmentName. apply string_le_same, string_le_append.
  - by rewrite !decimal_digits_length.
  - intros E%(decimal_digits_inj 20); lia || done.
  - apply (decimal_digits_le 20); [done..|lia].
Qed.

#[global] Opaque segmentName is_segment_name HasSuffix TrimSuffix.

(** ** Contents of a segment *)
Inductive framed (max : N) : list N -> N -> list LedgerRecord -> list N -> Prop :=
| framed_nil prev c : framed max prev c [] []
| framed_cons prev c r rs wire frame b :
    record_wf r -> validateRecordShape r = Ok tt -> r_Cursor r = c -> c <> 0 ->
    marshalWireRecord r prev = Ok (wire, r_ChainHash r) ->
    Marshal (mkFrame segmentFrameVersion 0 wire) max = Ok frame ->
    framed max (r_ChainHash r) (c + 1) rs b ->
    framed max prev c (r :: rs) (frame ++ b).

Definition end_hash (prev : list N) (rs : list LedgerRecord) : list N :=
  from_option r_ChainHash prev (last rs).

Lemma end_hash_cons prev r rs : end_hash prev (r :: rs) = end_hash (r_ChainHash r) rs.
Proof. unfold end_hash. by destruct rs as [|x rs] using rev_ind; [|rewrite app_comm_cons, !last_snoc]. Qed.
Lemma end_hash_app prev rs rs' : end_hash prev (rs ++ rs') = end_hash (end_hash prev rs) rs'.
Proof. revert prev; induction rs as [|r rs IH]; intros prev; [done|]. cbn [app]. by rewrite !end_hash_cons, IH. Qed.

Definition hash_ok (h : list N) : Prop := length h = 32%nat /\ is_bytes h.

Lemma zero_chain_ok : hash_ok zero_chain.
Proof. split; [done|]. by repeat constructor. Qed.

Lemma framed_app max prev c rs b rs' b' :
  framed max prev c rs b -> framed max (end_hash prev rs) (c + N.of_nat (length rs)) rs' b' ->
  framed max prev c (rs ++ rs') (b ++ b').
Proof.
  induction 1 as [|prev c r rs wire frame b W V C Z M F H IH]; cbn [app].
  - unfold end_hash; cbn. by rewrite N.add_0_r.
  - rewrite end_hash_cons. intros H'. rewrite <-app_assoc. econstructor; try done. apply IH.
    replace (c + 1 + N.of_nat (length rs)) with (c + N.of_nat (length (r :: rs))); [done|cbn [length]; lia].
Qed.

Lemma framed_hash max prev c rs b : framed max prev c rs b -> hash_ok prev -> hash_ok (end_hash prev rs).
Proof.
  induction 1 as [|prev c r rs wire frame b W V C Z M F H IH]; [done|]. rewrite end_hash_cons.
  intros [_ B]. apply IH. destruct (marshalWireRecord_bytes _ _ _ _ (rw_payload _ W) B M) as (_ & ? & ?).
  by split.
Qed.

Lemma framed_last max prev c rs b r :
  framed max prev c rs b -> last rs = Some r -> r_Cursor r + 1 = c + N.of_nat (length rs).
Proof.
  induction 1 as [|prev c x rs wire frame b W V C Z M F H IH]; [done|].
  destruct rs as [|y rs]; [intros [= <-]; cbn [length]; lia|]. intros L. rewrite IH by done. cbn [length]. lia.
Qed.

Lemma framed_wf max prev c rs b : framed max prev c rs b -> Forall record_wf rs.
Proof. induction 1; by constructor. Qed.

(** Different encodings of the same records are the same bytes. *)
Lemma framed_det max prev c rs b b' : framed max prev c rs b -> framed max prev c rs b' -> b = b'.
Proof.
  intros H; revert b'; induction H as [|prev c r rs wire frame b W V C Z M F H IH]; intros b' H'.
  - by inversion H'.
  - inversion H' as [|? ? ? ? wire' frame' ? _ _ _ _ M' F' H'']; subst.
    rewrite M in M'. injection M' as <-. rewrite F in F'. injection F' as <-. f_equal. by apply IH.
Qed.

Lemma frame_of_wire_ok max wire frame :
  max < 4294967296 -> Marshal (mkFrame segmentFrameVersion 0 wire) max = Ok frame ->
  frame_ok (mkFrame segmentFrameVersion 0 wire).
Proof. intros B (_ & L & _)%Marshal_ok. cbn in L. split; cbn; try done. lia. Qed.

(** An incomplete frame: a strict prefix of a frame, or nothing. *)
Definition torn (max : N) (t : list N) : Prop :=
  t = [] \/ exists f b s, frame_ok f /\ Marshal f max = Ok b /\ b = t ++ s /\ s <> [].

(** A prefix of the frames of some records is the frames of a prefix of the
    records followed by an incomplete frame. *)
Lemma framed_prefix max prev c rs b t :
  max < 4294967296 -> framed max prev c rs b -> t `prefix_of` b ->
  exists rs1 rs2 b1 b2 tail, rs = rs1 ++ rs2 /\ framed max prev c rs1 b1 /\
    framed max (end_hash prev rs1) (c + N.of_nat (length rs1)) rs2 b2 /\
    b = b1 ++ b2 /\ t = b1 ++ tail /\ tail `prefix_of` b2 /\ torn max tail.
Proof.
  intros B H; revert t; induction H as [prev c|prev c r rs wire frame b W V C Z M F H IH]; intros t P.
  - apply prefix_nil_inv in P as ->. exists [], [], [], [], []. cbn. rewrite N.add_0_r.
    split_and!; try done; try constructor; done.
  - destruct (decide (length t < length frame)%nat) as [L|L].
    + exists [], (r :: rs), [], (frame ++ b), t. cbn. rewrite N.add_0_r.
      split_and!; [done|constructor|by econstructor|done|done|done|]. right. exists (mkFrame segmentFrameVersion 0 wire), frame.
      destruct P as [k P].
      exists (skipn (length t) frame). split; [by eapply frame_of_wire_ok|]. split; [done|]. split.
      * apply (f_equal (firstn (length t))) in P as P1.
        rewrite take_app_length in P1. rewrite take_app_le in P1 by lia.
        rewrite <-P1 at 1. by rewrite take_drop.
      * intros E. apply (f_equal length) in E. rewrite length_drop in E. cbn in E. lia.
    + assert (exists t', t = frame ++ t') as [t' ->].
      { destruct P as [k P]. exists (skipn (length frame) t).
        apply (f_equal (firstn (length frame))) in P. rewrite take_app_length, take_app_le in P by lia.
        rewrite P at 1. by rewrite take_drop. }
      apply prefix_app_inv in P. destruct (IH _ P) as (rs1 & rs2 & b1 & b2 & tail & -> & F1 & F2 & -> & -> & P2 & T).
      exists (r :: rs1), rs2, (frame ++ b1), b2, tail. rewrite <-!app_assoc. rewrite end_hash_cons.
      split_and!; try done; [by econstructor|].
      replace (c + N.of_nat (length (r :: rs1))) with (c + 1 + N.of_nat (length rs1)) by (cbn [length]; lia). done.
Qed.

(** ** Metadata *)
Definition meta_of (path : string) (prev : list N) (finalized : bool) (rs : list LedgerRecord) (size : nat)
  : SegmentMetadata :=
  (fold_left metadata_add rs (empty_metadata path prev finalized)) <| sm_ByteSize := size |>.

Lemma metadata_add_size m r k : metadata_add (m <| sm_ByteSize := k |>) r = (metadata_add m r) <| sm_ByteSize := k |>.
Proof. unfold metadata_add. destruct m; cbn. by destruct (_ =? 0). Qed.
Lemma metadata_add_path m r p f :
  metadata_add (m <| sm_Path := p |> <| sm_Finalized := f |>) r =
  (metadata_add m r) <| sm_Path := p |> <| sm_Finalized := f |>.
Proof. unfold metadata_add. destruct m; cbn. by destruct (_ =? 0). Qed.

Lemma fold_metadata_size rs m k :
  fold_left metadata_add rs (m <| sm_ByteSize := k |>) = (fold_left metadata_add rs m) <| sm_ByteSize := k |>.
Proof. revert m; induction rs as [|r rs IH]; intros m; cbn [fold_left]; [done|]. by rewrite metadata_add_size, IH. Qed.

Lemma meta_of_extend path prev f rs rs' size size' :
  (fold_left metadata_add rs' (meta_of path prev f rs size)) <| sm_ByteSize := size' |> =
  meta_of path prev f (rs ++ rs') size'.
Proof.
  unfold meta_of. rewrite fold_metadata_size, fold_left_app. by destruct (fold_left _ rs' _).
Qed.

Lemma meta_of_finalize path prev rs size path' :
  (meta_of path prev false rs size) <| sm_Path := path' |> <| sm_Finalized := true |> =
  meta_of path' prev true rs size.
Proof.
  unfold meta_of.
  assert (E : forall m, fold_left metadata_add rs (m <| sm_Path := path' |> <| sm_Finalized := true |>) =
    (fold_left metadata_add rs m) <| sm_Path := path' |> <| sm_Finalized := true |>).
  { induction rs as [|r rs IH]; intros m; cbn [fold_left]; [done|]. by rewrite metadata_add_path, IH. }
  change (empty_metadata path' prev true)
    with ((empty_metadata path prev false) <| sm_Path := path' |> <| sm_Finalized := true |>).
  rewrite E. by destruct (fold_left _ rs _).
Qed.

Lemma meta_of_fields path prev f rs size :
  N.of_nat (length rs) < two64 ->
  let m := meta_of path prev f rs size in
  sm_Path m = path /\ sm_ByteSize m = size /\ sm_FrameCount m = N.of_nat (length rs) /\
  sm_Finalized m = f /\
  (rs <> [] -> sm_LastCursor m = from_option r_Cursor 0 (last rs) /\ sm_LastHash m = end_hash prev rs).
Proof.
  unfold meta_of. induction rs as [|r rs IH] using rev_ind; intros B; [done|].
  rewrite length_app in B; cbn [length] in B. destruct IH as (P & _ & C & F & _); [lia|].
  rewrite fold_left_app; cbn [fold_left].
  revert P C F; generalize (fold_left metadata_add rs (empty_metadata path prev f)); intros [] P C F.
  cbn in *. subst. unfold metadata_add; cbn.
  assert (E : u64 (N.of_nat (length rs) + 1) = N.of_nat (length (rs ++ [r])))
    by (rewrite length_app, u64_small; cbn [length]; lia).
  unfold end_hash. rewrite last_snoc.
  destruct (N.of_nat (length rs) =? 0); cbn; rewrite E; repeat split; done.
Qed.

(** ** Scanning *)
Lemma torn_read max t e :
  max <> 0 -> torn max t -> e = EndEOF ->
  exists n r, Decoder_Read max (mkReader t e) =
    (Err (if bool_decide (t = []) then FrameEOF else ErrIncompleteFrame), n, r).
Proof.
  intros M T ->. destruct (Decoder_Read max (mkReader t EndEOF)) as [[x n] r] eqn:E.
  exists n, r. f_equal. f_equal. change x with (fst (fst (x, n, r))). rewrite <-E.
  destruct T as [-> | (f & b & s & F & Mb & Eb & S)]; [|by eapply Decoder_Read_prefix].
  unfold Decoder_Read. by apply N.eqb_neq in M as ->.
Qed.

Definition scanned_to (result : scannedSegment) (rs : list LedgerRecord) (offset : nat) (t : list N)
  : scannedSegment :=
  mkScanned ((fold_left metadata_add rs (sc_metadata result)) <| sm_ByteSize := offset |>)
    (sc_records result ++ rs) offset (sc_incompleteTail result || negb (bool_decide (t = [])))
    (sc_fileSize result).

Lemma scan_loop_framed max path prev c rs b t fuel offset result :
  max <> 0 -> max < 4294967296 -> hash_ok prev ->
  framed max prev c rs b -> torn max t -> c + N.of_nat (length rs) < two64 ->
  (length (b ++ t) < fuel)%nat ->
  scan_loop fuel path max (mkReader (b ++ t) EndEOF) offset c prev result =
  Ok (scanned_to result rs (offset + length b) t).
Proof.
  intros M0 M1 Hp H; revert fuel offset result Hp.
  induction H as [prev c|prev c r rs wire frame b W V C Z M F H IH];
    intros fuel offset result Hp T L Hf; destruct fuel as [|fuel]; try lia.
  - cbn [app length] in *. cbn [scan_loop].
    destruct (torn_read max t EndEOF M0 T eq_refl) as (n & rd & ->).
    unfold scanned_to. rewrite app_nil_r, Nat.add_0_r; cbn [fold_left].
    destruct (bool_decide (t = [])); destruct result as [[] ? ? [] ?]; reflexivity.
  - destruct (marshalWireRecord_bytes _ _ _ _ (rw_payload _ W) (proj2 Hp) M) as (Wb & Hb & Hl).
    rewrite <-app_assoc. cbn [scan_loop].
    rewrite (Decoder_Read_Marshal _ max _ _ _ (frame_of_wire_ok _ _ _ M1 F) Wb F M0).
    cbn [frame_Version frame_Payload]. rewrite N.eqb_refl; cbn [negb].
    rewrite <-C in Z.
    rewrite (unmarshalWireRecord_marshal _ _ _ _ W V Z (proj1 Hp) M).
    rewrite bool_decide_eq_true_2 by done; cbn [negb].
    change (r_Cursor (r <| r_ChainHash := _ |>)) with (r_Cursor r). rewrite C, N.eqb_refl; cbn [negb].
    assert (Er : r <| r_ChainHash := r_ChainHash r |> = r) by (by destruct r). rewrite Er.
    assert (Lf : (0 < length frame)%nat) by (rewrite (Marshal_length _ _ _ F); unfold HeaderSize; lia).
    cbn [length] in L. rewrite u64_small by (unfold two64 in *; lia).
    rewrite !length_app in Hf.
    rewrite IH; [|by split|done|lia|rewrite length_app; lia].
    unfold scanned_to. cbn [sc_metadata sc_records sc_incompleteTail sc_fileSize set fold_left].
    rewrite length_app, Nat.add_assoc, <-app_assoc. by destruct result.
Qed.

(** * The directory of the ledger

    [layout]: the segment files of a directory hold a log: finalized segments,
    each non-empty, then at most one open segment, which may hold in addition
    part of a batch in flight.  What the ledger's file operations do to it, and
    what scanning a segment of it returns. *)
Local Open Scope N_scope.

Abbreviation chunk := (list LedgerRecord).

Fixpoint seg_names (c : N) (chunks : list chunk) : list string :=
  match chunks with
  | [] => []
  | rs :: rest => segmentName c true :: seg_names (c + N.of_nat (length rs)) rest
  end.

(** The finalized segments and their metadata. *)
Fixpoint sealed_ok (files : Files) (max : N) (prev : list N) (c : N) (chunks : list chunk)
    (metas : list SegmentMetadata) : Prop :=
  match chunks, metas with
  | [], [] => True
  | rs :: rest, m :: ms =>
      rs <> [] /\
      (exists b, framed max prev c rs b /\ files !! segmentName c true = Some (clean_file b) /\
         m = meta_of (segmentName c true) prev true rs (length b)) /\
      sealed_ok files max (end_hash prev rs) (c + N.of_nat (length rs)) rest ms
  | _, _ => False
  end.

Definition next_cursor (sealed : list chunk) : N := 1 + N.of_nat (length (concat sealed)).
Definition next_hash (sealed : list chunk) : list N := end_hash zero_chain (concat sealed).

(** The open segment: the records [stable] that are durable, the records
    [loose] that are only in its content, and an incomplete frame [tail]. *)
Definition open_file (max : N) (sealed : list chunk) (f : File) (stable loose : chunk)
    (b bl tail : list N) : Prop :=
  framed max (next_hash sealed) (next_cursor sealed) stable b /\
  framed max (end_hash (next_hash sealed) stable) (next_cursor sealed + N.of_nat (length stable)) loose bl /\
  f_content f = b ++ bl ++ tail /\ torn max tail /\
  exists t, f_durable f = b ++ t /\ torn max t.

Abbreviation open_chunk := (option (chunk * chunk)).

Definition open_name (sealed : list chunk) : string := segmentName (next_cursor sealed) false.

Definition all_names (sealed : list chunk) (op : open_chunk) : list string :=
  seg_names 1 sealed ++ match op with Some _ => [open_name sealed] | None => [] end.

(** The durable records, and all records in the files. *)
Definition stable_of (sealed : list chunk) (op : open_chunk) : list LedgerRecord :=
  concat sealed ++ match op with Some (stable, _) => stable | None => [] end.
Definition log_of (sealed : list chunk) (op : open_chunk) : list LedgerRecord :=
  concat sealed ++ match op with Some (stable, loose) => stable ++ loose | None => [] end.

Record layout (max : N) (files : Files) (sealed : list chunk) (metas : list SegmentMetadata)
    (op : open_chunk) : Prop := {
  lay_sealed : sealed_ok files max zero_chain 1 sealed metas;
  lay_open : match op with
             | None => True
             | Some (stable, loose) => exists f b bl tail,
                 files !! open_name sealed = Some f /\ open_file max sealed f stable loose b bl tail
             end;
  lay_names : forall name, is_segment_name name = true ->
    (is_Some (files !! name) <-> name ∈ all_names sealed op);
  lay_bound : N.of_nat (length (log_of sealed op)) + 1 < two64 }.

(** ** Names of a layout *)
Lemma concat_length_cons (rs : chunk) rest c :
  c + N.of_nat (length rs) + N.of_nat (length (concat rest)) = c + N.of_nat (length (concat (rs :: rest))).
Proof. cbn [concat]. rewrite length_app. lia. Qed.

Lemma seg_names_elem c sealed name :
  name ∈ seg_names c sealed -> Forall (fun rs => rs <> []) sealed ->
  exists k, name = segmentName k true /\ c <= k /\ k < c + N.of_nat (length (concat sealed)).
Proof.
  revert c; induction sealed as [|rs rest IH]; intros c; cbn [seg_names]; [by intros ?%elem_of_nil|].
  intros [->|H]%elem_of_cons [Hr Hs]%Forall_cons.
  - exists c. destruct rs; [done|]. cbn [concat app length]. split_and!; [done|lia..].
  - destruct (IH _ H Hs) as (k & -> & L1 & L2). exists k. rewrite concat_length_cons in L2.
    split_and!; [done|lia|done].
Qed.

Lemma sealed_ok_nonempty files max prev c sealed metas :
  sealed_ok files max prev c sealed metas -> Forall (fun rs => rs <> []) sealed.
Proof.
  revert prev c metas; induction sealed as [|rs rest IH]; intros prev c [|m ms]; cbn; try done.
  intros (Hr & _ & H). constructor; [done|by eapply IH].
Qed.

Lemma sealed_ok_framed files max prev c sealed metas :
  sealed_ok files max prev c sealed metas -> exists b, framed max prev c (concat sealed) b.
Proof.
  revert prev c metas; induction sealed as [|rs rest IH]; intros prev c [|m ms]; cbn; try done.
  - exists []. constructor.
  - intros (Hr & (b & F & _) & (b' & F')%IH). exists (b ++ b'). by eapply framed_app.
Qed.

Lemma next_hash_ok files max sealed metas : sealed_ok files max zero_chain 1 sealed metas -> hash_ok (next_hash sealed).
Proof. intros (b & F)%sealed_ok_framed. by eapply framed_hash; [|apply zero_chain_ok]. Qed.

Lemma all_names_sorted sealed op :
  Forall (fun rs => rs <> []) sealed -> 1 + N.of_nat (length (concat sealed)) < two64 ->
  Sorted string_le (all_names sealed op) /\ NoDup (all_names sealed op).
Proof.
  intros NE B. unfold all_names, open_name, next_cursor.
  assert (G : forall c, c + N.of_nat (length (concat sealed)) < two64 ->
    let l := seg_names c sealed ++
      match op with Some _ => [segmentName (c + N.of_nat (length (concat sealed))) false] | None => [] end in
    Sorted string_le l /\ NoDup l); [|by apply G].
  clear B. induction sealed as [|rs rest IH]; intros c B; cbn [seg_names app].
  { destruct op; [|split; constructor]. split; [by repeat constructor|apply NoDup_singleton]. }
  apply Forall_cons in NE as [Hr NE]. rewrite <-concat_length_cons in B |- *.
  destruct (IH NE _ B) as [S1 N1]. cbv zeta.
  assert (Hd : forall x, x ∈ seg_names (c + N.of_nat (length rs)) rest ++
      match op with
      | Some _ => [segmentName (c + N.of_nat (length rs) + N.of_nat (length (concat rest))) false]
      | None => [] end -> exists k f, x = segmentName k f /\ c < k /\ k < two64).
  { intros x [H|H]%elem_of_app.
    - apply seg_names_elem in H as (k & -> & L1 & L2); [|done]. exists k, true. destruct rs; [done|]. cbn [length] in *. split_and!; [done|lia..].
    - destruct op; [|by apply elem_of_nil in H]. apply list_elem_of_singleton in H as ->.
      eexists _, false. split; [done|]. destruct rs; [done|]. cbn [length] in *. lia. }
  assert (Bc : c < ten20) by (apply two64_ten20; lia).
  split.
  - constructor; [done|]. destruct (_ ++ _) as [|y l] eqn:E; constructor.
    destruct (Hd y) as (k & f & -> & L1 & L2); [left|].
    apply segmentName_le; [done|apply two64_ten20; lia|done].
  - constructor; [|done]. intros H. destruct (Hd _ H) as (k & f & E & L1 & L2).
    apply segmentName_inj in E as [-> _]; [lia|done|apply two64_ten20; lia].
Qed.

(** ** Running methods *)
Lemma LM_bind_inv {A B} (m : LM A) (k : A -> LM B) w r w' :
  (m ≫= k) w = (r, w') ->
  (exists a w1, m w = (Ok a, w1) /\ k a w1 = (r, w')) \/ (exists e, m w = (Err e, w') /\ r = Err e).
Proof.
  unfold mbind, LM_bind. destruct (m w) as [[a|e] w1]; [left; eauto|].
  intros [= <- <-]. right; eauto.
Qed.

Lemma attempt_inv {A} (m : LM A) w r w' :
  attempt m w = (r, w') -> exists o, r = Ok o /\ m w = (o, w').
Proof. unfold attempt. destruct (m w) as [o w1]. intros [= <- <-]. eauto. Qed.

(** [lm_step H]: the next call of the method in [H] succeeded (first goal) or
    failed (second goal). *)
Ltac lm_step H :=
  apply LM_bind_inv in H as [(?x & ?w & ?Hc & H) | (?e & ?Hc & ?Hr)].

(** A method that only moved the environment. *)
Definition idle (w w' : LWorld) : Prop :=
  lw_files w' = lw_files w /\ lw_ledger w' = lw_ledger w.

#[export] Instance idle_preorder : PreOrder idle.
Proof.
  split; [intros w; done|]. intros w1 w2 w3 [F1 L1] [F2 L2]. split; congruence.
Qed.

Section Env.
Context `{DiskEnv}.

Definition faulted (e : lerr) : Prop := exists call n, e = ErrIO call /\ io_fault n = true.
Definition canceled (e : lerr) : Prop := e = ErrCanceled /\ exists n, ctx_canceled n = true.

Lemma ctx_err_inv w r w' : ctx_err w = (r, w') -> idle w w' /\ (r = Ok tt \/ exists e, r = Err e /\ canceled e).
Proof.
  unfold ctx_err. intros [= <- <-]. split; [done|].
  destruct (ctx_canceled (lw_tick w)) eqn:E; [right|by left]. unfold canceled; eauto.
Qed.

Lemma fs_call_inv name effect w r w' :
  fs_call name effect w = (r, w') ->
  lw_ledger w' = lw_ledger w /\
  ((exists e, r = Err e /\ lw_files w' = lw_files w /\ (faulted e \/ effect (lw_files w) = None)) \/
   (r = Ok tt /\ effect (lw_files w) = Some (lw_files w'))).
Proof.
  unfold fs_call. destruct (io_fault (lw_tick w)) eqn:F.
  - intros [= <- <-]. split; [done|]. left. eexists. split; [done|]. split; [done|]. left. unfold faulted. eauto.
  - destruct (effect (lw_files w)) eqn:E; intros [= <- <-]; (split; [done|]); [by right|].
    left. eauto.
Qed.

Lemma fs_simple_inv name w r w' :
  fs_simple name w = (r, w') -> idle w w' /\ (r = Ok tt \/ exists e, r = Err e /\ faulted e).
Proof.
  intros (L & [(e & -> & F & [?|?])|[-> F]])%fs_call_inv; [|done|].
  - split; [by split|]. right; eauto.
  - split; [split; [by injection F|done]|]. by left.
Qed.

(** A call on an existing file. *)
Lemma fs_on_inv name path f file w r w' :
  fs_on name path f w = (r, w') -> lw_files w !! path = Some file ->
  lw_ledger w' = lw_ledger w /\
  ((exists e, r = Err e /\ lw_files w' = lw_files w /\ faulted e) \/
   (r = Ok tt /\ lw_files w' = <[path := f file]> (lw_files w))).
Proof.
  intros (L & [(e & -> & F & [?|E])|[-> F]])%fs_call_inv P; (split; [done|]); [left; eauto|..].
  - rewrite P in E. done.
  - rewrite P in F. injection F as <-. by right.
Qed.

Lemma fs_open_inv path file w r w' :
  fs_open path w = (r, w') -> lw_files w !! path = Some file ->
  idle w w' /\ (r = Ok tt \/ exists e, r = Err e /\ faulted e).
Proof.
  intros H1 P. destruct (fs_on_inv _ _ _ _ _ _ _ H1 P) as (L & [(e & -> & F & ?)|[-> F]]).
  - split; [by split|]. right; eauto.
  - split; [split; [|done]|by left]. rewrite F. by apply insert_id.
Qed.

(** Reads do not fail halfway: the operating system delivers the content. *)
Hypothesis reads_ok : forall n, io_read n = None.

Lemma fs_reader_inv path file w r w' :
  fs_reader path w = (r, w') -> lw_files w !! path = Some file ->
  idle w w' /\ (r = Ok (mkReader (f_content file) EndEOF, length (f_content file)) \/
                exists e, r = Err e /\ faulted e).
Proof.
  intros E P. unfold fs_reader in E. lm_step E.
  - destruct (fs_open_inv _ _ _ _ _ Hc P) as [I [_|(? & ? & _)]]; [|done].
    lm_step E.
    + destruct (fs_simple_inv _ _ _ _ Hc0) as [I0 [_|(? & ? & _)]]; [|done].
      unfold prim in E. rewrite reads_ok in E. injection E as <- <-.
      assert (Ef : lw_files w1 !! path = Some file) by (by rewrite (proj1 I0), (proj1 I)).
      rewrite Ef. split; [|by left]. etransitivity; [exact I|]. etransitivity; [exact I0|done].
    + destruct (fs_simple_inv _ _ _ _ Hc0) as [I0 [?|(? & [= ->] & ?)]]; [done|]. subst.
      split; [by etransitivity|]. right; eauto.
  - destruct (fs_open_inv _ _ _ _ _ Hc P) as [I [?|(? & [= ->] & ?)]]; [done|]. subst.
    split; [done|]. right; eauto.
Qed.

(** What scanning a well-formed segment file returns. *)
Lemma scanSegment_inv path max c prev file rs b t w r w' :
  scanSegment path max c prev w = (r, w') -> lw_files w !! path = Some file ->
  f_content file = b ++ t -> framed max prev c rs b -> torn max t ->
  max <> 0 -> max < 4294967296 -> hash_ok prev -> c + N.of_nat (length rs) < two64 ->
  idle w w' /\
  (r = Ok (mkScanned (meta_of path prev (HasSuffix path ".seg") rs (length b)) rs (length b)
             (negb (bool_decide (t = []))) (length (b ++ t)))
   \/ exists e, r = Err e /\ faulted e).
Proof.
  intros E P C F T M0 M1 Hp B. unfold scanSegment in E. lm_step E.
  - destruct (fs_reader_inv _ _ _ _ _ Hc P) as [I [[= ->]|(? & ? & _)]]; [|done].
    cbv beta iota delta [l_lift] in E. apply pair_equal_spec in E as [<- <-]. split; [done|]. left.
    cbn [rd_bytes]. rewrite C. by erewrite scan_loop_framed by (done || lia).
  - destruct (fs_reader_inv _ _ _ _ _ Hc P) as [I [?|(? & [= ->] & ?)]]; [done|]. subst.
    split; [done|]. right; eauto.
Qed.

(** Where scanning goes on. *)
Lemma scan_next_meta path prev f max c rs b t size :
  framed max prev c rs b -> c + N.of_nat (length rs) < two64 ->
  scan_next (mkScanned (meta_of path prev f rs (length b)) rs (length b) t size) c prev =
  (c + N.of_nat (length rs), end_hash prev rs).
Proof.
  intros F B. unfold scan_next. cbn [sc_metadata].
  destruct (meta_of_fields path prev f rs (length b)) as (_ & _ & -> & _ & L); [lia|].
  destruct rs as [|r rs]; [cbn [length]; rewrite N.add_0_r; done|].
  destruct L as [-> ->]; [done|].
  replace (0 <? N.of_nat (length (r :: rs))) with true by (symmetry; apply N.ltb_lt; cbn [length]; lia).
  destruct (last (r :: rs)) as [z|] eqn:Z; [|apply last_None in Z; done].
  f_equal. cbn [from_option]. rewrite (framed_last _ _ _ _ _ _ F Z), u64_small; [done|lia].
Qed.
End Env.

(** ** Layouts under changes of other files and of the open segment *)
Lemma sealed_ok_frame files files' max prev c sealed metas :
  (forall k, c <= k -> k < c + N.of_nat (length (concat sealed)) -> files' !! segmentName k true = files !! segmentName k true) ->
  sealed_ok files max prev c sealed metas -> sealed_ok files' max prev c sealed metas.
Proof.
  revert prev c metas; induction sealed as [|rs rest IH]; intros prev c [|m ms] E; cbn [sealed_ok]; try done.
  intros (Hr & (b & F & P & Hm) & S). split; [done|]. split.
  - exists b. split_and!; try done. rewrite E; [done|lia|]. destruct rs; [done|]. cbn [concat app length]. lia.
  - eapply IH; [|exact S]. intros k L1 L2. apply E; [lia|]. by rewrite concat_length_cons in L2.
Qed.

Lemma sealed_ok_snoc files max prev c sealed metas rs b m :
  sealed_ok files max prev c sealed metas ->
  rs <> [] -> let c' := c + N.of_nat (length (concat sealed)) in let h := end_hash prev (concat sealed) in
  framed max h c' rs b -> files !! segmentName c' true = Some (clean_file b) ->
  m = meta_of (segmentName c' true) h true rs (length b) ->
  sealed_ok files max prev c (sealed ++ [rs]) (metas ++ [m]).
Proof.
  revert prev c metas; induction sealed as [|x rest IH]; intros prev c [|y ms] S Hr; cbn [sealed_ok app] in *; try done.
  - cbn [concat length]. rewrite N.add_0_r. unfold end_hash; cbn. intros F P ->. split; [done|]. split; [|done]. eauto.
  - destruct S as (Hx & Hb & S). intros F P E. split; [done|]. split; [done|].
    rewrite <-concat_length_cons in *. cbn [concat] in *. rewrite end_hash_app in *.
    by apply IH.
Qed.

Lemma seg_names_snoc c sealed rs :
  seg_names c (sealed ++ [rs]) = seg_names c sealed ++ [segmentName (c + N.of_nat (length (concat sealed))) true].
Proof.
  revert c; induction sealed as [|x rest IH]; intros c; cbn [seg_names app].
  - cbn [concat length]. by rewrite N.add_0_r.
  - by rewrite IH, concat_length_cons.
Qed.
