(* ===== verification/LedgerIndex.v ===== *)
(** * The index of source sequences

    What the bounded in-memory window of the ledger knows about the log, and
    the two facts about source sequences that every append preserves: no
    sequence of a source is applied twice, and from the first one applied to the
    highest each is applied or declared missing by a gap record. *)
From S2P Require Import Prelude Sha256 GoStrings Frames LedgerCodec Subscriptions Ledger.
Local Open Scope N_scope.

Definition key_of (r : LedgerRecord) : string * string := (r_Source r, r_SourceInstance r).

Definition applied (log : list LedgerRecord) (key : string * string) (r : LedgerRecord) : Prop :=
  r ∈ log /\ applies_sequence r = true /\ key_of r = key.
Definition applied_in (log : list LedgerRecord) (key : string * string) (s : N) : Prop :=
  exists r, applied log key r /\ r_SourceSequence r = s.

(** ** The window of one source *)
Record source_ok (maxSequences : Z) (log : list LedgerRecord) (key : string * string)
    (st : sourceState) : Prop := {
  so_seen : forall s oc, ss_seen st !! s = Some oc -> exists r, applied log key r /\
    r_SourceSequence r = s /\ oc = mkOccurrence (r_Cursor r) (sha256 (r_Payload r));
  so_max : forall s, applied_in log key s -> ss_hasMaximum st = true /\ s <= ss_maximum st;
  so_attained : ss_hasMaximum st = true -> applied_in log key (ss_maximum st);
  so_dom : forall s, is_Some (ss_seen st !! s) <-> s ∈ ss_order st;
  so_nodup : NoDup (ss_order st);
  so_length : (Z.of_nat (length (ss_order st)) <= maxSequences)%Z;
  so_next : ss_next st = 0%nat \/ (ss_next st < length (ss_order st))%nat }.

Definition index_ok (maxSequences : Z) (log : list LedgerRecord)
    (sources : gmap (string * string) sourceState) : Prop :=
  forall key, source_ok maxSequences log key (default new_sourceState (sources !! key)).

Lemma index_ok_nil m : (0 < m)%Z -> index_ok m [] ∅.
Proof.
  intros M key. rewrite lookup_empty; cbn. split; cbn; try done; try lia.
  - intros s (r & [H _] & _). by apply elem_of_nil in H.
  - intros s. rewrite lookup_empty. split; [by intros []|]. by intros ?%elem_of_nil.
  - constructor.
Qed.

Lemma applied_snoc log r key x :
  applied (log ++ [r]) key x <-> applied log key x \/ (x = r /\ applies_sequence r = true /\ key_of r = key).
Proof. unfold applied. rewrite elem_of_app, list_elem_of_singleton. naive_solver. Qed.

Lemma applied_in_snoc log r key s :
  applied_in (log ++ [r]) key s <->
  applied_in log key s \/ (applies_sequence r = true /\ key_of r = key /\ r_SourceSequence r = s).
Proof. unfold applied_in. setoid_rewrite applied_snoc. naive_solver. Qed.

Lemma source_ok_other m log key st r :
  source_ok m log key st -> applies_sequence r = false \/ key_of r <> key -> source_ok m (log ++ [r]) key st.
Proof.
  intros [S1 S2 S3 S4 S5 S6 S7] O. split; try done.
  - intros s oc H. destruct (S1 s oc H) as (x & A & ?). exists x. split; [|done]. apply applied_snoc. by left.
  - intros s [A|(A & B & _)]%applied_in_snoc; [by apply S2|]. destruct O; congruence.
  - intros A. apply applied_in_snoc. left. by apply S3.
Qed.

(** Replacing the oldest entry of a full window. *)
Lemma insert_split (l : list N) (i : nat) (x : N) :
  (i < length l)%nat ->
  exists l1 l2, l = l1 ++ nth i l 0 :: l2 /\ <[i := x]> l = l1 ++ x :: l2.
Proof.
  intros Hi. destruct (lookup_lt_is_Some_2 l i Hi) as [y Hy].
  rewrite (nth_lookup_Some l i 0 y Hy). exists (take i l), (drop (S i) l).
  split; [by rewrite take_drop_middle|by apply insert_take_drop].
Qed.

Lemma evict_elem (l : list N) (i : nat) (x s : N) :
  NoDup l -> (i < length l)%nat -> x ∉ l ->
  s ∈ <[i := x]> l <-> s = x \/ (s ∈ l /\ s <> nth i l 0).
Proof.
  intros ND Hi Hx. destruct (insert_split l i x Hi) as (l1 & l2 & E & ->).
  revert E; generalize (nth i l 0); intros y ->.
  apply NoDup_app in ND as (N1 & N2 & [N3 _]%NoDup_cons). specialize (N2 s).
  rewrite !elem_of_app, !elem_of_cons in *. naive_solver.
Qed.

Lemma evict_nodup (l : list N) (i : nat) (x : N) : NoDup l -> x ∉ l -> NoDup (<[i := x]> l).
Proof.
  intros ND Hx. destruct (decide (i < length l)%nat) as [Hi|Hi]; [|by rewrite list_insert_ge by lia].
  destruct (insert_split l i x Hi) as (l1 & l2 & E & ->). rewrite E in ND, Hx.
  apply NoDup_app in ND as (N1 & N2 & [N3 N4]%NoDup_cons).
  rewrite elem_of_app, elem_of_cons in Hx. apply NoDup_app. split; [done|]. split.
  - intros z Hz [->|Hd]%elem_of_cons; [tauto|]. apply (N2 z Hz). by right.
  - constructor; [tauto|done].
Qed.

(** The window part of [state_index]. *)
Definition window_step (m : Z) (st : sourceState) (s : N) : sourceState :=
  match ss_seen st !! s with
  | Some _ => st
  | None =>
      if (Z.of_nat (length (ss_order st)) <? m)%Z
      then st <| ss_order := ss_order st ++ [s] |>
      else st <| ss_seen := delete (nth (ss_next st) (ss_order st) 0) (ss_seen st) |>
              <| ss_order := <[ss_next st := s]> (ss_order st) |>
              <| ss_next := (S (ss_next st) mod length (ss_order st))%nat |>
  end.

Lemma window_step_ok m log key st s :
  (0 < m)%Z -> source_ok m log key st ->
  let st' := window_step m st s in
  (forall k oc, ss_seen st' !! k = Some oc -> ss_seen st !! k = Some oc) /\
  (forall k, is_Some (<[s := mkOccurrence 0 []]> (ss_seen st') !! k) <-> k ∈ ss_order st') /\
  NoDup (ss_order st') /\ (Z.of_nat (length (ss_order st')) <= m)%Z /\
  (ss_next st' = 0%nat \/ (ss_next st' < length (ss_order st'))%nat) /\
  ss_hasMaximum st' = ss_hasMaximum st /\ ss_maximum st' = ss_maximum st.
Proof.
  intros M [_ _ _ S4 S5 S6 S7]. unfold window_step. destruct (ss_seen st !! s) as [oc0|] eqn:E.
  { split_and!; try done. intros k. rewrite lookup_insert_is_Some, S4.
    assert (s ∈ ss_order st) by (apply S4; by rewrite E). destruct (decide (s = k)); naive_solver. }
  assert (Hs : s ∉ ss_order st) by (intros H%S4; rewrite E in H; by destruct H).
  destruct (_ <? m)%Z eqn:B; cbn; to_prop.
  - split_and!; try done.
    + intros k. rewrite lookup_insert_is_Some, S4, elem_of_app, list_elem_of_singleton.
      destruct (decide (k = s)); naive_solver.
    + apply NoDup_app. split_and!; [done|by intros x Hx ->%list_elem_of_singleton|apply NoDup_singleton].
    + rewrite length_app; cbn. lia.
    + rewrite length_app. destruct S7; [by left|right; lia].
  - assert (Hi : (ss_next st < length (ss_order st))%nat) by (destruct S7 as [->|]; lia).
    split_and!; try done.
    + intros k oc. rewrite lookup_delete_Some. tauto.
    + intros k. rewrite lookup_insert_is_Some, lookup_delete_is_Some, S4, evict_elem by done.
      destruct (decide (k = s)) as [->|]; naive_solver.
    + by apply evict_nodup.
    + by rewrite length_insert.
    + right. rewrite length_insert. apply Nat.mod_upper_bound. lia.
Qed.

Lemma state_index_window m st r :
  state_index m st r =
  let st1 := window_step m st (r_SourceSequence r) in
  let st2 := st1 <| ss_seen := <[r_SourceSequence r := mkOccurrence (r_Cursor r) (sha256 (r_Payload r))]> (ss_seen st1) |> in
  if negb (ss_hasMaximum st2) || (ss_maximum st2 <? r_SourceSequence r)
  then st2 <| ss_hasMaximum := true |> <| ss_maximum := r_SourceSequence r |> else st2.
Proof. reflexivity. Qed.

Lemma state_index_ok m log key st r :
  (0 < m)%Z -> source_ok m log key st -> applies_sequence r = true -> key_of r = key ->
  source_ok m (log ++ [r]) key (state_index m st r).
Proof.
  intros M O A K. destruct (window_step_ok m log key st (r_SourceSequence r) M O)
    as (W1 & W2 & W3 & W4 & W5 & W6 & W7). destruct O as [S1 S2 S3 _ _ _ _].
  rewrite state_index_window. set (st1 := window_step m st (r_SourceSequence r)) in *.
  assert (Me : applied_in (log ++ [r]) key (r_SourceSequence r)).
  { apply applied_in_snoc. right. done. }
  assert (Old : forall s, applied_in log key s -> applied_in (log ++ [r]) key s).
  { intros s Hs. apply applied_in_snoc. by left. }
  assert (Seen : forall s oc,
    <[r_SourceSequence r := mkOccurrence (r_Cursor r) (sha256 (r_Payload r))]> (ss_seen st1) !! s = Some oc ->
    exists x, applied (log ++ [r]) key x /\ r_SourceSequence x = s /\
      oc = mkOccurrence (r_Cursor x) (sha256 (r_Payload x))).
  { intros s oc [[<- <-]|[_ H]]%lookup_insert_Some.
    - exists r. split; [|done]. apply applied_snoc. by right.
    - destruct (S1 s oc (W1 s oc H)) as (x & Ax & ?). exists x. split; [|done]. apply applied_snoc. by left. }
  assert (Dom : forall s, is_Some (<[r_SourceSequence r := mkOccurrence (r_Cursor r) (sha256 (r_Payload r))]> (ss_seen st1) !! s)
                  <-> s ∈ ss_order st1).
  { intros s. rewrite <-W2, !lookup_insert_is_Some. done. }
  cbn. rewrite W6, W7. destruct (negb (ss_hasMaximum st) || (ss_maximum st <? r_SourceSequence r)) eqn:C.
  - split; cbn; try done.
    + intros s [Hs|(_ & _ & <-)]%applied_in_snoc; [|split; [done|lia]]. destruct (S2 s Hs) as [Hm Hl].
      split; [done|]. rewrite Hm in C. cbn in C. to_prop. lia.
  - to_prop. destruct C as [Cm Cl].
    split; cbn; try done.
    + intros s [Hs|(_ & _ & <-)]%applied_in_snoc; [by apply S2|done].
    + intros _. by apply Old, S3.
Qed.

Lemma indexSourceRecord_ok m log l r :
  o_MaxSourceSequences (l_options l) = m -> (0 < m)%Z ->
  index_ok m log (l_sources l) -> index_ok m (log ++ [r]) (l_sources (indexSourceRecord l r)).
Proof.
  intros <- M I key. unfold indexSourceRecord. destruct (applies_sequence r) eqn:A; cbn.
  - destruct (decide (key_of r = key)) as [<-|K].
    + rewrite lookup_insert_eq; cbn. apply state_index_ok; done.
    + rewrite lookup_insert_ne by done. apply source_ok_other; [apply I|by right].
  - apply source_ok_other; [apply I|by left].
Qed.

Lemma indexSourceRecord_other l r :
  l_options (indexSourceRecord l r) = l_options l /\ l_segments (indexSourceRecord l r) = l_segments l /\
  l_active (indexSourceRecord l r) = l_active l /\ l_head (indexSourceRecord l r) = l_head l /\
  l_lastHash (indexSourceRecord l r) = l_lastHash l /\ l_repairs (indexSourceRecord l r) = l_repairs l /\
  l_failed (indexSourceRecord l r) = l_failed l /\ l_closed (indexSourceRecord l r) = l_closed l.
Proof. unfold indexSourceRecord. by destruct (negb _). Qed.

Lemma fold_index_ok m rs log l :
  o_MaxSourceSequences (l_options l) = m -> (0 < m)%Z -> index_ok m log (l_sources l) ->
  index_ok m (log ++ rs) (l_sources (fold_left indexSourceRecord rs l)).
Proof.
  revert log l; induction rs as [|r rs IH]; intros log l E M I; cbn [fold_left]; [by rewrite app_nil_r|].
  replace (log ++ r :: rs) with ((log ++ [r]) ++ rs) by (by rewrite <-app_assoc).
  apply IH; [|done|by apply indexSourceRecord_ok]. by destruct (indexSourceRecord_other l r) as (-> & _).
Qed.

Lemma fold_index_other rs l :
  let l' := fold_left indexSourceRecord rs l in
  l_options l' = l_options l /\ l_segments l' = l_segments l /\ l_active l' = l_active l /\
  l_head l' = l_head l /\ l_lastHash l' = l_lastHash l /\ l_repairs l' = l_repairs l /\
  l_failed l' = l_failed l /\ l_closed l' = l_closed l.
Proof.
  revert l; induction rs as [|r rs IH]; intros l; cbn [fold_left]; [done|].
  destruct (IH (indexSourceRecord l r)) as (-> & -> & -> & -> & -> & -> & -> & ->).
  apply indexSourceRecord_other.
Qed.

(** ** Source sequences of a log *)
Definition applied_sequences (log : list LedgerRecord) : list (string * string * N) :=
  map (fun r => (key_of r, r_SourceSequence r)) (List.filter applies_sequence log).

(** The sequence is applied, or declared missing by a sequence gap. *)
Definition accounted (log : list LedgerRecord) (key : string * string) (s : N) : Prop :=
  applied_in log key s \/
  exists r g, r ∈ log /\ r_Gap r = Some g /\ gap_Cause g = GapSourceSequence /\
    (gap_Source g, gap_SourceInstance g) = key /\ gap_FromSequence g <= s <= gap_ThroughSequence g.

Definition is_applied_for (key : string * string) (r : LedgerRecord) : bool :=
  applies_sequence r && bool_decide (key_of r = key).

Record good (log : list LedgerRecord) : Prop := {
  good_once : NoDup (applied_sequences log);
  good_covered : forall key first s hi,
    List.find (is_applied_for key) log = Some first -> applied_in log key hi ->
    r_SourceSequence first <= s <= hi -> accounted log key s }.

Lemma good_nil : good [].
Proof. split; [constructor|done]. Qed.

Lemma find_app {A} (f : A -> bool) l l' :
  List.find f (l ++ l') = match List.find f l with Some y => Some y | None => List.find f l' end.
Proof. induction l as [|y l IH]; cbn; [done|]. by destruct (f y). Qed.

Lemma accounted_snoc log r key s : accounted log key s -> accounted (log ++ [r]) key s.
Proof.
  intros [H|(x & g & Hx & H)]; [left; apply applied_in_snoc; by left|right].
  exists x, g. split; [apply elem_of_app; by left|done].
Qed.

Lemma good_snoc_other log r : good log -> applies_sequence r = false -> good (log ++ [r]).
Proof.
  intros [O C] A. split.
  - unfold applied_sequences. rewrite List.filter_app; cbn. by rewrite A, app_nil_r.
  - intros key first s hi F [H|(? & _)]%applied_in_snoc B; [|congruence].
    rewrite find_app in F. cbn [List.find] in F. unfold is_applied_for in F at 2. rewrite A in F; cbn in F.
    destruct (List.find _ log) eqn:E; [|done]. apply accounted_snoc. injection F as ->. by eapply C.
Qed.

Lemma applied_sequences_elem log key s : (key, s) ∈ applied_sequences log <-> applied_in log key s.
Proof.
  unfold applied_sequences, applied_in, applied. rewrite list_elem_of_In, in_map_iff.
  setoid_rewrite filter_In. setoid_rewrite list_elem_of_In. naive_solver.
Qed.

(** Applying a new sequence, beyond the highest only next to it or after a gap
    that declares what is missing. *)
Lemma good_snoc_new log r :
  good log -> applies_sequence r = true -> ~ applied_in log (key_of r) (r_SourceSequence r) ->
  (forall m, applied_in log (key_of r) m -> (forall s, applied_in log (key_of r) s -> s <= m) ->
     forall s, m < s < r_SourceSequence r -> accounted log (key_of r) s) ->
  (forall x, applied_in log (key_of r) x -> exists m, applied_in log (key_of r) m /\
     forall s, applied_in log (key_of r) s -> s <= m) ->
  good (log ++ [r]).
Proof.
  intros [O C] A New G Mx. split.
  - unfold applied_sequences. rewrite List.filter_app, map_app; cbn. rewrite A; cbn.
    apply NoDup_app. split_and!; [done| |apply NoDup_singleton].
    intros x Hx ->%list_elem_of_singleton. by apply applied_sequences_elem in Hx.
  - intros key first s hi F H B.
    rewrite find_app in F. cbn [List.find] in F. destruct (List.find _ log) as [f0|] eqn:E.
    + injection F as ->. apply applied_in_snoc in H as [H|(_ & K & <-)]; [by apply accounted_snoc; eapply C|].
      subst key.
      assert (A0 : applied_in log (key_of r) (r_SourceSequence first)).
      { apply find_some in E as [I E]. unfold is_applied_for in E. to_prop. destruct E as [E1 E2].
        exists first. split; [|done]. split; [by apply list_elem_of_In|done]. }
      destruct (Mx _ A0) as (m & Hm & Hu). destruct (N.le_gt_cases s m) as [L|L].
      { apply accounted_snoc. eapply C; [done|exact Hm|lia]. }
      destruct (N.eq_dec s (r_SourceSequence r)) as [->|Ne].
      * left. apply applied_in_snoc. right. done.
      * apply accounted_snoc. apply (G m Hm Hu). lia.
    + unfold is_applied_for in F at 1. destruct (applies_sequence r && _) eqn:T; [|done]. injection F as <-.
      to_prop. destruct T as [_ K]. subst key.
      apply applied_in_snoc in H as [(x & (I & Ax & Kx) & _)|(_ & _ & <-)].
      * apply list_elem_of_In in I. pose proof (find_none _ _ E x I) as Nf.
        unfold is_applied_for in Nf. rewrite Ax, bool_decide_eq_true_2 in Nf by done. done.
      * left. apply applied_in_snoc. right. split_and!; [done..|lia].
Qed.

(** Good logs do not depend on cursors and chain hashes. *)
Definition stored_as (r r' : LedgerRecord) : Prop :=
  exists c h, r' = r <| r_Cursor := c |> <| r_ChainHash := h |>.

Lemma stored_as_fields r r' :
  stored_as r r' -> applies_sequence r' = applies_sequence r /\ key_of r' = key_of r /\
  r_SourceSequence r' = r_SourceSequence r /\ r_Gap r' = r_Gap r /\ r_Payload r' = r_Payload r.
Proof. by intros (c & h & ->). Qed.

(** The maximum the index holds is the greatest applied sequence. *)
Lemma source_ok_greatest m log key st x :
  source_ok m log key st -> applied_in log key x ->
  applied_in log key (ss_maximum st) /\ forall s, applied_in log key s -> s <= ss_maximum st.
Proof.
  intros O A. destruct (so_max _ _ _ _ O _ A) as [H _]. split; [by apply (so_attained _ _ _ _ O)|].
  intros s Hs. by apply (so_max _ _ _ _ O).
Qed.

(** ** What an input turns into, as a function of the log *)
Definition occurrence_of (r : LedgerRecord) : sourceOccurrence := mkOccurrence (r_Cursor r) (sha256 (r_Payload r)).

(** The greatest sequence a source has applied. *)
Fixpoint greatest (key : string * string) (log : list LedgerRecord) : option N :=
  match log with
  | [] => None
  | r :: log =>
      if is_applied_for key r
      then Some (match greatest key log with Some m => N.max m (r_SourceSequence r) | None => r_SourceSequence r end)
      else greatest key log
  end.

(** An input is recorded as it is, as a duplicate of the record that applied
    its sequence, or after a gap that declares the sequences it skips. *)
Definition spec_plan (log : list LedgerRecord) (input : LedgerRecord) : list LedgerRecord * bool :=
  if negb (r_HasSourceSequence input) then ([input], false) else
  match List.find (matches_source (r_Source input) (r_SourceInstance input) (r_SourceSequence input)) log with
  | Some x => ([makeDuplicateRecord input (occurrence_of x)], true)
  | None =>
      match greatest (key_of input) log with
      | Some m => if m + 1 <? r_SourceSequence input
                  then ([makeSequenceGapRecord input (m + 1) (r_SourceSequence input - 1); input], false)
                  else ([input], false)
      | None => ([input], false)
      end
  end.

Lemma is_applied_for_spec key r : is_applied_for key r = true <-> applies_sequence r = true /\ key_of r = key.
Proof. unfold is_applied_for. by rewrite andb_true_iff, bool_decide_eq_true. Qed.

Lemma applied_in_cons r log key s :
  applied_in (r :: log) key s <-> (is_applied_for key r = true /\ r_SourceSequence r = s) \/ applied_in log key s.
Proof.
  rewrite is_applied_for_spec. unfold applied_in, applied. setoid_rewrite elem_of_cons. split.
  - intros (x & ([->|I] & A & K) & S); [by left|right; eauto].
  - intros [([A K] & S)|(x & (I & A & K) & S)]; [exists r|exists x]; tauto.
Qed.

Lemma greatest_spec key log :
  match greatest key log with
  | Some m => applied_in log key m /\ forall s, applied_in log key s -> s <= m
  | None => forall s, ~ applied_in log key s
  end.
Proof.
  induction log as [|r log IH]; cbn [greatest]; [intros s (x & [I _] & _); by apply elem_of_nil in I|].
  destruct (is_applied_for key r) eqn:A.
  - destruct (greatest key log) as [m|].
    + destruct IH as [I1 I2]. rewrite applied_in_cons. split.
      * destruct (N.max_spec m (r_SourceSequence r)) as [[_ ->]|[_ ->]]; tauto.
      * intros s. rewrite applied_in_cons. intros [[_ <-]|?%I2]; lia.
    + rewrite applied_in_cons. split; [by left|]. intros s. rewrite applied_in_cons. intros [[_ <-]|?]; [done|by destruct (IH s)].
  - destruct (greatest key log) as [m|].
    + destruct IH as [I1 I2]. rewrite applied_in_cons. split; [by right|]. intros s. rewrite applied_in_cons.
      intros [[? _]|?]; [congruence|by apply I2].
    + intros s. rewrite applied_in_cons. intros [[? _]|?]; [congruence|by destruct (IH s)].
Qed.

Lemma greatest_source m log key st :
  source_ok m log key st -> greatest key log = if ss_hasMaximum st then Some (ss_maximum st) else None.
Proof.
  intros O. pose proof (greatest_spec key log) as G. destruct (greatest key log) as [g|].
  - destruct G as [G1 G2]. destruct (so_max _ _ _ _ O _ G1) as [Hm L]. rewrite Hm. f_equal.
    pose proof (G2 _ (so_attained _ _ _ _ O Hm)). lia.
  - destruct (ss_hasMaximum st) eqn:Hm; [|done]. by destruct (G _ (so_attained _ _ _ _ O Hm)).
Qed.

Lemma find_applied log x :
  good log -> x ∈ log -> applies_sequence x = true ->
  List.find (matches_source (r_Source x) (r_SourceInstance x) (r_SourceSequence x)) log = Some x.
Proof.
  intros [N _]. revert N. unfold applied_sequences. induction log as [|y log IH]; intros N I A; [by apply elem_of_nil in I|].
  cbn [List.filter] in N. cbn [List.find]. destruct (matches_source _ _ _ y) eqn:M.
  - unfold matches_source in M. rewrite !andb_true_iff, !bool_decide_eq_true, N.eqb_eq in M. destruct M as [[[Ay S1] S2] S3].
    apply elem_of_cons in I as [->|I]; [done|exfalso]. rewrite Ay in N. cbn [map] in N. apply NoDup_cons in N as [N _].
    apply N. apply list_elem_of_fmap. exists x. unfold key_of. rewrite S1, S2, S3. split; [done|].
    apply list_elem_of_In, filter_In. split; [by apply list_elem_of_In|done].
  - apply elem_of_cons in I as [->|I].
    + unfold matches_source in M. by rewrite A, N.eqb_refl, !bool_decide_eq_true_2 in M.
    + apply IH; try done. destruct (applies_sequence y); [|done]. cbn [map] in N. by apply NoDup_cons in N as [_ ?].
Qed.
