(* ===== verification/LedgerRecovery.v ===== *)
(** * Opening the ledger

    What [Open] makes of a directory that holds a log and part of a batch in
    flight: it truncates an incomplete frame and adopts everything else, or
    fails because a file-system call failed and leaves a directory that holds
    the same log. *)
From S2P Require Import Prelude Sha256 GoStrings Utf8Facts Frames LedgerCodec Subscriptions Ledger LedgerDisk LedgerIndex.
Local Open Scope N_scope.

(** ** Equations of the monad *)
Lemma LM_get_bind {B} (k : Ledger -> LM B) w : (l_get ≫= k) w = k (lw_ledger w) w.
Proof. done. Qed.
Lemma LM_modify_bind {B} f (k : unit -> LM B) w :
  (l_modify f ≫= k) w = k tt (w <| lw_ledger := f (lw_ledger w) |>).
Proof. done. Qed.
Lemma LM_ret_bind {A B} (a : A) (k : A -> LM B) w : ((mret a : LM A) ≫= k) w = k a w.
Proof. done. Qed.
Lemma LM_guard_bind {B} b e (k : unit -> LM B) w :
  (l_guard b e ≫= k) w = if b then k tt w else (Err e, w).
Proof. by destruct b. Qed.
Lemma LM_lift_bind {A B} (r : res lerr A) (k : A -> LM B) w :
  (l_lift r ≫= k) w = match r with Ok a => k a w | Err e => (Err e, w) end.
Proof. by destruct r. Qed.
Lemma LM_bind_eq {A B} (m : LM A) (k : A -> LM B) w :
  (m ≫= k) w = match m w with (Ok a, w') => k a w' | (Err e, w') => (Err e, w') end.
Proof. done. Qed.

Ltac lm_simpl H :=
  repeat first
    [ rewrite LM_get_bind in H | rewrite LM_modify_bind in H | rewrite LM_ret_bind in H
    | rewrite LM_guard_bind in H | rewrite LM_lift_bind in H ]; cbv beta in H.

(** ** The log on disk *)

(** Every prefix of the log is good: a crash may cut it. *)
Definition sound (log : list LedgerRecord) : Prop := forall p, p `prefix_of` log -> good p.

Lemma sound_snoc log r : sound log -> good (log ++ [r]) -> sound (log ++ [r]).
Proof.
  intros S G p P. destruct (decide (length p <= length log)%nat) as [L|L].
  - apply S. destruct P as [k P]. exists (drop (length p) log).
    apply (f_equal (take (length p))) in P. rewrite take_app_length, take_app_le in P by lia.
    rewrite <-(take_drop (length p) log) at 1. by rewrite P.
  - destruct P as [k P]. pose proof (f_equal length P) as E. rewrite !length_app in E; cbn in E.
    assert (k = []) as -> by (destruct k; [done|cbn in E; lia]). rewrite app_nil_r in P. by subst.
Qed.

(** The files hold the log, of which [stable] is durable. *)
Definition disk_inv (max : N) (files : Files) (stable log : list LedgerRecord) : Prop :=
  sound log /\ exists sealed metas op,
    layout max files sealed metas op /\ stable = stable_of sealed op /\ log = log_of sealed op.

(** The active segment of a ledger in memory: none, an empty file left behind
    by a failed creation, or the open segment. *)
Inductive active_seg (max : N) (files : Files) (l : Ledger) (sealed : list chunk)
    (metas : list SegmentMetadata) : open_chunk -> Prop :=
| as_none : l_active l = None -> l_segments l = metas -> active_seg max files l sealed metas None
| as_stray :
    l_active l = None -> l_segments l = metas -> files !! open_name sealed = Some (clean_file []) ->
    active_seg max files l sealed metas (Some ([], []))
| as_open f stable loose b bl :
    l_active l = Some (length metas) ->
    l_segments l = metas ++ [meta_of (open_name sealed) (next_hash sealed) false (stable ++ loose) (length (b ++ bl))] ->
    files !! open_name sealed = Some f -> open_file max sealed f stable loose b bl [] ->
    active_seg max files l sealed metas (Some (stable, loose)).

Record view (o : Options) (l : Ledger) (log : list LedgerRecord) : Prop := {
  vw_options : l_options l = o;
  vw_head : l_head l = N.of_nat (length log);
  vw_hash : l_lastHash l = end_hash zero_chain log;
  vw_index : index_ok (o_MaxSourceSequences o) log (l_sources l) }.

(** The invariant of a ledger that has not failed. *)
Definition inv (o : Options) (files : Files) (l : Ledger) (stable log : list LedgerRecord) : Prop :=
  view o l log /\ sound log /\
  exists sealed metas op,
    layout (o_MaxFramePayload o) files sealed metas op /\
    active_seg (o_MaxFramePayload o) files l sealed metas op /\
    stable = stable_of sealed op /\ log = log_of sealed op.

Lemma inv_disk o files l stable log :
  inv o files l stable log -> disk_inv (o_MaxFramePayload o) files stable log.
Proof. intros (_ & G & sealed & metas & op & L & _ & E). split; [done|]. by exists sealed, metas, op. Qed.

Record options_ok (o : Options) : Prop := {
  ok_payload : o_MaxFramePayload o <> 0; ok_width : o_MaxFramePayload o < 4294967296;
  ok_sequences : (0 < o_MaxSourceSequences o)%Z; ok_segment : (0 < o_MaxSegmentBytes o)%Z }.

Lemma normalizeOptions_ok opts o :
  normalizeOptions opts = Ok o -> o_MaxFramePayload opts < 4294967296 -> options_ok o.
Proof.
  unfold normalizeOptions. intros E B. inv_res E. to_prop.
  destruct_and!.
  split; cbn; try lia. destruct (_ =? 0) eqn:Z; to_prop; lia.
Qed.

Lemma truncate_append b t d : file_truncate (length b) (mkFile (b ++ t) d) = mkFile b d.
Proof.
  unfold file_truncate; cbn. rewrite take_app_length, length_app.
  replace (length b - (length b + length t))%nat with 0%nat by lia. by rewrite app_nil_r.
Qed.

Section Recovery.
Context `{DiskEnv}.
Hypothesis reads_ok : forall n, io_read n = None.
Variable o : Options.
Hypothesis o_ok : options_ok o.
Let max := o_MaxFramePayload o.

Lemma flushIndexLocked_inv w r w' :
  flushIndexLocked w = (r, w') ->
  lw_files w' = lw_files w /\ (exists b, lw_ledger w' = (lw_ledger w) <| l_indexErr := b |>) /\
  (r = Ok tt \/ exists e, r = Err e /\ faulted e).
Proof.
  unfold flushIndexLocked. intros E. lm_simpl E. lm_step E; [|by apply attempt_inv in Hc as (? & ? & _)].
  apply attempt_inv in Hc as (out & [= ->] & Hc). lm_simpl E. unfold l_lift in E. injection E as <- <-.
  assert (I : idle w w0 /\ (out = Ok tt \/ exists e, out = Err e /\ faulted e)).
  { rename Hc into K. lm_step K; rename Hc into K1; unfold writeSegmentIndex in K1; lm_step K1.
    - unfold prim in K1. injection K1 as _ <-.
      destruct (fs_simple_inv _ _ _ _ Hc) as ([F1 L1] & _).
      destruct (fs_simple_inv _ _ _ _ K) as ([F2 L2] & R). split; [|done].
      split; [by rewrite F2|by rewrite L2].
    - done.
    - done.
    - destruct (fs_simple_inv _ _ _ _ Hc) as (I1 & [?|(? & [= ->] & ?)]); [done|].
      injection Hr0 as ->. subst. split; [done|]. right; eauto. }
  destruct I as [[F L] R]. split; [done|]. split; [|done]. eexists. by rewrite <-L.
Qed.

(** ** Adopting segments *)
Record stage (l : Ledger) (pre : list LedgerRecord) (metas : list SegmentMetadata) : Prop := {
  sg_view : view o l pre; sg_segments : l_segments l = metas; sg_active : l_active l = None;
  sg_failed : l_failed l = None; sg_closed : l_closed l = false }.

Lemma adopt_stage l pre metas path f rs b inc size :
  stage l pre metas ->
  framed max (end_hash zero_chain pre) (1 + N.of_nat (length pre)) rs b ->
  1 + N.of_nat (length (pre ++ rs)) < two64 ->
  let m := meta_of path (end_hash zero_chain pre) f rs (length b) in
  stage (adopt_segment (mkScanned m rs (length b) inc size) l) (pre ++ rs) (metas ++ [m]).
Proof.
  intros [[V1 V2 V3 V4] S A Fl Cl] F B m. rewrite length_app in B.
  unfold adopt_segment. cbn [sc_metadata sc_records].
  set (l1 := l <| l_segments := l_segments l ++ [m] |>).
  pose proof (fold_index_ok (o_MaxSourceSequences o) rs pre l1) as FI.
  pose proof (fold_index_other rs l1) as (E1 & E2 & E3 & E4 & E5 & E6 & E7 & E8).
  set (l2 := fold_left indexSourceRecord rs l1) in *. cbn in E1, E2, E3, E4, E5, E6, E7, E8.
  destruct (meta_of_fields path (end_hash zero_chain pre) f rs (length b)) as (_ & _ & Hc & _ & L); [lia|].
  fold m in Hc, L. rewrite Hc.
  assert (I2 : index_ok (o_MaxSourceSequences o) (pre ++ rs) (l_sources l2)).
  { apply FI; cbn; [by rewrite V1|by destruct o_ok|done]. }
  clear FI. clearbody l2. clear l1. clearbody m. destruct rs as [|x rs'].
  { change (0 <? N.of_nat (length [])) with false; cbv iota. rewrite app_nil_r in *.
    split; [split|..]; congruence || done. }
  destruct L as [L1 L2]; [done|].
  replace (0 <? N.of_nat (length (x :: rs'))) with true by (symmetry; apply N.ltb_lt; cbn [length]; lia).
  split; [split|..]; cbn; try (congruence || done).
  - rewrite L1. destruct (last (x :: rs')) as [z|] eqn:Z; [|apply last_None in Z; done].
    pose proof (framed_last _ _ _ _ _ _ F Z). cbn. rewrite length_app. lia.
  - by rewrite L2, end_hash_app.
Qed.

(** Scanning a segment without an incomplete frame. *)
Lemma scan_clean path c prev rs b w r w' :
  scanSegment path max c prev w = (r, w') -> lw_files w !! path = Some (clean_file b) ->
  framed max prev c rs b -> hash_ok prev -> c + N.of_nat (length rs) < two64 ->
  idle w w' /\
  (r = Ok (mkScanned (meta_of path prev (HasSuffix path ".seg") rs (length b)) rs (length b) false (length b))
   \/ exists e, r = Err e /\ faulted e).
Proof.
  intros E P F Hh B.
  destruct (scanSegment_inv reads_ok path max c prev (clean_file b) rs b [] w r w') as [I R]; try done.
  - by rewrite app_nil_r.
  - by left.
  - apply o_ok.
  - apply o_ok.
  - split; [done|]. rewrite app_nil_r in R. by rewrite bool_decide_eq_true_2 in R.
Qed.

Lemma open_sealed rest : forall pre ms metas opn w r w',
  sealed_ok (lw_files w) max (end_hash zero_chain pre) (1 + N.of_nat (length pre)) rest ms ->
  stage (lw_ledger w) pre metas -> hash_ok (end_hash zero_chain pre) ->
  1 + N.of_nat (length (pre ++ concat rest)) < two64 ->
  open_loop (seg_names (1 + N.of_nat (length pre)) rest ++ opn) (1 + N.of_nat (length pre))
    (end_hash zero_chain pre) w = (r, w') ->
  (exists e, r = Err e /\ faulted e /\ lw_files w' = lw_files w) \/
  (exists w1, lw_files w1 = lw_files w /\ stage (lw_ledger w1) (pre ++ concat rest) (metas ++ ms) /\
     open_loop opn (1 + N.of_nat (length (pre ++ concat rest))) (end_hash zero_chain (pre ++ concat rest)) w1 = (r, w')).
Proof.
  induction rest as [|rs rest IH]; intros pre [|m ms] metas opn w r w' S St Hh B E; try done.
  { cbn [concat seg_names app] in *. rewrite !app_nil_r in *. right. eauto. }
  cbn [sealed_ok] in S. destruct S as (Hr & (b & F & P & Hm) & S).
  cbn [seg_names app open_loop] in E. rewrite segmentName_open_suffix in E. cbn [negb andb] in E.
  lm_simpl E. rewrite (vw_options _ _ _ (sg_view _ _ _ St)) in E.
  cbn [concat] in B. rewrite app_assoc, length_app in B.
  lm_step E.
  2:{ subst r. destruct (scan_clean _ _ _ _ _ _ _ _ Hc P F Hh) as [I [?|(? & [= ->] & ?)]];
        [rewrite length_app in B; lia|done|]. left. eexists. split_and!; [done..|apply I]. }
  destruct (scan_clean _ _ _ _ _ _ _ _ Hc P F Hh) as [I [[= ->]|(? & ? & ?)]];
    [rewrite length_app in B; lia| |done].
  rewrite segmentName_seg_suffix in E. unfold repair_tail in E. cbn [sc_incompleteTail] in E.
  lm_simpl E.
  rewrite (scan_next_meta _ _ _ max) in E by (done || rewrite length_app in B; lia). lm_simpl E.
  replace (1 + N.of_nat (length pre) + N.of_nat (length rs)) with (1 + N.of_nat (length (pre ++ rs))) in *
    by (rewrite length_app; lia).
  rewrite <-end_hash_app in *.
  destruct I as [I1 I2].
  eapply (IH (pre ++ rs) ms (metas ++ [m])) in E.
  - destruct E as [(e & ? & ? & Ef)|(w1 & Ef & St1 & E)]; cbn in Ef.
    + left. exists e. split_and!; [done..|congruence].
    + right. exists w1. cbn [concat]. rewrite app_assoc. split_and!; [congruence| |done].
      by rewrite <-(app_assoc metas [m] ms) in St1.
  - cbn. rewrite I1. exact S.
  - cbn. rewrite I2, Hm. apply (adopt_stage _ _ _ _ _ _ _ _ _ St F). lia.
  - rewrite end_hash_app. by eapply framed_hash.
  - rewrite length_app. lia.
Qed.

(** ** The open segment *)

(** Replacing the open segment's file. *)
Lemma layout_replace files sealed metas op stable loose f b bl tail :
  layout max files sealed metas op -> is_Some op ->
  open_file max sealed f stable loose b bl tail ->
  N.of_nat (length (concat sealed ++ stable ++ loose)) + 1 < two64 ->
  layout max (<[open_name sealed := f]> files) sealed metas (Some (stable, loose)).
Proof.
  intros [L1 L2 L3 L4] [[s0 l0] ->] O B. split; [| | |done].
  - eapply sealed_ok_frame; [|exact L1]. intros k K1 K2. rewrite lookup_insert_ne; [done|].
    rewrite !length_app in B. unfold open_name, next_cursor.
    intros [_ ?]%segmentName_inj; try done; apply two64_ten20; lia.
  - exists f, b, bl, tail. by rewrite lookup_insert_eq.
  - intros name Hn. rewrite lookup_insert_is_Some, L3 by done.
    assert (open_name sealed ∈ all_names sealed (Some (s0, l0))) by (apply elem_of_app; right; by left).
    change (all_names sealed (Some (stable, loose))) with (all_names sealed (Some (s0, l0))).
    destruct (decide (open_name sealed = name)); naive_solver.
Qed.

Lemma truncateAndSync_inv path file size w r w' :
  truncateAndSync path size w = (r, w') -> lw_files w !! path = Some file ->
  lw_ledger w' = lw_ledger w /\
  (r = Ok tt /\ lw_files w' = <[path := file_sync (file_truncate size file)]> (lw_files w) \/
   (exists e, r = Err e /\ faulted e) /\
   (lw_files w' = lw_files w \/ lw_files w' = <[path := file_truncate size file]> (lw_files w))).
Proof.
  unfold truncateAndSync. intros E P. lm_step E.
  2:{ destruct (fs_open_inv _ _ _ _ _ Hc P) as [[I1 I2] [?|(? & [= ->] & ?)]]; [done|]. subst. split; [done|].
      right. split; [eauto|by left]. }
  destruct (fs_open_inv _ _ _ _ _ Hc P) as [[I1 I2] _]. clear Hc. rewrite <-I1 in P. lm_step E.
  2:{ destruct (fs_on_inv _ _ _ _ _ _ _ Hc P) as (L & [(? & [= ->] & F & ?)|[? _]]); [|done]. subst.
      split; [congruence|]. right. split; [eauto|left; congruence]. }
  destruct (fs_on_inv _ _ _ _ _ _ _ Hc P) as (L & [(? & ? & _)|[_ F]]); [done|]. clear Hc.
  assert (P1 : lw_files w1 !! path = Some (file_truncate size file)) by (by rewrite F, lookup_insert_eq).
  destruct (fs_on_inv _ _ _ _ _ _ _ E P1) as (L1 & [(? & -> & F1 & ?)|[-> F1]]).
  - split; [congruence|]. right. split; [eauto|right]. rewrite F1, F, I1. done.
  - split; [congruence|]. left. split; [done|]. rewrite F1, F, I1. by rewrite insert_insert_eq.
Qed.

Definition open_paths (sealed : list chunk) (op : open_chunk) : list string :=
  match op with Some _ => [open_name sealed] | None => [] end.

Lemma open_file_repaired sealed f stable loose b bl tail :
  open_file max sealed f stable loose b bl tail ->
  open_file max sealed (file_truncate (length (b ++ bl)) f) stable loose b bl [] /\
  open_file max sealed (file_sync (file_truncate (length (b ++ bl)) f)) (stable ++ loose) [] (b ++ bl) [] [].
Proof.
  intros (F1 & F2 & C & T & D). destruct f as [content durable]; cbn in C. subst content.
  rewrite app_assoc, truncate_append. split.
  - split_and!; try done; [by rewrite app_nil_r|by left].
  - split_and!; [by eapply framed_app|constructor|by cbn; rewrite !app_nil_r|by left|].
    exists []. cbn. rewrite app_nil_r. split; [done|by left].
Qed.

Lemma repair_tail_inv sealed f stable loose b bl tail m rs size w r w' :
  let scanned := mkScanned m rs (length (b ++ bl)) (negb (bool_decide (tail = []))) size in
  repair_tail (open_name sealed) true scanned w = (r, w') ->
  lw_files w !! open_name sealed = Some f -> open_file max sealed f stable loose b bl tail ->
  exists f', lw_files w' = <[open_name sealed := f']> (lw_files w) /\
  ((exists e, r = Err e /\ faulted e /\
     (open_file max sealed f' stable loose b bl tail \/ open_file max sealed f' stable loose b bl [])) \/
   (r = Ok tt /\ (exists repairs, lw_ledger w' = (lw_ledger w) <| l_repairs := repairs |>) /\
    exists stable' loose' b' bl', open_file max sealed f' stable' loose' b' bl' [] /\
      stable' ++ loose' = stable ++ loose /\ b' ++ bl' = b ++ bl /\ stable `prefix_of` stable')).
Proof.
  intros scanned E P O. unfold repair_tail in E. subst scanned. cbn [sc_incompleteTail sc_lastGoodOffset sc_fileSize] in E.
  destruct (bool_decide (tail = [])) eqn:Bt; cbn [negb] in E.
  { apply bool_decide_eq_true in Bt as ->. unfold mret, LM_ret in E. injection E as <- <-.
    exists f. split; [by rewrite insert_id|]. right. split; [done|]. split; [by exists (l_repairs (lw_ledger w)); destruct w as [? ? ? []]|].
    by exists stable, loose, b, bl. }
  lm_simpl E. destruct (open_file_repaired _ _ _ _ _ _ _ O) as [R1 R2].
  lm_step E.
  - destruct (truncateAndSync_inv _ _ _ _ _ _ Hc P) as (L & [[_ F]|[(? & ? & _) _]]); [|done].
    unfold l_modify in E. injection E as <- <-. eexists. split; [exact F|]. right. split; [done|].
    split; [eexists; cbn; by rewrite L|]. eexists _, _, _, _. split; [exact R2|].
    rewrite !app_nil_r. split_and!; [done..|]. by apply prefix_app_r.
  - destruct (truncateAndSync_inv _ _ _ _ _ _ Hc P) as (L & [[? _]|[(? & [= ->] & ?) [F|F]]]); [done|..]; subst r.
    + exists f. split; [by rewrite insert_id|]. left. eauto.
    + eexists. split; [exact F|]. left. eauto.
Qed.

(** The log of the files with a new open segment. *)
Lemma disk_replace files sealed metas stable loose f' s' l' b' bl' tail' :
  layout max files sealed metas (Some (stable, loose)) -> sound (log_of sealed (Some (stable, loose))) ->
  open_file max sealed f' s' l' b' bl' tail' -> s' ++ l' = stable ++ loose ->
  disk_inv max (<[open_name sealed := f']> files) (concat sealed ++ s') (log_of sealed (Some (stable, loose))).
Proof.
  intros L S O E. split; [done|]. exists sealed, metas, (Some (s', l')).
  pose proof (lay_bound _ _ _ _ _ L) as B. unfold log_of in *. rewrite <-E in *.
  split_and!; [|done..]. by eapply layout_replace.
Qed.

Lemma inv_replace files sealed metas stable loose f' s' l' b' bl' l :
  layout max files sealed metas (Some (stable, loose)) -> sound (log_of sealed (Some (stable, loose))) ->
  open_file max sealed f' s' l' b' bl' [] -> s' ++ l' = stable ++ loose ->
  view o l (log_of sealed (Some (stable, loose))) -> l_active l = Some (length metas) ->
  l_segments l = metas ++ [meta_of (open_name sealed) (next_hash sealed) false (stable ++ loose) (length (b' ++ bl'))] ->
  inv o (<[open_name sealed := f']> files) l (concat sealed ++ s') (log_of sealed (Some (stable, loose))).
Proof.
  intros L S O E V A Sg. split; [done|]. split; [done|]. exists sealed, metas, (Some (s', l')).
  pose proof (lay_bound _ _ _ _ _ L) as B. unfold log_of in *. rewrite <-E in *.
  split_and!; [by eapply layout_replace| |done..].
  eapply as_open; [done|done|apply lookup_insert_eq|done].
Qed.

(** The outcome of opening: the same log, of which more may be durable. *)
Definition opened (stable log : list LedgerRecord) (r : res lerr unit) (w' : LWorld) : Prop :=
  exists stable', stable `prefix_of` stable' /\
  ((exists e, r = Err e /\ faulted e /\ disk_inv max (lw_files w') stable' log) \/
   (r = Ok tt /\ l_failed (lw_ledger w') = None /\ l_closed (lw_ledger w') = false /\
    inv o (lw_files w') (lw_ledger w') stable' log)).

(** After the scan: repair, adopt and reopen the segment. *)
Lemma open_adopt sealed metas f stable loose b bl tail w r w' :
  layout max (lw_files w) sealed metas (Some (stable, loose)) -> sound (log_of sealed (Some (stable, loose))) ->
  stage (lw_ledger w) (concat sealed) metas ->
  lw_files w !! open_name sealed = Some f -> open_file max sealed f stable loose b bl tail ->
  let scanned := mkScanned (meta_of (open_name sealed) (next_hash sealed) false (stable ++ loose) (length (b ++ bl)))
    (stable ++ loose) (length (b ++ bl)) (negb (bool_decide (tail = []))) (length ((b ++ bl) ++ tail)) in
  (_ ← repair_tail (open_name sealed) true scanned;
   _ ← l_modify (adopt_segment scanned);
   _ ← fs_open (open_name sealed);
   l_modify (fun l => l <| l_active := Some (length (l_segments l) - 1)%nat |>)) w = (r, w') ->
  opened (stable_of sealed (Some (stable, loose))) (log_of sealed (Some (stable, loose))) r w'.
Proof.
  intros L S St P O scanned E. pose proof O as (F1 & F2 & _).
  assert (F12 : framed max (next_hash sealed) (next_cursor sealed) (stable ++ loose) (b ++ bl))
    by (by eapply framed_app).
  pose proof (lay_bound _ _ _ _ _ L) as B. unfold log_of in B. rewrite length_app in B.
  lm_step E.
  2:{ destruct (repair_tail_inv _ _ _ _ _ _ _ _ _ _ _ _ _ Hc P O) as (f' & Ff & [(? & [= ->] & Fe & Of)|(? & _)]); [|done].
      subst r. exists (stable_of sealed (Some (stable, loose))). split; [done|]. left. eexists. rewrite Ff. split_and!; [done..|].
      destruct Of; by eapply disk_replace. }
  destruct (repair_tail_inv _ _ _ _ _ _ _ _ _ _ _ _ _ Hc P O)
    as (f' & Ff & [(? & ? & _)|(_ & (reps & Hl) & s' & l' & b' & bl' & Of & Es & Eb & Ps)]); [done|]. clear Hc.
  lm_simpl E.
  assert (St1 : stage (lw_ledger w0) (concat sealed) metas) by (rewrite Hl; destruct St as [[] ? ? ? ?]; done).
  pose proof (adopt_stage _ _ _ (open_name sealed) false _ _ (negb (bool_decide (tail = []))) (length ((b ++ bl) ++ tail)) St1 F12) as St2.
  fold (next_hash sealed) in St2. cbv zeta in St2. rewrite length_app in St2. specialize (St2 ltac:(lia)).
  fold scanned in St2. set (l2 := adopt_segment scanned (lw_ledger w0)) in *. clearbody l2.
  exists (concat sealed ++ s'). split; [by apply prefix_app|].
  assert (P1 : lw_files (w0 <| lw_ledger := l2 |>) !! open_name sealed = Some f') by (cbn; by rewrite Ff, lookup_insert_eq).
  lm_step E.
  2:{ destruct (fs_open_inv _ _ _ _ _ Hc P1) as [[I1 I2] [?|(? & [= ->] & ?)]]; [done|]. subst r. left. eexists.
      split_and!; [done..|]. rewrite I1. cbn. rewrite Ff. by eapply disk_replace. }
  destruct (fs_open_inv _ _ _ _ _ Hc P1) as [[I1 I2] _]. unfold l_modify in E. injection E as <- <-.
  right. cbn in I1, I2 |- *. rewrite I1, I2. destruct St2 as [[V1 V2 V3 V4] Sg A Fl Cl]. cbn.
  split_and!; [done..|]. rewrite Ff. eapply inv_replace; try done; cbn.
  - rewrite Sg, length_app; cbn. do 2 f_equal. lia.
  - by rewrite Sg, Eb.
Qed.

Lemma open_tail sealed metas op w r w' :
  layout max (lw_files w) sealed metas op -> sound (log_of sealed op) ->
  stage (lw_ledger w) (concat sealed) metas ->
  open_loop (open_paths sealed op) (next_cursor sealed) (next_hash sealed) w = (r, w') ->
  opened (stable_of sealed op) (log_of sealed op) r w'.
Proof.
  intros L S St E. destruct op as [[stable loose]|].
  2:{ cbn in E. injection E as <- <-. destruct St as [V Sg A Fl Cl]. eexists. split; [done|]. right.
      split_and!; try done. unfold stable_of, log_of in *. rewrite app_nil_r in *.
      split; [done|]. split; [done|]. exists sealed, metas, None.
      split_and!; [done|by constructor|by unfold stable_of; rewrite app_nil_r|by unfold log_of; rewrite app_nil_r]. }
  pose proof L as [L1 (f & b & bl & tail & P & O) _ L4].
  pose proof O as (F1 & F2 & C & T & D).
  assert (F12 : framed max (next_hash sealed) (next_cursor sealed) (stable ++ loose) (b ++ bl))
    by (by eapply framed_app).
  unfold log_of in L4. rewrite length_app in L4. rewrite app_assoc in C.
  assert (B12 : next_cursor sealed + N.of_nat (length (stable ++ loose)) < two64) by (unfold next_cursor; lia).
  unfold open_paths in E. cbn [open_loop] in E.
  assert (Sx : HasSuffix (open_name sealed) ".open" = true) by apply (segmentName_open_suffix (next_cursor sealed) false).
  assert (Sy : HasSuffix (open_name sealed) ".seg" = false) by apply (segmentName_seg_suffix (next_cursor sealed) false).
  rewrite Sx, bool_decide_eq_true_2 in E by done. cbn [negb andb] in E. lm_simpl E.
  rewrite (vw_options _ _ _ (sg_view _ _ _ St)) in E.
  pose proof (next_hash_ok _ _ _ _ L1) as Hh.
  lm_step E; destruct (scanSegment_inv reads_ok _ _ _ _ _ _ (b ++ bl) tail _ _ _ Hc P C F12 T)
    as [[I1 I2] R]; try done; try apply o_ok.
  2:{ destruct R as [?|(? & [= ->] & ?)]; [done|]. subst r. exists (stable_of sealed (Some (stable, loose))).
      split; [done|]. left. eexists. split_and!; [done..|]. rewrite I1. split; [done|].
      by exists sealed, metas, (Some (stable, loose)). }
  destruct R as [[= ->]|(? & ? & ?)]; [|done]. clear Hc. rewrite Sy in E.
  apply (open_adopt sealed metas f stable loose b bl tail w0); [by rewrite I1|done|by rewrite I2|by rewrite I1|done|].
  rewrite <-E. rewrite !LM_bind_eq. destruct (repair_tail _ _ _ w0) as [[[]|e] w1]; [|done].
  rewrite !LM_modify_bind, !LM_bind_eq. rewrite (scan_next_meta _ _ _ max) by done.
  rewrite !LM_bind_eq. destruct (fs_open _ _) as [[[]|e] w2]; done.
Qed.

(** ** Discovery *)
Lemma seg_names_not_open c sealed : Forall (fun name => HasSuffix name ".open" = false) (seg_names c sealed).
Proof.
  revert c; induction sealed as [|rs rest IH]; intros c; cbn [seg_names]; constructor; [|done].
  apply (segmentName_open_suffix c true).
Qed.

Lemma all_names_segments sealed op : Forall (fun name => is_segment_name name = true) (all_names sealed op).
Proof.
  unfold all_names. apply Forall_app. split.
  - generalize 1%N. induction sealed as [|rs rest IH]; intros c; cbn [seg_names]; constructor; [|done].
    apply (segmentName_is_segment c true).
  - destruct op; constructor; [|constructor]. apply (segmentName_is_segment _ false).
Qed.

Lemma layout_names files sealed metas op :
  layout max files sealed metas op ->
  let paths := filter (fun name => is_segment_name name = true) (elements (dom files)) in
  sort_Strings paths = all_names sealed op /\
  (length (filter (fun name => HasSuffix name ".open" = true) paths) <= 1)%nat.
Proof.
  intros [L1 _ L3 L4] paths.
  assert (ND : NoDup paths) by (apply NoDup_filter, NoDup_elements).
  destruct (all_names_sorted sealed op) as [Srt ND']; [by eapply sealed_ok_nonempty| |].
  { unfold log_of in L4. rewrite length_app in L4. lia. }
  assert (El : forall x, x ∈ paths <-> x ∈ all_names sealed op).
  { intros x. unfold paths. rewrite list_elem_of_filter, elem_of_elements, elem_of_dom. split.
    - intros [Hx Hs]. by apply L3.
    - intros Hx. pose proof (all_names_segments sealed op) as Fa. rewrite Forall_forall in Fa.
      split; [by apply Fa|]. apply L3; [by apply Fa|done]. }
  split.
  - apply sorted_unique; [apply sort_Strings_sorted|done|by rewrite sort_Strings_Permutation|done|].
    intros x. by rewrite sort_Strings_Permutation.
  - assert (Pm : paths ≡ₚ all_names sealed op) by (by apply NoDup_Permutation).
    rewrite Pm. unfold all_names. rewrite filter_app, length_app.
    assert (Z : filter (fun name => HasSuffix name ".open" = true) (seg_names 1 sealed) = []).
    { pose proof (seg_names_not_open 1 sealed) as Fn. induction Fn as [|x l Hx Hl IH]; [done|].
      rewrite filter_cons_False; [done|congruence]. }
    rewrite Z. cbn [length Nat.add]. destruct op; [|cbn; lia]. etransitivity; [apply length_filter|cbn; lia].
Qed.

Lemma discoverSegmentPaths_inv sealed metas op w r w' :
  layout max (lw_files w) sealed metas op -> discoverSegmentPaths w = (r, w') ->
  idle w w' /\ (r = Ok (all_names sealed op) \/ exists e, r = Err e /\ faulted e).
Proof.
  intros L E. unfold discoverSegmentPaths in E. lm_step E.
  - destruct (fs_simple_inv _ _ _ _ Hc) as [[I1 I2] _]. unfold prim in E. rewrite I1 in E.
    destruct (layout_names _ _ _ _ L) as [Es Ec]. cbv zeta in Es, Ec.
    destruct (1 <? _)%nat eqn:B; [apply Nat.ltb_lt in B; lia|]. rewrite Es in E. injection E as <- <-.
    split; [by split|by left].
  - destruct (fs_simple_inv _ _ _ _ Hc) as [I [?|(? & [= ->] & ?)]]; [done|]. subst. split; [done|right; eauto].
Qed.

Lemma new_ledger_stage : stage (new_ledger o) [] [].
Proof. split; try done. split; try done. apply index_ok_nil, o_ok. Qed.

(** [Open] on a directory that holds a log. *)
Lemma Open_inv opts stable log w r w' :
  normalizeOptions opts = Ok o -> disk_inv max (lw_files w) stable log -> Open opts w = (r, w') ->
  exists stable', stable `prefix_of` stable' /\
  ((exists e, r = Err e /\ faulted e /\ disk_inv max (lw_files w') stable' log) \/
   (exists report, r = Ok report /\ l_failed (lw_ledger w') = None /\ l_closed (lw_ledger w') = false /\
    inv o (lw_files w') (lw_ledger w') stable' log)).
Proof.
  intros No D E. pose proof D as (S & sealed & metas & op & L & -> & ->).
  assert (Same : forall w1, lw_files w1 = lw_files w -> disk_inv max (lw_files w1) (stable_of sealed op) (log_of sealed op))
    by (by intros w1 ->).
  unfold Open in E. rewrite No in E. lm_simpl E. lm_step E.
  2:{ destruct (fs_simple_inv _ _ _ _ Hc) as [[I1 _] [?|(? & [= ->] & ?)]]; [done|]. subst. eexists. split; [done|]. left. eauto. }
  destruct (fs_simple_inv _ _ _ _ Hc) as [[I1 _] _]. clear Hc. lm_simpl E. cbn [lw_ledger set] in E.
  lm_step E; apply (discoverSegmentPaths_inv sealed metas op) in Hc as [[J1 J2] R];
    try (by cbn; rewrite I1); cbn in J1, J2.
  2:{ destruct R as [?|(? & [= ->] & ?)]; [done|]. subst. eexists. split; [done|]. left. eexists.
      split_and!; [done..|]. apply Same. congruence. }
  destruct R as [[= ->]|(? & ? & ?)]; [|done].
  assert (Lp : open_loop (all_names sealed op) 1 zero_chain w1 = open_loop (all_names sealed op) 1 zero_chain w1) by done.
  destruct (open_loop (all_names sealed op) 1 zero_chain w1) as [ro wo] eqn:Eo. clear Lp.
  assert (Oo : opened (stable_of sealed op) (log_of sealed op) ro wo).
  { apply (open_sealed sealed [] metas [] (open_paths sealed op)) in Eo;
      [|rewrite J1, I1; apply L|rewrite J2; apply new_ledger_stage|apply zero_chain_ok|].
    - destruct Eo as [(e & -> & Fe & Ef)|(w2 & Ef & St & Eo)].
      + eexists. split; [done|]. left. eexists. split_and!; [done..|]. apply Same. congruence.
      + apply (open_tail sealed metas op w2); try done. by rewrite Ef, J1, I1.
    - pose proof (lay_bound _ _ _ _ _ L) as B. unfold log_of in B. rewrite length_app in B. cbn [app]. lia. }
  clear J1 J2 I1 D. rewrite LM_bind_eq, Eo in E.
  destruct Oo as (stable' & Pr & [(e & -> & Fe & Dk)|(-> & Fl & Cl & Iv)]).
  { injection E as <- <-. exists stable'. split; [done|]. left. eauto. }
  exists stable'. split; [done|]. lm_step E; destruct (flushIndexLocked_inv _ _ _ Hc) as (F1 & (ib & F2) & R).
  - right. lm_simpl E. unfold mret, LM_ret in E. injection E as <- <-. rewrite F1, F2. cbn.
    eexists. split_and!; [done..|]. destruct Iv as ([] & Sd & s & m & p & Ly & As & ?).
    split; [done|]. split; [done|]. exists s, m, p. split_and!; try done; [|tauto..].
    destruct As; econstructor; try done.
  - destruct R as [?|(? & [= ->] & ?)]; [done|]. subst r. left. eexists. split_and!; [done..|].
    rewrite F1. by eapply inv_disk.
Qed.
End Recovery.
