(* ===== verification/LedgerAppend.v ===== *)
(** * Appending to the ledger

    What rotation, segment creation and a batch write with its rollback do to a
    ledger that satisfies the invariant, whichever of their file-system calls
    fail. *)
From S2P Require Import Prelude Sha256 GoStrings Utf8Facts Frames LedgerCodec Subscriptions Ledger LedgerDisk LedgerIndex LedgerRecovery.
Local Open Scope N_scope.

(** ** Encoding a batch *)
Definition input_ok (r : LedgerRecord) : Prop := record_wf r /\ validateRecordShape r = Ok tt.

Lemma input_ok_stored r c h : input_ok r -> c < two64 -> input_ok (r <| r_Cursor := c |> <| r_ChainHash := h |>).
Proof. intros [[] V] C. split; [by split|exact V]. Qed.

Lemma encode_batch_framed o head records : forall index prev enc stored bytes,
  encode_batch o head index prev enc records = Ok (stored, bytes) ->
  Forall input_ok records -> head + index + N.of_nat (length records) + 1 < two64 ->
  framed (o_MaxFramePayload o) prev (head + index + 1) stored bytes /\
  Forall2 stored_as records stored.
Proof.
  induction records as [|r rs IH]; intros index prev enc stored bytes E Hv B; cbn [encode_batch] in E.
  { injection E as <- <-. split; constructor. }
  apply Forall_cons in Hv as [Hr Hv]. cbn [length] in B.
  rewrite (u64_small (head + index)), u64_small in E by lia.
  apply res_bind_ok in E as ([wire h] & M & E).
  destruct (Marshal _ _) as [frame|] eqn:F; [|done]. destruct (_ <? _)%Z; [done|].
  apply res_bind_ok in E as ([st by_] & E & Eq). injection Eq as <- <-.
  apply IH in E as [F1 F2]; [|done|lia].
  destruct (input_ok_stored r (head + index + 1) h Hr) as [W V]; [lia|]. split.
  - eapply framed_cons; [exact W|exact V|done|lia|exact M|exact F|].
    by replace (head + index + 1 + 1) with (head + (index + 1) + 1) by lia.
  - constructor; [|done]. by eexists _, _.
Qed.

Lemma Forall2_stored_length rs stored : Forall2 stored_as rs stored -> length stored = length rs.
Proof. intros F%Forall2_length. done. Qed.

(** ** Outcomes *)
Section Append.
Context `{DiskEnv}.
Hypothesis reads_ok : forall n, io_read n = None.
Variable o : Options.
Hypothesis o_ok : options_ok o.
Let max := o_MaxFramePayload o.

(** The ledger still satisfies the invariant with the same log, or it has
    failed and the files hold a log that extends it. *)
Definition kept (stable log : list LedgerRecord) (w' : LWorld) : Prop :=
  exists stable' log', stable `prefix_of` stable' /\ log `prefix_of` log' /\
  ((l_failed (lw_ledger w') = None /\ log' = log /\ inv o (lw_files w') (lw_ledger w') stable' log) \/
   (is_Some (l_failed (lw_ledger w')) /\ disk_inv max (lw_files w') stable' log')).

(** The fields of the ledger the invariant speaks about. *)
Definition same_core (l l' : Ledger) : Prop :=
  l_options l' = l_options l /\ l_segments l' = l_segments l /\ l_active l' = l_active l /\
  l_head l' = l_head l /\ l_lastHash l' = l_lastHash l /\ l_sources l' = l_sources l.

Lemma inv_same_core files l l' stable log :
  same_core l l' -> inv o files l stable log -> inv o files l' stable log.
Proof.
  intros (E1 & E2 & E3 & E4 & E5 & E6) ([V1 V2 V3 V4] & S & sealed & metas & op & L & A & Hs).
  split; [split; congruence || by rewrite E6|]. split; [done|].
  exists sealed, metas, op. split; [done|]. split; [|done].
  destruct A; [apply as_none|apply as_stray|eapply as_open]; rewrite ?E2, ?E3; eauto.
Qed.

Lemma kept_idle files stable log w' l :
  inv o files l stable log -> lw_files w' = files -> same_core l (lw_ledger w') ->
  l_failed (lw_ledger w') = None -> kept stable log w'.
Proof.
  intros I F C Fl. exists stable, log. split_and!; [done..|]. left. split_and!; [done..|].
  rewrite F. by eapply inv_same_core.
Qed.

Lemma kept_failed files stable log w' l :
  inv o files l stable log -> lw_files w' = files -> is_Some (l_failed (lw_ledger w')) -> kept stable log w'.
Proof.
  intros I F Fl. exists stable, log. split_and!; [done..|]. right. split; [done|].
  rewrite F. by eapply inv_disk.
Qed.

Lemma active_metadata_open l metas m :
  l_segments l = metas ++ [m] -> active_metadata l (length metas) = m.
Proof. intros E. unfold active_metadata. rewrite E, lookup_app_r, Nat.sub_diag by lia. done. Qed.

(** The open segment has been synced. *)
Lemma open_file_sync sealed f stable loose b bl :
  open_file max sealed f stable loose b bl [] ->
  file_sync f = clean_file (b ++ bl) /\
  open_file max sealed (clean_file (b ++ bl)) (stable ++ loose) [] (b ++ bl) [] [].
Proof.
  intros (F1 & F2 & C & T & D). rewrite app_nil_r in C. split; [by unfold file_sync; rewrite C|].
  split_and!; [by eapply framed_app|constructor|by cbn; rewrite !app_nil_r|by left|].
  exists []. cbn. rewrite app_nil_r. split; [done|by left].
Qed.

Lemma sync_inv files l sealed metas f stable loose b bl :
  view o l (log_of sealed (Some (stable, loose))) -> sound (log_of sealed (Some (stable, loose))) ->
  layout max files sealed metas (Some (stable, loose)) ->
  l_active l = Some (length metas) ->
  l_segments l = metas ++ [meta_of (open_name sealed) (next_hash sealed) false (stable ++ loose) (length (b ++ bl))] ->
  open_file max sealed f stable loose b bl [] ->
  inv o (<[open_name sealed := file_sync f]> files) l (log_of sealed (Some (stable, loose)))
    (log_of sealed (Some (stable, loose))).
Proof.
  intros V S L A Sg O. destruct (open_file_sync _ _ _ _ _ _ O) as [-> O'].
  pose proof (inv_replace o files sealed metas stable loose _ _ _ _ _ l L S O') as I.
  rewrite !app_nil_r in I. by apply I.
Qed.

(** ** Finalizing the active segment *)
Lemma finalize_layout files sealed metas stable loose b :
  layout max files sealed metas (Some (stable, loose)) -> stable ++ loose <> [] ->
  framed max (next_hash sealed) (next_cursor sealed) (stable ++ loose) b ->
  layout max (<[segmentName (next_cursor sealed) true := clean_file b]> (delete (open_name sealed) files))
    (sealed ++ [stable ++ loose])
    (metas ++ [meta_of (segmentName (next_cursor sealed) true) (next_hash sealed) true (stable ++ loose) (length b)])
    None.
Proof.
  intros [L1 L2 L3 L4] Ne F. unfold log_of in L4. rewrite length_app in L4.
  assert (Bc : next_cursor sealed < ten20) by (apply two64_ten20; unfold next_cursor; lia).
  split.
  - apply (sealed_ok_snoc _ _ _ _ _ _ _ b); [|done..|apply lookup_insert_eq|done].
    eapply sealed_ok_frame; [|exact L1]. intros k K1 K2.
    assert (Bk : k < ten20) by (apply two64_ten20; lia).
    rewrite lookup_insert_ne, lookup_delete_ne; [done|..]; unfold open_name;
      intros [? ?]%segmentName_inj; try done. unfold next_cursor in *. lia.
  - done.
  - intros name Hn. unfold all_names. rewrite app_nil_r, seg_names_snoc. fold (next_cursor sealed).
    rewrite elem_of_app, list_elem_of_singleton, lookup_insert_is_Some, lookup_delete_is_Some, L3 by done.
    unfold all_names. rewrite elem_of_app, list_elem_of_singleton.
    assert (Nx : open_name sealed ∉ seg_names 1 sealed).
    { intros Hx. apply seg_names_elem in Hx as (k & Ek & K1 & K2); [|by eapply sealed_ok_nonempty].
      unfold open_name in Ek. apply segmentName_inj in Ek as [_ ?]; [done|done|apply two64_ten20; lia]. }
    destruct (decide (segmentName (next_cursor sealed) true = name)) as [<-|]; [naive_solver|].
    destruct (decide (name = open_name sealed)) as [->|]; naive_solver.
  - unfold log_of. rewrite app_nil_r, concat_app, length_app. cbn [concat]. rewrite app_nil_r. lia.
Qed.

Lemma finalized_inv files l sealed metas f st ls b bl :
  view o l (log_of sealed (Some (st, ls))) -> sound (log_of sealed (Some (st, ls))) ->
  layout max files sealed metas (Some (st, ls)) -> st ++ ls <> [] ->
  l_segments l = metas ++ [meta_of (open_name sealed) (next_hash sealed) false (st ++ ls) (length (b ++ bl))] ->
  open_file max sealed f st ls b bl [] ->
  let m := meta_of (open_name sealed) (next_hash sealed) false (st ++ ls) (length (b ++ bl)) in
  let name := TrimSuffix (open_name sealed) ".open" +:+ ".seg" in
  inv o (<[segmentName (next_cursor sealed) true := clean_file (b ++ bl)]> (delete (open_name sealed) files))
    ((set_segment (length metas) (m <| sm_Path := name |> <| sm_Finalized := true |>) l) <| l_active := None |>)
    (log_of sealed (Some (st, ls))) (log_of sealed (Some (st, ls))).
Proof.
  intros V S L Ns Sg (F1 & F2 & _) m name.
  assert (Em : m <| sm_Path := name |> <| sm_Finalized := true |> =
    meta_of (segmentName (next_cursor sealed) true) (next_hash sealed) true (st ++ ls) (length (b ++ bl))).
  { subst m name. rewrite meta_of_finalize. unfold open_name. by rewrite segmentName_finalized. }
  rewrite Em. clear m name Em.
  pose proof (finalize_layout _ _ _ _ _ (b ++ bl) L Ns (framed_app _ _ _ _ _ _ _ F1 F2)) as L'.
  assert (Lg : log_of (sealed ++ [st ++ ls]) None = log_of sealed (Some (st, ls))).
  { unfold log_of. by rewrite concat_app, !app_nil_r; cbn; rewrite app_nil_r. }
  split; [by destruct V; split|]. split; [done|]. eexists _, _, None. split; [exact L'|].
  split; [|split; symmetry; exact Lg]. apply as_none; [done|].
  cbn [l_segments set_segment set]. rewrite Sg, insert_app_r_alt, Nat.sub_diag by lia.
  done.
Qed.

Definition nonempty_active (l : Ledger) : Prop :=
  forall i, l_active l = Some i -> sm_FrameCount (active_metadata l i) <> 0.

Lemma finalizeActiveLocked_inv stable log w r w' :
  inv o (lw_files w) (lw_ledger w) stable log -> l_failed (lw_ledger w) = None ->
  nonempty_active (lw_ledger w) ->
  finalizeActiveLocked w = (r, w') ->
  kept stable log w' /\ (r = Ok tt -> l_failed (lw_ledger w') = None /\ l_active (lw_ledger w') = None).
Proof.
  intros I Fl Ne E. pose proof I as (V & S & sealed & metas & op & L & A & -> & ->).
  unfold finalizeActiveLocked in E. lm_simpl E. destruct A as [A Sg|A Sg P|f st ls b bl A Sg P O].
  1,2: rewrite A in E; unfold mret, LM_ret in E; injection E as <- <-; (split; [|done]);
    by eapply (kept_idle _ _ _ _ _ I).
  pose proof (lay_bound _ _ _ _ _ L) as B. unfold log_of in B. rewrite length_app in B.
  specialize (Ne _ A). rewrite A, (active_metadata_open _ _ _ Sg) in *.
  destruct (meta_of_fields (open_name sealed) (next_hash sealed) false (st ++ ls) (length (b ++ bl))) as (Mp & _ & Mc & _); [lia|].
  rewrite Mc in Ne. rewrite Mp in E.
  assert (Ns : st ++ ls <> []) by (intros Z; by rewrite Z in Ne).
  lm_step E.
  2:{ destruct (fs_on_inv _ _ _ _ _ _ _ Hc P) as (El & [(? & [= ->] & Ef & _)|[? _]]); [|done]. subst r. split; [|done].
      eapply (kept_idle _ _ _ _ _ I); [done|by rewrite El|by rewrite El]. }
  destruct (fs_on_inv _ _ _ _ _ _ _ Hc P) as (El & [(? & ? & _)|[_ Ef]]); [done|]. clear Hc.
  pose proof (sync_inv (lw_files w) (lw_ledger w) sealed metas f st ls b bl V S L A Sg O) as I1.
  destruct (open_file_sync _ _ _ _ _ _ O) as [Es O1]. rewrite Es in *.
  assert (Pre : stable_of sealed (Some (st, ls)) `prefix_of` log_of sealed (Some (st, ls)))
    by (apply prefix_app, prefix_app_r; done).
  assert (Kept : forall w1, lw_files w1 = lw_files w0 -> same_core (lw_ledger w) (lw_ledger w1) ->
     l_failed (lw_ledger w1) = None -> kept (stable_of sealed (Some (st, ls))) (log_of sealed (Some (st, ls))) w1).
  { intros w1 Hf Hc Hfl. exists (log_of sealed (Some (st, ls))), (log_of sealed (Some (st, ls))).
    split_and!; [done..|]. left. split_and!; [done..|]. rewrite Hf, Ef. by eapply inv_same_core. }
  assert (KeptF : forall w1, lw_files w1 = lw_files w0 -> is_Some (l_failed (lw_ledger w1)) ->
     kept (stable_of sealed (Some (st, ls))) (log_of sealed (Some (st, ls))) w1).
  { intros w1 Hf Hfl. exists (log_of sealed (Some (st, ls))), (log_of sealed (Some (st, ls))).
    split_and!; [done..|]. right. split; [done|]. rewrite Hf, Ef. by eapply inv_disk. }
  lm_step E; [|by apply attempt_inv in Hc as (? & ? & _)].
  apply attempt_inv in Hc as (c & [= ->] & Hc). destruct (fs_simple_inv _ _ _ _ Hc) as [[C1 C2] _]. clear Hc.
  destruct c as [[]|e].
  2:{ lm_simpl E. unfold l_fail in E. injection E as <- <-. split; [|done]. apply KeptF; [done|]. by eexists. }
  lm_step E; [|by apply attempt_inv in Hc as (? & ? & _)].
  apply attempt_inv in Hc as (rn & [= ->] & Hc).
  apply fs_call_inv in Hc as (Rl & [(e & -> & Rf & _)|[-> Rf]]).
  { lm_step E; [|by apply attempt_inv in Hc as (? & ? & _)].
    apply attempt_inv in Hc as (ro & [= ->] & Hc).
    assert (P2 : lw_files w2 !! open_name sealed = Some (clean_file (b ++ bl))) by (by rewrite Rf, C1, Ef, lookup_insert_eq).
    destruct (fs_open_inv _ _ _ _ _ Hc P2) as [[Q1 Q2] _]. destruct ro as [[]|e2].
    - unfold l_fail in E. injection E as <- <-. split; [|done].
      apply Kept; [congruence|by rewrite Q2, Rl, C2, El|congruence].
    - lm_simpl E. unfold l_fail in E. injection E as <- <-. split; [|done].
      apply KeptF; [cbn; congruence|by eexists]. }
  assert (P1 : lw_files w1 !! open_name sealed = Some (clean_file (b ++ bl))) by (by rewrite C1, Ef, lookup_insert_eq).
  rewrite P1 in Rf. cbn [mbind option_bind] in Rf. injection Rf as Rf. rewrite C1, Ef in Rf.
  unfold open_name in Rf at 1. rewrite segmentName_finalized, delete_insert_eq in Rf.
  lm_simpl E.
  lm_step E; [|by apply attempt_inv in Hc as (? & ? & _)].
  apply attempt_inv in Hc as (fi & [= ->] & Hc). destruct (flushIndexLocked_inv _ _ _ Hc) as (G1 & (ib & G2) & _). clear Hc.
  unfold mret, LM_ret in E. injection E as <- <-.
  split; [|intros _; rewrite G2; cbn; by rewrite Rl, C2, El].
  exists (log_of sealed (Some (st, ls))), (log_of sealed (Some (st, ls))). split_and!; [done..|]. left.
  rewrite G1, G2. cbn [lw_files lw_ledger l_failed set]. rewrite Rl, C2, El, <-Rf. split_and!; [done..|].
  eapply inv_same_core; [|eapply (finalized_inv _ _ _ _ _ _ _ _ _ V S L Ns Sg O)].
  unfold same_core. cbn [l_options l_segments l_active l_head l_lastHash l_sources]. split_and!; reflexivity.
Qed.

Lemma rotate_if_full_inv size stable log w r w' :
  inv o (lw_files w) (lw_ledger w) stable log -> l_failed (lw_ledger w) = None ->
  rotate_if_full size w = (r, w') ->
  kept stable log w' /\ (r = Ok tt -> l_failed (lw_ledger w') = None).
Proof.
  intros I Fl E. unfold rotate_if_full in E. lm_simpl E.
  assert (Idle : forall r : res lerr unit, (Ok tt, w) = (r, w') -> kept stable log w' /\ (r = Ok tt -> l_failed (lw_ledger w') = None)).
  { intros r0 [= <- <-]. split; [|done]. by eapply kept_idle. }
  destruct (l_active (lw_ledger w)) as [i|] eqn:A; [|by apply Idle].
  destruct (_ && _) eqn:C; [|by apply Idle]. to_prop. destruct C as [C _].
  eapply finalizeActiveLocked_inv in E as [K R]; try done.
  - split; [done|]. intros Hr. by apply R.
  - intros j Hj. rewrite A in Hj. injection Hj as <-. lia.
Qed.

(** ** Creating a segment *)
Lemma open_file_empty sealed : open_file max sealed (clean_file []) [] [] [] [] [].
Proof. split_and!; try constructor; try done. exists []. split; [done|by left]. Qed.

Lemma create_layout files sealed metas :
  layout max files sealed metas None ->
  layout max (<[open_name sealed := clean_file []]> files) sealed metas (Some ([], [])).
Proof.
  intros [L1 L2 L3 L4]. unfold log_of in L4. rewrite app_nil_r in L4. split.
  - eapply sealed_ok_frame; [|exact L1]. intros k K1 K2. rewrite lookup_insert_ne; [done|].
    unfold open_name, next_cursor.
    intros [_ ?]%segmentName_inj; try done; apply two64_ten20; lia.
  - exists (clean_file []), [], [], []. rewrite lookup_insert_eq. split; [done|]. apply open_file_empty.
  - intros name Hn. unfold all_names. rewrite lookup_insert_is_Some, L3, elem_of_app, list_elem_of_singleton by done.
    unfold all_names. rewrite app_nil_r. destruct (decide (open_name sealed = name)); naive_solver.
  - unfold log_of. by rewrite app_nil_r.
Qed.

Lemma empty_meta name h : empty_metadata name h false = meta_of name h false [] 0.
Proof. done. Qed.

(** A ledger with an active segment, ready to be written. *)
Definition writable (w : LWorld) (stable log : list LedgerRecord) : Prop :=
  exists sealed metas f st ls b bl,
    view o (lw_ledger w) log /\ sound log /\ layout max (lw_files w) sealed metas (Some (st, ls)) /\
    l_active (lw_ledger w) = Some (length metas) /\
    l_segments (lw_ledger w) = metas ++ [meta_of (open_name sealed) (next_hash sealed) false (st ++ ls) (length (b ++ bl))] /\
    lw_files w !! open_name sealed = Some f /\ open_file max sealed f st ls b bl [] /\
    stable = stable_of sealed (Some (st, ls)) /\ log = log_of sealed (Some (st, ls)).

(** A new segment whose directory entry could not be synced is removed again,
    or stays behind empty. *)
Lemma discard_segment_inv sealed metas w w' (e : lerr) r :
  inv o (lw_files w) (lw_ledger w) (concat sealed) (concat sealed) ->
  layout max (lw_files w) sealed metas None -> l_active (lw_ledger w) = None -> l_segments (lw_ledger w) = metas ->
  forall w0, lw_files w0 = <[open_name sealed := clean_file []]> (lw_files w) -> lw_ledger w0 = lw_ledger w ->
  (_ ← attempt fs_close; _ ← attempt (fs_remove (open_name sealed)); l_fail e : LM unit) w0 = (r, w') ->
  r = Err e /\ lw_ledger w' = lw_ledger w /\ inv o (lw_files w') (lw_ledger w') (concat sealed) (concat sealed).
Proof.
  intros I L A Sg w0 F0 L0 E.
  lm_step E; [|by apply attempt_inv in Hc as (? & ? & _)]. apply attempt_inv in Hc as (c & _ & Hc).
  destruct (fs_simple_inv _ _ _ _ Hc) as [[C1 C2] _]. clear Hc.
  lm_step E; [|by apply attempt_inv in Hc as (? & ? & _)]. apply attempt_inv in Hc as (d & _ & Hc).
  unfold l_fail in E. injection E as <- <-. split; [done|].
  apply fs_call_inv in Hc as (D2 & [(? & _ & D1 & _)|[_ [= D1]]]); (split; [congruence|]).
  - rewrite D2, C2, L0, D1, C1, F0. destruct I as (V & S & _). split; [done|]. split; [done|].
    exists sealed, metas, (Some ([], [])). split; [by apply create_layout|].
    split; [|by unfold stable_of, log_of; rewrite !app_nil_r]. apply as_stray; [done..|apply lookup_insert_eq].
  - rewrite <-D1, C1, F0, delete_insert_eq. rewrite delete_id; [by rewrite D2, C2, L0|].
    destruct (lw_files w !! open_name sealed) eqn:X; [|done].
    assert (Hx : open_name sealed ∈ all_names sealed None)
      by (apply (lay_names _ _ _ _ _ L); [apply segmentName_is_segment|by eexists]).
    unfold all_names in Hx. rewrite app_nil_r in Hx.
    apply seg_names_elem in Hx as (k & Ek & K1 & K2); [|by eapply sealed_ok_nonempty, L].
    pose proof (lay_bound _ _ _ _ _ L) as B. unfold log_of in B. rewrite app_nil_r in B.
    unfold open_name, next_cursor in Ek. apply segmentName_inj in Ek as [_ ?]; [done|apply two64_ten20; lia..].
Qed.

Lemma ensureActiveLocked_inv stable log w r w' :
  inv o (lw_files w) (lw_ledger w) stable log -> l_failed (lw_ledger w) = None ->
  ensureActiveLocked (l_head (lw_ledger w) + 1) w = (r, w') ->
  l_failed (lw_ledger w') = None /\
  ((exists e, r = Err e) /\ inv o (lw_files w') (lw_ledger w') stable log \/
   r = Ok tt /\ writable w' stable log).
Proof.
  intros I Fl E. pose proof I as (V & S & sealed & metas & op & L & A & -> & ->).
  unfold ensureActiveLocked in E. lm_simpl E.
  destruct A as [A Sg|A Sg P|f st ls b bl A Sg P O]; rewrite A in E.
  3:{ unfold mret, LM_ret in E. injection E as <- <-. split; [done|]. right. split; [done|].
      by exists sealed, metas, f, st, ls, b, bl. }
  all: rewrite (vw_head _ _ _ V) in E; unfold log_of, stable_of in *; cbn [app] in *; rewrite ?app_nil_r in *;
    replace (N.of_nat (length (concat sealed)) + 1) with (next_cursor sealed) in E by (unfold next_cursor; lia);
    fold (open_name sealed) in E; lm_step E; apply fs_call_inv in Hc as (Cl & [(e' & Ee & Cf & _)|[Ee Cf]]); try done;
    try (subst r; rewrite Cl, Cf; split; [done|]; left; eauto).
  2:{ by rewrite P in Cf. }
  assert (Cf' : lw_files w0 = <[open_name sealed := clean_file []]> (lw_files w))
    by (destruct (lw_files w !! open_name sealed); [done|by injection Cf]). clear Cf.
  lm_step E; [|by apply attempt_inv in Hc as (? & ? & _)].
  apply attempt_inv in Hc as (out & [= ->] & Hc). destruct (fs_simple_inv _ _ _ _ Hc) as [[D1 D2] _]. clear Hc.
  destruct out as [[]|e].
  - unfold l_modify in E. injection E as <- <-. cbn. rewrite D2, Cl. split; [done|]. right. split; [done|].
    exists sealed, metas, (clean_file []), [], [], [], []. cbn [lw_files lw_ledger]. rewrite D1, Cf'.
    split_and!; try done; try (cbn; congruence).
    + by destruct V.
    + by apply create_layout.
    + cbn [l_segments]. rewrite Sg. f_equal. f_equal. by rewrite empty_meta, (vw_hash _ _ _ V).
    + apply lookup_insert_eq.
    + apply open_file_empty.
    + unfold stable_of. by rewrite app_nil_r.
    + unfold log_of. by rewrite app_nil_r.
  - eapply discard_segment_inv in E as (-> & El & I'); [|done..|congruence|congruence].
    rewrite El. split; [done|]. left. rewrite <-El. eauto.
Qed.

(** ** Writing a batch *)

(** Appending the frames of [stored], of which [x] reached the content. *)
Lemma open_file_partial sealed f st ls b bl stored enc x :
  open_file max sealed f st ls b bl [] ->
  framed max (end_hash (next_hash sealed) (st ++ ls)) (next_cursor sealed + N.of_nat (length (st ++ ls))) stored enc ->
  x `prefix_of` enc ->
  exists stored1 b1 tail, stored1 `prefix_of` stored /\
    open_file max sealed (file_append x f) st (ls ++ stored1) b (bl ++ b1) tail.
Proof.
  intros (F1 & F2 & C & T & D) F P.
  destruct (framed_prefix _ _ _ _ _ _ (ok_width _ o_ok) F P)
    as (s1 & s2 & b1 & b2 & tail & -> & G1 & _ & _ & -> & _ & Tt).
  exists s1, b1, tail. split; [by apply prefix_app_r|]. split_and!; try done.
  - eapply framed_app; [done|]. rewrite <-end_hash_app.
    by rewrite length_app, Nat2N.inj_add, N.add_assoc in G1.
  - cbn. rewrite C, app_nil_r, <-!app_assoc. done.
Qed.

Lemma open_file_complete sealed f st ls b bl stored enc :
  open_file max sealed f st ls b bl [] ->
  framed max (end_hash (next_hash sealed) (st ++ ls)) (next_cursor sealed + N.of_nat (length (st ++ ls))) stored enc ->
  file_sync (file_append enc f) = clean_file ((b ++ bl) ++ enc) /\
  open_file max sealed (clean_file ((b ++ bl) ++ enc)) ((st ++ ls) ++ stored) [] ((b ++ bl) ++ enc) [] [].
Proof.
  intros (F1 & F2 & C & T & D) F. split; [unfold file_sync; cbn; by rewrite C, app_nil_r|].
  split_and!; [|constructor|by cbn; rewrite !app_nil_r|by left|].
  - eapply framed_app; [by eapply framed_app|done].
  - exists []. cbn. rewrite app_nil_r. split; [done|by left].
Qed.

Lemma rollbackActiveLocked_inv path c x d w r w' :
  rollbackActiveLocked path (length c) w = (r, w') ->
  lw_files w !! path = Some (mkFile (c ++ x) d) ->
  lw_ledger w' = lw_ledger w /\
  exists f', lw_files w' = <[path := f']> (lw_files w) /\
    (f' = mkFile (c ++ x) d \/ f' = mkFile c d \/ f' = clean_file c) /\ (r = Ok tt -> f' = clean_file c).
Proof.
  intros E P. unfold rollbackActiveLocked in E.
  lm_step E; [|by apply attempt_inv in Hc as (? & ? & _)]. apply attempt_inv in Hc as (o1 & [= ->] & Hc).
  destruct (fs_simple_inv _ _ _ _ Hc) as [[C1 C2] _]. clear Hc.
  lm_step E; [|by apply attempt_inv in Hc as (? & ? & _)]. apply attempt_inv in Hc as (o2 & [= ->] & Hc).
  rewrite <-C1 in P. destruct (fs_open_inv _ _ _ _ _ Hc P) as [[D1 D2] _]. clear Hc. rewrite <-D1 in P.
  destruct o2 as [[]|e].
  2:{ unfold l_fail in E. injection E as <- <-. split; [congruence|]. exists (mkFile (c ++ x) d).
      split; [rewrite insert_id; congruence|]. split; [by left|done]. }
  lm_step E; [|by apply attempt_inv in Hc as (? & ? & _)]. apply attempt_inv in Hc as (o3 & [= ->] & Hc).
  destruct (fs_on_inv _ _ _ _ _ _ _ Hc P) as (E2 & [(e & -> & E1 & _)|[-> E1]]); clear Hc; cbn [is_ok] in E.
  - lm_simpl E.
    lm_step E; [|by apply attempt_inv in Hc as (? & ? & _)]. apply attempt_inv in Hc as (o4 & [= ->] & Hc).
    destruct (fs_simple_inv _ _ _ _ Hc) as [[G1 G2] _]. clear Hc. rewrite <-E1, <-G1 in P.
    lm_step E; [|by apply attempt_inv in Hc as (? & ? & _)]. apply attempt_inv in Hc as (o5 & [= ->] & Hc).
    destruct (fs_open_inv _ _ _ _ _ Hc P) as [[H1 H2] _]. clear Hc.
    unfold l_guard, l_lift in E. rewrite andb_false_r in E. injection E as <- <-. split; [congruence|].
    exists (mkFile (c ++ x) d). split; [rewrite insert_id; congruence|]. split; [by left|done].
  - rewrite truncate_append in E1.
    lm_step E; [|by apply attempt_inv in Hc as (? & ? & _)]. apply attempt_inv in Hc as (o4 & [= ->] & Hc).
    assert (P2 : lw_files w2 !! path = Some (mkFile c d)) by (by rewrite E1, lookup_insert_eq).
    destruct (fs_on_inv _ _ _ _ _ _ _ Hc P2) as (S2 & Sy). clear Hc.
    assert (exists f', lw_files w3 = <[path := f']> (lw_files w) /\
      (f' = mkFile c d \/ f' = clean_file c) /\ (is_ok o4 = true -> f' = clean_file c)) as (f' & Ff & Fc & Fo).
    { destruct Sy as [(e & -> & Sf & _)|[-> Sf]].
      - exists (mkFile c d). rewrite Sf, E1, D1, C1. split_and!; [done|by left|done].
      - exists (clean_file c). rewrite Sf, E1, D1, C1, insert_insert_eq. split_and!; [done|by right|done]. }
    lm_step E; [|by apply attempt_inv in Hc as (? & ? & _)]. apply attempt_inv in Hc as (o5 & [= ->] & Hc).
    destruct (fs_simple_inv _ _ _ _ Hc) as [[G1 G2] _]. clear Hc.
    lm_step E; [|by apply attempt_inv in Hc as (? & ? & _)]. apply attempt_inv in Hc as (o6 & [= ->] & Hc).
    assert (P3 : lw_files w4 !! path = Some f') by (by rewrite G1, Ff, lookup_insert_eq).
    destruct (fs_open_inv _ _ _ _ _ Hc P3) as [[H1 H2] _]. clear Hc.
    unfold l_guard, l_lift in E. injection E as <- <-. split; [congruence|].
    exists f'. split; [congruence|]. split; [tauto|]. rewrite check_ok. intros Hb. to_prop. tauto.
Qed.

(** The state a batch is written in. *)
Record ready (w : LWorld) (log : list LedgerRecord) (sealed : list chunk) (metas : list SegmentMetadata)
    (f : File) (st ls : chunk) (b bl : list N) : Prop := {
  rd_view : view o (lw_ledger w) log; rd_sound : sound log;
  rd_layout : layout max (lw_files w) sealed metas (Some (st, ls));
  rd_active : l_active (lw_ledger w) = Some (length metas);
  rd_segments : l_segments (lw_ledger w) =
    metas ++ [meta_of (open_name sealed) (next_hash sealed) false (st ++ ls) (length (b ++ bl))];
  rd_file : lw_files w !! open_name sealed = Some f;
  rd_open : open_file max sealed f st ls b bl [];
  rd_log : log = log_of sealed (Some (st, ls));
  rd_failed : l_failed (lw_ledger w) = None }.

Section Batch.
Variables (w : LWorld) (log : list LedgerRecord) (sealed : list chunk) (metas : list SegmentMetadata)
  (f : File) (st ls : chunk) (b bl : list N) (stored : list LedgerRecord) (enc : list N).
Hypothesis R : ready w log sealed metas f st ls b bl.
Hypothesis F : framed max (end_hash zero_chain log) (1 + N.of_nat (length log)) stored enc.
Hypothesis S : sound (log ++ stored).
Hypothesis B : N.of_nat (length (log ++ stored)) + 1 < two64.

Lemma batch_framed :
  framed max (end_hash (next_hash sealed) (st ++ ls)) (next_cursor sealed + N.of_nat (length (st ++ ls))) stored enc.
Proof.
  pose proof F as G. rewrite (rd_log _ _ _ _ _ _ _ _ _ R) in G. unfold log_of in G.
  rewrite end_hash_app, length_app in G. unfold next_hash, next_cursor.
  by replace (1 + N.of_nat (length (concat sealed)) + N.of_nat (length (st ++ ls)))
    with (1 + N.of_nat (length (concat sealed) + length (st ++ ls))) by lia.
Qed.

(** A partly written batch: the files hold the log and some of its records. *)
Lemma partial_disk x :
  x `prefix_of` enc ->
  exists log', log `prefix_of` log' /\
    disk_inv max (<[open_name sealed := file_append x f]> (lw_files w)) (stable_of sealed (Some (st, ls))) log'.
Proof.
  intros P. destruct (open_file_partial _ _ _ _ _ _ _ _ _ (rd_open _ _ _ _ _ _ _ _ _ R) batch_framed P)
    as (s1 & b1 & tail & P1 & O). exists (log ++ s1). split; [by apply prefix_app_r|]. split.
  - intros p Hp. apply S. etransitivity; [exact Hp|]. by apply prefix_app.
  - exists sealed, metas, (Some (st, ls ++ s1)). split_and!; [|done|].
    + eapply layout_replace; [apply R|done|exact O|]. rewrite !app_assoc, length_app.
      destruct P1 as [k Ek]. pose proof B as B'. rewrite Ek, (rd_log _ _ _ _ _ _ _ _ _ R) in B'. unfold log_of in B'.
      rewrite !length_app in B'. rewrite !length_app. lia.
    + rewrite (rd_log _ _ _ _ _ _ _ _ _ R). unfold log_of. by rewrite <-!app_assoc.
Qed.

Lemma failAfterRollbackLocked_inv {A} x e0 w1 (r : res lerr A) w' :
  x `prefix_of` enc ->
  lw_files w1 = <[open_name sealed := file_append x f]> (lw_files w) -> lw_ledger w1 = lw_ledger w ->
  failAfterRollbackLocked (open_name sealed) (length (b ++ bl)) e0 w1 = (r, w') ->
  (exists e, r = Err e) /\ kept (stable_of sealed (Some (st, ls))) log w'.
Proof.
  intros P F1 L1 E. unfold failAfterRollbackLocked in E.
  lm_step E; [|by apply attempt_inv in Hc as (? & ? & _)]. apply attempt_inv in Hc as (out & [= ->] & Hc).
  pose proof (rd_open _ _ _ _ _ _ _ _ _ R) as O. pose proof O as (_ & _ & C & _ & _).
  rewrite app_nil_r in C.
  assert (Ff : file_append x f = mkFile ((b ++ bl) ++ x) (f_durable f)) by (unfold file_append; by rewrite C).
  eapply rollbackActiveLocked_inv in Hc as (L2 & f' & F2 & Cs & Ok2); [|by rewrite F1, lookup_insert_eq, Ff].
  rewrite F1, insert_insert_eq in F2.
  assert (Ot : f = mkFile (b ++ bl) (f_durable f)) by (rewrite <-C; by destruct f).
  pose proof (rd_failed _ _ _ _ _ _ _ _ _ R) as Fl. pose proof (rd_log _ _ _ _ _ _ _ _ _ R) as Lg.
  assert (St : stable_of sealed (Some (st, ls)) `prefix_of` log) by (rewrite Lg; apply prefix_app, prefix_app_r; done).
  pose proof (sync_inv (lw_files w) (lw_ledger w) sealed metas f st ls b bl) as Si. rewrite <-Lg in Si.
  specialize (Si (rd_view _ _ _ _ _ _ _ _ _ R) (rd_sound _ _ _ _ _ _ _ _ _ R) (rd_layout _ _ _ _ _ _ _ _ _ R)
    (rd_active _ _ _ _ _ _ _ _ _ R) (rd_segments _ _ _ _ _ _ _ _ _ R) O).
  destruct (open_file_sync _ _ _ _ _ _ O) as [Es _]. rewrite Es in Si.
  destruct out as [[]|e].
  - unfold l_fail in E. injection E as <- <-. split; [by eexists|]. exists log, log. split_and!; [done..|]. left.
    rewrite L2, L1, F2, (Ok2 eq_refl). split_and!; done.
  - lm_simpl E. unfold l_fail in E. injection E as <- <-. split; [by eexists|].
    destruct Cs as [->|[->| ->]].
    + rewrite <-Ff in F2. destruct (partial_disk x P) as (log' & Pl & D).
      exists (stable_of sealed (Some (st, ls))), log'. split_and!; [done..|]. right. cbn. split; [by eexists|]. by rewrite F2.
    + exists (stable_of sealed (Some (st, ls))), log. split_and!; [done..|]. right. cbn. split; [by eexists|].
      rewrite F2, <-Ot, insert_id by apply R. rewrite Lg. split; [rewrite <-Lg; apply R|].
      exists sealed, metas, (Some (st, ls)). split_and!; [apply R|done..].
    + exists log, log. split_and!; [done..|]. right. cbn. split; [by eexists|]. rewrite F2.
      by eapply inv_disk.
Qed.

Lemma accept_segment :
  set_segment (length metas)
    ((fold_left metadata_add stored (active_metadata (lw_ledger w) (length metas)))
       <| sm_ByteSize := (sm_ByteSize (fold_left metadata_add stored (active_metadata (lw_ledger w) (length metas))) + length enc)%nat |>)
    (lw_ledger w) =
  (lw_ledger w) <| l_segments := metas ++
    [meta_of (open_name sealed) (next_hash sealed) false ((st ++ ls) ++ stored) (length ((b ++ bl) ++ enc))] |>.
Proof.
  rewrite (active_metadata_open _ _ _ (rd_segments _ _ _ _ _ _ _ _ _ R)). unfold set_segment.
  rewrite (rd_segments _ _ _ _ _ _ _ _ _ R), insert_app_r_alt, Nat.sub_diag by lia.
  rewrite meta_of_extend.
  assert (Z : sm_ByteSize (fold_left metadata_add stored
     (meta_of (open_name sealed) (next_hash sealed) false (st ++ ls) (length (b ++ bl)))) = length (b ++ bl)).
  { unfold meta_of. by rewrite fold_metadata_size. }
  rewrite Z, <-length_app. done.
Qed.

(** A batch that was written and synced. *)
Lemma accept_batch_inv :
  stored <> [] ->
  let l' := accept_batch (length metas) (length enc) stored (lw_ledger w) in
  inv o (<[open_name sealed := file_sync (file_append enc f)]> (lw_files w)) l' (log ++ stored) (log ++ stored) /\
  l_failed l' = None.
Proof.
  intros Ne l'. subst l'. unfold accept_batch. rewrite accept_segment.
  set (l1 := (lw_ledger w) <| l_segments := _ |>).
  pose proof (rd_view _ _ _ _ _ _ _ _ _ R) as [V1 V2 V3 V4].
  pose proof (fold_index_ok (o_MaxSourceSequences o) stored log l1) as FI.
  pose proof (fold_index_other stored l1) as (E1 & E2 & E3 & E4 & E5 & E6 & E7 & E8).
  assert (I2 : index_ok (o_MaxSourceSequences o) (log ++ stored) (l_sources (fold_left indexSourceRecord stored l1))).
  { apply FI; cbn; [by rewrite V1|apply o_ok|done]. }
  set (l2 := fold_left indexSourceRecord stored l1) in *. cbn in E1, E2, E3, E4, E5, E6, E7, E8.
  clear FI. clearbody l2. clear l1.
  destruct (last stored) as [z|] eqn:Z; [|by apply last_None in Z].
  split; [|cbn; rewrite E7; apply R].
  destruct (open_file_complete _ _ _ _ _ _ _ _ (rd_open _ _ _ _ _ _ _ _ _ R) batch_framed) as [-> O].
  assert (Lg : log ++ stored = log_of sealed (Some ((st ++ ls) ++ stored, []))).
  { rewrite (rd_log _ _ _ _ _ _ _ _ _ R). unfold log_of. by rewrite app_nil_r, <-!app_assoc. }
  split; [|split; [done|]].
  - split; cbn; [congruence| |..|done].
    + pose proof (framed_last _ _ _ _ _ _ F Z). rewrite length_app. lia.
    + unfold end_hash. by rewrite last_app, Z.
  - exists sealed, metas, (Some ((st ++ ls) ++ stored, [])). split_and!; [| | |exact Lg].
    + eapply layout_replace; [apply R|done|exact O|]. pose proof B as B'. rewrite Lg in B'. exact B'.
    + eapply as_open; [cbn; rewrite E3; apply R|cbn; rewrite E2; by rewrite !app_nil_r|apply lookup_insert_eq|exact O].
    + rewrite Lg. unfold log_of, stable_of. by rewrite app_nil_r.
Qed.
End Batch.

Lemma kept_weaken stable stable' log w' : stable `prefix_of` stable' -> kept stable' log w' -> kept stable log w'.
Proof. intros P (s & l & P1 & R). exists s, l. split; [by etransitivity|done]. Qed.

Lemma inv_kept stable log w' :
  l_failed (lw_ledger w') = None -> inv o (lw_files w') (lw_ledger w') stable log -> kept stable log w'.
Proof. intros Fl I. exists stable, log. split_and!; [done..|]. by left. Qed.

Lemma framed_head prev c rs b0 r : framed max prev c (r :: rs) b0 -> r_Cursor r = c.
Proof. by inversion 1. Qed.

Lemma writeAll_inv path f value w r w' :
  writeAll path value w = (r, w') -> lw_files w !! path = Some f ->
  lw_ledger w' = lw_ledger w /\ exists x, x `prefix_of` value /\
    lw_files w' = <[path := file_append x f]> (lw_files w) /\
    (r = Ok (length value) /\ x = value \/ exists e, r = Err e).
Proof.
  unfold writeAll. intros E P. rewrite P in E. destruct (io_fault (lw_tick w)); injection E as <- <-.
  - split; [done|]. eexists. split; [apply prefix_take|]. split; [done|]. right. eauto.
  - split; [done|]. exists value. split; [done|]. split; [done|]. by left.
Qed.

Lemma commit_batch_inv w log sealed metas f st ls b bl stored enc r w' :
  ready w log sealed metas f st ls b bl ->
  framed max (end_hash zero_chain log) (1 + N.of_nat (length log)) stored enc ->
  sound (log ++ stored) -> N.of_nat (length (log ++ stored)) + 1 < two64 -> stored <> [] ->
  commit_batch stored enc w = (r, w') ->
  (r = Ok stored /\ l_failed (lw_ledger w') = None /\
     inv o (lw_files w') (lw_ledger w') (log ++ stored) (log ++ stored)) \/
  ((exists e, r = Err e) /\ kept (stable_of sealed (Some (st, ls))) log w').
Proof.
  intros R F S B Ne E. unfold commit_batch in E. lm_simpl E.
  rewrite (rd_active _ _ _ _ _ _ _ _ _ R) in E. cbn [from_option id] in E.
  rewrite (active_metadata_open _ _ _ (rd_segments _ _ _ _ _ _ _ _ _ R)) in E.
  pose proof (lay_bound _ _ _ _ _ (rd_layout _ _ _ _ _ _ _ _ _ R)) as Bl. unfold log_of in Bl. rewrite length_app in Bl.
  destruct (meta_of_fields (open_name sealed) (next_hash sealed) false (st ++ ls) (length (b ++ bl))) as (Mp & Ms & _); [lia|].
  rewrite Mp, Ms in E. cbv zeta in E.
  lm_step E; [|by apply attempt_inv in Hc as (? & ? & _)]. apply attempt_inv in Hc as (wr & [= ->] & Hc).
  destruct (writeAll_inv _ _ _ _ _ _ Hc (rd_file _ _ _ _ _ _ _ _ _ R)) as (L1 & x & P & F1 & Wr). clear Hc.
  assert (Fail : forall w1 e0 r, lw_files w1 = lw_files w0 -> lw_ledger w1 = lw_ledger w0 ->
    failAfterRollbackLocked (open_name sealed) (length (b ++ bl)) e0 w1 = (r, w') ->
    (exists e, r = Err e :> res lerr (list LedgerRecord)) /\ kept (stable_of sealed (Some (st, ls))) log w').
  { intros w1 e0 r0 Hf Hl E'. by eapply (failAfterRollbackLocked_inv w _ _ _ _ _ _ _ _ _ _ R F S B x); [..|exact E']; try congruence. }
  destruct Wr as [[-> ->]|(e & ->)]; [|right; by eapply Fail].
  rewrite Nat.eqb_refl in E. cbn [negb] in E.
  lm_step E; [|by apply attempt_inv in Hc as (? & ? & _)]. apply attempt_inv in Hc as (sy & [= ->] & Hc).
  destruct (fs_on_inv _ _ _ _ _ _ _ Hc ltac:(by rewrite F1, lookup_insert_eq)) as (L2 & [(e & -> & F2 & _)|[-> F2]]); clear Hc.
  { right. by eapply Fail. }
  lm_simpl E. lm_step E; [|by apply attempt_inv in Hc as (? & ? & _)]. apply attempt_inv in Hc as (fi & [= ->] & Hc).
  destruct (flushIndexLocked_inv _ _ _ Hc) as (G1 & (ib & G2) & _). clear Hc.
  lm_simpl E. unfold mret, LM_ret in E. injection E as <- <-. left. split; [done|].
  destruct (accept_batch_inv w log sealed metas f st ls b bl stored enc R F S B Ne) as [I Fl].
  rewrite F1, insert_insert_eq in F2. cbn [lw_files lw_ledger set] in G1, G2 |- *. rewrite G1, F2.
  rewrite L2, L1 in G2. rewrite G2. split; [exact Fl|]. eapply inv_same_core; [|exact I].
  unfold same_core, publish_all. split_and!; reflexivity.
Qed.

Lemma appendBatchLocked_inv stable log records w r w' :
  inv o (lw_files w) (lw_ledger w) stable log -> l_failed (lw_ledger w) = None ->
  records <> [] -> Forall input_ok records ->
  N.of_nat (length log) + N.of_nat (length records) + 1 < two64 ->
  (forall stored, Forall2 stored_as records stored -> sound (log ++ stored)) ->
  appendBatchLocked records w = (r, w') ->
  (exists stored, r = Ok stored /\ Forall2 stored_as records stored /\ l_failed (lw_ledger w') = None /\
     inv o (lw_files w') (lw_ledger w') (log ++ stored) (log ++ stored)) \/
  ((exists e, r = Err e) /\ kept stable log w').
Proof.
  intros I Fl Ne V B S E.
  assert (E' : (l ← l_get;
      '(stored, encoded) ← l_lift (encode_batch (l_options l) (l_head l) 0 (l_lastHash l) 0 records);
      _ ← rotate_if_full (length encoded);
      _ ← ensureActiveLocked (from_option r_Cursor 0 (head stored));
      commit_batch stored encoded) w = (r, w')) by (by destruct records).
  clear E. rename E' into E. lm_simpl E.
  pose proof I as ([V1 V2 V3 V4] & _). rewrite V1, V2, V3 in E.
  destruct (encode_batch _ _ _ _ _ _) as [[stored enc]|e] eqn:En.
  2:{ injection E as <- <-. right. split; [by eexists|]. by apply inv_kept. }
  apply encode_batch_framed in En as [F F2]; [|done|lia].
  replace (N.of_nat (length log) + 0 + 1) with (1 + N.of_nat (length log)) in F by lia.
  pose proof (Forall2_stored_length _ _ F2) as Ln.
  lm_step E.
  2:{ destruct (rotate_if_full_inv _ _ _ _ _ _ I Fl Hc) as [K _]. right. split; [by eexists|done]. }
  destruct x as []. destruct (rotate_if_full_inv _ _ _ _ _ _ I Fl Hc) as [(s1 & l1 & P1 & _ & [(_ & -> & I1)|(Hf & _)]) Fl1];
    specialize (Fl1 eq_refl); [|by rewrite Fl1 in Hf; destruct Hf].
  assert (Hd : from_option r_Cursor 0 (head stored) = l_head (lw_ledger w0) + 1).
  { rewrite (vw_head _ _ _ (proj1 I1)). destruct stored as [|z rs]; [by destruct records|]. cbn.
    apply framed_head in F. lia. }
  rewrite Hd in E. lm_step E.
  - destruct (ensureActiveLocked_inv _ _ _ _ _ I1 Fl1 Hc0) as [Fl2 [[(? & ?) _]|[_ Wr]]]; [done|].
    destruct Wr as (sealed & metas & f & st & ls & b & bl & Vw & So & Ly & Ac & Sg & P & O & -> & Lg).
    eapply (commit_batch_inv w1 log sealed metas f st ls b bl) in E; [|by split|done|by apply S|rewrite length_app; lia|by destruct stored, records].
    destruct E as [(-> & Fl3 & I3)|[Er K]]; [left; eauto|right]. split; [done|]. by eapply kept_weaken.
  - destruct (ensureActiveLocked_inv _ _ _ _ _ I1 Fl1 Hc0) as [Fl2 [[_ I2]|[? _]]]; [|done].
    right. split; [by eexists|]. eapply kept_weaken; [done|]. by apply inv_kept.
Qed.
End Append.
