(* ===== verification/LedgerSafety.v ===== *)
(** * Safety of the observation ledger

    What [Append], [Rotate], [Close], [ReadAfter] and [Subscribe] do to a ledger
    that satisfies the invariant, and what follows for every run of the ledger
    with failing calls and crashes: acknowledged records survive, reopening
    finds them, and no source sequence is applied twice. *)
From S2P Require Import Prelude Sha256 GoStrings Utf8Facts Frames LedgerCodec Subscriptions Ledger LedgerDisk LedgerIndex LedgerRecovery LedgerAppend.
Local Open Scope N_scope.

(** ** Reading *)

(** The files of the segments hold the chunks of the log. *)
Fixpoint readable (files : Files) (max : N) (prev : list N) (c : N) (chunks : list chunk)
    (metas : list SegmentMetadata) : Prop :=
  match chunks, metas with
  | [], [] => True
  | rs :: rest, m :: ms =>
      (exists f b, framed max prev c rs b /\ files !! sm_Path m = Some f /\ f_content f = b) /\
      readable files max (end_hash prev rs) (c + N.of_nat (length rs)) rest ms
  | _, _ => False
  end.

Lemma readable_app files max prev c chunks metas rs m f b :
  readable files max prev c chunks metas ->
  framed max (end_hash prev (concat chunks)) (c + N.of_nat (length (concat chunks))) rs b ->
  files !! sm_Path m = Some f -> f_content f = b ->
  readable files max prev c (chunks ++ [rs]) (metas ++ [m]).
Proof.
  revert prev c metas; induction chunks as [|x rest IH]; intros prev c [|y ms] R F P C; cbn [readable app] in *; try done.
  - cbn [concat length] in F. rewrite N.add_0_r in F. unfold end_hash in F; cbn in F. split; [|done]. eauto.
  - destruct R as [R1 R2]. split; [done|]. apply IH; try done. rewrite concat_length_cons.
    cbn [concat] in F. by rewrite end_hash_app in F.
Qed.

Lemma sealed_readable files max prev c sealed metas :
  c + N.of_nat (length (concat sealed)) < two64 ->
  sealed_ok files max prev c sealed metas -> readable files max prev c sealed metas.
Proof.
  revert prev c metas; induction sealed as [|rs rest IH]; intros prev c [|m ms] B; cbn [sealed_ok readable]; try done.
  intros (Ne & (b & F & P & ->) & S). rewrite <-concat_length_cons in B. split; [|by apply IH].
  destruct (meta_of_fields (segmentName c true) prev true rs (length b)) as (-> & _); [lia|]. eauto.
Qed.

Lemma collect_records_app after through limit found a b :
  collect_records after through limit found (a ++ b) =
  let '(found, full) := collect_records after through limit found a in
  if full then (found, true) else collect_records after through limit found b.
Proof.
  revert found; induction a as [|r a IH]; intros found; cbn; [done|].
  destruct (in_window after through r); [|apply IH].
  destruct (_ && _); [done|]. apply IH.
Qed.

Section Safety.
Context `{DiskEnv}.
Hypothesis reads_ok : forall n, io_read n = None.
Variable o : Options.
Hypothesis o_ok : options_ok o.
Let max := o_MaxFramePayload o.

Lemma inv_readable files l stable log :
  inv o files l stable log ->
  exists chunks, readable files max zero_chain 1 chunks (l_segments l) /\ concat chunks = log /\
    1 + N.of_nat (length log) < two64.
Proof.
  intros (_ & _ & sealed & metas & op & L & A & _ & Lg).
  pose proof (lay_bound _ _ _ _ _ L) as B. rewrite <-Lg in B.
  assert (Rs : readable files max zero_chain 1 sealed metas).
  { apply sealed_readable; [|apply L]. rewrite Lg in B. unfold log_of in B. rewrite length_app in B. lia. }
  destruct A as [A Sg|A Sg P|f st ls b bl A Sg P O].
  1,2: exists sealed; rewrite Sg; split; [done|]; split; [|lia];
    rewrite Lg; unfold log_of; by rewrite app_nil_r.
  exists (sealed ++ [st ++ ls]). rewrite Sg, concat_app. cbn [concat]. rewrite app_nil_r.
  split; [|split; [by rewrite Lg|lia]].
  destruct O as (F1 & F2 & C & _). rewrite Lg in B. unfold log_of in B. rewrite length_app in B.
  eapply (readable_app _ _ _ _ _ _ _ _ f (b ++ bl)); [done| | |by rewrite C, app_nil_r].
  - by eapply framed_app.
  - destruct (meta_of_fields (open_name sealed) (next_hash sealed) false (st ++ ls) (length (b ++ bl))) as (-> & _); [lia|done].
Qed.

(** One step of the reading loops. *)
Lemma scan_readable files m rs c prev w r w' :
  lw_files w = files ->
  (exists f b, framed max prev c rs b /\ files !! sm_Path m = Some f /\ f_content f = b) ->
  hash_ok prev -> c + N.of_nat (length rs) < two64 ->
  scanSegment (sm_Path m) max c prev w = (r, w') ->
  idle w w' /\ ((exists sc, r = Ok sc /\ sc_incompleteTail sc = false /\ sc_records sc = rs /\
      scan_next sc c prev = (c + N.of_nat (length rs), end_hash prev rs)) \/
    exists e, r = Err e /\ faulted e).
Proof.
  intros Ef (f & b & F & P & C) Hh B E. rewrite <-Ef in P.
  destruct (scanSegment_inv reads_ok _ _ _ _ f rs b [] _ _ _ E P) as [I R]; try done;
    [by rewrite app_nil_r|by left|apply o_ok..|].
  split; [done|]. destruct R as [->|R]; [left|by right]. eexists. split; [done|].
  split; [done|]. split; [done|]. by eapply scan_next_meta.
Qed.

Lemma find_loop_inv source instance sequence chunks : forall metas c prev w r w',
  readable (lw_files w) max prev c chunks metas -> hash_ok prev ->
  c + N.of_nat (length (concat chunks)) < two64 ->
  find_loop max source instance sequence metas c prev w = (r, w') ->
  idle w w' /\
  (r = Ok ((fun x => mkOccurrence (r_Cursor x) (sha256 (r_Payload x))) <$>
           List.find (matches_source source instance sequence) (concat chunks)) \/
   exists e, r = Err e /\ (faulted e \/ canceled e)).
Proof.
  induction chunks as [|rs rest IH]; intros [|m ms] c prev w r w' R Hh B E; try done.
  { injection E as <- <-. split; [done|]. by left. }
  cbn [readable] in R. destruct R as [Rm Rs]. rewrite <-concat_length_cons in B. cbn [find_loop] in E.
  lm_step E; destruct (ctx_err_inv _ _ _ Hc) as [[I1 I2] Rc]; clear Hc.
  2:{ destruct Rc as [?|(? & [= ->] & ?)]; [done|]. subst. split; [by split|]. right. eauto. }
  lm_step E; destruct (scan_readable _ _ _ _ _ _ _ _ I1 Rm Hh ltac:(lia) Hc) as [[J1 J2] Rsc]; clear Hc.
  2:{ destruct Rsc as [(? & ? & _)|(? & [= ->] & ?)]; [done|]. subst. split; [split; congruence|]. right. eauto. }
  destruct Rsc as [(sc & [= ->] & Hi & Hr & Hn)|(? & ? & _)]; [|done].
  rewrite LM_guard_bind, Hi in E. cbn [negb] in E. rewrite Hr, Hn in E. cbn [concat]. rewrite find_app.
  destruct (List.find _ rs) as [y|].
  - unfold mret, LM_ret in E. injection E as <- <-. split; [split; congruence|]. by left.
  - eapply IH in E as [[K1 K2] R]; [|rewrite J1, I1; done| |done].
    + split; [split; congruence|done].
    + destruct Rm as (f & b & F & _). by eapply framed_hash.
Qed.

Lemma read_loop_inv after through limit chunks : forall found metas c prev w r w',
  readable (lw_files w) max prev c chunks metas -> hash_ok prev ->
  c + N.of_nat (length (concat chunks)) < two64 ->
  read_loop max after through limit found metas c prev w = (r, w') ->
  idle w w' /\
  (r = Ok (fst (collect_records after through limit found (concat chunks))) \/
   exists e, r = Err e /\ faulted e).
Proof.
  induction chunks as [|rs rest IH]; intros found [|m ms] c prev w r w' R Hh B E; try done.
  { injection E as <- <-. split; [done|]. by left. }
  cbn [readable] in R. destruct R as [Rm Rs]. rewrite <-concat_length_cons in B. cbn [read_loop] in E.
  lm_step E; destruct (scan_readable _ _ _ _ _ _ _ _ eq_refl Rm Hh ltac:(lia) Hc) as [[J1 J2] Rsc]; clear Hc.
  2:{ destruct Rsc as [(? & ? & _)|(? & [= ->] & ?)]; [done|]. subst. split; [by split|]. right. eauto. }
  destruct Rsc as [(sc & [= ->] & Hi & Hr & Hn)|(? & ? & _)]; [|done].
  rewrite LM_guard_bind, Hi in E. cbn [negb] in E. rewrite Hr in E. cbn [concat]. rewrite collect_records_app.
  destruct (collect_records after through limit found rs) as [found' full]. destruct full.
  - unfold mret, LM_ret in E. injection E as <- <-. split; [by split|]. by left.
  - rewrite Hn in E. eapply IH in E as [[K1 K2] R]; [|rewrite J1; done| |done].
    + split; [split; congruence|done].
    + destruct Rm as (f & b & F & _). by eapply framed_hash.
Qed.

(** ** Planning an append *)
Lemma sound_nil_app log : sound log -> good log.
Proof. intros S. by apply S. Qed.

Lemma sound_other log r : sound log -> applies_sequence r = false -> sound (log ++ [r]).
Proof. intros S A. apply sound_snoc; [done|]. apply good_snoc_other; [by apply sound_nil_app|done]. Qed.

Lemma sound_new m log st r :
  source_ok m log (key_of r) st -> sound log -> applies_sequence r = true ->
  ~ applied_in log (key_of r) (r_SourceSequence r) ->
  (forall s, ss_hasMaximum st = true -> ss_maximum st < s < r_SourceSequence r -> accounted log (key_of r) s) ->
  sound (log ++ [r]).
Proof.
  intros O S A N G. apply sound_snoc; [done|]. apply good_snoc_new; [by apply sound_nil_app|done|done|..].
  - intros g Hg Ug s B. destruct (so_max _ _ _ _ O g Hg) as [Hm L]. apply G; [done|].
    pose proof (Ug _ (so_attained _ _ _ _ O Hm)). lia.
  - intros x Hx. exists (ss_maximum st). by eapply source_ok_greatest.
Qed.

Lemma inv_records files l stable log : inv o files l stable log -> Forall record_wf log.
Proof.
  intros (_ & _ & sealed & metas & op & L & _ & _ & ->). pose proof (lay_sealed _ _ _ _ _ L) as (b & F)%sealed_ok_framed.
  unfold log_of. apply Forall_app. split; [by eapply framed_wf|].
  destruct op as [[st ls]|]; [|constructor]. destruct (lay_open _ _ _ _ _ L) as (f & b1 & bl & t & _ & F1 & F2 & _).
  apply Forall_app. split; by eapply framed_wf.
Qed.

Lemma makeDuplicateRecord_ok input oc :
  input_ok input -> oc_cursor oc < two64 -> input_ok (makeDuplicateRecord input oc).
Proof.
  intros [[] V] C. split.
  - split; cbn; try done. by intros d [= <-].
  - unfold validateRecordShape in *. cbn in *. inv_res V.
    repeat match goal with Hc : ?b = true |- context [?b] => rewrite Hc end. done.
Qed.

Lemma makeSequenceGapRecord_ok input from through :
  input_ok input -> from < two64 -> through < two64 -> input_ok (makeSequenceGapRecord input from through).
Proof. intros [[] V] C1 C2. split; [|done]. split; cbn; try done. by intros g [= <-]. Qed.

Lemma find_none_applied source instance s log :
  List.find (matches_source source instance s) log = None -> ~ applied_in log (source, instance) s.
Proof.
  intros F (x & (I & A & K) & S). apply list_elem_of_In in I. pose proof (find_none _ _ F x I) as M.
  unfold matches_source in M. unfold key_of in K. injection K as K1 K2.
  rewrite A, K1, K2, S, N.eqb_refl, !bool_decide_eq_true_2 in M by done. done.
Qed.

Lemma find_some_applied source instance s log x :
  List.find (matches_source source instance s) log = Some x ->
  applied log (source, instance) x /\ r_SourceSequence x = s.
Proof.
  intros [I M]%find_some. unfold matches_source in M. rewrite !andb_true_iff, !bool_decide_eq_true, N.eqb_eq in M.
  destruct M as [[[A <-] <-] S]. by split; [split_and!; [by apply list_elem_of_In|..]|].
Qed.

(** The records an input turns into keep the log sound. *)
Definition extends (log records : list LedgerRecord) : Prop :=
  records <> [] /\ (length records <= 2)%nat /\ Forall input_ok records /\
  forall stored, Forall2 stored_as records stored -> sound (log ++ stored).

Lemma extends_one log r :
  input_ok r -> (forall r', stored_as r r' -> sound (log ++ [r'])) -> extends log [r].
Proof.
  intros V S. split_and!; [done|cbn; lia|by constructor|].
  intros stored F. apply Forall2_cons_inv_l in F as (r' & k & Hr & F & ->). apply Forall2_nil_inv_l in F as ->. by apply S.
Qed.

Lemma extends_input log st input :
  input_ok input -> sound log -> source_ok (o_MaxSourceSequences o) log (key_of input) st ->
  ~ applied_in log (key_of input) (r_SourceSequence input) ->
  (forall s, ss_hasMaximum st = true -> ss_maximum st < s < r_SourceSequence input -> False) ->
  extends log [input].
Proof.
  intros V S O N G. apply extends_one; [done|]. intros r' Hs. destruct (stored_as_fields _ _ Hs) as (A & K & Q & _).
  destruct (applies_sequence input) eqn:Ai; [|by apply sound_other].
  rewrite <-K, <-Q in *. eapply sound_new; try done. intros s Hm B. by destruct (G s Hm).
Qed.

Lemma extends_gap log st input :
  input_ok input -> sound log -> source_ok (o_MaxSourceSequences o) log (key_of input) st ->
  ~ applied_in log (key_of input) (r_SourceSequence input) ->
  ss_maximum st + 1 < r_SourceSequence input ->
  extends log [makeSequenceGapRecord input (ss_maximum st + 1) (r_SourceSequence input - 1); input].
Proof.
  intros V S O N B. pose proof (rw_sequence _ (proj1 V)) as Bs. set (g := makeSequenceGapRecord _ _ _).
  assert (Vg : input_ok g) by (apply makeSequenceGapRecord_ok; [done|lia..]).
  split_and!; [done|cbn; lia|by apply Forall_cons; split; [|apply Forall_singleton]|]. intros stored F.
  apply Forall2_cons_inv_l in F as (g' & k & Hg & F & ->). apply Forall2_cons_inv_l in F as (r' & k' & Hr & F & ->).
  apply Forall2_nil_inv_l in F as ->. destruct (stored_as_fields _ _ Hg) as (Ag & Kg & _ & Gg & _).
  destruct (stored_as_fields _ _ Hr) as (A & K & Q & _).
  assert (S1 : sound (log ++ [g'])) by (by apply sound_other).
  replace (log ++ [g'; r']) with ((log ++ [g']) ++ [r']) by (by rewrite <-app_assoc).
  destruct (applies_sequence input) eqn:Ai; [|by apply sound_other].
  assert (O1 : source_ok (o_MaxSourceSequences o) (log ++ [g']) (key_of input) st)
    by (apply source_ok_other; [done|by left]).
  assert (N1 : ~ applied_in (log ++ [g']) (key_of input) (r_SourceSequence input)).
  { intros [?|(X & _)]%applied_in_snoc; [done|]. by rewrite Ag in X. }
  rewrite <-K, <-Q in *. eapply sound_new; try done.
  intros s _ Bd. right. exists g'. eexists. split; [apply elem_of_app; right; by left|].
  split; [by rewrite Gg|]. cbn. split; [done|]. rewrite K. split; [done|]. lia.
Qed.

Lemma inv_touch_source files l stable log key :
  inv o files l stable log ->
  inv o files (l <| l_sources := <[key := default new_sourceState (l_sources l !! key)]> (l_sources l) |>) stable log.
Proof.
  intros ([V1 V2 V3 V4] & S & sealed & metas & op & L & A & Hs). split; [split; try done|split; [done|]].
  - intros k. cbn. destruct (decide (key = k)) as [<-|N]; [rewrite lookup_insert_eq|rewrite lookup_insert_ne by done]; apply V4.
  - exists sealed, metas, op. split; [done|]. split; [|done].
    destruct A; [by apply as_none|by apply as_stray|by eapply as_open].
Qed.

(** What the lookups of [plan_append] find. *)
Lemma lookup_sequence_inv stable log input st w r w' :
  inv o (lw_files w) (lw_ledger w) stable log -> sound log ->
  source_ok (o_MaxSourceSequences o) log (key_of input) st ->
  (match ss_seen st !! r_SourceSequence input with
   | Some occurrence => mret (Some occurrence)
   | None => if ss_hasMaximum st && (r_SourceSequence input <=? ss_maximum st)
             then findSourceOccurrenceLocked (r_Source input) (r_SourceInstance input) (r_SourceSequence input)
             else mret None
   end : LM _) w = (r, w') ->
  idle w w' /\
  ((exists e, r = Err e) \/
   r = Ok (occurrence_of <$>
     List.find (matches_source (r_Source input) (r_SourceInstance input) (r_SourceSequence input)) log)).
Proof.
  intros I Sd O E. destruct (ss_seen st !! r_SourceSequence input) as [oc|] eqn:Sn.
  { unfold mret, LM_ret in E. injection E as <- <-. split; [done|]. right.
    destruct (so_seen _ _ _ _ O _ _ Sn) as (x & (Hx & Ax & Kx) & Sx & ->).
    pose proof (find_applied _ _ (sound_nil_app _ Sd) Hx Ax) as Fd. unfold key_of in Kx. injection Kx as K1 K2.
    rewrite K1, K2, Sx in Fd. by rewrite Fd. }
  destruct (_ && _) eqn:C.
  - unfold findSourceOccurrenceLocked in E. lm_simpl E. rewrite (vw_options _ _ _ (proj1 I)) in E.
    destruct (inv_readable _ _ _ _ I) as (chunks & Rd & Lg & B).
    eapply find_loop_inv in E as [Id R]; [|done|apply zero_chain_ok|by rewrite Lg].
    split; [done|]. rewrite Lg in R. destruct R as [->|(e & -> & _)]; [by right|left; eauto].
  - unfold mret, LM_ret in E. injection E as <- <-. split; [done|]. right.
    destruct (List.find _ log) as [x|] eqn:Fd; [exfalso|done].
    apply find_some_applied in Fd as [Hx Sx]. destruct (so_max _ _ _ _ O (r_SourceSequence input)) as [Hm L].
    { exists x. by split. }
    rewrite Hm in C. cbn in C. to_prop. lia.
Qed.

(** The guard against overflow of the code and the plain comparison. *)
Lemma plan_gap_guard m s : s < two64 ->
  (m <? max_uint64) && (u64 (m + 1) <? s) = (m + 1 <? s) /\ (m + 1 < s -> u64 (m + 1) = m + 1).
Proof.
  intros B. unfold max_uint64, two64 in *. split; [|intros; apply u64_small; unfold two64; lia].
  destruct (N.ltb_spec m 18446744073709551615) as [L|L]; cbn [andb].
  - by rewrite u64_small by (unfold two64; lia).
  - symmetry. apply N.ltb_ge. lia.
Qed.

Lemma plan_append_inv stable log input w r w' :
  inv o (lw_files w) (lw_ledger w) stable log -> l_failed (lw_ledger w) = None -> input_ok input ->
  plan_append input w = (r, w') ->
  inv o (lw_files w') (lw_ledger w') stable log /\ l_failed (lw_ledger w') = None /\
  ((exists e, r = Err e) \/ (r = Ok (spec_plan log input) /\ extends log (fst (spec_plan log input)))).
Proof.
  intros I Fl V E. unfold plan_append in E. pose proof I as (_ & S & _). unfold spec_plan.
  destruct (r_HasSourceSequence input) eqn:Hs; cbn [negb] in E |- *.
  2:{ unfold mret, LM_ret in E. injection E as <- <-. split; [done|]. split; [done|]. right. split; [done|].
      apply extends_one; [done|]. intros r' Hr. destruct (stored_as_fields _ _ Hr) as (A & _). apply sound_other; [done|].
      rewrite A. unfold applies_sequence. by rewrite Hs. }
  unfold sourceState_get in E. rewrite LM_bind_eq in E. rewrite LM_get_bind, LM_modify_bind in E.
  cbv beta iota delta [mret LM_ret] in E.
  pose proof (vw_index _ _ _ (proj1 I) (key_of input)) as O.
  change (sourceStateOf (lw_ledger w) (r_Source input) (r_SourceInstance input))
    with (default new_sourceState (l_sources (lw_ledger w) !! key_of input)) in E.
  set (st := default new_sourceState (l_sources (lw_ledger w) !! key_of input)) in *.
  set (w0 := w <| lw_ledger := _ |>) in E.
  assert (I0 : inv o (lw_files w0) (lw_ledger w0) stable log) by apply (inv_touch_source _ _ _ _ (key_of input) I).
  assert (Fl0 : l_failed (lw_ledger w0) = None) by done. clearbody w0 st.
  lm_step E; destruct (lookup_sequence_inv _ _ _ _ _ _ _ I0 S O Hc) as [[Q1 Q2] R]; clear Hc.
  2:{ subst r. rewrite Q1, Q2. split_and!; [done..|]. left. eauto. }
  rewrite <-Q1, <-Q2 in I0. rewrite <-Q2 in Fl0. destruct R as [(? & ?)|[= ->]]; [done|].
  pose proof (rw_sequence _ (proj1 V)) as Bs. rewrite (greatest_source _ _ _ _ O).
  destruct (List.find _ log) as [x0|] eqn:Fd; cbn [fmap option_fmap option_map] in E.
  { injection E as <- <-. split_and!; [done..|]. right. split; [done|]. apply find_some_applied in Fd as [[Hx _] _].
    pose proof (inv_records _ _ _ _ I0) as W. rewrite Forall_forall in W. pose proof (rw_cursor _ (W _ Hx)).
    apply extends_one; [by apply makeDuplicateRecord_ok; [|cbn; lia]|]. intros r' Hr.
    destruct (stored_as_fields _ _ Hr) as (A & _). by apply sound_other. }
  apply find_none_applied in Fd as Nw. change (r_Source input, r_SourceInstance input) with (key_of input) in Nw.
  destruct (ss_hasMaximum st) eqn:Hm; cbn [andb] in E.
  2:{ injection E as <- <-. split_and!; [done..|]. right. split; [done|].
      eapply extends_input; try done. intros s Hm'. congruence. }
  pose proof (plan_gap_guard (ss_maximum st) _ Bs) as [Gd Gu]. rewrite Gd in E.
  destruct (ss_maximum st + 1 <? r_SourceSequence input) eqn:C; to_prop.
  - rewrite Gu in E by done. injection E as <- <-. split_and!; [done..|]. right. split; [done|]. by apply extends_gap.
  - injection E as <- <-. split_and!; [done..|]. right. split; [done|]. eapply extends_input; try done. intros s _ B. lia.
Qed.

(** ** The operations *)

(** A ledger in memory: it satisfies the invariant, or it has failed and its
    files hold the log. *)
Definition alive (w : LWorld) (stable log : list LedgerRecord) : Prop :=
  (l_failed (lw_ledger w) = None /\ inv o (lw_files w) (lw_ledger w) stable log) \/
  (is_Some (l_failed (lw_ledger w)) /\ disk_inv max (lw_files w) stable log).

Definition survives (w' : LWorld) (stable log : list LedgerRecord) : Prop :=
  exists stable' log', stable `prefix_of` stable' /\ log `prefix_of` log' /\ alive w' stable' log'.

Lemma kept_survives stable log w' : kept o stable log w' -> survives w' stable log.
Proof.
  intros (s & l & P1 & P2 & [(Fl & -> & I)|(Fl & D)]); [exists s, log|exists s, l]; split_and!; try done; [by left|by right].
Qed.

Lemma alive_survives w' stable log : alive w' stable log -> survives w' stable log.
Proof. intros A. by exists stable, log. Qed.

Lemma alive_idle w w' stable log : alive w stable log -> idle w w' -> alive w' stable log.
Proof. intros A [I1 I2]. unfold alive. by rewrite I1, I2. Qed.

Lemma alive_disk w stable log : alive w stable log -> disk_inv max (lw_files w) stable log.
Proof. intros [[_ I]|[_ D]]; [by eapply inv_disk|done]. Qed.

Lemma check_open_inv w r w' :
  check_open w = (r, w') ->
  w' = w /\ ((exists e, r = Err e) \/ (r = Ok tt /\ l_failed (lw_ledger w) = None /\ l_closed (lw_ledger w) = false)).
Proof.
  unfold check_open. intros E. lm_simpl E. destruct (l_closed (lw_ledger w)); cbn [negb] in E.
  { injection E as <- <-. split; [done|left; eauto]. }
  destruct (l_failed (lw_ledger w)) as [e|]; [unfold l_fail in E|unfold mret, LM_ret in E]; injection E as <- <-;
    (split; [done|]); [left; eauto|by right].
Qed.

(** The result of an append is the plan for its input, with cursors and hashes. *)
Definition appended (log : list LedgerRecord) (input : LedgerRecord) (result : AppendResult) : Prop :=
  exists records, spec_plan log input = (records, ar_Duplicate result) /\ Forall2 stored_as records (ar_Records result).

Lemma Append_inv stable log input w r w' :
  alive w stable log -> record_wf input -> l_head (lw_ledger w) + 3 < two64 ->
  Append input w = (r, w') ->
  (exists result, r = Ok result /\ ar_Records result <> [] /\ appended log input result /\
     l_failed (lw_ledger w) = None /\ l_failed (lw_ledger w') = None /\ alive w' (log ++ ar_Records result) (log ++ ar_Records result)) \/
  ((exists e, r = Err e) /\ survives w' stable log).
Proof.
  intros A W B E. unfold Append in E. rewrite LM_lift_bind in E. destruct (Record_Validate input) as [[]|e] eqn:V.
  2:{ injection E as <- <-. right. split; [eauto|by apply alive_survives]. }
  assert (Vi : input_ok input) by (split; [done|]; unfold Record_Validate in V; by inv_res V).
  lm_step E; destruct (ctx_err_inv _ _ _ Hc) as [I0 _]; clear Hc.
  2:{ right. split; [eauto|]. apply alive_survives. by eapply alive_idle. }
  pose proof (alive_idle _ _ _ _ A I0) as A0.
  lm_step E; destruct (check_open_inv _ _ _ Hc) as [-> Rc]; clear Hc.
  2:{ right. split; [eauto|by apply alive_survives]. }
  destruct Rc as [(? & ?)|(_ & Fl & _)]; [done|]. clear A.
  lm_step E; destruct (ctx_err_inv _ _ _ Hc) as [I1 _]; clear Hc.
  2:{ right. split; [eauto|]. apply alive_survives. by eapply alive_idle. }
  pose proof (alive_idle _ _ _ _ A0 I1) as A1. pose proof Fl as Fl0. rewrite (proj2 I0) in Fl0. rewrite <-(proj2 I1) in Fl.
  destruct A1 as [[_ I]|[[? X] _]]; [|congruence].
  assert (B1 : N.of_nat (length log) + 3 < two64).
  { rewrite <-(vw_head _ _ _ (proj1 I)), (proj2 I1), (proj2 I0). done. }
  lm_step E; destruct (plan_append_inv _ _ _ _ _ _ I Fl Vi Hc) as (I2 & Fl2 & Rp); clear Hc.
  2:{ right. split; [eauto|]. apply alive_survives. by left. }
  destruct Rp as [(? & ?)|(->%Ok_inj & Ex)]; [done|]. unfold appended.
  destruct (spec_plan log input) as [records dup]. destruct Ex as (Ne & Ln & Vr & Sd). cbn [fst] in *.
  lm_step E; destruct (appendBatchLocked_inv o o_ok _ _ _ _ _ _ I2 Fl2 Ne Vr ltac:(lia) Sd Hc)
    as [(stored & Er & Fs & Fl3 & I3)|[Er K]]; try (by destruct Er); try discriminate Er; clear Hc.
  - injection Er as ->. unfold mret, LM_ret in E. injection E as <- <-. left. eexists. split; [done|]. cbn. split; [by intros ->; inversion Fs; subst|]. split; [eauto|]. split_and!; [congruence|done|by left].
  - right. split; [eauto|]. by apply kept_survives.
Qed.

Lemma gap_envelope_wf envelope gap : record_wf envelope -> gap_wf gap -> record_wf (gap_envelope envelope gap).
Proof. intros [] G. split; cbn; try done. by intros g [= <-]. Qed.

Lemma AppendGap_run envelope gap w r w' :
  AppendGap envelope gap w = (r, w') ->
  exists ra w1, Append (gap_envelope envelope gap) w = (ra, w1) /\
  match ra with
  | Err e => r = Err e /\ w' = w1
  | Ok result =>
    match last (ar_Records result) with
    | Some z => r = Ok z /\ w' = w1
    | None => exists e, r = Err e /\ w' = w1
    end
  end.
Proof.
  unfold AppendGap. rewrite LM_bind_eq. destruct (Append (gap_envelope envelope gap) w) as [ra w1].
  intros E. exists ra, w1. split; [done|]. destruct ra as [result|e].
  - destruct (last (ar_Records result)); [|eexists]; injection E as <- <-; done.
  - by injection E as <- <-.
Qed.

Lemma AppendGap_inv stable log envelope gap w r w' :
  alive w stable log -> record_wf envelope -> gap_wf gap -> l_head (lw_ledger w) + 3 < two64 ->
  AppendGap envelope gap w = (r, w') ->
  (exists record more, r = Ok record /\ alive w' (log ++ more ++ [record]) (log ++ more ++ [record])) \/
  ((exists e, r = Err e) /\ survives w' stable log).
Proof.
  intros A W G B E. pose proof (gap_envelope_wf _ _ W G) as Wg.
  destruct (AppendGap_run _ _ _ _ _ E) as (ra & w1 & Ea & R). clear E.
  destruct (Append_inv _ _ _ _ _ _ A Wg B Ea) as [(res0 & -> & Ne & _ & _ & _ & A1)|[[e ->] S]].
  - destruct (last (ar_Records res0)) as [z|] eqn:Z; [|by apply last_None in Z].
    destruct R as [-> ->]. left. apply last_Some in Z as [more Z]. exists z, more. by rewrite <-Z.
  - destruct R as [-> ->]. right. eauto.
Qed.

Lemma Rotate_inv stable log w r w' :
  alive w stable log -> nonempty_active (lw_ledger w) -> Rotate w = (r, w') -> survives w' stable log.
Proof.
  intros A Ne E. unfold Rotate in E. lm_step E; destruct (check_open_inv _ _ _ Hc) as [-> Rc]; clear Hc.
  2:{ by apply alive_survives. }
  destruct Rc as [(? & ?)|(_ & Fl & _)]; [done|]. destruct A as [[_ I]|[[? X] _]]; [|congruence]. lm_simpl E.
  destruct (l_active (lw_ledger w)) as [i|] eqn:Ac.
  - lm_step E; destruct (finalizeActiveLocked_inv _ _ _ _ _ _ I Fl Ne Hc) as [K _]; clear Hc.
    + injection E as <- <-. by apply kept_survives.
    + by apply kept_survives.
  - assert (Dk : forall w1, lw_files w1 = lw_files w -> (exists b, lw_ledger w1 = (lw_ledger w) <| l_indexErr := b |>) ->
      survives w1 stable log).
    { intros w1 Ef [b El]. apply alive_survives. left. rewrite Ef, El. split; [done|]. by eapply inv_same_core; [|exact I]. }
    destruct (l_indexErr (lw_ledger w)).
    + lm_step E; destruct (flushIndexLocked_inv _ _ _ Hc) as (F1 & F2 & _); [injection E as <- <-|]; by apply Dk.
    + injection E as <- <-. apply alive_survives. by left.
Qed.

Lemma Close_inv stable log w r w' :
  alive w stable log -> nonempty_active (lw_ledger w) -> Close w = (r, w') -> survives w' stable log.
Proof.
  intros A Ne E. unfold Close in E. lm_simpl E. destruct (l_closed (lw_ledger w)).
  { injection E as <- <-. by apply alive_survives. }
  destruct (l_failed (lw_ledger w)) as [e|] eqn:Fl.
  - assert (D : disk_inv max (lw_files w) stable log) by (by apply alive_disk).
    assert (Done : forall w1 r1, lw_files w1 = lw_files w -> l_failed (lw_ledger w1) = Some e ->
      (_ ← l_modify (fun l => l <| l_closed := true |> <| l_hub := hub_close (l_hub l) e |>); l_fail e : LM unit) w1 = (r1, w') ->
      survives w' stable log).
    { intros w1 r1 Ef El E1. lm_simpl E1. unfold l_fail in E1. injection E1 as _ <-. apply alive_survives. right. cbn.
      rewrite El, Ef. split; [by eexists|done]. }
    destruct (l_active (lw_ledger w)).
    + rewrite LM_bind_eq in E. unfold attempt at 1 in E. rewrite LM_bind_eq in E.
      destruct (fs_close w) as [c w1] eqn:Ec. destruct (fs_simple_inv _ _ _ _ Ec) as [[C1 C2] _].
      cbv beta iota delta [l_modify] in E. refine (Done _ _ _ _ E); cbn; congruence.
    + lm_simpl E. by refine (Done _ _ _ _ E).
  - destruct A as [[_ I]|[[? X] _]]; [|congruence].
    lm_step E; destruct (finalizeActiveLocked_inv _ _ _ _ _ _ I Fl Ne Hc) as [K R]; clear Hc; [|by apply kept_survives].
    destruct x, (R eq_refl) as [Fl1 _]. apply kept_survives in K as (s & l & P1 & P2 & [[_ I1]|[[? X] _]]); [|congruence].
    assert (Fin : forall w1, lw_files w1 = lw_files w0 -> (exists b, lw_ledger w1 = (lw_ledger w0) <| l_indexErr := b |>) ->
      alive w1 s l /\ alive (w1 <| lw_ledger := (lw_ledger w1) <| l_closed := true |> <| l_hub := hub_close (l_hub (lw_ledger w1)) ErrClosed |> |>) s l).
    { intros w1 Ef [b El]. split; left; cbn; rewrite Ef, El; (split; [done|]); by eapply inv_same_core; [|exact I1]. }
    lm_simpl E. exists s, l. split_and!; [done..|]. destruct (l_indexErr (lw_ledger w0)).
    + lm_step E; destruct (flushIndexLocked_inv _ _ _ Hc) as (F1 & F2 & _); [|by apply Fin].
      unfold l_modify in E. injection E as <- <-. by apply Fin.
    + lm_simpl E. unfold l_modify in E. injection E as <- <-. apply Fin; [done|].
      exists (l_indexErr (lw_ledger w0)). by destruct (lw_ledger w0).
Qed.
End Safety.
