(* ===== verification/LedgerRuns.v ===== *)
(** * Runs of the observation ledger

    [reach]: the states a ledger directory goes through when its process opens
    it, appends, rotates, reads, closes, is killed, and when the machine
    crashes, with any calls failing.  Acknowledged records stay readable, the
    log applies no source sequence twice, and reads are slices of one log. *)
From S2P Require Import Prelude Sha256 GoStrings Utf8Facts Frames LedgerCodec Subscriptions Ledger LedgerDisk LedgerIndex LedgerRecovery LedgerAppend.
From S2P Require Import LedgerSafety.
Local Open Scope N_scope.

(** ** Crashes *)
Lemma torn_prefix max t s : torn max t -> s `prefix_of` t -> torn max s.
Proof.
  intros [->|(f & b & k & Hf & M & -> & Nk)] [u P]; [left|right].
  - by destruct s.
  - subst t. exists f, ((s ++ u) ++ k), (u ++ k). split_and!; try done.
    + by rewrite app_assoc.
    + destruct u; [done|by intros [=]].
Qed.

Lemma prefix_app_split {A} (x a b : list A) : x `prefix_of` a ++ b ->
  x `prefix_of` a \/ exists y, x = a ++ y /\ y `prefix_of` b.
Proof.
  revert x; induction a as [|z a IH]; intros x P; [right; by exists x|].
  destruct x as [|y x]; [left; apply prefix_nil|]. cbn in P. pose proof (prefix_cons_inv_1 _ _ _ _ P) as ->.
  apply prefix_cons_inv_2 in P. destruct (IH _ P) as [Q|(k & -> & Q)]; [left; by apply prefix_cons|right; by exists k].
Qed.

Lemma crash_clean b x : crash_file (clean_file b) x -> x = b.
Proof.
  intros [[P|P] Q]; cbn in *; (destruct (Q b) as [k ->]; [done..|]); destruct P as [j P]; rewrite <-app_assoc in P;
    apply (f_equal length) in P; rewrite !length_app in P; destruct k; cbn in P; try lia; by rewrite app_nil_r.
Qed.

Lemma crash_open max sealed f stable loose b bl tail x :
  max < 4294967296 -> open_file max sealed f stable loose b bl tail -> crash_file f x ->
  exists kept bk t, kept `prefix_of` loose /\
    open_file max sealed (clean_file x) (stable ++ kept) [] (b ++ bk) [] t.
Proof.
  intros B (F1 & F2 & C & T & t & D & Tt) [P Q].
  assert (exists y, x = b ++ y) as [y ->].
  { destruct (Q b) as [y ->]; [rewrite C; by eexists|rewrite D; by eexists|]. by exists y. }
  assert (exists kept bk s, kept `prefix_of` loose /\ y = bk ++ s /\ torn max s /\
    framed max (end_hash (next_hash sealed) stable) (next_cursor sealed + N.of_nat (length stable)) kept bk)
    as (kept & bk & s & Pk & -> & Ts & Fk).
  { rewrite C, D in P. destruct P as [P|P]; apply prefix_app_inv in P.
    - apply prefix_app_split in P as [P|(y' & -> & P)].
      + destruct (framed_prefix _ _ _ _ _ _ B F2 P) as (r1 & r2 & b1 & b2 & s & -> & G1 & _ & -> & -> & _ & Ts).
        exists r1, b1, s. split_and!; try done. by eexists.
      + exists loose, bl, y'. split_and!; try done. exact (torn_prefix _ _ _ T P).
    - exists [], [], y. split_and!; [apply prefix_nil|done|exact (torn_prefix _ _ _ Tt P)|constructor]. }
  exists kept, bk, s. split; [done|]. split_and!; [by eapply framed_app|constructor|cbn; by rewrite app_assoc|done|].
  exists s. cbn. split; [by rewrite app_assoc|done].
Qed.

Lemma crash_sealed files files' max prev c sealed metas :
  crash_files files files' -> sealed_ok files max prev c sealed metas -> sealed_ok files' max prev c sealed metas.
Proof.
  intros Cr. revert prev c metas; induction sealed as [|rs rest IH]; intros prev c [|m ms]; cbn; try done.
  intros (Ne & (b & F & P & E) & S). split; [done|]. split; [|by apply IH]. exists b. split_and!; try done.
  pose proof (Cr (segmentName c true)) as X. rewrite P in X. destruct (files' !! segmentName c true); [|done].
  by destruct X as (x & ->%crash_clean & ->).
Qed.

Lemma crash_disk files files' max stable log :
  max < 4294967296 -> crash_files files files' -> disk_inv max files stable log ->
  exists log', stable `prefix_of` log' /\ log' `prefix_of` log /\ disk_inv max files' log' log'.
Proof.
  intros B Cr (S & sealed & metas & op & [Ls Lo Ln Lb] & -> & ->).
  assert (Hn : forall op', all_names sealed op' = all_names sealed op -> forall name, is_segment_name name = true ->
    (is_Some (files' !! name) <-> name ∈ all_names sealed op')).
  { intros op' -> name Sn. rewrite <-Ln by done. specialize (Cr name).
    destruct (files !! name), (files' !! name); try done; (split; intros [? ?]; try done; by eexists). }
  destruct op as [[st ls]|].
  - destruct Lo as (f & b & bl & tail & P & O). pose proof (Cr (open_name sealed)) as X. rewrite P in X.
    destruct (files' !! open_name sealed) as [f'|] eqn:P'; [|done]. destruct X as (x & Cx & ->).
    destruct (crash_open _ _ _ _ _ _ _ _ _ B O Cx) as (kept & bk & t & [k ->] & O').
    exists (log_of sealed (Some (st ++ kept, []))). unfold stable_of, log_of in *. rewrite app_nil_r.
    assert (Pl : concat sealed ++ st ++ kept `prefix_of` concat sealed ++ st ++ kept ++ k)
      by (exists k; by rewrite <-!app_assoc).
    split; [apply prefix_app; by eexists|]. split; [done|]. split.
    + intros p Hp. apply S. by etrans.
    + exists sealed, metas, (Some (st ++ kept, [])). unfold log_of. rewrite app_nil_r. split; [|done]. split.
      * by eapply crash_sealed.
      * by exists (clean_file x), (b ++ bk), [], t.
      * by apply Hn.
      * unfold log_of. rewrite app_nil_r. rewrite !length_app in *. lia.
  - exists (concat sealed ++ []). split; [done|]. split; [done|]. split; [done|]. exists sealed, metas, None.
    split; [|done]. split; [by eapply crash_sealed|done|by apply Hn|done].
Qed.

(** ** Reads *)
Lemma framed_cursor max prev c rs b i r :
  framed max prev c rs b -> rs !! i = Some r -> r_Cursor r = c + N.of_nat i.
Proof.
  intros F. revert i; induction F as [|prev c x rs wire frame b W V C Z M Fr H IH]; intros i L; [done|].
  destruct i as [|i]; cbn in L; [injection L as <-; lia|]. rewrite (IH _ L). lia.
Qed.

Definition numbered (log : list LedgerRecord) : Prop :=
  forall i r, log !! i = Some r -> r_Cursor r = 1 + N.of_nat i.

Lemma disk_numbered max files stable log : disk_inv max files stable log -> numbered log.
Proof.
  intros (_ & sealed & metas & op & [Ls Lo _ _] & _ & ->).
  destruct (sealed_ok_framed _ _ _ _ _ _ Ls) as (b & F). intros i r L.
  enough (exists b', framed max zero_chain 1 (log_of sealed op) b') as (b' & F') by (by eapply framed_cursor).
  unfold log_of. destruct op as [[st ls]|]; [|rewrite app_nil_r; eauto].
  destruct Lo as (f & b1 & bl & tail & _ & F1 & F2 & _). exists (b ++ b1 ++ bl).
  eapply framed_app; [done|]. by eapply framed_app.
Qed.

Lemma collect_records_spec after through limit found rs :
  ((0 < limit)%Z -> (Z.of_nat (length found) < limit)%Z) ->
  fst (collect_records after through limit found rs) =
  let all := found ++ List.filter (in_window after through) rs in
  if (0 <? limit)%Z then take (Z.to_nat limit) all else all.
Proof.
  cbv zeta. revert found; induction rs as [|r rs IH]; intros found L; cbn [collect_records List.filter].
  { rewrite app_nil_r. destruct (Z.ltb_spec 0 limit); [|done]. cbn. rewrite take_ge; [done|]. specialize (L ltac:(lia)). lia. }
  destruct (in_window after through r); [|by apply IH].
  destruct (Z.ltb_spec 0 limit) as [Lp|Lp]; cbn [andb].
  - specialize (L Lp). destruct (Z.leb_spec limit (Z.of_nat (length (found ++ [r])))) as [G|G].
    + replace (found ++ r :: List.filter (in_window after through) rs) with ((found ++ [r]) ++ List.filter (in_window after through) rs)
        by (by rewrite <-app_assoc).
      rewrite length_app in G; cbn [length] in G. cbn [fst]. rewrite take_app_le, take_ge; [done|rewrite length_app; cbn [length]; lia..].
    + rewrite IH by lia. destruct (Z.ltb_spec 0 limit); [|lia]. by rewrite <-app_assoc.
  - rewrite IH by lia. destruct (Z.ltb_spec 0 limit); [lia|]. by rewrite <-app_assoc.
Qed.

Lemma window_numbered c log after through :
  (forall i r, log !! i = Some r -> r_Cursor r = c + N.of_nat i) ->
  c + N.of_nat (length log) <= through + 1 ->
  List.filter (in_window after through) log = drop (N.to_nat (after + 1 - c)) log.
Proof.
  revert c; induction log as [|r log IH]; intros c Nb T; cbn [List.filter]; [by rewrite drop_nil|].
  cbn [length] in T.
  assert (Cr : r_Cursor r = c) by (rewrite (Nb 0%nat r eq_refl); lia).
  rewrite (IH (c + 1)); [|intros i x L; rewrite (Nb (S i) x L); lia|lia]. unfold in_window. rewrite Cr.
  destruct (N.ltb_spec after c) as [L|L]; cbn [andb].
  - destruct (N.leb_spec c through); [|lia].
    replace (N.to_nat (after + 1 - c)) with 0%nat by lia. by replace (N.to_nat (after + 1 - (c + 1))) with 0%nat by lia.
  - by replace (N.to_nat (after + 1 - c)) with (S (N.to_nat (after + 1 - (c + 1)))) by lia.
Qed.

(** The page of a log that [ReadAfter] returns. *)
Definition page (log : list LedgerRecord) (after : N) (limit : Z) : list LedgerRecord :=
  let rest := drop (N.to_nat after) log in
  if (0 <? limit)%Z then take (Z.to_nat limit) rest else rest.

Section Reads.
Context `{DiskEnv}.
Hypothesis reads_ok : forall n, io_read n = None.
Variable o : Options.
Hypothesis o_ok : options_ok o.

Lemma readAfterLocked_inv stable log after limit w r w' :
  inv o (lw_files w) (lw_ledger w) stable log ->
  readAfterLocked after (l_head (lw_ledger w)) limit w = (r, w') ->
  idle w w' /\ (r = Ok (page log after limit) \/ exists e, r = Err e /\ faulted e).
Proof.
  intros I E. unfold readAfterLocked in E. lm_simpl E. rewrite (vw_options _ _ _ (proj1 I)) in E.
  destruct (inv_readable o _ _ _ _ I) as (chunks & Rd & Lg & B).
  eapply (read_loop_inv reads_ok o o_ok) in E as [Id R]; [|done|apply zero_chain_ok|by rewrite Lg].
  split; [done|]. destruct R as [->|?]; [left|by right]. f_equal. rewrite Lg, collect_records_spec by (cbn; lia).
  rewrite (window_numbered 1); [cbn [app]; unfold page; by replace (after + 1 - 1) with after by lia| |].
  - by apply (disk_numbered _ _ _ _ (inv_disk _ _ _ _ _ I)).
  - rewrite (vw_head _ _ _ (proj1 I)). lia.
Qed.

Lemma ReadAfter_inv stable log after limit w r w' :
  alive o w stable log -> ReadAfter after limit w = (r, w') ->
  idle w w' /\ (l_failed (lw_ledger w) = None -> after <= l_head (lw_ledger w) ->
    r = Ok (page log after limit) \/ exists e, r = Err e /\ faulted e).
Proof.
  intros A E. unfold ReadAfter in E. lm_simpl E.
  destruct (N.ltb_spec (l_head (lw_ledger w)) after) as [L|L]; cbn [negb] in E.
  { injection E as <- <-. split; [done|]. lia. }
  destruct (l_failed (lw_ledger w)) as [e|] eqn:Fl.
  { injection E as <- <-. split; [done|]. done. }
  lm_simpl E. destruct A as [[_ I]|[[? X] _]]; [|congruence].
  destruct (readAfterLocked_inv _ _ _ _ _ _ _ I E) as [Id R]. done.
Qed.

Lemma alive_hub w stable log hub :
  alive o w stable log -> alive o (w <| lw_ledger := (lw_ledger w) <| l_hub := hub |> |>) stable log.
Proof. intros [[Fl I]|[Fl D]]; [left|by right]. split; [done|]. by eapply inv_same_core; [|exact I]. Qed.

Lemma Subscribe_inv stable log after capacity w r w' :
  alive o w stable log -> Subscribe after capacity w = (r, w') -> alive o w' stable log.
Proof.
  intros A E. unfold Subscribe in E. lm_simpl E.
  destruct (1 <=? _)%Z; [|by injection E as <- <-].
  lm_step E; destruct (check_open_inv _ _ _ Hc) as [-> Rc]; clear Hc; [|done].
  destruct Rc as [(? & ?)|(_ & Fl & _)]; [done|]. pose proof A as [[_ I]|[[? X] _]]; [|congruence].
  lm_simpl E. destruct (negb _); [|by injection E as <- <-].
  lm_step E; destruct (readAfterLocked_inv _ _ _ _ _ _ _ I Hc) as [Id _]; clear Hc; pose proof (alive_idle _ _ _ _ _ A Id) as A1; [|done].
  rewrite LM_lift_bind in E. destruct (hub_add _ _) as [[id hub]|e]; [|by injection E as <- <-].
  lm_simpl E. injection E as <- <-. by apply alive_hub.
Qed.
End Reads.

(** ** Runs *)

(** A machine whose reads report what the files hold: an error of a read is
    the subject of [LedgerHazards]. *)
Definition faithful_reads (env : DiskEnv) : Prop := forall n, @io_read env n = None.
(** A machine none of whose calls fails. *)
Definition calm (env : DiskEnv) : Prop :=
  faithful_reads env /\ (forall n, @io_fault env n = false) /\ forall n, @ctx_canceled env n = false.

Section Runs.
Variable opts : Options.

(** [reach running w acked]: the directory and the memory of a ledger after a
    run; [running] whether a process holds it open, [acked] the records whose
    append returned without an error.  Every step has its own environment. *)
Inductive reach : bool -> LWorld -> list LedgerRecord -> Prop :=
| reach_start w : (forall name, is_segment_name name = true -> lw_files w !! name = None) -> reach false w []
| reach_open env w acked r w' :
    reach false w acked -> faithful_reads env -> @Open env opts w = (r, w') -> reach (is_ok r) w' acked
| reach_append env input w acked r w' :
    reach true w acked -> faithful_reads env -> record_wf input -> l_head (lw_ledger w) + 3 < two64 ->
    @Append env input w = (r, w') ->
    reach true w' (acked ++ match r with Ok result => ar_Records result | Err _ => [] end)
| reach_gap env envelope gap w acked r w' :
    reach true w acked -> faithful_reads env -> record_wf envelope -> gap_wf gap ->
    l_head (lw_ledger w) + 3 < two64 -> @AppendGap env envelope gap w = (r, w') ->
    reach true w' (acked ++ match r with Ok record => [record] | Err _ => [] end)
| reach_rotate env w acked r w' :
    reach true w acked -> nonempty_active (lw_ledger w) -> @Rotate env w = (r, w') -> reach true w' acked
| reach_read env after limit w acked r w' :
    reach true w acked -> faithful_reads env -> @ReadAfter env after limit w = (r, w') -> reach true w' acked
| reach_subscribe env after capacity w acked r w' :
    reach true w acked -> faithful_reads env -> @Subscribe env after capacity w = (r, w') -> reach true w' acked
| reach_consume hub w acked :
    reach true w acked -> reach true (w <| lw_ledger := (lw_ledger w) <| l_hub := hub |> |>) acked
| reach_close env w acked r w' :
    reach true w acked -> nonempty_active (lw_ledger w) -> @Close env w = (r, w') -> reach true w' acked
| reach_kill w acked w' : reach true w acked -> lw_files w' = lw_files w -> reach false w' acked
| reach_crash running w acked w' :
    reach running w acked -> crash_files (lw_files w) (lw_files w') -> reach false w' acked.

Variable o : Options.
Hypothesis opts_ok : normalizeOptions opts = Ok o.
Hypothesis payload_width : o_MaxFramePayload opts < 4294967296.

Definition holds (acked log : list LedgerRecord) : Prop :=
  forall r, r ∈ acked -> 0 < r_Cursor r /\ log !! (N.to_nat (r_Cursor r) - 1)%nat = Some r.

Lemma holds_prefix acked log log' : holds acked log -> log `prefix_of` log' -> holds acked log'.
Proof.
  intros Hd P r Hr. destruct (Hd r Hr) as [C L]. split; [done|]. by eapply prefix_lookup_Some.
Qed.

Lemma holds_app acked log more :
  numbered (log ++ more) -> holds acked log -> holds (acked ++ more) (log ++ more).
Proof.
  intros Nb Hd r [Hr|Hr]%elem_of_app.
  - eapply holds_prefix; [done|by eexists|done].
  - apply list_elem_of_lookup in Hr as [i Hi].
    assert (L : (log ++ more) !! (length log + i)%nat = Some r) by (by rewrite lookup_app_r, Nat.add_sub' by lia).
    rewrite (Nb _ _ L). split; [lia|]. by replace (N.to_nat (1 + N.of_nat (length log + i)) - 1)%nat with (length log + i)%nat by lia.
Qed.

Definition disk (w : LWorld) (acked : list LedgerRecord) : Prop :=
  exists stable log, disk_inv (o_MaxFramePayload o) (lw_files w) stable log /\ holds acked stable.
Definition live (w : LWorld) (acked : list LedgerRecord) : Prop :=
  exists stable log, alive o w stable log /\ holds acked stable.

Lemma disk_prefix max files stable log : disk_inv max files stable log -> stable `prefix_of` log.
Proof.
  intros (_ & sealed & metas & op & _ & -> & ->). unfold stable_of, log_of. apply prefix_app.
  destruct op as [[]|]; [by apply prefix_app_r|done].
Qed.

Lemma o_fine : options_ok o.
Proof. by eapply normalizeOptions_ok. Qed.

Lemma live_survives w' stable log acked :
  holds acked stable -> survives o w' stable log -> live w' acked.
Proof. intros Hd (s & l & P1 & P2 & A). exists s, l. split; [done|]. by eapply holds_prefix. Qed.

Lemma live_disk w acked : live w acked -> disk w acked.
Proof. intros (s & l & A & Hd). exists s, l. split; [by apply alive_disk|done]. Qed.

Lemma live_appended w acked stable log more :
  holds acked stable -> stable `prefix_of` log -> alive o w (log ++ more) (log ++ more) -> live w (acked ++ more).
Proof.
  intros Hd P A. exists (log ++ more), (log ++ more). split; [done|].
  apply holds_app; [|by eapply holds_prefix]. by apply (disk_numbered _ _ _ _ (alive_disk _ _ _ _ A)).
Qed.

Lemma live_append env input w acked r w' :
  faithful_reads env -> live w acked -> record_wf input -> l_head (lw_ledger w) + 3 < two64 ->
  @Append env input w = (r, w') ->
  live w' (acked ++ match r with Ok result => ar_Records result | Err _ => [] end).
Proof.
  intros F (s & l & A & Hd) W B E.
  destruct (Append_inv F o o_fine _ _ _ _ _ _ A W B E) as [(res & -> & _ & _ & _ & _ & A')|[[e ->] S]].
  - eapply live_appended; [done|by eapply disk_prefix, alive_disk|done].
  - rewrite app_nil_r. by eapply live_survives.
Qed.

Lemma live_gap env envelope gap w acked r w' :
  faithful_reads env -> live w acked -> record_wf envelope -> gap_wf gap -> l_head (lw_ledger w) + 3 < two64 ->
  @AppendGap env envelope gap w = (r, w') ->
  live w' (acked ++ match r with Ok record => [record] | Err _ => [] end).
Proof.
  intros F (s & l & A & Hd) W G B E.
  destruct (AppendGap_inv F o o_fine _ _ _ _ _ _ _ A W G B E) as [(z & more & -> & A')|[[e ->] S]].
  - destruct (live_appended w' acked s l (more ++ [z])) as (s' & l' & A2 & H2); [done|by eapply disk_prefix, alive_disk|done|].
    exists s', l'. split; [done|]. intros r [Hr|Hr]%elem_of_app; apply H2; rewrite !elem_of_app; tauto.
  - rewrite app_nil_r. by eapply live_survives.
Qed.

Lemma disk_empty max files :
  (forall name, is_segment_name name = true -> files !! name = None) -> disk_inv max files [] [].
Proof.
  intros Em. split; [intros p ->%prefix_nil_inv; apply good_nil|]. exists [], [], None. split; [|done]. split; try done.
  intros name Sn. rewrite (Em _ Sn). cbn. split; [by intros []|by intros ?%elem_of_nil].
Qed.

Lemma reach_inv running w acked : reach running w acked -> if running then live w acked else disk w acked.
Proof.
  pose proof o_fine as Ok.
  induction 1 as [w Em|env w acked r w' _ (s & l & D & Hd) F E|env input w acked r w' _ L F W B E
    |env envelope gap w acked r w' _ L F W G B E|env w acked r w' _ (s & l & A & Hd) Ne E
    |env after limit w acked r w' _ (s & l & A & Hd) F E|env after capacity w acked r w' _ (s & l & A & Hd) F E
    |hub w acked _ (s & l & A & Hd)|env w acked r w' _ (s & l & A & Hd) Ne E|w acked w' _ L Ef|running w acked w' _ L Cr].
  - exists [], []. split; [by apply disk_empty|]. by intros r ?%elem_of_nil.
  - destruct (Open_inv F o Ok opts _ _ _ _ _ opts_ok D E) as (s' & P & [(e & -> & _ & D')|(rep & -> & Fl & _ & I)]);
      exists s', l; (split; [|by eapply holds_prefix]); [done|by left].
  - by eapply live_append.
  - by eapply live_gap.
  - eapply live_survives; [done|]. by eapply Rotate_inv.
  - exists s, l. split; [|done]. eapply alive_idle; [done|]. by eapply ReadAfter_inv.
  - exists s, l. split; [|done]. by eapply Subscribe_inv.
  - exists s, l. split; [|done]. by apply alive_hub.
  - eapply live_survives; [done|]. by eapply Close_inv.
  - apply live_disk in L as (s & l & D & Hd). exists s, l. by rewrite Ef.
  - assert (exists s l, disk_inv (o_MaxFramePayload o) (lw_files w) s l /\ holds acked s) as (s & l & D & Hd)
      by (destruct running; [by apply live_disk|done]).
    destruct (crash_disk _ _ _ _ _ (ok_width _ Ok) Cr D) as (l' & P1 & _ & D'). exists l', l'.
    split; [done|]. by eapply holds_prefix.
Qed.
End Runs.

(** ** What a user of the ledger sees *)

(** Every read of the ledger returns a page of [log]. *)
Definition reads_as (w : LWorld) (log : list LedgerRecord) : Prop :=
  l_head (lw_ledger w) = N.of_nat (length log) /\
  forall env after limit, calm env -> after <= l_head (lw_ledger w) ->
    exists w', @ReadAfter env after limit w = (Ok (page log after limit), w').

Lemma calm_not_faulted env e : calm env -> ~ @faulted env e.
Proof. intros (_ & F & _) (c & n & _ & E). by rewrite F in E. Qed.

Lemma alive_reads_as o w stable log :
  options_ok o -> l_failed (lw_ledger w) = None -> alive o w stable log -> reads_as w log.
Proof.
  intros Ok Fl A. pose proof A as [[_ I]|[[? X] _]]; [|congruence]. split; [by apply (vw_head _ _ _ (proj1 I))|].
  intros env after limit C Le. destruct (@ReadAfter env after limit w) as [r w'] eqn:E. exists w'.
  destruct (ReadAfter_inv (proj1 C) o Ok _ _ _ _ _ _ _ A E) as [_ R].
  destruct (R Fl Le) as [->|(e & _ & F)]; [done|]. by destruct (calm_not_faulted _ _ C F).
Qed.

Lemma alive_good o w stable log : l_failed (lw_ledger w) = None -> alive o w stable log -> good log /\ numbered log.
Proof.
  intros Fl A. pose proof A as [[_ (_ & S & _)]|[[? X] _]]; [|congruence].
  split; [by apply S|]. by apply (disk_numbered _ _ _ _ (alive_disk _ _ _ _ A)).
Qed.

(** C14: Whatever calls fail, whenever the process is killed and whatever a
    crash leaves of the unsynced bytes, a ledger directory can be reopened, and
    reading it returns, at the position of its cursor, every record whose
    [Append] or [AppendGap] returned without an error.  The runs cover opening,
    appending, rotating, reading, subscribing and closing in any order; they
    leave out errors of read calls and the rotation of an active segment that
    holds no record. *)
Theorem acknowledged_records_survive opts o env running w acked :
  normalizeOptions opts = Ok o -> o_MaxFramePayload opts < 4294967296 ->
  reach opts running w acked -> calm env ->
  exists report w1 log w2,
    @Open env opts w = (Ok report, w1) /\ @ReadAfter env 0 0 w1 = (Ok log, w2) /\ holds acked log.
Proof.
  intros No Pw R C. pose proof (o_fine _ _ No Pw) as Ok.
  assert (disk o w acked) as (s & l & D & Hd)
    by (pose proof (reach_inv _ _ No Pw _ _ _ R) as X; destruct running; [by apply live_disk|done]).
  destruct (@Open env opts w) as [r w1] eqn:E.
  destruct (Open_inv (proj1 C) o Ok opts _ _ _ _ _ No D E) as (s' & P & [(e & _ & F & _)|(rep & -> & Fl & _ & I)]).
  { by destruct (calm_not_faulted _ _ C F). }
  destruct (alive_reads_as o w1 s' l Ok Fl) as [Hh Rd]; [by left|].
  destruct (Rd env 0 0%Z C) as [w2 E2]; [lia|]. exists rep, w1, l, w2. split_and!; [done|done|].
  eapply holds_prefix; [done|]. etrans; [done|]. by eapply disk_prefix, inv_disk.
Qed.

(** C16: The reads of a ledger that is in use are pages of one log: the records
    are numbered from 1 without holes up to the head, the log holds every
    acknowledged record, no source applies a sequence twice, and every sequence
    between the first and the greatest one a source applied is applied or
    declared missing by a gap record. *)
Theorem ledger_reads_one_log opts o w acked :
  normalizeOptions opts = Ok o -> o_MaxFramePayload opts < 4294967296 ->
  reach opts true w acked -> l_failed (lw_ledger w) = None ->
  exists log, reads_as w log /\ numbered log /\ holds acked log /\ good log.
Proof.
  intros No Pw R Fl. destruct (reach_inv _ _ No Pw _ _ _ R) as (s & l & A & Hd).
  destruct (alive_good _ _ _ _ Fl A) as [G Nb]. exists l. split_and!; [|done| |done].
  - eapply alive_reads_as; try done. by eapply o_fine.
  - eapply holds_prefix; [done|]. by eapply disk_prefix, alive_disk.
Qed.

(** C15: [Append] implements the log: what it stores is the plan for its input
    computed from the whole log (the input, a duplicate record for a sequence
    the source has applied before, or a gap and the input), although the code
    looks at a bounded window of sequences in memory and searches the segments
    for older ones; afterwards the ledger reads as the log extended by what was
    stored. *)
Theorem append_refines_log opts o env w acked input result w' :
  normalizeOptions opts = Ok o -> o_MaxFramePayload opts < 4294967296 ->
  reach opts true w acked -> faithful_reads env -> record_wf input -> l_head (lw_ledger w) + 3 < two64 ->
  @Append env input w = (Ok result, w') ->
  exists log, reads_as w log /\ appended log input result /\
    reads_as w' (log ++ ar_Records result).
Proof.
  intros No Pw R F W B E. pose proof (o_fine _ _ No Pw) as Ok.
  destruct (reach_inv _ _ No Pw _ _ _ R) as (s & l & A & Hd).
  destruct (Append_inv F o Ok _ _ _ _ _ _ A W B E) as [(res & [= <-] & _ & Ap & Fl & Fl' & A')|[[e ?] _]]; [|done].
  exists l.   split; [by eapply alive_reads_as|]. split; [done|]. by eapply alive_reads_as.
Qed.
