(* ===== verification/LedgerHazards.v ===== *)
(** * The ledger at work, and what its theorems leave out

    Concrete runs of the ledger.  The theorems of [LedgerRuns] and
    [Subscriptions] are applied to states of these runs, where their hypotheses
    are evaluated; three further runs show what the theorems leave out: an
    empty segment that is finalized, an error of a read, and records that are
    adopted without having been synced. *)
From S2P Require Import Prelude Sha256 GoStrings Utf8Facts Frames LedgerCodec Subscriptions Ledger LedgerDisk LedgerIndex LedgerRecovery LedgerAppend.
From S2P Require Import LedgerSafety LedgerRuns.
Local Open Scope N_scope.

Module LedgerDemo.
(** ** Environments *)
Definition quiet : DiskEnv :=
  {| io_fault _ := false; io_partial _ := 0%nat; io_read _ := None; ctx_canceled _ := false |}.
(** The calls at these ticks fail. *)
Definition failing (ticks : list nat) : DiskEnv :=
  {| io_fault n := bool_decide (n ∈ ticks); io_partial _ := 0%nat; io_read _ := None; ctx_canceled _ := false |}.
(** Every read of a file fails after ten bytes. *)
Definition misreading : DiskEnv :=
  {| io_fault _ := false; io_partial _ := 0%nat; io_read _ := Some 10%nat; ctx_canceled _ := false |}.

Lemma quiet_calm : calm quiet.
Proof. by split_and!. Qed.
Lemma failing_faithful ticks : faithful_reads (failing ticks).
Proof. by intros n. Qed.

(** ** Inputs *)
Definition opts : Options := mkOptions "ledger" 0 0 0 0.
Definition chosen : Options := mkOptions "ledger" 67108864 8388608 128 4096.

Definition observation (source : string) (sequence : N) (payload : list N) : LedgerRecord :=
  mkRecord 0 RecordObservation "event" (mkIdentity "" "" "" 0 "" "" 0 "" "") "family" "subject" source "i" true sequence
    5 6 "clock" 0 (mkCollector "collector" 0 "") (mkProcess 0 0) "" "" 0 "" (mkCausal "" "" "" 0) payload None None
    zero_chain.

Lemma observation_wf source s payload : s < two64 -> is_bytes payload -> record_wf (observation source s payload).
Proof. intros Hs Hp. split; cbn; done. Qed.

(** ** Runs *)
Definition empty_dir : LWorld := mkLWorld ∅ None 0 (new_ledger opts).
Definition after_run {A} (m : LM A) (w : LWorld) : LWorld := snd (m w).
Definition outcome {A} (m : LM A) (w : LWorld) : res lerr A := fst (m w).

Definition append (env : DiskEnv) (s : N) : LM AppendResult := @Append env (observation "probe" s [1; 2]).

Definition w_open : LWorld := after_run (@Open quiet opts) empty_dir.
Definition w_three : LWorld := after_run (append quiet 3) w_open.
Definition w_six : LWorld := after_run (append quiet 6) w_three.
Definition w_rotated : LWorld := after_run (@Rotate quiet) w_six.
Definition w_again : LWorld := after_run (append quiet 3) w_rotated.

Definition stored (m : LM AppendResult) (w : LWorld) : list LedgerRecord :=
  match outcome m w with Ok result => ar_Records result | Err _ => [] end.
Definition acked_six : list LedgerRecord := stored (append quiet 3) w_open ++ stored (append quiet 6) w_three.

(** What a reader sees of a log: cursor, kind, source sequence. *)
Definition glance (r : LedgerRecord) : N * N * N := (r_Cursor r, r_Kind r, r_SourceSequence r).
Definition contents (w : LWorld) : res lerr (list (N * N * N)) :=
  match outcome (@ReadAfter quiet 0 0) w with Ok rs => Ok (map glance rs) | Err e => Err e end.

Lemma contents_again :
  contents w_again = Ok [(1, RecordObservation, 3); (2, RecordGap, 0); (3, RecordObservation, 6); (4, RecordDuplicate, 0)].
Proof. vm_compute. reflexivity. Qed.

Lemma observation_ok s : (s <? two64) = true -> record_wf (observation "probe" s [1; 2]).
Proof. intros Hs. apply observation_wf; [by apply N.ltb_lt|by repeat constructor]. Qed.

Lemma run_eq {A} (m : LM A) w : m w = (outcome m w, after_run m w).
Proof. unfold outcome, after_run. by destruct (m w). Qed.

Lemma reach_w_open : reach opts true w_open [].
Proof.
  change true with (is_ok (outcome (@Open quiet opts) empty_dir)).
  eapply (reach_open opts quiet empty_dir); [by apply reach_start|done|]. apply (run_eq (@Open quiet opts)).
Qed.

Lemma reach_append_run env s w acked :
  reach opts true w acked -> faithful_reads env -> (s <? two64) = true -> (l_head (lw_ledger w) + 3 <? two64) = true ->
  reach opts true (after_run (append env s) w) (acked ++ stored (append env s) w).
Proof.
  intros R F Hs B. unfold stored. eapply (reach_append opts env (observation "probe" s [1; 2])); [done|done|by apply observation_ok|by apply N.ltb_lt|].
  apply (run_eq (append env s)).
Qed.

Lemma append_run env s w result :
  outcome (append env s) w = Ok result ->
  @Append env (observation "probe" s [1; 2]) w = (Ok result, after_run (append env s) w).
Proof. intros <-. apply (run_eq (append env s)). Qed.

Lemma reach_w_three : reach opts true w_three (stored (append quiet 3) w_open).
Proof. apply (reach_append_run quiet 3 _ [] reach_w_open); [done|done|vm_compute; reflexivity]. Qed.
Lemma reach_w_six : reach opts true w_six acked_six.
Proof. apply (reach_append_run quiet 6 _ _ reach_w_three); [done|done|vm_compute; reflexivity]. Qed.

(** ** The theorems applied *)

(** The machine crashes after the second append and the directory is reopened. *)
Definition w_crashed : LWorld := w_six <| lw_ledger := new_ledger opts |>.

Definition synced (files : Files) : bool :=
  forallb (fun p => bool_decide (f_durable p.2 = f_content p.2)) (map_to_list files).

Lemma crash_synced files : synced files = true -> crash_files files files.
Proof.
  unfold synced. rewrite forallb_forall. intros F name. destruct (files !! name) as [f|] eqn:E; [|done].
  apply elem_of_map_to_list, list_elem_of_In in E. specialize (F _ E). apply bool_decide_eq_true in F; cbn in F.
  exists (f_content f). split; [|by destruct f; cbn in *; subst]. split; [by left|]. done.
Qed.

Lemma reach_crash_synced w acked :
  reach opts true w acked -> synced (lw_files w) = true -> reach opts false (w <| lw_ledger := new_ledger opts |>) acked.
Proof. intros R S. eapply reach_crash; [exact R|]. by apply crash_synced. Qed.

Lemma reach_w_crashed : reach opts false w_crashed acked_six.
Proof. apply (reach_crash_synced w_six acked_six reach_w_six). vm_compute. reflexivity. Qed.

Lemma acknowledged_records_survive_witness :
  map glance acked_six = [(1, 1, 3); (2, 8, 0); (3, 1, 6)] /\
  exists report w1 log w2, @Open quiet opts w_crashed = (Ok report, w1) /\
    @ReadAfter quiet 0 0 w1 = (Ok log, w2) /\ holds acked_six log.
Proof.
  split; [vm_compute; reflexivity|].
  exact (acknowledged_records_survive opts chosen quiet false w_crashed acked_six
    ltac:(reflexivity) ltac:(reflexivity) reach_w_crashed quiet_calm).
Defined.

Lemma ledger_reads_one_log_witness :
  exists log, reads_as w_six log /\ numbered log /\ holds acked_six log /\ good log.
Proof.
  exact (ledger_reads_one_log opts chosen w_six acked_six
    ltac:(reflexivity) ltac:(reflexivity) reach_w_six ltac:(vm_compute; reflexivity)).
Defined.

(** The sequence 6 after 3: a gap and the input. *)
Lemma append_refines_log_witness :
  exists result log, outcome (append quiet 6) w_three = Ok result /\ reads_as w_three log /\
    appended log (observation "probe" 6 [1; 2]) result /\ reads_as w_six (log ++ ar_Records result).
Proof.
  destruct (outcome (append quiet 6) w_three) as [result|e] eqn:E; [|vm_compute in E; discriminate E].
  destruct (append_refines_log opts chosen quiet w_three (stored (append quiet 3) w_open) (observation "probe" 6 [1; 2]) result
    (after_run (append quiet 6) w_three) ltac:(reflexivity) ltac:(reflexivity) reach_w_three (proj1 quiet_calm)
    (observation_ok 6 eq_refl) ltac:(vm_compute; reflexivity) (append_run quiet 6 w_three result E)) as (log & R).
  exists result, log. split; [reflexivity|exact R].
Defined.

(** A subscription of capacity one that misses a record gets a gap for both. *)
Definition numbered_record (c : N) : LedgerRecord := (observation "probe" c []) <| r_Cursor := c |>.
Definition full_subscription : Subscription :=
  let s := default (newSubscription 1) (enqueueRecord (newSubscription 1) (numbered_record 1)) in
  default s (enqueueRecord s (numbered_record 2)).

Lemma subscription_no_silent_loss_witness :
  let log := [numbered_record 1; numbered_record 2] in
  tiles 0 (sub_queue full_subscription) 2 /\ Forall (honest log) (sub_queue full_subscription).
Proof.
  assert (R : subscriber 0 1 ([numbered_record 1] ++ [numbered_record 2]) [] full_subscription).
  { eapply sub_record; [eapply (sub_record _ _ []); [by apply sub_open|reflexivity..]|reflexivity..]. }
  destruct (subscription_no_silent_loss 0 1 _ [] full_subscription ltac:(lia) R) as (T & Hn & _). by split.
Defined.

(** A caller waits, then a record arrives: the caller returns it. *)
Lemma next_never_stuck_witness :
  exists c, callers_reach 1 c /\ c_waiting c = 1%nat /\ length (sub_queue (c_sub c)) = 1%nat /\
  exists n ds c', reader_run n c ds c' /\ (n <= 5)%nat /\
    ds ++ sub_queue (c_sub c') = [mkDelivery (Some (numbered_record 1)) None] /\
    (c_waiting c' = 0%nat \/ sub_queue (c_sub c') = []).
Proof.
  set (s := default (newSubscription 1) (enqueueRecord (newSubscription 1) (numbered_record 1))).
  assert (R : callers_reach 1 (mkCallers s 0 1)).
  { eapply cr_step; [eapply cr_step; [eapply cr_step; [apply cr_init|apply c_call]|
      apply c_reader, c_wait; reflexivity]|by apply c_enqueue with (r := numbered_record 1)]. }
  exists (mkCallers s 0 1). split; [exact R|]. split; [reflexivity|]. split; [reflexivity|].
  destruct (next_never_stuck 1 _ R) as [(n & ds & c' & Rn & Qc) All].
  destruct (All n ds c' Rn) as (L & Q & Rest). exists n, ds, c'. split; [exact Rn|]. split; [exact L|].
  split; [symmetry; exact Q|]. destruct (Rest Qc) as [_ [W|[E _]]]; auto.
Defined.
End LedgerDemo.

(** * What the ledger's guarantee leaves out

    [reach] leaves out the finalization of an active segment without records
    and errors of read calls.  On concrete runs: both make a ledger lose
    acknowledged records; and a record that was never synced can be adopted by
    [Open], be read, and still vanish in a crash. *)
Import LedgerDemo.

Local Open Scope N_scope.

(** ** An empty segment is finalized *)

(** The sync of the first append fails; the append is rolled back and the
    ledger stays in use with an empty active segment. *)
Definition w_rolled_back : LWorld := after_run (append (failing [9%nat]) 3) w_open.
(** The ledger is closed and reopened, and a record is appended. *)
Definition w_closed : LWorld := after_run (@Close quiet) w_rolled_back.
Definition w_reopened : LWorld := after_run (@Open quiet opts) w_closed.
Definition w_appended : LWorld := after_run (append quiet 3) w_reopened.

Lemma reach_rolled_back : reach opts true w_rolled_back [].
Proof.
  replace (@nil LedgerRecord) with ([] ++ stored (append (failing [9%nat]) 3) w_open) by (vm_compute; reflexivity).
  apply (reach_append_run (failing [9%nat]) 3 w_open [] reach_w_open); [done|done|vm_compute; reflexivity].
Qed.

(** One failed sync can make a ledger impossible to reopen.  The first
    append on a new ledger fails to sync and is rolled back; closing the ledger
    then finalizes the empty active segment under the name of cursor 1; the
    ledger is reopened, a record is appended to a new open segment of the same
    cursor and acknowledged; after the process is killed, [Open] fails in a
    machine without faults, because the open segment sorts before the
    finalized one, and the acknowledged record cannot be read. *)
Theorem empty_segment_blocks_reopen :
  reach opts true w_rolled_back [] /\ l_failed (lw_ledger w_rolled_back) = None /\
  outcome (@Close quiet) w_rolled_back = Ok tt /\
  is_ok (outcome (@Open quiet opts) w_closed) = true /\
  map glance (stored (append quiet 3) w_reopened) = [(1, RecordObservation, 3)] /\
  outcome (@Open quiet opts) w_appended = Err (ErrCorruptSegment (segmentName 1 false) 0).
Proof.
  split; [apply reach_rolled_back|]. split_and!; vm_compute; reflexivity.
Qed.

(** ** A read fails *)
Definition w_misread : LWorld := after_run (@Open misreading opts) w_crashed.

(** A read error while a ledger is opened deletes acknowledged records.
    The frame decoder reports every error of a read as an incomplete frame, and
    [Open] truncates the open segment at an incomplete frame: opening the
    directory with three acknowledged records while its reads fail succeeds,
    and afterwards, in a machine without faults, the ledger is empty. *)
Theorem read_error_discards_acknowledged :
  reach opts false w_crashed acked_six /\
  (forall n, @io_fault misreading n = false) /\
  contents (after_run (@Open quiet opts) w_crashed) = Ok (map glance acked_six) /\
  length acked_six = 3%nat /\
  is_ok (outcome (@Open misreading opts) w_crashed) = true /\
  contents (after_run (@Open quiet opts) w_misread) = Ok [].
Proof.
  split; [apply reach_w_crashed|]. split; [done|]. split_and!; vm_compute; reflexivity.
Qed.

(** ** Records are adopted without a sync *)

(** The sync of an append fails, and so does the truncation that rolls it back. *)
Definition w_stuck : LWorld := after_run (append (failing [9; 11]%nat) 3) w_open.
Definition w_adopted : LWorld := after_run (@Open quiet opts) w_stuck.
(** The machine crashes and nothing of the unsynced segment is left. *)
Definition w_lost : LWorld :=
  w_adopted <| lw_files := {[segmentName 1 false := clean_file []]} |>.

Definition shown_head (w : LWorld) : N := l_head (lw_ledger w).

Lemma crash_nothing_durable content : crash_file (mkFile content []) [].
Proof. split; [left; apply prefix_nil|]. cbn. intros p _ ->%prefix_nil_inv. done. Qed.

Lemma w_adopted_files : exists content, lw_files w_adopted = {[segmentName 1 false := mkFile content []]}.
Proof.
  exists (match lw_files w_adopted !! segmentName 1 false with Some f => f_content f | None => [] end).
  vm_compute. reflexivity.
Qed.

(** [Head] is documented as the latest durable cursor; here it is 1 for a
    record that no sync covers and that a crash removes. *)
Lemma head_not_durable :
  is_ok (outcome (@Open quiet opts) w_stuck) = true /\ shown_head w_adopted = 1 /\
  contents w_adopted = Ok [(1, RecordObservation, 3)] /\
  crash_files (lw_files w_adopted) (lw_files w_lost) /\
  contents (after_run (@Open quiet opts) w_lost) = Ok [].
Proof.
  split_and!; try (vm_compute; reflexivity). destruct w_adopted_files as [content E]. rewrite E.
  unfold w_lost. cbn [lw_files set]. intros name. destruct (decide (name = segmentName 1 false)) as [->|N].
  - rewrite !lookup_singleton_eq. exists []. split; [apply crash_nothing_durable|done].
  - by rewrite !lookup_singleton_ne.
Qed.
