(* ===== verification/GoText.v ===== *)
(** * Numbers and text of the policy rules

    What the code uses of float64, [net], [regexp] and [strings].

    ** Floating point

    [float64] is the binary64 numbers of the Standard Library's [SpecFloat],
    whose operations are executable: what the code uses of it. *)
From Stdlib Require Import Floats.SpecFloat.
From Stdlib Require Import Ascii String.
From S2P Require Import Prelude GoStrings.
Local Open Scope Z_scope.

Abbreviation float64 := spec_float.
Definition f_add (x y : float64) : float64 := SFadd 53 1024 x y.
Definition f_lt (x y : float64) : bool := SFltb x y.
Definition f_le (x y : float64) : bool := SFleb x y.
Definition IsNaN (x : float64) : bool := match x with S754_nan => true | _ => false end.
Definition IsInf (x : float64) : bool := match x with S754_infinity _ => true | _ => false end.
Definition f_zero : float64 := S754_zero false.
Definition f_nan : float64 := S754_nan.
(** The integer [z] rounded to nearest. *)
Definition f_of_Z (z : Z) : float64 := binary_normalize 53 1024 z 0 false.
Definition f_div (x y : float64) : float64 := SFdiv 53 1024 x y.
Definition f_thirty : float64 := f_of_Z 30.
(** The constants 1 and 100. *)
Definition f_one : float64 := S754_finite false 4503599627370496 (-52).
Definition f_hundred : float64 := S754_finite false 7036874417766400 (-46).

(** [finite] of [internal/observation] *)
Definition finite (x : float64) : bool := negb (IsNaN x) && negb (IsInf x).

(** * Text recognised by the policy compiler

    What [policy/validate.go] uses of [strings], [regexp] and [net]: searching,
    case folding, the two patterns and CIDR addresses ([net.ParseCIDR], of which
    only success matters), as executable functions on byte strings. *)
Local Open Scope Z_scope.

(** ** [strings] *)
Fixpoint LastIndex (s substr : string) : option nat :=
  match s with
  | "" => if bool_decide (substr = "") then Some 0%nat else None
  | String _ s' =>
      match LastIndex s' substr with
      | Some i => Some (S i)
      | None => if HasPrefix s substr then Some 0%nat else None
      end
  end.

(** [strings.Count(s, c)] for a single byte [c] *)
Fixpoint CountByte (s : string) (c : ascii) : nat :=
  match s with
  | "" => 0
  | String a s' => (if (a =? c)%char then 1 else 0) + CountByte s' c
  end.

Definition ContainsAny (s chars : string) : bool :=
  existsb (fun c => ContainsByte s c) (list_ascii_of_string chars).

(** [strings.EqualFold(s, t)] for an ASCII [t]: besides the two cases of a letter
    simple folding relates it only to U+017F (s) and U+212A (k). *)
Fixpoint EqualFold (s t : string) : bool :=
  match t with
  | "" => bool_decide (s = "")
  | String b t' =>
      match s with
      | "" => false
      | String a s' =>
          if (to_lower_byte a =? to_lower_byte b)%char then EqualFold s' t' else
          match s' with
          | String a2 s2 =>
              if (to_lower_byte b =? "s")%char && (byte_of a =? 197)%N && (byte_of a2 =? 191)%N then EqualFold s2 t' else
              match s2 with
              | String a3 s3 =>
                  (to_lower_byte b =? "k")%char && (byte_of a =? 226)%N && (byte_of a2 =? 132)%N && (byte_of a3 =? 170)%N
                  && EqualFold s3 t'
              | "" => false
              end
          | "" => false
          end
      end
  end.

(** ** [regexp] *)
Definition is_digit (a : ascii) : bool := in_range 48 57 (byte_of a).
Definition is_lower_alnum (a : ascii) : bool := in_range 97 122 (byte_of a) || is_digit a.
Definition all_digits (s : string) : bool := negb (bool_decide (s = "")) && forallb is_digit (list_ascii_of_string s).

(** [^[0-9]+:[0-9]+$] *)
Definition userPattern (s : string) : bool :=
  match split_on ":" s with
  | [uid; gid] => all_digits uid && all_digits gid
  | _ => false
  end.

(** [^[a-z0-9](?:[a-z0-9.-]{0,61}[a-z0-9])?$] *)
Definition policyNamePattern (s : string) : bool :=
  match list_ascii_of_string s with
  | [] => false
  | first :: rest =>
      (List.length rest <=? 62)%nat && is_lower_alnum first && is_lower_alnum (List.last rest first)
      && forallb (fun a => is_lower_alnum a || (a =? ".")%char || (a =? "-")%char) rest
  end.

(** ** [net.ParseCIDR] *)
Fixpoint decimal_value (s : string) (value : Z) : Z :=
  match s with
  | "" => value
  | String a s' => decimal_value s' (value * 10 + Z.of_N (byte_of a - 48))
  end.

(** One field of a dotted address. *)
Definition octet (s : string) : bool :=
  all_digits s && ((String.length s =? 1)%nat || negb (HasPrefix s "0")) && (String.length s <=? 3)%nat
  && (decimal_value s 0 <=? 255).

(** [netip.parseIPv4Fields] *)
Definition parseIPv4Fields (s : string) : bool :=
  match split_on "." s with
  | [a; b; c; d] => octet a && octet b && octet c && octet d
  | _ => false
  end.

Fixpoint hex_span (s : string) : nat :=
  match s with
  | String a s' => match unhex a with Some _ => S (hex_span s') | None => 0 end
  | "" => 0
  end.

(** The loop of [netip.parseIPv6]: how many of the 16 bytes are read, where the
    ellipsis is, and what is left; every round reads two bytes at least. *)
Fixpoint ipv6_loop (fuel i : nat) (ellipsis : option nat) (s : string) : option (nat * option nat * string) :=
  match fuel with
  | O => Some (i, ellipsis, s)
  | S fuel =>
      let off := hex_span s in
      if (off =? 0)%nat || (4 <? off)%nat then None else
      match string_drop off s with
      | "" => Some ((i + 2)%nat, ellipsis, "")
      | String c rest =>
          if (c =? ".")%char then
            if (bool_decide (ellipsis = None) && negb (i =? 12)%nat) || (16 <? i + 4)%nat then None else
            if parseIPv4Fields s then Some ((i + 4)%nat, ellipsis, "") else None
          else if negb (c =? ":")%char then None else
          match rest with
          | "" => None
          | String c' rest' =>
              if negb (c' =? ":")%char then ipv6_loop fuel (i + 2) ellipsis rest else
              if bool_decide (ellipsis <> None) then None else
              if bool_decide (rest' = "") then Some ((i + 2)%nat, Some (i + 2)%nat, "")
              else ipv6_loop fuel (i + 2) (Some (i + 2)%nat) rest'
          end
      end
  end.

(** An address with a zone is not part of a CIDR. *)
Definition parseIPv6 (s : string) : bool :=
  if ContainsByte s "%" then false else
  let leading := HasPrefix s "::" in
  let s := if leading then string_drop 2 s else s in
  if leading && bool_decide (s = "") then true else
  match ipv6_loop 8 0 (if leading then Some 0%nat else None) s with
  | None => false
  | Some (i, ellipsis, rest) =>
      bool_decide (rest = "") && if (i <? 16)%nat then bool_decide (ellipsis <> None) else bool_decide (ellipsis = None)
  end.

(** [netip.ParseAddr]: the width of the address. *)
Fixpoint ParseAddr (rest s : string) : option Z :=
  match rest with
  | "" => None
  | String c rest =>
      if (c =? ".")%char then (if parseIPv4Fields s then Some 32 else None) else
      if (c =? ":")%char then (if parseIPv6 s then Some 128 else None) else
      if (c =? "%")%char then None else ParseAddr rest s
  end.

Fixpoint cut_at (c : ascii) (s : string) : option (string * string) :=
  match s with
  | "" => None
  | String a s' => if (a =? c)%char then Some ("", s') else
                   p ← cut_at c s'; Some (String a p.1, p.2)
  end.

Definition ParseCIDR (s : string) : bool :=
  match cut_at slash s with
  | None => false
  | Some (addr, mask) =>
      match ParseAddr addr addr with
      | None => false
      | Some width => all_digits mask && (decimal_value mask 0 <=? width)
      end
  end.

Example cidrs_accepted :
  forallb ParseCIDR ["10.0.0.0/8"; "::/0"; "2001:db8::1/64"; "::ffff:1.2.3.4/128"; "1:2:3:4:5:6:7:8/1"; "1::/128"] = true /\
  existsb ParseCIDR ["10.0.0.0"; "10.0.0.0/33"; "10.0.0/8"; "01.2.3.4/8"; "1::2::3/8"; "1:2:3:4:5:6:7/8"; "::1%eth0/8"; "/8";
                     "1.2.3.4/"; "1:2:3:4:5:6:7:8::/1"; "12345::/8"; "10.0.0.256/8"] = false.
Proof. by vm_compute. Qed.
