(* ===== verification/Capacity.v ===== *)
(** * Capacity admission, pressure shedding and queue order

    [internal/admission/resources.go] and [internal/admission/pressure.go].
    Integers are 64 bits wide and wrap ([i64]); floating-point numbers are the
    binary64 numbers of [GoText]; the JSON texts that are hashed into a
    decision are a parameter ([DecisionText]). *)
From Stdlib Require Import Floats.SpecFloat.
From S2P Require Import Prelude Sha256 GoStrings Utf8Facts GoText.
Local Open Scope Z_scope.

Definition i64 (z : Z) : Z := (z + 9223372036854775808) mod 18446744073709551616 - 9223372036854775808.
Definition MaxInt64 : Z := 9223372036854775807.

(** ** Stable sorting by a strict order ([sort.SliceStable]) *)
Section StableSort.
Context {A : Type} (less : A -> A -> bool).

Fixpoint insert_stable (x : A) (sorted : list A) : list A :=
  match sorted with
  | [] => [x]
  | y :: sorted' => if less x y then x :: y :: sorted' else y :: insert_stable x sorted'
  end.
Definition sort_stable (l : list A) : list A := fold_left (fun sorted x => insert_stable x sorted) l [].
End StableSort.

(** ** Resources *)
Inductive aerr :=
| ErrInvalidResources | ErrRequestOverLimit | ErrInsufficient | ErrPressure
| ErrInvalidPressure | ErrInvalidThreshold | ErrEncoding | ErrStage | ErrAging.

Record Resources := mkResources {
  CPUMilli : Z; MemoryBytes : Z; SwapBytes : Z; StorageBytes : Z; CaptureBytes : Z; Inodes : Z;
  PIDs : Z; Devices : gmap string Z }.

Definition fields (r : Resources) : list Z :=
  [CPUMilli r; MemoryBytes r; SwapBytes r; StorageBytes r; CaptureBytes r; Inodes r; PIDs r].

Definition Resources_Validate (r : Resources) : res aerr unit :=
  _ ← check (forallb (fun v => negb (v <? 0)) (fields r)) ErrInvalidResources;
  check (forallb (fun p : string * Z => negb (bool_decide (p.1 = "") || (p.2 <? 0))) (map_to_list (Devices r)))
    ErrInvalidResources.

(** One destination of [Add]. *)
Definition add_checked (destination value : Z) : res aerr Z :=
  _ ← check (negb (i64 (MaxInt64 - destination) <? value)) ErrInvalidResources;
  Ok (i64 (destination + value)).

(** A device that is missing from a map reads as 0. *)
Definition device (devices : gmap string Z) (name : string) : Z := default 0 (devices !! name).

Fixpoint add_devices (devices : gmap string Z) (other : list (string * Z)) : res aerr (gmap string Z) :=
  match other with
  | [] => Ok devices
  | (name, value) :: other =>
      sum ← add_checked (device devices name) value;
      add_devices (<[name := sum]> devices) other
  end.

Definition Resources_Add (r other : Resources) : res aerr Resources :=
  _ ← Resources_Validate r;
  _ ← Resources_Validate other;
  cpu ← add_checked (CPUMilli r) (CPUMilli other);
  memory ← add_checked (MemoryBytes r) (MemoryBytes other);
  swap ← add_checked (SwapBytes r) (SwapBytes other);
  storage ← add_checked (StorageBytes r) (StorageBytes other);
  capture ← add_checked (CaptureBytes r) (CaptureBytes other);
  inodes ← add_checked (Inodes r) (Inodes other);
  pids ← add_checked (PIDs r) (PIDs other);
  devices ← add_devices (Devices r) (map_to_list (Devices other));
  Ok (mkResources cpu memory swap storage capture inodes pids devices).

Definition Resources_FitsWithin (r limit : Resources) : bool :=
  is_ok (Resources_Validate r) && is_ok (Resources_Validate limit) &&
  negb ((CPUMilli limit <? CPUMilli r) || (MemoryBytes limit <? MemoryBytes r) || (SwapBytes limit <? SwapBytes r)
        || (StorageBytes limit <? StorageBytes r) || (CaptureBytes limit <? CaptureBytes r)
        || (Inodes limit <? Inodes r) || (PIDs limit <? PIDs r)) &&
  forallb (fun p : string * Z => negb (device (Devices limit) p.1 <? p.2)) (map_to_list (Devices r)).

Definition subtract_device (devices : gmap string Z) (p : string * Z) : gmap string Z :=
  <[p.1 := i64 (device devices p.1 - p.2)]> devices.

Definition Resources_Subtract (r other : Resources) : res aerr Resources :=
  _ ← check (Resources_FitsWithin other r) ErrInsufficient;
  Ok (mkResources (i64 (CPUMilli r - CPUMilli other)) (i64 (MemoryBytes r - MemoryBytes other))
        (i64 (SwapBytes r - SwapBytes other)) (i64 (StorageBytes r - StorageBytes other))
        (i64 (CaptureBytes r - CaptureBytes other)) (i64 (Inodes r - Inodes other)) (i64 (PIDs r - PIDs other))
        (fold_left subtract_device (map_to_list (Devices other)) (Devices r))).

Definition Resources_IsZero (r : Resources) : bool :=
  forallb (fun v => v =? 0) (fields r) && forallb (fun p : string * Z => p.2 =? 0) (map_to_list (Devices r)).

Definition zero_resources : Resources := mkResources 0 0 0 0 0 0 0 ∅.

(** ** Pressure *)
Record PSI := mkPSI { psi_Current : float64; psi_Trend : float64 }.

Definition PSI_Validate (p : PSI) : bool :=
  negb (IsNaN (psi_Current p) || IsInf (psi_Current p) || f_lt (psi_Current p) f_zero || f_lt f_one (psi_Current p)
        || IsNaN (psi_Trend p) || IsInf (psi_Trend p)).

Record Pressure := mkPressure {
  MemoryFull : PSI; IOFull : PSI; CPUFull : PSI; FreeDiskPercent : float64; FreeInodesPercent : float64 }.

Record PressureThresholds := mkThresholds {
  MemoryPSIFull : float64; IOPSIFull : float64; CPUPSIFull : float64; MinimumFreeDiskPercent : float64;
  MinimumFreeInodesPercent : float64 }.

Definition within (high value : float64) : bool :=
  negb (IsNaN value || IsInf value || f_lt value f_zero || f_lt high value).

Definition Pressure_Validate (p : Pressure) : res aerr unit :=
  _ ← check (forallb PSI_Validate [MemoryFull p; IOFull p; CPUFull p]) ErrInvalidPressure;
  check (forallb (within f_hundred) [FreeDiskPercent p; FreeInodesPercent p]) ErrInvalidPressure.

Definition PressureThresholds_Validate (t : PressureThresholds) : res aerr unit :=
  _ ← check (forallb (within f_one) [MemoryPSIFull t; IOPSIFull t; CPUPSIFull t]) ErrInvalidThreshold;
  check (forallb (within f_hundred) [MinimumFreeDiskPercent t; MinimumFreeInodesPercent t]) ErrInvalidThreshold.

(** One stall signal, one free-space signal. *)
Definition stalls (p : PSI) (threshold : float64) : bool :=
  f_lt f_zero threshold
  && (f_le threshold (psi_Current p) || f_le threshold (f_add (psi_Current p) (psi_Trend p))).
Definition short (free minimum : float64) : bool := f_lt f_zero minimum && f_le free minimum.

Definition Pressure_unsafe (p : Pressure) (t : PressureThresholds) : list string :=
  (if stalls (MemoryFull p) (MemoryPSIFull t) then ["memory PSI"] else []) ++
  (if stalls (IOFull p) (IOPSIFull t) then ["I/O PSI"] else []) ++
  (if stalls (CPUFull p) (CPUPSIFull t) then ["CPU PSI"] else []) ++
  (if short (FreeDiskPercent p) (MinimumFreeDiskPercent t) then ["free disk"] else []) ++
  (if short (FreeInodesPercent p) (MinimumFreeInodesPercent t) then ["free inodes"] else []).

Fixpoint join_with (index : nat) (values : list string) : string :=
  match values with
  | [] => ""
  | value :: values => (if (0 <? index)%nat then ", " else "") +:+ value +:+ join_with (S index) values
  end.
Definition joinReasons (values : list string) : string := join_with 0 (sort_Strings values).

(** ** Admission of a lease *)
Record LeaseRequest := mkLeaseRequest {
  LeaseKey : string; Requests : Resources; Limits : Resources; ObserverCost : Resources;
  SnapshotCost : Resources; Priority : Z; Preemptible : bool; TTL : duration }.

Record CapacitySnapshot := mkSnapshot {
  Allocatable : Resources; Reserved : Resources; WarmPoolCost : Resources; ControlReserve : Resources;
  snap_Pressure : Pressure; ObservedAt : time }.

Record AdmissionDecision := mkDecision {
  ad_Admitted : bool; Reason : string; InputsDigest : string; EffectiveBudget : Resources;
  AvailableBefore : Resources; AvailableAfter : Resources; DecidedAt : time }.
#[export] Instance : Settable AdmissionDecision := {| record_eta r :=
  mkDecision (ad_Admitted r) (Reason r) (InputsDigest r) (EffectiveBudget r) (AvailableBefore r)
    (AvailableAfter r) (DecidedAt r) |}.

Inductive CandidateKind := CandidateTargetRun | CandidateAgentWorkspace | CandidateUnrecognized (s : string).
#[export] Instance CandidateKind_dec : EqDecision CandidateKind.
Proof. solve_decision. Defined.

Record RevocationCandidate := mkCandidate {
  rc_LeaseKey : string; rc_ResourceKey : string; rc_Kind : CandidateKind; rc_Priority : Z;
  rc_Preemptible : bool; rc_Idle : bool; rc_StartedAt : time }.

(** [PressureStage] is a uint8. *)
Record PressureInput := mkInput {
  pi_Stage : N; pi_Pressure : Pressure; pi_Thresholds : PressureThresholds; pi_UnusedReservations : Z;
  pi_WarmPoolTargets : Z; pi_Candidates : list RevocationCandidate; pi_ObservedAt : time }.

(** [json.Marshal] of the inputs of a decision; it fails for instance on a
    floating-point number that is not finite. *)
Class DecisionText := {
  lease_text : LeaseRequest -> CapacitySnapshot -> PressureThresholds -> option (list N);
  pressure_text : PressureInput -> option (list N) }.

Definition decisionDigest (encoded : option (list N)) : res aerr string :=
  text ← from_option_err ErrEncoding encoded;
  Ok ("sha256:" +:+ hex_encode (sha256 (bytes_of "world-admission-decision-v1" ++ [0%N] ++ text))).

Section Decisions.
Context `{DecisionText}.

(** The decision is returned with the error: its fields are what was known. *)
Definition Evaluate (request : LeaseRequest) (snapshot : CapacitySnapshot) (thresholds : PressureThresholds)
    (now : time) : AdmissionDecision * option aerr :=
  let decision := mkDecision false "" "" zero_resources zero_resources zero_resources now in
  match decisionDigest (lease_text request snapshot thresholds) with
  | Err e => (decision, Some e)
  | Ok digest =>
  let decision := decision <| InputsDigest := digest |> in
  match Pressure_Validate (snap_Pressure snapshot) with Err e => (decision, Some e) | Ok _ =>
  match PressureThresholds_Validate thresholds with Err e => (decision, Some e) | Ok _ =>
  if bool_decide (LeaseKey request = "") || (TTL request <=? 0) || Resources_IsZero (Requests request)
  then (decision <| Reason := "invalid lease resource contract" |>, Some ErrInvalidResources) else
  match res_each (fun _ => Resources_Validate) 0
          [Requests request; Limits request; ObserverCost request; SnapshotCost request; Allocatable snapshot;
           Reserved snapshot; WarmPoolCost snapshot; ControlReserve snapshot] with
  | Err e => (decision, Some e) | Ok _ =>
  if negb (Resources_FitsWithin (Requests request) (Limits request))
  then (decision <| Reason := "resource request exceeds its hard limit" |>, Some ErrRequestOverLimit) else
  let pressureReasons := Pressure_unsafe (snap_Pressure snapshot) thresholds in
  if (0 <? length pressureReasons)%nat
  then (decision <| Reason := "pressure: " +:+ joinReasons pressureReasons |>, Some ErrPressure) else
  match (unavailable ← Resources_Add (Reserved snapshot) (WarmPoolCost snapshot);
         Resources_Add unavailable (ControlReserve snapshot)) with
  | Err e => (decision, Some e) | Ok unavailable =>
  match Resources_Subtract (Allocatable snapshot) unavailable with
  | Err _ => (decision <| Reason := "control reserve or existing work exceeds allocatable capacity" |>,
              Some ErrInsufficient)
  | Ok available =>
  let decision := decision <| AvailableBefore := available |> in
  match (required ← Resources_Add (Requests request) (ObserverCost request);
         Resources_Add required (SnapshotCost request)) with
  | Err e => (decision, Some e) | Ok required =>
  if negb (Resources_FitsWithin required available)
  then (decision <| Reason := "insufficient allocatable capacity" |>, Some ErrInsufficient) else
  (decision <| AvailableAfter := match Resources_Subtract available required with
                                 | Ok after => after | Err _ => zero_resources end |>
            <| EffectiveBudget := Limits request |> <| ad_Admitted := true |>
            <| Reason := "request, observer, snapshot, and control-plane headroom fit" |>, None)
  end end end end end end end.

(** ** Pressure stages *)
Definition StageNormal : N := 0.
Definition StageRaiseObservation : N := 1.
Definition StageStopAdmission : N := 2.
Definition StageExpireReservations : N := 3.
Definition StageShrinkWarmPools : N := 4.
Definition StageQuiesceIdleTargets : N := 5.
Definition StageRevokeTargetRuns : N := 6.
Definition StageRevokeAgentWorkspaces : N := 7.
Definition StageQuarantineNode : N := 8.

Definition PressureStage_String (s : N) : string :=
  nth (N.to_nat s) ["normal"; "raise_observation"; "stop_admission"; "expire_reservations"; "shrink_warm_pools";
    "quiesce_idle_targets"; "revoke_target_runs"; "revoke_agent_workspaces"; "quarantine_node"] "unknown".

Record PressureDecision := mkPressureDecision {
  pd_Stage : N; pd_Action : string; pd_ResourceKey : string; pd_Reason : string; pd_InputsDigest : string;
  pd_CreatesResourceEvictionIncident : bool; pd_StopsAdmission : bool }.
#[export] Instance : Settable PressureDecision := {| record_eta r :=
  mkPressureDecision (pd_Stage r) (pd_Action r) (pd_ResourceKey r) (pd_Reason r) (pd_InputsDigest r)
    (pd_CreatesResourceEvictionIncident r) (pd_StopsAdmission r) |}.

Definition eligible (kind : CandidateKind) (idleOnly : bool) (c : RevocationCandidate) : bool :=
  bool_decide (rc_Kind c = kind) && rc_Preemptible c && (negb idleOnly || rc_Idle c).

Definition candidate_less (a b : RevocationCandidate) : bool :=
  if negb (rc_Priority a =? rc_Priority b) then rc_Priority a <? rc_Priority b else
  if negb (time_Equal (rc_StartedAt a) (rc_StartedAt b)) then time_After (rc_StartedAt a) (rc_StartedAt b) else
  String.ltb (rc_ResourceKey a) (rc_ResourceKey b).

Definition selectCandidate (candidates : list RevocationCandidate) (kind : CandidateKind) (idleOnly : bool) : string :=
  match sort_stable candidate_less (List.filter (eligible kind idleOnly) candidates) with
  | [] => ""
  | first :: _ => rc_ResourceKey first
  end.

(** The [switch] over the next stage. *)
Definition stage_action (next : N) (input : PressureInput) (decision : PressureDecision) : PressureDecision :=
  if (next =? StageRaiseObservation)%N then decision <| pd_Action := "increase_metric_resolution" |> else
  if (next =? StageStopAdmission)%N then decision <| pd_Action := "stop_admission" |> <| pd_StopsAdmission := true |> else
  if (next =? StageExpireReservations)%N then
    let decision := decision <| pd_Action := "expire_unused_reservations" |> in
    if pi_UnusedReservations input =? 0
    then decision <| pd_Reason := pd_Reason decision +:+ "; no unused reservation is currently eligible" |>
    else decision else
  if (next =? StageShrinkWarmPools)%N then
    let decision := decision <| pd_Action := "shrink_unleased_warm_pools" |> in
    if pi_WarmPoolTargets input =? 0
    then decision <| pd_Reason := pd_Reason decision +:+ "; no warm target is currently eligible" |>
    else decision else
  if (next =? StageQuiesceIdleTargets)%N then
    decision <| pd_Action := "quiesce_idle_preemptible_target" |>
             <| pd_ResourceKey := selectCandidate (pi_Candidates input) CandidateTargetRun true |> else
  if (next =? StageRevokeTargetRuns)%N then
    let key := selectCandidate (pi_Candidates input) CandidateTargetRun false in
    decision <| pd_Action := "revoke_preemptible_target_run" |> <| pd_ResourceKey := key |>
             <| pd_CreatesResourceEvictionIncident := negb (bool_decide (key = "")) |> else
  if (next =? StageRevokeAgentWorkspaces)%N then
    let key := selectCandidate (pi_Candidates input) CandidateAgentWorkspace false in
    decision <| pd_Action := "revoke_preemptible_agent_workspace" |> <| pd_ResourceKey := key |>
             <| pd_CreatesResourceEvictionIncident := negb (bool_decide (key = "")) |> else
  if (next =? StageQuarantineNode)%N then decision <| pd_Action := "quarantine_node" |> else decision.

Definition DecidePressure (input : PressureInput) : PressureDecision * option aerr :=
  let decision := mkPressureDecision 0 "" "" "" "" false false in
  match decisionDigest (pressure_text input) with
  | Err e => (decision, Some e)
  | Ok digest =>
  let decision := decision <| pd_InputsDigest := digest |> in
  match Pressure_Validate (pi_Pressure input) with Err e => (decision, Some e) | Ok _ =>
  match PressureThresholds_Validate (pi_Thresholds input) with Err e => (decision, Some e) | Ok _ =>
  let reasons := Pressure_unsafe (pi_Pressure input) (pi_Thresholds input) in
  if (length reasons =? 0)%nat then
    (decision <| pd_Stage := StageNormal |> <| pd_Action := "resume_admission" |>
              <| pd_Reason := "pressure is below configured thresholds" |>, None) else
  if (StageQuarantineNode <? pi_Stage input)%N then (decision, Some ErrStage) else
  let next := if (pi_Stage input =? StageNormal)%N then StageRaiseObservation else ((pi_Stage input + 1) mod 256)%N in
  (stage_action next input (decision <| pd_Stage := next |> <| pd_Reason := "verified pressure: " +:+ joinReasons reasons |>),
   None)
  end end end.
End Decisions.

(** ** The queue *)
Record QueuedLease := mkQueued { ql_LeaseKey : string; ql_Priority : Z; ql_EnqueuedAt : time }.

(** [Time.Sub] saturates at the bounds of a duration. *)
Definition time_Sub (a b : time) : duration := Z.max (- MaxInt64 - 1) (Z.min MaxInt64 (a - b)).

Definition score (now : time) (agingInterval : duration) (item : QueuedLease) : Z :=
  let age := time_Sub now (ql_EnqueuedAt item) in
  let age := if age <? 0 then 0 else age in
  i64 (ql_Priority item + Z.quot age agingInterval).

Definition queue_less (now : time) (agingInterval : duration) (a b : QueuedLease) : bool :=
  let left := score now agingInterval a in
  let right := score now agingInterval b in
  if negb (left =? right) then right <? left else
  if negb (time_Equal (ql_EnqueuedAt a) (ql_EnqueuedAt b)) then time_Before (ql_EnqueuedAt a) (ql_EnqueuedAt b) else
  String.ltb (ql_LeaseKey a) (ql_LeaseKey b).

Definition OrderQueue (items : list QueuedLease) (now : time) (agingInterval : duration) : res aerr (list QueuedLease) :=
  _ ← check (negb (agingInterval <=? 0)) ErrAging;
  Ok (sort_stable (queue_less now agingInterval) items).
