(* ===== verification/CapacityFacts.v ===== *)
(** * Admission, shedding and queue order are what they promise

    A vector of resources is a function of its dimensions ([amount]); admission
    is exact arithmetic on amounts, without overflow; pressure climbs its stages
    one at a time and only ever names an eligible victim; the queue is sorted
    and nothing starves in it. *)
From Stdlib Require Import Floats.SpecFloat.
From S2P Require Import Prelude Sha256 GoStrings Utf8Facts GoText Capacity.
Local Open Scope Z_scope.

(** ** Amounts *)
Inductive dimension := DCPU | DMemory | DSwap | DStorage | DCapture | DInodes | DPIDs | DDevice (name : string).

Definition amount (r : Resources) (d : dimension) : Z :=
  match d with
  | DCPU => CPUMilli r | DMemory => MemoryBytes r | DSwap => SwapBytes r | DStorage => StorageBytes r
  | DCapture => CaptureBytes r | DInodes => Inodes r | DPIDs => PIDs r | DDevice name => device (Devices r) name
  end.

(** The amounts fit their Go type. *)
Definition int64s (r : Resources) : Prop := forall d, - MaxInt64 - 1 <= amount r d <= MaxInt64.

Definition valid (r : Resources) : Prop := (forall d, 0 <= amount r d) /\ Devices r !! "" = None.

Lemma MaxInt64_value : MaxInt64 = 9223372036854775807.
Proof. done. Qed.

Lemma i64_small z : - MaxInt64 - 1 <= z <= MaxInt64 -> i64 z = z.
Proof. unfold i64, MaxInt64. intros. rewrite Z.mod_small; lia. Qed.

Lemma forallb_map (f : string * Z -> bool) (m : gmap string Z) :
  forallb f (map_to_list m) = true <-> forall n v, m !! n = Some v -> f (n, v) = true.
Proof.
  rewrite forallb_forall. split.
  - intros F n v L. apply F, list_elem_of_In, elem_of_map_to_list, L.
  - intros F [n v] I. apply F, elem_of_map_to_list, list_elem_of_In, I.
Qed.

Lemma forallb_map_false (f : string * Z -> bool) (m : gmap string Z) :
  forallb f (map_to_list m) = false -> exists n v, m !! n = Some v /\ f (n, v) = false.
Proof.
  intros E. enough (exists p, p ∈ map_to_list m /\ f p = false) as ([n v] & I%elem_of_map_to_list & F) by eauto.
  induction (map_to_list m) as [|p l IH]; cbn in E; [done|]. destruct (f p) eqn:Fp; [|exists p; split; [left|done]].
  destruct (IH E) as (q & I & F). exists q. split; [by right|done].
Qed.

Lemma dimensions (P : Resources -> Resources -> dimension -> Prop) r s :
  (forall d, P r s d) <->
  P r s DCPU /\ P r s DMemory /\ P r s DSwap /\ P r s DStorage /\ P r s DCapture /\ P r s DInodes /\ P r s DPIDs /\
  forall n, P r s (DDevice n).
Proof. split; [intros F; split_and!; auto|]. intros F. destruct_and!. by intros []. Qed.

Lemma Validate_iff r : Resources_Validate r = Ok tt <-> valid r.
Proof.
  unfold Resources_Validate, valid. rewrite check_bind_ok, check_ok, forallb_map.
  rewrite (dimensions (fun r _ d => 0 <= amount r d) r r). cbn [fields forallb amount]. split.
  - intros [F D]. to_prop. destruct_and!. split_and!; try done.
    + intros n. unfold device. destruct (Devices r !! n) as [v|] eqn:L; cbn; [|lia]. specialize (D _ _ L).
      to_prop. cbn in D. destruct D. lia.
    + destruct (Devices r !! "") as [v|] eqn:L; [|done]. specialize (D _ _ L). to_prop. cbn in D. tauto.
  - intros [F E]. destruct_and!. split; [to_prop; split_and!; try done; lia|]. intros n v L. to_prop. cbn. split.
    + intros ->. congruence.
    + match goal with Hd : forall n, 0 <= _ |- _ => specialize (Hd n); unfold device in Hd; rewrite L in Hd; done end.
Qed.

Lemma is_ok_Validate r : is_ok (Resources_Validate r) = true <-> valid r.
Proof. rewrite is_ok_true, <-Validate_iff. split; [by intros [[] ?]|eauto]. Qed.

Lemma FitsWithin_iff r limit :
  Resources_FitsWithin r limit = true <->
  valid r /\ valid limit /\ forall d, amount r d <= amount limit d.
Proof.
  unfold Resources_FitsWithin. rewrite !andb_true_iff, !is_ok_Validate, forallb_map.
  rewrite (dimensions (fun r l d => amount r d <= amount l d) r limit). cbn [amount].
  split.
  - intros [[[V1 V2] F] D]. to_prop. destruct_and!. split_and!; try done. intros n. unfold device at 1.
    destruct (Devices r !! n) as [v|] eqn:L; cbn; [|by apply (proj1 V2 (DDevice n))].
    specialize (D _ _ L). to_prop. done.
  - intros (V1 & V2 & F). destruct_and!. split_and!; try done; [to_prop; split_and!; done|].
    intros n v L. to_prop. cbn. match goal with Hd : forall n, device _ n <= _ |- _ => specialize (Hd n); unfold device at 1 in Hd; rewrite L in Hd; done end.
Qed.

Lemma IsZero_iff r : Resources_IsZero r = true <-> forall d, amount r d = 0.
Proof.
  unfold Resources_IsZero. rewrite andb_true_iff, forallb_map.
  rewrite (dimensions (fun r _ d => amount r d = 0) r r). cbn [fields forallb amount]. split.
  - intros [F D]. to_prop. destruct_and!. split_and!; try done. intros n. unfold device.
    destruct (Devices r !! n) as [v|] eqn:L; [|done]. specialize (D _ _ L). by to_prop.
  - intros F. destruct_and!. split; [to_prop; split_and!; done|]. intros n v L. to_prop. cbn.
    match goal with Hd : forall n, device _ n = 0 |- _ => specialize (Hd n); unfold device in Hd; rewrite L in Hd; done end.
Qed.

(** ** Sums *)
Lemma add_checked_iff a b c :
  0 <= a <= MaxInt64 -> 0 <= b <= MaxInt64 ->
  add_checked a b = Ok c <-> a + b <= MaxInt64 /\ c = a + b.
Proof.
  pose proof MaxInt64_value. intros A B. unfold add_checked. rewrite (i64_small (MaxInt64 - a)) by lia. rewrite check_bind_ok. to_prop. split.
  - intros [L [= <-]]. rewrite i64_small by lia. lia.
  - intros [L ->]. rewrite i64_small by lia. split; [lia|done].
Qed.

Lemma device_insert devices n v k : device (<[n := v]> devices) k = if decide (n = k) then v else device devices k.
Proof. unfold device. rewrite lookup_insert. by case_decide. Qed.

Lemma device_nil k : device (list_to_map []) k = 0.
Proof. unfold device. cbn. by rewrite lookup_empty. Qed.

Lemma device_list_cons n v (l : list (string * Z)) k :
  n ∉ l.*1 -> device (list_to_map ((n, v) :: l)) k = (if decide (n = k) then v else device (list_to_map l) k) /\
  (n = k -> device (list_to_map l) k = 0).
Proof.
  intros N. cbn [list_to_map foldr]. split; [apply device_insert|].
  intros <-. unfold device. by rewrite not_elem_of_list_to_map_1.
Qed.

Lemma add_devices_spec l : forall devices out,
  NoDup l.*1 -> (forall n, 0 <= device devices n <= MaxInt64) -> (forall n v, (n, v) ∈ l -> 0 <= v <= MaxInt64) ->
  add_devices devices l = Ok out <->
  out = fold_left (fun m p => <[p.1 := device m p.1 + p.2]> m) l devices /\
  (forall n, device devices n + device (list_to_map l) n <= MaxInt64).
Proof.
  induction l as [|[n v] l IH]; intros devices out Nd Bd Bl; cbn [add_devices fold_left].
  { split; [intros [= <-]; split; [done|]|by intros [-> _]]. intros n. rewrite device_nil. specialize (Bd n). lia. }
  cbn in Nd. apply NoDup_cons in Nd as [N1 Nd]. pose proof (Bl n v (list_elem_of_here _ _)) as Bv.
  rewrite res_bind_ok. setoid_rewrite (add_checked_iff _ _ _ (Bd n) Bv).
  assert (Step : device devices n + v <= MaxInt64 -> forall out,
    add_devices (<[n := device devices n + v]> devices) l = Ok out <->
    out = fold_left (fun m p => <[p.1 := device m p.1 + p.2]> m) l (<[n := device devices n + v]> devices) /\
    forall k, device (<[n := device devices n + v]> devices) k + device (list_to_map l) k <= MaxInt64).
  { intros B o. apply IH; [done| |intros k u I; apply (Bl k u); by right].
    intros k. rewrite device_insert. case_decide; [specialize (Bd n)|specialize (Bd k)]; lia. }
  split.
  - intros (s & [B ->] & E). apply (Step B) in E as [-> F]. split; [done|]. intros k. specialize (F k).
    destruct (device_list_cons n v l k N1) as [-> Z]. rewrite device_insert in F. case_decide; [subst|done].
    rewrite Z in F by done. lia.
  - intros [-> F]. assert (B : device devices n + v <= MaxInt64).
    { specialize (F n). destruct (device_list_cons n v l n N1) as [E _]. rewrite E, decide_True in F by done. done. }
    exists (device devices n + v). split; [done|]. apply (Step B). split; [done|]. intros k. specialize (F k).
    destruct (device_list_cons n v l k N1) as [E Z]. rewrite E in F. rewrite device_insert. case_decide; [subst|done].
    rewrite Z by done. lia.
Qed.

Lemma fold_devices_other (f : Z -> Z -> Z) (l : list (string * Z)) : forall devices k,
  k ∉ l.*1 -> device (fold_left (fun m p => <[p.1 := f (device m p.1) p.2]> m) l devices) k = device devices k.
Proof.
  induction l as [|[n v] l IH]; intros devices k N; cbn [fold_left]; [done|]. cbn in N. apply not_elem_of_cons in N as [N1 N].
  rewrite IH by done. cbn. by rewrite device_insert, decide_False.
Qed.

Lemma fold_devices (f : Z -> Z -> Z) l : forall devices k,
  NoDup l.*1 -> f (device devices k) 0 = device devices k ->
  device (fold_left (fun m p => <[p.1 := f (device m p.1) p.2]> m) l devices) k =
  f (device devices k) (device (list_to_map l) k).
Proof.
  induction l as [|[n v] l IH]; intros devices k Nd F0; cbn [fold_left].
  { by rewrite device_nil, F0. }
  cbn in Nd. apply NoDup_cons in Nd as [N1 Nd]. cbn [fst snd].
  destruct (device_list_cons n v l k N1) as [-> Z]. destruct (decide (n = k)) as [->|Ne].
  - rewrite (fold_devices_other f l) by done.
    by rewrite device_insert, decide_True.
  - assert (E : device (<[n := f (device devices n) v]> devices) k = device devices k) by (by rewrite device_insert, decide_False).
    rewrite IH, E; [done|done|by rewrite E].
Qed.

Lemma fold_devices_empty (f : Z -> Z -> Z) (l : list (string * Z)) : forall devices : gmap string Z,
  devices !! "" = None -> "" ∉ l.*1 ->
  fold_left (fun m p => <[p.1 := f (device m p.1) p.2]> m) l devices !! "" = None.
Proof.
  induction l as [|[n v] l IH]; intros devices D N; cbn [fold_left]; [done|]. cbn in N. apply not_elem_of_cons in N as [N1 N].
  apply IH; [|done]. cbn. by rewrite lookup_insert_ne.
Qed.

Lemma no_empty_device (m : gmap string Z) : m !! "" = None -> "" ∉ (map_to_list m).*1.
Proof. intros L I. apply list_elem_of_fmap in I as ([n v] & E & I%elem_of_map_to_list). cbn in E. subst. congruence. Qed.

Lemma devices_of m n : device (list_to_map (map_to_list m) : gmap string Z) n = device m n.
Proof. by rewrite list_to_map_to_list. Qed.

(** [Add] succeeds exactly when no sum overflows, and then adds. *)
Lemma Add_ok r s :
  int64s r -> int64s s -> valid r -> valid s -> (forall d, amount r d + amount s d <= MaxInt64) ->
  exists t, Resources_Add r s = Ok t /\ valid t /\ int64s t /\ forall d, amount t d = amount r d + amount s d.
Proof.
  intros Wr Ws Vr Vs B.
  assert (C : forall d, add_checked (amount r d) (amount s d) = Ok (amount r d + amount s d)).
  { intros d. apply add_checked_iff; [split; [apply Vr|apply Wr]|split; [apply Vs|apply Ws]|auto]. }
  unfold Resources_Add. rewrite (proj2 (Validate_iff r) Vr), (proj2 (Validate_iff s) Vs). cbn [mbind res_mbind].
  rewrite (C DCPU : add_checked (CPUMilli r) (CPUMilli s) = _),
    (C DMemory : add_checked (MemoryBytes r) (MemoryBytes s) = _),
    (C DSwap : add_checked (SwapBytes r) (SwapBytes s) = _),
    (C DStorage : add_checked (StorageBytes r) (StorageBytes s) = _),
    (C DCapture : add_checked (CaptureBytes r) (CaptureBytes s) = _),
    (C DInodes : add_checked (Inodes r) (Inodes s) = _),
    (C DPIDs : add_checked (PIDs r) (PIDs s) = _). cbn [mbind res_mbind].
  set (out := fold_left (fun m p => <[p.1 := device m p.1 + p.2]> m) (map_to_list (Devices s)) (Devices r)).
  assert (A : add_devices (Devices r) (map_to_list (Devices s)) = Ok out).
  { apply add_devices_spec; [apply NoDup_fst_map_to_list| | |split; [done|]].
    - intros n. split; [apply (proj1 Vr (DDevice n))|apply (Wr (DDevice n))].
    - intros n v I%elem_of_map_to_list. pose proof (proj1 Vs (DDevice n)) as V. pose proof (Ws (DDevice n)) as W.
      cbn in V, W. unfold device in V, W. rewrite I in V, W. cbn in V, W. lia.
    - intros n. rewrite devices_of. apply (B (DDevice n)). }
  rewrite A. eexists. split; [done|].
  assert (Am : forall d, amount (mkResources (amount r DCPU + amount s DCPU) (amount r DMemory + amount s DMemory)
    (amount r DSwap + amount s DSwap) (amount r DStorage + amount s DStorage) (amount r DCapture + amount s DCapture)
    (amount r DInodes + amount s DInodes) (amount r DPIDs + amount s DPIDs) out) d = amount r d + amount s d).
  { intros [| | | | | | |n]; try done. cbn. unfold out.
    rewrite (fold_devices Z.add) by (apply NoDup_fst_map_to_list || lia). by rewrite devices_of. }
  split_and!; [split| |done].
  - intros d. rewrite Am. pose proof (proj1 Vr d). pose proof (proj1 Vs d). lia.
  - apply fold_devices_empty; [apply Vr|apply no_empty_device, Vs].
  - intros d. rewrite Am. pose proof (proj1 Vr d). pose proof (proj1 Vs d). specialize (B d). unfold MaxInt64 in *. lia.
Qed.

Lemma subtract_devices (m : gmap string Z) l :
  fold_left subtract_device l m = fold_left (fun m p => <[p.1 := (fun a b => i64 (a - b)) (device m p.1) p.2]> m) l m.
Proof. done. Qed.

(** [Subtract] succeeds exactly when the subtrahend fits, and then subtracts. *)
Lemma Subtract_ok r s :
  int64s r -> Resources_FitsWithin s r = true ->
  exists t, Resources_Subtract r s = Ok t /\ valid t /\ int64s t /\ forall d, amount t d = amount r d - amount s d.
Proof.
  pose proof MaxInt64_value. intros Wr F. unfold Resources_Subtract. rewrite F. cbn [check mbind res_mbind].
  apply FitsWithin_iff in F as (Vs & Vr & L). eexists. split; [done|].
  set (t := mkResources _ _ _ _ _ _ _ _).
  assert (D : forall d, i64 (amount r d - amount s d) = amount r d - amount s d).
  { intros d. apply i64_small. pose proof (proj1 Vs d). pose proof (proj1 Vr d). specialize (Wr d). specialize (L d). lia. }
  assert (Am : forall d, amount t d = amount r d - amount s d).
  { intros [| | | | | | |n]; [apply (D DCPU)|apply (D DMemory)|apply (D DSwap)|apply (D DStorage)|apply (D DCapture)
      |apply (D DInodes)|apply (D DPIDs)|]. cbn.
    etrans; [|exact (D (DDevice n))]. cbn. rewrite <-(devices_of (Devices s)).
    apply (fold_devices (fun a b => i64 (a - b))); [apply NoDup_fst_map_to_list|].
    rewrite Z.sub_0_r. apply i64_small, (Wr (DDevice n)). }
  split_and!; [split| |done].
  - intros d. rewrite Am. specialize (L d). lia.
  - apply (fold_devices_empty (fun a b => i64 (a - b))); [apply Vr|apply no_empty_device, Vs].
  - intros d. rewrite Am. pose proof (proj1 Vs d). specialize (L d). specialize (Wr d). lia.
Qed.

Lemma add_devices_ok_iff (r s : Resources) out :
  int64s r -> int64s s -> valid r -> valid s ->
  add_devices (Devices r) (map_to_list (Devices s)) = Ok out ->
  forall n, device (Devices r) n + device (Devices s) n <= MaxInt64.
Proof.
  intros Wr Ws Vr Vs A n. apply add_devices_spec in A as [_ A].
  - specialize (A n). by rewrite devices_of in A.
  - apply NoDup_fst_map_to_list.
  - intros k. split; [apply (proj1 Vr (DDevice k))|apply (Wr (DDevice k))].
  - intros k v I%elem_of_map_to_list. pose proof (proj1 Vs (DDevice k)) as V. pose proof (Ws (DDevice k)) as W.
    cbn in V, W. unfold device in V, W. rewrite I in V, W. cbn in V, W. lia.
Qed.

Lemma Add_inv r s t :
  int64s r -> int64s s -> Resources_Add r s = Ok t ->
  valid r /\ valid s /\ (forall d, amount r d + amount s d <= MaxInt64) /\
  valid t /\ int64s t /\ forall d, amount t d = amount r d + amount s d.
Proof.
  intros Wr Ws E. enough (valid r /\ valid s /\ forall d, amount r d + amount s d <= MaxInt64) as (Vr & Vs & B).
  { destruct (Add_ok r s Wr Ws Vr Vs B) as (t' & E' & Vt & Wt & A). rewrite E in E'. injection E' as ->. done. }
  unfold Resources_Add in E. inv_res E.
  repeat match goal with x : () |- _ => destruct x end.
  match goal with H1 : Resources_Validate r = _, H2 : Resources_Validate s = _ |- _ =>
    apply Validate_iff in H1 as Vr; apply Validate_iff in H2 as Vs end.
  split; [done|]. split; [done|].
  assert (C : forall d c, add_checked (amount r d) (amount s d) = Ok c -> amount r d + amount s d <= MaxInt64).
  { intros d c Hc. apply add_checked_iff in Hc as [? _]; [done|split; [apply Vr|apply Wr]|split; [apply Vs|apply Ws]]. }
  intros [| | | | | | |n];
    [eapply (C DCPU)|eapply (C DMemory)|eapply (C DSwap)|eapply (C DStorage)|eapply (C DCapture)|eapply (C DInodes)
    |eapply (C DPIDs)|eapply add_devices_ok_iff]; done.
Qed.

(** Two sums in a row. *)
Lemma Add_twice a b c :
  int64s a -> int64s b -> int64s c -> valid a -> valid b -> valid c ->
  (forall t, (x ← Resources_Add a b; Resources_Add x c) = Ok t ->
     valid t /\ int64s t /\ forall d, amount t d = amount a d + amount b d + amount c d) /\
  ((forall d, amount a d + amount b d + amount c d <= MaxInt64) ->
     exists t, (x ← Resources_Add a b; Resources_Add x c) = Ok t).
Proof.
  intros Wa Wb Wc Va Vb Vc. split.
  - intros t E. inv_res E. apply (Add_inv _ _ _ Wa Wb) in E0 as (_ & _ & _ & Vx & Wx & Ax).
    apply (Add_inv _ _ _ Wx Wc) in E as (_ & _ & _ & Vt & Wt & At). split_and!; [done|done|]. intros d. by rewrite At, Ax.
  - intros B. destruct (Add_ok a b Wa Wb Va Vb) as (x & E & Vx & Wx & Ax).
    { intros d. specialize (B d). pose proof (proj1 Vc d). lia. }
    destruct (Add_ok x c Wx Wc Vx Vc) as (t & Et & _); [intros d; by rewrite Ax|]. exists t. by rewrite E.
Qed.

(** ** Admission *)
Section Admission.
Context `{DecisionText}.

(** What the node has given away, and what a lease asks for. *)
Definition committed (s : CapacitySnapshot) (d : dimension) : Z :=
  amount (Reserved s) d + amount (WarmPoolCost s) d + amount (ControlReserve s) d.
Definition required (r : LeaseRequest) (d : dimension) : Z :=
  amount (Requests r) d + amount (ObserverCost r) d + amount (SnapshotCost r) d.

Definition vectors (r : LeaseRequest) (s : CapacitySnapshot) : list Resources :=
  [Requests r; Limits r; ObserverCost r; SnapshotCost r; Allocatable s; Reserved s; WarmPoolCost s; ControlReserve s].

(** A request that may be admitted, whatever the capacity. *)
Record admissible (r : LeaseRequest) (s : CapacitySnapshot) (t : PressureThresholds) : Prop := {
  ad_text : is_Some (lease_text r s t);
  ad_pressure : Pressure_Validate (snap_Pressure s) = Ok tt;
  ad_thresholds : PressureThresholds_Validate t = Ok tt;
  ad_key : LeaseKey r <> ""; ad_ttl : 0 < TTL r; ad_nonzero : exists d, amount (Requests r) d <> 0;
  ad_valid : Forall valid (vectors r s);
  ad_limits : forall d, amount (Requests r) d <= amount (Limits r) d;
  ad_quiet : Pressure_unsafe (snap_Pressure s) t = [] }.

Lemma IsZero_false r : valid r -> Resources_IsZero r = false <-> exists d, amount r d <> 0.
Proof.
  intros V. split.
  - intros E. destruct (decide (CPUMilli r = 0)) as [E1|N]; [|by exists DCPU].
    destruct (decide (MemoryBytes r = 0)) as [E2|N]; [|by exists DMemory].
    destruct (decide (SwapBytes r = 0)) as [E3|N]; [|by exists DSwap].
    destruct (decide (StorageBytes r = 0)) as [E4|N]; [|by exists DStorage].
    destruct (decide (CaptureBytes r = 0)) as [E5|N]; [|by exists DCapture].
    destruct (decide (Inodes r = 0)) as [E6|N]; [|by exists DInodes].
    destruct (decide (PIDs r = 0)) as [E7|N]; [|by exists DPIDs].
    unfold Resources_IsZero in E. cbn [fields forallb] in E. rewrite E1, E2, E3, E4, E5, E6, E7 in E. cbn in E.
    destruct (forallb _ _) eqn:F in E; [done|]. apply forallb_map_false in F as (n & v & I & Nz). cbn in Nz. to_prop.
    exists (DDevice n). cbn. unfold device. by rewrite I.
  - intros [d N]. apply not_true_is_false. intros E. exact (N (proj1 (IsZero_iff r) E d)).
Qed.

Lemma res_each_Validate_iff l : is_ok (res_each (fun _ => Resources_Validate) 0 l) = true <-> Forall valid l.
Proof.
  rewrite is_ok_true, Forall_lookup. split.
  - intros [[] E] i r L. apply Validate_iff. by apply (proj1 (res_each_ok _ _ _) E i r).
  - intros F. exists tt. apply res_each_ok. intros i r L. apply Validate_iff. by eapply F.
Qed.

Lemma Evaluate_early request snapshot thresholds now d e :
  Evaluate request snapshot thresholds now = (d, e) ->
  admissible request snapshot thresholds \/
  (~ admissible request snapshot thresholds /\ ad_Admitted d = false /\ e <> None).
Proof.
  intros E. unfold Evaluate in E.
  destruct (lease_text request snapshot thresholds) as [text|] eqn:T; cbn [decisionDigest from_option_err mbind res_mbind] in E.
  2:{ injection E as <- <-. right. split; [|done]. intros [[? X]]. congruence. }
  destruct (Pressure_Validate _) as [[]|] eqn:P; [|injection E as <- <-; right; split; [intros []; congruence|done]].
  destruct (PressureThresholds_Validate _) as [[]|] eqn:Th; [|injection E as <- <-; right; split; [intros []; congruence|done]].
  destruct (bool_decide (LeaseKey request = "") || (TTL request <=? 0)) eqn:C1; cbn [orb] in E.
  { injection E as <- <-. right. split; [|done]. intros [_ _ _ K L]. to_prop. destruct C1; [done|lia]. }
  destruct (Resources_IsZero (Requests request)) eqn:C2.
  { injection E as <- <-. right. split; [|done]. intros [_ _ _ _ _ [x Nz]]. exact (Nz (proj1 (IsZero_iff _) C2 x)). }
  pose proof (res_each_Validate_iff (vectors request snapshot)) as Vi. unfold vectors in Vi at 1.
  destruct (res_each _ _ _) as [[]|] eqn:V.
  2:{ injection E as <- <-. right. split; [|done]. intros [_ _ _ _ _ _ Vs]. apply Vi in Vs. done. }
  apply proj1 in Vi. specialize (Vi eq_refl).
  destruct (Resources_FitsWithin (Requests request) _) eqn:F; cbn [negb] in E.
  2:{ injection E as <- <-. right. split; [|done]. intros [_ _ _ _ _ _ _ Li].
      apply not_true_iff_false in F. apply F, FitsWithin_iff. unfold vectors in Vi. rewrite !Forall_cons in Vi. tauto. }
  apply FitsWithin_iff in F as (V1 & _ & F). destruct (Pressure_unsafe _ _) eqn:Q.
  - left. to_prop. destruct C1. split; try done. by apply IsZero_false.
  - injection E as <- <-. right. split; [|done]. intros []. congruence.
Qed.

Lemma Evaluate_admissible request snapshot thresholds now d e :
  Forall int64s (vectors request snapshot) -> admissible request snapshot thresholds ->
  Evaluate request snapshot thresholds now = (d, e) ->
  (e = None /\ ad_Admitted d = true /\ EffectiveBudget d = Limits request /\
     (forall x, committed snapshot x + required request x <= amount (Allocatable snapshot) x) /\
     forall x, amount (AvailableAfter d) x = amount (Allocatable snapshot) x - committed snapshot x - required request x) \/
  (e <> None /\ ad_Admitted d = false /\
     ~ forall x, committed snapshot x + required request x <= amount (Allocatable snapshot) x).
Proof.
  intros W [[text T] P Th K L Nz V Li Q] E. unfold Evaluate in E. rewrite T, P, Th in E.
  cbn [decisionDigest from_option_err mbind res_mbind] in E. rewrite bool_decide_eq_false_2 in E by done.
  destruct (Z.leb_spec (TTL request) 0); [lia|]. cbn [orb] in E.
  pose proof V as V'. unfold vectors in V', W. rewrite !Forall_cons in V', W.
  destruct V' as (Vr & Vl & Vo & Vn & Va & Vres & Vw & Vc & _). destruct W as (Wr & Wl & Wo & Wn & Wa & Wres & Ww & Wc & _).
  rewrite (proj2 (IsZero_false _ Vr) Nz) in E.
  replace (res_each _ _ _) with (Ok tt : res aerr unit) in E
    by (apply res_each_Validate_iff in V; apply is_ok_true in V as [[] V]; by symmetry).
  rewrite (proj2 (FitsWithin_iff _ _) (conj Vr (conj Vl Li))) in E. rewrite Q in E. cbn [negb length Nat.ltb Nat.leb] in E.
  destruct (Add_twice _ _ _ Wres Ww Wc Vres Vw Vc) as [A1 A2]. destruct (Add_twice _ _ _ Wr Wo Wn Vr Vo Vn) as [B1 B2].
  assert (Fit : (forall x, committed snapshot x + required request x <= amount (Allocatable snapshot) x) ->
    (forall x, committed snapshot x <= MaxInt64) /\ (forall x, required request x <= MaxInt64) /\
    forall x, committed snapshot x <= amount (Allocatable snapshot) x).
  { intros F. split_and!; intros x; specialize (F x); specialize (Wa x);
      pose proof (proj1 Vr x); pose proof (proj1 Vo x); pose proof (proj1 Vn x);
      pose proof (proj1 Vres x); pose proof (proj1 Vw x); pose proof (proj1 Vc x);
      unfold committed, required in *; lia. }
  destruct (x ← Resources_Add (Reserved snapshot) (WarmPoolCost snapshot); Resources_Add x (ControlReserve snapshot))
    as [unavailable|] eqn:Eu.
  2:{ injection E as <- <-. right. split_and!; [done..|]. intros F. destruct (A2 (proj1 (Fit F))) as [t Et]. congruence. }
  destruct (A1 _ eq_refl) as (Vu & Wu & Au).
  destruct (Resources_FitsWithin unavailable (Allocatable snapshot)) eqn:Fu.
  2:{ unfold Resources_Subtract in E. rewrite Fu in E. injection E as <- <-. right. split_and!; [done..|]. intros F.
      apply not_true_iff_false in Fu. apply Fu, FitsWithin_iff. split_and!; [done..|]. intros x. rewrite Au. apply (Fit F). }
  destruct (Subtract_ok _ _ Wa Fu) as (available & Es & Vav & Wav & Aav). rewrite Es in E.
  destruct (x ← Resources_Add (Requests request) (ObserverCost request); Resources_Add x (SnapshotCost request))
    as [need|] eqn:En.
  2:{ injection E as <- <-. right. split_and!; [done..|]. intros F. destruct (B2 (proj1 (proj2 (Fit F)))) as [t Et]. congruence. }
  destruct (B1 _ eq_refl) as (Vq & Wq & Aq).
  destruct (Resources_FitsWithin need available) eqn:Fn; cbn [negb] in E; injection E as <- <-.
  - left. destruct (Subtract_ok _ _ Wav Fn) as (after & Ef & _ & _ & Af). apply FitsWithin_iff in Fn as (_ & _ & Ln).
    split_and!; try done; intros x; specialize (Ln x); rewrite Aq, Aav, Au in Ln; [unfold committed, required; lia|].
    cbn. rewrite Ef, Af, Aav, Au, Aq. unfold committed, required. lia.
  - right. split_and!; [done..|]. intros F. apply not_true_iff_false in Fn. apply Fn, FitsWithin_iff. split_and!; [done..|].
    intros x. rewrite Aq, Aav, Au. specialize (F x). unfold committed, required in F. lia.
Qed.

(** C35: A lease is admitted exactly when the request is well formed, no
    pressure signal is active and, in every dimension, what the node has
    committed (reservations, warm pools, control reserve) plus what the lease
    needs (request, observer, snapshot) fits the allocatable capacity, as
    integers without overflow; the remaining capacity reported is then the
    exact difference and the budget is the requested limits.  Every refusal is
    an error. *)
Theorem admission_exact request snapshot thresholds now d e :
  Forall int64s (vectors request snapshot) ->
  Evaluate request snapshot thresholds now = (d, e) ->
  (e = None <-> ad_Admitted d = true) /\
  (ad_Admitted d = true <->
     admissible request snapshot thresholds /\
     forall x, committed snapshot x + required request x <= amount (Allocatable snapshot) x) /\
  (ad_Admitted d = true -> EffectiveBudget d = Limits request /\
     forall x, amount (AvailableAfter d) x = amount (Allocatable snapshot) x - committed snapshot x - required request x).
Proof.
  intros W E. destruct (Evaluate_early _ _ _ _ _ _ E) as [A|(A & -> & N)].
  - destruct (Evaluate_admissible _ _ _ _ _ _ W A E) as [(-> & -> & B & F & R)|(N & -> & F)]; [done|].
    split_and!; try done. split; [done|]. by intros [_ ?].
  - split_and!; try done. split; [done|]. by intros [? _].
Qed.
End Admission.
