(* ===== verification/CapacityOrder.v ===== *)
(** * Pressure stages and queue order

    Both sort by a lexicographic order: two integers, then a name. *)
From Stdlib Require Import Floats.SpecFloat.
From S2P Require Import Prelude Sha256 GoStrings Utf8Facts GoText Capacity CapacityFacts.
Local Open Scope Z_scope.

(** ** The stable sort *)
Section Sorted.
Context {A : Type} (less : A -> A -> bool).
Definition not_after (a b : A) : Prop := less b a = false.
Context (less_asym : forall a b, less a b = true -> less b a = false).
Context (not_after_trans : forall a b c, not_after a b -> not_after b c -> not_after a c).

Lemma insert_stable_Permutation x l : insert_stable less x l ≡ₚ x :: l.
Proof. induction l as [|y l IH]; cbn; [done|]. destruct (less x y); [done|]. rewrite IH. constructor. Qed.

Lemma sort_stable_Permutation l : sort_stable less l ≡ₚ l.
Proof.
  unfold sort_stable. enough (G : forall acc, fold_left (fun s x => insert_stable less x s) l acc ≡ₚ acc ++ l) by apply G.
  induction l as [|x l IH]; intros acc; cbn; [by rewrite app_nil_r|].
  rewrite IH, insert_stable_Permutation. by rewrite <-Permutation_middle.
Qed.

Lemma insert_stable_sorted x l : StronglySorted not_after l -> StronglySorted not_after (insert_stable less x l).
Proof.
  induction 1 as [|y l S IH F]; cbn; [by repeat constructor|]. destruct (less x y) eqn:E.
  - assert (Xy : not_after x y) by (by apply less_asym). constructor; [by constructor|]. constructor; [done|].
    eapply Forall_impl; [exact F|]. cbn. intros z. by apply not_after_trans.
  - constructor; [done|]. rewrite Forall_forall in *. intros z Hz. rewrite insert_stable_Permutation in Hz.
    apply elem_of_cons in Hz as [->|Hz]; [done|by apply F].
Qed.

Lemma sort_stable_sorted l : StronglySorted not_after (sort_stable less l).
Proof.
  unfold sort_stable. enough (G : forall acc, StronglySorted not_after acc ->
    StronglySorted not_after (fold_left (fun s x => insert_stable less x s) l acc)) by (apply G; constructor).
  induction l as [|x l IH]; intros acc S; cbn; [done|]. by apply IH, insert_stable_sorted.
Qed.

(** In a sorted list, what is less comes earlier. *)
Definition precedes (a b : A) (l : list A) : Prop := exists l1 l2 l3, l = l1 ++ a :: l2 ++ b :: l3.

Lemma sorted_precedes a b l :
  StronglySorted not_after l -> a ∈ l -> b ∈ l -> less a b = true -> precedes a b l.
Proof.
  induction 1 as [|y l S IH F]; intros Ha Hb L; [by apply elem_of_nil in Ha|]. rewrite Forall_forall in F.
  apply elem_of_cons in Ha as [->|Ha]; apply elem_of_cons in Hb as [->|Hb].
  - apply less_asym in L as L'. congruence.
  - apply list_elem_of_split in Hb as (l2 & l3 & ->). by exists [], l2, l3.
  - specialize (F _ Ha). unfold not_after in F. congruence.
  - destruct (IH Ha Hb L) as (l1 & l2 & l3 & ->). by exists (y :: l1), l2, l3.
Qed.
End Sorted.

(** ** Lexicographic order *)
Section Lex.
Context {A : Type} (f g : A -> Z) (h : A -> string).

Definition lex_less (a b : A) : bool :=
  if negb (f a =? f b) then f a <? f b else
  if negb (g a =? g b) then g a <? g b else String.ltb (h a) (h b).

Lemma ltb_leb a b : String.ltb a b = negb (String.leb b a).
Proof. unfold String.ltb, String.leb. rewrite (String.compare_antisym a b). by destruct (String.compare b a). Qed.

Lemma lex_not_after a b :
  not_after lex_less a b <-> f a < f b \/ (f a = f b /\ (g a < g b \/ (g a = g b /\ string_le (h a) (h b)))).
Proof.
  unfold not_after, lex_less, string_le. rewrite ltb_leb.
  destruct (Z.eqb_spec (f b) (f a)) as [Ef|Nf]; cbn [negb]; [|to_prop; lia].
  destruct (Z.eqb_spec (g b) (g a)) as [Eg|Ng]; cbn [negb]; [|to_prop; lia].
  to_prop. split; [intros ->; lia|]. intros [?|[_ [?|[_ ?]]]]; [lia|lia|done].
Qed.

Lemma lex_asym a b : lex_less a b = true -> lex_less b a = false.
Proof.
  intros L. destruct (lex_less b a) eqn:L'; [exfalso|done]. unfold lex_less in *.
  rewrite (Z.eqb_sym (f b)), (Z.eqb_sym (g b)) in L'. destruct (Z.eqb_spec (f a) (f b)); cbn [negb] in *; [|to_prop; lia].
  destruct (Z.eqb_spec (g a) (g b)); cbn [negb] in *; [|to_prop; lia].
  rewrite !ltb_leb in *. to_prop. destruct (String.leb_total (h a) (h b)); congruence.
Qed.

Lemma lex_trans a b c : not_after lex_less a b -> not_after lex_less b c -> not_after lex_less a c.
Proof.
  rewrite !lex_not_after. intros [?|[? [?|[? L1]]]] [?|[? [?|[? L2]]]]; try (left; lia); try (right; split; [lia|left; lia]).
  right. split; [lia|]. right. split; [lia|]. by etrans.
Qed.
End Lex.

(** ** The queue *)
Lemma queue_less_lex now interval a b :
  queue_less now interval a b = lex_less (fun x => - score now interval x) ql_EnqueuedAt ql_LeaseKey a b.
Proof.
  unfold queue_less, lex_less, time_Equal, time_Before.
  replace (- score now interval a =? - score now interval b) with (score now interval a =? score now interval b) by lia.
  destruct (_ =? _); cbn [negb]; [done|lia].
Qed.

(** The ages and scores of the queue fit their Go types: no age beyond 292
    years, no priority that overflows with its promotion. *)
Definition unsaturated (now : time) (interval : duration) (x : QueuedLease) : Prop :=
  now - ql_EnqueuedAt x <= MaxInt64 /\
  - MaxInt64 - 1 <= ql_Priority x /\
  ql_Priority x + Z.max 0 (now - ql_EnqueuedAt x) / interval <= MaxInt64.

Lemma score_exact now interval x :
  0 < interval -> unsaturated now interval x ->
  score now interval x = ql_Priority x + Z.max 0 (now - ql_EnqueuedAt x) / interval.
Proof.
  pose proof MaxInt64_value as M. intros I (U1 & U2 & U3). unfold score, time_Sub.
  set (age := now - ql_EnqueuedAt x) in *.
  assert (E : (if Z.max (- MaxInt64 - 1) (Z.min MaxInt64 age) <? 0 then 0 else Z.max (- MaxInt64 - 1) (Z.min MaxInt64 age)) = Z.max 0 age)
    by (destruct (Z.ltb_spec (Z.max (- MaxInt64 - 1) (Z.min MaxInt64 age)) 0); lia).
  rewrite E, Z.quot_div_nonneg by lia. apply i64_small.
  pose proof (Z.div_pos (Z.max 0 age) interval ltac:(lia) I). lia.
Qed.

(** [OrderQueue] returns the queue's leases, ordered by score, then time of
    arrival, then key, and no lease starves: a lease precedes every other that
    arrived later by one aging interval per point of priority it lacks and one
    more, so only the arrivals of a bounded time can overtake it. *)
Theorem order_queue_fair items now interval ordered :
  OrderQueue items now interval = Ok ordered ->
  Forall (unsaturated now interval) items ->
  ordered ≡ₚ items /\
  StronglySorted (not_after (queue_less now interval)) ordered /\
  forall a b, a ∈ items -> b ∈ items -> ql_EnqueuedAt b <= now ->
    ql_EnqueuedAt a + (Z.max 0 (ql_Priority b - ql_Priority a) + 1) * interval <= ql_EnqueuedAt b ->
    precedes a b ordered.
Proof.
  unfold OrderQueue. rewrite check_bind_ok. intros [I [= <-]] U. to_prop.
  assert (As : forall a b, queue_less now interval a b = true -> queue_less now interval b a = false)
    by (intros a b; rewrite !queue_less_lex; apply lex_asym).
  assert (Tr : forall a b c, not_after (queue_less now interval) a b -> not_after (queue_less now interval) b c ->
    not_after (queue_less now interval) a c)
    by (intros a b c; unfold not_after; rewrite !queue_less_lex; apply lex_trans).
  split_and!; [apply sort_stable_Permutation|by apply sort_stable_sorted|].
  intros a b Ha Hb Lb Gap. apply (sorted_precedes (queue_less now interval)); [done|by apply sort_stable_sorted|..].
  1,2: by rewrite sort_stable_Permutation.
  rewrite Forall_forall in U. unfold queue_less. rewrite !score_exact by auto.
  set (pa := ql_Priority a) in *. set (pb := ql_Priority b) in *. set (delta := Z.max 0 (pb - pa)) in *.
  assert (G : (now - ql_EnqueuedAt b) / interval + (delta + 1) <= (now - ql_EnqueuedAt a) / interval).
  { rewrite <-Z.div_add by lia. apply Z.div_le_mono; [done|lia]. }
  rewrite !Z.max_r by nia. destruct (Z.eqb_spec (pa + (now - ql_EnqueuedAt a) / interval) (pb + (now - ql_EnqueuedAt b) / interval)); cbn [negb]; [lia|].
  apply Z.ltb_lt. lia.
Qed.

(** ** Victims *)
Definition candidate_key_order := @lex_less RevocationCandidate rc_Priority (fun c => - rc_StartedAt c) rc_ResourceKey.

Lemma candidate_less_lex a b : candidate_less a b = candidate_key_order a b.
Proof.
  unfold candidate_less, candidate_key_order, lex_less, time_Equal, time_After.
  destruct (rc_Priority a =? rc_Priority b); cbn [negb]; [|done].
  replace (- rc_StartedAt a =? - rc_StartedAt b) with (rc_StartedAt a =? rc_StartedAt b) by lia.
  destruct (_ =? _); cbn [negb]; [done|lia].
Qed.

(** The victim: the eligible candidate of the lowest priority, the latest
    started among those, the least key among those. *)
Definition victim (candidates : list RevocationCandidate) (kind : CandidateKind) (idleOnly : bool) (key : string) : Prop :=
  (key = "" /\ forall c, c ∈ candidates -> eligible kind idleOnly c = false) \/
  exists c, c ∈ candidates /\ eligible kind idleOnly c = true /\ key = rc_ResourceKey c /\
    forall c', c' ∈ candidates -> eligible kind idleOnly c' = true ->
      rc_Priority c < rc_Priority c' \/ (rc_Priority c = rc_Priority c' /\
        (rc_StartedAt c' < rc_StartedAt c \/ (rc_StartedAt c = rc_StartedAt c' /\ string_le (rc_ResourceKey c) (rc_ResourceKey c')))).

Lemma selectCandidate_victim candidates kind idleOnly :
  victim candidates kind idleOnly (selectCandidate candidates kind idleOnly).
Proof.
  unfold selectCandidate, victim.
  assert (P : sort_stable candidate_less (List.filter (eligible kind idleOnly) candidates) ≡ₚ
    List.filter (eligible kind idleOnly) candidates) by apply sort_stable_Permutation.
  assert (S : StronglySorted (not_after candidate_less) (sort_stable candidate_less (List.filter (eligible kind idleOnly) candidates))).
  { apply sort_stable_sorted; intros a b; [|intros c; unfold not_after]; rewrite !candidate_less_lex; [apply lex_asym|apply lex_trans]. }
  assert (El : forall c, c ∈ sort_stable candidate_less (List.filter (eligible kind idleOnly) candidates) <->
    c ∈ candidates /\ eligible kind idleOnly c = true).
  { intros c. rewrite P, !list_elem_of_In. apply filter_In. }
  destruct (sort_stable _ _) as [|first rest].
  - left. split; [done|]. intros c Hc. apply not_true_is_false. intros E. by apply (elem_of_nil c), El.
  - right. exists first. destruct (proj1 (El first) (list_elem_of_here _ _)) as [H1 H2]. split_and!; [done..|].
    intros c' Hc' E. pose proof (proj2 (El c') (conj Hc' E)) as Hin. apply StronglySorted_inv in S as [_ F].
    apply elem_of_cons in Hin as [->|Hin]; [right; split; [done|right; split; [done|by destruct (total string_le (rc_ResourceKey first) (rc_ResourceKey first))]]|].
    rewrite Forall_forall in F. specialize (F _ Hin). unfold not_after in F. rewrite candidate_less_lex in F.
    apply lex_not_after in F. destruct F as [?|[? [?|[? ?]]]]; [by left|right; split; [done|left; lia]|right; split; [done|right; split; [lia|done]]].
Qed.

(** ** One stage at a time *)
Section Ladder.
Context `{DecisionText}.

Definition well_formed (input : PressureInput) : Prop :=
  is_Some (pressure_text input) /\ Pressure_Validate (pi_Pressure input) = Ok tt /\
  PressureThresholds_Validate (pi_Thresholds input) = Ok tt.

(** What a stage may name as its victim. *)
Definition stage_victim (input : PressureInput) (d : PressureDecision) : Prop :=
  (pd_Stage d = StageQuiesceIdleTargets /\ pd_CreatesResourceEvictionIncident d = false /\
     victim (pi_Candidates input) CandidateTargetRun true (pd_ResourceKey d)) \/
  (pd_Stage d = StageRevokeTargetRuns /\
     pd_CreatesResourceEvictionIncident d = negb (bool_decide (pd_ResourceKey d = "")) /\
     victim (pi_Candidates input) CandidateTargetRun false (pd_ResourceKey d)) \/
  (pd_Stage d = StageRevokeAgentWorkspaces /\
     pd_CreatesResourceEvictionIncident d = negb (bool_decide (pd_ResourceKey d = "")) /\
     victim (pi_Candidates input) CandidateAgentWorkspace false (pd_ResourceKey d)) \/
  (pd_Stage d ∉ [StageQuiesceIdleTargets; StageRevokeTargetRuns; StageRevokeAgentWorkspaces] /\
     pd_CreatesResourceEvictionIncident d = false /\ pd_ResourceKey d = "").

Ltac name_stages := unfold StageNormal, StageRaiseObservation, StageStopAdmission, StageExpireReservations,
  StageShrinkWarmPools, StageQuiesceIdleTargets, StageRevokeTargetRuns, StageRevokeAgentWorkspaces, StageQuarantineNode in *.

Lemma next_stage s : (s <= StageQuarantineNode)%N ->
  (if (s =? StageNormal)%N then StageRaiseObservation else ((s + 1) mod 256)%N) = (s + 1)%N.
Proof. name_stages. intros L. destruct (N.eqb_spec s 0) as [->|_]; [done|]. apply N.mod_small. lia. Qed.

Lemma stage_action_spec next input d :
  (1 <= next <= StageQuarantineNode)%N -> pd_Stage d = next -> pd_ResourceKey d = "" ->
  pd_CreatesResourceEvictionIncident d = false ->
  pd_Stage (stage_action next input d) = next /\ pd_Action (stage_action next input d) <> "" /\
  stage_victim input (stage_action next input d).
Proof.
  intros B Sd Kd Id. pose proof (selectCandidate_victim (pi_Candidates input)) as V. unfold stage_victim, stage_action.
  repeat match goal with |- context [if (next =? ?k)%N then _ else _] => destruct (N.eqb_spec next k) as [->|]; cbn end.
  all: try (destruct (_ =? 0)).
  all: try (exfalso; name_stages; lia).
  all: split; [done|split; [done|]]; cbn.
  all: first [by (left; split_and!; auto)|by (right; left; split_and!; auto)|by (right; right; left; split_and!; auto)|right; right; right].
  all: split; [|done]; rewrite !elem_of_cons, elem_of_nil, Sd; name_stages; lia.
Qed.

(** With an active pressure signal [DecidePressure] moves to exactly the
    next stage, without one it returns to normal; only the stages that quiesce
    or revoke name a resource, and it is the eligible preemptible candidate of
    the lowest priority (idle, for quiescing).  At the last stage it goes on to
    a stage that does not exist and has no action, and from there it fails. *)
Theorem pressure_climbs_one_stage input d e :
  well_formed input -> DecidePressure input = (d, e) ->
  let active := Pressure_unsafe (pi_Pressure input) (pi_Thresholds input) <> [] in
  (~ active -> e = None /\ pd_Stage d = StageNormal /\ pd_Action d = "resume_admission") /\
  (active -> (pi_Stage input < StageQuarantineNode)%N ->
     e = None /\ pd_Stage d = (pi_Stage input + 1)%N /\ pd_Action d <> "" /\ stage_victim input d) /\
  (active -> pi_Stage input = StageQuarantineNode ->
     e = None /\ pd_Stage d = 9%N /\ PressureStage_String (pd_Stage d) = "unknown" /\ pd_Action d = "") /\
  (active -> (StageQuarantineNode < pi_Stage input)%N -> e = Some ErrStage).
Proof.
  intros ([text T] & P & Th) E active. unfold active. unfold DecidePressure in E. rewrite P, Th in E.
  destruct (decisionDigest (pressure_text input)) as [digest|] eqn:Dg; [clear Dg|by rewrite T in Dg].
  destruct (Pressure_unsafe _ _) as [|x reasons].
  { injection E as <- <-. split_and!; done. }
  split; [by intros []|]. revert E. generalize (joinReasons (x :: reasons)). intros text' E. cbn [length Nat.eqb] in E.
  destruct (StageQuarantineNode <? pi_Stage input)%N eqn:Q; to_prop.
  { injection E as <- <-. split_and!; intros _; [lia..|done]. }
  rewrite next_stage in E by done. injection E as <- <-. split; [|split; [|lia]]; intros _ L.
  - split; [done|]. apply stage_action_spec; try done. lia.
  - rewrite L. done.
Qed.
End Ladder.

(** * Admission, shedding and queueing on concrete inputs *)
Local Open Scope Z_scope.

Module CapacityDemo.
#[local] Instance plain_text : DecisionText :=
  {| lease_text _ _ _ := Some [0%N]; pressure_text _ := Some [1%N] |}.

(** Half, and the percentages 50 and 10. *)
Definition half : float64 := S754_finite false 4503599627370496 (-53).
Definition fifty : float64 := S754_finite false 7036874417766400 (-47).
Definition ten : float64 := S754_finite false 5629499534213120 (-49).

Definition calm_psi : PSI := mkPSI f_zero f_zero.
(** A stall of one half and rising by one half. *)
Definition rising_psi : PSI := mkPSI half half.
Definition thresholds : PressureThresholds := mkThresholds f_one f_one f_one ten ten.
Definition calm_pressure : Pressure := mkPressure calm_psi calm_psi calm_psi fifty fifty.
Definition high_pressure : Pressure := mkPressure rising_psi calm_psi calm_psi ten fifty.

Definition cpu_memory (cpu memory : Z) : Resources := mkResources cpu memory 0 0 0 0 0 ∅.
Definition kvm (r : Resources) (n : Z) : Resources :=
  mkResources (CPUMilli r) (MemoryBytes r) (SwapBytes r) (StorageBytes r) (CaptureBytes r) (Inodes r) (PIDs r) {["kvm" := n]}.

Definition request : LeaseRequest :=
  mkLeaseRequest "lease" (kvm (cpu_memory 100 100) 1) (kvm (cpu_memory 300 300) 1) (cpu_memory 50 0) (cpu_memory 0 50) 0 false 3600.
Definition snapshot : CapacitySnapshot :=
  mkSnapshot (kvm (cpu_memory 1000 1000) 1) (cpu_memory 300 300) zero_resources (cpu_memory 100 100) calm_pressure 0.

Lemma int64s_check r :
  forallb (fun v => (- MaxInt64 - 1 <=? v) && (v <=? MaxInt64)) (fields r) = true ->
  forallb (fun p : string * Z => (- MaxInt64 - 1 <=? p.2) && (p.2 <=? MaxInt64)) (map_to_list (Devices r)) = true ->
  int64s r.
Proof.
  intros F D. unfold int64s. rewrite (dimensions (fun r _ d => - MaxInt64 - 1 <= amount r d <= MaxInt64) r r).
  cbn [amount]. cbn [fields forallb] in F. to_prop. destruct_and!. split_and!; try done. intros n. unfold device.
  destruct (Devices r !! n) as [v|] eqn:L; cbn; [|unfold MaxInt64; lia]. apply (proj1 (forallb_map _ _)) with (n := n) (v := v) in D; [|done].
  by to_prop.
Qed.

Lemma admission_exact_witness :
  exists d, Evaluate request snapshot thresholds 7 = (d, None) /\ ad_Admitted d = true /\
    amount (AvailableAfter d) DCPU = 450 /\ amount (AvailableAfter d) (DDevice "kvm") = 0.
Proof.
  destruct (Evaluate request snapshot thresholds 7) as [d e] eqn:E.
  destruct (admission_exact request snapshot thresholds 7 d e) as (Ad & _ & R).
  - repeat constructor; apply int64s_check; reflexivity.
  - exact E.
  - assert (N : e = None) by (transitivity (snd (Evaluate request snapshot thresholds 7)); [by rewrite E|vm_compute; reflexivity]).
    exists d. subst e. pose proof (proj1 Ad eq_refl) as A. destruct (R A) as [_ Am].
    split_and!; [done|done|rewrite Am; reflexivity|rewrite Am; reflexivity].
Defined.

Definition input (stage : N) : PressureInput :=
  mkInput stage high_pressure thresholds 1 1
    [mkCandidate "l" "old" CandidateTargetRun 1 true false 10; mkCandidate "l" "new" CandidateTargetRun 1 true false 20;
     mkCandidate "l" "pinned" CandidateTargetRun 0 false false 30] 0.

(** Two signals are active; the newer run of the lowest priority is revoked;
    the last stage overruns. *)
Lemma pressure_climbs_one_stage_witness :
  (exists d, DecidePressure (input 5) = (d, None) /\ pd_Stage d = StageRevokeTargetRuns /\ pd_ResourceKey d = "new") /\
  (exists d, DecidePressure (input 8) = (d, None) /\ pd_Stage d = 9%N /\ pd_Action d = "").
Proof.
  split.
  - destruct (DecidePressure (input 5)) as [d e] eqn:E.
    destruct (pressure_climbs_one_stage (input 5) d e) as (_ & C & _); [split_and!; [by eexists|reflexivity|reflexivity]|exact E|].
    destruct C as (-> & S & _); [vm_compute; discriminate|reflexivity|]. exists d. split_and!; [done|exact S|].
    transitivity (pd_ResourceKey (fst (DecidePressure (input 5)))); [by rewrite E|vm_compute; reflexivity].
  - destruct (DecidePressure (input 8)) as [d e] eqn:E.
    destruct (pressure_climbs_one_stage (input 8) d e) as (_ & _ & C & _); [split_and!; [by eexists|reflexivity|reflexivity]|exact E|].
    destruct C as (-> & S & _ & A); [vm_compute; discriminate|reflexivity|]. exists d. done.
Defined.

(** A lease of priority 0 that has waited 100 intervals comes before one of
    priority 50 that arrived last. *)
Definition patient : QueuedLease := mkQueued "patient" 0 0.
Definition urgent : QueuedLease := mkQueued "urgent" 50 1000.

Lemma order_queue_fair_witness :
  exists ordered, OrderQueue [urgent; patient] 1000 10 = Ok ordered /\ precedes patient urgent ordered.
Proof.
  eexists. split; [reflexivity|].
  destruct (order_queue_fair [urgent; patient] 1000 10 _ eq_refl) as (_ & _ & F).
  - repeat constructor; vm_compute; discriminate.
  - apply F; [right; left|left|vm_compute; discriminate|vm_compute; discriminate].
Defined.
End CapacityDemo.
