(* ===== verification/Reducer.v ===== *)
(** * The live snapshot of observations

    [internal/observation]: the reducer that turns accepted events into the
    current topology, metrics, coverage, incidents and pressure, and the
    authorization-filtered projection of a snapshot.  Loops that follow parents
    or iterate to a fixpoint take fuel; running out of it is [ErrFuel], and
    dereferencing a nil pointer is [ErrPanic]. *)
From S2P Require Import Prelude Errors GoStrings States Ids Evidence LedgerCodec GoText.
Local Open Scope N_scope.

Inductive oerr :=
| ErrCursorOrder | ErrInvalidEvent | ErrUnknownSubject | ErrSubjectCycle | ErrFuel | ErrPanic.

(** ** Types *)
Definition EventCheckpoint : N := 1.
Definition EventSubjectUpsert : N := 2.
Definition EventSubjectRemove : N := 3.
Definition EventMetricSet : N := 4.
Definition EventCoverageSet : N := 5.
Definition EventIncidentSet : N := 6.
Definition EventIncidentRemove : N := 7.
Definition EventPressureSet : N := 8.
Definition EventPressureRemove : N := 9.

Definition MetricPresent : N := 1.
Definition MetricMissing : N := 2.
Definition MetricUnsupported : N := 3.
Definition MetricStale : N := 4.
Definition MetricGap : N := 5.

Record MetricState := mkMetricState {
  mst_Kind : N; mst_Value : option float64; mst_LastValue : option float64; mst_CollectedAt : time;
  mst_SampleAge : duration; mst_Gap : option Gap; mst_Detail : string; mst_UpdatedCursor : N }.
#[export] Instance : Settable MetricState := {| record_eta r :=
  mkMetricState (mst_Kind r) (mst_Value r) (mst_LastValue r) (mst_CollectedAt r) (mst_SampleAge r) (mst_Gap r)
    (mst_Detail r) (mst_UpdatedCursor r) |}.

Definition Present (value : float64) (collectedAt : time) : MetricState :=
  mkMetricState MetricPresent (Some value) None collectedAt 0 None "" 0.
Definition Missing (detail : string) : MetricState := mkMetricState MetricMissing None None 0 0 None detail 0.
Definition Unsupported (detail : string) : MetricState := mkMetricState MetricUnsupported None None 0 0 None detail 0.
Definition Stale (lastValue : option float64) (age : duration) (detail : string) : MetricState :=
  mkMetricState MetricStale None lastValue 0 age None detail 0.
Definition GapState (gap : Gap) (detail : string) : MetricState := mkMetricState MetricGap None None 0 0 (Some gap) detail 0.

(** A nil pointer. *)
Definition is_nil {A} (o : option A) : bool := match o with None => true | Some _ => false end.

Definition MetricState_validate (state : MetricState) : res oerr unit :=
  if mst_Kind state =? MetricPresent then
    check (negb (is_nil (mst_Value state) || negb (from_option finite true (mst_Value state))
                 || negb (is_nil (mst_LastValue state)) || negb (is_nil (mst_Gap state)))) ErrInvalidEvent
  else if (mst_Kind state =? MetricMissing) || (mst_Kind state =? MetricUnsupported) then
    check (negb (negb (is_nil (mst_Value state)) || negb (is_nil (mst_LastValue state)) || negb (is_nil (mst_Gap state)))) ErrInvalidEvent
  else if mst_Kind state =? MetricStale then
    check (negb (negb (is_nil (mst_Value state)) || negb (is_nil (mst_Gap state)) || (mst_SampleAge state <? 0)%Z
                 || (negb (is_nil (mst_LastValue state)) && negb (from_option finite true (mst_LastValue state))))) ErrInvalidEvent
  else if mst_Kind state =? MetricGap then
    check (negb (negb (is_nil (mst_Value state)) || negb (is_nil (mst_LastValue state)) || is_nil (mst_Gap state))) ErrInvalidEvent
  else Err ErrInvalidEvent.

Record Subject := mkSubject {
  sj_ID : uuidV7; sj_ParentID : uuidV7; sj_LeaseID : uuidV7; sj_Kind : SubjectKind; sj_SignalFamily : string;
  sj_Labels : gmap string string }.

Abbreviation MetricKey := (uuidV7 * string)%type.
Record MetricView := mkMetricView {
  mv_LeaseID : uuidV7; mv_SignalFamily : string; mv_SubjectID : uuidV7; mv_Name : string; mv_State : MetricState }.

(** Collector, subject, signal family. *)
Abbreviation CoverageKey := (uuidV7 * uuidV7 * string)%type.
Record CoverageView := mkCoverageView {
  cv_LeaseID : uuidV7; cv_CollectorID : uuidV7; cv_SubjectID : uuidV7; cv_SignalFamily : string;
  cv_Placement : CollectorPlacement; cv_Level : CoverageLevel; cv_Status : CoverageStatus; cv_Required : bool;
  cv_Dropped : N; cv_Gap : option Gap; cv_UpdatedCursor : N }.
#[export] Instance : Settable CoverageView := {| record_eta r :=
  mkCoverageView (cv_LeaseID r) (cv_CollectorID r) (cv_SubjectID r) (cv_SignalFamily r) (cv_Placement r)
    (cv_Level r) (cv_Status r) (cv_Required r) (cv_Dropped r) (cv_Gap r) (cv_UpdatedCursor r) |}.

Record IncidentView := mkIncidentView {
  iv_ID : uuidV7; iv_LeaseID : uuidV7; iv_SubjectID : uuidV7; iv_SignalFamily : string; iv_State : IncidentState;
  iv_Summary : string; iv_UpdatedCursor : N }.
#[export] Instance : Settable IncidentView := {| record_eta r :=
  mkIncidentView (iv_ID r) (iv_LeaseID r) (iv_SubjectID r) (iv_SignalFamily r) (iv_State r) (iv_Summary r)
    (iv_UpdatedCursor r) |}.

Definition PressureNormal : N := 1.
Definition PressureCritical : N := 5.

(** Subject, resource. *)
Abbreviation PressureKey := (uuidV7 * string)%type.
Record PressureView := mkPressureView {
  pv_LeaseID : uuidV7; pv_SubjectID : uuidV7; pv_SignalFamily : string; pv_Resource : string; pv_Level : N;
  pv_Value : float64; pv_Detail : string; pv_UpdatedCursor : N }.
#[export] Instance : Settable PressureView := {| record_eta r :=
  mkPressureView (pv_LeaseID r) (pv_SubjectID r) (pv_SignalFamily r) (pv_Resource r) (pv_Level r) (pv_Value r)
    (pv_Detail r) (pv_UpdatedCursor r) |}.

Record Event := mkEvent {
  ev_Cursor : N; ev_Kind : N; ev_LeaseID : uuidV7; ev_SignalFamily : string; ev_SubjectID : uuidV7;
  ev_Subject : option Subject; ev_MetricName : string; ev_Metric : option MetricState;
  ev_Coverage : option CoverageView; ev_Incident : option IncidentView; ev_Pressure : option PressureView }.

Record LiveSnapshot := mkLiveSnapshot {
  Cursor : N; Subjects : gmap uuidV7 Subject; Metrics : gmap MetricKey MetricView;
  Coverage : gmap CoverageKey CoverageView; Incidents : gmap uuidV7 IncidentView;
  Pressure : gmap PressureKey PressureView }.
#[export] Instance : Settable LiveSnapshot := {| record_eta r :=
  mkLiveSnapshot (Cursor r) (Subjects r) (Metrics r) (Coverage r) (Incidents r) (Pressure r) |}.

Definition newSnapshot : LiveSnapshot := mkLiveSnapshot 0 ∅ ∅ ∅ ∅ ∅.

(** ** Validation *)
Definition requireSubject (s : LiveSnapshot) (id lease : uuidV7) : res oerr unit :=
  _ ← check (negb (id_IsZero id)) ErrUnknownSubject;
  subject ← from_option_err ErrUnknownSubject (Subjects s !! id);
  check (bool_decide (sj_LeaseID subject = lease)) ErrInvalidEvent.

(** The loop that looks for a cycle above a new parent. *)
Fixpoint cycle_walk (fuel : nat) (subjects : gmap uuidV7 Subject) (id current : uuidV7) : res oerr unit :=
  if id_IsZero current then Ok tt else
  match fuel with
  | O => Err ErrFuel
  | S fuel =>
      if bool_decide (current = id) then Err ErrSubjectCycle else
      match subjects !! current with
      | None => Ok tt
      | Some node => cycle_walk fuel subjects id (sj_ParentID node)
      end
  end.

Definition validateSubjectUpsert (s : LiveSnapshot) (event : Event) : res oerr unit :=
  subject ← from_option_err ErrInvalidEvent (ev_Subject event);
  _ ← check (negb (id_IsZero (sj_ID subject) || negb (bool_decide (sj_LeaseID subject = ev_LeaseID event))
                   || negb (bool_decide (sj_SignalFamily subject = ev_SignalFamily event)))) ErrInvalidEvent;
  _ ← check (SubjectKind_IsValid (sj_Kind subject)) ErrInvalidEvent;
  _ ← check (forallb (fun p : string * string => negb (blank p.1)) (map_to_list (sj_Labels subject))) ErrInvalidEvent;
  _ ← match Subjects s !! sj_ID subject with
      | Some existing => check (bool_decide (sj_LeaseID existing = sj_LeaseID subject)) ErrInvalidEvent
      | None => Ok tt
      end;
  if id_IsZero (sj_ParentID subject) then Ok tt else
  parent ← from_option_err ErrUnknownSubject (Subjects s !! sj_ParentID subject);
  _ ← check (bool_decide (sj_LeaseID parent = sj_LeaseID subject)) ErrInvalidEvent;
  cycle_walk (S (size (Subjects s))) (Subjects s) (sj_ID subject) (sj_ParentID subject).

Definition requireOptionalSubject (s : LiveSnapshot) (id lease : uuidV7) : res oerr unit :=
  if id_IsZero id then Ok tt else requireSubject s id lease.

Definition validateCoverage (s : LiveSnapshot) (event : Event) : res oerr unit :=
  coverage ← from_option_err ErrInvalidEvent (ev_Coverage event);
  _ ← check (negb (id_IsZero (cv_CollectorID coverage))) ErrInvalidEvent;
  _ ← check (bool_decide (cv_LeaseID coverage = ev_LeaseID event)
             && bool_decide (cv_SignalFamily coverage = ev_SignalFamily event)
             && bool_decide (cv_SubjectID coverage = ev_SubjectID event)) ErrInvalidEvent;
  _ ← check (CollectorPlacement_IsValid (cv_Placement coverage) && CoverageLevel_IsValid (cv_Level coverage)
             && CoverageStatus_IsValid (cv_Status coverage)) ErrInvalidEvent;
  _ ← requireOptionalSubject s (cv_SubjectID coverage) (cv_LeaseID coverage);
  _ ← check (negb (bool_decide (cv_Status coverage = CoverageUnsupported)
                   && negb (bool_decide (cv_Level coverage = CoverageLevelNone)))) ErrInvalidEvent;
  check (negb (bool_decide (cv_Level coverage = CoverageLevelComplete)
               && ((0 <? cv_Dropped coverage) || negb (is_nil (cv_Gap coverage))
                   || negb (bool_decide (cv_Status coverage = CoverageAvailable))))) ErrInvalidEvent.

Definition validateIncident (s : LiveSnapshot) (event : Event) : res oerr unit :=
  incident ← from_option_err ErrInvalidEvent (ev_Incident event);
  _ ← check (negb (id_IsZero (iv_ID incident))) ErrInvalidEvent;
  _ ← check (bool_decide (iv_LeaseID incident = ev_LeaseID event)
             && bool_decide (iv_SignalFamily incident = ev_SignalFamily event)
             && bool_decide (iv_SubjectID incident = ev_SubjectID event)) ErrInvalidEvent;
  _ ← check (negb ((ev_Kind event =? EventIncidentSet) && negb (IncidentState_IsValid (iv_State incident)))) ErrInvalidEvent;
  requireOptionalSubject s (iv_SubjectID incident) (iv_LeaseID incident).

Definition validatePressure (s : LiveSnapshot) (event : Event) : res oerr unit :=
  pressure ← from_option_err ErrInvalidEvent (ev_Pressure event);
  _ ← check (negb (blank (pv_Resource pressure))) ErrInvalidEvent;
  _ ← check (bool_decide (pv_LeaseID pressure = ev_LeaseID event)
             && bool_decide (pv_SignalFamily pressure = ev_SignalFamily event)
             && bool_decide (pv_SubjectID pressure = ev_SubjectID event)) ErrInvalidEvent;
  _ ← check (negb ((ev_Kind event =? EventPressureSet)
                   && ((pv_Level pressure <? PressureNormal) || (PressureCritical <? pv_Level pressure)
                       || negb (finite (pv_Value pressure))))) ErrInvalidEvent;
  requireOptionalSubject s (pv_SubjectID pressure) (pv_LeaseID pressure).

Definition validateEvent (s : LiveSnapshot) (event : Event) : res oerr unit :=
  let kind := ev_Kind event in
  _ ← check (negb ((kind <? EventCheckpoint) || (EventPressureRemove <? kind))) ErrInvalidEvent;
  if kind =? EventCheckpoint then Ok tt else
  _ ← check (negb (id_IsZero (ev_LeaseID event))) ErrInvalidEvent;
  _ ← check (negb (blank (ev_SignalFamily event))) ErrInvalidEvent;
  if kind =? EventSubjectUpsert then validateSubjectUpsert s event else
  if kind =? EventSubjectRemove then requireSubject s (ev_SubjectID event) (ev_LeaseID event) else
  if kind =? EventMetricSet then
    _ ← requireSubject s (ev_SubjectID event) (ev_LeaseID event);
    _ ← check (negb (blank (ev_MetricName event))) ErrInvalidEvent;
    metric ← from_option_err ErrInvalidEvent (ev_Metric event);
    MetricState_validate metric else
  if kind =? EventCoverageSet then validateCoverage s event else
  if (kind =? EventIncidentSet) || (kind =? EventIncidentRemove) then validateIncident s event else
  if (kind =? EventPressureSet) || (kind =? EventPressureRemove) then validatePressure s event else
  Err ErrInvalidEvent.

(** ** Removing a subject and what is below it *)

(** One pass over the subjects. *)
Definition removal_step (removed : gset uuidV7) (p : uuidV7 * Subject) : gset uuidV7 :=
  if bool_decide (sj_ParentID p.2 ∈ removed) then {[p.1]} ∪ removed else removed.
Definition removal_pass (subjects : list (uuidV7 * Subject)) (removed : gset uuidV7) : gset uuidV7 :=
  fold_left removal_step subjects removed.

(** Passes until one changes nothing. *)
Fixpoint removal_loop (fuel : nat) (subjects : list (uuidV7 * Subject)) (removed : gset uuidV7) : res oerr (gset uuidV7) :=
  let removed' := removal_pass subjects removed in
  if bool_decide (removed' = removed) then Ok removed else
  match fuel with
  | O => Err ErrFuel
  | S fuel => removal_loop fuel subjects removed'
  end.

Definition removeSubjectTree (s : LiveSnapshot) (root : uuidV7) : res oerr LiveSnapshot :=
  removed ← removal_loop (S (size (Subjects s))) (map_to_list (Subjects s)) {[root]};
  Ok (s <| Subjects := filter (fun p => p.1 ∉ removed) (Subjects s) |>
        <| Metrics := filter (fun p => p.1.1 ∉ removed) (Metrics s) |>
        <| Coverage := filter (fun p => p.1.1.2 ∉ removed) (Coverage s) |>
        <| Pressure := filter (fun p => p.1.1 ∉ removed) (Pressure s) |>).

(** ** Applying an event *)
Definition apply_event (s : LiveSnapshot) (event : Event) : res oerr LiveSnapshot :=
  let kind := ev_Kind event in
  if kind =? EventCheckpoint then Ok s else
  if kind =? EventSubjectUpsert then
    subject ← from_option_err ErrPanic (ev_Subject event);
    Ok (s <| Subjects := <[sj_ID subject := subject]> (Subjects s) |>) else
  if kind =? EventSubjectRemove then removeSubjectTree s (ev_SubjectID event) else
  if kind =? EventMetricSet then
    state ← from_option_err ErrPanic (ev_Metric event);
    let state := state <| mst_UpdatedCursor := ev_Cursor event |> in
    Ok (s <| Metrics := <[(ev_SubjectID event, ev_MetricName event) :=
          mkMetricView (ev_LeaseID event) (ev_SignalFamily event) (ev_SubjectID event) (ev_MetricName event) state]>
          (Metrics s) |>) else
  if kind =? EventCoverageSet then
    coverage ← from_option_err ErrPanic (ev_Coverage event);
    let coverage := coverage <| cv_UpdatedCursor := ev_Cursor event |> in
    Ok (s <| Coverage := <[(cv_CollectorID coverage, cv_SubjectID coverage, cv_SignalFamily coverage) := coverage]>
          (Coverage s) |>) else
  if kind =? EventIncidentSet then
    incident ← from_option_err ErrPanic (ev_Incident event);
    let incident := incident <| iv_UpdatedCursor := ev_Cursor event |> in
    Ok (s <| Incidents := <[iv_ID incident := incident]> (Incidents s) |>) else
  if kind =? EventIncidentRemove then
    incident ← from_option_err ErrPanic (ev_Incident event);
    Ok (s <| Incidents := delete (iv_ID incident) (Incidents s) |>) else
  if kind =? EventPressureSet then
    pressure ← from_option_err ErrPanic (ev_Pressure event);
    let pressure := pressure <| pv_UpdatedCursor := ev_Cursor event |> in
    Ok (s <| Pressure := <[(pv_SubjectID pressure, pv_Resource pressure) := pressure]> (Pressure s) |>) else
  if kind =? EventPressureRemove then
    pressure ← from_option_err ErrPanic (ev_Pressure event);
    Ok (s <| Pressure := delete (pv_SubjectID pressure, pv_Resource pressure) (Pressure s) |>) else
  Ok s.

(** [Reducer.Apply]: the snapshot is changed only when all checks pass. *)
Definition Apply (s : LiveSnapshot) (event : Event) : res oerr LiveSnapshot :=
  _ ← check (negb ((ev_Cursor event =? 0) || (ev_Cursor event <=? Cursor s))) ErrCursorOrder;
  _ ← validateEvent s event;
  s ← apply_event s event;
  Ok (s <| Cursor := ev_Cursor event |>).

Fixpoint apply_all (s : LiveSnapshot) (events : list Event) : res oerr LiveSnapshot :=
  match events with
  | [] => Ok s
  | event :: events => s ← Apply s event; apply_all s events
  end.
Definition Reduce (events : list Event) : res oerr LiveSnapshot := apply_all newSnapshot events.

(** ** Projection *)
Record Authorization := mkAuthorization { au_leases : gset uuidV7; au_signalFamilies : gset string }.

Definition NewAuthorization (leases : list uuidV7) (signalFamilies : list string) : Authorization :=
  mkAuthorization
    (list_to_set (List.filter (fun lease => negb (id_IsZero lease)) leases))
    (list_to_set (List.filter (fun family => negb (bool_decide (family = ""))) (map TrimSpace signalFamilies))).

Definition Allows (a : Authorization) (lease : uuidV7) (signalFamily : string) : bool :=
  if negb (bool_decide (lease ∈ au_leases a)) then false else
  if bool_decide ("*" ∈ au_signalFamilies a) then true else
  bool_decide (signalFamily ∈ au_signalFamilies a).

(** One pass that drops the subjects whose parent is not visible. *)
Definition orphan_step (visible : gmap uuidV7 Subject) (p : uuidV7 * Subject) : gmap uuidV7 Subject :=
  if negb (id_IsZero (sj_ParentID p.2)) && bool_decide (visible !! sj_ParentID p.2 = None)
  then delete p.1 visible else visible.
Definition orphan_pass (visible : gmap uuidV7 Subject) : gmap uuidV7 Subject :=
  fold_left orphan_step (map_to_list visible) visible.

Fixpoint orphan_loop (fuel : nat) (visible : gmap uuidV7 Subject) : res oerr (gmap uuidV7 Subject) :=
  let visible' := orphan_pass visible in
  if bool_decide (size visible' = size visible) then Ok visible' else
  match fuel with
  | O => Err ErrFuel
  | S fuel => orphan_loop fuel visible'
  end.

Definition subjectVisible (subjects : gmap uuidV7 Subject) (subject : uuidV7) : bool :=
  id_IsZero subject || negb (is_nil (subjects !! subject)).

Definition Project (s : LiveSnapshot) (a : Authorization) : res oerr LiveSnapshot :=
  let subjects := filter (fun p => Allows a (sj_LeaseID p.2) (sj_SignalFamily p.2) = true) (Subjects s) in
  visible ← orphan_loop (size subjects) subjects;
  Ok (mkLiveSnapshot (Cursor s) visible
    (filter (fun p => Allows a (mv_LeaseID p.2) (mv_SignalFamily p.2) && subjectVisible visible (mv_SubjectID p.2) = true) (Metrics s))
    (filter (fun p => Allows a (cv_LeaseID p.2) (cv_SignalFamily p.2) && subjectVisible visible (cv_SubjectID p.2) = true) (Coverage s))
    (filter (fun p => Allows a (iv_LeaseID p.2) (iv_SignalFamily p.2) && subjectVisible visible (iv_SubjectID p.2) = true) (Incidents s))
    (filter (fun p => Allows a (pv_LeaseID p.2) (pv_SignalFamily p.2) && subjectVisible visible (pv_SubjectID p.2) = true) (Pressure s))).
