(* ===== verification/ReducerFacts.v ===== *)
(** * The snapshot stays a forest, and projections reveal only what they may

    The invariant of the live snapshot, that every applied event keeps it and
    no loop runs forever on it, and the meaning of a projection. *)
From S2P Require Import Prelude Errors GoStrings States Ids Evidence LedgerCodec GoText Reducer.
Local Open Scope N_scope.

Lemma id_IsZero_true id : id_IsZero id = true <-> id = zero_uuid.
Proof. apply bool_decide_eq_true. Qed.
Lemma id_IsZero_false id : id_IsZero id = false <-> id <> zero_uuid.
Proof. apply bool_decide_eq_false. Qed.

(** ** Chains of parents *)
Inductive chain (m : gmap uuidV7 Subject) : uuidV7 -> list uuidV7 -> Prop :=
| chain_root : chain m zero_uuid []
| chain_up id x l : id <> zero_uuid -> m !! id = Some x -> chain m (sj_ParentID x) l -> chain m id (id :: l).

Definition anchored (m : gmap uuidV7 Subject) (id : uuidV7) : Prop := exists l, chain m id l.

Lemma chain_det m id l l' : chain m id l -> chain m id l' -> l = l'.
Proof.
  intros C; revert l'; induction C as [|id x l N L C IH]; intros l' C'; inversion C'; subst; try done.
  f_equal. apply IH. congruence.
Qed.

Lemma chain_elem m id l : chain m id l -> forall y, y ∈ l -> exists l1 l2, l = l1 ++ l2 /\ chain m y l2 /\ l2 <> [].
Proof.
  induction 1 as [|id x l N L C IH]; intros y Hy; [by apply elem_of_nil in Hy|].
  apply elem_of_cons in Hy as [->|Hy].
  - exists [], (id :: l). split_and!; [done|by econstructor|done].
  - destruct (IH y Hy) as (l1 & l2 & -> & C' & Ne). by exists (id :: l1), l2.
Qed.

Lemma chain_nodup m id l : chain m id l -> NoDup l.
Proof.
  induction 1 as [|id x l N L C IH]; constructor; [|done]. intros Hin.
  destruct (chain_elem _ _ _ C id Hin) as (l1 & l2 & -> & C2 & _).
  assert (C1 : chain m id (id :: l1 ++ l2)) by (by econstructor).
  pose proof (f_equal length (chain_det _ _ _ _ C1 C2)) as E. cbn in E. rewrite length_app in E. lia.
Qed.

Lemma chain_dom m id l : chain m id l -> forall y, y ∈ l -> y ∈ dom m.
Proof.
  induction 1 as [|id x l N L C IH]; intros y Hy; [by apply elem_of_nil in Hy|].
  apply elem_of_cons in Hy as [->|Hy]; [by apply elem_of_dom_2 in L|auto].
Qed.

Lemma chain_length m id l : chain m id l -> (length l <= size m)%nat.
Proof.
  intros C. rewrite <-size_dom, <-(size_list_to_set (C := gset uuidV7)) by (by eapply chain_nodup).
  apply subseteq_size. intros y Hy. apply elem_of_list_to_set in Hy. by eapply chain_dom.
Qed.

(** The walk of the cycle check ends on a chain, and says whether it meets [id]. *)
Lemma cycle_walk_chain m id l : forall fuel current,
  chain m current l -> (length l < fuel)%nat ->
  cycle_walk fuel m id current = if bool_decide (id ∈ l) then Err ErrSubjectCycle else Ok tt.
Proof.
  induction l as [|y l IH]; intros fuel current C L; inversion C as [|? x ? N Lk C']; subst.
  - rewrite (bool_decide_eq_false_2 (id ∈ [])) by apply not_elem_of_nil. by destruct fuel.
  - destruct fuel as [|fuel]; [cbn in L; lia|]. cbn [cycle_walk]. rewrite (proj2 (id_IsZero_false _) N).
    destruct (bool_decide_reflect (y = id)) as [->|Ne].
    + rewrite bool_decide_eq_true_2; [done|left].
    + rewrite Lk, IH by (done || (cbn in L; lia)). case_bool_decide as B.
      * rewrite bool_decide_eq_true_2; [done|by right].
      * rewrite bool_decide_eq_false_2; [done|]. by intros [->|?]%elem_of_cons.
Qed.

(** Changing one node keeps the chains that do not meet it. *)
Lemma chain_insert m id x current l : chain m current l -> id ∉ l -> chain (<[id := x]> m) current l.
Proof.
  induction 1 as [|c y l N L C IH]; intros Ni; [constructor|]. apply not_elem_of_cons in Ni as [N1 N2].
  econstructor; [done|by rewrite lookup_insert_ne|auto].
Qed.

Lemma anchored_insert m id x :
  id <> zero_uuid -> (exists l, chain m (sj_ParentID x) l /\ id ∉ l) ->
  forall y, anchored m y -> anchored (<[id := x]> m) y.
Proof.
  intros N (lp & Cp & Np) y (l & C).
  assert (A : anchored (<[id := x]> m) id).
  { exists (id :: lp). econstructor; [done|by rewrite lookup_insert_eq|by apply chain_insert]. }
  induction C as [|c z l Nc L C IH]; [eexists; constructor|].
  destruct (decide (id = c)) as [<-|Ne]; [done|]. destruct IH as [l' C']. exists (c :: l').
  econstructor; [done|by rewrite lookup_insert_ne|done].
Qed.

(** Removing a set that is closed downwards keeps the other chains. *)
Lemma anchored_filter (m : gmap uuidV7 Subject) (P : uuidV7 * Subject -> Prop) `{!forall x, Decision (P x)} :
  (forall id x, m !! id = Some x -> P (id, x) ->
     sj_ParentID x = zero_uuid \/ exists p, m !! sj_ParentID x = Some p /\ P (sj_ParentID x, p)) ->
  forall id x, m !! id = Some x -> P (id, x) -> anchored m id -> anchored (filter P m) id.
Proof.
  intros Cl id x L Px (l & C). revert x L Px. induction C as [|c y l Nc Lc C IH]; intros x L Px.
  - eexists; constructor.
  - rewrite Lc in L. injection L as <-. assert (F : filter P m !! c = Some y) by (by apply map_lookup_filter_Some).
    destruct (Cl _ _ Lc Px) as [E|(p & Lp & Pp)].
    + exists [c]. econstructor; [done|exact F|]. rewrite E. constructor.
    + destruct (IH _ Lp Pp) as [l' C']. exists (c :: l'). by econstructor.
Qed.

(** ** Removal *)
Inductive below (m : gmap uuidV7 Subject) (root : uuidV7) : uuidV7 -> Prop :=
| below_root : below m root root
| below_child id x : m !! id = Some x -> below m root (sj_ParentID x) -> below m root id.

Lemma removal_pass_grows l removed : removed ⊆ removal_pass l removed.
Proof.
  unfold removal_pass. revert removed; induction l as [|p l IH]; intros removed; cbn; [done|].
  etrans; [|apply IH]. unfold removal_step. case_bool_decide; set_solver.
Qed.

Lemma removal_pass_sound (P : uuidV7 -> Prop) l removed :
  (forall p, p ∈ l -> P (sj_ParentID p.2) -> P p.1) -> (forall x, x ∈ removed -> P x) ->
  forall x, x ∈ removal_pass l removed -> P x.
Proof.
  unfold removal_pass. revert removed; induction l as [|p l IH]; intros removed Hl Hr; cbn; [done|].
  apply IH; [intros q Hq; apply Hl; by right|]. unfold removal_step. case_bool_decide as B; [|done].
  intros x [->%elem_of_singleton|Hx]%elem_of_union; [|auto]. apply Hl; [left|auto].
Qed.

Lemma removal_pass_closed l removed : removal_pass l removed = removed ->
  forall p, p ∈ l -> sj_ParentID p.2 ∈ removed -> p.1 ∈ removed.
Proof.
  intros E p Hp Hr. rewrite <-E. clear E. unfold removal_pass. revert removed Hr.
  induction l as [|q l IH]; intros removed Hr; [by apply elem_of_nil in Hp|]. cbn.
  apply elem_of_cons in Hp as [->|Hp].
  - apply removal_pass_grows. unfold removal_step. rewrite bool_decide_eq_true_2 by done. set_solver.
  - apply IH; [done|]. unfold removal_step. case_bool_decide; set_solver.
Qed.

Lemma removal_loop_spec (m : gmap uuidV7 Subject) (bound : gset uuidV7) fuel : forall removed,
  (forall p, p ∈ map_to_list m -> p.1 ∈ bound) -> removed ⊆ bound -> (size bound <= size removed + fuel)%nat ->
  exists out, removal_loop fuel (map_to_list m) removed = Ok out /\ removed ⊆ out /\
    (forall id x, m !! id = Some x -> sj_ParentID x ∈ out -> id ∈ out) /\
    forall P : uuidV7 -> Prop, (forall id x, m !! id = Some x -> P (sj_ParentID x) -> P id) ->
      (forall x, x ∈ removed -> P x) -> forall x, x ∈ out -> P x.
Proof.
  induction fuel as [|fuel IH]; intros removed Hb Hs Hf; cbn [removal_loop].
  - assert (E : removal_pass (map_to_list m) removed = removed).
    { apply set_eq. intros x. split; [|by apply removal_pass_grows]. intros Hx.
      enough (removed ≡ bound) as -> by (eapply (removal_pass_sound (fun y => y ∈ bound)); [intros p Hp _; by apply Hb|by intros y; apply Hs|exact Hx]).
      apply set_subseteq_size_equiv; [done|lia]. }
    rewrite bool_decide_eq_true_2 by done. exists removed. split_and!; [done|done| |auto].
    intros id x L Hr. by apply (removal_pass_closed _ _ E (id, x)); [apply elem_of_map_to_list|].
  - destruct (bool_decide_reflect (removal_pass (map_to_list m) removed = removed)) as [E|Ne].
    + exists removed. split_and!; [done|done| |auto].
      intros id x L Hr. by apply (removal_pass_closed _ _ E (id, x)); [apply elem_of_map_to_list|].
    + pose proof (removal_pass_grows (map_to_list m) removed) as G.
      assert (Lt : (size removed < size (removal_pass (map_to_list m) removed))%nat).
      { apply subset_size. split; [done|]. intros G'. apply Ne. by apply set_eq; intros; split; [apply G'|apply G]. }
      destruct (IH (removal_pass (map_to_list m) removed)) as (out & R & I & C & S).
      * done.
      * intros x Hx. eapply (removal_pass_sound (fun y => y ∈ bound)); [intros p Hp _; by apply Hb|by intros y; apply Hs|exact Hx].
      * lia.
      * exists out. split_and!; [done|set_solver|done|]. intros P Hc Hr. apply S; [done|].
        intros x Hx. eapply removal_pass_sound; [|exact Hr|exact Hx]. intros [id y] Hp%elem_of_map_to_list. by apply Hc.
Qed.

Lemma removed_below (m : gmap uuidV7 Subject) root :
  exists out, removal_loop (S (size m)) (map_to_list m) {[root]} = Ok out /\ forall x, x ∈ out <-> below m root x.
Proof.
  destruct (removal_loop_spec m ({[root]} ∪ dom m) (S (size m)) {[root]}) as (out & R & I & C & S).
  - intros [id x] L%elem_of_map_to_list. apply elem_of_dom_2 in L. set_solver.
  - set_solver.
  - pose proof (size_union_alt ({[root]} : gset uuidV7) (dom m)) as E. rewrite E, size_singleton.
    pose proof (subseteq_size (dom m ∖ {[root]}) (dom m) ltac:(set_solver)). rewrite size_dom in *. lia.
  - exists out. split; [done|]. intros x. split.
    + apply S; [intros id y L; by apply below_child|]. intros y ->%elem_of_singleton. constructor.
    + induction 1 as [|id y L B IH]; [set_solver|by eapply C].
Qed.

(** ** Orphans *)

(** What a view that starts from [m] shows: subjects whose parents are all in [m]. *)
Inductive seen (m : gmap uuidV7 Subject) : uuidV7 -> Prop :=
| seen_up id x : m !! id = Some x -> sj_ParentID x = zero_uuid \/ seen m (sj_ParentID x) -> seen m id.

Lemma orphan_step_sub v p : orphan_step v p ⊆ v.
Proof. unfold orphan_step. case_match; [apply delete_subseteq|done]. Qed.

Lemma orphan_pass_sub l v : fold_left orphan_step l v ⊆ v.
Proof.
  revert v; induction l as [|p l IH]; intros v; cbn; [done|]. etrans; [apply IH|apply orphan_step_sub].
Qed.

Lemma orphan_pass_drops l : forall v p,
  p ∈ l -> sj_ParentID p.2 <> zero_uuid -> v !! sj_ParentID p.2 = None -> fold_left orphan_step l v !! p.1 = None.
Proof.
  induction l as [|q l IH]; intros v p Hp Nz No; [by apply elem_of_nil in Hp|]. cbn.
  apply elem_of_cons in Hp as [->|Hp].
  - apply (lookup_weaken_None _ (orphan_step v q)); [|apply orphan_pass_sub]. unfold orphan_step.
    rewrite (proj2 (id_IsZero_false _) Nz), bool_decide_eq_true_2 by done. apply lookup_delete_eq.
  - apply IH; [done|done|]. eapply lookup_weaken_None; [done|apply orphan_step_sub].
Qed.

Lemma orphan_pass_keeps m l : forall v,
  (forall p, p ∈ l -> m !! p.1 = Some p.2) ->
  (forall id x, m !! id = Some x -> seen m id -> v !! id = Some x) ->
  forall id x, m !! id = Some x -> seen m id -> fold_left orphan_step l v !! id = Some x.
Proof.
  induction l as [|p l IH]; intros v Hl Hv; cbn; [done|]. apply IH; [intros q Hq; apply Hl; by right|].
  intros id x L Sn. unfold orphan_step. destruct (negb _ && _) eqn:C; [|by apply Hv]. rewrite andb_true_iff, negb_true_iff, bool_decide_eq_true, id_IsZero_false in C.
  destruct C as [Nz No]. rewrite lookup_delete_ne; [by apply Hv|]. intros <-.
  pose proof (Hl p (list_elem_of_here _ _)) as Lp. inversion Sn as [? y Ly [E|Sp]]; subst; rewrite Ly in Lp; injection Lp as ->; [done|].
  inversion Sp as [? z Lz _]; subst. rewrite (Hv _ _ Lz Sp) in No. done.
Qed.

Lemma map_size_sub (v w : gmap uuidV7 Subject) : v ⊆ w -> (size v <= size w)%nat.
Proof. intros S. rewrite <-!size_dom. apply subseteq_size. by apply subseteq_dom. Qed.

Lemma map_eq_of_size (v w : gmap uuidV7 Subject) : v ⊆ w -> size v = size w -> v = w.
Proof.
  intros S E. apply map_eq. intros i. destruct (v !! i) as [x|] eqn:L.
  - symmetry. by eapply lookup_weaken.
  - destruct (w !! i) as [x|] eqn:Lw; [exfalso|done].
    assert (D : dom v ≡ dom w) by (apply set_subseteq_size_equiv; [by apply subseteq_dom|by rewrite !size_dom, E]).
    apply elem_of_dom_2 in Lw. rewrite <-D in Lw. apply elem_of_dom in Lw as [y Ly]. congruence.
Qed.

Lemma orphan_loop_spec m fuel : forall v,
  v ⊆ m -> (forall id x, m !! id = Some x -> seen m id -> v !! id = Some x) -> (size v <= fuel)%nat ->
  exists out, orphan_loop fuel v = Ok out /\ out ⊆ m /\
    (forall id x, m !! id = Some x -> seen m id -> out !! id = Some x) /\
    forall id x, out !! id = Some x -> sj_ParentID x = zero_uuid \/ is_Some (out !! sj_ParentID x).
Proof.
  induction fuel as [|fuel IH]; intros v Hs Hk Hf; cbn [orphan_loop];
    (assert (Sub : orphan_pass v ⊆ v) by apply orphan_pass_sub);
    (assert (Keep : forall id x, m !! id = Some x -> seen m id -> orphan_pass v !! id = Some x)
      by (apply orphan_pass_keeps; [|done]; intros [id x] L%elem_of_map_to_list; by eapply lookup_weaken));
    (assert (Stable : size (orphan_pass v) = size v -> forall id x, orphan_pass v !! id = Some x ->
        sj_ParentID x = zero_uuid \/ is_Some (orphan_pass v !! sj_ParentID x))
      by (intros E; assert (Ev : orphan_pass v = v) by (apply map_eq_of_size; done);
          intros id x L; destruct (decide (sj_ParentID x = zero_uuid)) as [?|Nz]; [by left|right];
          rewrite Ev in L |- *; destruct (v !! sj_ParentID x) eqn:No; [done|];
          pose proof (orphan_pass_drops (map_to_list v) v (id, x) ltac:(by apply elem_of_map_to_list) Nz No) as D;
          cbn in D; unfold orphan_pass in Ev; rewrite Ev in D; congruence)).
  - assert (E : size (orphan_pass v) = size v).
    { assert (size v = 0%nat) as Z by lia. apply map_size_empty_inv in Z as ->. done. }
    rewrite bool_decide_eq_true_2 by done. exists (orphan_pass v). split_and!; [done|by etrans|done|by apply Stable].
  - destruct (bool_decide_reflect (size (orphan_pass v) = size v)) as [E|Ne].
    + exists (orphan_pass v). split_and!; [done|by etrans|done|by apply Stable].
    + apply IH; [by etrans|done|]. pose proof (map_size_sub (orphan_pass v) v Sub). lia.
Qed.

(** When all chains of [m] end, what is left is what is seen. *)
Lemma orphan_loop_seen m :
  (forall id x, m !! id = Some x -> id <> zero_uuid) ->
  (forall id x, m !! id = Some x -> exists n, anchored n id /\ m ⊆ n) ->
  exists out, orphan_loop (size m) m = Ok out /\
    forall id x, out !! id = Some x <-> m !! id = Some x /\ seen m id.
Proof.
  intros Nz An. destruct (orphan_loop_spec m (size m) m) as (out & E & Sub & Keep & Cl); [done|auto|done|].
  exists out. split; [done|]. intros id x. split; [|intros [L S]; by apply Keep].
  intros L. split; [by eapply lookup_weaken|]. assert (Lm : m !! id = Some x) by (by eapply lookup_weaken).
  destruct (An _ _ Lm) as (n & (l & C) & Mn). clear Lm. revert x L.
  induction C as [|c y l Nc Lc C IH]; intros x L; [by destruct (Nz zero_uuid x); [eapply lookup_weaken|]|].
  assert (Lm : m !! c = Some x) by (by eapply lookup_weaken). econstructor; [done|].
  assert (x = y) as -> by (pose proof (lookup_weaken _ _ _ _ Lm Mn); congruence).
  destruct (Cl _ _ L) as [?|[p Lp]]; [by left|right]. by eapply IH.
Qed.
