(* ===== verification/ReducerSafety.v ===== *)
(** * Safety of the live snapshot

    The invariant of a snapshot, that applying and removing keep it, and that a
    projection shows exactly what the authorization allows. *)
From S2P Require Import Prelude Errors GoStrings States Ids Evidence LedgerCodec GoText Reducer ReducerFacts.
Local Open Scope N_scope.

(** The subject is in the snapshot, under the lease. *)
Definition owned (subjects : gmap uuidV7 Subject) (id lease : uuidV7) : Prop :=
  id <> zero_uuid /\ exists x, subjects !! id = Some x /\ sj_LeaseID x = lease.
Definition owned_or_zero (subjects : gmap uuidV7 Subject) (id lease : uuidV7) : Prop :=
  id = zero_uuid \/ owned subjects id lease.

Record snapshot_ok (s : LiveSnapshot) : Prop := {
  so_id : forall id x, Subjects s !! id = Some x -> id <> zero_uuid /\ sj_ID x = id;
  so_parent : forall id x, Subjects s !! id = Some x -> owned_or_zero (Subjects s) (sj_ParentID x) (sj_LeaseID x);
  so_forest : forall id x, Subjects s !! id = Some x -> anchored (Subjects s) id;
  so_metrics : forall k v, Metrics s !! k = Some v -> k = (mv_SubjectID v, mv_Name v) /\
    owned (Subjects s) (mv_SubjectID v) (mv_LeaseID v) /\ mst_UpdatedCursor (mv_State v) <= Cursor s;
  so_coverage : forall k v, Coverage s !! k = Some v -> k = (cv_CollectorID v, cv_SubjectID v, cv_SignalFamily v) /\
    owned_or_zero (Subjects s) (cv_SubjectID v) (cv_LeaseID v) /\ cv_UpdatedCursor v <= Cursor s;
  so_pressure : forall k v, Pressure s !! k = Some v -> k = (pv_SubjectID v, pv_Resource v) /\
    owned_or_zero (Subjects s) (pv_SubjectID v) (pv_LeaseID v) /\ pv_UpdatedCursor v <= Cursor s;
  so_incidents : forall k v, Incidents s !! k = Some v -> k = iv_ID v /\ iv_UpdatedCursor v <= Cursor s }.

Lemma snapshot_ok_new : snapshot_ok newSnapshot.
Proof. split; intros *; cbn; by rewrite lookup_empty. Qed.

(** ** Checks *)
Lemma requireSubject_ok s id lease : requireSubject s id lease = Ok tt -> owned (Subjects s) id lease.
Proof.
  unfold requireSubject. intros E. inv_res E. to_prop. rewrite id_IsZero_false in E0. split; [done|]. eauto.
Qed.
Lemma requireOptionalSubject_ok s id lease :
  requireOptionalSubject s id lease = Ok tt -> owned_or_zero (Subjects s) id lease.
Proof.
  unfold requireOptionalSubject. destruct (id_IsZero id) eqn:Z; [left; by apply id_IsZero_true|].
  intros E. right. by apply requireSubject_ok.
Qed.

(** A check that is not stuck: neither out of fuel nor a nil dereference. *)
Definition settled {A} (r : res oerr A) : Prop := r <> Err ErrFuel /\ r <> Err ErrPanic.

Lemma settled_ok {A} (a : A) : settled (Ok a).
Proof. done. Qed.
Lemma settled_check b e : e <> ErrFuel -> e <> ErrPanic -> settled (check b e).
Proof. intros N1 N2. destruct b; cbn; [done|]. split; congruence. Qed.
Lemma settled_from_option {A} (o : option A) e : e <> ErrFuel -> e <> ErrPanic -> settled (from_option_err e o).
Proof. intros N1 N2. destruct o; cbn; [done|]. split; congruence. Qed.
Lemma settled_bind {A B} (m : res oerr A) (k : A -> res oerr B) :
  settled m -> (forall a, m = Ok a -> settled (k a)) -> settled (m ≫= k).
Proof. destruct m as [a|e]; cbn; [auto|]. intros [N1 N2] _. split; congruence. Qed.
#[local] Hint Resolve settled_ok settled_check settled_from_option settled_bind : core.

Lemma requireSubject_settled s id lease : settled (requireSubject s id lease).
Proof. unfold requireSubject. repeat (apply settled_bind; [by auto|intros ? ?]). by auto. Qed.
Lemma requireOptionalSubject_settled s id lease : settled (requireOptionalSubject s id lease).
Proof. unfold requireOptionalSubject. destruct (id_IsZero id); [done|apply requireSubject_settled]. Qed.
Lemma MetricState_validate_settled m : settled (MetricState_validate m).
Proof. unfold MetricState_validate. repeat (case_match; [by auto|]). by auto. Qed.

(** The parents above a subject of a good snapshot. *)
Lemma parent_chain s id lease : snapshot_ok s -> owned_or_zero (Subjects s) id lease -> anchored (Subjects s) id.
Proof. intros S [->|(_ & x & L & _)]; [eexists; constructor|by eapply so_forest]. Qed.

Lemma upsert_walk s id parent p :
  snapshot_ok s -> Subjects s !! parent = Some p ->
  exists l, chain (Subjects s) parent l /\
    cycle_walk (S (size (Subjects s))) (Subjects s) id parent = if bool_decide (id ∈ l) then Err ErrSubjectCycle else Ok tt.
Proof.
  intros S L. destruct (so_forest _ S _ _ L) as [l C]. exists l. split; [done|].
  apply cycle_walk_chain; [done|]. apply chain_length in C. lia.
Qed.

Lemma validateSubjectUpsert_settled s e : snapshot_ok s -> settled (validateSubjectUpsert s e).
Proof.
  intros S. unfold validateSubjectUpsert. repeat (apply settled_bind; [try (case_match; by auto); by auto|intros ? ?]).
  destruct (id_IsZero (sj_ParentID a)); [done|]. apply settled_bind; [by auto|]. intros p Hp. apply settled_bind; [by auto|]. intros _ _.
  apply from_option_err_ok in Hp. destruct (upsert_walk s (sj_ID a) _ _ S Hp) as (l & _ & ->).
  unfold settled. destruct (bool_decide (sj_ID a ∈ l)); split; congruence.
Qed.

Lemma validateEvent_settled s e : snapshot_ok s -> settled (validateEvent s e).
Proof.
  intros S. unfold validateEvent. apply settled_bind; [by auto|intros _ _]. destruct (ev_Kind e =? EventCheckpoint); [done|].
  apply settled_bind; [by auto|intros _ _]. apply settled_bind; [by auto|intros _ _].
  destruct (ev_Kind e =? EventSubjectUpsert); [by apply validateSubjectUpsert_settled|].
  destruct (ev_Kind e =? EventSubjectRemove); [apply requireSubject_settled|].
  destruct (ev_Kind e =? EventMetricSet); [apply settled_bind; [apply requireSubject_settled|intros _ _]; apply settled_bind; [by auto|intros _ _];
    apply settled_bind; [by auto|intros ? _]; apply MetricState_validate_settled|].
  destruct (ev_Kind e =? EventCoverageSet); [unfold validateCoverage|].
  2: destruct (_ || _); [unfold validateIncident|destruct (_ || _); [unfold validatePressure|by auto]].
  all:
    repeat (apply settled_bind; [first [apply requireOptionalSubject_settled|by auto]|intros ? _]);
    first [apply requireOptionalSubject_settled|by auto].
Qed.

Lemma validateSubjectUpsert_ok s e sub :
  snapshot_ok s -> validateSubjectUpsert s e = Ok tt -> ev_Subject e = Some sub ->
  sj_ID sub <> zero_uuid /\ (forall y, Subjects s !! sj_ID sub = Some y -> sj_LeaseID y = sj_LeaseID sub) /\
  owned_or_zero (Subjects s) (sj_ParentID sub) (sj_LeaseID sub) /\
  exists l, chain (Subjects s) (sj_ParentID sub) l /\ sj_ID sub ∉ l.
Proof.
  intros S E Hx. unfold validateSubjectUpsert in E. rewrite Hx in E. cbn [from_option_err mbind res_mbind] in E.
  rewrite check_bind_ok in E. destruct E as [E0 E]. rewrite check_bind_ok in E. destruct E as [_ E].
  rewrite check_bind_ok in E. destruct E as [_ E]. rewrite unit_bind_ok in E. destruct E as [E3 E].
  rewrite negb_true_iff, !orb_false_iff, id_IsZero_false in E0. destruct E0 as [[Nz _] _].
  split; [done|]. split.
  { intros y L. rewrite L, check_ok in E3. by to_prop. }
  destruct (id_IsZero (sj_ParentID sub)) eqn:Z.
  { apply id_IsZero_true in Z. rewrite Z. split; [by left|]. exists []. split; [constructor|apply not_elem_of_nil]. }
  destruct (Subjects s !! sj_ParentID sub) as [p|] eqn:Lp; [|done]. cbn [from_option_err mbind res_mbind] in E.
  rewrite check_bind_ok in E. destruct E as [Lease E].
  destruct (upsert_walk s (sj_ID sub) _ _ S Lp) as (l & C & W). rewrite W in E.
  destruct (bool_decide_reflect (sj_ID sub ∈ l)) as [B|B]; [done|]. split; [|by exists l].
  right. split; [by apply id_IsZero_false|]. exists p. split; [done|]. by to_prop.
Qed.

(** ** Applying *)
Lemma owned_insert m id x k lease :
  (forall y, m !! id = Some y -> sj_LeaseID y = sj_LeaseID x) -> owned m k lease -> owned (<[id := x]> m) k lease.
Proof.
  intros L (N & y & Ly & E). split; [done|]. destruct (decide (id = k)) as [->|Ne].
  - exists x. rewrite lookup_insert_eq. split; [done|]. rewrite <-E. symmetry. auto.
  - exists y. by rewrite lookup_insert_ne.
Qed.
Lemma owned_or_zero_insert m id x k lease :
  (forall y, m !! id = Some y -> sj_LeaseID y = sj_LeaseID x) ->
  owned_or_zero m k lease -> owned_or_zero (<[id := x]> m) k lease.
Proof. intros L [E|O]; [by left|right]. by apply owned_insert. Qed.

(** The entries that are not changed keep their facts when the cursor moves on
    and the subjects they name stay. *)
Lemma snapshot_ok_subjects s subjects c :
  snapshot_ok s -> Cursor s <= c ->
  (forall k lease, owned (Subjects s) k lease -> owned subjects k lease) ->
  (forall id x, subjects !! id = Some x -> id <> zero_uuid /\ sj_ID x = id /\
     owned_or_zero subjects (sj_ParentID x) (sj_LeaseID x) /\ anchored subjects id) ->
  snapshot_ok (s <| Subjects := subjects |> <| Cursor := c |>).
Proof.
  intros [I P F M C Pr In] L O Sb. split; cbn.
  - intros id x Lx. by destruct (Sb _ _ Lx) as (? & ? & _).
  - intros id x Lx. by destruct (Sb _ _ Lx) as (_ & _ & ? & _).
  - intros id x Lx. by destruct (Sb _ _ Lx) as (_ & _ & _ & ?).
  - intros k v Lv. destruct (M _ _ Lv) as (-> & Ow & B). split_and!; [done|auto|lia].
  - intros k v Lv. destruct (C _ _ Lv) as (-> & Ow & B). split_and!; [done| |lia]. destruct Ow; [by left|right; auto].
  - intros k v Lv. destruct (Pr _ _ Lv) as (-> & Ow & B). split_and!; [done| |lia]. destruct Ow; [by left|right; auto].
  - intros k v Lv. destruct (In _ _ Lv) as (-> & B). split; [done|lia].
Qed.

Lemma snapshot_ok_upsert s x c :
  snapshot_ok s -> Cursor s <= c -> sj_ID x <> zero_uuid ->
  (forall y, Subjects s !! sj_ID x = Some y -> sj_LeaseID y = sj_LeaseID x) ->
  owned_or_zero (Subjects s) (sj_ParentID x) (sj_LeaseID x) ->
  (exists l, chain (Subjects s) (sj_ParentID x) l /\ sj_ID x ∉ l) ->
  snapshot_ok (s <| Subjects := <[sj_ID x := x]> (Subjects s) |> <| Cursor := c |>).
Proof.
  intros S L Nz Le Ow Ch. apply snapshot_ok_subjects; [done|done|intros; by apply owned_insert|].
  pose proof (anchored_insert _ _ _ Nz Ch) as An. intros id y Ly.
  destruct (decide (sj_ID x = id)) as [<-|Ne].
  - rewrite lookup_insert_eq in Ly. injection Ly as <-. split_and!; [done|done|by apply owned_or_zero_insert|].
    destruct Ch as (l & C & Ni). exists (sj_ID x :: l). econstructor; [done|by rewrite lookup_insert_eq|by apply chain_insert].
  - rewrite lookup_insert_ne in Ly by done. destruct (so_id _ S _ _ Ly) as [? ?]. split_and!; [done|done| |].
    + apply owned_or_zero_insert; [done|]. by eapply so_parent.
    + apply An. by eapply so_forest.
Qed.

(** What [removeSubjectTree] leaves. *)
Definition pruned (s : LiveSnapshot) (root : uuidV7) (s' : LiveSnapshot) : Prop :=
  (forall id x, Subjects s' !! id = Some x <-> Subjects s !! id = Some x /\ ~ below (Subjects s) root id) /\
  (forall k v, Metrics s' !! k = Some v <-> Metrics s !! k = Some v /\ ~ below (Subjects s) root k.1) /\
  (forall k v, Coverage s' !! k = Some v <-> Coverage s !! k = Some v /\ ~ below (Subjects s) root k.1.2) /\
  (forall k v, Pressure s' !! k = Some v <-> Pressure s !! k = Some v /\ ~ below (Subjects s) root k.1) /\
  Incidents s' = Incidents s /\ Cursor s' = Cursor s.

Lemma removeSubjectTree_spec s root : exists s', removeSubjectTree s root = Ok s' /\ pruned s root s'.
Proof.
  unfold removeSubjectTree. destruct (removed_below (Subjects s) root) as (out & -> & B). cbn [mbind res_mbind].
  eexists. split; [done|]. unfold pruned. cbn. split_and!; try done; intros; rewrite map_lookup_filter_Some; cbn; by rewrite <-B.
Qed.

Lemma snapshot_ok_pruned s root s' c :
  snapshot_ok s -> root <> zero_uuid -> Cursor s <= c -> pruned s root s' -> snapshot_ok (s' <| Cursor := c |>).
Proof.
  intros S Nz L (PS & PM & PC & PP & PI & PCu). set (m := Subjects s) in *.
  assert (Zb : ~ below m root zero_uuid).
  { intros B. inversion B as [E|? x Lx _]; subst; [done|]. by destruct (so_id _ S _ _ Lx). }
  assert (Ow : forall k lease, ~ below m root k -> owned m k lease -> owned (Subjects s') k lease).
  { intros k lease Nb (N & x & Lx & E). split; [done|]. exists x. split; [|done]. by apply PS. }
  assert (Oz : forall k lease, ~ below m root k -> owned_or_zero m k lease -> owned_or_zero (Subjects s') k lease).
  { intros k lease Nb [->|O]; [by left|right; auto]. }
  assert (Up : forall id x, m !! id = Some x -> ~ below m root id -> ~ below m root (sj_ParentID x)).
  { intros id x Lx Nb B. apply Nb. by eapply below_child. }
  split; cbn.
  - intros id x [Lx Nb]%PS. by eapply so_id.
  - intros id x [Lx Nb]%PS. apply Oz; [by eapply Up|]. by eapply so_parent.
  - intros id x [Lx Nb]%PS. destruct (so_forest _ S _ _ Lx) as [l C]. fold m in C. exists l. clear Lx x.
    induction C as [|id x l N Lx C IH]; [constructor|]. econstructor; [done|by apply PS|]. apply IH. by eapply Up.
  - intros k v [Lv Nb]%PM. destruct (so_metrics _ S _ _ Lv) as (-> & O & B). split_and!; [done|by apply Ow|lia].
  - intros k v [Lv Nb]%PC. destruct (so_coverage _ S _ _ Lv) as (-> & O & B). split_and!; [done|by apply Oz|lia].
  - intros k v [Lv Nb]%PP. destruct (so_pressure _ S _ _ Lv) as (-> & O & B). split_and!; [done|by apply Oz|lia].
  - rewrite PI. intros k v Lv. destruct (so_incidents _ S _ _ Lv) as (-> & B). split; [done|lia].
Qed.

(** Entries of one table change. *)
Lemma snapshot_ok_tables s c metrics coverage incidents pressure :
  snapshot_ok s -> Cursor s <= c ->
  (forall k v, metrics !! k = Some v -> k = (mv_SubjectID v, mv_Name v) /\
     owned (Subjects s) (mv_SubjectID v) (mv_LeaseID v) /\ mst_UpdatedCursor (mv_State v) <= c) ->
  (forall k v, coverage !! k = Some v -> k = (cv_CollectorID v, cv_SubjectID v, cv_SignalFamily v) /\
     owned_or_zero (Subjects s) (cv_SubjectID v) (cv_LeaseID v) /\ cv_UpdatedCursor v <= c) ->
  (forall k v, incidents !! k = Some v -> k = iv_ID v /\ iv_UpdatedCursor v <= c) ->
  (forall k v, pressure !! k = Some v -> k = (pv_SubjectID v, pv_Resource v) /\
     owned_or_zero (Subjects s) (pv_SubjectID v) (pv_LeaseID v) /\ pv_UpdatedCursor v <= c) ->
  snapshot_ok (mkLiveSnapshot c (Subjects s) metrics coverage incidents pressure).
Proof. intros S L M C I P. split; cbn; try done; apply S. Qed.

Section Tables.
Context (s : LiveSnapshot) (S : snapshot_ok s) (c : N) (L : Cursor s <= c).

Lemma old_metrics k v : Metrics s !! k = Some v -> k = (mv_SubjectID v, mv_Name v) /\
  owned (Subjects s) (mv_SubjectID v) (mv_LeaseID v) /\ mst_UpdatedCursor (mv_State v) <= c.
Proof. intros Lv. destruct (so_metrics _ S _ _ Lv) as (? & ? & ?). split_and!; [done|done|lia]. Qed.
Lemma old_coverage k v : Coverage s !! k = Some v -> k = (cv_CollectorID v, cv_SubjectID v, cv_SignalFamily v) /\
  owned_or_zero (Subjects s) (cv_SubjectID v) (cv_LeaseID v) /\ cv_UpdatedCursor v <= c.
Proof. intros Lv. destruct (so_coverage _ S _ _ Lv) as (? & ? & ?). split_and!; [done|done|lia]. Qed.
Lemma old_incidents k v : Incidents s !! k = Some v -> k = iv_ID v /\ iv_UpdatedCursor v <= c.
Proof. intros Lv. destruct (so_incidents _ S _ _ Lv) as (? & ?). split_and!; [done|lia]. Qed.
Lemma old_pressure k v : Pressure s !! k = Some v -> k = (pv_SubjectID v, pv_Resource v) /\
  owned_or_zero (Subjects s) (pv_SubjectID v) (pv_LeaseID v) /\ pv_UpdatedCursor v <= c.
Proof. intros Lv. destruct (so_pressure _ S _ _ Lv) as (? & ? & ?). split_and!; [done|done|lia]. Qed.
End Tables.

(** An event that validated is applied: neither a nil pointer nor a loop
    without end is met, and the invariant holds at its cursor. *)
Definition advances (s : LiveSnapshot) (c : N) (r : res oerr LiveSnapshot) : Prop :=
  exists s', r = Ok s' /\ snapshot_ok (s' <| Cursor := c |>).

(** The entries of a table after one is set, or deleted. *)
Ltac changed_entry :=
  cbn; first [intros ? ? [[<- <-]|[_ ?]]%lookup_insert_Some; [cbn; split_and!; first [done|lia]|by auto]
        |intros ? ? [_ ?]%lookup_delete_Some; by auto].

Lemma validateCoverage_ok s e : validateCoverage s e = Ok tt ->
  exists v, ev_Coverage e = Some v /\ owned_or_zero (Subjects s) (cv_SubjectID v) (cv_LeaseID v).
Proof.
  unfold validateCoverage. intros E. inv_res E. eexists. split; [done|]. apply requireOptionalSubject_ok.
  match goal with x : () |- _ => by destruct x end.
Qed.
Lemma validateIncident_ok s e : validateIncident s e = Ok tt -> exists v, ev_Incident e = Some v.
Proof. unfold validateIncident. intros E. inv_res E. eauto. Qed.
Lemma validatePressure_ok s e : validatePressure s e = Ok tt ->
  exists v, ev_Pressure e = Some v /\ owned_or_zero (Subjects s) (pv_SubjectID v) (pv_LeaseID v).
Proof. unfold validatePressure. intros E. inv_res E. eexists. split; [done|]. by apply requireOptionalSubject_ok. Qed.

Lemma apply_event_ok s e :
  snapshot_ok s -> Cursor s <= ev_Cursor e -> validateEvent s e = Ok tt -> advances s (ev_Cursor e) (apply_event s e).
Proof.
  intros S L V. unfold validateEvent in V. rewrite check_bind_ok in V. destruct V as [_ V]. unfold apply_event.
  pose proof (old_metrics s S _ L) as OM. pose proof (old_coverage s S _ L) as OC.
  pose proof (old_incidents s S _ L) as OI. pose proof (old_pressure s S _ L) as OP.
  destruct (ev_Kind e =? EventCheckpoint).
  { eexists. split; [done|]. by apply snapshot_ok_tables. }
  rewrite !check_bind_ok in V. destruct V as (_ & _ & V).
  destruct (ev_Kind e =? EventSubjectUpsert).
  { destruct (ev_Subject e) as [x|] eqn:Hx; [|by unfold validateSubjectUpsert in V; rewrite Hx in V].
    destruct (validateSubjectUpsert_ok _ _ _ S V Hx) as (Nz & Le & Ow & Ch). eexists. split; [done|].
    by apply snapshot_ok_upsert. }
  destruct (ev_Kind e =? EventSubjectRemove).
  { destruct (removeSubjectTree_spec s (ev_SubjectID e)) as (s' & -> & P). exists s'. split; [done|].
    eapply snapshot_ok_pruned; [done|by apply requireSubject_ok in V as [? _]|done|done]. }
  destruct (ev_Kind e =? EventMetricSet).
  { inv_res V. match goal with H : requireSubject _ _ _ = Ok ?u, H' : ev_Metric e = Some _ |- _ => destruct u; apply requireSubject_ok in H as Ow; rewrite H' end.
    eexists. split; [done|]. apply (snapshot_ok_tables s); try done. changed_entry. }
  destruct (ev_Kind e =? EventCoverageSet).
  { apply validateCoverage_ok in V as (v & -> & Ow). eexists. split; [done|]. apply (snapshot_ok_tables s); try done.
    changed_entry. }
  destruct (ev_Kind e =? EventIncidentSet) eqn:K1; cbn [orb] in V.
  { apply validateIncident_ok in V as (v & ->). eexists. split; [done|]. apply (snapshot_ok_tables s); try done.
    changed_entry. }
  destruct (ev_Kind e =? EventIncidentRemove) eqn:K2.
  { apply validateIncident_ok in V as (v & ->). eexists. split; [done|]. apply (snapshot_ok_tables s); try done.
    changed_entry. }
  destruct (ev_Kind e =? EventPressureSet) eqn:K3; cbn [orb] in V.
  { apply validatePressure_ok in V as (v & -> & Ow). eexists. split; [done|]. apply (snapshot_ok_tables s); try done.
    changed_entry. }
  destruct (ev_Kind e =? EventPressureRemove) eqn:K4.
  { apply validatePressure_ok in V as (v & -> & Ow). eexists. split; [done|]. apply (snapshot_ok_tables s); try done.
    changed_entry. }
  done.
Qed.

Lemma Apply_ok s e : snapshot_ok s ->
  match Apply s e with
  | Ok s' => snapshot_ok s' /\ Cursor s' = ev_Cursor e /\ Cursor s < ev_Cursor e
  | Err r => r <> ErrFuel /\ r <> ErrPanic
  end.
Proof.
  intros S. unfold Apply. destruct (_ || _) eqn:C; cbn [negb check mbind res_mbind]; [done|]. to_prop. destruct C as [_ C].
  pose proof (validateEvent_settled s e S) as St. destruct (validateEvent s e) as [[]|r] eqn:V; cbn [mbind res_mbind].
  - destruct (apply_event_ok s e S ltac:(lia) V) as (s' & -> & Ok'). done.
  - destruct St. split; congruence.
Qed.

Lemma apply_all_ok events : forall s, snapshot_ok s ->
  match apply_all s events with
  | Ok s' => snapshot_ok s' /\ Cursor s' = from_option ev_Cursor (Cursor s) (last events)
  | Err r => r <> ErrFuel /\ r <> ErrPanic
  end.
Proof.
  induction events as [|e events IH]; intros s S; cbn [apply_all]; [done|].
  pose proof (Apply_ok s e S) as A. destruct (Apply s e) as [s'|r]; cbn [mbind res_mbind]; [|done].
  destruct A as (S' & C & _). specialize (IH s' S'). destruct (apply_all s' events) as [s''|r]; [|done].
  destruct IH as [? E]. split; [done|]. rewrite E, C. destruct events as [|e' events]; [done|].
  by rewrite last_cons_cons; destruct (last (e' :: events)) eqn:Z; [|apply last_None in Z].
Qed.

(** C36: Replaying any events, in any order and with any contents, never loops
    forever and never dereferences a missing part of an event; when it succeeds
    the snapshot is at the last cursor and is sound: every subject is under its
    identity in a forest whose parents belong to the same lease, every metric,
    coverage and pressure entry names a subject of its lease that is present
    (or none), and no entry is newer than the snapshot. *)
Theorem reducer_keeps_forest events :
  match Reduce events with
  | Ok s => snapshot_ok s /\ Cursor s = from_option ev_Cursor 0 (last events)
  | Err r => r <> ErrFuel /\ r <> ErrPanic
  end.
Proof.
  apply (apply_all_ok events newSnapshot snapshot_ok_new).
Qed.

(** Removing a subject removes exactly the subjects at or below it and the
    metrics, coverage and pressure of those, and nothing else. *)
Theorem removal_prunes_subtree s e s' :
  snapshot_ok s -> ev_Kind e = EventSubjectRemove -> Apply s e = Ok s' ->
  pruned (s <| Cursor := ev_Cursor e |>) (ev_SubjectID e) s'.
Proof.
  intros S K E. unfold Apply in E. rewrite check_bind_ok, unit_bind_ok in E. destruct E as (_ & _ & E).
  destruct (removeSubjectTree_spec s (ev_SubjectID e)) as (s1 & R & P).
  assert (A : apply_event s e = Ok s1) by (unfold apply_event; rewrite K; exact R).
  rewrite A in E. injection E as <-. destruct P as (P1 & P2 & P3 & P4 & P5 & P6). by split_and!.
Qed.

(** ** Projections *)

(** Which subjects an authorization reveals: those it allows whose parents are
    all revealed. *)
Definition allowed_subjects (a : Authorization) (s : LiveSnapshot) : gmap uuidV7 Subject :=
  filter (fun p => Allows a (sj_LeaseID p.2) (sj_SignalFamily p.2) = true) (Subjects s).
Definition revealed (a : Authorization) (s : LiveSnapshot) (id : uuidV7) : Prop := seen (allowed_subjects a s) id.

(** A table of entries with their subject, lease and family, and what is shown of it. *)
Definition shown {K V} `{Countable K} (a : Authorization) (s : LiveSnapshot) (subject lease : V -> uuidV7) (family : V -> string)
    (table table' : gmap K V) : Prop :=
  forall k v, table' !! k = Some v <->
    table !! k = Some v /\ Allows a (lease v) (family v) = true /\ (subject v = zero_uuid \/ revealed a s (subject v)).

Lemma Project_subjects s a : snapshot_ok s ->
  exists visible, orphan_loop (size (allowed_subjects a s)) (allowed_subjects a s) = Ok visible /\
    forall id x, visible !! id = Some x <-> Subjects s !! id = Some x /\ revealed a s id.
Proof.
  intros S. destruct (orphan_loop_seen (allowed_subjects a s)) as (v & E & Sn).
  - intros id x [L _]%map_lookup_filter_Some. by destruct (so_id _ S _ _ L).
  - intros id x [L _]%map_lookup_filter_Some. exists (Subjects s). split; [by eapply so_forest|]. apply map_filter_subseteq.
  - exists v. split; [done|]. intros id x. rewrite Sn. unfold allowed_subjects at 1. rewrite map_lookup_filter_Some. split; [tauto|].
    intros [L R]. split; [|done]. split; [done|]. inversion R as [? y Ly _]; subst.
    apply map_lookup_filter_Some in Ly as [Ly A]. cbn in *. congruence.
Qed.

Lemma subjectVisible_iff s a visible id :
  (forall id x, visible !! id = Some x <-> Subjects s !! id = Some x /\ revealed a s id) ->
  subjectVisible visible id = true <-> id = zero_uuid \/ revealed a s id.
Proof.
  intros V. unfold subjectVisible. rewrite orb_true_iff, id_IsZero_true. split; (intros [?|R]; [by left|right]).
  - destruct (visible !! id) as [x|] eqn:L; [by apply V in L as [_ ?]|done].
  - inversion R as [? x L _]; subst. apply map_lookup_filter_Some in L as [L _].
    by rewrite (proj2 (V id x) (conj L R)).
Qed.

Lemma shown_filter {K V} `{Countable K} s a visible (subject lease : V -> uuidV7) (family : V -> string) (table : gmap K V) :
  (forall id x, visible !! id = Some x <-> Subjects s !! id = Some x /\ revealed a s id) ->
  shown a s subject lease family table
    (filter (fun p => Allows a (lease p.2) (family p.2) && subjectVisible visible (subject p.2) = true) table).
Proof.
  intros Vi k v. rewrite map_lookup_filter_Some. cbn. by rewrite andb_true_iff, (subjectVisible_iff _ _ _ _ Vi).
Qed.

(** C37: A projection always terminates and shows exactly what the
    authorization allows: the subjects whose lease and signal family are granted
    and whose ancestors all are, and the metrics, coverage, incidents and
    pressure that are granted themselves and name no subject or a shown one; it
    is at the same cursor and is again a sound snapshot. *)
Theorem projection_exact s a :
  snapshot_ok s ->
  exists p, Project s a = Ok p /\ snapshot_ok p /\ Cursor p = Cursor s /\
    (forall id x, Subjects p !! id = Some x <-> Subjects s !! id = Some x /\ revealed a s id) /\
    shown a s mv_SubjectID mv_LeaseID mv_SignalFamily (Metrics s) (Metrics p) /\
    shown a s cv_SubjectID cv_LeaseID cv_SignalFamily (Coverage s) (Coverage p) /\
    shown a s iv_SubjectID iv_LeaseID iv_SignalFamily (Incidents s) (Incidents p) /\
    shown a s pv_SubjectID pv_LeaseID pv_SignalFamily (Pressure s) (Pressure p).
Proof.
  intros S. destruct (Project_subjects s a S) as (v & E & V). unfold Project.
  change (filter (fun p => Allows a (sj_LeaseID p.2) (sj_SignalFamily p.2) = true) (Subjects s)) with (allowed_subjects a s).
  rewrite E. cbn [mbind res_mbind]. eexists. split; [done|].
  pose proof (shown_filter s a v mv_SubjectID mv_LeaseID mv_SignalFamily (Metrics s) V) as M.
  pose proof (shown_filter s a v cv_SubjectID cv_LeaseID cv_SignalFamily (Coverage s) V) as C.
  pose proof (shown_filter s a v iv_SubjectID iv_LeaseID iv_SignalFamily (Incidents s) V) as I.
  pose proof (shown_filter s a v pv_SubjectID pv_LeaseID pv_SignalFamily (Pressure s) V) as P.
  split_and!; try done.
  assert (Ow : forall k lease, k = zero_uuid \/ revealed a s k -> owned_or_zero (Subjects s) k lease -> owned_or_zero v k lease).
  { intros k lease [Z|R] [Z'|(N & x & L & Le)]; try (by left). right. split; [done|]. exists x. split; [by apply V|done]. }
  split; cbn [Subjects Metrics Coverage Incidents Pressure Cursor].
  - intros id x [L _]%V. by eapply so_id.
  - intros id x [L R]%V. apply Ow; [|by eapply so_parent]. inversion R as [? y Ly Up]; subst.
    apply map_lookup_filter_Some in Ly as [Ly _]. replace x with y by congruence. exact Up.
  - intros id x [L R]%V. destruct (so_forest _ S _ _ L) as [l Ch]. exists l. clear L x.
    induction Ch as [|id y l N L Ch IH]; [constructor|]. econstructor; [done|by apply V|].
    inversion R as [? z Lz Up]; subst. apply map_lookup_filter_Some in Lz as [Lz _].
    assert (z = y) as -> by congruence. destruct Up as [Z|Up]; [|by apply IH]. rewrite Z in Ch |- *. inversion Ch; subst; [constructor|done].
  - intros k w [L [_ R]]%M. destruct (so_metrics _ S _ _ L) as (-> & O & B). split_and!; [done| |done].
    destruct (Ow _ _ R (or_intror O)) as [Z|?]; [|done]. by destruct O.
  - intros k w [L [_ R]]%C. destruct (so_coverage _ S _ _ L) as (-> & O & B). split_and!; [done|by apply Ow|done].
  - intros k w [L [_ R]]%P. destruct (so_pressure _ S _ _ L) as (-> & O & B). split_and!; [done|by apply Ow|done].
  - intros k w [L _]%I. by eapply so_incidents.
Qed.

(** What an authorization allows of a snapshot. *)
Definition allowed_part (a : Authorization) (s : LiveSnapshot) :=
  (Cursor s, allowed_subjects a s,
   filter (fun p => Allows a (mv_LeaseID p.2) (mv_SignalFamily p.2) = true) (Metrics s),
   filter (fun p => Allows a (cv_LeaseID p.2) (cv_SignalFamily p.2) = true) (Coverage s),
   filter (fun p => Allows a (iv_LeaseID p.2) (iv_SignalFamily p.2) = true) (Incidents s),
   filter (fun p => Allows a (pv_LeaseID p.2) (pv_SignalFamily p.2) = true) (Pressure s)).

Lemma filter_and {K V} `{Countable K} (f g : K * V -> bool) (m1 m2 : gmap K V) :
  filter (fun p => f p = true) m1 = filter (fun p => f p = true) m2 ->
  filter (fun p => f p && g p = true) m1 = filter (fun p => f p && g p = true) m2.
Proof.
  intros E. apply map_eq. intros k. apply option_eq. intros v. rewrite !map_lookup_filter_Some.
  assert (F : filter (fun p => f p = true) m1 !! k = Some v <-> filter (fun p => f p = true) m2 !! k = Some v) by (by rewrite E).
  rewrite !map_lookup_filter_Some in F.
  rewrite !andb_true_iff. tauto.
Qed.

(** Nothing outside an authorization influences its projection: two
    snapshots that agree on the entries the authorization allows have the same
    projection, whatever else they hold. *)
Theorem projection_noninterference a s1 s2 :
  allowed_part a s1 = allowed_part a s2 -> Project s1 a = Project s2 a.
Proof.
  unfold allowed_part. intros E. rewrite !pair_equal_spec in E. destruct E as [[[[[Ec Es] Em] Eco] Ei] Ep].
  unfold Project. unfold allowed_subjects in Es. rewrite Es, Ec.
  destruct (orphan_loop _ _) as [v|]; [|done]. cbn [mbind res_mbind]. f_equal.
  by rewrite (filter_and _ (fun p => subjectVisible v (mv_SubjectID p.2)) _ _ Em),
    (filter_and _ (fun p => subjectVisible v (cv_SubjectID p.2)) _ _ Eco),
    (filter_and _ (fun p => subjectVisible v (iv_SubjectID p.2)) _ _ Ei),
    (filter_and _ (fun p => subjectVisible v (pv_SubjectID p.2)) _ _ Ep).
Qed.

(** * The live snapshot on concrete events *)
Local Open Scope N_scope.

Module ReducerDemo.
Definition uid (n : N) : uuidV7 := n :: repeat 1 15.
Definition lease : uuidV7 := uid 100.

Definition event (cursor kind : N) (family : string) (subject : uuidV7) : Event :=
  mkEvent cursor kind lease family subject None "" None None None None.
Definition upsert (cursor : N) (family : string) (id parent : uuidV7) : Event :=
  mkEvent cursor EventSubjectUpsert lease family id
    (Some (mkSubject id parent lease SubjectProcess family ∅)) "" None None None None.
Definition metric (cursor : N) (family : string) (id : uuidV7) (name : string) : Event :=
  mkEvent cursor EventMetricSet lease family id None name (Some (Present f_zero 7)) None None None.
Definition incident_event (cursor kind : N) (id : uuidV7) : Event :=
  mkEvent cursor kind lease "topology" id None "" None None
    (Some (mkIncidentView (uid 200) lease id "topology" IncidentOpen "" 0)) None.

(** A tree 1 - 2 - 3 beside 4; the middle node has a private family. *)
Definition story : list Event :=
  [upsert 1 "topology" (uid 1) zero_uuid; upsert 2 "private" (uid 2) (uid 1); upsert 3 "topology" (uid 3) (uid 2);
   upsert 4 "topology" (uid 4) (uid 1); metric 5 "topology" (uid 3) "cpu"; metric 6 "topology" (uid 4) "cpu";
   incident_event 7 EventIncidentSet (uid 3)].

Definition told : LiveSnapshot := match Reduce story with Ok s => s | Err _ => newSnapshot end.

Lemma told_ok : snapshot_ok told /\ Cursor told = 7.
Proof.
  unfold told. pose proof (apply_all_ok story newSnapshot snapshot_ok_new) as R. unfold Reduce. destruct (apply_all newSnapshot story) as [s|e] eqn:E; [|vm_compute in E; discriminate E].
  destruct R as [S ->]. split; [exact S|reflexivity].
Qed.

Definition ids (s : LiveSnapshot) : list N := merge_sort N.le (map (fun p => hd 0 p.1) (map_to_list (Subjects s))).
Definition metric_ids (s : LiveSnapshot) : list N := merge_sort N.le (map (fun p => hd 0 p.1.1) (map_to_list (Metrics s))).

(** A cycle is refused, and so is a parent that is not there. *)
Lemma cycles_refused :
  Apply told (upsert 8 "topology" (uid 1) (uid 3)) = Err ErrSubjectCycle /\
  Apply told (upsert 8 "topology" (uid 5) (uid 9)) = Err ErrUnknownSubject.
Proof. split; vm_compute; reflexivity. Qed.

(** ** The theorems applied *)
Definition viewer : Authorization := NewAuthorization [lease] [" topology "].

Lemma projection_exact_witness :
  exists p, Project told viewer = Ok p /\ snapshot_ok p /\ ids p = [1; 4] /\ metric_ids p = [4].
Proof.
  destruct (projection_exact told viewer (proj1 told_ok)) as (p & E & S & _). exists p. split; [exact E|]. split; [exact S|].
  assert (I : match Project told viewer with Ok p => ids p = [1; 4] /\ metric_ids p = [4] | Err _ => False end)
    by (vm_compute; split; reflexivity).
  rewrite E in I. exact I.
Defined.

Definition removal : Event := event 8 EventSubjectRemove "topology" (uid 2).

Lemma removal_prunes_subtree_witness :
  exists s', Apply told removal = Ok s' /\ pruned (told <| Cursor := 8 |>) (uid 2) s' /\
    ids s' = [1; 4] /\ metric_ids s' = [4].
Proof.
  destruct (Apply told removal) as [s'|e] eqn:E; [|vm_compute in E; discriminate E]. exists s'. split; [reflexivity|].
  split; [exact (removal_prunes_subtree told removal s' (proj1 told_ok) eq_refl E)|].
  assert (I : match Apply told removal with Ok p => ids p = [1; 4] /\ metric_ids p = [4] | Err _ => False end)
    by (vm_compute; split; reflexivity).
  rewrite E in I. exact I.
Defined.

(** The private subject does not matter to the viewer. *)
Lemma projection_noninterference_witness :
  exists s1 s2, s1 <> s2 /\ allowed_part viewer s1 = allowed_part viewer s2 /\ Project s1 viewer = Project s2 viewer.
Proof.
  set (s1 := match Reduce [upsert 1 "topology" (uid 1) zero_uuid; upsert 2 "private" (uid 2) (uid 1)] with Ok s => s | Err _ => newSnapshot end).
  set (s2 := match Reduce [upsert 1 "topology" (uid 1) zero_uuid; upsert 2 "private" (uid 7) zero_uuid] with Ok s => s | Err _ => newSnapshot end).
  assert (A : allowed_part viewer s1 = allowed_part viewer s2) by (vm_compute; reflexivity).
  exists s1, s2. split; [|split; [exact A|exact (projection_noninterference viewer s1 s2 A)]].
  intros E. apply (f_equal ids) in E. vm_compute in E. discriminate E.
Defined.

(** ** Incidents of removed subjects

    [removeSubjectTree] keeps the incidents of the subjects it removes; they are
    still in the snapshot, no projection shows them, and an event that resolves
    or removes them is refused if it names their subject. *)
Definition pruned_story : LiveSnapshot := match Apply told removal with Ok s => s | Err _ => newSnapshot end.

Lemma incident_outlives_subject :
  map (fun p => iv_SubjectID p.2) (map_to_list (Incidents pruned_story)) = [uid 3] /\
  Subjects pruned_story !! uid 3 = None /\
  Apply pruned_story (incident_event 9 EventIncidentRemove (uid 3)) = Err ErrUnknownSubject /\
  Apply pruned_story (incident_event 9 EventIncidentRemove zero_uuid) <> Err ErrUnknownSubject /\
  (p ← Project pruned_story (NewAuthorization [lease] ["*"]); Ok (map_to_list (Incidents p))) = Ok [].
Proof. split_and!; try (vm_compute; reflexivity). vm_compute. discriminate. Qed.
End ReducerDemo.
