(* ===== verification/Capability.v ===== *)
(** * Node capabilities

    [internal/domain/capability.go]: capabilities, their fingerprint and the
    resolution of requirements against it.  The text of a reason is kept as its
    kind and arguments; which of several mismatched constraints is named depends
    on Go's map order and is the first in key order here. *)
From S2P Require Import Prelude Errors Sha256 GoStrings Utf8Facts Values Ids Evidence.
Local Open Scope N_scope.

Inductive CapabilityStatus :=
| CapabilityUnknown | CapabilityUnsupported | CapabilitySupported | CapabilityStatusUnrecognized (s : string).
#[export] Instance CapabilityStatus_dec : EqDecision CapabilityStatus.
Proof. solve_decision. Defined.

Definition CapabilityStatus_text (s : CapabilityStatus) : string :=
  match s with
  | CapabilityUnknown => "unknown"
  | CapabilityUnsupported => "unsupported"
  | CapabilitySupported => "supported"
  | CapabilityStatusUnrecognized s => s
  end.
Definition CapabilityStatus_IsValid (s : CapabilityStatus) : bool :=
  match s with CapabilityStatusUnrecognized _ => false | _ => true end.

Record Capability := mkCapability {
  cap_status : CapabilityStatus; cap_constraints : gmap string string; cap_evidence : gmap string string }.

Definition NewCapability (status : CapabilityStatus) (constraints evidence : gmap string string) : result Capability :=
  _ ← check (CapabilityStatus_IsValid status) (NewError CodeInvalidArgument "capability.new" "status");
  _ ← validateStringMap "capability.new" "constraints" constraints;
  _ ← validateStringMap "capability.new" "evidence" evidence;
  Ok (mkCapability status constraints evidence).

(** ** Fingerprints *)
Record CapabilityFingerprint := mkFingerprint {
  fp_capabilities : gmap string Capability; fp_evidence : gmap string string; fp_digest : list N }.
(** The zero value. *)
Definition zero_fingerprint : CapabilityFingerprint := mkFingerprint ∅ ∅ zero_digest.

(** [sortedKeys], with the values. *)
Definition key_le {V} (a b : string * V) : Prop := string_le a.1 b.1.
#[export] Instance key_le_dec {V} : RelDecision (@key_le V).
Proof. intros a b. unfold key_le. apply _. Defined.
Definition sorted_entries {V} (values : gmap string V) : list (string * V) := merge_sort key_le (map_to_list values).

(** [uint32(len(value))] in big-endian order *)
Definition be32 (n : N) : list N := be_bytes 4 (n mod 4294967296).

Definition writeCanonicalString (value : string) : list N := be32 (N.of_nat (String.length value)) ++ bytes_of value.
Definition writeCanonicalMap (values : gmap string string) : list N :=
  be32 (N.of_nat (size values)) ++
  mjoin ((fun p : string * string => writeCanonicalString p.1 ++ writeCanonicalString p.2) <$> sorted_entries values).

Definition write_capability (p : string * Capability) : list N :=
  writeCanonicalString p.1 ++ writeCanonicalString (CapabilityStatus_text (cap_status p.2)) ++
  writeCanonicalMap (cap_constraints p.2) ++ writeCanonicalMap (cap_evidence p.2).

Definition canonicalCapabilityFingerprint (capabilities : gmap string Capability) (evidence : gmap string string) : list N :=
  writeCanonicalString "world.capability-fingerprint.v1" ++
  mjoin (write_capability <$> sorted_entries capabilities) ++
  writeCanonicalString "fingerprint-evidence" ++ writeCanonicalMap evidence.

Definition NewCapabilityFingerprint (capabilities : gmap string Capability) (evidence : gmap string string)
    : result CapabilityFingerprint :=
  let bad := NewError CodeInvalidArgument "capability_fingerprint.new" in
  _ ← check (negb (size capabilities =? 0)%nat) (bad "capabilities");
  _ ← validateStringMap "capability_fingerprint.new" "evidence" evidence;
  _ ← res_each (fun _ (p : string * Capability) =>
        _ ← requireNonBlank "capabilities.name" p.1;
        check (CapabilityStatus_IsValid (cap_status p.2)) (bad ("capabilities[" +:+ p.1 +:+ "]")))
        0 (map_to_list capabilities);
  Ok (mkFingerprint capabilities evidence (NewDigest (canonicalCapabilityFingerprint capabilities evidence))).

(** ** Requirements *)
Inductive RequirementLevel := RequirementRequired | RequirementPreferred | RequirementLevelUnrecognized (s : string).
#[export] Instance RequirementLevel_dec : EqDecision RequirementLevel.
Proof. solve_decision. Defined.
Definition RequirementLevel_IsValid (l : RequirementLevel) : bool :=
  match l with RequirementLevelUnrecognized _ => false | _ => true end.

Record CapabilityRequirement := mkRequirement {
  req_Name : string; req_Level : RequirementLevel; req_Constraints : gmap string string }.

Inductive reason :=
| ReasonConstraint (key required actual : string)
| ReasonSupported | ReasonUnsupported | ReasonUnknown | ReasonInvalidStatus.

Record CapabilityResolution := mkResolution {
  cr_requirement : CapabilityRequirement; cr_status : CapabilityStatus; cr_satisfied : bool; cr_downgraded : bool;
  cr_reason : reason }.

(** The first constraint that the capability does not meet. *)
Fixpoint mismatch (actual : gmap string string) (required : list (string * string)) : option (string * string * string) :=
  match required with
  | [] => None
  | (key, value) :: required =>
      if bool_decide (actual !! key = Some value) then mismatch actual required
      else Some (key, value, default "" (actual !! key))
  end.

Definition resolveCapability (fingerprint : CapabilityFingerprint) (requirement : CapabilityRequirement)
    : CapabilityResolution :=
  let capability := default (mkCapability CapabilityUnknown ∅ ∅) (fp_capabilities fingerprint !! req_Name requirement) in
  let status := cap_status capability in
  let preferred := bool_decide (req_Level requirement = RequirementPreferred) in
  match status with
  | CapabilitySupported =>
      match mismatch (cap_constraints capability) (map_to_list (req_Constraints requirement)) with
      | Some (key, value, actual) => mkResolution requirement status false preferred (ReasonConstraint key value actual)
      | None => mkResolution requirement status true false ReasonSupported
      end
  | CapabilityUnsupported => mkResolution requirement status false preferred ReasonUnsupported
  | CapabilityUnknown => mkResolution requirement status false preferred ReasonUnknown
  | CapabilityStatusUnrecognized _ => mkResolution requirement status false false ReasonInvalidStatus
  end.

Record CapabilityEvaluation := mkEvaluation { ev_admitted : bool; ev_resolutions : list CapabilityResolution }.

Definition Downgrades (e : CapabilityEvaluation) : list CapabilityResolution := List.filter cr_downgraded (ev_resolutions e).
Definition Failures (e : CapabilityEvaluation) : list CapabilityResolution :=
  List.filter (fun r => negb (cr_satisfied r) && negb (cr_downgraded r)) (ev_resolutions e).

Fixpoint evaluate_loop (fingerprint : CapabilityFingerprint) (i : nat) (seen : list string)
    (requirements : list CapabilityRequirement) (evaluation : CapabilityEvaluation) : result CapabilityEvaluation :=
  match requirements with
  | [] => Ok evaluation
  | requirement :: requirements =>
      let bad := NewError CodeInvalidArgument "capability.evaluate" in
      _ ← requireNonBlank (indexed "requirements" i +:+ ".name") (req_Name requirement);
      _ ← check (RequirementLevel_IsValid (req_Level requirement)) (bad (indexed "requirements" i +:+ ".level"));
      _ ← validateStringMap "capability.evaluate" (indexed "requirements" i +:+ ".constraints") (req_Constraints requirement);
      _ ← check (negb (bool_decide (req_Name requirement ∈ seen))) (bad "requirements");
      let resolution := resolveCapability fingerprint requirement in
      let rejected := negb (cr_satisfied resolution) && bool_decide (req_Level requirement = RequirementRequired) in
      evaluate_loop fingerprint (S i) (req_Name requirement :: seen) requirements
        (mkEvaluation (if rejected then false else ev_admitted evaluation) (ev_resolutions evaluation ++ [resolution]))
  end.

Definition EvaluateCapabilityRequirements (fingerprint : CapabilityFingerprint) (requirements : list CapabilityRequirement)
    : result CapabilityEvaluation :=
  _ ← check (negb (digest_IsZero (fp_digest fingerprint))) (NewError CodeInvalidArgument "capability.evaluate" "fingerprint");
  evaluate_loop fingerprint 0 [] requirements (mkEvaluation true []).

(** * What a capability fingerprint identifies

    The canonical encoding of a node's capabilities is unambiguous, so that
    equal fingerprints mean equal capabilities up to a SHA-256 collision. *)
Local Open Scope N_scope.
#[local] Arguments be32 : simpl never.
#[local] Arguments writeCanonicalString : simpl never.
#[local] Arguments writeCanonicalMap : simpl never.
#[local] Arguments write_capability : simpl never.

(** ** Self-delimiting encodings *)
(** Two encodings followed by anything agree only if the values and what follows
    them do. *)
Definition delimits {A} (P : A -> Prop) (encode : A -> list N) : Prop :=
  forall a b x y, P a -> P b -> encode a ++ x = encode b ++ y -> a = b /\ x = y.

Lemma delimits_list {A} (P : A -> Prop) encode (l l' : list A) x y :
  delimits P encode -> Forall P l -> Forall P l' -> length l = length l' ->
  mjoin (encode <$> l) ++ x = mjoin (encode <$> l') ++ y -> l = l' /\ x = y.
Proof.
  intros D F. revert l'. induction F as [|a l Pa F IH]; intros [|b l'] F' L E; try done.
  apply Forall_cons in F' as [Pb F']. cbn in E. rewrite <-!app_assoc in E.
  apply D in E as [-> E]; [|done..]. injection L as L. by destruct (IH _ F' L E) as [-> ->].
Qed.

(** Sizes whose 32-bit length starts with a zero byte. *)
Definition short (n : N) : Prop := n < 16777216.
Definition short_string (s : string) : Prop := short (N.of_nat (String.length s)).
Definition short_map (m : gmap string string) : Prop :=
  short (N.of_nat (size m)) /\ map_Forall (fun k v => short_string k /\ short_string v) m.

Lemma be32_inj a b : short a -> short b -> be32 a = be32 b -> a = b.
Proof. unfold short, be32. intros A B E. apply be_bytes_inj in E; [|apply N.mod_lt; lia..]. by rewrite !N.mod_small in E by lia. Qed.

Lemma be32_app_inj a b x y : short a -> short b -> be32 a ++ x = be32 b ++ y -> a = b /\ x = y.
Proof.
  intros A B E. apply app_inj_1 in E as [E ->]; [|unfold be32; by rewrite !be_bytes_length].
  split; [by apply be32_inj|done].
Qed.

Lemma be32_head n : short n -> exists l, be32 n = 0 :: l.
Proof.
  unfold short, be32. intros S. rewrite N.mod_small by lia. cbn [be_bytes app]. eexists. f_equal.
  rewrite (N.Div0.div_div n 256 256), (N.Div0.div_div n (256 * 256) 256), N.div_small by lia. done.
Qed.

Lemma string_delimits : delimits short_string writeCanonicalString.
Proof.
  intros a b x y A B E. unfold writeCanonicalString in E. rewrite <-!app_assoc in E.
  apply be32_app_inj in E as [L E]; [|done..]. apply app_inj_1 in E as [E ->].
  - split; [by apply bytes_of_inj|done].
  - rewrite !bytes_of_length. lia.
Qed.

Lemma pair_delimits :
  delimits (fun p : string * string => short_string p.1 /\ short_string p.2)
    (fun p => writeCanonicalString p.1 ++ writeCanonicalString p.2).
Proof.
  intros [a a'] [b b'] x y [A A'] [B B'] E. cbn in *. rewrite <-!app_assoc in E.
  apply string_delimits in E as [-> E]; [|done..]. by apply string_delimits in E as [-> ->].
Qed.

(** ** Maps by their sorted entries *)
Lemma sorted_entries_permutation {V} (m : gmap string V) : sorted_entries m ≡ₚ map_to_list m.
Proof. apply merge_sort_Permutation. Qed.

Lemma sorted_entries_length {V} (m : gmap string V) : length (sorted_entries m) = size m.
Proof. by rewrite sorted_entries_permutation, length_map_to_list. Qed.

Lemma sorted_entries_inj {V} (m m' : gmap string V) : sorted_entries m = sorted_entries m' -> m = m'.
Proof. intros E. apply map_to_list_inj. by rewrite <-!sorted_entries_permutation, E. Qed.

Lemma sorted_entries_forall {V} (P : string -> V -> Prop) m :
  map_Forall P m -> Forall (fun p => P p.1 p.2) (sorted_entries m).
Proof.
  intros F. rewrite sorted_entries_permutation. apply map_Forall_to_list in F.
  eapply Forall_impl; [exact F|]. by intros [k v].
Qed.

Lemma map_delimits : delimits short_map writeCanonicalMap.
Proof.
  intros a b x y [A FA] [B FB] E. unfold writeCanonicalMap in E. rewrite <-!app_assoc in E.
  apply be32_app_inj in E as [L E]; [|done..].
  eapply delimits_list in E as [E ->]; [| exact pair_delimits | by apply sorted_entries_forall in FA
    | by apply sorted_entries_forall in FB | rewrite !sorted_entries_length; lia ].
  split; [by apply sorted_entries_inj|done].
Qed.

(** ** Capabilities *)
Definition short_capability (p : string * Capability) : Prop :=
  short_string p.1 /\ CapabilityStatus_IsValid (cap_status p.2) = true /\ short_map (cap_constraints p.2) /\
  short_map (cap_evidence p.2).

Lemma status_text_short c : CapabilityStatus_IsValid c = true -> short_string (CapabilityStatus_text c).
Proof. by destruct c. Qed.
Lemma status_text_inj c c' :
  CapabilityStatus_IsValid c = true -> CapabilityStatus_IsValid c' = true ->
  CapabilityStatus_text c = CapabilityStatus_text c' -> c = c'.
Proof. by destruct c, c'. Qed.

Lemma capability_delimits : delimits short_capability write_capability.
Proof.
  intros [n [s c e]] [n' [s' c' e']] x y (N & S & C & E) (N' & S' & C' & E') W.
  unfold write_capability in W. cbn [fst snd cap_status cap_constraints cap_evidence] in *. rewrite <-!app_assoc in W.
  apply string_delimits in W as [-> W]; [|done..].
  apply string_delimits in W as [T W]; [|by apply status_text_short..]. apply status_text_inj in T as ->; [|done..].
  apply map_delimits in W as [-> W]; [|done..]. by apply map_delimits in W as [-> ->].
Qed.

(** What ends the capabilities cannot start one: after the name comes the
    number of entries of a map, not the text of a status. *)
Definition fingerprint_end (evidence : gmap string string) : list N :=
  writeCanonicalString "fingerprint-evidence" ++ writeCanonicalMap evidence.
#[local] Arguments fingerprint_end : simpl never.

Lemma status_then_map c m x y :
  CapabilityStatus_IsValid c = true -> short_map m ->
  writeCanonicalString (CapabilityStatus_text c) ++ x <> writeCanonicalMap m ++ y.
Proof.
  intros V [S F] E. unfold writeCanonicalString at 1, writeCanonicalMap in E. rewrite <-!app_assoc in E.
  apply be32_app_inj in E as [L E]; [|by destruct c|done].
  apply sorted_entries_forall in F. pose proof (sorted_entries_length m) as Z.
  destruct (sorted_entries m) as [|[k v] entries]; cbn [length] in Z; [rewrite <-Z in L; by destruct c|].
  apply Forall_cons in F as [[K _] _]. cbn [fmap list_fmap mjoin list_join fst] in *.
  unfold writeCanonicalString in E. rewrite <-!app_assoc in E.
  destruct (be32_head _ K) as [l Hl]. rewrite Hl in E. by destruct c.
Qed.

Lemma capability_then_end p evidence x :
  short_capability p -> short_map evidence -> write_capability p ++ x <> fingerprint_end evidence.
Proof.
  destruct p as [n c]. intros (N & S & _) M E. unfold write_capability, fingerprint_end in E.
  cbn [fst snd] in *. rewrite <-!app_assoc in E. apply string_delimits in E as [_ E]; [|done..].
  rewrite <-(app_nil_r (writeCanonicalMap evidence)) in E. by eapply status_then_map in E.
Qed.

Lemma capabilities_delimit l l' m m' :
  Forall short_capability l -> Forall short_capability l' -> short_map m -> short_map m' ->
  mjoin (write_capability <$> l) ++ fingerprint_end m = mjoin (write_capability <$> l') ++ fingerprint_end m' ->
  l = l' /\ m = m'.
Proof.
  intros F F' M M'. revert l' F'. induction F as [|p l P F IH]; intros l' F' E;
    destruct F' as [|p' l' P' F']; cbn in E; rewrite <-?app_assoc in E.
  - unfold fingerprint_end in E. apply app_inv_head in E.
    rewrite <-(app_nil_r (writeCanonicalMap m)), <-(app_nil_r (writeCanonicalMap m')) in E.
    by apply map_delimits in E as [-> _].
  - symmetry in E. by apply capability_then_end in E.
  - by apply capability_then_end in E.
  - apply capability_delimits in E as [-> E]; [|done..]. by destruct (IH _ F' E) as [-> ->].
Qed.

Definition short_node (capabilities : gmap string Capability) (evidence : gmap string string) : Prop :=
  map_Forall (fun n c => short_string n /\ short_map (cap_constraints c) /\ short_map (cap_evidence c)) capabilities /\
  short_map evidence.

Lemma NewCapabilityFingerprint_ok capabilities evidence f :
  NewCapabilityFingerprint capabilities evidence = Ok f ->
  f = mkFingerprint capabilities evidence (NewDigest (canonicalCapabilityFingerprint capabilities evidence)) /\
  map_Forall (fun _ c => CapabilityStatus_IsValid (cap_status c) = true) capabilities.
Proof.
  unfold NewCapabilityFingerprint. rewrite res_bind_ok. intros ([] & _ & E). rewrite res_bind_ok in E.
  destruct E as ([] & _ & E). rewrite res_bind_ok in E. destruct E as ([] & V & E). split; [by injection E|].
  apply map_Forall_to_list. revert V. generalize 0%nat. clear.
  induction (map_to_list capabilities) as [|[n c] l IH]; intros i V; [done|]. cbn [res_each] in V.
  rewrite res_bind_ok in V. destruct V as ([] & C & V). rewrite res_bind_ok in C. destruct C as ([] & _ & C).
  apply Forall_cons; split; [|by eapply IH]. cbn in *. by destruct (CapabilityStatus_IsValid _).
Qed.

Lemma short_node_entries capabilities evidence :
  map_Forall (fun _ c => CapabilityStatus_IsValid (cap_status c) = true) capabilities ->
  short_node capabilities evidence -> Forall short_capability (sorted_entries capabilities).
Proof.
  intros V [S _]. apply (sorted_entries_forall (fun n c => short_capability (n, c))).
  intros n c L. specialize (V n c L). destruct (S n c L) as (? & ? & ?). done.
Qed.

(** The fingerprint of a node identifies its capabilities and their
    evidence: two nodes (names, constraints and evidence each shorter than
    16 MiB, fewer than 2^24 entries) with the same fingerprint digest have the
    same capabilities and evidence, or their encodings are an explicit SHA-256
    collision; what a policy was resolved against cannot be swapped. *)
Theorem fingerprint_identifies c m f c' m' f' :
  NewCapabilityFingerprint c m = Ok f -> NewCapabilityFingerprint c' m' = Ok f' ->
  short_node c m -> short_node c' m' -> fp_digest f = fp_digest f' ->
  (c = c' /\ m = m') \/
  sha256_collision (canonicalCapabilityFingerprint c m) (canonicalCapabilityFingerprint c' m').
Proof.
  intros [-> V]%NewCapabilityFingerprint_ok [-> V']%NewCapabilityFingerprint_ok S S' D. cbn in D.
  destruct (decide (canonicalCapabilityFingerprint c m = canonicalCapabilityFingerprint c' m')) as [E|N]; [left|by right].
  unfold canonicalCapabilityFingerprint in E. apply app_inv_head in E.
  apply capabilities_delimit in E as [E ->]; [|by eapply short_node_entries..|by destruct S|by destruct S'].
  split; [by apply sorted_entries_inj|done].
Qed.
