(* ===== verification/Materials.v ===== *)
(** * Input views, workspaces and exports

    [internal/domain/material_models.go]: the manifest that names an input view
    by its content, and the models of input views, workspaces and exports.  An
    entry and a selection are their specifications; a zero value is one with an
    empty path. *)
From Stdlib Require Import Ascii.
From S2P Require Import Prelude Errors Sha256 GoStrings Utf8Facts States Values Ids Evidence Store Capability.
(** [path.Dir] *)
Definition upto_slash (p : string) : string :=
  srev ((fix drop (s : string) : string :=
           match s with "" => "" | String c s' => if Ascii.eqb c slash then s else drop s' end) (srev p)).
Definition path_Dir (p : string) : string := path_Clean (upto_slash p).

(** ** Entries *)
Record InputViewEntry := mkInputViewEntry {
  ive_LogicalPath : string; ive_OccurrenceRef : string; ive_Digest : list N; ive_Size : Z; ive_Mode : N;
  ive_PermittedSidecars : list string }.

Definition NewInputViewEntry (spec : InputViewEntry) : result InputViewEntry :=
  _ ← requireRelativePath "logical_path" (ive_LogicalPath spec) false;
  _ ← requireNonBlank "occurrence_ref" (ive_OccurrenceRef spec);
  _ ← check (negb (digest_IsZero (ive_Digest spec))) (NewError CodeInvalidArgument "input_view_entry.new" "digest");
  _ ← requireNonNegative "size" (ive_Size spec);
  let mode := if (ive_Mode spec =? 0)%N then 292%N else ive_Mode spec in
  _ ← check (mode <=? 511)%N (NewError CodeInvalidArgument "input_view_entry.new" "mode");
  sidecars ← uniqueNonBlank (ive_PermittedSidecars spec) "permitted_sidecars";
  Ok (mkInputViewEntry (ive_LogicalPath spec) (ive_OccurrenceRef spec) (ive_Digest spec) (ive_Size spec) mode
        (sort_Strings sidecars)).

(** ** Manifests *)
Record InputViewManifest := mkInputViewManifest { ivm_id : list N; ivm_entries : list InputViewEntry }.

(** The loop over the parents of a path, up to [path.Dir] being ".": [Some]
    whether one of them is a path seen before, [None] when the fuel is used up. *)
Fixpoint parent_seen (fuel : nat) (seen : list string) (parent : string) : option bool :=
  if bool_decide (parent = ".") then Some false else
  match fuel with
  | O => None
  | S fuel => if bool_decide (parent ∈ seen) then Some true else parent_seen fuel seen (path_Dir parent)
  end.

Fixpoint manifest_loop (i : nat) (seen : list string) (entries : list InputViewEntry) : option (result unit) :=
  let bad code field := Some (Err (NewError code "input_view_manifest.new" field)) in
  match entries with
  | [] => Some (Ok tt)
  | entry :: entries =>
      let path := ive_LogicalPath entry in
      if bool_decide (path = "") || digest_IsZero (ive_Digest entry) then bad CodeInvalidArgument (indexed "entries" i) else
      if bool_decide (path ∈ seen) then bad CodeConflict "entries" else
      match parent_seen (String.length path) seen (path_Dir path) with
      | None => None
      | Some true => bad CodeConflict "entries"
      | Some false => manifest_loop (S i) (path :: seen) entries
      end
  end.

(** [binary.Write] of an int64 *)
Definition be64 (n : Z) : list N := be_bytes 8 (uint64_of n).

Definition write_entry (e : InputViewEntry) : list N :=
  writeCanonicalString (ive_LogicalPath e) ++ writeCanonicalString (ive_OccurrenceRef e) ++
  writeCanonicalString (digest_String (ive_Digest e)) ++ be64 (ive_Size e) ++ be32 (ive_Mode e) ++
  be32 (N.of_nat (length (ive_PermittedSidecars e))) ++ mjoin (writeCanonicalString <$> ive_PermittedSidecars e).
Definition canonicalInputViewManifest (entries : list InputViewEntry) : list N :=
  writeCanonicalString "world.input-view-manifest.v1" ++ be32 (N.of_nat (length entries)) ++
  mjoin (write_entry <$> entries).

(** [sort.Slice] by path; entries with the same path are an error anyway. *)
Definition path_le (a b : InputViewEntry) : Prop := string_le (ive_LogicalPath a) (ive_LogicalPath b).
#[export] Instance path_le_dec : RelDecision path_le.
Proof. intros a b. unfold path_le. apply _. Defined.

Definition NewInputViewManifest (entries : list InputViewEntry) : option (result InputViewManifest) :=
  if bool_decide (entries = []) then Some (Err (NewError CodeInvalidArgument "input_view_manifest.new" "entries")) else
  let owned := merge_sort path_le entries in
  match manifest_loop 0 [] owned with
  | None => None
  | Some (Err e) => Some (Err e)
  | Some (Ok _) => Some (Ok (mkInputViewManifest (NewInputViewID (canonicalInputViewManifest owned)) owned))
  end.

(** ** Input views *)
Inductive InputViewConstruction :=
| InputViewRequireReflink | InputViewAllowCopy | InputViewConstructionUnrecognized (s : string).
#[export] Instance InputViewConstruction_dec : EqDecision InputViewConstruction.
Proof. solve_decision. Defined.
Definition InputViewConstruction_IsValid (c : InputViewConstruction) : bool :=
  match c with InputViewConstructionUnrecognized _ => false | _ => true end.
Definition InputViewConstruction_text (c : InputViewConstruction) : string :=
  match c with
  | InputViewRequireReflink => "require-reflink" | InputViewAllowCopy => "allow-copy"
  | InputViewConstructionUnrecognized s => s
  end.

Record InputViewSpec := mkInputViewSpec {
  ivs_Manifest : InputViewManifest; ivs_SecurityScope : string; ivs_Construction : InputViewConstruction;
  ivs_CreatedAt : time }.
Record InputView := mkInputView {
  iv_spec : InputViewSpec; iv_state : InputViewState; iv_revision : Revision; iv_updatedAt : time }.

Definition NewInputView (spec : InputViewSpec) : result InputView :=
  let bad := NewError CodeInvalidArgument "input_view.new" in
  _ ← check (negb (digest_IsZero (ivm_id (ivs_Manifest spec)) || bool_decide (ivm_entries (ivs_Manifest spec) = [])))
        (bad "manifest");
  _ ← requireNonBlank "security_scope" (ivs_SecurityScope spec);
  _ ← check (InputViewConstruction_IsValid (ivs_Construction spec)) (bad "construction");
  _ ← requireTime "created_at" (ivs_CreatedAt spec);
  Ok (mkInputView spec InputViewBuilding InitialRevision (ivs_CreatedAt spec)).
Definition InputView_Transition (v : InputView) (next : InputViewState) (expected : Revision) (at_ : time) : result InputView :=
  _ ← RequireInputViewTransition (iv_state v) next;
  revision ← nextModelRevision (iv_revision v) expected (iv_updatedAt v) at_;
  Ok (mkInputView (iv_spec v) next revision at_).

(** ** Workspaces *)
Record WorkspaceSpec := mkWorkspaceSpec {
  wss_ID : uuidV7; wss_LeaseID : uuidV7; wss_AgentWorkspaceID : uuidV7; wss_AgentGeneration : AgentGeneration;
  wss_InputViewID : list N; wss_CreatedAt : time }.
Record Workspace := mkWorkspace {
  ws_spec : WorkspaceSpec; ws_state : WorkspaceState; ws_revision : Revision; ws_updatedAt : time }.

Definition NewWorkspace (spec : WorkspaceSpec) : result Workspace :=
  _ ← requireID "workspace_id" (id_IsZero (wss_ID spec));
  _ ← requireID "lease_id" (id_IsZero (wss_LeaseID spec));
  _ ← requireID "agent_workspace_id" (id_IsZero (wss_AgentWorkspaceID spec));
  _ ← check (AgentGeneration_IsValid (wss_AgentGeneration spec))
        (NewError CodeInvalidArgument "workspace.new" "agent_generation");
  _ ← check (negb (digest_IsZero (wss_InputViewID spec))) (NewError CodeInvalidID "workspace.new" "input_view_id");
  _ ← requireTime "created_at" (wss_CreatedAt spec);
  Ok (mkWorkspace spec WorkspacePreparing InitialRevision (wss_CreatedAt spec)).
Definition Workspace_Transition (w : Workspace) (next : WorkspaceState) (expected : Revision) (at_ : time) : result Workspace :=
  _ ← RequireWorkspaceTransition (ws_state w) next;
  revision ← nextModelRevision (ws_revision w) expected (ws_updatedAt w) at_;
  Ok (mkWorkspace (ws_spec w) next revision at_).

(** ** Exports *)
Record ExportSelection := mkExportSelection { xs_RelativePath : string; xs_Roles : list string }.
Definition NewExportSelection (spec : ExportSelection) : result ExportSelection :=
  _ ← requireRelativePath "relative_path" (xs_RelativePath spec) false;
  roles ← uniqueNonBlank (xs_Roles spec) "roles";
  _ ← check (negb (bool_decide (roles = []))) (NewError CodeInvalidArgument "export_selection.new" "roles");
  Ok (mkExportSelection (xs_RelativePath spec) (sort_Strings roles)).

Record ExportSpec := mkExportSpec {
  xp_ID : uuidV7; xp_LeaseID : uuidV7; xp_WorkspaceID : uuidV7; xp_AgentWorkspaceID : uuidV7;
  xp_AgentGeneration : AgentGeneration; xp_Selections : list ExportSelection; xp_WorkspaceRevision : Revision;
  xp_DeclaredAt : time }.
Record Export := mkExport {
  x_spec : ExportSpec; x_state : ExportState; x_revision : Revision; x_updatedAt : time;
  x_artifacts : list ArtifactReferenceSpec }.

Definition selection_le (a b : ExportSelection) : Prop := string_le (xs_RelativePath a) (xs_RelativePath b).
#[export] Instance selection_le_dec : RelDecision selection_le.
Proof. intros a b. unfold selection_le. apply _. Defined.

(** [previous] is [owned[i-1]]. *)
Fixpoint selections_loop (i : nat) (previous : option string) (owned : list ExportSelection) : result unit :=
  match owned with
  | [] => Ok tt
  | s :: owned =>
      _ ← check (negb (bool_decide (xs_RelativePath s = "") || bool_decide (xs_Roles s = [])))
            (NewError CodeInvalidArgument "export.new" (indexed "selections" i));
      _ ← check (negb (bool_decide (previous = Some (xs_RelativePath s)))) (NewError CodeConflict "export.new" "selections");
      selections_loop (S i) (Some (xs_RelativePath s)) owned
  end.

Definition NewExport (spec : ExportSpec) : result Export :=
  let bad := NewError CodeInvalidArgument "export.new" in
  _ ← requireID "export_id" (id_IsZero (xp_ID spec));
  _ ← requireID "lease_id" (id_IsZero (xp_LeaseID spec));
  _ ← requireID "workspace_id" (id_IsZero (xp_WorkspaceID spec));
  _ ← requireID "agent_workspace_id" (id_IsZero (xp_AgentWorkspaceID spec));
  _ ← check (AgentGeneration_IsValid (xp_AgentGeneration spec)) (bad "agent_generation");
  _ ← check (Revision_IsValid (xp_WorkspaceRevision spec)) (bad "workspace_revision");
  _ ← check (negb (bool_decide (xp_Selections spec = []))) (bad "selections");
  _ ← requireTime "declared_at" (xp_DeclaredAt spec);
  let owned := merge_sort selection_le (xp_Selections spec) in
  _ ← selections_loop 0 None owned;
  Ok (mkExport (mkExportSpec (xp_ID spec) (xp_LeaseID spec) (xp_WorkspaceID spec) (xp_AgentWorkspaceID spec)
                  (xp_AgentGeneration spec) owned (xp_WorkspaceRevision spec) (xp_DeclaredAt spec))
        ExportDeclared InitialRevision (xp_DeclaredAt spec) []).

Definition Export_Transition (e : Export) (next : ExportState) (expected : Revision) (at_ : time) : result Export :=
  _ ← RequireExportTransition (x_state e) next;
  revision ← nextModelRevision (x_revision e) expected (x_updatedAt e) at_;
  Ok (mkExport (x_spec e) next revision at_ (x_artifacts e)).

Definition Export_Commit (e : Export) (artifacts : list ArtifactReferenceSpec) (expected : Revision) (at_ : time)
    : result Export :=
  let bad := NewError CodeInvalidArgument "export.commit" in
  _ ← check (bool_decide (x_state e = ExportCommitting)) (NewError CodeFailedPrecondition "export.commit" "state");
  _ ← check (negb (bool_decide (artifacts = []))) (bad "artifacts");
  _ ← res_each (fun i a => check (negb (bool_decide (as_Reference a = "") || digest_IsZero (as_Digest a)))
                             (bad (indexed "artifacts" i))) 0 artifacts;
  revision ← nextModelRevision (x_revision e) expected (x_updatedAt e) at_;
  Ok (mkExport (x_spec e) ExportCommitted revision at_ artifacts).

(** * Clean relative paths

    Slash-separated paths by their elements: what [requireRelativePath] accepts,
    the parents [path.Dir] enumerates, and ancestors. *)
#[local] Arguments String.append : simpl nomatch.

Definition plain_element (e : string) : Prop := e <> "" /\ e <> "." /\ e <> ".." /\ ContainsByte e slash = false.
Definition clean_relative (p : string) : Prop := exists l, l <> [] /\ Forall plain_element l /\ p = join "/" l.

(** [p] is a directory above [q]. *)
Definition ancestor (p q : string) : Prop := exists r, q = p +:+ "/" +:+ r.

(** ** Splitting *)
Lemma split_nonempty s : split_on slash s <> [].
Proof. destruct s as [|c s]; cbn [split_on]; [done|]. destruct (c =? slash)%char; [done|]. by destruct (split_on slash s). Qed.

Lemma split_slash a b : split_on slash (a +:+ "/" +:+ b) = split_on slash a ++ split_on slash b.
Proof.
  induction a as [|c a IH]; [done|]. change (String c a +:+ "/" +:+ b) with (String c (a +:+ "/" +:+ b)). cbn [split_on]. rewrite IH.
  destruct (c =? slash)%char; [done|]. pose proof (split_nonempty a). by destruct (split_on slash a).
Qed.

Lemma split_one e : ContainsByte e slash = false -> split_on slash e = [e].
Proof. induction e as [|c e IH]; [done|]. cbn [split_on ContainsByte]. destruct (c =? slash)%char; [done|]. intros H. by rewrite IH. Qed.

Lemma join_cons e l : l <> [] -> join "/" (e :: l) = e +:+ "/" +:+ join "/" l.
Proof. by destruct l. Qed.
Lemma join_snoc l e : l <> [] -> join "/" (l ++ [e]) = join "/" l +:+ "/" +:+ e.
Proof.
  induction l as [|x l IH]; [done|]. intros _. destruct l as [|y l]; [done|].
  change ((x :: y :: l) ++ [e]) with (x :: ((y :: l) ++ [e])). rewrite !join_cons, IH by done. by rewrite <-!append_assoc.
Qed.

Lemma split_join l : l <> [] -> Forall plain_element l -> split_on slash (join "/" l) = l.
Proof.
  intros N F. induction F as [|e l [_ [_ [_ E]]] F IH]; [done|]. destruct l as [|x l].
  - by apply split_one.
  - rewrite join_cons, split_slash, split_one, IH by done. done.
Qed.

Lemma split_elements s : Forall (fun e => ContainsByte e slash = false) (split_on slash s).
Proof.
  induction s as [|c s IH]; cbn [split_on]; [by repeat constructor|].
  destruct (c =? slash)%char eqn:E; [by constructor|]. destruct (split_on slash s) as [|e l].
  - repeat constructor. cbn [ContainsByte]. by rewrite E.
  - apply Forall_cons in IH as [He Hl]. constructor; [|done]. cbn [ContainsByte]. by rewrite E.
Qed.

Lemma join_plain_nonempty l : l <> [] -> Forall plain_element l -> exists c s, join "/" l = String c s /\ Ascii.eqb c slash = false.
Proof.
  destruct l as [|e l]; [done|]. intros _ [[N [_ [_ S]]] _]%Forall_cons. destruct e as [|c e]; [done|].
  cbn [ContainsByte] in S. destruct (c =? slash)%char eqn:E; [done|].
  exists c. destruct l as [|x l]; [by exists e|]. rewrite join_cons by done. by eexists.
Qed.

(** ** Cleaning *)
Lemma clean_plain rooted out l : Forall plain_element l -> clean_elements rooted out l = rev out ++ l.
Proof.
  intros F. revert out. induction F as [|e l (N1 & N2 & N3 & _) F IH]; intros out; cbn [clean_elements]; [by rewrite app_nil_r|].
  rewrite !bool_decide_false by done. cbn [orb]. rewrite IH. cbn. by rewrite <-app_assoc.
Qed.

Lemma clean_blank_end rooted out l : clean_elements rooted out (l ++ [""]) = clean_elements rooted out l.
Proof.
  revert out. induction l as [|e l IH]; intros out; cbn; [done|].
  destruct (bool_decide (e = "") || bool_decide (e = ".")); [apply IH|].
  destruct (bool_decide (e = "..")); [|apply IH]. destruct out as [|t out]; [destruct rooted; apply IH|].
  destruct (bool_decide (t = "..")); apply IH.
Qed.

Lemma not_rooted c s : Ascii.eqb c slash = false -> HasPrefix (String c s) "/" = false.
Proof. unfold HasPrefix. intros E. cbn [String.prefix]. destruct (ascii_dec "/"%char c) as [<-|]; [by vm_compute in E|done]. Qed.

Lemma Clean_join_slash l :
  l <> [] -> Forall plain_element l -> path_Clean (join "/" l +:+ "/") = join "/" l.
Proof.
  intros N F. destruct (join_plain_nonempty l N F) as (c & s & J & C). unfold path_Clean.
  rewrite bool_decide_false by (rewrite J; done).
  assert (HasPrefix (join "/" l +:+ "/") "/" = false) as -> by (rewrite J; by apply not_rooted).
  change (join "/" l +:+ "/") with (join "/" l +:+ "/" +:+ ""). rewrite split_slash, split_join by done. cbn [split_on].
  rewrite clean_blank_end, clean_plain by done. cbn [rev app]. rewrite bool_decide_false; [done|]. by rewrite J.
Qed.

(** ** [path.Dir] *)
Lemma upto_slash_none e : ContainsByte e slash = false -> upto_slash e = "".
Proof.
  unfold upto_slash. intros E. assert (R : ContainsByte (srev e) slash = false).
  { induction e as [|c e IH]; [done|]. change (String c e) with (String c "" +:+ e).
    rewrite srev_append, ContainsByte_append. cbn [ContainsByte] in E. destruct (c =? slash)%char eqn:C; [done|].
    rewrite IH by done. change (srev (String c "")) with (String c ""). cbn [ContainsByte]. by rewrite C. }
  revert R. generalize (srev e). intros s. induction s as [|c s IH]; [done|].
  cbn [ContainsByte]. destruct (c =? slash)%char; [done|exact IH].
Qed.

Lemma upto_slash_last a e : ContainsByte e slash = false -> upto_slash (a +:+ "/" +:+ e) = a +:+ "/".
Proof.
  intros E. pose proof (upto_slash_none e E) as R. unfold upto_slash in *.
  rewrite <-append_assoc, srev_append. rewrite srev_append. change (srev "/") with "/".
  assert (D : forall s t, srev ((fix drop (s : string) : string :=
           match s with "" => "" | String c s' => if Ascii.eqb c slash then s else drop s' end) s) = "" ->
         (fix drop (s : string) : string :=
           match s with "" => "" | String c s' => if Ascii.eqb c slash then s else drop s' end) (s +:+ "/" +:+ t) = "/" +:+ t).
  { induction s as [|c s IH]; intros t; [done|]. cbn [String.append]. destruct (Ascii.eqb c slash); [|apply IH].
    intros Z. apply (f_equal srev) in Z. rewrite srev_involutive in Z. done. }
  rewrite D by done. by rewrite srev_append, srev_involutive.
Qed.

Lemma path_Dir_join l e :
  Forall plain_element (l ++ [e]) -> path_Dir (join "/" (l ++ [e])) = if bool_decide (l = []) then "." else join "/" l.
Proof.
  intros [F [[N [_ [_ E]]] _]%Forall_cons]%Forall_app. unfold path_Dir. case_bool_decide as L.
  - subst l. change (join "/" ([] ++ [e])) with e. by rewrite upto_slash_none.
  - rewrite join_snoc, upto_slash_last by done. by apply Clean_join_slash.
Qed.

(** ** What [requireRelativePath] accepts *)
(** The kept elements, last first: plain ones, and ".." at the bottom. *)
Lemma clean_elements_shape l out :
  Forall (fun e => ContainsByte e slash = false) l ->
  (exists n kept, out = rev kept ++ replicate n ".." /\ Forall plain_element kept) ->
  exists n kept, clean_elements false out l = replicate n ".." ++ kept /\ Forall plain_element kept.
Proof.
  revert out. induction l as [|e l IH]; intros out N (n & kept & -> & K); cbn [clean_elements].
  { exists n, kept. split; [|done]. rewrite rev_app_distr, rev_involutive. f_equal. clear.
    induction n as [|n IH]; [done|]. cbn. rewrite IH. clear. induction n as [|n IH]; [done|]. cbn. by rewrite IH. }
  apply Forall_cons in N as [E N]. destruct (bool_decide (e = "") || bool_decide (e = ".")) eqn:B; [apply IH; eauto|].
  apply orb_false_iff in B as [B1%bool_decide_eq_false B2%bool_decide_eq_false]. case_bool_decide as B3.
  - destruct kept as [|k kept _] using rev_ind.
    + cbn. destruct n as [|n]; [apply IH; [done|by exists 1%nat, []]|]. cbn [replicate].
      rewrite bool_decide_true by done. apply IH; [done|]. by exists (S (S n)), [].
    + rewrite rev_app_distr. cbn [rev app]. apply Forall_app in K as [K [[_ [_ [D _]]] _]%Forall_cons].
      rewrite bool_decide_false by done. apply IH; eauto.
  - apply IH; [done|]. exists n, (kept ++ [e]). rewrite rev_app_distr. cbn. split; [done|].
    apply Forall_app. split; [done|]. by repeat constructor.
Qed.

Lemma requireRelativePath_clean field value : requireRelativePath field value false = Ok tt -> clean_relative value.
Proof.
  unfold requireRelativePath. intros H. inv_res H. to_prop. destruct H4 as [[C D] X].
  rewrite C in D, X, H. destruct H as [?|Dot]; [done|].
  destruct (clean_elements_shape (split_on slash value) [] (split_elements value)) as (n & kept & K & P); [by exists 0%nat, []|].
  unfold path_Clean in C. case_bool_decide as V; [by subst value|]. rewrite H3, K in C.
  case_bool_decide as B; [done|]. destruct n as [|n].
  - exists kept. split_and!; [|done|done]. intros ->. done.
  - exfalso. cbn [replicate app] in C. destruct (replicate n ".." ++ kept) as [|y r] eqn:R; [done|].
    rewrite join_cons in C by done. rewrite <-C in X.
    change (".." +:+ "/" +:+ join "/" (y :: r)) with ("../" +:+ join "/" (y :: r)) in X.
    by rewrite HasPrefix_append in X.
Qed.

(** ** Ancestors *)
Lemma join_app l r : l <> [] -> r <> [] -> join "/" (l ++ r) = join "/" l +:+ "/" +:+ join "/" r.
Proof.
  intros L R. induction l as [|x l IH]; [done|]. destruct l as [|y l].
  - change ([x] ++ r) with (x :: r). by rewrite join_cons.
  - change ((x :: y :: l) ++ r) with (x :: ((y :: l) ++ r)). rewrite !join_cons, IH by done. by rewrite <-!append_assoc.
Qed.

Lemma join_inj l r :
  l <> [] -> r <> [] -> Forall plain_element l -> Forall plain_element r -> join "/" l = join "/" r -> l = r.
Proof. intros L R F G E. apply (f_equal (split_on slash)) in E. by rewrite !split_join in E. Qed.

Lemma ancestor_elements l r :
  l <> [] -> r <> [] -> Forall plain_element l -> Forall plain_element r ->
  ancestor (join "/" l) (join "/" r) <-> exists k, k <> [] /\ r = l ++ k.
Proof.
  intros L R F G. split.
  - intros [s E]. apply (f_equal (split_on slash)) in E. rewrite split_slash, !split_join in E by done.
    exists (split_on slash s). split; [apply split_nonempty|done].
  - intros (k & K & ->). exists (join "/" k). by apply join_app.
Qed.

Lemma clean_ancestor_irrefl p : clean_relative p -> ~ ancestor p p.
Proof.
  intros (l & L & F & ->). rewrite ancestor_elements by done. intros (k & K & E).
  apply (f_equal length) in E. rewrite length_app in E. destruct k; [done|]. cbn in E. lia.
Qed.

Lemma ancestor_le p q : ancestor p q -> string_le p q /\ p <> q.
Proof.
  intros [r ->]. split.
  - rewrite <-(append_nil_r p) at 1. apply string_le_same. done.
  - intros E. rewrite <-(append_nil_r p) in E at 1. by apply append_inv_head in E.
Qed.

(** The path whose elements are [l], as [path.Dir] writes it. *)
Definition dir_of (l : list string) : string := if bool_decide (l = []) then "." else join "/" l.

Lemma parent_seen_elements seen l fuel :
  Forall plain_element l -> (length l <= fuel)%nat ->
  exists b, parent_seen fuel seen (dir_of l) = Some b /\
    (b = true <-> exists k t, k <> [] /\ l = k ++ t /\ join "/" k ∈ seen).
Proof.
  revert fuel. induction l as [|x l IH] using rev_ind; intros fuel F L.
  - exists false. split; [by destruct fuel|]. split; [done|]. intros (k & t & K & E & _). by destruct k.
  - rewrite length_app in L. cbn in L. destruct fuel as [|fuel]; [lia|].
    assert (N : l ++ [x] <> []) by (by destruct l).
    unfold dir_of. rewrite bool_decide_false by done. cbn [parent_seen].
    rewrite bool_decide_false; cycle 1.
    { intros E. apply (f_equal (split_on slash)) in E. rewrite split_join in E by done.
      rewrite E in F. apply Forall_cons in F as [[_ [D _]] _]. done. }
    case_bool_decide as B.
    { exists true. split; [done|]. split; [|done]. intros _. exists (l ++ [x]), []. by rewrite app_nil_r. }
    rewrite path_Dir_join by done. fold (dir_of l). apply Forall_app in F as [F _].
    destruct (IH fuel F ltac:(lia)) as (b & -> & S). exists b. split; [done|]. rewrite S. split.
    + intros (k & t & K & -> & I). exists k, (t ++ [x]). by rewrite app_assoc.
    + intros (k & t & K & E & I). destruct t as [|y t _] using rev_ind; [rewrite app_nil_r in E; by subst k|].
      rewrite app_assoc in E. apply app_inj_tail in E as [-> ->]. by exists k, t.
Qed.

Lemma join_length l : Forall plain_element l -> (length l <= String.length (join "/" l))%nat.
Proof.
  induction 1 as [|e l [N _] F IH]; [done|]. destruct e as [|c e]; [done|]. destruct l as [|x l]; [cbn; lia|].
  rewrite join_cons by done. rewrite !append_length. cbn [String.length length] in *. lia.
Qed.

(** The loop over the parents of a clean path ends, and finds the ancestors. *)
Lemma parent_seen_spec seen p :
  clean_relative p -> Forall clean_relative seen ->
  exists b, parent_seen (String.length p) seen (path_Dir p) = Some b /\ (b = true <-> exists a, a ∈ seen /\ ancestor a p).
Proof.
  intros (l & L & F & ->) C. destruct l as [|e l _] using rev_ind; [done|].
  rewrite path_Dir_join by done. fold (dir_of l).
  pose proof (join_length _ F) as Le. rewrite length_app in Le. cbn in Le.
  destruct (parent_seen_elements seen l (String.length (join "/" (l ++ [e])))) as (b & -> & S);
    [by apply Forall_app in F as [? _]|lia|].
  exists b. split; [done|]. rewrite S. split.
  - intros (k & t & K & -> & I). exists (join "/" k). split; [done|].
    apply ancestor_elements; [done|by destruct k|by apply Forall_app in F as [[? _]%Forall_app _]|done|].
    exists (t ++ [e]). split; [by destruct t|by rewrite app_assoc].
  - intros (a & I & A). rewrite Forall_forall in C. destruct (C a I) as (k & K & Fk & ->).
    apply ancestor_elements in A as (t & T & E); [|done|by destruct l|done|done].
    destruct t as [|y t _] using rev_ind; [done|]. rewrite app_assoc in E. apply app_inj_tail in E as [-> _]. eauto.
Qed.
