(* ===== verification/MaterialFacts.v ===== *)
(** * What an input view manifest guarantees

    Building a manifest always ends, succeeds exactly on the entries that form a
    tree of files, and names them by their content. *)
From S2P Require Import Prelude Errors Sha256 GoStrings Utf8Facts States Values Ids Evidence Store StoreFacts Capability.
From S2P Require Import Materials.
Local Open Scope N_scope.
#[local] Arguments be32 : simpl never.
#[local] Arguments be64 : simpl never.
#[local] Arguments writeCanonicalString : simpl never.

Definition constructed (e : InputViewEntry) : Prop := exists spec, NewInputViewEntry spec = Ok e.
Abbreviation paths l := (ive_LogicalPath <$> l).

(** Paths of files: each once, none of them a directory above another. *)
Definition file_tree (l : list string) : Prop := NoDup l /\ forall p q, p ∈ l -> q ∈ l -> ~ ancestor p q.

Lemma constructed_ok e :
  constructed e ->
  clean_relative (ive_LogicalPath e) /\ ive_LogicalPath e <> "" /\ digest_IsZero (ive_Digest e) = false /\
  (0 <= ive_Size e)%Z /\ ive_Mode e <= 511.
Proof.
  intros [spec H]. unfold NewInputViewEntry in H. inv_res H. unfold requireNonNegative in *.
  repeat match goal with H : check _ _ = Ok _ |- _ => apply check_ok in H end. to_prop. cbn.
  assert (clean_relative (ive_LogicalPath spec)) as P.
  { eapply requireRelativePath_clean. match goal with H : requireRelativePath _ _ _ = Ok ?u |- _ => by destruct u end. }
  split_and!; try done.
  destruct P as (l & L & F & ->). destruct (join_plain_nonempty l L F) as (c & s & -> & _). done.
Qed.

(** ** The loop over the sorted entries *)
Fixpoint admissible (seen l : list string) : Prop :=
  match l with
  | [] => True
  | p :: l => p ∉ seen /\ (forall a, a ∈ seen -> ~ ancestor a p) /\ admissible (p :: seen) l
  end.

Lemma manifest_loop_spec entries : forall i seen,
  Forall constructed entries -> Forall clean_relative seen ->
  exists r, manifest_loop i seen entries = Some r /\ (is_ok r = true <-> admissible seen (paths entries)).
Proof.
  induction entries as [|e l IH]; intros i seen F C; cbn [manifest_loop fmap list_fmap admissible].
  { by exists (Ok tt). }
  apply Forall_cons in F as [E F]. destruct (constructed_ok e E) as (P & N & D & _).
  rewrite (bool_decide_false (_ = "")), D by done. cbn [orb].
  case_bool_decide as Seen; [eexists; split; [done|]; cbn; split; [done|tauto]|].
  destruct (parent_seen_spec seen _ P C) as (b & -> & A). destruct b.
  - eexists. split; [done|]. cbn. split; [done|]. intros (_ & A' & _). destruct (proj1 A eq_refl) as (a & I & Q).
    by destruct (A' a I).
  - destruct (IH (S i) (ive_LogicalPath e :: seen) F) as (r & -> & R); [by constructor|].
    exists r. split; [done|]. rewrite R. split; [|tauto]. intros K. split_and!; [done| |done].
    intros a I Q. by discriminate (proj2 A (ex_intro _ a (conj I Q))).
Qed.

Lemma admissible_sorted seen l :
  StronglySorted string_le l -> (forall a p, a ∈ seen -> p ∈ l -> string_le a p) ->
  admissible seen l <->
  NoDup l /\ (forall p, p ∈ l -> p ∉ seen) /\ (forall a p, a ∈ seen ++ l -> p ∈ l -> a = p \/ ~ ancestor a p).
Proof.
  revert seen. induction l as [|p l IH]; intros seen Sd B; cbn [admissible].
  { split; [|done]. intros _. split; [constructor|]. split; set_solver. }
  apply StronglySorted_inv in Sd as [Sd Hp]. rewrite IH; [|done|].
  2: { intros a q. rewrite elem_of_cons. intros [->|I] Q; [|apply B; set_solver]. rewrite Forall_forall in Hp. auto. }
  rewrite NoDup_cons. split.
  - intros (N & A & D & M & K). split_and!; [|done|set_solver|].
    + intros I. by apply (M p I); left.
    + intros a q. rewrite elem_of_app, !elem_of_cons. intros [I|[->|I]] [->|Q]; try by left; auto.
      * right. auto.
      * apply K; set_solver.
      * apply K; set_solver.
      * destruct (decide (a = p)) as [|Ne]; [by left|]. right. intros Anc. apply ancestor_le in Anc as [Le _].
        rewrite Forall_forall in Hp. apply Ne. apply (anti_symm string_le); auto.
      * apply K; set_solver.
  - intros ([N D] & M & K). split_and!; [set_solver| |done| |].
    + intros a I Anc. destruct (K a p) as [->|]; [set_solver..| |done]. by apply ancestor_le in Anc as [_ ?].
    + intros q Q. rewrite elem_of_cons. intros [->|I]; [done|]. apply (M q); set_solver.
    + intros a q I Q. apply K; set_solver.
Qed.

(** ** The manifest *)
#[local] Instance path_le_trans : Transitive path_le.
Proof. intros a b c. unfold path_le. by transitivity (ive_LogicalPath b). Qed.
#[local] Instance path_le_total : Total path_le.
Proof. intros a b. unfold path_le. apply string_le_total. Qed.

Lemma paths_sorted l : StronglySorted path_le l -> StronglySorted string_le (paths l).
Proof. induction 1 as [|e l Sd IH F]; cbn; constructor; [done|]. rewrite Forall_fmap. exact F. Qed.

Lemma sorted_paths_unique l l' :
  StronglySorted path_le l -> StronglySorted path_le l' -> NoDup (paths l) -> l ≡ₚ l' -> l = l'.
Proof.
  intros A B N P. revert l' B P. induction A as [|e l A IH F]; intros l' B P.
  { by apply Permutation_nil_l in P as ->. }
  destruct l' as [|e' l']; [by apply symmetry, Permutation_nil_cons in P|].
  apply StronglySorted_inv in B as [B F']. cbn in N. apply NoDup_cons in N as [N0 N].
  assert (e = e') as <-.
  { assert (I : e ∈ e :: l) by left. rewrite P, elem_of_cons in I. destruct I as [|I]; [done|].
    assert (J : e' ∈ e' :: l') by left. rewrite <-P, elem_of_cons in J. destruct J as [|J]; [done|].
    rewrite Forall_forall in F, F'. specialize (F _ J). specialize (F' _ I). exfalso. apply N0.
    apply list_elem_of_fmap. exists e'. split; [|done]. by apply (anti_symm string_le). }
  f_equal. apply IH; [done..|]. by apply Permutation_cons_inv in P.
Qed.

Lemma file_tree_permutation l l' : l ≡ₚ l' -> file_tree l <-> file_tree l'.
Proof. intros P. unfold file_tree. setoid_rewrite P. done. Qed.

Lemma NewInputViewManifest_ok entries m :
  NewInputViewManifest entries = Some (Ok m) ->
  let owned := merge_sort path_le entries in
  m = mkInputViewManifest (NewInputViewID (canonicalInputViewManifest owned)) owned /\ entries <> [].
Proof.
  unfold NewInputViewManifest. case_bool_decide; [done|]. cbv zeta.
  destruct (manifest_loop _ _ _) as [[u|e]|]; [|done..]. by intros [= <-].
Qed.

Lemma manifest_tree entries :
  Forall constructed entries ->
  exists r, NewInputViewManifest entries = Some r /\ (is_ok r = true <-> entries <> [] /\ file_tree (paths entries)).
Proof.
  intros C. pose proof (merge_sort_Permutation path_le entries) as P.
  pose proof (StronglySorted_merge_sort path_le entries) as Sd.
  assert (C' : Forall constructed (merge_sort path_le entries)) by by rewrite P.
  destruct (manifest_loop_spec _ 0%nat [] C' (Forall_nil_2 _)) as (r & R & A).
  rewrite admissible_sorted in A by (set_solver || by apply paths_sorted).
  assert (T : is_ok r = true <-> file_tree (paths entries)).
  { rewrite A, <-(file_tree_permutation _ _ (fmap_Permutation ive_LogicalPath _ _ P)). unfold file_tree. split.
    - intros (N & _ & K). split; [done|]. intros p q Ip Iq Q. destruct (K p q Ip Iq) as [->|]; [|done].
      apply list_elem_of_fmap in Iq as (e & -> & Ie). rewrite Forall_forall in C'.
      eapply clean_ancestor_irrefl; [|exact Q]. by apply constructed_ok, C'.
    - intros [N K]. split_and!; [done|set_solver|]. intros a p Ia Ip. right. by apply K. }
  unfold NewInputViewManifest. case_bool_decide as E.
  { eexists. split; [done|]. cbn. split; [done|tauto]. }
  rewrite R. destruct r as [u|e]; cbv zeta; eexists; (split; [done|]); cbn [is_ok] in *; tauto.
Qed.

(** C34: Building an input view manifest from constructed entries always ends
    (the loop over the parents of a path cannot run on), and it succeeds exactly
    on a nonempty list of entries whose paths form a tree of files: no path
    twice, none a directory above another.  The loop looks for parents among
    the paths before it in the sorted order only, and that is enough although
    "a-b" sorts between "a" and "a/b".  The manifest then holds the same
    entries, sorted by path. *)
Theorem manifest_exact entries :
  Forall constructed entries ->
  exists r, NewInputViewManifest entries = Some r /\
    (is_ok r = true <-> entries <> [] /\ file_tree (paths entries)) /\
    forall m, r = Ok m -> ivm_entries m ≡ₚ entries /\ StronglySorted path_le (ivm_entries m).
Proof.
  intros C. destruct (manifest_tree entries C) as (r & R & T). exists r. split; [done|]. split; [exact T|].
  intros m E. subst r. apply NewInputViewManifest_ok in R as [-> _]. cbn.
  split; [apply merge_sort_Permutation|exact (StronglySorted_merge_sort path_le entries)].
Qed.

(** ** The encoding *)
Definition short_entry (e : InputViewEntry) : Prop :=
  short_string (ive_LogicalPath e) /\ short_string (ive_OccurrenceRef e) /\
  length (ive_Digest e) = 32%nat /\ is_bytes (ive_Digest e) /\ (ive_Size e < 9223372036854775808)%Z /\
  short (N.of_nat (length (ive_PermittedSidecars e))) /\ Forall short_string (ive_PermittedSidecars e).
Definition sound_entry (e : InputViewEntry) : Prop := constructed e /\ short_entry e.

Lemma digest_string_inj d d' :
  digest_IsZero d = false -> digest_IsZero d' = false -> is_bytes d -> is_bytes d' ->
  digest_String d = digest_String d' -> d = d'.
Proof.
  intros Z Z' B B'. unfold digest_String. rewrite Z, Z'. intros E. apply append_inv_head in E. by apply hex_encode_inj in E.
Qed.
Lemma digest_string_short d : digest_IsZero d = false -> length d = 32%nat -> short_string (digest_String d).
Proof. intros Z L. unfold digest_String. rewrite Z. unfold short_string. rewrite append_length, hex_encode_length, L. done. Qed.

Lemma be64_app_inj a b x y :
  (0 <= a < 9223372036854775808)%Z -> (0 <= b < 9223372036854775808)%Z -> be64 a ++ x = be64 b ++ y -> a = b /\ x = y.
Proof.
  unfold be64. intros A B E. apply app_inj_1 in E as [E ->]; [|by rewrite !be_bytes_length].
  apply u64_be_inj in E; [|apply uint64_of_bound..]. unfold uint64_of in E. rewrite !Z.mod_small in E by lia. split; [lia|done].
Qed.

Lemma entry_delimits : delimits sound_entry write_entry.
Proof.
  intros a b x y [(_ & _ & Za & Sa & Ma)%constructed_ok (Pa & Oa & La & Ba & Xa & Na & Fa)]
    [(_ & _ & Zb & Sb & Mb)%constructed_ok (Pb & Ob & Lb & Bb & Xb & Nb & Fb)] E.
  destruct a as [p o d z m l], b as [p' o' d' z' m' l']. cbn in *. unfold write_entry in E. cbn in E. rewrite <-!app_assoc in E.
  apply string_delimits in E as [-> E]; [|done..]. apply string_delimits in E as [-> E]; [|done..].
  apply string_delimits in E as [D E]; [|by apply digest_string_short..].
  apply digest_string_inj in D as ->; [|done..].
  apply be64_app_inj in E as [-> E]; [|done..].
  apply be32_app_inj in E as [-> E]; [|unfold short; lia..].
  apply be32_app_inj in E as [L E]; [|done..].
  apply (delimits_list short_string) in E as [-> ->]; [done|apply string_delimits|done..|lia].
Qed.

Lemma canonical_manifest_inj l l' :
  Forall sound_entry l -> Forall sound_entry l' -> short (N.of_nat (length l)) -> short (N.of_nat (length l')) ->
  canonicalInputViewManifest l = canonicalInputViewManifest l' -> l = l'.
Proof.
  intros F F' L L' E. unfold canonicalInputViewManifest in E. apply app_inv_head in E.
  apply be32_app_inj in E as [Len E]; [|done..].
  rewrite <-(app_nil_r (mjoin (_ <$> l))), <-(app_nil_r (mjoin (_ <$> l'))) in E.
  apply (delimits_list sound_entry) in E as [-> _]; [done|apply entry_delimits|done..|lia].
Qed.

(** An input view is named by its content.  Two manifests built from the
    same entries in any order are the same manifest; and two manifests (names
    shorter than 16 MiB, fewer than 2^24 entries and sidecars, digests of 32
    bytes, sizes an int64 holds) with the same identifier were built from the
    same entries, or their encodings are an explicit SHA-256 collision. *)
Theorem manifest_identifies entries m entries' m' :
  NewInputViewManifest entries = Some (Ok m) -> NewInputViewManifest entries' = Some (Ok m') ->
  Forall sound_entry entries -> Forall sound_entry entries' ->
  short (N.of_nat (length entries)) -> short (N.of_nat (length entries')) ->
  (entries ≡ₚ entries' -> m = m') /\
  (ivm_id m = ivm_id m' ->
   entries ≡ₚ entries' \/
   sha256_collision (inputView_domain ++ canonicalInputViewManifest (ivm_entries m))
     (inputView_domain ++ canonicalInputViewManifest (ivm_entries m'))).
Proof.
  intros H H' F F' L L'. pose proof H as T. destruct (manifest_tree entries) as (r & R & K).
  { eapply Forall_impl; [exact F|]. by intros e [? _]. }
  rewrite R in T. injection T as ->. destruct (proj1 K eq_refl) as [_ [N _]].
  apply NewInputViewManifest_ok in H as [-> _], H' as [-> _]. cbn [ivm_id ivm_entries].
  pose proof (merge_sort_Permutation path_le entries) as P. pose proof (merge_sort_Permutation path_le entries') as P'.
  split.
  - intros Q. enough (merge_sort path_le entries = merge_sort path_le entries') as -> by done.
    apply sorted_paths_unique; [apply (StronglySorted_merge_sort path_le).. | by rewrite P | by rewrite P, P'].
  - intros D. destruct (decide (canonicalInputViewManifest (merge_sort path_le entries) =
                                canonicalInputViewManifest (merge_sort path_le entries'))) as [E|Ne].
    + left. apply canonical_manifest_inj in E; [| by rewrite P | by rewrite P' | by rewrite P | by rewrite P'].
      rewrite <-P, E. exact P'.
    + right. split; [|exact D]. by intros E%app_inv_head.
Qed.

(** ** A concrete input view *)
Module MaterialDemo.
Definition content : list N := Eval vm_compute in sha256 [1].
Definition file (p : string) : InputViewEntry := mkInputViewEntry p "occurrence" content 3 292 ["notes"; "origin"].
Definition files : list InputViewEntry := [file "a/b"; file "a-b"; file "c/d"].
Definition reordered : list InputViewEntry := [file "c/d"; file "a-b"; file "a/b"].
Definition clash : list InputViewEntry := [file "a/b"; file "a-b"; file "a"].

Definition manifest_is_ok (entries : list InputViewEntry) : bool :=
  match NewInputViewManifest entries with Some r => is_ok r | None => false end.

Lemma file_constructed p :
  NewInputViewEntry (mkInputViewEntry p "occurrence" content 3 0 ["origin"; "notes"]) = Ok (file p) -> constructed (file p).
Proof. intros H. by eexists. Qed.
Lemma files_constructed : Forall constructed files.
Proof. repeat constructor; apply file_constructed; vm_compute; reflexivity. Qed.
Lemma reordered_constructed : Forall constructed reordered.
Proof. repeat constructor; apply file_constructed; vm_compute; reflexivity. Qed.
Lemma clash_constructed : Forall constructed clash.
Proof. repeat constructor; apply file_constructed; vm_compute; reflexivity. Qed.

Lemma content_bytes : is_bytes content.
Proof. repeat (apply Forall_cons; split; [vm_compute; reflexivity|]). apply Forall_nil_2. Qed.
Lemma file_short p : short_string p -> short_entry (file p).
Proof.
  intros H. unfold short_entry. cbn [ive_LogicalPath ive_OccurrenceRef ive_Digest ive_Size ive_PermittedSidecars file].
  split_and!; try done; [apply content_bytes|by repeat constructor].
Qed.
Lemma sound_files l : Forall constructed (file <$> l) -> Forall short_string l -> Forall sound_entry (file <$> l).
Proof.
  intros C H. induction H as [|p l Hp H IH]; cbn [fmap list_fmap] in *; [by apply Forall_nil_2|].
  apply Forall_cons in C as [Cp C]. apply Forall_cons. split; [by split; [|apply file_short]|auto].
Qed.
Lemma files_sound : Forall sound_entry files.
Proof. apply (sound_files ["a/b"; "a-b"; "c/d"] files_constructed). by repeat constructor. Qed.
Lemma reordered_sound : Forall sound_entry reordered.
Proof. apply (sound_files ["c/d"; "a-b"; "a/b"] reordered_constructed). by repeat constructor. Qed.
End MaterialDemo.

Theorem manifest_exact_witness :
  MaterialDemo.manifest_is_ok MaterialDemo.files = true /\ ~ (file_tree (paths MaterialDemo.clash)).
Proof.
  split; [by vm_compute|]. intros T. destruct (manifest_exact _ MaterialDemo.clash_constructed) as (r & R & K & _).
  assert (B : MaterialDemo.manifest_is_ok MaterialDemo.clash = false) by by vm_compute.
  unfold MaterialDemo.manifest_is_ok in B. rewrite R in B. destruct K as [_ K]. rewrite K in B; [done|by split].
Defined.

Theorem manifest_identifies_witness :
  exists m m', NewInputViewManifest MaterialDemo.files = Some (Ok m) /\
    NewInputViewManifest MaterialDemo.reordered = Some (Ok m') /\ m = m'.
Proof.
  assert (A : MaterialDemo.manifest_is_ok MaterialDemo.files = true) by by vm_compute.
  assert (B : MaterialDemo.manifest_is_ok MaterialDemo.reordered = true) by by vm_compute.
  unfold MaterialDemo.manifest_is_ok in A, B.
  destruct (NewInputViewManifest MaterialDemo.files) as [[m|]|] eqn:M; [|done..].
  destruct (NewInputViewManifest MaterialDemo.reordered) as [[m'|]|] eqn:M'; [|done..].
  exists m, m'. split; [done|]. split; [done|].
  apply (manifest_identifies _ _ _ _ M M' MaterialDemo.files_sound MaterialDemo.reordered_sound); [done..|].
  unfold MaterialDemo.files, MaterialDemo.reordered. solve_Permutation.
Defined.
