(* ===== verification/Observations.v ===== *)
(** * Captures, events, change sets and observation bundles

    The rest of [internal/domain/observation.go] and
    [internal/domain/evidence_models.go]: captures, event envelopes, the changes
    of a file system, derived summaries and the bundle that seals what was
    observed of one target run.  As in [Evidence], a constructed value is its
    specification and a zero value one with empty fields. *)
From Stdlib Require Import SpecFloat.
From S2P Require Import Prelude Errors GoStrings States Values Ids Evidence.
(** [encoding/json.Valid] *)
Class JsonText := { json_Valid : list N -> bool }.

(** A loop over values that must have different keys, with the keys seen so far
    in a map: what is checked before an element's key is looked up, the error of
    a repeated key, and what is checked after. *)
Fixpoint each_once_loop {A K} `{EqDecision K} (key : A -> K) (before : nat -> A -> result unit) (duplicate : err)
    (after : nat -> A -> result unit) (i : nat) (seen : list K) (values : list A) : result unit :=
  match values with
  | [] => Ok tt
  | value :: values =>
      _ ← before i value;
      _ ← check (negb (bool_decide (key value ∈ seen))) duplicate;
      _ ← after i value;
      each_once_loop key before duplicate after (S i) (key value :: seen) values
  end.
Definition each_once {A K} `{EqDecision K} (key : A -> K) (before : nat -> A -> result unit) (duplicate : err)
    (after : nat -> A -> result unit) (values : list A) : result unit :=
  each_once_loop key before duplicate after 0 [] values.

Lemma res_then_ok {A} (m : result unit) (k : result A) x : (_ ← m; k) = Ok x <-> m = Ok tt /\ k = Ok x.
Proof. rewrite res_bind_ok. split; [by intros ([] & ? & ?)|intros [? ?]; by exists tt]. Qed.

Lemma res_each_forall {A} (f : nat -> A -> result unit) (P : A -> Prop) i l :
  (forall i v, f i v = Ok tt <-> P v) -> res_each f i l = Ok tt <-> Forall P l.
Proof.
  intros HP. revert i. induction l as [|v l IH]; intros i; cbn [res_each]; [by split|].
  by rewrite res_then_ok, IH, HP, Forall_cons.
Qed.

Lemma each_once_ok {A K} `{EqDecision K} (key : A -> K) before duplicate after (P : A -> Prop) (values : list A) :
  (forall i v, before i v = Ok tt /\ after i v = Ok tt <-> P v) ->
  each_once key before duplicate after values = Ok tt <-> Forall P values /\ NoDup (key <$> values).
Proof.
  intros HP. unfold each_once. generalize 0%nat.
  assert (G : forall values i seen, each_once_loop key before duplicate after i seen values = Ok tt <->
    Forall P values /\ NoDup (key <$> values) /\ forall k, k ∈ key <$> values -> k ∉ seen).
  { clear values. induction values as [|v values IH]; intros i seen; cbn [each_once_loop fmap list_fmap].
    { split; [|done]. repeat split; [constructor|constructor|set_solver]. }
    rewrite res_bind_ok. setoid_rewrite res_bind_ok. setoid_rewrite res_bind_ok. setoid_rewrite IH.
    setoid_rewrite check_ok. setoid_rewrite negb_true_iff. setoid_rewrite bool_decide_eq_false.
    rewrite Forall_cons, NoDup_cons, <-(HP i v). split.
    - intros ([] & B & ? & N & [] & A' & F & D & Q). split_and!; try done; set_solver.
    - intros ([[B A'] F] & [N D] & Q). exists tt. split; [done|]. exists tt. split; [set_solver|]. exists tt. set_solver. }
  intros i. rewrite G. split; [tauto|]. intros [? ?]. repeat split; [done..|set_solver].
Qed.

(** ** Captures *)
Inductive CaptureKind :=
| CapturePacket | CaptureTrace | CaptureLog | CaptureProfile | CaptureFilesystem | CaptureScreenshot
| CaptureScreenRecording | CaptureKindUnrecognized (s : string).
#[export] Instance CaptureKind_eq_dec : EqDecision CaptureKind.
Proof. solve_decision. Defined.
Definition CaptureKind_IsValid (k : CaptureKind) : bool :=
  match k with CaptureKindUnrecognized _ => false | _ => true end.

Record CaptureSpec := mkCaptureSpec {
  caps_ID : uuidV7; caps_LeaseID : uuidV7; caps_TargetRunID : uuidV7; caps_NamedProfile : string;
  caps_Kind : CaptureKind; caps_Sensitivity : Sensitivity; caps_MaximumDuration : duration; caps_MaximumBytes : Z;
  caps_PolicyDigest : list N; caps_RequestedAt : time }.
Record Capture := mkCapture {
  capt_spec : CaptureSpec; capt_state : CaptureState; capt_revision : Revision; capt_updatedAt : time;
  capt_artifacts : list ArtifactReferenceSpec }.

Definition NewCapture (spec : CaptureSpec) : result Capture :=
  let bad := NewError CodeInvalidArgument "capture.new" in
  _ ← requireID "capture_id" (id_IsZero (caps_ID spec));
  _ ← requireID "lease_id" (id_IsZero (caps_LeaseID spec));
  _ ← requireNonBlank "named_profile" (caps_NamedProfile spec);
  _ ← check (CaptureKind_IsValid (caps_Kind spec)) (bad "kind");
  _ ← check (Sensitivity_IsValid (caps_Sensitivity spec)) (bad "sensitivity");
  _ ← check (0 <? caps_MaximumDuration spec)%Z (bad "maximum_duration");
  _ ← check (0 <? caps_MaximumBytes spec)%Z (bad "maximum_bytes");
  _ ← check (negb (digest_IsZero (caps_PolicyDigest spec))) (bad "policy_digest");
  _ ← requireTime "requested_at" (caps_RequestedAt spec);
  Ok (mkCapture spec CaptureRequested InitialRevision (caps_RequestedAt spec) []).

Definition Capture_Transition (c : Capture) (next : CaptureState) (expected : Revision) (at_ : time) : result Capture :=
  _ ← RequireCaptureTransition (capt_state c) next;
  revision ← nextModelRevision (capt_revision c) expected (capt_updatedAt c) at_;
  Ok (mkCapture (capt_spec c) next revision at_ (capt_artifacts c)).

Definition Capture_Complete (c : Capture) (artifacts : list ArtifactReferenceSpec) (expected : Revision) (at_ : time)
    : result Capture :=
  _ ← check (bool_decide (capt_state c = CaptureFinalizing)) (NewError CodeFailedPrecondition "capture.complete" "state");
  _ ← check (negb (bool_decide (artifacts = []))) (NewError CodeInvalidArgument "capture.complete" "artifacts");
  _ ← validateConstructedEvidence [] [] artifacts;
  revision ← nextModelRevision (capt_revision c) expected (capt_updatedAt c) at_;
  Ok (mkCapture (capt_spec c) CaptureCompleted revision at_ artifacts).

(** ** Change sets *)
Inductive ChangeScope := ChangeScopeAgentWorkspace | ChangeScopeTarget | ChangeScopeUnrecognized (s : string).
#[export] Instance ChangeScope_eq_dec : EqDecision ChangeScope.
Proof. solve_decision. Defined.
Definition ChangeScope_IsValid (s : ChangeScope) : bool := match s with ChangeScopeUnrecognized _ => false | _ => true end.

Inductive ChangeKind :=
| ChangeAdded | ChangeModified | ChangeDeleted | ChangeRenamed | ChangeMetadataOnly | ChangeOpaqueDirectory
| ChangeKindUnrecognized (s : string).
#[export] Instance ChangeKind_eq_dec : EqDecision ChangeKind.
Proof. solve_decision. Defined.
Definition ChangeKind_IsValid (k : ChangeKind) : bool := match k with ChangeKindUnrecognized _ => false | _ => true end.

Record ChangeEntry := mkChangeEntry {
  ce_Kind : ChangeKind; ce_Path : string; ce_PreviousPath : string; ce_BeforeDigest : list N;
  ce_AfterDigest : list N; ce_Metadata : gmap string string }.
#[export] Instance ChangeEntry_eq_dec : EqDecision ChangeEntry.
Proof. solve_decision. Defined.

Definition NewChangeEntry (spec : ChangeEntry) : result ChangeEntry :=
  let bad := NewError CodeInvalidArgument "change.new" in
  _ ← check (ChangeKind_IsValid (ce_Kind spec)) (bad "kind");
  _ ← (if negb (bool_decide (ce_Kind spec = ChangeOpaqueDirectory)) || negb (bool_decide (ce_Path spec = "."))
       then requireRelativePath "path" (ce_Path spec) false else Ok tt);
  _ ← (if bool_decide (ce_Kind spec = ChangeRenamed) then
         _ ← requireRelativePath "previous_path" (ce_PreviousPath spec) false;
         check (negb (bool_decide (ce_PreviousPath spec = ce_Path spec))) (bad "previous_path")
       else check (bool_decide (ce_PreviousPath spec = "")) (bad "previous_path"));
  _ ← validateStringMap "change.new" "metadata" (ce_Metadata spec);
  Ok spec.

Record ChangeSet := mkChangeSet {
  chg_scope : ChangeScope; chg_entries : list ChangeEntry; chg_workspaceRevision : Revision; chg_sealedAt : time }.
#[export] Instance ChangeSet_eq_dec : EqDecision ChangeSet.
Proof. solve_decision. Defined.

Definition change_le (a b : ChangeEntry) : Prop := string_le (ce_Path a) (ce_Path b).
#[export] Instance change_le_dec : RelDecision change_le.
Proof. intros a b. unfold change_le. apply _. Defined.

(** [previous] is the path of [owned[i-1]]. *)
Fixpoint changes_loop (previous : option string) (owned : list ChangeEntry) : result unit :=
  match owned with
  | [] => Ok tt
  | e :: owned =>
      _ ← check (negb (bool_decide (previous = Some (ce_Path e)))) (NewError CodeInvalidArgument "change_set.new" "entries");
      changes_loop (Some (ce_Path e)) owned
  end.

Definition NewChangeSet (scope : ChangeScope) (entries : list ChangeEntry) (workspaceRevision : Revision) (sealedAt : time)
    : result ChangeSet :=
  let bad := NewError CodeInvalidArgument "change_set.new" in
  _ ← check (ChangeScope_IsValid scope) (bad "scope");
  _ ← check (Revision_IsValid workspaceRevision) (bad "workspace_revision");
  _ ← requireTime "sealed_at" sealedAt;
  let owned := merge_sort change_le entries in
  _ ← changes_loop None owned;
  Ok (mkChangeSet scope owned workspaceRevision sealedAt).

(** ** Events *)
Inductive Completeness :=
| CompletenessUnknown | CompletenessPartial | CompletenessComplete | CompletenessUnrecognized (s : string).
Definition Completeness_IsValid (c : Completeness) : bool := match c with CompletenessUnrecognized _ => false | _ => true end.
Inductive Origin :=
| OriginAgentControl | OriginAgentInstrumentation | OriginSpecimen | OriginSystem | OriginMixedOrUnknown
| OriginUnrecognized (s : string).
Definition Origin_IsValid (o : Origin) : bool := match o with OriginUnrecognized _ => false | _ => true end.

Record CorrelationLink := mkCorrelationLink { cl_EventID : uuidV7; cl_Method : string; cl_Confidence : spec_float }.

Record EventEnvelope := mkEventEnvelope {
  ev_SchemaVersion : N; ev_EventID : uuidV7; ev_Kind : string; ev_ResearchSessionID : uuidV7; ev_LeaseID : uuidV7;
  ev_AgentWorkspaceID : uuidV7; ev_AgentGeneration : AgentGeneration; ev_ExecID : uuidV7; ev_TargetID : uuidV7;
  ev_TargetGeneration : TargetGeneration; ev_TargetRunID : uuidV7; ev_TargetOperationID : uuidV7;
  ev_CorrelationID : uuidV7; ev_CausationID : uuidV7; ev_CorrelatedWith : list CorrelationLink; ev_TraceID : string;
  ev_SpanID : string; ev_Source : string; ev_SourceInstance : string; ev_SourceSequence : N;
  ev_SourceCursor : ObservationCursor; ev_CollectorID : uuidV7; ev_CollectorPlacement : CollectorPlacement;
  ev_CoverageLevel : CoverageLevel; ev_ObservedWallTime : time; ev_ObservedMonotonicTime : duration;
  ev_SubjectTime : time; ev_SubjectClockDomain : string; ev_ClockSyncEpoch : N; ev_HostBootID : string;
  ev_ContainerID : string; ev_CgroupID : string; ev_ProcessID : Z; ev_ProcessStartTime : time; ev_AndroidPID : Z;
  ev_AndroidUID : Z; ev_AndroidPackage : string; ev_PolicyDigest : list N; ev_CapabilityFingerprintDigest : list N;
  ev_Payload : list N; ev_Sensitivity : Sensitivity; ev_Completeness : Completeness; ev_Confidence : spec_float;
  ev_Origin : Origin }.

(** [x < 0 || x > 1 || math.IsNaN(x)] *)
Definition confidence_ok (x : spec_float) : bool :=
  negb (float_lt x float_zero || float_lt float_one x || float_IsNaN x).
Definition missingEventParent (child : string) : err := NewError CodeInvalidArgument "event.new" child.

Definition validate_link (i : nat) (link : CorrelationLink) : result unit :=
  let field name := (indexed "correlated_with" i +:+ "." +:+ name)%string in
  _ ← check (negb (id_IsZero (cl_EventID link))) (NewError CodeInvalidID "event.new" (field "event_id"));
  _ ← requireNonBlank (field "method") (cl_Method link);
  check (confidence_ok (cl_Confidence link)) (NewError CodeInvalidArgument "event.new" (field "confidence")).

(** The scopes an event names require the scopes they lie in. *)
Definition validate_event_scope (p : EventEnvelope) : result unit :=
  let bad := NewError CodeInvalidArgument "event.new" in
  _ ← check (id_IsZero (ev_LeaseID p) || negb (id_IsZero (ev_ResearchSessionID p))) (missingEventParent "lease_id");
  _ ← check (id_IsZero (ev_AgentWorkspaceID p) || negb (id_IsZero (ev_ResearchSessionID p)))
        (missingEventParent "agent_workspace_id");
  _ ← check (negb ((0 <? ev_AgentGeneration p)%N && id_IsZero (ev_AgentWorkspaceID p))) (missingEventParent "agent_generation");
  _ ← check (id_IsZero (ev_ExecID p) || negb (id_IsZero (ev_LeaseID p) || id_IsZero (ev_AgentWorkspaceID p)
                                              || negb (AgentGeneration_IsValid (ev_AgentGeneration p)))) (bad "exec_id");
  _ ← check (id_IsZero (ev_TargetID p) || negb (id_IsZero (ev_ResearchSessionID p))) (missingEventParent "target_id");
  _ ← check (negb ((0 <? ev_TargetGeneration p)%N && id_IsZero (ev_TargetID p))) (missingEventParent "target_generation");
  _ ← check (id_IsZero (ev_TargetRunID p) || negb (id_IsZero (ev_TargetID p)
                || negb (TargetGeneration_IsValid (ev_TargetGeneration p)) || id_IsZero (ev_LeaseID p))) (bad "target_run_id");
  check (id_IsZero (ev_TargetOperationID p) || negb (id_IsZero (ev_TargetRunID p))) (missingEventParent "target_operation_id").

Definition NewEventEnvelope `{JsonText} (p : EventEnvelope) : result EventEnvelope :=
  let bad := NewError CodeInvalidArgument "event.new" in
  _ ← check (negb (ev_SchemaVersion p =? 0)%N) (bad "schema_version");
  _ ← check (negb (id_IsZero (ev_EventID p))) (NewError CodeInvalidID "event.new" "event_id");
  _ ← requireNonBlank "kind" (ev_Kind p);
  _ ← requireNonBlank "source" (ev_Source p);
  _ ← requireNonBlank "source_instance" (ev_SourceInstance p);
  _ ← requireTime "observed_wall_time" (ev_ObservedWallTime p);
  _ ← check (0 <=? ev_ObservedMonotonicTime p)%Z (bad "observed_monotonic_time");
  _ ← check (Sensitivity_IsValid (ev_Sensitivity p)) (bad "sensitivity");
  _ ← check (Completeness_IsValid (ev_Completeness p)) (bad "completeness");
  _ ← check (Origin_IsValid (ev_Origin p)) (bad "origin");
  _ ← check (confidence_ok (ev_Confidence p)) (bad "confidence");
  _ ← check (bool_decide (ev_Payload p = []) || json_Valid (ev_Payload p)) (bad "payload");
  _ ← validate_event_scope p;
  _ ← check (negb ((ev_ProcessID p <? 0)%Z || (ev_AndroidPID p <? 0)%Z || (ev_AndroidUID p <? 0)%Z)) (bad "process_identity");
  _ ← check (negb ((0 <? ev_ProcessID p)%Z && time_IsZero (ev_ProcessStartTime p))) (bad "process_start_time");
  _ ← (if id_IsZero (ev_CollectorID p) then Ok tt else
       _ ← check (CollectorPlacement_IsValid (ev_CollectorPlacement p)) (bad "collector_placement");
       check (CoverageLevel_IsValid (ev_CoverageLevel p)) (bad "coverage_level"));
  _ ← res_each validate_link 0 (ev_CorrelatedWith p);
  Ok p.

(** ** Summaries *)
(** The artifact of a citation without one has an empty reference. *)
Record EvidenceCitation := mkEvidenceCitation {
  ec_FirstCursor : ObservationCursor; ec_LastCursor : ObservationCursor; ec_Artifact : ArtifactReferenceSpec }.
#[export] Instance EvidenceCitation_eq_dec : EqDecision EvidenceCitation.
Proof. solve_decision. Defined.
Record DerivedSummary := mkDerivedSummary {
  sum_Text : string; sum_Citations : list EvidenceCitation; sum_Inferences : list string }.
#[export] Instance DerivedSummary_eq_dec : EqDecision DerivedSummary.
Proof. solve_decision. Defined.

Definition NewDerivedSummary (spec : DerivedSummary) : result DerivedSummary :=
  let bad := NewError CodeInvalidArgument "summary.new" in
  _ ← requireNonBlank "text" (sum_Text spec);
  _ ← check (negb (bool_decide (sum_Citations spec = []))) (bad "citations");
  _ ← res_each (fun i c =>
        _ ← check (negb ((0 <? ec_LastCursor c)%N && (ec_LastCursor c <? ec_FirstCursor c)%N)) (bad (indexed "citations" i));
        check (negb ((ec_FirstCursor c =? 0)%N && bool_decide (as_Reference (ec_Artifact c) = "")))
          (bad (indexed "citations" i))) 0 (sum_Citations spec);
  _ ← uniqueNonBlank (sum_Inferences spec) "inferences";
  Ok spec.
Definition TextIsValid (s : DerivedSummary) : bool :=
  negb (bool_decide (sum_Text s = "")) && negb (bool_decide (sum_Citations s = [])).

(** ** Observation bundles *)
Record ObservationBundleSpec := mkObservationBundleSpec {
  obs_ID : uuidV7; obs_TargetRunID : uuidV7; obs_TargetID : uuidV7; obs_TargetGeneration : TargetGeneration;
  obs_AgentWorkspaceID : uuidV7; obs_AgentGeneration : AgentGeneration; obs_FirstCursor : ObservationCursor;
  obs_LastCursor : ObservationCursor; obs_RawArtifacts : list ArtifactReferenceSpec;
  obs_NormalizedEvents : list EventEnvelope; obs_Metrics : list MetricSampleSpec;
  obs_Coverage : list CollectorCoverageSpec; obs_Gaps : list GapSpec; obs_TargetChanges : ChangeSet;
  obs_IncidentIDs : list uuidV7; obs_Summary : DerivedSummary; obs_CreatedAt : time }.
Record ObservationBundle := mkObservationBundle {
  ob_spec : ObservationBundleSpec; ob_state : ObservationBundleState; ob_revision : Revision; ob_updatedAt : time;
  ob_sealedAt : time }.

Definition NewObservationBundle (spec : ObservationBundleSpec) : result ObservationBundle :=
  let bad := NewError CodeInvalidArgument "bundle.new" in
  _ ← requireID "observation_bundle_id" (id_IsZero (obs_ID spec));
  _ ← requireID "target_run_id" (id_IsZero (obs_TargetRunID spec));
  _ ← requireID "target_id" (id_IsZero (obs_TargetID spec));
  _ ← check (TargetGeneration_IsValid (obs_TargetGeneration spec)) (bad "target_generation");
  _ ← requireID "agent_workspace_id" (id_IsZero (obs_AgentWorkspaceID spec));
  _ ← check (AgentGeneration_IsValid (obs_AgentGeneration spec)) (bad "agent_generation");
  _ ← check (negb ((obs_FirstCursor spec =? 0)%N || (obs_LastCursor spec <? obs_FirstCursor spec)%N)) (bad "cursor_range");
  _ ← check (negb (bool_decide (obs_RawArtifacts spec = []) || match obs_NormalizedEvents spec with [] => true | _ => false end
                   || bool_decide (obs_Coverage spec = []))) (bad "contents");
  _ ← validateConstructedEvidence (obs_Metrics spec) (obs_Coverage spec) (obs_RawArtifacts spec);
  _ ← res_each (fun i e =>
        _ ← check (negb (id_IsZero (ev_EventID e))) (bad (indexed "normalized_events" i));
        check (bool_decide (ev_TargetRunID e = obs_TargetRunID spec))
          (NewError CodeConflict "bundle.new" (indexed "normalized_events" i +:+ ".target_run_id")))
        0 (obs_NormalizedEvents spec);
  _ ← check (bool_decide (chg_scope (obs_TargetChanges spec) = ChangeScopeTarget)) (bad "target_changes");
  _ ← check (TextIsValid (obs_Summary spec)) (bad "summary");
  _ ← each_once id (fun i id => check (negb (id_IsZero id)) (NewError CodeInvalidID "bundle.new" (indexed "incident_ids" i)))
        (bad "incident_ids") (fun _ _ => Ok tt) (obs_IncidentIDs spec);
  _ ← requireTime "created_at" (obs_CreatedAt spec);
  Ok (mkObservationBundle spec ObservationBundleBuilding InitialRevision (obs_CreatedAt spec) 0%Z).

Definition ObservationBundle_Transition (b : ObservationBundle) (next : ObservationBundleState) (expected : Revision)
    (at_ : time) : result ObservationBundle :=
  _ ← RequireObservationBundleTransition (ob_state b) next;
  revision ← nextModelRevision (ob_revision b) expected (ob_updatedAt b) at_;
  Ok (mkObservationBundle (ob_spec b) next revision at_
        (if bool_decide (next = ObservationBundleSealed) then at_ else ob_sealedAt b)).
Definition ObservationBundle_Seal (b : ObservationBundle) (expected : Revision) (at_ : time) : result ObservationBundle :=
  ObservationBundle_Transition b ObservationBundleSealed expected at_.
