(* ===== verification/BundleBuild.v ===== *)
(** * Building an observation bundle

    [internal/observationbundle/build.go] with the types of [finalizer.go] and
    [ports.TargetRunResult]: the checks on the evidence of a finished run, the
    sealed bundle and its metadata.

    Texts of [encoding/json] are parameters: [BundleText] gives the text of a
    gap, of a payload and of the reflective projections of an event and of a
    metric, [None] when [json.Marshal] fails (a year beyond 9999).  A metadata
    field that is the string of an enumerated value keeps the value. *)
From S2P Require Import Prelude Errors Sha256 GoStrings States Values Ids Evidence Observations.
(** ** Requests *)
Inductive RunOutcome := RunCompleted | RunFailed | RunOutcomeUnrecognized (s : string).
#[export] Instance RunOutcome_eq_dec : EqDecision RunOutcome.
Proof. solve_decision. Defined.
Definition RunOutcome_IsValid (o : RunOutcome) : bool := match o with RunOutcomeUnrecognized _ => false | _ => true end.

Record TargetRunResult := mkTargetRunResult {
  trr_RunID : uuidV7; trr_Outcome : RunOutcome; trr_FirstCursor : ObservationCursor; trr_LastCursor : ObservationCursor;
  trr_RawArtifacts : list ArtifactReferenceSpec; trr_NormalizedEvents : list EventEnvelope;
  trr_Metrics : list MetricSampleSpec; trr_Coverage : list CollectorCoverageSpec; trr_Gaps : list GapSpec;
  trr_TargetChanges : ChangeSet; trr_IncidentIDs : list uuidV7; trr_Summary : DerivedSummary; trr_StoppedAt : time }.

Record FinalizeRequest := mkFinalizeRequest {
  fz_BundleID : uuidV7; fz_TargetID : uuidV7; fz_TargetGeneration : TargetGeneration; fz_AgentWorkspaceID : uuidV7;
  fz_AgentGeneration : AgentGeneration; fz_RequiredCoverage : list string; fz_Result : TargetRunResult;
  fz_CreatedAt : time; fz_FinalizedAt : time }.

(** ** Metadata *)
Record ArtifactMetadata := mkArtifactMetadata {
  am_Reference : string; am_Digest : string; am_Size : Z; am_Role : string; am_Sensitivity : Sensitivity }.
Record EventMetadata := mkEventMetadata {
  em_EventID : string; em_Kind : string; em_Source : string; em_SourceCursor : N; em_Digest : string }.
Record MetricMetadata := mkMetricMetadata {
  mm_SubjectID : string; mm_Name : string; mm_Cursor : N; mm_CollectedAt : time; mm_Digest : string }.
Record GapMetadata := mkGapMetadata {
  gm_Kind : GapKind; gm_Source : string; gm_SourceInstance : string; gm_FirstSourceSequence : N;
  gm_LastSourceSequence : N; gm_FirstCursor : N; gm_LastCursor : N; gm_StartedAt : time; gm_EndedAt : time;
  gm_LostRecords : N; gm_Reason : string }.
Record CoverageMetadata := mkCoverageMetadata {
  cm_CollectorID : string; cm_SignalFamily : string; cm_Placement : CollectorPlacement; cm_Level : CoverageLevel;
  cm_Status : CoverageStatus; cm_Required : bool; cm_StartedAt : time; cm_EndedAt : time; cm_DroppedRecords : N;
  cm_Gaps : list GapMetadata }.
Record ChangeMetadata := mkChangeMetadata {
  chm_Kind : ChangeKind; chm_Path : string; chm_PreviousPath : string; chm_BeforeDigest : string;
  chm_AfterDigest : string; chm_Metadata : gmap string string }.
Record ChangeSetMetadata := mkChangeSetMetadata {
  csm_Scope : ChangeScope; csm_WorkspaceRevision : N; csm_SealedAt : time; csm_Entries : list ChangeMetadata }.
Record CitationMetadata := mkCitationMetadata {
  ctm_FirstCursor : N; ctm_LastCursor : N; ctm_Artifact : option ArtifactMetadata }.
Record SummaryMetadata := mkSummaryMetadata {
  sm_Text : string; sm_Citations : list CitationMetadata; sm_Inferences : list string }.
Record MetadataPayload := mkMetadataPayload {
  mp_BundleID : string; mp_TargetRunID : string; mp_TargetID : string; mp_TargetGeneration : N;
  mp_AgentWorkspaceID : string; mp_AgentGeneration : N; mp_Outcome : RunOutcome; mp_FirstCursor : N; mp_LastCursor : N;
  mp_RequiredCoverage : list string; mp_RawArtifacts : list ArtifactMetadata; mp_NormalizedEvents : list EventMetadata;
  mp_Metrics : list MetricMetadata; mp_Coverage : list CoverageMetadata; mp_Gaps : list GapMetadata;
  mp_TargetChanges : ChangeSetMetadata; mp_IncidentIDs : list string; mp_Summary : SummaryMetadata;
  mp_CreatedAt : time; mp_FinalizedAt : time }.

(** [encoding/json] on the values of this package. *)
Class BundleText := {
  gap_text : GapMetadata -> option string;
  event_projection : EventEnvelope -> option (list N);
  metric_projection : MetricSampleSpec -> option (list N);
  payload_text : MetadataPayload -> option (list N) }.

(** ** Projection of the evidence *)
Definition artifactMetadata (a : ArtifactReferenceSpec) : ArtifactMetadata :=
  mkArtifactMetadata (as_Reference a) (digest_String (as_Digest a)) (as_Size a) (as_Role a) (as_Sensitivity a).
Definition gapMetadata (g : GapSpec) : GapMetadata :=
  mkGapMetadata (gs_Kind g) (gs_Source g) (gs_SourceInstance g) (gs_FirstSourceSequence g) (gs_LastSourceSequence g)
    (gs_FirstCursor g) (gs_LastCursor g) (gs_StartedAt g) (gs_EndedAt g) (gs_LostRecords g) (gs_Reason g).
Definition changeSetMetadata (c : ChangeSet) : ChangeSetMetadata :=
  mkChangeSetMetadata (chg_scope c) (chg_workspaceRevision c) (chg_sealedAt c)
    ((fun e => mkChangeMetadata (ce_Kind e) (ce_Path e) (ce_PreviousPath e) (digest_String (ce_BeforeDigest e))
                 (digest_String (ce_AfterDigest e)) (ce_Metadata e)) <$> chg_entries c).
Definition summaryMetadata (s : DerivedSummary) : SummaryMetadata :=
  mkSummaryMetadata (sum_Text s)
    ((fun c => mkCitationMetadata (ec_FirstCursor c) (ec_LastCursor c)
                 (if bool_decide (as_Reference (ec_Artifact c) = "") then None else Some (artifactMetadata (ec_Artifact c))))
       <$> sum_Citations s) (sum_Inferences s).

(** ** Validation *)
Abbreviation build_error code field := (NewError code "observation_bundle.build" field).
Abbreviation build_bad field := (build_error CodeInvalidArgument field).

Fixpoint required_loop (previous : option string) (values : list string) : result unit :=
  match values with
  | [] => Ok tt
  | value :: values =>
      _ ← check (negb (blank value)) (build_bad "required_coverage");
      _ ← check (negb (bool_decide (previous = Some value))) (build_bad "required_coverage");
      required_loop (Some value) values
  end.
Definition normalizedRequiredCoverage (values : list string) : result (list string) :=
  _ ← check (negb (bool_decide (values = []))) (build_bad "required_coverage");
  let result := sort_Strings values in
  _ ← required_loop None result;
  Ok result.

Definition nul : string := String NUL "".
Definition artifact_key (a : ArtifactReferenceSpec) : string :=
  as_Reference a +:+ nul +:+ digest_String (as_Digest a) +:+ nul +:+ as_Role a.
Definition cited_key (a : ArtifactReferenceSpec) : string := as_Reference a +:+ nul +:+ digest_String (as_Digest a).

Definition validateArtifacts (values : list ArtifactReferenceSpec) : result unit :=
  _ ← check (negb (bool_decide (values = []))) (build_bad "raw_artifacts");
  each_once artifact_key
    (fun i v => check (negb (bool_decide (as_Reference v = "") || digest_IsZero (as_Digest v)))
                  (build_bad (indexed "raw_artifacts" i)))
    (build_bad "raw_artifacts") (fun _ _ => Ok tt) values.

Definition cursor_in (first last cursor : N) : bool := negb ((cursor <? first)%N || (last <? cursor)%N).

Definition validateEvents (values : list EventEnvelope) (runID : uuidV7) (first last : N) : result unit :=
  _ ← check (match values with [] => false | _ => true end) (build_bad "normalized_events");
  each_once ev_EventID
    (fun i v =>
      _ ← check (negb (id_IsZero (ev_EventID v) || negb (bool_decide (ev_TargetRunID v = runID))))
            (build_error CodeConflict (indexed "normalized_events" i));
      check (cursor_in first last (ev_SourceCursor v)) (build_bad (indexed "normalized_events" i +:+ ".source_cursor")))
    (build_bad "normalized_events") (fun _ _ => Ok tt) values.

Definition validateMetrics (values : list MetricSampleSpec) (first last : N) : result unit :=
  res_each (fun i m =>
    _ ← check (negb (bool_decide (ms_Name m = ""))) (build_bad (indexed "metrics" i));
    check (cursor_in first last (ms_Cursor m)) (build_bad (indexed "metrics" i +:+ ".cursor"))) 0 values.

Definition validateIncidents (values : list uuidV7) (outcome : RunOutcome) : result unit :=
  _ ← check (negb (bool_decide (outcome = RunFailed) && bool_decide (values = []))) (build_bad "incident_ids");
  each_once id (fun _ v => check (negb (id_IsZero v)) (build_bad "incident_ids")) (build_bad "incident_ids")
    (fun _ _ => Ok tt) values.

(** The end of a cited range of cursors. *)
Definition citation_end (c : EvidenceCitation) : N :=
  if (ec_LastCursor c =? 0)%N then ec_FirstCursor c else ec_LastCursor c.
Definition validateSummary (summary : DerivedSummary) (artifacts : list ArtifactReferenceSpec) (first last : N) : result unit :=
  _ ← check (negb (bool_decide (sum_Text summary = "") || bool_decide (sum_Citations summary = []))) (build_bad "summary");
  res_each (fun i c =>
    _ ← check ((ec_FirstCursor c =? 0)%N ||
               negb ((ec_FirstCursor c <? first)%N || (last <? citation_end c)%N || (citation_end c <? ec_FirstCursor c)%N))
          (build_bad (indexed "summary.citations" i));
    check (bool_decide (as_Reference (ec_Artifact c) = "") || bool_decide (cited_key (ec_Artifact c) ∈ (cited_key <$> artifacts)))
      (build_error CodeConflict (indexed "summary.citations" i +:+ ".artifact"))) 0 (sum_Citations summary).

Section Build.
Context `{BundleText} `{SliceSort}.

Definition gapMetadataKey (g : GapMetadata) : string := default "" (gap_text g).
Definition gapKey (g : GapSpec) : string := gapMetadataKey (gapMetadata g).

Definition validateGaps (values : list GapSpec) (first last : N) : result unit :=
  each_once gapKey
    (fun i v =>
      _ ← check (negb (bool_decide (gs_Source v = "") || negb (GapKind_IsValid (gs_Kind v)))) (build_bad (indexed "gaps" i));
      _ ← check ((gs_FirstCursor v =? 0)%N || cursor_in first last (gs_FirstCursor v))
            (build_bad (indexed "gaps" i +:+ ".first_cursor"));
      check ((gs_LastCursor v =? 0)%N || cursor_in first last (gs_LastCursor v)) (build_bad (indexed "gaps" i +:+ ".last_cursor")))
    (build_bad "gaps") (fun _ _ => Ok tt) values.

(** A coverage record that shows the signal was observed, and one that shows
    how it was lost. *)
Definition lost_level (c : CollectorCoverageSpec) : bool :=
  bool_decide (cs_Level c = CoverageLevelNone) || bool_decide (cs_Level c = CoverageLevelUnknown).
Definition acceptable (c : CollectorCoverageSpec) : bool :=
  cs_Required c && (bool_decide (cs_Status c = CoverageAvailable) && negb (lost_level c)).
Definition failed_with_evidence (c : CollectorCoverageSpec) : bool :=
  cs_Required c && ((negb (bool_decide (cs_Status c = CoverageAvailable)) || lost_level c)
                    && (negb (bool_decide (cs_Gaps c = [])) || (0 <? cs_DroppedRecords c)%N)).

Definition validate_collectors (topGaps : list string) (values : list CollectorCoverageSpec) : result unit :=
  each_once cs_CollectorID
    (fun i v => check (negb (id_IsZero (cs_CollectorID v) || bool_decide (cs_SignalFamily v = "")))
                  (build_bad (indexed "coverage" i)))
    (build_bad "coverage")
    (fun i v => res_each (fun j g => check (bool_decide (gapKey g ∈ topGaps))
                                       (build_error CodeConflict (indexed (indexed "coverage" i +:+ ".gaps") j))) 0 (cs_Gaps v))
    values.

Definition validate_family (values : list CollectorCoverageSpec) (outcome : RunOutcome) (hasIncident : bool) (family : string)
    : result unit :=
  let items := filter (fun c => cs_SignalFamily c = family) values in
  _ ← check (negb (bool_decide (items = []))) (build_error CodeCapabilityUnavailable "coverage");
  _ ← check (negb (bool_decide (outcome = RunCompleted) && negb (existsb acceptable items)))
        (build_error CodeCapabilityUnavailable "coverage");
  check (negb (bool_decide (outcome = RunFailed) && negb (existsb acceptable items)
               && negb (existsb failed_with_evidence items && hasIncident)))
    (build_error CodeIntegrityViolation "coverage").

Definition validateCoverage (values : list CollectorCoverageSpec) (required : list string) (gaps : list GapSpec)
    (outcome : RunOutcome) (hasIncident : bool) : result unit :=
  _ ← check (negb (bool_decide (values = []))) (build_bad "coverage");
  _ ← validate_collectors (gapKey <$> gaps) values;
  res_each (fun _ => validate_family values outcome hasIncident) 0 required.

(** ** The payload *)
Definition sort_gaps (gaps : list GapMetadata) : list GapMetadata :=
  sort_Slice (fun l r => string_ltb (gapMetadataKey l) (gapMetadataKey r)) gaps.
Definition coverageMetadata (c : CollectorCoverageSpec) : CoverageMetadata :=
  mkCoverageMetadata (id_String prefix_collector (cs_CollectorID c)) (cs_SignalFamily c) (cs_Placement c) (cs_Level c)
    (cs_Status c) (cs_Required c) (cs_StartedAt c) (cs_EndedAt c) (cs_DroppedRecords c)
    (sort_gaps (gapMetadata <$> cs_Gaps c)).

(** [projectionDigest] *)
Definition projectionDigest (projected : option (list N)) : option string := digest_String ∘ NewDigest <$> projected.
Definition eventMetadata (e : EventEnvelope) : option EventMetadata :=
  mkEventMetadata (id_String prefix_event (ev_EventID e)) (ev_Kind e) (ev_Source e) (ev_SourceCursor e)
    <$> projectionDigest (event_projection e).
Definition metricMetadata (m : MetricSampleSpec) : option MetricMetadata :=
  mkMetricMetadata (id_String prefix_subject (ms_SubjectID m)) (ms_Name m) (ms_Cursor m) (ms_CollectedAt m)
    <$> projectionDigest (metric_projection m).

Definition artifact_sort_key (a : ArtifactMetadata) : string := am_Reference a +:+ am_Role a +:+ am_Digest a.
Definition event_less (l r : EventMetadata) : bool :=
  if (em_SourceCursor l =? em_SourceCursor r)%N then string_ltb (em_EventID l) (em_EventID r)
  else (em_SourceCursor l <? em_SourceCursor r)%N.
Definition coverage_sort_key (c : CoverageMetadata) : string := cm_SignalFamily c +:+ cm_CollectorID c.
Definition sort_artifacts (l : list ArtifactMetadata) : list ArtifactMetadata :=
  sort_Slice (fun l r => string_ltb (artifact_sort_key l) (artifact_sort_key r)) l.
Definition sort_events (l : list EventMetadata) : list EventMetadata := sort_Slice event_less l.
Definition sort_metrics (l : list MetricMetadata) : list MetricMetadata :=
  sort_Slice (fun l r => (mm_Cursor l <? mm_Cursor r)%N) l.
Definition sort_coverage (l : list CoverageMetadata) : list CoverageMetadata :=
  sort_Slice (fun l r => string_ltb (coverage_sort_key l) (coverage_sort_key r)) l.

Definition metadataPayload (request : FinalizeRequest) (required : list string) : option MetadataPayload :=
  let result := fz_Result request in
  events ← mapM eventMetadata (trr_NormalizedEvents result);
  metrics ← mapM metricMetadata (trr_Metrics result);
  Some (mkMetadataPayload (id_String prefix_bundle (fz_BundleID request)) (id_String prefix_targetRun (trr_RunID result))
    (id_String prefix_target (fz_TargetID request)) (fz_TargetGeneration request)
    (id_String prefix_agentWorkspace (fz_AgentWorkspaceID request)) (fz_AgentGeneration request) (trr_Outcome result)
    (trr_FirstCursor result) (trr_LastCursor result) required
    (sort_artifacts (artifactMetadata <$> trr_RawArtifacts result)) (sort_events events) (sort_metrics metrics)
    (sort_coverage (coverageMetadata <$> trr_Coverage result)) (sort_gaps (gapMetadata <$> trr_Gaps result))
    (changeSetMetadata (trr_TargetChanges result))
    (sort_Strings (id_String prefix_incident <$> trr_IncidentIDs result)) (summaryMetadata (trr_Summary result))
    (fz_CreatedAt request) (fz_FinalizedAt request)).

(** ** [build] *)
Definition bundle_spec (request : FinalizeRequest) : ObservationBundleSpec :=
  let result := fz_Result request in
  mkObservationBundleSpec (fz_BundleID request) (trr_RunID result) (fz_TargetID request) (fz_TargetGeneration request)
    (fz_AgentWorkspaceID request) (fz_AgentGeneration request) (trr_FirstCursor result) (trr_LastCursor result)
    (trr_RawArtifacts result) (trr_NormalizedEvents result) (trr_Metrics result) (trr_Coverage result) (trr_Gaps result)
    (trr_TargetChanges result) (trr_IncidentIDs result) (trr_Summary result) (fz_CreatedAt request).

Definition validate_request (request : FinalizeRequest) : result unit :=
  let result := fz_Result request in
  _ ← check (negb (id_IsZero (fz_BundleID request) || id_IsZero (fz_TargetID request)
                   || negb (TargetGeneration_IsValid (fz_TargetGeneration request)) || id_IsZero (fz_AgentWorkspaceID request)
                   || negb (AgentGeneration_IsValid (fz_AgentGeneration request)) || id_IsZero (trr_RunID result)))
        (build_bad "scope");
  _ ← check (RunOutcome_IsValid (trr_Outcome result)) (build_bad "outcome");
  _ ← check (negb (time_IsZero (fz_CreatedAt request) || time_IsZero (fz_FinalizedAt request)
                   || time_Before (fz_FinalizedAt request) (fz_CreatedAt request) || time_IsZero (trr_StoppedAt result)
                   || time_After (trr_StoppedAt result) (fz_FinalizedAt request))) (build_bad "time_range");
  check (negb ((trr_FirstCursor result =? 0)%N || (trr_LastCursor result <? trr_FirstCursor result)%N)) (build_bad "cursor_range").

Definition build (request : FinalizeRequest) : result (ObservationBundle * MetadataPayload) :=
  let result := fz_Result request in
  let first := trr_FirstCursor result in
  let last := trr_LastCursor result in
  _ ← validate_request request;
  required ← normalizedRequiredCoverage (fz_RequiredCoverage request);
  _ ← validateArtifacts (trr_RawArtifacts result);
  _ ← validateEvents (trr_NormalizedEvents result) (trr_RunID result) first last;
  _ ← validateMetrics (trr_Metrics result) first last;
  _ ← validateGaps (trr_Gaps result) first last;
  _ ← validateCoverage (trr_Coverage result) required (trr_Gaps result) (trr_Outcome result)
        (negb (bool_decide (trr_IncidentIDs result = [])));
  _ ← check (negb (negb (bool_decide (chg_scope (trr_TargetChanges result) = ChangeScopeTarget))
                   || negb (Revision_IsValid (chg_workspaceRevision (trr_TargetChanges result)))
                   || time_IsZero (chg_sealedAt (trr_TargetChanges result)))) (build_bad "target_changes");
  _ ← validateIncidents (trr_IncidentIDs result) (trr_Outcome result);
  _ ← validateSummary (trr_Summary result) (trr_RawArtifacts result) first last;
  bundle ← NewObservationBundle (bundle_spec request);
  bundle ← ObservationBundle_Seal bundle InitialRevision (fz_FinalizedAt request);
  payload ← from_option_err (build_error CodeInternal "metadata") (metadataPayload request required);
  Ok (bundle, payload).
End Build.
