(* ===== verification/BundleFacts.v ===== *)
(** * When evidence can be sealed

    The checks of [build] as one condition on the evidence of a run, and that
    the bundle's own constructor never rejects what passed them. *)
From S2P Require Import Prelude Errors Sha256 GoStrings Utf8Facts States Values Ids Evidence Observations BundleBuild.
Local Open Scope N_scope.

(** ** The condition *)
Definition initialised_artifact (a : ArtifactReferenceSpec) : Prop := as_Reference a <> "" /\ digest_IsZero (as_Digest a) = false.
Definition within (q : FinalizeRequest) (c : N) : Prop :=
  trr_FirstCursor (fz_Result q) <= c <= trr_LastCursor (fz_Result q).

Definition scoped (q : FinalizeRequest) : Prop :=
  id_IsZero (fz_BundleID q) = false /\ id_IsZero (fz_TargetID q) = false /\ 1 <= fz_TargetGeneration q /\
  id_IsZero (fz_AgentWorkspaceID q) = false /\ 1 <= fz_AgentGeneration q /\ id_IsZero (trr_RunID (fz_Result q)) = false.
Definition timed (q : FinalizeRequest) : Prop :=
  (fz_CreatedAt q <> 0 /\ fz_FinalizedAt q <> 0 /\ fz_CreatedAt q <= fz_FinalizedAt q /\
   trr_StoppedAt (fz_Result q) <> 0 /\ trr_StoppedAt (fz_Result q) <= fz_FinalizedAt q)%Z.

(** A required signal was observed, or its loss is on record and the run failed
    with an incident. *)
Definition accounted (q : FinalizeRequest) (family : string) : Prop :=
  let result := fz_Result q in
  exists c, c ∈ trr_Coverage result /\ cs_SignalFamily c = family /\
    (acceptable c = true \/
     (trr_Outcome result = RunFailed /\ trr_IncidentIDs result <> [] /\
      exists c', c' ∈ trr_Coverage result /\ cs_SignalFamily c' = family /\ failed_with_evidence c' = true)).

(** A citation lies in the range of the bundle and names one of its artifacts. *)
Definition cited (first last : N) (artifacts : list ArtifactReferenceSpec) (c : EvidenceCitation) : Prop :=
  (ec_FirstCursor c = 0 \/ first <= ec_FirstCursor c /\ ec_FirstCursor c <= citation_end c <= last) /\
  (as_Reference (ec_Artifact c) = "" \/ cited_key (ec_Artifact c) ∈ cited_key <$> artifacts).

Section Sealable.
Context `{BundleText} `{SliceSort}.

Record sealable (q : FinalizeRequest) : Prop := {
  ok_scope : scoped q;
  ok_outcome : trr_Outcome (fz_Result q) = RunCompleted \/ trr_Outcome (fz_Result q) = RunFailed;
  ok_times : timed q;
  ok_cursors : 1 <= trr_FirstCursor (fz_Result q) <= trr_LastCursor (fz_Result q);
  ok_required : fz_RequiredCoverage q <> [] /\ Forall (fun f => blank f = false) (fz_RequiredCoverage q) /\
    NoDup (fz_RequiredCoverage q);
  ok_artifacts : trr_RawArtifacts (fz_Result q) <> [] /\ Forall initialised_artifact (trr_RawArtifacts (fz_Result q)) /\
    NoDup (artifact_key <$> trr_RawArtifacts (fz_Result q));
  ok_events : trr_NormalizedEvents (fz_Result q) <> [] /\
    Forall (fun e => id_IsZero (ev_EventID e) = false /\ ev_TargetRunID e = trr_RunID (fz_Result q) /\ within q (ev_SourceCursor e))
      (trr_NormalizedEvents (fz_Result q)) /\
    NoDup (ev_EventID <$> trr_NormalizedEvents (fz_Result q));
  ok_metrics : Forall (fun m => ms_Name m <> "" /\ within q (ms_Cursor m)) (trr_Metrics (fz_Result q));
  ok_gaps : Forall (fun g => gs_Source g <> "" /\ GapKind_IsValid (gs_Kind g) = true /\
      (gs_FirstCursor g = 0 \/ within q (gs_FirstCursor g)) /\ (gs_LastCursor g = 0 \/ within q (gs_LastCursor g)))
      (trr_Gaps (fz_Result q)) /\ NoDup (gapKey <$> trr_Gaps (fz_Result q));
  ok_collectors : trr_Coverage (fz_Result q) <> [] /\
    Forall (fun c => id_IsZero (cs_CollectorID c) = false /\ cs_SignalFamily c <> "" /\
      Forall (fun g => gapKey g ∈ gapKey <$> trr_Gaps (fz_Result q)) (cs_Gaps c)) (trr_Coverage (fz_Result q)) /\
    NoDup (cs_CollectorID <$> trr_Coverage (fz_Result q));
  ok_coverage : Forall (accounted q) (fz_RequiredCoverage q);
  ok_changes : chg_scope (trr_TargetChanges (fz_Result q)) = ChangeScopeTarget /\
    1 <= chg_workspaceRevision (trr_TargetChanges (fz_Result q)) /\ chg_sealedAt (trr_TargetChanges (fz_Result q)) <> 0%Z;
  ok_incidents : (trr_Outcome (fz_Result q) = RunFailed -> trr_IncidentIDs (fz_Result q) <> []) /\
    Forall (fun i => id_IsZero i = false) (trr_IncidentIDs (fz_Result q)) /\ NoDup (trr_IncidentIDs (fz_Result q));
  ok_summary : sum_Text (trr_Summary (fz_Result q)) <> "" /\ sum_Citations (trr_Summary (fz_Result q)) <> [] /\
    Forall (cited (trr_FirstCursor (fz_Result q)) (trr_LastCursor (fz_Result q)) (trr_RawArtifacts (fz_Result q)))
      (sum_Citations (trr_Summary (fz_Result q)));
  ok_projected : Forall (fun e => is_Some (event_projection e)) (trr_NormalizedEvents (fz_Result q)) /\
    Forall (fun m => is_Some (metric_projection m)) (trr_Metrics (fz_Result q)) }.
End Sealable.

(** ** One lemma per check *)
Lemma cursor_in_ok first last c : cursor_in first last c = true <-> first <= c <= last.
Proof. unfold cursor_in. rewrite negb_true_iff, orb_false_iff, !N.ltb_ge. lia. Qed.

Lemma required_loop_ok previous l :
  StronglySorted string_le l -> (forall p, previous = Some p -> Forall (string_le p) l) ->
  required_loop previous l = Ok tt <-> Forall (fun f => blank f = false) l /\ NoDup l /\ (forall p, previous = Some p -> p ∉ l).
Proof.
  intros Sd. revert previous. induction Sd as [|f l Sd IH F]; intros previous B; cbn [required_loop].
  { split; [|done]. intros _. repeat split; [constructor|constructor|set_solver]. }
  rewrite !res_then_ok, !check_ok, IH by (intros p [= <-]; exact F). rewrite Forall_cons, NoDup_cons. to_prop.
  assert (K : (previous <> Some f /\ (f ∉ l) <-> (f ∉ l) /\ (forall p, previous = Some p -> p ∉ f :: l))).
  { split.
    - intros [N I]. split; [done|]. intros p ->. rewrite elem_of_cons. intros [->|J]; [done|].
      apply N. f_equal. pose proof (B p eq_refl) as Bp. apply Forall_cons in Bp as [Bp _].
      rewrite Forall_forall in F. apply (anti_symm string_le); auto.
    - intros [I J]. split; [|done]. intros ->. apply (J f); [done|by left]. }
  split.
  - intros (Bf & N & Fl & D & I). pose proof (proj1 K (conj N (I f eq_refl))). tauto.
  - intros ([Bf Fl] & [I D] & J). pose proof (proj2 K (conj I J)) as [N _]. split_and!; try done. by intros p [= <-].
Qed.

Lemma normalizedRequiredCoverage_ok values r :
  normalizedRequiredCoverage values = Ok r <->
  r = sort_Strings values /\ values <> [] /\ Forall (fun f => blank f = false) values /\ NoDup values.
Proof.
  unfold normalizedRequiredCoverage. cbv zeta. rewrite !res_then_ok, check_ok. to_prop.
  pose proof (merge_sort_Permutation string_le values) as P. fold (sort_Strings values) in P.
  rewrite required_loop_ok; [|apply (StronglySorted_merge_sort string_le)|done].
  assert (Forall (fun f => blank f = false) (sort_Strings values) <-> Forall (fun f => blank f = false) values) as -> by by rewrite P.
  assert (NoDup (sort_Strings values) <-> NoDup values) as -> by by rewrite P.
  split.
  - intros (? & (? & ? & _) & [= <-]). done.
  - intros (-> & ? & ? & ?). done.
Qed.

Lemma validateArtifacts_ok values :
  validateArtifacts values = Ok tt <-> values <> [] /\ Forall initialised_artifact values /\ NoDup (artifact_key <$> values).
Proof.
  unfold validateArtifacts. rewrite res_then_ok, check_ok, (each_once_ok _ _ _ _ initialised_artifact); [by to_prop|].
  intros i v. rewrite check_ok. unfold initialised_artifact. to_prop. tauto.
Qed.

Lemma validateEvents_ok values runID first last :
  validateEvents values runID first last = Ok tt <->
  values <> [] /\ Forall (fun e => id_IsZero (ev_EventID e) = false /\ ev_TargetRunID e = runID /\
                            first <= ev_SourceCursor e <= last) values /\ NoDup (ev_EventID <$> values).
Proof.
  unfold validateEvents. rewrite res_then_ok, check_ok.
  rewrite (each_once_ok _ _ _ _ (fun e => id_IsZero (ev_EventID e) = false /\ ev_TargetRunID e = runID /\
                            first <= ev_SourceCursor e <= last)); [destruct values; split; intros [? ?]; done|].
  intros i v. rewrite res_then_ok, !check_ok, cursor_in_ok. to_prop. tauto.
Qed.

Lemma validateMetrics_ok values first last :
  validateMetrics values first last = Ok tt <-> Forall (fun m => ms_Name m <> "" /\ first <= ms_Cursor m <= last) values.
Proof.
  unfold validateMetrics. apply res_each_forall. intros i v. rewrite res_then_ok, !check_ok, cursor_in_ok. by to_prop.
Qed.

Lemma validateIncidents_ok values outcome :
  validateIncidents values outcome = Ok tt <->
  (outcome = RunFailed -> values <> []) /\ Forall (fun i => id_IsZero i = false) values /\ NoDup values.
Proof.
  unfold validateIncidents. rewrite res_then_ok, check_ok, (each_once_ok _ _ _ _ (fun i => id_IsZero i = false)).
  - rewrite list_fmap_id. to_prop. destruct (decide (outcome = RunFailed)); tauto.
  - intros i v. rewrite check_ok. to_prop. tauto.
Qed.

Lemma validateSummary_ok summary artifacts first last :
  validateSummary summary artifacts first last = Ok tt <->
  sum_Text summary <> "" /\ sum_Citations summary <> [] /\ Forall (cited first last artifacts) (sum_Citations summary).
Proof.
  unfold validateSummary. rewrite res_then_ok, check_ok, (res_each_forall _ (cited first last artifacts)); [to_prop; tauto|].
  intros i c. rewrite res_then_ok, !check_ok. unfold cited. to_prop. tauto.
Qed.

Section Checks.
Context `{BundleText} `{SliceSort}.

Lemma validateGaps_ok values first last :
  validateGaps values first last = Ok tt <->
  Forall (fun g => gs_Source g <> "" /\ GapKind_IsValid (gs_Kind g) = true /\
    (gs_FirstCursor g = 0 \/ first <= gs_FirstCursor g <= last) /\ (gs_LastCursor g = 0 \/ first <= gs_LastCursor g <= last)) values /\
  NoDup (gapKey <$> values).
Proof.
  unfold validateGaps. apply each_once_ok. intros i g. rewrite !res_then_ok, !check_ok. to_prop. rewrite !cursor_in_ok. tauto.
Qed.

Lemma validate_collectors_ok topGaps values :
  validate_collectors topGaps values = Ok tt <->
  Forall (fun c => id_IsZero (cs_CollectorID c) = false /\ cs_SignalFamily c <> "" /\
            Forall (fun g => gapKey g ∈ topGaps) (cs_Gaps c)) values /\ NoDup (cs_CollectorID <$> values).
Proof.
  unfold validate_collectors. apply each_once_ok. intros i c. rewrite check_ok.
  rewrite (res_each_forall _ (fun g => gapKey g ∈ topGaps)); [to_prop; tauto|]. intros j g. rewrite check_ok. by to_prop.
Qed.

Lemma some_in_family P values family :
  existsb P (filter (fun c => cs_SignalFamily c = family) values) = true <->
  exists c, c ∈ values /\ cs_SignalFamily c = family /\ P c = true.
Proof.
  rewrite existsb_exists. split.
  - intros (c & [F I]%list_elem_of_In%list_elem_of_filter & Pc). by exists c.
  - intros (c & I & F & Pc). exists c. split; [|done]. apply list_elem_of_In, list_elem_of_filter. done.
Qed.

Lemma validate_family_ok q family :
  trr_Outcome (fz_Result q) = RunCompleted \/ trr_Outcome (fz_Result q) = RunFailed ->
  validate_family (trr_Coverage (fz_Result q)) (trr_Outcome (fz_Result q))
    (negb (bool_decide (trr_IncidentIDs (fz_Result q) = []))) family = Ok tt <-> accounted q family.
Proof.
  intros O. unfold validate_family, accounted. set (values := trr_Coverage (fz_Result q)).
  pose proof (some_in_family acceptable values family) as A. pose proof (some_in_family failed_with_evidence values family) as F.
  assert (I : filter (fun c => cs_SignalFamily c = family) values <> [] <-> exists c, c ∈ values /\ cs_SignalFamily c = family).
  { split.
    - destruct (filter _ values) as [|c l] eqn:E; [done|]. intros _. exists c.
      assert (c ∈ filter (fun c => cs_SignalFamily c = family) values) as [? ?]%list_elem_of_filter by (rewrite E; by left). done.
    - intros (c & J & Fc) E. eapply (not_elem_of_nil c). rewrite <-E. by apply list_elem_of_filter. }
  rewrite !res_then_ok, !check_ok. to_prop. rewrite I.
  destruct (existsb acceptable _), (existsb failed_with_evidence _); destruct O as [-> | ->]; naive_solver.
Qed.

Lemma bundle_coverage_ok q required :
  trr_Outcome (fz_Result q) = RunCompleted \/ trr_Outcome (fz_Result q) = RunFailed ->
  validateCoverage (trr_Coverage (fz_Result q)) required (trr_Gaps (fz_Result q)) (trr_Outcome (fz_Result q))
    (negb (bool_decide (trr_IncidentIDs (fz_Result q) = []))) = Ok tt <->
  (trr_Coverage (fz_Result q) <> [] /\
    Forall (fun c => id_IsZero (cs_CollectorID c) = false /\ cs_SignalFamily c <> "" /\
      Forall (fun g => gapKey g ∈ gapKey <$> trr_Gaps (fz_Result q)) (cs_Gaps c)) (trr_Coverage (fz_Result q)) /\
    NoDup (cs_CollectorID <$> trr_Coverage (fz_Result q))) /\ Forall (accounted q) required.
Proof.
  intros O. unfold validateCoverage. rewrite !res_then_ok, check_ok, validate_collectors_ok.
  rewrite (res_each_forall _ (accounted q)); [to_prop; tauto|]. intros _ family. by apply validate_family_ok.
Qed.

(** ** The bundle and its metadata *)
Definition sealed_bundle (q : FinalizeRequest) : ObservationBundle :=
  mkObservationBundle (bundle_spec q) ObservationBundleSealed 2 (fz_FinalizedAt q) (fz_FinalizedAt q).

Lemma res_each_all {A} (f : nat -> A -> result unit) (P : A -> Prop) i l :
  Forall P l -> (forall i v, P v -> f i v = Ok tt) -> res_each f i l = Ok tt.
Proof.
  intros F HP. revert i. induction F as [|v l Pv F IH]; intros i; cbn [res_each]; [done|]. apply res_then_ok. auto.
Qed.

(** The constructor of the domain accepts what the checks of [build] accept. *)
Lemma bundle_constructed q :
  sealable q ->
  NewObservationBundle (bundle_spec q) =
    Ok (mkObservationBundle (bundle_spec q) ObservationBundleBuilding InitialRevision (fz_CreatedAt q) 0%Z).
Proof.
  intros [(S1 & S2 & S3 & S4 & S5 & S6) O T C R (A1 & A2 & A3) (E1 & E2 & E3) Me G (K1 & K2 & K3) Cv (D1 & D2 & D3)
    (I1 & I2 & I3) (Y1 & Y2 & Y3) P].
  unfold NewObservationBundle, bundle_spec. cbn [obs_ID obs_TargetRunID obs_TargetID obs_TargetGeneration obs_AgentWorkspaceID
    obs_AgentGeneration obs_FirstCursor obs_LastCursor obs_RawArtifacts obs_NormalizedEvents obs_Metrics obs_Coverage
    obs_TargetChanges obs_Summary obs_IncidentIDs obs_CreatedAt].
  repeat (apply res_then_ok; split); try done; unfold requireID, requireTime, TextIsValid.
  all: rewrite ?check_ok; to_prop; try done.
  all: try by apply N.leb_le.
  all: try (eapply res_each_all; [eassumption|]; intros i v Pv; rewrite ?res_then_ok, !check_ok;
            unfold initialised_artifact in *; to_prop; tauto).
  - lia.
  - by destruct (trr_NormalizedEvents (fz_Result q)).
  - apply (each_once_ok _ _ _ _ (fun i => id_IsZero i = false)); [|by rewrite list_fmap_id].
    intros i v. rewrite check_ok. to_prop. tauto.
  - by destruct T.
Qed.

Lemma bundle_seals q :
  sealable q ->
  ObservationBundle_Seal (mkObservationBundle (bundle_spec q) ObservationBundleBuilding InitialRevision (fz_CreatedAt q) 0%Z)
    InitialRevision (fz_FinalizedAt q) = Ok (sealed_bundle q).
Proof.
  intros [_ _ T]. unfold ObservationBundle_Seal, ObservationBundle_Transition. cbn [ob_state ob_revision ob_updatedAt ob_spec].
  assert (nextModelRevision InitialRevision InitialRevision (fz_CreatedAt q) (fz_FinalizedAt q) = Ok 2) as ->; [|done].
  apply nextModelRevision_ok; [done|]. split; [done|]. split; [done|]. destruct T as (_ & ? & ? & _). done.
Qed.

Lemma metadata_projected q required :
  is_Some (metadataPayload q required) <->
  Forall (fun e => is_Some (event_projection e)) (trr_NormalizedEvents (fz_Result q)) /\
  Forall (fun m => is_Some (metric_projection m)) (trr_Metrics (fz_Result q)).
Proof.
  assert (E : forall l, is_Some (mapM eventMetadata l) <-> Forall (fun e => is_Some (event_projection e)) l).
  { intros l. rewrite mapM_is_Some. apply Forall_proper; [|done]. intros e. unfold eventMetadata, projectionDigest.
    cbv [compose]. by rewrite !fmap_is_Some. }
  assert (K : forall l, is_Some (mapM metricMetadata l) <-> Forall (fun e => is_Some (metric_projection e)) l).
  { intros l. rewrite mapM_is_Some. apply Forall_proper; [|done]. intros e. unfold metricMetadata, projectionDigest.
    cbv [compose]. by rewrite !fmap_is_Some. }
  unfold metadataPayload. rewrite <-E, <-K. cbv zeta. clear E K.
  destruct (mapM eventMetadata _), (mapM metricMetadata _); cbn; split; intros; destruct_and?; rewrite ?is_Some_alt in *; done.
Qed.

End Checks.

Lemma validate_request_ok q :
  validate_request q = Ok tt <->
  scoped q /\ (trr_Outcome (fz_Result q) = RunCompleted \/ trr_Outcome (fz_Result q) = RunFailed) /\ timed q /\
  1 <= trr_FirstCursor (fz_Result q) <= trr_LastCursor (fz_Result q).
Proof.
  unfold validate_request, scoped, timed. rewrite !res_then_ok, !check_ok.
  assert (O : RunOutcome_IsValid (trr_Outcome (fz_Result q)) = true <->
    trr_Outcome (fz_Result q) = RunCompleted \/ trr_Outcome (fz_Result q) = RunFailed).
  { destruct (trr_Outcome _); cbn; naive_solver. }
  rewrite O. unfold TargetGeneration_IsValid, AgentGeneration_IsValid, InitialTargetGeneration, InitialAgentGeneration.
  to_prop. intuition lia.
Qed.

Lemma validate_changes_ok c :
  check (negb (negb (bool_decide (chg_scope c = ChangeScopeTarget)) || negb (Revision_IsValid (chg_workspaceRevision c))
                   || time_IsZero (chg_sealedAt c))) (build_bad "target_changes") = Ok tt <->
  chg_scope c = ChangeScopeTarget /\ 1 <= chg_workspaceRevision c /\ chg_sealedAt c <> 0%Z.
Proof. rewrite check_ok. unfold Revision_IsValid, InitialRevision. to_prop. tauto. Qed.

Lemma build_seals `{BundleText} `{SliceSort} q : sealable q -> exists payload, build q = Ok (sealed_bundle q, payload).
Proof.
  assert (R : Forall (accounted q) (sort_Strings (fz_RequiredCoverage q)) <-> Forall (accounted q) (fz_RequiredCoverage q)).
  { unfold sort_Strings. by rewrite (merge_sort_Permutation string_le (fz_RequiredCoverage q)). }
  unfold build. cbv zeta.
  intros K. pose proof K as [S1 S2 S3 S4 S5 S6 S7 S8 S9 S10 S11 S12 S13 S14 S15].
  destruct (proj2 (metadata_projected q (sort_Strings (fz_RequiredCoverage q))) S15) as [payload P]. exists payload.
  apply res_then_ok. split; [by apply validate_request_ok|].
  apply res_bind_ok. exists (sort_Strings (fz_RequiredCoverage q)). split; [by apply normalizedRequiredCoverage_ok|].
  apply res_then_ok. split; [by apply validateArtifacts_ok|].
  apply res_then_ok. split; [by apply validateEvents_ok|].
  apply res_then_ok. split; [by apply validateMetrics_ok|].
  apply res_then_ok. split; [by apply validateGaps_ok|].
  apply res_then_ok. split; [by apply (bundle_coverage_ok q _ S2); split; [|apply R]|].
  apply res_then_ok. split; [by apply validate_changes_ok|].
  apply res_then_ok. split; [by apply validateIncidents_ok|].
  apply res_then_ok. split; [by apply validateSummary_ok|].
  rewrite bundle_constructed by done. change (Ok ?x ≫= ?f) with (f x). cbv beta.
  rewrite bundle_seals by done. change (Ok ?x ≫= ?f) with (f x). cbv beta. by rewrite P.
Qed.

Lemma build_sealable `{BundleText} `{SliceSort} q bundle payload :
  build q = Ok (bundle, payload) ->
  sealable q /\ bundle = sealed_bundle q /\ metadataPayload q (sort_Strings (fz_RequiredCoverage q)) = Some payload.
Proof.
  assert (R : Forall (accounted q) (sort_Strings (fz_RequiredCoverage q)) <-> Forall (accounted q) (fz_RequiredCoverage q)).
  { unfold sort_Strings. by rewrite (merge_sort_Permutation string_le (fz_RequiredCoverage q)). }
  unfold build. cbv zeta.
  rewrite res_then_ok, validate_request_ok. intros ((S1 & S2 & S3 & S4) & E).
  apply res_bind_ok in E as (required & Q & E). apply normalizedRequiredCoverage_ok in Q as (-> & S5).
  rewrite !res_then_ok, validateArtifacts_ok, validateEvents_ok, validateMetrics_ok, validateGaps_ok,
    (bundle_coverage_ok q _ S2), validate_changes_ok, validateIncidents_ok, validateSummary_ok, R in E.
  destruct E as (S6 & S7 & S8 & S9 & [S10 S11] & S12 & S13 & S14 & E).
  apply res_bind_ok in E as (built & B & E). apply res_bind_ok in E as (sealed & Se & E).
  apply res_bind_ok in E as (p & P & E). injection E as -> ->. apply from_option_err_ok in P.
  assert (K : sealable q) by (constructor; try done; by apply (metadata_projected q (sort_Strings (fz_RequiredCoverage q))); eexists).
  rewrite bundle_constructed in B by done. injection B as <-. rewrite bundle_seals in Se by done. by injection Se as <-.
Qed.

(** C33: [build] seals exactly the evidence that satisfies the conditions, and no
    error comes from the bundle's own constructor or from sealing it. *)
Theorem build_exact `{BundleText} `{SliceSort} q :
  (sealable q -> exists payload, build q = Ok (sealed_bundle q, payload)) /\
  (forall bundle payload, build q = Ok (bundle, payload) ->
     sealable q /\ bundle = sealed_bundle q /\
     metadataPayload q (sort_Strings (fz_RequiredCoverage q)) = Some payload).
Proof. split; [apply build_seals|apply build_sealable]. Qed.
