(* ===== verification/BundleStore.v ===== *)
(** * The bundle finalizer

    [internal/observationbundle/finalizer.go]: sealing one bundle per run in a
    directory of the file system.

    A directory ([safepath.Namespace]) maps names to entries; publishing a file
    is atomic (it is written aside and renamed without replacing) but its name
    survives a crash only once the directory is synced.  [BundleEnv] says which
    calls fail: a failing publication leaves the name absent, or present and not
    synced.  The gate makes [Finalize] one step at a time.

    The text of a payload and the strict decoder of stored metadata are
    parameters of [encoding/json]; the text of the metadata around the payload
    is written out. *)
From S2P Require Import Prelude Errors Sha256 GoStrings States Values Ids Evidence Observations BundleBuild.
(** ** Metadata on disk *)
Record Metadata := mkMetadata { md_SchemaVersion : N; md_ContentDigest : string; md_Bundle : MetadataPayload }.
Definition SchemaVersion : N := 1.

(** [json_string] is the JSON text of a string; "sha256:" and hexadecimal digits
    need no escaping.  The strict decoder rejects unknown fields and anything
    after the value. *)
Class MetadataText := {
  json_string : string -> list N;
  decode_metadata : list N -> option Metadata;
  json_string_digest : forall m,
    json_string (digest_String (sha256 m)) = 34%N :: bytes_of (digest_String (sha256 m)) ++ [34%N] }.

Definition json_key (name : string) : list N := 34%N :: bytes_of name ++ [34%N; 58%N].

(** ** Directories *)
Record Entry := mkEntry { en_Content : list N; en_Synced : bool }.
#[export] Instance Entry_eq_dec : EqDecision Entry.
Proof. solve_decision. Defined.
Abbreviation Directory := (gmap string Entry).
Record BundleDisk := mkBundleDisk { d_objects : Directory; d_runs : gmap string Directory; d_tick : nat }.
#[export] Instance : Settable BundleDisk := {| record_eta r := mkBundleDisk (d_objects r) (d_runs r) (d_tick r) |}.

(** What becomes of a publication: it is renamed and synced, fails before the
    rename, or fails after it. *)
Inductive publication := Published | NotPublished | PublishedUnsynced.
Class BundleEnv := {
  namespace_fails : nat -> bool;
  close_fails : nat -> bool;
  read_fails : nat -> bool;
  publication_at : nat -> publication;
  (** [ctx.Err()], as the code [RequireDeadline] reports it. *)
  context_error : nat -> option ErrorCode }.

Definition FM (A : Type) : Type := BundleDisk -> result A * BundleDisk.
#[export] Instance FM_ret : MRet FM := fun A a d => (Ok a, d).
#[export] Instance FM_bind : MBind FM := fun A B f m d =>
  match m d with (Ok a, d') => f a d' | (Err e, d') => (Err e, d') end.
Definition fm_lift {A} (r : result A) : FM A := fun d => (r, d).
Definition next_tick (d : BundleDisk) : BundleDisk := d <| d_tick := S (d_tick d) |>.

(** The two directories of a run and of objects. *)
Inductive namespace := Objects | Run (id : string).
Definition directory (n : namespace) (d : BundleDisk) : Directory :=
  match n with Objects => d_objects d | Run id => default ∅ (d_runs d !! id) end.
Definition put_directory (n : namespace) (files : Directory) (d : BundleDisk) : BundleDisk :=
  match n with
  | Objects => d <| d_objects := files |>
  | Run id => d <| d_runs := <[id := files]> (d_runs d) |>
  end.

(** [fsync] of a directory: every name in it survives a crash. *)
Definition sync_entries (files : Directory) : Directory := (fun e => mkEntry (en_Content e) true) <$> files.

(** The errors of [safepath] the code distinguishes. *)
Inductive path_error := PathConflict | PathOther.

Section Finalizer.
Context {BT : BundleText} {SS : SliceSort} {MT : MetadataText} {BE : BundleEnv}.

Definition openNamespace (failure : err) : FM unit := fun d =>
  (if namespace_fails (d_tick d) then Err failure else Ok tt, next_tick d).
Definition closeNamespace (failure : err) : FM unit := fun d =>
  (if close_fails (d_tick d) then Err failure else Ok tt, next_tick d).

(** [EnsureRegularAtomically] *)
Definition EnsureRegularAtomically (n : namespace) (name : string) (content : list N) (failure : path_error -> err) : FM unit := fun d =>
  match publication_at (d_tick d), directory n d !! name with
  | NotPublished, _ => (Err (failure PathOther), next_tick d)
  | _, Some existing =>
      (if bool_decide (en_Content existing = content) then Ok tt else Err (failure PathConflict), next_tick d)
  | Published, None =>
      (Ok tt, next_tick (put_directory n (sync_entries (<[name := mkEntry content true]> (directory n d))) d))
  | PublishedUnsynced, None =>
      (Err (failure PathOther), next_tick (put_directory n (<[name := mkEntry content false]> (directory n d)) d))
  end.

Definition finalize_error (code : ErrorCode) (field : string) : err := NewError code "observation_bundle.finalize" field.
Definition ensureImmutableFile (n : namespace) (name : string) (desired : list N) (field : string) : FM unit :=
  EnsureRegularAtomically n name desired (fun e =>
    match e with PathConflict => finalize_error CodeIntegrityViolation field | PathOther => finalize_error CodeUnavailable field end).
Definition ensureCommitMarker (n : namespace) (digest : string) : FM unit :=
  ensureImmutableFile n "committed" (bytes_of digest ++ [10%N]) "commit_marker".

(** [canonicalJSON] of the metadata around the text of its payload. *)
Definition metadata_bytes (version : N) (digest : string) (payload : list N) : list N :=
  123%N :: json_key "schema_version" ++ bytes_of (pretty version) ++ 44%N :: json_key "content_digest" ++ json_string digest ++
  44%N :: json_key "bundle" ++ payload ++ [125%N].
Definition metadata_text (m : Metadata) : option (list N) :=
  metadata_bytes (md_SchemaVersion m) (md_ContentDigest m) <$> payload_text (md_Bundle m).

Definition load_error (code : ErrorCode) (field : string) : err := NewError code "observation_bundle.load" field.
Definition check_metadata (encoded : list N) : result Metadata :=
  metadata ← from_option_err (load_error CodeIntegrityViolation "metadata") (decode_metadata encoded);
  _ ← check (negb (negb (md_SchemaVersion metadata =? SchemaVersion)%N || bool_decide (md_ContentDigest metadata = "")))
        (load_error CodeIntegrityViolation "metadata");
  _ ← check (bool_decide (metadata_text metadata = Some encoded)) (load_error CodeIntegrityViolation "metadata");
  _ ← check (bool_decide (digest_String ∘ NewDigest <$> payload_text (md_Bundle metadata) = Some (md_ContentDigest metadata)))
        (load_error CodeIntegrityViolation "content_digest");
  Ok metadata.

(** [loadMetadata]; [None] when there is no file. *)
Definition loadMetadata (n : namespace) (name : string) (maximum : nat) : FM (option Metadata) := fun d =>
  (if read_fails (d_tick d) then Err (load_error CodeUnavailable "metadata") else
   match directory n d !! name with
   | None => Ok None
   | Some e =>
       if (maximum <? length (en_Content e))%nat then Err (load_error CodeIntegrityViolation "metadata")
       else Some <$> check_metadata (en_Content e)
   end, next_tick d).

(** ** [Finalize] *)
Record SealedContent := mkSealedContent { sc_run : string; sc_name : string; sc_digest : list N; sc_size : nat }.
Record FinalizeResult := mkFinalizeResult {
  fr_Bundle : ObservationBundle; fr_Metadata : Metadata; fr_Content : SealedContent; fr_Created : bool }.

Definition contextActive (failure : ErrorCode -> err) : FM unit := fun d =>
  (match context_error (d_tick d) with Some code => Err (failure code) | None => Ok tt end, next_tick d).

(** [ports.RequireDeadline] *)
Definition RequireDeadline (deadline : bool) (operation : string) : FM unit :=
  _ ← fm_lift (check deadline (NewError CodeInvalidArgument operation "deadline"));
  contextActive (fun code => NewError code operation "context").

(** The metadata of a payload and its text. *)
Definition describe (payload : MetadataPayload) : result (Metadata * list N) :=
  payloadBytes ← from_option_err (finalize_error CodeInternal "metadata") (payload_text payload);
  let metadata := mkMetadata SchemaVersion (digest_String (NewDigest payloadBytes)) payload in
  encoded ← from_option_err (finalize_error CodeInternal "metadata") (metadata_text metadata);
  Ok (metadata, encoded).

Definition object_name (digest : list N) : string := TrimPrefix (digest_String digest) "sha256:" +:+ ".json".

(** The publication of a bundle for a run that has none. *)
Definition publish (bundle : ObservationBundle) (metadata : Metadata) (encoded : list N) (content : SealedContent)
    : FM FinalizeResult :=
  let run := Run (sc_run content) in
  _ ← contextActive (fun _ => finalize_error CodeDeadlineExceeded "context");
  _ ← openNamespace (finalize_error CodeIntegrityViolation "object");
  _ ← ensureImmutableFile Objects (object_name (sc_digest content)) encoded "object";
  _ ← closeNamespace (finalize_error CodeUnavailable "object");
  _ ← EnsureRegularAtomically run "sealed.json" encoded (fun e =>
        match e with
        | PathConflict => finalize_error CodeConflict "target_run_id"
        | PathOther => finalize_error CodeUnavailable "sealed_metadata"
        end);
  _ ← ensureCommitMarker run (digest_String (sc_digest content));
  mret (mkFinalizeResult bundle metadata content true).

Definition Finalize (deadline : bool) (request : FinalizeRequest) : FM FinalizeResult :=
  _ ← RequireDeadline deadline "observation_bundle.finalize";
  _ ← contextActive (fun _ => finalize_error CodeDeadlineExceeded "context");
  '(bundle, payload) ← fm_lift (build request);
  '(metadata, encoded) ← fm_lift (describe payload);
  let run := id_String prefix_targetRun (trr_RunID (fz_Result request)) in
  let content := mkSealedContent run "sealed.json" (NewDigest encoded) (length encoded) in
  _ ← openNamespace (finalize_error CodeIntegrityViolation "run_directory");
  found ← loadMetadata (Run run) "sealed.json" (length encoded);
  match found with
  | Some existing =>
      _ ← fm_lift (check (bool_decide (md_ContentDigest existing = md_ContentDigest metadata))
                     (finalize_error CodeConflict "target_run_id"));
      _ ← ensureCommitMarker (Run run) (digest_String (sc_digest content));
      mret (mkFinalizeResult bundle existing content false)
  | None => publish bundle metadata encoded content
  end.

(** [sealedContent.Open], with what is read of it. *)
Definition open_error (code : ErrorCode) : err := NewError code "observation_bundle.content.open" "content".
Definition readContent (s : SealedContent) : FM (list N) := fun d =>
  (match directory (Run (sc_run s)) d !! sc_name s with
   | Some e =>
       if read_fails (d_tick d) || close_fails (d_tick d) || negb (length (en_Content e) =? sc_size s)%nat
          || negb (bool_decide (NewDigest (en_Content e) = sc_digest s))
       then Err (open_error CodeIntegrityViolation) else Ok (en_Content e)
   | None => Err (open_error CodeIntegrityViolation)
   end, next_tick d).
Definition SealedContent_Open (s : SealedContent) : FM (list N) :=
  _ ← contextActive (fun _ => ErrText "context");
  _ ← openNamespace (open_error CodeUnavailable);
  readContent s.

(** [New]: the directory of objects without what an interrupted publication
    left aside.  (No entry of [runs] itself is a file.) *)
Definition staged (name : string) : bool := HasPrefix name ".staging-" || HasPrefix name ".world-ns-".
Definition cleanupNamespaceStages : FM unit := fun d =>
  (Ok tt, d <| d_objects := filter (fun e => staged e.1 = false) (d_objects d) |>).
Definition Finalizer_New (root : string) : FM unit :=
  let bad code := NewError code "observation_bundle_finalizer.new" in
  _ ← fm_lift (check (negb (blank root)) (bad CodeInvalidArgument "root"));
  _ ← openNamespace (bad CodeIntegrityViolation "objects");
  _ ← cleanupNamespaceStages;
  _ ← closeNamespace (bad CodeIntegrityViolation "objects");
  _ ← openNamespace (bad CodeIntegrityViolation "runs");
  closeNamespace (bad CodeIntegrityViolation "runs").
End Finalizer.
