(* ===== verification/BundleSafety.v ===== *)
(** * One bundle per run

    All runs of a finalizer: any requests, failing calls and crashes, from an
    empty directory. *)
From S2P Require Import Prelude Errors Sha256 GoStrings Utf8Facts States Values Ids Evidence Observations BundleBuild BundleFacts.
From S2P Require Import BundleStore.
Section Safety.
Context {BT : BundleText} {SS : SliceSort} {MT : MetadataText} {BE : BundleEnv}.

(** ** What the operations do to the directories *)
Lemma FM_bind_inv {A B} (m : FM A) (f : A -> FM B) d r d' :
  (m ≫= f) d = (r, d') ->
  (exists e, r = Err e /\ m d = (Err e, d')) \/ (exists a d1, m d = (Ok a, d1) /\ f a d1 = (r, d')).
Proof. cbv [mbind FM_bind]. destruct (m d) as [[a|e] d1]; [right; eauto|intros [= <- <-]; left; eauto]. Qed.

(** Nothing is lost or changed, what is added satisfies [P]. *)
Definition grows (P : string -> list N -> Prop) (files files' : Directory) : Prop :=
  forall name, match files !! name, files' !! name with
               | Some e, Some e' => en_Content e' = en_Content e /\ (en_Synced e = true -> en_Synced e' = true)
               | None, Some e' => P name (en_Content e')
               | Some _, None => False
               | None, None => True
               end.

Lemma grows_refl P files : grows P files files.
Proof. intros name. by destruct (files !! name). Qed.
Lemma grows_trans P a b c : grows P a b -> grows P b c -> grows P a c.
Proof.
  intros A B name. specialize (A name). specialize (B name).
  destruct (a !! name), (b !! name), (c !! name); try done; [|by destruct B as [-> _]].
  destruct A as [A1 A2], B as [B1 B2]. split; [congruence|auto].
Qed.
Lemma grows_impl (P Q : string -> list N -> Prop) a b : (forall name c, P name c -> Q name c) -> grows P a b -> grows Q a b.
Proof. intros I G name. specialize (G name). destruct (a !! name), (b !! name); auto. Qed.
Lemma grows_sync P files : grows P files (sync_entries files).
Proof. intros name. unfold sync_entries. rewrite lookup_fmap. by destruct (files !! name). Qed.
Lemma grows_insert (P : string -> list N -> Prop) files name e :
  files !! name = None -> P name (en_Content e) -> grows P files (<[name := e]> files).
Proof.
  intros A HP other. destruct (decide (name = other)) as [<-|N]; [by rewrite A, lookup_insert_eq|].
  rewrite lookup_insert_ne by done. by destruct (files !! other).
Qed.
Lemma grows_content P files files' name e :
  grows P files files' -> files !! name = Some e -> exists e', files' !! name = Some e' /\ en_Content e' = en_Content e.
Proof. intros G L. specialize (G name). rewrite L in G. destruct (files' !! name) as [e'|]; [|done]. exists e'. naive_solver. Qed.

Lemma directory_put_same n files d : directory n (put_directory n files d) = files.
Proof. destruct n; cbn; [done|]. by rewrite lookup_insert_eq. Qed.
Lemma directory_put_other n n' files d : n <> n' -> directory n' (put_directory n files d) = directory n' d.
Proof. destruct n, n'; cbn; try done. intros N. by rewrite lookup_insert_ne by congruence. Qed.
Lemma directory_tick n d : directory n (next_tick d) = directory n d.
Proof. by destruct n. Qed.

Lemma Ensure_grows n name content failure d r d' :
  EnsureRegularAtomically n name content failure d = (r, d') ->
  grows (fun x c => x = name /\ c = content) (directory n d) (directory n d') /\
  (forall n', n <> n' -> directory n' d' = directory n' d) /\
  (r = Ok tt -> exists e, directory n d' !! name = Some e /\ en_Content e = content /\
     (directory n d !! name = None -> en_Synced e = true)).
Proof.
  unfold EnsureRegularAtomically. intros E.
  destruct (publication_at (d_tick d)), (directory n d !! name) as [e|] eqn:L; injection E as <- <-; rewrite ?directory_tick.
  all: try (split; [apply grows_refl|]; split; [intros; by rewrite directory_tick|]).
  all: try (case_bool_decide; [|done]; intros _; exists e; done).
  all: try done.
  all: rewrite directory_put_same; split; [|split; [intros n' N; rewrite directory_tick; by apply directory_put_other|]].
  - apply (grows_trans _ _ (<[name := mkEntry content true]> (directory n d))); [by apply grows_insert|apply grows_sync].
  - intros _. unfold sync_entries. rewrite lookup_fmap, lookup_insert_eq. by eexists.
  - by apply grows_insert.
  - done.
Qed.

(** ** [Finalize] *)
Definition run_of (q : FinalizeRequest) : string := id_String prefix_targetRun (trr_RunID (fz_Result q)).
Definition marker (encoded : list N) : list N := bytes_of (digest_String (NewDigest encoded)) ++ [10%N].
(** The metadata of a request and its text. *)
Definition described (q : FinalizeRequest) (m : Metadata) (encoded : list N) : Prop :=
  exists bundle payload, build q = Ok (bundle, payload) /\ describe payload = Ok (m, encoded).
Definition written (q : FinalizeRequest) (run name : string) (content : list N) : Prop :=
  run = run_of q /\ exists m encoded, described q m encoded /\
    (name = "sealed.json" /\ content = encoded \/ name = "committed" /\ content = marker encoded).

Lemma described_det q m encoded m' encoded' : described q m encoded -> described q m' encoded' -> m = m' /\ encoded = encoded'.
Proof. intros (b & p & B & D) (b' & p' & B' & D'). rewrite B in B'. injection B' as <- <-. rewrite D in D'. by injection D' as <- <-. Qed.

Definition same_directories (d d' : BundleDisk) : Prop := forall n, directory n d' = directory n d.
Definition step_grows (q : FinalizeRequest) (d d' : BundleDisk) : Prop :=
  forall id, grows (written q id) (directory (Run id) d) (directory (Run id) d').

Lemma same_step_grows q d d' : same_directories d d' -> step_grows q d d'.
Proof. intros E id. rewrite (E (Run id)). apply grows_refl. Qed.
Lemma step_grows_trans q a b c : step_grows q a b -> step_grows q b c -> step_grows q a c.
Proof. intros A B id. by eapply grows_trans. Qed.
Lemma same_trans a b c : same_directories a b -> same_directories b c -> same_directories a c.
Proof. intros A B n. by rewrite B. Qed.

Lemma openNamespace_same e d r d' : openNamespace e d = (r, d') -> same_directories d d'.
Proof. unfold openNamespace. intros [= <- <-] n. apply directory_tick. Qed.
Lemma closeNamespace_same e d r d' : closeNamespace e d = (r, d') -> same_directories d d'.
Proof. unfold closeNamespace. intros [= <- <-] n. apply directory_tick. Qed.
Lemma contextActive_same e d r d' : contextActive e d = (r, d') -> same_directories d d'.
Proof. unfold contextActive. intros [= <- <-] n. apply directory_tick. Qed.
Lemma fm_lift_same {A} (x : result A) d r d' : fm_lift x d = (r, d') -> d' = d /\ r = x.
Proof. unfold fm_lift. by intros [= <- <-]. Qed.
Lemma RequireDeadline_same deadline op d r d' : RequireDeadline deadline op d = (r, d') -> same_directories d d'.
Proof.
  unfold RequireDeadline. intros [(e & -> & E)|(u & d1 & E & K)]%FM_bind_inv; apply fm_lift_same in E as [-> _]; [done|].
  by eapply contextActive_same.
Qed.
Lemma loadMetadata_same n name maximum d r d' :
  loadMetadata n name maximum d = (r, d') ->
  same_directories d d' /\
  (r = Ok None -> directory n d !! name = None) /\
  (forall m, r = Ok (Some m) -> exists e, directory n d !! name = Some e /\ check_metadata (en_Content e) = Ok m).
Proof.
  unfold loadMetadata. intros [= <- <-]. split; [intros n'; apply directory_tick|].
  destruct (read_fails _); [done|]. destruct (directory n d !! name) as [e|]; [|done].
  destruct (_ <? _)%nat; [done|]. split; [by destruct (check_metadata _)|]. intros m K. exists e. split; [done|].
  destruct (check_metadata _); [by injection K as ->|done].
Qed.

Lemma marker_step q m encoded d r d' :
  described q m encoded -> ensureCommitMarker (Run (run_of q)) (digest_String (NewDigest encoded)) d = (r, d') ->
  step_grows q d d' /\
  (r = Ok tt -> exists e, directory (Run (run_of q)) d' !! "committed" = Some e /\ en_Content e = marker encoded).
Proof.
  intros D E. apply Ensure_grows in E as (G & F & K). split.
  - intros id. destruct (decide (id = run_of q)) as [->|N]; [|rewrite F by congruence; apply grows_refl].
    eapply grows_impl; [|exact G]. intros x c [-> ->]. split; [done|]. exists m, encoded. auto.
  - intros R. destruct (K R) as (e & L & C & _). by exists e.
Qed.

Lemma published_ok bundle q m encoded d r d' :
  described q m encoded ->
  publish bundle m encoded (mkSealedContent (run_of q) "sealed.json" (NewDigest encoded) (length encoded)) d = (r, d') ->
  step_grows q d d' /\
  forall res, r = Ok res -> fr_Bundle res = bundle /\ fr_Metadata res = m /\ fr_Created res = true /\
    (directory (Run (run_of q)) d !! "sealed.json" = None ->
       directory (Run (run_of q)) d' !! "sealed.json" = Some (mkEntry encoded true)) /\
    exists e, directory (Run (run_of q)) d' !! "committed" = Some e /\ en_Content e = marker encoded.
Proof.
  intros D E. unfold publish in E. cbn [sc_run sc_digest] in E.
  apply FM_bind_inv in E as [(e & -> & E)|(u & d1 & S1 & E)]; [by split; [eapply same_step_grows, contextActive_same|]|].
  apply contextActive_same in S1.
  apply FM_bind_inv in E as [(e & -> & E)|(u2 & d2 & S2 & E)];
    [split; [|done]; apply same_step_grows; eapply same_trans; [exact S1|by eapply openNamespace_same]|].
  apply openNamespace_same in S2. pose proof (same_trans _ _ _ S1 S2) as S. clear S1 S2.
  assert (O : forall x d3, ensureImmutableFile Objects (object_name (NewDigest encoded)) encoded "object" d2 = (x, d3) ->
    forall id, directory (Run id) d3 = directory (Run id) d).
  { intros x d3 K id. apply Ensure_grows in K as (_ & F & _). rewrite F by done. apply S. }
  assert (Q : forall d3, (forall id, directory (Run id) d3 = directory (Run id) d) -> step_grows q d d3).
  { intros d3 K id. rewrite K. apply grows_refl. }
  apply FM_bind_inv in E as [(e & -> & E)|(u3 & d3 & K3 & E)]; [split; [|done]; eapply Q, O; eassumption|].
  specialize (O _ _ K3). clear K3.
  apply FM_bind_inv in E as [(e & -> & E)|(u4 & d4 & S4 & E)];
    [split; [|done]; apply Q; intros id; apply closeNamespace_same in E; by rewrite E|].
  apply closeNamespace_same in S4.
  assert (O4 : forall id, directory (Run id) d4 = directory (Run id) d) by (intros id; by rewrite S4). clear O S4.
  assert (G : forall x d5 failure, EnsureRegularAtomically (Run (run_of q)) "sealed.json" encoded failure d4 = (x, d5) -> step_grows q d d5).
  { intros x d5 failure K id. apply Ensure_grows in K as (G & F & _). rewrite <-O4.
    destruct (decide (id = run_of q)) as [->|N]; [|rewrite F by congruence; apply grows_refl].
    eapply grows_impl; [|exact G]. intros y c [-> ->]. split; [done|]. exists m, encoded. auto. }
  apply FM_bind_inv in E as [(e & -> & E)|(u5 & d5 & K5 & E)]; [by split; [eapply G|]|].
  pose proof (G _ _ _ K5) as G5. apply Ensure_grows in K5 as (_ & _ & K5). destruct u5. specialize (K5 eq_refl) as (e5 & L5 & C5 & Y5).
  apply FM_bind_inv in E as [(e & -> & E)|(u6 & d6 & K6 & E)].
  { split; [|done]. eapply step_grows_trans; [exact G5|]. by eapply marker_step in E as [? _]. }
  destruct u6. eapply marker_step in K6 as [G6 K6]; [|exact D]. injection E as <- <-.
  split; [by eapply step_grows_trans|]. intros res [= <-]. split; [done|]. split; [done|]. split; [done|]. split; [|by apply K6].
  intros A. rewrite <-O4 in A. specialize (Y5 A). pose proof (G6 (run_of q) "sealed.json") as P. rewrite L5 in P.
  destruct (directory (Run (run_of q)) d6 !! "sealed.json") as [[c b]|]; [|done]. cbn in P. destruct P as [-> P].
  by rewrite C5, P.
Qed.

Lemma Finalize_ok deadline q d r d' :
  Finalize deadline q d = (r, d') ->
  step_grows q d d' /\
  forall res, r = Ok res -> fr_Bundle res = sealed_bundle q /\ exists m encoded, described q m encoded /\
    fr_Content res = mkSealedContent (run_of q) "sealed.json" (NewDigest encoded) (length encoded) /\
    (exists e, directory (Run (run_of q)) d' !! "committed" = Some e /\ en_Content e = marker encoded) /\
    if fr_Created res
    then fr_Metadata res = m /\ directory (Run (run_of q)) d !! "sealed.json" = None /\
         directory (Run (run_of q)) d' !! "sealed.json" = Some (mkEntry encoded true)
    else exists e, directory (Run (run_of q)) d !! "sealed.json" = Some e /\
           check_metadata (en_Content e) = Ok (fr_Metadata res) /\ md_ContentDigest (fr_Metadata res) = md_ContentDigest m.
Proof.
  unfold Finalize. intros E.
  apply FM_bind_inv in E as [(e & -> & E)|(u & d1 & S1 & E)]; [by split; [eapply same_step_grows, RequireDeadline_same|]|].
  apply RequireDeadline_same in S1.
  apply FM_bind_inv in E as [(e & -> & E)|(u2 & d2 & S2 & E)];
    [split; [|done]; apply same_step_grows; eapply same_trans; [exact S1|by eapply contextActive_same]|].
  apply contextActive_same in S2. pose proof (same_trans _ _ _ S1 S2) as S. clear S1 S2.
  apply FM_bind_inv in E as [(e & -> & E)|([bundle payload] & d3 & B & E)]; apply fm_lift_same in E as [-> E] || apply fm_lift_same in B as [-> B];
    [by split; [apply same_step_grows|]|]. symmetry in B.
  apply FM_bind_inv in E as [(e & -> & E)|([m encoded] & d4 & D & E)]; apply fm_lift_same in E as [-> E] || apply fm_lift_same in D as [-> D];
    [by split; [apply same_step_grows|]|]. symmetry in D.
  assert (Q : described q m encoded) by (by exists bundle, payload). apply build_sealable in B as (_ & B & _). clear D.
  apply FM_bind_inv in E as [(e & -> & E)|(u5 & d5 & S5 & E)];
    [split; [|done]; apply same_step_grows; eapply same_trans; [exact S|by eapply openNamespace_same]|].
  apply openNamespace_same in S5. pose proof (same_trans _ _ _ S S5) as S0. clear S S5.
  apply FM_bind_inv in E as [(e & -> & E)|(found & d6 & S6 & E)];
    [split; [|done]; apply same_step_grows; eapply same_trans; [exact S0|by eapply loadMetadata_same]|].
  apply loadMetadata_same in S6 as (S6 & None6 & Some6). pose proof (same_trans _ _ _ S0 S6) as S.
  fold (run_of q) in *. rewrite (S0 (Run (run_of q))) in None6, Some6.
  destruct found as [existing|]; cycle 1.
  { destruct (published_ok _ _ _ _ _ _ _ Q E) as [G K]. split.
    - eapply step_grows_trans; [by apply same_step_grows|exact G].
    - intros res R. destruct (K res R) as (Bu & M & Cr & Se & Co). rewrite (S (Run (run_of q))) in Se.
      split; [by rewrite Bu|]. exists m, encoded. split; [done|]. split.
      { unfold publish in E. subst r. clear -E.
        repeat (apply FM_bind_inv in E as [(? & ? & ?)|(? & ? & _ & E)]; [done|]). by injection E as <- _. }
      split; [done|]. rewrite Cr. auto. }
  destruct (Some6 existing eq_refl) as (e & L & C). clear None6 Some6.
  apply FM_bind_inv in E as [(e' & -> & E)|(u7 & d7 & K7 & E)]; apply fm_lift_same in E as [-> E] || apply fm_lift_same in K7 as [-> K7];
    [by split; [apply same_step_grows|]|].
  symmetry in K7. destruct u7. apply check_ok in K7. apply bool_decide_eq_true in K7.
  apply FM_bind_inv in E as [(e' & -> & E)|(u8 & d8 & K8 & E)].
  { split; [|done]. eapply step_grows_trans; [by apply same_step_grows|]. by eapply marker_step in E as [? _]. }
  destruct u8. eapply marker_step in K8 as [G8 K8]; [|exact Q]. injection E as <- <-.
  split; [eapply step_grows_trans; [by apply same_step_grows|exact G8]|].
  intros res [= <-]. split; [done|]. exists m, encoded. split; [done|]. split; [done|]. split; [by apply K8|]. cbn. by exists e.
Qed.

(** ** The text of metadata *)
Lemma digest_text_delimits m m' x y :
  json_string (digest_String (sha256 m)) ++ x = json_string (digest_String (sha256 m')) ++ y ->
  digest_String (sha256 m) = digest_String (sha256 m') /\ x = y.
Proof.
  rewrite !json_string_digest. rewrite <-!app_comm_cons, <-!app_assoc. intros E. injection E as E.
  unfold digest_String in *. destruct (digest_IsZero (sha256 m)), (digest_IsZero (sha256 m')).
  - change (bytes_of "") with (@nil N) in E. by injection E as ->.
  - exfalso. by destruct (hex_encode (sha256 m')).
  - exfalso. by destruct (hex_encode (sha256 m)).
  - apply app_inj_1 in E as [E K]; [|rewrite !bytes_of_length, !append_length, !hex_encode_length, !sha256_length; done].
    apply bytes_of_inj in E. injection K as ->. by rewrite E.
Qed.

Lemma metadata_bytes_inj p p' :
  metadata_bytes SchemaVersion (digest_String (sha256 p)) p = metadata_bytes SchemaVersion (digest_String (sha256 p')) p' ->
  digest_String (sha256 p) = digest_String (sha256 p').
Proof.
  unfold metadata_bytes. intros E. injection E as E. repeat (apply app_inv_head in E || injection E as E).
  by apply digest_text_delimits in E as [E _].
Qed.

Lemma digest_String_inj m m' : digest_String (sha256 m) = digest_String (sha256 m') -> sha256 m = sha256 m'.
Proof.
  unfold digest_String. destruct (digest_IsZero (sha256 m)) eqn:Z, (digest_IsZero (sha256 m')) eqn:Z'; intros E; try done.
  - apply bool_decide_eq_true in Z, Z'. congruence.
  - apply append_inv_head in E. apply hex_encode_inj in E; [done|apply sha256_bound..].
Qed.

(** Two requests whose payloads are different texts with the same digest. *)
Definition payload_collision (q q' : FinalizeRequest) : Prop :=
  exists bundle payload text bundle' payload' text',
    build q = Ok (bundle, payload) /\ payload_text payload = Some text /\
    build q' = Ok (bundle', payload') /\ payload_text payload' = Some text' /\ sha256_collision text text'.

Lemma described_text q m encoded :
  described q m encoded -> exists bundle payload text,
    build q = Ok (bundle, payload) /\ payload_text payload = Some text /\
    m = mkMetadata SchemaVersion (digest_String (sha256 text)) payload /\
    encoded = metadata_bytes SchemaVersion (digest_String (sha256 text)) text.
Proof.
  intros (bundle & payload & B & D). exists bundle, payload. unfold describe in D.
  apply res_bind_ok in D as (text & T & D). apply from_option_err_ok in T. apply res_bind_ok in D as (e & M & D).
  apply from_option_err_ok in M. injection D as <- <-. exists text. unfold metadata_text in M. cbn in M. rewrite T in M.
  by injection M as <-.
Qed.

Lemma check_metadata_text encoded m :
  check_metadata encoded = Ok m -> exists text,
    payload_text (md_Bundle m) = Some text /\ md_ContentDigest m = digest_String (sha256 text) /\
    encoded = metadata_bytes SchemaVersion (digest_String (sha256 text)) text /\ metadata_text m = Some encoded.
Proof.
  unfold check_metadata. intros C. apply res_bind_ok in C as (m' & _ & C). rewrite !res_then_ok, !check_ok in C.
  destruct C as (V & T & D & C). injection C as <-. to_prop. pose proof T as T'. unfold metadata_text in T.
  destruct (payload_text (md_Bundle m')) as [text|]; [|done]. cbn in T, D. injection T as T. injection D as D.
  exists text. unfold NewDigest in D. destruct V as [V _]. rewrite V, <-D in T. auto.
Qed.

Lemma same_digest q m encoded q' m' encoded' existing :
  described q m encoded -> described q' m' encoded' -> check_metadata encoded' = Ok existing ->
  md_ContentDigest existing = md_ContentDigest m -> encoded' = encoded \/ payload_collision q q'.
Proof.
  intros (b & p & t & B & T & -> & ->)%described_text (b' & p' & t' & B' & T' & -> & ->)%described_text
    (x & _ & D & E & _)%check_metadata_text K. cbn in K. rewrite D in K. apply metadata_bytes_inj in E.
  rewrite K in E. apply digest_String_inj in E. destruct (decide (t = t')) as [->|N]; [by left|right].
  exists b, p, t, b', p', t'. done.
Qed.

(** ** Runs of a finalizer *)
(** A crash may lose names that were not synced. *)
Definition survives (files files' : Directory) : Prop :=
  forall name, files' !! name = files !! name \/
    files' !! name = None /\ exists e, files !! name = Some e /\ en_Synced e = false.
Definition crash (d d' : BundleDisk) : Prop := forall n, survives (directory n d) (directory n d').

(** The directory, the results so far and the requests so far. *)
Inductive runs_of (crashes : bool) : BundleDisk -> list (FinalizeRequest * FinalizeResult) -> list FinalizeRequest -> Prop :=
| runs_start tick : runs_of crashes (mkBundleDisk ∅ ∅ tick) [] []
| runs_finalize d done asked deadline q r d' :
    runs_of crashes d done asked -> Finalize deadline q d = (r, d') ->
    runs_of crashes d' (match r with Ok res => (q, res) :: done | Err _ => done end) (q :: asked)
| runs_open d done asked content r d' :
    runs_of crashes d done asked -> SealedContent_Open content d = (r, d') -> runs_of crashes d' done asked
| runs_restart d done asked root r d' :
    runs_of crashes d done asked -> Finalizer_New root d = (r, d') -> runs_of crashes d' done asked
| runs_crash d done asked d' :
    runs_of crashes d done asked -> crashes = true -> crash d d' -> runs_of crashes d' done asked.

(** What holds of a result in a directory. *)
Definition kept (crashes : bool) (d : BundleDisk) (q : FinalizeRequest) (r : FinalizeResult) : Prop :=
  exists m encoded, described q m encoded /\
    fr_Content r = mkSealedContent (run_of q) "sealed.json" (NewDigest encoded) (length encoded) /\
    (crashes = false -> exists e, directory (Run (run_of q)) d !! "committed" = Some e /\ en_Content e = marker encoded) /\
    if fr_Created r
    then fr_Metadata r = m /\ directory (Run (run_of q)) d !! "sealed.json" = Some (mkEntry encoded true)
    else crashes = false -> exists e, directory (Run (run_of q)) d !! "sealed.json" = Some e /\
           check_metadata (en_Content e) = Ok (fr_Metadata r) /\ md_ContentDigest (fr_Metadata r) = md_ContentDigest m.

Record sound (crashes : bool) (d : BundleDisk) (done : list (FinalizeRequest * FinalizeResult)) (asked : list FinalizeRequest) : Prop := {
  sound_files : forall id name e, directory (Run id) d !! name = Some e -> exists q, q ∈ asked /\ written q id name (en_Content e);
  sound_done : forall q r, (q, r) ∈ done -> kept crashes d q r }.

Lemma kept_grows crashes q' q r d d' : step_grows q' d d' -> kept crashes d q r -> kept crashes d' q r.
Proof.
  intros G (m & encoded & D & C & M & K). exists m, encoded. split; [done|]. split; [done|].
  specialize (G (run_of q)). split.
  { intros F. destruct (M F) as (e & L & X). eapply grows_content in L as (e' & L' & X'); [|exact G]. exists e'. by rewrite X'. }
  destruct (fr_Created r).
  - destruct K as [-> L]. split; [done|]. specialize (G "sealed.json"). rewrite L in G.
    destruct (_ !! "sealed.json") as [[c b]|]; [|done]. destruct G as [X Y]. cbn in X, Y. by rewrite X, Y.
  - intros F. destruct (K F) as (e & L & X). eapply grows_content in L as (e' & L' & X'); [|exact G]. exists e'. by rewrite X'.
Qed.

Lemma kept_same crashes q r d d' :
  (forall id, directory (Run id) d' = directory (Run id) d) -> kept crashes d q r -> kept crashes d' q r.
Proof. intros E. apply (kept_grows crashes q). intros id. rewrite E. apply grows_refl. Qed.

Lemma kept_crash q r d d' : crash d d' -> kept true d q r -> kept true d' q r.
Proof.
  intros X (m & encoded & D & C & M & K). exists m, encoded. split; [done|]. split; [done|]. split; [done|].
  destruct (fr_Created r); [|done]. destruct K as [-> L]. split; [done|].
  destruct (X (Run (run_of q)) "sealed.json") as [-> | (_ & e & L' & S)]; [done|]. rewrite L in L'. by injection L' as <-.
Qed.

Lemma SealedContent_Open_same content d r d' : SealedContent_Open content d = (r, d') -> same_directories d d'.
Proof.
  unfold SealedContent_Open. intros E.
  apply FM_bind_inv in E as [(e & -> & E)|(u & d1 & S1 & E)]; [by eapply contextActive_same|]. apply contextActive_same in S1.
  apply FM_bind_inv in E as [(e & -> & E)|(u2 & d2 & S2 & E)]; [eapply same_trans; [exact S1|by eapply openNamespace_same]|].
  apply openNamespace_same in S2. injection E as <- <-. intros n. by rewrite directory_tick, S2, S1.
Qed.

Lemma Finalizer_New_runs root d r d' : Finalizer_New root d = (r, d') -> forall id, directory (Run id) d' = directory (Run id) d.
Proof.
  unfold Finalizer_New. intros E id.
  apply FM_bind_inv in E as [(e & -> & E)|(u & d1 & S1 & E)]; [by apply fm_lift_same in E as [-> _]|]. apply fm_lift_same in S1 as [-> _].
  apply FM_bind_inv in E as [(e & -> & E)|(u2 & d2 & S2 & E)]; [by apply openNamespace_same in E|]. apply openNamespace_same in S2.
  rewrite <-(S2 (Run id)). clear S2.
  apply FM_bind_inv in E as [(e & -> & E)|(u3 & d3 & S3 & E)]; [done|]. injection S3 as <- <-.
  apply FM_bind_inv in E as [(e & -> & E)|(u4 & d4 & S4 & E)]; [by apply closeNamespace_same in E|]. apply closeNamespace_same in S4.
  apply FM_bind_inv in E as [(e & -> & E)|(u5 & d5 & S5 & E)].
  - apply openNamespace_same in E. by rewrite E, S4.
  - apply openNamespace_same in S5. apply closeNamespace_same in E. by rewrite E, S5, S4.
Qed.

Lemma runs_sound crashes d done asked : runs_of crashes d done asked -> sound crashes d done asked.
Proof.
  induction 1 as [tick|d done asked deadline q r d' R [F D] E|d done asked content r d' R [F D] E
    |d done asked root r d' R [F D] E|d done asked d' R [F D] C X].
  - split; [intros id name e; cbn; rewrite lookup_empty; cbn; by rewrite lookup_empty|set_solver].
  - apply Finalize_ok in E as [G K]. split.
    + intros id name e L. specialize (G id name). rewrite L in G. destruct (directory (Run id) d !! name) as [e0|] eqn:L0.
      * destruct G as [-> _]. destruct (F _ _ _ L0) as (q0 & I & W). exists q0. split; [by right|done].
      * exists q. split; [by left|done].
    + assert (O : forall q0 r0, (q0, r0) ∈ done -> kept crashes d' q0 r0) by (intros; eapply kept_grows; eauto).
      destruct r as [res|e]; [|done]. intros q0 r0 [[= -> ->]|I]%elem_of_cons; [|auto].
      pose proof (G (run_of q) "sealed.json") as Gs.
      destruct (K res eq_refl) as (_ & m & encoded & Q & C & M & Z). exists m, encoded. split; [done|]. split; [done|]. split; [done|].
      destruct (fr_Created res); [tauto|]. intros _. destruct Z as (e & L & Z). rewrite L in Gs.
      destruct (directory (Run (run_of q)) d' !! "sealed.json") as [e'|]; [|done]. exists e'. destruct Gs as [-> _]. done.
  - apply SealedContent_Open_same in E. split.
    + intros id name e. rewrite (E (Run id)). apply F.
    + intros q0 r0 I. eapply kept_same; [|by apply D]. intros id. apply E.
  - pose proof (Finalizer_New_runs _ _ _ _ E) as E'. split.
    + intros id name e. rewrite E'. apply F.
    + intros q0 r0 I. eapply kept_same; [|by apply D]. done.
  - subst crashes. split.
    + intros id name e L. destruct (X (Run id) name) as [S|[S _]]; rewrite S in L; [by eapply F|done].
    + intros q0 r0 I. eapply kept_crash; [exact X|by apply D].
Qed.

(** No call fails from this tick on. *)
Definition quiet (tick : nat) : Prop :=
  forall n, (tick <= n)%nat -> namespace_fails n = false /\ close_fails n = false /\ read_fails n = false /\
    publication_at n = Published /\ context_error n = None.

Lemma kept_sealed crashes d done asked q r :
  runs_of crashes d done asked -> (q, r) ∈ done -> fr_Created r = true \/ crashes = false ->
  exists e m encoded, directory (Run (run_of q)) d !! "sealed.json" = Some e /\
    metadata_text (fr_Metadata r) = Some (en_Content e) /\ described q m encoded /\
    fr_Content r = mkSealedContent (run_of q) "sealed.json" (NewDigest encoded) (length encoded) /\
    (en_Content e = encoded \/ exists q', q' ∈ asked /\ payload_collision q q').
Proof.
  intros R I C. destruct (runs_sound _ _ _ _ R) as [F D]. destruct (D _ _ I) as (m & encoded & Q & Co & _ & K).
  destruct (fr_Created r) eqn:Cr.
  - destruct K as [-> L]. exists (mkEntry encoded true), m, encoded. split; [done|]. split; [|auto].
    apply described_text in Q as (b & p & t & _ & T & -> & ->). unfold metadata_text. cbn. by rewrite T.
  - destruct C as [?|C]; [done|]. destruct (K C) as (e & L & X & Y). exists e, m, encoded. split; [done|].
    destruct (F _ _ _ L) as (q' & I' & _ & m' & encoded' & Q' & [[_ Z]|[? _]]); [|done].
    destruct (check_metadata_text _ _ X) as (t & _ & _ & _ & T). split; [done|]. split; [done|]. split; [done|].
    rewrite Z in X |- *. destruct (same_digest _ _ _ _ _ _ _ Q Q' X Y); [by left|right; eauto].
Qed.

Lemma FM_bind_ok {A B} (m : FM A) (f : A -> FM B) d a d1 : m d = (Ok a, d1) -> (m ≫= f) d = f a d1.
Proof. intros E. cbv [mbind FM_bind]. by rewrite E. Qed.

Lemma check_described q m encoded :
  described q m encoded -> md_ContentDigest m <> "" -> decode_metadata encoded = Some m -> check_metadata encoded = Ok m.
Proof.
  intros (b & p & t & _ & T & -> & ->)%described_text Z De. unfold check_metadata. rewrite De.
  apply res_bind_ok. eexists. split; [reflexivity|]. rewrite !res_then_ok, !check_ok. unfold metadata_text.
  cbn [md_SchemaVersion md_ContentDigest md_Bundle] in *. rewrite T. split_and!; [|by apply bool_decide_eq_true..|done].
  by rewrite bool_decide_false.
Qed.

(** C31: Each run gets one bundle and keeps it.  Take any requests to one
    finalizer, with any calls failing, processes killed and names lost in
    crashes, and of the answers those that report that they created the bundle;
    or, when no crash loses names, all answers (an answer that only found the
    bundle does not outlive a crash: see [BundleHazards]).  The bundle of such
    an answer is in the directory of its run, with exactly the metadata the
    caller was given, and all such answers for the same run gave the same
    metadata.  Unless two of the payloads are an explicit SHA-256 collision the
    bundle is the one the request describes, and opening the returned content,
    with no further call failing, gives its bytes. *)
Theorem one_bundle_per_run crashes d done asked q r :
  runs_of crashes d done asked -> (q, r) ∈ done -> fr_Created r = true \/ crashes = false ->
  (forall q' r', (q', r') ∈ done -> fr_Created r' = true \/ crashes = false -> run_of q' = run_of q ->
     metadata_text (fr_Metadata r') = metadata_text (fr_Metadata r)) /\
  exists e, directory (Run (run_of q)) d !! "sealed.json" = Some e /\
    metadata_text (fr_Metadata r) = Some (en_Content e) /\
    ((exists m, described q m (en_Content e)) /\
     (quiet (d_tick d) -> fst (SealedContent_Open (fr_Content r) d) = Ok (en_Content e)) \/
     exists q', q' ∈ asked /\ payload_collision q q').
Proof.
  intros R I C. destruct (kept_sealed _ _ _ _ _ _ R I C) as (e & m & encoded & L & T & Q & Co & X). split.
  - intros q' r' I' C' E. destruct (kept_sealed _ _ _ _ _ _ R I' C') as (e' & _ & _ & L' & T' & _).
    rewrite E, L in L'. injection L' as <-. by rewrite T, T'.
  - exists e. split; [done|]. split; [done|]. destruct X as [<-|X]; [left|by right]. split; [by exists m|]. intros W.
    destruct (W (d_tick d) ltac:(lia)) as (N0 & _ & _ & _ & X0).
    destruct (W (S (d_tick d)) ltac:(lia)) as (N1 & _). destruct (W (S (S (d_tick d))) ltac:(lia)) as (_ & C2 & R2 & _).
    unfold SealedContent_Open, contextActive, openNamespace, readContent. cbv [mbind FM_bind]. rewrite X0. cbn [fst snd].
    cbn [d_tick next_tick set]. change (d_tick (next_tick d)) with (S (d_tick d)).
    change (d_tick (next_tick (next_tick d))) with (S (S (d_tick d))). rewrite N1, R2, C2, Co.
    cbn [sc_run sc_name sc_size sc_digest]. rewrite !directory_tick, L. cbn [fst].
    rewrite Nat.eqb_refl, bool_decide_true by done. done.
Qed.

(** A finalization can be repeated.  After a request was answered, and as
    long as no crash loses names, the same request asked again when no call
    fails is answered with the same metadata and the same content and creates
    nothing; the decoder only has to read back what the encoder wrote (and the
    digest of the payload not to be zero). *)
Theorem finalize_again d done asked q r m encoded :
  runs_of false d done asked -> (q, r) ∈ done -> fr_Created r = true -> quiet (d_tick d) ->
  described q m encoded -> md_ContentDigest m <> "" -> decode_metadata encoded = Some m ->
  exists r' d', Finalize true q d = (Ok r', d') /\ fr_Metadata r' = fr_Metadata r /\ fr_Content r' = fr_Content r /\
    fr_Created r' = false /\ same_directories d d'.
Proof.
  intros R I Cr W Q Z De. destruct (runs_sound _ _ _ _ R) as [_ D]. destruct (D _ _ I) as (m' & encoded' & Q' & Co & M & K).
  destruct (described_det _ _ _ _ _ Q Q') as [<- <-]. rewrite Cr in K. destruct K as [Me L]. destruct (M eq_refl) as (c & Lc & Cc).
  pose proof (check_described _ _ _ Q Z De) as Ch. destruct Q as (bundle & payload & B & Ds).
  unfold Finalize, RequireDeadline. fold (run_of q).
  pose proof (W (d_tick d) ltac:(lia)) as W0. pose proof (W (1 + d_tick d)%nat ltac:(lia)) as W1.
  pose proof (W (2 + d_tick d)%nat ltac:(lia)) as W2. pose proof (W (3 + d_tick d)%nat ltac:(lia)) as W3.
  pose proof (W (4 + d_tick d)%nat ltac:(lia)) as W4. destruct_and!.
  rewrite (FM_bind_ok _ _ d tt (next_tick d)).
  2: { rewrite (FM_bind_ok _ _ d tt d) by done. unfold contextActive. by match goal with H : context_error (d_tick d) = None |- _ => rewrite H end. }
  rewrite (FM_bind_ok _ _ _ tt (next_tick (next_tick d))).
  2: { unfold contextActive. change (d_tick (next_tick d)) with (1 + d_tick d)%nat.
       by match goal with H : context_error (1 + d_tick d) = None |- _ => rewrite H end. }
  rewrite (FM_bind_ok _ _ _ (bundle, payload) (next_tick (next_tick d))) by (unfold fm_lift; by rewrite B).
  rewrite (FM_bind_ok _ _ _ (m, encoded) (next_tick (next_tick d))) by (unfold fm_lift; by rewrite Ds).
  rewrite (FM_bind_ok _ _ _ tt (next_tick (next_tick (next_tick d)))).
  2: { unfold openNamespace. change (d_tick (next_tick (next_tick d))) with (2 + d_tick d)%nat.
       by match goal with H : namespace_fails (2 + d_tick d) = false |- _ => rewrite H end. }
  rewrite (FM_bind_ok _ _ _ (Some m) (next_tick (next_tick (next_tick (next_tick d))))).
  2: { unfold loadMetadata. change (d_tick (next_tick (next_tick (next_tick d)))) with (3 + d_tick d)%nat.
       match goal with H : read_fails (3 + d_tick d) = false |- _ => rewrite H end. rewrite !directory_tick, L. cbn [en_Content].
       rewrite Nat.ltb_irrefl, Ch. done. }
  rewrite (FM_bind_ok _ _ _ tt (next_tick (next_tick (next_tick (next_tick d))))).
  2: { unfold fm_lift, check. by rewrite bool_decide_true. }
  rewrite (FM_bind_ok _ _ _ tt (next_tick (next_tick (next_tick (next_tick (next_tick d)))))).
  2: { unfold ensureCommitMarker, ensureImmutableFile, EnsureRegularAtomically. cbn [sc_digest].
       change (d_tick (next_tick (next_tick (next_tick (next_tick d))))) with (4 + d_tick d)%nat.
       match goal with H : publication_at (4 + d_tick d) = Published |- _ => rewrite H end. rewrite !directory_tick, Lc.
       by rewrite bool_decide_true. }
  eexists _, _. split; [reflexivity|]. cbn [fr_Metadata fr_Content fr_Created]. rewrite Me, Co. split; [done|]. split; [done|].
  split; [done|]. intros n. by rewrite !directory_tick.
Qed.
End Safety.
