(* ===== verification/BundleScenario.v ===== *)
(** * A concrete bundle

    A failed run with one lost signal, sealed by a finalizer: the theorems
    applied to it, and a bundle that an answered request loses in a crash. *)
From Stdlib Require Import SpecFloat.
From S2P Require Import Prelude Errors Sha256 GoStrings States Values Ids Evidence Observations BundleBuild BundleFacts BundleStore.
From S2P Require Import BundleSafety.
Module BundleDemo.
(** ** The parameters *)
Definition not_after {A} (less : A -> A -> bool) (a b : A) : Prop := less b a = false.
#[export] Instance not_after_dec {A} (less : A -> A -> bool) : RelDecision (not_after less).
Proof. intros a b. unfold not_after. apply _. Defined.
Lemma sort_by_sorts {A} (less : A -> A -> bool) l :
  (forall a b, less b a = false \/ less a b = false) ->
  (forall a b c, less b a = false -> less c b = false -> less c a = false) ->
  StronglySorted (fun a b => less b a = false) (merge_sort (not_after less) l).
Proof.
  intros Tot Tra. assert (Transitive (not_after less)) by (intros a b c; apply Tra).
  assert (Total (not_after less)) by (intros a b; apply Tot). exact (StronglySorted_merge_sort (not_after less) l).
Qed.
#[export] Instance slice_sort : SliceSort := {|
  sort_Slice A less := merge_sort (not_after less);
  sort_Slice_permutes A less l := merge_sort_Permutation (not_after less) l;
  sort_Slice_sorts A less l := sort_by_sorts less l |}.
#[export] Instance bundle_text : BundleText := {|
  gap_text g := Some (gm_Source g);
  event_projection e := Some (ev_Payload e);
  metric_projection m := Some (bytes_of (ms_Name m));
  payload_text p := Some (bytes_of (mp_BundleID p)) |}.

Definition uuid (n : N) : uuidV7 := repeat 0%N 15 ++ [n].
Definition content : list N := Eval vm_compute in sha256 [1%N].
Definition artifact : ArtifactReferenceSpec := mkArtifactReferenceSpec "artifact-1" content 10 "raw" SensitivityInternal.
Definition gap : GapSpec := mkGapSpec GapDropped "syscalls" "" 0 0 2 3 0 0 4 "buffer full".
Definition event (run : uuidV7) : EventEnvelope :=
  mkEventEnvelope 1 (uuid 9) "process.exec" (uuid 1) (uuid 2) (uuid 3) 1 [] (uuid 4) 1 run [] [] [] [] "" "" "collector"
    "one" 1 2 [] CollectorPlacementHost CoverageLevelPartial 50 0 0 "" 0 "" "" "" 0 0 0 0 "" content content [123%N; 125%N]
    SensitivityInternal CompletenessPartial float_one OriginSpecimen.
Definition lost : CollectorCoverageSpec :=
  mkCollectorCoverageSpec (uuid 7) "syscalls" CollectorPlacementHost CoverageLevelNone CoverageLost true 0 0 4 [gap].
Definition seen : CollectorCoverageSpec :=
  mkCollectorCoverageSpec (uuid 8) "network" CollectorPlacementHost CoverageLevelPartial CoverageAvailable true 0 0 0 [].
Definition outcome (run : uuidV7) : TargetRunResult :=
  mkTargetRunResult run RunFailed 1 3 [artifact] [event run] [] [lost; seen] [gap]
    (mkChangeSet ChangeScopeTarget [] 1 60) [uuid 6]
    (mkDerivedSummary "one signal was lost" [mkEvidenceCitation 2 0 artifact] []) 60.
Definition evidence (bundle target workspace run : uuidV7) : FinalizeRequest :=
  mkFinalizeRequest bundle target 1 workspace 1 ["network"; "syscalls"] (outcome run) 40 70.
Definition request (bundle : N) : FinalizeRequest := evidence (uuid bundle) (uuid 4) (uuid 3) (uuid 5).

Definition payload_of (q : FinalizeRequest) : option MetadataPayload :=
  match build q with Ok (_, p) => Some p | Err _ => None end.
Example request_builds : is_Some_b (payload_of (request 1)) = true.
Proof. vm_compute. reflexivity. Qed.

(** ** The finalizer *)
Definition plain_json (s : string) : list N := 34%N :: bytes_of s ++ [34%N].
(** The decoder of this scenario reads back the metadata of its two requests. *)
Definition known (bundle : N) : option (list N * Metadata) :=
  p ← payload_of (request bundle); text ← payload_text p;
  let digest := digest_String (sha256 text) in
  Some (123%N :: json_key "schema_version" ++ bytes_of (pretty SchemaVersion) ++ 44%N :: json_key "content_digest" ++ plain_json digest ++
        44%N :: json_key "bundle" ++ text ++ [125%N], mkMetadata SchemaVersion digest p).
Definition decode (b : list N) : option Metadata :=
  match known 1, known 2 with
  | Some (b1, m1), Some (b2, m2) => if bool_decide (b = b1) then Some m1 else if bool_decide (b = b2) then Some m2 else None
  | _, _ => None
  end.
#[export] Instance metadata_text_plain : MetadataText := {|
  json_string := plain_json; decode_metadata := decode; json_string_digest m := eq_refl |}.

(** An environment in which the publications at the given ticks are not synced. *)
Definition unsynced_at (ticks : list nat) : BundleEnv := {|
  namespace_fails _ := false; close_fails _ := false; read_fails _ := false;
  publication_at n := if bool_decide (n ∈ ticks) then PublishedUnsynced else Published;
  context_error _ := None |}.
Definition start : BundleDisk := mkBundleDisk ∅ ∅ 0.
Definition created (r : result FinalizeResult) : bool := match r with Ok x => fr_Created x | Err _ => false end.
Definition digest_of (r : result FinalizeResult) : string := match r with Ok x => md_ContentDigest (fr_Metadata x) | Err _ => "" end.

Definition calm : BundleEnv := unsynced_at [].
Lemma calm_quiet tick : quiet (BE := calm) tick.
Proof. intros n _. done. Qed.
End BundleDemo.
Import BundleDemo.

Theorem one_bundle_per_run_witness :
  exists r d, Finalize (BE := calm) true (request 1) start = (Ok r, d) /\
    (exists e, directory (Run (run_of (request 1))) d !! "sealed.json" = Some e) /\
    forall q' r' d', Finalize (BE := calm) true q' d = (Ok r', d') -> fr_Created r' = true -> run_of q' = run_of (request 1) ->
      metadata_text (fr_Metadata r') = metadata_text (fr_Metadata r).
Proof.
  assert (B : created (fst (Finalize (BE := calm) true (request 1) start)) = true) by (vm_compute; reflexivity).
  destruct (Finalize (BE := calm) true (request 1) start) as [[r|] d] eqn:E; [|done]. cbn in B. exists r, d. split; [done|].
  pose proof (runs_finalize true _ _ _ _ _ _ _ (runs_start true 0) E) as R. cbn in R. split.
  - destruct (one_bundle_per_run true d _ _ (request 1) r R) as [_ (e & L & _)]; [by left|by left|]. by exists e.
  - intros q' r' d' E' C' Q. pose proof (runs_finalize true _ _ _ _ _ _ _ R E') as R'. cbn in R'.
    destruct (one_bundle_per_run true d' _ _ (request 1) r R') as [S _]; [right; by left|by left|].
    apply (S q' r'); [by left|by left|done].
Defined.

Theorem finalize_again_witness :
  exists r d r' d', Finalize (BE := calm) true (request 1) start = (Ok r, d) /\
    Finalize (BE := calm) true (request 1) d = (Ok r', d') /\ fr_Metadata r' = fr_Metadata r /\ fr_Created r' = false.
Proof.
  assert (B : created (fst (Finalize (BE := calm) true (request 1) start)) = true) by (vm_compute; reflexivity).
  destruct (Finalize (BE := calm) true (request 1) start) as [[r|] d] eqn:E; [|done]. cbn in B.
  pose proof (runs_finalize false _ _ _ _ _ _ _ (runs_start false 0) E) as R. cbn in R.
  assert (K : match known 1 with Some (_, m) => negb (bool_decide (md_ContentDigest m = "")) | None => false end = true)
    by (vm_compute; reflexivity).
  destruct (known 1) as [[b m]|] eqn:Kn; [|done]. apply negb_true_iff, bool_decide_eq_false in K.
  assert (D : described (request 1) m b).
  { unfold known, payload_of in Kn. destruct (build (request 1)) as [[bundle p]|] eqn:Bu; [|done].
    exists bundle, p. split; [done|]. by injection Kn as <- <-. }
  destruct (finalize_again d _ _ (request 1) r m b R) as (r' & d' & E' & M & _ & C & _); [by left|done|apply calm_quiet|done|done| |].
  - cbn. unfold decode. rewrite Kn. assert (K2 : is_Some_b (known 2) = true) by (vm_compute; reflexivity).
    destruct (known 2) as [[b2 m2]|]; [|done]. by rewrite bool_decide_true.
  - exists r, d, r', d'. done.
Defined.

(** ** An answer that a crash takes back *)
Module BundleHazards.
Definition unsynced_everywhere (d : BundleDisk) : bool :=
  forallb (fun r => forallb (fun e => negb (en_Synced e.2)) (map_to_list r.2)) (map_to_list (d_runs d)).

Lemma unsynced_crash d : unsynced_everywhere d = true -> crash d (d <| d_runs := ∅ |>).
Proof.
  intros U n name. destruct n as [|id]; [by left|]. cbn. rewrite lookup_empty. cbn. rewrite lookup_empty.
  destruct (d_runs d !! id) as [files|] eqn:Fi; [|by left; cbn; rewrite lookup_empty]. cbn.
  destruct (files !! name) as [e|] eqn:En; [right|by left]. split; [done|]. exists e. split; [done|].
  unfold unsynced_everywhere in U. rewrite forallb_forall in U.
  assert (I : In (id, files) (map_to_list (d_runs d))) by by apply list_elem_of_In, elem_of_map_to_list.
  specialize (U _ I). cbn in U. rewrite forallb_forall in U.
  assert (J : In (name, e) (map_to_list files)) by by apply list_elem_of_In, elem_of_map_to_list.
  specialize (U _ J). cbn in U. by destruct (en_Synced e).
Qed.

(** Three attempts at one bundle, a crash, and another bundle for the run. *)
Definition story {BE : BundleEnv} (q q' : FinalizeRequest) (d : BundleDisk) : bool :=
  let first := Finalize true q d in
  let second := Finalize true q (snd first) in
  let third := Finalize true q (snd second) in
  let other := Finalize true q' ((snd third) <| d_runs := ∅ |>) in
  negb (is_ok (fst first)) && negb (is_ok (fst second)) && is_ok (fst third) && negb (created (fst third)) &&
  unsynced_everywhere (snd third) && created (fst other) && negb (bool_decide (digest_of (fst third) = digest_of (fst other))).

Lemma story_runs {BE : BundleEnv} q q' d :
  runs_of true d [] [] -> story q q' d = true ->
  exists d' done asked r r', runs_of true d' done asked /\ (q, r) ∈ done /\ (q', r') ∈ done /\
    fr_Created r = false /\ fr_Created r' = true /\ md_ContentDigest (fr_Metadata r) <> md_ContentDigest (fr_Metadata r').
Proof.
  unfold story. intros R0 B. destruct (Finalize true q d) as [[?|e1] d1] eqn:E1; [done|]. cbn [fst snd] in B.
  destruct (Finalize true q d1) as [[?|e2] d2] eqn:E2; [done|]. cbn [fst snd] in B.
  destruct (Finalize true q d2) as [[r|?] d3] eqn:E3; [|done]. cbn [fst snd] in B.
  destruct (Finalize true q' (d3 <| d_runs := ∅ |>)) as [[r'|?] d5] eqn:E4; cbn [fst snd] in B;
    rewrite !andb_true_iff, !negb_true_iff in B; destruct B as [[[[_ C] U] K] Dg]; [|done].
  pose proof (runs_finalize _ _ _ _ _ _ _ _ R0 E1) as R1. pose proof (runs_finalize _ _ _ _ _ _ _ _ R1 E2) as R2.
  pose proof (runs_finalize _ _ _ _ _ _ _ _ R2 E3) as R3.
  pose proof (runs_crash _ _ _ _ _ R3 eq_refl (unsynced_crash _ U)) as R4.
  pose proof (runs_finalize _ _ _ _ _ _ _ _ R4 E4) as R5. eexists _, _, _, r, r'. split; [exact R5|].
  split; [right; by left|]. split; [by left|]. split; [done|]. split; [done|]. by apply bool_decide_eq_false in Dg.
Qed.

(** An answer can be taken back.  A bundle whose directory could not be
    synced is found by the next request, which publishes nothing new and never
    syncs it: after two failed syncs the third request is answered although
    nothing of the bundle is durable.  A crash then loses it and the run is
    sealed with a different bundle, so one run has two answers. *)
Theorem answered_bundle_lost :
  run_of (request 1) = run_of (request 2) /\
  exists d done asked r r', runs_of (BE := unsynced_at [8%nat; 13%nat]) true d done asked /\
    (request 1, r) ∈ done /\ (request 2, r') ∈ done /\ fr_Created r = false /\ fr_Created r' = true /\
    md_ContentDigest (fr_Metadata r) <> md_ContentDigest (fr_Metadata r').
Proof.
  assert (B : story (BE := unsynced_at [8%nat; 13%nat]) (request 1) (request 2) start = true) by (vm_compute; reflexivity).
  split; [reflexivity|]. exact (story_runs _ _ _ (runs_start true 0) B).
Qed.
End BundleHazards.
