(* ===== verification/RunFinalization.v ===== *)
(** * Run finalization

    [internal/application/run_finalization.go]: sealing the evidence of a run,
    publishing it to the material authority, and the control-plane mutation that
    records it.  The service runs over the core and the finalizer's directory;
    what the material authority answers is a parameter ([MaterialAuthority]). *)
From S2P Require Import Prelude Errors Sha256 GoStrings Utf8Facts States Values Ids Idempotency Evidence Records Store.
From S2P Require Import Requests Machine Sync Targets System Hazards Observations BundleBuild BundleFacts BundleStore BundleSafety BundleScenario.
(** [ports.MaterialAuthority.CaptureObservationBundle] *)
Class MaterialAuthority := {
  CaptureObservationBundle : BundleDisk -> string -> ObservationBundle -> SealedContent -> result ArtifactReferenceSpec }.

Record Service := mkService { sv_world : World; sv_disk : BundleDisk }.
Definition SM (A : Type) : Type := Service -> result A * Service.
#[export] Instance SM_ret : MRet SM := fun A a s => (Ok a, s).
#[export] Instance SM_bind : MBind SM := fun A B f m s =>
  match m s with (Ok a, s') => f a s' | (Err e, s') => (Err e, s') end.
Definition in_core {A} (m : M A) : SM A := fun s =>
  let '(r, w) := m (sv_world s) in (r, mkService w (sv_disk s)).
Definition in_disk {A} (m : FM A) : SM A := fun s =>
  let '(r, d) := m (sv_disk s) in (r, mkService (sv_world s) d).
Definition pure {A} (r : result A) : SM A := fun s => (r, s).

Record FinalizeRunEvidenceRequest := mkFinalizeRunEvidenceRequest {
  fre_Meta : MutationMeta; fre_TargetID : string; fre_ExpectedRunRevision : N; fre_Evidence : FinalizeRequest }.
Record PreparedRunEvidence := mkPreparedRunEvidence {
  pre_Bundle : ObservationBundle; pre_Metadata : Metadata; pre_Artifact : ArtifactReferenceSpec;
  pre_Commit : FinalizeTargetRunRequest }.
Record FinalizeRunEvidenceOutcome := mkFinalizeRunEvidenceOutcome {
  fro_Run : TargetRunRecord; fro_Bundle : ObservationBundle; fro_Metadata : Metadata; fro_Artifact : ArtifactReferenceSpec }.

Section RunFinalization.
Context {BT : BundleText} {SS : SliceSort} {MT : MetadataText} {BE : BundleEnv} {E : Env} {MA : MaterialAuthority}.

Definition authority_capture (key : string) (bundle : ObservationBundle) (content : SealedContent) : SM ArtifactReferenceSpec := fun s =>
  (CaptureObservationBundle (sv_disk s) key bundle content, s).

(** The commit of a sealed bundle, published as [artifact]. *)
Definition commit_of (request : FinalizeRunEvidenceRequest) (runID : string) (bundle : ObservationBundle)
    (artifact : ArtifactReferenceSpec) : FinalizeTargetRunRequest :=
  let evidence := fre_Evidence request in
  mkFinalizeTargetRunRequest
    ((fre_Meta request) <| meta_IdempotencyKey := DeriveIdempotencyKey (meta_IdempotencyKey (fre_Meta request)) "control" |>)
    (fre_TargetID request) runID (fre_ExpectedRunRevision request)
    (bool_decide (trr_Outcome (fz_Result evidence) = RunFailed)) (id_String prefix_bundle (obs_ID (ob_spec bundle)))
    (as_Reference artifact) (digest_String (as_Digest artifact))
    (sort_Strings (id_String prefix_incident <$> trr_IncidentIDs (fz_Result evidence))).

Definition Prepare (ctx : option time) (request : FinalizeRunEvidenceRequest) : SM PreparedRunEvidence :=
  let evidence := fre_Evidence request in
  now ← in_core clock;
  _ ← pure (MutationMeta_Validate (fre_Meta request) ctx now);
  targetID ← pure (parseID prefix_target (fre_TargetID request));
  target ← in_core (GetTarget (fre_TargetID request));
  '(_, run) ← pure (findRun target (id_String prefix_targetRun (trr_RunID (fz_Result evidence))));
  _ ← pure (check (negb (negb (run_Revision run =? fre_ExpectedRunRevision request)%N
                         && negb (TargetRunState_Terminal (run_State run)
                                  && bool_decide (run_BundleID run = id_String prefix_bundle (fz_BundleID evidence)))))
              ErrRevisionConflict);
  _ ← pure (check (negb (negb (bool_decide (targetID = fz_TargetID evidence))
                         || negb (run_Generation run =? fz_TargetGeneration evidence)%N
                         || negb (bool_decide (run_AgentWorkspaceID run = id_String prefix_agentWorkspace (fz_AgentWorkspaceID evidence)))
                         || negb (run_AgentGeneration run =? fz_AgentGeneration evidence)%N)) ErrScope);
  local ← in_disk (Finalize (if ctx then true else false) evidence);
  artifact ← authority_capture (DeriveIdempotencyKey (meta_IdempotencyKey (fre_Meta request)) "artifact") (fr_Bundle local) (fr_Content local);
  _ ← pure (check (negb (negb (bool_decide (as_Digest artifact = sc_digest (fr_Content local)))
                         || negb (as_Size artifact =? Z.of_nat (sc_size (fr_Content local)))%Z))
              (NewError CodeIntegrityViolation "run_finalization.prepare" "bundle_artifact"));
  mret (mkPreparedRunEvidence (fr_Bundle local) (fr_Metadata local) artifact
          (commit_of request (run_ID run) (fr_Bundle local) artifact)).

Definition Commit (ctx : option time) (prepared : PreparedRunEvidence) : SM FinalizeRunEvidenceOutcome :=
  finalized ← in_core (FinalizeTargetRun ctx (pre_Commit prepared));
  mret (mkFinalizeRunEvidenceOutcome finalized (pre_Bundle prepared) (pre_Metadata prepared) (pre_Artifact prepared)).

Definition FinalizeRun (ctx : option time) (request : FinalizeRunEvidenceRequest) : SM FinalizeRunEvidenceOutcome :=
  prepared ← Prepare ctx request;
  Commit ctx prepared.
End RunFinalization.

(** ** What is prepared *)
Section Prepared.
Context {BT : BundleText} {SS : SliceSort} {MT : MetadataText} {BE : BundleEnv} {E : Env} {MA : MaterialAuthority}.

Lemma SM_bind_ok {A B} (m : SM A) (f : A -> SM B) s b s' :
  (m ≫= f) s = (Ok b, s') -> exists a s1, m s = (Ok a, s1) /\ f a s1 = (Ok b, s').
Proof. cbv [mbind SM_bind]. destruct (m s) as [[a|e] s1]; [eauto|done]. Qed.
Lemma pure_ok {A} (r : result A) s a s' : pure r s = (Ok a, s') -> r = Ok a /\ s' = s.
Proof. unfold pure. by intros [= -> ->]. Qed.
Lemma in_core_ok {A} (m : M A) s a s' :
  in_core m s = (Ok a, s') -> exists w, m (sv_world s) = (Ok a, w) /\ s' = mkService w (sv_disk s).
Proof. unfold in_core. destruct (m (sv_world s)) as [r w]. intros [= -> <-]. eauto. Qed.
Lemma in_disk_ok {A} (m : FM A) s a s' :
  in_disk m s = (Ok a, s') -> exists d, m (sv_disk s) = (Ok a, d) /\ s' = mkService (sv_world s) d.
Proof. unfold in_disk. destruct (m (sv_disk s)) as [r d]. intros [= -> <-]. eauto. Qed.

Lemma GetTarget_ok id w target w' :
  GetTarget id w = (Ok target, w') -> w_store w' = w_store w /\ core_targets (w_core w') !! id = Some target.
Proof.
  unfold GetTarget. cbv [mbind M_bind]. pose proof (sync_store w) as S. destruct (syncLocked w) as [[u|e] w1]; [|done]. cbn in S.
  unfold getCore, lift. intros [= L <-]. apply from_option_err_ok in L. done.
Qed.

(** What a successful finalization leaves for the run, whatever was there. *)
Lemma finalized_content deadline q d res d' :
  Finalize deadline q d = (Ok res, d') ->
  sealable q /\ fr_Bundle res = sealed_bundle q /\
  exists e payload text, directory (Run (run_of q)) d' !! "sealed.json" = Some e /\
    build q = Ok (sealed_bundle q, payload) /\ payload_text payload = Some text /\
    (NewDigest (en_Content e) = sc_digest (fr_Content res) /\ length (en_Content e) = sc_size (fr_Content res) \/
     exists text', sha256_collision text text').
Proof.
  intros F. apply Finalize_ok in F as [G F]. destruct (F res eq_refl) as (Bu & m & encoded & Q & C & _ & K).
  pose proof (described_text _ _ _ Q) as (bundle & payload & text & B & T & Dm & De).
  pose proof (build_sealable _ _ _ B) as (Se & -> & _). split; [done|]. split; [done|]. rewrite C.
  destruct (fr_Created res).
  - destruct K as (_ & _ & L). exists (mkEntry encoded true), payload, text.
    split; [done|]. split; [done|]. split; [done|]. by left.
  - destruct K as (e & L & Ch & Di). pose proof (G (run_of q) "sealed.json") as P. rewrite L in P.
    destruct (directory (Run (run_of q)) d' !! "sealed.json") as [e'|]; [|done]. destruct P as [P _].
    exists e', payload, text. split; [done|]. split; [done|]. split; [done|].
    apply check_metadata_text in Ch as (text' & _ & D & E' & _). rewrite Dm in Di. cbn in Di. rewrite D in Di.
    apply digest_String_inj in Di. destruct (decide (text' = text)) as [->|N].
    + left. rewrite P, E', De. done.
    + right. exists text'. split; [congruence|done].
Qed.

(** C32: What [Prepare] hands to the control plane is on disk and fits the run.
    When it succeeds the journal is unchanged; the evidence satisfies every
    condition of a bundle; the target has the run, in the generations and the
    workspace the evidence names, at the expected revision or already finalized
    with this very bundle; and the prepared mutation names the run, its outcome,
    the incidents of the evidence and the digest of exactly the bytes that are
    sealed in the directory of the run, unless the payload collides under
    SHA-256 with the one stored there. *)
Theorem prepared_commit_is_sealed ctx request s p s' :
  Prepare ctx request s = (Ok p, s') ->
  let q := fre_Evidence request in
  w_store (sv_world s') = w_store (sv_world s) /\ sealable q /\ pre_Bundle p = sealed_bundle q /\
  (exists target i run, core_targets (w_core (sv_world s')) !! fre_TargetID request = Some target /\
     findRun target (run_of q) = Ok (i, run) /\ parseID prefix_target (fre_TargetID request) = Ok (fz_TargetID q) /\
     run_Generation run = fz_TargetGeneration q /\ run_AgentGeneration run = fz_AgentGeneration q /\
     run_AgentWorkspaceID run = id_String prefix_agentWorkspace (fz_AgentWorkspaceID q) /\
     (run_Revision run = fre_ExpectedRunRevision request \/
      TargetRunState_Terminal (run_State run) = true /\ run_BundleID run = frun_BundleID (pre_Commit p)) /\
     frun_RunID (pre_Commit p) = run_ID run) /\
  frun_BundleID (pre_Commit p) = id_String prefix_bundle (fz_BundleID q) /\
  (frun_Failed (pre_Commit p) = true <-> trr_Outcome (fz_Result q) = RunFailed) /\
  frun_IncidentIDs (pre_Commit p) ≡ₚ id_String prefix_incident <$> trr_IncidentIDs (fz_Result q) /\
  exists e payload text, directory (Run (run_of q)) (sv_disk s') !! "sealed.json" = Some e /\
    build q = Ok (sealed_bundle q, payload) /\ payload_text payload = Some text /\
    (frun_BundleDigest (pre_Commit p) = digest_String (sha256 (en_Content e)) /\
     as_Size (pre_Artifact p) = Z.of_nat (length (en_Content e)) \/
     exists text', sha256_collision text text').
Proof.
  unfold Prepare. cbv zeta. intros P.
  apply SM_bind_ok in P as (now & s1 & P1 & P). apply in_core_ok in P1 as (w1 & P1 & ->).
  assert (W1 : w_store w1 = w_store (sv_world s)) by (unfold clock in P1; by injection P1 as <- <-). clear P1.
  apply SM_bind_ok in P as (u2 & s2 & P2 & P). apply pure_ok in P2 as [_ ->].
  apply SM_bind_ok in P as (targetID & s3 & P3 & P). apply pure_ok in P3 as [T ->].
  apply SM_bind_ok in P as (target & s4 & P4 & P). apply in_core_ok in P4 as (w4 & P4 & ->).
  apply GetTarget_ok in P4 as [W4 L4]. cbn [sv_world sv_disk] in *.
  apply SM_bind_ok in P as ([i run] & s5 & P5 & P). apply pure_ok in P5 as [F5 ->].
  apply SM_bind_ok in P as (u6 & s6 & P6 & P). apply pure_ok in P6 as [F6 ->].
  apply SM_bind_ok in P as (u7 & s7 & P7 & P). apply pure_ok in P7 as [F7 ->].
  apply SM_bind_ok in P as (local & s8 & P8 & P). apply in_disk_ok in P8 as (d8 & P8 & ->). cbn [sv_world sv_disk] in *.
  apply SM_bind_ok in P as (artifact & s9 & P9 & P). unfold authority_capture in P9. injection P9 as _ <-.
  apply SM_bind_ok in P as (u10 & s10 & P10 & P). apply pure_ok in P10 as [F10 ->]. injection P as <- <-.
  apply finalized_content in P8 as (Se & Bu & e & payload & text & L & B & Tx & X).
  destruct u6, u7, u10. rewrite check_ok in F6, F7, F10. to_prop.
  cbn [sv_world sv_disk pre_Commit pre_Bundle pre_Artifact commit_of frun_BundleID frun_Failed frun_IncidentIDs frun_BundleDigest frun_RunID].
  rewrite Bu. cbn [sealed_bundle ob_spec bundle_spec obs_ID].
  split; [congruence|]. split; [done|]. split; [done|]. split.
  { exists target, i, run. split; [done|]. split; [done|]. destruct F7 as [[[-> ->] ->] ->]. split; [done|].
    do 3 (split; [done|]). split; [|done]. tauto. }
  split; [done|]. split; [by rewrite bool_decide_eq_true|]. split; [apply merge_sort_Permutation|].
  exists e, payload, text. split; [done|]. split; [done|]. split; [done|]. destruct X as [[D Z]|X]; [left|by right].
  destruct F10 as [-> ->]. rewrite Z, <-D. done.
Qed.
End Prepared.

(** * A run finalized

    The run of the concrete session ([Hazards]) prepared with the evidence of
    the concrete bundle ([BundleScenario]). *)
Import BundleDemo.

Module FinalizationDemo.
(** An authority that stores what it is given. *)
#[export] Instance authority : MaterialAuthority := {|
  CaptureObservationBundle _ _ _ content :=
    Ok (mkArtifactReferenceSpec "bundle-1" (sc_digest content) (Z.of_nat (sc_size content)) "bundle" SensitivityInternal) |}.
Definition parsed (prefix text : string) : uuidV7 := match parseID prefix text with Ok id => id | Err _ => [] end.
Definition runID : string := Eval vm_compute in
  default "" (run_ID <$> (core_targets (w_core Demo.w_run) !! Demo.targetID ≫= fun t => head (target_Runs t))).
Definition evidence : FinalizeRequest := Eval vm_compute in
  BundleDemo.evidence (BundleDemo.uuid 1) (parsed prefix_target Demo.targetID) (parsed prefix_agentWorkspace Demo.agentID)
    (parsed prefix_targetRun runID).
Definition request : FinalizeRunEvidenceRequest :=
  mkFinalizeRunEvidenceRequest (Demo.meta "finalize") Demo.targetID 1 evidence.
Definition before : Service := mkService Demo.w_run BundleDemo.start.
Definition prepare : result PreparedRunEvidence * Service :=
  Prepare (BE := BundleDemo.calm) (E := Demo.env) (Some (Demo.start + 1000000 * Demo.second)%Z) request before.
Lemma prepares : is_ok (fst prepare) = true.
Proof. vm_compute. reflexivity. Qed.
End FinalizationDemo.

Theorem prepared_commit_is_sealed_witness :
  exists p s', FinalizationDemo.prepare = (Ok p, s') /\
    (exists e, directory (Run (run_of FinalizationDemo.evidence)) (sv_disk s') !! "sealed.json" = Some e) /\
    w_store (sv_world s') = w_store Demo.w_run /\ frun_Failed (pre_Commit p) = true.
Proof.
  pose proof FinalizationDemo.prepares as B. destruct FinalizationDemo.prepare as [[p|] s'] eqn:P; [|done]. unfold FinalizationDemo.prepare in P.
  exists p, s'. split; [reflexivity|].
  destruct (prepared_commit_is_sealed (BE := BundleDemo.calm) (E := Demo.env) _ FinalizationDemo.request FinalizationDemo.before p s' P)
    as (W & _ & _ & _ & _ & F & _ & e & _ & _ & L & _).
  split; [by exists e|]. split; [exact W|]. by apply F.
Defined.
