(* ===== verification/Policy.v ===== *)
(** * The research-session policy document

    The types of [policy/types.go], with the quantities of [policy/quantity.go]
    at their width.  A field is named after its struct; an omitted collection is
    an empty one ([normalizeNilCollections] makes them the same document). *)
From S2P Require Import Prelude GoText.
Local Open Scope Z_scope.

(** CPU in millicores, bytes, nanoseconds (all int64), percentages and ratios. *)
Abbreviation CPUQuantity := Z.
Abbreviation ByteQuantity := Z.
Abbreviation Duration := Z.
Abbreviation Percent := float64.
Abbreviation Ratio := float64.

Definition APIVersion : string := "world.philcantcode.dev/v1alpha1".
Definition Kind : string := "ResearchSessionPolicy".

Record PolicyMetadata := mkPolicyMetadata { PolicyMetadata_Name : string; PolicyMetadata_Revision : Z }.
Record LeasePolicy := mkLeasePolicy { LeasePolicy_TTL : Duration; LeasePolicy_Priority : Z;
  LeasePolicy_Preemptible : bool; LeasePolicy_QuiesceDeadline : Duration }.
#[export] Instance : Settable LeasePolicy := {| record_eta r := mkLeasePolicy (LeasePolicy_TTL r)
  (LeasePolicy_Priority r) (LeasePolicy_Preemptible r) (LeasePolicy_QuiesceDeadline r) |}.
Record LinuxCapabilities := mkLinuxCapabilities { LinuxCapabilities_Drop : list string;
  LinuxCapabilities_Add : list string }.
Record AgentRuntimePolicy := mkAgentRuntimePolicy { AgentRuntimePolicy_Driver : string;
  AgentRuntimePolicy_Image : string; AgentRuntimePolicy_IsolationProfile : string;
  AgentRuntimePolicy_RootFilesystem : string; AgentRuntimePolicy_User : string;
  AgentRuntimePolicy_Capabilities : LinuxCapabilities; AgentRuntimePolicy_NoNewPrivileges : bool;
  AgentRuntimePolicy_SeccompProfile : string }.
Record AgentNetworkPolicy := mkAgentNetworkPolicy { AgentNetworkPolicy_Mode : string;
  AgentNetworkPolicy_AllowDNS : bool; AgentNetworkPolicy_AllowedCIDRs : list string;
  AgentNetworkPolicy_AllowedDomains : list string; AgentNetworkPolicy_DenyPrivateRanges : bool;
  AgentNetworkPolicy_TargetAccess : string }.
Record AgentResourceRequests := mkAgentResourceRequests { AgentResourceRequests_CPU : CPUQuantity;
  AgentResourceRequests_Memory : ByteQuantity; AgentResourceRequests_Workspace : ByteQuantity }.
Record AgentResourceLimits := mkAgentResourceLimits { AgentResourceLimits_CPU : CPUQuantity;
  AgentResourceLimits_Memory : ByteQuantity; AgentResourceLimits_Swap : ByteQuantity;
  AgentResourceLimits_PIDs : Z; AgentResourceLimits_Workspace : ByteQuantity;
  AgentResourceLimits_WorkspaceInodes : Z }.
#[export] Instance : Settable AgentResourceLimits := {| record_eta r := mkAgentResourceLimits
  (AgentResourceLimits_CPU r) (AgentResourceLimits_Memory r) (AgentResourceLimits_Swap r)
  (AgentResourceLimits_PIDs r) (AgentResourceLimits_Workspace r) (AgentResourceLimits_WorkspaceInodes r) |}.
Record AgentResourcesPolicy := mkAgentResourcesPolicy { AgentResourcesPolicy_Requests : AgentResourceRequests;
  AgentResourcesPolicy_Limits : AgentResourceLimits }.
#[export] Instance : Settable AgentResourcesPolicy := {| record_eta r := mkAgentResourcesPolicy
  (AgentResourcesPolicy_Requests r) (AgentResourcesPolicy_Limits r) |}.
Record AgentWorkspacePolicy := mkAgentWorkspacePolicy { AgentWorkspacePolicy_Runtime : AgentRuntimePolicy;
  AgentWorkspacePolicy_Network : AgentNetworkPolicy; AgentWorkspacePolicy_Resources : AgentResourcesPolicy }.
#[export] Instance : Settable AgentWorkspacePolicy := {| record_eta r := mkAgentWorkspacePolicy
  (AgentWorkspacePolicy_Runtime r) (AgentWorkspacePolicy_Network r) (AgentWorkspacePolicy_Resources r) |}.
Record InputViewPolicy := mkInputViewPolicy { InputViewPolicy_Source : string;
  InputViewPolicy_Layout : string; InputViewPolicy_CacheScope : string; InputViewPolicy_Construction : string;
  InputViewPolicy_ReuseExactView : bool; InputViewPolicy_VerifyBeforeMount : bool;
  InputViewPolicy_VerifyAfterRun : bool; InputViewPolicy_ViewRetention : Duration }.
#[export] Instance : Settable InputViewPolicy := {| record_eta r := mkInputViewPolicy
  (InputViewPolicy_Source r) (InputViewPolicy_Layout r) (InputViewPolicy_CacheScope r)
  (InputViewPolicy_Construction r) (InputViewPolicy_ReuseExactView r) (InputViewPolicy_VerifyBeforeMount r)
  (InputViewPolicy_VerifyAfterRun r) (InputViewPolicy_ViewRetention r) |}.
Record WorkspaceCachePolicy := mkWorkspaceCachePolicy { WorkspaceCachePolicy_MaxBytes : ByteQuantity;
  WorkspaceCachePolicy_HighWaterPercent : Percent; WorkspaceCachePolicy_LowWaterPercent : Percent;
  WorkspaceCachePolicy_VerifyOnPopulate : bool; WorkspaceCachePolicy_Reverify : string }.
#[export] Instance : Settable WorkspaceCachePolicy := {| record_eta r := mkWorkspaceCachePolicy
  (WorkspaceCachePolicy_MaxBytes r) (WorkspaceCachePolicy_HighWaterPercent r)
  (WorkspaceCachePolicy_LowWaterPercent r) (WorkspaceCachePolicy_VerifyOnPopulate r)
  (WorkspaceCachePolicy_Reverify r) |}.
Record WorkspaceExportPolicy := mkWorkspaceExportPolicy { WorkspaceExportPolicy_Declaration : string;
  WorkspaceExportPolicy_RegularFilesOnly : bool; WorkspaceExportPolicy_MaxFiles : Z;
  WorkspaceExportPolicy_MaxBytes : ByteQuantity; WorkspaceExportPolicy_RetainFullChangeManifest : bool }.
Record WorkspacePolicy := mkWorkspacePolicy { WorkspacePolicy_Mode : string;
  WorkspacePolicy_InputView : InputViewPolicy; WorkspacePolicy_Cache : WorkspaceCachePolicy;
  WorkspacePolicy_Export : WorkspaceExportPolicy }.
#[export] Instance : Settable WorkspacePolicy := {| record_eta r := mkWorkspacePolicy (WorkspacePolicy_Mode
  r) (WorkspacePolicy_InputView r) (WorkspacePolicy_Cache r) (WorkspacePolicy_Export r) |}.
Record MaterialTransferPolicy := mkMaterialTransferPolicy { MaterialTransferPolicy_Source : string;
  MaterialTransferPolicy_AgentWorkspacePush : string;
  MaterialTransferPolicy_MaxTransferBytesPerRun : ByteQuantity;
  MaterialTransferPolicy_VerifyBeforeRun : bool }.
Record TargetRuntimePolicy := mkTargetRuntimePolicy { TargetRuntimePolicy_Driver : string;
  TargetRuntimePolicy_Runtime : string; TargetRuntimePolicy_Image : string;
  TargetRuntimePolicy_IsolationProfile : string; TargetRuntimePolicy_BaseImage : string;
  TargetRuntimePolicy_User : string; TargetRuntimePolicy_Capabilities : LinuxCapabilities;
  TargetRuntimePolicy_NoNewPrivileges : bool; TargetRuntimePolicy_SeccompProfile : string;
  TargetRuntimePolicy_SystemImageDigest : string; TargetRuntimePolicy_BaselineState : string;
  TargetRuntimePolicy_RequireHardwareAcceleration : bool; TargetRuntimePolicy_Headless : bool;
  TargetRuntimePolicy_Rooted : bool; TargetRuntimePolicy_Debuggable : bool;
  TargetRuntimePolicy_GuestMemory : ByteQuantity; TargetRuntimePolicy_BootTimeout : Duration }.
Record TargetMaterialPolicy := mkTargetMaterialPolicy { TargetMaterialPolicy_MountPoint : string;
  TargetMaterialPolicy_WritableState : string }.
Record TargetInteraction := mkTargetInteraction { TargetInteraction_CommandAuthority : string;
  TargetInteraction_ExecTransport : string; TargetInteraction_FileTransfer : string;
  TargetInteraction_NetworkEndpoints : string; TargetInteraction_ADB : string;
  TargetInteraction_DeviceScopedADBServices : string;
  TargetInteraction_DeniedInfrastructureAuthority : list string }.
Record TargetResourceLimits := mkTargetResourceLimits { TargetResourceLimits_CPU : CPUQuantity;
  TargetResourceLimits_Memory : ByteQuantity; TargetResourceLimits_Swap : ByteQuantity;
  TargetResourceLimits_PIDs : Z; TargetResourceLimits_WritableState : ByteQuantity }.
Record TargetResourcesPolicy := mkTargetResourcesPolicy {
  TargetResourcesPolicy_Limits : TargetResourceLimits }.
Record TargetResetPolicy := mkTargetResetPolicy { TargetResetPolicy_AfterEveryRun : bool;
  TargetResetPolicy_Mode : string }.
Record TargetTemplate := mkTargetTemplate { TargetTemplate_Name : string; TargetTemplate_Kind : string;
  TargetTemplate_Runtime : TargetRuntimePolicy; TargetTemplate_Material : TargetMaterialPolicy;
  TargetTemplate_Interaction : TargetInteraction; TargetTemplate_Resources : TargetResourcesPolicy;
  TargetTemplate_Reset : TargetResetPolicy }.
Record TargetsPolicy := mkTargetsPolicy { TargetsPolicy_MaxConcurrent : Z;
  TargetsPolicy_MaterialTransfer : MaterialTransferPolicy; TargetsPolicy_Templates : list TargetTemplate }.
#[export] Instance : Settable TargetsPolicy := {| record_eta r := mkTargetsPolicy
  (TargetsPolicy_MaxConcurrent r) (TargetsPolicy_MaterialTransfer r) (TargetsPolicy_Templates r) |}.
Record AggregateResourceLimits := mkAggregateResourceLimits { AggregateResourceLimits_CPU : CPUQuantity;
  AggregateResourceLimits_Memory : ByteQuantity; AggregateResourceLimits_CaptureBytes : ByteQuantity }.
Record AggregateResources := mkAggregateResources {
  AggregateResources_AggregateLimits : AggregateResourceLimits }.
Record MetadataProfile := mkMetadataProfile { MetadataProfile_CapturePayloads : bool;
  MetadataProfile_FileEvents : list string; MetadataProfile_SyscallArguments : string }.
Record BoundedProfile := mkBoundedProfile { BoundedProfile_MaxDuration : Duration;
  BoundedProfile_MaxBytes : ByteQuantity; BoundedProfile_SignalFamilies : list string }.
Record PayloadProfile := mkPayloadProfile { PayloadProfile_Enabled : string;
  PayloadProfile_RequireProcessOrPathFilter : bool; PayloadProfile_MaxDuration : Duration;
  PayloadProfile_MaxBytes : ByteQuantity; PayloadProfile_Sensitivity : string;
  PayloadProfile_SignalFamilies : list string }.
Record ObservationProfiles := mkObservationProfiles { ObservationProfiles_Default : string;
  ObservationProfiles_Metadata : MetadataProfile; ObservationProfiles_Deep : BoundedProfile;
  ObservationProfiles_Payload : PayloadProfile }.
#[export] Instance : Settable ObservationProfiles := {| record_eta r := mkObservationProfiles
  (ObservationProfiles_Default r) (ObservationProfiles_Metadata r) (ObservationProfiles_Deep r)
  (ObservationProfiles_Payload r) |}.
Record SingleCollectorPolicy := mkSingleCollectorPolicy { SingleCollectorPolicy_Adapter : string;
  SingleCollectorPolicy_Placement : string; SingleCollectorPolicy_FailRunOnCoverageLoss : bool }.
Record MultiCollectorPolicy := mkMultiCollectorPolicy { MultiCollectorPolicy_Adapters : list string;
  MultiCollectorPolicy_Placement : string; MultiCollectorPolicy_FailRunOnCoverageLoss : bool }.
Record AppHookCollectorPolicy := mkAppHookCollectorPolicy { AppHookCollectorPolicy_Adapter : string;
  AppHookCollectorPolicy_Placement : string; AppHookCollectorPolicy_Coverage : string }.
Record PacketCollectorPolicy := mkPacketCollectorPolicy { PacketCollectorPolicy_Adapter : string;
  PacketCollectorPolicy_Placement : string; PacketCollectorPolicy_RingBytes : ByteQuantity }.
Record ModeCollectorPolicy := mkModeCollectorPolicy { ModeCollectorPolicy_Adapter : string;
  ModeCollectorPolicy_Mode : string }.
Record CollectorPolicies := mkCollectorPolicies { CollectorPolicies_LinuxMetadata : SingleCollectorPolicy;
  CollectorPolicies_AndroidSystem : MultiCollectorPolicy;
  CollectorPolicies_AndroidAppHooks : AppHookCollectorPolicy;
  CollectorPolicies_PacketCapture : PacketCollectorPolicy;
  CollectorPolicies_ProtocolSummary : ModeCollectorPolicy;
  CollectorPolicies_MobileAnalysis : ModeCollectorPolicy }.
Record MetricsPolicy := mkMetricsPolicy { MetricsPolicy_NormalInterval : Duration;
  MetricsPolicy_IncidentInterval : Duration; MetricsPolicy_StaleAfter : Duration;
  MetricsPolicy_RateWindows : list Duration; MetricsPolicy_Dimensions : list string }.
#[export] Instance : Settable MetricsPolicy := {| record_eta r := mkMetricsPolicy
  (MetricsPolicy_NormalInterval r) (MetricsPolicy_IncidentInterval r) (MetricsPolicy_StaleAfter r)
  (MetricsPolicy_RateWindows r) (MetricsPolicy_Dimensions r) |}.
Record AgentLiveAccessPolicy := mkAgentLiveAccessPolicy { AgentLiveAccessPolicy_Enabled : bool;
  AgentLiveAccessPolicy_MinimumMetricInterval : Duration; AgentLiveAccessPolicy_Signals : list string }.
#[export] Instance : Settable AgentLiveAccessPolicy := {| record_eta r := mkAgentLiveAccessPolicy
  (AgentLiveAccessPolicy_Enabled r) (AgentLiveAccessPolicy_MinimumMetricInterval r)
  (AgentLiveAccessPolicy_Signals r) |}.
Record VisualAccessPolicy := mkVisualAccessPolicy { VisualAccessPolicy_Screenshots : string;
  VisualAccessPolicy_LiveScreenMaxFPS : float64 }.
Record LiveAccessPolicy := mkLiveAccessPolicy { LiveAccessPolicy_Agent : AgentLiveAccessPolicy;
  LiveAccessPolicy_Visual : VisualAccessPolicy }.
#[export] Instance : Settable LiveAccessPolicy := {| record_eta r := mkLiveAccessPolicy
  (LiveAccessPolicy_Agent r) (LiveAccessPolicy_Visual r) |}.
Record AgentRequestsPolicy := mkAgentRequestsPolicy { AgentRequestsPolicy_Profiles : list string;
  AgentRequestsPolicy_NamedCaptures : list string }.
Record ObservationBuffers := mkObservationBuffers { ObservationBuffers_LiveSubscriberEvents : Z;
  ObservationBuffers_SegmentBytes : ByteQuantity; ObservationBuffers_PacketRingBytes : ByteQuantity }.
Record FilteredBoundedProfile := mkFilteredBoundedProfile { FilteredBoundedProfile_MaxDuration : Duration;
  FilteredBoundedProfile_MaxBytes : ByteQuantity; FilteredBoundedProfile_RequireFlowFilter : bool;
  FilteredBoundedProfile_SignalFamilies : list string }.
Record MitmproxyCapturePolicy := mkMitmproxyCapturePolicy { MitmproxyCapturePolicy_MaxDuration : Duration;
  MitmproxyCapturePolicy_MaxBytes : ByteQuantity; MitmproxyCapturePolicy_DecryptedPayloads : string;
  MitmproxyCapturePolicy_SignalFamilies : list string }.
Record FridaCapturePolicy := mkFridaCapturePolicy { FridaCapturePolicy_MaxDuration : Duration;
  FridaCapturePolicy_HostManagedCollectorScripts : string;
  FridaCapturePolicy_AgentInstalledInstrumentation : string;
  FridaCapturePolicy_SignalFamilies : list string }.
Record AllowedOnDemandPolicy := mkAllowedOnDemandPolicy {
  AllowedOnDemandPolicy_WorldLifecycle : BoundedProfile; AllowedOnDemandPolicy_Strace : BoundedProfile;
  AllowedOnDemandPolicy_Perfetto : BoundedProfile;
  AllowedOnDemandPolicy_PacketPayload : FilteredBoundedProfile;
  AllowedOnDemandPolicy_Mitmproxy : MitmproxyCapturePolicy;
  AllowedOnDemandPolicy_Frida : FridaCapturePolicy }.
Record TriggerCondition := mkTriggerCondition { TriggerCondition_Metric : string;
  TriggerCondition_Above : option float64; TriggerCondition_For : Duration; TriggerCondition_Event : string }.
Record ObservationTrigger := mkObservationTrigger { ObservationTrigger_Name : string;
  ObservationTrigger_When : TriggerCondition; ObservationTrigger_Actions : list string }.
Record BundlePolicy := mkBundlePolicy { BundlePolicy_RawCollectorOutputs : bool;
  BundlePolicy_NormalizedEvents : bool; BundlePolicy_TargetChangeManifest : bool;
  BundlePolicy_CollectorCoverageAndGaps : bool; BundlePolicy_DerivedAgentSummary : bool;
  BundlePolicy_SummaryMustCiteEvidence : bool }.
Record SensitivityPolicy := mkSensitivityPolicy { SensitivityPolicy_Default : string;
  SensitivityPolicy_DecryptedTraffic : string; SensitivityPolicy_Screenshots : string;
  SensitivityPolicy_Payloads : string }.
Record ObservationRetentionPolicy := mkObservationRetentionPolicy {
  ObservationRetentionPolicy_LiveLocal : Duration; ObservationRetentionPolicy_FinalizeToArtifactStore : bool;
  ObservationRetentionPolicy_DeleteLocalAfterArtifactAck : bool }.
#[export] Instance : Settable ObservationRetentionPolicy := {| record_eta r := mkObservationRetentionPolicy
  (ObservationRetentionPolicy_LiveLocal r) (ObservationRetentionPolicy_FinalizeToArtifactStore r)
  (ObservationRetentionPolicy_DeleteLocalAfterArtifactAck r) |}.
Record ObservationPolicy := mkObservationPolicy { ObservationPolicy_Priority : string;
  ObservationPolicy_RequiredCoverage : gmap string (list string);
  ObservationPolicy_Profiles : ObservationProfiles; ObservationPolicy_Baseline : list string;
  ObservationPolicy_Collectors : CollectorPolicies; ObservationPolicy_Metrics : MetricsPolicy;
  ObservationPolicy_LiveAccess : LiveAccessPolicy; ObservationPolicy_AgentRequests : AgentRequestsPolicy;
  ObservationPolicy_Buffers : ObservationBuffers; ObservationPolicy_AllowedOnDemand : AllowedOnDemandPolicy;
  ObservationPolicy_Triggers : list ObservationTrigger; ObservationPolicy_Bundles : BundlePolicy;
  ObservationPolicy_Sensitivity : SensitivityPolicy;
  ObservationPolicy_Retention : ObservationRetentionPolicy }.
#[export] Instance : Settable ObservationPolicy := {| record_eta r := mkObservationPolicy
  (ObservationPolicy_Priority r) (ObservationPolicy_RequiredCoverage r) (ObservationPolicy_Profiles r)
  (ObservationPolicy_Baseline r) (ObservationPolicy_Collectors r) (ObservationPolicy_Metrics r)
  (ObservationPolicy_LiveAccess r) (ObservationPolicy_AgentRequests r) (ObservationPolicy_Buffers r)
  (ObservationPolicy_AllowedOnDemand r) (ObservationPolicy_Triggers r) (ObservationPolicy_Bundles r)
  (ObservationPolicy_Sensitivity r) (ObservationPolicy_Retention r) |}.
Record IncidentRecoveryPolicy := mkIncidentRecoveryPolicy {
  IncidentRecoveryPolicy_AgentWorkspaceFailure : string; IncidentRecoveryPolicy_LinuxTargetFailure : string;
  IncidentRecoveryPolicy_AndroidRuntimeFailure : string; IncidentRecoveryPolicy_TargetWorkloadExit : string;
  IncidentRecoveryPolicy_AndroidAppCrash : string; IncidentRecoveryPolicy_ObserverFailure : string }.
Record IncidentsPolicy := mkIncidentsPolicy { IncidentsPolicy_MinimumEvidence : list string;
  IncidentsPolicy_Recovery : IncidentRecoveryPolicy }.
Record StopAdmissionPolicy := mkStopAdmissionPolicy { StopAdmissionPolicy_MemoryPSIFull : Ratio;
  StopAdmissionPolicy_IOPSIFull : Ratio; StopAdmissionPolicy_FreeDiskPercent : Percent }.
Record PressurePolicy := mkPressurePolicy { PressurePolicy_ReserveHostMemory : ByteQuantity;
  PressurePolicy_StopAdmissionOn : StopAdmissionPolicy; PressurePolicy_ShedOrder : list string }.
Record PolicySpec := mkPolicySpec { PolicySpec_Lease : LeasePolicy;
  PolicySpec_AgentWorkspace : AgentWorkspacePolicy; PolicySpec_Workspace : WorkspacePolicy;
  PolicySpec_Targets : TargetsPolicy; PolicySpec_Resources : AggregateResources;
  PolicySpec_Observation : ObservationPolicy; PolicySpec_Incidents : IncidentsPolicy;
  PolicySpec_Pressure : PressurePolicy }.
#[export] Instance : Settable PolicySpec := {| record_eta r := mkPolicySpec (PolicySpec_Lease r)
  (PolicySpec_AgentWorkspace r) (PolicySpec_Workspace r) (PolicySpec_Targets r) (PolicySpec_Resources r)
  (PolicySpec_Observation r) (PolicySpec_Incidents r) (PolicySpec_Pressure r) |}.
Record Policy := mkPolicy { Policy_APIVersion : string; Policy_Kind : string;
  Policy_Metadata : PolicyMetadata; Policy_Spec : PolicySpec }.
#[export] Instance : Settable Policy := {| record_eta r := mkPolicy (Policy_APIVersion r) (Policy_Kind r)
  (Policy_Metadata r) (Policy_Spec r) |}.
