(* ===== verification/PolicyRules.v ===== *)
(** * Defaults and validation of a policy

    [policy/errors.go], [policy/validate.go], [policy/defaults.go] and
    [internal/androidcontract].  A validator returns the problems it adds to the
    collector, in order; a message is kept as its format and arguments. *)
From Stdlib Require Import Ascii String.
From S2P Require Import Prelude GoStrings Ids GoText Policy.
Local Open Scope Z_scope.

(** ** Problems *)
Inductive arg := AString (s : string) | AInt (z : Z) | ABool (b : bool) | AError (text : string).

Record FieldError := mkFieldError {
  fe_Path : string; fe_Message : string; fe_Args : list arg; fe_Line : Z; fe_Column : Z }.

Record sourcePosition := mkPosition { sp_line : Z; sp_column : Z }.

(** Where the fields of the document stand in the source text. *)
Class Positions := source_positions : gmap string sourcePosition.

(** ** Limits of managed Android devices *)
Definition Mebibyte : Z := 1048576.
Definition MinimumHostCPUMilli : Z := 1000.
Definition MaximumHostCPUMilli : Z := 64000.
Definition MinimumGuestMemoryMiB : Z := 1536.
Definition MaximumGuestMemoryMiB : Z := 8192.
Definition MinimumDataPartitionMiB : Z := 64.
Definition MaximumDataPartitionMiB : Z := 2047.

Definition ValidateHostCPUMilli (value : Z) : bool :=
  negb ((value <? MinimumHostCPUMilli) || (MaximumHostCPUMilli <? value) || negb (Z.rem value 1000 =? 0)).
Definition ValidateGuestMemoryBytes (value : Z) : bool :=
  let memoryMiB := Z.quot value Mebibyte in
  negb (negb (Z.rem value Mebibyte =? 0) || (memoryMiB <? MinimumGuestMemoryMiB) || (MaximumGuestMemoryMiB <? memoryMiB)).
Definition ValidateDataPartitionBytes (value : Z) : bool :=
  let partitionMiB := Z.quot value Mebibyte in
  negb (negb (Z.rem value Mebibyte =? 0) || (partitionMiB <? MinimumDataPartitionMiB)
        || (MaximumDataPartitionMiB <? partitionMiB)).

(** [multiplyAdd]: a sum and whether it overflows int64. *)
Definition MaxInt64 : Z := 9223372036854775807.
Definition multiplyAdd (base perItem count : Z) : Z * bool :=
  if (base <? 0) || (perItem <? 0) || (count <? 0)
     || (negb (perItem =? 0) && (Z.quot (MaxInt64 - base) perItem <? count))
  then (0, true) else (base + perItem * count, false).

Definition valueOrNaN (value : option float64) : float64 := default f_nan value.

Section Collector.
Context `{Positions}.

Definition add (path format : string) (args : list arg) : list FieldError :=
  let position := default (mkPosition 0 0) (source_positions !! path) in
  [mkFieldError path format args (sp_line position) (sp_column position)].

(** [for index, value := range values] *)
Fixpoint each_index {A} (f : nat -> A -> list FieldError) (index : nat) (values : list A) : list FieldError :=
  match values with
  | [] => []
  | value :: values => f index value ++ each_index f (S index) values
  end.

Definition required (path value : string) : list FieldError :=
  if blank value then add path "must not be empty" [] else [].
Definition equal (path actual expected : string) : list FieldError :=
  if negb (bool_decide (actual = expected)) then add path "must be %q, got %q" [AString expected; AString actual] else [].
Definition oneOf (path actual : string) (expected : list string) : list FieldError :=
  if bool_decide (actual ∈ expected) then []
  else add path "must be one of %s, got %q" [AString (join ", " expected); AString actual].
Definition mustTrue (path : string) (value : bool) : list FieldError :=
  if negb value then add path "must be true" [] else [].
Definition mustEmpty (path value reason : string) : list FieldError :=
  if negb (bool_decide (value = "")) then add path reason [] else [].
Definition positiveInt (path : string) (value : Z) : list FieldError :=
  if value <=? 0 then add path "must be greater than zero" [] else [].
Definition rangeInt (path : string) (value minimum maximum : Z) : list FieldError :=
  if (value <? minimum) || (maximum <? value)
  then add path "must be between %d and %d" [AInt minimum; AInt maximum] else [].
Definition positiveCPU (path : string) (value : CPUQuantity) : list FieldError :=
  if value <=? 0 then add path "must be greater than zero" [] else [].
Definition positiveBytes (path : string) (value : ByteQuantity) : list FieldError :=
  if value <=? 0 then add path "must be greater than zero" [] else [].
Definition nonNegativeBytes (path : string) (value : ByteQuantity) : list FieldError :=
  if value <? 0 then add path "must not be negative" [] else [].
Definition positiveDuration (path : string) (value : Duration) : list FieldError :=
  if value <=? 0 then add path "must be greater than zero" [] else [].
Definition percentStrict (path : string) (value : Percent) : list FieldError :=
  if f_le value f_zero || f_le f_hundred value then add path "must be greater than 0 and less than 100" [] else [].
Definition requestWithinLimit (requestPath : string) (request : Z) (limitPath : string) (limit : Z) : list FieldError :=
  if (limit <? request) && (0 <? limit) then add requestPath "must not exceed %s" [AString limitPath] else [].

Fixpoint unique_loop (path : string) (index : nat) (seen values : list string) : list FieldError :=
  match values with
  | [] => []
  | value :: values =>
      let itemPath := indexed path index in
      (if blank value then add itemPath "must not be empty" [] else []) ++
      (if bool_decide (value ∈ seen) then add itemPath "duplicate value %q" [AString value] else []) ++
      unique_loop path (S index) (value :: seen) values
  end.
Definition uniqueStrings (path : string) (values : list string) (requireNonEmpty : bool) : list FieldError :=
  (if requireNonEmpty && bool_decide (values = []) then add path "must not be empty" [] else []) ++
  unique_loop path 0 [] values.

Fixpoint requireMembers (path : string) (values required : list string) : list FieldError :=
  match required with
  | [] => []
  | value :: required =>
      (if negb (bool_decide (value ∈ values)) then add path "must contain %q" [AString value] else []) ++
      requireMembers path values required
  end.
Definition requiredDenials (path : string) (values required : list string) : list FieldError :=
  uniqueStrings path values true ++ requireMembers path values required.
Definition linuxCapabilities (path : string) (capabilities : LinuxCapabilities) : list FieldError :=
  uniqueStrings (path +:+ ".drop") (LinuxCapabilities_Drop capabilities) true ++
  uniqueStrings (path +:+ ".add") (LinuxCapabilities_Add capabilities) false ++
  requireMembers (path +:+ ".drop") (LinuxCapabilities_Drop capabilities) ["ALL"].
Definition user (path value : string) : list FieldError :=
  if negb (userPattern value) then add path "must be a numeric uid:gid pair" [] else [].

Definition pinnedImage (path value : string) : list FieldError :=
  required path value ++
  let unpinned := add path "must be pinned by an @sha256: digest" [] in
  match LastIndex value "@sha256:" with
  | None => unpinned
  | Some index =>
      let name := string_take index value in
      if (index <? 1)%nat || negb (CountByte value "@" =? 1)%nat || negb (bool_decide (TrimSpace name = name))
         || ContainsAny name (" " +:+ String (chr 9) (String (chr 13) (String (chr 10) "")))
      then unpinned
      else if is_ok (ParseDigest (string_drop (index + 1) value)) then []
      else add path "must be pinned by an exact 64-hex-character sha256 digest" []
  end.
Definition digestReference (path value : string) : list FieldError :=
  if is_ok (ParseDigest value) then [] else add path "must be a sha256: digest reference" [].
Definition absoluteGuestPath (path value : string) : list FieldError :=
  if bool_decide (value = "") || negb (HasPrefix value "/") || negb (bool_decide (path_Clean value = value))
     || ContainsByte value backslash
  then add path "must be a clean absolute guest path" [] else [].
Definition withinCaptureLimit (path : string) (value limit : ByteQuantity) : list FieldError :=
  if (0 <? limit) && (limit <? value) then add path "must not exceed spec.resources.aggregateLimits.captureBytes" [] else [].
Definition boundedProfile (path : string) (profile : BoundedProfile) (captureLimit : ByteQuantity) : list FieldError :=
  positiveDuration (path +:+ ".maxDuration") (BoundedProfile_MaxDuration profile) ++
  positiveBytes (path +:+ ".maxBytes") (BoundedProfile_MaxBytes profile) ++
  withinCaptureLimit (path +:+ ".maxBytes") (BoundedProfile_MaxBytes profile) captureLimit ++
  uniqueStrings (path +:+ ".signalFamilies") (BoundedProfile_SignalFamilies profile) true.

(** ** Sections of the document *)
Definition validateLease (policy : LeasePolicy) : list FieldError :=
  positiveDuration "spec.lease.ttl" (LeasePolicy_TTL policy) ++
  rangeInt "spec.lease.priority" (LeasePolicy_Priority policy) 0 100 ++
  positiveDuration "spec.lease.quiesceDeadline" (LeasePolicy_QuiesceDeadline policy) ++
  (if (0 <? LeasePolicy_TTL policy) && (LeasePolicy_TTL policy <? LeasePolicy_QuiesceDeadline policy)
   then add "spec.lease.quiesceDeadline" "must not exceed spec.lease.ttl" [] else []).

Definition validateAgentWorkspace (policy : AgentWorkspacePolicy) : list FieldError :=
  let runtime := AgentWorkspacePolicy_Runtime policy in
  let network := AgentWorkspacePolicy_Network policy in
  let requests := AgentResourcesPolicy_Requests (AgentWorkspacePolicy_Resources policy) in
  let limits := AgentResourcesPolicy_Limits (AgentWorkspacePolicy_Resources policy) in
  equal "spec.agentWorkspace.runtime.driver" (AgentRuntimePolicy_Driver runtime) "docker" ++
  pinnedImage "spec.agentWorkspace.runtime.image" (AgentRuntimePolicy_Image runtime) ++
  equal "spec.agentWorkspace.runtime.isolationProfile" (AgentRuntimePolicy_IsolationProfile runtime) "agent-standard" ++
  equal "spec.agentWorkspace.runtime.rootFilesystem" (AgentRuntimePolicy_RootFilesystem runtime) "readOnly" ++
  user "spec.agentWorkspace.runtime.user" (AgentRuntimePolicy_User runtime) ++
  linuxCapabilities "spec.agentWorkspace.runtime.capabilities" (AgentRuntimePolicy_Capabilities runtime) ++
  mustTrue "spec.agentWorkspace.runtime.noNewPrivileges" (AgentRuntimePolicy_NoNewPrivileges runtime) ++
  required "spec.agentWorkspace.runtime.seccompProfile" (AgentRuntimePolicy_SeccompProfile runtime) ++
  oneOf "spec.agentWorkspace.network.mode" (AgentNetworkPolicy_Mode network) ["restricted-egress"; "none"] ++
  uniqueStrings "spec.agentWorkspace.network.allowedCIDRs" (AgentNetworkPolicy_AllowedCIDRs network) false ++
  each_index (fun index cidr =>
    if ParseCIDR cidr then []
    else add (indexed "spec.agentWorkspace.network.allowedCIDRs" index) "invalid CIDR %q" [AString cidr])
    0 (AgentNetworkPolicy_AllowedCIDRs network) ++
  uniqueStrings "spec.agentWorkspace.network.allowedDomains" (AgentNetworkPolicy_AllowedDomains network) false ++
  (if bool_decide (AgentNetworkPolicy_Mode network = "none")
   then equal "spec.agentWorkspace.network.targetAccess" (AgentNetworkPolicy_TargetAccess network) "none"
   else equal "spec.agentWorkspace.network.targetAccess" (AgentNetworkPolicy_TargetAccess network)
          "scoped-gateway-and-declared-endpoints") ++
  positiveCPU "spec.agentWorkspace.resources.requests.cpu" (AgentResourceRequests_CPU requests) ++
  positiveBytes "spec.agentWorkspace.resources.requests.memory" (AgentResourceRequests_Memory requests) ++
  positiveBytes "spec.agentWorkspace.resources.requests.workspace" (AgentResourceRequests_Workspace requests) ++
  positiveCPU "spec.agentWorkspace.resources.limits.cpu" (AgentResourceLimits_CPU limits) ++
  positiveBytes "spec.agentWorkspace.resources.limits.memory" (AgentResourceLimits_Memory limits) ++
  nonNegativeBytes "spec.agentWorkspace.resources.limits.swap" (AgentResourceLimits_Swap limits) ++
  positiveInt "spec.agentWorkspace.resources.limits.pids" (AgentResourceLimits_PIDs limits) ++
  positiveBytes "spec.agentWorkspace.resources.limits.workspace" (AgentResourceLimits_Workspace limits) ++
  positiveInt "spec.agentWorkspace.resources.limits.workspaceInodes" (AgentResourceLimits_WorkspaceInodes limits) ++
  requestWithinLimit "spec.agentWorkspace.resources.requests.cpu" (AgentResourceRequests_CPU requests)
    "spec.agentWorkspace.resources.limits.cpu" (AgentResourceLimits_CPU limits) ++
  requestWithinLimit "spec.agentWorkspace.resources.requests.memory" (AgentResourceRequests_Memory requests)
    "spec.agentWorkspace.resources.limits.memory" (AgentResourceLimits_Memory limits) ++
  requestWithinLimit "spec.agentWorkspace.resources.requests.workspace" (AgentResourceRequests_Workspace requests)
    "spec.agentWorkspace.resources.limits.workspace" (AgentResourceLimits_Workspace limits).

Definition validateWorkspace (policy : WorkspacePolicy) : list FieldError :=
  let input := WorkspacePolicy_InputView policy in
  let cache := WorkspacePolicy_Cache policy in
  let export := WorkspacePolicy_Export policy in
  oneOf "spec.workspace.mode" (WorkspacePolicy_Mode policy) ["overlayfs"; "directory-copy-non-production"] ++
  equal "spec.workspace.inputView.source" (InputViewPolicy_Source input) "frozen-artifact-selection" ++
  required "spec.workspace.inputView.layout" (InputViewPolicy_Layout input) ++
  required "spec.workspace.inputView.cacheScope" (InputViewPolicy_CacheScope input) ++
  oneOf "spec.workspace.inputView.construction" (InputViewPolicy_Construction input) ["require-reflink"; "allow-copy"] ++
  (if bool_decide (WorkspacePolicy_Mode policy = "directory-copy-non-production")
      && negb (bool_decide (InputViewPolicy_Construction input = "allow-copy"))
   then add "spec.workspace.inputView.construction" "directory-copy-non-production requires allow-copy" [] else []) ++
  mustTrue "spec.workspace.inputView.reuseExactView" (InputViewPolicy_ReuseExactView input) ++
  mustTrue "spec.workspace.inputView.verifyBeforeMount" (InputViewPolicy_VerifyBeforeMount input) ++
  mustTrue "spec.workspace.inputView.verifyAfterRun" (InputViewPolicy_VerifyAfterRun input) ++
  positiveDuration "spec.workspace.inputView.viewRetention" (InputViewPolicy_ViewRetention input) ++
  positiveBytes "spec.workspace.cache.maxBytes" (WorkspaceCachePolicy_MaxBytes cache) ++
  percentStrict "spec.workspace.cache.highWaterPercent" (WorkspaceCachePolicy_HighWaterPercent cache) ++
  percentStrict "spec.workspace.cache.lowWaterPercent" (WorkspaceCachePolicy_LowWaterPercent cache) ++
  (if f_lt f_zero (WorkspaceCachePolicy_HighWaterPercent cache)
      && f_le (WorkspaceCachePolicy_HighWaterPercent cache) (WorkspaceCachePolicy_LowWaterPercent cache)
   then add "spec.workspace.cache.lowWaterPercent" "must be less than spec.workspace.cache.highWaterPercent" [] else []) ++
  mustTrue "spec.workspace.cache.verifyOnPopulate" (WorkspaceCachePolicy_VerifyOnPopulate cache) ++
  oneOf "spec.workspace.cache.reverify" (WorkspaceCachePolicy_Reverify cache) ["on-uncertain-integrity"; "always"] ++
  oneOf "spec.workspace.export.declaration" (WorkspaceExportPolicy_Declaration export) ["agent-or-host"; "host-only"] ++
  mustTrue "spec.workspace.export.regularFilesOnly" (WorkspaceExportPolicy_RegularFilesOnly export) ++
  positiveInt "spec.workspace.export.maxFiles" (WorkspaceExportPolicy_MaxFiles export) ++
  positiveBytes "spec.workspace.export.maxBytes" (WorkspaceExportPolicy_MaxBytes export) ++
  mustTrue "spec.workspace.export.retainFullChangeManifest" (WorkspaceExportPolicy_RetainFullChangeManifest export).

Definition validateLinuxTemplate (base : string) (template : TargetTemplate) : list FieldError :=
  let runtime := TargetTemplate_Runtime template in
  let interaction := TargetTemplate_Interaction template in
  equal (base +:+ ".runtime.driver") (TargetRuntimePolicy_Driver runtime) "docker" ++
  equal (base +:+ ".runtime.runtime") (TargetRuntimePolicy_Runtime runtime) "runc" ++
  pinnedImage (base +:+ ".runtime.image") (TargetRuntimePolicy_Image runtime) ++
  equal (base +:+ ".runtime.isolationProfile") (TargetRuntimePolicy_IsolationProfile runtime) "observable-container" ++
  equal (base +:+ ".runtime.baseImage") (TargetRuntimePolicy_BaseImage runtime) "readOnly" ++
  user (base +:+ ".runtime.user") (TargetRuntimePolicy_User runtime) ++
  linuxCapabilities (base +:+ ".runtime.capabilities") (TargetRuntimePolicy_Capabilities runtime) ++
  mustTrue (base +:+ ".runtime.noNewPrivileges") (TargetRuntimePolicy_NoNewPrivileges runtime) ++
  required (base +:+ ".runtime.seccompProfile") (TargetRuntimePolicy_SeccompProfile runtime) ++
  mustEmpty (base +:+ ".runtime.systemImageDigest") (TargetRuntimePolicy_SystemImageDigest runtime)
    "is an Android-only field" ++
  mustEmpty (base +:+ ".runtime.baselineState") (TargetRuntimePolicy_BaselineState runtime) "is an Android-only field" ++
  (if TargetRuntimePolicy_RequireHardwareAcceleration runtime || TargetRuntimePolicy_Rooted runtime
      || TargetRuntimePolicy_Debuggable runtime || TargetRuntimePolicy_Headless runtime
      || negb (TargetRuntimePolicy_GuestMemory runtime =? 0) || negb (TargetRuntimePolicy_BootTimeout runtime =? 0)
   then add (base +:+ ".runtime") "contains Android-only runtime fields" [] else []) ++
  absoluteGuestPath (base +:+ ".material.mountPoint") (TargetMaterialPolicy_MountPoint (TargetTemplate_Material template)) ++
  oneOf (base +:+ ".material.writableState") (TargetMaterialPolicy_WritableState (TargetTemplate_Material template))
    ["private-overlay"; "private-directory-non-production"] ++
  equal (base +:+ ".interaction.commandAuthority") (TargetInteraction_CommandAuthority interaction)
    "arbitrary-inside-assigned-target" ++
  equal (base +:+ ".interaction.execTransport") (TargetInteraction_ExecTransport interaction)
    "direct-argv-and-explicit-shell" ++
  equal (base +:+ ".interaction.fileTransfer") (TargetInteraction_FileTransfer interaction) "push-pull-target-relative" ++
  oneOf (base +:+ ".interaction.networkEndpoints") (TargetInteraction_NetworkEndpoints interaction)
    ["policy-declared"; "none"] ++
  mustEmpty (base +:+ ".interaction.adb") (TargetInteraction_ADB interaction) "is an Android-only field" ++
  mustEmpty (base +:+ ".interaction.deviceScopedADBServices") (TargetInteraction_DeviceScopedADBServices interaction)
    "is an Android-only field" ++
  requiredDenials (base +:+ ".interaction.deniedInfrastructureAuthority")
    (TargetInteraction_DeniedInfrastructureAuthority interaction)
    ["host-exec"; "docker-api"; "host-mounts"; "other-targets"] ++
  positiveInt (base +:+ ".resources.limits.pids")
    (TargetResourceLimits_PIDs (TargetResourcesPolicy_Limits (TargetTemplate_Resources template))) ++
  oneOf (base +:+ ".reset.mode") (TargetResetPolicy_Mode (TargetTemplate_Reset template)) ["recreate-new-target-generation"].

Definition guest_memory_error : string :=
  "Android guest memory must be from 1536 to 8192 MiB inclusive and exactly MiB-aligned".
Definition host_cpu_error : string :=
  "managed Android host CPU must be an exact whole-vCPU value from 1000 to 64000 milli-CPU".
Definition data_partition_error : string :=
  "Android guest data partition must be from 64 to 2047 MiB inclusive and exactly MiB-aligned".

Definition validateAndroidTemplate (base : string) (template : TargetTemplate) : list FieldError :=
  let runtime := TargetTemplate_Runtime template in
  let interaction := TargetTemplate_Interaction template in
  let limits := TargetResourcesPolicy_Limits (TargetTemplate_Resources template) in
  let capabilities := TargetRuntimePolicy_Capabilities runtime in
  equal (base +:+ ".runtime.driver") (TargetRuntimePolicy_Driver runtime) "android-emulator" ++
  digestReference (base +:+ ".runtime.systemImageDigest") (TargetRuntimePolicy_SystemImageDigest runtime) ++
  equal (base +:+ ".runtime.isolationProfile") (TargetRuntimePolicy_IsolationProfile runtime) "instrumented-android" ++
  equal (base +:+ ".runtime.baselineState") (TargetRuntimePolicy_BaselineState runtime) "clean-boot" ++
  mustTrue (base +:+ ".runtime.requireHardwareAcceleration") (TargetRuntimePolicy_RequireHardwareAcceleration runtime) ++
  mustTrue (base +:+ ".runtime.headless") (TargetRuntimePolicy_Headless runtime) ++
  mustTrue (base +:+ ".runtime.rooted") (TargetRuntimePolicy_Rooted runtime) ++
  mustTrue (base +:+ ".runtime.debuggable") (TargetRuntimePolicy_Debuggable runtime) ++
  (if ValidateGuestMemoryBytes (TargetRuntimePolicy_GuestMemory runtime) then []
   else add (base +:+ ".runtime.guestMemory") "%v" [AError guest_memory_error]) ++
  (if ValidateHostCPUMilli (TargetResourceLimits_CPU limits) then []
   else add (base +:+ ".resources.limits.cpu") "%v" [AError host_cpu_error]) ++
  (if ValidateDataPartitionBytes (TargetResourceLimits_WritableState limits) then []
   else add (base +:+ ".resources.limits.writableState") "%v" [AError data_partition_error]) ++
  positiveDuration (base +:+ ".runtime.bootTimeout") (TargetRuntimePolicy_BootTimeout runtime) ++
  (if negb (bool_decide (TargetRuntimePolicy_Runtime runtime = "")) || negb (bool_decide (TargetRuntimePolicy_Image runtime = ""))
      || negb (bool_decide (TargetRuntimePolicy_BaseImage runtime = "")) || negb (bool_decide (TargetRuntimePolicy_User runtime = ""))
      || negb (bool_decide (LinuxCapabilities_Drop capabilities = [])) || negb (bool_decide (LinuxCapabilities_Add capabilities = []))
      || TargetRuntimePolicy_NoNewPrivileges runtime || negb (bool_decide (TargetRuntimePolicy_SeccompProfile runtime = ""))
   then add (base +:+ ".runtime") "contains Linux-container-only runtime fields" [] else []) ++
  mustEmpty (base +:+ ".material.mountPoint") (TargetMaterialPolicy_MountPoint (TargetTemplate_Material template))
    "is a Linux-container-only field" ++
  equal (base +:+ ".material.writableState") (TargetMaterialPolicy_WritableState (TargetTemplate_Material template))
    "guest-data-partition" ++
  equal (base +:+ ".interaction.commandAuthority") (TargetInteraction_CommandAuthority interaction)
    "arbitrary-inside-assigned-device" ++
  equal (base +:+ ".interaction.adb") (TargetInteraction_ADB interaction) "scoped-gateway" ++
  equal (base +:+ ".interaction.deviceScopedADBServices") (TargetInteraction_DeviceScopedADBServices interaction) "arbitrary" ++
  equal (base +:+ ".interaction.fileTransfer") (TargetInteraction_FileTransfer interaction) "adb-sync-and-scoped-stream" ++
  mustEmpty (base +:+ ".interaction.execTransport") (TargetInteraction_ExecTransport interaction)
    "is a Linux-container-only field" ++
  mustEmpty (base +:+ ".interaction.networkEndpoints") (TargetInteraction_NetworkEndpoints interaction)
    "is a Linux-container-only field" ++
  requiredDenials (base +:+ ".interaction.deniedInfrastructureAuthority")
    (TargetInteraction_DeniedInfrastructureAuthority interaction)
    ["host-adb-server-control"; "other-serials"; "raw-usb"; "host-exec"] ++
  (if negb (TargetResourceLimits_PIDs limits =? 0) || negb (TargetResourceLimits_Swap limits =? 0)
   then add (base +:+ ".resources.limits") "pids and swap are Linux-container-only limits" [] else []) ++
  oneOf (base +:+ ".reset.mode") (TargetResetPolicy_Mode (TargetTemplate_Reset template)) ["baseline-new-target-generation"].

(** One round of the loop over the templates; [seenNames] are the earlier names. *)
Definition validateTemplate (aggregate : AggregateResourceLimits) (index : nat) (seenNames : list string)
    (template : TargetTemplate) : list FieldError :=
  let base := indexed "spec.targets.templates" index in
  let limits := TargetResourcesPolicy_Limits (TargetTemplate_Resources template) in
  required (base +:+ ".name") (TargetTemplate_Name template) ++
  (if bool_decide (TargetTemplate_Name template ∈ seenNames) && negb (bool_decide (TargetTemplate_Name template = ""))
   then add (base +:+ ".name") "duplicate target template name %q" [AString (TargetTemplate_Name template)] else []) ++
  oneOf (base +:+ ".kind") (TargetTemplate_Kind template) ["linux-container"; "android-virtual-device"] ++
  (if bool_decide (TargetTemplate_Kind template = "linux-container") then validateLinuxTemplate base template else
   if bool_decide (TargetTemplate_Kind template = "android-virtual-device") then validateAndroidTemplate base template
   else []) ++
  positiveCPU (base +:+ ".resources.limits.cpu") (TargetResourceLimits_CPU limits) ++
  positiveBytes (base +:+ ".resources.limits.memory") (TargetResourceLimits_Memory limits) ++
  nonNegativeBytes (base +:+ ".resources.limits.swap") (TargetResourceLimits_Swap limits) ++
  positiveBytes (base +:+ ".resources.limits.writableState") (TargetResourceLimits_WritableState limits) ++
  (if (AggregateResourceLimits_CPU aggregate <? TargetResourceLimits_CPU limits) && (0 <? AggregateResourceLimits_CPU aggregate)
   then add (base +:+ ".resources.limits.cpu") "must not exceed spec.resources.aggregateLimits.cpu" [] else []) ++
  (if (AggregateResourceLimits_Memory aggregate <? TargetResourceLimits_Memory limits)
      && (0 <? AggregateResourceLimits_Memory aggregate)
   then add (base +:+ ".resources.limits.memory") "must not exceed spec.resources.aggregateLimits.memory" [] else []).

Fixpoint validate_templates (aggregate : AggregateResourceLimits) (index : nat) (seenNames : list string)
    (templates : list TargetTemplate) : list FieldError :=
  match templates with
  | [] => []
  | template :: templates =>
      validateTemplate aggregate index seenNames template ++
      validate_templates aggregate (S index) (TargetTemplate_Name template :: seenNames) templates
  end.

Definition validateTargets (policy : TargetsPolicy) (resources : AggregateResources) : list FieldError :=
  let transfer := TargetsPolicy_MaterialTransfer policy in
  positiveInt "spec.targets.maxConcurrent" (TargetsPolicy_MaxConcurrent policy) ++
  equal "spec.targets.materialTransfer.source" (MaterialTransferPolicy_Source transfer) "declared-artifact-occurrences" ++
  equal "spec.targets.materialTransfer.agentWorkspacePush" (MaterialTransferPolicy_AgentWorkspacePush transfer)
    "allowed-beneath-workspace-recorded" ++
  positiveBytes "spec.targets.materialTransfer.maxTransferBytesPerRun"
    (MaterialTransferPolicy_MaxTransferBytesPerRun transfer) ++
  mustTrue "spec.targets.materialTransfer.verifyBeforeRun" (MaterialTransferPolicy_VerifyBeforeRun transfer) ++
  (if bool_decide (List.length (TargetsPolicy_Templates policy) = 0%nat)
   then add "spec.targets.templates" "must contain at least one target template" [] else []) ++
  validate_templates (AggregateResources_AggregateLimits resources) 0 [] (TargetsPolicy_Templates policy).

Definition template_limits (template : TargetTemplate) : TargetResourceLimits :=
  TargetResourcesPolicy_Limits (TargetTemplate_Resources template).
(** The loop that keeps the largest value seen, starting at 0. *)
Definition largest (f : TargetTemplate -> Z) (templates : list TargetTemplate) : Z :=
  fold_left (fun best template => if best <? f template then f template else best) templates 0.

Definition exceeds (p : Z * bool) (limit : Z) : bool := p.2 || (limit <? p.1).

Definition validateAggregateResources (policy : AggregateResources) (agent : AgentWorkspacePolicy)
    (targets : TargetsPolicy) : list FieldError :=
  let limits := AggregateResources_AggregateLimits policy in
  let agentLimits := AgentResourcesPolicy_Limits (AgentWorkspacePolicy_Resources agent) in
  let largestTargetCPU := largest (fun t => TargetResourceLimits_CPU (template_limits t)) (TargetsPolicy_Templates targets) in
  let largestTargetMemory := largest (fun t => TargetResourceLimits_Memory (template_limits t)) (TargetsPolicy_Templates targets) in
  positiveCPU "spec.resources.aggregateLimits.cpu" (AggregateResourceLimits_CPU limits) ++
  positiveBytes "spec.resources.aggregateLimits.memory" (AggregateResourceLimits_Memory limits) ++
  positiveBytes "spec.resources.aggregateLimits.captureBytes" (AggregateResourceLimits_CaptureBytes limits) ++
  (if (AggregateResourceLimits_CPU limits <? AgentResourceLimits_CPU agentLimits) && (0 <? AggregateResourceLimits_CPU limits)
   then add "spec.agentWorkspace.resources.limits.cpu" "must not exceed spec.resources.aggregateLimits.cpu" [] else []) ++
  (if (AggregateResourceLimits_Memory limits <? AgentResourceLimits_Memory agentLimits)
      && (0 <? AggregateResourceLimits_Memory limits)
   then add "spec.agentWorkspace.resources.limits.memory" "must not exceed spec.resources.aggregateLimits.memory" [] else []) ++
  (if (AgentResourceLimits_Workspace agentLimits <? MaterialTransferPolicy_MaxTransferBytesPerRun
         (TargetsPolicy_MaterialTransfer targets)) && (0 <? AgentResourceLimits_Workspace agentLimits)
   then add "spec.targets.materialTransfer.maxTransferBytesPerRun" "must not exceed the agent workspace byte limit" []
   else []) ++
  (if exceeds (multiplyAdd (AgentResourceLimits_CPU agentLimits) largestTargetCPU (TargetsPolicy_MaxConcurrent targets))
        (AggregateResourceLimits_CPU limits)
   then add "spec.resources.aggregateLimits.cpu"
          "must cover the agent limit plus maxConcurrent instances of the largest target CPU limit" [] else []) ++
  (if exceeds (multiplyAdd (AgentResourceLimits_Memory agentLimits) largestTargetMemory (TargetsPolicy_MaxConcurrent targets))
        (AggregateResourceLimits_Memory limits)
   then add "spec.resources.aggregateLimits.memory"
          "must cover the agent limit plus maxConcurrent instances of the largest target memory limit" [] else []).
End Collector.
