(* ===== verification/PolicyObservation.v ===== *)
(** * Validation of the observation, incident and pressure sections

    The rest of [policy/validate.go], and [validatePolicy]. *)
From Stdlib Require Import Ascii String.
From S2P Require Import Prelude GoStrings GoText Policy PolicyRules.
Local Open Scope Z_scope.

Section Collector.
Context `{Positions}.

Definition target_kinds (targets : TargetsPolicy) : list string :=
  TargetTemplate_Kind <$> TargetsPolicy_Templates targets.

Definition sortedStringKeys {V} (values : gmap string V) : list string :=
  sort_Strings ((map_to_list values).*1).

(** [coverage[kind]]: an absent kind reads as no coverage. *)
Definition coverage_of (coverage : gmap string (list string)) (kind : string) : list string :=
  default [] (coverage !! kind).

Definition validateCoverage (coverage : gmap string (list string)) (targets : TargetsPolicy) : list FieldError :=
  mjoin ((fun kind =>
    let path := "spec.observation.requiredCoverage." +:+ kind in
    (if negb (bool_decide (kind ∈ target_kinds targets))
     then add path "coverage is declared for an unconfigured target kind" [] else []) ++
    uniqueStrings path (coverage_of coverage kind) true) <$> sortedStringKeys coverage) ++
  mjoin ((fun kind =>
    if bool_decide (kind ∈ target_kinds targets) && bool_decide (coverage_of coverage kind = [])
    then add ("spec.observation.requiredCoverage." +:+ kind) "must declare coverage for configured target kind %q"
           [AString kind] else []) <$> ["linux-container"; "android-virtual-device"]).

Definition validateCollectors (policy : CollectorPolicies) (targets : TargetsPolicy) (captureLimit : ByteQuantity)
    : list FieldError :=
  let linux := CollectorPolicies_LinuxMetadata policy in
  let android := CollectorPolicies_AndroidSystem policy in
  let hooks := CollectorPolicies_AndroidAppHooks policy in
  let packet := CollectorPolicies_PacketCapture policy in
  (if bool_decide ("linux-container" ∈ target_kinds targets) then
     required "spec.observation.collectors.linuxMetadata.adapter" (SingleCollectorPolicy_Adapter linux) ++
     equal "spec.observation.collectors.linuxMetadata.placement" (SingleCollectorPolicy_Placement linux) "host"
   else []) ++
  (if bool_decide ("android-virtual-device" ∈ target_kinds targets) then
     uniqueStrings "spec.observation.collectors.androidSystem.adapters" (MultiCollectorPolicy_Adapters android) true ++
     equal "spec.observation.collectors.androidSystem.placement" (MultiCollectorPolicy_Placement android) "guest" ++
     mustTrue "spec.observation.collectors.androidSystem.failRunOnCoverageLoss"
       (MultiCollectorPolicy_FailRunOnCoverageLoss android) ++
     required "spec.observation.collectors.androidAppHooks.adapter" (AppHookCollectorPolicy_Adapter hooks) ++
     equal "spec.observation.collectors.androidAppHooks.placement" (AppHookCollectorPolicy_Placement hooks) "injected-app" ++
     required "spec.observation.collectors.androidAppHooks.coverage" (AppHookCollectorPolicy_Coverage hooks)
   else []) ++
  required "spec.observation.collectors.packetCapture.adapter" (PacketCollectorPolicy_Adapter packet) ++
  equal "spec.observation.collectors.packetCapture.placement" (PacketCollectorPolicy_Placement packet)
    "host-network-namespace" ++
  positiveBytes "spec.observation.collectors.packetCapture.ringBytes" (PacketCollectorPolicy_RingBytes packet) ++
  withinCaptureLimit "spec.observation.collectors.packetCapture.ringBytes" (PacketCollectorPolicy_RingBytes packet)
    captureLimit ++
  required "spec.observation.collectors.protocolSummary.adapter"
    (ModeCollectorPolicy_Adapter (CollectorPolicies_ProtocolSummary policy)) ++
  required "spec.observation.collectors.protocolSummary.mode"
    (ModeCollectorPolicy_Mode (CollectorPolicies_ProtocolSummary policy)) ++
  required "spec.observation.collectors.mobileAnalysis.adapter"
    (ModeCollectorPolicy_Adapter (CollectorPolicies_MobileAnalysis policy)) ++
  required "spec.observation.collectors.mobileAnalysis.mode"
    (ModeCollectorPolicy_Mode (CollectorPolicies_MobileAnalysis policy)).

(** The windows are compared with their predecessor in the list. *)
Definition validate_window (windows : list Duration) (index : nat) (window : Duration) : list FieldError :=
  let path := indexed "spec.observation.metrics.rateWindows" index in
  positiveDuration path window ++
  (if (0 <? index)%nat && (window <=? default 0 (windows !! (index - 1)%nat))
   then add path "rate windows must be strictly increasing" [] else []).

Definition validateMetrics (policy : MetricsPolicy) : list FieldError :=
  positiveDuration "spec.observation.metrics.normalInterval" (MetricsPolicy_NormalInterval policy) ++
  positiveDuration "spec.observation.metrics.incidentInterval" (MetricsPolicy_IncidentInterval policy) ++
  positiveDuration "spec.observation.metrics.staleAfter" (MetricsPolicy_StaleAfter policy) ++
  (if (MetricsPolicy_NormalInterval policy <? MetricsPolicy_IncidentInterval policy)
      && (0 <? MetricsPolicy_NormalInterval policy)
   then add "spec.observation.metrics.incidentInterval" "must not exceed normalInterval" [] else []) ++
  (if (MetricsPolicy_StaleAfter policy <=? MetricsPolicy_NormalInterval policy) && (0 <? MetricsPolicy_NormalInterval policy)
   then add "spec.observation.metrics.staleAfter" "must be greater than normalInterval" [] else []) ++
  each_index (validate_window (MetricsPolicy_RateWindows policy)) 0 (MetricsPolicy_RateWindows policy) ++
  (if bool_decide (MetricsPolicy_RateWindows policy = [])
   then add "spec.observation.metrics.rateWindows" "must not be empty" [] else []) ++
  uniqueStrings "spec.observation.metrics.dimensions" (MetricsPolicy_Dimensions policy) true.

Definition validateLiveAccess (policy : LiveAccessPolicy) (metrics : MetricsPolicy) : list FieldError :=
  let agent := LiveAccessPolicy_Agent policy in
  let fps := VisualAccessPolicy_LiveScreenMaxFPS (LiveAccessPolicy_Visual policy) in
  (if AgentLiveAccessPolicy_Enabled agent then
     positiveDuration "spec.observation.liveAccess.agent.minimumMetricInterval"
       (AgentLiveAccessPolicy_MinimumMetricInterval agent) ++
     uniqueStrings "spec.observation.liveAccess.agent.signals" (AgentLiveAccessPolicy_Signals agent) true ++
     (if (MetricsPolicy_NormalInterval metrics <? AgentLiveAccessPolicy_MinimumMetricInterval agent)
         && (0 <? MetricsPolicy_NormalInterval metrics)
      then add "spec.observation.liveAccess.agent.minimumMetricInterval" "must not exceed normal metric interval" []
      else [])
   else []) ++
  required "spec.observation.liveAccess.visual.screenshots"
    (VisualAccessPolicy_Screenshots (LiveAccessPolicy_Visual policy)) ++
  (if IsNaN fps || IsInf fps || f_lt fps f_zero || f_lt f_thirty fps
   then add "spec.observation.liveAccess.visual.liveScreenMaxFps" "must be a finite value between 0 and 30" [] else []).

Definition named_captures : list string :=
  ["worldLifecycle"; "strace"; "perfetto"; "packetPayload"; "mitmproxy"; "frida"].

Definition validateAgentRequests (policy : AgentRequestsPolicy) : list FieldError :=
  uniqueStrings "spec.observation.agentRequests.profiles" (AgentRequestsPolicy_Profiles policy) false ++
  each_index (fun index profile =>
    if negb (bool_decide (profile = "deep")) && negb (bool_decide (profile = "payload"))
    then add (indexed "spec.observation.agentRequests.profiles" index) "unknown requestable profile %q" [AString profile]
    else []) 0 (AgentRequestsPolicy_Profiles policy) ++
  uniqueStrings "spec.observation.agentRequests.namedCaptures" (AgentRequestsPolicy_NamedCaptures policy) false ++
  each_index (fun index capture =>
    if negb (bool_decide (capture ∈ named_captures))
    then add (indexed "spec.observation.agentRequests.namedCaptures" index) "unknown named capture %q" [AString capture]
    else []) 0 (AgentRequestsPolicy_NamedCaptures policy).

Definition validateOnDemand (policy : AllowedOnDemandPolicy) (limit : ByteQuantity) : list FieldError :=
  let packet := AllowedOnDemandPolicy_PacketPayload policy in
  let mitmproxy := AllowedOnDemandPolicy_Mitmproxy policy in
  let frida := AllowedOnDemandPolicy_Frida policy in
  boundedProfile "spec.observation.allowedOnDemand.worldLifecycle" (AllowedOnDemandPolicy_WorldLifecycle policy) limit ++
  boundedProfile "spec.observation.allowedOnDemand.strace" (AllowedOnDemandPolicy_Strace policy) limit ++
  boundedProfile "spec.observation.allowedOnDemand.perfetto" (AllowedOnDemandPolicy_Perfetto policy) limit ++
  positiveDuration "spec.observation.allowedOnDemand.packetPayload.maxDuration" (FilteredBoundedProfile_MaxDuration packet) ++
  positiveBytes "spec.observation.allowedOnDemand.packetPayload.maxBytes" (FilteredBoundedProfile_MaxBytes packet) ++
  withinCaptureLimit "spec.observation.allowedOnDemand.packetPayload.maxBytes" (FilteredBoundedProfile_MaxBytes packet) limit ++
  mustTrue "spec.observation.allowedOnDemand.packetPayload.requireFlowFilter"
    (FilteredBoundedProfile_RequireFlowFilter packet) ++
  uniqueStrings "spec.observation.allowedOnDemand.packetPayload.signalFamilies"
    (FilteredBoundedProfile_SignalFamilies packet) true ++
  positiveDuration "spec.observation.allowedOnDemand.mitmproxy.maxDuration" (MitmproxyCapturePolicy_MaxDuration mitmproxy) ++
  positiveBytes "spec.observation.allowedOnDemand.mitmproxy.maxBytes" (MitmproxyCapturePolicy_MaxBytes mitmproxy) ++
  withinCaptureLimit "spec.observation.allowedOnDemand.mitmproxy.maxBytes" (MitmproxyCapturePolicy_MaxBytes mitmproxy) limit ++
  required "spec.observation.allowedOnDemand.mitmproxy.decryptedPayloads"
    (MitmproxyCapturePolicy_DecryptedPayloads mitmproxy) ++
  uniqueStrings "spec.observation.allowedOnDemand.mitmproxy.signalFamilies"
    (MitmproxyCapturePolicy_SignalFamilies mitmproxy) true ++
  positiveDuration "spec.observation.allowedOnDemand.frida.maxDuration" (FridaCapturePolicy_MaxDuration frida) ++
  equal "spec.observation.allowedOnDemand.frida.hostManagedCollectorScripts"
    (FridaCapturePolicy_HostManagedCollectorScripts frida) "pinned" ++
  equal "spec.observation.allowedOnDemand.frida.agentInstalledInstrumentation"
    (FridaCapturePolicy_AgentInstalledInstrumentation frida) "allowed-recorded-not-coverage-authority" ++
  uniqueStrings "spec.observation.allowedOnDemand.frida.signalFamilies" (FridaCapturePolicy_SignalFamilies frida) true.

(** One round of the loop over the triggers; [seen] are the earlier names. *)
Definition validate_trigger (index : nat) (seen : list string) (trigger : ObservationTrigger) : list FieldError :=
  let base := indexed "spec.observation.triggers" index in
  let when := ObservationTrigger_When trigger in
  let above := TriggerCondition_Above when in
  let hasMetric := negb (bool_decide (TriggerCondition_Metric when = "")) in
  let hasEvent := negb (bool_decide (TriggerCondition_Event when = "")) in
  required (base +:+ ".name") (ObservationTrigger_Name trigger) ++
  (if bool_decide (ObservationTrigger_Name trigger ∈ seen) && negb (bool_decide (ObservationTrigger_Name trigger = ""))
   then add (base +:+ ".name") "duplicate trigger name %q" [AString (ObservationTrigger_Name trigger)] else []) ++
  (if Bool.eqb hasMetric hasEvent then add (base +:+ ".when") "must set exactly one of metric or event" [] else []) ++
  (if hasMetric then
     (if bool_decide (above = None) || IsNaN (valueOrNaN above) || IsInf (valueOrNaN above)
      then add (base +:+ ".when.above") "must be a finite threshold for a metric trigger" [] else []) ++
     positiveDuration (base +:+ ".when.for") (TriggerCondition_For when)
   else if negb (bool_decide (above = None)) || negb (TriggerCondition_For when =? 0)
   then add (base +:+ ".when") "event trigger must not set above or for" [] else []) ++
  uniqueStrings (base +:+ ".actions") (ObservationTrigger_Actions trigger) true.

Fixpoint validate_triggers (index : nat) (seen : list string) (triggers : list ObservationTrigger) : list FieldError :=
  match triggers with
  | [] => []
  | trigger :: triggers =>
      validate_trigger index seen trigger ++
      validate_triggers (S index) (ObservationTrigger_Name trigger :: seen) triggers
  end.
Definition validateTriggers (triggers : list ObservationTrigger) : list FieldError := validate_triggers 0 [] triggers.

Definition validateBundles (policy : BundlePolicy) : list FieldError :=
  mjoin ((fun field : string * bool => mustTrue ("spec.observation.bundles." +:+ field.1) field.2) <$>
    [("rawCollectorOutputs", BundlePolicy_RawCollectorOutputs policy);
     ("normalizedEvents", BundlePolicy_NormalizedEvents policy);
     ("targetChangeManifest", BundlePolicy_TargetChangeManifest policy);
     ("collectorCoverageAndGaps", BundlePolicy_CollectorCoverageAndGaps policy);
     ("derivedAgentSummary", BundlePolicy_DerivedAgentSummary policy);
     ("summaryMustCiteEvidence", BundlePolicy_SummaryMustCiteEvidence policy)]).

Definition validatePayload (payload : PayloadProfile) (captureLimit : ByteQuantity) : list FieldError :=
  oneOf "spec.observation.profiles.payload.enabled" (PayloadProfile_Enabled payload) ["authorized-on-demand"; "disabled"] ++
  (if negb (bool_decide (PayloadProfile_Enabled payload = "disabled")) then
     mustTrue "spec.observation.profiles.payload.requireProcessOrPathFilter"
       (PayloadProfile_RequireProcessOrPathFilter payload) ++
     positiveDuration "spec.observation.profiles.payload.maxDuration" (PayloadProfile_MaxDuration payload) ++
     positiveBytes "spec.observation.profiles.payload.maxBytes" (PayloadProfile_MaxBytes payload) ++
     required "spec.observation.profiles.payload.sensitivity" (PayloadProfile_Sensitivity payload) ++
     withinCaptureLimit "spec.observation.profiles.payload.maxBytes" (PayloadProfile_MaxBytes payload) captureLimit
   else []) ++
  uniqueStrings "spec.observation.profiles.payload.signalFamilies" (PayloadProfile_SignalFamilies payload) true.

Definition validateObservation (policy : ObservationPolicy) (targets : TargetsPolicy) (resources : AggregateResources)
    : list FieldError :=
  let captureLimit := AggregateResourceLimits_CaptureBytes (AggregateResources_AggregateLimits resources) in
  let profiles := ObservationPolicy_Profiles policy in
  let metadata := ObservationProfiles_Metadata profiles in
  let buffers := ObservationPolicy_Buffers policy in
  let sensitivity := ObservationPolicy_Sensitivity policy in
  let retention := ObservationPolicy_Retention policy in
  equal "spec.observation.priority" (ObservationPolicy_Priority policy) "visibility-first" ++
  validateCoverage (ObservationPolicy_RequiredCoverage policy) targets ++
  equal "spec.observation.profiles.default" (ObservationProfiles_Default profiles) "metadata" ++
  (if MetadataProfile_CapturePayloads metadata
   then add "spec.observation.profiles.metadata.capturePayloads" "metadata profile must not capture payloads" [] else []) ++
  uniqueStrings "spec.observation.profiles.metadata.fileEvents" (MetadataProfile_FileEvents metadata) true ++
  required "spec.observation.profiles.metadata.syscallArguments" (MetadataProfile_SyscallArguments metadata) ++
  boundedProfile "spec.observation.profiles.deep" (ObservationProfiles_Deep profiles) captureLimit ++
  validatePayload (ObservationProfiles_Payload profiles) captureLimit ++
  uniqueStrings "spec.observation.baseline" (ObservationPolicy_Baseline policy) true ++
  requireMembers "spec.observation.baseline" (ObservationPolicy_Baseline policy)
    ["world-lifecycle"; "cgroup-metrics"; "collector-health"] ++
  validateCollectors (ObservationPolicy_Collectors policy) targets captureLimit ++
  validateMetrics (ObservationPolicy_Metrics policy) ++
  validateLiveAccess (ObservationPolicy_LiveAccess policy) (ObservationPolicy_Metrics policy) ++
  validateAgentRequests (ObservationPolicy_AgentRequests policy) ++
  positiveInt "spec.observation.buffers.liveSubscriberEvents" (ObservationBuffers_LiveSubscriberEvents buffers) ++
  positiveBytes "spec.observation.buffers.segmentBytes" (ObservationBuffers_SegmentBytes buffers) ++
  positiveBytes "spec.observation.buffers.packetRingBytes" (ObservationBuffers_PacketRingBytes buffers) ++
  withinCaptureLimit "spec.observation.buffers.packetRingBytes" (ObservationBuffers_PacketRingBytes buffers) captureLimit ++
  validateOnDemand (ObservationPolicy_AllowedOnDemand policy) captureLimit ++
  validateTriggers (ObservationPolicy_Triggers policy) ++
  validateBundles (ObservationPolicy_Bundles policy) ++
  required "spec.observation.sensitivity.default" (SensitivityPolicy_Default sensitivity) ++
  required "spec.observation.sensitivity.decryptedTraffic" (SensitivityPolicy_DecryptedTraffic sensitivity) ++
  required "spec.observation.sensitivity.screenshots" (SensitivityPolicy_Screenshots sensitivity) ++
  required "spec.observation.sensitivity.payloads" (SensitivityPolicy_Payloads sensitivity) ++
  positiveDuration "spec.observation.retention.liveLocal" (ObservationRetentionPolicy_LiveLocal retention) ++
  (if ObservationRetentionPolicy_DeleteLocalAfterArtifactAck retention
      && negb (ObservationRetentionPolicy_FinalizeToArtifactStore retention)
   then add "spec.observation.retention.deleteLocalAfterArtifactAck" "requires finalizeToArtifactStore" [] else []).

Definition validateIncidents (policy : IncidentsPolicy) : list FieldError :=
  let recovery := IncidentsPolicy_Recovery policy in
  uniqueStrings "spec.incidents.minimumEvidence" (IncidentsPolicy_MinimumEvidence policy) true ++
  requireMembers "spec.incidents.minimumEvidence" (IncidentsPolicy_MinimumEvidence policy)
    ["lifecycle-window"; "resource-window"; "process-tree"; "target-change-manifest"; "collector-coverage-and-gaps"] ++
  equal "spec.incidents.recovery.agentWorkspaceFailure" (IncidentRecoveryPolicy_AgentWorkspaceFailure recovery)
    "recreate-new-agent-generation" ++
  equal "spec.incidents.recovery.linuxTargetFailure" (IncidentRecoveryPolicy_LinuxTargetFailure recovery)
    "recreate-new-target-generation" ++
  equal "spec.incidents.recovery.androidRuntimeFailure" (IncidentRecoveryPolicy_AndroidRuntimeFailure recovery)
    "baseline-new-target-generation" ++
  equal "spec.incidents.recovery.targetWorkloadExit" (IncidentRecoveryPolicy_TargetWorkloadExit recovery)
    "finalize-run-and-report" ++
  equal "spec.incidents.recovery.androidAppCrash" (IncidentRecoveryPolicy_AndroidAppCrash recovery)
    "finalize-run-and-report" ++
  equal "spec.incidents.recovery.observerFailure" (IncidentRecoveryPolicy_ObserverFailure recovery) "fail-run-if-required".

Definition shed_order : list string :=
  ["unused-reservations"; "unleased-warm-targets"; "idle-preemptible-targets"; "active-preemptible-target-runs";
   "preemptible-agent-workspaces"].

Definition validatePressure (policy : PressurePolicy) (resources : AggregateResources) : list FieldError :=
  let memory := AggregateResourceLimits_Memory (AggregateResources_AggregateLimits resources) in
  let stop := PressurePolicy_StopAdmissionOn policy in
  positiveBytes "spec.pressure.reserveHostMemory" (PressurePolicy_ReserveHostMemory policy) ++
  (if (memory <=? PressurePolicy_ReserveHostMemory policy) && (0 <? memory)
   then add "spec.pressure.reserveHostMemory" "must be less than aggregate memory limit" [] else []) ++
  (if f_le (StopAdmissionPolicy_MemoryPSIFull stop) f_zero
   then add "spec.pressure.stopAdmissionOn.memoryPSIFull" "must be greater than zero" [] else []) ++
  (if f_le (StopAdmissionPolicy_IOPSIFull stop) f_zero
   then add "spec.pressure.stopAdmissionOn.ioPSIFull" "must be greater than zero" [] else []) ++
  percentStrict "spec.pressure.stopAdmissionOn.freeDiskPercent" (StopAdmissionPolicy_FreeDiskPercent stop) ++
  (if negb (List.length (PressurePolicy_ShedOrder policy) =? List.length shed_order)%nat
   then add "spec.pressure.shedOrder" "must contain the mandated five-stage shed order" [] else
   each_index (fun index value =>
     let expected := default "" (shed_order !! index) in
     if negb (bool_decide (value = expected))
     then add (indexed "spec.pressure.shedOrder" index) "must be %q" [AString expected] else [])
     0 (PressurePolicy_ShedOrder policy)).

(** The problems of a document; it is valid when there are none. *)
Definition validatePolicy (policy : Policy) : list FieldError :=
  let metadata := Policy_Metadata policy in
  let spec := Policy_Spec policy in
  equal "apiVersion" (Policy_APIVersion policy) APIVersion ++
  equal "kind" (Policy_Kind policy) Kind ++
  required "metadata.name" (PolicyMetadata_Name metadata) ++
  (if negb (bool_decide (PolicyMetadata_Name metadata = "")) && negb (policyNamePattern (PolicyMetadata_Name metadata))
   then add "metadata.name" "must be a lowercase DNS-like name of at most 63 characters" [] else []) ++
  positiveInt "metadata.revision" (PolicyMetadata_Revision metadata) ++
  validateLease (PolicySpec_Lease spec) ++
  validateAgentWorkspace (PolicySpec_AgentWorkspace spec) ++
  validateWorkspace (PolicySpec_Workspace spec) ++
  validateTargets (PolicySpec_Targets spec) (PolicySpec_Resources spec) ++
  validateAggregateResources (PolicySpec_Resources spec) (PolicySpec_AgentWorkspace spec) (PolicySpec_Targets spec) ++
  validateObservation (PolicySpec_Observation spec) (PolicySpec_Targets spec) (PolicySpec_Resources spec) ++
  validateIncidents (PolicySpec_Incidents spec) ++
  validatePressure (PolicySpec_Pressure spec) (PolicySpec_Resources spec).
End Collector.
