(* ===== verification/PolicyCompile.v ===== *)
(** * Compilation of a policy

    [policy/defaults.go], [policy/capabilities.go] and [policy/compiler.go] on a
    decoded document: defaults, validation, the capabilities it requires and
    their resolution on a node, and the effective policy.  Reading YAML
    ([policy/decode.go]) is outside: a document is the value it decodes to and
    the positions of the fields that were set. *)
From S2P Require Import Prelude Errors GoStrings Ids GoText Capability Policy PolicyRules PolicyObservation.
Local Open Scope Z_scope.

(** ** Defaults *)
Definition second : Duration := 1000000000.
Definition DefaultLeaseTTL : Duration := 7200 * second.
Definition DefaultQuiesceDeadline : Duration := 30 * second.
Definition DefaultViewRetention : Duration := 86400 * second.
Definition DefaultNormalMetricInterval : Duration := 2 * second.
Definition DefaultIncidentMetricInterval : Duration := 250000000.
Definition DefaultMetricStaleAfter : Duration := 6 * second.
Definition DefaultLiveRetention : Duration := 86400 * second.
Definition DefaultWorkspaceInodes : Z := 100000.

Section Compile.
Context `{Positions}.

Definition fieldWasSet (path : string) : bool := bool_decide (is_Some (source_positions !! path)).

(** [if !fieldWasSet(positions, path) { ... }] *)
Definition default_field (path : string) (assign : PolicySpec -> PolicySpec) (policy : Policy) : Policy :=
  if fieldWasSet path then policy else set Policy_Spec assign policy.

Definition in_metrics (assign : MetricsPolicy -> MetricsPolicy) : PolicySpec -> PolicySpec :=
  set PolicySpec_Observation (set ObservationPolicy_Metrics assign).
Definition in_cache (assign : WorkspaceCachePolicy -> WorkspaceCachePolicy) : PolicySpec -> PolicySpec :=
  set PolicySpec_Workspace (set WorkspacePolicy_Cache assign).
Definition in_input (assign : InputViewPolicy -> InputViewPolicy) : PolicySpec -> PolicySpec :=
  set PolicySpec_Workspace (set WorkspacePolicy_InputView assign).

Definition applyDefaults (policy : Policy) : Policy :=
  let policy := default_field "spec.lease.ttl"
    (set PolicySpec_Lease (set LeasePolicy_TTL (fun _ => DefaultLeaseTTL))) policy in
  let policy := default_field "spec.lease.quiesceDeadline"
    (set PolicySpec_Lease (set LeasePolicy_QuiesceDeadline (fun _ => DefaultQuiesceDeadline))) policy in
  let policy := default_field "spec.workspace.mode"
    (set PolicySpec_Workspace (set WorkspacePolicy_Mode (fun _ => "overlayfs"))) policy in
  let policy := default_field "spec.agentWorkspace.resources.limits.workspaceInodes"
    (set PolicySpec_AgentWorkspace (set AgentWorkspacePolicy_Resources (set AgentResourcesPolicy_Limits
       (set AgentResourceLimits_WorkspaceInodes (fun _ => DefaultWorkspaceInodes))))) policy in
  let policy := default_field "spec.workspace.inputView.construction"
    (in_input (set InputViewPolicy_Construction (fun _ => "require-reflink"))) policy in
  let policy := default_field "spec.workspace.inputView.viewRetention"
    (in_input (set InputViewPolicy_ViewRetention (fun _ => DefaultViewRetention))) policy in
  let policy := default_field "spec.workspace.cache.highWaterPercent"
    (in_cache (set WorkspaceCachePolicy_HighWaterPercent (fun _ => f_of_Z 85))) policy in
  let policy := default_field "spec.workspace.cache.lowWaterPercent"
    (in_cache (set WorkspaceCachePolicy_LowWaterPercent (fun _ => f_of_Z 70))) policy in
  let policy := default_field "spec.targets.maxConcurrent"
    (set PolicySpec_Targets (set TargetsPolicy_MaxConcurrent (fun _ => 1))) policy in
  let policy := default_field "spec.observation.priority"
    (set PolicySpec_Observation (set ObservationPolicy_Priority (fun _ => "visibility-first"))) policy in
  let policy := default_field "spec.observation.profiles.default"
    (set PolicySpec_Observation (set ObservationPolicy_Profiles (set ObservationProfiles_Default (fun _ => "metadata"))))
    policy in
  let policy := default_field "spec.observation.metrics.normalInterval"
    (in_metrics (set MetricsPolicy_NormalInterval (fun _ => DefaultNormalMetricInterval))) policy in
  let policy := default_field "spec.observation.metrics.incidentInterval"
    (in_metrics (set MetricsPolicy_IncidentInterval (fun _ => DefaultIncidentMetricInterval))) policy in
  let policy := default_field "spec.observation.metrics.staleAfter"
    (in_metrics (set MetricsPolicy_StaleAfter (fun _ => DefaultMetricStaleAfter))) policy in
  let policy :=
    if AgentLiveAccessPolicy_Enabled (LiveAccessPolicy_Agent (ObservationPolicy_LiveAccess
         (PolicySpec_Observation (Policy_Spec policy))))
    then default_field "spec.observation.liveAccess.agent.minimumMetricInterval"
           (set PolicySpec_Observation (set ObservationPolicy_LiveAccess (set LiveAccessPolicy_Agent
              (set AgentLiveAccessPolicy_MinimumMetricInterval (fun _ => second))))) policy
    else policy in
  default_field "spec.observation.retention.liveLocal"
    (set PolicySpec_Observation (set ObservationPolicy_Retention
       (set ObservationRetentionPolicy_LiveLocal (fun _ => DefaultLiveRetention)))) policy.

(** ** Required capabilities *)
Record PolicyRequirement := mkPolicyRequirement {
  pr_Name : string; pr_Level : RequirementLevel; pr_Path : string; pr_Constraints : gmap string string }.

Record requirementAccumulator := mkAccumulator { ra_ordered : list PolicyRequirement; ra_index : gmap string nat }.
Definition newRequirementAccumulator : requirementAccumulator := mkAccumulator [] ∅.

(** [level] and [path] of an entry that is raised to required. *)
Definition raised (level : RequirementLevel) (path : string) (r : PolicyRequirement) : PolicyRequirement :=
  mkPolicyRequirement (pr_Name r) level path (pr_Constraints r).

Definition accumulate (a : requirementAccumulator) (call : string * RequirementLevel * string) : requirementAccumulator :=
  let '(name, level, path) := call in
  if bool_decide (name = "") then a else
  match ra_index a !! name with
  | Some index =>
      if bool_decide (level = RequirementRequired)
         && bool_decide (pr_Level <$> ra_ordered a !! index = Some RequirementPreferred)
      then mkAccumulator (alter (raised level path) index (ra_ordered a)) (ra_index a)
      else a
  | None => mkAccumulator (ra_ordered a ++ [mkPolicyRequirement name level path ∅])
              (<[name := length (ra_ordered a)]> (ra_index a))
  end.

Definition containsString (values : list string) (expected : string) : bool :=
  existsb (fun value => EqualFold value expected) values.

Definition level_if (b : bool) : RequirementLevel := if b then RequirementRequired else RequirementPreferred.

Definition template_calls (coverage : gmap string (list string)) (index : nat) (template : TargetTemplate)
    : list (string * RequirementLevel * string) :=
  let base := indexed "spec.targets.templates" index in
  let runtime := TargetTemplate_Runtime template in
  let kind := TargetTemplate_Kind template in
  [("target.kind." +:+ kind, RequirementRequired, base +:+ ".kind");
   ("runtime.driver." +:+ TargetRuntimePolicy_Driver runtime, RequirementRequired, base +:+ ".runtime.driver");
   ("runtime.isolation." +:+ TargetRuntimePolicy_IsolationProfile runtime, RequirementRequired,
    base +:+ ".runtime.isolationProfile")] ++
  (if bool_decide (kind = "linux-container")
   then [("runtime.oci." +:+ TargetRuntimePolicy_Runtime runtime, RequirementRequired, base +:+ ".runtime.runtime")] else []) ++
  (if bool_decide (kind = "android-virtual-device") && TargetRuntimePolicy_RequireHardwareAcceleration runtime
   then [("android.hardware-acceleration", RequirementRequired, base +:+ ".runtime.requireHardwareAcceleration")] else []) ++
  imap (fun coverageIndex name => ("coverage." +:+ kind +:+ "." +:+ name, RequirementRequired,
          indexed ("spec.observation.requiredCoverage." +:+ kind) coverageIndex)) (coverage_of coverage kind).

(** The calls of [requirements.add], in order. *)
Definition requirement_calls (policy : Policy) : list (string * RequirementLevel * string) :=
  let spec := Policy_Spec policy in
  let workspace := PolicySpec_Workspace spec in
  let directoryCopy := bool_decide (WorkspacePolicy_Mode workspace = "directory-copy-non-production") in
  let construction := InputViewPolicy_Construction (WorkspacePolicy_InputView workspace) in
  let runtime := AgentWorkspacePolicy_Runtime (PolicySpec_AgentWorkspace spec) in
  let coverage := ObservationPolicy_RequiredCoverage (PolicySpec_Observation spec) in
  let collectors := ObservationPolicy_Collectors (PolicySpec_Observation spec) in
  let linux := CollectorPolicies_LinuxMetadata collectors in
  let android := CollectorPolicies_AndroidSystem collectors in
  let base := "spec.observation.collectors" in
  (if directoryCopy
   then [("host.profile.directory-copy-non-production", RequirementRequired, "spec.workspace.mode");
         ("filesystem.directory-copy.non-production", RequirementRequired, "spec.workspace.mode")]
   else [("node.os.linux", RequirementRequired, "spec.workspace.mode");
         ("filesystem.overlayfs", RequirementRequired, "spec.workspace.mode")]) ++
  (if bool_decide (construction = "require-reflink")
   then [("filesystem.reflink", RequirementRequired, "spec.workspace.inputView.construction")]
   else if negb directoryCopy
   then [("filesystem.reflink", RequirementPreferred, "spec.workspace.inputView.construction")] else []) ++
  [("runtime.driver." +:+ AgentRuntimePolicy_Driver runtime, RequirementRequired, "spec.agentWorkspace.runtime.driver");
   ("runtime.isolation." +:+ AgentRuntimePolicy_IsolationProfile runtime, RequirementRequired,
    "spec.agentWorkspace.runtime.isolationProfile")] ++
  mjoin (imap (template_calls coverage) (TargetsPolicy_Templates (PolicySpec_Targets spec))) ++
  [("collector.adapter." +:+ SingleCollectorPolicy_Adapter linux,
    level_if (SingleCollectorPolicy_FailRunOnCoverageLoss linux), base +:+ ".linuxMetadata.adapter")] ++
  imap (fun index adapter => ("collector.adapter." +:+ adapter,
          level_if (MultiCollectorPolicy_FailRunOnCoverageLoss android), indexed (base +:+ ".androidSystem.adapters") index))
    (MultiCollectorPolicy_Adapters android) ++
  [("collector.adapter." +:+ AppHookCollectorPolicy_Adapter (CollectorPolicies_AndroidAppHooks collectors),
    level_if (containsString (coverage_of coverage "android-virtual-device") "app-api-intents"),
    base +:+ ".androidAppHooks.adapter");
   ("collector.adapter." +:+ PacketCollectorPolicy_Adapter (CollectorPolicies_PacketCapture collectors),
    level_if (existsb (fun p : string * list string => containsString p.2 "packet-ring") (map_to_list coverage)),
    base +:+ ".packetCapture.adapter");
   ("collector.adapter." +:+ ModeCollectorPolicy_Adapter (CollectorPolicies_ProtocolSummary collectors),
    RequirementPreferred, base +:+ ".protocolSummary.adapter");
   ("collector.adapter." +:+ ModeCollectorPolicy_Adapter (CollectorPolicies_MobileAnalysis collectors),
    RequirementPreferred, base +:+ ".mobileAnalysis.adapter")].

Definition deriveCapabilityRequirements (policy : Policy) : list PolicyRequirement :=
  ra_ordered (fold_left accumulate (requirement_calls policy) newRequirementAccumulator).

(** ** Resolution on a node *)
Record PolicyResolution := mkPolicyResolution {
  pres_Requirement : PolicyRequirement; pres_Status : CapabilityStatus; pres_Satisfied : bool; pres_Downgraded : bool;
  pres_Reason : reason }.

(** The message "preferred capability %s is %s: %s" is kept as its arguments. *)
Record Warning := mkWarning {
  w_Code : string; w_Path : string; w_Capability : string; w_Status : CapabilityStatus; w_Reason : reason }.

Inductive perr := PValidation (problems : list FieldError) | PEvaluate (e : err) | PCanonicalize.

Definition domain_requirement (r : PolicyRequirement) : CapabilityRequirement :=
  mkRequirement (pr_Name r)
    (if bool_decide (pr_Level r = RequirementRequired) then RequirementRequired else RequirementPreferred)
    (pr_Constraints r).

Definition policy_resolution (r : PolicyRequirement) (resolved : CapabilityResolution) : PolicyResolution :=
  mkPolicyResolution r (cr_status resolved) (cr_satisfied resolved) (cr_downgraded resolved) (cr_reason resolved).

Definition reason_text (r : reason) : string :=
  match r with
  | ReasonSupported => "supported" | ReasonUnsupported => "unsupported" | ReasonUnknown => "unknown"
  | ReasonInvalidStatus => "invalid capability status"
  | ReasonConstraint key _ _ => "constraint " +:+ key
  end.

Definition warning_of (r : PolicyResolution) : list Warning :=
  if pres_Downgraded r
  then [mkWarning "capability_downgrade" (pr_Path (pres_Requirement r)) (pr_Name (pres_Requirement r)) (pres_Status r)
          (pres_Reason r)] else [].
Definition failure_of (r : PolicyResolution) : list FieldError :=
  if negb (pres_Downgraded r) && negb (pres_Satisfied r)
  then add (pr_Path (pres_Requirement r)) "required capability %q is %s: %s"
         [AString (pr_Name (pres_Requirement r)); AString (CapabilityStatus_text (pres_Status r));
          AString (reason_text (pres_Reason r))] else [].

Definition evaluateCapabilities (fingerprint : CapabilityFingerprint) (requirements : list PolicyRequirement)
    : res perr (list PolicyResolution * list Warning) :=
  if digest_IsZero (fp_digest fingerprint)
  then Err (PValidation [mkFieldError "$capabilities" "capability fingerprint must be initialized" [] 0 0]) else
  match EvaluateCapabilityRequirements fingerprint (domain_requirement <$> requirements) with
  | Err e => Err (PEvaluate e)
  | Ok evaluation =>
      let resolutions := zip_with policy_resolution requirements (ev_resolutions evaluation) in
      let failures := mjoin (failure_of <$> resolutions) in
      if bool_decide (failures = []) then Ok (resolutions, mjoin (warning_of <$> resolutions)) else Err (PValidation failures)
  end.

(** ** The effective policy *)
(** [ep_policy] is the document that the canonical text decodes to ([Policy]). *)
Record EffectivePolicy := mkEffectivePolicy {
  ep_canonical : list N; ep_policy : Policy; ep_digest : list N; ep_capabilityFingerprint : list N; ep_requirements : list PolicyRequirement;
  ep_resolutions : list PolicyResolution; ep_warnings : list Warning }.

(** [json.Marshal] of a document; it fails on a number that is not finite. *)
Class PolicyText := { policy_text : Policy -> option (list N) }.

(** [prepare] after decoding. *)
Definition prepare (decoded : Policy) : res perr (Policy * list PolicyRequirement) :=
  let policy := applyDefaults decoded in
  let problems := validatePolicy policy in
  if bool_decide (problems = []) then Ok (policy, deriveCapabilityRequirements policy) else Err (PValidation problems).

Definition Compile `{PolicyText} (decoded : Policy) (capabilities : CapabilityFingerprint) : res perr EffectivePolicy :=
  prepared ← prepare decoded;
  let '(policy, requirements) := prepared in
  evaluated ← evaluateCapabilities capabilities requirements;
  canonical ← from_option_err PCanonicalize (policy_text policy);
  Ok (mkEffectivePolicy canonical policy (NewDigest canonical) (fp_digest capabilities) requirements evaluated.1 evaluated.2).
End Compile.
