(* ===== verification/PolicyAuthority.v ===== *)
(** * Admission under an effective policy

    [internal/orchestration/policyauthority/validation.go] and the checks of
    [authority.go]: what a session, its workspace, agent plan, network, targets,
    runs, captures and exports must be under a compiled policy.  A nil policy is
    [None]; a violation keeps the field, the format of its reason and the
    arguments.  The Unicode tables of [strings.ToLower] are a parameter.  The
    sums over the live resources of a node are those of
    [orchestration/policy_admission.go]. *)
From Stdlib Require Import Ascii String.
From S2P Require Import Prelude GoStrings Ids GoText Policy PolicyRules PolicyObservation PolicyCompile.
Local Open Scope Z_scope.

Record Violation := mkViolation { v_Field : string; v_Reason : string; v_Args : list arg }.

Definition deny {A} (field reason : string) (args : list arg) : res Violation A := Err (mkViolation field reason args).
(** [if b { return deny(...) }] *)
Definition deny_if (b : bool) (field reason : string) (args : list arg) : res Violation unit :=
  if b then deny field reason args else Ok tt.

Definition requirePolicy (effective : option EffectivePolicy) : res Violation Policy :=
  match effective with
  | None => deny "policy" "a verified effective policy is required" []
  | Some e => Ok (ep_policy e)
  end.

(** ** Limits *)
Definition validateAtMost (field : string) (actual maximum : Z) : res Violation unit :=
  deny_if ((maximum <? 0) || (maximum <? actual)) field "%d exceeds policy limit %d" [AInt actual; AInt maximum].
Definition validatePositiveLimit (field : string) (actual maximum : Z) : res Violation unit :=
  _ ← deny_if (actual <=? 0) field "must be positive" [];
  validateAtMost field actual maximum.
Definition validateNonNegativeLimit (field : string) (actual maximum : Z) : res Violation unit :=
  _ ← deny_if (actual <? 0) field "must not be negative" [];
  validateAtMost field actual maximum.

Record RuntimeResources := mkRuntimeResources {
  rr_CPUMilli : Z; rr_MemoryBytes : Z; rr_SwapBytes : Z; rr_WorkspaceBytes : Z; rr_WritableStateBytes : Z;
  rr_CaptureBytes : Z; rr_Inodes : Z; rr_PIDs : Z }.

Definition resourceValues (actual maximum : RuntimeResources) : list (string * Z * Z) :=
  [("cpu_milli", rr_CPUMilli actual, rr_CPUMilli maximum);
   ("memory_bytes", rr_MemoryBytes actual, rr_MemoryBytes maximum);
   ("swap_bytes", rr_SwapBytes actual, rr_SwapBytes maximum);
   ("workspace_bytes", rr_WorkspaceBytes actual, rr_WorkspaceBytes maximum);
   ("writable_state_bytes", rr_WritableStateBytes actual, rr_WritableStateBytes maximum);
   ("capture_bytes", rr_CaptureBytes actual, rr_CaptureBytes maximum);
   ("inodes", rr_Inodes actual, rr_Inodes maximum);
   ("pids", rr_PIDs actual, rr_PIDs maximum)].

Definition validateResources (field : string) (actual maximum : RuntimeResources) : res Violation unit :=
  res_each (fun _ (v : string * Z * Z) => validateNonNegativeLimit (field +:+ "." +:+ v.1.1) v.1.2 v.2) 0
    (resourceValues actual maximum).

Definition validateEnforcedResources (field : string) (actual maximum : RuntimeResources) : res Violation unit :=
  _ ← validateResources field actual maximum;
  res_each (fun _ (v : string * Z * Z) =>
    deny_if ((0 <? v.2) && (v.1.2 =? 0)) (field +:+ "." +:+ v.1.1) "must be positive so the policy limit is enforced" []) 0
    (resourceValues actual maximum).

(** ** Sets of strings *)
(** The quotes of [%q] are left out of the error. *)
Fixpoint stringSet_loop (index : nat) (result values : list string) : res string (list string) :=
  match values with
  | [] => Ok result
  | value :: values =>
      if blank value then Err ("family " +:+ pretty (N.of_nat index) +:+ " is blank") else
      if bool_decide (value ∈ result) then Err ("family " +:+ value +:+ " is duplicated")
      else stringSet_loop (S index) (value :: result) values
  end.
Definition stringSet (values : list string) : res string (list string) := stringSet_loop 0 [] values.

(** [%v] of an error. *)
Definition error_text {A} (r : res string A) : string := match r with Ok _ => "<nil>" | Err e => e end.

(** [if err != nil { return deny(field, "%v", err) }] *)
Definition deny_error {A} (field reason : string) (args : list arg) (r : res string A) : res Violation A :=
  match r with Ok a => Ok a | Err e => deny field reason (args ++ [AError e]) end.

Definition requireSetContains (field : string) (actual required : list string) : res Violation unit :=
  actualSet ← deny_error field "%v" [] (stringSet actual);
  _ ← deny_error "policy" "compiled policy contains an invalid %s set: %v" [AString field] (stringSet required);
  res_each (fun _ value => deny_if (negb (bool_decide (value ∈ actualSet))) field "is missing policy-required value %q"
    [AString value]) 0 required.

(** Go visits the set in no order: which value is named may differ. *)
Definition requireSetSubset (field : string) (actual allowed : list string) : res Violation unit :=
  actualSet ← deny_error field "%v" [] (stringSet actual);
  allowedSet ← deny_error "policy" "compiled policy contains an invalid %s set: %v" [AString field] (stringSet allowed);
  res_each (fun _ value => deny_if (negb (bool_decide (value ∈ allowedSet))) field "contains policy-unauthorized value %q"
    [AString value]) 0 actualSet.

Definition isSubset (values allowed : list string) : bool := forallb (fun value => bool_decide (value ∈ allowed)) values.

Class UnicodeLower := strings_ToLower : string -> string.

(** [sort.SearchStrings]: the first index whose element is not below [x], in a
    sorted list. *)
Fixpoint SearchStrings (l : list string) (x : string) : nat :=
  match l with
  | [] => 0
  | y :: l => if bool_decide (string_le x y) then 0 else S (SearchStrings l x)
  end.

Definition isSubsetFold `{UnicodeLower} (values allowed : list string) : bool :=
  let normalized := sort_Strings (strings_ToLower <$> allowed) in
  forallb (fun value =>
    let candidate := strings_ToLower value in
    bool_decide (normalized !! SearchStrings normalized candidate = Some candidate)) values.

(** ** References *)
Fixpoint LastIndexByte (s : string) (c : ascii) : option nat :=
  match s with
  | "" => None
  | String a s' =>
      match LastIndexByte s' c with
      | Some i => Some (S i)
      | None => if (a =? c)%char then Some 0%nat else None
      end
  end.
Definition pinnedDigest (reference : string) : string :=
  match LastIndexByte reference "@" with
  | Some separator => string_drop (separator + 1) reference
  | None => reference
  end.

Definition targetTemplate (document : Policy) (name : string) : option TargetTemplate :=
  List.find (fun template => bool_decide (TargetTemplate_Name template = name))
    (TargetsPolicy_Templates (PolicySpec_Targets (Policy_Spec document))).

Definition normalizeTargetKind (kind : string) : string :=
  if bool_decide (kind = "linux_container") then "linux-container" else
  if bool_decide (kind = "android_virtual_device") then "android-virtual-device" else kind.

(** [for _, value := range []struct{ field, actual, expected string }] *)
Definition require_equal (values : list (string * string * string)) : res Violation unit :=
  res_each (fun _ (v : string * string * string) =>
    deny_if (negb (bool_decide (v.1.2 = v.2))) v.1.1 "got %q, policy requires %q" [AString v.1.2; AString v.2]) 0 values.

(** ** Sessions and workspaces *)
Definition ValidateIdentity (effective : option EffectivePolicy) (policyDigest capabilityDigest : string)
    : res Violation unit :=
  match effective with
  | None => deny "policy" "a verified effective policy is required" []
  | Some e =>
      _ ← deny_if (negb (bool_decide (TrimSpace policyDigest = digest_String (ep_digest e)))) "policy_digest"
            "does not match the resolved policy" [];
      deny_if (negb (bool_decide (TrimSpace capabilityDigest = digest_String (ep_capabilityFingerprint e))))
        "capability_digest" "does not match the resolved capability fingerprint" []
  end.

Definition ValidateTTL (effective : option EffectivePolicy) (requested : duration) : res Violation unit :=
  document ← requirePolicy effective;
  validatePositiveLimit "ttl" requested (LeasePolicy_TTL (PolicySpec_Lease (Policy_Spec document))).

Record SessionAdmission := mkSessionAdmission {
  sa_PolicyDigest : string; sa_CapabilityDigest : string; sa_TTL : duration }.
Definition ValidateSessionAcquisition (effective : option EffectivePolicy) (request : SessionAdmission)
    : res Violation unit :=
  _ ← ValidateIdentity effective (sa_PolicyDigest request) (sa_CapabilityDigest request);
  ValidateTTL effective (sa_TTL request).

Definition agent_limits (document : Policy) : AgentResourceLimits :=
  AgentResourcesPolicy_Limits (AgentWorkspacePolicy_Resources (PolicySpec_AgentWorkspace (Policy_Spec document))).
Definition agent_requests (document : Policy) : AgentResourceRequests :=
  AgentResourcesPolicy_Requests (AgentWorkspacePolicy_Resources (PolicySpec_AgentWorkspace (Policy_Spec document))).
Definition aggregate_limits (document : Policy) : AggregateResourceLimits :=
  AggregateResources_AggregateLimits (PolicySpec_Resources (Policy_Spec document)).

Record WorkspaceAdmission := mkWorkspaceAdmission {
  wa_Mode : string; wa_Construction : string; wa_UpperBytes : Z; wa_UpperInodes : Z }.
Definition ValidateWorkspace (effective : option EffectivePolicy) (request : WorkspaceAdmission) : res Violation unit :=
  document ← requirePolicy effective;
  let configured := PolicySpec_Workspace (Policy_Spec document) in
  _ ← require_equal
        [("workspace.mode", wa_Mode request, WorkspacePolicy_Mode configured);
         ("workspace.construction", wa_Construction request,
          InputViewPolicy_Construction (WorkspacePolicy_InputView configured))];
  _ ← validatePositiveLimit "workspace.upper_bytes" (wa_UpperBytes request)
        (AgentResourceLimits_Workspace (agent_limits document));
  validatePositiveLimit "workspace.upper_inodes" (wa_UpperInodes request)
    (AgentResourceLimits_WorkspaceInodes (agent_limits document)).

Record ExportAdmission := mkExportAdmission {
  ea_DeclarationAuthority : string; ea_FileCount : Z; ea_Bytes : Z; ea_ContainsNonRegular : bool;
  ea_FinalPublication : bool; ea_RetainsFullChangeManifest : bool }.
Definition ValidateExport (effective : option EffectivePolicy) (request : ExportAdmission) : res Violation unit :=
  document ← requirePolicy effective;
  let limit := WorkspacePolicy_Export (PolicySpec_Workspace (Policy_Spec document)) in
  let declaration := WorkspaceExportPolicy_Declaration limit in
  let by_host := bool_decide (ea_DeclarationAuthority request = "host") in
  let by_agent := bool_decide (ea_DeclarationAuthority request = "agent") in
  _ ← (if bool_decide (declaration = "host-only")
       then deny_if (negb by_host) "export.declaration" "policy permits host declaration only" []
       else if bool_decide (declaration = "agent-or-host")
       then deny_if (negb by_agent && negb by_host) "export.declaration" "must be proven as agent or host declaration" []
       else deny "export.declaration" "policy contains an unsupported declaration authority" []);
  _ ← deny_if (WorkspaceExportPolicy_RegularFilesOnly limit && ea_ContainsNonRegular request) "export.files"
        "policy permits regular files only" [];
  _ ← deny_if (ea_FinalPublication request && WorkspaceExportPolicy_RetainFullChangeManifest limit
               && negb (ea_RetainsFullChangeManifest request)) "export.change_manifest"
        "full change manifest retention is required" [];
  _ ← validateNonNegativeLimit "export.files" (ea_FileCount request) (WorkspaceExportPolicy_MaxFiles limit);
  validateNonNegativeLimit "export.bytes" (ea_Bytes request) (WorkspaceExportPolicy_MaxBytes limit).

(** ** The agent *)
Record AgentRuntimeAdmission := mkAgentRuntimeAdmission {
  ara_Driver : string; ara_ImageDigest : string; ara_IsolationProfile : string; ara_RootFilesystem : string;
  ara_User : string; ara_CapabilityDrop : list string; ara_CapabilityAdd : list string; ara_NoNewPrivileges : bool;
  ara_SeccompProfile : string; ara_UserEnforced : bool; ara_SeccompEnforced : bool }.

Definition ValidateAgentRuntime (effective : option EffectivePolicy) (request : AgentRuntimeAdmission)
    : res Violation unit :=
  document ← requirePolicy effective;
  let configured := AgentWorkspacePolicy_Runtime (PolicySpec_AgentWorkspace (Policy_Spec document)) in
  _ ← deny_if (negb (ara_UserEnforced request)) "agent.runtime.user"
        "the physical runtime does not enforce the configured user" [];
  _ ← deny_if (negb (ara_SeccompEnforced request)) "agent.runtime.seccomp_profile"
        "the physical runtime does not enforce the configured seccomp profile" [];
  _ ← require_equal
        [("agent.runtime.driver", ara_Driver request, AgentRuntimePolicy_Driver configured);
         ("agent.runtime.image_digest", ara_ImageDigest request, pinnedDigest (AgentRuntimePolicy_Image configured));
         ("agent.runtime.isolation_profile", ara_IsolationProfile request, AgentRuntimePolicy_IsolationProfile configured);
         ("agent.runtime.root_filesystem", ara_RootFilesystem request, AgentRuntimePolicy_RootFilesystem configured);
         ("agent.runtime.user", ara_User request, AgentRuntimePolicy_User configured);
         ("agent.runtime.seccomp_profile", ara_SeccompProfile request, AgentRuntimePolicy_SeccompProfile configured)];
  _ ← deny_if (AgentRuntimePolicy_NoNewPrivileges configured && negb (ara_NoNewPrivileges request))
        "agent.runtime.no_new_privileges" "policy requires no-new-privileges" [];
  _ ← requireSetContains "agent.runtime.capability_drop" (ara_CapabilityDrop request)
        (LinuxCapabilities_Drop (AgentRuntimePolicy_Capabilities configured));
  requireSetSubset "agent.runtime.capability_add" (ara_CapabilityAdd request)
    (LinuxCapabilities_Add (AgentRuntimePolicy_Capabilities configured)).

Definition agent_maximum (document : Policy) : RuntimeResources :=
  let limits := agent_limits document in
  mkRuntimeResources (AgentResourceLimits_CPU limits) (AgentResourceLimits_Memory limits) (AgentResourceLimits_Swap limits)
    (AgentResourceLimits_Workspace limits) 0 (AggregateResourceLimits_CaptureBytes (aggregate_limits document))
    (AgentResourceLimits_WorkspaceInodes limits) (AgentResourceLimits_PIDs limits).

Definition ValidateAgentResources (effective : option EffectivePolicy) (actual : RuntimeResources) : res Violation unit :=
  document ← requirePolicy effective;
  _ ← validateEnforcedResources "agent.resources" actual (agent_maximum document);
  let requests := agent_requests document in
  res_each (fun _ (v : string * Z * Z) =>
    deny_if (v.1.2 <? v.2) v.1.1 "%d is below policy request %d" [AInt v.1.2; AInt v.2]) 0
    [("agent.resources.cpu_milli", rr_CPUMilli actual, AgentResourceRequests_CPU requests);
     ("agent.resources.memory_bytes", rr_MemoryBytes actual, AgentResourceRequests_Memory requests);
     ("agent.resources.workspace_bytes", rr_WorkspaceBytes actual, AgentResourceRequests_Workspace requests)].

Record AgentPlanAdmission := mkAgentPlanAdmission { apa_Runtime : AgentRuntimeAdmission; apa_Resources : RuntimeResources }.
Definition ValidateAgentPlan (effective : option EffectivePolicy) (request : AgentPlanAdmission) : res Violation unit :=
  _ ← ValidateAgentRuntime effective (apa_Runtime request);
  ValidateAgentResources effective (apa_Resources request).

Record NetworkAdmission := mkNetworkAdmission {
  na_Mode : string; na_AllowDNS : bool; na_AllowedCIDRs : list string; na_AllowedDomains : list string;
  na_DenyPrivateRanges : bool; na_TargetAccess : string }.
Definition ValidateNetwork `{UnicodeLower} (effective : option EffectivePolicy) (request : NetworkAdmission)
    : res Violation unit :=
  document ← requirePolicy effective;
  let limit := AgentWorkspacePolicy_Network (PolicySpec_AgentWorkspace (Policy_Spec document)) in
  _ ← require_equal [("network.mode", na_Mode request, AgentNetworkPolicy_Mode limit)];
  _ ← deny_if (na_AllowDNS request && negb (AgentNetworkPolicy_AllowDNS limit)) "network.allow_dns"
        "DNS is denied by policy" [];
  _ ← deny_if (AgentNetworkPolicy_DenyPrivateRanges limit && negb (na_DenyPrivateRanges request))
        "network.deny_private_ranges" "policy requires private ranges to be denied" [];
  _ ← require_equal [("network.target_access", na_TargetAccess request, AgentNetworkPolicy_TargetAccess limit)];
  _ ← deny_if (negb (isSubset (na_AllowedCIDRs request) (AgentNetworkPolicy_AllowedCIDRs limit))) "network.allowed_cidrs"
        "contains a CIDR not allowed by policy" [];
  deny_if (negb (isSubsetFold (na_AllowedDomains request) (AgentNetworkPolicy_AllowedDomains limit)))
    "network.allowed_domains" "contains a domain not allowed by policy" [].

(** ** Targets, runs and captures *)
Record TargetAdmission := mkTargetAdmission {
  ta_Template : string; ta_Kind : string; ta_Driver : string; ta_Runtime : string; ta_ImageDigest : string;
  ta_IsolationProfile : string; ta_BaseImage : string; ta_User : string; ta_CapabilityDrop : list string;
  ta_CapabilityAdd : list string; ta_NoNewPrivileges : bool; ta_SeccompProfile : string; ta_UserEnforced : bool;
  ta_SeccompEnforced : bool; ta_MaterialMountPoint : string; ta_WritableStateMode : string;
  ta_WritableStateEnforced : bool; ta_CommandAuthority : string; ta_ExecTransport : string; ta_FileTransfer : string;
  ta_NetworkEndpoints : string; ta_ADB : string; ta_DeviceScopedADBServices : string;
  ta_DeniedInfrastructureAuthority : list string; ta_ResetAfterEveryRun : bool; ta_ResetMode : string;
  ta_BaselineState : string; ta_RequireHardwareAcceleration : bool; ta_HardwareAccelerationEnforced : bool;
  ta_Headless : bool; ta_Rooted : bool; ta_Debuggable : bool; ta_GuestMemoryBytes : Z; ta_BootTimeout : duration;
  ta_Resources : RuntimeResources; ta_ConcurrentTargets : Z }.

(** The checks of one kind of target. *)
Definition validate_linux (request : TargetAdmission) : res Violation unit :=
  _ ← deny_if (negb (ta_UserEnforced request)) "target.runtime.user"
        "the physical runtime does not enforce the configured user" [];
  deny_if (negb (ta_SeccompEnforced request)) "target.runtime.seccomp_profile"
    "the physical runtime does not enforce the configured seccomp profile" [].

Definition validate_android (template : TargetTemplate) (request : TargetAdmission) : res Violation unit :=
  let runtime := TargetTemplate_Runtime template in
  let interaction := TargetTemplate_Interaction template in
  _ ← deny_if (TargetRuntimePolicy_RequireHardwareAcceleration runtime
               && (negb (ta_RequireHardwareAcceleration request) || negb (ta_HardwareAccelerationEnforced request)))
        "target.runtime.require_hardware_acceleration" "the physical runtime does not prove hardware acceleration" [];
  _ ← res_each (fun _ (v : string * bool * bool) =>
        deny_if (negb (Bool.eqb v.1.2 v.2)) v.1.1 "got %t, policy requires %t" [ABool v.1.2; ABool v.2]) 0
        [("target.runtime.headless", ta_Headless request, TargetRuntimePolicy_Headless runtime);
         ("target.runtime.rooted", ta_Rooted request, TargetRuntimePolicy_Rooted runtime);
         ("target.runtime.debuggable", ta_Debuggable request, TargetRuntimePolicy_Debuggable runtime)];
  _ ← require_equal [("target.runtime.baseline_state", ta_BaselineState request, TargetRuntimePolicy_BaselineState runtime)];
  _ ← deny_if (negb (ta_GuestMemoryBytes request =? TargetRuntimePolicy_GuestMemory runtime)) "target.runtime.guest_memory"
        "got %d bytes, policy requires %d bytes" [AInt (ta_GuestMemoryBytes request);
                                                 AInt (TargetRuntimePolicy_GuestMemory runtime)];
  _ ← deny_if ((ta_BootTimeout request <=? 0) || (TargetRuntimePolicy_BootTimeout runtime <? ta_BootTimeout request))
        "target.runtime.boot_timeout" "got %s, policy limit is %s" [AInt (ta_BootTimeout request);
                                                                    AInt (TargetRuntimePolicy_BootTimeout runtime)];
  deny_if (negb (bool_decide (ta_ADB request = TargetInteraction_ADB interaction))
           || negb (bool_decide (ta_DeviceScopedADBServices request = TargetInteraction_DeviceScopedADBServices interaction)))
    "target.interaction.adb" "physical ADB facts do not match the Android policy" [].

Definition target_maximum (template : TargetTemplate) : RuntimeResources :=
  let limits := template_limits template in
  mkRuntimeResources (TargetResourceLimits_CPU limits) (TargetResourceLimits_Memory limits)
    (TargetResourceLimits_Swap limits) 0 (TargetResourceLimits_WritableState limits) 0 0 (TargetResourceLimits_PIDs limits).

(** The strings of a request against its template. *)
Definition target_facts (template : TargetTemplate) (request : TargetAdmission) : list (string * string * string) :=
  let runtime := TargetTemplate_Runtime template in
  let material := TargetTemplate_Material template in
  let interaction := TargetTemplate_Interaction template in
  let image := if bool_decide (TargetTemplate_Kind template = "android-virtual-device")
               then TargetRuntimePolicy_SystemImageDigest runtime else TargetRuntimePolicy_Image runtime in
  [("target.kind", normalizeTargetKind (ta_Kind request), TargetTemplate_Kind template);
   ("target.driver", ta_Driver request, TargetRuntimePolicy_Driver runtime);
   ("target.runtime", ta_Runtime request, TargetRuntimePolicy_Runtime runtime);
   ("target.image_digest", ta_ImageDigest request, pinnedDigest image);
   ("target.isolation_profile", ta_IsolationProfile request, TargetRuntimePolicy_IsolationProfile runtime);
   ("target.runtime.base_image", ta_BaseImage request, TargetRuntimePolicy_BaseImage runtime);
   ("target.runtime.user", ta_User request, TargetRuntimePolicy_User runtime);
   ("target.runtime.seccomp_profile", ta_SeccompProfile request, TargetRuntimePolicy_SeccompProfile runtime);
   ("target.material.mount_point", ta_MaterialMountPoint request, TargetMaterialPolicy_MountPoint material);
   ("target.material.writable_state", ta_WritableStateMode request, TargetMaterialPolicy_WritableState material);
   ("target.interaction.command_authority", ta_CommandAuthority request, TargetInteraction_CommandAuthority interaction);
   ("target.interaction.exec_transport", ta_ExecTransport request, TargetInteraction_ExecTransport interaction);
   ("target.interaction.file_transfer", ta_FileTransfer request, TargetInteraction_FileTransfer interaction);
   ("target.interaction.network_endpoints", ta_NetworkEndpoints request, TargetInteraction_NetworkEndpoints interaction);
   ("target.reset.mode", ta_ResetMode request, TargetResetPolicy_Mode (TargetTemplate_Reset template))].

Definition ValidateTarget (effective : option EffectivePolicy) (request : TargetAdmission) : res Violation unit :=
  document ← requirePolicy effective;
  let maxConcurrent := TargetsPolicy_MaxConcurrent (PolicySpec_Targets (Policy_Spec document)) in
  _ ← deny_if ((ta_ConcurrentTargets request <? 0) || (maxConcurrent <=? ta_ConcurrentTargets request))
        "targets.max_concurrent" "current count %d does not leave capacity below %d"
        [AInt (ta_ConcurrentTargets request); AInt maxConcurrent];
  match targetTemplate document (ta_Template request) with
  | None => deny "target.template" "%q is not declared" [AString (ta_Template request)]
  | Some template =>
      let runtime := TargetTemplate_Runtime template in
      let state := TargetMaterialPolicy_WritableState (TargetTemplate_Material template) in
      _ ← (if bool_decide (TargetTemplate_Kind template = "linux-container") then validate_linux request else
           if bool_decide (TargetTemplate_Kind template = "android-virtual-device") then validate_android template request
           else Ok tt);
      _ ← deny_if ((bool_decide (state = "private-overlay") || bool_decide (state = "guest-data-partition"))
                   && negb (ta_WritableStateEnforced request)) "target.resources.writable_state_bytes"
            "the physical runtime does not enforce the configured writable-state limit" [];
      _ ← require_equal (target_facts template request);
      _ ← deny_if (TargetRuntimePolicy_NoNewPrivileges runtime && negb (ta_NoNewPrivileges request))
            "target.runtime.no_new_privileges" "policy requires no-new-privileges" [];
      _ ← deny_if (negb (Bool.eqb (ta_ResetAfterEveryRun request) (TargetResetPolicy_AfterEveryRun (TargetTemplate_Reset template))))
            "target.reset.after_every_run" "got %t, policy requires %t"
            [ABool (ta_ResetAfterEveryRun request); ABool (TargetResetPolicy_AfterEveryRun (TargetTemplate_Reset template))];
      _ ← requireSetContains "target.runtime.capability_drop" (ta_CapabilityDrop request)
            (LinuxCapabilities_Drop (TargetRuntimePolicy_Capabilities runtime));
      _ ← requireSetSubset "target.runtime.capability_add" (ta_CapabilityAdd request)
            (LinuxCapabilities_Add (TargetRuntimePolicy_Capabilities runtime));
      _ ← requireSetContains "target.interaction.denied_infrastructure_authority" (ta_DeniedInfrastructureAuthority request)
            (TargetInteraction_DeniedInfrastructureAuthority (TargetTemplate_Interaction template));
      validateEnforcedResources "target.resources" (ta_Resources request) (target_maximum template)
  end.

(** ** Runs *)
Record CollectorAdmission := mkCollectorAdmission { ca_Adapter : string; ca_Placement : string; ca_MaximumBytes : Z }.
Record TargetRunAdmission := mkTargetRunAdmission {
  tra_Template : string; tra_MaterialBytes : Z; tra_MaximumDuration : duration; tra_RequiredCoverage : list string;
  tra_Collectors : list CollectorAdmission }.

Definition ValidateRequiredCoverage (effective : option EffectivePolicy) (targetKind : string) (provided : list string)
    : res Violation unit :=
  document ← requirePolicy effective;
  let targetKind := normalizeTargetKind targetKind in
  match ObservationPolicy_RequiredCoverage (PolicySpec_Observation (Policy_Spec document)) !! targetKind with
  | None => deny "required_coverage" "target kind %q has no coverage policy" [AString targetKind]
  | Some required =>
      providedSet ← deny_error "required_coverage" "%v" [] (stringSet provided);
      res_each (fun _ family => deny_if (negb (bool_decide (family ∈ providedSet))) "required_coverage"
        "missing required family %q" [AString family]) 0 required
  end.

(** The adapters a policy declares with the placement each must have; a later
    entry of the literal and of the loop replaces an earlier one. *)
Definition allowed_collectors (policy : CollectorPolicies) : gmap string string :=
  let linux := CollectorPolicies_LinuxMetadata policy in
  let hooks := CollectorPolicies_AndroidAppHooks policy in
  let packet := CollectorPolicies_PacketCapture policy in
  let android := CollectorPolicies_AndroidSystem policy in
  let literal : list (string * string) :=
    [(SingleCollectorPolicy_Adapter linux, SingleCollectorPolicy_Placement linux);
     (AppHookCollectorPolicy_Adapter hooks, AppHookCollectorPolicy_Placement hooks);
     (PacketCollectorPolicy_Adapter packet, PacketCollectorPolicy_Placement packet);
     (ModeCollectorPolicy_Adapter (CollectorPolicies_ProtocolSummary policy), "");
     (ModeCollectorPolicy_Adapter (CollectorPolicies_MobileAnalysis policy), "")] in
  fold_left (fun (allowed : gmap string string) (p : string * string) => <[p.1 := p.2]> allowed)
    (literal ++ ((fun adapter => (adapter, MultiCollectorPolicy_Placement android)) <$> MultiCollectorPolicy_Adapters android)) ∅.

Fixpoint collectors_loop (allowed : gmap string string) (captureLimit : Z) (index : nat) (seen : list string) (total : Z)
    (collectors : list CollectorAdmission) : res Violation Z :=
  match collectors with
  | [] => Ok total
  | collector :: collectors =>
      let base := indexed "target_run.collectors" index in
      let adapter := ca_Adapter collector in
      _ ← deny_if (blank adapter) (base +:+ ".adapter") "must not be blank" [];
      _ ← deny_if (bool_decide (adapter ∈ seen)) "target_run.collectors" "adapter %q is duplicated" [AString adapter];
      placement ← match allowed !! adapter with
                  | Some placement => Ok placement
                  | None => deny (base +:+ ".adapter") "%q is not declared by policy" [AString adapter]
                  end;
      _ ← deny_if (negb (bool_decide (placement = "")) && negb (bool_decide (ca_Placement collector = placement)))
            (base +:+ ".placement") "got %q, policy requires %q" [AString (ca_Placement collector); AString placement];
      _ ← validatePositiveLimit (base +:+ ".maximum_bytes") (ca_MaximumBytes collector) captureLimit;
      _ ← deny_if (MaxInt64 - ca_MaximumBytes collector <? total) "target_run.collectors.maximum_bytes"
            "aggregate overflows" [];
      collectors_loop allowed captureLimit (S index) (adapter :: seen) (total + ca_MaximumBytes collector) collectors
  end.

Definition authority_validateCollectors (document : Policy) (collectors : list CollectorAdmission) : res Violation unit :=
  let captureLimit := AggregateResourceLimits_CaptureBytes (aggregate_limits document) in
  total ← collectors_loop (allowed_collectors (ObservationPolicy_Collectors (PolicySpec_Observation (Policy_Spec document))))
            captureLimit 0 [] 0 collectors;
  validateNonNegativeLimit "target_run.collectors.maximum_bytes" total captureLimit.

Definition ValidateTargetRun (effective : option EffectivePolicy) (request : TargetRunAdmission) : res Violation unit :=
  document ← requirePolicy effective;
  match targetTemplate document (tra_Template request) with
  | None => deny "target_run.template" "%q is not declared" [AString (tra_Template request)]
  | Some template =>
      let spec := Policy_Spec document in
      _ ← validateNonNegativeLimit "target_run.material_bytes" (tra_MaterialBytes request)
            (MaterialTransferPolicy_MaxTransferBytesPerRun (TargetsPolicy_MaterialTransfer (PolicySpec_Targets spec)));
      _ ← validatePositiveLimit "target_run.maximum_duration" (tra_MaximumDuration request)
            (LeasePolicy_TTL (PolicySpec_Lease spec));
      _ ← ValidateRequiredCoverage effective (TargetTemplate_Kind template) (tra_RequiredCoverage request);
      authority_validateCollectors document (tra_Collectors request)
  end.

(** ** Captures *)
Record CaptureAdmission := mkCaptureAdmission {
  cpa_Name : string; cpa_SignalFamilies : list string; cpa_Duration : duration; cpa_Bytes : Z;
  cpa_HasProcessOrPathFilter : bool; cpa_HasFlowFilter : bool }.

Record capturePolicyLimits := mkCaptureLimits {
  cl_duration : duration; cl_bytes : Z; cl_processFilter : bool; cl_flowFilter : bool; cl_signalFamilies : list string }.

Definition bounded_limits (value : BoundedProfile) : capturePolicyLimits :=
  mkCaptureLimits (BoundedProfile_MaxDuration value) (BoundedProfile_MaxBytes value) false false
    (BoundedProfile_SignalFamilies value).

Definition captureLimits (document : Policy) (name : string) : option capturePolicyLimits :=
  let observation := PolicySpec_Observation (Policy_Spec document) in
  let requests := ObservationPolicy_AgentRequests observation in
  let onDemand := ObservationPolicy_AllowedOnDemand observation in
  let profiles := ObservationPolicy_Profiles observation in
  let payload := ObservationProfiles_Payload profiles in
  let packet := AllowedOnDemandPolicy_PacketPayload onDemand in
  let mitmproxy := AllowedOnDemandPolicy_Mitmproxy onDemand in
  let frida := AllowedOnDemandPolicy_Frida onDemand in
  if negb (bool_decide (name ∈ AgentRequestsPolicy_Profiles requests))
     && negb (bool_decide (name ∈ AgentRequestsPolicy_NamedCaptures requests)) then None else
  if bool_decide (name = "worldLifecycle") then Some (bounded_limits (AllowedOnDemandPolicy_WorldLifecycle onDemand)) else
  if bool_decide (name = "deep") then Some (bounded_limits (ObservationProfiles_Deep profiles)) else
  if bool_decide (name = "payload") then
    if negb (bool_decide (PayloadProfile_Enabled payload = "authorized-on-demand")) then None else
    Some (mkCaptureLimits (PayloadProfile_MaxDuration payload) (PayloadProfile_MaxBytes payload)
            (PayloadProfile_RequireProcessOrPathFilter payload) false (PayloadProfile_SignalFamilies payload)) else
  if bool_decide (name = "strace") then Some (bounded_limits (AllowedOnDemandPolicy_Strace onDemand)) else
  if bool_decide (name = "perfetto") then Some (bounded_limits (AllowedOnDemandPolicy_Perfetto onDemand)) else
  if bool_decide (name = "packetPayload") then
    Some (mkCaptureLimits (FilteredBoundedProfile_MaxDuration packet) (FilteredBoundedProfile_MaxBytes packet) false
            (FilteredBoundedProfile_RequireFlowFilter packet) (FilteredBoundedProfile_SignalFamilies packet)) else
  if bool_decide (name = "mitmproxy") then
    Some (mkCaptureLimits (MitmproxyCapturePolicy_MaxDuration mitmproxy) (MitmproxyCapturePolicy_MaxBytes mitmproxy) false
            false (MitmproxyCapturePolicy_SignalFamilies mitmproxy)) else
  if bool_decide (name = "frida") then
    Some (mkCaptureLimits (FridaCapturePolicy_MaxDuration frida) 0 false false (FridaCapturePolicy_SignalFamilies frida))
  else None.

(** The bytes a capture may take: those of its profile within the aggregate. *)
Definition capture_bytes (document : Policy) (limits : capturePolicyLimits) : Z :=
  let aggregate := AggregateResourceLimits_CaptureBytes (aggregate_limits document) in
  if (cl_bytes limits =? 0) || (aggregate <? cl_bytes limits) then aggregate else cl_bytes limits.

Definition ValidateCapture (effective : option EffectivePolicy) (request : CaptureAdmission) : res Violation unit :=
  document ← requirePolicy effective;
  match captureLimits document (cpa_Name request) with
  | None => deny "capture.name" "%q is not allowed for agent requests" [AString (cpa_Name request)]
  | Some limits =>
      _ ← deny_if (negb (is_ok (stringSet (cpa_SignalFamilies request))) || bool_decide (cpa_SignalFamilies request = []))
            "capture.signal_families" "must be a non-empty unique list: %v" [AError (error_text (stringSet (cpa_SignalFamilies request)))];
      _ ← deny_if (negb (isSubset (cpa_SignalFamilies request) (cl_signalFamilies limits))) "capture.signal_families"
            "contains a family outside profile %q" [AString (cpa_Name request)];
      _ ← validatePositiveLimit "capture.duration" (cpa_Duration request) (cl_duration limits);
      _ ← validatePositiveLimit "capture.bytes" (cpa_Bytes request) (capture_bytes document limits);
      _ ← deny_if (cl_processFilter limits && negb (cpa_HasProcessOrPathFilter request)) "capture.process_or_path_filter"
            "policy requires a process or path filter" [];
      deny_if (cl_flowFilter limits && negb (cpa_HasFlowFilter request)) "capture.flow_filter"
        "policy requires a flow filter" []
  end.

(** ** The aggregate *)
Definition aggregate_maximum (document : Policy) : RuntimeResources :=
  let limits := aggregate_limits document in
  mkRuntimeResources (AggregateResourceLimits_CPU limits) (AggregateResourceLimits_Memory limits) 0 0 0
    (AggregateResourceLimits_CaptureBytes limits) 0 0.
Definition ValidateAggregateResources (effective : option EffectivePolicy) (actual : RuntimeResources)
    : res Violation unit :=
  document ← requirePolicy effective;
  validateResources "resources.aggregate" actual (aggregate_maximum document).
Definition ValidateAggregatePlan (effective : option EffectivePolicy) (actual : RuntimeResources) : res Violation unit :=
  document ← requirePolicy effective;
  validateEnforcedResources "resources.aggregate" actual (aggregate_maximum document).

(** [addAggregateResource] and [addAggregateResources] *)
Definition addAggregateResource (field : string) (current additional : Z) : res Violation Z :=
  if (current <? 0) || (additional <? 0) || (MaxInt64 - additional <? current)
  then deny field "aggregate %s usage overflows" [AString field] else Ok (current + additional).
Definition addAggregateResources (current additional : RuntimeResources) : res Violation RuntimeResources :=
  cpu ← addAggregateResource "cpu_milli" (rr_CPUMilli current) (rr_CPUMilli additional);
  memory ← addAggregateResource "memory_bytes" (rr_MemoryBytes current) (rr_MemoryBytes additional);
  capture ← addAggregateResource "capture_bytes" (rr_CaptureBytes current) (rr_CaptureBytes additional);
  Ok (mkRuntimeResources cpu memory 0 0 0 capture 0 0).

(** The sum that [authoritativeResourceUsage] forms, one live plan after the other. *)
Fixpoint resource_usage (usage : RuntimeResources) (live : list RuntimeResources) : res Violation RuntimeResources :=
  match live with
  | [] => Ok usage
  | plan :: live => usage ← addAggregateResources usage plan; resource_usage usage live
  end.
Definition no_resources : RuntimeResources := mkRuntimeResources 0 0 0 0 0 0 0 0.

(** The end of [admitAggregateCandidate]: the plans that are live and the candidate
    against the aggregate limits. *)
Definition admit_usage (effective : option EffectivePolicy) (live : list RuntimeResources)
    (candidate : RuntimeResources) : res Violation unit :=
  usage ← resource_usage no_resources live;
  total ← addAggregateResources usage candidate;
  ValidateAggregateResources effective total.
