(* ===== verification/PolicyFacts.v ===== *)
(** * What a valid policy guarantees to admission

    Valid documents ([validatePolicy] finds no problem) and the plans, targets
    and captures that are admitted under them. *)
From Stdlib Require Import Ascii String.
From S2P Require Import Prelude GoStrings Ids GoText Policy PolicyRules PolicyObservation PolicyCompile PolicyAuthority.
Local Open Scope Z_scope.

(** ** Images *)
Lemma LastIndex_split s sub i :
  LastIndex s sub = Some i -> exists a b, s = a +:+ sub +:+ b /\ String.length a = i.
Proof.
  revert i. induction s as [|c s IH]; intros i; cbn [LastIndex].
  - case_bool_decide as E; [|done]. intros [= <-]. exists "", "". by subst.
  - destruct (LastIndex s sub) as [j|].
    + intros [= <-]. destruct (IH j eq_refl) as (a & b & -> & <-). by exists (String c a), b.
    + destruct (HasPrefix (String c s) sub) eqn:P; [|done]. intros [= <-].
      apply HasPrefix_true in P as (b & ->). by exists "", b.
Qed.

Lemma CountByte_app a b c : CountByte (a +:+ b) c = (CountByte a c + CountByte b c)%nat.
Proof.
  induction a as [|x a IH]; [done|].
  change (String x a +:+ b) with (String x (a +:+ b)). cbn [CountByte]. rewrite IH. lia.
Qed.

Lemma LastIndexByte_absent s c : CountByte s c = 0%nat -> LastIndexByte s c = None.
Proof.
  induction s as [|x s IH]; cbn; [done|]. intros E. destruct (x =? c)%char; [lia|]. by rewrite IH.
Qed.
Lemma LastIndexByte_app a b c :
  CountByte b c = 0%nat -> LastIndexByte (a +:+ String c b) c = Some (String.length a).
Proof.
  intros E. induction a as [|x a IH].
  - change ("" +:+ String c b) with (String c b). cbn [LastIndexByte].
    by rewrite LastIndexByte_absent, Ascii.eqb_refl.
  - change (String x a +:+ String c b) with (String x (a +:+ String c b)). cbn [LastIndexByte]. by rewrite IH.
Qed.

(** ** The collector *)
Section Collector.
Context `{Positions}.

Lemma add_if_nil (b : bool) path format args : (if b then add path format args else []) = [] <-> b = false.
Proof. by destruct b. Qed.
Lemma add_unless_nil (b : bool) path format args : (if b then [] else add path format args) = [] <-> b = true.
Proof. by destruct b. Qed.

Lemma equal_nil path actual expected : equal path actual expected = [] <-> actual = expected.
Proof. unfold equal. by rewrite add_if_nil, negb_false_iff, bool_decide_eq_true. Qed.
Lemma oneOf_nil path actual expected : oneOf path actual expected = [] <-> actual ∈ expected.
Proof. unfold oneOf. by rewrite add_unless_nil, bool_decide_eq_true. Qed.
Lemma mustTrue_nil path value : mustTrue path value = [] <-> value = true.
Proof. unfold mustTrue. by rewrite add_if_nil, negb_false_iff. Qed.
Lemma positive_nil path value : positiveInt path value = [] <-> 0 < value.
Proof. unfold positiveInt. rewrite add_if_nil, Z.leb_gt. done. Qed.
Lemma positiveCPU_nil path value : positiveCPU path value = [] <-> 0 < value.
Proof. apply positive_nil. Qed.
Lemma positiveBytes_nil path value : positiveBytes path value = [] <-> 0 < value.
Proof. apply positive_nil. Qed.
Lemma positiveDuration_nil path value : positiveDuration path value = [] <-> 0 < value.
Proof. apply positive_nil. Qed.
Lemma nonNegativeBytes_nil path value : nonNegativeBytes path value = [] <-> 0 <= value.
Proof. unfold nonNegativeBytes. rewrite add_if_nil, Z.ltb_ge. done. Qed.
Lemma user_nil path value : user path value = [] <-> userPattern value = true.
Proof. unfold user. by rewrite add_if_nil, negb_false_iff. Qed.
Lemma withinCaptureLimit_nil path value limit : withinCaptureLimit path value limit = [] <-> 0 < limit -> value <= limit.
Proof. unfold withinCaptureLimit. rewrite add_if_nil, andb_false_iff, Z.ltb_ge, Z.ltb_ge. lia. Qed.
Lemma requestWithinLimit_nil path request limitPath limit :
  requestWithinLimit path request limitPath limit = [] <-> 0 < limit -> request <= limit.
Proof. unfold requestWithinLimit. rewrite add_if_nil, andb_false_iff, Z.ltb_ge, Z.ltb_ge. lia. Qed.

Lemma each_index_nil {A} (f : nat -> A -> list FieldError) index values :
  each_index f index values = [] <-> forall i x, values !! i = Some x -> f (index + i)%nat x = [].
Proof.
  revert index. induction values as [|x values IH]; intros index; cbn [each_index]; [naive_solver|].
  rewrite app_nil, IH. split.
  - intros [Hx Hr] [|i] y; cbn; [intros [= <-]; by rewrite Nat.add_0_r|]. intros E. rewrite <-(Hr i y E). f_equal. lia.
  - intros E. split; [rewrite <-(E 0%nat x eq_refl); f_equal; lia|]. intros i y Ey.
    rewrite <-(E (S i) y Ey). f_equal. lia.
Qed.

Lemma unique_loop_nil path index seen values :
  unique_loop path index seen values = [] <->
  Forall (fun v => blank v = false) values /\ NoDup values /\ (forall v, v ∈ values -> v ∉ seen).
Proof.
  revert index seen. induction values as [|v values IH]; intros index seen; cbn [unique_loop].
  - split; [|done]. intros _. split; [done|]. split; [constructor|set_solver].
  - rewrite !app_nil, !add_if_nil, bool_decide_eq_false, IH, Forall_cons, NoDup_cons. set_solver.
Qed.
(** A list that passes is a set of non-blank strings. *)
Definition string_set (values : list string) : Prop := Forall (fun v => blank v = false) values /\ NoDup values.
Lemma uniqueStrings_nil path values requireNonEmpty :
  uniqueStrings path values requireNonEmpty = [] <-> string_set values /\ (requireNonEmpty = true -> values <> []).
Proof.
  unfold uniqueStrings, string_set. rewrite app_nil, add_if_nil, unique_loop_nil, andb_false_iff, bool_decide_eq_false.
  destruct requireNonEmpty; set_solver.
Qed.
Lemma requireMembers_nil path values required :
  requireMembers path values required = [] <-> forall v, v ∈ required -> v ∈ values.
Proof.
  induction required as [|v required IH]; cbn [requireMembers]; [set_solver|].
  rewrite app_nil, add_if_nil, negb_false_iff, bool_decide_eq_true, IH. set_solver.
Qed.

Lemma pinnedImage_nil path value : pinnedImage path value = [] -> is_ok (ParseDigest (pinnedDigest value)) = true.
Proof.
  unfold pinnedImage. rewrite app_nil. intros [_ E]. destruct (LastIndex value _) as [i|] eqn:L; [|done].
  destruct (((i <? 1)%nat || negb (CountByte value "@" =? 1)%nat) || _ || _) eqn:C in E; [done|].
  rewrite !orb_false_iff, negb_false_iff, Nat.eqb_eq in C. destruct C as [[[_ C] _] _].
  rewrite add_unless_nil in E.
  apply LastIndex_split in L as (a & b & -> & <-). unfold pinnedDigest.
  rewrite CountByte_app in C. change ("@sha256:" +:+ b) with (String "@" ("sha256:" +:+ b)) in *.
  assert (CountByte ("sha256:" +:+ b) "@" = 0)%nat by (cbn [CountByte] in C; rewrite Ascii.eqb_refl in C; lia).
  by rewrite LastIndexByte_app.
Qed.
End Collector.

#[export] Hint Rewrite @equal_nil @oneOf_nil @mustTrue_nil @positive_nil @positiveCPU_nil @positiveBytes_nil
  @positiveDuration_nil @nonNegativeBytes_nil @user_nil @withinCaptureLimit_nil @requestWithinLimit_nil
  @uniqueStrings_nil @requireMembers_nil : policy.

(** [problems H] splits [H : problems of a section = []] into its checks. *)
Ltac problems H :=
  repeat match type of H with
         | _ ++ _ = [] => let H1 := fresh "V" in apply app_nil in H as [H1 H]
         end.

(** ** Checks of the authority *)
Lemma deny_if_ok b field reason args u : deny_if b field reason args = Ok u <-> b = false.
Proof. destruct b, u; cbn; naive_solver. Qed.
Lemma limit_ok lower field actual maximum :
  lower = 0 \/ lower = 1 ->
  (if lower =? 0 then validateNonNegativeLimit field actual maximum else validatePositiveLimit field actual maximum) = Ok tt
  <-> lower <= actual <= maximum.
Proof.
  intros [-> | ->]; cbn [Z.eqb]; unfold validateNonNegativeLimit, validatePositiveLimit, validateAtMost;
    rewrite unit_bind_ok, !deny_if_ok, orb_false_iff, !Z.ltb_ge; [|rewrite Z.leb_gt]; lia.
Qed.
Lemma validateNonNegativeLimit_ok field actual maximum :
  validateNonNegativeLimit field actual maximum = Ok tt <-> 0 <= actual <= maximum.
Proof. apply (limit_ok 0); by left. Qed.
Lemma validatePositiveLimit_ok field actual maximum :
  validatePositiveLimit field actual maximum = Ok tt <-> 0 < actual <= maximum.
Proof. transitivity (1 <= actual <= maximum); [apply (limit_ok 1); by right|lia]. Qed.

Lemma res_each_list {E A} (f : A -> res E unit) l :
  res_each (fun _ => f) 0 l = Ok tt <-> Forall (fun x => f x = Ok tt) l.
Proof.
  rewrite res_each_ok, Forall_lookup. naive_solver.
Qed.

Lemma require_equal_ok values : require_equal values = Ok tt <-> Forall (fun v => v.1.2 = v.2) values.
Proof.
  unfold require_equal. rewrite (res_each_list (fun v => _)). apply Forall_iff. intros v.
  by rewrite deny_if_ok, negb_false_iff, bool_decide_eq_true.
Qed.

Lemma stringSet_loop_ok index result values r :
  stringSet_loop index result values = Ok r -> forall v, v ∈ r <-> v ∈ result \/ v ∈ values.
Proof.
  revert index result. induction values as [|v values IH]; intros index result; cbn [stringSet_loop].
  - intros [= <-] v. set_solver.
  - destruct (blank v); [done|]. case_bool_decide; [done|]. intros E w. rewrite (IH _ _ E). set_solver.
Qed.
Lemma deny_error_ok {A} field reason args (r : res string A) a :
  deny_error field reason args r = Ok a <-> r = Ok a.
Proof. destruct r; cbn; naive_solver. Qed.

Lemma requireSetContains_ok field actual required :
  requireSetContains field actual required = Ok tt -> forall v, v ∈ required -> v ∈ actual.
Proof.
  unfold requireSetContains. rewrite res_bind_ok. intros (actualSet & A & E). rewrite deny_error_ok in A.
  rewrite res_bind_ok in E. destruct E as (_ & _ & E). rewrite (res_each_list (fun v => _)), Forall_forall in E.
  intros v V. specialize (E v V). rewrite deny_if_ok, negb_false_iff, bool_decide_eq_true in E.
  apply (stringSet_loop_ok _ _ _ _ A) in E. set_solver.
Qed.
Lemma requireSetSubset_ok field actual allowed :
  requireSetSubset field actual allowed = Ok tt -> forall v, v ∈ actual -> v ∈ allowed.
Proof.
  unfold requireSetSubset. rewrite res_bind_ok. intros (actualSet & A & E). rewrite deny_error_ok in A.
  rewrite res_bind_ok in E. destruct E as (allowedSet & B & E). rewrite deny_error_ok in B.
  rewrite (res_each_list (fun v => _)), Forall_forall in E. intros v V.
  specialize (E v ltac:(apply (stringSet_loop_ok _ _ _ _ A); by right)).
  rewrite deny_if_ok, negb_false_iff, bool_decide_eq_true in E.
  apply (stringSet_loop_ok _ _ _ _ B) in E. set_solver.
Qed.

(** Every dimension of [actual] is within [maximum], and positive where the
    maximum is. *)
Definition within_maximum (actual maximum : RuntimeResources) : Prop :=
  Forall (fun v => 0 <= v.1.2 <= v.2) (resourceValues actual maximum).
Definition enforced (actual maximum : RuntimeResources) : Prop :=
  within_maximum actual maximum /\ Forall (fun v => 0 < v.2 -> 0 < v.1.2) (resourceValues actual maximum).

Lemma validateResources_ok field actual maximum :
  validateResources field actual maximum = Ok tt <-> within_maximum actual maximum.
Proof.
  unfold validateResources, within_maximum. rewrite (res_each_list (fun v => _)). apply Forall_iff. intros v.
  apply validateNonNegativeLimit_ok.
Qed.
Lemma validateEnforcedResources_ok field actual maximum :
  validateEnforcedResources field actual maximum = Ok tt <-> enforced actual maximum.
Proof.
  unfold validateEnforcedResources, enforced. rewrite unit_bind_ok, validateResources_ok, (res_each_list (fun v => _)).
  unfold within_maximum. rewrite !Forall_forall. split; intros [W P]; (split; [done|]); intros v V; specialize (W v V);
    specialize (P v V); rewrite deny_if_ok, andb_false_iff, Z.ltb_ge, Z.eqb_neq in *; lia.
Qed.

#[export] Hint Rewrite @deny_if_ok @require_equal_ok @validateNonNegativeLimit_ok @validatePositiveLimit_ok
  @validateResources_ok @validateEnforcedResources_ok @unit_bind_ok : admission.

(** ** Sections of a valid document *)
Section Valid.
Context `{Positions}.

Record valid_agent (a : AgentWorkspacePolicy) : Prop := {
  va_image : is_ok (ParseDigest (pinnedDigest (AgentRuntimePolicy_Image (AgentWorkspacePolicy_Runtime a)))) = true;
  va_profile : AgentRuntimePolicy_IsolationProfile (AgentWorkspacePolicy_Runtime a) = "agent-standard";
  va_root : AgentRuntimePolicy_RootFilesystem (AgentWorkspacePolicy_Runtime a) = "readOnly";
  va_user : userPattern (AgentRuntimePolicy_User (AgentWorkspacePolicy_Runtime a)) = true;
  va_drop : "ALL" ∈ LinuxCapabilities_Drop (AgentRuntimePolicy_Capabilities (AgentWorkspacePolicy_Runtime a));
  va_privileges : AgentRuntimePolicy_NoNewPrivileges (AgentWorkspacePolicy_Runtime a) = true;
  va_limits : let limits := AgentResourcesPolicy_Limits (AgentWorkspacePolicy_Resources a) in
    0 < AgentResourceLimits_CPU limits /\ 0 < AgentResourceLimits_Memory limits /\ 0 < AgentResourceLimits_PIDs limits /\
    0 < AgentResourceLimits_Workspace limits /\ 0 < AgentResourceLimits_WorkspaceInodes limits }.

Lemma validateAgentWorkspace_ok a : validateAgentWorkspace a = [] -> valid_agent a.
Proof.
  unfold validateAgentWorkspace. intros V. problems V. unfold linuxCapabilities in *.
  match goal with D : _ ++ _ ++ requireMembers _ _ ["ALL"] = [] |- _ => problems D end.
  match goal with I : pinnedImage _ _ = [] |- _ => apply pinnedImage_nil in I end.
  autorewrite with policy in *. split; try done; first [set_solver|cbn; by split_and!].
Qed.

Lemma validate_templates_each aggregate index seen templates t :
  validate_templates aggregate index seen templates = [] -> t ∈ templates ->
  exists i seen', validateTemplate aggregate i seen' t = [].
Proof.
  revert index seen. induction templates as [|t' templates IH]; intros index seen; cbn [validate_templates]; [set_solver|].
  rewrite app_nil. intros [V R] [-> | T]%elem_of_cons; [by exists index, seen|]. by eapply IH.
Qed.

Lemma largest_spec f templates :
  0 <= largest f templates /\ forall t, t ∈ templates -> f t <= largest f templates.
Proof.
  unfold largest. cut (forall best, 0 <= best ->
    best <= fold_left (fun best template => if best <? f template then f template else best) templates best /\
    forall t, t ∈ templates -> f t <= fold_left (fun best template => if best <? f template then f template else best) templates best).
  { intros C. destruct (C 0 ltac:(lia)). split; [lia|done]. }
  induction templates as [|x templates IH]; intros best B; cbn [fold_left]; [set_solver|].
  destruct (IH (if best <? f x then f x else best)) as [I1 I2]; [destruct (Z.ltb_spec best (f x)); lia|].
  split; [destruct (Z.ltb_spec best (f x)); lia|]. intros t [-> | T]%elem_of_cons; [|by apply I2].
  destruct (Z.ltb_spec best (f x)); lia.
Qed.

Lemma multiplyAdd_exact base perItem count total :
  0 <= base <= MaxInt64 ->
  multiplyAdd base perItem count = (total, false) ->
  0 <= perItem /\ 0 <= count /\ total = base + perItem * count /\ total <= MaxInt64.
Proof.
  unfold multiplyAdd. intros B. destruct (_ || _) eqn:C; [done|]. intros [= <-].
  rewrite !orb_false_iff, andb_false_iff, negb_false_iff, !Z.ltb_ge, Z.eqb_eq in C.
  destruct C as [[[_ P] K] [-> | Q]]; [lia|]. split; [done|]. split; [done|]. split; [done|].
  destruct (decide (perItem = 0)) as [-> | N]; [lia|].
  pose proof (Z.mul_quot_le (MaxInt64 - base) perItem ltac:(lia) ltac:(lia)). nia.
Qed.

(** What the aggregate of a valid document leaves for a session. *)
Lemma validateAggregateResources_ok r a targets :
  validateAggregateResources r a targets = [] ->
  let limits := AggregateResources_AggregateLimits r in
  let agent := AgentResourcesPolicy_Limits (AgentWorkspacePolicy_Resources a) in
  0 <= AgentResourceLimits_CPU agent <= MaxInt64 -> 0 <= AgentResourceLimits_Memory agent <= MaxInt64 ->
  0 < AggregateResourceLimits_CaptureBytes limits /\
  AgentResourceLimits_CPU agent + largest (fun t => TargetResourceLimits_CPU (template_limits t)) (TargetsPolicy_Templates targets)
    * TargetsPolicy_MaxConcurrent targets <= Z.min MaxInt64 (AggregateResourceLimits_CPU limits) /\
  AgentResourceLimits_Memory agent + largest (fun t => TargetResourceLimits_Memory (template_limits t)) (TargetsPolicy_Templates targets)
    * TargetsPolicy_MaxConcurrent targets <= Z.min MaxInt64 (AggregateResourceLimits_Memory limits).
Proof.
  cbn zeta. intros V Hc Hm. unfold validateAggregateResources in V. problems V. autorewrite with policy in *.
  split; [done|].
  repeat match goal with
  | E : (if exceeds (multiplyAdd ?b ?p ?c) _ then _ else _) = [] |- _ =>
      rewrite add_if_nil in E; unfold exceeds in E; let M := fresh "M" in
      destruct (multiplyAdd b p c) as [? []] eqn:M; [done|];
      cbn [fst snd orb] in E; rewrite Z.ltb_ge in E; apply multiplyAdd_exact in M; [|done]
  end. lia.
Qed.
End Valid.
