(* ===== verification/PolicySafety.v ===== *)
(** * Admission under a compiled policy

    Theorems about plans, targets and captures admitted under a policy that
    [Compile] accepted. *)
From S2P Require Import Prelude Errors GoStrings Ids GoText Capability Policy PolicyRules PolicyObservation PolicyCompile PolicyAuthority.
From S2P Require Import PolicyFacts.
Local Open Scope Z_scope.

Section Compiled.
Context `{Positions, PolicyText}.

Lemma Compile_valid decoded node e :
  Compile decoded node = Ok e -> ep_policy e = applyDefaults decoded /\ validatePolicy (ep_policy e) = [].
Proof.
  unfold Compile, prepare. rewrite res_bind_ok. intros ([p r] & P & E).
  case_bool_decide as V; [|done]. injection P as <- <-. rewrite res_bind_ok in E. destruct E as (x & _ & E).
  rewrite res_bind_ok in E. destruct E as (c & _ & E). by injection E as <-.
Qed.

(** ** The agent *)
Record confined (r : AgentRuntimeAdmission) : Prop := {
  co_image : is_ok (ParseDigest (ara_ImageDigest r)) = true;
  co_drop : "ALL" ∈ ara_CapabilityDrop r;
  co_root : ara_RootFilesystem r = "readOnly";
  co_profile : ara_IsolationProfile r = "agent-standard";
  co_privileges : ara_NoNewPrivileges r = true;
  co_user : userPattern (ara_User r) = true /\ ara_UserEnforced r = true;
  co_seccomp : ara_SeccompEnforced r = true }.

Definition agent_capabilities (p : Policy) : LinuxCapabilities :=
  AgentRuntimePolicy_Capabilities (AgentWorkspacePolicy_Runtime (PolicySpec_AgentWorkspace (Policy_Spec p))).

(** The dimensions the policy bounds from both sides, and the limits. *)
Definition within_requests (p : Policy) (r : RuntimeResources) : Prop :=
  AgentResourceRequests_CPU (agent_requests p) <= rr_CPUMilli r <= AgentResourceLimits_CPU (agent_limits p) /\
  AgentResourceRequests_Memory (agent_requests p) <= rr_MemoryBytes r <= AgentResourceLimits_Memory (agent_limits p) /\
  AgentResourceRequests_Workspace (agent_requests p) <= rr_WorkspaceBytes r <= AgentResourceLimits_Workspace (agent_limits p).
Definition bounded (p : Policy) (r : RuntimeResources) : Prop :=
  0 < rr_CPUMilli r /\ 0 < rr_MemoryBytes r /\ 0 < rr_WorkspaceBytes r /\
  0 < rr_PIDs r <= AgentResourceLimits_PIDs (agent_limits p) /\
  0 < rr_Inodes r <= AgentResourceLimits_WorkspaceInodes (agent_limits p) /\
  0 < rr_CaptureBytes r <= AggregateResourceLimits_CaptureBytes (aggregate_limits p) /\
  0 <= rr_SwapBytes r <= AgentResourceLimits_Swap (agent_limits p) /\ rr_WritableStateBytes r = 0.

Lemma valid_sections p :
  validatePolicy p = [] ->
  validateAgentWorkspace (PolicySpec_AgentWorkspace (Policy_Spec p)) = [] /\
  validateTargets (PolicySpec_Targets (Policy_Spec p)) (PolicySpec_Resources (Policy_Spec p)) = [] /\
  validateAggregateResources (PolicySpec_Resources (Policy_Spec p)) (PolicySpec_AgentWorkspace (Policy_Spec p))
    (PolicySpec_Targets (Policy_Spec p)) = [] /\
  validateObservation (PolicySpec_Observation (Policy_Spec p)) (PolicySpec_Targets (Policy_Spec p))
    (PolicySpec_Resources (Policy_Spec p)) = [].
Proof. unfold validatePolicy. intros V. problems V. done. Qed.

Lemma valid_capture_limit p : validatePolicy p = [] -> 0 < AggregateResourceLimits_CaptureBytes (aggregate_limits p).
Proof.
  intros V. apply valid_sections in V as (_ & _ & V & _). unfold validateAggregateResources in V. problems V.
  autorewrite with policy in *. done.
Qed.

Lemma ValidateAgentResources_ok e r :
  ValidateAgentResources (Some e) r = Ok tt ->
  enforced r (agent_maximum (ep_policy e)) /\
  AgentResourceRequests_CPU (agent_requests (ep_policy e)) <= rr_CPUMilli r /\
  AgentResourceRequests_Memory (agent_requests (ep_policy e)) <= rr_MemoryBytes r /\
  AgentResourceRequests_Workspace (agent_requests (ep_policy e)) <= rr_WorkspaceBytes r.
Proof.
  unfold ValidateAgentResources. cbn [requirePolicy mbind res_mbind]. rewrite unit_bind_ok, validateEnforcedResources_ok.
  rewrite (res_each_list (fun v => _)), !Forall_cons, !deny_if_ok, !Z.ltb_ge. cbn. tauto.
Qed.

(** C26: Whatever agent plan is admitted under a compiled policy is confined and
    bounded, whatever the document says: its image is pinned by an exact
    digest, all capabilities are dropped and only those the policy lists added,
    the root is read-only, the numeric user, seccomp and no-new-privileges are
    enforced, and every resource lies between the policy's request and its
    limit, no limit being left at zero (unbounded). *)
Theorem admitted_agent_confined decoded node e request :
  Compile decoded node = Ok e -> ValidateAgentPlan (Some e) request = Ok tt ->
  confined (apa_Runtime request) /\
  (forall c, c ∈ ara_CapabilityAdd (apa_Runtime request) -> c ∈ LinuxCapabilities_Add (agent_capabilities (ep_policy e))) /\
  within_requests (ep_policy e) (apa_Resources request) /\ bounded (ep_policy e) (apa_Resources request).
Proof.
  intros [_ V]%Compile_valid A. pose proof (valid_capture_limit _ V) as C.
  apply valid_sections in V as (V & _). apply validateAgentWorkspace_ok in V as [I P R U D N L].
  unfold ValidateAgentPlan in A. rewrite unit_bind_ok in A. destruct A as [A B].
  apply ValidateAgentResources_ok in B as ([W E] & Q1 & Q2 & Q3).
  unfold within_maximum in W. unfold resourceValues in W, E. rewrite !Forall_cons in W, E. cbn in W, E, L.
  unfold ValidateAgentRuntime in A. cbn [requirePolicy mbind res_mbind] in A.
  rewrite !unit_bind_ok, !deny_if_ok, require_equal_ok, !Forall_cons in A. cbn [fst snd] in A.
  destruct A as (A1 & A2 & (E1 & E2 & E3 & E4 & E5 & _) & A3 & A4 & A5).
  apply negb_false_iff in A1, A2. rewrite N in A3. cbn in A3. apply negb_false_iff in A3.
  split; [|split; [by apply (requireSetSubset_ok _ _ _ A5)|]].
  - split; try congruence; [|by split; congruence]. by eapply requireSetContains_ok.
  - unfold within_requests, bounded, agent_limits, agent_requests, aggregate_limits in *. lia.
Qed.

(** ** One session within the aggregate *)
Definition sum_of (f : RuntimeResources -> Z) (plans : list RuntimeResources) : Z := foldr (fun r s => f r + s) 0 plans.
Definition counted (r : RuntimeResources) : Prop :=
  0 <= rr_CPUMilli r /\ 0 <= rr_MemoryBytes r /\ 0 <= rr_CaptureBytes r.

Lemma addAggregateResource_ok field current additional :
  0 <= current -> 0 <= additional -> current + additional <= MaxInt64 ->
  addAggregateResource field current additional = Ok (current + additional).
Proof.
  intros C A B. unfold addAggregateResource.
  destruct (Z.ltb_spec current 0), (Z.ltb_spec additional 0), (Z.ltb_spec (MaxInt64 - additional) current); try lia. done.
Qed.

Lemma sum_of_nonneg f plans : Forall (fun r => 0 <= f r) plans -> 0 <= sum_of f plans.
Proof. induction 1; cbn [sum_of foldr]; unfold sum_of in *; lia. Qed.
Lemma sum_of_bound f plans bound : Forall (fun r => f r <= bound) plans -> sum_of f plans <= bound * Z.of_nat (length plans).
Proof. induction 1; cbn [sum_of foldr length]; [lia|]. unfold sum_of in *. lia. Qed.

Lemma counted_sums plans :
  Forall counted plans -> 0 <= sum_of rr_CPUMilli plans /\ 0 <= sum_of rr_MemoryBytes plans /\ 0 <= sum_of rr_CaptureBytes plans.
Proof. intros F. split_and!; apply sum_of_nonneg; (eapply Forall_impl; [exact F|]); by intros ? (? & ? & ?). Qed.

Lemma resource_usage_ok live cpu memory capture :
  0 <= cpu -> 0 <= memory -> 0 <= capture -> Forall counted live ->
  cpu + sum_of rr_CPUMilli live <= MaxInt64 -> memory + sum_of rr_MemoryBytes live <= MaxInt64 ->
  capture + sum_of rr_CaptureBytes live <= MaxInt64 ->
  resource_usage (mkRuntimeResources cpu memory 0 0 0 capture 0 0) live =
  Ok (mkRuntimeResources (cpu + sum_of rr_CPUMilli live) (memory + sum_of rr_MemoryBytes live) 0 0 0
        (capture + sum_of rr_CaptureBytes live) 0 0).
Proof.
  revert cpu memory capture. induction live as [|r live IH]; intros cpu memory capture C M K F B1 B2 B3.
  - cbn. by rewrite !Z.add_0_r.
  - apply Forall_cons in F as [(R1 & R2 & R3) F]. cbn [sum_of foldr] in *.
    destruct (counted_sums _ F) as (G1 & G2 & G3). unfold sum_of in G1, G2, G3.
    unfold resource_usage; fold resource_usage. unfold addAggregateResources. cbn [rr_CPUMilli rr_MemoryBytes rr_CaptureBytes].
    rewrite !addAggregateResource_ok by lia. cbn [mbind res_mbind].
    rewrite IH; unfold sum_of in *; try lia; [|done]. do 2 f_equal; lia.
Qed.

Lemma admit_usage_ok e live candidate :
  Forall counted live -> counted candidate ->
  rr_CPUMilli candidate + sum_of rr_CPUMilli live <= MaxInt64 `min` AggregateResourceLimits_CPU (aggregate_limits (ep_policy e)) ->
  rr_MemoryBytes candidate + sum_of rr_MemoryBytes live <= MaxInt64 `min` AggregateResourceLimits_Memory (aggregate_limits (ep_policy e)) ->
  rr_CaptureBytes candidate + sum_of rr_CaptureBytes live <= MaxInt64 `min` AggregateResourceLimits_CaptureBytes (aggregate_limits (ep_policy e)) ->
  admit_usage (Some e) live candidate = Ok tt.
Proof.
  intros L (C1 & C2 & C3) B1 B2 B3. destruct (counted_sums _ L) as (G1 & G2 & G3).
  unfold admit_usage, no_resources. rewrite resource_usage_ok by (done || lia).
  unfold addAggregateResources. cbn [mbind res_mbind rr_CPUMilli rr_MemoryBytes rr_CaptureBytes].
  rewrite !addAggregateResource_ok by lia. cbn [mbind res_mbind].
  unfold ValidateAggregateResources. cbn [requirePolicy mbind res_mbind].
  rewrite validateResources_ok. unfold within_maximum, resourceValues, aggregate_maximum.
  rewrite !Forall_cons. cbn. split_and!; try lia; done.
Qed.

(** A target within its template counts no capture bytes. *)
Lemma ValidateTarget_resources e t :
  ValidateTarget (Some e) t = Ok tt ->
  exists template, template ∈ TargetsPolicy_Templates (PolicySpec_Targets (Policy_Spec (ep_policy e))) /\
    enforced (ta_Resources t) (target_maximum template).
Proof.
  unfold ValidateTarget. cbn [requirePolicy mbind res_mbind]. rewrite unit_bind_ok. intros [_ E].
  destruct (targetTemplate _ _) as [template|] eqn:F; [|done]. exists template.
  rewrite !unit_bind_ok, validateEnforcedResources_ok in E. split; [|tauto].
  unfold targetTemplate in F. by apply find_some in F as [F%list_elem_of_In _].
Qed.

Lemma target_counted e t :
  ValidateTarget (Some e) t = Ok tt ->
  let targets := PolicySpec_Targets (Policy_Spec (ep_policy e)) in
  0 <= rr_CPUMilli (ta_Resources t) <= largest (fun t => TargetResourceLimits_CPU (template_limits t)) (TargetsPolicy_Templates targets) /\
  0 <= rr_MemoryBytes (ta_Resources t) <= largest (fun t => TargetResourceLimits_Memory (template_limits t)) (TargetsPolicy_Templates targets) /\
  rr_CaptureBytes (ta_Resources t) = 0.
Proof.
  intros (template & T & W & _)%ValidateTarget_resources. cbn zeta.
  pose proof (proj2 (largest_spec (fun t => TargetResourceLimits_CPU (template_limits t)) _) _ T).
  pose proof (proj2 (largest_spec (fun t => TargetResourceLimits_Memory (template_limits t)) _) _ T).
  unfold within_maximum, resourceValues in W. rewrite !Forall_cons in W. cbn in *. lia.
Qed.

(** The int64 fields of a document that are added up. *)
Definition int64_limits (p : Policy) : Prop :=
  AgentResourceLimits_CPU (agent_limits p) <= MaxInt64 /\ AgentResourceLimits_Memory (agent_limits p) <= MaxInt64 /\
  AggregateResourceLimits_CaptureBytes (aggregate_limits p) <= MaxInt64.

(** C25: A compiled policy never contradicts itself: an admitted agent and as
    many admitted targets as the policy allows at once, of any of its templates,
    always fit the policy's aggregate limits; their sums do not overflow and the
    admission of the last one succeeds. *)
Theorem declared_session_fits decoded node e agent targets candidate :
  Compile decoded node = Ok e -> int64_limits (ep_policy e) ->
  ValidateAgentPlan (Some e) agent = Ok tt ->
  Forall (fun t => ValidateTarget (Some e) t = Ok tt) (candidate :: targets) ->
  Z.of_nat (length (candidate :: targets)) <= TargetsPolicy_MaxConcurrent (PolicySpec_Targets (Policy_Spec (ep_policy e))) ->
  admit_usage (Some e) (apa_Resources agent :: (ta_Resources <$> targets)) (ta_Resources candidate) = Ok tt.
Proof.
  intros [_ V]%Compile_valid (L1 & L2 & L3) A T M. apply valid_sections in V as (Va & _ & V & _).
  apply validateAgentWorkspace_ok in Va as [_ _ _ _ _ _ La]. cbn zeta in La.
  unfold agent_limits, aggregate_limits in *.
  destruct (validateAggregateResources_ok _ _ _ V) as (K & Sc & Sm); [lia..|].
  unfold ValidateAgentPlan in A. rewrite unit_bind_ok in A. destruct A as [_ A].
  apply ValidateAgentResources_ok in A as ([W _] & _). unfold within_maximum, resourceValues in W.
  rewrite !Forall_cons in W. cbn in W. unfold agent_limits, aggregate_limits in W.
  set (P := PolicySpec_Targets (Policy_Spec (ep_policy e))) in *.
  set (C := largest (fun t => TargetResourceLimits_CPU (template_limits t)) (TargetsPolicy_Templates P)) in *.
  set (Y := largest (fun t => TargetResourceLimits_Memory (template_limits t)) (TargetsPolicy_Templates P)) in *.
  assert (F : Forall (fun r => counted r /\ rr_CPUMilli r <= C /\ rr_MemoryBytes r <= Y /\ rr_CaptureBytes r <= 0)
                (ta_Resources <$> candidate :: targets)).
  { apply Forall_fmap. eapply Forall_impl; [exact T|]. intros t Ht. cbn. unfold counted.
    pose proof (target_counted e t Ht) as Q. cbn zeta in Q. fold P C Y in Q. lia. }
  cbn [fmap list_fmap] in F. apply Forall_cons in F as [(Fc & B1 & B2 & B3) F].
  assert (Total : forall f bound, Forall (fun r => f r <= bound) (ta_Resources <$> targets) ->
              sum_of f (ta_Resources <$> targets) <= bound * Z.of_nat (length targets)).
  { intros f bound Hf. apply sum_of_bound in Hf. by rewrite length_fmap in Hf. }
  pose proof (Total rr_CPUMilli C ltac:(eapply Forall_impl; [exact F|naive_solver])) as S1.
  pose proof (Total rr_MemoryBytes Y ltac:(eapply Forall_impl; [exact F|naive_solver])) as S2.
  pose proof (Total rr_CaptureBytes 0 ltac:(eapply Forall_impl; [exact F|naive_solver])) as S3.
  cbn [length] in M. destruct Fc as (N1 & N2 & N3).
  assert (C * Z.of_nat (S (length targets)) <= C * TargetsPolicy_MaxConcurrent P) by (apply Z.mul_le_mono_nonneg_l; lia).
  assert (Y * Z.of_nat (S (length targets)) <= Y * TargetsPolicy_MaxConcurrent P) by (apply Z.mul_le_mono_nonneg_l; lia).
  assert (G : Forall counted (ta_Resources <$> targets)) by (eapply Forall_impl; [exact F|naive_solver]).
  assert (N : forall f, (forall r, counted r -> 0 <= f r) -> 0 <= sum_of f (ta_Resources <$> targets))
    by (intros f Hf; apply sum_of_nonneg; eapply Forall_impl; [exact G|exact Hf]).
  pose proof (N rr_CPUMilli ltac:(by intros ? (?&?&?))). pose proof (N rr_MemoryBytes ltac:(by intros ? (?&?&?))).
  pose proof (N rr_CaptureBytes ltac:(by intros ? (?&?&?))).
  apply admit_usage_ok; [|done|cbn [sum_of foldr]; unfold sum_of, aggregate_limits in *; lia..].
  apply Forall_cons; split; [unfold counted; lia|done].
Qed.
End Compiled.

(** * Captures an agent may ask for

    Every capture a compiled policy offers can be granted, and only within
    its profile and the aggregate. *)
Local Open Scope Z_scope.

Lemma stringSet_loop_is_ok index result values :
  is_ok (stringSet_loop index result values) = true <->
  Forall (fun v => blank v = false) values /\ NoDup values /\ (forall v, v ∈ values -> v ∉ result).
Proof.
  revert index result. induction values as [|v values IH]; intros index result; cbn [stringSet_loop].
  - split; [|done]. intros _. split; [done|]. split; [constructor|set_solver].
  - rewrite Forall_cons, NoDup_cons. destruct (blank v); [naive_solver|].
    case_bool_decide; [split; [done|set_solver]|]. rewrite IH. set_solver.
Qed.
Lemma stringSet_is_ok values : is_ok (stringSet values) = true <-> string_set values.
Proof. unfold stringSet, string_set. rewrite stringSet_loop_is_ok. set_solver. Qed.

Lemma isSubset_iff values allowed : isSubset values allowed = true <-> values ⊆ allowed.
Proof.
  unfold isSubset. rewrite forallb_forall. split; intros H v I.
  - apply list_elem_of_In in I. apply H in I. by apply bool_decide_eq_true in I.
  - apply bool_decide_eq_true, H. by apply list_elem_of_In.
Qed.

(** ** What the policy says of a capture *)
Definition offered (p : Policy) (name : string) : Prop :=
  let observation := PolicySpec_Observation (Policy_Spec p) in
  let requests := ObservationPolicy_AgentRequests observation in
  (name ∈ AgentRequestsPolicy_Profiles requests \/ name ∈ AgentRequestsPolicy_NamedCaptures requests) /\
  (name = "payload" -> PayloadProfile_Enabled (ObservationProfiles_Payload (ObservationPolicy_Profiles observation)) <> "disabled").

(** The limits leave room for a capture. *)
Record grantable (p : Policy) (name : string) (limits : capturePolicyLimits) : Prop := {
  gr_duration : 0 < cl_duration limits;
  gr_bytes : 0 < capture_bytes p limits <= AggregateResourceLimits_CaptureBytes (aggregate_limits p);
  gr_families : string_set (cl_signalFamilies limits) /\ cl_signalFamilies limits <> [];
  gr_payload : name = "payload" -> cl_processFilter limits = true;
  gr_packets : name = "packetPayload" -> cl_flowFilter limits = true }.

Definition permitted (p : Policy) (limits : capturePolicyLimits) (request : CaptureAdmission) : Prop :=
  string_set (cpa_SignalFamilies request) /\ cpa_SignalFamilies request <> [] /\
  cpa_SignalFamilies request ⊆ cl_signalFamilies limits /\
  0 < cpa_Duration request <= cl_duration limits /\ 0 < cpa_Bytes request <= capture_bytes p limits /\
  (cl_processFilter limits = true -> cpa_HasProcessOrPathFilter request = true) /\
  (cl_flowFilter limits = true -> cpa_HasFlowFilter request = true).

Lemma implb_deny (a b : bool) : a && negb b = false <-> (a = true -> b = true).
Proof. destruct a, b; cbn; naive_solver. Qed.

Lemma ValidateCapture_ok e request limits :
  captureLimits (ep_policy e) (cpa_Name request) = Some limits ->
  ValidateCapture (Some e) request = Ok tt <-> permitted (ep_policy e) limits request.
Proof.
  intros L. unfold ValidateCapture, permitted. cbn [requirePolicy mbind res_mbind]. rewrite L.
  rewrite !unit_bind_ok, !deny_if_ok, !validatePositiveLimit_ok, orb_false_iff, !negb_false_iff, !implb_deny,
    stringSet_is_ok, isSubset_iff, bool_decide_eq_false. tauto.
Qed.

Section Valid.
Context `{Positions}.

(** Bytes within the capture limit are what a capture of the profile may take. *)
Lemma grantable_intro p name duration bytes process flow families :
  0 < AggregateResourceLimits_CaptureBytes (aggregate_limits p) ->
  0 < duration -> 0 <= bytes -> string_set families /\ families <> [] ->
  (name = "payload" -> process = true) -> (name = "packetPayload" -> flow = true) ->
  grantable p name (mkCaptureLimits duration bytes process flow families).
Proof.
  intros A D B F P Q. split; cbn; try done. unfold capture_bytes. cbn.
  destruct (Z.eqb_spec bytes 0), (Z.ltb_spec (AggregateResourceLimits_CaptureBytes (aggregate_limits p)) bytes); cbn; lia.
Qed.

Lemma boundedProfile_ok p path profile limit name :
  0 < AggregateResourceLimits_CaptureBytes (aggregate_limits p) -> name <> "payload" -> name <> "packetPayload" ->
  boundedProfile path profile limit = [] -> grantable p name (bounded_limits profile).
Proof.
  intros A N M V. unfold boundedProfile in V. problems V. autorewrite with policy in *.
  apply grantable_intro; naive_solver lia.
Qed.

Lemma offered_names p name :
  validatePolicy p = [] -> offered p name -> name ∈ "deep" :: "payload" :: named_captures.
Proof.
  intros (_ & _ & _ & V)%valid_sections [O _]. unfold validateObservation in V. problems V.
  match goal with H : validateAgentRequests _ = [] |- _ => unfold validateAgentRequests in H; problems H; rename H into N end.
  rewrite !elem_of_cons. destruct O as [[i O]%list_elem_of_lookup|[i O]%list_elem_of_lookup].
  - match goal with H : each_index _ _ (AgentRequestsPolicy_Profiles _) = [] |- _ => pose proof (proj1 (each_index_nil _ _ _) H i _ O) as M end.
    cbn beta in M. rewrite add_if_nil, andb_false_iff, !negb_false_iff, !bool_decide_eq_true in M. tauto.
  - pose proof (proj1 (each_index_nil _ _ _) N i _ O) as M. cbn beta in M.
    rewrite add_if_nil, negb_false_iff, bool_decide_eq_true in M. auto.
Qed.

Lemma named_limits p name :
  offered p name ->
  captureLimits p name =
  let observation := PolicySpec_Observation (Policy_Spec p) in
  let onDemand := ObservationPolicy_AllowedOnDemand observation in
  let payload := ObservationProfiles_Payload (ObservationPolicy_Profiles observation) in
  let packet := AllowedOnDemandPolicy_PacketPayload onDemand in
  let mitmproxy := AllowedOnDemandPolicy_Mitmproxy onDemand in
  let frida := AllowedOnDemandPolicy_Frida onDemand in
  if bool_decide (name = "worldLifecycle") then Some (bounded_limits (AllowedOnDemandPolicy_WorldLifecycle onDemand)) else
  if bool_decide (name = "deep")
  then Some (bounded_limits (ObservationProfiles_Deep (ObservationPolicy_Profiles observation))) else
  if bool_decide (name = "payload") then
    if negb (bool_decide (PayloadProfile_Enabled payload = "authorized-on-demand")) then None else
    Some (mkCaptureLimits (PayloadProfile_MaxDuration payload) (PayloadProfile_MaxBytes payload)
            (PayloadProfile_RequireProcessOrPathFilter payload) false (PayloadProfile_SignalFamilies payload)) else
  if bool_decide (name = "strace") then Some (bounded_limits (AllowedOnDemandPolicy_Strace onDemand)) else
  if bool_decide (name = "perfetto") then Some (bounded_limits (AllowedOnDemandPolicy_Perfetto onDemand)) else
  if bool_decide (name = "packetPayload") then
    Some (mkCaptureLimits (FilteredBoundedProfile_MaxDuration packet) (FilteredBoundedProfile_MaxBytes packet) false
            (FilteredBoundedProfile_RequireFlowFilter packet) (FilteredBoundedProfile_SignalFamilies packet)) else
  if bool_decide (name = "mitmproxy") then
    Some (mkCaptureLimits (MitmproxyCapturePolicy_MaxDuration mitmproxy) (MitmproxyCapturePolicy_MaxBytes mitmproxy) false
            false (MitmproxyCapturePolicy_SignalFamilies mitmproxy)) else
  if bool_decide (name = "frida") then
    Some (mkCaptureLimits (FridaCapturePolicy_MaxDuration frida) 0 false false (FridaCapturePolicy_SignalFamilies frida))
  else None.
Proof.
  intros [O _]. unfold captureLimits. cbv zeta in O.
  destruct (negb _ && negb _) eqn:E; [|done].
  rewrite andb_true_iff, !negb_true_iff, !bool_decide_eq_false in E. tauto.
Qed.

(** The sections the captures are declared in. *)
Lemma validatePayload_ok p payload limit :
  0 < AggregateResourceLimits_CaptureBytes (aggregate_limits p) -> PayloadProfile_Enabled payload <> "disabled" ->
  validatePayload payload limit = [] ->
  PayloadProfile_Enabled payload = "authorized-on-demand" /\
  grantable p "payload" (mkCaptureLimits (PayloadProfile_MaxDuration payload) (PayloadProfile_MaxBytes payload)
    (PayloadProfile_RequireProcessOrPathFilter payload) false (PayloadProfile_SignalFamilies payload)).
Proof.
  intros A N V. unfold validatePayload in V. rewrite bool_decide_false in V by done. cbn [negb] in V. problems V. problems V1.
  autorewrite with policy in *. split; [|apply grantable_intro; naive_solver lia].
  rewrite !elem_of_cons in V0. destruct V0 as [?|[?|?%elem_of_nil]]; done.
Qed.

Lemma validateOnDemand_ok p onDemand limit :
  0 < AggregateResourceLimits_CaptureBytes (aggregate_limits p) -> validateOnDemand onDemand limit = [] ->
  let packet := AllowedOnDemandPolicy_PacketPayload onDemand in
  let mitmproxy := AllowedOnDemandPolicy_Mitmproxy onDemand in
  let frida := AllowedOnDemandPolicy_Frida onDemand in
  grantable p "worldLifecycle" (bounded_limits (AllowedOnDemandPolicy_WorldLifecycle onDemand)) /\
  grantable p "strace" (bounded_limits (AllowedOnDemandPolicy_Strace onDemand)) /\
  grantable p "perfetto" (bounded_limits (AllowedOnDemandPolicy_Perfetto onDemand)) /\
  grantable p "packetPayload" (mkCaptureLimits (FilteredBoundedProfile_MaxDuration packet) (FilteredBoundedProfile_MaxBytes packet)
    false (FilteredBoundedProfile_RequireFlowFilter packet) (FilteredBoundedProfile_SignalFamilies packet)) /\
  grantable p "mitmproxy" (mkCaptureLimits (MitmproxyCapturePolicy_MaxDuration mitmproxy) (MitmproxyCapturePolicy_MaxBytes mitmproxy)
    false false (MitmproxyCapturePolicy_SignalFamilies mitmproxy)) /\
  grantable p "frida" (mkCaptureLimits (FridaCapturePolicy_MaxDuration frida) 0 false false (FridaCapturePolicy_SignalFamilies frida)).
Proof.
  intros A V. unfold validateOnDemand in V. problems V.
  split_and!; try (eapply boundedProfile_ok; [done|done|done|eassumption]);
    autorewrite with policy in *; apply grantable_intro; naive_solver lia.
Qed.

Lemma offered_limits p name :
  validatePolicy p = [] -> offered p name -> exists limits, captureLimits p name = Some limits /\ grantable p name limits.
Proof.
  intros V O. pose proof (offered_names _ _ V O) as M. pose proof (valid_capture_limit _ V) as A.
  rewrite named_limits by done. destruct O as [_ O]. cbv zeta in *.
  apply valid_sections in V as (_ & _ & _ & V). unfold validateObservation in V. problems V.
  match goal with H : validateOnDemand _ _ = [] |- _ => apply (validateOnDemand_ok p _ _ A) in H as (G1 & G2 & G3 & G4 & G5 & G6) end.
  match goal with H : boundedProfile _ (ObservationProfiles_Deep _) _ = [] |- _ =>
    apply (boundedProfile_ok p _ _ _ "deep" A) in H as G7; [|done|done] end.
  unfold named_captures in M. rewrite !elem_of_cons in M.
  destruct M as [->|[->|[->|[->|[->|[->|[->|[->|[]%elem_of_nil]]]]]]]];
    try (eexists; split; done).
  match goal with H : validatePayload _ _ = [] |- _ => apply (validatePayload_ok p _ _ A) in H as [E G8]; [|by apply O] end.
  cbn -[captureLimits]. rewrite E. eexists. split; done.
Qed.

(** Every capture a compiled policy offers an agent (payloads apart when
    they are disabled) can be granted, and nothing beyond it: it has a duration
    and a byte allowance that are positive and within the aggregate, payload and
    packet captures only with a filter; a request for it is granted exactly if
    it asks for signal families of the profile, for no more time and bytes, and
    names the filters required; and some request is granted. *)
Theorem offered_captures `{PolicyText} decoded node e name :
  Compile decoded node = Ok e -> offered (ep_policy e) name ->
  exists limits, captureLimits (ep_policy e) name = Some limits /\ grantable (ep_policy e) name limits /\
    (forall request, cpa_Name request = name ->
       ValidateCapture (Some e) request = Ok tt <-> permitted (ep_policy e) limits request) /\
    (exists request, cpa_Name request = name /\ ValidateCapture (Some e) request = Ok tt).
Proof.
  intros [_ V]%Compile_valid O. destruct (offered_limits _ _ V O) as (limits & L & G). exists limits.
  split_and!; [done..|by intros request <-; apply ValidateCapture_ok|].
  exists (mkCaptureAdmission name (cl_signalFamilies limits) (cl_duration limits) (capture_bytes (ep_policy e) limits) true true).
  split; [done|]. rewrite (ValidateCapture_ok _ _ limits) by done. destruct G as [D [B _] [F N] _ _].
  unfold permitted. cbn. split_and!; try done; lia.
Qed.
End Valid.
