(* ===== verification/PolicyResolution.v ===== *)
(** * What a policy requires of a node

    The accumulator of [policy/capabilities.go] computes the strongest
    requirement of every capability, and compilation succeeds exactly on the
    nodes that support what is required. *)
From S2P Require Import Prelude Errors GoStrings Utf8Facts Values Ids Evidence GoText Capability Policy PolicyRules PolicyObservation.
From S2P Require Import PolicyCompile PolicyFacts PolicySafety.
Local Open Scope Z_scope.

(** ** The strongest requirement of each capability *)
Notation call := (string * RequirementLevel * string)%type.
Definition call_name (c : call) : string := c.1.1.
Definition call_level (c : call) : RequirementLevel := c.1.2.
Definition call_path (c : call) : string := c.2.
Definition demands (c : call) : bool := bool_decide (call_level c = RequirementRequired).

(** The names that occur, each where it occurs first. *)
Fixpoint first_names (calls : list call) : list string :=
  match calls with
  | [] => []
  | c :: calls =>
      let later := first_names calls in
      if bool_decide (call_name c = "") then later
      else call_name c :: base.filter (fun n => n <> call_name c) later
  end.

Definition calls_of (name : string) (calls : list call) : list call := base.filter (fun c => call_name c = name) calls.

(** Required if any call requires it, and blamed on the first that does;
    otherwise as in its first call. *)
Definition strongest_of (calls : list call) (name : string) : PolicyRequirement :=
  match List.find demands (calls_of name calls), calls_of name calls with
  | Some c, _ => mkPolicyRequirement name RequirementRequired (call_path c) ∅
  | None, c :: _ => mkPolicyRequirement name (call_level c) (call_path c) ∅
  | None, [] => mkPolicyRequirement name RequirementPreferred "" ∅
  end.
Definition strongest (calls : list call) : list PolicyRequirement := strongest_of calls <$> first_names calls.

Lemma first_names_elem calls n : n ∈ first_names calls <-> n <> "" /\ n ∈ call_name <$> calls.
Proof.
  induction calls as [|c calls IH]; cbn [first_names fmap list_fmap]; [set_solver|].
  case_bool_decide as B; rewrite ?elem_of_cons, ?list_elem_of_filter, IH; [set_solver|].
  destruct (decide (n = call_name c)) as [->|]; set_solver.
Qed.

Lemma first_names_nodup calls : NoDup (first_names calls).
Proof.
  induction calls as [|c calls IH]; cbn [first_names]; [constructor|]. case_bool_decide; [done|].
  constructor; [rewrite list_elem_of_filter; naive_solver|by apply NoDup_filter].
Qed.

Lemma first_names_snoc calls c :
  first_names (calls ++ [c]) =
  if bool_decide (call_name c = "" \/ call_name c ∈ first_names calls) then first_names calls
  else first_names calls ++ [call_name c].
Proof.
  induction calls as [|d calls IH]; cbn [first_names app].
  - case_bool_decide as B; case_bool_decide as B'; set_solver.
  - destruct (decide (call_name d = "")) as [D|D];
      [by rewrite !(bool_decide_true (call_name d = "")), IH by done|].
    rewrite !(bool_decide_false (call_name d = "")), IH by done. cbn [app].
    case_bool_decide as B; case_bool_decide as B'; rewrite elem_of_cons, list_elem_of_filter in B'; try done.
    + exfalso. apply B'. destruct (decide (call_name c = call_name d)); tauto.
    + rewrite filter_app, filter_cons_False by naive_solver. cbn. by rewrite app_nil_r.
    + rewrite filter_app, filter_cons_True by naive_solver. done.
Qed.

Lemma calls_of_snoc name calls c :
  calls_of name (calls ++ [c]) = calls_of name calls ++ (if bool_decide (call_name c = name) then [c] else []).
Proof. unfold calls_of. rewrite filter_app. f_equal. case_bool_decide; [by rewrite filter_cons_True|by rewrite filter_cons_False]. Qed.

Lemma find_snoc {A} (f : A -> bool) l x :
  List.find f (l ++ [x]) = match List.find f l with Some y => Some y | None => if f x then Some x else None end.
Proof. induction l as [|y l IH]; cbn; [by destruct (f x)|]. by destruct (f y). Qed.

Lemma calls_of_nonempty name calls : name ∈ first_names calls -> exists c l, calls_of name calls = c :: l.
Proof.
  intros [_ (c & -> & C)%list_elem_of_fmap]%first_names_elem.
  destruct (calls_of (call_name c) calls) as [|d l] eqn:E; [|by eauto].
  assert (c ∈ calls_of (call_name c) calls) as I by (by apply list_elem_of_filter). rewrite E in I. set_solver.
Qed.

(** A further call leaves every other requirement; its own is raised if it was
    not required before. *)
Lemma strongest_of_other calls c name : call_name c <> name -> strongest_of (calls ++ [c]) name = strongest_of calls name.
Proof. intros N. unfold strongest_of. by rewrite calls_of_snoc, bool_decide_false, app_nil_r by done. Qed.

Definition graded (c : call) : Prop := call_level c = RequirementRequired \/ call_level c = RequirementPreferred.

Lemma strongest_of_again calls c :
  Forall graded calls -> call_name c ∈ first_names calls ->
  strongest_of (calls ++ [c]) (call_name c) =
  (if demands c && bool_decide (pr_Level (strongest_of calls (call_name c)) = RequirementPreferred)
   then raised (call_level c) (call_path c) else id) (strongest_of calls (call_name c)).
Proof.
  intros G I. destruct (calls_of_nonempty _ _ I) as (d & l & E). unfold strongest_of.
  rewrite calls_of_snoc, bool_decide_true by done. rewrite find_snoc.
  destruct (List.find demands (calls_of (call_name c) calls)) as [r|] eqn:F; cbn [pr_Level].
  { by rewrite (bool_decide_false (RequirementRequired = _)), andb_false_r by done. }
  rewrite E in *. cbn [app].
  assert (graded d /\ demands d = false) as [[Gd|Gd] Nd].
  { split; [|by apply (find_none _ _ F); left].
    rewrite Forall_forall in G. apply G. assert (d ∈ calls_of (call_name c) calls) as D by (rewrite E; set_solver).
    by apply list_elem_of_filter in D as [_ ?]. }
  { unfold demands in Nd. by rewrite Gd in Nd. }
  cbn [pr_Level]. rewrite Gd, (bool_decide_true (RequirementPreferred = _)), andb_true_r by done.
  destruct (demands c) eqn:D; [|done]. unfold demands in D. apply bool_decide_eq_true in D.
  unfold raised. cbn. by rewrite D.
Qed.

(** ** The accumulator *)
Record accumulated (calls : list call) (a : requirementAccumulator) : Prop := {
  acc_ordered : ra_ordered a = strongest calls;
  acc_index : forall n i, ra_index a !! n = Some i <-> first_names calls !! i = Some n }.

Lemma alter_at {A B} (f f' : A -> B) (g : B -> B) (l : list A) i a :
  l !! i = Some a -> NoDup l -> (forall b, b <> a -> f' b = f b) -> f' a = g (f a) -> f' <$> l = alter g i (f <$> l).
Proof.
  intros I N O Ea. apply list_eq. intros j. rewrite list_lookup_alter, !list_lookup_fmap.
  case_decide as D; [subst j; rewrite I; cbn; by rewrite Ea|].
  destruct (l !! j) as [b|] eqn:J; cbn; [|done]. rewrite O; [done|].
  intros ->. apply D. by eapply NoDup_lookup.
Qed.

Lemma alter_id_at {A} (l : list A) i (f : A -> A) : (forall x, l !! i = Some x -> f x = x) -> alter f i l = l.
Proof.
  intros F. apply list_eq. intros j. rewrite list_lookup_alter. case_decide as D; [subst j|done].
  destruct (l !! i) eqn:E; cbn; [by rewrite F|done].
Qed.

(** A repeated name changes its own entry at most. *)
Lemma strongest_again calls c i :
  Forall graded calls -> first_names calls !! i = Some (call_name c) ->
  strongest (calls ++ [c]) =
  if demands c && bool_decide (pr_Level (strongest_of calls (call_name c)) = RequirementPreferred)
  then alter (raised (call_level c) (call_path c)) i (strongest calls) else strongest calls.
Proof.
  intros G L. assert (M : call_name c ∈ first_names calls) by (by eapply list_elem_of_lookup_2).
  pose proof (strongest_of_again calls c G M) as R.
  unfold strongest. rewrite first_names_snoc, bool_decide_true by (by right).
  destruct (_ && _).
  - apply (alter_at _ _ _ _ _ (call_name c)); [done|apply first_names_nodup| |done].
    intros; apply strongest_of_other; congruence.
  - apply map_ext_in. intros n _. destruct (decide (call_name c = n)) as [<-|]; [done|by apply strongest_of_other].
Qed.

(** A new name appends its entry. *)
Lemma strongest_new calls c :
  call_name c <> "" -> call_name c ∉ first_names calls ->
  strongest (calls ++ [c]) = strongest calls ++ [mkPolicyRequirement (call_name c) (call_level c) (call_path c) ∅].
Proof.
  intros B M. unfold strongest. rewrite first_names_snoc, bool_decide_false by tauto. rewrite fmap_app. cbn. f_equal.
  - apply map_ext_in. intros n N%list_elem_of_In. apply strongest_of_other. congruence.
  - unfold strongest_of. rewrite calls_of_snoc, bool_decide_true by done.
    destruct (calls_of (call_name c) calls) as [|d l] eqn:C.
    + cbn. by destruct (demands c) eqn:D; [unfold demands in D; apply bool_decide_eq_true in D; rewrite D|].
    + exfalso. assert (d ∈ calls_of (call_name c) calls) as [Nd Id]%list_elem_of_filter by (rewrite C; set_solver).
      apply M, first_names_elem. split; [done|]. rewrite <-Nd. by apply list_elem_of_fmap_2.
Qed.

Lemma accumulate_step calls a c :
  Forall graded calls -> accumulated calls a -> accumulated (calls ++ [c]) (accumulate a c).
Proof.
  intros G [O I]. destruct c as [[name level] path]. unfold accumulate.
  case_bool_decide as B.
  { split; unfold strongest; rewrite first_names_snoc, bool_decide_true by (by left); [|done].
    rewrite O. apply map_ext_in. intros n [N _]%list_elem_of_In%first_names_elem.
    rewrite strongest_of_other; [done|]. cbn. congruence. }
  destruct (ra_index a !! name) as [i|] eqn:E.
  - apply I in E as L. assert (name ∈ first_names calls) as M by (by eapply list_elem_of_lookup_2).
    assert (Li : ra_ordered a !! i = Some (strongest_of calls name))
      by (by rewrite O; unfold strongest; rewrite list_lookup_fmap, L).
    rewrite Li. cbn [fmap option_fmap option_map].
    rewrite (bool_decide_ext (Some _ = Some _) (pr_Level (strongest_of calls name) = RequirementPreferred)) by (split; congruence).
    pose proof (strongest_again calls (name, level, path) i G L) as S. unfold demands in S. cbn [call_name call_level call_path fst snd] in S.
    split; [destruct (_ && _); cbn; by rewrite S, O|].
    destruct (_ && _); cbn [ra_index]; by rewrite first_names_snoc, bool_decide_true by (by right).
  - assert (name ∉ first_names calls) as M.
    { intros [i L]%list_elem_of_lookup_1. apply I in L. congruence. }
    split; cbn [ra_ordered ra_index]; [by rewrite strongest_new, O by done|].
    rewrite first_names_snoc, bool_decide_false by (cbn; tauto). cbn [call_name fst].
    intros n i. rewrite O. unfold strongest. rewrite length_fmap, lookup_snoc_Some, <-I.
    destruct (decide (n = name)) as [->|N].
    + rewrite lookup_insert_eq, E. naive_solver.
    + rewrite lookup_insert_ne by congruence. split; [|naive_solver].
      intros L. left. split; [|done]. by eapply lookup_lt_Some, I.
Qed.

Lemma accumulate_all calls : Forall graded calls -> accumulated calls (fold_left accumulate calls newRequirementAccumulator).
Proof.
  induction calls as [|c calls IH] using rev_ind; intros G; [split; [done|]; cbn; intros; by rewrite lookup_empty, lookup_nil|].
  apply Forall_app in G as [G _]. rewrite fold_left_app. apply accumulate_step; auto.
Qed.

(** ** The demands of a document *)
Lemma Forall_imap {A B} (P : B -> Prop) (f : nat -> A -> B) l : (forall i x, P (f i x)) -> Forall P (imap f l).
Proof. intros H. apply Forall_lookup. intros i y. rewrite list_lookup_imap. intros (x & _ & ->)%fmap_Some. apply H. Qed.

Lemma level_if_graded b : level_if b = RequirementRequired \/ level_if b = RequirementPreferred.
Proof. destruct b; auto. Qed.

Definition well_named (c : call) : Prop := graded c /\ blank (call_name c) = false.
Ltac well_named := split; [unfold graded; cbn [call_level fst snd]; auto using level_if_graded
                          | cbn [call_name fst]; by apply plain_not_blank].
Ltac well_named_list := repeat (apply Forall_cons_2; [well_named|]); apply Forall_nil_2.

Lemma template_calls_ok coverage i t : Forall well_named (template_calls coverage i t).
Proof.
  unfold template_calls. rewrite !Forall_app, !Forall_cons. split_and!; try done; try well_named.
  - case_match; well_named_list.
  - case_match; well_named_list.
  - apply Forall_imap. intros. well_named.
Qed.

Lemma requirement_calls_ok p : Forall well_named (requirement_calls p).
Proof.
  unfold requirement_calls. rewrite !Forall_app, !Forall_cons. split_and!; try done; try well_named.
  - case_match; well_named_list.
  - repeat case_match; well_named_list.
  - apply Forall_join, Forall_imap, template_calls_ok.
  - apply Forall_imap. intros. well_named.
Qed.

(** C28: The capabilities a policy requires are exactly the strongest of the
    demands its sections make: one requirement for each capability, in the
    order of the first demand, required if any section requires it and then
    attributed to the first that does. *)
Theorem requirements_strongest p : deriveCapabilityRequirements p = strongest (requirement_calls p).
Proof. apply accumulate_all. eapply Forall_impl; [apply requirement_calls_ok|by intros c [? _]]. Qed.

(** * Resolution of a policy on a node

    [Compile] succeeds exactly on the nodes that support what the policy
    requires; what it only prefers is reported. *)
Local Open Scope Z_scope.

(** ** One requirement *)
Definition well_formed (r : PolicyRequirement) : Prop :=
  (pr_Level r = RequirementRequired \/ pr_Level r = RequirementPreferred) /\ blank (pr_Name r) = false /\ pr_Constraints r = ∅.

Definition supported (node : CapabilityFingerprint) (r : PolicyRequirement) : bool :=
  bool_decide (cap_status <$> fp_capabilities node !! pr_Name r = Some CapabilitySupported).
Definition required (r : PolicyRequirement) : bool := bool_decide (pr_Level r = RequirementRequired).

Lemma strongest_well_formed calls : Forall well_named calls -> Forall well_formed (strongest calls).
Proof.
  intros W. unfold strongest. apply Forall_fmap, Forall_forall. intros n I.
  destruct (calls_of_nonempty _ _ I) as (c & l & E).
  assert (K : forall d, d ∈ calls_of n calls -> well_named d /\ call_name d = n).
  { intros d [-> D]%list_elem_of_filter. split; [|done]. rewrite Forall_forall in W. auto. }
  destruct (K c) as [[Gc Bc] Nc]; [rewrite E; set_solver|]. unfold well_formed, strongest_of. cbn. rewrite Nc in Bc.
  destruct (List.find demands (calls_of n calls)); cbn; [by split_and!; [left|..]|].
  rewrite E. cbn. by split_and!.
Qed.

Lemma resolve_well_formed node r :
  map_Forall (fun _ c => CapabilityStatus_IsValid (cap_status c) = true) (fp_capabilities node) -> well_formed r ->
  let resolved := resolveCapability node (domain_requirement r) in
  cr_satisfied resolved = supported node r /\
  cr_downgraded resolved = negb (supported node r) && negb (required r).
Proof.
  intros V (L & _ & C). unfold resolveCapability, domain_requirement, supported, required. cbn [req_Name req_Level req_Constraints].
  rewrite C, map_to_list_empty. cbn [mismatch].
  assert (P : bool_decide ((if bool_decide (pr_Level r = RequirementRequired) then RequirementRequired else RequirementPreferred) =
              RequirementPreferred) = negb (bool_decide (pr_Level r = RequirementRequired)))
    by (by destruct (bool_decide (pr_Level r = RequirementRequired))).
  rewrite P. destruct (fp_capabilities node !! pr_Name r) as [c|] eqn:E; cbn; [|done].
  specialize (V _ _ E). cbn in V. by destruct (cap_status c).
Qed.

(** ** The loop of the domain *)
Lemma evaluate_loop_ok node requirements : forall i seen evaluation,
  Forall (fun q => blank (req_Name q) = false /\ RequirementLevel_IsValid (req_Level q) = true /\ req_Constraints q = ∅)
    requirements ->
  NoDup (req_Name <$> requirements) -> (forall q, q ∈ requirements -> req_Name q ∉ seen) ->
  exists admitted, evaluate_loop node i seen requirements evaluation =
    Ok (mkEvaluation admitted (ev_resolutions evaluation ++ (resolveCapability node <$> requirements))).
Proof.
  induction requirements as [|q l IH]; intros i seen evaluation F N S; cbn [evaluate_loop].
  { exists (ev_admitted evaluation). cbn. rewrite app_nil_r. by destruct evaluation. }
  apply Forall_cons in F as [(B & V & C) F]. cbn in N. apply NoDup_cons in N as [N0 N].
  unfold requireNonBlank, validateStringMap. rewrite B, V, C, map_to_list_empty, (bool_decide_false (req_Name q ∈ seen)) by (apply S; set_solver). cbn.
  edestruct (IH (Datatypes.S i)) as [admitted ->]; [done|done| |].
  { intros q' I. rewrite elem_of_cons. intros [E|E]; [|by eapply S; [right|]].
    apply N0. rewrite <-E. by apply list_elem_of_fmap_2. }
  cbn. rewrite <-app_assoc. by eexists.
Qed.

Lemma EvaluateCapabilityRequirements_ok node requirements :
  digest_IsZero (fp_digest node) = false -> Forall well_formed requirements -> NoDup (pr_Name <$> requirements) ->
  exists admitted, EvaluateCapabilityRequirements node (domain_requirement <$> requirements) =
    Ok (mkEvaluation admitted ((fun r => resolveCapability node (domain_requirement r)) <$> requirements)).
Proof.
  intros D F N. unfold EvaluateCapabilityRequirements. rewrite D. cbn [negb check mbind res_mbind].
  edestruct (evaluate_loop_ok node (domain_requirement <$> requirements)) as [admitted ->].
  - apply Forall_fmap. eapply Forall_impl; [exact F|]. intros r (L & B & C). cbn. split_and!; [done|by destruct (bool_decide _)|done].
  - by rewrite <-list_fmap_compose.
  - intros q _ Hq. set_solver.
  - cbn. exists admitted. by rewrite <-list_fmap_compose.
Qed.

(** ** The whole policy *)
Section Resolved.
Context `{Positions, PolicyText}.
Context (node : CapabilityFingerprint).
Hypothesis valid_node : map_Forall (fun _ c => CapabilityStatus_IsValid (cap_status c) = true) (fp_capabilities node).

Definition resolution (r : PolicyRequirement) : PolicyResolution :=
  policy_resolution r (resolveCapability node (domain_requirement r)).
Definition missing (requirements : list PolicyRequirement) : list PolicyRequirement :=
  List.filter (fun r => required r && negb (supported node r)) requirements.
Definition degraded (requirements : list PolicyRequirement) : list PolicyRequirement :=
  List.filter (fun r => negb (required r) && negb (supported node r)) requirements.

Lemma failures_of requirements :
  Forall well_formed requirements ->
  fe_Path <$> mjoin (failure_of <$> (resolution <$> requirements)) = pr_Path <$> missing requirements.
Proof.
  intros F. induction F as [|r l W F IH]; [done|]. unfold missing. cbn [List.filter].
  change (mjoin (failure_of <$> (resolution <$> r :: l))) with (failure_of (resolution r) ++ mjoin (failure_of <$> (resolution <$> l))).
  rewrite fmap_app, IH. unfold missing.
  destruct (resolve_well_formed _ _ valid_node W) as [S D].
  unfold failure_of, resolution, policy_resolution. cbn [pres_Downgraded pres_Satisfied pres_Requirement]. rewrite S, D.
  by destruct (supported node r), (required r).
Qed.

Lemma warnings_of requirements :
  Forall well_formed requirements ->
  (fun w => (w_Capability w, w_Path w)) <$> mjoin (warning_of <$> (resolution <$> requirements)) =
  (fun r => (pr_Name r, pr_Path r)) <$> degraded requirements.
Proof.
  intros F. induction F as [|r l W F IH]; [done|]. unfold degraded. cbn [List.filter].
  change (mjoin (warning_of <$> (resolution <$> r :: l))) with (warning_of (resolution r) ++ mjoin (warning_of <$> (resolution <$> l))).
  rewrite fmap_app, IH. unfold degraded.
  destruct (resolve_well_formed _ _ valid_node W) as [_ D].
  unfold warning_of, resolution, policy_resolution. cbn [pres_Downgraded pres_Requirement]. rewrite D.
  by destruct (supported node r), (required r).
Qed.

Lemma evaluateCapabilities_ok requirements :
  digest_IsZero (fp_digest node) = false -> Forall well_formed requirements -> NoDup (pr_Name <$> requirements) ->
  let resolutions := resolution <$> requirements in
  let failures := mjoin (failure_of <$> resolutions) in
  evaluateCapabilities node requirements =
  if bool_decide (failures = []) then Ok (resolutions, mjoin (warning_of <$> resolutions)) else Err (PValidation failures).
Proof.
  intros D F N. unfold evaluateCapabilities. rewrite D.
  destruct (EvaluateCapabilityRequirements_ok node requirements D F N) as [admitted ->]. cbn [ev_resolutions].
  by rewrite zip_with_fmap_r, zip_with_diag.
Qed.
End Resolved.

Lemma derived_well_formed p :
  Forall well_formed (deriveCapabilityRequirements p) /\ NoDup (pr_Name <$> deriveCapabilityRequirements p).
Proof.
  unfold deriveCapabilityRequirements.
  rewrite (acc_ordered _ _ (accumulate_all (requirement_calls p) ltac:(eapply Forall_impl; [apply requirement_calls_ok|by intros c [? _]]))).
  split; [apply strongest_well_formed, requirement_calls_ok|].
  unfold strongest. rewrite <-list_fmap_compose. rewrite (list_fmap_ext _ id).
  - rewrite list_fmap_id. apply first_names_nodup.
  - intros i n _. unfold strongest_of. cbn. by repeat case_match.
Qed.

(** C27: A valid policy compiles on a node exactly when the node supports every
    capability it requires; the preferred capabilities that are not supported
    are the warnings, in order.  On any other node compilation fails with one
    problem for each required capability that is missing, at the field that
    requires it, and nothing else. *)
Theorem compile_resolves `{Positions, PolicyText} decoded capabilities evidence node p requirements text :
  NewCapabilityFingerprint capabilities evidence = Ok node -> digest_IsZero (fp_digest node) = false ->
  prepare decoded = Ok (p, requirements) -> policy_text p = Some text ->
  match missing node requirements with
  | [] => exists e, Compile decoded node = Ok e /\ ep_policy e = p /\ ep_requirements e = requirements /\
      (fun w => (w_Capability w, w_Path w)) <$> ep_warnings e = (fun r => (pr_Name r, pr_Path r)) <$> degraded node requirements
  | _ => exists problems, Compile decoded node = Err (PValidation problems) /\
      fe_Path <$> problems = pr_Path <$> missing node requirements
  end.
Proof.
  intros [E V]%NewCapabilityFingerprint_ok Z P T. unfold Compile. rewrite P. cbn [mbind res_mbind].
  assert (requirements = deriveCapabilityRequirements p) as ->.
  { unfold prepare in P. case_bool_decide; [by injection P as <- <-|done]. }
  destruct (derived_well_formed p) as [F N].
  assert (V' : map_Forall (fun _ c => CapabilityStatus_IsValid (cap_status c) = true) (fp_capabilities node)) by (by rewrite E).
  rewrite evaluateCapabilities_ok by done. pose proof (failures_of node V' _ F) as M.
  pose proof (warnings_of node V' _ F) as W. rewrite T.
  set (failures := mjoin (failure_of <$> _)) in *.
  destruct (missing node (deriveCapabilityRequirements p)).
  - apply fmap_nil_inv in M. rewrite M. cbn. by eexists.
  - destruct failures eqn:Q; [done|]. cbn. by eexists.
Qed.
