(* ===== verification/PolicyScenario.v ===== *)
(** * A concrete policy

    The policy of [docs/examples/environment-policy.yaml], compiled on a node
    that has the capabilities it requires, and plans admitted under it; the
    theorems with hypotheses are applied to them. *)
From S2P Require Import Prelude Errors Sha256 GoStrings Ids GoText Capability Policy PolicyRules PolicyObservation PolicyCompile PolicyAuthority.
From S2P Require Import PolicyFacts PolicySafety PolicyResolution.
Local Open Scope Z_scope.

Module PolicyDemo.
Definition Gi (n : Z) : ByteQuantity := n * 1073741824.
Definition Mi (n : Z) : ByteQuantity := n * 1048576.
Definition minutes (n : Z) : Duration := n * 60 * second.
Definition digest_text (digit : string) : string :=
  "sha256:" +:+ Nat.iter 64 (fun s => digit +:+ s) "".

Definition all_dropped := mkLinuxCapabilities ["ALL"] [].

Definition the_lease := mkLeasePolicy (7200 * second) 50 true (30 * second).

Definition the_agent := mkAgentWorkspacePolicy
  (mkAgentRuntimePolicy "docker" ("registry.example/vr-agent@" +:+ digest_text "1") "agent-standard" "readOnly" "10000:10000"
     all_dropped true "vr-agent-v1")
  (mkAgentNetworkPolicy "restricted-egress" true [] [] true "scoped-gateway-and-declared-endpoints")
  (mkAgentResourcesPolicy (mkAgentResourceRequests 2000 (Gi 4) (Gi 20))
     (mkAgentResourceLimits 4000 (Gi 8) 0 2048 (Gi 40) 0)).

Definition the_workspace := mkWorkspacePolicy "overlayfs"
  (mkInputViewPolicy "frozen-artifact-selection" "by-evidence-path" "campaign" "require-reflink" true true true
     (86400 * second))
  (mkWorkspaceCachePolicy (Gi 500) (f_of_Z 85) (f_of_Z 70) true "on-uncertain-integrity")
  (mkWorkspaceExportPolicy "agent-or-host" true 10000 (Gi 20) true).

Definition linux_template := mkTargetTemplate "linux-binary-visible" "linux-container"
  (mkTargetRuntimePolicy "docker" "runc" ("registry.example/linux-target@" +:+ digest_text "2") "observable-container"
     "readOnly" "20000:20000" all_dropped true "observed-target-v1" "" "" false false false false 0 0)
  (mkTargetMaterialPolicy "/target/input" "private-overlay")
  (mkTargetInteraction "arbitrary-inside-assigned-target" "direct-argv-and-explicit-shell" "push-pull-target-relative"
     "policy-declared" "" "" ["host-exec"; "docker-api"; "host-mounts"; "other-targets"])
  (mkTargetResourcesPolicy (mkTargetResourceLimits 2000 (Gi 2) 0 1024 (Gi 10)))
  (mkTargetResetPolicy true "recreate-new-target-generation").

Definition android_template := mkTargetTemplate "android-apk-visible" "android-virtual-device"
  (mkTargetRuntimePolicy "android-emulator" "" "" "instrumented-android" "" "" (mkLinuxCapabilities [] []) false ""
     (digest_text "3") "clean-boot" true true true true (Gi 2) (minutes 3))
  (mkTargetMaterialPolicy "" "guest-data-partition")
  (mkTargetInteraction "arbitrary-inside-assigned-device" "" "adb-sync-and-scoped-stream" "" "scoped-gateway" "arbitrary"
     ["host-adb-server-control"; "other-serials"; "raw-usb"; "host-exec"])
  (mkTargetResourcesPolicy (mkTargetResourceLimits 4000 (Gi 6) 0 0 (Gi 1)))
  (mkTargetResetPolicy true "baseline-new-target-generation").

Definition the_targets := mkTargetsPolicy 2
  (mkMaterialTransferPolicy "declared-artifact-occurrences" "allowed-beneath-workspace-recorded" (Gi 4) true)
  [linux_template; android_template].

Definition the_coverage : gmap string (list string) :=
  {[ "linux-container" := ["process-tree"; "syscall-results"; "file-io-metadata"; "filesystem-change-manifest";
                           "network-flows"; "packet-ring"];
     "android-virtual-device" := ["package-process-activity-lifecycle"; "android-logcat"; "android-perfetto-ring";
                                  "app-api-intents"; "network-flows"; "packet-ring"; "filesystem-change-manifest"] ]}.

Definition the_profiles := mkObservationProfiles "metadata"
  (mkMetadataProfile false ["open"; "read"; "write"; "rename"; "unlink"] "selected-safe")
  (mkBoundedProfile (minutes 10) (Gi 4) ["process"; "file"; "network"; "resource-metrics"])
  (mkPayloadProfile "authorized-on-demand" true (minutes 5) (Gi 1) "restricted" ["process"; "file"; "network"]).

Definition the_collectors := mkCollectorPolicies
  (mkSingleCollectorPolicy "phase-0-selected-tracee-or-inspektor-gadget" "host" true)
  (mkMultiCollectorPolicy ["perfetto"; "logcat"; "dumpsys"] "guest" true)
  (mkAppHookCollectorPolicy "frida" "injected-app" "attached-processes")
  (mkPacketCollectorPolicy "dumpcap" "host-network-namespace" (Gi 2))
  (mkModeCollectorPolicy "zeek" "during-or-after-run")
  (mkModeCollectorPolicy "mobsf" "external-api").

Definition the_on_demand := mkAllowedOnDemandPolicy
  (mkBoundedProfile (minutes 2) (Mi 512) ["target.lifecycle"])
  (mkBoundedProfile (minutes 2) (Mi 512) ["process"; "syscall"])
  (mkBoundedProfile (minutes 5) (Gi 1) ["process"; "performance"])
  (mkFilteredBoundedProfile (minutes 5) (Gi 1) true ["network-packet"])
  (mkMitmproxyCapturePolicy (minutes 10) (Gi 2) "restricted" ["network-flow"])
  (mkFridaCapturePolicy (minutes 10) "pinned" "allowed-recorded-not-coverage-authority" ["process"; "app-api"]).

Definition the_triggers :=
  [mkObservationTrigger "target-memory-pressure-evidence"
     (mkTriggerCondition "target.memory.psi.full" (Some (f_div (f_of_Z 1) (f_of_Z 10))) (5 * second) "")
     ["raise-metric-resolution"; "capture-target-process-tree"];
   mkObservationTrigger "android-crash-evidence" (mkTriggerCondition "" None 0 "android.native_crash")
     ["seal-logcat-window"; "seal-perfetto-ring"; "capture-tombstone-if-permitted"; "capture-screenshot";
      "finalize-packet-ring"]].

(** [metrics.normalInterval], [incidentInterval] and [staleAfter] are set in the
    document to their defaults. *)
Definition the_observation := mkObservationPolicy "visibility-first" the_coverage the_profiles
  ["world-lifecycle"; "docker-events"; "cgroup-metrics"; "host-pressure"; "input-view-cache"; "agent-process-lifecycle";
   "target-process-lifecycle"; "target-syscall-metadata"; "target-file-io-metadata"; "target-filesystem-changes";
   "target-network-flows"; "target-packet-ring"; "android-runtime-metrics"; "android-process-metrics";
   "android-package-activity-lifecycle"; "android-app-api-intents"; "android-logcat"; "android-perfetto-ring";
   "collector-health"]
  the_collectors
  (mkMetricsPolicy (2 * second) 250000000 (6 * second) [10 * second; minutes 1; minutes 5]
     ["host"; "lease"; "agent-workspace"; "target"; "target-run"; "observer"; "android-runtime"; "android-device";
      "selected-process"])
  (mkLiveAccessPolicy (mkAgentLiveAccessPolicy true second
     ["lifecycle"; "own-process-tree"; "target-process-tree"; "target-syscall-file-network-metadata"; "resource-metrics";
      "android-health"; "collector-coverage"; "sealed-observation-bundles"])
     (mkVisualAccessPolicy "target-transitions-and-on-demand" (f_of_Z 2)))
  (mkAgentRequestsPolicy ["deep"] ["worldLifecycle"; "strace"; "perfetto"; "packetPayload"; "mitmproxy"; "frida"])
  (mkObservationBuffers 4096 (Mi 64) (Gi 2))
  the_on_demand the_triggers
  (mkBundlePolicy true true true true true true)
  (mkSensitivityPolicy "internal" "restricted" "restricted" "restricted")
  (mkObservationRetentionPolicy (86400 * second) true true).

Definition the_document := mkPolicy APIVersion Kind (mkPolicyMetadata "mixed-vr-visibility-first" 3)
  (mkPolicySpec the_lease the_agent the_workspace the_targets
     (mkAggregateResources (mkAggregateResourceLimits 12000 (Gi 20) (Gi 10)))
     the_observation
     (mkIncidentsPolicy ["lifecycle-window"; "resource-window"; "process-tree"; "target-change-manifest";
                         "collector-coverage-and-gaps"]
        (mkIncidentRecoveryPolicy "recreate-new-agent-generation" "recreate-new-target-generation"
           "baseline-new-target-generation" "finalize-run-and-report" "finalize-run-and-report" "fail-run-if-required"))
     (mkPressurePolicy (Gi 8) (mkStopAdmissionPolicy (f_div (f_of_Z 5) (f_of_Z 100)) (f_div (f_of_Z 1) (f_of_Z 10)) (f_of_Z 15))
        ["unused-reservations"; "unleased-warm-targets"; "idle-preemptible-targets"; "active-preemptible-target-runs";
         "preemptible-agent-workspaces"])).

(** The fields of the document for which there is a default; the workspace
    inodes are the one it leaves out. *)
Definition set_fields : list string :=
  ["spec.lease.ttl"; "spec.lease.quiesceDeadline"; "spec.workspace.mode"; "spec.workspace.inputView.construction";
   "spec.workspace.inputView.viewRetention"; "spec.workspace.cache.highWaterPercent"; "spec.workspace.cache.lowWaterPercent";
   "spec.targets.maxConcurrent"; "spec.observation.priority"; "spec.observation.profiles.default";
   "spec.observation.metrics.normalInterval"; "spec.observation.metrics.incidentInterval";
   "spec.observation.metrics.staleAfter"; "spec.observation.liveAccess.agent.minimumMetricInterval";
   "spec.observation.retention.liveLocal"].
Definition set_positions : gmap string sourcePosition := list_to_map ((fun path => (path, mkPosition 1 1)) <$> set_fields).
#[export] Instance the_positions : Positions := set_positions.

#[export] Instance short_text : PolicyText := {| policy_text _ := Some [1%N] |}.

(** The node supports every capability but the two preferred analysis adapters. *)
Definition node_capabilities : gmap string Capability :=
  list_to_map ((fun r => (pr_Name r, mkCapability
      (if bool_decide (pr_Level r = RequirementRequired) then CapabilitySupported else CapabilityUnsupported) ∅ ∅))
    <$> deriveCapabilityRequirements the_document).
Definition the_node : CapabilityFingerprint :=
  match NewCapabilityFingerprint node_capabilities {[ "host" := "example" ]} with Ok f => f | Err _ => zero_fingerprint end.
Lemma node_made : NewCapabilityFingerprint node_capabilities {[ "host" := "example" ]} = Ok the_node.
Proof.
  assert (E : is_ok (NewCapabilityFingerprint node_capabilities {[ "host" := "example" ]}) = true) by (by vm_compute).
  unfold the_node. by destruct (NewCapabilityFingerprint _ _).
Qed.

Lemma example_valid : validatePolicy (applyDefaults the_document) = [].
Proof. by vm_compute. Qed.
Lemma example_compiles : is_ok (Compile the_document the_node) = true.
Proof. by vm_compute. Qed.

Definition the_policy : EffectivePolicy :=
  match Compile the_document the_node with Ok e => e | Err _ => mkEffectivePolicy [] the_document [] [] [] [] [] end.
Lemma compiled : Compile the_document the_node = Ok the_policy.
Proof. unfold the_policy. pose proof example_compiles as E. by destruct (Compile the_document the_node). Qed.

(** ** Admitted plans *)
Definition agent_plan : AgentPlanAdmission := mkAgentPlanAdmission
  (mkAgentRuntimeAdmission "docker" (digest_text "1") "agent-standard" "readOnly" "10000:10000" ["ALL"] [] true
     "vr-agent-v1" true true)
  (mkRuntimeResources 3000 (Gi 6) 0 (Gi 30) 0 (Gi 1) 50000 1024).

(** What a driver reports for a target of a template. *)
Definition target_plan (t : TargetTemplate) (digest : string) (r : RuntimeResources) : TargetAdmission :=
  let runtime := TargetTemplate_Runtime t in
  let interaction := TargetTemplate_Interaction t in
  mkTargetAdmission (TargetTemplate_Name t) (TargetTemplate_Kind t) (TargetRuntimePolicy_Driver runtime)
    (TargetRuntimePolicy_Runtime runtime) digest (TargetRuntimePolicy_IsolationProfile runtime)
    (TargetRuntimePolicy_BaseImage runtime) (TargetRuntimePolicy_User runtime)
    (LinuxCapabilities_Drop (TargetRuntimePolicy_Capabilities runtime)) [] true (TargetRuntimePolicy_SeccompProfile runtime)
    true true (TargetMaterialPolicy_MountPoint (TargetTemplate_Material t))
    (TargetMaterialPolicy_WritableState (TargetTemplate_Material t)) true (TargetInteraction_CommandAuthority interaction)
    (TargetInteraction_ExecTransport interaction) (TargetInteraction_FileTransfer interaction)
    (TargetInteraction_NetworkEndpoints interaction) (TargetInteraction_ADB interaction)
    (TargetInteraction_DeviceScopedADBServices interaction) (TargetInteraction_DeniedInfrastructureAuthority interaction)
    (TargetResetPolicy_AfterEveryRun (TargetTemplate_Reset t)) (TargetResetPolicy_Mode (TargetTemplate_Reset t))
    (TargetRuntimePolicy_BaselineState runtime) true true (TargetRuntimePolicy_Headless runtime)
    (TargetRuntimePolicy_Rooted runtime) (TargetRuntimePolicy_Debuggable runtime) (TargetRuntimePolicy_GuestMemory runtime)
    (TargetRuntimePolicy_BootTimeout runtime) r 0.
Definition linux_target : TargetAdmission :=
  target_plan linux_template (digest_text "2") (mkRuntimeResources 2000 (Gi 2) 0 0 (Gi 10) 0 0 512).
Definition android_target : TargetAdmission :=
  target_plan android_template (digest_text "3") (mkRuntimeResources 4000 (Gi 6) 0 0 (Gi 1) 0 0 0).

Lemma admitted_agent_confined_witness :
  let r := apa_Resources agent_plan in
  ValidateAgentPlan (Some the_policy) agent_plan = Ok tt /\ confined (apa_Runtime agent_plan) /\
  (forall c, c ∈ ara_CapabilityAdd (apa_Runtime agent_plan) -> c ∈ LinuxCapabilities_Add (agent_capabilities (ep_policy the_policy))) /\
  within_requests (ep_policy the_policy) r /\ bounded (ep_policy the_policy) r.
Proof.
  assert (A : ValidateAgentPlan (Some the_policy) agent_plan = Ok tt) by (by vm_compute).
  split; [exact A|]. exact (admitted_agent_confined the_document the_node the_policy agent_plan compiled A).
Defined.

Lemma declared_session_fits_witness :
  admit_usage (Some the_policy) [apa_Resources agent_plan; ta_Resources linux_target] (ta_Resources android_target)
  = Ok tt.
Proof.
  apply (declared_session_fits the_document the_node the_policy agent_plan [linux_target] android_target compiled).
  - vm_compute. split_and!; congruence.
  - by vm_compute.
  - apply Forall_cons_2; [|apply Forall_cons_2; [|apply Forall_nil_2]]; by vm_compute.
  - by vm_compute.
Defined.

Lemma fingerprint_identifies_witness :
  (node_capabilities = node_capabilities /\ ({[ "host" := "example" ]} : gmap string string) = {[ "host" := "example" ]}) \/
  sha256_collision (canonicalCapabilityFingerprint node_capabilities {[ "host" := "example" ]})
    (canonicalCapabilityFingerprint node_capabilities {[ "host" := "example" ]}).
Proof.
  assert (S : short_node node_capabilities {[ "host" := "example" ]}).
  { split; [apply (bool_decide_unpack _); by vm_compute|]. split; [by vm_compute|apply (bool_decide_unpack _); by vm_compute]. }
  exact (fingerprint_identifies _ _ _ _ _ _ node_made node_made S S eq_refl).
Defined.

Lemma compile_resolves_witness :
  exists e, Compile the_document the_node = Ok e /\
    (fun w => (w_Capability w, w_Path w)) <$> ep_warnings e =
    [("collector.adapter.zeek", "spec.observation.collectors.protocolSummary.adapter");
     ("collector.adapter.mobsf", "spec.observation.collectors.mobileAnalysis.adapter")].
Proof.
  set (p := applyDefaults the_document). set (requirements := deriveCapabilityRequirements p).
  assert (P : prepare the_document = Ok (p, requirements)).
  { unfold prepare. by rewrite example_valid. }
  pose proof (compile_resolves the_document _ _ the_node p requirements [1%N] node_made ltac:(by vm_compute) P eq_refl) as W.
  assert (M : missing the_node requirements = []) by (by vm_compute). rewrite M in W.
  destruct W as (e & C & _ & _ & W). exists e. split; [exact C|]. rewrite W. by vm_compute.
Defined.

Lemma offered_captures_witness :
  exists limits, captureLimits (ep_policy the_policy) "packetPayload" = Some limits /\
    grantable (ep_policy the_policy) "packetPayload" limits.
Proof.
  assert (O : offered (ep_policy the_policy) "packetPayload").
  { apply (bool_decide_unpack _). by vm_compute. }
  destruct (offered_captures the_document the_node the_policy "packetPayload" compiled O) as (limits & L & G & _).
  exists limits. split; [exact L|exact G].
Defined.
End PolicyDemo.
