(* ===== verification/Registry.v ===== *)
(** * The policy registry

    [internal/policyregistry/registry.go]: publishing compiled policies under
    [name@revision] and resolving them.  A publication is stored three times
    without a transaction: the canonical document under its digest, and the same
    publication record under the reference and under the pair of digests.

    The registry works on the write-once tables of [Store]; [RegistryEnv] says
    which call of the store fails, before or after it took effect.  The JSON
    text of a publication and its strict decoder are parameters, and so is the
    decoder of policy documents; a stored reason or message is kept as its kind
    and arguments, as in [EffectivePolicy].  Defensive copies are values. *)
From S2P Require Import Prelude Errors Sha256 GoStrings Ids Store Capability GoText Policy PolicyRules PolicyObservation PolicyCompile.

#[export] Instance res_eq_dec {E A} `{EqDecision E, EqDecision A} : EqDecision (res E A).
Proof. solve_decision. Defined.
#[export] Instance PolicyRequirement_eq_dec : EqDecision PolicyRequirement.
Proof. solve_decision. Defined.
#[export] Instance reason_eq_dec : EqDecision reason.
Proof. solve_decision. Defined.
#[export] Instance PolicyResolution_eq_dec : EqDecision PolicyResolution.
Proof. solve_decision. Defined.
#[export] Instance Warning_eq_dec : EqDecision Warning.
Proof. solve_decision. Defined.

(** ** Compiling a source text *)
(** [decodeStrict]: the document and the positions of its fields. *)
Class PolicyDecoder := decodeStrict : list N -> res perr (Policy * gmap string sourcePosition).

Definition CompileSource {PD : PolicyDecoder} {PT : PolicyText} (source : list N) (capabilities : CapabilityFingerprint)
    : res perr EffectivePolicy :=
  decoded ← (decodeStrict source : res perr (Policy * Positions));
  @Compile decoded.2 PT decoded.1 capabilities.

(** ** Publications *)
Record PublishedCapability := mkPublishedCapability {
  pc_Status : CapabilityStatus; pc_Constraints : gmap string string; pc_Evidence : gmap string string }.
Record PublishedFingerprint := mkPublishedFingerprint {
  pf_Capabilities : gmap string PublishedCapability; pf_Evidence : gmap string string }.

Record Publication := mkPublication {
  pub_Reference : string; pub_Name : string; pub_Revision : Z; pub_PolicyDigest : string;
  pub_CapabilityFingerprintDigest : string; pub_Requirements : list PolicyRequirement;
  pub_Resolutions : list PolicyResolution; pub_Warnings : list Warning; pub_CapabilityFingerprint : PublishedFingerprint }.

Record Snapshot := mkSnapshot {
  sn_Publication : Publication; sn_CanonicalJSON : list N; sn_Effective : EffectivePolicy }.

(** [json.Marshal] of a publication and [decodeExactJSON] into one. *)
Class PublicationText := {
  publication_text : Publication -> list N;
  decode_publication : list N -> option Publication }.

Inductive registry_error :=
| ErrPublicationIntegrity | ErrUnknownDigest | ErrInvalidDigest
| CompileError (e : perr) | StoreError (e : err) | RegistryText (text : string).
Abbreviation rresult := (res registry_error).
Definition wrap {E A} (f : E -> registry_error) (r : res E A) : rresult A :=
  match r with Ok a => Ok a | Err e => Err (f e) end.
Definition integrityError {E} (_ : E) : registry_error := ErrPublicationIntegrity.

Definition referenceObjectKind := "effective_policy_reference".
Definition digestObjectKind := "effective_policy_digest".

Definition Reference (name : string) (revision : Z) : string := name +:+ "@" +:+ pretty revision.
Definition digestBinding (policyDigest capabilityDigest : string) : string := policyDigest +:+ "@" +:+ capabilityDigest.

Definition snapshotCapability (c : Capability) : PublishedCapability :=
  mkPublishedCapability (cap_status c) (cap_constraints c) (cap_evidence c).
Definition snapshotFingerprint (f : CapabilityFingerprint) : PublishedFingerprint :=
  mkPublishedFingerprint (snapshotCapability <$> fp_capabilities f) (fp_evidence f).

Definition restoreFingerprint (snapshot : PublishedFingerprint) : result CapabilityFingerprint :=
  capabilities ← res_map (fun _ '(name, value) =>
      capability ← NewCapability (pc_Status value) (pc_Constraints value) (pc_Evidence value);
      Ok (name, capability)) 0 (map_to_list (pf_Capabilities snapshot));
  NewCapabilityFingerprint (list_to_map capabilities) (pf_Evidence snapshot).

Section Verify.
Context {PD : PolicyDecoder} {PT : PolicyText}.

Definition self_referent (p : Publication) : bool :=
  negb (bool_decide (pub_Reference p = "")) && bool_decide (Reference (pub_Name p) (pub_Revision p) = pub_Reference p).

Definition verifyPublication (p : Publication) (canonical : list N) : rresult EffectivePolicy :=
  _ ← check (self_referent p) ErrPublicationIntegrity;
  fingerprint ← wrap integrityError (restoreFingerprint (pub_CapabilityFingerprint p));
  _ ← check (bool_decide (digest_String (fp_digest fingerprint) = pub_CapabilityFingerprintDigest p)) ErrPublicationIntegrity;
  effective ← wrap integrityError (CompileSource canonical fingerprint);
  _ ← check (bool_decide (digest_String (ep_digest effective) = pub_PolicyDigest p)
             && bool_decide (ep_canonical effective = canonical)) ErrPublicationIntegrity;
  _ ← check (bool_decide (digest_String (ep_capabilityFingerprint effective) = pub_CapabilityFingerprintDigest p))
        ErrPublicationIntegrity;
  let metadata := Policy_Metadata (ep_policy effective) in
  _ ← check (bool_decide (PolicyMetadata_Name metadata = pub_Name p)
             && bool_decide (PolicyMetadata_Revision metadata = pub_Revision p)) ErrPublicationIntegrity;
  _ ← check (bool_decide (ep_requirements effective = pub_Requirements p)
             && bool_decide (ep_resolutions effective = pub_Resolutions p)
             && bool_decide (ep_warnings effective = pub_Warnings p)) ErrPublicationIntegrity;
  Ok effective.

Definition publication_of (effective : EffectivePolicy) (capabilities : CapabilityFingerprint) : Publication :=
  let metadata := Policy_Metadata (ep_policy effective) in
  mkPublication (Reference (PolicyMetadata_Name metadata) (PolicyMetadata_Revision metadata)) (PolicyMetadata_Name metadata)
    (PolicyMetadata_Revision metadata) (digest_String (ep_digest effective))
    (digest_String (ep_capabilityFingerprint effective)) (ep_requirements effective) (ep_resolutions effective)
    (ep_warnings effective) (snapshotFingerprint capabilities).
End Verify.

(** ** The registry on its store *)
Record Registry (P R : Type) := mkRegistry { reg_store : Store P R; reg_calls : nat }.
Arguments mkRegistry {P R}. Arguments reg_store {P R}. Arguments reg_calls {P R}.

(** What becomes of a call of the store: it runs, it fails, or it takes effect
    and still reports an error. *)
Inductive store_call := CallRuns | CallFails | CallFailsAfter.
Class RegistryEnv := call_at : nat -> store_call.
Definition store_fault : registry_error := StoreError (ErrFault "store").

Definition RM (P R A : Type) : Type := Registry P R -> rresult A * Registry P R.
#[export] Instance RM_ret P R : MRet (RM P R) := fun A a r => (Ok a, r).
#[export] Instance RM_bind P R : MBind (RM P R) := fun A B f m r =>
  match m r with (Ok a, r') => f a r' | (Err e, r') => (Err e, r') end.
Definition rm_lift {P R A} (x : rresult A) : RM P R A := fun r => (x, r).

Section Registry.
Context {P R : Type}.
Context {PD : PolicyDecoder} {PT : PolicyText} {PJ : PublicationText} {RE : RegistryEnv}.

Definition store_write (f : Store P R -> result (Store P R)) : RM P R unit := fun r =>
  let next store := mkRegistry store (S (reg_calls r)) in
  match call_at (reg_calls r), f (reg_store r) with
  | CallFails, _ => (Err store_fault, next (reg_store r))
  | _, Err e => (Err (StoreError e), next (reg_store r))
  | CallRuns, Ok store => (Ok tt, next store)
  | CallFailsAfter, Ok store => (Err store_fault, next store)
  end.
Definition store_read {A} (f : Store P R -> result A) : RM P R A := fun r =>
  (match call_at (reg_calls r) with CallRuns => wrap StoreError (f (reg_store r)) | _ => Err store_fault end,
   mkRegistry (reg_store r) (S (reg_calls r))).

(** The result of a read, with [store.ErrNotFound] replaced by another error. *)
Definition not_found_as {A} (e : registry_error) (m : RM P R A) : RM P R A := fun r =>
  match m r with
  | (Err (StoreError ErrStoreNotFound), r') => (Err e, r')
  | x => x
  end.

Definition PublishEffective (effective : option EffectivePolicy) (capabilities : CapabilityFingerprint) : RM P R Snapshot :=
  effective ← rm_lift (from_option_err (RegistryText "effective policy is required") effective);
  _ ← rm_lift (check (negb (digest_IsZero (fp_digest capabilities))) (RegistryText "capability fingerprint is required"));
  _ ← rm_lift (check (bool_decide (ep_capabilityFingerprint effective = fp_digest capabilities))
        (RegistryText "effective policy capability fingerprint does not match publication fingerprint"));
  let publication := publication_of effective capabilities in
  verified ← rm_lift (verifyPublication publication (ep_canonical effective));
  let payload := publication_text publication in
  let canonical := ep_canonical verified in
  _ ← store_write (fun s => PutPolicy s (pub_PolicyDigest publication) canonical);
  _ ← store_write (fun s => PutObject s referenceObjectKind (pub_Reference publication) payload);
  _ ← store_write (fun s => PutObject s digestObjectKind
        (digestBinding (pub_PolicyDigest publication) (pub_CapabilityFingerprintDigest publication)) payload);
  mret (mkSnapshot publication canonical verified).

Definition Publish (source : list N) (capabilities : CapabilityFingerprint) : RM P R Snapshot :=
  effective ← rm_lift (wrap CompileError (CompileSource source capabilities));
  PublishEffective (Some effective) capabilities.

Definition requireMatchingPublication (kind id : string) (expected : list N) : RM P R unit :=
  payload ← not_found_as ErrPublicationIntegrity (store_read (fun s => Object s kind id));
  rm_lift (check (bool_decide (payload = expected)) ErrPublicationIntegrity).

Definition valid_digest (text : string) (e : registry_error) : rresult unit :=
  wrap (fun _ => e) (_ ← ParseDigest text; Ok tt).

Definition resolvePublication (publication : Publication) : RM P R Snapshot :=
  _ ← rm_lift (check (self_referent publication) ErrPublicationIntegrity);
  _ ← rm_lift (valid_digest (pub_PolicyDigest publication) ErrPublicationIntegrity);
  _ ← rm_lift (valid_digest (pub_CapabilityFingerprintDigest publication) ErrPublicationIntegrity);
  canonical ← not_found_as ErrPublicationIntegrity (store_read (fun s => Store.Policy s (pub_PolicyDigest publication)));
  _ ← rm_lift (check (bool_decide (digest_String (NewDigest canonical) = pub_PolicyDigest publication)) ErrPublicationIntegrity);
  effective ← rm_lift (verifyPublication publication canonical);
  mret (mkSnapshot publication canonical effective).

Definition Resolve (reference : string) : RM P R Snapshot :=
  _ ← rm_lift (check (negb (blank reference)) (RegistryText "policy reference is required"));
  payload ← store_read (fun s => Object s referenceObjectKind reference);
  publication ← rm_lift (from_option_err ErrPublicationIntegrity (decode_publication payload));
  _ ← rm_lift (check (bool_decide (pub_Reference publication = reference)
        && bool_decide (Reference (pub_Name publication) (pub_Revision publication) = reference)) ErrPublicationIntegrity);
  _ ← requireMatchingPublication digestObjectKind
        (digestBinding (pub_PolicyDigest publication) (pub_CapabilityFingerprintDigest publication)) payload;
  resolvePublication publication.

Definition ResolveDigest (policyDigest capabilityDigest : string) : RM P R Snapshot :=
  _ ← rm_lift (valid_digest policyDigest ErrInvalidDigest);
  _ ← rm_lift (valid_digest capabilityDigest ErrInvalidDigest);
  payload ← not_found_as ErrUnknownDigest
              (store_read (fun s => Object s digestObjectKind (digestBinding policyDigest capabilityDigest)));
  publication ← rm_lift (from_option_err ErrPublicationIntegrity (decode_publication payload));
  _ ← rm_lift (check (bool_decide (pub_PolicyDigest publication = policyDigest)
        && bool_decide (pub_CapabilityFingerprintDigest publication = capabilityDigest)) ErrPublicationIntegrity);
  _ ← requireMatchingPublication referenceObjectKind (pub_Reference publication) payload;
  resolvePublication publication.
End Registry.
