(* ===== verification/RegistrySafety.v ===== *)
(** * What the policy registry guarantees

    [published s snap]: the three rows of a publication are in the tables and
    agree.  Both ways of resolving return exactly the published snapshots, and
    no later call or failure takes one back. *)
From S2P Require Import Prelude Errors Sha256 GoStrings Utf8Facts Ids Store StoreFacts Capability GoText Policy PolicyRules PolicyObservation.
From S2P Require Import PolicyCompile PolicyFacts PolicySafety PolicyScenario Registry.

(** ** Fingerprints *)
Lemma restore_snapshot published fingerprint :
  restoreFingerprint published = Ok fingerprint ->
  snapshotFingerprint fingerprint = published /\ exists c m, NewCapabilityFingerprint c m = Ok fingerprint.
Proof.
  destruct published as [capabilities evidence]. unfold restoreFingerprint. cbn [pf_Capabilities pf_Evidence].
  rewrite res_bind_ok. intros (l & E & F). split; [|eauto].
  apply NewCapabilityFingerprint_ok in F as [-> _]. unfold snapshotFingerprint. cbn. f_equal.
  rewrite <-list_to_map_fmap, <-(list_to_map_to_list capabilities) at 1. f_equal.
  revert E. generalize 0%nat. generalize (map_to_list capabilities) as entries. clear.
  intros entries. revert l. induction entries as [|[n v] entries IH]; intros l i E; cbn [res_map] in E.
  - by inv_res E.
  - rewrite !res_bind_ok in E. destruct E as (p & C & E). rewrite res_bind_ok in E. destruct E as (l' & L & E).
    apply Ok_inj in E as <-. cbn. f_equal; [|by eapply IH].
    rewrite res_bind_ok in C. destruct C as (c & C & E). apply Ok_inj in E as <-.
    unfold NewCapability in C. rewrite !unit_bind_ok in C. destruct C as (_ & _ & _ & C). apply Ok_inj in C as <-. by destruct v.
Qed.

Section Verified.
Context {PD : PolicyDecoder} {PT : PolicyText}.

Lemma Compile_fields {P : Positions} decoded node e :
  Compile decoded node = Ok e ->
  ep_digest e = NewDigest (ep_canonical e) /\ ep_capabilityFingerprint e = fp_digest node.
Proof.
  unfold Compile. rewrite res_bind_ok. intros ([p reqs] & _ & E). rewrite res_bind_ok in E. destruct E as (v & _ & E).
  rewrite res_bind_ok in E. destruct E as (c & _ & E). apply Ok_inj in E as <-. done.
Qed.

(** A verified publication is the one that publishing the compiled policy
    against the restored fingerprint would write. *)
Definition genuine (snap : Snapshot) : Prop :=
  exists c m fingerprint,
    NewCapabilityFingerprint c m = Ok fingerprint /\
    CompileSource (sn_CanonicalJSON snap) fingerprint = Ok (sn_Effective snap) /\
    ep_canonical (sn_Effective snap) = sn_CanonicalJSON snap /\
    sn_Publication snap = publication_of (sn_Effective snap) fingerprint /\
    pub_PolicyDigest (sn_Publication snap) = digest_String (sha256 (sn_CanonicalJSON snap)).

Definition verified (snap : Snapshot) : Prop :=
  verifyPublication (sn_Publication snap) (sn_CanonicalJSON snap) = Ok (sn_Effective snap).

Lemma wrap_ok {E A} (f : E -> registry_error) (x : res E A) a : wrap f x = Ok a <-> x = Ok a.
Proof. destruct x; cbn; naive_solver. Qed.

Lemma verified_genuine snap : verified snap -> genuine snap.
Proof.
  destruct snap as [p canonical e]. unfold verified, verifyPublication, self_referent. cbn [sn_Publication sn_CanonicalJSON sn_Effective].
  rewrite check_bind_ok. intros [S V]. to_prop. destruct S as [_ S].
  rewrite res_bind_ok in V. destruct V as (f & F & V). rewrite wrap_ok in F. apply restore_snapshot in F as (F & c & m & N).
  rewrite check_bind_ok in V. destruct V as [D V]. rewrite res_bind_ok in V. destruct V as (e' & C & V). rewrite wrap_ok in C.
  rewrite !check_bind_ok in V. destruct V as (X & Y & Z & W & V). apply Ok_inj in V as ->. to_prop.
  exists c, m, f. cbn [sn_Publication sn_CanonicalJSON sn_Effective]. destruct X as [X1 X2], Z as [Z1 Z2], W as [[W1 W2] W3].
  split; [done|]. split; [done|]. split; [done|]. split.
  - destruct p. unfold publication_of. cbn in *. f_equal; congruence.
  - unfold CompileSource in C. rewrite res_bind_ok in C. destruct C as (d & _ & C).
    apply Compile_fields in C as [C _]. rewrite <-X1, C, X2. done.
Qed.

Lemma lower_alnum_plain a : is_lower_alnum a = true -> plain_char a = true.
Proof. destruct a as [[] [] [] [] [] [] [] []]; by vm_compute. Qed.

Lemma genuine_reference snap : genuine snap -> blank (pub_Reference (sn_Publication snap)) = false.
Proof.
  intros (c & m & f & _ & C & _ & -> & _). unfold CompileSource in C. rewrite res_bind_ok in C. destruct C as (d & _ & C).
  apply Compile_valid in C as [_ C]. revert C. cbn [pub_Reference publication_of].
  generalize (ep_policy (sn_Effective snap)) as p. intros p V. unfold validatePolicy in V.
  problems V. unfold required, Reference in *.
  destruct (PolicyMetadata_Name (Policy_Metadata p)) as [|a name] eqn:E; [done|].
  match goal with H : (if _ && _ then _ else _) = [] |- _ => apply add_if_nil in H; rename H into G end.
  cbn [negb bool_decide decide] in G. rewrite bool_decide_false in G by done. cbn in G. apply negb_false_iff in G. apply plain_not_blank, lower_alnum_plain.
  unfold policyNamePattern in G. cbn in G. rewrite !andb_true_iff in G. naive_solver.
Qed.
End Verified.

(** ** Calls of the store *)
Section Steps.
Context {P R : Type} {RE : RegistryEnv}.
Implicit Types r : Registry P R.

Lemma RM_bind_ok {A B} (m : RM P R A) (f : A -> RM P R B) r b r' :
  (m ≫= f) r = (Ok b, r') <-> exists a r1, m r = (Ok a, r1) /\ f a r1 = (Ok b, r').
Proof. unfold mbind, RM_bind. destruct (m r) as [[a|e] r1]; naive_solver. Qed.

Lemma rm_lift_ok {A} (x : rresult A) r a r' : rm_lift x r = (Ok a, r') <-> x = Ok a /\ r' = r.
Proof. unfold rm_lift. naive_solver. Qed.

Lemma store_read_ok {A} (f : Store P R -> result A) r a r' :
  store_read f r = (Ok a, r') -> f (reg_store r) = Ok a /\ reg_store r' = reg_store r.
Proof. unfold store_read. intros [= E <-]. split; [|done]. revert E. destruct (call_at _); try done. by intros E%wrap_ok. Qed.

Lemma not_found_as_ok {A} e (m : RM P R A) r a r' : not_found_as e m r = (Ok a, r') <-> m r = (Ok a, r').
Proof. unfold not_found_as. destruct (m r) as [[b|[| | | |[] |]] r1]; naive_solver. Qed.

Lemma store_write_ok (f : Store P R -> result (Store P R)) r u r' :
  store_write f r = (Ok u, r') -> f (reg_store r) = Ok (reg_store r').
Proof. unfold store_write. destruct (call_at _), (f _); intros E; by simplify_eq. Qed.

Definition calm : Prop := forall n, call_at n = CallRuns.

(** A computation either answers [x] or meets a failing call. *)
Definition answers {A} (m : RM P R A) (r : Registry P R) (x : rresult A) : Prop :=
  (m r).1 = x \/ (m r).1 = Err store_fault /\ exists n, call_at n <> CallRuns.

Lemma answers_lift {A} (y : rresult A) r : answers (rm_lift y) r y.
Proof. by left. Qed.

Lemma answers_bind {A B} (m : RM P R A) (f : A -> RM P R B) r a x :
  answers m r (Ok a) -> (forall r', m r = (Ok a, r') -> answers (f a) r' x) -> answers (m ≫= f) r x.
Proof.
  unfold answers, mbind, RM_bind. destruct (m r) as [[b|e] r1]; cbn.
  - intros [[= ->]|[[=] _]] F. by apply F.
  - intros [[=]|[[= ->] N]] _. by right.
Qed.

Lemma answers_read {A} e (f : Store P R -> result A) r a :
  f (reg_store r) = Ok a -> answers (not_found_as e (store_read f)) r (Ok a).
Proof.
  unfold answers, not_found_as, store_read. intros ->. destruct (call_at (reg_calls r)) eqn:C; [by left|right..];
    (split; [done|exists (reg_calls r); congruence]).
Qed.
Lemma answers_plain_read {A} (f : Store P R -> result A) r a : f (reg_store r) = Ok a -> answers (store_read f) r (Ok a).
Proof.
  unfold answers, store_read. intros ->. destruct (call_at (reg_calls r)) eqn:C; [by left|right..];
    (split; [done|exists (reg_calls r); congruence]).
Qed.

Lemma answers_missing {A} e (f : Store P R -> result A) r :
  f (reg_store r) = Err ErrStoreNotFound -> answers (not_found_as e (store_read f)) r (Err e).
Proof.
  unfold answers, not_found_as, store_read. intros ->. destruct (call_at (reg_calls r)) eqn:C; [by left|right..];
    (split; [done|exists (reg_calls r); congruence]).
Qed.

Lemma answers_bind_err {A B} (m : RM P R A) (f : A -> RM P R B) r e : answers m r (Err e) -> answers (m ≫= f) r (Err e).
Proof.
  unfold answers, mbind, RM_bind. destruct (m r) as [[b|x] r1]; cbn; [intros [[=]|[[=] _]]|].
  intros [[= ->]|[[= ->] N]]; auto.
Qed.

Lemma answers_calm {A} (m : RM P R A) r x : calm -> answers m r x -> (m r).1 = x.
Proof. intros C [E|[_ [n N]]]; [done|by destruct (N (C n))]. Qed.
End Steps.

(** The next call of a sequence that succeeded, and the next pure check. *)
Tactic Notation "rm_call" hyp(H) "as" ident(X) :=
  rewrite RM_bind_ok in H; let a := fresh "a" in let r1 := fresh "r1" in destruct H as (a & r1 & X & H).
Tactic Notation "rm_check" hyp(H) "as" ident(X) := rm_call H as X; rewrite rm_lift_ok in X; destruct X as [X ->].

(** ** Resolution *)
Section Resolution.
Context {P R : Type}.
Context {PD : PolicyDecoder} {PT : PolicyText} {PJ : PublicationText}.

Record published (s : Store P R) (snap : Snapshot) : Prop := {
  pb_rows : exists payload, decode_publication payload = Some (sn_Publication snap) /\
    Object s referenceObjectKind (pub_Reference (sn_Publication snap)) = Ok payload /\
    Object s digestObjectKind (digestBinding (pub_PolicyDigest (sn_Publication snap))
      (pub_CapabilityFingerprintDigest (sn_Publication snap))) = Ok payload;
  pb_content : Store.Policy s (pub_PolicyDigest (sn_Publication snap)) = Ok (sn_CanonicalJSON snap);
  pb_policy : is_ok (ParseDigest (pub_PolicyDigest (sn_Publication snap))) = true;
  pb_capability : is_ok (ParseDigest (pub_CapabilityFingerprintDigest (sn_Publication snap))) = true;
  pb_verified : verified snap }.

Section Env.
Context {RE : RegistryEnv}.
Implicit Types r : Registry P R.

Lemma valid_digest_ok text e u : valid_digest text e = Ok u <-> is_ok (ParseDigest text) = true.
Proof. unfold valid_digest. destruct (ParseDigest text), u; cbn; naive_solver. Qed.

Lemma verified_self p c e : verifyPublication p c = Ok e -> self_referent p = true.
Proof. unfold verifyPublication. rewrite check_bind_ok. by intros [S _]. Qed.

Lemma requireMatching_ok kind id expected r u r' :
  requireMatchingPublication kind id expected r = (Ok u, r') ->
  Object (reg_store r) kind id = Ok expected /\ reg_store r' = reg_store r.
Proof.
  unfold requireMatchingPublication. rewrite RM_bind_ok. intros (x & r1 & E & C). rewrite not_found_as_ok in E.
  apply store_read_ok in E as [E S1]. rewrite rm_lift_ok in C. destruct C as [C ->]. apply check_ok in C. to_prop. by subst.
Qed.

Lemma resolvePublication_ok p r snap r' :
  resolvePublication p r = (Ok snap, r') ->
  sn_Publication snap = p /\ Store.Policy (reg_store r) (pub_PolicyDigest p) = Ok (sn_CanonicalJSON snap) /\
  is_ok (ParseDigest (pub_PolicyDigest p)) = true /\ is_ok (ParseDigest (pub_CapabilityFingerprintDigest p)) = true /\
  verified snap /\ reg_store r' = reg_store r.
Proof.
  unfold resolvePublication. intros E. rm_check E as X. rm_check E as D. rm_check E as C. rewrite valid_digest_ok in D, C.
  rm_call E as L. rewrite not_found_as_ok in L. apply store_read_ok in L as [L S1]. rm_check E as Y. rm_check E as V.
  unfold mret, RM_ret in E. simplify_eq. done.
Qed.

Lemma Resolve_ok reference r snap r' :
  Resolve reference r = (Ok snap, r') ->
  published (reg_store r) snap /\ pub_Reference (sn_Publication snap) = reference /\ reg_store r' = reg_store r.
Proof.
  unfold Resolve. intros E. rm_check E as B. rm_call E as L. apply store_read_ok in L as [L S1].
  rm_check E as D. apply from_option_err_ok in D. rm_check E as I. apply check_ok in I. to_prop. destruct I as [I _].
  rm_call E as M. apply requireMatching_ok in M as [M S2]. apply resolvePublication_ok in E as (PE & C & PD1 & PD2 & V & S3).
  rewrite S2, S1 in *. split; [|by rewrite PE]. split; rewrite ?PE; try done. exists a0. by rewrite I.
Qed.

Lemma ResolveDigest_ok policyDigest capabilityDigest r snap r' :
  ResolveDigest policyDigest capabilityDigest r = (Ok snap, r') ->
  published (reg_store r) snap /\ pub_PolicyDigest (sn_Publication snap) = policyDigest /\
  pub_CapabilityFingerprintDigest (sn_Publication snap) = capabilityDigest /\ reg_store r' = reg_store r.
Proof.
  unfold ResolveDigest. intros E. rm_check E as B. rm_check E as B'. rm_call E as L. rewrite not_found_as_ok in L.
  apply store_read_ok in L as [L S1].
  rm_check E as D. apply from_option_err_ok in D. rm_check E as I. apply check_ok in I. to_prop. destruct I as [I I'].
  rm_call E as M. apply requireMatching_ok in M as [M S2]. apply resolvePublication_ok in E as (PE & C & PD1 & PD2 & V & S3).
  rewrite S2, S1 in *. split; [|by rewrite PE]. split; rewrite ?PE; try done. exists a1. by rewrite I, I'.
Qed.

Lemma resolvePublication_answers r snap :
  published (reg_store r) snap -> answers (resolvePublication (sn_Publication snap)) r (Ok snap).
Proof.
  intros [_ C D1 D2 V]. unfold verified in V. unfold resolvePublication.
  rewrite (verified_self _ _ _ V). 
  eapply answers_bind; [by left|]. intros ? [_ ->]%rm_lift_ok.
  eapply answers_bind; [left; cbn; by rewrite (proj2 (valid_digest_ok _ _ tt) D1)|]. intros ? [_ ->]%rm_lift_ok.
  eapply answers_bind; [left; cbn; by rewrite (proj2 (valid_digest_ok _ _ tt) D2)|]. intros ? [_ ->]%rm_lift_ok.
  eapply answers_bind; [by apply answers_read|]. intros r1 _.
  destruct (verified_genuine _ V) as (_ & _ & _ & _ & _ & _ & _ & G). rewrite (bool_decide_eq_true_2 (_ = pub_PolicyDigest _)) by done.
  eapply answers_bind; [by left|]. intros ? [_ ->]%rm_lift_ok. rewrite V.
  eapply answers_bind; [by left|]. intros ? [_ ->]%rm_lift_ok. left. by destruct snap.
Qed.

Lemma requireMatching_answers kind id expected r :
  Object (reg_store r) kind id = Ok expected -> answers (requireMatchingPublication kind id expected) r (Ok tt).
Proof.
  intros O. eapply answers_bind; [by apply answers_read|]. intros r1 _. left. cbn. by rewrite bool_decide_eq_true_2.
Qed.

Lemma requireMatching_refuses kind id expected r :
  Object (reg_store r) kind id <> Ok expected ->
  answers (requireMatchingPublication kind id expected) r (Err ErrPublicationIntegrity).
Proof.
  intros N. unfold requireMatchingPublication. destruct (Object (reg_store r) kind id) as [x|e] eqn:O.
  - eapply answers_bind; [by apply answers_read|]. intros r1 _. left. cbn. rewrite bool_decide_eq_false_2; [done|congruence].
  - apply answers_bind_err, answers_missing. unfold Object in *. by destruct (st_objects _ !! _).
Qed.

(** What [Resolve] does once it has read the record of its reference. *)
Lemma Resolve_matching r snap payload x :
  verified snap -> decode_publication payload = Some (sn_Publication snap) ->
  Object (reg_store r) referenceObjectKind (pub_Reference (sn_Publication snap)) = Ok payload ->
  (forall r1, reg_store r1 = reg_store r ->
     answers (_ ← requireMatchingPublication digestObjectKind
        (digestBinding (pub_PolicyDigest (sn_Publication snap)) (pub_CapabilityFingerprintDigest (sn_Publication snap))) payload;
        resolvePublication (sn_Publication snap)) r1 x) ->
  answers (Resolve (pub_Reference (sn_Publication snap))) r x.
Proof.
  intros V D O1 K. unfold Resolve. rewrite (genuine_reference _ (verified_genuine _ V)).
  eapply answers_bind; [by left|]. intros ? [_ ->]%rm_lift_ok.
  eapply answers_bind; [by apply answers_plain_read|]. intros r1 [_ S1]%store_read_ok. rewrite D.
  eapply answers_bind; [by left|]. intros ? [_ ->]%rm_lift_ok.
  pose proof (verified_self _ _ _ V) as Sf. unfold self_referent in Sf. to_prop. destruct Sf as [_ Sf]. rewrite Sf, bool_decide_eq_true_2 by done.
  eapply answers_bind; [by left|]. intros ? [_ ->]%rm_lift_ok. by apply K.
Qed.

Lemma Resolve_answers r snap :
  published (reg_store r) snap -> answers (Resolve (pub_Reference (sn_Publication snap))) r (Ok snap).
Proof.
  intros Pb. destruct (pb_rows _ _ Pb) as (payload & D & O1 & O2).
  eapply Resolve_matching; [by destruct Pb|done|done|]. intros r1 S1.
  eapply answers_bind; [apply requireMatching_answers; by rewrite S1|]. intros r2 [_ S2]%requireMatching_ok.
  apply resolvePublication_answers. by rewrite S2, S1.
Qed.

Lemma ResolveDigest_answers r snap :
  published (reg_store r) snap ->
  answers (ResolveDigest (pub_PolicyDigest (sn_Publication snap)) (pub_CapabilityFingerprintDigest (sn_Publication snap))) r (Ok snap).
Proof.
  intros Pb. destruct (pb_rows _ _ Pb) as (payload & D & O1 & O2).
  unfold ResolveDigest. rewrite (proj2 (valid_digest_ok _ _ tt) (pb_policy _ _ Pb)), (proj2 (valid_digest_ok _ _ tt) (pb_capability _ _ Pb)).
  eapply answers_bind; [by left|]. intros ? [_ ->]%rm_lift_ok.
  eapply answers_bind; [by left|]. intros ? [_ ->]%rm_lift_ok.
  eapply answers_bind; [by apply answers_read|]. intros r1 [_ S1]%not_found_as_ok%store_read_ok. rewrite D.
  eapply answers_bind; [by left|]. intros ? [_ ->]%rm_lift_ok. rewrite !bool_decide_eq_true_2 by done.
  eapply answers_bind; [by left|]. intros ? [_ ->]%rm_lift_ok.
  eapply answers_bind; [apply requireMatching_answers; by rewrite S1|]. intros r2 [_ S2]%requireMatching_ok.
  apply resolvePublication_answers. by rewrite S2, S1.
Qed.
End Env.

(** ** The rows of a publication *)
Implicit Types s : Store P R.

(** Rows are kept: the tables are write-once. *)
Record keeps (s s' : Store P R) : Prop := {
  ke_policies : forall d x, Store.Policy s d = Ok x -> Store.Policy s' d = Ok x;
  ke_objects : forall k i x, Object s k i = Ok x -> Object s' k i = Ok x }.

Lemma keeps_refl s : keeps s s.
Proof. by split. Qed.
Lemma keeps_trans s s1 s2 : keeps s s1 -> keeps s1 s2 -> keeps s s2.
Proof. intros [A B] [A' B']. split; auto. Qed.

Lemma published_keeps s s' snap : published s snap -> keeps s s' -> published s' snap.
Proof.
  intros [(payload & D & O1 & O2) C D1 D2 V] [KP KO]. split; [|by apply KP|done..]. exists payload. auto.
Qed.

(** A row is free or already holds the content. *)
Definition fits (row : result (list N)) (content : list N) : Prop := row = Err ErrStoreNotFound \/ row = Ok content.

Lemma PutPolicy_iff s d c :
  is_ok (PutPolicy s d c) = true <-> d <> "" /\ c <> [] /\ fits (Store.Policy s d) c.
Proof.
  unfold PutPolicy, fits, Store.Policy. destruct (st_policies s !! d) as [x|]; cbn;
    repeat case_bool_decide; cbn; naive_solver.
Qed.
Lemma PutObject_iff s k i c :
  is_ok (PutObject s k i c) = true <-> k <> "" /\ i <> "" /\ c <> [] /\ fits (Object s k i) c.
Proof.
  unfold PutObject, fits, Object. destruct (st_objects s !! (k, i)) as [x|]; cbn;
    repeat case_bool_decide; cbn; naive_solver.
Qed.

Lemma PutPolicy_rows s d c s' :
  PutPolicy s d c = Ok s' ->
  (forall d', Store.Policy s' d' = if bool_decide (d' = d) then Ok c else Store.Policy s d') /\
  (forall k i, Object s' k i = Object s k i).
Proof.
  unfold PutPolicy. rewrite check_bind_ok. intros [_ E]. unfold Store.Policy, Object.
  destruct (st_policies s !! d) as [x|] eqn:L.
  - case_bool_decide; [|done]. apply Ok_inj in E as <-. subst. split; [|done]. intros d'. case_bool_decide; [subst|done]. by rewrite L.
  - apply Ok_inj in E as <-. cbn. split; [|done]. intros d'. case_bool_decide; [subst; by rewrite lookup_insert_eq|].
    by rewrite lookup_insert_ne.
Qed.
Lemma PutObject_rows s k i c s' :
  PutObject s k i c = Ok s' ->
  (forall k' i', Object s' k' i' = if bool_decide (k' = k /\ i' = i) then Ok c else Object s k' i') /\
  (forall d, Store.Policy s' d = Store.Policy s d).
Proof.
  unfold PutObject. rewrite check_bind_ok. intros [_ E]. unfold Store.Policy, Object.
  destruct (st_objects s !! (k, i)) as [x|] eqn:L.
  - case_bool_decide; [|done]. apply Ok_inj in E as <-. subst. split; [|done]. intros k' i'.
    case_bool_decide as B; [destruct B; subst|done]. by rewrite L.
  - apply Ok_inj in E as <-. cbn. split; [|done]. intros k' i'.
    case_bool_decide as B; [destruct B; subst; by rewrite lookup_insert_eq|]. rewrite lookup_insert_ne; [done|]. naive_solver.
Qed.

Lemma PutPolicy_keeps s d c s' : PutPolicy s d c = Ok s' -> keeps s s'.
Proof.
  intros E. assert (F : is_ok (PutPolicy s d c) = true) by by rewrite E. apply PutPolicy_iff in F as (_ & _ & F).
  apply PutPolicy_rows in E as [EP EO]. split; intros *; rewrite ?EP, ?EO; [|done].
  case_bool_decide; [subst|done]. destruct F; congruence.
Qed.
Lemma PutObject_keeps s k i c s' : PutObject s k i c = Ok s' -> keeps s s'.
Proof.
  intros E. assert (F : is_ok (PutObject s k i c) = true) by by rewrite E. apply PutObject_iff in F as (_ & _ & _ & F).
  apply PutObject_rows in E as [EO EP]. split; intros *; rewrite ?EP, ?EO; [done|].
  case_bool_decide as B; [destruct B; subst|done]. destruct F; congruence.
Qed.

(** The keys of a publication. *)
Definition pub_binding (p : Publication) : string := digestBinding (pub_PolicyDigest p) (pub_CapabilityFingerprintDigest p).

Lemma binding_nonempty p : pub_PolicyDigest p <> "" -> pub_binding p <> "".
Proof. unfold pub_binding, digestBinding. by destruct (pub_PolicyDigest p). Qed.

(** After the first [n] writes of a publication. *)
Record puts (snap : Snapshot) (n : nat) (s s' : Store P R) : Prop := {
  pu_keeps : keeps s s';
  pu_digest : (1 <= n)%nat -> pub_PolicyDigest (sn_Publication snap) <> "";
  pu_policies : forall d, Store.Policy s' d =
    if bool_decide ((1 <= n)%nat /\ d = pub_PolicyDigest (sn_Publication snap)) then Ok (sn_CanonicalJSON snap) else Store.Policy s d;
  pu_objects : forall k i, Object s' k i =
    if bool_decide ((2 <= n)%nat /\ k = referenceObjectKind /\ i = pub_Reference (sn_Publication snap)) ||
       bool_decide ((3 <= n)%nat /\ k = digestObjectKind /\ i = pub_binding (sn_Publication snap))
    then Ok (publication_text (sn_Publication snap)) else Object s k i }.

(** Each write finds its row free or already written. *)
Record writable (snap : Snapshot) (s : Store P R) : Prop := {
  wr_digest : pub_PolicyDigest (sn_Publication snap) <> "";
  wr_canonical : sn_CanonicalJSON snap <> [];
  wr_reference : pub_Reference (sn_Publication snap) <> "";
  wr_payload : publication_text (sn_Publication snap) <> [];
  wr_policy : fits (Store.Policy s (pub_PolicyDigest (sn_Publication snap))) (sn_CanonicalJSON snap);
  wr_row : fits (Object s referenceObjectKind (pub_Reference (sn_Publication snap))) (publication_text (sn_Publication snap));
  wr_binding : fits (Object s digestObjectKind (pub_binding (sn_Publication snap))) (publication_text (sn_Publication snap)) }.

Lemma writable_puts snap n s s' : writable snap s -> puts snap n s s' -> writable snap s'.
Proof.
  intros [] [_ _ PP PO]. split; try done; rewrite ?PP, ?PO; repeat case_bool_decide; cbn; try done; by right.
Qed.

Lemma puts_0 snap s : puts snap 0 s s.
Proof. split; [by split|lia|..]; intros; repeat case_bool_decide; naive_solver lia. Qed.

Lemma puts_1 snap s s' :
  PutPolicy s (pub_PolicyDigest (sn_Publication snap)) (sn_CanonicalJSON snap) = Ok s' -> puts snap 1 s s'.
Proof.
  intros E. split; [by eapply PutPolicy_keeps|intros _; apply (f_equal is_ok) in E; by apply PutPolicy_iff in E as [? _]|..]; apply PutPolicy_rows in E as [EP EO]; intros *; rewrite ?EP, ?EO;
    repeat case_bool_decide; cbn; naive_solver lia.
Qed.

Lemma puts_2 snap s s1 s' :
  puts snap 1 s s1 ->
  PutObject s1 referenceObjectKind (pub_Reference (sn_Publication snap)) (publication_text (sn_Publication snap)) = Ok s' ->
  puts snap 2 s s'.
Proof.
  intros [K N PP PO] E. split; [eapply keeps_trans; [done|by eapply PutObject_keeps]|intros _; apply N; lia|..];
    apply PutObject_rows in E as [EO EP]; intros *; rewrite ?EP, ?EO, ?PP, ?PO;
    repeat case_bool_decide; cbn; naive_solver lia.
Qed.

Lemma puts_3 snap s s2 s' :
  puts snap 2 s s2 ->
  PutObject s2 digestObjectKind (pub_binding (sn_Publication snap)) (publication_text (sn_Publication snap)) = Ok s' ->
  puts snap 3 s s'.
Proof.
  intros [K N PP PO] E. split; [eapply keeps_trans; [done|by eapply PutObject_keeps]|intros _; apply N; lia|..];
    apply PutObject_rows in E as [EO EP]; intros *; rewrite ?EP, ?EO, ?PP, ?PO;
    repeat case_bool_decide; cbn; naive_solver lia.
Qed.

(** ** Publishing *)
(** What is checked before anything is written. *)
Record ready (e : EffectivePolicy) (capabilities : CapabilityFingerprint) (snap : Snapshot) : Prop := {
  re_fingerprint : digest_IsZero (fp_digest capabilities) = false;
  re_match : ep_capabilityFingerprint e = fp_digest capabilities;
  re_publication : sn_Publication snap = publication_of e capabilities;
  re_canonical : sn_CanonicalJSON snap = ep_canonical e;
  re_verified : verified snap }.

Lemma digest_parses m : digest_String (sha256 m) <> "" -> is_ok (ParseDigest (digest_String (sha256 m))) = true.
Proof.
  intros N. rewrite is_ok_true. exists (sha256 m). apply ParseDigest_iff. split; [done|]. split; [apply sha256_length|].
  split; [apply sha256_bound|]. unfold digest_String in N. by destruct (digest_IsZero _).
Qed.

Lemma ready_digests e capabilities snap :
  ready e capabilities snap -> pub_PolicyDigest (sn_Publication snap) <> "" ->
  is_ok (ParseDigest (pub_PolicyDigest (sn_Publication snap))) = true /\
  is_ok (ParseDigest (pub_CapabilityFingerprintDigest (sn_Publication snap))) = true.
Proof.
  intros [Z M Pu C V] N. pose proof (verified_genuine _ V) as (c & m & f & F & K & _ & E & D). split.
  - rewrite D in *. by apply digest_parses.
  - unfold CompileSource in K. rewrite res_bind_ok in K. destruct K as (d & _ & K). apply Compile_fields in K as [_ K].
    apply NewCapabilityFingerprint_ok in F as [F _]. rewrite F in K. cbn in K. unfold NewDigest in K.
    assert (X : digest_String (fp_digest capabilities) <> "") by (unfold digest_String; by rewrite Z).
    rewrite <-M in X. rewrite Pu in E |- *. cbn. apply (f_equal pub_CapabilityFingerprintDigest) in E. cbn in E.
    rewrite E, K in *. by apply digest_parses.
Qed.

Lemma published_puts e capabilities snap s s' :
  ready e capabilities snap -> puts snap 3 s s' -> writable snap s ->
  decode_publication (publication_text (sn_Publication snap)) = Some (sn_Publication snap) -> published s' snap.
Proof.
  intros Rd [_ _ PP PO] W D. destruct (ready_digests _ _ _ Rd (wr_digest _ _ W)) as [D1 D2].
  split; [|by rewrite PP, bool_decide_eq_true_2 by (split; [lia|done])|done|done|by destruct Rd].
  exists (publication_text (sn_Publication snap)). split; [done|]. rewrite !PO. unfold pub_binding.
  rewrite (bool_decide_eq_true_2 ((2 <= 3)%nat /\ referenceObjectKind = _ /\ _)) by (split_and!; [lia|done..]).
  rewrite (bool_decide_eq_true_2 ((3 <= 3)%nat /\ digestObjectKind = _ /\ _)) by (split_and!; [lia|done..]).
  by rewrite orb_true_r.
Qed.

Section Publish.
Context {RE : RegistryEnv}.
Implicit Types r : Registry P R.

Lemma store_write_cases (f : Store P R -> result (Store P R)) r x r' :
  store_write f r = (x, r') ->
  (reg_store r' = reg_store r /\ exists e, x = Err e) \/
  (f (reg_store r) = Ok (reg_store r') /\ (x = Ok tt \/ x = Err store_fault)).
Proof. unfold store_write. destruct (call_at _), (f (reg_store r)); intros [= <- <-]; cbn; eauto. Qed.

Lemma RM_bind_cases {A B} (m : RM P R A) (f : A -> RM P R B) r x r' :
  (m ≫= f) r = (x, r') ->
  (exists e, m r = (Err e, r') /\ x = Err e) \/ exists a r1, m r = (Ok a, r1) /\ f a r1 = (x, r').
Proof. unfold mbind, RM_bind. destruct (m r) as [[a|e] r1]; [eauto|intros [= <- <-]; eauto]. Qed.

Lemma lift_bind_cases {A B} (y : rresult A) (f : A -> RM P R B) r x r' :
  (rm_lift y ≫= f) r = (x, r') ->
  (reg_store r' = reg_store r /\ exists e, x = Err e) \/ exists a, y = Ok a /\ f a r = (x, r').
Proof. unfold mbind, RM_bind, rm_lift. destruct y; [eauto|]. intros [= <- <-]. eauto. Qed.

Lemma lift_bind_ok {A B} (y : rresult A) (f : A -> RM P R B) r a : y = Ok a -> (rm_lift y ≫= f) r = f a r.
Proof. by intros ->. Qed.

(** One write of a publication and what follows it. *)
Lemma write_bind_cases {B} snap n (write : Store P R -> result (Store P R)) (f : unit -> RM P R B) s r x r' :
  puts snap n s (reg_store r) ->
  (forall s', write (reg_store r) = Ok s' -> puts snap (S n) s s') ->
  (store_write write ≫= f) r = (x, r') ->
  ((exists e, x = Err e) /\ exists n', puts snap n' s (reg_store r')) \/
  exists r1, puts snap (S n) s (reg_store r1) /\ f tt r1 = (x, r').
Proof.
  intros Pu W [(e & E & ->)|([] & r1 & E & F)]%RM_bind_cases.
  - left. split; [eauto|]. apply store_write_cases in E as [[-> _]|[E _]]; eauto.
  - right. exists r1. split; [|done]. apply store_write_cases in E as [[_ [? [=]]]|[E _]]. eauto.
Qed.

(** The three writes of a publication. *)
Definition writes (snap : Snapshot) : RM P R Snapshot :=
  let p := sn_Publication snap in
  _ ← store_write (fun s => PutPolicy s (pub_PolicyDigest p) (sn_CanonicalJSON snap));
  _ ← store_write (fun s => PutObject s referenceObjectKind (pub_Reference p) (publication_text p));
  _ ← store_write (fun s => PutObject s digestObjectKind (pub_binding p) (publication_text p));
  mret snap.

Lemma ready_publish e capabilities snap r :
  ready e capabilities snap -> PublishEffective (Some e) capabilities r = writes snap r.
Proof.
  intros [Z M Pu C V]. destruct (verified_genuine _ V) as (_ & _ & _ & _ & _ & G & _).
  unfold verified in V. destruct snap as [p c v]. cbn in *. subst p c. unfold PublishEffective.
  etransitivity; [by apply lift_bind_ok|].
  etransitivity; [apply lift_bind_ok; by rewrite Z|].
  etransitivity; [apply lift_bind_ok; by rewrite bool_decide_eq_true_2|].
  etransitivity; [by apply lift_bind_ok|]. by rewrite G.
Qed.

Lemma publish_ready e capabilities r x r' :
  PublishEffective (Some e) capabilities r = (x, r') ->
  (reg_store r' = reg_store r /\ exists failure, x = Err failure) \/
  exists snap, ready e capabilities snap /\ writes snap r = (x, r').
Proof.
  intros E. pose proof E as E'. unfold PublishEffective in E. apply lift_bind_cases in E as [?|(? & [= <-] & E)]; [auto|].
  apply lift_bind_cases in E as [?|([] & Z & E)]; [auto|]. apply check_ok in Z.
  apply lift_bind_cases in E as [?|([] & M & E)]; [auto|]. apply check_ok in M. to_prop.
  apply lift_bind_cases in E as [?|(v & V & E)]; [auto|]. right. clear E.
  assert (Rd : ready e capabilities (mkSnapshot (publication_of e capabilities) (ep_canonical e) v)) by by split.
  eexists. split; [exact Rd|]. by rewrite <-(ready_publish _ _ _ _ Rd).
Qed.

Lemma writes_cases snap r x r' :
  writes snap r = (x, r') ->
  exists n, puts snap n (reg_store r) (reg_store r') /\ ((exists failure, x = Err failure) \/ (x = Ok snap /\ n = 3%nat)).
Proof.
  intros E. unfold writes in E.
  destruct (write_bind_cases snap 0 _ _ _ _ _ _ (puts_0 _ _) (fun _ => puts_1 _ _ _) E) as [[F [n Pu]]|(r1 & P1 & E1)]; [eauto|].
  destruct (write_bind_cases snap 1 _ _ _ _ _ _ P1 (fun _ => puts_2 _ _ _ _ P1) E1) as [[F [n Pu]]|(r2 & P2 & E2)]; [eauto|].
  destruct (write_bind_cases snap 2 _ _ _ _ _ _ P2 (fun _ => puts_3 _ _ _ _ P2) E2) as [[F [n Pu]]|(r3 & P3 & E3)]; [eauto|].
  exists 3%nat. injection E3 as <- <-. auto.
Qed.

Lemma publish_answer e capabilities r :
  is_ok (PublishEffective (Some e) capabilities r).1 = true ->
  exists snap r', PublishEffective (Some e) capabilities r = (Ok snap, r') /\ sn_Publication snap = publication_of e capabilities.
Proof.
  destruct (PublishEffective (Some e) capabilities r) as [[snap|] r'] eqn:E; [|done]. intros _. exists snap, r'. split; [done|].
  apply publish_ready in E as [[_ [? [=]]]|(snap' & Rd & W)].
  destruct (writes_cases _ _ _ _ W) as (_ & _ & [[? [=]]|[[= <-] _]]). by destruct Rd.
Qed.

Lemma writes_writable snap r r' : writes snap r = (Ok snap, r') -> writable snap (reg_store r).
Proof.
  unfold writes. intros E. rm_call E as W1. rm_call E as W2. rm_call E as W3.
  apply store_write_ok in W1, W2, W3. clear E.
  pose proof (puts_1 _ _ _ W1) as [_ _ P1 O1]. pose proof (puts_2 _ _ _ _ (puts_1 _ _ _ W1) W2) as [_ _ P2 O2].
  pose proof (f_equal is_ok W1) as K1. pose proof (f_equal is_ok W2) as K2. pose proof (f_equal is_ok W3) as K3.
  apply PutPolicy_iff in K1 as (? & ? & ?). apply PutObject_iff in K2 as (_ & ? & ? & F2). apply PutObject_iff in K3 as (_ & _ & _ & F3).
  rewrite O1 in F2. rewrite O2 in F3. split; try done; revert F2 F3; repeat case_bool_decide; cbn; naive_solver lia.
Qed.

Lemma answers_write {B} (write : Store P R -> result (Store P R)) (f : unit -> RM P R B) r x :
  is_ok (write (reg_store r)) = true ->
  (forall r1, write (reg_store r) = Ok (reg_store r1) -> answers (f tt) r1 x) ->
  answers (store_write write ≫= f) r x.
Proof.
  intros W F. eapply answers_bind.
  - unfold answers, store_write. destruct (write (reg_store r)); [|done].
    destruct (call_at (reg_calls r)) eqn:C; [by left|right..]; (split; [done|exists (reg_calls r); congruence]).
  - intros r1 E. apply F. by eapply store_write_ok.
Qed.

Lemma writes_answers snap r : writable snap (reg_store r) -> answers (writes snap) r (Ok snap).
Proof.
  intros W. unfold writes. apply answers_write; [apply PutPolicy_iff; by destruct W|]. intros r1 P1%puts_1.
  pose proof (writable_puts _ _ _ _ W P1) as W1. apply answers_write; [apply PutObject_iff; by destruct W1|].
  intros r2 P2%(puts_2 _ _ _ _ P1). pose proof (writable_puts _ _ _ _ W P2) as W2.
  apply answers_write; [apply PutObject_iff; destruct W2; split_and!; try done; by apply binding_nonempty|].
  intros r3 _. by left.
Qed.
End Publish.

(** ** Lives of a registry *)
(** A call of the registry, with whatever failures, or any other use of the
    control store, which leaves the two tables alone. *)
Inductive registry_step s : Store P R -> Prop :=
| step_publish (RE : RegistryEnv) n e capabilities x r' :
    PublishEffective e capabilities (mkRegistry s n) = (x, r') -> registry_step s (reg_store r')
| step_compile (RE : RegistryEnv) n source capabilities x r' :
    Publish source capabilities (mkRegistry s n) = (x, r') -> registry_step s (reg_store r')
| step_control s' : st_policies s' = st_policies s -> st_objects s' = st_objects s -> registry_step s s'.
Abbreviation registry_runs := (rtc registry_step).

(** Both digests of a publication are digests. *)
Definition parses (snap : Snapshot) : Prop :=
  is_ok (ParseDigest (pub_PolicyDigest (sn_Publication snap))) = true /\
  is_ok (ParseDigest (pub_CapabilityFingerprintDigest (sn_Publication snap))) = true.

(** A step writes some rows of one publication, or none. *)
Lemma step_rows s s' :
  registry_step s s' ->
  (forall d, Store.Policy s' d = Store.Policy s d) /\ (forall k i, Object s' k i = Object s k i) \/
  exists snap n, verified snap /\ puts snap n s s' /\ ((1 <= n)%nat -> parses snap).
Proof.
  assert (Pub : forall (RE : RegistryEnv) n e capabilities x r',
    PublishEffective e capabilities (mkRegistry s n) = (x, r') ->
    (forall d, Store.Policy (reg_store r') d = Store.Policy s d) /\ (forall k i, Object (reg_store r') k i = Object s k i) \/
    exists snap n, verified snap /\ puts snap n s (reg_store r') /\ ((1 <= n)%nat -> parses snap)).
  { intros RE n [e|] capabilities x r' E; [|left; by injection E as <- <-].
    apply publish_ready in E as [[-> _]|(snap & Rd & E)]; [by left|right].
    apply writes_cases in E as (m & Pu & _). exists snap, m. split; [by destruct Rd|]. split; [done|].
    intros L. eapply ready_digests; [done|by apply (pu_digest _ _ _ _ Pu)]. }
  intros [RE n e capabilities x r' E|RE n source capabilities x r' E|s1 E E'].
  - by eapply Pub.
  - unfold Publish in E. apply lift_bind_cases in E as [[-> _]|(e & _ & E)]; [by left|by eapply Pub].
  - left. unfold Store.Policy, Object. by rewrite E, E'.
Qed.

Lemma step_keeps_rows s s' : registry_step s s' -> keeps s s'.
Proof.
  intros [[EP EO]|(snap & n & _ & Pu & _)]%step_rows; [|by destruct Pu]. split; intros *; by rewrite ?EP, ?EO.
Qed.

Lemma runs_keep_rows s s' : registry_runs s s' -> keeps s s'.
Proof. induction 1; [by split|]. eapply keeps_trans; [by apply step_keeps_rows|done]. Qed.

(** C30: What [Resolve] returns, whatever the tables hold and whatever calls
    fail, is genuine: the document compiles on the recorded node to the policy
    returned, hashes to the recorded digest, and the record is field by field the
    one that publishing this policy against that node writes.  The same
    publication is then what its pair of digests resolves to, unless a call of
    the store fails. *)
Theorem resolved_policy_genuine {RE : RegistryEnv} (RE' : RegistryEnv) reference (r r' r1 : Registry P R) snap :
  Resolve reference r = (Ok snap, r') -> reg_store r1 = reg_store r ->
  genuine snap /\ pub_Reference (sn_Publication snap) = reference /\ reg_store r' = reg_store r /\
  answers (RE := RE') (ResolveDigest (RE := RE') (pub_PolicyDigest (sn_Publication snap)) (pub_CapabilityFingerprintDigest (sn_Publication snap)))
    r1 (Ok snap).
Proof.
  intros (Pb & E & K)%Resolve_ok E1. split; [by apply verified_genuine, (pb_verified _ _ Pb)|]. split; [done|]. split; [done|].
  apply ResolveDigest_answers. by rewrite E1.
Qed.

(** C29: A published policy stays, provided the JSON text stored for its
    publication decodes to the publication again (which the code does not check,
    and which fails for evidence with invalid UTF-8): after any further
    publications, interrupted or not, and any other use of the store, its
    reference and its pair of digests both resolve to exactly the published
    snapshot, or a call of the store fails. *)
Theorem published_policy_resolves {RE : RegistryEnv} (RE' : RegistryEnv) e capabilities (r r' r1 : Registry P R) snap :
  PublishEffective e capabilities r = (Ok snap, r') -> registry_runs (reg_store r') (reg_store r1) ->
  decode_publication (publication_text (sn_Publication snap)) = Some (sn_Publication snap) ->
  answers (RE := RE') (Resolve (RE := RE') (pub_Reference (sn_Publication snap))) r1 (Ok snap) /\
  answers (RE := RE') (ResolveDigest (RE := RE') (pub_PolicyDigest (sn_Publication snap)) (pub_CapabilityFingerprintDigest (sn_Publication snap)))
    r1 (Ok snap).
Proof.
  intros E Ru D. destruct e as [e|]; [|done].
  assert (Pb : published (reg_store r1) snap).
  { eapply published_keeps; [|by apply runs_keep_rows].
    apply publish_ready in E as [[_ [? [=]]]|(snap' & Rd & E)].
    destruct (writes_cases _ _ _ _ E) as (n & Pu & [[? [=]]|[[= <-] ->]]).
    eapply published_puts; [done|done|by eapply writes_writable|done]. }
  split; [by apply Resolve_answers|by apply ResolveDigest_answers].
Qed.

(** A publication that was interrupted or answered an error can be
    repeated: if it could have succeeded, the next attempt succeeds with the same
    snapshot, or meets another failing call. *)
Theorem publication_can_be_repeated (RE0 RE RE' : RegistryEnv) e capabilities (r0 r0' r r' r1 : Registry P R) snap x :
  PublishEffective (RE := RE0) e capabilities r0 = (Ok snap, r0') -> reg_store r = reg_store r0 ->
  PublishEffective (RE := RE) e capabilities r = (x, r') -> reg_store r1 = reg_store r' ->
  answers (RE := RE') (PublishEffective (RE := RE') e capabilities) r1 (Ok snap).
Proof.
  intros E0 S0 E S1. destruct e as [e|]; [|done].
  apply publish_ready in E0 as [[_ [? [=]]]|(snap0 & Rd & E0)].
  destruct (writes_cases _ _ _ _ E0) as (_ & _ & [[? [=]]|[[= <-] _]]). apply writes_writable in E0.
  rewrite (ready_publish _ _ _ _ Rd) in E. apply writes_cases in E as (n & Pu & _).
  unfold answers. rewrite (ready_publish _ _ _ _ Rd). apply writes_answers. rewrite S1.
  eapply writable_puts; [|done]. by rewrite S0.
Qed.

(** ** Rows that publications wrote *)
Definition row_of s (payload : list N) (snap : Snapshot) : Prop :=
  verified snap /\ parses snap /\ payload = publication_text (sn_Publication snap) /\
  Store.Policy s (pub_PolicyDigest (sn_Publication snap)) = Ok (sn_CanonicalJSON snap).

Record rows_ok s : Prop := {
  ro_reference : forall i payload, Object s referenceObjectKind i = Ok payload ->
    exists snap, row_of s payload snap /\ i = pub_Reference (sn_Publication snap);
  ro_digest : forall i payload, Object s digestObjectKind i = Ok payload ->
    exists snap, row_of s payload snap /\ i = pub_binding (sn_Publication snap) /\
      Object s referenceObjectKind (pub_Reference (sn_Publication snap)) = Ok payload }.

Lemma row_of_keeps s s' payload snap : row_of s payload snap -> keeps s s' -> row_of s' payload snap.
Proof. intros (? & ? & ? & ?) [KP _]. split_and!; auto. Qed.

Lemma step_rows_ok s s' : rows_ok s -> registry_step s s' -> rows_ok s'.
Proof.
  intros [RR RD] St. pose proof (step_keeps_rows _ _ St) as K.
  apply step_rows in St as [[EP EO]|(snap & n & V & Pu & D)].
  - split; intros *; rewrite EO; [intros (snap & Ro & ->)%RR|intros (snap & Ro & -> & Rf)%RD]; exists snap;
      (split; [by eapply row_of_keeps|]); [done|]. split; [done|by apply K].
  - assert (New : (2 <= n)%nat -> row_of s' (publication_text (sn_Publication snap)) snap).
    { intros L. split; [done|]. split; [apply D; lia|]. split; [done|].
      rewrite (pu_policies _ _ _ _ Pu), bool_decide_eq_true_2; [done|]. split; [lia|done]. }
    split; intros i payload; rewrite (pu_objects _ _ _ _ Pu).
    + case_bool_decide as B; cbn.
      { destruct B as (L & _ & ->). intros [= <-]. exists snap. auto. }
      rewrite bool_decide_eq_false_2 by naive_solver. intros (snap' & Ro & ->)%RR. exists snap'.
      split; [by eapply row_of_keeps|done].
    + rewrite bool_decide_eq_false_2 by naive_solver. cbn. case_bool_decide as B.
      { destruct B as (L & _ & ->). intros [= <-]. exists snap. split; [apply New; lia|]. split; [done|].
        rewrite (pu_objects _ _ _ _ Pu), bool_decide_eq_true_2 by (split_and!; [lia|done..]). done. }
      intros (snap' & Ro & -> & Rf)%RD. exists snap'. split; [by eapply row_of_keeps|]. split; [done|by apply K].
Qed.

Lemma runs_rows_ok s s' : rows_ok s -> registry_runs s s' -> rows_ok s'.
Proof. intros I Ru. induction Ru as [|s1 s2 s3 St _ IH]; [done|]. by apply IH, (step_rows_ok s1). Qed.

Lemma row_published s payload snap :
  row_of s payload snap -> decode_publication payload = Some (sn_Publication snap) ->
  Object s referenceObjectKind (pub_Reference (sn_Publication snap)) = Ok payload ->
  Object s digestObjectKind (pub_binding (sn_Publication snap)) = Ok payload -> published s snap.
Proof. intros (V & [D1 D2] & _ & C) D O1 O2. split; [by exists payload|done..]. Qed.

(** In every state of a registry that started empty, a record under a
    reference belongs to a genuine publication whose document is stored, so a
    reference never lacks its content.  It resolves to that publication exactly
    when the record is also stored under the pair of digests; otherwise the
    publication was interrupted and resolving it fails closed.  A record under a
    pair of digests always resolves.  (The text of a record is supposed to decode
    to it, or a call of the store fails.) *)
Theorem references_have_content {RE : RegistryEnv} s0 (r : Registry P R) :
  st_objects s0 = ∅ -> registry_runs s0 (reg_store r) ->
  (forall reference payload, Object (reg_store r) referenceObjectKind reference = Ok payload ->
     exists snap, genuine snap /\ reference = pub_Reference (sn_Publication snap) /\
       payload = publication_text (sn_Publication snap) /\
       Store.Policy (reg_store r) (pub_PolicyDigest (sn_Publication snap)) = Ok (sn_CanonicalJSON snap) /\
       (decode_publication payload = Some (sn_Publication snap) ->
        answers (Resolve reference) r
          (if bool_decide (Object (reg_store r) digestObjectKind (pub_binding (sn_Publication snap)) = Ok payload)
           then Ok snap else Err ErrPublicationIntegrity))) /\
  (forall i payload, Object (reg_store r) digestObjectKind i = Ok payload ->
     exists snap, i = pub_binding (sn_Publication snap) /\ payload = publication_text (sn_Publication snap) /\
       (decode_publication payload = Some (sn_Publication snap) ->
        answers (ResolveDigest (pub_PolicyDigest (sn_Publication snap)) (pub_CapabilityFingerprintDigest (sn_Publication snap)))
          r (Ok snap))).
Proof.
  intros E Ru. apply runs_rows_ok in Ru as [RR RD].
  2: { split; intros *; unfold Object; by rewrite E, lookup_empty. }
  split.
  - intros reference payload O. destruct (RR _ _ O) as (snap & Ro & ->). pose proof Ro as (V & _ & T & C).
    exists snap. split; [by apply verified_genuine|]. split; [done|]. split; [done|]. split; [done|]. intros D.
    case_bool_decide as B; [apply Resolve_answers; by eapply row_published|].
    eapply Resolve_matching; [done..|]. intros r1 S1. apply answers_bind_err, requireMatching_refuses. by rewrite S1.
  - intros i payload O. destruct (RD _ _ O) as (snap & Ro & -> & Rf). exists snap. split; [done|]. split; [by apply Ro|].
    intros D. apply ResolveDigest_answers. by eapply row_published.
Qed.
End Resolution.

(** ** A concrete registry *)
Module RegistryDemo.
Import PolicyDemo.

(** Source text [1; p] is the example document with priority [p] and [2; p] its
    completed form, in which every field is set. *)
Definition with_priority (n : N) : Policy :=
  the_document <| Policy_Spec := (Policy_Spec the_document)
    <| PolicySpec_Lease := mkLeasePolicy (7200 * second)%Z (Z.of_N n) true (30 * second)%Z |> |>.
Definition all_positions : gmap string sourcePosition :=
  <["spec.agentWorkspace.resources.limits.workspaceInodes" := mkPosition 1 1]> set_positions.
#[export] Instance decoder : PolicyDecoder := fun source =>
  match source with
  | [1; n]%N => Ok (with_priority n, set_positions)
  | [2; n]%N => Ok (@applyDefaults set_positions (with_priority n), all_positions)
  | _ => Err PCanonicalize
  end.
#[export] Instance text : PolicyText :=
  {| policy_text p := Some [2%N; Z.to_N (LeasePolicy_Priority (PolicySpec_Lease (Policy_Spec p)))] |}.

Definition compiled_policy (n : N) : EffectivePolicy :=
  match CompileSource [1%N; n] the_node with Ok e => e | Err _ => mkEffectivePolicy [] the_document [] [] [] [] [] end.
Definition record_text (p : Publication) : list N := bytes_of (pub_Reference p +:+ pub_PolicyDigest p).
Definition the_publication : Publication := publication_of (compiled_policy 50) the_node.
#[export] Instance records : PublicationText := {|
  publication_text := record_text;
  decode_publication payload := if bool_decide (payload = record_text the_publication) then Some the_publication else None |}.

Definition quiet : RegistryEnv := fun _ => CallRuns.
Definition third_call_fails : RegistryEnv := fun n => if (n =? 2)%nat then CallFails else CallRuns.
Abbreviation start := (mkRegistry (P := unit) (R := unit) empty_store 0).
Abbreviation attempt RE n r := (PublishEffective (P := unit) (R := unit) (RE := RE) (Some (compiled_policy n)) the_node r).

Lemma attempt_succeeds : is_ok (attempt quiet 50%N start).1 = true.
Proof. by vm_compute. Qed.
Lemma attempt_recorded :
  Object (reg_store (attempt quiet 50%N start).2) referenceObjectKind (pub_Reference the_publication) =
  Ok (record_text the_publication).
Proof. by vm_compute. Qed.
Lemma record_decodes : decode_publication (publication_text the_publication) = Some the_publication.
Proof. unfold decode_publication, publication_text, records. by rewrite bool_decide_eq_true_2. Qed.
#[local] Opaque compiled_policy the_node record_text.

Lemma published_policy_resolves_witness :
  exists snap r', attempt quiet 50%N start = (Ok snap, r') /\
    answers (RE := quiet) (Resolve (RE := quiet) (pub_Reference (sn_Publication snap))) r' (Ok snap).
Proof.
  destruct (publish_answer (RE := quiet) _ _ _ attempt_succeeds) as (snap & r' & A & Pb). exists snap, r'. split; [exact A|].
  assert (D : decode_publication (publication_text (sn_Publication snap)) = Some (sn_Publication snap))
    by (rewrite Pb; exact record_decodes).
  exact (proj1 (published_policy_resolves (RE := quiet) quiet _ _ _ _ r' snap A (rtc_refl _ _) D)).
Defined.

Lemma resolved_policy_genuine_witness :
  exists snap r r', Resolve (P := unit) (R := unit) (RE := quiet) (pub_Reference (sn_Publication snap)) r = (Ok snap, r') /\ genuine snap.
Proof.
  destruct published_policy_resolves_witness as (snap & r & A & Rs). exists snap, r.
  destruct (Resolve (RE := quiet) (pub_Reference (sn_Publication snap)) r) as [x r'] eqn:E.
  pose proof (answers_calm (RE := quiet) _ _ _ (fun n => eq_refl) Rs) as F. rewrite E in F. cbn [fst] in F. subst x.
  exists r'. split; [reflexivity|].
  exact (proj1 (resolved_policy_genuine (RE := quiet) quiet _ _ _ r snap E eq_refl)).
Defined.

Lemma publication_can_be_repeated_witness :
  exists snap, answers (RE := quiet) (fun r => attempt quiet 50%N r) (attempt third_call_fails 50%N start).2 (Ok snap).
Proof.
  destruct (publish_answer (RE := quiet) _ _ _ attempt_succeeds) as (snap & r' & A & Pb). exists snap.
  destruct (attempt third_call_fails 50%N start) as [x r1] eqn:B.
  exact (publication_can_be_repeated quiet third_call_fails quiet _ _ _ _ _ _ r1 _ _ A eq_refl B eq_refl).
Defined.

Lemma references_have_content_witness :
  exists snap, genuine snap /\ pub_Reference the_publication = pub_Reference (sn_Publication snap).
Proof.
  destruct (publish_answer (RE := quiet) _ _ _ attempt_succeeds) as (snap & r' & A & Pb).
  pose proof attempt_recorded as O. rewrite A in O. cbn [snd] in O.
  assert (Ru : rtc registry_step empty_store (reg_store r')).
  { apply rtc_once. exact (step_publish _ quiet 0 _ _ _ _ A). }
  destruct (proj1 (references_have_content (RE := quiet) empty_store r' eq_refl Ru) _ _ O) as (snap' & G & E & _).
  exists snap'. split; [exact G|exact E].
Defined.

(** Three writes of which the last fails, then a resolution and the publication
    of a second policy under the same reference, which was possible before. *)
Definition story (first : rresult Snapshot) (resolved second before : rresult Snapshot) : bool :=
  match first, resolved, second, before with
  | Err (StoreError (ErrFault _)), Err ErrPublicationIntegrity, Err (StoreError ErrObjectConflict), Ok _ => true
  | _, _, _, _ => false
  end.
Lemma publication_story_runs first resolved second before :
  story first resolved second before = true ->
  exists point snap, first = Err (StoreError (ErrFault point)) /\ resolved = Err ErrPublicationIntegrity /\
    second = Err (StoreError ErrObjectConflict) /\ before = Ok snap.
Proof.
  destruct first as [?|[| | | |[]|]], resolved as [?|[]], second as [?|[| | | |[]|]], before as [snap|]; try done; eauto 8.
Qed.

Abbreviation interrupted := (attempt third_call_fails 50%N start).
Lemma interrupted_runs :
  story interrupted.1 (Resolve (RE := quiet) (pub_Reference the_publication) interrupted.2).1
    (attempt quiet 51%N interrupted.2).1 (attempt quiet 51%N start).1 = true.
Proof. by vm_compute. Qed.

(** An interrupted publication does leave a dangling reference, contrary
    to the comment in [PublishEffective]: when the third write fails, the
    reference is recorded but does not resolve, and another policy, which could
    have been published before, no longer can under that reference. *)
Theorem interrupted_publication_dangles :
  exists point snap,
    interrupted.1 = Err (StoreError (ErrFault point)) /\
    (Resolve (RE := quiet) (pub_Reference the_publication) interrupted.2).1 = Err ErrPublicationIntegrity /\
    (attempt quiet 51%N interrupted.2).1 = Err (StoreError ErrObjectConflict) /\ (attempt quiet 51%N start).1 = Ok snap.
Proof. exact (publication_story_runs _ _ _ _ interrupted_runs). Qed.
End RegistryDemo.
