(* ===== verification/Inventory.v ===== *)
(** * Physical inventories and their assessment

    The reports of [internal/ports/reconciliation.go], and what
    [internal/orchestration/reconciliation.go] and
    [provisioning_reconciliation.go] conclude from them: [assess...] judges the
    inventory of a driver against the plans the control plane expects and names
    the resources that are proven to be removable, and
    [requireSafePendingTargetResets] the two halves of an interrupted reset.

    A plan is what the resolver returned; the assessment looks only at the
    generation it is for ([Plans]).  An [issue] keeps which check failed and on
    what, instead of the text of the error; Go's iteration order over maps,
    which decides the order of some issues, is replaced by key order. *)
From S2P Require Import Prelude Errors GoStrings Utf8Facts States Values Ids Models Records Requests.

(** The loop [for _, value := range l] that updates a state. *)
Fixpoint res_fold {E A B} (f : B -> A -> res E B) (l : list A) (b : B) : res E B :=
  match l with [] => Ok b | x :: r => b ← f b x; res_fold f r b end.

Lemma res_fold_app {E A B} (f : B -> A -> res E B) l1 l2 b :
  res_fold f (l1 ++ l2) b = (b1 ← res_fold f l1 b; res_fold f l2 b1).
Proof. revert b. induction l1 as [|x l1 IH]; intros b; cbn; [done|]. destruct (f b x); [apply IH|done]. Qed.

(** An invariant of the loop. *)
Lemma res_fold_inv {E A B} (I : list A -> B -> Prop) (f : B -> A -> res E B) l b b' :
  I [] b -> (forall done b x b', I done b -> x ∈ l -> f b x = Ok b' -> I (done ++ [x]) b') ->
  res_fold f l b = Ok b' -> I l b'.
Proof.
  intros I0 S. assert (forall pre rest b, I pre b -> rest ⊆ l -> res_fold f rest b = Ok b' -> I (pre ++ rest) b') as G.
  { intros pre rest. revert pre. induction rest as [|x rest IH]; intros pre c Ic Sub H; cbn in H.
    - apply Ok_inj in H as <-. by rewrite app_nil_r.
    - apply res_bind_ok in H as (c' & F & H). rewrite cons_middle, app_assoc. apply (IH _ c'); [|set_solver|done].
      eapply S; [done|set_solver|done]. }
  intros H. by apply (G [] l b).
Qed.

#[export] Instance TargetKind_countable : Countable Domain.TargetKind.
Proof.
  refine (inj_countable' (fun k => match k with Domain.TargetLinuxContainer => inl 0 | Domain.TargetAndroidVirtualDevice => inl 1
    | Domain.TargetPhysicalDevice => inl 2 | Domain.TargetKindUnrecognized s => inr s end)
    (fun c => match c with inl 0 => Domain.TargetLinuxContainer | inl 1 => Domain.TargetAndroidVirtualDevice
    | inl _ => Domain.TargetPhysicalDevice | inr s => Domain.TargetKindUnrecognized s end) _).
  by intros [].
Defined.

(** [map[domain.TargetKind]map[string]bool] *)
Abbreviation target_flags := (gmap Domain.TargetKind (gmap string bool)).

(** ** References *)
Record AgentWorkspaceRef := mkAgentWorkspaceRef { aref_ID : uuidV7; aref_Generation : N }.
#[export] Instance AgentWorkspaceRef_eq_dec : EqDecision AgentWorkspaceRef.
Proof. solve_decision. Defined.

Definition agentRefKey (ref : AgentWorkspaceRef) : string :=
  if id_IsZero (aref_ID ref) || negb (AgentGeneration_IsValid (aref_Generation ref)) then ""
  else id_String prefix_agentWorkspace (aref_ID ref) +:+ "/" +:+ pretty (aref_Generation ref).
Definition targetRefKey (ref : TargetRef) : string :=
  if id_IsZero (tref_ID ref) || negb (TargetGeneration_IsValid (tref_Generation ref)) then ""
  else id_String prefix_target (tref_ID ref) +:+ "/" +:+ pretty (tref_Generation ref).

Definition agentGenerationRef (id : string) (generation : N) : result AgentWorkspaceRef :=
  parsed ← parseID prefix_agentWorkspace id;
  _ ← check (AgentGeneration_IsValid generation) (ErrText "invalid agent generation");
  Ok (mkAgentWorkspaceRef parsed generation).
Definition targetGenerationRef (id : string) (generation : N) : result TargetRef :=
  parsed ← parseID prefix_target id;
  _ ← check (TargetGeneration_IsValid generation) (ErrText "invalid target generation");
  Ok (mkTargetRef parsed generation).

(** [ports.StopMode] *)
Inductive StopMode := StopGraceful | StopImmediate | StopForce.

(** Plans, by the generation they are for; an agent plan comes with the plan of
    its workspace. *)
Class Plans := {
  AgentWorkspacePlan : Type; agent_plan_ref : AgentWorkspacePlan -> AgentWorkspaceRef;
  AgentProvisioningPlan : Type; app_Agent : AgentProvisioningPlan -> AgentWorkspacePlan;
  TargetPlan : Type; target_plan_ref : TargetPlan -> TargetRef;
  TargetRunPlan : Type; run_plan_ref : TargetRunPlan -> TargetRef }.

Definition agentPlanKey `{Plans} (plan : AgentWorkspacePlan) : string := agentRefKey (agent_plan_ref plan).
Definition targetPlanKey `{Plans} (plan : TargetPlan) : string := targetRefKey (target_plan_ref plan).

(** ** Reports *)
Inductive PhysicalResourceClassification :=
| PhysicalResourceAdopted | PhysicalResourceMissing | PhysicalResourceOrphan | PhysicalResourceForeign
| PhysicalResourceUncertain | PhysicalResourceUnrecognized (s : string).
#[export] Instance PhysicalResourceClassification_eq_dec : EqDecision PhysicalResourceClassification.
Proof. solve_decision. Defined.
Definition PhysicalResourceClassification_IsValid (c : PhysicalResourceClassification) : bool :=
  match c with PhysicalResourceUnrecognized _ => false | _ => true end.

Record AgentWorkspaceReconciliation := mkAgentWorkspaceReconciliation {
  aobs_Ref : AgentWorkspaceRef; aobs_ContainerID : string; aobs_Classification : PhysicalResourceClassification;
  aobs_PlanMatched : bool; aobs_Diagnostic : string }.
Record TargetReconciliation := mkTargetReconciliation {
  tobs_Ref : TargetRef; tobs_RuntimeID : string; tobs_Classification : PhysicalResourceClassification;
  tobs_PlanMatched : bool; tobs_CleanupRequired : bool; tobs_Diagnostic : string }.
Record PhysicalResourceConflict := mkPhysicalResourceConflict {
  conf_ResourceID : string; conf_Name : string; conf_Classification : PhysicalResourceClassification;
  conf_Diagnostic : string }.
Record AgentWorkspaceReconciliationReport := mkAgentReport {
  arep_Expected : list AgentWorkspaceReconciliation; arep_Unclaimed : list AgentWorkspaceReconciliation;
  arep_Conflicts : list PhysicalResourceConflict; arep_ObservedAt : time }.
Record TargetReconciliationReport := mkTargetReport {
  trep_Expected : list TargetReconciliation; trep_Unclaimed : list TargetReconciliation;
  trep_Conflicts : list PhysicalResourceConflict; trep_ObservedAt : time }.
(** The zero report a missing map entry reads as. *)
Definition no_target_report : TargetReconciliationReport := mkTargetReport [] [] [] 0.

Record AgentWorkspaceReconciliationRequest `{Plans} := mkAgentRequest {
  areq_Active : list AgentWorkspacePlan; areq_CleanupOnly : list AgentWorkspacePlan }.
Record TargetReconciliationRequest `{Plans} := mkTargetRequest {
  treq_Active : list TargetPlan; treq_CleanupOnly : list TargetPlan }.
Arguments mkAgentRequest {_}. Arguments mkTargetRequest {_}.

(** ** Assessment *)
Record reconciliationObservation := mkObservation {
  ro_key : string; ro_runtimeID : string; ro_classification : PhysicalResourceClassification;
  ro_planMatched : bool; ro_cleanupRequired : bool; ro_diagnostic : string }.

Inductive issue :=
| BadPlanKey (key : string) | UnexpectedMissingAuthority (key : string) | UnexpectedRecoveryAuthority (key : string)
| NoObservationTime | BadObservation (key : string) | BadCleanupEvidence (item : reconciliationObservation)
| UnprovenTerminal (item : reconciliationObservation) | NotMissing (item : reconciliationObservation)
| NotAdopted (item : reconciliationObservation) | NotReported (key : string) | BadUnclaimed (key : string)
| UnclaimedResource (item : reconciliationObservation) | InventoryConflict (conflict : PhysicalResourceConflict).

(** Go's [m[key]] on a [map[string]bool]. *)
Definition flag (m : gmap string bool) (key : string) : bool := default false (m !! key).

Fixpoint expected_keys_loop (expectedKeys : list string) (expectedSet : gset string) (issues : list issue)
    : gset string * list issue :=
  match expectedKeys with
  | [] => (expectedSet, issues)
  | key :: rest =>
      let issues := if bool_decide (key = "") || bool_decide (key ∈ expectedSet) then issues ++ [BadPlanKey key] else issues in
      expected_keys_loop rest ({[key]} ∪ expectedSet) issues
  end.

(** The verdict on one expected resource that was observed once: the issues it
    raises, and whether it is safe to remove. *)
Definition judge (terminal allowedMissing allowedStoppedRecovery : gmap string bool) (item : reconciliationObservation)
    : list issue * bool :=
  let missing := bool_decide (ro_classification item = PhysicalResourceMissing) in
  let adopted := bool_decide (ro_classification item = PhysicalResourceAdopted) in
  let uncertain := bool_decide (ro_classification item = PhysicalResourceUncertain) in
  let unnamed := bool_decide (ro_runtimeID item = "") in
  if ro_cleanupRequired item && (negb missing || negb unnamed || ro_planMatched item)
  then ([BadCleanupEvidence item], false)
  else if flag terminal (ro_key item) then
    if missing && unnamed && negb (ro_planMatched item) then ([], ro_cleanupRequired item)
    else if ro_planMatched item && negb unnamed && (adopted || uncertain) then ([], true)
    else ([UnprovenTerminal item], false)
  else if flag allowedMissing (ro_key item) then
    (if negb missing || negb unnamed then [NotMissing item] else [], false)
  else if flag allowedStoppedRecovery (ro_key item) && uncertain && ro_planMatched item && negb unnamed then ([], false)
  else (if negb adopted || unnamed then [NotAdopted item] else [], false).

Section Assess.
Context (terminal allowedMissing allowedStoppedRecovery : gmap string bool).

(** The loop over the expected resources: the keys seen, the safe ones and the
    issues. *)
Fixpoint expected_loop (expectedSet seen : gset string) (safe : list string) (issues : list issue)
    (expected : list reconciliationObservation) : gset string * list string * list issue :=
  match expected with
  | [] => (seen, safe, issues)
  | item :: rest =>
      if negb (PhysicalResourceClassification_IsValid (ro_classification item)) || bool_decide (ro_key item = "")
         || negb (bool_decide (ro_key item ∈ expectedSet)) || bool_decide (ro_key item ∈ seen)
      then expected_loop expectedSet seen safe (issues ++ [BadObservation (ro_key item)]) rest
      else
        let verdict := judge terminal allowedMissing allowedStoppedRecovery item in
        expected_loop expectedSet ({[ro_key item]} ∪ seen) (if verdict.2 then safe ++ [ro_key item] else safe)
          (issues ++ verdict.1) rest
  end.

Fixpoint unclaimed_loop (seen : gset string) (issues : list issue) (unclaimed : list reconciliationObservation) : list issue :=
  match unclaimed with
  | [] => issues
  | item :: rest =>
      if negb (PhysicalResourceClassification_IsValid (ro_classification item)) || bool_decide (ro_key item = "")
         || bool_decide (ro_key item ∈ seen)
      then unclaimed_loop seen (issues ++ [BadUnclaimed (ro_key item)]) rest
      else unclaimed_loop ({[ro_key item]} ∪ seen) (issues ++ [UnclaimedResource item]) rest
  end.

Definition assessReconciliationWithAllowedMissing (expectedKeys : list string) (observedAt : time)
    (expected unclaimed : list reconciliationObservation) (conflicts : list PhysicalResourceConflict) : list string * list issue :=
  let '(expectedSet, issues) := expected_keys_loop expectedKeys ∅ [] in
  let unexpected m := filter (fun key => key ∉ expectedSet) (map_to_list m).*1 in
  let issues := issues ++ (UnexpectedMissingAuthority <$> unexpected allowedMissing)
                ++ (UnexpectedRecoveryAuthority <$> unexpected allowedStoppedRecovery)
                ++ (if time_IsZero observedAt then [NoObservationTime] else []) in
  let '(seen, safe, issues) := expected_loop expectedSet ∅ [] issues expected in
  let issues := issues ++ (NotReported <$> filter (fun key => key ∉ seen) (elements expectedSet)) in
  let issues := unclaimed_loop ∅ issues unclaimed ++ (InventoryConflict <$> conflicts) in
  (sort_Strings safe, issues).
End Assess.

Definition agent_observation (item : AgentWorkspaceReconciliation) : reconciliationObservation :=
  mkObservation (agentRefKey (aobs_Ref item)) (aobs_ContainerID item) (aobs_Classification item) (aobs_PlanMatched item)
    false (aobs_Diagnostic item).
Definition target_observation (item : TargetReconciliation) : reconciliationObservation :=
  mkObservation (targetRefKey (tobs_Ref item)) (tobs_RuntimeID item) (tobs_Classification item) (tobs_PlanMatched item)
    (tobs_CleanupRequired item) (tobs_Diagnostic item).
(** An unclaimed resource is judged without its plan and residue. *)
Definition as_unclaimed (item : reconciliationObservation) : reconciliationObservation :=
  mkObservation (ro_key item) (ro_runtimeID item) (ro_classification item) false false (ro_diagnostic item).

Definition zero_agent_ref : AgentWorkspaceRef := mkAgentWorkspaceRef zero_uuid 0.
Definition zero_target_ref : TargetRef := mkTargetRef zero_uuid 0.

Section Reports.
Context `{PL : Plans}.

Definition agent_refs (report : AgentWorkspaceReconciliationReport) : gmap string AgentWorkspaceRef :=
  fold_left (fun refs item => <[agentRefKey (aobs_Ref item) := aobs_Ref item]> refs)
    (arep_Expected report ++ arep_Unclaimed report) ∅.
Definition target_refs (report : TargetReconciliationReport) : gmap string TargetRef :=
  fold_left (fun refs item => <[targetRefKey (tobs_Ref item) := tobs_Ref item]> refs)
    (trep_Expected report ++ trep_Unclaimed report) ∅.

Definition assessAgentReconciliation (expected : list AgentWorkspacePlan) (terminal : gmap string bool)
    (report : AgentWorkspaceReconciliationReport) : list AgentWorkspaceRef * list issue :=
  let '(safe, issues) := assessReconciliationWithAllowedMissing terminal ∅ ∅ (agentPlanKey <$> expected)
    (arep_ObservedAt report) (agent_observation <$> arep_Expected report)
    (as_unclaimed ∘ agent_observation <$> arep_Unclaimed report) (arep_Conflicts report) in
  ((fun key => default zero_agent_ref (agent_refs report !! key)) <$> safe, issues).

Definition assessTargetReconciliationWithRecovery (expected : list TargetPlan)
    (terminal allowedMissing allowedStoppedRecovery : gmap string bool) (report : TargetReconciliationReport)
    : list TargetRef * list issue :=
  let '(safe, issues) := assessReconciliationWithAllowedMissing terminal allowedMissing allowedStoppedRecovery
    (targetPlanKey <$> expected) (trep_ObservedAt report) (target_observation <$> trep_Expected report)
    (as_unclaimed ∘ target_observation <$> trep_Unclaimed report) (trep_Conflicts report) in
  ((fun key => default zero_target_ref (target_refs report !! key)) <$> safe, issues).

(** ** Exact observations *)
Definition exactAgentObservation (report : AgentWorkspaceReconciliationReport) (ref : AgentWorkspaceRef)
    : result AgentWorkspaceReconciliation :=
  _ ← check (negb (time_IsZero (arep_ObservedAt report))) (ErrText "agent inventory has no observation time");
  match filter (fun observation => aobs_Ref observation = ref) (arep_Expected report) with
  | [observation] => _ ← check (PhysicalResourceClassification_IsValid (aobs_Classification observation))
                           (ErrText "agent inventory observations"); Ok observation
  | _ => Err (ErrText "agent inventory observations")
  end.
Definition exactTargetObservation (report : TargetReconciliationReport) (ref : TargetRef) : result TargetReconciliation :=
  _ ← check (negb (time_IsZero (trep_ObservedAt report))) (ErrText "target inventory has no observation time");
  match filter (fun observation => tobs_Ref observation = ref) (trep_Expected report) with
  | [observation] => _ ← check (PhysicalResourceClassification_IsValid (tobs_Classification observation))
                           (ErrText "target inventory observations"); Ok observation
  | _ => Err (ErrText "target inventory observations")
  end.

Definition exactPlanMatchedAgentObservation (o : AgentWorkspaceReconciliation) : bool :=
  aobs_PlanMatched o && negb (bool_decide (aobs_ContainerID o = ""))
  && (bool_decide (aobs_Classification o = PhysicalResourceAdopted) || bool_decide (aobs_Classification o = PhysicalResourceUncertain)).
Definition exactAdoptedAgentObservation (o : AgentWorkspaceReconciliation) : bool :=
  aobs_PlanMatched o && bool_decide (aobs_Classification o = PhysicalResourceAdopted) && negb (bool_decide (aobs_ContainerID o = "")).
Definition exactMissingAgentObservation (o : AgentWorkspaceReconciliation) : bool :=
  bool_decide (aobs_Classification o = PhysicalResourceMissing) && bool_decide (aobs_ContainerID o = "") && negb (aobs_PlanMatched o).
Definition exactAdoptedTargetObservation (o : TargetReconciliation) : bool :=
  tobs_PlanMatched o && bool_decide (tobs_Classification o = PhysicalResourceAdopted) && negb (bool_decide (tobs_RuntimeID o = "")).
Definition exactMissingTargetObservation (o : TargetReconciliation) : bool :=
  bool_decide (tobs_Classification o = PhysicalResourceMissing) && bool_decide (tobs_RuntimeID o = "") && negb (tobs_PlanMatched o).

(** ** Agents retained for a pending recovery *)
Definition retained_error : err := ErrText "retained agent recovery predecessor".

Fixpoint retained_loop (retained : gmap string bool) (seen : gset string) (observations kept : list AgentWorkspaceReconciliation)
    : result (gset string * list AgentWorkspaceReconciliation) :=
  match observations with
  | [] => Ok (seen, kept)
  | o :: rest =>
      let key := agentRefKey (aobs_Ref o) in
      if negb (flag retained key) then retained_loop retained seen rest (kept ++ [o])
      else if bool_decide (key ∈ seen) || negb (exactPlanMatchedAgentObservation o) then Err retained_error
      else retained_loop retained ({[key]} ∪ seen) rest kept
  end.

Definition assessAgentReconciliationAllowRetained (expected : list AgentWorkspacePlan) (terminal retained : gmap string bool)
    (report : AgentWorkspaceReconciliationReport) : result (list AgentWorkspaceRef * list issue) :=
  if bool_decide (retained = ∅) then Ok (assessAgentReconciliation expected terminal report) else
  let filteredPlans := filter (fun plan => flag retained (agentPlanKey plan) = false) expected in
  kept ← retained_loop retained ∅ (arep_Expected report) [];
  _ ← check (forallb (fun key => bool_decide (key ∈ kept.1)) (map_to_list retained).*1) retained_error;
  Ok (assessAgentReconciliation filteredPlans terminal
        (mkAgentReport kept.2 (arep_Unclaimed report) (arep_Conflicts report) (arep_ObservedAt report))).

(** ** Pending resets *)
Record persistedPendingTargetReset := mkPendingTargetReset {
  reset_target : TargetRecord; reset_current : TargetRef; reset_previous : TargetRef; reset_currentExpected : bool }.

Definition flags_of (flags : target_flags) (kind : Domain.TargetKind) : gmap string bool := default ∅ (flags !! kind).
Definition addTargetRef (refs : target_flags) (kind : Domain.TargetKind) (ref : TargetRef) : target_flags :=
  <[kind := <[targetRefKey ref := true]> (flags_of refs kind)]> refs.

(** The union of the authorities that are set. *)
Definition mergeAllowedTargetMissing (sets : list target_flags) : target_flags :=
  fold_left (fun merged set =>
    fold_left (fun merged '(kind, refs) =>
      fold_left (fun merged '(key, allowed) =>
        if allowed : bool then <[kind := <[key := true]> (flags_of merged kind)]> merged else merged)
        (map_to_list refs) merged) (map_to_list set) merged) sets ∅.

Record pendingTargetResetSafety := mkResetSafety { rs_allowedMissing : target_flags; rs_cleanupRequired : target_flags }.

Definition reset_error : err := NewError CodeIntegrityViolation "controller.reconcile_physical" "target_reset".

Definition pending_reset (reports : Domain.TargetKind -> TargetReconciliationReport) (safety : pendingTargetResetSafety)
    (recovery : persistedPendingTargetReset) : result pendingTargetResetSafety :=
  let kind := target_Kind (reset_target recovery) in
  let report := reports kind in
  previous ← exactTargetObservation report (reset_previous recovery);
  if negb (reset_currentExpected recovery) then
    _ ← check (exactAdoptedTargetObservation previous) (ErrText "pending unbound target reset");
    Ok safety
  else
    current ← exactTargetObservation report (reset_current recovery);
    if exactAdoptedTargetObservation previous && exactMissingTargetObservation current then
      Ok (mkResetSafety (addTargetRef (rs_allowedMissing safety) kind (reset_current recovery)) (rs_cleanupRequired safety))
    else if exactMissingTargetObservation previous && exactAdoptedTargetObservation current then
      Ok (mkResetSafety (addTargetRef (rs_allowedMissing safety) kind (reset_previous recovery))
            (if tobs_CleanupRequired previous then addTargetRef (rs_cleanupRequired safety) kind (reset_previous recovery)
             else rs_cleanupRequired safety))
    else Err reset_error.

Definition requireSafePendingTargetResets (pending : list persistedPendingTargetReset)
    (reports : Domain.TargetKind -> TargetReconciliationReport) : result pendingTargetResetSafety :=
  res_fold (pending_reset reports) pending (mkResetSafety ∅ ∅).
End Reports.

(** ** What an assessment accepts *)
(** An expected resource that raises no issue, and whether it is to be removed. *)
Inductive accepted (terminal allowedMissing allowedStoppedRecovery : gmap string bool) (o : reconciliationObservation)
    : bool -> Prop :=
| acc_gone residue :
    flag terminal (ro_key o) = true -> ro_classification o = PhysicalResourceMissing -> ro_runtimeID o = "" ->
    ro_planMatched o = false -> ro_cleanupRequired o = residue -> accepted _ _ _ o residue
| acc_removable :
    flag terminal (ro_key o) = true -> ro_planMatched o = true -> ro_runtimeID o <> "" -> ro_cleanupRequired o = false ->
    ro_classification o = PhysicalResourceAdopted \/ ro_classification o = PhysicalResourceUncertain -> accepted _ _ _ o true
| acc_absent :
    flag terminal (ro_key o) = false -> flag allowedMissing (ro_key o) = true ->
    ro_classification o = PhysicalResourceMissing -> ro_runtimeID o = "" ->
    (ro_cleanupRequired o = true -> ro_planMatched o = false) -> accepted _ _ _ o false
| acc_stopped :
    flag terminal (ro_key o) = false -> flag allowedMissing (ro_key o) = false ->
    flag allowedStoppedRecovery (ro_key o) = true -> ro_classification o = PhysicalResourceUncertain ->
    ro_planMatched o = true -> ro_runtimeID o <> "" -> ro_cleanupRequired o = false -> accepted _ _ _ o false
| acc_running :
    flag terminal (ro_key o) = false -> flag allowedMissing (ro_key o) = false ->
    ro_classification o = PhysicalResourceAdopted -> ro_runtimeID o <> "" -> ro_cleanupRequired o = false ->
    accepted _ _ _ o false.

Section Facts.
Context (terminal allowedMissing allowedStoppedRecovery : gmap string bool).
Local Abbreviation judged := (judge terminal allowedMissing allowedStoppedRecovery).
Local Abbreviation ok := (accepted terminal allowedMissing allowedStoppedRecovery).

Lemma judge_accepted o b : judged o = ([], b) <-> ok o b.
Proof.
  unfold judge. destruct o as [k r c p u d]. cbn. split.
  - destruct u, (flag terminal k) eqn:T, (flag allowedMissing k) eqn:M, (flag allowedStoppedRecovery k) eqn:S, p, c;
      repeat case_bool_decide; cbn; intros E; simplify_eq;
      first [by econstructor | by apply acc_removable; cbn; auto | by apply acc_absent | by apply acc_stopped | by apply acc_running].
  - intros [res T C R P U|T P R U C|T M C R X|T M S C P R U|T M C R U]; cbn in *; subst; rewrite ?T, ?M, ?S;
      repeat case_bool_decide; try done.
    all: destruct (flag allowedStoppedRecovery k); repeat match goal with b : bool |- _ => destruct b end;
      try done; try (by destruct C); by discriminate (X eq_refl).
Qed.

Lemma accepted_unique o b b' : ok o b -> ok o b' -> b = b'.
Proof. rewrite <-!judge_accepted. congruence. Qed.

Lemma expected_keys_loop_spec keys S issues :
  (expected_keys_loop keys S issues).1 = list_to_set keys ∪ S /\
  ((expected_keys_loop keys S issues).2 = [] <->
   issues = [] /\ "" ∉ keys /\ NoDup keys /\ forall k, k ∈ keys -> k ∉ S).
Proof.
  revert S issues. induction keys as [|key keys IH]; intros S issues; cbn.
  - split; [set_solver|]. rewrite NoDup_nil. set_solver.
  - edestruct IH as [-> ->]. split; [set_solver|]. rewrite NoDup_cons, not_elem_of_cons.
    setoid_rewrite elem_of_cons. setoid_rewrite not_elem_of_union. setoid_rewrite not_elem_of_singleton.
    case_bool_decide as K; [|case_bool_decide as D]; cbn.
    + split; [|naive_solver]. intros [E _]. by destruct issues.
    + split; [|naive_solver]. intros [E _]. by destruct issues.
    + naive_solver.
Qed.

(** One expected item in a report whose earlier items had the keys [seen]. *)
Definition listed (expectedSet seen : gset string) (o : reconciliationObservation) : Prop :=
  PhysicalResourceClassification_IsValid (ro_classification o) = true /\ ro_key o <> "" /\
  ro_key o ∈ expectedSet /\ ro_key o ∉ seen.

Lemma expected_loop_spec S seen safe issues expected :
  let r := expected_loop terminal allowedMissing allowedStoppedRecovery S seen safe issues expected in
  (r.2 = [] <->
   issues = [] /\ NoDup (ro_key <$> expected) /\ Forall (fun o => listed S seen o /\ exists b, ok o b) expected) /\
  (r.2 = [] -> r.1.1 = list_to_set (ro_key <$> expected) ∪ seen /\
     forall k, k ∈ r.1.2 <-> k ∈ safe \/ exists o, o ∈ expected /\ ro_key o = k /\ ok o true).
Proof.
  revert seen safe issues. induction expected as [|o expected IH]; intros seen safe issues; cbn -[judge].
  { rewrite NoDup_nil, Forall_nil. split; [tauto|]. intros _. split; [set_solver|]. set_solver. }
  rewrite Forall_cons, NoDup_cons. destruct (_ || bool_decide (ro_key o ∈ seen)) eqn:L; cbn -[judge].
  { edestruct IH as [-> _]. split; [|intros [E _]; by destruct issues]. split.
    - intros [E _]. by destruct issues.
    - intros (_ & _ & [(V & K & M & N) _] & _). rewrite V in L. by repeat case_bool_decide. }
  assert (listed S seen o) as LO.
  { rewrite !orb_false_iff, !negb_false_iff in L. destruct L as [[[V K] M] N]. to_prop. done. }
  edestruct IH as [I J]. clear IH L.
  assert (K : forall b, ok o b -> (judged o).1 = [] /\ (judged o).2 = b).
  { intros b A. apply judge_accepted in A. by rewrite A. }
  assert (K' : (judged o).1 = [] -> ok o (judged o).2).
  { intros A. apply judge_accepted. rewrite <-A. by destruct (judged o). }
  rewrite app_nil, list_elem_of_fmap, !Forall_forall in *. split.
  - rewrite I. split.
    + intros ([-> A] & N & F). split; [done|]. split; [split; [|done]|].
      * intros (o' & E & H). apply F in H as [(_ & _ & _ & H) _]. rewrite E in H. set_solver.
      * split; [by eauto|]. intros o' H. apply F in H as [(V & X & M & H) B]. split; [|done]. unfold listed. set_solver.
    + intros (-> & [N D] & [_ [b A]] & F). destruct (K b A) as [? _]. split; [done|]. split; [done|]. intros o' HI.
      destruct (F o' HI) as [(V & X & M & H') B]. split; [|done]. unfold listed. split_and!; try done.
      rewrite not_elem_of_union, not_elem_of_singleton. split; [|done]. intros E. apply N. by exists o'.
  - intros E. destruct (J E) as [-> M]. split; [set_solver|]. intros k. rewrite M. clear J M.
    apply I in E as ([_ A] & _). apply K' in A. destruct (judged o).2 eqn:B; [rewrite elem_of_app, list_elem_of_singleton|].
    + setoid_rewrite elem_of_cons. split; [intros [[?| ->]|(o' & ?)]; eauto 6; naive_solver|].
      intros [?|(o' & [->|H] & <- & X)]; eauto 7.
    + setoid_rewrite elem_of_cons. split; [intros [?|(o' & ?)]; eauto 6; naive_solver|].
      intros [?|(o' & [->|H] & <- & X)]; eauto 6. exfalso. by assert (true = false) by (by eapply accepted_unique).
Qed.

Lemma unclaimed_loop_spec seen issues unclaimed :
  unclaimed_loop seen issues unclaimed = [] <-> issues = [] /\ unclaimed = [].
Proof.
  revert seen issues. induction unclaimed as [|o unclaimed IH]; intros seen issues; cbn; [tauto|].
  case_match; rewrite IH, app_nil; naive_solver.
Qed.

Lemma filter_empty_iff {A} (P : A -> Prop) `{forall x, Decision (P x)} (l : list A) :
  filter P l = [] <-> forall x, x ∈ l -> ~ P x.
Proof.
  split; [intros E x X Px; by eapply (not_elem_of_nil x); rewrite <-E; apply list_elem_of_filter|].
  intros N. destruct (filter P l) as [|x r] eqn:E; [done|]. exfalso.
  assert (x ∈ filter P l) as [Px X]%list_elem_of_filter by (rewrite E; left). by eapply N.
Qed.

Lemma unexpected_nil (m : gmap string bool) (S : gset string) :
  filter (fun key => key ∉ S) (map_to_list m).*1 = [] <-> dom m ⊆ S.
Proof.
  rewrite filter_empty_iff. split.
  - intros F k (b & E)%elem_of_dom. apply dec_stable, F. apply list_elem_of_fmap. exists (k, b). by rewrite elem_of_map_to_list.
  - intros D k ([k' b] & -> & H%elem_of_map_to_list)%list_elem_of_fmap N. apply N, D. apply elem_of_dom. by exists b.
Qed.
End Facts.

(** An assessment is clean exactly when the expected generations are distinct,
    every one was observed exactly once and is accepted, the exemptions are for
    expected generations, the inventory has a time, and nothing unclaimed or
    conflicting was found; then the resources it names for removal are those
    accepted as removable, in order. *)
Record clean (terminal allowedMissing allowedStoppedRecovery : gmap string bool) (keys : list string) (observedAt : time)
    (expected unclaimed : list reconciliationObservation) (conflicts : list PhysicalResourceConflict) : Prop := {
  cl_named : "" ∉ keys;
  cl_distinct : NoDup keys;
  cl_missing : dom allowedMissing ⊆ (list_to_set keys : gset string);
  cl_stopped : dom allowedStoppedRecovery ⊆ (list_to_set keys : gset string);
  cl_observed : observedAt <> 0%Z;
  cl_once : ro_key <$> expected ≡ₚ keys;
  cl_accepted : Forall (fun o => PhysicalResourceClassification_IsValid (ro_classification o) = true /\
    exists b, accepted terminal allowedMissing allowedStoppedRecovery o b) expected;
  cl_unclaimed : unclaimed = [];
  cl_conflicts : conflicts = [] }.

Lemma assess_spec terminal allowedMissing allowedStoppedRecovery keys observedAt expected unclaimed conflicts :
  let r := assessReconciliationWithAllowedMissing terminal allowedMissing allowedStoppedRecovery keys observedAt
             expected unclaimed conflicts in
  (r.2 = [] <-> clean terminal allowedMissing allowedStoppedRecovery keys observedAt expected unclaimed conflicts) /\
  (r.2 = [] -> Sorted string_le r.1 /\ forall k, k ∈ r.1 <->
     exists o, o ∈ expected /\ ro_key o = k /\ accepted terminal allowedMissing allowedStoppedRecovery o true).
Proof.
  unfold assessReconciliationWithAllowedMissing.
  pose proof (expected_keys_loop_spec keys ∅ []) as [K1 K2]. destruct (expected_keys_loop keys ∅ []) as [S i0]. cbn in K1, K2. subst S.
  rewrite (right_id_L ∅ (∪)).
  match goal with |- context [expected_loop _ _ _ ?S ?seen ?safe ?i ?e] =>
    pose proof (expected_loop_spec terminal allowedMissing allowedStoppedRecovery S seen safe i e) as [L1 L2] end.
  destruct (expected_loop _ _ _ _ _ _ _ _) as [[seen safe] i1]. cbn in L1, L2 |- *.
  assert (i1 = [] -> (filter (fun k => k ∉ seen) (elements (list_to_set keys : gset string)) = [] <->
    keys ⊆ ro_key <$> expected)) as R.
  { intros E. apply L2 in E as [-> _]. rewrite filter_empty_iff. setoid_rewrite elem_of_elements. rewrite (right_id_L ∅ (∪)). split.
    - intros N k H. apply dec_stable. intros X. apply (N k); set_solver.
    - intros N k H X. apply X. set_solver. }
  assert (FN : forall {A} (f : A -> issue) (l : list A), f <$> l = [] <-> l = []) by (intros A f []; by cbn).
  rewrite app_nil, unclaimed_loop_spec, !FN, app_nil, !FN.
  rewrite !app_nil, !FN, !unexpected_nil, K2 in L1.
  assert (T : (if time_IsZero observedAt then [NoObservationTime] else []) = [] <-> observedAt <> 0%Z).
  { unfold time_IsZero. destruct (Z.eqb_spec observedAt 0); naive_solver. }
  rewrite T in L1. clear K2 T FN. split.
  - split.
    + intros [[[E1 E2] ->] ->]. apply (R E1) in E2. clear R L2. apply L1 in E1 as (((_ & N & D & _) & M & S' & O) & D' & F).
      rewrite Forall_forall in F. split; try done.
      * apply NoDup_Permutation; [done|done|]. intros k. split; [|by apply E2]. intros (o & -> & H)%list_elem_of_fmap.
        apply F in H as [(_ & _ & H & _) _]. set_solver.
      * apply Forall_forall. intros o H. apply F in H as [(V & _) A]. done.
    + intros [N D M S' O P F -> ->]. assert (E1 : i1 = []).
      { apply L1. split; [split_and!; try done; set_solver|]. rewrite P. split; [done|]. rewrite Forall_forall in *.
        intros o H. assert (H' : ro_key o ∈ keys) by (rewrite <-P; by apply list_elem_of_fmap_2).
        destruct (F o H) as [V A]. split; [|done]. split; [done|]. split; [congruence|]. set_solver. }
      split; [|done]. split; [|done]. split; [done|]. apply (R E1). by rewrite P.
  - intros [[[E1 _] _] _]. apply L2 in E1 as [_ X]. split; [apply sort_Strings_sorted|].
    intros k. rewrite sort_Strings_Permutation, X. set_solver.
Qed.

(** ** The reports of agents and targets *)
Lemma fold_insert_other {A B} (f : A -> string) (g : A -> B) (l : list A) (m : gmap string B) k :
  k ∉ f <$> l -> fold_left (fun m x => <[f x := g x]> m) l m !! k = m !! k.
Proof.
  revert m. induction l as [|z l IH]; intros m N; cbn in *; [done|]. rewrite not_elem_of_cons in N. destruct N as [N N'].
  rewrite IH by done. by rewrite lookup_insert_ne.
Qed.

Lemma fold_insert_lookup {A B} (f : A -> string) (g : A -> B) (l : list A) (m : gmap string B) x :
  NoDup (f <$> l) -> x ∈ l -> fold_left (fun m x => <[f x := g x]> m) l m !! f x = Some (g x).
Proof.
  revert m. induction l as [|y l IH]; intros m; cbn; [by intros _ ?%not_elem_of_nil|].
  rewrite NoDup_cons, elem_of_cons. intros [N D] [->|H]; [|by apply IH].
  clear IH D. rewrite fold_insert_other by done. by rewrite lookup_insert_eq.
Qed.

Section Safe.
Context `{PL : Plans}.

Definition target_accepted terminal allowedMissing allowedStoppedRecovery (o : TargetReconciliation) :=
  accepted terminal allowedMissing allowedStoppedRecovery (target_observation o).
Definition target_clean (plans : list TargetPlan) terminal allowedMissing allowedStoppedRecovery report :=
  clean terminal allowedMissing allowedStoppedRecovery (targetPlanKey <$> plans) (trep_ObservedAt report)
    (target_observation <$> trep_Expected report) (as_unclaimed ∘ target_observation <$> trep_Unclaimed report)
    (trep_Conflicts report).
Definition agent_accepted terminal (o : AgentWorkspaceReconciliation) := accepted terminal ∅ ∅ (agent_observation o).
Definition agent_clean (plans : list AgentWorkspacePlan) terminal report :=
  clean terminal ∅ ∅ (agentPlanKey <$> plans) (arep_ObservedAt report) (agent_observation <$> arep_Expected report)
    (as_unclaimed ∘ agent_observation <$> arep_Unclaimed report) (arep_Conflicts report).

Lemma assess_target_clean plans terminal allowedMissing allowedStoppedRecovery report :
  let r := assessTargetReconciliationWithRecovery plans terminal allowedMissing allowedStoppedRecovery report in
  (r.2 = [] <-> target_clean plans terminal allowedMissing allowedStoppedRecovery report) /\
  (r.2 = [] -> forall ref, ref ∈ r.1 <-> exists o, o ∈ trep_Expected report /\ tobs_Ref o = ref /\
     target_accepted terminal allowedMissing allowedStoppedRecovery o true).
Proof.
  unfold assessTargetReconciliationWithRecovery.
  pose proof (assess_spec terminal allowedMissing allowedStoppedRecovery (targetPlanKey <$> plans) (trep_ObservedAt report)
    (target_observation <$> trep_Expected report) (as_unclaimed ∘ target_observation <$> trep_Unclaimed report)
    (trep_Conflicts report)) as [C S].
  destruct (assessReconciliationWithAllowedMissing _ _ _ _ _ _ _ _) as [safe issues]. cbn in *. split; [done|].
  intros E. destruct (S E) as [_ K]. apply C in E. destruct E as [_ D _ _ _ P _ U _]. apply fmap_nil_inv in U.
  assert (L : forall o, o ∈ trep_Expected report -> target_refs report !! targetRefKey (tobs_Ref o) = Some (tobs_Ref o)).
  { intros o H. unfold target_refs. rewrite U, app_nil_r.
    apply (fold_insert_lookup (fun o => targetRefKey (tobs_Ref o)) tobs_Ref); [|done].
    rewrite <-P in D. by rewrite <-list_fmap_compose in D. }
  intros ref. rewrite list_elem_of_fmap. setoid_rewrite K. setoid_rewrite list_elem_of_fmap. split.
  - intros (k & -> & (o' & (o & -> & H) & <- & A)). exists o. split; [done|]. split; [|done]. cbn. by rewrite L.
  - intros (o & H & <- & A). exists (targetRefKey (tobs_Ref o)). rewrite L by done. split; [done|]. exists (target_observation o). eauto.
Qed.

Lemma assess_agent_clean plans terminal report :
  let r := assessAgentReconciliation plans terminal report in
  (r.2 = [] <-> agent_clean plans terminal report) /\
  (r.2 = [] -> forall ref, ref ∈ r.1 <-> exists o, o ∈ arep_Expected report /\ aobs_Ref o = ref /\ agent_accepted terminal o true).
Proof.
  unfold assessAgentReconciliation.
  pose proof (assess_spec terminal ∅ ∅ (agentPlanKey <$> plans) (arep_ObservedAt report)
    (agent_observation <$> arep_Expected report) (as_unclaimed ∘ agent_observation <$> arep_Unclaimed report)
    (arep_Conflicts report)) as [C S].
  destruct (assessReconciliationWithAllowedMissing _ _ _ _ _ _ _ _) as [safe issues]. cbn in *. split; [done|].
  intros E. destruct (S E) as [_ K]. apply C in E. destruct E as [_ D _ _ _ P _ U _]. apply fmap_nil_inv in U.
  assert (L : forall o, o ∈ arep_Expected report -> agent_refs report !! agentRefKey (aobs_Ref o) = Some (aobs_Ref o)).
  { intros o H. unfold agent_refs. rewrite U, app_nil_r.
    apply (fold_insert_lookup (fun o => agentRefKey (aobs_Ref o)) aobs_Ref); [|done].
    rewrite <-P in D. by rewrite <-list_fmap_compose in D. }
  intros ref. rewrite list_elem_of_fmap. setoid_rewrite K. setoid_rewrite list_elem_of_fmap. split.
  - intros (k & -> & (o' & (o & -> & H) & <- & A)). exists o. split; [done|]. split; [|done]. cbn. by rewrite L.
  - intros (o & H & <- & A). exists (agentRefKey (aobs_Ref o)). rewrite L by done. split; [done|]. exists (agent_observation o). eauto.
Qed.

(** Retained predecessors are observed once, as exact matches, and the rest of
    the report is assessed without them. *)
Lemma retained_loop_ok retained seen observations kept seen' kept' :
  retained_loop retained seen observations kept = Ok (seen', kept') ->
  kept' = kept ++ filter (fun o => flag retained (agentRefKey (aobs_Ref o)) = false) observations /\
  (forall k, k ∈ seen' <-> k ∈ seen \/ exists o, o ∈ observations /\ agentRefKey (aobs_Ref o) = k /\ flag retained k = true) /\
  (forall o, o ∈ observations -> flag retained (agentRefKey (aobs_Ref o)) = true -> exactPlanMatchedAgentObservation o = true) /\
  NoDup (filter (fun k => flag retained k = true) ((fun o => agentRefKey (aobs_Ref o)) <$> observations)) /\
  (forall o, o ∈ observations -> flag retained (agentRefKey (aobs_Ref o)) = true -> agentRefKey (aobs_Ref o) ∉ seen).
Proof.
  revert seen kept. induction observations as [|o observations IH]; intros seen kept; cbn [retained_loop].
  { intros [= <- <-]. rewrite app_nil_r, NoDup_nil. set_solver. }
  destruct (flag retained (agentRefKey (aobs_Ref o))) eqn:F; cbn [negb].
  - case_bool_decide as S; [done|]. destruct (exactPlanMatchedAgentObservation o) eqn:M; [|done]. cbn [orb negb].
    intros (-> & K & Mt & N & NS)%IH. rewrite filter_cons_False by congruence. rewrite fmap_cons, filter_cons_True by done.
    split; [done|]. setoid_rewrite elem_of_cons. split; [|split; [|split]].
    + intros k. rewrite K, elem_of_union, elem_of_singleton. naive_solver.
    + intros o' [->|H]; [done|]. by apply Mt.
    + apply NoDup_cons. split; [|done]. intros [_ (o' & E & H)%list_elem_of_fmap]%list_elem_of_filter.
      apply (NS o' H); rewrite <-E; [done|set_solver].
    + intros o' [->|H] Fo; [done|]. specialize (NS o' H Fo). set_solver.
  - intros (-> & K & Mt & N & NS)%IH. rewrite filter_cons_True by done. rewrite fmap_cons, filter_cons_False by congruence.
    split; [by rewrite <-app_assoc|]. setoid_rewrite elem_of_cons. split; [|split; [|split]]; try done.
    + intros k. rewrite K. split; [intros [?|(o' & H & E)]; eauto|]. intros [?|(o' & [->|H] & <- & E)]; [by left|congruence|].
      right. by exists o'.
    + intros o' [->|H]; [congruence|]. by apply Mt.
    + intros o' [->|H]; [congruence|]. by apply NS.
Qed.
End Safe.
