(* ===== verification/PhysicalPlans.v ===== *)
(** * Which physical resources the control plane expects

    [resolvePersistedPhysicalPlans] of [internal/orchestration/reconciliation.go]
    and its helpers: from the persisted sessions it derives, generation by
    generation, what has to be running, what may only be cleaned up, which
    resets and recoveries were interrupted, which runs and operations were lost.
    The inventory requests of [provisioning_reconciliation.go] are built from it.

    [PlanResolution] is the interface to the resolver, which returns the plan of
    a persisted generation, to the reservations and bundles of the service, and
    to the configured drivers.
    [deadline] is the deadline of the call. *)
From S2P Require Import Prelude Errors GoStrings States Values Ids Idempotency Models Records Requests Inventory.

(** ** Types *)
Record targetQuarantineIntent := mkQuarantineIntent {
  qi_IdempotencyKey : string; qi_Target : TargetRef; qi_Reason : string; qi_CommitMeta : MutationMeta }.
Record operationReservation := mkOperationReservation {
  or_Namespace : string; or_ResourceID : string; or_TargetGeneration : N; or_IdempotencyKey : string;
  or_Signature : string; or_Quarantine : option targetQuarantineIntent }.
Record PersistedRunObserverBinding := mkRunObserverBinding {
  rob_RunID : uuidV7; rob_PlanDigest : list N; rob_State : TargetRunState; rob_BundlePublished : bool }.
Record agentPhysicalResource := mkAgentPhysicalResource { apr_ref : AgentWorkspaceRef; apr_workspaceID : uuidV7 }.

Section Types.
Context `{PL : Plans}.

Record persistedAgentProvisioning := mkAgentProvisioning {
  pap_view : ResearchSessionView; pap_generation : AgentGenerationRecord; pap_plan : AgentProvisioningPlan;
  pap_meta : MutationMeta; pap_needsBinding : bool }.
Record persistedAgentRecovery := mkAgentRecovery {
  par_view : ResearchSessionView; par_generation : AgentGenerationRecord; par_incident : IncidentRecord;
  par_previousPlan : AgentWorkspacePlan; par_previousResource : agentPhysicalResource;
  par_current : option (AgentProvisioningPlan * MutationMeta); par_bound : bool }.
Record persistedResolvedAgentRecovery := mkResolvedAgentRecovery {
  rar_incident : IncidentRecord; rar_current : AgentWorkspaceRef; rar_previous : AgentWorkspaceRef;
  rar_previousPlan : AgentWorkspacePlan }.
Record persistedTargetProvisioning := mkTargetProvisioning {
  ptp_target : TargetRecord; ptp_generation : TargetGenerationRecord; ptp_plan : TargetPlan; ptp_meta : MutationMeta;
  ptp_needsBinding : bool }.
Record persistedTargetRecoveryCompletion := mkTargetRecoveryCompletion {
  trc_target : TargetRecord; trc_generation : TargetGenerationRecord; trc_incident : IncidentRecord;
  trc_current : TargetRef; trc_previous : TargetRef; trc_previousPlan : TargetPlan }.
Record persistedResolvedTargetRecovery := mkResolvedTargetRecovery {
  rtr_incident : IncidentRecord; rtr_current : TargetRef; rtr_previous : TargetRef; rtr_previousPlan : TargetPlan;
  rtr_kind : Domain.TargetKind }.
Record persistedRunRecovery := mkRunRecovery {
  prr_target : TargetRecord; prr_run : TargetRunRecord; prr_plan : TargetRunPlan }.
Record persistedLostTargetOperation := mkLostOperation {
  plo_target : TargetRecord; plo_operation : TargetOperationRecord; plo_policy : string }.
Record persistedTargetDestruction := mkTargetDestruction {
  ptd_target : TargetRecord; ptd_generation : TargetGenerationRecord; ptd_ref : TargetRef;
  ptd_reservation : operationReservation }.
Record persistedTargetQuarantine := mkTargetQuarantine {
  ptq_target : TargetRecord; ptq_ref : TargetRef; ptq_reservation : operationReservation;
  ptq_runs : list persistedRunRecovery }.

Record persistedPhysicalPlans := mkPhysicalPlans {
  pp_agents : list AgentWorkspacePlan; pp_agentCleanupPlans : gmap string AgentWorkspacePlan;
  pp_targets : gmap Domain.TargetKind (list TargetPlan);
  pp_targetCleanupPlans : gmap Domain.TargetKind (gmap string TargetPlan);
  pp_agentTerminal : gmap string bool; pp_agentWorkspaces : gmap string uuidV7;
  pp_targetTerminal : target_flags; pp_agentProvisionings : list persistedAgentProvisioning;
  pp_agentRecoveries : list persistedAgentRecovery; pp_resolvedAgentRecoveries : list persistedResolvedAgentRecovery;
  pp_targetProvisionings : list persistedTargetProvisioning;
  pp_completedTargetRecoveries : list persistedTargetRecoveryCompletion;
  pp_resolvedTargetRecoveries : list persistedResolvedTargetRecovery;
  pp_pendingAgentProvisionings : list AgentWorkspaceRef; pp_pendingTargetResets : list persistedPendingTargetReset;
  pp_pendingTargetRuns : list string; pp_observerBindings : list PersistedRunObserverBinding;
  pp_runRecoveries : list persistedRunRecovery; pp_lostOperations : list persistedLostTargetOperation;
  pp_targetQuarantines : list persistedTargetQuarantine; pp_targetDestructions : list persistedTargetDestruction }.
#[export] Instance : Settable persistedPhysicalPlans := {| record_eta r :=
  mkPhysicalPlans (pp_agents r) (pp_agentCleanupPlans r) (pp_targets r) (pp_targetCleanupPlans r) (pp_agentTerminal r)
    (pp_agentWorkspaces r) (pp_targetTerminal r) (pp_agentProvisionings r) (pp_agentRecoveries r)
    (pp_resolvedAgentRecoveries r) (pp_targetProvisionings r) (pp_completedTargetRecoveries r)
    (pp_resolvedTargetRecoveries r) (pp_pendingAgentProvisionings r) (pp_pendingTargetResets r) (pp_pendingTargetRuns r)
    (pp_observerBindings r) (pp_runRecoveries r) (pp_lostOperations r) (pp_targetQuarantines r) (pp_targetDestructions r) |}.

Definition no_physical_plans : persistedPhysicalPlans :=
  mkPhysicalPlans [] ∅ ∅ ∅ ∅ ∅ ∅ [] [] [] [] [] [] [] [] [] [] [] [] [] [].

Definition targets_of (plans : persistedPhysicalPlans) (kind : Domain.TargetKind) : list TargetPlan :=
  default [] (pp_targets plans !! kind).
Definition cleanup_of (plans : persistedPhysicalPlans) (kind : Domain.TargetKind) : gmap string TargetPlan :=
  default ∅ (pp_targetCleanupPlans plans !! kind).
Definition terminal_of (plans : persistedPhysicalPlans) (kind : Domain.TargetKind) : gmap string bool :=
  flags_of (pp_targetTerminal plans) kind.
(** [append(plans.targets[kind], plan)], [plans.targetTerminal[kind][key] = b] *)
Definition add_target (kind : Domain.TargetKind) (plan : TargetPlan) (plans : persistedPhysicalPlans) : persistedPhysicalPlans :=
  plans <| pp_targets := <[kind := targets_of plans kind ++ [plan]]> (pp_targets plans) |>.
Definition mark_target (kind : Domain.TargetKind) (key : string) (terminal : bool) (plans : persistedPhysicalPlans)
    : persistedPhysicalPlans :=
  plans <| pp_targetTerminal := <[kind := <[key := terminal]> (terminal_of plans kind)]> (pp_targetTerminal plans) |>.
Definition add_cleanup (kind : Domain.TargetKind) (key : string) (plan : TargetPlan) (plans : persistedPhysicalPlans)
    : persistedPhysicalPlans :=
  plans <| pp_targetCleanupPlans := <[kind := <[key := plan]> (cleanup_of plans kind)]> (pp_targetCleanupPlans plans) |>.
End Types.

(** The plan of a persisted generation: of the agent of a view, as the resolver
    returns it and bound to the provisioning key; of the current generation of a
    target, under a physical key; of a run. *)
Class PlanResolution `{PL : Plans} := {
  resolvePersistedAgent : string -> ResearchSessionView -> result AgentProvisioningPlan;
  admitAgentWorkspacePlan : AgentWorkspacePlan -> result unit;
  resolvePersistedTargetProvisioningPlan : MutationMeta -> TargetRecord -> string -> result TargetPlan;
  resolvePersistedTargetRunPlan : MutationMeta -> TargetRecord -> TargetRunRecord -> result TargetRunPlan;
  has_capabilities : bool;
  reservation_for : string -> string -> N -> option operationReservation;
  bundlePublicationComplete : TargetRunRecord -> result bool;
  target_drivers : list Domain.TargetKind;
  deadline : time }.

(** [c.targets[kind] != nil] *)
Definition has_driver `{PlanResolution} (kind : Domain.TargetKind) : bool := bool_decide (kind ∈ target_drivers).

(** ** Lookups in the records *)
Definition reconcile_error (field : string) : err := NewError CodeIntegrityViolation "controller.reconcile_physical" field.
Definition missingCapability (operation field : string) : err := NewError CodeCapabilityUnavailable operation field.

Definition persistedAgentGeneration (agent : AgentWorkspaceRecord) (generation : N) : result AgentGenerationRecord :=
  from_option_err (reconcile_error "agent_generation")
    (find (fun g => (agen_Generation g =? generation)%N) (agent_Generations agent)).
Definition persistedTargetGeneration (target : TargetRecord) (generation : N) : result TargetGenerationRecord :=
  from_option_err (reconcile_error "target_generation")
    (find (fun g => (tgen_Generation g =? generation)%N) (target_Generations target)).
Definition currentAgentGeneration (agent : AgentWorkspaceRecord) : result AgentGenerationRecord :=
  from_option_err (ErrText "agent current generation is missing")
    (find (fun g => (agen_Generation g =? agent_CurrentGeneration agent)%N) (agent_Generations agent)).
Definition targetGeneration (target : TargetRecord) : result TargetGenerationRecord :=
  from_option_err (ErrText "target current generation is missing")
    (find (fun g => (tgen_Generation g =? target_CurrentGeneration target)%N) (target_Generations target)).
Definition recoveryIncident (incidents : list IncidentRecord) (incidentID : string) : option IncidentRecord :=
  find (fun incident => bool_decide (inc_ID incident = incidentID)) incidents.
Definition containsExactString (values : list string) (want : string) : bool := bool_decide (want ∈ values).

Definition completeProvisioningBinding (digest : string) (keys : list string) : result bool :=
  let present := negb (bool_decide (digest = "")) in
  let allKeysPresent := forallb (fun key => negb (bool_decide (key = ""))) keys in
  let anyKeyPresent := existsb (fun key => negb (bool_decide (key = ""))) keys in
  if negb present && negb anyKeyPresent then Ok false else
  _ ← check (present && allKeysPresent) (reconcile_error "plan_binding");
  _ ← check (is_ok (ParseDigest digest)) (reconcile_error "plan_binding");
  Ok true.

Definition agent_binding (g : AgentGenerationRecord) : result bool :=
  completeProvisioningBinding (agen_ProvisioningPlanDigest g) [agen_WorkspaceProvisioningKey g; agen_AgentProvisioningKey g].
Definition target_binding (g : TargetGenerationRecord) : result bool :=
  completeProvisioningBinding (tgen_ProvisioningPlanDigest g) [tgen_ProvisioningKey g].
Definition run_binding (run : TargetRunRecord) : result bool :=
  completeProvisioningBinding (run_ProvisioningPlanDigest run) [run_ProvisioningKey run].

Definition requireRecoverablePhysicalLease (lease : LeaseRecord) : result unit :=
  let termination := lease_Termination lease in
  let active := bool_decide (lease_State lease = LeaseActive) in
  let valid :=
    active && LeaseTerminationRecord_Empty termination
    || active && bool_decide (term_Kind termination = LeaseTerminationExpiry)
       && bool_decide (term_State termination = LeaseTerminationExpiring)
    || bool_decide (lease_State lease = LeaseReleasing) && bool_decide (term_Kind termination = LeaseTerminationRelease)
       && bool_decide (term_State termination = LeaseTerminationReleasing) in
  _ ← check valid (ErrText "nonterminal physical generation");
  check (negb (lease_ExpiresAt lease - lease_CreatedAt lease <=? 0)%Z) (ErrText "non-positive persisted lifetime").

Definition leaseCleanupInProgress (lease : LeaseRecord) : bool :=
  LeaseTerminationRecord_InProgress (lease_Termination lease)
  && (bool_decide (lease_State lease = LeaseActive) || bool_decide (lease_State lease = LeaseReleasing)).

(** A restart without drivers is refused while anything physical is bound. *)
Definition no_binding (binding : result bool) (field : string) : result unit :=
  bound ← binding; check (negb bound) (missingCapability "controller.reconcile_physical" field).
Definition requireNoPersistedPhysicalBindings (views : list ResearchSessionView) : result unit :=
  res_each (fun _ view =>
    _ ← res_each (fun _ generation => no_binding (agent_binding generation) "agent_inventory") 0 (agent_Generations (view_Agent view));
    res_each (fun _ target =>
      _ ← res_each (fun _ generation => no_binding (target_binding generation) "target_inventory") 0 (target_Generations target);
      res_each (fun _ run => no_binding (run_binding run) "target_run_recovery") 0 (target_Runs target))
      0 (view_Targets view)) 0 views.

Lemma no_binding_ok binding field : no_binding binding field = Ok tt <-> binding = Ok false.
Proof. unfold no_binding. destruct binding as [[]|]; cbn; naive_solver. Qed.

(** Such a restart goes on exactly when no generation and no run is bound. *)
Lemma logical_restart_unbound views :
  requireNoPersistedPhysicalBindings views = Ok tt <-> forall view, view ∈ views ->
    (forall g, g ∈ agent_Generations (view_Agent view) -> agent_binding g = Ok false) /\
    (forall target, target ∈ view_Targets view ->
       (forall g, g ∈ target_Generations target -> target_binding g = Ok false) /\
       (forall run, run ∈ target_Runs target -> run_binding run = Ok false)).
Proof.
  assert (E : forall {A} (f : A -> result unit) l, res_each (fun _ => f) 0 l = Ok tt <-> forall x, x ∈ l -> f x = Ok tt).
  { intros A f l. generalize 0%nat. induction l as [|x l IH]; intros n; cbn; [set_solver|].
    setoid_rewrite elem_of_cons. destruct (f x) as [[]|] eqn:F; cbn; [rewrite IH; naive_solver|]. split; [done|]. intros H.
    specialize (H x (or_introl eq_refl)). congruence. }
  unfold requireNoPersistedPhysicalBindings. rewrite E. split; intros H view V; specialize (H view V).
  - rewrite unit_bind_ok, !E in H. destruct H as [G T]. split; [intros g I; by eapply no_binding_ok, G|].
    intros target I. specialize (T target I). rewrite unit_bind_ok, !E in T. destruct T as [Tg Tr].
    split; intros x J; eapply no_binding_ok; eauto.
  - destruct H as [G T]. rewrite unit_bind_ok, !E. split; [intros g I; by apply no_binding_ok, G|].
    intros target I. rewrite unit_bind_ok, !E. destruct (T target I) as [Tg Tr]. split; intros x J; apply no_binding_ok; auto.
Qed.

(** ** Recovery incidents *)
Definition ResetMode_of (s : string) : ResetMode :=
  if bool_decide (s = "recreate") then ResetRecreate else if bool_decide (s = "baseline") then ResetBaseline
  else if bool_decide (s = "snapshot") then ResetSnapshot else ResetModeUnrecognized s.

Record targetRecoverySelection := mkRecoverySelection {
  sel_mode : ResetMode; sel_snapshotName : string; sel_canonical : string }.
Definition parseTargetRecoveryStrategy (strategy : string) : result targetRecoverySelection :=
  _ ← check (bool_decide (strategy = TrimSpace strategy))
        (NewError CodeInvalidArgument "controller.recover_incident" "strategy");
  let selection :=
    if HasPrefix strategy "snapshot:" then mkRecoverySelection ResetSnapshot (TrimPrefix strategy "snapshot:") strategy
    else mkRecoverySelection (ResetMode_of strategy) "" strategy in
  _ ← ValidateResetSelection (sel_mode selection) (sel_snapshotName selection);
  Ok selection.

Fixpoint recovery_strategy_loop (actions : list string) (strategy : string) : result string :=
  match actions with
  | [] => Ok strategy
  | action :: rest =>
      if negb (HasPrefix action "target:") then recovery_strategy_loop rest strategy else
      selection ← match parseTargetRecoveryStrategy (TrimPrefix action "target:") with
                  | Ok selection => Ok selection | Err _ => Err (reconcile_error "target_recovery") end;
      _ ← check (bool_decide (strategy = "") || bool_decide (strategy = sel_canonical selection))
            (reconcile_error "target_recovery");
      recovery_strategy_loop rest (sel_canonical selection)
  end.
Definition persistedTargetRecoveryStrategy (incident : IncidentRecord) : result string :=
  strategy ← recovery_strategy_loop (inc_RecoveryActions incident) "";
  _ ← check (negb (bool_decide (strategy = ""))) (reconcile_error "target_recovery");
  Ok strategy.

Definition requirePersistedAgentRecoveryIncident (view : ResearchSessionView) (generation : AgentGenerationRecord)
    : result IncidentRecord :=
  incident ← from_option_err (reconcile_error "agent_recovery")
               (recoveryIncident (view_Incidents view) (agen_RecoveryIncident generation));
  _ ← check (negb ((agen_Generation generation <=? 1)%N
               || negb (agen_Previous generation =? agen_Generation generation - 1)%N
               || negb (lease_AgentGeneration (view_Lease view) =? agen_Generation generation)%N
               || negb (agent_CurrentGeneration (view_Agent view) =? agen_Generation generation)%N
               || negb (bool_decide (inc_SessionID incident = session_ID (view_Session view)))
               || negb (bool_decide (inc_LeaseID incident = lease_ID (view_Lease view)))
               || negb (bool_decide (inc_AgentWorkspaceID incident = agent_ID (view_Agent view)))
               || negb (inc_AgentGeneration incident =? agen_Previous generation)%N))
        (reconcile_error "agent_recovery");
  _ ← check (containsExactString (inc_RecoveryActions incident) "agent_workspace:recreate") (reconcile_error "agent_recovery");
  Ok incident.

Definition requirePersistedTargetRecoveryIncident (view : ResearchSessionView) (target : TargetRecord)
    (generation : TargetGenerationRecord) : result IncidentRecord :=
  incident ← from_option_err (reconcile_error "target_recovery")
               (recoveryIncident (view_Incidents view) (tgen_RecoveryIncident generation));
  _ ← check (negb ((tgen_Generation generation <=? 1)%N
               || negb (tgen_Previous generation =? tgen_Generation generation - 1)%N
               || negb (target_CurrentGeneration target =? tgen_Generation generation)%N
               || negb (bool_decide (target_SessionID target = session_ID (view_Session view)))
               || negb (bool_decide (target_LeaseID target = lease_ID (view_Lease view)))
               || negb (bool_decide (inc_SessionID incident = session_ID (view_Session view)))
               || negb (bool_decide (inc_LeaseID incident = lease_ID (view_Lease view)))
               || negb (bool_decide (inc_TargetID incident = target_ID target))
               || negb (inc_TargetGeneration incident =? tgen_Previous generation)%N))
        (reconcile_error "target_recovery");
  _ ← persistedTargetRecoveryStrategy incident;
  Ok incident.

Definition requirePreviousAgentResource (agent : AgentWorkspaceRecord) : result agentPhysicalResource :=
  _ ← check (negb (agent_CurrentGeneration agent <=? 1)%N) (ErrText "agent recovery did not advance the generation");
  let previousGeneration := (agent_CurrentGeneration agent - 1)%N in
  generation ← from_option_err (ErrText "agent previous generation is missing")
    (find (fun g => (agen_Generation g =? previousGeneration)%N) (agent_Generations agent));
  agentID ← parseID prefix_agentWorkspace (agent_ID agent);
  workspaceID ← parseID prefix_workspace (agen_WorkspaceID generation);
  Ok (mkAgentPhysicalResource (mkAgentWorkspaceRef agentID previousGeneration) workspaceID).

(** The identity of the mutations of startup: a derived key under the policy of
    the generation. *)
Definition provisioningCorrelationUUID (resourceID : string) : result string :=
  match parseID prefix_agentWorkspace resourceID with
  | Ok agentID => Ok (formatUUID agentID)
  | Err _ => match parseID prefix_target resourceID with
             | Ok targetID => Ok (formatUUID targetID)
             | Err _ => Err (reconcile_error "resource_id") end
  end.

Section Resolution.
Context `{PR : PlanResolution}.

Definition startupProvisioningMeta (baseKey resourceID policy : string) (generation : N) : result MutationMeta :=
  _ ← check (IsCanonicalIdempotencyKey baseKey) (reconcile_error "provisioning_key");
  _ ← ParseDigest policy;
  correlationUUID ← provisioningCorrelationUUID resourceID;
  Ok (mkMutationMeta (DeriveIdempotencyKey baseKey ("startup/provisioning/" +:+ pretty generation))
        ("corr_" +:+ correlationUUID) "" policy deadline).

Definition startupRunRecoveryMeta (target : TargetRecord) (run : TargetRunRecord) : result MutationMeta :=
  runID ← parseID prefix_targetRun (run_ID run);
  generation ← persistedTargetGeneration target (run_Generation run);
  _ ← ParseDigest (tgen_PolicyDigest generation);
  Ok (mkMutationMeta ("startup-run-recovery/" +:+ run_ID run) ("corr_" +:+ formatUUID runID) "" (tgen_PolicyDigest generation)
        deadline).

(** The plan of an earlier generation: the view or the target as if that
    generation were current. *)
Definition resolvePersistedAgentGenerationPlan (view : ResearchSessionView) (generation : AgentGenerationRecord)
    : result AgentProvisioningPlan :=
  bound ← agent_binding generation;
  _ ← check bound (reconcile_error "agent_generation");
  let agent := (view_Agent view) <| agent_CurrentGeneration := agen_Generation generation |> in
  let lease := (view_Lease view) <| lease_AgentGeneration := agen_Generation generation |> in
  resolvePersistedAgent (agen_AgentProvisioningKey generation)
    (mkResearchSessionView (view_Session view) lease agent (view_Execs view) (view_Targets view) (view_Incidents view)).

Definition resolvePersistedTargetGenerationPlan (target : TargetRecord) (generation : TargetGenerationRecord)
    : result TargetPlan :=
  _ ← check (negb (bool_decide (tgen_ProvisioningKey generation = ""))) (reconcile_error "target_generation");
  resolvePersistedTargetProvisioningPlan
    (mkMutationMeta (tgen_ProvisioningKey generation) "" "" (tgen_PolicyDigest generation) deadline)
    (target <| target_CurrentGeneration := tgen_Generation generation |>) (tgen_ProvisioningKey generation).

(** ** The agent of a session *)
Definition resolve_agent_generation (view : ResearchSessionView) (cleanupAuthorized : bool)
    (plans : persistedPhysicalPlans) (generation : AgentGenerationRecord) : result persistedPhysicalPlans :=
  ref ← agentGenerationRef (agent_ID (view_Agent view)) (agen_Generation generation);
  let key := agentRefKey ref in
  _ ← check (bool_decide (pp_agentTerminal plans !! key = None)) (ErrText "duplicate persisted agent generation");
  bound ← agent_binding generation;
  plans ← (if bound then
             workspaceID ← parseID prefix_workspace (agen_WorkspaceID generation);
             Ok (plans <| pp_agentWorkspaces := <[key := workspaceID]> (pp_agentWorkspaces plans) |>)
           else Ok plans);
  let terminal := bound && (AgentGenerationState_Terminal (agen_State generation) || cleanupAuthorized) in
  let plans := plans <| pp_agentTerminal := <[key := terminal]> (pp_agentTerminal plans) |> in
  if negb terminal then Ok plans else
  historical ← resolvePersistedAgentGenerationPlan view generation;
  Ok (plans <| pp_agentCleanupPlans := <[key := app_Agent historical]> (pp_agentCleanupPlans plans) |>).

(** A successor whose recovery incident is still open: it is expected only if
    its plan was bound, and the predecessor is kept for the recovery to retire. *)
Definition resolve_agent_recovery (view : ResearchSessionView) (current : AgentGenerationRecord) (currentRef : AgentWorkspaceRef)
    (bound : bool) (incident : IncidentRecord) (plans : persistedPhysicalPlans) : result persistedPhysicalPlans :=
  previousGeneration ← persistedAgentGeneration (view_Agent view) (agen_Previous current);
  previousPlan ← resolvePersistedAgentGenerationPlan view previousGeneration;
  previousResource ← requirePreviousAgentResource (view_Agent view);
  let plans := plans <| pp_agentTerminal := <[agentRefKey (apr_ref previousResource) := false]> (pp_agentTerminal plans) |> in
  let recovery := mkAgentRecovery view current incident (app_Agent previousPlan) previousResource in
  if negb bound then
    _ ← check (bool_decide (agen_State current = AgentGenerationProvisioning)) (reconcile_error "agent_plan_binding");
    Ok (plans <| pp_pendingAgentProvisionings := pp_pendingAgentProvisionings plans ++ [currentRef] |>
              <| pp_agentRecoveries := pp_agentRecoveries plans ++ [recovery None bound] |>)
  else
    plan ← resolvePersistedAgent (agen_AgentProvisioningKey current) view;
    _ ← admitAgentWorkspacePlan (app_Agent plan);
    meta ← startupProvisioningMeta (agen_AgentProvisioningKey current) (agent_ID (view_Agent view)) (agen_PolicyDigest current)
             (agen_Generation current);
    Ok (plans <| pp_agents := pp_agents plans ++ [app_Agent plan] |>
              <| pp_agentRecoveries := pp_agentRecoveries plans ++ [recovery (Some (plan, meta)) bound] |>).

(** A successor whose recovery incident is resolved: the pair to verify. *)
Definition resolved_agent_recovery (view : ResearchSessionView) (current : AgentGenerationRecord) (currentRef : AgentWorkspaceRef)
    (incident : IncidentRecord) (plans : persistedPhysicalPlans) : result persistedResolvedAgentRecovery :=
  _ ← check (bool_decide (inc_State incident = IncidentResolved)) (reconcile_error "agent_recovery");
  _ ← check (bool_decide (agen_State current = AgentGenerationReady) || bool_decide (agen_State current = AgentGenerationRunning))
        (reconcile_error "agent_recovery");
  _ ← check (containsExactString (inc_RecoveryActions incident) "physical-agent:recreate") (reconcile_error "agent_recovery");
  previousGeneration ← persistedAgentGeneration (view_Agent view) (agen_Previous current);
  previousPlan ← resolvePersistedAgentGenerationPlan view previousGeneration;
  previousResource ← requirePreviousAgentResource (view_Agent view);
  _ ← check (flag (pp_agentTerminal plans) (agentRefKey (apr_ref previousResource))) (reconcile_error "agent_recovery");
  Ok (mkResolvedAgentRecovery incident currentRef (apr_ref previousResource) (app_Agent previousPlan)).

(** The current generation as one to run. *)
Definition expect_agent (view : ResearchSessionView) (current : AgentGenerationRecord) (initialUnbound : bool)
    (resolvedRecovery : option persistedResolvedAgentRecovery) (plans : persistedPhysicalPlans) : result persistedPhysicalPlans :=
  let planRoot := if initialUnbound then session_AcquisitionIdempotencyKey (view_Session view) else agen_AgentProvisioningKey current in
  plan ← resolvePersistedAgent planRoot view;
  _ ← admitAgentWorkspacePlan (app_Agent plan);
  meta ← startupProvisioningMeta planRoot (agent_ID (view_Agent view)) (agen_PolicyDigest current) (agen_Generation current);
  let plans := plans <| pp_agents := pp_agents plans ++ [app_Agent plan] |> in
  match resolvedRecovery with
  | Some recovery => Ok (plans <| pp_resolvedAgentRecoveries := pp_resolvedAgentRecoveries plans ++ [recovery] |>)
  | None =>
      match agen_State current with
      | AgentGenerationProvisioning | AgentGenerationBooting | AgentGenerationReady | AgentGenerationRunning =>
          Ok (plans <| pp_agentProvisionings := pp_agentProvisionings plans ++
                [mkAgentProvisioning view current plan meta initialUnbound] |>)
      | _ => Ok plans
      end
  end.

(** The current generation of the agent; [true] when the code goes on with the
    next session, without looking at the targets of this one. *)
Definition resolve_current_agent (view : ResearchSessionView) (current : AgentGenerationRecord) (plans : persistedPhysicalPlans)
    : result (persistedPhysicalPlans * bool) :=
  _ ← requireRecoverablePhysicalLease (view_Lease view);
  currentRef ← agentGenerationRef (agent_ID (view_Agent view)) (agen_Generation current);
  bound ← agent_binding current;
  let linked := negb (agen_Previous current =? 0)%N || negb (bool_decide (agen_RecoveryIncident current = "")) in
  let initialUnbound := negb bound && (agen_Generation current =? 1)%N && negb linked
                        && bool_decide (agen_State current = AgentGenerationProvisioning) in
  _ ← check (negb (linked && ((agen_Previous current =? 0)%N || bool_decide (agen_RecoveryIncident current = ""))))
        (reconcile_error "agent_recovery");
  let expect resolvedRecovery :=
    (_ ← check (bound || initialUnbound) (reconcile_error "agent_plan_binding");
     plans ← expect_agent view current initialUnbound resolvedRecovery plans;
     Ok (plans, false)) in
  if negb linked then expect None else
  incident ← requirePersistedAgentRecoveryIncident view current;
  if bool_decide (inc_State incident = IncidentRecovering) then
    plans ← resolve_agent_recovery view current currentRef bound incident plans;
    Ok (plans, true)
  else
    recovery ← resolved_agent_recovery view current currentRef incident plans;
    expect (Some recovery).

(** ** The targets of a session *)
(** The incident that the current generation of a target recovers from, while
    it is open, and the predecessor of a finished recovery. *)
Definition target_recovery (view : ResearchSessionView) (target : TargetRecord) (current : TargetGenerationRecord)
    : result (option IncidentRecord * option (IncidentRecord * TargetPlan)) :=
  if bool_decide (tgen_RecoveryIncident current = "") then Ok (None, None) else
  _ ← check (negb (tgen_Previous current =? 0)%N) (reconcile_error "target_recovery");
  incident ← requirePersistedTargetRecoveryIncident view target current;
  let state := tgen_State current in
  let ready := bool_decide (state = TargetGenerationReady) in
  let resettable := bool_decide (state = TargetGenerationResettable) in
  match inc_State incident with
  | IncidentRecovering =>
      _ ← check (bool_decide (state = TargetGenerationProvisioning) || bool_decide (state = TargetGenerationInstrumenting) || ready)
            (reconcile_error "target_recovery");
      Ok (Some incident, None)
  | IncidentResolved =>
      _ ← check (ready || resettable || TargetGenerationState_Terminal state) (reconcile_error "target_recovery");
      strategy ← persistedTargetRecoveryStrategy incident;
      _ ← check (containsExactString (inc_RecoveryActions incident) ("physical-target:" +:+ strategy))
            (reconcile_error "target_recovery");
      if ready || resettable then
        previousGeneration ← persistedTargetGeneration target (tgen_Previous current);
        previousPlan ← resolvePersistedTargetGenerationPlan target previousGeneration;
        Ok (None, Some (incident, previousPlan))
      else Ok (None, None)
  | _ => Err (reconcile_error "target_recovery")
  end.

(** The durable intents to quarantine or to destroy the current generation. *)
Definition target_intents (target : TargetRecord) (current : TargetGenerationRecord)
    : result (option operationReservation * option operationReservation) :=
  let state := tgen_State current in
  let reserved namespace := if has_capabilities then reservation_for namespace (target_ID target) (tgen_Generation current) else None in
  quarantine ← (if TargetGenerationState_Terminal state then Ok None else
    match reserved "quarantine_target" with
    | Some reservation =>
        _ ← check match or_Quarantine reservation with
                  | Some intent => bool_decide (meta_AuthorizedPolicyReference (qi_CommitMeta intent) = tgen_PolicyDigest current)
                  | None => false end (reconcile_error "target_quarantine");
        Ok (Some reservation)
    | None => Ok None
    end);
  let destruction :=
    if bool_decide (state = TargetGenerationReady) || bool_decide (state = TargetGenerationResettable)
    then reserved "destroy_target" else None in
  _ ← check (negb (bool_decide (is_Some quarantine) && bool_decide (is_Some destruction))) (reconcile_error "target_lifecycle");
  Ok (quarantine, destruction).

Definition nonterminal_runs (target : TargetRecord) (generation : N) : nat :=
  length (filter (fun run => run_Generation run = generation /\ TargetRunState_Terminal (run_State run) = false)
    (target_Runs target)).

Definition run_observer (run : TargetRunRecord) : result PersistedRunObserverBinding :=
  runID ← parseID prefix_targetRun (run_ID run);
  digest ← ParseDigest (run_ProvisioningPlanDigest run);
  published ← (if TargetRunState_Terminal (run_State run) then
                 _ ← check has_capabilities (missingCapability "controller.reconcile_physical" "run_finalization");
                 bundlePublicationComplete run
               else Ok false);
  Ok (mkRunObserverBinding runID digest (run_State run) published).

(** One run of a target, after those with the identities [seen]. *)
Definition resolve_run (current : TargetGenerationRecord) (state : persistedPhysicalPlans * list string) (run : TargetRunRecord)
    : result (persistedPhysicalPlans * list string) :=
  let '(plans, seen) := state in
  _ ← check (bool_decide (run_ID run ∉ seen)) (reconcile_error "target_runs");
  bound ← run_binding run;
  plans ← (if bound then observer ← run_observer run;
                         Ok (plans <| pp_observerBindings := pp_observerBindings plans ++ [observer] |>)
           else Ok plans);
  let seen := run_ID run :: seen in
  if TargetRunState_Terminal (run_State run) then Ok (plans, seen) else
  _ ← check (negb (negb (run_Generation run =? tgen_Generation current)%N || TargetGenerationState_Terminal (tgen_State current)))
        (reconcile_error "target_run_generation");
  _ ← check (bound || bool_decide (run_State run = TargetRunRequested)) (reconcile_error "target_run_plan_binding");
  let plans := if bound : bool then plans else plans <| pp_pendingTargetRuns := pp_pendingTargetRuns plans ++ [run_ID run] |> in
  Ok (plans, seen).

Definition resolve_operation (target : TargetRecord) (quarantining : bool) (plans : persistedPhysicalPlans)
    (operation : TargetOperationRecord) : result persistedPhysicalPlans :=
  if TargetOperationState_Terminal (op_State operation) then Ok plans else
  _ ← check match find (fun run => bool_decide (run_ID run = op_RunID operation)) (target_Runs target) with
            | Some run => (run_Generation run =? op_Generation operation)%N | None => false end
        (reconcile_error "target_operation");
  generation ← persistedTargetGeneration target (op_Generation operation);
  Ok (if quarantining then plans
      else plans <| pp_lostOperations := pp_lostOperations plans ++ [mkLostOperation target operation (tgen_PolicyDigest generation)] |>).

(** One generation of a target: is it over, and cleaned up under its plan? *)
Definition resolve_target_generation (target : TargetRecord) (current : TargetGenerationRecord)
    (cleanupAuthorized preserveQuarantine : bool) (state : persistedPhysicalPlans * bool) (generation : TargetGenerationRecord)
    : result (persistedPhysicalPlans * bool) :=
  let '(plans, hasBoundGeneration) := state in
  let kind := target_Kind target in
  ref ← targetGenerationRef (target_ID target) (tgen_Generation generation);
  let key := targetRefKey ref in
  _ ← check (bool_decide (terminal_of plans kind !! key = None)) (ErrText "duplicate persisted target generation");
  bound ← target_binding generation;
  let safeDuringCleanup := cleanupAuthorized && (nonterminal_runs target (tgen_Generation generation) =? 0)%nat in
  let preservedCurrent := preserveQuarantine && (tgen_Generation generation =? tgen_Generation current)%N in
  let terminal := bound && ((negb preservedCurrent && TargetGenerationState_Terminal (tgen_State generation)) || safeDuringCleanup) in
  let plans := mark_target kind key terminal plans in
  if negb terminal then Ok (plans, hasBoundGeneration || bound) else
  historical ← resolvePersistedTargetGenerationPlan target generation;
  Ok (add_cleanup kind key historical plans, hasBoundGeneration || bound).

(** An interrupted reset: both halves are expected, as far as they were bound. *)
Definition resolve_pending_reset (target : TargetRecord) (current : TargetGenerationRecord) (bound : bool)
    (plans : persistedPhysicalPlans) : result persistedPhysicalPlans :=
  let kind := target_Kind target in
  _ ← check (bound || bool_decide (tgen_State current = TargetGenerationProvisioning)) (reconcile_error "target_plan_binding");
  previousGeneration ← persistedTargetGeneration target (tgen_Previous current);
  previousBound ← target_binding previousGeneration;
  _ ← check previousBound (reconcile_error "target_reset_predecessor");
  previousPlan ← resolvePersistedTargetGenerationPlan target previousGeneration;
  let previousRef := target_plan_ref previousPlan in
  let plans := mark_target kind (targetRefKey previousRef) false (add_target kind previousPlan plans) in
  let currentRef := mkTargetRef (tref_ID previousRef) (tgen_Generation current) in
  plans ← (if bound then
             currentPlan ← resolvePersistedTargetProvisioningPlan
               (mkMutationMeta (tgen_ProvisioningKey current) "" "" (tgen_PolicyDigest current) deadline) target (tgen_ProvisioningKey current);
             Ok (add_target kind currentPlan plans)
           else Ok plans);
  Ok (plans <| pp_pendingTargetResets := pp_pendingTargetResets plans ++ [mkPendingTargetReset target currentRef previousRef bound] |>).

(** The runs of a target that are not over and were bound. *)
Definition run_recovery (target : TargetRecord) (run : TargetRunRecord) : result (option persistedRunRecovery) :=
  if TargetRunState_Terminal (run_State run) then Ok None else
  bound ← run_binding run;
  if negb bound then Ok None else
  meta ← startupRunRecoveryMeta target run;
  plan ← resolvePersistedTargetRunPlan meta target run;
  Ok (Some (mkRunRecovery target run plan)).
Definition target_run_recoveries (target : TargetRecord) : result (list persistedRunRecovery) :=
  recoveries ← res_map (fun _ => run_recovery target) 0 (target_Runs target);
  Ok (omap (M:=list) id recoveries).

(** The current generation of a target as one that has to be there. *)
Definition expect_target (target : TargetRecord) (current : TargetGenerationRecord) (initialUnbound : bool)
    (recoveringIncident : option IncidentRecord) (resolvedRecovery : option (IncidentRecord * TargetPlan))
    (quarantine destruction : option operationReservation) (plans : persistedPhysicalPlans) : result persistedPhysicalPlans :=
  let kind := target_Kind target in
  let requestKey := if initialUnbound then target_CreationIdempotencyKey target else tgen_ProvisioningKey current in
  let physicalKey := if initialUnbound then DeriveIdempotencyKey requestKey "physical/target" else tgen_ProvisioningKey current in
  plan ← resolvePersistedTargetProvisioningPlan (mkMutationMeta requestKey "" "" (tgen_PolicyDigest current) deadline) target physicalKey;
  meta ← startupProvisioningMeta physicalKey (target_ID target) (tgen_PolicyDigest current) (tgen_Generation current);
  let plans := add_target kind plan plans in
  let plans := match resolvedRecovery with
    | Some (incident, previousPlan) => plans <| pp_resolvedTargetRecoveries := pp_resolvedTargetRecoveries plans ++
        [mkResolvedTargetRecovery incident (target_plan_ref plan) (target_plan_ref previousPlan) previousPlan kind] |>
    | None => plans end in
  plans ← match recoveringIncident with
    | Some incident =>
        if bool_decide (tgen_State current = TargetGenerationReady) then
          previousGeneration ← persistedTargetGeneration target (tgen_Previous current);
          previousPlan ← resolvePersistedTargetGenerationPlan target previousGeneration;
          Ok (plans <| pp_completedTargetRecoveries := pp_completedTargetRecoveries plans ++
                [mkTargetRecoveryCompletion target current incident (target_plan_ref plan) (target_plan_ref previousPlan) previousPlan] |>)
        else Ok plans
    | None => Ok plans end;
  let starting := bool_decide (tgen_State current = TargetGenerationProvisioning)
                  || bool_decide (tgen_State current = TargetGenerationInstrumenting) in
  let plans := if (tgen_Previous current =? 0)%N && starting
               then plans <| pp_targetProvisionings := pp_targetProvisionings plans ++
                               [mkTargetProvisioning target current plan meta initialUnbound] |>
               else plans in
  lifecycleRef ← (if bool_decide (is_Some quarantine) || bool_decide (is_Some destruction) then
                    targetID ← parseID prefix_target (target_ID target); Ok (mkTargetRef targetID (tgen_Generation current))
                  else Ok zero_target_ref);
  let plans := match destruction with
    | Some reservation => plans <| pp_targetDestructions := pp_targetDestructions plans ++
                                     [mkTargetDestruction target current lifecycleRef reservation] |>
    | None => plans end in
  recoveries ← target_run_recoveries target;
  Ok match quarantine with
     | Some reservation => plans <| pp_targetQuarantines := pp_targetQuarantines plans ++
                                      [mkTargetQuarantine target lifecycleRef reservation recoveries] |>
     | None => plans <| pp_runRecoveries := pp_runRecoveries plans ++ recoveries |> end.

Definition driver_missing : err := missingCapability "controller.reconcile_physical" "target_driver".

Definition resolve_target (view : ResearchSessionView) (cleanupAuthorized : bool) (plans : persistedPhysicalPlans)
    (target : TargetRecord) : result persistedPhysicalPlans :=
  let kind := target_Kind target in
  current ← targetGeneration target;
  '(recoveringIncident, resolvedRecovery) ← target_recovery view target current;
  let state := tgen_State current in
  let preserveQuarantine := bool_decide (state = TargetGenerationQuarantined) && negb cleanupAuthorized in
  '(quarantine, destruction) ← target_intents target current;
  '(plans, _) ← res_fold (resolve_run current) (target_Runs target) (plans, []);
  let live_runs := nonterminal_runs target (tgen_Generation current) in
  _ ← check (live_runs <=? 1)%nat (reconcile_error "target_runs");
  plans ← res_fold (resolve_operation target (bool_decide (is_Some quarantine))) (target_Operations target) plans;
  '(plans, hasBoundGeneration) ← res_fold (resolve_target_generation target current cleanupAuthorized preserveQuarantine)
                                   (target_Generations target) (plans, false);
  _ ← check (negb (hasBoundGeneration && negb (has_driver kind))) driver_missing;
  _ ← check match resolvedRecovery with
            | Some (_, previousPlan) => flag (terminal_of plans kind) (targetPlanKey previousPlan) | None => true end
        (reconcile_error "target_recovery");
  if TargetGenerationState_Terminal state && negb preserveQuarantine then Ok plans else
  bound ← target_binding current;
  let starting := bool_decide (state = TargetGenerationProvisioning) || bool_decide (state = TargetGenerationInstrumenting) in
  let initialUnbound := negb bound && (tgen_Generation current =? 1)%N && (tgen_Previous current =? 0)%N
                        && bool_decide (tgen_RecoveryIncident current = "") && bool_decide (state = TargetGenerationProvisioning) in
  let pendingReset := negb (tgen_Previous current =? 0)%N && starting in
  _ ← check (bound || initialUnbound || pendingReset) (reconcile_error "target_plan_binding");
  if cleanupAuthorized && (live_runs =? 0)%nat then Ok plans else
  _ ← requireRecoverablePhysicalLease (view_Lease view);
  _ ← check (has_driver kind) driver_missing;
  if pendingReset then resolve_pending_reset target current bound plans
  else expect_target target current initialUnbound recoveringIncident resolvedRecovery quarantine destruction plans.

(** ** All sessions *)
Definition resolve_view (plans : persistedPhysicalPlans) (view : ResearchSessionView) : result persistedPhysicalPlans :=
  let cleanupAuthorized := leaseCleanupInProgress (view_Lease view) in
  plans ← res_fold (resolve_agent_generation view cleanupAuthorized) (agent_Generations (view_Agent view)) plans;
  current ← currentAgentGeneration (view_Agent view);
  '(plans, next) ← (if negb (AgentGenerationState_Terminal (agen_State current)) && negb cleanupAuthorized
                    then resolve_current_agent view current plans else Ok (plans, false));
  if next : bool then Ok plans else res_fold (resolve_target view cleanupAuthorized) (view_Targets view) plans.

Section Sorted.
Context {SS : SliceSort}.
Definition sort_by {A} (key : A -> string) (l : list A) : list A := sort_Slice (fun a b => string_ltb (key a) (key b)) l.
Definition sortAgentPlans (plans : list AgentWorkspacePlan) : list AgentWorkspacePlan := sort_by agentPlanKey plans.
Definition sortTargetPlans (plans : list TargetPlan) : list TargetPlan := sort_by targetPlanKey plans.
Definition run_recovery_key (r : persistedRunRecovery) : string := run_ID (prr_run r).

Definition resolvePersistedPhysicalPlans (views : list ResearchSessionView) : result persistedPhysicalPlans :=
  plans ← res_fold resolve_view views no_physical_plans;
  Ok (plans
    <| pp_agentProvisionings := sort_by (fun p => agentPlanKey (app_Agent (pap_plan p))) (pp_agentProvisionings plans) |>
    <| pp_targetProvisionings := sort_by (fun p => targetPlanKey (ptp_plan p)) (pp_targetProvisionings plans) |>
    <| pp_pendingAgentProvisionings := sort_by agentRefKey (pp_pendingAgentProvisionings plans) |>
    <| pp_pendingTargetResets := sort_by (fun p => targetRefKey (reset_current p)) (pp_pendingTargetResets plans) |>
    <| pp_pendingTargetRuns := sort_Strings (pp_pendingTargetRuns plans) |>
    <| pp_runRecoveries := sort_by run_recovery_key (pp_runRecoveries plans) |>
    <| pp_lostOperations := sort_by (fun p => op_ID (plo_operation p)) (pp_lostOperations plans) |>
    <| pp_targetQuarantines :=
         (fun q => mkTargetQuarantine (ptq_target q) (ptq_ref q) (ptq_reservation q) (sort_by run_recovery_key (ptq_runs q)))
           <$> sort_by (fun p => targetRefKey (ptq_ref p)) (pp_targetQuarantines plans) |>
    <| pp_targetDestructions := sort_by (fun p => targetRefKey (ptd_ref p)) (pp_targetDestructions plans) |>
    <| pp_observerBindings := sort_by (fun b => id_String prefix_targetRun (rob_RunID b)) (pp_observerBindings plans) |>).

(** ** Inventory requests *)
Definition map_values {A} (m : gmap string A) : list A := (map_to_list m).*2.
Definition sortedAgentPlanMap (plans : gmap string AgentWorkspacePlan) : list AgentWorkspacePlan := sortAgentPlans (map_values plans).
Definition sortedTargetPlanMap (plans : gmap string TargetPlan) : list TargetPlan := sortTargetPlans (map_values plans).

Definition startupAgentInventoryRequest (plans : persistedPhysicalPlans) (includeCompletedPredecessors includeTerminalCleanup : bool)
    : AgentWorkspaceReconciliationRequest :=
  let cleanup := if includeTerminalCleanup
    then filter (fun entry => flag (pp_agentTerminal plans) entry.1 = true) (pp_agentCleanupPlans plans) else ∅ in
  let cleanup := fold_left (fun cleanup r =>
      if includeCompletedPredecessors || negb (par_bound r)
      then <[agentPlanKey (par_previousPlan r) := par_previousPlan r]> cleanup else cleanup) (pp_agentRecoveries plans) cleanup in
  let cleanup := if includeCompletedPredecessors
    then fold_left (fun cleanup r => <[agentPlanKey (rar_previousPlan r) := rar_previousPlan r]> cleanup)
           (pp_resolvedAgentRecoveries plans) cleanup else cleanup in
  mkAgentRequest (sortAgentPlans (pp_agents plans)) (sortedAgentPlanMap cleanup).

Definition target_cleanup_plans (plans : persistedPhysicalPlans) (kind : Domain.TargetKind)
    (includeCompletedPredecessors includeTerminalCleanup : bool) : gmap string TargetPlan :=
  let cleanup := if includeTerminalCleanup
    then filter (fun entry => flag (terminal_of plans kind) entry.1 = true) (cleanup_of plans kind) else ∅ in
  let cleanup := fold_left (fun cleanup pending =>
      if bool_decide (target_Kind (reset_target pending) = kind)
      then fold_left (fun cleanup plan =>
             if bool_decide (targetPlanKey plan = targetRefKey (reset_previous pending))
             then <[targetPlanKey plan := plan]> cleanup else cleanup) (targets_of plans kind) cleanup
      else cleanup) (pp_pendingTargetResets plans) cleanup in
  if includeCompletedPredecessors then
    let cleanup := fold_left (fun cleanup r =>
        if bool_decide (target_Kind (trc_target r) = kind)
        then <[targetPlanKey (trc_previousPlan r) := trc_previousPlan r]> cleanup else cleanup)
        (pp_completedTargetRecoveries plans) cleanup in
    fold_left (fun cleanup r =>
        if bool_decide (rtr_kind r = kind)
        then <[targetPlanKey (rtr_previousPlan r) := rtr_previousPlan r]> cleanup else cleanup)
        (pp_resolvedTargetRecoveries plans) cleanup
  else cleanup.

Definition startupTargetInventoryRequest (plans : persistedPhysicalPlans) (kind : Domain.TargetKind)
    (includeCompletedPredecessors includeTerminalCleanup : bool) : TargetReconciliationRequest :=
  let cleanup := target_cleanup_plans plans kind includeCompletedPredecessors includeTerminalCleanup in
  mkTargetRequest (sortTargetPlans (filter (fun plan => cleanup !! targetPlanKey plan = None) (targets_of plans kind)))
    (sortedTargetPlanMap cleanup).

Definition allAgentInventoryPlans (request : AgentWorkspaceReconciliationRequest) : list AgentWorkspacePlan :=
  areq_Active request ++ areq_CleanupOnly request.
Definition allTargetInventoryPlans (request : TargetReconciliationRequest) : list TargetPlan :=
  treq_Active request ++ treq_CleanupOnly request.

(** ** What a recovery keeps, and what it allows *)
Definition retainedPendingAgentPredecessors (plans : persistedPhysicalPlans) : gmap string bool :=
  fold_left (fun retained r =>
    if par_bound r then retained else <[agentRefKey (apr_ref (par_previousResource r)) := true]> retained)
    (pp_agentRecoveries plans) ∅.

Definition interruptedRunRecoveryTargets (recoveries : list persistedRunRecovery) : target_flags :=
  fold_left (fun result r => addTargetRef result (target_Kind (prr_target r)) (run_plan_ref (prr_plan r))) recoveries ∅.

(** The predecessors of finished resets that left residue may be cleaned up. *)
Definition authorize_entry (plans : persistedPhysicalPlans) (entry : Domain.TargetKind * string * bool)
    : result persistedPhysicalPlans :=
  let '(kind, key, cleanupRequired) := entry in
  if negb cleanupRequired then Ok plans else
  _ ← check (bool_decide (is_Some (terminal_of plans kind !! key))) (reconcile_error "target_reset_cleanup");
  _ ← check (bool_decide (is_Some (cleanup_of plans kind !! key))) (reconcile_error "target_reset_cleanup");
  Ok (mark_target kind key true plans).
Definition flag_entries (flags : target_flags) : list (Domain.TargetKind * string * bool) :=
  map_to_list flags ≫= (fun entry => (fun '(key, b) => (entry.1, key, b)) <$> map_to_list entry.2).
Definition authorizePendingTargetCleanup (plans : persistedPhysicalPlans) (required : target_flags)
    : result persistedPhysicalPlans :=
  res_fold authorize_entry (flag_entries required) plans.

Definition verify_agent_pair (agents : AgentWorkspaceReconciliationReport) (r : persistedResolvedAgentRecovery) : result unit :=
  current ← exactAgentObservation agents (rar_current r);
  previous ← exactAgentObservation agents (rar_previous r);
  check (exactAdoptedAgentObservation current && exactMissingAgentObservation previous) (reconcile_error "agent_recovery").
Definition verify_target_pair (targets : Domain.TargetKind -> TargetReconciliationReport) (r : persistedResolvedTargetRecovery)
    : result unit :=
  current ← exactTargetObservation (targets (rtr_kind r)) (rtr_current r);
  previous ← exactTargetObservation (targets (rtr_kind r)) (rtr_previous r);
  check (exactAdoptedTargetObservation current && exactMissingTargetObservation previous) (reconcile_error "target_recovery").
Definition verifyResolvedRecoveryPairs (plans : persistedPhysicalPlans) (agents : AgentWorkspaceReconciliationReport)
    (targets : Domain.TargetKind -> TargetReconciliationReport) : result unit :=
  _ ← res_each (fun _ => verify_agent_pair agents) 0 (pp_resolvedAgentRecoveries plans);
  res_each (fun _ => verify_target_pair targets) 0 (pp_resolvedTargetRecoveries plans).
End Sorted.
End Resolution.
