(* ===== verification/Startup.v ===== *)
(** * Settling the physical inventory at startup

    The decision part of [ReconcilePhysicalResources]
    ([internal/orchestration/reconciliation.go]): interrupted resets are checked,
    the inventories are assessed, the resources proven to be terminal are
    destroyed through their drivers, and a second inventory must show that they
    are gone.

    The drivers are the environment: what a call answers is an arbitrary function
    of the calls made before it ([Drivers]), and a computation is a function from
    the calls so far to a result and the calls ([DM]).  An error keeps the errors
    it joins; the partial report of a failed reconciliation is not represented. *)
From S2P Require Import Prelude Errors GoStrings States Values Ids Models Records Requests Inventory PhysicalPlans.

Inductive controller_error := Failure (e : err) | Issues (issues : list issue) | Joined (errors : list controller_error).
Abbreviation cresult := (res controller_error).
Definition failing {A} (r : result A) : cresult A := match r with Ok a => Ok a | Err e => Err (Failure e) end.
Definition error_of (r : result unit) : option controller_error := match r with Ok _ => None | Err e => Some (Failure e) end.
(** [errors.Join] *)
Definition joined (errors : list (option controller_error)) : cresult unit :=
  match omap (M:=list) id errors with [] => Ok tt | errors => Err (Joined errors) end.

Section Calls.
Context `{PL : Plans}.
Inductive driver_call :=
| AgentStop (ref : AgentWorkspaceRef) (mode : StopMode) | AgentDestroy (ref : AgentWorkspaceRef)
| AgentInventory (request : AgentWorkspaceReconciliationRequest)
| WorkspaceInspect (id : uuidV7) | WorkspaceMount (id : uuidV7) | WorkspacePreview (id : uuidV7)
| WorkspaceSeal (id : uuidV7) (revision : Revision) | WorkspaceRelease (id : uuidV7)
| TargetDestroy (kind : Domain.TargetKind) (ref : TargetRef)
| TargetInventory (kind : Domain.TargetKind) (request : TargetReconciliationRequest).
Abbreviation history := (list driver_call).

(** What each call answers after a history of calls, and whether the context of
    the reconciliation is over by then. *)
Class Drivers := {
  agent_Stop : history -> AgentWorkspaceRef -> StopMode -> result unit;
  agent_Destroy : history -> AgentWorkspaceRef -> result unit;
  ReconcileAgentWorkspaces : history -> AgentWorkspaceReconciliationRequest -> result AgentWorkspaceReconciliationReport;
  workspace_Inspect : history -> uuidV7 -> result WorkspaceState;
  workspace_Mount : history -> uuidV7 -> result unit;
  workspace_Preview : history -> uuidV7 -> result Revision;
  workspace_Seal : history -> uuidV7 -> Revision -> result unit;
  workspace_Release : history -> uuidV7 -> result unit;
  target_Destroy : history -> Domain.TargetKind -> TargetRef -> result unit;
  ReconcileTargets : history -> Domain.TargetKind -> TargetReconciliationRequest -> result TargetReconciliationReport;
  ctx_Err : history -> option err }.
End Calls.
Abbreviation history := (list driver_call).

Definition DM `{Plans} (A : Type) : Type := history -> cresult A * history.
#[export] Instance DM_ret `{Plans} : MRet DM := fun A a calls => (Ok a, calls).
#[export] Instance DM_bind `{Plans} : MBind DM := fun A B f m calls =>
  match m calls with (Ok a, calls') => f a calls' | (Err e, calls') => (Err e, calls') end.
Definition dm_lift `{Plans} {A} (r : cresult A) : DM A := fun calls => (r, calls).
(** A call whose answer is examined, and a part whose error is. *)
Definition ask `{Plans} {A} (call : driver_call) (answer : history -> result A) : DM (result A) :=
  fun calls => (Ok (answer calls), calls ++ [call]).
Definition attempt_dm `{Plans} {A} (m : DM A) : DM (cresult A) := fun calls => let '(r, calls') := m calls in (Ok r, calls').

Fixpoint dm_fold `{Plans} {A B} (f : B -> A -> DM B) (l : list A) (b : B) : DM B :=
  match l with [] => mret b | x :: r => b ← f b x; dm_fold f r b end.

Abbreviation target_reports := (gmap Domain.TargetKind TargetReconciliationReport).

Section Startup.
Context `{PR : PlanResolution} {DR : Drivers} {SS : SliceSort}.

(** The error of a call, where a resource that is not there is fine. *)
Definition unless_not_found (r : result unit) : option controller_error :=
  match r with Ok _ => None | Err e => if IsCode (Some e) CodeNotFound then None else Some (Failure e) end.

(** ** Retiring an agent and its workspace *)
Definition workspacePresent (id : uuidV7) : DM bool :=
  answer ← ask (WorkspaceInspect id) (fun calls => workspace_Inspect calls id);
  match answer with
  | Ok _ => mret true
  | Err e => if IsCode (Some e) CodeNotFound then mret false else dm_lift (Err (Failure e))
  end.
Definition requireWorkspaceAbsent (id : uuidV7) : DM unit :=
  present ← workspacePresent id;
  dm_lift (check (negb present) (Failure (NewError CodeFailedPrecondition "controller.reconcile_physical" "workspace_cleanup"))).

Definition seal_mounted (id : uuidV7) : DM unit :=
  preview ← ask (WorkspacePreview id) (fun calls => workspace_Preview calls id);
  revision ← dm_lift (failing preview);
  sealed ← ask (WorkspaceSeal id revision) (fun calls => workspace_Seal calls id revision);
  dm_lift (failing sealed).
Definition sealWorkspace (id : uuidV7) : DM unit :=
  answer ← ask (WorkspaceInspect id) (fun calls => workspace_Inspect calls id);
  match answer with
  | Err e => if IsCode (Some e) CodeNotFound then mret tt else dm_lift (Err (Failure e))
  | Ok WorkspaceReady =>
      mounted ← ask (WorkspaceMount id) (fun calls => workspace_Mount calls id);
      _ ← dm_lift (failing mounted);
      seal_mounted id
  | Ok WorkspaceMounted => seal_mounted id
  | Ok WorkspaceSealed | Ok WorkspaceReleased => mret tt
  | Ok _ => dm_lift (Err (Failure (ErrText "workspace cannot be sealed for release")))
  end.

Definition endedCleanupContext (accumulated : list (option controller_error)) : DM unit := fun calls =>
  (match ctx_Err calls with Some e => joined (accumulated ++ [Some (Failure e)]) | None => Ok tt end, calls).

(** One stage of the cleanup: its error is remembered, and ends it. *)
Definition cleanup_stage (cleanup : list (option controller_error)) (stage : DM (option controller_error))
    : DM (list (option controller_error)) :=
  error ← stage;
  let cleanup := cleanup ++ [error] in
  _ ← endedCleanupContext cleanup;
  _ ← dm_lift (if error then joined cleanup else Ok tt);
  mret cleanup.

Definition destroyAgentAndWorkspace (ref : AgentWorkspaceRef) (workspaceID : uuidV7) (mode : StopMode) : DM unit :=
  stopped ← ask (AgentStop ref mode) (fun calls => agent_Stop calls ref mode);
  let cleanup := [unless_not_found stopped] in
  _ ← endedCleanupContext cleanup;
  cleanup ← cleanup_stage cleanup
    (destroyed ← ask (AgentDestroy ref) (fun calls => agent_Destroy calls ref); mret (unless_not_found destroyed));
  cleanup ← cleanup_stage cleanup
    (sealed ← attempt_dm (sealWorkspace workspaceID); mret match sealed with Ok _ => None | Err e => Some e end);
  cleanup ← cleanup_stage cleanup
    (released ← ask (WorkspaceRelease workspaceID) (fun calls => workspace_Release calls workspaceID);
     mret (unless_not_found released));
  absent ← attempt_dm (requireWorkspaceAbsent workspaceID);
  dm_lift (joined (cleanup ++ [match absent with Ok _ => None | Err e => Some e end])).

(** ** Inventories *)
Definition TargetKind_text (k : Domain.TargetKind) : string :=
  match k with
  | Domain.TargetLinuxContainer => "linux_container" | Domain.TargetAndroidVirtualDevice => "android_virtual_device"
  | Domain.TargetPhysicalDevice => "physical_device" | Domain.TargetKindUnrecognized s => s end.
Definition sortedTargetKinds : list Domain.TargetKind := sort_by TargetKind_text target_drivers.

Definition report_of (reports : target_reports) (kind : Domain.TargetKind) : TargetReconciliationReport :=
  default no_target_report (reports !! kind).

Definition reconcileAgentInventory (request : AgentWorkspaceReconciliationRequest) : DM AgentWorkspaceReconciliationReport :=
  report ← ask (AgentInventory request) (fun calls => ReconcileAgentWorkspaces calls request);
  dm_lift (failing report).
Definition reconcileTargetInventory (kind : Domain.TargetKind) (request : TargetReconciliationRequest)
    : DM TargetReconciliationReport :=
  report ← ask (TargetInventory kind request) (fun calls => ReconcileTargets calls kind request);
  dm_lift (failing report).
Definition inventory_targets (plans : persistedPhysicalPlans) (reports : target_reports) : DM target_reports :=
  dm_fold (fun reports kind =>
    report ← reconcileTargetInventory kind (startupTargetInventoryRequest plans kind false true);
    mret (<[kind := report]> reports)) sortedTargetKinds reports.

(** Workspaces that are left of agents that are gone. *)
Definition workspace_candidate (plans : persistedPhysicalPlans) (candidates : list AgentWorkspaceRef)
    (observation : AgentWorkspaceReconciliation) : DM (list AgentWorkspaceRef) :=
  let key := agentRefKey (aobs_Ref observation) in
  if negb (flag (pp_agentTerminal plans) key) || negb (exactMissingAgentObservation observation) then mret candidates else
  workspaceID ← dm_lift (from_option_err (Failure (reconcile_error "agent_workspace_cleanup")) (pp_agentWorkspaces plans !! key));
  present ← workspacePresent workspaceID;
  mret (if present : bool then candidates ++ [aobs_Ref observation] else candidates).
Definition terminalAgentWorkspaceCleanupCandidates (plans : persistedPhysicalPlans) (report : AgentWorkspaceReconciliationReport)
    : DM (list AgentWorkspaceRef) :=
  candidates ← dm_fold (workspace_candidate plans) (arep_Expected report) [];
  mret (sort_by agentRefKey candidates).

(** ** Assessment *)
Definition assess_agents (plans : persistedPhysicalPlans) (report : AgentWorkspaceReconciliationReport)
    : cresult (list AgentWorkspaceRef) :=
  assessed ← failing (assessAgentReconciliationAllowRetained
    (allAgentInventoryPlans (startupAgentInventoryRequest plans false true)) (pp_agentTerminal plans)
    (retainedPendingAgentPredecessors plans) report);
  match assessed.2 with [] => Ok assessed.1 | issues => Err (Issues issues) end.

(** The removable targets of a kind, or the issues of its inventory. *)
Definition assess_targets (plans : persistedPhysicalPlans) (allowedMissing allowedStopped : target_flags)
    (reports : target_reports) (kind : Domain.TargetKind) : cresult (list TargetRef) :=
  let assessed := assessTargetReconciliationWithRecovery
    (allTargetInventoryPlans (startupTargetInventoryRequest plans kind false true)) (terminal_of plans kind)
    (flags_of allowedMissing kind) (flags_of allowedStopped kind) (report_of reports kind) in
  match assessed.2 with [] => Ok assessed.1 | issues => Err (Issues issues) end.

Definition assess_all (plans : persistedPhysicalPlans) (allowedMissing allowedStopped : target_flags)
    (agents : AgentWorkspaceReconciliationReport) (reports : target_reports)
    : DM (list AgentWorkspaceRef * list (Domain.TargetKind * list TargetRef)) :=
  agentOrphans ← attempt_dm (
    orphans ← dm_lift (assess_agents plans agents);
    workspaceOrphans ← terminalAgentWorkspaceCleanupCandidates plans agents;
    mret (orphans ++ workspaceOrphans));
  let assessed := (fun kind => (kind, assess_targets plans allowedMissing allowedStopped reports kind)) <$> sortedTargetKinds in
  let errors := (match agentOrphans with Err e => Some e | Ok _ => None end)
                :: ((fun r => match r.2 with Err e => Some e | Ok _ => None end) <$> assessed) in
  _ ← dm_lift (joined errors);
  mret (match agentOrphans with Ok orphans => orphans | Err _ => [] end,
        (fun r => (r.1, match r.2 with Ok orphans => orphans | Err _ => [] end)) <$> assessed).

(** ** Removal and verification *)
Definition remove_agent (plans : persistedPhysicalPlans) (ref : AgentWorkspaceRef) : DM unit :=
  workspaceID ← dm_lift (from_option_err (Failure (reconcile_error "agent_orphan")) (pp_agentWorkspaces plans !! agentRefKey ref));
  destroyAgentAndWorkspace ref workspaceID StopForce.
Definition remove_target (kind : Domain.TargetKind) (ref : TargetRef) : DM unit :=
  destroyed ← ask (TargetDestroy kind ref) (fun calls => target_Destroy calls kind ref);
  dm_lift (match unless_not_found destroyed with Some e => Err e | None => Ok tt end).

Definition verify_removal (plans : persistedPhysicalPlans) (destroyedMissing allowedStopped : target_flags) (reports : target_reports)
    : DM (AgentWorkspaceReconciliationReport * target_reports) :=
  agents ← reconcileAgentInventory (startupAgentInventoryRequest plans false true);
  remaining ← dm_lift (assess_agents plans agents);
  _ ← dm_lift (check (bool_decide (remaining = [])) (Failure (ErrText "agent orphan cleanup did not produce a clean inventory")));
  reports ← inventory_targets plans reports;
  safety ← dm_lift (failing (requireSafePendingTargetResets (pp_pendingTargetResets plans) (report_of reports)));
  let allowedMissing := mergeAllowedTargetMissing [destroyedMissing; rs_allowedMissing safety] in
  _ ← dm_fold (fun _ kind =>
        remaining ← dm_lift (assess_targets plans allowedMissing allowedStopped reports kind);
        dm_lift (check (bool_decide (remaining = [])) (Failure (ErrText "target orphan cleanup did not produce a clean inventory"))))
        sortedTargetKinds tt;
  mret (agents, reports).

Record settlement := mkSettlement {
  set_agents : AgentWorkspaceReconciliationReport; set_targets : target_reports;
  set_removedAgents : list AgentWorkspaceRef; set_removedTargets : list (Domain.TargetKind * list TargetRef) }.

Definition settle_inventory (plans : persistedPhysicalPlans) (destroyedMissing : target_flags)
    (agents : AgentWorkspaceReconciliationReport) (reports : target_reports) : DM settlement :=
  safety ← dm_lift (failing (requireSafePendingTargetResets (pp_pendingTargetResets plans) (report_of reports)));
  plans ← dm_lift (failing (authorizePendingTargetCleanup plans (rs_cleanupRequired safety)));
  let allowedMissing := mergeAllowedTargetMissing [destroyedMissing; rs_allowedMissing safety] in
  let allowedStopped := interruptedRunRecoveryTargets (pp_runRecoveries plans) in
  '(agentOrphans, targetOrphans) ← assess_all plans allowedMissing allowedStopped agents reports;
  if bool_decide (agentOrphans = []) && forallb (fun r => bool_decide (r.2 = [])) targetOrphans
  then mret (mkSettlement agents reports [] [])
  else
    _ ← dm_fold (fun _ ref => remove_agent plans ref) agentOrphans tt;
    _ ← dm_fold (fun _ r => dm_fold (fun _ ref => remove_target r.1 ref) r.2 tt) targetOrphans tt;
    '(agents, reports) ← verify_removal plans destroyedMissing allowedStopped reports;
    mret (mkSettlement agents reports agentOrphans targetOrphans).
End Startup.
