(* ===== verification/StartupSafety.v ===== *)
(** * What settling the inventory guarantees

    Only resources of generations that are over, and have no run that is not,
    are ever destroyed at startup; a reconciliation that succeeds leaves nothing
    unaccounted for. *)
From S2P Require Import Prelude Errors GoStrings States Values Ids Models Evidence Records Requests BundleScenario Inventory PhysicalPlans Startup.

Lemma NoDup_fmap_inj {A B} (f : A -> B) l x y : NoDup (f <$> l) -> x ∈ l -> y ∈ l -> f x = f y -> x = y.
Proof.
  induction l as [|z l IH]; cbn; [by intros _ ?%not_elem_of_nil|]. rewrite NoDup_cons, !elem_of_cons. intros [N D].
  intros [->|X] [->|Y] E; [done| | |by apply IH]; exfalso; apply N; [rewrite E|rewrite <-E]; by apply list_elem_of_fmap_2.
Qed.

(** ** Flags of the persisted plans *)
Section Plans.
Context `{PR : PlanResolution}.
Implicit Types plans : persistedPhysicalPlans.

Lemma flag_insert m k b k' : flag (<[k := b]> m) k' = if bool_decide (k' = k) then b else flag m k'.
Proof.
  unfold flag. case_bool_decide as E; [subst; by rewrite lookup_insert_eq|]. by rewrite lookup_insert_ne.
Qed.

Lemma terminal_of_mark plans kind key b kind' :
  terminal_of (mark_target kind key b plans) kind' =
  if bool_decide (kind' = kind) then <[key := b]> (terminal_of plans kind) else terminal_of plans kind'.
Proof.
  unfold terminal_of, flags_of, mark_target. cbn. case_bool_decide as E; [subst; by rewrite lookup_insert_eq|].
  by rewrite lookup_insert_ne.
Qed.
Lemma terminal_of_add plans kind plan kind' : terminal_of (add_target kind plan plans) kind' = terminal_of plans kind'.
Proof. done. Qed.
Lemma terminal_of_cleanup plans kind key plan kind' : terminal_of (add_cleanup kind key plan plans) kind' = terminal_of plans kind'.
Proof. done. Qed.

(** A generation that was marked as kept stays so. *)
Definition keeps (plans plans' : persistedPhysicalPlans) : Prop :=
  (forall key, pp_agentTerminal plans !! key = Some false -> pp_agentTerminal plans' !! key = Some false) /\
  (forall kind key, terminal_of plans kind !! key = Some false -> terminal_of plans' kind !! key = Some false).
#[export] Instance keeps_preorder : PreOrder keeps.
Proof. split; [by intros p|]. intros p q r [A1 T1] [A2 T2]. split; auto. Qed.
Lemma keeps_unmark kind key plans : keeps plans (mark_target kind key false plans).
Proof.
  split; [done|]. intros kind' key'. rewrite terminal_of_mark. case_bool_decide; subst; [|done].
  rewrite lookup_insert_Some. destruct (decide (key = key')); subst; auto.
Qed.
Lemma keeps_agent key plans : keeps plans (plans <| pp_agentTerminal := <[key := false]> (pp_agentTerminal plans) |>).
Proof. split; [|done]. intros key'. cbn. rewrite lookup_insert_Some. destruct (decide (key = key')); subst; auto. Qed.

Lemma keeps_equal plans plans' :
  pp_agentTerminal plans' = pp_agentTerminal plans -> pp_targetTerminal plans' = pp_targetTerminal plans -> keeps plans plans'.
Proof. unfold keeps, terminal_of. by intros -> ->. Qed.

(** [plans'] marks no more generations as removable than [plans], and expects
    all that [plans] does. *)
Record shrinks (plans plans' : persistedPhysicalPlans) : Prop := {
  sh_targets : forall kind key, flag (terminal_of plans' kind) key = true -> flag (terminal_of plans kind) key = true;
  sh_agents : forall key, flag (pp_agentTerminal plans') key = true -> flag (pp_agentTerminal plans) key = true;
  sh_workspaces : pp_agentWorkspaces plans' = pp_agentWorkspaces plans;
  sh_expected : pp_agents plans ⊆ pp_agents plans' /\ (forall kind, targets_of plans kind ⊆ targets_of plans' kind);
  sh_cleanup : pp_targetCleanupPlans plans' = pp_targetCleanupPlans plans;
  sh_keeps : keeps plans plans' }.
#[export] Instance shrinks_preorder : PreOrder shrinks.
Proof.
  split; [by intros p|]. intros p q r [T1 A1 W1 [E1 F1] C1 K1] [T2 A2 W2 [E2 F2] C2 K2].
  split; [naive_solver..|congruence|split; [exact (transitivity E1 E2)|intros kind; exact (transitivity (F1 kind) (F2 kind))]|congruence|by transitivity q].
Qed.

Lemma targets_of_add plans kind plan kind' :
  targets_of (add_target kind plan plans) kind' = if bool_decide (kind' = kind) then targets_of plans kind ++ [plan] else targets_of plans kind'.
Proof.
  unfold targets_of at 1, add_target. cbn. case_bool_decide as E; [subst; by rewrite lookup_insert_eq|]. by rewrite lookup_insert_ne.
Qed.
Lemma shrinks_add_target kind plan plans : shrinks plans (add_target kind plan plans).
Proof.
  split; try done. split; [done|]. intros kind'. rewrite targets_of_add. case_bool_decide; subst; set_solver.
Qed.

Lemma shrinks_unmark kind key plans : shrinks plans (mark_target kind key false plans).
Proof.
  split; try done; [|apply keeps_unmark]. intros kind' key'. rewrite terminal_of_mark. case_bool_decide; subst; [|done].
  rewrite flag_insert. by case_bool_decide.
Qed.

Ltac split_res H := repeat (rewrite res_bind_ok in H; let x := fresh "x" in let X := fresh "X" in destruct H as (x & X & H)).
Ltac split_pairs := repeat match goal with x : _ * _ |- _ => destruct x end.

Lemma shrinks_agent_recovery view current ref bound incident plans plans' :
  resolve_agent_recovery view current ref bound incident plans = Ok plans' -> shrinks plans plans'.
Proof.
  assert (S : forall p, shrinks plans (plans <| pp_agentTerminal := <[agentRefKey (apr_ref p) := false]> (pp_agentTerminal plans) |>)).
  { intros p. split; try done; [|apply keeps_agent]. cbn. intros key. rewrite flag_insert. by case_bool_decide. }
  unfold resolve_agent_recovery. intros H. split_res H. cbn zeta in H.
  destruct (S x1) as [S1 S2 S3 [S4 S5] S6 S7], (negb bound); split_res H; apply Ok_inj in H as <-; (split; [done..| |done|done]); (split; [|done]).
  - done.
  - cbn in *. set_solver.
Qed.

Lemma shrinks_expect_agent view current unbound recovery plans plans' :
  expect_agent view current unbound recovery plans = Ok plans' -> shrinks plans plans'.
Proof.
  unfold expect_agent. intros H. split_res H.
  assert (S : shrinks plans (plans <| pp_agents := pp_agents plans ++ [app_Agent x] |>)) 
    by (split; try done; split; [cbn; set_solver|done]).
  destruct S as [S1 S2 S3 S4 S5 S6], recovery; [by apply Ok_inj in H as <-; split|].
  destruct (agen_State current); apply Ok_inj in H as <-; by split.
Qed.

Lemma shrinks_current_agent view current plans plans' next :
  resolve_current_agent view current plans = Ok (plans', next) -> shrinks plans plans'.
Proof.
  unfold resolve_current_agent. intros H. split_res H. cbn zeta in H.
  destruct (negb (_ || _)); split_res H; [simplify_eq; by eapply shrinks_expect_agent|].
  destruct (bool_decide (inc_State _ = _)); split_res H; simplify_eq.
  - by eapply shrinks_agent_recovery.
  - by eapply shrinks_expect_agent.
Qed.

(** *** Targets *)
Lemma shrinks_run current state run state' : resolve_run current state run = Ok state' -> shrinks state.1 state'.1.
Proof.
  destruct state as [plans seen]. unfold resolve_run. intros H. split_res H. cbn zeta in H.
  assert (shrinks plans x1) as S by (destruct x0; split_res X1; by simplify_eq).
  destruct (TargetRunState_Terminal _); split_res H; simplify_eq; [done|].
  cbn. destruct x0; [done|]. by destruct S.
Qed.

Lemma shrinks_operation target q plans operation plans' :
  resolve_operation target q plans operation = Ok plans' -> shrinks plans plans'.
Proof.
  unfold resolve_operation. destruct (TargetOperationState_Terminal _); [by intros [= <-]|]. intros H. split_res H.
  apply Ok_inj in H as <-. by destruct q.
Qed.

Lemma shrinks_same plans p q :
  pp_targetTerminal q = pp_targetTerminal p -> pp_agentTerminal q = pp_agentTerminal p ->
  pp_agentWorkspaces q = pp_agentWorkspaces p -> pp_agents q = pp_agents p -> pp_targets q = pp_targets p ->
  pp_targetCleanupPlans q = pp_targetCleanupPlans p -> shrinks plans p -> shrinks plans q.
Proof.
  intros E1 E2 E3 E4 E5 E6 [S1 S2 S3 [S4 S5] S6 S7]. unfold terminal_of, targets_of in *. split; unfold terminal_of, targets_of.
  - by rewrite E1. - by rewrite E2. - congruence. - by rewrite E4, E5. - congruence.
  - transitivity p; [done|by apply keeps_equal].
Qed.

Lemma in_add_target kind plan plans : plan ∈ targets_of (add_target kind plan plans) kind.
Proof. rewrite targets_of_add, bool_decide_eq_true_2 by done. set_solver. Qed.

(** A target that has to be there is expected under its plan. *)
Definition expected_target plans target : Prop :=
  exists meta key plan, resolvePersistedTargetProvisioningPlan meta target key = Ok plan /\ plan ∈ targets_of plans (target_Kind target).

Lemma expected_target_shrinks plans plans' target : shrinks plans plans' -> expected_target plans target -> expected_target plans' target.
Proof. intros [_ _ _ [_ S]] (meta & key & plan & R & I). exists meta, key, plan. split; [done|]. by apply S. Qed.

Lemma shrinks_pending_reset target current bound plans plans' :
  resolve_pending_reset target current bound plans = Ok plans' ->
  shrinks plans plans' /\ (bound = true -> expected_target plans' target).
Proof.
  unfold resolve_pending_reset. intros H. split_res H. cbn zeta in H. split_res H. apply Ok_inj in H as <-.
  set (p1 := mark_target _ _ _ _) in *.
  assert (shrinks plans p1) as S1 by (etransitivity; [apply shrinks_add_target|apply shrinks_unmark]).
  assert (shrinks plans x4 /\ (bound = true -> expected_target x4 target)) as [S2 L].
  { destruct bound; split_res X4; simplify_eq; [|done]. split; [etransitivity; [exact S1|apply shrinks_add_target]|].
    intros _. eexists _, _, _. split; [eassumption|apply in_add_target]. }
  split; [by apply (shrinks_same _ x4)|done].
Qed.

Lemma shrinks_expect_target target current unbound incident recovery quarantine destruction plans plans' :
  expect_target target current unbound incident recovery quarantine destruction plans = Ok plans' ->
  shrinks plans plans' /\ expected_target plans' target.
Proof.
  unfold expect_target. intros H. split_res H. cbn zeta in H. split_res H. apply Ok_inj in H as <-.
  match goal with X : match incident with _ => _ end = Ok ?p |- _ => assert (shrinks (add_target (target_Kind target) x plans) p) as S end.
  { set (p0 := add_target _ _ _) in *. destruct incident; [|simplify_eq; destruct recovery as [[]|]; by apply (shrinks_same _ p0)].
    destruct (bool_decide _); split_res X1; simplify_eq; destruct recovery as [[]|]; by apply (shrinks_same _ p0). }
  match goal with |- shrinks _ ?p /\ _ => assert (shrinks (add_target (target_Kind target) x plans) p) as S' end.
  { eapply shrinks_same; [..|exact S]; by destruct quarantine, destruction, (_ && _). }
  split; [etransitivity; [apply shrinks_add_target|exact S']|]. eapply expected_target_shrinks; [exact S'|].
  eexists _, _, _. split; [eassumption|apply in_add_target].
Qed.

Lemma res_fold_shrinks {A B} (f : B -> A -> result B) (plans_of : B -> persistedPhysicalPlans) l b b' :
  (forall b x b', f b x = Ok b' -> shrinks (plans_of b) (plans_of b')) -> res_fold f l b = Ok b' -> shrinks (plans_of b) (plans_of b').
Proof.
  intros S H. apply (res_fold_inv (fun _ c => shrinks (plans_of b) (plans_of c)) f l b b' (reflexivity _)); [|done].
  intros done c x c' Sc _ E. etransitivity; [exact Sc|by eapply S].
Qed.

(** ** Generations that are over *)
Definition dead_agent_generation (view : ResearchSessionView) (g : AgentGenerationRecord) (key : string) (workspace : uuidV7) : Prop :=
  g ∈ agent_Generations (view_Agent view) /\
  agentRefKey <$> agentGenerationRef (agent_ID (view_Agent view)) (agen_Generation g) = Ok key /\
  agent_binding g = Ok true /\ parseID prefix_workspace (agen_WorkspaceID g) = Ok workspace /\
  (AgentGenerationState_Terminal (agen_State g) = true \/ leaseCleanupInProgress (view_Lease view) = true).

Definition dead_target_generation (view : ResearchSessionView) (target : TargetRecord) (g : TargetGenerationRecord) (key : string) : Prop :=
  g ∈ target_Generations target /\
  targetRefKey <$> targetGenerationRef (target_ID target) (tgen_Generation g) = Ok key /\
  target_binding g = Ok true /\
  (TargetGenerationState_Terminal (tgen_State g) = true \/ leaseCleanupInProgress (view_Lease view) = true) /\
  (forall run, run ∈ target_Runs target -> run_Generation run = tgen_Generation g -> TargetRunState_Terminal (run_State run) = true) /\
  (tgen_State g = TargetGenerationQuarantined -> tgen_Generation g = target_CurrentGeneration target ->
   leaseCleanupInProgress (view_Lease view) = true).

(** Every generation marked as removable belongs to one that is over; an agent's
    comes with its workspace. *)
Record marks_dead (views : list ResearchSessionView) plans : Prop := {
  md_agents : forall key, flag (pp_agentTerminal plans) key = true -> exists view g workspace,
    view ∈ views /\ dead_agent_generation view g key workspace /\ pp_agentWorkspaces plans !! key = Some workspace;
  md_targets : forall kind key, flag (terminal_of plans kind) key = true -> exists view target g,
    view ∈ views /\ target ∈ view_Targets view /\ target_Kind target = kind /\ dead_target_generation view target g key }.

Lemma shrinks_marks views plans plans' : shrinks plans plans' -> marks_dead views plans -> marks_dead views plans'.
Proof. intros [S1 S2 S3] [A T]. split; [intros key K; rewrite S3; by apply A, S2|intros kind key K; by apply T, S1]. Qed.

Lemma flag_fresh m key : m !! key = None -> flag m key = false.
Proof. unfold flag. by intros ->. Qed.

Lemma agent_generation_marks views view plans g plans' :
  view ∈ views -> g ∈ agent_Generations (view_Agent view) ->
  resolve_agent_generation view (leaseCleanupInProgress (view_Lease view)) plans g = Ok plans' ->
  marks_dead views plans -> marks_dead views plans'.
Proof.
  intros V G H [A T]. unfold resolve_agent_generation in H. split_res H. rewrite check_ok in X0. to_prop.
  set (key := agentRefKey x) in *. set (terminal := x1 && _) in H.
  assert (M : forall key', flag (<[key := terminal]> (pp_agentTerminal plans)) key' = true ->
    exists view' g' workspace, view' ∈ views /\ dead_agent_generation view' g' key' workspace /\
      pp_agentWorkspaces x2 !! key' = Some workspace).
  { intros key'. rewrite flag_insert. destruct (bool_decide_reflect (key' = key)) as [->|N].
    - intros E. subst terminal. rewrite !andb_true_iff, orb_true_iff in E. destruct E as [-> E]. cbn in X2. split_res X2. simplify_eq. cbn.
      exists view, g, x1. split; [done|]. split; [|by rewrite lookup_insert_eq]. split; [done|]. rewrite X. by split_and!.
    - intros K. destruct (A key' K) as (view' & g' & workspace & V' & D & W). exists view', g', workspace. split; [done|]. split; [done|].
      destruct x1; split_res X2; simplify_eq; cbn; [by rewrite lookup_insert_ne|done]. }
  assert (E : pp_agentTerminal x2 = pp_agentTerminal plans /\ pp_targetTerminal x2 = pp_targetTerminal plans)
    by (destruct x1; split_res X2; by simplify_eq).
  destruct E as [E1 E2]. cbn zeta in H.
  destruct (negb terminal); split_res H; apply Ok_inj in H as <-; (split; cbn; [rewrite E1; exact M|unfold terminal_of; cbn; rewrite E2; exact T]).
Qed.

(** The generations of a target are marked once each. *)
Lemma target_generations_marked target current cleanup preserve plans hb plans' hb' :
  res_fold (resolve_target_generation target current cleanup preserve) (target_Generations target) (plans, hb) = Ok (plans', hb') ->
  NoDup (tgen_Generation <$> target_Generations target) /\
  pp_agentTerminal plans' = pp_agentTerminal plans /\ pp_agentWorkspaces plans' = pp_agentWorkspaces plans /\
  forall kind key, flag (terminal_of plans' kind) key = true -> flag (terminal_of plans kind) key = true \/
    exists g, g ∈ target_Generations target /\ kind = target_Kind target /\
      targetRefKey <$> targetGenerationRef (target_ID target) (tgen_Generation g) = Ok key /\ target_binding g = Ok true /\
      ((preserve && (tgen_Generation g =? tgen_Generation current)%N = false /\ TargetGenerationState_Terminal (tgen_State g) = true) \/
       (cleanup = true /\ nonterminal_runs target (tgen_Generation g) = 0)).
Proof.
  set (marked := fun key (g : TargetGenerationRecord) => targetRefKey <$> targetGenerationRef (target_ID target) (tgen_Generation g) = Ok key).
  set (over := fun g => target_binding g = Ok true /\
    ((preserve && (tgen_Generation g =? tgen_Generation current)%N = false /\ TargetGenerationState_Terminal (tgen_State g) = true) \/
     (cleanup = true /\ nonterminal_runs target (tgen_Generation g) = 0))).
  set (I := fun done (b : persistedPhysicalPlans * bool) =>
    NoDup (tgen_Generation <$> done) /\
    (forall g, g ∈ done -> exists key, marked key g /\ terminal_of b.1 (target_Kind target) !! key <> None) /\
    pp_agentTerminal b.1 = pp_agentTerminal plans /\ pp_agentWorkspaces b.1 = pp_agentWorkspaces plans /\
    forall kind key, flag (terminal_of b.1 kind) key = true -> flag (terminal_of plans kind) key = true \/
      exists g, g ∈ target_Generations target /\ kind = target_Kind target /\ marked key g /\ over g).
  intros H. enough (I (target_Generations target) (plans', hb')) as (N & _ & A & W & K) by done.
  refine (res_fold_inv I _ _ _ _ _ _ H).
  { split; [by constructor|]. split; [by intros g ?%not_elem_of_nil|]. split; [done|]. split; [done|]. by left. }
  clear H. intros done [q h] g [q' h'] (N & F & A & W & K) G H. cbn [fst] in *.
  unfold resolve_target_generation in H. split_res H. rewrite check_ok in X0. to_prop. set (key := targetRefKey x) in *.
  assert (Mk : marked key g) by (unfold marked; by rewrite X).
  cbn zeta in H. set (terminal := x1 && _) in H.
  assert (Q : terminal_of q' = terminal_of (mark_target (target_Kind target) key terminal q) /\
    pp_agentTerminal q' = pp_agentTerminal q /\ pp_agentWorkspaces q' = pp_agentWorkspaces q).
  { destruct (negb terminal); split_res H; by simplify_eq. }
  clear H. destruct Q as (Q1 & Q2 & Q3). split; [|split; [|split; [cbn [fst]; congruence|split; [cbn [fst]; congruence|]]]].
  - rewrite fmap_app, NoDup_app. split; [done|]. split; [|by apply NoDup_singleton].
    intros n (g' & -> & D)%list_elem_of_fmap E%list_elem_of_singleton. destruct (F g' D) as (key' & M' & P). apply P.
    unfold marked in M'. rewrite E in M'. unfold marked in Mk. congruence.
  - intros g' D. cbn [fst]. rewrite Q1, terminal_of_mark, bool_decide_eq_true_2 by done.
    apply elem_of_app in D as [D| ->%list_elem_of_singleton].
    + destruct (F g' D) as (key' & M' & P). exists key'. split; [done|].
      destruct (decide (key' = key)) as [->|]; [by rewrite lookup_insert_eq|by rewrite lookup_insert_ne].
    + exists key. split; [done|]. by rewrite lookup_insert_eq.
  - intros kind key'. cbn [fst]. rewrite Q1, terminal_of_mark. case_bool_decide as E; [subst kind|by apply K].
    rewrite flag_insert. case_bool_decide as E; [subst key'|by apply K].
    subst terminal. intros E. right. exists g. split; [done|]. split; [done|]. split; [done|].
    unfold over. destruct x1; [|done]. split; [done|]. cbn in E. rewrite orb_true_iff, !andb_true_iff, negb_true_iff in E.
    destruct E as [E|[E1 E2]]; [by left|right]. by apply Nat.eqb_eq in E2.
Qed.

Lemma nonterminal_runs_0 target generation :
  nonterminal_runs target generation = 0%nat <->
  forall run, run ∈ target_Runs target -> run_Generation run = generation -> TargetRunState_Terminal (run_State run) = true.
Proof.
  unfold nonterminal_runs. rewrite length_zero_iff_nil, filter_empty_iff. split.
  - intros N run R E. destruct (TargetRunState_Terminal _) eqn:T; [done|]. by destruct (N run R).
  - intros A run R [E T]. by rewrite (A run R E) in T.
Qed.

(** Runs that are not over belong to the current generation, which is not. *)
Lemma resolve_runs_live current runs plans seen state :
  res_fold (resolve_run current) runs (plans, seen) = Ok state ->
  forall run, run ∈ runs -> TargetRunState_Terminal (run_State run) = false ->
    run_Generation run = tgen_Generation current /\ TargetGenerationState_Terminal (tgen_State current) = false.
Proof.
  intros H. refine (res_fold_inv (fun done _ => forall run, run ∈ done -> TargetRunState_Terminal (run_State run) = false ->
    run_Generation run = tgen_Generation current /\ TargetGenerationState_Terminal (tgen_State current) = false) _ _ _ _ _ _ H).
  { by intros run ?%not_elem_of_nil. }
  clear. intros done [q s] run b' F _ H run' [R| ->%list_elem_of_singleton]%elem_of_app T; [by apply F|].
  unfold resolve_run in H. split_res H. cbn zeta in H. rewrite T in H. split_res H. rewrite check_ok in X2. to_prop. naive_solver.
Qed.

Lemma targetGeneration_ok target current :
  targetGeneration target = Ok current -> current ∈ target_Generations target /\ tgen_Generation current = target_CurrentGeneration target.
Proof.
  unfold targetGeneration. rewrite from_option_err_ok. intros [I E]%find_some. split; [by apply list_elem_of_In|by apply N.eqb_eq].
Qed.

Lemma resolve_target_marks views view plans target plans' :
  view ∈ views -> target ∈ view_Targets view ->
  resolve_target view (leaseCleanupInProgress (view_Lease view)) plans target = Ok plans' ->
  marks_dead views plans -> marks_dead views plans'.
Proof.
  intros V Tg H M. unfold resolve_target in H.
  rewrite res_bind_ok in H. destruct H as (current & C & H). apply targetGeneration_ok in C as [C C'].
  rewrite res_bind_ok in H. destruct H as ([incident recovery] & _ & H). cbn zeta in H.
  rewrite res_bind_ok in H. destruct H as ([quarantine destruction] & _ & H).
  rewrite res_bind_ok in H. destruct H as ([p1 seen] & R & H).
  rewrite check_bind_ok in H. destruct H as [_ H].
  rewrite res_bind_ok in H. destruct H as (p2 & O & H).
  rewrite res_bind_ok in H. destruct H as ([p3 hb] & G & H).
  rewrite !check_bind_ok in H. destruct H as (_ & _ & H).
  assert (S1 : shrinks plans p1) by (apply (res_fold_shrinks _ fst) in R; [done|by intros; eapply shrinks_run]).
  assert (S2 : shrinks p1 p2) by (apply (res_fold_shrinks _ (fun p => p)) in O; [done|by intros; eapply shrinks_operation]).
  pose proof (resolve_runs_live _ _ _ _ _ R) as Live. clear R O.
  apply target_generations_marked in G as (N & A & W & K).
  assert (M3 : marks_dead views p3).
  { pose proof (shrinks_marks _ _ _ S2 (shrinks_marks _ _ _ S1 M)) as [Ma Mt]. split.
    - intros key. rewrite A, W. apply Ma.
    - intros kind key E. apply K in E as [E|(g & I & -> & Ek & B & D)]; [by apply Mt|]. exists view, target, g.
      do 3 (split; [done|]). split; [done|]. split; [done|]. split; [done|].
      assert (Cur : tgen_Generation g = tgen_Generation current -> g = current).
      { intros E. by eapply (NoDup_fmap_inj tgen_Generation). }
      split; [destruct D as [[_ D]|[D _]]; auto|]. split.
      + destruct D as [[_ D]|[_ D]]; [|by apply nonterminal_runs_0]. intros run R E.
        destruct (TargetRunState_Terminal _) eqn:Tm; [done|]. destruct (Live run R Tm) as [E' L].
        rewrite (Cur (eq_trans (eq_sym E) E')) in D. congruence.
      + intros Q E. destruct D as [[D _]|[D _]]; [|done]. rewrite <-C' in E. rewrite (Cur E) in *.
        rewrite Q, N.eqb_refl, bool_decide_eq_true_2, andb_true_r in D by done. cbn in D. by apply negb_false_iff in D. }
  clear M S1 S2 K A W Live N. destruct (_ && negb _); [by simplify_eq|].
  rewrite res_bind_ok in H. destruct H as (bound & _ & H). rewrite check_bind_ok in H. destruct H as [_ H].
  destruct (_ && (_ =? 0)%nat); [by simplify_eq|].
  rewrite unit_bind_ok in H. destruct H as [_ H]. rewrite check_bind_ok in H. destruct H as [_ H].
  eapply shrinks_marks; [|exact M3]. destruct (_ && _); [by eapply shrinks_pending_reset|by eapply shrinks_expect_target].
Qed.

Lemma resolve_view_marks views view plans plans' :
  view ∈ views -> resolve_view plans view = Ok plans' -> marks_dead views plans -> marks_dead views plans'.
Proof.
  intros V H M. unfold resolve_view in H. cbn zeta in H.
  rewrite res_bind_ok in H. destruct H as (p1 & G & H).
  assert (M1 : marks_dead views p1).
  { refine (res_fold_inv (fun _ p => marks_dead views p) _ _ _ _ M _ G). intros done p g p' Mp I E. by eapply agent_generation_marks. }
  rewrite res_bind_ok in H. destruct H as (current & _ & H).
  rewrite res_bind_ok in H. destruct H as ([p2 next] & C & H).
  assert (M2 : marks_dead views p2).
  { destruct (_ && _); [|by simplify_eq]. eapply shrinks_marks; [by eapply shrinks_current_agent|done]. }
  destruct next; [by simplify_eq|].
  refine (res_fold_inv (fun _ p => marks_dead views p) _ _ _ _ M2 _ H). intros done p t p' Mp I E. by eapply resolve_target_marks.
Qed.

Lemma resolved_plans_marks {SS : SliceSort} views plans :
  resolvePersistedPhysicalPlans views = Ok plans -> marks_dead views plans.
Proof.
  unfold resolvePersistedPhysicalPlans. rewrite res_bind_ok. intros (p & H & E). apply Ok_inj in E as <-.
  assert (marks_dead views p) as [A T].
  { refine (res_fold_inv (fun _ p => marks_dead views p) _ _ _ _ _ _ H); [by split|].
    intros done q view q' M V E. by eapply resolve_view_marks. }
  by split.
Qed.
End Plans.

(** ** Calls *)
Create HintDb calls.
Section Calls.
Context `{PR : PlanResolution} {DR : Drivers} {SS : SliceSort}.

(** Whatever the drivers answer, the computation only makes calls that satisfy [P]. *)
Definition calls_only (P : driver_call -> Prop) {A} (m : DM A) : Prop :=
  forall calls, exists new, (m calls).2 = calls ++ new /\ Forall P new.

Section Only.
Context (P : driver_call -> Prop).
Lemma only_ret {A} (a : A) : calls_only P (mret a).
Proof. intros calls. exists []. by rewrite app_nil_r. Qed.
Lemma only_lift {A} (r : cresult A) : calls_only P (dm_lift r).
Proof. intros calls. exists []. by rewrite app_nil_r. Qed.
Lemma only_ended cleanup : calls_only P (endedCleanupContext cleanup).
Proof. intros calls. exists []. by rewrite app_nil_r. Qed.
Lemma only_ask {A} call (answer : history -> result A) : P call -> calls_only P (ask call answer).
Proof. intros Pc calls. exists [call]. split; [done|]. by constructor. Qed.
Lemma only_attempt {A} (m : DM A) : calls_only P m -> calls_only P (attempt_dm m).
Proof. intros M calls. destruct (M calls) as (new & E & F). exists new. unfold attempt_dm. by destruct (m calls). Qed.
Lemma only_bind_at {A B} (m : DM A) (f : A -> DM B) :
  calls_only P m -> (forall calls a calls', m calls = (Ok a, calls') -> calls_only P (f a)) -> calls_only P (m ≫= f).
Proof.
  intros M F calls. destruct (M calls) as (new & E & N). unfold mbind, DM_bind. destruct (m calls) as [[a|e] calls'] eqn:R; cbn in E; subst.
  - destruct (F _ _ _ R (calls ++ new)) as (new' & E & N'). exists (new ++ new'). rewrite E, app_assoc. split; [done|]. by apply Forall_app.
  - by exists new.
Qed.
Lemma only_bind {A B} (m : DM A) (f : A -> DM B) : calls_only P m -> (forall a, calls_only P (f a)) -> calls_only P (m ≫= f).
Proof. intros M F. by apply only_bind_at. Qed.
Lemma only_fold {A B} (f : B -> A -> DM B) l b : (forall b x, x ∈ l -> calls_only P (f b x)) -> calls_only P (dm_fold f l b).
Proof.
  revert b. induction l as [|x l IH]; intros b F; cbn; [apply only_ret|].
  apply only_bind; [apply F; left|]. intros b'. apply IH. intros c y Y. apply F. by right.
Qed.
End Only.
#[local] Hint Resolve only_ret only_lift only_ended only_ask only_attempt : calls.
#[local] Hint Extern 3 (calls_only _ (_ ≫= _)) => apply only_bind; [|intros] : calls.
#[local] Hint Extern 3 (calls_only _ (match ?x with _ => _ end)) => destruct x : calls.
#[local] Hint Extern 3 (calls_only _ (dm_fold _ _ _)) => apply only_fold; intros : calls.

Lemma only_present P id : P (WorkspaceInspect id) -> calls_only P (workspacePresent id).
Proof. intros. unfold workspacePresent. auto 10 with calls. Qed.
#[local] Hint Resolve only_present : calls.

Lemma only_destroy P ref workspace mode :
  P (AgentStop ref mode) -> P (AgentDestroy ref) -> P (WorkspaceInspect workspace) -> P (WorkspaceMount workspace) ->
  P (WorkspacePreview workspace) -> (forall revision, P (WorkspaceSeal workspace revision)) -> P (WorkspaceRelease workspace) ->
  calls_only P (destroyAgentAndWorkspace ref workspace mode).
Proof.
  intros. assert (calls_only P (sealWorkspace workspace)) by (unfold sealWorkspace, seal_mounted; auto 20 with calls).
  unfold destroyAgentAndWorkspace, cleanup_stage, requireWorkspaceAbsent. auto 30 with calls.
Qed.

Lemma only_inventories P plans reports : (forall kind request, P (TargetInventory kind request)) ->
  calls_only P (inventory_targets plans reports).
Proof. intros. unfold inventory_targets, reconcileTargetInventory. auto 10 with calls. Qed.
Lemma only_verify P plans destroyed stopped reports :
  (forall kind request, P (TargetInventory kind request)) -> (forall request, P (AgentInventory request)) ->
  calls_only P (verify_removal plans destroyed stopped reports).
Proof.
  intros. unfold verify_removal, reconcileAgentInventory. pose proof (only_inventories P plans). auto 20 with calls.
Qed.
Lemma only_candidates P plans report : (forall id, P (WorkspaceInspect id)) ->
  calls_only P (terminalAgentWorkspaceCleanupCandidates plans report).
Proof. intros. unfold terminalAgentWorkspaceCleanupCandidates, workspace_candidate. auto 10 with calls. Qed.

Lemma DM_bind_ok {A B} (m : DM A) (f : A -> DM B) calls b calls' :
  (m ≫= f) calls = (Ok b, calls') <-> exists a c, m calls = (Ok a, c) /\ f a c = (Ok b, calls').
Proof. unfold mbind, DM_bind. destruct (m calls) as [[a|e] c]; naive_solver. Qed.
Lemma dm_lift_ok {A} (r : cresult A) calls a calls' : dm_lift r calls = (Ok a, calls') <-> r = Ok a /\ calls' = calls.
Proof. unfold dm_lift. naive_solver. Qed.
Lemma failing_ok {A} (r : result A) a : failing r = Ok a <-> r = Ok a.
Proof. destruct r; cbn; naive_solver. Qed.
Lemma dm_fold_inv {A B} (I : list A -> B -> Prop) (f : B -> A -> DM B) l b calls b' calls' :
  I [] b -> (forall done b x c b' c', I done b -> x ∈ l -> f b x c = (Ok b', c') -> I (done ++ [x]) b') ->
  dm_fold f l b calls = (Ok b', calls') -> I l b'.
Proof.
  intros I0 S. assert (forall pre rest b calls, I pre b -> rest ⊆ l -> dm_fold f rest b calls = (Ok b', calls') -> I (pre ++ rest) b') as G.
  { intros pre rest. revert pre. induction rest as [|x rest IH]; intros pre c cs Ic Sub H; cbn in H.
    - unfold mret, DM_ret in H. simplify_eq. by rewrite app_nil_r.
    - apply DM_bind_ok in H as (c' & cs' & F & H). rewrite cons_middle, app_assoc. apply (IH _ c' cs'); [|set_solver|done].
      eapply S; [done|set_solver|done]. }
  intros H. by apply (G [] l b calls).
Qed.
Lemma joined_ok errors u : joined errors = Ok u -> Forall (fun e => e = None) errors.
Proof.
  unfold joined. destruct (omap id errors) eqn:E; [|done]. intros _. apply Forall_forall. intros [e|] I; [|done].
  assert (e ∈ omap (M:=list) id errors) as X by (apply list_elem_of_omap; by exists (Some e)). rewrite E in X. by apply not_elem_of_nil in X.
Qed.

(** ** What is found removable *)
Lemma assess_retained_ok plans terminal retained report r :
  assessAgentReconciliationAllowRetained plans terminal retained report = Ok r ->
  exists plans' report', r = assessAgentReconciliation plans' terminal report' /\
    forall o, o ∈ arep_Expected report' -> o ∈ arep_Expected report.
Proof.
  unfold assessAgentReconciliationAllowRetained. case_bool_decide; [intros [= <-]; by eexists _, _|].
  rewrite res_bind_ok. intros ([seen kept] & K & E). rewrite check_bind_ok in E. destruct E as [_ E]. apply Ok_inj in E as <-.
  apply retained_loop_ok in K as [-> _]. eexists _, _. split; [done|]. cbn. intros o [_ H']%list_elem_of_filter. done.
Qed.

Lemma agent_accepted_true terminal o : agent_accepted terminal o true ->
  flag terminal (agentRefKey (aobs_Ref o)) = true /\ exactPlanMatchedAgentObservation o = true.
Proof.
  unfold agent_accepted, exactPlanMatchedAgentObservation. intros A. inversion A; cbn in *; [done|]. split; [done|].
  rewrite bool_decide_eq_false_2 by done.
  rewrite H0. by destruct H3 as [-> | ->].
Qed.

Lemma assess_agents_ok plans report refs ref :
  assess_agents plans report = Ok refs -> ref ∈ refs ->
  exists o, o ∈ arep_Expected report /\ aobs_Ref o = ref /\ flag (pp_agentTerminal plans) (agentRefKey ref) = true /\
    exactPlanMatchedAgentObservation o = true.
Proof.
  unfold assess_agents. rewrite res_bind_ok. intros (r & A & E) I. rewrite failing_ok in A.
  apply assess_retained_ok in A as (plans' & report' & -> & Sub). pose proof (assess_agent_clean plans' (pp_agentTerminal plans) report') as [_ S].
  destruct (assessAgentReconciliation _ _ _) as [safe issues]. cbn in *. destruct issues; [|done]. apply Ok_inj in E as ->.
  apply S in I as (o & O & <- & (F & M)%agent_accepted_true); [|done]. exists o. auto.
Qed.

Lemma target_accepted_true terminal missing stopped o : target_accepted terminal missing stopped o true ->
  flag terminal (targetRefKey (tobs_Ref o)) = true /\
  (exactMissingTargetObservation o = true /\ tobs_CleanupRequired o = true \/
   tobs_PlanMatched o = true /\ tobs_RuntimeID o <> "").
Proof.
  unfold target_accepted, exactMissingTargetObservation. intros A. inversion A; cbn in *; split; try done; [left|by right].
  rewrite !bool_decide_eq_true_2 by done. by rewrite H2.
Qed.

Lemma assess_targets_ok plans missing stopped reports kind refs ref :
  assess_targets plans missing stopped reports kind = Ok refs -> ref ∈ refs ->
  exists o, o ∈ trep_Expected (report_of reports kind) /\ tobs_Ref o = ref /\
    flag (terminal_of plans kind) (targetRefKey ref) = true /\
    (exactMissingTargetObservation o = true /\ tobs_CleanupRequired o = true \/ tobs_PlanMatched o = true /\ tobs_RuntimeID o <> "").
Proof.
  unfold assess_targets. intros E I. set (ps := allTargetInventoryPlans _) in E.
  pose proof (assess_target_clean ps (terminal_of plans kind) (flags_of missing kind) (flags_of stopped kind) (report_of reports kind)) as [_ S].
  destruct (assessTargetReconciliationWithRecovery _ _ _ _ _) as [safe issues]. cbn in *. destruct issues; [|done]. apply Ok_inj in E as ->.
  apply S in I as (o & O & <- & (F & M)%target_accepted_true); [|done]. exists o. auto.
Qed.

Lemma sort_by_elem {A} (key : A -> string) l x : x ∈ sort_by key l <-> x ∈ l.
Proof. unfold sort_by. by rewrite sort_Slice_permutes. Qed.

Lemma candidates_ok plans report calls refs calls' ref :
  terminalAgentWorkspaceCleanupCandidates plans report calls = (Ok refs, calls') -> ref ∈ refs ->
  exists o, o ∈ arep_Expected report /\ aobs_Ref o = ref /\ flag (pp_agentTerminal plans) (agentRefKey ref) = true /\
    exactMissingAgentObservation o = true.
Proof.
  unfold terminalAgentWorkspaceCleanupCandidates. rewrite DM_bind_ok. intros (l & c & H & E) I. unfold mret, DM_ret in E. simplify_eq.
  rewrite sort_by_elem in I. revert ref I.
  refine (dm_fold_inv (fun _ l => forall ref, ref ∈ l -> exists o, o ∈ arep_Expected report /\ aobs_Ref o = ref /\
    flag (pp_agentTerminal plans) (agentRefKey ref) = true /\ exactMissingAgentObservation o = true) _ _ _ _ _ _ _ _ H);
    [by intros ref ?%not_elem_of_nil|].
  clear. intros done b o c b' c' F O H ref. unfold workspace_candidate in H.
  destruct (flag _ _) eqn:T; cbn in H; [|unfold mret, DM_ret in H; simplify_eq; apply F].
  destruct (exactMissingAgentObservation o) eqn:M; cbn in H; [|unfold mret, DM_ret in H; simplify_eq; apply F].
  apply DM_bind_ok in H as (id & c1 & _ & H). apply DM_bind_ok in H as (p & c2 & _ & H). unfold mret, DM_ret in H. simplify_eq.
  destruct p; [|apply F]. intros [I|I%list_elem_of_singleton]%elem_of_app; [by apply F|]. subst. exists o. auto.
Qed.

(** Why an agent or a target may be removed: its generation was marked, and the
    inventory that was assessed showed it gone or as its plan. *)
Definition removable_agent plans (agents : AgentWorkspaceReconciliationReport) ref : Prop :=
  flag (pp_agentTerminal plans) (agentRefKey ref) = true /\
  exists o, o ∈ arep_Expected agents /\ aobs_Ref o = ref /\
    (exactPlanMatchedAgentObservation o = true \/ exactMissingAgentObservation o = true).
Definition removable_target plans (reports : target_reports) kind ref : Prop :=
  flag (terminal_of plans kind) (targetRefKey ref) = true /\
  exists o, o ∈ trep_Expected (report_of reports kind) /\ tobs_Ref o = ref /\
    (exactMissingTargetObservation o = true /\ tobs_CleanupRequired o = true \/ tobs_PlanMatched o = true /\ tobs_RuntimeID o <> "").

Lemma assess_all_ok plans missing stopped agents reports calls agentOrphans targetOrphans calls' :
  assess_all plans missing stopped agents reports calls = (Ok (agentOrphans, targetOrphans), calls') ->
  (exists refs, assess_agents plans agents = Ok refs /\ refs ⊆ agentOrphans) /\
  Forall (removable_agent plans agents) agentOrphans /\
  targetOrphans.*1 = sortedTargetKinds /\
  Forall (fun r => assess_targets plans missing stopped reports r.1 = Ok r.2 /\
                   Forall (removable_target plans reports r.1) r.2) targetOrphans.
Proof.
  unfold assess_all. rewrite DM_bind_ok. intros (orphans & c1 & A & H). rewrite DM_bind_ok in H. destruct H as ([] & c2 & J & H).
  apply dm_lift_ok in J as [J ->]. unfold mret, DM_ret in H. simplify_eq. apply joined_ok in J.
  rewrite Forall_cons, Forall_fmap, Forall_fmap in J. destruct J as [J1 J2].
  destruct orphans as [orphans|]; [|done]. clear J1. unfold attempt_dm in A.
  match type of A with (let '(_, _) := ?m in _) = _ => destruct m as [r c] eqn:E end. simplify_eq.
  rewrite DM_bind_ok in E. destruct E as (refs & c3 & E1 & E). apply dm_lift_ok in E1 as [E1 ->].
  rewrite DM_bind_ok in E. destruct E as (refs' & c4 & E2 & E). unfold mret, DM_ret in E. simplify_eq.
  split; [exists refs; split; [done|set_solver]|]. split; [|split].
  - apply Forall_forall. intros ref [I|I]%elem_of_app.
    + destruct (assess_agents_ok _ _ _ _ E1 I) as (o & O & <- & F & M). split; [done|]. exists o. auto.
    + destruct (candidates_ok _ _ _ _ _ _ E2 I) as (o & O & <- & F & M). split; [done|]. exists o. auto.
  - rewrite <-!list_fmap_compose. apply list_fmap_id.
  - rewrite !Forall_fmap. eapply Forall_impl; [exact J2|]. cbn. intros kind E.
    destruct (assess_targets _ _ _ _ _) as [l|] eqn:T; [|done]. split; [done|]. apply Forall_forall. intros ref I.
    destruct (assess_targets_ok _ _ _ _ _ _ _ T I) as (o & O & <- & F & M). split; [done|]. exists o. auto.
Qed.

(** ** Interrupted resets *)
(** Exactly one half of an interrupted reset is there, as its plan; an unbound
    successor was never made, so the predecessor still is. *)
Definition reset_safe (reports : Domain.TargetKind -> TargetReconciliationReport) (p : persistedPendingTargetReset) : Prop :=
  let report := reports (target_Kind (reset_target p)) in
  exists previous, exactTargetObservation report (reset_previous p) = Ok previous /\
    if reset_currentExpected p then
      exists current, exactTargetObservation report (reset_current p) = Ok current /\
        (exactAdoptedTargetObservation previous = true /\ exactMissingTargetObservation current = true \/
         exactMissingTargetObservation previous = true /\ exactAdoptedTargetObservation current = true)
    else exactAdoptedTargetObservation previous = true.

(** The predecessor of a finished reset that left residue. *)
Definition superseded (reports : Domain.TargetKind -> TargetReconciliationReport) (p : persistedPendingTargetReset) : Prop :=
  let report := reports (target_Kind (reset_target p)) in
  exists previous current, exactTargetObservation report (reset_previous p) = Ok previous /\
    exactMissingTargetObservation previous = true /\ tobs_CleanupRequired previous = true /\
    exactTargetObservation report (reset_current p) = Ok current /\ exactAdoptedTargetObservation current = true.

Lemma flag_addTargetRef refs kind ref kind' key :
  flag (flags_of (addTargetRef refs kind ref) kind') key = true ->
  (kind' = kind /\ key = targetRefKey ref) \/ flag (flags_of refs kind') key = true.
Proof.
  unfold addTargetRef, flags_of. destruct (decide (kind' = kind)) as [->|N]; [|rewrite lookup_insert_ne by done; by right].
  rewrite lookup_insert_eq. cbn. rewrite flag_insert. case_bool_decide; subst; [by left|by right].
Qed.

(** One of the two generations of an interrupted reset. *)
Definition reset_half (pending : list persistedPendingTargetReset) kind key : Prop :=
  exists p, p ∈ pending /\ target_Kind (reset_target p) = kind /\
    (targetRefKey (reset_previous p) = key \/ targetRefKey (reset_current p) = key).
Definition reset_residue (pending : list persistedPendingTargetReset) reports kind key : Prop :=
  exists p, p ∈ pending /\ target_Kind (reset_target p) = kind /\ targetRefKey (reset_previous p) = key /\ superseded reports p.
Lemma reset_half_mono l l' kind key : l ⊆ l' -> reset_half l kind key -> reset_half l' kind key.
Proof. intros S (p & I & H). exists p. auto. Qed.
Lemma reset_residue_mono l l' reports kind key : l ⊆ l' -> reset_residue l reports kind key -> reset_residue l' reports kind key.
Proof. intros S (p & I & H). exists p. auto. Qed.
Lemma reset_residue_half l reports kind key : reset_residue l reports kind key -> reset_half l kind key.
Proof. intros (p & I & K & E & _). exists p. auto. Qed.

Lemma pending_reset_ok reports s p s' :
  pending_reset reports s p = Ok s' -> reset_safe reports p /\
  (forall kind key, flag (flags_of (rs_cleanupRequired s') kind) key = true ->
     flag (flags_of (rs_cleanupRequired s) kind) key = true \/ reset_residue [p] reports kind key) /\
  (forall kind key, flag (flags_of (rs_allowedMissing s') kind) key = true ->
     flag (flags_of (rs_allowedMissing s) kind) key = true \/ reset_half [p] kind key).
Proof.
  unfold pending_reset. rewrite res_bind_ok. intros (previous & P & H). unfold reset_safe.
  destruct (reset_currentExpected p); cbn in H; setoid_rewrite P.
  - rewrite res_bind_ok in H. destruct H as (current & K & H). setoid_rewrite K.
    destruct (exactAdoptedTargetObservation previous && exactMissingTargetObservation current) eqn:E1;
      [|destruct (exactMissingTargetObservation previous && exactAdoptedTargetObservation current) eqn:E2; [|done]];
      apply Ok_inj in H as <-; rewrite andb_true_iff in *; (split; [eauto 6|split]); cbn; intros kind key E; try (by left).
    + apply flag_addTargetRef in E as [[-> ->]|E]; [right|by left]. exists p. set_solver.
    + destruct (tobs_CleanupRequired previous) eqn:U; [apply flag_addTargetRef in E as [[-> ->]|E]|]; [right|by left..].
      exists p. split; [set_solver|]. split; [done|]. split; [done|]. exists previous, current. rewrite P, K. tauto.
    + apply flag_addTargetRef in E as [[-> ->]|E]; [right|by left]. exists p. set_solver.
  - rewrite check_bind_ok in H. destruct H as [E H]. apply Ok_inj in H as <-. split; [by eauto|]. auto.
Qed.

Lemma requireSafe_ok pending reports safety :
  requireSafePendingTargetResets pending reports = Ok safety ->
  Forall (reset_safe reports) pending /\
  (forall kind key, flag (flags_of (rs_cleanupRequired safety) kind) key = true -> reset_residue pending reports kind key) /\
  (forall kind key, flag (flags_of (rs_allowedMissing safety) kind) key = true -> reset_half pending kind key).
Proof.
  intros H. refine (res_fold_inv (fun done safety => Forall (reset_safe reports) done /\
    (forall kind key, flag (flags_of (rs_cleanupRequired safety) kind) key = true -> reset_residue done reports kind key) /\
    (forall kind key, flag (flags_of (rs_allowedMissing safety) kind) key = true -> reset_half done kind key)) _ _ _ _ _ _ H).
  { split; [done|]. cbn. unfold flags_of. split; intros kind key; by rewrite lookup_empty. }
  clear. intros done s p s' (F & C & A) _ H. apply pending_reset_ok in H as (S & C' & A'). rewrite Forall_app, Forall_singleton.
  split; [done|]. split; intros kind key E.
  - destruct (C' kind key E) as [E'|X]; [apply C in E' as X|]; (eapply reset_residue_mono; [|exact X]); set_solver.
  - destruct (A' kind key E) as [E'|X]; [apply A in E' as X|]; (eapply reset_half_mono; [|exact X]); set_solver.
Qed.

Lemma flags_of_insert flags kind key b kind' key' :
  flag (flags_of (<[kind := <[key := b]> (flags_of flags kind)]> flags) kind') key' = true ->
  b = true /\ kind' = kind /\ key' = key \/ flag (flags_of flags kind') key' = true.
Proof.
  unfold flags_of. destruct (decide (kind' = kind)) as [->|N]; [|rewrite lookup_insert_ne by done; by right].
  rewrite lookup_insert_eq. cbn. rewrite flag_insert. case_bool_decide; subst; [left|right]; done.
Qed.

(** Whatever the merged authorities allow, one of them does. *)
Lemma merge_ok sets kind key :
  flag (flags_of (mergeAllowedTargetMissing sets) kind) key = true -> exists flags, flags ∈ sets /\ flag (flags_of flags kind) key = true.
Proof.
  set (from := fun (l : list target_flags) (m : target_flags) => forall kind key, flag (flags_of m kind) key = true ->
    exists flags, flags ∈ l /\ flag (flags_of flags kind) key = true).
  assert (G : forall l pre m, from pre m -> from (pre ++ l) (fold_left (fun merged set =>
    fold_left (fun merged '(kind, refs) =>
      fold_left (fun merged '(key, allowed) =>
        if allowed : bool then <[kind := <[key := true]> (flags_of merged kind)]> merged else merged)
        (map_to_list refs) merged) (map_to_list set) merged) l m)).
  { induction l as [|flags l IH]; intros pre m F; cbn; [by rewrite app_nil_r|].
    rewrite cons_middle, app_assoc. apply IH.
    assert (F' : from (pre ++ [flags]) m) by (intros k k' E; destruct (F k k' E) as (f & I & ?); exists f; set_solver).
    clear F IH. assert (I : map_to_list flags ⊆ map_to_list flags) by done. revert I F'.
    generalize (map_to_list flags) at 1 3. intros entries. revert m. induction entries as [|[k refs] entries IH]; intros m I F; cbn; [done|].
    apply IH; [set_solver|]. clear IH.
    assert (K : flags !! k = Some refs) by (apply elem_of_map_to_list, I; left).
    assert (J : map_to_list refs ⊆ map_to_list refs) by done. revert J F. clear I.
    generalize (map_to_list refs) at 1 3. intros keys. revert m. induction keys as [|[k' b] keys IH]; intros m J F; cbn; [done|].
    apply IH; [set_solver|]. destruct b; [|done]. intros k1 k2 E. apply flags_of_insert in E as [(_ & -> & ->)|E]; [|by apply F].
    exists flags. split; [set_solver|]. assert (refs !! k' = Some true) as R by (apply elem_of_map_to_list, J; left).
    unfold flags_of, flag. rewrite K. cbn. by rewrite R. }
  intros E. eapply (G sets [] ∅); [|exact E]. intros k k'. unfold flags_of. by rewrite lookup_empty.
Qed.

Lemma flag_entries_elem flags kind key b :
  (kind, key, b) ∈ flag_entries flags <-> exists m, flags !! kind = Some m /\ m !! key = Some b.
Proof.
  unfold flag_entries. rewrite list_elem_of_bind. split.
  - intros ([kind' m] & ([key' b'] & E & I)%list_elem_of_fmap & J). cbn in *. simplify_eq.
    apply elem_of_map_to_list in I, J. eauto.
  - intros (m & K & E). exists (kind, m). split; [|by apply elem_of_map_to_list]. apply list_elem_of_fmap.
    exists (key, b). split; [done|]. by apply elem_of_map_to_list.
Qed.

Lemma authorize_ok plans required plans' :
  authorizePendingTargetCleanup plans required = Ok plans' ->
  plans' = plans <| pp_targetTerminal := pp_targetTerminal plans' |> /\
  forall kind key, flag (terminal_of plans' kind) key = true ->
    flag (terminal_of plans kind) key = true \/ flag (flags_of required kind) key = true.
Proof.
  intros H. refine (res_fold_inv (fun _ q => q = plans <| pp_targetTerminal := pp_targetTerminal q |> /\
    forall kind key, flag (terminal_of q kind) key = true ->
    flag (terminal_of plans kind) key = true \/ flag (flags_of required kind) key = true) _ _ _ _ _ _ H).
  { split; [by destruct plans|auto]. }
  clear H. intros done q [[kind key] b] q' [E F] I H. unfold authorize_entry in H. destruct b; cbn [negb] in H; [|by simplify_eq].
  rewrite !check_bind_ok in H. destruct H as (_ & _ & H). apply Ok_inj in H as <-.
  split; [rewrite E at 1; done|]. intros kind' key'. rewrite terminal_of_mark. case_bool_decide; subst; [|apply F].
  rewrite flag_insert. case_bool_decide; subst; [|apply F]. intros _. right.
  apply flag_entries_elem in I as (m & K & M). unfold flags_of, flag. rewrite K. cbn. by rewrite M.
Qed.

(** ** What startup may do *)
Definition allowed_call (views : list ResearchSessionView) plans (agents : AgentWorkspaceReconciliationReport)
    (reports : target_reports) (call : driver_call) : Prop :=
  match call with
  | AgentStop ref _ | AgentDestroy ref =>
      (exists view g workspace, view ∈ views /\ dead_agent_generation view g (agentRefKey ref) workspace) /\
      exists o, o ∈ arep_Expected agents /\ aobs_Ref o = ref /\
        (exactPlanMatchedAgentObservation o = true \/ exactMissingAgentObservation o = true)
  | WorkspaceMount id | WorkspacePreview id | WorkspaceSeal id _ | WorkspaceRelease id =>
      exists view g key, view ∈ views /\ dead_agent_generation view g key id
  | TargetDestroy kind ref =>
      ((exists view target g, view ∈ views /\ target ∈ view_Targets view /\ target_Kind target = kind /\
          dead_target_generation view target g (targetRefKey ref)) \/
       reset_residue (pp_pendingTargetResets plans) (report_of reports) kind (targetRefKey ref)) /\
      exists o, o ∈ trep_Expected (report_of reports kind) /\ tobs_Ref o = ref /\
        (exactMissingTargetObservation o = true /\ tobs_CleanupRequired o = true \/ tobs_PlanMatched o = true /\ tobs_RuntimeID o <> "")
  | AgentInventory _ | TargetInventory _ _ | WorkspaceInspect _ => True
  end.

(** C6: Settling the inventory at startup, whatever the drivers report and
    answer, stops, destroys, seals or releases only resources of generations
    that are over (terminal, or of a lease that is being terminated), that the
    inventory identified as their plan or reported gone, and never a target
    generation with a run that is not over nor a quarantined one that is kept as
    evidence.  The one exception is the residue of a predecessor that the
    inventory reports gone while its successor runs. *)
Theorem startup_destroys_only_dead views plans destroyedMissing agents reports calls :
  resolvePersistedPhysicalPlans views = Ok plans ->
  exists new, (settle_inventory plans destroyedMissing agents reports calls).2 = calls ++ new /\
    Forall (allowed_call views plans agents reports) new.
Proof.
  intros R%resolved_plans_marks. revert calls. change (calls_only (allowed_call views plans agents reports)
    (settle_inventory plans destroyedMissing agents reports)).
  unfold settle_inventory. apply only_bind_at; [apply only_lift|]. intros _ safety _ [S _]%dm_lift_ok.
  rewrite failing_ok in S. apply requireSafe_ok in S as (_ & S & _).
  apply only_bind_at; [apply only_lift|]. intros _ plans' _ [A _]%dm_lift_ok. rewrite failing_ok in A.
  apply authorize_ok in A as [E A]. cbn zeta.
  pose proof (only_candidates (allowed_call views plans agents reports) plans' agents (fun _ => I)) as Cd.
  apply only_bind_at; [unfold assess_all; cbn zeta; auto 20 with calls|].
  intros c [agentOrphans targetOrphans] c' (_ & Ag & _ & Tg)%assess_all_ok. case_match; [apply only_ret|].
  apply only_bind; [apply only_fold|intros _; apply only_bind; [apply only_fold|intros _]].
  - intros _ ref I. rewrite Forall_forall in Ag. destruct (Ag ref I) as [F O]. rewrite E in F.
    destruct (md_agents _ _ R _ F) as (view & g & workspace & V & D & W). unfold remove_agent.
    apply only_bind_at; [apply only_lift|]. intros _ w _ [L _]%dm_lift_ok. rewrite from_option_err_ok, E in L. cbn in L. simplify_eq.
    assert (exists view g key, view ∈ views /\ dead_agent_generation view g key workspace) by eauto.
    apply only_destroy; cbn; eauto 10.
  - intros _ [kind refs] I. rewrite Forall_forall in Tg. destruct (Tg _ I) as [_ Rm]. cbn in Rm. rewrite Forall_forall in Rm.
    apply only_fold. intros _ ref J. destruct (Rm ref J) as [F O]. unfold remove_target.
    apply only_bind; [apply only_ask; cbn; split; [|exact O]|intros; apply only_lift].
    destruct (A _ _ F) as [F'|F']; [left; by apply (md_targets _ _ R)|right; by apply S].
  - apply only_bind; [by apply only_verify|]. intros [? ?]. apply only_ret.
Qed.
End Calls.

(** ** What has to be there *)
Section Live.
Context `{PR : PlanResolution}.
Implicit Types plans : persistedPhysicalPlans.

(** The resolver returns the plan of the generation it is asked for. *)
Definition plans_faithful : Prop :=
  (forall key view plan g, resolvePersistedAgent key view = Ok plan -> currentAgentGeneration (view_Agent view) = Ok g ->
     agentGenerationRef (agent_ID (view_Agent view)) (agen_Generation g) = Ok (agent_plan_ref (app_Agent plan))) /\
  (forall meta key target plan g, resolvePersistedTargetProvisioningPlan meta target key = Ok plan -> targetGeneration target = Ok g ->
     targetGenerationRef (target_ID target) (tgen_Generation g) = Ok (target_plan_ref plan)).

(** The recovery of the session's agent is not finished. *)
Definition agent_recovering (view : ResearchSessionView) : bool :=
  match currentAgentGeneration (view_Agent view) with
  | Ok g =>
      negb (AgentGenerationState_Terminal (agen_State g)) && negb (leaseCleanupInProgress (view_Lease view))
      && (negb (agen_Previous g =? 0)%N || negb (bool_decide (agen_RecoveryIncident g = "")))
      && match recoveryIncident (view_Incidents view) (agen_RecoveryIncident g) with
         | Some i => bool_decide (inc_State i = IncidentRecovering) | None => false end
  | Err _ => false
  end.

Definition live_agent (view : ResearchSessionView) (g : AgentGenerationRecord) : Prop :=
  currentAgentGeneration (view_Agent view) = Ok g /\ AgentGenerationState_Terminal (agen_State g) = false /\
  leaseCleanupInProgress (view_Lease view) = false /\ agent_binding g = Ok true.
Definition live_target (view : ResearchSessionView) (target : TargetRecord) (g : TargetGenerationRecord) : Prop :=
  target ∈ view_Targets view /\ targetGeneration target = Ok g /\ target_binding g = Ok true /\
  (TargetGenerationState_Terminal (tgen_State g) = false \/
   tgen_State g = TargetGenerationQuarantined /\ leaseCleanupInProgress (view_Lease view) = false) /\
  (leaseCleanupInProgress (view_Lease view) = true -> nonterminal_runs target (tgen_Generation g) <> 0%nat).

Definition expected_agent plans (view : ResearchSessionView) : Prop :=
  exists key plan, resolvePersistedAgent key view = Ok plan /\ app_Agent plan ∈ pp_agents plans.

Ltac split_res H := repeat (rewrite res_bind_ok in H; let x := fresh "x" in let X := fresh "X" in destruct H as (x & X & H)).

Lemma expect_agent_expected view current unbound recovery plans plans' :
  expect_agent view current unbound recovery plans = Ok plans' -> expected_agent plans' view.
Proof.
  unfold expect_agent. intros H. split_res H. eexists _, _. split; [eassumption|].
  destruct recovery; [apply Ok_inj in H as <-; cbn; set_solver|]. destruct (agen_State current); apply Ok_inj in H as <-; cbn; set_solver.
Qed.

Lemma recovering_incident view current incident :
  requirePersistedAgentRecoveryIncident view current = Ok incident ->
  recoveryIncident (view_Incidents view) (agen_RecoveryIncident current) = Some incident.
Proof.
  unfold requirePersistedAgentRecoveryIncident. intros H. split_res H. rewrite from_option_err_ok in X. by apply Ok_inj in H as <-.
Qed.

Lemma current_agent_expected view current plans plans' next :
  resolve_current_agent view current plans = Ok (plans', next) ->
  (agent_binding current = Ok true -> expected_agent plans' view) /\
  next = (negb (agen_Previous current =? 0)%N || negb (bool_decide (agen_RecoveryIncident current = "")))
         && match recoveryIncident (view_Incidents view) (agen_RecoveryIncident current) with
            | Some i => bool_decide (inc_State i = IncidentRecovering) | None => false end.
Proof.
  unfold resolve_current_agent. intros H. split_res H. cbn zeta in H. set (linked := _ || _) in *.
  destruct linked; cbn [negb] in H; split_res H.
  - rewrite (recovering_incident _ _ _ X3). destruct (bool_decide (inc_State x3 = _)); split_res H; simplify_eq.
    + split; [|done]. intros B. assert (x1 = true) as -> by congruence. unfold resolve_agent_recovery in X4.
      split_res X4. cbn zeta in X4. cbn [negb] in X4. split_res X4. apply Ok_inj in X4 as <-. eexists _, _. split; [eassumption|].
      cbn. set_solver.
    + split; [|done]. intros _. by eapply expect_agent_expected.
  - simplify_eq. split; [|done]. intros _. by eapply expect_agent_expected.
Qed.

Lemma target_expected view plans target plans' g :
  resolve_target view (leaseCleanupInProgress (view_Lease view)) plans target = Ok plans' -> live_target view target g ->
  expected_target plans' target /\ target_Kind target ∈ target_drivers.
Proof.
  intros H (_ & C & B & L & R). unfold resolve_target in H.
  rewrite C in H. cbn [mbind res_mbind] in H.
  rewrite res_bind_ok in H. destruct H as ([incident recovery] & _ & H). cbn zeta in H.
  rewrite res_bind_ok in H. destruct H as ([quarantine destruction] & _ & H).
  rewrite res_bind_ok in H. destruct H as ([p1 seen] & _ & H).
  rewrite check_bind_ok in H. destruct H as [_ H].
  rewrite res_bind_ok in H. destruct H as (p2 & _ & H).
  rewrite res_bind_ok in H. destruct H as ([p3 hb] & _ & H).
  rewrite !check_bind_ok in H. destruct H as (_ & _ & H).
  destruct (_ && negb (bool_decide (tgen_State g = TargetGenerationQuarantined) && _)) eqn:T.
  { exfalso. rewrite andb_true_iff, negb_true_iff in T. destruct T as [T Q]. destruct L as [L|[L L']]; [congruence|].
    rewrite bool_decide_eq_true_2, L' in Q by done. done. }
  rewrite B in H. cbn [mbind res_mbind] in H. rewrite check_bind_ok in H. destruct H as [_ H].
  destruct (leaseCleanupInProgress (view_Lease view) && (nonterminal_runs target (tgen_Generation g) =? 0)%nat) eqn:N.
  { exfalso. rewrite andb_true_iff, Nat.eqb_eq in N. destruct N as [N E]. by apply R. }
  rewrite unit_bind_ok in H. destruct H as [_ H]. rewrite check_bind_ok in H. destruct H as [D H].
  split; [|unfold has_driver in D; by apply bool_decide_eq_true in D].
  destruct (_ && _) in H; [by apply shrinks_pending_reset in H as [_ ?]; auto|by apply shrinks_expect_target in H as [_ ?]].
Qed.

(** Resolving more only adds to what is expected, and files cleanup plans under
    the generation they are for. *)
Definition well_keyed plans : Prop :=
  forall kind key plan, cleanup_of plans kind !! key = Some plan -> targetPlanKey plan = key.
Record extends plans plans' : Prop := {
  ex_agents : pp_agents plans ⊆ pp_agents plans';
  ex_targets : forall kind, targets_of plans kind ⊆ targets_of plans' kind;
  ex_keyed : plans_faithful -> well_keyed plans -> well_keyed plans';
  ex_keeps : keeps plans plans' }.
#[export] Instance extends_preorder : PreOrder extends.
Proof.
  split; [by intros p; split|]. intros p q r [A1 T1 K1 F1] [A2 T2 K2 F2].
  split; [exact (transitivity A1 A2)|intros kind; exact (transitivity (T1 kind) (T2 kind))|auto|by transitivity q].
Qed.
Lemma shrinks_extends plans plans' : shrinks plans plans' -> extends plans plans'.
Proof. intros [_ _ _ [A T] C K]. split; try done. intros _ W kind. unfold cleanup_of. rewrite C. apply W. Qed.

Lemma expected_target_extends plans plans' target : extends plans plans' -> expected_target plans target -> expected_target plans' target.
Proof. intros [_ S _ _] (meta & key & plan & R & I). exists meta, key, plan. split; [done|]. by apply S. Qed.
Lemma expected_agent_extends plans plans' view : extends plans plans' -> expected_agent plans view -> expected_agent plans' view.
Proof. intros [S _ _ _] (key & plan & R & I). exists key, plan. split; [done|]. by apply S. Qed.

Lemma agent_generation_extends view cleanup plans g plans' :
  resolve_agent_generation view cleanup plans g = Ok plans' -> extends plans plans' /\
  (agent_binding g = Ok true -> AgentGenerationState_Terminal (agen_State g) = false -> cleanup = false -> exists ref,
     agentGenerationRef (agent_ID (view_Agent view)) (agen_Generation g) = Ok ref /\ pp_agentTerminal plans' !! agentRefKey ref = Some false).
Proof.
  unfold resolve_agent_generation. intros H. split_res H. rewrite check_ok in X0. to_prop. set (key := agentRefKey x) in *. cbn zeta in H.
  assert (K : forall b, keeps plans (plans <| pp_agentTerminal := <[key := b]> (pp_agentTerminal plans) |>)).
  { intros b. split; [|done]. intros key'. cbn. rewrite lookup_insert_Some. destruct (decide (key = key')); [congruence|auto]. }
  set (terminal := x1 && _) in H. assert (T : extends plans plans' /\ pp_agentTerminal plans' !! key = Some terminal).
  { destruct (negb terminal), x1; split_res X2; split_res H; simplify_eq; (split; [split; try done; apply (K terminal)|cbn; by rewrite lookup_insert_eq]). }
  destruct T as [E T]. split; [done|]. intros B L ->. exists x. split; [done|]. subst terminal. fold key. by rewrite T, L, orb_false_r, andb_false_r.
Qed.

Lemma target_generation_keyed target g plan :
  plans_faithful -> resolvePersistedTargetGenerationPlan target g = Ok plan -> g ∈ target_Generations target ->
  targetRefKey <$> targetGenerationRef (target_ID target) (tgen_Generation g) = Ok (targetPlanKey plan).
Proof.
  intros [_ F] H I. unfold resolvePersistedTargetGenerationPlan in H. rewrite check_bind_ok in H. destruct H as [_ H].
  destruct (targetGeneration (target <| target_CurrentGeneration := tgen_Generation g |>)) as [g'|] eqn:C.
  - pose proof C as [_ E]%targetGeneration_ok. cbn in E.
    pose proof (F _ _ _ _ _ H C) as E'. cbn in E'. rewrite E in E'. by rewrite E'.
  - exfalso. unfold targetGeneration in C. destruct (find _ _) eqn:N in C; [done|]. eapply find_none in N; [|by apply list_elem_of_In].
    cbn in N. by rewrite N.eqb_refl in N.
Qed.

Lemma target_generation_extends target current cleanup preserve b g b' :
  g ∈ target_Generations target -> resolve_target_generation target current cleanup preserve b g = Ok b' -> extends b.1 b'.1 /\
  (negb (preserve && (tgen_Generation g =? tgen_Generation current)%N) && TargetGenerationState_Terminal (tgen_State g)
     || cleanup && (nonterminal_runs target (tgen_Generation g) =? 0)%nat = false -> exists ref,
     targetGenerationRef (target_ID target) (tgen_Generation g) = Ok ref /\ terminal_of b'.1 (target_Kind target) !! targetRefKey ref = Some false).
Proof.
  destruct b as [plans hb]. unfold resolve_target_generation. intros I H. split_res H. rewrite check_ok in X0.
  apply bool_decide_eq_true in X0. cbn zeta in H. set (over := _ || _) in H |- *. set (p1 := mark_target _ _ _ _) in H.
  assert (K : keeps plans p1).
  { split; [done|]. intros kind key. unfold p1. rewrite terminal_of_mark. case_bool_decide; subst; [|done].
    rewrite lookup_insert_Some. destruct (decide (targetRefKey x = key)); [congruence|auto]. }
  assert (T : terminal_of b'.1 = terminal_of p1) by (destruct (negb _) in H; split_res H; by apply Ok_inj in H as <-).
  split; [|intros O; exists x; split; [done|]; rewrite T; unfold p1; rewrite terminal_of_mark, bool_decide_eq_true_2, lookup_insert_eq by done;
           by rewrite O, andb_false_r]. clear T.
  destruct (negb (_ && over)) in H; split_res H; apply Ok_inj in H as <-; split; try done.
  intros F W kind key plan. unfold cleanup_of, add_cleanup, mark_target. cbn.
  destruct (decide (kind = target_Kind target)) as [->|]; [rewrite lookup_insert_eq|rewrite lookup_insert_ne by done; apply W].
  cbn. destruct (decide (key = targetRefKey x)) as [->|]; [rewrite lookup_insert_eq|rewrite lookup_insert_ne by done; apply W].
  intros [= <-]. pose proof (target_generation_keyed _ _ _ F X2 I) as E. rewrite X in E. cbn in E. by apply Ok_inj in E.
Qed.

Lemma res_fold_extends {A B} (f : B -> A -> result B) (plans_of : B -> persistedPhysicalPlans) l b b' :
  (forall b x b', x ∈ l -> f b x = Ok b' -> extends (plans_of b) (plans_of b')) -> res_fold f l b = Ok b' ->
  extends (plans_of b) (plans_of b').
Proof.
  intros S H. apply (res_fold_inv (fun _ c => extends (plans_of b) (plans_of c)) f l b b' (reflexivity _)); [|done].
  intros done c x c' Sc I E. etransitivity; [exact Sc|by eapply S].
Qed.

Lemma target_parts view cleanup plans target plans' :
  resolve_target view cleanup plans target = Ok plans' -> extends plans plans' /\
  exists current p hb p' hb', targetGeneration target = Ok current /\ extends p' plans' /\
    res_fold (resolve_target_generation target current cleanup
      (bool_decide (tgen_State current = TargetGenerationQuarantined) && negb cleanup)) (target_Generations target) (p, hb) = Ok (p', hb').
Proof.
  intros H. unfold resolve_target in H.
  rewrite res_bind_ok in H. destruct H as (current & C & H).
  rewrite res_bind_ok in H. destruct H as ([incident recovery] & _ & H). cbn zeta in H.
  rewrite res_bind_ok in H. destruct H as ([quarantine destruction] & _ & H).
  rewrite res_bind_ok in H. destruct H as ([p1 seen] & R & H).
  rewrite check_bind_ok in H. destruct H as [_ H].
  rewrite res_bind_ok in H. destruct H as (p2 & O & H).
  rewrite res_bind_ok in H. destruct H as ([p3 hb] & G & H).
  rewrite !check_bind_ok in H. destruct H as (_ & _ & H).
  apply (res_fold_extends _ fst) in R; [|by intros; eapply shrinks_extends, shrinks_run].
  apply (res_fold_extends _ (fun p => p)) in O; [|by intros; eapply shrinks_extends, shrinks_operation].
  pose proof G as G'. apply (res_fold_extends _ fst) in G; [|by intros; eapply target_generation_extends].
  assert (extends p3 plans') as L; [clear G'|split; [|by eexists _, _, _, _, _]].
  2: { exact (transitivity R (transitivity O (transitivity G L))). }
  clear R O G.
  destruct (_ && negb _); [by simplify_eq|].
  rewrite res_bind_ok in H. destruct H as (bound & _ & H). rewrite check_bind_ok in H. destruct H as [_ H].
  destruct (_ && (_ =? 0)%nat); [by simplify_eq|].
  rewrite unit_bind_ok in H. destruct H as [_ H]. rewrite check_bind_ok in H. destruct H as [_ H].
  apply shrinks_extends. destruct (_ && _); [by eapply shrinks_pending_reset|by eapply shrinks_expect_target].
Qed.
Lemma target_extends view cleanup plans target plans' : resolve_target view cleanup plans target = Ok plans' -> extends plans plans'.
Proof. by intros [E _]%target_parts. Qed.

(** The generations of live agents and targets are marked as kept. *)
Definition kept_agent plans view g : Prop :=
  exists ref, agentGenerationRef (agent_ID (view_Agent view)) (agen_Generation g) = Ok ref /\
    pp_agentTerminal plans !! agentRefKey ref = Some false.
Definition kept_target plans target g : Prop :=
  exists ref, targetGenerationRef (target_ID target) (tgen_Generation g) = Ok ref /\
    terminal_of plans (target_Kind target) !! targetRefKey ref = Some false.
Lemma kept_agent_extends plans plans' view g : extends plans plans' -> kept_agent plans view g -> kept_agent plans' view g.
Proof. intros [_ _ _ [K _]] (ref & R & F). exists ref. auto. Qed.
Lemma kept_target_extends plans plans' target g : extends plans plans' -> kept_target plans target g -> kept_target plans' target g.
Proof. intros [_ _ _ [_ K]] (ref & R & F). exists ref. auto. Qed.

(** One step of a loop, and what the rest of it adds. *)
Lemma res_fold_step {A B} (f : B -> A -> result B) (plans_of : B -> persistedPhysicalPlans) (Q : B -> Prop) l b b' x :
  (forall b y b', y ∈ l -> f b y = Ok b' -> extends (plans_of b) (plans_of b')) ->
  (forall b b', f b x = Ok b' -> Q b') -> (forall b b', extends (plans_of b) (plans_of b') -> Q b -> Q b') ->
  x ∈ l -> res_fold f l b = Ok b' -> Q b'.
Proof.
  intros S X M I H. refine (res_fold_inv (fun done b => x ∈ done -> Q b) f l b b' _ _ H I); [by intros ?%not_elem_of_nil|].
  intros done c y c' IH Iy E [D| ->%list_elem_of_singleton]%elem_of_app; [|by eapply X]. eapply M; [by eapply S|by apply IH].
Qed.

Lemma agents_kept view plans plans' g :
  res_fold (resolve_agent_generation view (leaseCleanupInProgress (view_Lease view))) (agent_Generations (view_Agent view)) plans
    = Ok plans' -> live_agent view g -> kept_agent plans' view g.
Proof.
  intros H (C & T & L & B). unfold currentAgentGeneration in C. rewrite from_option_err_ok in C.
  apply find_some in C as [I _]. apply list_elem_of_In in I.
  refine (res_fold_step _ (fun p => p) (fun p => kept_agent p view g) _ _ _ _ _ _ _ I H).
  - intros. by eapply agent_generation_extends.
  - intros p p' E. apply agent_generation_extends in E as [_ E]. by apply E.
  - intros. by eapply kept_agent_extends.
Qed.

Lemma target_kept view target current plans plans' hb hb' g :
  res_fold (resolve_target_generation target current (leaseCleanupInProgress (view_Lease view))
    (bool_decide (tgen_State current = TargetGenerationQuarantined) && negb (leaseCleanupInProgress (view_Lease view))))
    (target_Generations target) (plans, hb) = Ok (plans', hb') ->
  targetGeneration target = Ok current -> live_target view target g -> kept_target plans' target g.
Proof.
  intros H C (_ & C' & B & L & R). assert (current = g) as -> by congruence. pose proof (targetGeneration_ok _ _ C') as [I _].
  refine (res_fold_step _ fst (fun p => kept_target p.1 target g) _ _ _ _ _ _ _ I H).
  - intros. by eapply target_generation_extends.
  - intros p p' E. apply target_generation_extends in E as [_ E]; [|done]. apply E. rewrite N.eqb_refl, andb_true_r.
    destruct (leaseCleanupInProgress (view_Lease view)); cbn.
    + destruct (nonterminal_runs target (tgen_Generation g)); [by destruct R|]. rewrite orb_false_r, andb_false_r. cbn.
      destruct L as [L|[L L']]; [done|done].
    + destruct L as [L|[L _]]; [by rewrite L, andb_false_r|]. by rewrite bool_decide_eq_true_2.
  - intros. by eapply kept_target_extends.
Qed.

(** What a session that was resolved has in the plans. *)
Definition expected_view plans view : Prop :=
  (forall g, live_agent view g -> expected_agent plans view /\ kept_agent plans view g) /\
  (forall target g, agent_recovering view = false -> live_target view target g ->
     (expected_target plans target /\ kept_target plans target g) /\ target_Kind target ∈ target_drivers).

Lemma resolve_target_live view plans target plans' g :
  resolve_target view (leaseCleanupInProgress (view_Lease view)) plans target = Ok plans' -> live_target view target g ->
  (expected_target plans' target /\ kept_target plans' target g) /\ target_Kind target ∈ target_drivers.
Proof.
  intros H L. destruct (target_expected _ _ _ _ _ H L) as [E D]. split; [split; [done|]|done].
  apply target_parts in H as [_ (current & p & hb & p' & hb' & C & X & G)]. eapply kept_target_extends; [exact X|]. by eapply target_kept.
Qed.

Lemma view_expected plans view plans' :
  resolve_view plans view = Ok plans' -> extends plans plans' /\ expected_view plans' view.
Proof.
  unfold resolve_view. cbn zeta. intros H.
  rewrite res_bind_ok in H. destruct H as (p1 & G & H). pose proof (fun g => agents_kept _ _ _ g G) as Kp.
  apply (res_fold_extends _ (fun p => p)) in G; [|by intros; eapply agent_generation_extends].
  rewrite res_bind_ok in H. destruct H as (current & C & H).
  rewrite res_bind_ok in H. destruct H as ([p2 next] & A & H).
  assert (E2 : extends p1 p2 /\ (forall g, live_agent view g -> expected_agent p2 view) /\
    (next = true -> agent_recovering view = true)).
  { unfold agent_recovering. rewrite C. destruct (AgentGenerationState_Terminal _) eqn:T, (leaseCleanupInProgress _) eqn:L; cbn in A;
      try (simplify_eq; split; [done|]; split; [|done]; intros g (C' & T' & L' & _); congruence).
    split; [by eapply shrinks_extends, shrinks_current_agent|]. apply current_agent_expected in A as [A ->]. split; [|done].
    intros g (C' & _ & _ & B). apply A. congruence. }
  destruct E2 as (E2 & A2 & N).
  assert (E12 : extends plans p2) by (etransitivity; [exact G|exact E2]).
  assert (A2' : forall g, live_agent view g -> expected_agent p2 view /\ kept_agent p2 view g)
    by (intros g L; split; [by eapply A2|eapply kept_agent_extends; [exact E2|by apply Kp]]).
  clear A2 Kp. destruct next.
  - apply Ok_inj in H as <-. split; [done|]. split; [done|]. intros target g R. by rewrite N in R.
  - pose proof H as E3. apply (res_fold_extends _ (fun p => p)) in E3; [|by intros; eapply target_extends].
    split; [etransitivity; [exact E12|exact E3]|]. split.
    { intros g L. destruct (A2' g L) as [X K]. split; [by eapply expected_agent_extends|by eapply kept_agent_extends]. }
    intros target g _ L. pose proof L as [I _].
    refine (res_fold_step _ (fun p => p) (fun p => (expected_target p target /\ kept_target p target g) /\ target_Kind target ∈ target_drivers)
      _ _ _ _ _ _ _ I H).
    + intros. by eapply target_extends.
    + intros p p' E. by eapply resolve_target_live.
    + intros p p' E [[X K] D]. split; [split; [by eapply expected_target_extends|by eapply kept_target_extends]|done].
Qed.

Lemma plans_expected {SS : SliceSort} views plans :
  resolvePersistedPhysicalPlans views = Ok plans ->
  Forall (expected_view plans) views /\ (plans_faithful -> well_keyed plans).
Proof.
  unfold resolvePersistedPhysicalPlans. rewrite res_bind_ok. intros (p & H & E). apply Ok_inj in E as <-.
  assert (Forall (expected_view p) views /\ extends no_physical_plans p) as [F [_ _ W]].
  { refine (res_fold_inv (fun done q => Forall (expected_view q) done /\ extends no_physical_plans q) _ _ _ _ _ _ H); [by split|].
    intros done q view q' [F E] _ H'. apply view_expected in H' as [X V]. split; [|by transitivity q].
    rewrite Forall_app, Forall_singleton. split; [|done]. eapply Forall_impl; [exact F|]. intros v [A T]. split.
    - intros g L. destruct (A g L). split; [by eapply expected_agent_extends|by eapply kept_agent_extends].
    - intros t g R L. destruct (T t g R L) as [[? ?] ?]. split; [|done]. split; [by eapply expected_target_extends|by eapply kept_target_extends]. }
  split; [exact F|]. intros PF. apply (W PF). intros kind key plan. unfold cleanup_of. cbn. by rewrite lookup_empty.
Qed.
End Live.

(** ** A settled inventory *)
Section Settled.
Context `{PR : PlanResolution} {DR : Drivers} {SS : SliceSort}.
Implicit Types plans : persistedPhysicalPlans.

Definition expected_agents plans : list AgentWorkspacePlan :=
  allAgentInventoryPlans (startupAgentInventoryRequest plans false true).
Definition expected_targets plans kind : list TargetPlan :=
  allTargetInventoryPlans (startupTargetInventoryRequest plans kind false true).

(** Every expected agent was observed once and nothing else was found: agents
    that are over are gone, predecessors kept for a recovery are there as their
    plan, all others run. *)
Record agents_settled plans (report : AgentWorkspaceReconciliationReport) : Prop := {
  as_complete : forall plan, plan ∈ expected_agents plans ->
    exists o, o ∈ arep_Expected report /\ agentRefKey (aobs_Ref o) = agentPlanKey plan;
  as_once : NoDup ((fun o => agentRefKey (aobs_Ref o)) <$> arep_Expected report);
  as_nothing_else : arep_Unclaimed report = [] /\ arep_Conflicts report = [] /\ arep_ObservedAt report <> 0%Z;
  as_status : forall o, o ∈ arep_Expected report ->
    if flag (retainedPendingAgentPredecessors plans) (agentRefKey (aobs_Ref o)) then exactPlanMatchedAgentObservation o = true
    else if flag (pp_agentTerminal plans) (agentRefKey (aobs_Ref o)) then exactMissingAgentObservation o = true
    else aobs_Classification o = PhysicalResourceAdopted /\ aobs_ContainerID o <> "" }.

(** The same for the targets of a kind, whose exemptions are given. *)
Record targets_settled (expected : list TargetPlan) (terminal missing stopped : gmap string bool)
    (report : TargetReconciliationReport) : Prop := {
  ts_complete : (fun o => targetRefKey (tobs_Ref o)) <$> trep_Expected report ≡ₚ targetPlanKey <$> expected;
  ts_once : NoDup ((fun o => targetRefKey (tobs_Ref o)) <$> trep_Expected report);
  ts_nothing_else : trep_Unclaimed report = [] /\ trep_Conflicts report = [] /\ trep_ObservedAt report <> 0%Z;
  ts_status : forall o, o ∈ trep_Expected report ->
    if flag terminal (targetRefKey (tobs_Ref o)) then exactMissingTargetObservation o = true /\ tobs_CleanupRequired o = false
    else if flag missing (targetRefKey (tobs_Ref o)) then tobs_Classification o = PhysicalResourceMissing /\ tobs_RuntimeID o = ""
    else tobs_RuntimeID o <> "" /\ (tobs_Classification o = PhysicalResourceAdopted \/
      flag stopped (targetRefKey (tobs_Ref o)) = true /\ tobs_Classification o = PhysicalResourceUncertain /\ tobs_PlanMatched o = true) }.

Lemma assess_targets_settled plans missing stopped reports kind :
  assess_targets plans missing stopped reports kind = Ok [] ->
  targets_settled (expected_targets plans kind) (terminal_of plans kind) (flags_of missing kind) (flags_of stopped kind) (report_of reports kind).
Proof.
  unfold assess_targets. intros E. fold (expected_targets plans kind) in E.
  pose proof (assess_target_clean (expected_targets plans kind) (terminal_of plans kind) (flags_of missing kind) (flags_of stopped kind)
    (report_of reports kind)) as [C S].
  destruct (assessTargetReconciliationWithRecovery _ _ _ _ _) as [safe issues]. cbn in *. destruct issues; [|done].
  apply Ok_inj in E as ->. specialize (S eq_refl). destruct (proj1 C eq_refl) as [_ D _ _ T P A U X].
  rewrite <-list_fmap_compose in P. unfold compose in P. apply fmap_nil_inv in U.
  split; [exact P|by rewrite P|done|]. intros o O. rewrite Forall_fmap, Forall_forall in A. destruct (A o O) as [_ [b Ab]]. cbn in Ab.
  assert (b = false) as ->. { destruct b; [|done]. assert (tobs_Ref o ∈ []) as N by (apply S; by exists o). by apply not_elem_of_nil in N. }
  unfold exactMissingTargetObservation.
  inversion Ab as [res F K R M U'|F M R U' K|F F' K R U'|F F' F'' K M R U'|F F' K R U']; cbn in *; rewrite ?F, ?F'.
  - rewrite !bool_decide_eq_true_2, M by done. done.
  - done.
  - split; [done|]. by right.
  - split; [done|]. by left.
Qed.

Lemma NoDup_by_parts {A} (P : A -> bool) (l : list A) :
  NoDup (filter (fun x => P x = true) l) -> NoDup (filter (fun x => P x = false) l) -> NoDup l.
Proof.
  induction l as [|x l IH]; [constructor|]. rewrite !filter_cons. destruct (P x) eqn:E; repeat (case_decide; [|]); try done; rewrite NoDup_cons.
  - intros [N D] D'. constructor; [|by apply IH]. intros I. apply N. by apply list_elem_of_filter.
  - intros D [N D']. constructor; [|by apply IH]. intros I. apply N. by apply list_elem_of_filter.
Qed.

Lemma filter_fmap_key {A B} (f : A -> B) (P : B -> Prop) `{forall x, Decision (P x)} (l : list A) :
  filter P (f <$> l) = f <$> filter (fun x => P (f x)) l.
Proof. induction l as [|x l IH]; [done|]. rewrite fmap_cons, !filter_cons. case_decide; cbn; by rewrite IH. Qed.

(** What a clean assessment of the agents that are not retained says. *)
Lemma assess_agent_settled (expected : list AgentWorkspacePlan) terminal report :
  assessAgentReconciliation expected terminal report = ([], []) ->
  (fun o => agentRefKey (aobs_Ref o)) <$> arep_Expected report ≡ₚ agentPlanKey <$> expected /\
  NoDup ((fun o => agentRefKey (aobs_Ref o)) <$> arep_Expected report) /\
  (arep_Unclaimed report = [] /\ arep_Conflicts report = [] /\ arep_ObservedAt report <> 0%Z) /\
  (forall o, o ∈ arep_Expected report ->
    if flag terminal (agentRefKey (aobs_Ref o)) then exactMissingAgentObservation o = true
    else aobs_Classification o = PhysicalResourceAdopted /\ aobs_ContainerID o <> "").
Proof.
  intros E. pose proof (assess_agent_clean expected terminal report) as [C S]. rewrite E in C, S. cbn in C, S.
  specialize (S eq_refl). destruct (proj1 C eq_refl) as [_ D _ _ T P A U X].
  rewrite <-list_fmap_compose in P. unfold compose in P. apply fmap_nil_inv in U.
  split; [exact P|]. split; [by rewrite P|]. split; [done|]. intros o O.
  rewrite Forall_fmap, Forall_forall in A. destruct (A o O) as [_ [b Ab]]. cbn in Ab.
  assert (b = false) as ->. { destruct b; [|done]. assert (aobs_Ref o ∈ []) as N by (apply S; by exists o). by apply not_elem_of_nil in N. }
  unfold exactMissingAgentObservation.
  inversion Ab as [res F K R M U'|F M R U' K|F F' K R U'|F F' F'' K M R U'|F F' K R U']; cbn in *; rewrite ?F; try done.
  rewrite !bool_decide_eq_true_2, M by done. done.
Qed.

Lemma assess_agents_settled plans report : assess_agents plans report = Ok [] -> agents_settled plans report.
Proof.
  unfold assess_agents. rewrite res_bind_ok. intros (r & A & E). rewrite failing_ok in A. fold (expected_agents plans) in A.
  assert (r = ([], [])) as -> by (destruct r as [safe []]; cbn in E; [apply Ok_inj in E as ->|]; done). clear E.
  unfold assessAgentReconciliationAllowRetained in A. case_bool_decide as RE.
  { apply Ok_inj in A. apply assess_agent_settled in A as (P & D & N & F). split; [|done|done|].
    - intros plan I. assert (agentPlanKey plan ∈ (fun o => agentRefKey (aobs_Ref o)) <$> arep_Expected report) as (o & Ek & O)%list_elem_of_fmap
        by (rewrite P; by apply list_elem_of_fmap_2). by exists o.
    - intros o O. rewrite RE. unfold flag at 1. rewrite lookup_empty. by apply F. }
  clear RE. set (retained := retainedPendingAgentPredecessors plans) in *.
  rewrite res_bind_ok in A. destruct A as ([seen kept] & K & A). rewrite check_bind_ok in A. destruct A as [L A]. apply Ok_inj in A.
  apply retained_loop_ok in K as (-> & K & Mt & Dr & _). cbn [fst snd app] in *.
  apply assess_agent_settled in A as (P & D & N & F). cbn in P, D, N, F. split.
  - intros plan I. destruct (flag retained (agentPlanKey plan)) eqn:R.
    + assert (agentPlanKey plan ∈ seen) as Sn.
      { rewrite forallb_forall in L. assert (agentPlanKey plan ∈ (map_to_list retained).*1) as M%list_elem_of_In.
        { unfold flag in R. destruct (retained !! agentPlanKey plan) as [b|] eqn:G; [|done]. apply list_elem_of_fmap. exists (agentPlanKey plan, b).
          by rewrite elem_of_map_to_list. }
        specialize (L _ M). by apply bool_decide_eq_true in L. }
      apply K in Sn as [Sn|(o & O & Ek & _)]; [set_solver|]. by exists o.
    + assert (agentPlanKey plan ∈ agentPlanKey <$> filter (fun plan => flag retained (agentPlanKey plan) = false) (expected_agents plans)) as M
        by (apply list_elem_of_fmap_2; by apply list_elem_of_filter).
      rewrite <-P in M. apply list_elem_of_fmap in M as (o & Ek & [_ O]%list_elem_of_filter). by exists o.
  - apply (NoDup_by_parts (flag retained)); [done|]. by rewrite filter_fmap_key.
  - done.
  - intros o O. destruct (flag retained (agentRefKey (aobs_Ref o))) eqn:R; fold retained; rewrite R; [by apply Mt|]. apply F. by apply list_elem_of_filter.
Qed.

(** Every target that is expected has a plan of its generation in the request. *)
Lemma fold_keyed {A} (f : A -> gmap string TargetPlan -> gmap string TargetPlan) (l : list A) (m : gmap string TargetPlan) :
  (forall x m, map_Forall (fun key plan => targetPlanKey plan = key) m -> map_Forall (fun key plan => targetPlanKey plan = key) (f x m)) ->
  map_Forall (fun key plan => targetPlanKey plan = key) m ->
  map_Forall (fun key plan => targetPlanKey plan = key) (fold_left (fun m x => f x m) l m).
Proof. intros F. revert m. induction l as [|x l IH]; intros m M; cbn; [done|]. by apply IH, F. Qed.

Lemma cleanup_plans_keyed plans kind :
  well_keyed plans -> map_Forall (fun key plan => targetPlanKey plan = key) (target_cleanup_plans plans kind false true).
Proof.
  intros W. unfold target_cleanup_plans.
  apply (fold_keyed (fun (pending : persistedPendingTargetReset) cleanup => if bool_decide (target_Kind (reset_target pending) = kind)
      then fold_left (fun cleanup plan => if bool_decide (targetPlanKey plan = targetRefKey (reset_previous pending))
             then <[targetPlanKey plan := plan]> cleanup else cleanup) (targets_of plans kind) cleanup else cleanup)).
  - intros p m M. case_bool_decide; [|done].
    apply (fold_keyed (fun plan cleanup => if bool_decide (targetPlanKey plan = targetRefKey (reset_previous p))
             then <[targetPlanKey plan := plan]> cleanup else cleanup)); [|done].
    intros plan m' M'. case_bool_decide; [|done]. by apply map_Forall_insert_2.
  - intros key plan [E _]%map_lookup_filter_Some. by eapply W.
Qed.

Lemma expected_target_requested plans kind plan :
  well_keyed plans -> plan ∈ targets_of plans kind -> targetPlanKey plan ∈ targetPlanKey <$> expected_targets plans kind.
Proof.
  intros W I. unfold expected_targets, allTargetInventoryPlans, startupTargetInventoryRequest, sortedTargetPlanMap, sortTargetPlans. cbn.
  apply list_elem_of_fmap. setoid_rewrite elem_of_app. setoid_rewrite sort_by_elem. unfold map_values.
  setoid_rewrite list_elem_of_fmap. setoid_rewrite list_elem_of_filter.
  pose proof (cleanup_plans_keyed plans kind W) as K. set (cleanup := target_cleanup_plans _ _ _ _) in *.
  destruct (cleanup !! targetPlanKey plan) as [plan'|] eqn:E; [|exists plan; auto].
  exists plan'. split; [symmetry; by apply (K _ _ E)|]. right. exists (targetPlanKey plan, plan'). by rewrite elem_of_map_to_list.
Qed.

Lemma expected_agent_requested plans plan : plan ∈ pp_agents plans -> plan ∈ expected_agents plans.
Proof.
  intros I. unfold expected_agents, allAgentInventoryPlans, startupAgentInventoryRequest, sortAgentPlans. cbn.
  apply elem_of_app. left. by apply sort_by_elem.
Qed.

Lemma sortedTargetKinds_elem kind : kind ∈ sortedTargetKinds <-> kind ∈ target_drivers.
Proof. apply sort_by_elem. Qed.

(** *** What a success settles *)
Lemma verify_ok plans destroyed stopped reports0 agents reports calls calls' :
  verify_removal plans destroyed stopped reports0 calls = (Ok (agents, reports), calls') ->
  assess_agents plans agents = Ok [] /\
  exists safety, requireSafePendingTargetResets (pp_pendingTargetResets plans) (report_of reports) = Ok safety /\
    forall kind, kind ∈ target_drivers ->
      assess_targets plans (mergeAllowedTargetMissing [destroyed; rs_allowedMissing safety]) stopped reports kind = Ok [].
Proof.
  unfold verify_removal. intros H.
  rewrite DM_bind_ok in H. destruct H as (agents' & c1 & _ & H).
  rewrite DM_bind_ok in H. destruct H as (refs & c2 & A & H). apply dm_lift_ok in A as [A _].
  rewrite DM_bind_ok in H. destruct H as (u & c3 & C & H). apply dm_lift_ok in C as [C _]. rewrite check_ok in C. apply bool_decide_eq_true in C as ->.
  rewrite DM_bind_ok in H. destruct H as (reports' & c4 & _ & H).
  rewrite DM_bind_ok in H. destruct H as (safety & c5 & S & H). apply dm_lift_ok in S as [S _]. rewrite failing_ok in S. cbn zeta in H.
  rewrite DM_bind_ok in H. destruct H as (u' & c6 & F & H). unfold mret, DM_ret in H. simplify_eq.
  split; [done|]. exists safety. split; [done|]. intros kind K%sortedTargetKinds_elem. revert kind K.
  refine (dm_fold_inv (fun done _ => forall kind, kind ∈ done -> assess_targets plans (mergeAllowedTargetMissing
    [destroyed; rs_allowedMissing safety]) stopped reports kind = Ok []) _ _ _ _ _ _ _ _ F); [by intros kind ?%not_elem_of_nil|].
  clear. intros done u kind c u' c' IH _ H kind' [D| ->%list_elem_of_singleton]%elem_of_app; [by apply IH|].
  rewrite DM_bind_ok in H. destruct H as (refs & c1 & A & H). apply dm_lift_ok in A as [A _]. apply dm_lift_ok in H as [H _].
  rewrite check_ok in H. by apply bool_decide_eq_true in H as ->.
Qed.

Lemma settle_ok plans destroyed agents reports calls s calls' :
  settle_inventory plans destroyed agents reports calls = (Ok s, calls') ->
  exists required plans' safety,
    requireSafePendingTargetResets (pp_pendingTargetResets plans) (report_of reports) = Ok required /\
    authorizePendingTargetCleanup plans (rs_cleanupRequired required) = Ok plans' /\
    assess_agents plans' (set_agents s) = Ok [] /\
    requireSafePendingTargetResets (pp_pendingTargetResets plans) (report_of (set_targets s)) = Ok safety /\
    forall kind, kind ∈ target_drivers ->
      assess_targets plans' (mergeAllowedTargetMissing [destroyed; rs_allowedMissing safety])
        (interruptedRunRecoveryTargets (pp_runRecoveries plans)) (set_targets s) kind = Ok [].
Proof.
  unfold settle_inventory. intros H.
  rewrite DM_bind_ok in H. destruct H as (required & c1 & S & H). apply dm_lift_ok in S as [S _]. rewrite failing_ok in S.
  rewrite DM_bind_ok in H. destruct H as (plans' & c2 & A & H). apply dm_lift_ok in A as [A _]. rewrite failing_ok in A. cbn zeta in H.
  rewrite DM_bind_ok in H. destruct H as ([agentOrphans targetOrphans] & c3 & X & H). pose proof (authorize_ok _ _ _ A) as [E _].
  assert (R : pp_runRecoveries plans' = pp_runRecoveries plans) by (rewrite E; done).
  assert (P : pp_pendingTargetResets plans' = pp_pendingTargetResets plans) by (rewrite E; done). rewrite R in X, H.
  exists required, plans'. destruct (_ && _) eqn:N.
  - unfold mret, DM_ret in H. simplify_eq. cbn. exists required. split; [done|]. split; [done|].
    apply assess_all_ok in X as ((refs & Ag & Sub) & _ & Ks & Tg).
    rewrite andb_true_iff, forallb_forall in N. destruct N as [N1%bool_decide_eq_true N2]. subst agentOrphans.
    split; [destruct refs as [|r refs]; [done|set_solver]|]. split; [done|].
    intros kind K. apply sortedTargetKinds_elem in K. rewrite <-Ks in K. apply list_elem_of_fmap in K as ([k refs'] & -> & I).
    pose proof I as I'. apply list_elem_of_In, N2, bool_decide_eq_true in I'. cbn in I' |- *. subst refs'. rewrite Forall_forall in Tg.
    by destruct (Tg _ I) as [T _].
  - rewrite DM_bind_ok in H. destruct H as (u & c4 & _ & H). rewrite DM_bind_ok in H. destruct H as (u' & c5 & _ & H).
    rewrite DM_bind_ok in H. destruct H as ([agents' reports'] & c6 & V & H). unfold mret, DM_ret in H. simplify_eq. cbn.
    apply verify_ok in V as (Ag & safety & Sf & T). rewrite P in Sf. exists safety. done.
Qed.

(** C7: When startup settles, the final inventories account for everything: each
    expected agent and target was observed exactly once, those that are over are
    gone without residue, the others run, exactly one half of every interrupted
    reset is there, and nothing unclaimed or conflicting was found.  The
    exceptions: the predecessor of an agent whose recovery has no bound
    successor yet is over but kept, and there as its plan; an interrupted run
    may have stopped its target; an explicitly destroyed target and one half of
    an interrupted reset may be absent. *)
Theorem settled_inventory_accounts plans destroyedMissing agents reports calls s calls' :
  settle_inventory plans destroyedMissing agents reports calls = (Ok s, calls') ->
  exists plans', plans' = plans <| pp_targetTerminal := pp_targetTerminal plans' |> /\
    (forall kind key, flag (terminal_of plans' kind) key = true ->
       flag (terminal_of plans kind) key = true \/ reset_residue (pp_pendingTargetResets plans) (report_of reports) kind key) /\
    agents_settled plans' (set_agents s) /\
    Forall (reset_safe (report_of (set_targets s))) (pp_pendingTargetResets plans) /\
    forall kind, kind ∈ target_drivers -> exists missing,
      targets_settled (expected_targets plans' kind) (terminal_of plans' kind) missing
        (flags_of (interruptedRunRecoveryTargets (pp_runRecoveries plans)) kind) (report_of (set_targets s) kind) /\
      forall key, flag missing key = true ->
        flag (flags_of destroyedMissing kind) key = true \/ reset_half (pp_pendingTargetResets plans) kind key.
Proof.
  intros (required & plans' & safety & Rq & Au & Ag & Sf & Tg)%settle_ok. exists plans'.
  apply requireSafe_ok in Rq as (_ & Rq & _), Sf as (Sf & _ & Mi). apply authorize_ok in Au as [E Au].
  split; [done|]. split; [intros kind key [F|F]%Au; [by left|right; by apply Rq]|].
  split; [by apply assess_agents_settled|]. split; [done|]. intros kind K. eexists. split; [by apply assess_targets_settled, Tg|].
  intros key (flags & [->|[->|?%not_elem_of_nil]%elem_of_cons]%elem_of_cons & F)%merge_ok; [by left|right|done]. by apply Mi.
Qed.

(** C8: Given that a persisted plan is resolved to one of the current generation
    it is asked for ([plans_faithful], an assumption on the two resolvers, which
    the development does not model): when startup settles, the agent of every
    session is there whose lease is not under cleanup and whose current agent
    generation is not over and bound to a plan.  Of a session whose agent is not
    under recovery, so is every target whose current generation is bound to a
    plan and not over (or quarantined, if its lease is not under cleanup) and,
    if its lease is under cleanup, has a run that is not over, unless the target
    was destroyed on request or is half of an interrupted reset. *)
Theorem live_resources_running views plans destroyedMissing agents reports calls s calls' :
  plans_faithful -> resolvePersistedPhysicalPlans views = Ok plans ->
  settle_inventory plans destroyedMissing agents reports calls = (Ok s, calls') ->
  forall view, view ∈ views ->
    (forall g, live_agent view g -> exists ref o,
       agentGenerationRef (agent_ID (view_Agent view)) (agen_Generation g) = Ok ref /\
       o ∈ arep_Expected (set_agents s) /\ agentRefKey (aobs_Ref o) = agentRefKey ref /\ aobs_ContainerID o <> "") /\
    (forall target g, agent_recovering view = false -> live_target view target g -> exists ref o,
       targetGenerationRef (target_ID target) (tgen_Generation g) = Ok ref /\
       o ∈ trep_Expected (report_of (set_targets s) (target_Kind target)) /\ targetRefKey (tobs_Ref o) = targetRefKey ref /\
       (tobs_RuntimeID o <> "" \/ flag (flags_of destroyedMissing (target_Kind target)) (targetRefKey ref) = true \/
        reset_half (pp_pendingTargetResets plans) (target_Kind target) (targetRefKey ref))).
Proof.
  intros PF Rs (required & plans' & safety & Rq & Au & Ag & Sf & Tg)%settle_ok view V.
  apply plans_expected in Rs as [Ex W]. rewrite Forall_forall in Ex. destruct (Ex view V) as [EA ET]. specialize (W PF).
  apply requireSafe_ok in Rq as (_ & Rq & _), Sf as (_ & _ & Mi). apply authorize_ok in Au as [E Au]. destruct PF as [PA PT]. split.
  - intros g L. destruct (EA g L) as [(key & plan & R & I) (ref & G & F)]. pose proof L as [C _].
    pose proof (PA _ _ _ _ R C) as G'. rewrite G in G'. apply Ok_inj in G'. apply assess_agents_settled in Ag as [Cm _ _ St].
    destruct (Cm (app_Agent plan)) as (o & O & K). { apply expected_agent_requested. by rewrite E. }
    exists ref, o. split; [done|]. split; [done|]. unfold agentPlanKey in K. rewrite <-G' in K. split; [done|].
    specialize (St o O). rewrite K in St. assert (flag (pp_agentTerminal plans') (agentRefKey ref) = false) as F'
      by (rewrite E; cbn; unfold flag; by rewrite F). rewrite F' in St. destruct (flag _ _); [|apply St].
    unfold exactPlanMatchedAgentObservation in St. rewrite !andb_true_iff, negb_true_iff, bool_decide_eq_false in St. apply St.
  - intros target g R L. destruct (ET target g R L) as [[(meta & key & plan & Rp & I) (ref & G & F)] D]. pose proof L as (_ & C & _).
    pose proof (PT _ _ _ _ _ Rp C) as G'. rewrite G in G'. apply Ok_inj in G'.
    pose proof (assess_targets_settled _ _ _ _ _ (Tg _ D)) as [Cm _ _ St].
    assert (W' : well_keyed plans') by (rewrite E; exact W).
    assert (I' : plan ∈ targets_of plans' (target_Kind target)) by (rewrite E; exact I).
    pose proof (expected_target_requested _ _ _ W' I') as K. rewrite <-Cm in K. apply list_elem_of_fmap in K as (o & K & O).
    unfold targetPlanKey in K. rewrite <-G' in K. exists ref, o. split; [done|]. split; [done|]. split; [done|].
    specialize (St o O). rewrite <-K in St. destruct (flag (terminal_of plans' _) _) eqn:T.
    + apply Au in T as [T|T]; [unfold flag in T; by rewrite F in T|]. right. right. by eapply reset_residue_half, Rq.
    + destruct (flag (flags_of (mergeAllowedTargetMissing _) _) _) eqn:M; [|by left; apply St]. right.
      apply merge_ok in M as (flags & [->|[->|?%not_elem_of_nil]%elem_of_cons]%elem_of_cons & M); [by left|right|done]. by apply Mi.
Qed.

(** *** Sessions whose agent is under recovery *)
(** The expected targets and the cleanup plans of a kind are the same. *)
Definition same_targets (kind : Domain.TargetKind) plans plans' : Prop :=
  targets_of plans' kind = targets_of plans kind /\ cleanup_of plans' kind = cleanup_of plans kind.
#[export] Instance same_targets_preorder kind : PreOrder (same_targets kind).
Proof. split; [done|]. intros p q r [T1 C1] [T2 C2]. split; congruence. Qed.
Lemma same_targets_equal kind plans plans' :
  pp_targets plans' = pp_targets plans -> pp_targetCleanupPlans plans' = pp_targetCleanupPlans plans -> same_targets kind plans plans'.
Proof. unfold same_targets, targets_of, cleanup_of. by intros -> ->. Qed.
Lemma same_add_target kind kind' plan plans : kind' <> kind -> same_targets kind plans (add_target kind' plan plans).
Proof. intros N. split; [|done]. by rewrite targets_of_add, bool_decide_eq_false_2. Qed.
Lemma same_add_cleanup kind kind' key plan plans : kind' <> kind -> same_targets kind plans (add_cleanup kind' key plan plans).
Proof. intros N. split; [done|]. unfold cleanup_of, add_cleanup. cbn. by rewrite lookup_insert_ne. Qed.
#[local] Hint Resolve same_targets_equal same_add_target same_add_cleanup : core.

Ltac split_res H := repeat (rewrite res_bind_ok in H; let x := fresh "x" in let X := fresh "X" in destruct H as (x & X & H)).

Lemma same_agent_generation kind view cleanup plans g plans' :
  resolve_agent_generation view cleanup plans g = Ok plans' -> same_targets kind plans plans'.
Proof.
  unfold resolve_agent_generation. intros H. split_res H. cbn zeta in H.
  destruct (negb _), x1; split_res X2; split_res H; by simplify_eq.
Qed.
Lemma same_current_agent kind view current plans plans' next :
  resolve_current_agent view current plans = Ok (plans', next) -> same_targets kind plans plans'.
Proof.
  assert (X : forall unbound recovery p, expect_agent view current unbound recovery plans = Ok p -> same_targets kind plans p).
  { unfold expect_agent. intros unbound recovery p H. split_res H. destruct recovery; [by apply Ok_inj in H as <-|].
    destruct (agen_State current); by apply Ok_inj in H as <-. }
  unfold resolve_current_agent. intros H. split_res H. cbn zeta in H.
  destruct (negb (_ || _)); [|rewrite res_bind_ok in H; destruct H as (incident & _ & H); destruct (bool_decide (inc_State _ = _))].
  - split_res H. simplify_eq. by eapply X.
  - rewrite res_bind_ok in H. destruct H as (p & H & E). simplify_eq. unfold resolve_agent_recovery in H. split_res H. cbn zeta in H.
    destruct (negb x1); split_res H; by apply Ok_inj in H as <-.
  - split_res H. simplify_eq. by eapply X.
Qed.

(** A target leaves the plans of the other kinds alone. *)
Lemma res_fold_same {A B} kind (plans_of : B -> persistedPhysicalPlans) (f : B -> A -> result B) l b b' :
  (forall c x c', f c x = Ok c' -> same_targets kind (plans_of c) (plans_of c')) -> res_fold f l b = Ok b' ->
  same_targets kind (plans_of b) (plans_of b').
Proof.
  intros S H. apply (res_fold_inv (fun _ c => same_targets kind (plans_of b) (plans_of c)) f l b b' (reflexivity _)); [|done].
  intros done c x c' Sc _ E. etransitivity; [exact Sc|by eapply S].
Qed.
Lemma same_run kind current state run state' :
  resolve_run current state run = Ok state' -> same_targets kind state.1 state'.1.
Proof.
  destruct state as [plans seen]. unfold resolve_run. intros H. split_res H. cbn zeta in H.
  assert (same_targets kind plans x1) as S by (destruct x0; split_res X1; by simplify_eq).
  destruct (TargetRunState_Terminal _); split_res H; simplify_eq; [done|]. cbn. by destruct x0.
Qed.
Lemma same_operation kind target q plans operation plans' :
  resolve_operation target q plans operation = Ok plans' -> same_targets kind plans plans'.
Proof.
  unfold resolve_operation. destruct (TargetOperationState_Terminal _); [by intros [= <-]|]. intros H. split_res H.
  apply Ok_inj in H as <-. by destruct q.
Qed.
Lemma same_target_generation kind target current cleanup preserve state generation state' :
  target_Kind target <> kind ->
  resolve_target_generation target current cleanup preserve state generation = Ok state' -> same_targets kind state.1 state'.1.
Proof.
  intros N. destruct state as [plans hb]. unfold resolve_target_generation. intros H. split_res H. cbn zeta in H.
  destruct (negb _); split_res H; simplify_eq; [done|]. cbn.
  etransitivity; [|by apply same_add_cleanup]. done.
Qed.
Lemma same_pending_reset kind target current bound plans plans' :
  target_Kind target <> kind -> resolve_pending_reset target current bound plans = Ok plans' -> same_targets kind plans plans'.
Proof.
  intros N. unfold resolve_pending_reset. intros H. split_res H. cbn zeta in H. split_res H. apply Ok_inj in H as <-.
  match goal with X : (if bound then _ else _) = Ok ?p |- _ => transitivity p; [|done];
    destruct bound; split_res X; apply Ok_inj in X as <- end; [etransitivity; [|by apply same_add_target]|];
    (etransitivity; [by apply (same_add_target kind)|done]).
Qed.
Lemma same_expect_target kind target current unbound incident recovery quarantine destruction plans plans' :
  target_Kind target <> kind ->
  expect_target target current unbound incident recovery quarantine destruction plans = Ok plans' -> same_targets kind plans plans'.
Proof.
  intros N. unfold expect_target. intros H. split_res H. cbn zeta in H. split_res H. apply Ok_inj in H as <-.
  etransitivity; [by apply (same_add_target kind (target_Kind target) x)|].
  match goal with X : match incident with _ => _ end = Ok ?p |- _ =>
    assert (same_targets kind (add_target (target_Kind target) x plans) p) as S end.
  { destruct incident; [destruct (bool_decide _); split_res X1|]; simplify_eq; by destruct recovery as [[]|]. }
  etransitivity; [exact S|]. by destruct quarantine, destruction, (_ && _).
Qed.
Lemma same_target kind view cleanup plans target plans' :
  target_Kind target <> kind -> resolve_target view cleanup plans target = Ok plans' -> same_targets kind plans plans'.
Proof.
  intros N H. unfold resolve_target in H.
  rewrite res_bind_ok in H. destruct H as (current & _ & H).
  rewrite res_bind_ok in H. destruct H as ([incident recovery] & _ & H). cbn zeta in H.
  rewrite res_bind_ok in H. destruct H as ([quarantine destruction] & _ & H).
  rewrite res_bind_ok in H. destruct H as ([p1 seen] & R & H).
  rewrite check_bind_ok in H. destruct H as [_ H].
  rewrite res_bind_ok in H. destruct H as (p2 & O & H).
  rewrite res_bind_ok in H. destruct H as ([p3 hb] & G & H).
  rewrite !check_bind_ok in H. destruct H as (_ & _ & H).
  apply (res_fold_same kind fst) in R; [|by intros; eapply same_run].
  apply (res_fold_same kind (fun p => p)) in O; [|by intros; eapply same_operation].
  apply (res_fold_same kind fst) in G; [|by intros; eapply same_target_generation].
  apply (transitivity R), (transitivity O), (transitivity G). clear R O G. cbn [fst].
  destruct (_ && negb _); [by simplify_eq|].
  rewrite res_bind_ok in H. destruct H as (bound & _ & H). rewrite check_bind_ok in H. destruct H as [_ H].
  destruct (_ && (_ =? 0)%nat); [by simplify_eq|].
  rewrite unit_bind_ok in H. destruct H as [_ H]. rewrite check_bind_ok in H. destruct H as [_ H].
  destruct (_ && _); [by eapply same_pending_reset|by eapply same_expect_target].
Qed.

(** The session's agent is under recovery, or it has no target of the kind. *)
Definition hides_targets (kind : Domain.TargetKind) view : Prop :=
  agent_recovering view = true \/ Forall (fun target => target_Kind target <> kind) (view_Targets view).
Lemma hidden_view kind plans view plans' :
  hides_targets kind view -> resolve_view plans view = Ok plans' -> same_targets kind plans plans'.
Proof.
  unfold resolve_view. cbn zeta. intros R H. rewrite res_bind_ok in H. destruct H as (p1 & G & H). transitivity p1.
  { refine (res_fold_inv (fun _ p => same_targets kind plans p) _ _ _ _ _ _ G); [done|]. intros done p g p' Sp _ E.
    etransitivity; [exact Sp|by eapply same_agent_generation]. }
  rewrite res_bind_ok in H. destruct H as (current & C & H). rewrite res_bind_ok in H. destruct H as ([p2 next] & A & H). transitivity p2.
  { destruct (_ && _); [by eapply same_current_agent|by simplify_eq]. }
  destruct next; [by simplify_eq|]. destruct R as [R|R].
  - exfalso. unfold agent_recovering in R. rewrite C, !andb_true_iff in R. destruct R as [[[R1 R2] R3] R4]. rewrite R1, R2 in A. cbn in A.
    apply current_agent_expected in A as [_ E]. by rewrite R3, R4 in E.
  - rewrite Forall_forall in R. refine (res_fold_inv (fun _ p => same_targets kind p2 p) _ _ _ _ _ _ H); [done|]. intros done p t p' Sp I E.
    etransitivity; [exact Sp|]. eapply same_target; [by apply R|exact E].
Qed.

Lemma nothing_requested plans kind :
  targets_of plans kind = [] -> cleanup_of plans kind = ∅ -> expected_targets plans kind = [].
Proof.
  intros T C. assert (target_cleanup_plans plans kind false true = ∅) as E.
  { unfold target_cleanup_plans. rewrite T, C, map_filter_empty. induction (pp_pendingTargetResets plans); cbn; [done|]. by case_bool_decide. }
  apply elem_of_nil_inv. intros plan.
  unfold expected_targets, allTargetInventoryPlans, startupTargetInventoryRequest, sortedTargetPlanMap, sortTargetPlans, map_values.
  rewrite E, T. cbn. rewrite map_to_list_empty, elem_of_app, !sort_by_elem. set_solver.
Qed.

(** C24: While the recovery of an agent is open, the targets of its session are
    not among the plans, although they keep running: when every session that has
    targets of a kind has its agent under recovery, startup fails as soon as an
    inventory of that kind lists any target.  The other sessions may have targets
    of other kinds. *)
Theorem recovery_hides_targets views plans destroyedMissing agents reports calls kind :
  Forall (hides_targets kind) views -> resolvePersistedPhysicalPlans views = Ok plans -> kind ∈ target_drivers ->
  trep_Expected (report_of reports kind) ++ trep_Unclaimed (report_of reports kind) <> [] ->
  exists e, (settle_inventory plans destroyedMissing agents reports calls).1 = Err e.
Proof.
  intros Hd Rs K Ne. assert (targets_of plans kind = [] /\ cleanup_of plans kind = ∅) as [T C].
  { unfold resolvePersistedPhysicalPlans in Rs. rewrite res_bind_ok in Rs. destruct Rs as (p & H & E). apply Ok_inj in E as <-.
    assert (same_targets kind no_physical_plans p) as S; [|exact S]. rewrite Forall_forall in Hd.
    refine (res_fold_inv (fun _ q => same_targets kind no_physical_plans q) _ _ _ _ _ _ H); [done|].
    intros done q view q' Sq I E. etransitivity; [exact Sq|]. eapply hidden_view; [by apply Hd|exact E]. }
  destruct (settle_inventory _ _ _ _ _) as [[s|e] calls'] eqn:H; [|by eexists]. exfalso. unfold settle_inventory in H.
  rewrite DM_bind_ok in H. destruct H as (required & c1 & _ & H).
  rewrite DM_bind_ok in H. destruct H as (plans' & c2 & A & H). apply dm_lift_ok in A as [A _]. rewrite failing_ok in A. cbn zeta in H.
  rewrite DM_bind_ok in H. destruct H as ([agentOrphans targetOrphans] & c3 & X & _).
  assert (expected_targets plans' kind = []) as Ex. { apply authorize_ok in A as [E _]. apply nothing_requested; by rewrite E. }
  apply assess_all_ok in X as (_ & _ & Ks & Tg). apply sortedTargetKinds_elem in K. rewrite <-Ks in K.
  apply list_elem_of_fmap in K as ([k refs] & -> & I). rewrite Forall_forall in Tg. destruct (Tg _ I) as [As _]. cbn [fst] in As, Ne, Ex.
  unfold assess_targets in As. fold (expected_targets plans' k) in As. rewrite Ex in As.
  match type of As with context [assessTargetReconciliationWithRecovery [] ?t ?m ?st ?r] =>
    pose proof (assess_target_clean [] t m st r) as [Cl _] end.
  destruct (assessTargetReconciliationWithRecovery _ _ _ _ _) as [safe []]; [|done]. cbn in Cl.
  destruct (proj1 Cl eq_refl) as [_ _ _ _ _ P _ U _]. apply Permutation_nil_r in P. apply fmap_nil_inv in U.
  apply fmap_nil_inv, fmap_nil_inv in P. by rewrite P, U in Ne.
Qed.
End Settled.

(** ** A concrete startup *)
Module StartupDemo.
#[local] Existing Instance BundleDemo.slice_sort.
Definition uuid (n : N) : uuidV7 := (repeat 0 6 ++ [112; 0; 128] ++ repeat 0 6 ++ [n])%N.
Definition digest : string := digest_String (repeat 1%N 32).
Definition agent_id : string := id_String prefix_agentWorkspace (uuid 1).
Definition target_id : string := id_String prefix_target (uuid 2).
Definition agent_ref (generation : N) : AgentWorkspaceRef := mkAgentWorkspaceRef (uuid 1) generation.
Definition target_ref (generation : N) : TargetRef := mkTargetRef (uuid 2) generation.

(** Plans are the references of their generations. *)
#[export] Instance plans : Plans := {|
  AgentWorkspacePlan := AgentWorkspaceRef; agent_plan_ref := id; AgentProvisioningPlan := AgentWorkspaceRef; app_Agent := id;
  TargetPlan := TargetRef; target_plan_ref := id; TargetRunPlan := TargetRef; run_plan_ref := id |}.
#[export] Instance resolution : PlanResolution := {|
  resolvePersistedAgent key view :=
    generation ← currentAgentGeneration (view_Agent view);
    agentGenerationRef (agent_ID (view_Agent view)) (agen_Generation generation);
  admitAgentWorkspacePlan _ := Ok tt;
  resolvePersistedTargetProvisioningPlan _ target _ :=
    generation ← targetGeneration target;
    targetGenerationRef (target_ID target) (tgen_Generation generation);
  resolvePersistedTargetRunPlan _ target run := targetGenerationRef (target_ID target) (run_Generation run);
  has_capabilities := false; reservation_for _ _ _ := None; bundlePublicationComplete _ := Ok true;
  target_drivers := [Domain.TargetLinuxContainer]; deadline := 100%Z |}.
Lemma faithful : plans_faithful.
Proof.
  split.
  - intros key view plan g R C. cbn in R. rewrite C in R. exact R.
  - intros meta key target plan g R C. cbn in R. rewrite C in R. exact R.
Qed.

Definition agent_generation (n : N) (bound : bool) (previous : N) (incident : string) (state : AgentGenerationState) : AgentGenerationRecord :=
  mkAgentGenerationRecord n (id_String prefix_workspace (uuid 10)) "" digest digest (if bound then digest else "")
    (if bound then "workspace-key" else "") (if bound then "agent-key" else "") previous incident state 1 1 1.
Definition target_generation (n : N) (state : TargetGenerationState) : TargetGenerationRecord :=
  mkTargetGenerationRecord n digest digest digest "target-key" 0 "" state 1 1 1.
Definition session (current : N) (generations : list AgentGenerationRecord) (target : TargetRecord) (incidents : list IncidentRecord)
    : ResearchSessionView :=
  mkResearchSessionView
    (mkSessionRecord "session" "owner" "acquire" (ResearchSessionUnrecognized "") 1 "lease" agent_id "" digest digest 1 1)
    (mkLeaseRecord "lease" "session" agent_id current "" digest digest LeaseActive 1 50 zero_termination 1 1)
    (mkAgentWorkspaceRecord agent_id "session" current 1 1 1 generations) [] [target] incidents.
Definition target (current : N) (generations : list TargetGenerationRecord) : TargetRecord :=
  mkTargetRecord target_id "session" "lease" "create" "" Domain.TargetLinuxContainer current 1 1 1 generations [] [].

(** A running agent, and a target whose first generation left its container. *)
Definition running : ResearchSessionView :=
  session 1 [agent_generation 1 true 0 "" AgentGenerationRunning]
    (target 2 [target_generation 1 TargetGenerationDestroyed; target_generation 2 TargetGenerationReady]) [].
Definition agent_seen (n : N) : AgentWorkspaceReconciliation :=
  mkAgentWorkspaceReconciliation (agent_ref n) "agent-container" PhysicalResourceAdopted true "".
Definition target_seen (n : N) : TargetReconciliation :=
  mkTargetReconciliation (target_ref n) "target-container" PhysicalResourceAdopted true false "".
Definition target_gone (n : N) : TargetReconciliation :=
  mkTargetReconciliation (target_ref n) "" PhysicalResourceMissing false false "".
Definition agents_report (n : N) : AgentWorkspaceReconciliationReport := mkAgentReport [agent_seen n] [] [] 10.
Definition first_report : TargetReconciliationReport := mkTargetReport [target_seen 2; target_seen 1] [] [] 10.
Definition is_destroy (call : driver_call) : bool := match call with TargetDestroy _ _ => true | _ => false end.

(** The container is gone once its destruction was asked for. *)
#[export] Instance drivers : Drivers := {|
  agent_Stop _ _ _ := Ok tt; agent_Destroy _ _ := Ok tt;
  ReconcileAgentWorkspaces _ _ := Ok (agents_report 1);
  workspace_Inspect _ _ := Err (NewError CodeNotFound "workspace" "id"); workspace_Mount _ _ := Ok tt;
  workspace_Preview _ _ := Err (ErrText "no preview"); workspace_Seal _ _ _ := Ok tt; workspace_Release _ _ := Ok tt;
  target_Destroy _ _ _ := Ok tt;
  ReconcileTargets calls _ _ :=
    Ok (mkTargetReport [target_seen 2; if existsb is_destroy calls then target_gone 1 else target_seen 1] [] [] 20);
  ctx_Err _ := None |}.

Definition plans_of (view : ResearchSessionView) : persistedPhysicalPlans :=
  match resolvePersistedPhysicalPlans [view] with Ok p => p | Err _ => no_physical_plans end.
Lemma plans_of_ok view : is_ok (resolvePersistedPhysicalPlans [view]) = true -> resolvePersistedPhysicalPlans [view] = Ok (plans_of view).
Proof. unfold plans_of. by destruct (resolvePersistedPhysicalPlans [view]). Qed.

Definition startup : cresult settlement * history :=
  settle_inventory (plans_of running) ∅ (agents_report 1) {[Domain.TargetLinuxContainer := first_report]} [].

Lemma running_resolves : is_ok (resolvePersistedPhysicalPlans [running]) = true.
Proof. by vm_compute. Qed.
Lemma startup_settles : is_ok startup.1 && existsb is_destroy startup.2 = true.
Proof. by vm_compute. Qed.
Lemma startup_answer : exists s calls', startup = (Ok s, calls').
Proof. pose proof startup_settles as R. destruct startup as [[s|e] calls']; [by eexists _, _|done]. Qed.

Lemma running_agent_lives : live_agent running (agent_generation 1 true 0 "" AgentGenerationRunning).
Proof. split; [by vm_compute|]. split; [done|]. split; by vm_compute. Qed.
Lemma running_target_lives : live_target running (target 2 [target_generation 1 TargetGenerationDestroyed; target_generation 2 TargetGenerationReady])
  (target_generation 2 TargetGenerationReady).
Proof. split; [left|]. split; [by vm_compute|]. split; [by vm_compute|]. split; [by left|]. intros C. by vm_compute in C. Qed.
Lemma running_settled : agent_recovering running = false.
Proof. by vm_compute. Qed.

(** A session whose agent waits for its successor to be bound, with a target
    that runs. *)
Definition incident : IncidentRecord :=
  mkIncidentRecord "incident" IncidentAgentWorkspaceFailure "session" "lease" agent_id 1 "" "" 0 "" "" "" (mkCauseRecord CauseUnknown "" "" SpecFloat.S754_nan)
    [] 0 0 [] "" [] ["agent_workspace:recreate"] [] IncidentRecovering 1 1 1.
Definition recovering : ResearchSessionView :=
  session 2 [agent_generation 1 true 0 "" AgentGenerationFailed; agent_generation 2 false 1 "incident" AgentGenerationProvisioning]
    (target 1 [target_generation 1 TargetGenerationReady]) [incident].
Definition unclaimed_report : TargetReconciliationReport :=
  mkTargetReport [] [mkTargetReconciliation (target_ref 1) "target-container" PhysicalResourceOrphan false false ""] [] 10.
Lemma recovering_resolves : is_ok (resolvePersistedPhysicalPlans [recovering]) = true.
Proof. by vm_compute. Qed.
Lemma recovering_target_lives : live_target recovering (target 1 [target_generation 1 TargetGenerationReady]) (target_generation 1 TargetGenerationReady).
Proof. split; [left|]. split; [by vm_compute|]. split; [by vm_compute|]. split; [by left|]. intros C. by vm_compute in C. Qed.
Lemma recovering_hidden : hides_targets Domain.TargetLinuxContainer recovering.
Proof. left. by vm_compute. Qed.
Definition unclaimed_reports : target_reports := {[Domain.TargetLinuxContainer := unclaimed_report]}.
Lemma unclaimed_listed :
  trep_Expected (report_of unclaimed_reports Domain.TargetLinuxContainer) ++ trep_Unclaimed (report_of unclaimed_reports Domain.TargetLinuxContainer) <> [].
Proof. unfold report_of, unclaimed_reports. by rewrite lookup_singleton_eq. Qed.
#[local] Opaque running recovering agents_report first_report unclaimed_reports.

Lemma startup_destroys_only_dead_witness :
  exists new, startup.2 = new /\
    Forall (allowed_call [running] (plans_of running) (agents_report 1) {[Domain.TargetLinuxContainer := first_report]}) new.
Proof.
  exact (startup_destroys_only_dead [running] (plans_of running) ∅ (agents_report 1) {[Domain.TargetLinuxContainer := first_report]} []
    (plans_of_ok _ running_resolves)).
Defined.

Lemma settled_inventory_accounts_witness : exists s calls' plans', startup = (Ok s, calls') /\ agents_settled plans' (set_agents s).
Proof.
  destruct startup_answer as (s & calls' & E). exists s, calls'.
  destruct (settled_inventory_accounts _ _ _ _ _ _ _ E) as (plans' & _ & _ & A & _). exists plans'. split; [exact E|exact A].
Defined.

Lemma live_resources_running_witness : exists s calls', startup = (Ok s, calls') /\
  (exists o, o ∈ arep_Expected (set_agents s) /\ aobs_ContainerID o <> "") /\
  exists o, o ∈ trep_Expected (report_of (set_targets s) Domain.TargetLinuxContainer).
Proof.
  destruct startup_answer as (s & calls' & E). exists s, calls'. split; [exact E|].
  pose proof (plans_of_ok _ running_resolves) as R.
  pose proof (live_resources_running (PR := resolution) (DR := drivers) (SS := BundleDemo.slice_sort) [running] (plans_of running) ∅
    (agents_report 1) {[Domain.TargetLinuxContainer := first_report]} [] s calls') as L.
  destruct (L faithful R E running (list_elem_of_here _ [])) as [A T].
  destruct (A _ running_agent_lives) as (ref & o & _ & O & _ & N). destruct (T _ _ running_settled running_target_lives) as (ref' & o' & _ & O' & _).
  split; [exists o; split; [exact O|exact N]|exists o'; exact O'].
Defined.

Lemma recovery_hides_targets_witness :
  hides_targets Domain.TargetLinuxContainer recovering /\ live_target recovering (target 1 [target_generation 1 TargetGenerationReady]) (target_generation 1 TargetGenerationReady) /\
  exists e, (settle_inventory (plans_of recovering) ∅ (agents_report 1) unclaimed_reports []).1 = Err e.
Proof.
  split; [exact recovering_hidden|]. split; [exact recovering_target_lives|].
  apply (recovery_hides_targets [recovering] (plans_of recovering) ∅ (agents_report 1)
    unclaimed_reports [] Domain.TargetLinuxContainer).
  - apply Forall_singleton. exact recovering_hidden.
  - exact (plans_of_ok _ recovering_resolves).
  - left.
  - exact unclaimed_listed.
Defined.
End StartupDemo.
