(* ===== verification/Docker.v ===== *)
(** * Docker containers and their physical configuration

    [internal/drivers/dockercli/configuration.go] with the types of
    [inventory.go]: what the drivers compare of a container that Docker inspects,
    how two spellings of the same configuration are made equal, the hardened
    configuration every plan starts from, and the tests on identities, labels and
    states that are shared by the drivers.

    The host is a Unix host, so host paths are case-sensitive and
    [filepath.Clean] is [path.Clean].  [sort.Slice] is a parameter ([SliceSort]),
    and so is the order in which [range] visits a map ([MapRange]).  Slices are
    lists: nil and empty slices are only compared after the code has replaced
    both by an empty one. *)
From Stdlib Require Import Ascii String.
From S2P Require Import Prelude Errors GoStrings GoText Capacity.
Local Open Scope Z_scope.

(** ** Types *)
Record Mount := mkMount {
  mnt_Type : string; mnt_Name : string; mnt_Source : string; mnt_Destination : string; mnt_ReadOnly : bool;
  mnt_Mode : string; mnt_Propagation : string; mnt_Driver : string }.
Record BindOptions := mkBindOptions {
  bo_Propagation : string; bo_NonRecursive : bool; bo_CreateMountpoint : bool; bo_ReadOnlyNonRecursive : bool;
  bo_ReadOnlyForceRecursive : bool }.
Record MountDriver := mkMountDriver { md_Name : string; md_Options : gmap string string }.
Record VolumeOptions := mkVolumeOptions {
  vo_NoCopy : bool; vo_Labels : gmap string string; vo_Subpath : string; vo_Driver : MountDriver; vo_DriverKnown : bool }.
Record TmpfsOptions := mkTmpfsOptions { to_SizeBytes : Z; to_Mode : Z; to_Options : list (list string) }.
Record ImageOptions := mkImageOptions { io_Subpath : string }.
Record ConfiguredMount := mkConfiguredMount {
  cm_Type : string; cm_Source : string; cm_Target : string; cm_ReadOnly : bool; cm_Consistency : string;
  cm_BindOptions : BindOptions; cm_BindOptionsKnown : bool; cm_VolumeOptions : VolumeOptions; cm_VolumeOptionsKnown : bool;
  cm_TmpfsOptions : TmpfsOptions; cm_TmpfsOptionsKnown : bool; cm_ImageOptions : ImageOptions; cm_ImageOptionsKnown : bool;
  cm_ClusterOptionsKnown : bool }.
Record Device := mkDevice { dev_HostPath : string; dev_ContainerPath : string; dev_Permissions : string }.
Record RestartPolicy := mkRestartPolicy { rp_Name : string; rp_MaximumRetryCount : Z }.
Record DeviceRequest := mkDeviceRequest {
  dr_Driver : string; dr_Count : Z; dr_DeviceIDs : list string; dr_Capabilities : list (list string);
  dr_Options : gmap string string }.
Record PortBinding := mkPortBinding { pb_HostIP : string; pb_HostPort : string }.
Record Healthcheck := mkHealthcheck {
  hc_Test : list string; hc_Interval : Z; hc_Timeout : Z; hc_StartPeriod : Z; hc_StartInterval : Z; hc_Retries : Z }.
Record Ulimit := mkUlimit { ul_Name : string; ul_Soft : Z; ul_Hard : Z }.
Record WeightDevice := mkWeightDevice { wd_Path : string; wd_Weight : Z }.
Record ThrottleDevice := mkThrottleDevice { td_Path : string; td_Rate : Z }.
Record LogConfiguration := mkLogConfiguration { log_Type : string; log_Config : gmap string string }.
#[export] Instance : Settable Mount := {| record_eta r :=
  mkMount (mnt_Type r) (mnt_Name r) (mnt_Source r) (mnt_Destination r) (mnt_ReadOnly r) (mnt_Mode r) (mnt_Propagation r) (mnt_Driver r) |}.
#[export] Instance : Settable ConfiguredMount := {| record_eta r :=
  mkConfiguredMount (cm_Type r) (cm_Source r) (cm_Target r) (cm_ReadOnly r) (cm_Consistency r) (cm_BindOptions r)
    (cm_BindOptionsKnown r) (cm_VolumeOptions r) (cm_VolumeOptionsKnown r) (cm_TmpfsOptions r) (cm_TmpfsOptionsKnown r)
    (cm_ImageOptions r) (cm_ImageOptionsKnown r) (cm_ClusterOptionsKnown r) |}.

#[export] Instance Mount_eq_dec : EqDecision Mount.
Proof. solve_decision. Defined.
#[export] Instance BindOptions_eq_dec : EqDecision BindOptions.
Proof. solve_decision. Defined.
#[export] Instance MountDriver_eq_dec : EqDecision MountDriver.
Proof. solve_decision. Defined.
#[export] Instance VolumeOptions_eq_dec : EqDecision VolumeOptions.
Proof. solve_decision. Defined.
#[export] Instance TmpfsOptions_eq_dec : EqDecision TmpfsOptions.
Proof. solve_decision. Defined.
#[export] Instance ImageOptions_eq_dec : EqDecision ImageOptions.
Proof. solve_decision. Defined.
#[export] Instance ConfiguredMount_eq_dec : EqDecision ConfiguredMount.
Proof. solve_decision. Defined.
#[export] Instance Device_eq_dec : EqDecision Device.
Proof. solve_decision. Defined.
#[export] Instance RestartPolicy_eq_dec : EqDecision RestartPolicy.
Proof. solve_decision. Defined.
#[export] Instance DeviceRequest_eq_dec : EqDecision DeviceRequest.
Proof. solve_decision. Defined.
#[export] Instance PortBinding_eq_dec : EqDecision PortBinding.
Proof. solve_decision. Defined.
#[export] Instance Healthcheck_eq_dec : EqDecision Healthcheck.
Proof. solve_decision. Defined.
#[export] Instance Ulimit_eq_dec : EqDecision Ulimit.
Proof. solve_decision. Defined.
#[export] Instance WeightDevice_eq_dec : EqDecision WeightDevice.
Proof. solve_decision. Defined.
#[export] Instance ThrottleDevice_eq_dec : EqDecision ThrottleDevice.
Proof. solve_decision. Defined.
#[export] Instance LogConfiguration_eq_dec : EqDecision LogConfiguration.
Proof. solve_decision. Defined.

(** ** What is compared of a container *)
Record Configuration := mkConfiguration {
  cfg_Image : string; cfg_Runtime : string; cfg_Hostname : string; cfg_Domainname : string;
  cfg_Entrypoint : list string; cfg_Command : list string; cfg_Environment : list string; cfg_WorkingDir : string;
  cfg_User : string; cfg_AttachStdin : bool; cfg_AttachStdout : bool; cfg_AttachStderr : bool; cfg_OpenStdin : bool;
  cfg_StdinOnce : bool; cfg_TTY : bool; cfg_NetworkDisabled : bool; cfg_MacAddress : string;
  cfg_ExposedPorts : list string; cfg_DeclaredVolumes : list string; cfg_Healthcheck : Healthcheck;
  cfg_HealthcheckKnown : bool; cfg_StopSignal : string; cfg_StopTimeout : Z; cfg_StopTimeoutKnown : bool;
  cfg_ReadOnlyRoot : bool; cfg_Privileged : bool; cfg_RestartPolicy : RestartPolicy; cfg_AutoRemove : bool;
  cfg_NetworkMode : string; cfg_PIDMode : string; cfg_IPCMode : string; cfg_CgroupMode : string;
  cfg_UsernsMode : string; cfg_UTSMode : string; cfg_Init : bool; cfg_InitKnown : bool;
  cfg_CapabilitiesAdd : list string; cfg_CapabilitiesDrop : list string; cfg_GroupAdd : list string;
  cfg_SecurityOptions : list string; cfg_Tmpfs : gmap string string; cfg_Devices : list Device;
  cfg_DeviceRequests : list DeviceRequest; cfg_DeviceCgroupRules : list string; cfg_Mounts : list Mount;
  cfg_ConfiguredMounts : list ConfiguredMount; cfg_Binds : list string; cfg_VolumesFrom : list string;
  cfg_ContainerIDFile : string; cfg_PublishAllPorts : bool; cfg_PortBindings : gmap string (list PortBinding);
  cfg_NetworkAttachments : list string; cfg_ExtraHosts : list string; cfg_DNS : list string;
  cfg_DNSOptions : list string; cfg_DNSSearch : list string; cfg_Links : list string; cfg_OomKillDisable : bool;
  cfg_OomScoreAdj : Z; cfg_Cgroup : string; cfg_CgroupParent : string; cfg_MemoryReservation : Z;
  cfg_KernelMemory : Z; cfg_KernelMemoryTCP : Z; cfg_MemorySwappiness : Z; cfg_MemorySwappinessKnown : bool;
  cfg_CPUShares : Z; cfg_CPUPeriod : Z; cfg_CPUQuota : Z; cfg_CPURealtimePeriod : Z; cfg_CPURealtimeRuntime : Z;
  cfg_CpusetCPUs : string; cfg_CpusetMems : string; cfg_BlkioWeight : Z; cfg_BlkioWeightDevice : list WeightDevice;
  cfg_BlkioDeviceReadBps : list ThrottleDevice; cfg_BlkioDeviceWriteBps : list ThrottleDevice;
  cfg_BlkioDeviceReadIOps : list ThrottleDevice; cfg_BlkioDeviceWriteIOps : list ThrottleDevice; cfg_CPUCount : Z;
  cfg_CPUPercent : Z; cfg_IOMaximumBandwidth : Z; cfg_IOMaximumIOps : Z; cfg_Ulimits : list Ulimit;
  cfg_Sysctls : gmap string string; cfg_MaskedPaths : list string; cfg_ReadonlyPaths : list string; cfg_ShmSize : Z;
  cfg_LogConfig : LogConfiguration; cfg_VolumeDriver : string; cfg_StorageOptions : gmap string string;
  cfg_Isolation : string; cfg_Annotations : gmap string string; cfg_MemoryBytes : Z; cfg_MemorySwapBytes : Z;
  cfg_NanoCPUs : Z; cfg_PIDs : Z }.
#[export] Instance : Settable Configuration := {| record_eta r :=
  mkConfiguration
    (cfg_Image r) (cfg_Runtime r) (cfg_Hostname r) (cfg_Domainname r) (cfg_Entrypoint r) (cfg_Command r)
    (cfg_Environment r) (cfg_WorkingDir r) (cfg_User r) (cfg_AttachStdin r) (cfg_AttachStdout r) (cfg_AttachStderr r)
    (cfg_OpenStdin r) (cfg_StdinOnce r) (cfg_TTY r) (cfg_NetworkDisabled r) (cfg_MacAddress r) (cfg_ExposedPorts r)
    (cfg_DeclaredVolumes r) (cfg_Healthcheck r) (cfg_HealthcheckKnown r) (cfg_StopSignal r) (cfg_StopTimeout r)
    (cfg_StopTimeoutKnown r) (cfg_ReadOnlyRoot r) (cfg_Privileged r) (cfg_RestartPolicy r) (cfg_AutoRemove r)
    (cfg_NetworkMode r) (cfg_PIDMode r) (cfg_IPCMode r) (cfg_CgroupMode r) (cfg_UsernsMode r) (cfg_UTSMode r)
    (cfg_Init r) (cfg_InitKnown r) (cfg_CapabilitiesAdd r) (cfg_CapabilitiesDrop r) (cfg_GroupAdd r)
    (cfg_SecurityOptions r) (cfg_Tmpfs r) (cfg_Devices r) (cfg_DeviceRequests r) (cfg_DeviceCgroupRules r)
    (cfg_Mounts r) (cfg_ConfiguredMounts r) (cfg_Binds r) (cfg_VolumesFrom r) (cfg_ContainerIDFile r)
    (cfg_PublishAllPorts r) (cfg_PortBindings r) (cfg_NetworkAttachments r) (cfg_ExtraHosts r) (cfg_DNS r)
    (cfg_DNSOptions r) (cfg_DNSSearch r) (cfg_Links r) (cfg_OomKillDisable r) (cfg_OomScoreAdj r) (cfg_Cgroup r)
    (cfg_CgroupParent r) (cfg_MemoryReservation r) (cfg_KernelMemory r) (cfg_KernelMemoryTCP r)
    (cfg_MemorySwappiness r) (cfg_MemorySwappinessKnown r) (cfg_CPUShares r) (cfg_CPUPeriod r) (cfg_CPUQuota r)
    (cfg_CPURealtimePeriod r) (cfg_CPURealtimeRuntime r) (cfg_CpusetCPUs r) (cfg_CpusetMems r) (cfg_BlkioWeight r)
    (cfg_BlkioWeightDevice r) (cfg_BlkioDeviceReadBps r) (cfg_BlkioDeviceWriteBps r) (cfg_BlkioDeviceReadIOps r)
    (cfg_BlkioDeviceWriteIOps r) (cfg_CPUCount r) (cfg_CPUPercent r) (cfg_IOMaximumBandwidth r) (cfg_IOMaximumIOps r)
    (cfg_Ulimits r) (cfg_Sysctls r) (cfg_MaskedPaths r) (cfg_ReadonlyPaths r) (cfg_ShmSize r) (cfg_LogConfig r)
    (cfg_VolumeDriver r) (cfg_StorageOptions r) (cfg_Isolation r) (cfg_Annotations r) (cfg_MemoryBytes r)
    (cfg_MemorySwapBytes r) (cfg_NanoCPUs r) (cfg_PIDs r) |}.

(** Keys are joined with a NUL byte. *)
Definition NULs : string := String NUL "".
Definition keyed (parts : list string) : string := join NULs parts.

(** ** Paths and cases *)
(** [strings.ToUpper], [strings.ToLower]: the ASCII letters and the runes that
    fold into ASCII; other bytes are kept, which no comparison with an ASCII text
    can tell. *)
Definition to_upper_byte (a : ascii) : ascii := if in_range 97 122 (byte_of a) then chr (byte_of a - 32) else a.
Fixpoint ToUpper (s : string) : string :=
  match s with
  | "" => ""
  | String a s1 =>
      match s1 with
      | String b s2 =>
          if ((byte_of a =? 197) && (byte_of b =? 191))%N then String "S" (ToUpper s2)
          else if ((byte_of a =? 196) && (byte_of b =? 177))%N then String "I" (ToUpper s2)
          else String (to_upper_byte a) (ToUpper s1)
      | "" => String (to_upper_byte a) ""
      end
  end.
Fixpoint ToLowerText (s : string) : string :=
  match s with
  | "" => ""
  | String a s1 =>
      match s1 with
      | String b s2 =>
          if ((byte_of a =? 196) && (byte_of b =? 176))%N then String "i" (ToLowerText s2) else
          match s2 with
          | String c s3 =>
              if ((byte_of a =? 226) && (byte_of b =? 132) && (byte_of c =? 170))%N then String "k" (ToLowerText s3)
              else String (to_lower_byte a) (ToLowerText s1)
          | "" => String (to_lower_byte a) (ToLowerText s1)
          end
      | "" => String (to_lower_byte a) ""
      end
  end.
(** [strings.ReplaceAll(s, "=", ":")] *)
Fixpoint ReplaceByte (old new : ascii) (s : string) : string :=
  match s with "" => "" | String a s' => String (if (a =? old)%char then new else a) (ReplaceByte old new s') end.

Definition CanonicalHostBindSourceEqual (left right : string) : bool := bool_decide (path_Clean left = path_Clean right).
Definition mountSourceSortKey (mountType source : string) : string := source.
Definition normalizeMountSource (mountType source : string) : string :=
  if negb (bool_decide (mountType = "bind")) || bool_decide (source = "") then source else path_Clean source.
Definition normalizeGuestMountPath (value : string) : string := if bool_decide (value = "") then "" else path_Clean value.

(** [for k, v := range m] visits every entry once, in some order. *)
Class MapRange := {
  range_map : forall {A}, gmap string A -> list (string * A);
  range_map_permutes : forall {A} (m : gmap string A), range_map m ≡ₚ map_to_list m }.

(** ** Normalisation *)
Definition normalizePrivateMode (value : string) : string := if bool_decide (value = "") then "private" else value.
Definition normalizeUpperSet (values : list string) : list string := sort_Strings (ToUpper <$> values).
Definition normalizeStringSet (values : list string) : list string := sort_Strings values.
Definition normalizeSecurityOptions (values : list string) : list string :=
  sort_Strings ((fun value => ToLowerText (ReplaceByte "=" ":" value)) <$> values).
Definition normalizeTmpfs `{MapRange} (values : gmap string string) : gmap string string :=
  fold_left (fun result '(mountPath, value) =>
    <[path_Clean mountPath := join "," (sort_Strings (split_on "," value))]> result) (range_map values) ∅.

Section Normalize.
Context `{SS : SliceSort} {MR : MapRange}.
Definition by_key {A} (key : A -> string) (a b : A) : bool := string_ltb (key a) (key b).

Definition normalizeDevices (values : list Device) : list Device :=
  sort_Slice (by_key (fun d => keyed [dev_ContainerPath d; dev_HostPath d; dev_Permissions d])) values.
Definition mount_key (m : Mount) : string :=
  keyed [mnt_Destination m; mnt_Type m; mnt_Name m; mountSourceSortKey (mnt_Type m) (mnt_Source m); mnt_Mode m;
         mnt_Propagation m; mnt_Driver m].
Definition clean_mount (m : Mount) : Mount :=
  m <| mnt_Source := normalizeMountSource (mnt_Type m) (mnt_Source m) |>
    <| mnt_Destination := normalizeGuestMountPath (mnt_Destination m) |>.
Definition normalizeMounts (values : list Mount) : list Mount := sort_Slice (by_key mount_key) (clean_mount <$> values).
Definition clean_configured_mount (m : ConfiguredMount) : ConfiguredMount :=
  let options := cm_TmpfsOptions m in
  m <| cm_Source := normalizeMountSource (cm_Type m) (cm_Source m) |>
    <| cm_Target := normalizeGuestMountPath (cm_Target m) |>
    <| cm_TmpfsOptions := mkTmpfsOptions (to_SizeBytes options) (to_Mode options)
         (sort_Slice (by_key keyed) (normalizeStringSet <$> to_Options options)) |>.
Definition configured_mount_key (m : ConfiguredMount) : string :=
  keyed [cm_Target m; cm_Type m; mountSourceSortKey (cm_Type m) (cm_Source m)].
Definition normalizeConfiguredMounts (values : list ConfiguredMount) : list ConfiguredMount :=
  sort_Slice (by_key configured_mount_key) (clean_configured_mount <$> values).
Definition normalizeDeviceRequests (values : list DeviceRequest) : list DeviceRequest :=
  sort_Slice (by_key (fun r => keyed (dr_Driver r :: [keyed (dr_DeviceIDs r)])))
    ((fun r => mkDeviceRequest (dr_Driver r) (dr_Count r) (normalizeStringSet (dr_DeviceIDs r))
                 (sort_Slice (by_key keyed) (normalizeStringSet <$> dr_Capabilities r)) (dr_Options r)) <$> values).
Definition normalizePortBindings (values : gmap string (list PortBinding)) : gmap string (list PortBinding) :=
  sort_Slice (by_key (fun b => keyed [pb_HostIP b; pb_HostPort b])) <$> values.
Definition normalizeWeightDevices (values : list WeightDevice) : list WeightDevice := sort_Slice (by_key wd_Path) values.
Definition normalizeThrottleDevices (values : list ThrottleDevice) : list ThrottleDevice :=
  sort_Slice (fun a b => if bool_decide (td_Path a = td_Path b) then td_Rate a <? td_Rate b
                         else string_ltb (td_Path a) (td_Path b)) values.
Definition normalizeUlimits (values : list Ulimit) : list Ulimit := sort_Slice (by_key ul_Name) values.

Definition normalizeConfiguration (value : Configuration) : Configuration := {|
  cfg_Image := cfg_Image value; cfg_Runtime := cfg_Runtime value; cfg_Hostname := cfg_Hostname value;
  cfg_Domainname := cfg_Domainname value; cfg_Entrypoint := cfg_Entrypoint value; cfg_Command := cfg_Command value;
  cfg_Environment := cfg_Environment value; cfg_WorkingDir := cfg_WorkingDir value; cfg_User := cfg_User value;
  cfg_AttachStdin := cfg_AttachStdin value; cfg_AttachStdout := cfg_AttachStdout value;
  cfg_AttachStderr := cfg_AttachStderr value; cfg_OpenStdin := cfg_OpenStdin value;
  cfg_StdinOnce := cfg_StdinOnce value; cfg_TTY := cfg_TTY value; cfg_NetworkDisabled := cfg_NetworkDisabled value;
  cfg_MacAddress := cfg_MacAddress value; cfg_ExposedPorts := normalizeStringSet (cfg_ExposedPorts value);
  cfg_DeclaredVolumes := normalizeStringSet (cfg_DeclaredVolumes value); cfg_Healthcheck := cfg_Healthcheck value;
  cfg_HealthcheckKnown := cfg_HealthcheckKnown value; cfg_StopSignal := cfg_StopSignal value;
  cfg_StopTimeout := cfg_StopTimeout value; cfg_StopTimeoutKnown := cfg_StopTimeoutKnown value;
  cfg_ReadOnlyRoot := cfg_ReadOnlyRoot value; cfg_Privileged := cfg_Privileged value;
  cfg_RestartPolicy := cfg_RestartPolicy value; cfg_AutoRemove := cfg_AutoRemove value;
  cfg_NetworkMode := cfg_NetworkMode value; cfg_PIDMode := normalizePrivateMode (cfg_PIDMode value);
  cfg_IPCMode := normalizePrivateMode (cfg_IPCMode value);
  cfg_CgroupMode := normalizePrivateMode (cfg_CgroupMode value); cfg_UsernsMode := cfg_UsernsMode value;
  cfg_UTSMode := normalizePrivateMode (cfg_UTSMode value); cfg_Init := cfg_Init value;
  cfg_InitKnown := cfg_InitKnown value; cfg_CapabilitiesAdd := normalizeUpperSet (cfg_CapabilitiesAdd value);
  cfg_CapabilitiesDrop := normalizeUpperSet (cfg_CapabilitiesDrop value);
  cfg_GroupAdd := normalizeStringSet (cfg_GroupAdd value);
  cfg_SecurityOptions := normalizeSecurityOptions (cfg_SecurityOptions value);
  cfg_Tmpfs := normalizeTmpfs (cfg_Tmpfs value); cfg_Devices := normalizeDevices (cfg_Devices value);
  cfg_DeviceRequests := normalizeDeviceRequests (cfg_DeviceRequests value);
  cfg_DeviceCgroupRules := normalizeStringSet (cfg_DeviceCgroupRules value);
  cfg_Mounts := normalizeMounts (cfg_Mounts value);
  cfg_ConfiguredMounts := normalizeConfiguredMounts (cfg_ConfiguredMounts value);
  cfg_Binds := normalizeStringSet (cfg_Binds value); cfg_VolumesFrom := normalizeStringSet (cfg_VolumesFrom value);
  cfg_ContainerIDFile := cfg_ContainerIDFile value; cfg_PublishAllPorts := cfg_PublishAllPorts value;
  cfg_PortBindings := normalizePortBindings (cfg_PortBindings value);
  cfg_NetworkAttachments := normalizeStringSet (cfg_NetworkAttachments value);
  cfg_ExtraHosts := normalizeStringSet (cfg_ExtraHosts value); cfg_DNS := cfg_DNS value;
  cfg_DNSOptions := cfg_DNSOptions value; cfg_DNSSearch := cfg_DNSSearch value;
  cfg_Links := normalizeStringSet (cfg_Links value); cfg_OomKillDisable := cfg_OomKillDisable value;
  cfg_OomScoreAdj := cfg_OomScoreAdj value; cfg_Cgroup := cfg_Cgroup value;
  cfg_CgroupParent := cfg_CgroupParent value; cfg_MemoryReservation := cfg_MemoryReservation value;
  cfg_KernelMemory := cfg_KernelMemory value; cfg_KernelMemoryTCP := cfg_KernelMemoryTCP value;
  cfg_MemorySwappiness := cfg_MemorySwappiness value; cfg_MemorySwappinessKnown := cfg_MemorySwappinessKnown value;
  cfg_CPUShares := cfg_CPUShares value; cfg_CPUPeriod := cfg_CPUPeriod value; cfg_CPUQuota := cfg_CPUQuota value;
  cfg_CPURealtimePeriod := cfg_CPURealtimePeriod value; cfg_CPURealtimeRuntime := cfg_CPURealtimeRuntime value;
  cfg_CpusetCPUs := cfg_CpusetCPUs value; cfg_CpusetMems := cfg_CpusetMems value;
  cfg_BlkioWeight := cfg_BlkioWeight value;
  cfg_BlkioWeightDevice := normalizeWeightDevices (cfg_BlkioWeightDevice value);
  cfg_BlkioDeviceReadBps := normalizeThrottleDevices (cfg_BlkioDeviceReadBps value);
  cfg_BlkioDeviceWriteBps := normalizeThrottleDevices (cfg_BlkioDeviceWriteBps value);
  cfg_BlkioDeviceReadIOps := normalizeThrottleDevices (cfg_BlkioDeviceReadIOps value);
  cfg_BlkioDeviceWriteIOps := normalizeThrottleDevices (cfg_BlkioDeviceWriteIOps value);
  cfg_CPUCount := cfg_CPUCount value; cfg_CPUPercent := cfg_CPUPercent value;
  cfg_IOMaximumBandwidth := cfg_IOMaximumBandwidth value; cfg_IOMaximumIOps := cfg_IOMaximumIOps value;
  cfg_Ulimits := normalizeUlimits (cfg_Ulimits value); cfg_Sysctls := cfg_Sysctls value;
  cfg_MaskedPaths := normalizeStringSet (cfg_MaskedPaths value);
  cfg_ReadonlyPaths := normalizeStringSet (cfg_ReadonlyPaths value); cfg_ShmSize := cfg_ShmSize value;
  cfg_LogConfig := cfg_LogConfig value; cfg_VolumeDriver := cfg_VolumeDriver value;
  cfg_StorageOptions := cfg_StorageOptions value; cfg_Isolation := cfg_Isolation value;
  cfg_Annotations := cfg_Annotations value; cfg_MemoryBytes := cfg_MemoryBytes value;
  cfg_MemorySwapBytes := cfg_MemorySwapBytes value; cfg_NanoCPUs := cfg_NanoCPUs value;
  cfg_PIDs := cfg_PIDs value |}.

(** ** Comparison *)
(** Elements at the same position; of two bind mounts the sources may be
    spelled differently. *)
Definition equal_mount (l r : Mount) : bool :=
  if bool_decide (mnt_Type l = "bind") && bool_decide (mnt_Type r = "bind")
  then CanonicalHostBindSourceEqual (mnt_Source l) (mnt_Source r)
       && bool_decide (l <| mnt_Source := "" |> = r <| mnt_Source := "" |>)
  else bool_decide (l = r).
Definition equalMounts (left right : list Mount) : bool :=
  (length left =? length right)%nat && forallb (fun p => equal_mount p.1 p.2) (combine left right).
Definition equal_configured_mount (l r : ConfiguredMount) : bool :=
  if bool_decide (cm_Type l = "bind") && bool_decide (cm_Type r = "bind")
  then CanonicalHostBindSourceEqual (cm_Source l) (cm_Source r)
       && bool_decide (l <| cm_Source := "" |> = r <| cm_Source := "" |>)
  else bool_decide (l = r).
Definition equalConfiguredMounts (left right : list ConfiguredMount) : bool :=
  (length left =? length right)%nat && forallb (fun p => equal_configured_mount p.1 p.2) (combine left right).

(** The fields of the structure in order, and whether they are equal. *)
Definition configuration_fields (a e : Configuration) : list (string * bool) :=
  let same {T} `{EqDecision T} (f : Configuration -> T) := bool_decide (f a = f e) in
  [("Image", same cfg_Image); ("Runtime", same cfg_Runtime); ("Hostname", same cfg_Hostname);
   ("Domainname", same cfg_Domainname); ("Entrypoint", same cfg_Entrypoint); ("Command", same cfg_Command);
   ("Environment", same cfg_Environment); ("WorkingDir", same cfg_WorkingDir); ("User", same cfg_User);
   ("AttachStdin", same cfg_AttachStdin); ("AttachStdout", same cfg_AttachStdout);
   ("AttachStderr", same cfg_AttachStderr); ("OpenStdin", same cfg_OpenStdin); ("StdinOnce", same cfg_StdinOnce);
   ("TTY", same cfg_TTY); ("NetworkDisabled", same cfg_NetworkDisabled); ("MacAddress", same cfg_MacAddress);
   ("ExposedPorts", same cfg_ExposedPorts); ("DeclaredVolumes", same cfg_DeclaredVolumes);
   ("Healthcheck", same cfg_Healthcheck); ("HealthcheckKnown", same cfg_HealthcheckKnown);
   ("StopSignal", same cfg_StopSignal); ("StopTimeout", same cfg_StopTimeout);
   ("StopTimeoutKnown", same cfg_StopTimeoutKnown); ("ReadOnlyRoot", same cfg_ReadOnlyRoot);
   ("Privileged", same cfg_Privileged); ("RestartPolicy", same cfg_RestartPolicy);
   ("AutoRemove", same cfg_AutoRemove); ("NetworkMode", same cfg_NetworkMode); ("PIDMode", same cfg_PIDMode);
   ("IPCMode", same cfg_IPCMode); ("CgroupMode", same cfg_CgroupMode); ("UsernsMode", same cfg_UsernsMode);
   ("UTSMode", same cfg_UTSMode); ("Init", same cfg_Init); ("InitKnown", same cfg_InitKnown);
   ("CapabilitiesAdd", same cfg_CapabilitiesAdd); ("CapabilitiesDrop", same cfg_CapabilitiesDrop);
   ("GroupAdd", same cfg_GroupAdd); ("SecurityOptions", same cfg_SecurityOptions); ("Tmpfs", same cfg_Tmpfs);
   ("Devices", same cfg_Devices); ("DeviceRequests", same cfg_DeviceRequests);
   ("DeviceCgroupRules", same cfg_DeviceCgroupRules); ("Mounts", equalMounts (cfg_Mounts a) (cfg_Mounts e));
   ("ConfiguredMounts", equalConfiguredMounts (cfg_ConfiguredMounts a) (cfg_ConfiguredMounts e));
   ("Binds", same cfg_Binds); ("VolumesFrom", same cfg_VolumesFrom); ("ContainerIDFile", same cfg_ContainerIDFile);
   ("PublishAllPorts", same cfg_PublishAllPorts); ("PortBindings", same cfg_PortBindings);
   ("NetworkAttachments", same cfg_NetworkAttachments); ("ExtraHosts", same cfg_ExtraHosts); ("DNS", same cfg_DNS);
   ("DNSOptions", same cfg_DNSOptions); ("DNSSearch", same cfg_DNSSearch); ("Links", same cfg_Links);
   ("OomKillDisable", same cfg_OomKillDisable); ("OomScoreAdj", same cfg_OomScoreAdj); ("Cgroup", same cfg_Cgroup);
   ("CgroupParent", same cfg_CgroupParent); ("MemoryReservation", same cfg_MemoryReservation);
   ("KernelMemory", same cfg_KernelMemory); ("KernelMemoryTCP", same cfg_KernelMemoryTCP);
   ("MemorySwappiness", same cfg_MemorySwappiness); ("MemorySwappinessKnown", same cfg_MemorySwappinessKnown);
   ("CPUShares", same cfg_CPUShares); ("CPUPeriod", same cfg_CPUPeriod); ("CPUQuota", same cfg_CPUQuota);
   ("CPURealtimePeriod", same cfg_CPURealtimePeriod); ("CPURealtimeRuntime", same cfg_CPURealtimeRuntime);
   ("CpusetCPUs", same cfg_CpusetCPUs); ("CpusetMems", same cfg_CpusetMems); ("BlkioWeight", same cfg_BlkioWeight);
   ("BlkioWeightDevice", same cfg_BlkioWeightDevice); ("BlkioDeviceReadBps", same cfg_BlkioDeviceReadBps);
   ("BlkioDeviceWriteBps", same cfg_BlkioDeviceWriteBps); ("BlkioDeviceReadIOps", same cfg_BlkioDeviceReadIOps);
   ("BlkioDeviceWriteIOps", same cfg_BlkioDeviceWriteIOps); ("CPUCount", same cfg_CPUCount);
   ("CPUPercent", same cfg_CPUPercent); ("IOMaximumBandwidth", same cfg_IOMaximumBandwidth);
   ("IOMaximumIOps", same cfg_IOMaximumIOps); ("Ulimits", same cfg_Ulimits); ("Sysctls", same cfg_Sysctls);
   ("MaskedPaths", same cfg_MaskedPaths); ("ReadonlyPaths", same cfg_ReadonlyPaths); ("ShmSize", same cfg_ShmSize);
   ("LogConfig", same cfg_LogConfig); ("VolumeDriver", same cfg_VolumeDriver);
   ("StorageOptions", same cfg_StorageOptions); ("Isolation", same cfg_Isolation);
   ("Annotations", same cfg_Annotations); ("MemoryBytes", same cfg_MemoryBytes);
   ("MemorySwapBytes", same cfg_MemorySwapBytes); ("NanoCPUs", same cfg_NanoCPUs); ("PIDs", same cfg_PIDs)].
Definition differingConfigurationFields (actual expected : Configuration) : list string :=
  (filter (fun field => field.2 = false) (configuration_fields actual expected)).*1.
Definition ConfigurationDifference (actual expected : Configuration) : result unit :=
  match differingConfigurationFields (normalizeConfiguration actual) (normalizeConfiguration expected) with
  | [] => Ok tt
  | fields => Err (ErrText ("observed Docker configuration differs from the expected plan in fields: " +:+ join ", " fields))
  end.
End Normalize.

(** ** Identities, labels and states *)
Definition is_lower_hex (a : ascii) : bool := in_range 48 57 (byte_of a) || in_range 97 102 (byte_of a).
Definition RequireCanonicalContainerID (value : string) : result unit :=
  check ((String.length value =? 64)%nat && forallb is_lower_hex (list_ascii_of_string value))
    (ErrText "container ID must contain exactly 64 lower-case hexadecimal characters").

(** [labels[name]] of a map that may lack it. *)
Definition label (labels : gmap string string) (name : string) : string := default "" (labels !! name).
Definition ExactWorldLabels (actual expected : gmap string string) : bool :=
  forallb (fun '(name, value) => bool_decide (label actual name = value)) (map_to_list expected)
  && forallb (fun '(name, _) => negb (HasPrefix name "world.") || bool_decide (is_Some (expected !! name))) (map_to_list actual).

Definition StoppedStatusCreated : string := "created".
Definition StoppedStatusExited : string := "exited".
Definition RequireExactStoppedState (running paused restarting dead : bool) (status : string) (allowedStatuses : list string)
    : result unit :=
  _ ← check (negb (running || paused || restarting || dead)) (ErrText "Docker state flags do not describe an exact stopped container");
  check (bool_decide (status ∈ allowedStatuses)) (ErrText "Docker status is not allowed for this stopped-container boundary").
Definition RequireExactRunningState (running paused restarting dead : bool) (status : string) : result unit :=
  check (negb (negb running || paused || restarting || dead || negb (bool_decide (status = "running"))))
    (ErrText "Docker state does not describe an exact running container").

(** ** Resource limits and users *)
Definition NanoCPUs (cpuMilli : Z) : Z := if MaxInt64 / 1000000 <? cpuMilli then MaxInt64 else i64 (cpuMilli * 1000000).
Definition MemorySwapTotal (memoryBytes swapBytes : Z) : result Z :=
  _ ← check (negb (memoryBytes <=? 0)) (ErrText "a positive memory limit is required");
  _ ← check (negb ((swapBytes <? 0) || (i64 (MaxInt64 - memoryBytes) <? swapBytes)))
        (ErrText "swap limit is negative or overflows Docker's combined limit");
  Ok (i64 (memoryBytes + swapBytes)).
(** The error of [ResourceLimitArguments]. *)
Definition RequireResourceLimits (cpuMilli memoryBytes swapBytes pids : Z) : result unit :=
  _ ← check (negb ((cpuMilli <=? 0) || (pids <=? 0))) (ErrText "positive CPU and PID limits are required");
  _ ← MemorySwapTotal memoryBytes swapBytes;
  Ok tt.

(** [strconv.ParseUint(s, 10, bits)] *)
Definition ParseUint (s : string) (bits : Z) : option N :=
  if all_digits s && (decimal_value s 0 <? 2 ^ bits) then Some (Z.to_N (decimal_value s 0)) else None.
Definition ParseNumericUser (value : string) : result (N * N) :=
  let bad := ErrText "uid and gid must be positive 31-bit decimal numbers" in
  match split_on ":" value with
  | [uid; gid] =>
      uid ← from_option_err bad (ParseUint uid 31);
      _ ← check (negb (uid =? 0)%N) bad;
      gid ← from_option_err bad (ParseUint gid 31);
      _ ← check (negb (gid =? 0)%N) bad;
      Ok (uid, gid)
  | _ => Err (ErrText "must be an explicit numeric uid:gid pair")
  end.

(** ** The hardened configuration *)
Definition RuncRuntime : string := "runc".
Definition RuntimeDefaultSeccompProfile : string := "runtime-default".
Definition HardenedSecurityOptions : list string := ["no-new-privileges:true"; "seccomp=builtin"].
Definition RestrictedShmSize : Z := 67108864.
Definition RestrictedPathEnvironment : string := "PATH=/usr/local/sbin:/usr/local/bin:/usr/sbin:/usr/bin:/sbin:/bin".
Definition RestrictedWorkingDirectory : string := "/".
Definition defaultMaskedPaths : list string :=
  ["/proc/acpi"; "/proc/asound"; "/proc/interrupts"; "/proc/kcore"; "/proc/keys"; "/proc/latency_stats"; "/proc/sched_debug";
   "/proc/scsi"; "/proc/timer_list"; "/proc/timer_stats"; "/sys/devices/virtual/powercap"; "/sys/firmware"].
Definition defaultReadonlyPaths : list string := ["/proc/bus"; "/proc/fs"; "/proc/irq"; "/proc/sys"; "/proc/sysrq-trigger"].
Definition no_healthcheck : Healthcheck := mkHealthcheck [] 0 0 0 0 0.
Definition RestrictedContainerConfiguration : Configuration := {|
  cfg_Image := ""; cfg_Runtime := ""; cfg_Hostname := ""; cfg_Domainname := ""; cfg_Entrypoint := [];
  cfg_Command := []; cfg_Environment := [RestrictedPathEnvironment]; cfg_WorkingDir := RestrictedWorkingDirectory;
  cfg_User := ""; cfg_AttachStdin := false; cfg_AttachStdout := true; cfg_AttachStderr := true;
  cfg_OpenStdin := false; cfg_StdinOnce := false; cfg_TTY := false; cfg_NetworkDisabled := false;
  cfg_MacAddress := ""; cfg_ExposedPorts := []; cfg_DeclaredVolumes := []; cfg_Healthcheck := no_healthcheck;
  cfg_HealthcheckKnown := false; cfg_StopSignal := ""; cfg_StopTimeout := 0; cfg_StopTimeoutKnown := false;
  cfg_ReadOnlyRoot := true; cfg_Privileged := false; cfg_RestartPolicy := mkRestartPolicy "no" 0;
  cfg_AutoRemove := false; cfg_NetworkMode := "none"; cfg_PIDMode := "private"; cfg_IPCMode := "private";
  cfg_CgroupMode := "private"; cfg_UsernsMode := ""; cfg_UTSMode := "private"; cfg_Init := true;
  cfg_InitKnown := true; cfg_CapabilitiesAdd := []; cfg_CapabilitiesDrop := ["ALL"]; cfg_GroupAdd := [];
  cfg_SecurityOptions := HardenedSecurityOptions; cfg_Tmpfs := {[ "/tmp" := "rw,nosuid,nodev,noexec,mode=1777" ]};
  cfg_Devices := []; cfg_DeviceRequests := []; cfg_DeviceCgroupRules := []; cfg_Mounts := [];
  cfg_ConfiguredMounts := []; cfg_Binds := []; cfg_VolumesFrom := []; cfg_ContainerIDFile := "";
  cfg_PublishAllPorts := false; cfg_PortBindings := ∅; cfg_NetworkAttachments := ["none"]; cfg_ExtraHosts := [];
  cfg_DNS := []; cfg_DNSOptions := []; cfg_DNSSearch := []; cfg_Links := []; cfg_OomKillDisable := false;
  cfg_OomScoreAdj := 0; cfg_Cgroup := ""; cfg_CgroupParent := ""; cfg_MemoryReservation := 0; cfg_KernelMemory := 0;
  cfg_KernelMemoryTCP := 0; cfg_MemorySwappiness := 0; cfg_MemorySwappinessKnown := false; cfg_CPUShares := 0;
  cfg_CPUPeriod := 0; cfg_CPUQuota := 0; cfg_CPURealtimePeriod := 0; cfg_CPURealtimeRuntime := 0;
  cfg_CpusetCPUs := ""; cfg_CpusetMems := ""; cfg_BlkioWeight := 0; cfg_BlkioWeightDevice := [];
  cfg_BlkioDeviceReadBps := []; cfg_BlkioDeviceWriteBps := []; cfg_BlkioDeviceReadIOps := [];
  cfg_BlkioDeviceWriteIOps := []; cfg_CPUCount := 0; cfg_CPUPercent := 0; cfg_IOMaximumBandwidth := 0;
  cfg_IOMaximumIOps := 0; cfg_Ulimits := []; cfg_Sysctls := ∅; cfg_MaskedPaths := defaultMaskedPaths;
  cfg_ReadonlyPaths := defaultReadonlyPaths; cfg_ShmSize := RestrictedShmSize;
  cfg_LogConfig := mkLogConfiguration "none" ∅; cfg_VolumeDriver := ""; cfg_StorageOptions := ∅; cfg_Isolation := "";
  cfg_Annotations := ∅; cfg_MemoryBytes := 0; cfg_MemorySwapBytes := 0; cfg_NanoCPUs := 0; cfg_PIDs := 0 |}.

Definition RestrictedBindMount (source destination : string) (readOnly : bool) : Mount :=
  mkMount "bind" "" source destination readOnly "" "rprivate" "".
Definition no_bind_options : BindOptions := mkBindOptions "" false false false false.
Definition no_volume_options : VolumeOptions := mkVolumeOptions false ∅ "" (mkMountDriver "" ∅) false.
Definition RestrictedConfiguredBindMount (source destination : string) (readOnly : bool) : ConfiguredMount :=
  mkConfiguredMount "bind" source destination readOnly "" no_bind_options false no_volume_options false
    (mkTmpfsOptions 0 0 []) false (mkImageOptions "") false false.
Definition AddRestrictedBindMount (source destination : string) (readOnly : bool) (configuration : Configuration) : Configuration :=
  configuration <| cfg_Mounts := cfg_Mounts configuration ++ [RestrictedBindMount source destination readOnly] |>
    <| cfg_ConfiguredMounts := cfg_ConfiguredMounts configuration ++ [RestrictedConfiguredBindMount source destination readOnly] |>.

(** The value of one [--mount] argument: neither path may carry a byte that the
    CSV syntax of the argument gives a meaning. *)
Definition csv_metacharacters : string := String "," (String NUL (String "013" (String "010" (String "034" "")))).
Definition RestrictedBindMountArgument (source destination : string) (readOnly : bool) : result string :=
  _ ← check (negb (bool_decide (source = "") || bool_decide (destination = ""))) (ErrText "bind mount source and destination are required");
  _ ← check (negb (ContainsAny source csv_metacharacters || ContainsAny destination csv_metacharacters))
        (ErrText "bind mount source and destination cannot contain Docker --mount CSV metacharacters");
  Ok ("type=bind,src=" +:+ source +:+ ",dst=" +:+ destination +:+ (if readOnly then ",readonly" else "")).

(** ** What an empty difference shows *)
Section Facts.
Context `{SS : SliceSort} {MR : MapRange}.

Lemma sorted_equal l l' : sort_Strings l = sort_Strings l' -> l ≡ₚ l'.
Proof. intros E. rewrite <-(merge_sort_Permutation string_le l), <-(merge_sort_Permutation string_le l'). unfold sort_Strings in E. by rewrite E. Qed.
Lemma upper_set_equal l l' : normalizeUpperSet l = normalizeUpperSet l' -> ToUpper <$> l ≡ₚ ToUpper <$> l'.
Proof. apply sorted_equal. Qed.
Lemma slice_nil {A} (less : A -> A -> bool) l : sort_Slice less l = sort_Slice less [] -> l = [].
Proof.
  intros E. apply Permutation_nil_r. rewrite <-(sort_Slice_permutes less l), E, (sort_Slice_permutes less []). done.
Qed.
Lemma strings_nil l : normalizeStringSet l = [] -> l = [].
Proof. intros E. apply Permutation_nil_r. unfold normalizeStringSet, sort_Strings in E. by rewrite <-(merge_sort_Permutation string_le l), E. Qed.
Lemma private_mode v : normalizePrivateMode v = "private" -> v = "" \/ v = "private".
Proof. unfold normalizePrivateMode. case_bool_decide; auto. Qed.
Lemma no_bindings m : normalizePortBindings m = ∅ -> m = ∅.
Proof. apply fmap_empty_iff. Qed.

(** Every field of the structure is equal after normalisation. *)
Lemma difference_fields a e : ConfigurationDifference a e = Ok tt ->
  Forall (fun field => field.2 = true) (configuration_fields (normalizeConfiguration a) (normalizeConfiguration e)).
Proof.
  unfold ConfigurationDifference, differingConfigurationFields. intros H. destruct (filter _ _) as [|x l] eqn:F; [|done].
  apply Forall_forall. intros [n b] I. destruct b; [done|]. assert (X : (n, false) ∈ filter (fun field : string * bool => field.2 = false)
    (configuration_fields (normalizeConfiguration a) (normalizeConfiguration e))) by (by apply list_elem_of_filter).
  rewrite F in X. by apply not_elem_of_nil in X.
Qed.

(** The mounts that are compared against bind mounts are those bind mounts, in
    some order. *)
Definition same_mount (m e : Mount) : Prop :=
  mnt_Type m = "bind" /\ mnt_Name m = mnt_Name e /\ mnt_ReadOnly m = mnt_ReadOnly e /\
  normalizeGuestMountPath (mnt_Destination m) = normalizeGuestMountPath (mnt_Destination e) /\
  path_Clean (normalizeMountSource "bind" (mnt_Source m)) = path_Clean (normalizeMountSource "bind" (mnt_Source e)) /\
  mnt_Propagation m = mnt_Propagation e /\ mnt_Driver m = mnt_Driver e.
Lemma equal_mount_same m e : mnt_Type e = "bind" -> equal_mount (clean_mount m) (clean_mount e) = true -> same_mount m e.
Proof.
  intros T H. unfold equal_mount, CanonicalHostBindSourceEqual in H. destruct m, e. cbn in T. subst.
  unfold same_mount. cbn in *. case_bool_decide as B; cbn in H.
  - apply andb_true_iff in H as [S H]. apply bool_decide_eq_true in S, H. subst. injection H as E1 E2 E3 E4 E5 E6. subst. by repeat split.
  - apply bool_decide_eq_true in H. simplify_eq.
Qed.
Lemma equal_mounts_perm a e : Forall (fun m => mnt_Type m = "bind") e ->
  equalMounts (normalizeMounts a) (normalizeMounts e) = true -> exists a', a ≡ₚ a' /\ Forall2 same_mount a' e.
Proof.
  intros B H. unfold equalMounts, normalizeMounts in H. apply andb_true_iff in H as [L H]. apply Nat.eqb_eq in L.
  destruct (Permutation_map_inv clean_mount e (sort_Slice_permutes (by_key mount_key) (clean_mount <$> e))) as (e' & Ee & Pe).
  destruct (Permutation_map_inv clean_mount a (sort_Slice_permutes (by_key mount_key) (clean_mount <$> a))) as (a' & Ea & Pa).
  change (@fmap list map) with (@fmap list list_fmap) in *. rewrite Ea, Ee in L, H. clear Ea Ee. rewrite !length_map in L.
  assert (F : Forall2 same_mount a' e').
  { rewrite Pe in B. clear Pa Pe. revert e' B L H. induction a' as [|m a' IH]; intros [|x e'] B L H; [constructor|done|done|].
    cbn in H. apply andb_true_iff in H as [H1 H2]. apply Forall_cons in B as [B1 B2]. constructor; [by apply equal_mount_same|]. apply IH; auto. }
  destruct (Permutation_Forall2 (symmetry Pe) (proj2 (Forall2_flip _ _ _) F)) as (a2 & P2 & F2).
  exists a2. split; [by rewrite Pa|]. by apply Forall2_flip.
Qed.
End Facts.
