(* ===== verification/ContainerPlan.v ===== *)
(** * The physical plan of a Linux target

    [internal/drivers/target/linuxcontainer/plan.go] with [ports.TargetPlan] of
    [internal/ports/target.go]: from the plan of a generation the driver derives
    a container plan, whose name, labels and directory identify the generation
    and whose configuration is the hardened one of [Docker].

    The JSON text of a plan is a parameter ([PlanEncoding]); digests are SHA-256.
    [os_Getwd] is the working directory, which a relative target root is
    resolved against. *)
From Stdlib Require Import Ascii String.
From S2P Require Import Prelude Errors Sha256 GoStrings GoText States Values Ids Idempotency Models PolicyRules Capacity Docker.
Local Open Scope Z_scope.

(** ** [internal/ports/target.go] *)
Record TargetTemplate := mkTemplate {
  tt_Name : string; tt_Kind : Domain.TargetKind; tt_Driver : string; tt_Runtime : string; tt_ImageDigest : list N;
  tt_IsolationProfile : string; tt_BaselineState : string; tt_RequireHardwareAcceleration : bool; tt_Headless : bool;
  tt_Rooted : bool; tt_Debuggable : bool; tt_GuestMemoryBytes : Z; tt_BootTimeout : duration }.

Definition TargetTemplate_Validate (t : TargetTemplate) : result unit :=
  let bad := NewError CodeInvalidArgument "ports.target_template.validate" in
  _ ← check (negb (bool_decide (tt_Name t = "") || negb (Domain.TargetKind_IsValid (tt_Kind t)) || bool_decide (tt_Driver t = "")
                   || bool_decide (tt_IsolationProfile t = ""))) (bad "template");
  _ ← check (negb (digest_IsZero (tt_ImageDigest t))) (bad "image_digest");
  match tt_Kind t with
  | Domain.TargetLinuxContainer =>
      _ ← check (negb (blank (tt_Runtime t)) && bool_decide (tt_Runtime t = TrimSpace (tt_Runtime t))) (bad "runtime");
      check (bool_decide (tt_BaselineState t = "") && negb (tt_RequireHardwareAcceleration t || tt_Headless t || tt_Rooted t || tt_Debuggable t)
             && (tt_GuestMemoryBytes t =? 0) && (tt_BootTimeout t =? 0)) (bad "template")
  | Domain.TargetAndroidVirtualDevice =>
      _ ← check (bool_decide (tt_Runtime t = "")) (bad "runtime");
      _ ← check (bool_decide (tt_BaselineState t = "clean-boot")) (bad "baseline_state");
      _ ← check (tt_RequireHardwareAcceleration t && tt_Headless t && tt_Rooted t && tt_Debuggable t && (0 <? tt_GuestMemoryBytes t)
                 && (0 <? tt_BootTimeout t)) (bad "template");
      check (ValidateGuestMemoryBytes (tt_GuestMemoryBytes t)) (bad "guest_memory_bytes")
  | _ => Ok tt
  end.

Record TargetPlan := mkTargetPlan {
  tp_IdempotencyKey : string; tp_LeaseID : uuidV7; tp_Target : Domain.Target; tp_Generation : Domain.TargetGenerationRecord;
  tp_Template : TargetTemplate; tp_PolicyDigest : list N; tp_CapabilityFingerprintDigest : list N; tp_Resources : Resources }.

Definition TargetPlan_Validate (p : TargetPlan) : result unit :=
  let operation := "ports.target_plan.validate" in
  let generation := Domain.tg_spec (tp_Generation p) in
  let target := tp_Target p in
  _ ← check (IsCanonicalIdempotencyKey (tp_IdempotencyKey p)) (NewError CodeInvalidArgument operation "idempotency_key");
  _ ← check (negb (id_IsZero (tp_LeaseID p) || id_IsZero (Domain.t_id target) || id_IsZero (Domain.tgs_TargetID generation)))
        (NewError CodeInvalidArgument operation "scope");
  _ ← TargetTemplate_Validate (tp_Template p);
  _ ← check (bool_decide (Domain.tgs_TargetID generation = Domain.t_id target)
             && (Domain.tgs_Generation generation =? Domain.t_currentGeneration target)%N
             && bool_decide (Domain.t_kind target = tt_Kind (tp_Template p))) (NewError CodeConflict operation "generation");
  _ ← check (negb (digest_IsZero (tp_PolicyDigest p) || digest_IsZero (tp_CapabilityFingerprintDigest p))
             && bool_decide (Domain.tgs_PolicyDigest generation = tp_PolicyDigest p)
             && bool_decide (Domain.tgs_CapabilityFingerprintDigest generation = tp_CapabilityFingerprintDigest p))
        (NewError CodeConflict operation "digests");
  check (is_ok (Resources_Validate (tp_Resources p))) (NewError CodeInvalidArgument operation "resources").

(** ** Host paths *)
Class HostPaths := { os_Getwd : result string }.

(** [filepath.Join] *)
Fixpoint path_Join (elements : list string) : string :=
  match elements with
  | [] => ""
  | e :: rest => if bool_decide (e = "") then path_Join rest else path_Clean (join "/" elements)
  end.
Definition filepath_Abs `{HostPaths} (path : string) : result string :=
  if HasPrefix path "/" then Ok (path_Clean path) else wd ← os_Getwd; Ok (path_Join [wd; path]).

(** [filepath.Rel] of absolute paths: what is left after the common elements. *)
Fixpoint rel_elements (base target : list string) : list string :=
  match base, target with
  | b :: base', t :: target' => if bool_decide (b = t) then rel_elements base' target' else ((fun _ => "..") <$> base) ++ target
  | _, _ => ((fun _ => "..") <$> base) ++ target
  end.
Definition path_elements (path : string) : list string := filter (fun e => e <> "") (split_on slash path).
Definition filepath_Rel (base target : string) : string :=
  if bool_decide (path_Clean base = path_Clean target) then "."
  else join "/" (rel_elements (path_elements (path_Clean base)) (path_elements (path_Clean target))).
(** [filepath.Dir] of a clean path that is not a root: all but the last element. *)
Definition path_Dir (path : string) : string :=
  let kept := removelast (split_on slash path) in
  path_Clean (if HasPrefix path "/" then "/" +:+ join "/" kept else join "/" kept).

Definition requirePathBeneath `{HostPaths} (root candidate : string) : result unit :=
  rootAbs ← filepath_Abs root;
  candidateAbs ← filepath_Abs candidate;
  let relative := filepath_Rel rootAbs candidateAbs in
  check (negb (bool_decide (relative = ".") || bool_decide (relative = "..") || HasPrefix relative "../" || HasPrefix relative "/"))
    (ErrText "path is outside configured target root").

(** [strings.Contains] *)
Definition Contains (s substr : string) : bool := bool_decide (is_Some (LastIndex s substr)).

(** ** Container plans *)
Definition TargetMount : string := "/target".
Definition TargetMaterialMount : string := "/target/input".
Definition defaultTargetUser : string := "65532:65532".
Definition targetRoleLabel : string := "linux-target".
Definition planDigestLabel : string := "world.plan-digest".

Record ContainerPlan := mkContainerPlan {
  cp_Name : string; cp_LeaseID : uuidV7; cp_TargetID : uuidV7; cp_Generation : N; cp_Image : string; cp_Runtime : string;
  cp_TargetDirectory : string; cp_PolicyDigest : list N; cp_CapabilityDigest : list N; cp_Resources : Resources;
  cp_Labels : gmap string string; cp_Privileged : bool; cp_HostPID : bool; cp_HostIPC : bool; cp_HostNetwork : bool;
  cp_HostCgroup : bool; cp_Devices : list string; cp_MountSources : list string; cp_Capabilities : list string; cp_User : string;
  cp_ReadOnlyRoot : bool; cp_NoNewPrivileges : bool; cp_SeccompProfile : string }.
#[export] Instance : Settable ContainerPlan := {| record_eta r :=
  mkContainerPlan (cp_Name r) (cp_LeaseID r) (cp_TargetID r) (cp_Generation r) (cp_Image r) (cp_Runtime r) (cp_TargetDirectory r)
    (cp_PolicyDigest r) (cp_CapabilityDigest r) (cp_Resources r) (cp_Labels r) (cp_Privileged r) (cp_HostPID r) (cp_HostIPC r)
    (cp_HostNetwork r) (cp_HostCgroup r) (cp_Devices r) (cp_MountSources r) (cp_Capabilities r) (cp_User r) (cp_ReadOnlyRoot r)
    (cp_NoNewPrivileges r) (cp_SeccompProfile r) |}.

Definition targetContainerName (id : uuidV7) (generation : N) : string :=
  "world-target-" +:+ (if id_IsZero id then "" else formatUUID id) +:+ "-g" +:+ pretty generation.
Definition materialRoot (p : ContainerPlan) : string := path_Join [cp_TargetDirectory p; "material"].
Definition writableRoot (p : ContainerPlan) : string := path_Join [cp_TargetDirectory p; "writable"].
Definition generation_directory (root : string) (id : uuidV7) (generation : N) : string :=
  path_Join [root; id_String prefix_target id; "generations"; pretty generation].
(** source, target, read-only *)
Definition restrictedTargetBindMounts (p : ContainerPlan) : list (string * string * bool) :=
  [(writableRoot p, TargetMount, false); (materialRoot p, TargetMaterialMount, true)].
Definition targetIsolationProfile (runtime : string) : option string :=
  if bool_decide (runtime = RuncRuntime) then Some "observable-container" else None.
Definition configuredTargetUser (value : string) : string := if bool_decide (value = "") then defaultTargetUser else value.

(** The JSON text of the identity of a plan, which leaves out its labels, and of
    the identity of a request, which leaves out when the target was created and
    fails for a year that has more than four digits. *)
Class PlanEncoding := {
  json_plan : ContainerPlan -> list N;
  json_request : TargetPlan -> result (list N) }.

Record BuildConfig := mkBuildConfig {
  bc_TargetRoot : string; bc_ImageRepository : string; bc_AllowPtrace : bool; bc_ContainerUser : string }.

Section Plan.
Context `{HP : HostPaths} `{PE : PlanEncoding}.

Definition PlanDigest (kind : string) (encoded : list N) : list N :=
  NewDigest (bytes_of "world-physical-plan-v1" ++ [0%N] ++ bytes_of kind ++ [0%N] ++ encoded).
Definition containerPlanDigest (plan : ContainerPlan) : list N := PlanDigest "linux-target" (json_plan (plan <| cp_Labels := ∅ |>)).
Definition sameContainerPlanIdentity (existing requested : ContainerPlan) : bool :=
  bool_decide (containerPlanDigest existing = containerPlanDigest requested).

(** The labels that identify a generation under a plan digest. *)
Definition world_labels (lease target generation policy capability digest : string) : gmap string string :=
  {[ "world.role" := targetRoleLabel; "world.lease" := lease; "world.target" := target; "world.target-generation" := generation;
     "world.policy-digest" := policy; "world.capability-digest" := capability; planDigestLabel := digest ]}.
Definition plan_labels (plan : ContainerPlan) : gmap string string :=
  world_labels (id_String prefix_lease (cp_LeaseID plan)) (id_String prefix_target (cp_TargetID plan)) (pretty (cp_Generation plan))
    (digest_String (cp_PolicyDigest plan)) (digest_String (cp_CapabilityDigest plan)) (digest_String (containerPlanDigest plan)).
Definition validatePlanLabels (plan : ContainerPlan) : result unit :=
  check (ExactWorldLabels (cp_Labels plan) (plan_labels plan)) (ErrText "world labels do not exactly identify the target container plan").

Definition forbidden_source (source : string) : bool :=
  let lower := ToLowerText source in
  Contains lower "docker.sock" || Contains lower "containerd.sock" || Contains lower "/workspace/".

Definition ContainerPlan_Validate (p : ContainerPlan) (targetRoot : string) : result unit :=
  _ ← check (negb (bool_decide (cp_Name p = "") || id_IsZero (cp_LeaseID p) || id_IsZero (cp_TargetID p)
                   || negb (TargetGeneration_IsValid (cp_Generation p)))) (ErrText "target identity and generation are required");
  _ ← check (negb (bool_decide (cp_Image p = "")) && Contains (cp_Image p) "@sha256:") (ErrText "target image must be digest pinned");
  _ ← check (bool_decide (is_Some (targetIsolationProfile (cp_Runtime p)))) (ErrText "target runtime must be runc");
  _ ← check (negb (digest_IsZero (cp_PolicyDigest p) || digest_IsZero (cp_CapabilityDigest p)))
        (ErrText "policy and capability digests are required");
  _ ← check (is_ok (Resources_Validate (cp_Resources p))) (ErrText "invalid resources");
  _ ← RequireResourceLimits (CPUMilli (cp_Resources p)) (MemoryBytes (cp_Resources p)) (SwapBytes (cp_Resources p)) (PIDs (cp_Resources p));
  _ ← validatePlanLabels p;
  _ ← check (negb (cp_Privileged p || cp_HostPID p || cp_HostIPC p || cp_HostNetwork p || cp_HostCgroup p
                   || negb (bool_decide (cp_Devices p = [])))) (ErrText "privileged mode, host namespaces, and devices are forbidden");
  _ ← check (cp_ReadOnlyRoot p && cp_NoNewPrivileges p && bool_decide (cp_SeccompProfile p = RuntimeDefaultSeccompProfile))
        (ErrText "read-only root, no-new-privileges, and runtime-default seccomp are required");
  _ ← ParseNumericUser (cp_User p);
  _ ← requirePathBeneath targetRoot (cp_TargetDirectory p);
  _ ← check (bool_decide (path_Clean (cp_TargetDirectory p)
                          = path_Clean (generation_directory targetRoot (cp_TargetID p) (cp_Generation p))))
        (ErrText "target directory does not match target and generation");
  let expectedMountSources := [writableRoot p; materialRoot p] in
  _ ← check (length (cp_MountSources p) =? length expectedMountSources)%nat
        (ErrText "only target-private writable state and material may be mounted");
  _ ← res_each (fun index source =>
        _ ← requirePathBeneath targetRoot source;
        _ ← check (CanonicalHostBindSourceEqual source (nth index expectedMountSources ""))
              (ErrText "mount source does not match the target layout");
        check (negb (forbidden_source source)) (ErrText "runtime sockets and agent workspaces may not be mounted"))
        0 (cp_MountSources p);
  _ ← res_each (fun _ '(source, target, readOnly) => _ ← RestrictedBindMountArgument source target readOnly; Ok tt)
        0 (restrictedTargetBindMounts p);
  check (forallb (fun capability => bool_decide (capability = "SYS_PTRACE")) (cp_Capabilities p))
    (ErrText "target capability is not in the visibility profile").

Definition setPlanDigest (plan : ContainerPlan) : ContainerPlan :=
  plan <| cp_Labels := <[planDigestLabel := digest_String (containerPlanDigest plan)]> (cp_Labels plan) |>.

(** The plan before its digest is known. *)
Definition unlabelled_plan (input : TargetPlan) (config : BuildConfig) : ContainerPlan :=
  let generation := Domain.tg_spec (tp_Generation input) in
  let id := Domain.tgs_TargetID generation in
  let number := Domain.tgs_Generation generation in
  let directory := generation_directory (bc_TargetRoot config) id number in
  {| cp_Name := targetContainerName id number; cp_LeaseID := tp_LeaseID input; cp_TargetID := id; cp_Generation := number;
     cp_Image := TrimSuffix (bc_ImageRepository config) "@" +:+ "@" +:+ digest_String (tt_ImageDigest (tp_Template input));
     cp_Runtime := tt_Runtime (tp_Template input); cp_TargetDirectory := directory; cp_PolicyDigest := tp_PolicyDigest input;
     cp_CapabilityDigest := tp_CapabilityFingerprintDigest input; cp_Resources := tp_Resources input;
     cp_Labels := {[ "world.role" := targetRoleLabel; "world.lease" := id_String prefix_lease (tp_LeaseID input);
       "world.target" := id_String prefix_target id; "world.target-generation" := pretty number;
       "world.policy-digest" := digest_String (tp_PolicyDigest input);
       "world.capability-digest" := digest_String (tp_CapabilityFingerprintDigest input) ]};
     cp_Privileged := false; cp_HostPID := false; cp_HostIPC := false; cp_HostNetwork := false; cp_HostCgroup := false;
     cp_Devices := []; cp_MountSources := [path_Join [directory; "writable"]; path_Join [directory; "material"]];
     cp_Capabilities := if bc_AllowPtrace config then ["SYS_PTRACE"] else []; cp_User := configuredTargetUser (bc_ContainerUser config);
     cp_ReadOnlyRoot := true; cp_NoNewPrivileges := true; cp_SeccompProfile := RuntimeDefaultSeccompProfile |}.

Definition BuildContainerPlan (input : TargetPlan) (config : BuildConfig) : result ContainerPlan :=
  _ ← TargetPlan_Validate input;
  let template := tp_Template input in
  _ ← check (bool_decide (tt_Kind template = Domain.TargetLinuxContainer))
        (ErrText "Linux container driver requires a linux_container template");
  _ ← check (bool_decide (tt_Driver template = "docker")) (ErrText "Linux container driver requires the Docker physical driver");
  _ ← check (bool_decide (targetIsolationProfile (tt_Runtime template) = Some (tt_IsolationProfile template)))
        (ErrText "target runtime and isolation profile are not a supported physical pair");
  _ ← check (negb (bool_decide (bc_TargetRoot config = "") || bool_decide (bc_ImageRepository config = "")))
        (ErrText "target root and image repository are required");
  let plan := setPlanDigest (unlabelled_plan input config) in
  _ ← ContainerPlan_Validate plan (bc_TargetRoot config);
  Ok plan.

Definition replacementContainerPlan (previous : ContainerPlan) (nextGeneration : N) (targetRoot : string) : result ContainerPlan :=
  let next := previous <| cp_Generation := nextGeneration |> <| cp_Name := targetContainerName (cp_TargetID previous) nextGeneration |>
    <| cp_TargetDirectory := generation_directory targetRoot (cp_TargetID previous) nextGeneration |> in
  let next := next <| cp_MountSources := [writableRoot next; materialRoot next] |>
    <| cp_Labels := <["world.target-generation" := pretty nextGeneration]> (cp_Labels next) |> in
  let next := setPlanDigest next in
  _ ← ContainerPlan_Validate next targetRoot;
  Ok next.

(** The complete request a plan was made for. *)
Definition targetPlanDigest (input : TargetPlan) : result (list N) :=
  payload ← json_request input;
  Ok (NewDigest (bytes_of "world.linux-target.request-plan.v1" ++ [0%N] ++ payload)).
Definition sameTargetPlanIdentity (existing requested : TargetPlan) : result bool :=
  existingDigest ← targetPlanDigest existing;
  requestedDigest ← targetPlanDigest requested;
  Ok (bool_decide (existingDigest = requestedDigest)).

(** ** What Docker has to report of the container of a plan *)
Definition expectedTargetConfiguration (plan : ContainerPlan) : Configuration :=
  let resources := cp_Resources plan in
  let memorySwap := match MemorySwapTotal (MemoryBytes resources) (SwapBytes resources) with Ok total => total | Err _ => 0 end in
  let configuration := RestrictedContainerConfiguration <| cfg_Image := cp_Image plan |> <| cfg_Runtime := cp_Runtime plan |>
    <| cfg_Hostname := cp_Name plan |> <| cfg_Entrypoint := ["/usr/local/bin/world-idle"] |> <| cfg_User := cp_User plan |>
    <| cfg_CapabilitiesAdd := cp_Capabilities plan |> <| cfg_MemoryBytes := MemoryBytes resources |>
    <| cfg_MemorySwapBytes := memorySwap |> <| cfg_NanoCPUs := NanoCPUs (CPUMilli resources) |> <| cfg_PIDs := PIDs resources |> in
  fold_left (fun configuration '(source, target, readOnly) => AddRestrictedBindMount source target readOnly configuration)
    (restrictedTargetBindMounts plan) configuration.
End Plan.

(** ** What a container is held to

    The configuration [c] of a container grants no more than [plan] says: no
    privilege, no namespace of the host, no network, the capabilities and the
    limits of the plan, and its two directories as the only mounts. *)
Record confined (plan : ContainerPlan) (c : Configuration) : Prop := {
  conf_image : cfg_Image c = cp_Image plan /\ cfg_Runtime c = cp_Runtime plan /\ cfg_User c = cp_User plan
    /\ cfg_Entrypoint c = ["/usr/local/bin/world-idle"] /\ cfg_Command c = [];
  conf_privilege : cfg_Privileged c = false /\ cfg_ReadOnlyRoot c = true;
  conf_capabilities : (ToUpper <$> cfg_CapabilitiesDrop c) = ["ALL"]
    /\ (forall capability, capability ∈ cfg_CapabilitiesAdd c -> ToUpper capability = "SYS_PTRACE" /\ "SYS_PTRACE" ∈ cp_Capabilities plan);
  conf_security : ((fun option => ToLowerText (ReplaceByte "=" ":" option)) <$> cfg_SecurityOptions c)
    ≡ₚ ["no-new-privileges:true"; "seccomp:builtin"];
  conf_network : cfg_NetworkMode c = "none" /\ cfg_NetworkAttachments c = ["none"] /\ cfg_PublishAllPorts c = false /\ cfg_PortBindings c = ∅;
  conf_namespaces : forall mode, mode ∈ [cfg_PIDMode c; cfg_IPCMode c; cfg_CgroupMode c; cfg_UTSMode c] -> mode = "" \/ mode = "private";
  conf_devices : cfg_Devices c = [] /\ cfg_DeviceRequests c = [] /\ cfg_DeviceCgroupRules c = [] /\ cfg_GroupAdd c = [];
  conf_limits : cfg_MemoryBytes c = MemoryBytes (cp_Resources plan)
    /\ cfg_MemorySwapBytes c = MemoryBytes (cp_Resources plan) + SwapBytes (cp_Resources plan)
    /\ cfg_PIDs c = PIDs (cp_Resources plan) /\ cfg_NanoCPUs c = NanoCPUs (CPUMilli (cp_Resources plan));
  conf_mounts : cfg_Binds c = [] /\ cfg_VolumesFrom c = []
    /\ exists writable material, cfg_Mounts c ≡ₚ [writable; material]
       /\ same_mount writable (RestrictedBindMount (writableRoot plan) TargetMount false)
       /\ same_mount material (RestrictedBindMount (materialRoot plan) TargetMaterialMount true) }.

Section Facts.
Context `{SS : SliceSort} `{MR : MapRange} `{HP : HostPaths} `{PE : PlanEncoding}.

(** The limits of a valid plan do not overflow. *)
Lemma memory_total memory swap total : MemorySwapTotal memory swap = Ok total -> memory <= MaxInt64 -> total = memory + swap.
Proof.
  unfold MemorySwapTotal. intros H R. inv_res H. to_prop. unfold i64, MaxInt64 in *. Z.div_mod_to_equations. lia.
Qed.

Lemma plan_valid_ptrace plan root : ContainerPlan_Validate plan root = Ok tt -> cp_Capabilities plan ⊆ ["SYS_PTRACE"].
Proof.
  unfold ContainerPlan_Validate. intros H. inv_res H. rewrite forallb_forall in H. intros y X%list_elem_of_In.
  apply H in X. to_prop. subst. by left.
Qed.
Lemma plan_valid_memory plan root : ContainerPlan_Validate plan root = Ok tt -> exists total,
  MemorySwapTotal (MemoryBytes (cp_Resources plan)) (SwapBytes (cp_Resources plan)) = Ok total.
Proof. unfold ContainerPlan_Validate, RequireResourceLimits. intros H. inv_res H. eauto. Qed.

Fixpoint field_named (name : string) (fields : list (string * bool)) : option bool :=
  match fields with [] => None | (n, b) :: rest => if String.eqb n name then Some b else field_named name rest end.
Lemma field_true fields name b : Forall (fun field : string * bool => field.2 = true) fields -> field_named name fields = Some b -> b = true.
Proof. induction 1 as [|[n b'] fields E F IH]; cbn; [done|]. destruct (String.eqb n name); [by intros [= <-]|done]. Qed.
(** [field D f name]: the field is equal, up to the normalisation that the code
    applies. *)
Ltac in_fields D name := notypeclasses refine (field_true _ name _ D _); reflexivity.
Ltac field D f name :=
  lazymatch type of D with Forall _ (configuration_fields ?a ?e) =>
    let X := fresh in assert (X : f a = f e) by (notypeclasses refine (bool_decide_eq_true_1 _ _); in_fields D name); exact X
  end.

Lemma ptrace_upper capabilities : capabilities ⊆ ["SYS_PTRACE"] -> ToUpper <$> capabilities = capabilities.
Proof.
  induction capabilities as [|c l IH]; intros S; [done|]. cbn. rewrite IH by set_solver.
  assert (c = "SYS_PTRACE") as -> by (assert (c ∈ ["SYS_PTRACE"]) by set_solver; set_solver). done.
Qed.

Lemma no_difference_confined plan root c : ContainerPlan_Validate plan root = Ok tt -> MemoryBytes (cp_Resources plan) <= MaxInt64 ->
  ConfigurationDifference c (expectedTargetConfiguration plan) = Ok tt -> confined plan c.
Proof.
  intros V M D. destruct (plan_valid_memory _ _ V) as [total T]. pose proof (memory_total _ _ _ T M) as ->.
  pose proof (plan_valid_ptrace _ _ V) as C. apply difference_fields in D. split.
  - repeat split; [field D cfg_Image "Image"|field D cfg_Runtime "Runtime"|field D cfg_User "User"|field D cfg_Entrypoint "Entrypoint"|field D cfg_Command "Command"].
  - split; [field D cfg_Privileged "Privileged"|field D cfg_ReadOnlyRoot "ReadOnlyRoot"].
  - assert (U : normalizeUpperSet (cfg_CapabilitiesAdd c) = normalizeUpperSet (cp_Capabilities plan)) by field D cfg_CapabilitiesAdd "CapabilitiesAdd".
    assert (U' : normalizeUpperSet (cfg_CapabilitiesDrop c) = normalizeUpperSet ["ALL"]) by field D cfg_CapabilitiesDrop "CapabilitiesDrop".
    apply upper_set_equal in U, U'. split; [by apply Permutation_singleton_r|]. intros capability I.
    apply (list_elem_of_fmap_2 ToUpper) in I. rewrite U, (ptrace_upper _ C) in I. assert (ToUpper capability ∈ ["SYS_PTRACE"]) by set_solver.
    assert (ToUpper capability = "SYS_PTRACE") as E by set_solver. by rewrite E in I.
  - apply (sorted_equal _ ["no-new-privileges:true"; "seccomp:builtin"]). field D cfg_SecurityOptions "SecurityOptions".
  - assert (N : normalizeStringSet (cfg_NetworkAttachments c) = normalizeStringSet ["none"]) by field D cfg_NetworkAttachments "NetworkAttachments".
    apply sorted_equal, Permutation_singleton_r in N. assert (P : normalizePortBindings (cfg_PortBindings c) = ∅) by field D cfg_PortBindings "PortBindings".
    repeat split; [field D cfg_NetworkMode "NetworkMode"|done|field D cfg_PublishAllPorts "PublishAllPorts"|by apply no_bindings].
  - assert (P1 : normalizePrivateMode (cfg_PIDMode c) = "private") by field D cfg_PIDMode "PIDMode".
    assert (P2 : normalizePrivateMode (cfg_IPCMode c) = "private") by field D cfg_IPCMode "IPCMode".
    assert (P3 : normalizePrivateMode (cfg_CgroupMode c) = "private") by field D cfg_CgroupMode "CgroupMode".
    assert (P4 : normalizePrivateMode (cfg_UTSMode c) = "private") by field D cfg_UTSMode "UTSMode".
    apply private_mode in P1, P2, P3, P4. intros mode I. rewrite !elem_of_cons, elem_of_nil in I. naive_solver.
  - repeat split; [eapply slice_nil; field D cfg_Devices "Devices"| |eapply strings_nil; field D cfg_DeviceCgroupRules "DeviceCgroupRules"|eapply strings_nil; field D cfg_GroupAdd "GroupAdd"].
    assert (R : normalizeDeviceRequests (cfg_DeviceRequests c) = normalizeDeviceRequests []) by field D cfg_DeviceRequests "DeviceRequests".
    eapply fmap_nil_inv, slice_nil, R.
  - assert (W : cfg_MemorySwapBytes c = cfg_MemorySwapBytes (expectedTargetConfiguration plan)) by field D cfg_MemorySwapBytes "MemorySwapBytes".
    unfold expectedTargetConfiguration in W. rewrite T in W. repeat split; [field D cfg_MemoryBytes "MemoryBytes"|done|field D cfg_PIDs "PIDs"|field D cfg_NanoCPUs "NanoCPUs"].
  - split; [eapply strings_nil; field D cfg_Binds "Binds"|]. split; [eapply strings_nil; field D cfg_VolumesFrom "VolumesFrom"|].
    destruct (equal_mounts_perm (cfg_Mounts c) (cfg_Mounts (expectedTargetConfiguration plan))) as (l & P & G); [by repeat constructor| |].
    { in_fields D "Mounts". }
    apply Forall2_cons_inv_r in G as (writable & l1 & W & G & ->). apply Forall2_cons_inv_r in G as (material & l2 & Mt & G & ->).
    apply Forall2_nil_inv_r in G as ->. eauto 8.
Qed.
End Facts.
