(* ===== verification/TargetDriver.v ===== *)
(** * The Linux target driver

    [internal/drivers/target/linuxcontainer]: creating, resetting, destroying and
    reconciling target generations as Docker containers ([driver.go],
    [provisioning_recovery.go], [reconciliation.go]), with the durable records of
    a reset and a quarantine ([lifecycle_state.go]), the claim of a run and the
    stopping of an owned container ([run_boundary.go]).

    Docker, the guest in a container, the directory tree and the clock are the
    environment ([TargetHost]): what a call answers is an arbitrary function of
    the calls made before it.  A computation is a function from the state of the
    driver and the calls so far to a result and the new state ([TM]).  The records
    are what decoding their files returned.  Of a run only its generation, its
    key and whether it has stopped are kept; transports and materialization are
    not represented, and neither is the partial report of a failed
    reconciliation. *)
From S2P Require Import Prelude Errors Sha256 GoStrings GoText States Values Ids Idempotency Models Requests Inventory.
From S2P Require Import Capacity Docker ContainerPlan.

(** ** Data *)
Record RuntimeState := mkRuntimeState {
  st_ID : string; st_Name : string; st_Running : bool; st_Paused : bool; st_Restarting : bool; st_Dead : bool;
  st_Status : string; st_Labels : gmap string string; st_CgroupID : string; st_Configuration : Configuration }.
Definition no_runtime : RuntimeState :=
  mkRuntimeState "" "" false false false false "" ∅ "" RestrictedContainerConfiguration.
Record RuntimeContainmentEvidence := mkContainmentEvidence {
  ce_RuntimeID : string; ce_ExecutionStopped : bool; ce_NetworkUnreachable : bool; ce_StatePreserved : bool; ce_ObservedAt : time }.

Record TargetStatus := mkTargetStatus {
  ts_TargetID : uuidV7; ts_Generation : N; ts_Kind : Domain.TargetKind; ts_State : TargetGenerationState; ts_Ready : bool;
  ts_RuntimeID : string; ts_CgroupID : string; ts_ObservedAt : time }.
Record TargetResult := mkTargetResult { res_Status : TargetStatus; res_Created : bool }.

Record ResetPlan := mkResetPlan {
  rp_IdempotencyKey : string; rp_LeaseID : uuidV7; rp_Previous : TargetRef; rp_NextGeneration : N; rp_Mode : ResetMode;
  rp_SnapshotName : string; rp_IncidentID : uuidV7 }.
#[export] Instance ResetPlan_eq_dec : EqDecision ResetPlan.
Proof. solve_decision. Defined.
Record TargetQuarantinePlan := mkQuarantinePlan { qp_IdempotencyKey : string; qp_Target : TargetRef; qp_Reason : string }.

Record persistedResetPlan := mkPersistedResetPlan {
  prp_IdempotencyKey : string; prp_LeaseID : uuidV7; prp_Previous : TargetRef; prp_NextGeneration : N; prp_Mode : ResetMode;
  prp_SnapshotName : string; prp_IncidentID : string }.
Record persistedResetIntent := mkResetIntent {
  pri_SchemaVersion : Z; pri_Reset : persistedResetPlan; pri_PreviousPlan : ContainerPlan; pri_PreviousRuntimeID : string;
  pri_NextPlan : ContainerPlan }.
Record persistedOutcomeError := mkOutcomeError {
  poe_Code : ErrorCode; poe_Operation : string; poe_Field : string; poe_Message : string }.
Record persistedResetReceipt := mkResetReceipt {
  prr_SchemaVersion : Z; prr_IntentDigest : list N; prr_Result : TargetResult; prr_Error : option persistedOutcomeError }.
Record persistedQuarantineIntent := mkQuarantineIntentRecord {
  pqi_SchemaVersion : Z; pqi_Plan : TargetQuarantinePlan; pqi_TargetPlan : ContainerPlan; pqi_RuntimeID : string }.
Record persistedQuarantineReceipt := mkQuarantineReceipt {
  pqr_SchemaVersion : Z; pqr_IntentDigest : list N; pqr_Evidence : TargetQuarantineEvidence }.
Record persistedGenerationRunClaim := mkRunClaim {
  prc_SchemaVersion : Z; prc_LeaseID : uuidV7; prc_TargetID : uuidV7; prc_TargetGeneration : N; prc_RunID : uuidV7;
  prc_IdempotencyKey : string; prc_Materialization : list N; prc_PlanDigest : list N }.

(** An error, or the errors [errors.Join] collected. *)
Inductive driver_error := Because (e : err) | Several (errors : list driver_error).
Abbreviation dresult := (res driver_error).
Definition because {A} (r : result A) : dresult A := match r with Ok a => Ok a | Err e => Err (Because e) end.
Definition join_errors (errors : list (option driver_error)) : option driver_error :=
  match omap (M:=list) id errors with [] => None | errors => Some (Several errors) end.
Definition error_in {A} (r : dresult A) : option driver_error := match r with Ok _ => None | Err e => Some e end.

Record resetOutcome := mkResetOutcome {
  out_targetID : uuidV7; out_plan : ResetPlan; out_result : TargetResult; out_err : option driver_error }.
Record quarantineOutcome := mkQuarantineOutcome { qo_plan : TargetQuarantinePlan; qo_evidence : TargetQuarantineEvidence }.
Record targetRecord := mkRecord {
  rec_input : TargetPlan; rec_plan : ContainerPlan; rec_runtimeID : string; rec_status : TargetStatus;
  rec_reset : option resetOutcome; rec_quarantinePlan : option TargetQuarantinePlan;
  rec_quarantine : option TargetQuarantineEvidence }.
#[export] Instance : Settable targetRecord := {| record_eta r :=
  mkRecord (rec_input r) (rec_plan r) (rec_runtimeID r) (rec_status r) (rec_reset r) (rec_quarantinePlan r) (rec_quarantine r) |}.
Record runRecord := mkRun { run_ref : TargetRef; run_key : string; run_stopped : bool }.

Record Driver := mkDriver {
  d_targets : gmap string targetRecord; d_cleanupOnly : gmap string targetRecord; d_runs : gmap string runRecord;
  d_idempotency : gmap string string; d_resetResults : gmap string resetOutcome; d_quarantines : gmap string quarantineOutcome }.
#[export] Instance : Settable Driver := {| record_eta r :=
  mkDriver (d_targets r) (d_cleanupOnly r) (d_runs r) (d_idempotency r) (d_resetResults r) (d_quarantines r) |}.
Definition NewDriver : Driver := mkDriver ∅ ∅ ∅ ∅ ∅ ∅.

(** ** The environment *)
Inductive host_call :=
| CreateContainer (plan : ContainerPlan) | StartContainer (id : string) | InspectContainer (id : string)
| StopContainer (id : string) (mode : StopMode) | RemoveContainer (id : string) | ListContainers
| ContainContainer (id : string) | ProbeGuest (id : string)
| LoadResetRecords (directory : string) | LoadQuarantineRecords (directory : string) | LoadRunClaim (directory : string)
| PersistResetIntent (directory : string) (intent : persistedResetIntent)
| PersistResetReceipt (directory : string) (receipt : persistedResetReceipt)
| PersistQuarantineReceipt (directory : string) (receipt : persistedQuarantineReceipt)
| PrepareDirectories (plan : ContainerPlan) | StatDirectory (directory : string) | RemoveDirectory (directory : string).
Abbreviation calls := (list host_call).

(** The answer of each call after a history of calls, the optional interfaces of
    the runtime, the clock, whether the context is still active, and the JSON
    text of the intents. *)
Class TargetHost := {
  runtime_Create : calls -> ContainerPlan -> result string;
  runtime_Start : calls -> string -> result unit;
  runtime_Inspect : calls -> string -> result RuntimeState;
  runtime_Stop : calls -> string -> StopMode -> result unit;
  runtime_Remove : calls -> string -> result unit;
  runtime_List : calls -> result (list RuntimeState);
  runtime_Quarantine : calls -> string -> result RuntimeContainmentEvidence;
  guest_readiness : calls -> string -> result unit;
  RuntimeInventory : bool; RuntimeContainment : bool;
  read_reset : calls -> string -> result (option persistedResetIntent * option persistedResetReceipt);
  read_quarantine : calls -> string -> result (option persistedQuarantineIntent * option persistedQuarantineReceipt);
  read_claim : calls -> string -> result (option persistedGenerationRunClaim);
  persist_reset_intent : calls -> string -> persistedResetIntent -> result unit;
  persist_reset_receipt : calls -> string -> persistedResetReceipt -> result unit;
  persist_quarantine_receipt : calls -> string -> persistedQuarantineReceipt -> result unit;
  prepare_directories : calls -> ContainerPlan -> result unit;
  directory_present : calls -> string -> result bool;
  remove_directory : calls -> string -> result unit;
  now : calls -> time;
  RequireDeadline : calls -> result unit;
  json_reset_intent : persistedResetIntent -> result (list N);
  json_quarantine_intent : persistedQuarantineIntent -> result (list N) }.

Record world := mkWorld { w_driver : Driver; w_calls : calls }.
Definition TM (A : Type) : Type := world -> dresult A * world.
#[export] Instance TM_ret : MRet TM := fun A a w => (Ok a, w).
#[export] Instance TM_bind : MBind TM := fun A B f m w =>
  match m w with (Ok a, w') => f a w' | (Err e, w') => (Err e, w') end.
Definition tm_lift {A} (r : dresult A) : TM A := fun w => (r, w).
Definition fail {A} (e : err) : TM A := tm_lift (Err (Because e)).
(** A call whose answer is examined. *)
Definition ask {A} (call : host_call) (answer : calls -> result A) : TM (result A) :=
  fun w => (Ok (answer (w_calls w)), mkWorld (w_driver w) (w_calls w ++ [call])).
Definition require {A} (call : host_call) (answer : calls -> result A) (wrapped : err) : TM A :=
  r ← ask call answer; tm_lift (match r with Ok a => Ok a | Err _ => Err (Because wrapped) end).
Definition attempt {A} (m : TM A) : TM (dresult A) := fun w => let '(r, w') := m w in (Ok r, w').
Definition peek {A} (f : calls -> A) : TM A := fun w => (Ok (f (w_calls w)), w).
Definition get_driver : TM Driver := fun w => (Ok (w_driver w), w).
Definition modify (f : Driver -> Driver) : TM unit := fun w => (Ok tt, mkWorld (f (w_driver w)) (w_calls w)).
Fixpoint tm_fold {A B} (f : B -> A -> TM B) (l : list A) (b : B) : TM B :=
  match l with [] => mret b | x :: r => b ← f b x; tm_fold f r b end.

Definition targetKey (id : uuidV7) (generation : N) : string := id_String prefix_target id +:+ "/" +:+ pretty generation.
Definition refKey (ref : TargetRef) : string := targetKey (tref_ID ref) (tref_Generation ref).
Definition plan_ref (plan : ContainerPlan) : TargetRef := mkTargetRef (cp_TargetID plan) (cp_Generation plan).

(** ** Labels and identities *)
Definition targetRefFromLabels (labels : gmap string string) : option TargetRef :=
  match parseID prefix_target (label labels "world.target") with
  | Err _ => None
  | Ok id =>
      match ParseUint (label labels "world.target-generation") 64 with
      | Some generation => if (generation =? 0)%N then None else Some (mkTargetRef id generation)
      | None => None
      end
  end.
Definition validTargetWorldLabels (labels : gmap string string) (ref : TargetRef) : bool :=
  bool_decide (label labels "world.role" = targetRoleLabel)
  && bool_decide (label labels "world.target" = id_String prefix_target (tref_ID ref))
  && bool_decide (label labels "world.target-generation" = pretty (tref_Generation ref))
  && is_ok (parseID prefix_lease (label labels "world.lease"))
  && forallb (fun name => is_ok (ParseDigest (label labels name))) ["world.policy-digest"; "world.capability-digest"; planDigestLabel]
  && ExactWorldLabels labels
       (world_labels (label labels "world.lease") (id_String prefix_target (tref_ID ref)) (pretty (tref_Generation ref))
          (label labels "world.policy-digest") (label labels "world.capability-digest") (label labels planDigestLabel)).

Definition validateRuntimeInventory (states : list RuntimeState) : result unit :=
  _ ← res_each (fun _ state => RequireCanonicalContainerID (st_ID state)) 0 states;
  check (bool_decide (NoDup (st_ID <$> states))) (ErrText "duplicate runtime ID").
Definition validateUnclaimedTarget (state : RuntimeState) (ref : TargetRef) : result unit :=
  _ ← check (validTargetWorldLabels (st_Labels state) ref)
        (ErrText "world-owned target labels are incomplete or contain an unexpected world label");
  check (bool_decide (st_Name state = targetContainerName (tref_ID ref) (tref_Generation ref)))
    (ErrText "world-owned target resource has a non-canonical name").

Section Driver.
Context `{SS : SliceSort} `{MR : MapRange} `{HP : HostPaths} `{PE : PlanEncoding} `{TH : TargetHost}.
Context (build : BuildConfig).

Definition inspect_error (field : string) : err := NewError CodeIntegrityViolation "linux_target.inspect" field.
Definition validateRuntimeIdentity (state : RuntimeState) (plan : ContainerPlan) : result unit :=
  _ ← check (is_ok (RequireCanonicalContainerID (st_ID state))) (inspect_error "runtime_id");
  _ ← check (bool_decide (st_Name state = cp_Name plan)) (inspect_error "name");
  _ ← check (ExactWorldLabels (st_Labels state) (cp_Labels plan)) (inspect_error "labels");
  check (is_ok (ConfigurationDifference (st_Configuration state) (expectedTargetConfiguration plan))) (inspect_error "configuration").

Definition requireExactRuntimeID (state : RuntimeState) (expected operation : string) : result unit :=
  check (bool_decide (st_ID state = expected)) (NewError CodeIntegrityViolation operation "runtime_id").
Definition runtime_state_error (operation : string) : err := NewError CodeFailedPrecondition operation "runtime_state".
Definition requireLiveRuntimeState (state : RuntimeState) (operation : string) : result unit :=
  check (is_ok (RequireExactRunningState (st_Running state) (st_Paused state) (st_Restarting state) (st_Dead state) (st_Status state)))
    (runtime_state_error operation).
Definition requireStoppedRuntimeState (state : RuntimeState) (operation : string) (allowedStatuses : list string) : result unit :=
  check (is_ok (RequireExactStoppedState (st_Running state) (st_Paused state) (st_Restarting state) (st_Dead state) (st_Status state)
                  allowedStatuses)) (runtime_state_error operation).
Definition requireCoherentRuntimeState (state : RuntimeState) (operation : string) : result unit :=
  if st_Running state then requireLiveRuntimeState state operation
  else requireStoppedRuntimeState state operation [StoppedStatusCreated; StoppedStatusExited].

(** ** Durable records *)
Definition reset_plan_of (p : persistedResetPlan) : result ResetPlan :=
  incident ← (if bool_decide (prp_IncidentID p = "") then Ok zero_uuid else parseID prefix_incident (prp_IncidentID p));
  Ok (mkResetPlan (prp_IdempotencyKey p) (prp_LeaseID p) (prp_Previous p) (prp_NextGeneration p) (prp_Mode p) (prp_SnapshotName p) incident).
Definition ResetPlan_Validate (p : ResetPlan) : result unit :=
  let operation := "ports.reset_plan.validate" in
  _ ← check (IsCanonicalIdempotencyKey (rp_IdempotencyKey p)) (NewError CodeInvalidArgument operation "idempotency_key");
  _ ← check (negb (id_IsZero (rp_LeaseID p)) && is_ok (TargetRef_Validate (rp_Previous p)) && TargetGeneration_IsValid (rp_NextGeneration p))
        (NewError CodeInvalidArgument operation "scope");
  _ ← ValidateResetSelection (rp_Mode p) (rp_SnapshotName p);
  check (match TargetGeneration_Next (tref_Generation (rp_Previous p)) with Ok next => (rp_NextGeneration p =? next)%N | Err _ => false end)
    (NewError CodeConflict operation "next_generation").
Definition persistedResetPlan_plan (p : persistedResetPlan) : result ResetPlan :=
  plan ← reset_plan_of p; _ ← ResetPlan_Validate plan; Ok plan.
Definition persistedResetPlanFrom (p : ResetPlan) : persistedResetPlan :=
  mkPersistedResetPlan (rp_IdempotencyKey p) (rp_LeaseID p) (rp_Previous p) (rp_NextGeneration p) (rp_Mode p) (rp_SnapshotName p)
    (id_String prefix_incident (rp_IncidentID p)).

Definition TargetDirectoryRoot (plan : ContainerPlan) : string := path_Dir (path_Dir (path_Dir (cp_TargetDirectory plan))).
Definition imageRepositoryFromPlan (plan : ContainerPlan) : string :=
  match LastIndex (cp_Image plan) "@sha256:" with
  | Some (S n) => string_take (S n) (cp_Image plan)
  | _ => cp_Image plan
  end.
Definition plan_config (plan : ContainerPlan) : BuildConfig :=
  mkBuildConfig (TargetDirectoryRoot plan) (imageRepositoryFromPlan plan) (bool_decide ("SYS_PTRACE" ∈ cp_Capabilities plan)) (cp_User plan).

Definition validateResetExpectedPlan (intent : persistedResetIntent) (expected : TargetPlan) : result unit :=
  _ ← TargetPlan_Validate expected;
  let spec := Domain.tg_spec (tp_Generation expected) in
  reset ← persistedResetPlan_plan (pri_Reset intent);
  _ ← check (bool_decide (tp_LeaseID expected = rp_LeaseID reset) && bool_decide (Domain.tgs_TargetID spec = tref_ID (rp_Previous reset))
             && (Domain.tgs_Generation spec =? rp_NextGeneration reset)%N
             && (Domain.tgs_PreviousGeneration spec =? tref_Generation (rp_Previous reset))%N
             && bool_decide (Domain.tgs_RecoveryIncidentID spec = rp_IncidentID reset))
        (ErrText "reset intent does not match the expected durable target generation");
  want ← BuildContainerPlan expected (plan_config (pri_NextPlan intent));
  check (sameContainerPlanIdentity want (pri_NextPlan intent))
    (ErrText "reset intent physical successor differs from the expected durable plan").

(** A plan is for one generation of a lease. *)
Definition plan_scope (plan : ContainerPlan) (ref : TargetRef) (lease : uuidV7) : bool :=
  bool_decide (plan_ref plan = ref) && bool_decide (cp_LeaseID plan = lease).
Definition persistedResetIntent_validate (i : persistedResetIntent) (targetRoot : string) (expected : option TargetPlan) : result unit :=
  _ ← check ((pri_SchemaVersion i =? 1)%Z && negb (blank (pri_PreviousRuntimeID i))) (ErrText "reset intent is incomplete or unsupported");
  reset ← persistedResetPlan_plan (pri_Reset i);
  _ ← check (bool_decide (rp_Mode reset = ResetRecreate)) (ErrText "reset intent mode is not supported by the Linux container driver");
  _ ← ContainerPlan_Validate (pri_PreviousPlan i) targetRoot;
  _ ← ContainerPlan_Validate (pri_NextPlan i) targetRoot;
  _ ← check (plan_scope (pri_PreviousPlan i) (rp_Previous reset) (rp_LeaseID reset)
             && plan_scope (pri_NextPlan i) (mkTargetRef (tref_ID (rp_Previous reset)) (rp_NextGeneration reset)) (rp_LeaseID reset))
        (ErrText "reset intent scope does not match its physical plans");
  wantNext ← replacementContainerPlan (pri_PreviousPlan i) (rp_NextGeneration reset) targetRoot;
  _ ← check (sameContainerPlanIdentity wantNext (pri_NextPlan i))
        (ErrText "reset replacement is not the canonical successor of the previous plan");
  match expected with Some expected => validateResetExpectedPlan i expected | None => Ok tt end.

Definition errLifecycleRecordConflict : err := ErrText "durable lifecycle record has different canonical content".
Definition cleanup_message : string := "replacement is ready but the retired target directory could not be removed".
Definition cleanup_outcome : persistedOutcomeError := mkOutcomeError CodeUnavailable "linux_target.reset" "cleanup" cleanup_message.
Definition persistedResetReceipt_validate (r : persistedResetReceipt) (intent : persistedResetIntent) : result unit :=
  encoded ← json_reset_intent intent;
  reset ← persistedResetPlan_plan (pri_Reset intent);
  let status := res_Status (prr_Result r) in
  _ ← check ((prr_SchemaVersion r =? 1)%Z && bool_decide (prr_IntentDigest r = NewDigest encoded)
             && bool_decide (ts_TargetID status = tref_ID (rp_Previous reset)) && (ts_Generation status =? rp_NextGeneration reset)%N
             && bool_decide (ts_Kind status = Domain.TargetLinuxContainer) && bool_decide (ts_State status = TargetGenerationReady)
             && ts_Ready status && negb (blank (ts_RuntimeID status)) && negb (time_IsZero (ts_ObservedAt status)) && res_Created (prr_Result r))
        (ErrText "reset receipt does not match the durable reset intent");
  match prr_Error r with
  | None => Ok tt
  | Some e => check (bool_decide (poe_Code e = CodeUnavailable) && bool_decide (poe_Operation e = "linux_target.reset")
                     && bool_decide (poe_Field e = "cleanup") && bool_decide (poe_Message e = cleanup_message))
                (ErrText "reset receipt error is not a supported canonical outcome")
  end.
Definition newResetReceipt (intent : persistedResetIntent) (r : TargetResult) (outcomeErr : option persistedOutcomeError)
    : result persistedResetReceipt :=
  encoded ← json_reset_intent intent;
  let receipt := mkResetReceipt 1 (NewDigest encoded) r outcomeErr in
  _ ← persistedResetReceipt_validate receipt intent;
  Ok receipt.
Definition outcome_error (e : persistedOutcomeError) : driver_error := Because (NewError (poe_Code e) (poe_Operation e) (poe_Field e)).
Definition persistedResetReceipt_outcome (r : persistedResetReceipt) (intent : persistedResetIntent) : resetOutcome :=
  let reset := match reset_plan_of (pri_Reset intent) with
               | Ok reset => reset
               | Err _ => mkResetPlan "" zero_uuid zero_target_ref 0 (ResetModeUnrecognized "") "" zero_uuid end in
  mkResetOutcome (tref_ID (rp_Previous reset)) reset (prr_Result r) (outcome_error <$> prr_Error r).
Definition newResetIntent (reset : ResetPlan) (previous : targetRecord) (next : ContainerPlan) : result persistedResetIntent :=
  let intent := mkResetIntent 1 (persistedResetPlanFrom reset) (rec_plan previous) (rec_runtimeID previous) next in
  _ ← persistedResetIntent_validate intent (TargetDirectoryRoot (rec_plan previous)) None;
  Ok intent.

Definition TargetQuarantinePlan_Validate (p : TargetQuarantinePlan) : result unit :=
  let operation := "ports.target_quarantine_plan.validate" in
  _ ← check (IsCanonicalIdempotencyKey (qp_IdempotencyKey p)) (NewError CodeInvalidArgument operation "idempotency_key");
  _ ← TargetRef_Validate (qp_Target p);
  check (bool_decide (qp_Reason p = TrimSpace (qp_Reason p)) && negb (bool_decide (qp_Reason p = "")) && (slen (qp_Reason p) <=? 4096)%Z)
    (NewError CodeInvalidArgument operation "reason").
Definition persistedQuarantineIntent_validate (i : persistedQuarantineIntent) (targetRoot : string) (expected : ContainerPlan)
    : result unit :=
  _ ← check ((pqi_SchemaVersion i =? 1)%Z && negb (blank (pqi_RuntimeID i))) (ErrText "quarantine intent is incomplete or unsupported");
  _ ← TargetQuarantinePlan_Validate (pqi_Plan i);
  _ ← ContainerPlan_Validate (pqi_TargetPlan i) targetRoot;
  _ ← check (bool_decide (qp_Target (pqi_Plan i) = plan_ref (pqi_TargetPlan i)))
        (ErrText "quarantine intent scope does not match its physical plan");
  check (sameContainerPlanIdentity (pqi_TargetPlan i) expected) (ErrText "quarantine intent differs from the expected durable target plan").
Definition persistedQuarantineReceipt_validate (r : persistedQuarantineReceipt) (intent : persistedQuarantineIntent) : result unit :=
  encoded ← json_quarantine_intent intent;
  _ ← check ((pqr_SchemaVersion r =? 1)%Z && bool_decide (pqr_IntentDigest r = NewDigest encoded))
        (ErrText "quarantine receipt does not match its durable intent");
  _ ← TargetQuarantineEvidence_Validate (pqr_Evidence r) (qp_Target (pqi_Plan intent));
  check (bool_decide (qev_RuntimeID (pqr_Evidence r) = pqi_RuntimeID intent))
    (ErrText "quarantine receipt has a non-canonical observation or identifies another physical runtime").
Definition newQuarantineReceipt (intent : persistedQuarantineIntent) (evidence : TargetQuarantineEvidence)
    : result persistedQuarantineReceipt :=
  encoded ← json_quarantine_intent intent;
  let receipt := mkQuarantineReceipt 1 (NewDigest encoded) evidence in
  _ ← persistedQuarantineReceipt_validate receipt intent;
  Ok receipt.

(** A record is an intent with the receipt of its completion; a receipt needs its
    intent. *)
Definition checked_records {I R} (validate : I -> result unit) (validate_receipt : R -> I -> result unit) (records : option I * option R)
    : result (option (I * option R)) :=
  match records with
  | (None, None) => Ok None
  | (None, Some _) => Err (ErrText "receipt exists without its intent")
  | (Some intent, receipt) =>
      _ ← validate intent;
      _ ← match receipt with Some receipt => validate_receipt receipt intent | None => Ok tt end;
      Ok (Some (intent, receipt))
  end.
Definition loadResetRecords (directory targetRoot : string) (expected : option TargetPlan)
    : TM (result (option (persistedResetIntent * option persistedResetReceipt))) :=
  records ← ask (LoadResetRecords directory) (fun h => read_reset h directory);
  mret (records ← records;
        checked_records (fun i => persistedResetIntent_validate i targetRoot expected) persistedResetReceipt_validate records).
Definition loadQuarantineRecords (directory targetRoot : string) (expected : ContainerPlan)
    : TM (result (option (persistedQuarantineIntent * option persistedQuarantineReceipt))) :=
  records ← ask (LoadQuarantineRecords directory) (fun h => read_quarantine h directory);
  mret (records ← records;
        checked_records (fun i => persistedQuarantineIntent_validate i targetRoot expected) persistedQuarantineReceipt_validate records).

Definition persistedGenerationRunClaim_validate (c : persistedGenerationRunClaim) : result unit :=
  check ((prc_SchemaVersion c =? 1)%Z && negb (id_IsZero (prc_LeaseID c)) && negb (id_IsZero (prc_TargetID c))
         && TargetGeneration_IsValid (prc_TargetGeneration c) && negb (id_IsZero (prc_RunID c))
         && IsCanonicalIdempotencyKey (prc_IdempotencyKey c) && negb (digest_IsZero (prc_Materialization c))
         && negb (digest_IsZero (prc_PlanDigest c))) (ErrText "target generation run claim is incomplete or unsupported").
Definition loadTargetGenerationRunClaim (directory : string) : TM (result (option persistedGenerationRunClaim)) :=
  claim ← ask (LoadRunClaim directory) (fun h => read_claim h directory);
  mret (claim ← claim;
        match claim with None => Ok None | Some c => _ ← persistedGenerationRunClaim_validate c; Ok (Some c) end).
Definition matchesTarget (c : persistedGenerationRunClaim) (plan : ContainerPlan) : bool :=
  bool_decide (prc_LeaseID c = cp_LeaseID plan) && bool_decide (prc_TargetID c = cp_TargetID plan)
  && (prc_TargetGeneration c =? cp_Generation plan)%N.

(** ** Directories *)
Definition targetDirectory (ref : TargetRef) : string := generation_directory (bc_TargetRoot build) (tref_ID ref) (tref_Generation ref).
Definition targetDirectoryPresent (directory : string) : TM (result bool) :=
  ask (StatDirectory directory) (fun h => directory_present h directory).
Definition removeTargetDirectory (directory : string) : TM (result unit) :=
  ask (RemoveDirectory directory) (fun h => remove_directory h directory).
Definition removeTargetDirectoryIfPresent (directory : string) : TM (result unit) :=
  present ← targetDirectoryPresent directory;
  match present with
  | Err e => mret (Err e)
  | Ok false => mret (Ok tt)
  | Ok true => removeTargetDirectory directory
  end.

(** ** Operations on one container *)
Definition inspectOwnedRuntime (target : targetRecord) (operation : string) : TM RuntimeState :=
  state ← require (InspectContainer (rec_runtimeID target)) (fun h => runtime_Inspect h (rec_runtimeID target))
            (NewError CodeUnavailable operation "runtime.inspect");
  _ ← tm_lift (because (requireExactRuntimeID state (rec_runtimeID target) operation));
  _ ← tm_lift (because (validateRuntimeIdentity state (rec_plan target)));
  mret state.

(** The state the container was left in, with the error of the operation. *)
Definition requireOwnedRuntimeStopped (target : targetRecord) (mode : StopMode) : TM (RuntimeState * option driver_error) :=
  let operation := "linux_target.stop_runtime" in
  let stop_failed (stopErr : result unit) := error_in (because (match stopErr with
    | Ok _ => Ok tt | Err _ => Err (NewError CodeUnavailable operation "runtime.stop") end)) in
  inspected ← attempt (inspectOwnedRuntime target operation);
  match inspected with
  | Err e => mret (no_runtime, Some e)
  | Ok state =>
      if negb (st_Running state) then
        mret (match requireStoppedRuntimeState state operation [StoppedStatusCreated; StoppedStatusExited] with
              | Ok _ => (state, None) | Err e => (no_runtime, Some (Because e)) end)
      else
        stopErr ← ask (StopContainer (rec_runtimeID target) mode) (fun h => runtime_Stop h (rec_runtimeID target) mode);
        inspected ← attempt (inspectOwnedRuntime target operation);
        mret match inspected with
             | Err e => (no_runtime, join_errors [stop_failed stopErr; Some e])
             | Ok stopped =>
                 if st_Running stopped
                 then (stopped, join_errors [error_in (because stopErr); Some (Because (NewError CodeFailedPrecondition operation "runtime.running"))])
                 else match requireStoppedRuntimeState stopped operation [StoppedStatusExited] with
                      | Err e => (no_runtime, join_errors [error_in (because stopErr); Some (Because e)])
                      | Ok _ => (stopped, stop_failed stopErr)
                      end
             end
  end.

Definition requireGuestReadiness (runtimeID : string) (wrapped : err) : TM unit :=
  require (ProbeGuest runtimeID) (fun h => guest_readiness h runtimeID) wrapped.

(** From the created container to the running one. *)
Definition start_created (plan : ContainerPlan) (runtimeID : string) : TM RuntimeState :=
  let operation := "linux_target.create" in
  _ ← tm_lift (because (check (is_ok (RequireCanonicalContainerID runtimeID)) (NewError CodeIntegrityViolation operation "runtime_id")));
  created ← require (InspectContainer runtimeID) (fun h => runtime_Inspect h runtimeID) (NewError CodeFailedPrecondition operation "runtime.inspect");
  _ ← tm_lift (because (requireExactRuntimeID created runtimeID operation));
  _ ← tm_lift (because (validateRuntimeIdentity created plan));
  _ ← tm_lift (because (requireStoppedRuntimeState created operation [StoppedStatusCreated]));
  _ ← require (StartContainer runtimeID) (fun h => runtime_Start h runtimeID) (NewError CodeUnavailable operation "runtime.start");
  state ← require (InspectContainer runtimeID) (fun h => runtime_Inspect h runtimeID) (NewError CodeFailedPrecondition operation "readiness");
  _ ← tm_lift (because (requireExactRuntimeID state runtimeID operation));
  _ ← tm_lift (because (validateRuntimeIdentity state plan));
  _ ← tm_lift (because (requireLiveRuntimeState state operation));
  _ ← requireGuestReadiness runtimeID (NewError CodeFailedPrecondition operation "guest_readiness");
  mret state.
(** The identity of the container, also when it could not be started. *)
Definition createRuntime (plan : ContainerPlan) : TM (string * dresult RuntimeState) :=
  created ← ask (CreateContainer plan) (fun h => runtime_Create h plan);
  match created with
  | Err _ => mret ("", Err (Because (NewError CodeUnavailable "linux_target.create" "runtime.create")))
  | Ok runtimeID => state ← attempt (start_created plan runtimeID); mret (runtimeID, state)
  end.

Definition resumeExactRuntime (plan : ContainerPlan) (state : RuntimeState) (operation : string) : TM RuntimeState :=
  _ ← tm_lift (because (validateRuntimeIdentity state plan));
  state ← (if st_Running state then mret state else
    _ ← tm_lift (because (requireStoppedRuntimeState state operation [StoppedStatusCreated; StoppedStatusExited]));
    _ ← require (StartContainer (st_ID state)) (fun h => runtime_Start h (st_ID state)) (NewError CodeUnavailable operation "runtime.start");
    observed ← require (InspectContainer (st_ID state)) (fun h => runtime_Inspect h (st_ID state))
                 (NewError CodeFailedPrecondition operation "runtime.start");
    _ ← tm_lift (because (requireExactRuntimeID observed (st_ID state) operation));
    _ ← tm_lift (because (check (st_Running observed) (NewError CodeFailedPrecondition operation "runtime.start")));
    _ ← tm_lift (because (validateRuntimeIdentity observed plan));
    mret observed);
  _ ← tm_lift (because (requireLiveRuntimeState state operation));
  _ ← requireGuestReadiness (st_ID state) (NewError CodeFailedPrecondition operation "guest_readiness");
  mret state.

(** A complete inventory without ambiguous identities. *)
Definition list_runtime (operation field : string) : TM (list RuntimeState) :=
  states ← require ListContainers runtime_List (NewError CodeUnavailable operation field);
  _ ← tm_lift (because (check (is_ok (validateRuntimeInventory states)) (NewError CodeIntegrityViolation operation field)));
  mret states.

(** Containers that claim a generation, by name or by label. *)
Definition claims_ref (state : RuntimeState) (name : string) (ref : TargetRef) : bool :=
  bool_decide (st_Name state = name) || bool_decide (targetRefFromLabels (st_Labels state) = Some ref).
Definition targetRefCandidates (states : list RuntimeState) (ref : TargetRef) : list RuntimeState :=
  filter (fun state => claims_ref state (targetContainerName (tref_ID ref) (tref_Generation ref)) ref = true) states.

(** ** Expected generations *)
Record expectedTargetContainer := mkExpected {
  exp_input : TargetPlan; exp_plan : ContainerPlan; exp_ref : TargetRef; exp_cleanupOnly : bool }.
Definition targetCandidates (states : list RuntimeState) (expected : expectedTargetContainer) : list nat :=
  (filter (fun p => claims_ref p.2 (cp_Name (exp_plan expected)) (exp_ref expected) = true) (imap pair states)).*1.

Definition duplicate_error : err := NewError CodeInvalidArgument "linux_target.reconcile" "expected".
Definition appendPlans (expected : list TargetPlan) (cleanupOnly : bool) (prepared : list expectedTargetContainer)
    : result (list expectedTargetContainer) :=
  res_fold (fun prepared input =>
    plan ← BuildContainerPlan input build;
    _ ← check (negb (bool_decide (refKey (plan_ref plan) ∈ (refKey ∘ exp_ref <$> prepared)))) duplicate_error;
    _ ← check (negb (bool_decide (tp_IdempotencyKey input ∈ (tp_IdempotencyKey ∘ exp_input <$> prepared)))) duplicate_error;
    Ok (prepared ++ [mkExpected input plan (plan_ref plan) cleanupOnly])) expected prepared.
Definition MaximumInventoryContainers : nat := 4096.
Definition prepareExpectedTargets (active cleanupOnly : list TargetPlan) : result (list expectedTargetContainer) :=
  _ ← check (length active + length cleanupOnly <=? MaximumInventoryContainers)%nat
        (NewError CodeResourceExhausted "linux_target.reconcile" "expected");
  prepared ← appendPlans active false [];
  appendPlans cleanupOnly true prepared.

Definition resumeOrCreateRuntime (plan : ContainerPlan) (input : TargetPlan) : TM (string * dresult RuntimeState * bool) :=
  let operation := "linux_target.create" in
  let create := (r ← createRuntime plan; mret (r.1, r.2, true)) in
  let refuse e := mret ("", Err e, false) in
  if negb RuntimeInventory then create else
  listed ← attempt (list_runtime operation "inventory");
  match listed with
  | Err e => refuse e
  | Ok states =>
      match targetCandidates states (mkExpected input plan (plan_ref plan) false) with
      | [] => create
      | [index] =>
          let state := nth index states no_runtime in
          match validateRuntimeIdentity state plan with
          | Err e => refuse (Because e)
          | Ok _ => ready ← attempt (resumeExactRuntime plan state operation); mret (st_ID state, ready, false)
          end
      | _ => refuse (Because (NewError CodeIntegrityViolation operation "runtime.identity"))
      end
  end.

(** ** Reconciliation *)
Definition status_of (plan : ContainerPlan) (state : TargetGenerationState) (ready : bool) (runtime : RuntimeState) (observedAt : time)
    : TargetStatus :=
  mkTargetStatus (cp_TargetID plan) (cp_Generation plan) Domain.TargetLinuxContainer state ready (st_ID runtime) (st_CgroupID runtime) observedAt.
Definition adoptedTargetStatus (plan : ContainerPlan) (state : RuntimeState) (observedAt : time) : TargetStatus :=
  status_of plan (if st_Running state then TargetGenerationReady else TargetGenerationFailed) (st_Running state) state observedAt.
Definition adoptedResettableTargetStatus (plan : ContainerPlan) (state : RuntimeState) (observedAt : time) : TargetStatus :=
  status_of plan TargetGenerationResettable false state observedAt.
Definition adoptedQuarantinedTargetStatus (plan : ContainerPlan) (state : RuntimeState) (observedAt : time) : TargetStatus :=
  status_of plan TargetGenerationQuarantined false state observedAt.
Definition matchedTargetObservation (ref : TargetRef) (runtimeID : string) (classification : PhysicalResourceClassification)
    (diagnostic : string) : TargetReconciliation :=
  mkTargetReconciliation ref runtimeID classification true false diagnostic.
Definition cleanupOnlyTargetRecord (expected : expectedTargetContainer) (state : RuntimeState) (observedAt : time) : targetRecord :=
  mkRecord (exp_input expected) (exp_plan expected) (st_ID state)
    (mkTargetStatus (tref_ID (exp_ref expected)) (tref_Generation (exp_ref expected)) Domain.TargetLinuxContainer TargetGenerationProvisioning
       false (st_ID state) (st_CgroupID state) observedAt) None None None.

Definition reconcile_op : string := "linux_target.reconcile".
Definition owned (plan : ContainerPlan) (input : TargetPlan) (runtimeID : string) : targetRecord :=
  mkRecord input plan runtimeID
    (mkTargetStatus zero_uuid 0 (Domain.TargetKindUnrecognized "") (TargetGenerationUnrecognized "") false "" "" 0) None None None.

(** The successor of an interrupted reset, created or resumed. *)
Definition reset_successor (item : expectedTargetContainer) (intent : persistedResetIntent) (states : list RuntimeState) : TM RuntimeState :=
  match targetCandidates states item with
  | [] =>
      created ← createRuntime (pri_NextPlan intent);
      state ← tm_lift (match created.2 with Ok state => Ok state | Err _ => Err (Because (NewError CodeUnavailable reconcile_op "reset.create")) end);
      _ ← tm_lift (because (check (negb (bool_decide (created.1 = "")) && bool_decide (st_ID state = created.1))
                              (NewError CodeIntegrityViolation reconcile_op "reset.create")));
      mret state
  | [index] =>
      let state := nth index states no_runtime in
      _ ← tm_lift (because (validateRuntimeIdentity state (pri_NextPlan intent)));
      resumeExactRuntime (pri_NextPlan intent) state reconcile_op
  | _ => fail (NewError CodeIntegrityViolation reconcile_op "reset.identity")
  end.
(** The retired generation is stopped, removed and seen to be gone. *)
Definition retire_previous (item : expectedTargetContainer) (intent : persistedResetIntent) (states : list RuntimeState) : TM unit :=
  let previousRef := prp_Previous (pri_Reset intent) in
  match targetRefCandidates states previousRef with
  | [] => mret tt
  | [previousState] =>
      _ ← tm_lift (because (check (bool_decide (st_ID previousState = pri_PreviousRuntimeID intent))
                              (NewError CodeIntegrityViolation reconcile_op "reset.previous")));
      _ ← tm_lift (because (validateRuntimeIdentity previousState (pri_PreviousPlan intent)));
      stopped ← requireOwnedRuntimeStopped (owned (pri_PreviousPlan intent) (exp_input item) (st_ID previousState)) StopForce;
      _ ← tm_lift (because (check (match stopped.2 with None => true | Some _ => false end) (NewError CodeUnavailable reconcile_op "reset.previous_stop")));
      _ ← require (RemoveContainer (st_ID previousState)) (fun h => runtime_Remove h (st_ID previousState))
            (NewError CodeUnavailable reconcile_op "reset.previous_remove");
      observed ← list_runtime reconcile_op "reset.previous_absence";
      tm_lift (because (check (bool_decide (length (targetRefCandidates observed previousRef) = 0%nat))
                          (NewError CodeFailedPrecondition reconcile_op "reset.previous_absence")))
  | _ => fail (NewError CodeIntegrityViolation reconcile_op "reset.previous")
  end.
Definition resumePersistedReset (item : expectedTargetContainer) (intent : persistedResetIntent) (states : list RuntimeState) : TM unit :=
  next ← reset_successor item intent states;
  _ ← retire_previous item intent states;
  observedAt ← peek now;
  let result := mkTargetResult (status_of (pri_NextPlan intent) TargetGenerationReady true next observedAt) true in
  removed ← removeTargetDirectoryIfPresent (cp_TargetDirectory (pri_PreviousPlan intent));
  receipt ← tm_lift (because (match newResetReceipt intent result (if is_ok removed then None else Some cleanup_outcome) with
                              | Ok receipt => Ok receipt | Err _ => Err (NewError CodeInternal reconcile_op "reset.receipt") end));
  let directory := cp_TargetDirectory (pri_NextPlan intent) in
  require (PersistResetReceipt directory receipt) (fun h => persist_reset_receipt h directory receipt)
    (NewError CodeUnavailable reconcile_op "reset.receipt").

Definition recoverPersistedQuarantine (item : expectedTargetContainer) (intent : persistedQuarantineIntent)
    (receipt : option persistedQuarantineReceipt) (state : RuntimeState) : TM (TargetQuarantineEvidence * RuntimeState) :=
  let id := st_ID state in
  let contain := ask (ContainContainer id) (fun h => runtime_Quarantine h id) in
  _ ← tm_lift (because (check (bool_decide (id = pqi_RuntimeID intent)) (ErrText "runtime identity differs from the durable quarantine intent")));
  _ ← tm_lift (because (check RuntimeContainment (ErrText "runtime cannot prove containment")));
  match receipt with
  | Some receipt =>
      if st_Running state then
        contained ← contain;
        tm_lift (Err (default (Several []) (join_errors
          [Some (Because (ErrText "runtime was observed running after durable quarantine evidence")); error_in (because contained)])))
      else
        _ ← tm_lift (because (requireStoppedRuntimeState state reconcile_op [StoppedStatusExited]));
        mret (pqr_Evidence receipt, state)
  | None =>
      contained ← contain;
      observed ← tm_lift (because contained);
      let evidence := mkTargetQuarantineEvidence (exp_ref item) (ce_RuntimeID observed) (ce_ExecutionStopped observed)
        (ce_NetworkUnreachable observed) (ce_StatePreserved observed) (ce_ObservedAt observed) in
      _ ← tm_lift (because (TargetQuarantineEvidence_Validate evidence (exp_ref item)));
      _ ← tm_lift (because (check (bool_decide (qev_RuntimeID evidence = id)) (ErrText "containment evidence identifies another runtime")));
      inspected ← ask (InspectContainer id) (fun h => runtime_Inspect h id);
      verified ← tm_lift (because inspected);
      _ ← tm_lift (because (requireExactRuntimeID verified id reconcile_op));
      _ ← tm_lift (because (validateRuntimeIdentity verified (exp_plan item)));
      _ ← tm_lift (because (requireStoppedRuntimeState verified reconcile_op [StoppedStatusExited]));
      receipt ← tm_lift (because (newQuarantineReceipt intent evidence));
      let directory := cp_TargetDirectory (exp_plan item) in
      persisted ← ask (PersistQuarantineReceipt directory receipt) (fun h => persist_quarantine_receipt h directory receipt);
      _ ← tm_lift (because persisted);
      mret (evidence, verified)
  end.

(** What is concluded of one expected generation: its observation, and the
    record that is adopted for work, or kept to authorize its destruction. *)
Inductive disposition := Unowned | Adopted (record : targetRecord) | CleanupOnly (record : targetRecord).
Abbreviation verdict := (TargetReconciliation * disposition)%type.

Definition observation (ref : TargetRef) (runtimeID : string) (c : PhysicalResourceClassification) (diagnostic : string) : verdict :=
  (mkTargetReconciliation ref runtimeID c false false diagnostic, Unowned).
Definition matched (ref : TargetRef) (runtimeID : string) (c : PhysicalResourceClassification) (diagnostic : string) : verdict :=
  (matchedTargetObservation ref runtimeID c diagnostic, Unowned).
Definition adopt (item : expectedTargetContainer) (state : RuntimeState) (status : TargetStatus) (reset : option resetOutcome)
    (quarantine : option (TargetQuarantinePlan * TargetQuarantineEvidence)) (diagnostic : string) : verdict :=
  (matchedTargetObservation (exp_ref item) (st_ID state) PhysicalResourceAdopted diagnostic,
   Adopted (mkRecord (exp_input item) (exp_plan item) (st_ID state) status reset (fst <$> quarantine) (snd <$> quarantine))).

(** No container claims the generation. *)
Definition observe_absent (item : expectedTargetContainer) (present : gset string) (errors : gmap string driver_error) (observedAt : time)
    : TM verdict :=
  let ref := exp_ref item in
  let key := refKey ref in
  if bool_decide (is_Some (errors !! key)) then mret (observation ref "" PhysicalResourceUncertain "durable reset recovery did not complete")
  else if bool_decide (key ∈ present)
  then mret (observation ref "" PhysicalResourceUncertain "durable reset authority exists but its successor runtime is absent") else
  directory ← targetDirectoryPresent (cp_TargetDirectory (exp_plan item));
  mret match directory with
       | Err _ => observation ref "" PhysicalResourceUncertain "target directory presence could not be established"
       | Ok false => observation ref "" PhysicalResourceMissing "authoritative runtime inventory contains no matching resource"
       | Ok true => (mkTargetReconciliation ref "" PhysicalResourceMissing false true "exact persisted target directory remains",
                     CleanupOnly (cleanupOnlyTargetRecord item no_runtime observedAt))
       end.

(** A claimed generation is adopted only to be reset, and only once stopped. *)
Definition observe_claimed (item : expectedTargetContainer) (state : RuntimeState) (reset : option resetOutcome) : TM verdict :=
  let ref := exp_ref item in
  let resettable (state : RuntimeState) (diagnostic : string) : TM verdict :=
    (observedAt ← peek now; mret (adopt item state (adoptedResettableTargetStatus (exp_plan item) state observedAt) reset None diagnostic)) in
  if st_Running state then
    '(stopped, _) ← requireOwnedRuntimeStopped (owned (exp_plan item) (exp_input item) (st_ID state)) StopForce;
    if bool_decide (st_ID stopped = "") || st_Running stopped
    then mret (matched ref (st_ID state) PhysicalResourceUncertain "durably claimed generation could not be contained without guest execution")
    else resettable stopped "durably claimed running generation was contained without guest execution and requires interrupted-run recovery"
  else match requireStoppedRuntimeState state reconcile_op [StoppedStatusExited] with
       | Err _ => mret (matched ref (st_ID state) PhysicalResourceForeign "runtime state")
       | Ok _ => resettable state "durably claimed generation is stopped and requires reset"
       end.
Definition observe_unclaimed_run (item : expectedTargetContainer) (state : RuntimeState) (reset : option resetOutcome) : TM verdict :=
  let ref := exp_ref item in
  if negb (st_Running state)
  then mret (matched ref (st_ID state) PhysicalResourceUncertain "unclaimed matching target is unexpectedly stopped")
  else if negb (is_ok (requireLiveRuntimeState state reconcile_op)) then mret (matched ref (st_ID state) PhysicalResourceForeign "runtime state")
  else
    ready ← attempt (requireGuestReadiness (st_ID state) (ErrText "world-guest readiness self-test failed"));
    match ready with
    | Err _ => mret (matched ref (st_ID state) PhysicalResourceUncertain "world-guest readiness self-test failed")
    | Ok _ => observedAt ← peek now;
              mret (adopt item state (adoptedTargetStatus (exp_plan item) state observedAt) reset None
                      "exact persisted plan and physical configuration match")
    end.

(** The outcome of a reset that produced this container, if it is complete and
    about it. *)
Definition reset_of (records : option (persistedResetIntent * option persistedResetReceipt)) (state : RuntimeState)
    : PhysicalResourceClassification * string + option resetOutcome :=
  match records with
  | None => inr None
  | Some (_, None) => inl (PhysicalResourceUncertain, "durable reset intent has no completed physical receipt")
  | Some (intent, Some receipt) =>
      let outcome := persistedResetReceipt_outcome receipt intent in
      if bool_decide (ts_RuntimeID (res_Status (out_result outcome)) = st_ID state) then inr (Some outcome)
      else inl (PhysicalResourceForeign, "durable reset receipt identifies another physical runtime")
  end.

(** One container claims the generation. *)
Definition observe_present (item : expectedTargetContainer) (state : RuntimeState) (observedAt : time) : TM verdict :=
  let ref := exp_ref item in
  let id := st_ID state in
  let directory := cp_TargetDirectory (exp_plan item) in
  if negb (is_ok (validateRuntimeIdentity state (exp_plan item))) then mret (observation ref id PhysicalResourceForeign "runtime identity")
  else if negb (is_ok (requireCoherentRuntimeState state reconcile_op)) then mret (observation ref id PhysicalResourceForeign "runtime state")
  else if exp_cleanupOnly item then
    mret (matchedTargetObservation ref id PhysicalResourceUncertain
            "exact persisted cleanup plan and physical configuration match; generation was not adopted for work",
          CleanupOnly (cleanupOnlyTargetRecord item state observedAt))
  else
  resets ← loadResetRecords directory (bc_TargetRoot build) (Some (exp_input item));
  match resets with
  | Err _ => mret (matched ref id PhysicalResourceUncertain "durable reset state is invalid")
  | Ok records =>
      match reset_of records state with
      | inl (classification, diagnostic) => mret (matched ref id classification diagnostic)
      | inr reset =>
          quarantines ← loadQuarantineRecords directory (bc_TargetRoot build) (exp_plan item);
          match quarantines with
          | Err _ => mret (matched ref id PhysicalResourceUncertain "durable quarantine state is invalid")
          | Ok (Some (intent, receipt)) =>
              recovered ← attempt (recoverPersistedQuarantine item intent receipt state);
              mret match recovered with
                   | Err _ => matched ref id PhysicalResourceUncertain "durable quarantine could not be verified"
                   | Ok (evidence, state) =>
                       adopt item state (adoptedQuarantinedTargetStatus (exp_plan item) state (qev_ObservedAt evidence)) reset
                         (Some (pqi_Plan intent, evidence)) "exact stopped runtime and durable quarantine evidence match"
                   end
          | Ok None =>
              claim ← loadTargetGenerationRunClaim directory;
              match claim with
              | Err _ => mret (matched ref id PhysicalResourceUncertain "durable target generation run claim is invalid")
              | Ok None => observe_unclaimed_run item state reset
              | Ok (Some claim) =>
                  if negb (matchesTarget claim (exp_plan item))
                  then mret (matched ref id PhysicalResourceForeign "durable run claim identifies another target generation")
                  else observe_claimed item state reset
              end
          end
      end
  end.

Definition observe_expected (states : list RuntimeState) (present : gset string) (errors : gmap string driver_error) (observedAt : time)
    (item : expectedTargetContainer) : TM verdict :=
  match targetCandidates states item with
  | [] => observe_absent item present errors observedAt
  | [index] => observe_present item (nth index states no_runtime) observedAt
  | _ => mret (observation (exp_ref item) "" PhysicalResourceUncertain "multiple runtime resources claim the same generation identity")
  end.

(** ** Containers no expected generation claims *)
Definition unclaimed_conflict (state : RuntimeState) (diagnostic : string) : PhysicalResourceConflict :=
  mkPhysicalResourceConflict (st_ID state) (st_Name state) PhysicalResourceForeign diagnostic.
Definition has_target_role (state : RuntimeState) : bool := bool_decide (label (st_Labels state) "world.role" = targetRoleLabel).
Definition unclaimed_conflicts (unclaimed : list RuntimeState) : list PhysicalResourceConflict :=
  omap (fun state =>
    if negb (has_target_role state) then
      if HasPrefix (st_Name state) "world-target-"
      then Some (unclaimed_conflict state "world target name is not accompanied by an exact target role identity") else None
    else match targetRefFromLabels (st_Labels state) with
         | None => Some (unclaimed_conflict state "target role label has malformed generation identity")
         | Some _ => None
         end) unclaimed.
Definition unclaimed_refs (unclaimed : list RuntimeState) : list (TargetRef * RuntimeState) :=
  omap (fun state => if has_target_role state then (fun ref => (ref, state)) <$> targetRefFromLabels (st_Labels state) else None) unclaimed.
Definition classify_unclaimed (siblings : nat) (ref : TargetRef) (state : RuntimeState) : TargetReconciliation :=
  let report := mkTargetReconciliation ref (st_ID state) in
  if (1 <? siblings)%nat
  then report PhysicalResourceUncertain false false "multiple unclaimed resources have the same generation identity"
  else if is_ok (validateUnclaimedTarget state ref)
  then report PhysicalResourceOrphan false false "valid world-owned generation is absent from the expected durable plans"
  else report PhysicalResourceForeign false false "world-owned target labels or name".
Definition classifyUnclaimedTargets (unclaimed : list RuntimeState) : list TargetReconciliation * list PhysicalResourceConflict :=
  let refs := unclaimed_refs unclaimed in
  let keys := sort_Strings (remove_dups (refKey ∘ fst <$> refs)) in
  (keys ≫= (fun key =>
     let siblings := filter (fun p => refKey p.1 = key) refs in
     (fun p => classify_unclaimed (length siblings) p.1 p.2) <$> siblings),
   unclaimed_conflicts unclaimed).

Definition rebuildTargetMaps (records cleanupRecords : list targetRecord) (d : Driver) : Driver :=
  let d := d <| d_idempotency := fold_left (fun keys r => delete (tp_IdempotencyKey (rec_input r)) keys) (map_to_list (d_targets d)).*2 (d_idempotency d) |>
    <| d_targets := ∅ |> <| d_cleanupOnly := ∅ |> <| d_resetResults := ∅ |> <| d_quarantines := ∅ |> in
  let d := fold_left (fun d record =>
    let key := refKey (plan_ref (rec_plan record)) in
    let d := d <| d_targets := <[key := record]> (d_targets d) |>
      <| d_idempotency := <[tp_IdempotencyKey (rec_input record) := key]> (d_idempotency d) |> in
    let d := match rec_reset record with
             | Some outcome => d <| d_resetResults := <[rp_IdempotencyKey (out_plan outcome) := outcome]> (d_resetResults d) |>
             | None => d end in
    match rec_quarantinePlan record, rec_quarantine record with
    | Some plan, Some evidence => d <| d_quarantines := <[qp_IdempotencyKey plan := mkQuarantineOutcome plan evidence]> (d_quarantines d) |>
    | _, _ => d
    end) records d in
  fold_left (fun d record => d <| d_cleanupOnly := <[refKey (plan_ref (rec_plan record)) := record]> (d_cleanupOnly d) |>) cleanupRecords d.

(** The resets that were interrupted are resumed one by one; the inventory is
    taken again after each that succeeds. *)
Record reset_pass := mkResetPass { rst_states : list RuntimeState; rst_present : gset string; rst_errors : gmap string driver_error }.
Definition resume_reset (pass : reset_pass) (item : expectedTargetContainer) : TM reset_pass :=
  if exp_cleanupOnly item then mret pass else
  let key := refKey (exp_ref item) in
  let failed e present := mkResetPass (rst_states pass) present (<[key := e]> (rst_errors pass)) in
  loaded ← loadResetRecords (cp_TargetDirectory (exp_plan item)) (bc_TargetRoot build) (Some (exp_input item));
  match loaded with
  | Err e => mret (failed (Because e) (rst_present pass))
  | Ok None => mret pass
  | Ok (Some (intent, receipt)) =>
      let present := {[key]} ∪ rst_present pass in
      match receipt with
      | Some _ => mret (mkResetPass (rst_states pass) present (rst_errors pass))
      | None =>
          resumed ← attempt (resumePersistedReset item intent (rst_states pass));
          match resumed with
          | Err e => mret (failed e present)
          | Ok _ => states ← list_runtime reconcile_op "inventory"; mret (mkResetPass states present (rst_errors pass))
          end
      end
  end.

Definition adopted_records (verdicts : list verdict) : list targetRecord :=
  omap (fun v => match v.2 with Adopted record => Some record | _ => None end) verdicts.
Definition cleanup_records (verdicts : list verdict) : list targetRecord :=
  omap (fun v => match v.2 with CleanupOnly record => Some record | _ => None end) verdicts.

(** The containers that are no candidate of any expected generation. *)
Definition unclaimed_containers (prepared : list expectedTargetContainer) (states : list RuntimeState) : list RuntimeState :=
  let claimed := prepared ≫= targetCandidates states in
  (filter (fun p => p.1 ∉ claimed) (imap pair states)).*2.
Definition ReconcileTargets (active cleanupOnly : list TargetPlan) : TM TargetReconciliationReport :=
  alive ← peek RequireDeadline;
  _ ← tm_lift (because alive);
  prepared ← tm_lift (because (prepareExpectedTargets active cleanupOnly));
  observedAt ← peek now;
  _ ← tm_lift (because (check RuntimeInventory (NewError CodeCapabilityUnavailable reconcile_op "inventory")));
  states ← list_runtime reconcile_op "inventory";
  pass ← tm_fold resume_reset prepared (mkResetPass states ∅ ∅);
  let states := rst_states pass in
  verdicts ← tm_fold (fun verdicts item =>
    verdict ← observe_expected states (rst_present pass) (rst_errors pass) observedAt item; mret (verdicts ++ [verdict])) prepared [];
  let '(unclaimed, conflicts) := classifyUnclaimedTargets (unclaimed_containers prepared states) in
  alive ← peek RequireDeadline;
  _ ← tm_lift (because alive);
  _ ← modify (rebuildTargetMaps (adopted_records verdicts) (cleanup_records verdicts));
  mret (mkTargetReport verdicts.*1 unclaimed conflicts observedAt).

(** ** Runs of a generation *)
Definition hasUnstoppedRun (d : Driver) (ref : TargetRef) : bool :=
  existsb (fun p => bool_decide (run_ref p.2 = ref) && negb (run_stopped p.2)) (map_to_list (d_runs d)).
Definition removeRunsLocked (ref : TargetRef) (d : Driver) : Driver :=
  let removed := filter (fun p => run_ref p.2 = ref) (map_to_list (d_runs d)) in
  d <| d_idempotency := fold_left (fun keys p => delete (run_key p.2) keys) removed (d_idempotency d) |>
    <| d_runs := filter (fun p => run_ref p.2 <> ref) (d_runs d) |>.
Definition remove_quarantines (ref : TargetRef) (d : Driver) : Driver :=
  d <| d_quarantines := filter (fun p => qp_Target (qo_plan p.2) <> ref) (d_quarantines d) |>.

Definition cleanupFailedRuntime (id directory : string) : TM (option driver_error) :=
  let failed field := Some (Because (NewError CodeUnavailable "linux_target.cleanup_failed_runtime" field)) in
  if bool_decide (id = "") then mret None else
  removed ← ask (RemoveContainer id) (fun h => runtime_Remove h id);
  if negb (is_ok removed) then mret (failed "runtime.remove") else
  cleaned ← removeTargetDirectory directory;
  mret (if is_ok cleaned then None else failed "target_directory").
(** The error of a creation, after the container it left has been removed. *)
Definition abandon {A} (e : driver_error) (id directory : string) : TM A :=
  cleanup ← cleanupFailedRuntime id directory;
  tm_lift (Err (default e (join_errors [Some e; cleanup]))).

(** ** Create *)
Definition create_error (code : ErrorCode) (field : string) : err := NewError code "linux_target.create" field.
Definition Create (input : TargetPlan) : TM TargetResult :=
  alive ← peek RequireDeadline;
  _ ← tm_lift (because alive);
  plan ← tm_lift (because (BuildContainerPlan input build));
  let key := refKey (plan_ref plan) in
  d ← get_driver;
  match d_idempotency d !! tp_IdempotencyKey input with
  | Some existingKey =>
      match d_targets d !! existingKey with
      | Some record =>
          _ ← tm_lift (because (check (bool_decide (existingKey = key)) (create_error CodeConflict "idempotency_key")));
          same ← tm_lift (because (match sameTargetPlanIdentity (rec_input record) input with
                                   | Ok same => Ok same | Err _ => Err (create_error CodeInternal "idempotency_key") end));
          _ ← tm_lift (because (check same (create_error CodeConflict "idempotency_key")));
          mret (mkTargetResult (rec_status record) false)
      | None => fail (create_error CodeConflict "idempotency_key")
      end
  | None =>
      _ ← tm_lift (because (check (negb (bool_decide (is_Some (d_targets d !! key)))) (create_error CodeAlreadyExists "generation")));
      _ ← require (PrepareDirectories plan) (fun h => prepare_directories h plan) (create_error CodeUnavailable "target_directory");
      '(runtimeID, ready, created) ← resumeOrCreateRuntime plan input;
      match ready with
      | Err e => abandon e runtimeID (cp_TargetDirectory plan)
      | Ok state =>
          observedAt ← peek now;
          let status := mkTargetStatus (cp_TargetID plan) (cp_Generation plan) Domain.TargetLinuxContainer TargetGenerationReady true
                          runtimeID (st_CgroupID state) observedAt in
          _ ← modify (fun d => d <| d_targets := <[key := mkRecord input plan runtimeID status None None None]> (d_targets d) |>
                                 <| d_idempotency := <[tp_IdempotencyKey input := key]> (d_idempotency d) |>);
          mret (mkTargetResult status created)
      end
  end.

(** ** Reset *)
Definition reset_failure (code : ErrorCode) (field : string) : err := NewError code "linux_target.reset" field.
Definition requireTarget (d : Driver) (ref : TargetRef) : result targetRecord :=
  from_option_err (NewError CodeNotFound "linux_target.target" "generation") (d_targets d !! refKey ref).

(** A reset that is already durable: its outcome, or nothing if it may go on. *)
Definition replayDurableReset (targetID : uuidV7) (reset : ResetPlan) : TM (option (TargetResult * option driver_error)) :=
  let next := mkTargetRef targetID (rp_NextGeneration reset) in
  loaded ← loadResetRecords (targetDirectory next) (bc_TargetRoot build) None;
  records ← tm_lift (because (match loaded with Ok records => Ok records | Err _ => Err (reset_failure CodeIntegrityViolation "receipt") end));
  match records with
  | None => mret None
  | Some (intent, receipt) =>
      durable ← tm_lift (because (match persistedResetPlan_plan (pri_Reset intent) with
                                  | Ok plan => Ok plan | Err _ => Err (reset_failure CodeIntegrityViolation "intent") end));
      _ ← tm_lift (because (check (bool_decide (durable = reset) && bool_decide (targetID = tref_ID (rp_Previous durable)))
                              (reset_failure CodeConflict "idempotency_key")));
      d ← get_driver;
      match receipt with
      | None =>
          if bool_decide (is_Some (d_targets d !! targetKey targetID (tref_Generation (rp_Previous reset)))) then mret None
          else fail (reset_failure CodeFailedPrecondition "receipt")
      | Some receipt =>
          let outcome := persistedResetReceipt_outcome receipt intent in
          match d_targets d !! refKey next with
          | Some record =>
              if bool_decide (rec_runtimeID record = ts_RuntimeID (res_Status (out_result outcome))) then
                _ ← modify (fun d => d <| d_targets := <[refKey next := record <| rec_reset := Some outcome |>]> (d_targets d) |>
                                       <| d_resetResults := <[rp_IdempotencyKey reset := outcome]> (d_resetResults d) |>);
                mret (Some (out_result outcome, out_err outcome))
              else fail (reset_failure CodeFailedPrecondition "adoption")
          | None => fail (reset_failure CodeFailedPrecondition "adoption")
          end
      end
  end.

Definition commitReset (previous : targetRecord) (next : ContainerPlan) (runtimeID : string) (status : TargetStatus) (targetID : uuidV7)
    (reset : ResetPlan) (result : TargetResult) (outcomeErr : option driver_error) (d : Driver) : Driver :=
  let previousRef := plan_ref (rec_plan previous) in
  let outcome := mkResetOutcome targetID reset result outcomeErr in
  let d := remove_quarantines previousRef (removeRunsLocked previousRef d) in
  let key := targetKey (tref_ID previousRef) (cp_Generation next) in
  d <| d_targets := <[key := mkRecord (rec_input previous) next runtimeID status (Some outcome) None None]> (delete (refKey previousRef) (d_targets d)) |>
    <| d_resetResults := <[rp_IdempotencyKey reset := outcome]> (d_resetResults d) |>.

Definition persistResetOutcome (intent : persistedResetIntent) (r : TargetResult) (outcomeErr : option persistedOutcomeError)
    : TM (dresult unit) :=
  attempt (receipt ← tm_lift (because (newResetReceipt intent r outcomeErr));
           let directory := cp_TargetDirectory (pri_NextPlan intent) in
           persisted ← ask (PersistResetReceipt directory receipt) (fun h => persist_reset_receipt h directory receipt);
           tm_lift (because persisted)).

(** The reset of an owned generation: the successor is created and ready before
    the previous container is stopped and removed. *)
Definition reset_owned (targetID : uuidV7) (reset : ResetPlan) : TM (TargetResult * option driver_error) :=
  d ← get_driver;
  previous ← tm_lift (because (requireTarget d (mkTargetRef targetID (tref_Generation (rp_Previous reset)))));
  _ ← tm_lift (because (check (negb (bool_decide (is_Some (rec_quarantine previous)))) (reset_failure CodeInvalidState "target")));
  _ ← tm_lift (because (check (bool_decide (cp_LeaseID (rec_plan previous) = rp_LeaseID reset)) (reset_failure CodeForbidden "lease_id")));
  _ ← tm_lift (because (check (negb (hasUnstoppedRun d (mkTargetRef targetID (tref_Generation (rp_Previous reset)))))
                          (reset_failure CodeFailedPrecondition "run")));
  next ← tm_lift (because (replacementContainerPlan (rec_plan previous) (rp_NextGeneration reset) (bc_TargetRoot build)));
  prepared ← ask (PrepareDirectories next) (fun h => prepare_directories h next);
  _ ← tm_lift (because prepared);
  intent ← tm_lift (because (match newResetIntent reset previous next with
                             | Ok intent => Ok intent | Err _ => Err (reset_failure CodeInternal "intent") end));
  let directory := cp_TargetDirectory next in
  persisted ← ask (PersistResetIntent directory intent) (fun h => persist_reset_intent h directory intent);
  _ ← tm_lift (because (match persisted with
                        | Ok _ => Ok tt
                        | Err e => Err (reset_failure (if bool_decide (e = errLifecycleRecordConflict) then CodeConflict else CodeUnavailable) "intent")
                        end));
  created ← createRuntime next;
  match created with
  | (runtimeID, Err e) => abandon e runtimeID directory
  | (runtimeID, Ok state) =>
      stopped ← requireOwnedRuntimeStopped previous StopForce;
      match stopped.2 with
      | Some _ => abandon (Because (reset_failure CodeUnavailable "runtime.stop")) runtimeID directory
      | None =>
          removed ← ask (RemoveContainer (rec_runtimeID previous)) (fun h => runtime_Remove h (rec_runtimeID previous));
          if negb (is_ok removed) then abandon (Because (reset_failure CodeUnavailable "runtime.remove")) runtimeID directory else
          cleaned ← removeTargetDirectory (cp_TargetDirectory (rec_plan previous));
          observedAt ← peek now;
          let status := mkTargetStatus targetID (rp_NextGeneration reset) Domain.TargetLinuxContainer TargetGenerationReady true runtimeID
                          (st_CgroupID state) observedAt in
          let result := mkTargetResult status true in
          let failure := if is_ok cleaned then None else Some cleanup_outcome in
          persisted ← persistResetOutcome intent result failure;
          let outcomeErr := match persisted with
                            | Err _ => Some (Because (reset_failure CodeUnavailable "receipt"))
                            | Ok _ => outcome_error <$> failure end in
          _ ← modify (commitReset previous next runtimeID status targetID reset result outcomeErr);
          mret (result, outcomeErr)
      end
  end.
Definition Reset (targetID : uuidV7) (reset : ResetPlan) : TM (TargetResult * option driver_error) :=
  alive ← peek RequireDeadline;
  _ ← tm_lift (because alive);
  _ ← tm_lift (because (ResetPlan_Validate reset));
  d ← get_driver;
  match d_resetResults d !! rp_IdempotencyKey reset with
  | Some prior =>
      _ ← tm_lift (because (check (bool_decide (out_targetID prior = targetID) && bool_decide (out_plan prior = reset))
                              (reset_failure CodeConflict "idempotency_key")));
      mret (out_result prior, out_err prior)
  | None =>
      _ ← tm_lift (because (check (bool_decide (targetID = tref_ID (rp_Previous reset))) (reset_failure CodeConflict "target_id")));
      _ ← tm_lift (because (check (negb (bool_decide (rp_Mode reset = ResetSnapshot))) (reset_failure CodeCapabilityUnavailable "mode")));
      replayed ← replayDurableReset targetID reset;
      match replayed with
      | Some outcome => mret outcome
      | None => reset_owned targetID reset
      end
  end.

(** ** Destroy *)
Definition destroy_error (code : ErrorCode) (field : string) : err := NewError code "linux_target.destroy" field.

(** The container to remove, or nothing if the generation is proven absent. *)
Definition resolve_by_inventory (ref : TargetRef) (record : option targetRecord) : TM (option string) :=
  _ ← tm_lift (because (check RuntimeInventory (destroy_error CodeCapabilityUnavailable "inventory")));
  states ← list_runtime "linux_target.destroy" "inventory";
  match targetRefCandidates states ref with
  | [] => mret None
  | [state] =>
      record ← tm_lift (because (from_option_err (destroy_error CodeIntegrityViolation "identity") record));
      _ ← tm_lift (because (validateRuntimeIdentity state (rec_plan record)));
      mret (Some (st_ID state))
  | _ => fail (destroy_error CodeIntegrityViolation "identity")
  end.
Definition resolveTargetDestroy (ref : TargetRef) (record : option targetRecord) : TM (option string) :=
  match record with
  | None => resolve_by_inventory ref None
  | Some r =>
      inspected ← ask (InspectContainer (rec_runtimeID r)) (fun h => runtime_Inspect h (rec_runtimeID r));
      match inspected with
      | Ok state => _ ← tm_lift (because (validateRuntimeIdentity state (rec_plan r))); mret (Some (st_ID state))
      | Err _ => resolve_by_inventory ref record
      end
  end.

Definition Destroy (ref : TargetRef) : TM unit :=
  alive ← peek RequireDeadline;
  _ ← tm_lift (because alive);
  _ ← tm_lift (because (TargetRef_Validate ref));
  d ← get_driver;
  let key := refKey ref in
  let record := match d_targets d !! key with Some record => Some record | None => d_cleanupOnly d !! key end in
  _ ← tm_lift (because (check (negb (hasUnstoppedRun d ref)) (destroy_error CodeFailedPrecondition "run")));
  resolved ← resolveTargetDestroy ref record;
  match resolved, record with
  | None, None => mret tt
  | _, _ =>
      _ ← match resolved with
          | None => mret tt
          | Some id =>
              _ ← require (RemoveContainer id) (fun h => runtime_Remove h id) (destroy_error CodeUnavailable "runtime");
              if RuntimeInventory then
                states ← require ListContainers runtime_List (destroy_error CodeUnavailable "inventory");
                tm_lift (because (check (bool_decide (length (targetRefCandidates states ref) = 0%nat))
                                    (destroy_error CodeFailedPrecondition "absence")))
              else tm_lift (because (check (bool_decide (is_Some record)) (destroy_error CodeCapabilityUnavailable "inventory")))
          end;
      let directory := match record with Some r => cp_TargetDirectory (rec_plan r) | None => targetDirectory ref end in
      removed ← removeTargetDirectoryIfPresent directory;
      _ ← tm_lift (because (match removed with Ok _ => Ok tt | Err _ => Err (destroy_error CodeUnavailable "cleanup") end));
      modify (fun d =>
        let d := d <| d_targets := delete key (d_targets d) |> <| d_cleanupOnly := delete key (d_cleanupOnly d) |>
          <| d_idempotency := match record with Some r => delete (tp_IdempotencyKey (rec_input r)) (d_idempotency d) | None => d_idempotency d end |> in
        remove_quarantines ref (removeRunsLocked ref d))
  end.
End Driver.
