(* ===== verification/TargetDriverSafety.v ===== *)
(** * What the Linux target driver guarantees

    Whatever Docker, the guests and the directory tree answer: containers are
    started, stopped and contained only after they have been identified, and
    removed only if they were identified or just created; a container that is
    identified is confined by the plan of its generation. *)
From S2P Require Import Prelude Errors Sha256 GoStrings GoText States Values Ids Idempotency Models Requests Inventory.
From S2P Require Import Capacity Docker ContainerPlan TargetDriver BundleScenario.

(** ** Calls

    [trace ok h h']: the calls after the history [h] up to [h'] satisfy [ok], each
    for the calls before it. *)
Inductive trace (ok : calls -> host_call -> Prop) (h : calls) : calls -> Prop :=
| trace_nil : trace ok h h
| trace_call h' c : trace ok h h' -> ok h' c -> trace ok h (h' ++ [c]).

Lemma trace_trans ok h1 h2 h3 : trace ok h1 h2 -> trace ok h2 h3 -> trace ok h1 h3.
Proof. intros T. induction 1; [done|]. by constructor. Qed.
Lemma trace_extends ok h h' : trace ok h h' -> h `prefix_of` h'.
Proof. induction 1; [done|]. by apply prefix_app_r. Qed.
Lemma trace_mono (ok ok' : calls -> host_call -> Prop) h h' : (forall h c, ok h c -> ok' h c) -> trace ok h h' -> trace ok' h h'.
Proof. intros M. induction 1; constructor; auto. Qed.
(** Every call of a trace is one of [ok]. *)
Lemma trace_calls ok h h' pre c post : trace ok h h' -> h' = pre ++ c :: post -> h `prefix_of` pre -> ok pre c.
Proof.
  intros T. revert post. induction T as [|h' d T IH O]; intros post E P.
  - apply prefix_length in P. rewrite E in P. rewrite length_app in P. cbn in P. lia.
  - destruct post as [|x post] using rev_ind.
    + apply app_inj_tail in E as [-> ->]. done.
    + rewrite app_comm_cons, app_assoc in E. apply app_inj_tail in E as [-> ->]. eapply IH; done.
Qed.

(** [wp ok m Q w]: from [w] the computation makes only calls of [ok], and [Q]
    holds of its result. *)
Definition wp (ok : calls -> host_call -> Prop) {A} (m : TM A) (Q : dresult A -> world -> Prop) (w : world) : Prop :=
  trace ok (w_calls w) (w_calls (m w).2) /\ Q (m w).1 (m w).2.

Section Rules.
Context (ok : calls -> host_call -> Prop).
Lemma wp_ret {A} (a : A) Q w : Q (Ok a) w -> wp ok (mret a) Q w.
Proof. split; [constructor|done]. Qed.
Lemma wp_lift {A} (r : dresult A) Q w : Q r w -> wp ok (tm_lift r) Q w.
Proof. split; [constructor|done]. Qed.
Lemma wp_fail {A} e (Q : dresult A -> world -> Prop) w : Q (Err (Because e)) w -> wp ok (fail e) Q w.
Proof. apply wp_lift. Qed.
Lemma wp_peek {A} (f : calls -> A) Q w : Q (Ok (f (w_calls w))) w -> wp ok (peek f) Q w.
Proof. split; [constructor|done]. Qed.
Lemma wp_driver Q w : Q (Ok (w_driver w)) w -> wp ok get_driver Q w.
Proof. split; [constructor|done]. Qed.
Lemma wp_modify f Q w : Q (Ok tt) (mkWorld (f (w_driver w)) (w_calls w)) -> wp ok (modify f) Q w.
Proof. split; [constructor|done]. Qed.
Lemma wp_ask {A} call (answer : calls -> result A) Q w :
  ok (w_calls w) call -> Q (Ok (answer (w_calls w))) (mkWorld (w_driver w) (w_calls w ++ [call])) -> wp ok (ask call answer) Q w.
Proof. split; [by repeat constructor|done]. Qed.
Lemma wp_bind {A B} (m : TM A) (f : A -> TM B) Q w :
  wp ok m (fun r w' => match r with Ok a => wp ok (f a) Q w' | Err e => Q (Err e) w' end) w -> wp ok (m ≫= f) Q w.
Proof.
  unfold wp, mbind, TM_bind. destruct (m w) as [[a|e] w']; cbn; intros [T H]; [|done]. destruct H as [T' H]. split; [by eapply trace_trans|done].
Qed.
Lemma wp_attempt {A} (m : TM A) Q w : wp ok m (fun r w' => Q (Ok r) w') w -> wp ok (attempt m) Q w.
Proof. unfold wp, attempt. destruct (m w) as [r w']. done. Qed.
Lemma wp_mono {A} (m : TM A) (Q Q' : dresult A -> world -> Prop) w :
  wp ok m Q w -> (forall r w', trace ok (w_calls w) (w_calls w') -> Q r w' -> Q' r w') -> wp ok m Q' w.
Proof. intros [T H] I. split; auto. Qed.
Lemma wp_require {A} call (answer : calls -> result A) wrapped Q w :
  ok (w_calls w) call ->
  (forall a, answer (w_calls w) = Ok a -> Q (Ok a) (mkWorld (w_driver w) (w_calls w ++ [call]))) ->
  Q (Err (Because wrapped)) (mkWorld (w_driver w) (w_calls w ++ [call])) -> wp ok (require call answer wrapped) Q w.
Proof. intros O S F. unfold require. apply wp_bind, wp_ask; [done|]. apply wp_lift. destruct (answer _) eqn:E; auto. Qed.
Lemma wp_check (r : result unit) Q w : (r = Ok tt -> Q (Ok tt) w) -> (forall e, Q (Err (Because e)) w) -> wp ok (tm_lift (because r)) Q w.
Proof. intros S F. apply wp_lift. destruct r as [[]|]; cbn; auto. Qed.
Lemma wp_value {A} (r : result A) Q w : (forall a, r = Ok a -> Q (Ok a) w) -> (forall e, Q (Err (Because e)) w) -> wp ok (tm_lift (because r)) Q w.
Proof. intros S F. apply wp_lift. destruct r; cbn; auto. Qed.
Lemma wp_fold {A B} (I : list A -> B -> world -> Prop) (f : B -> A -> TM B) l b Q w :
  I [] b w ->
  (forall done b x w, I done b w -> x ∈ l -> wp ok (f b x) (fun r w' => match r with Ok b' => I (done ++ [x]) b' w' | Err e => Q (Err e) w' end) w) ->
  (forall b' w', I l b' w' -> Q (Ok b') w') -> wp ok (tm_fold f l b) Q w.
Proof.
  intros I0 S F. assert (G : forall pre rest b w, I pre b w -> pre ++ rest = l -> wp ok (tm_fold f rest b) Q w).
  { intros pre rest. revert pre. induction rest as [|x rest IH]; intros pre c v Ic E; cbn.
    - apply wp_ret. rewrite app_nil_r in E. subst. by apply F.
    - apply wp_bind. eapply wp_mono; [apply (S pre); [done|set_solver]|]. cbn. intros [c'|e] w' _ H; [|done].
      eapply IH; [done|]. by rewrite <-app_assoc. }
  by apply (G [] l).
Qed.
End Rules.

(** The rules are applied along the computation; what was answered and what was
    checked becomes a hypothesis. *)
Ltac wp_step :=
  lazymatch goal with
  | |- wp _ (_ ≫= _) _ _ => apply wp_bind
  | |- wp _ (mret _) _ _ => apply wp_ret
  | |- wp _ (fail _) _ _ => apply wp_fail
  | |- wp _ (tm_lift (because ?r)) _ _ => first
      [apply wp_check; [let E := fresh "E" in intros E|intros ?e]
      |apply wp_value; [let a := fresh "a" in let E := fresh "E" in intros a E|intros ?e]]
  | |- wp _ (tm_lift _) _ _ => apply wp_lift
  | |- wp _ (peek _) _ _ => apply wp_peek
  | |- wp _ get_driver _ _ => apply wp_driver
  | |- wp _ (modify _) _ _ => apply wp_modify
  | |- wp _ (attempt _) _ _ => apply wp_attempt
  | |- wp _ (require _ _ _) _ _ => apply wp_require; [|let a := fresh "a" in let E := fresh "A" in intros a E|]
  | |- wp _ (ask _ _) _ _ => apply wp_ask
  end; cbn [w_calls w_driver].

(** Cases of the value the computation examines. *)
Tactic Notation "wp_case" simple_intropattern(p) :=
  lazymatch goal with |- wp _ (match ?r with _ => _ end) _ _ => destruct r as p end.

Ltac prefixes := cbn [w_calls w_driver]; solve [repeat first [done | apply prefix_app_r]].

(** A call that only looks. *)
Definition passive (c : host_call) : bool :=
  match c with
  | InspectContainer _ | ListContainers | ProbeGuest _ | LoadResetRecords _ | LoadQuarantineRecords _ | LoadRunClaim _
  | StatDirectory _ => true
  | _ => false
  end.

Section Driver.
Context `{SS : SliceSort} `{MR : MapRange} `{HP : HostPaths} `{PE : PlanEncoding} `{TH : TargetHost}.
Context (build : BuildConfig).

(** ** What has been seen of a container *)
Definition observed (h : calls) (s : RuntimeState) : Prop :=
  (exists h0 id, h0 ++ [InspectContainer id] `prefix_of` h /\ runtime_Inspect h0 id = Ok s)
  \/ (exists h0 states, h0 ++ [ListContainers] `prefix_of` h /\ runtime_List h0 = Ok states /\ s ∈ states).
(** The container [id] was seen to be the container of [plan]. *)
Definition is_container_of (plan : ContainerPlan) (s : RuntimeState) (id : string) : Prop :=
  st_ID s = id /\ validateRuntimeIdentity s plan = Ok tt.
Definition identified (plan : ContainerPlan) (h : calls) (id : string) : Prop := exists s, observed h s /\ is_container_of plan s id.
Definition running (s : RuntimeState) : Prop :=
  RequireExactRunningState (st_Running s) (st_Paused s) (st_Restarting s) (st_Dead s) (st_Status s) = Ok tt.
Definition stopped (s : RuntimeState) : Prop :=
  RequireExactStoppedState (st_Running s) (st_Paused s) (st_Restarting s) (st_Dead s) (st_Status s)
    [StoppedStatusCreated; StoppedStatusExited] = Ok tt.
(** It was seen running, and afterwards its guest answered. *)
Definition serving (plan : ContainerPlan) (h : calls) (id : string) : Prop :=
  exists s h0, observed h0 s /\ is_container_of plan s id /\ running s /\ h0 ++ [ProbeGuest id] `prefix_of` h /\ guest_readiness h0 id = Ok tt.
(** The last call showed it to be stopped. *)
Definition at_rest (plan : ContainerPlan) (h : calls) (s : RuntimeState) (id : string) : Prop :=
  exists h0, h = h0 ++ [InspectContainer id] /\ runtime_Inspect h0 id = Ok s /\ is_container_of plan s id /\ stopped s.
Definition created (plan : ContainerPlan) (h : calls) (id : string) : Prop :=
  exists h0, h0 ++ [CreateContainer plan] `prefix_of` h /\ runtime_Create h0 plan = Ok id.

Lemma observed_mono h h' s : h `prefix_of` h' -> observed h s -> observed h' s.
Proof.
  intros P [(h0 & id & P0 & E)|(h0 & l & P0 & E)]; [left|right]; exists h0; eexists; (split; [by transitivity h|done]).
Qed.
Lemma identified_mono plan h h' id : h `prefix_of` h' -> identified plan h id -> identified plan h' id.
Proof. intros P (s & O & I). exists s. split; [by eapply observed_mono|done]. Qed.
Lemma serving_mono plan h h' id : h `prefix_of` h' -> serving plan h id -> serving plan h' id.
Proof. intros P (s & h0 & O & I & R & P0 & G). exists s, h0. do 3 (split; [done|]). split; [by transitivity h|done]. Qed.
Lemma created_mono plan h h' id : h `prefix_of` h' -> created plan h id -> created plan h' id.
Proof. intros P (h0 & P0 & E). exists h0. split; [by transitivity h|done]. Qed.
Lemma observed_inspect h id s : runtime_Inspect h id = Ok s -> observed (h ++ [InspectContainer id]) s.
Proof. intros E. left. by exists h, id. Qed.
Lemma observed_list h l s : runtime_List h = Ok l -> s ∈ l -> observed (h ++ [ListContainers]) s.
Proof. intros E I. right. by exists h, l. Qed.
Lemma identified_at_rest plan h s id : at_rest plan h s id -> identified plan h id.
Proof. intros (h0 & -> & E & I & _). exists s. split; [by apply observed_inspect|done]. Qed.

Lemma live_running s op : requireLiveRuntimeState s op = Ok tt -> running s.
Proof. unfold requireLiveRuntimeState, running. rewrite check_ok, is_ok_true. by intros [[] ->]. Qed.
Ltac live := match goal with H : requireLiveRuntimeState _ _ = Ok tt |- _ => apply live_running in H end.
Lemma stopped_of s op l : requireStoppedRuntimeState s op l = Ok tt -> l ⊆ [StoppedStatusCreated; StoppedStatusExited] -> stopped s.
Proof.
  unfold requireStoppedRuntimeState, stopped, RequireExactStoppedState. rewrite check_ok, is_ok_true. intros [[] H] S.
  destruct (_ || _); [done|]. cbn in *. rewrite check_ok, bool_decide_eq_true in *. set_solver.
Qed.
Lemma exact_id s id op : requireExactRuntimeID s id op = Ok tt -> st_ID s = id.
Proof. unfold requireExactRuntimeID. by rewrite check_ok, bool_decide_eq_true. Qed.

(** ** The operations on one container *)
Section Operations.
Context (ok : calls -> host_call -> Prop) (Look : forall h c, passive c = true -> ok h c).

Lemma wp_inspect_owned target op Q w :
  let id := rec_runtimeID target in
  let w' := mkWorld (w_driver w) (w_calls w ++ [InspectContainer id]) in
  (forall s, runtime_Inspect (w_calls w) id = Ok s -> is_container_of (rec_plan target) s id -> Q (Ok s) w') ->
  (forall e, Q (Err e) w') -> wp ok (inspectOwnedRuntime target op) Q w.
Proof.
  intros id w' S F. unfold inspectOwnedRuntime. repeat wp_step; try (by apply Look) || apply F.
  apply S; [done|]. split; [by eapply exact_id|done].
Qed.

Lemma wp_stopped target mode Q w :
  let id := rec_runtimeID target in
  let plan := rec_plan target in
  (forall h, w_calls w `prefix_of` h -> identified plan h id -> ok h (StopContainer id mode)) ->
  (forall s e h, w_calls w `prefix_of` h -> (e = None -> at_rest plan h s id) ->
     (st_ID s = "" \/ st_Running s = true \/ at_rest plan h s id) -> Q (Ok (s, e)) (mkWorld (w_driver w) h)) ->
  wp ok (requireOwnedRuntimeStopped target mode) Q w.
Proof.
  intros id plan S F. unfold requireOwnedRuntimeStopped. repeat wp_step. apply wp_inspect_owned; [intros s E I|intros e]; cbn [w_driver w_calls].
  2:{ wp_step. apply F; [prefixes|done|by left]. }
  assert (Id : identified plan (w_calls w ++ [InspectContainer id]) id) by (exists s; split; [by apply observed_inspect|done]).
  destruct (st_Running s); cbn [negb].
  - repeat wp_step; [apply S; [prefixes|done]|].
    assert (P : w_calls w `prefix_of` ((w_calls w ++ [InspectContainer id]) ++ [StopContainer id mode]) ++ [InspectContainer id])
      by prefixes.
    apply wp_inspect_owned; [intros s' E' I'|intros e]; cbn [w_driver w_calls]; wp_step.
    + destruct (st_Running s') eqn:R; [apply F; [done|by destruct (runtime_Stop _ _ _)|by right; left]|].
      assert (Rest : is_ok (requireStoppedRuntimeState s' "linux_target.stop_runtime" [StoppedStatusExited]) = true ->
        at_rest plan (((w_calls w ++ [InspectContainer id]) ++ [StopContainer id mode]) ++ [InspectContainer id]) s' id).
      { rewrite is_ok_true. intros [[] H]. eexists. split; [done|]. split; [done|]. split; [done|]. eapply stopped_of; [done|set_solver]. }
      destruct (requireStoppedRuntimeState s' _ _) as [[]|e]; [|apply F; [done|by destruct (runtime_Stop _ _ _)|by left]].
      apply F; [done|intros _; by apply Rest|by right; right; apply Rest].
    + apply F; [done|by destruct (runtime_Stop _ _ _)|by left].
  - wp_step. destruct (requireStoppedRuntimeState s _ _) as [[]|e] eqn:R; [|apply F; [prefixes|done|by left]].
    assert (Rest : at_rest plan (w_calls w ++ [InspectContainer id]) s id)
      by (eexists; do 3 (split; [done|]); eapply stopped_of; [done|set_solver]).
    apply F; [prefixes|done|by right; right].
Qed.

Lemma wp_createRuntime plan Q w :
  ok (w_calls w) (CreateContainer plan) ->
  (forall h id, w_calls w `prefix_of` h -> identified plan h id -> created plan h id -> ok h (StartContainer id)) ->
  (forall id r h, w_calls w `prefix_of` h -> (id = "" \/ created plan h id) ->
     (forall s, r = Ok s -> created plan h id /\ is_container_of plan s id /\ running s /\ serving plan h id) -> Q (Ok (id, r)) (mkWorld (w_driver w) h)) ->
  wp ok (createRuntime plan) Q w.
Proof.
  intros Cr St F. unfold createRuntime. repeat wp_step; [done|]. destruct (runtime_Create _ _) as [id|e] eqn:E; cbn [w_calls w_driver].
  2:{ wp_step. apply F; [prefixes|by left|done]. }
  assert (C : forall h, w_calls w ++ [CreateContainer plan] `prefix_of` h -> created plan h id) by (intros h P; by exists (w_calls w)).
  assert (P : forall h, w_calls w ++ [CreateContainer plan] `prefix_of` h -> w_calls w `prefix_of` h)
    by (intros h H; transitivity (w_calls w ++ [CreateContainer plan]); [prefixes|done]).
  repeat wp_step. eapply wp_mono with (Q := fun r w' => w_driver w' = w_driver w /\
    forall s, r = Ok s -> is_container_of plan s id /\ running s /\ serving plan (w_calls w') id).
  2:{ intros r [d h] T [D H]. cbn in *. subst d. apply trace_extends in T. wp_step. apply F; [by apply P|right; by apply C|]. intros s E'. split; [by apply C|by apply H]. }
  unfold start_created, requireGuestReadiness. repeat wp_step; try (by apply Look); try (by split); cbn [w_calls w_driver].
  - apply St; [prefixes| |apply C; prefixes].
    eexists. split; [by apply observed_inspect|]. split; [by eapply exact_id|done].
  - split; [done|]. intros s [= <-]. assert (I : is_container_of plan a1 id) by (split; [by eapply exact_id|done]).
    live. do 2 (split; [done|]). eexists _, _. split; [by apply observed_inspect|]. do 2 (split; [done|]). split; [done|].
    by destruct a2.
Qed.

Lemma wp_resume plan state op Q w : observed (w_calls w) state ->
  (forall h, w_calls w `prefix_of` h -> identified plan h (st_ID state) -> ok h (StartContainer (st_ID state))) ->
  (forall s h, w_calls w `prefix_of` h -> is_container_of plan s (st_ID state) -> running s -> serving plan h (st_ID state) ->
     Q (Ok s) (mkWorld (w_driver w) h)) ->
  (forall e w', w_driver w' = w_driver w -> w_calls w `prefix_of` w_calls w' -> Q (Err e) w') ->
  wp ok (resumeExactRuntime plan state op) Q w.
Proof.
  intros O St S F. unfold resumeExactRuntime, requireGuestReadiness. wp_step. wp_step; [|by apply F].
  assert (Pr : forall s h, is_container_of plan s (st_ID state) -> running s -> observed h s -> guest_readiness h (st_ID s) = Ok tt ->
     serving plan (h ++ [ProbeGuest (st_ID s)]) (st_ID state)).
  { intros s h I R Oh G. destruct I as [I1 I2]. exists s, h. rewrite <-I1. by repeat split. }
  wp_step. destruct (st_Running state) eqn:R.
  - repeat wp_step; try (by apply Look); try (apply F; cbn; [done|prefixes]).
    live. apply S; [prefixes|by split|done|]. apply Pr; [by split|done|done|by destruct a].
  - repeat wp_step; try (by apply Look); try (apply F; cbn; [done|prefixes]).
    + apply St; [done|]. exists state. by split.
    + assert (I : is_container_of plan a0 (st_ID state)) by (split; [by eapply exact_id|done]).
      live. apply S; [prefixes|done|done|].
      apply Pr; [done|done|by apply observed_inspect|by destruct a1].
Qed.

Lemma inventory_unique l s t : validateRuntimeInventory l = Ok tt -> s ∈ l -> t ∈ l -> st_ID s = st_ID t -> s = t.
Proof.
  unfold validateRuntimeInventory. intros V. inv_res V. to_prop. intros S T E.
  apply list_elem_of_lookup in S as [i I], T as [j J]. assert (i = j) as <-; [|congruence].
  eapply NoDup_lookup; [exact V|by rewrite list_lookup_fmap, I|by rewrite list_lookup_fmap, J, E].
Qed.
Lemma wp_list op field Q w :
  let w' := mkWorld (w_driver w) (w_calls w ++ [ListContainers]) in
  (forall l, runtime_List (w_calls w) = Ok l -> validateRuntimeInventory l = Ok tt -> Q (Ok l) w') ->
  (forall e, Q (Err e) w') -> wp ok (list_runtime op field) Q w.
Proof.
  intros w' S F. unfold list_runtime. repeat wp_step; try (by apply Look) || apply F.
  rewrite check_ok, is_ok_true in E. destruct E as [[] E]. by apply S.
Qed.
End Operations.
End Driver.

(** * Reconciliation *)
Abbreviation verdict := (TargetReconciliation * disposition)%type.

Section Reconcile.
Context `{SS : SliceSort} `{MR : MapRange} `{HP : HostPaths} `{PE : PlanEncoding} `{TH : TargetHost}.
Context (build : BuildConfig).

(** A durable intent without receipt that was read, and is the recreation of the
    generation [input] is for from the one before it. *)
Record interrupted (input : TargetPlan) (intent : persistedResetIntent) (h : calls) : Prop := {
  int_loaded : exists h0 directory, h0 ++ [LoadResetRecords directory] `prefix_of` h /\ read_reset h0 directory = Ok (Some intent, None);
  int_lease : cp_LeaseID (pri_PreviousPlan intent) = tp_LeaseID input /\ cp_LeaseID (pri_NextPlan intent) = tp_LeaseID input;
  int_target : cp_TargetID (pri_PreviousPlan intent) = Domain.tgs_TargetID (Domain.tg_spec (tp_Generation input))
    /\ cp_TargetID (pri_NextPlan intent) = Domain.tgs_TargetID (Domain.tg_spec (tp_Generation input));
  int_generation : u64 (cp_Generation (pri_PreviousPlan intent) + 1) = Domain.tgs_Generation (Domain.tg_spec (tp_Generation input))
    /\ cp_Generation (pri_NextPlan intent) = Domain.tgs_Generation (Domain.tg_spec (tp_Generation input));
  int_plans : ContainerPlan_Validate (pri_PreviousPlan intent) (bc_TargetRoot build) = Ok tt
    /\ ContainerPlan_Validate (pri_NextPlan intent) (bc_TargetRoot build) = Ok tt }.

Lemma interrupted_mono input intent h h' : h `prefix_of` h' -> interrupted input intent h -> interrupted input intent h'.
Proof. intros P [(h0 & d & P0 & R) L T G V]. split; [|done..]. exists h0, d. split; [by transitivity h|done]. Qed.

Lemma reset_plan_next p reset : persistedResetPlan_plan p = Ok reset -> rp_NextGeneration reset = u64 (tref_Generation (rp_Previous reset) + 1).
Proof.
  unfold persistedResetPlan_plan. intros H. rewrite res_bind_ok in H. destruct H as (plan & _ & H). inv_res H.
  unfold ResetPlan_Validate in H0. inv_res H0. destruct (TargetGeneration_Next _) as [next|] eqn:N; [|done]. to_prop. subst.
  unfold TargetGeneration_Next in N. by inv_res N.
Qed.
Lemma plan_scope_ok plan ref lease : plan_scope plan ref lease = true ->
  cp_TargetID plan = tref_ID ref /\ cp_Generation plan = tref_Generation ref /\ cp_LeaseID plan = lease.
Proof. unfold plan_scope, plan_ref. intros H. to_prop. destruct H as [<- ?]. done. Qed.

(** A validated intent retires the generation before the expected one. *)
Lemma intent_interrupted input intent h0 directory h :
  persistedResetIntent_validate intent (bc_TargetRoot build) (Some input) = Ok tt ->
  h0 ++ [LoadResetRecords directory] `prefix_of` h -> read_reset h0 directory = Ok (Some intent, None) -> interrupted input intent h.
Proof.
  intros V P R. unfold persistedResetIntent_validate in V.
  repeat match type of V with _ ≫= _ = _ => rewrite res_bind_ok in V; let x := fresh "x" in let X := fresh "X" in destruct V as (x & X & V) end.
  rewrite check_ok in X4. apply andb_true_iff in X4 as [Sp Sn]. apply plan_scope_ok in Sp as (P1 & P2 & P3), Sn as (N1 & N2 & N3). cbn in N1, N2.
  unfold validateResetExpectedPlan in V.
  repeat match type of V with _ ≫= _ = _ => rewrite res_bind_ok in V; let x := fresh "x" in let X := fresh "X" in destruct V as (x & X & V) end.
  rewrite X0 in X7. apply Ok_inj in X7 as <-. rewrite check_ok in X8. to_prop. destruct X8 as ((((L & T) & G) & _) & _).
  apply reset_plan_next in X0. destruct x2, x3. clear -P R L T G P1 P2 P3 N1 N2 N3 X0 X2 X3.
  constructor; [exists h0, directory; exact (conj P R)|..|exact (conj X2 X3)].
  - by rewrite P3, N3, L.
  - by rewrite P1, N1, T.
  - by rewrite P2, N2, G, X0.
Qed.

(** What reconciling the expected generations [active] may do: it completes
    interrupted resets and contains what must not run. *)
Definition reconcile_call (active : list TargetPlan) (h : calls) (c : host_call) : Prop :=
  match c with
  | CreateContainer plan => exists input intent, input ∈ active /\ interrupted input intent h /\ plan = pri_NextPlan intent
  | StartContainer id => exists input intent, input ∈ active /\ interrupted input intent h /\ identified (pri_NextPlan intent) h id
  | StopContainer id mode => mode = StopForce /\ exists input, input ∈ active /\
      ((exists plan, BuildContainerPlan input build = Ok plan /\ identified plan h id)
       \/ (exists intent next, interrupted input intent h /\ identified (pri_PreviousPlan intent) h id /\ serving (pri_NextPlan intent) h next))
  | RemoveContainer id => exists input intent next s, input ∈ active /\ interrupted input intent h /\ id = pri_PreviousRuntimeID intent /\
      at_rest (pri_PreviousPlan intent) h s id /\ serving (pri_NextPlan intent) h next
  | ContainContainer id => exists input plan, input ∈ active /\ BuildContainerPlan input build = Ok plan /\ identified plan h id
  | RemoveDirectory directory => exists input intent next, input ∈ active /\ interrupted input intent h /\
      directory = cp_TargetDirectory (pri_PreviousPlan intent) /\ serving (pri_NextPlan intent) h next
  | PersistResetReceipt directory receipt => exists input intent next, input ∈ active /\ interrupted input intent h /\
      directory = cp_TargetDirectory (pri_NextPlan intent) /\ persistedResetReceipt_validate receipt intent = Ok tt
      /\ serving (pri_NextPlan intent) h next /\ ts_RuntimeID (res_Status (prr_Result receipt)) = next
  | PersistQuarantineReceipt directory receipt => exists input plan s, input ∈ active /\ BuildContainerPlan input build = Ok plan /\
      directory = cp_TargetDirectory plan /\ at_rest plan h s (qev_RuntimeID (pqr_Evidence receipt))
  | PersistResetIntent _ _ | PrepareDirectories _ => False
  | _ => True
  end.

Lemma candidate_in states item index : index ∈ targetCandidates states item ->
  nth index states no_runtime ∈ states
  /\ claims_ref (nth index states no_runtime) (cp_Name (exp_plan item)) (exp_ref item) = true /\ (index < length states)%nat.
Proof.
  unfold targetCandidates. intros ([i s] & -> & I)%list_elem_of_fmap. apply list_elem_of_filter in I as [C I]. cbn in *.
  apply list_elem_of_lookup in I as [j J]. rewrite list_lookup_imap in J. destruct (states !! j) eqn:E; [|done]. cbn in J. simplify_eq.
  rewrite (nth_lookup_Some _ _ _ _ E). split; [by eapply list_elem_of_lookup_2|]. split; [done|]. by apply lookup_lt_Some in E.
Qed.

Section Calls.
Context (active : list TargetPlan).
Lemma look h c : passive c = true -> reconcile_call active h c.
Proof. by destruct c. Qed.

Definition seen (h : calls) (states : list RuntimeState) : Prop := forall s, s ∈ states -> observed h s.
Lemma seen_mono h h' states : h `prefix_of` h' -> seen h states -> seen h' states.
Proof. intros P S s I. eapply observed_mono; [done|auto]. Qed.

Lemma wp_successor item intent states Q w : exp_input item ∈ active -> seen (w_calls w) states ->
  interrupted (exp_input item) intent (w_calls w) ->
  (forall s h, w_calls w `prefix_of` h -> serving (pri_NextPlan intent) h (st_ID s) -> Q (Ok s) (mkWorld (w_driver w) h)) ->
  (forall e w', w_driver w' = w_driver w -> w_calls w `prefix_of` w_calls w' -> Q (Err e) w') ->
  wp (reconcile_call active) (reset_successor item intent states) Q w.
Proof.
  intros A Se I S F. unfold reset_successor. destruct (targetCandidates states item) as [|index [|]] eqn:C; [| |wp_step; by apply F].
  - wp_step. apply wp_createRuntime; [exact look|by exists (exp_input item), intent| |].
    + intros h id P Id _. exists (exp_input item), intent. split; [done|]. split; [by eapply interrupted_mono|done].
    + intros id r h P _ H. wp_step. wp_step. destruct r as [s|e]; cbn; [|by apply F]. destruct (H s eq_refl) as (_ & [E V] & R & Sv).
      wp_step. wp_step; [|by apply F]. wp_step. apply S; [done|]. by rewrite E.
  - destruct (candidate_in states item index) as (N & _ & _); [rewrite C; by left|].
    wp_step. wp_step; [|by apply F]. apply wp_resume; [exact look|by apply Se| | |done].
    + intros h P Id. exists (exp_input item), intent. split; [done|]. split; [by eapply interrupted_mono|done].
    + intros s h P [ID V] R Sv. apply S; [done|]. by rewrite ID.
Qed.

Lemma wp_retire item intent states next Q w : exp_input item ∈ active -> seen (w_calls w) states ->
  interrupted (exp_input item) intent (w_calls w) -> serving (pri_NextPlan intent) (w_calls w) next ->
  (forall r w', w_driver w' = w_driver w -> w_calls w `prefix_of` w_calls w' -> Q r w') ->
  wp (reconcile_call active) (retire_previous item intent states) Q w.
Proof.
  intros A Se I Sv F. unfold retire_previous. destruct (targetRefCandidates states _) as [|s [|]] eqn:C; [wp_step; by apply F| |wp_step; by apply F].
  repeat wp_step; try by apply F. apply check_ok, bool_decide_eq_true in E.
  apply wp_stopped; [exact look|..]; cbn [rec_runtimeID rec_plan owned].
  - intros h P Id. split; [done|]. exists (exp_input item). split; [done|]. right. exists intent, next.
    split; [by eapply interrupted_mono|]. split; [done|by eapply serving_mono].
  - intros s' e h P Rest _. repeat wp_step; try by apply F. destruct e as [e|]; [by cbn in *|]. specialize (Rest eq_refl).
    + exists (exp_input item), intent, next, s'. split; [done|]. split; [by eapply interrupted_mono|]. split; [done|].
      split; [done|by eapply serving_mono].
    + apply wp_list; [exact look| |].
      * intros l _ _. wp_step; apply F; try done; cbn; (etransitivity; [exact P|prefixes]).
      * intros e'. apply F; [done|]. cbn. etransitivity; [exact P|prefixes].
    + apply F; [done|]. cbn. etransitivity; [exact P|prefixes].
Qed.
Lemma wp_resumePersistedReset item intent states Q w : exp_input item ∈ active -> seen (w_calls w) states ->
  interrupted (exp_input item) intent (w_calls w) ->
  (forall r w', w_driver w' = w_driver w -> w_calls w `prefix_of` w_calls w' -> Q r w') ->
  wp (reconcile_call active) (resumePersistedReset item intent states) Q w.
Proof.
  intros A Se I F. unfold resumePersistedReset. wp_step. apply wp_successor; [done..| |intros; by apply F].
  intros next h P Sv. wp_step. apply wp_retire with (next := st_ID next); cbn [w_calls w_driver];
    [done|by eapply seen_mono|by eapply interrupted_mono|done|].
  intros r [d h'] D P'. cbn in D, P'. subst d. assert (w_calls w `prefix_of` h') as P2 by (by etransitivity).
  destruct r as [[]|e]; [|by apply F].
  unfold removeTargetDirectoryIfPresent, targetDirectoryPresent, removeTargetDirectory. do 3 wp_step.
  apply (wp_mono _ _ (fun r w' => w_driver w' = w_driver w /\ h' `prefix_of` w_calls w')).
  { repeat wp_step; [by apply look|]. destruct (directory_present _ _) as [[]|]; repeat wp_step; try (split; [done|prefixes]).
    exists (exp_input item), intent, (st_ID next). split; [done|]. split; [|split; [done|]].
    - eapply interrupted_mono; [|done]. etransitivity; [exact P2|prefixes].
    - eapply serving_mono; [|done]. etransitivity; [exact P'|prefixes]. }
  intros removed [d h2] _ [D P3]. cbn in D, P3. subst d. assert (w_calls w `prefix_of` h2) as P4 by (by etransitivity).
  destruct removed as [removed|e]; [|by apply F]. wp_step. wp_step; [|by apply F].
  destruct (newResetReceipt _ _ _) as [receipt|] eqn:N; [|done]. apply Ok_inj in E as <-.
  wp_step; [|intros; apply F; [done|]..]; cbn [w_calls w_driver] in *; try (etransitivity; [exact P4|prefixes]).
  unfold newResetReceipt in N. rewrite res_bind_ok in N. destruct N as (encoded & E & N). rewrite res_bind_ok in N. destruct N as ([] & V & N).
  apply Ok_inj in N. exists (exp_input item), intent, (st_ID next). split; [done|]. split; [by eapply interrupted_mono|]. split; [done|].
  split; [by rewrite <-N|]. split; [eapply serving_mono; [|done]; by etransitivity|by rewrite <-N].
Qed.
(** An inventory without ambiguity that Docker reported. *)
Definition inventory (h : calls) (states : list RuntimeState) : Prop :=
  (exists h0, h0 ++ [ListContainers] `prefix_of` h /\ runtime_List h0 = Ok states) /\ validateRuntimeInventory states = Ok tt.
Lemma inventory_mono h h' states : h `prefix_of` h' -> inventory h states -> inventory h' states.
Proof. intros P [(h0 & P0 & E) V]. split; [|done]. exists h0. split; [by transitivity h|done]. Qed.
Lemma inventory_seen h states : inventory h states -> seen h states.
Proof. intros [(h0 & P & E) _] s I. right. by exists h0, states. Qed.

Lemma wp_inventory op field Q w :
  (forall states, inventory (w_calls w ++ [ListContainers]) states -> Q (Ok states) (mkWorld (w_driver w) (w_calls w ++ [ListContainers]))) ->
  (forall e w', w_driver w' = w_driver w -> Q (Err e) w') -> wp (reconcile_call active) (list_runtime op field) Q w.
Proof.
  intros S F. apply wp_list; [exact look| |intros; by apply F]. intros l E V. apply S. split; [|done]. by exists (w_calls w).
Qed.

Lemma wp_resume_reset pass item Q w : (exp_cleanupOnly item = false -> exp_input item ∈ active) -> inventory (w_calls w) (rst_states pass) ->
  (forall pass' h, w_calls w `prefix_of` h -> inventory h (rst_states pass') -> Q (Ok pass') (mkWorld (w_driver w) h)) ->
  (forall e w', w_driver w' = w_driver w -> Q (Err e) w') ->
  wp (reconcile_call active) (resume_reset build pass item) Q w.
Proof.
  intros A In S F. unfold resume_reset. destruct (exp_cleanupOnly item); [wp_step; destruct w; by apply S|]. specialize (A eq_refl).
  set (h := w_calls w ++ [LoadResetRecords (cp_TargetDirectory (exp_plan item))]).
  assert (P : w_calls w `prefix_of` h) by prefixes. assert (In' : inventory h (rst_states pass)) by (by eapply inventory_mono).
  unfold loadResetRecords. do 3 wp_step; [done|]. wp_step. destruct (read_reset _ _) as [records|] eqn:R; cbn -[h]; [|wp_step; by apply S].
  destruct (checked_records _ _ records) as [[[intent [receipt|]]|]|] eqn:C; [wp_step; by apply S| |wp_step; by apply S..].
  assert (records = (Some intent, None) /\ persistedResetIntent_validate intent (bc_TargetRoot build) (Some (exp_input item)) = Ok tt) as [-> V].
  { destruct records as [[i|] [r|]]; cbn in C; [| |done..]; repeat (rewrite res_bind_ok in C; destruct C as ([] & ? & C)); by simplify_eq. }
  wp_step. wp_step. apply wp_resumePersistedReset; [done|by apply inventory_seen|by apply (intent_interrupted _ _ (w_calls w) (cp_TargetDirectory (exp_plan item)))|].
  intros r [d h'] D P'. cbn in D. subst d. assert (w_calls w `prefix_of` h') as P2 by (by transitivity h).
  destruct r as [[]|e]; [|wp_step; apply S; [done|by eapply inventory_mono]].
  wp_step. apply wp_inventory; [|intros e w' D; by apply F].
  intros states I. wp_step. apply S; [|done]. cbn. etransitivity; [exact P2|prefixes].
Qed.
(** ** What is concluded of a generation *)

(** One container claims the generation, and it is the container of its plan. *)
Definition held (states : list RuntimeState) (item : expectedTargetContainer) (id : string) : Prop :=
  exists index, targetCandidates states item = [index] /\ is_container_of (exp_plan item) (nth index states no_runtime) id.
Definition seen_stopped (plan : ContainerPlan) (h : calls) (id : string) : Prop :=
  exists s, observed h s /\ is_container_of plan s id /\ stopped s.

(** A record that is adopted is of the plan and of the container that was
    identified; its state is what was seen. *)
Record genuine (h : calls) (item : expectedTargetContainer) (record : targetRecord) : Prop := {
  gen_plan : rec_input record = exp_input item /\ rec_plan record = exp_plan item /\ exp_cleanupOnly item = false;
  gen_status : ts_TargetID (rec_status record) = cp_TargetID (exp_plan item) /\ ts_Generation (rec_status record) = cp_Generation (exp_plan item)
    /\ ts_RuntimeID (rec_status record) = rec_runtimeID record;
  gen_state :
    (ts_State (rec_status record) = TargetGenerationReady /\ ts_Ready (rec_status record) = true /\ rec_quarantine record = None
      /\ serving (exp_plan item) h (rec_runtimeID record))
    \/ (ts_State (rec_status record) = TargetGenerationResettable /\ ts_Ready (rec_status record) = false /\ rec_quarantine record = None
      /\ seen_stopped (exp_plan item) h (rec_runtimeID record))
    \/ (ts_State (rec_status record) = TargetGenerationQuarantined /\ ts_Ready (rec_status record) = false /\ is_Some (rec_quarantine record)
      /\ seen_stopped (exp_plan item) h (rec_runtimeID record));
  gen_reset : forall outcome, rec_reset record = Some outcome -> ts_RuntimeID (res_Status (out_result outcome)) = rec_runtimeID record }.

Inductive settled (h : calls) (states : list RuntimeState) (item : expectedTargetContainer) : verdict -> Prop :=
| settled_unowned o : tobs_Ref o = exp_ref item -> tobs_Classification o <> PhysicalResourceAdopted ->
    (tobs_Classification o = PhysicalResourceMissing -> targetCandidates states item = []) ->
    (tobs_PlanMatched o = true -> held states item (tobs_RuntimeID o)) -> settled h states item (o, Unowned)
| settled_absent o record : tobs_Ref o = exp_ref item -> tobs_Classification o = PhysicalResourceMissing -> tobs_PlanMatched o = false ->
    targetCandidates states item = [] -> rec_input record = exp_input item -> rec_plan record = exp_plan item ->
    settled h states item (o, CleanupOnly record)
| settled_cleanup o record : tobs_Ref o = exp_ref item -> tobs_Classification o = PhysicalResourceUncertain ->
    held states item (tobs_RuntimeID o) -> rec_input record = exp_input item -> rec_plan record = exp_plan item ->
    rec_runtimeID record = tobs_RuntimeID o -> settled h states item (o, CleanupOnly record)
| settled_adopted o record : tobs_Ref o = exp_ref item -> tobs_Classification o = PhysicalResourceAdopted ->
    held states item (tobs_RuntimeID o) -> genuine h item record -> rec_runtimeID record = tobs_RuntimeID o ->
    settled h states item (o, Adopted record).

Lemma seen_stopped_mono plan h h' id : h `prefix_of` h' -> seen_stopped plan h id -> seen_stopped plan h' id.
Proof. intros P (s & O & I). exists s. split; [by eapply observed_mono|done]. Qed.
Lemma genuine_mono h h' item record : h `prefix_of` h' -> genuine h item record -> genuine h' item record.
Proof.
  intros P [Pl St S R]. split; [done..| |done].
  destruct S as [(?&?&?&?)|[(?&?&?&?)|(?&?&?&?)]]; [left|right; left|right; right]; do 3 (split; [done|]);
    first [by eapply serving_mono|by eapply seen_stopped_mono].
Qed.
Lemma settled_mono h h' states item v : h `prefix_of` h' -> settled h states item v -> settled h' states item v.
Proof.
  intros P [o|o r|o r|o r]; [by constructor|by constructor|by apply settled_cleanup|].
  apply settled_adopted; [done..| |done]. by eapply genuine_mono.
Qed.
(** What [prepareExpectedTargets] says of each generation. *)
Definition prepared_for (cleanupOnly : list TargetPlan) (item : expectedTargetContainer) : Prop :=
  BuildContainerPlan (exp_input item) build = Ok (exp_plan item) /\ exp_ref item = plan_ref (exp_plan item)
  /\ exp_input item ∈ (if exp_cleanupOnly item then cleanupOnly else active).

Lemma wp_recover item intent receipt state Q w : exp_input item ∈ active -> BuildContainerPlan (exp_input item) build = Ok (exp_plan item) ->
  observed (w_calls w) state -> validateRuntimeIdentity state (exp_plan item) = Ok tt ->
  (forall evidence s h, w_calls w `prefix_of` h -> observed h s -> is_container_of (exp_plan item) s (st_ID state) -> stopped s ->
     Q (Ok (evidence, s)) (mkWorld (w_driver w) h)) ->
  (forall e h, w_calls w `prefix_of` h -> Q (Err e) (mkWorld (w_driver w) h)) ->
  wp (reconcile_call active) (recoverPersistedQuarantine item intent receipt state) Q w.
Proof.
  intros A B O V S F. unfold recoverPersistedQuarantine. cbv zeta.
  assert (Id : forall h, w_calls w `prefix_of` h -> identified (exp_plan item) h (st_ID state))
    by (intros h P; exists state; split; [by eapply observed_mono|done]).
  assert (Co : forall h, w_calls w `prefix_of` h -> reconcile_call active h (ContainContainer (st_ID state)))
    by (intros h P; exists (exp_input item), (exp_plan item); auto).
  destruct w as [d h0]. cbn [w_calls w_driver] in *. do 4 (wp_step; try (apply F; prefixes)). destruct receipt as [receipt|].
  - destruct (st_Running state).
    + do 2 wp_step; [apply Co; prefixes|]. wp_step. apply F. prefixes.
    + repeat wp_step; try (apply F; prefixes). apply S; [done..|]. eapply stopped_of; [done|set_solver].
  - repeat wp_step; try (apply F; prefixes); try (apply Co; prefixes); try by apply look.
    all: assert (I : is_container_of (exp_plan item) a0 (st_ID state)) by (split; [by eapply exact_id|done]);
      assert (St : stopped a0) by (eapply stopped_of; [done|set_solver]).
    + unfold newQuarantineReceipt in E8. rewrite res_bind_ok in E8. destruct E8 as (encoded & _ & E8).
      rewrite res_bind_ok in E8. destruct E8 as ([] & _ & E8). apply Ok_inj in E8. apply check_ok, bool_decide_eq_true in E3. cbn in E3.
      exists (exp_input item), (exp_plan item), a0. do 3 (split; [done|]). rewrite <-E8. cbn. rewrite E3. eexists. by repeat (split; [done|]).
    + apply S; [prefixes| |done..]. eapply observed_mono; [|by apply observed_inspect]. prefixes.
Qed.
Section Observe.
Context (cleanupOnly : list TargetPlan) (states : list RuntimeState) (item : expectedTargetContainer) (d : Driver) (h0 : calls).
Context (Prep : prepared_for cleanupOnly item).
Context (Q : dresult verdict -> world -> Prop).
(** Observing never fails; it concludes. *)
Context (S : forall v h, h0 `prefix_of` h -> settled h states item v -> Q (Ok v) (mkWorld d h)).

Lemma wp_observe_absent present errors observedAt : targetCandidates states item = [] ->
  wp (reconcile_call active) (observe_absent item present errors observedAt) Q (mkWorld d h0).
Proof using S.
  intros C. unfold observe_absent, targetDirectoryPresent, observation.
  repeat case_bool_decide; repeat wp_step; try (by apply look); (apply S; [prefixes|]); try by apply settled_unowned.
  destruct (directory_present _ _) as [[]|]; by constructor.
Qed.

(** The container [state] is the only one that claims the generation, and has
    been identified. *)
Context (state : RuntimeState) (index : nat) (State : nth index states no_runtime = state).
Context (One : targetCandidates states item = [index]) (V : validateRuntimeIdentity state (exp_plan item) = Ok tt).
Context (Obs : observed h0 state) (Work : exp_cleanupOnly item = false).
Local Abbreviation id := (st_ID state).
Local Abbreviation plan := (exp_plan item).

Lemma held_state : held states item id.
Proof using One V State. exists index. rewrite State. done. Qed.
Lemma settled_matched h c diagnostic : c = PhysicalResourceUncertain \/ c = PhysicalResourceForeign ->
  settled h states item (matched (exp_ref item) id c diagnostic).
Proof using One V State. intros [-> | ->]; (apply settled_unowned; [done..|]); intros _; apply held_state. Qed.
Definition reset_made (reset : option resetOutcome) : Prop :=
  forall outcome, reset = Some outcome -> ts_RuntimeID (res_Status (out_result outcome)) = id.

Lemma settled_ready h reset diagnostic t : serving plan h id -> st_Running state = true -> reset_made reset ->
  settled h states item (adopt item state (adoptedTargetStatus plan state t) reset None diagnostic).
Proof using One V State Work.
  intros Sv R M. apply settled_adopted; [done..|apply held_state| |done]. unfold adoptedTargetStatus. rewrite R.
  split; [done..| |done]. by left.
Qed.
Lemma settled_stopped h s reset (quarantine : option (TargetQuarantinePlan * TargetQuarantineEvidence)) diagnostic t :
  let status := if quarantine then adoptedQuarantinedTargetStatus plan s t else adoptedResettableTargetStatus plan s t in
  observed h s -> is_container_of plan s id -> stopped s -> reset_made reset ->
  settled h states item (adopt item s status reset quarantine diagnostic).
Proof using One V State Work.
  intros status O I St M. assert (SS' : seen_stopped plan h (st_ID s)) by (exists s; by rewrite (proj1 I)).
  apply settled_adopted; [done..| | |done]; [cbn; rewrite (proj1 I); apply held_state|]. subst status.
  split; [done|by destruct quarantine|right; destruct quarantine as [[]|]; [right|left]; done|].
  intros outcome E. cbn. rewrite (proj1 I). by apply M.
Qed.

Lemma wp_observe_claimed reset : reset_made reset ->
  forall h, h0 `prefix_of` h -> wp (reconcile_call active) (observe_claimed item state reset) Q (mkWorld d h).
Proof using All.
  intros M h P. unfold observe_claimed. destruct (st_Running state) eqn:R.
  - wp_step. apply wp_stopped; [exact look|..]; cbn [rec_runtimeID rec_plan owned w_calls w_driver].
    + intros h' P' Id. split; [done|]. exists (exp_input item). destruct Prep as (B & _ & A). rewrite Work in A.
      split; [done|]. left. by exists plan.
    + intros s e h' P' _ Rest. assert (h0 `prefix_of` h') as P2 by (by transitivity h). cbn beta iota.
      destruct (bool_decide (st_ID s = "") || st_Running s) eqn:Bad; [wp_step; apply S; [done|apply settled_matched; by left]|].
      apply orb_false_iff in Bad as [B1 B2]. apply bool_decide_eq_false in B1. destruct Rest as [?|[?|Rest]]; [done|congruence|].
      destruct Rest as (h1 & -> & E & I & St). repeat wp_step. apply S; [done|].
      by apply (settled_stopped _ s reset None); [apply observed_inspect|..].
  - destruct (requireStoppedRuntimeState _ _ _) as [[]|] eqn:E; repeat wp_step; (apply S; [done|]); [|apply settled_matched; by right].
    apply (settled_stopped _ state reset None); [by eapply observed_mono|done| |done]. eapply stopped_of; [done|set_solver].
Qed.
Lemma wp_observe_unclaimed_run reset : reset_made reset ->
  forall h, h0 `prefix_of` h -> wp (reconcile_call active) (observe_unclaimed_run item state reset) Q (mkWorld d h).
Proof using One V State Work Obs S.
  intros M h P. unfold observe_unclaimed_run, requireGuestReadiness. destruct (st_Running state) eqn:R; cbn [negb].
  2:{ wp_step. apply S; [done|apply settled_matched; by left]. }
  destruct (requireLiveRuntimeState state reconcile_op) as [[]|] eqn:L; cbn [is_ok negb]; [|wp_step; apply S; [done|apply settled_matched; by right]].
  assert (P' : h0 `prefix_of` h ++ [ProbeGuest id]) by (etransitivity; [exact P|prefixes]).
  repeat wp_step; [by apply look|..]; (apply S; [done|]); [|apply settled_matched; by left].
  apply settled_ready; [|done..]. exists state, h. split; [by eapply observed_mono|]. split; [done|]. split; [by eapply live_running|].
  split; [prefixes|by destruct a].
Qed.
End Observe.
Lemma reset_of_made records state reset : reset_of records state = inr reset -> reset_made state reset.
Proof.
  unfold reset_of, reset_made. intros E outcome ->. destruct records as [[intent [receipt|]]|]; [|done..]. case_bool_decide; [|done].
  by injection E as <-.
Qed.
Lemma reset_of_matched records state c diagnostic : reset_of records state = inl (c, diagnostic) ->
  c = PhysicalResourceUncertain \/ c = PhysicalResourceForeign.
Proof. unfold reset_of. destruct records as [[intent [receipt|]]|]; [case_bool_decide|..]; intros; simplify_eq; auto. Qed.

Lemma wp_observe_present cleanupOnly states item index observedAt d h0 Q :
  prepared_for cleanupOnly item -> seen h0 states -> targetCandidates states item = [index] ->
  (forall v h, h0 `prefix_of` h -> settled h states item v -> Q (Ok v) (mkWorld d h)) ->
  wp (reconcile_call active) (observe_present build item (nth index states no_runtime) observedAt) Q (mkWorld d h0).
Proof.
  intros Prep Se One S. destruct (candidate_in states item index) as (N & _ & _); [rewrite One; by left|].
  apply Se in N as Obs. set (state := nth index states no_runtime) in *. unfold observe_present. cbv zeta.
  assert (Foreign : forall diagnostic, settled h0 states item (observation (exp_ref item) (st_ID state) PhysicalResourceForeign diagnostic))
    by (intros; by apply settled_unowned).
  destruct (validateRuntimeIdentity state (exp_plan item)) as [[]|] eqn:V; cbn [is_ok negb]; [|wp_step; by apply S].
  destruct (requireCoherentRuntimeState state reconcile_op) as [[]|]; cbn [is_ok negb]; [|wp_step; by apply S].
  destruct (exp_cleanupOnly item) eqn:Work.
  { wp_step. apply S; [done|]. apply settled_cleanup; try done. by exists index. }
  assert (Matched : forall h c diagnostic, c = PhysicalResourceUncertain \/ c = PhysicalResourceForeign ->
    settled h states item (matched (exp_ref item) (st_ID state) c diagnostic)) by (intros; by eapply settled_matched).
  unfold loadResetRecords. repeat wp_step; [by apply look|]. wp_case [records|]; [|wp_step; apply S; [prefixes|auto]].
  destruct (reset_of records state) as [[c diagnostic]|reset] eqn:R; [wp_step; apply S; [prefixes|by eapply Matched, reset_of_matched]|].
  apply reset_of_made in R. unfold loadQuarantineRecords. repeat wp_step; [by apply look|].
  wp_case [[[intent receipt]|]|]; [..|wp_step; apply S; [prefixes|auto]].
  - destruct Prep as (B & _ & A). rewrite Work in A. do 2 wp_step. apply wp_recover; [done..| |done| |]; cbn [w_calls w_driver].
    + eapply observed_mono; [|done]. prefixes.
    + intros evidence s h P O I St. wp_step. apply S; [etransitivity; [|exact P]; prefixes|].
      by apply (settled_stopped states item state index eq_refl One V Work h s reset (Some (pqi_Plan intent, evidence))).
    + intros e h P. wp_step. apply S; [etransitivity; [|exact P]; prefixes|auto].
  - unfold loadTargetGenerationRunClaim. repeat wp_step; [by apply look|]. wp_case [[claim|]|]; [| |wp_step; apply S; [prefixes|auto]].
    + destruct (matchesTarget claim (exp_plan item)); cbn [negb]; [|wp_step; apply S; [prefixes|auto]].
      eapply wp_observe_claimed; [done..|prefixes].
    + eapply wp_observe_unclaimed_run; [done..|prefixes].
Qed.

Lemma wp_observe_expected cleanupOnly states present errors observedAt item d h0 Q :
  prepared_for cleanupOnly item -> seen h0 states ->
  (forall v h, h0 `prefix_of` h -> settled h states item v -> Q (Ok v) (mkWorld d h)) ->
  wp (reconcile_call active) (observe_expected build states present errors observedAt item) Q (mkWorld d h0).
Proof.
  intros Prep Se S. unfold observe_expected. destruct (targetCandidates states item) as [|index [|]] eqn:C.
  - by apply wp_observe_absent with states.
  - by eapply wp_observe_present.
  - wp_step. apply S; [done|]. by apply settled_unowned.
Qed.
(** ** A whole reconciliation *)
Definition distinct (prepared : list expectedTargetContainer) : Prop :=
  NoDup (refKey ∘ exp_ref <$> prepared) /\ NoDup (tp_IdempotencyKey ∘ exp_input <$> prepared).
Definition prepared_from (plans : list TargetPlan) (cleanup : bool) (items : list expectedTargetContainer) : Prop :=
  exp_input <$> items = plans /\ Forall (fun item => BuildContainerPlan (exp_input item) build = Ok (exp_plan item)
    /\ exp_ref item = plan_ref (exp_plan item) /\ exp_cleanupOnly item = cleanup) items.

Lemma NoDup_snoc {A} (l : list A) x : NoDup l -> x ∉ l -> NoDup (l ++ [x]).
Proof. intros N X. apply NoDup_app. split; [done|]. split; [|apply NoDup_singleton]. set_solver. Qed.
Lemma appendPlans_ok plans cleanup prepared prepared' : appendPlans build plans cleanup prepared = Ok prepared' -> distinct prepared ->
  distinct prepared' /\ exists items, prepared' = prepared ++ items /\ prepared_from plans cleanup items.
Proof.
  intros H D. unfold appendPlans in H. revert H.
  apply (res_fold_inv (fun plans p => distinct p /\ exists items, p = prepared ++ items /\ prepared_from plans cleanup items)).
  { split; [done|]. exists []. by rewrite app_nil_r. }
  intros past p input p' ([D1 D2] & items & -> & I & F) _ H. rewrite res_bind_ok in H. destruct H as (plan & B & H).
  rewrite res_bind_ok in H. destruct H as ([] & C1 & H). rewrite res_bind_ok in H. destruct H as ([] & C2 & H).
  apply check_ok, negb_true_iff, bool_decide_eq_false in C1, C2. apply Ok_inj in H as <-. split.
  - split; rewrite fmap_app; by apply NoDup_snoc.
  - eexists (items ++ [_]). rewrite app_assoc. split; [done|]. split; [by rewrite fmap_app, I|]. by apply Forall_app; split; [|constructor].
Qed.
Lemma prepare_ok cleanupOnly prepared : prepareExpectedTargets build active cleanupOnly = Ok prepared ->
  distinct prepared /\ exists work rest, prepared = work ++ rest /\ prepared_from active false work /\ prepared_from cleanupOnly true rest.
Proof.
  unfold prepareExpectedTargets. intros H. rewrite res_bind_ok in H. destruct H as (_ & _ & H). rewrite res_bind_ok in H.
  destruct H as (work & W & H). apply appendPlans_ok in W as (D & work' & -> & W); [|split; constructor].
  apply appendPlans_ok in H as (D' & rest & -> & R); [|done]. split; [done|]. by exists work', rest.
Qed.
Lemma prepared_each cleanupOnly prepared : prepareExpectedTargets build active cleanupOnly = Ok prepared ->
  Forall (prepared_for cleanupOnly) prepared.
Proof.
  intros (_ & work & rest & -> & [W1 W2] & [R1 R2])%prepare_ok. rewrite Forall_app, !Forall_forall. rewrite Forall_forall in W2, R2.
  split; intros item I; [destruct (W2 _ I) as (B & E & C)|destruct (R2 _ I) as (B & E & C)]; (split; [done|]); (split; [done|]); rewrite C;
    [rewrite <-W1|rewrite <-R1]; by apply list_elem_of_fmap_2.
Qed.

Lemma wp_ReconcileTargets cleanupOnly Q w :
  (forall prepared states verdicts observedAt h, prepareExpectedTargets build active cleanupOnly = Ok prepared -> w_calls w `prefix_of` h ->
     inventory h states -> Forall2 (settled h states) prepared verdicts ->
     forall unclaimed conflicts, classifyUnclaimedTargets (unclaimed_containers prepared states) = (unclaimed, conflicts) ->
     Q (Ok (mkTargetReport verdicts.*1 unclaimed conflicts observedAt))
       (mkWorld (rebuildTargetMaps (adopted_records verdicts) (cleanup_records verdicts) (w_driver w)) h)) ->
  (forall e w', w_driver w' = w_driver w -> Q (Err e) w') ->
  wp (reconcile_call active) (ReconcileTargets build active cleanupOnly) Q w.
Proof.
  intros S F. unfold ReconcileTargets. do 6 (wp_step; try by apply F). rename a into prepared, E0 into Pr.
  apply prepared_each in Pr as Each. rewrite Forall_forall in Each.
  do 5 (wp_step; try by apply F). apply wp_inventory; [|intros; by apply F]. intros states0 In0.
  destruct w as [d h0]. cbn [w_calls w_driver] in *. wp_step. set (h1 := h0 ++ [ListContainers]) in *.
  apply (wp_fold _ (fun _ pass w' => w_driver w' = d /\ h1 `prefix_of` w_calls w' /\ inventory (w_calls w') (rst_states pass))); [done|..].
  { intros past pass item [d' h] (D & P & In) I. cbn in D, P, In. subst d'. apply wp_resume_reset; [|done|..].
    - intros C. destruct (Each _ I) as (_ & _ & A). by rewrite C in A.
    - intros pass' h' P' In'. cbn. split; [done|]. split; [by etransitivity|done].
    - intros e w' D. by apply F. }
  intros pass [d' h2] (D & P2 & In). cbn in D, P2, In. subst d'. cbv zeta. wp_step.
  apply (wp_fold _ (fun items verdicts w' => w_driver w' = d /\ h2 `prefix_of` w_calls w' /\
    Forall2 (settled (w_calls w') (rst_states pass)) items verdicts)); [by repeat split|..].
  { intros past verdicts item [d' h] (D & P & Fs) I. cbn in D, P, Fs. subst d'. wp_step.
    eapply wp_observe_expected; [by apply Each|by eapply seen_mono, inventory_seen, In|].
    intros v h' P' V. wp_step. split; [done|]. split; [cbn; by etransitivity|]. apply Forall2_app; [|by constructor].
    eapply Forall2_impl; [done|]. intros ? ? X. by eapply settled_mono. }
  intros verdicts [d' h] (D & P & Fs). cbn in D, P, Fs. subst d'.
  assert (h0 `prefix_of` h) as P3 by (transitivity h1; [prefixes|by etransitivity]).
  specialize (S prepared (rst_states pass) verdicts (now h0) h Pr P3 (inventory_mono _ _ _ P In) Fs).
  destruct (classifyUnclaimedTargets _) as [unclaimed conflicts]. repeat wp_step; [by apply S|by apply F].
Qed.
End Calls.




(** ** The theorems *)



(** *** A clean inventory *)
Lemma claimed_or_unclaimed prepared states s : s ∈ states ->
  s ∈ unclaimed_containers prepared states
  \/ exists item index, item ∈ prepared /\ index ∈ targetCandidates states item /\ nth index states no_runtime = s.
Proof.
  intros [i I]%list_elem_of_lookup. destruct (decide (i ∈ prepared ≫= targetCandidates states)) as [C|C].
  - right. apply list_elem_of_bind in C as (item & C & M). exists item, i. by rewrite (nth_lookup_Some _ _ _ _ I).
  - left. apply list_elem_of_fmap. exists (i, s). split; [done|]. apply list_elem_of_filter. split; [done|].
    apply list_elem_of_lookup. exists i. by rewrite list_lookup_imap, I.
Qed.
(** Unclaimed containers that look like targets are reported. *)
Lemma unclaimed_reported unclaimed s : classifyUnclaimedTargets unclaimed = ([], []) -> s ∈ unclaimed ->
  has_target_role s = false /\ HasPrefix (st_Name s) "world-target-" = false.
Proof.
  unfold classifyUnclaimedTargets. intros [= U C] I.
  assert (N : forall p, p ∉ unclaimed_refs unclaimed).
  { intros [ref t] M. assert (K : refKey ref ∈ sort_Strings (remove_dups (refKey ∘ fst <$> unclaimed_refs unclaimed))).
    { unfold sort_Strings. rewrite merge_sort_Permutation. apply elem_of_remove_dups, list_elem_of_fmap. by exists (ref, t). }
    match type of U with ?l = [] => assert (X : exists x, x ∈ l) end.
    { eexists. apply list_elem_of_bind. exists (refKey ref). split; [|done]. apply list_elem_of_fmap. exists (ref, t). split; [done|].
      by apply list_elem_of_filter. }
    destruct X as [x X]. rewrite U in X. by apply elem_of_nil in X. }
  assert (M : forall c, c ∉ unclaimed_conflicts unclaimed) by (rewrite C; intros c; apply not_elem_of_nil).
  destruct (has_target_role s) eqn:R.
  - destruct (targetRefFromLabels (st_Labels s)) as [ref|] eqn:L.
    + destruct (N (ref, s)). unfold unclaimed_refs. apply list_elem_of_omap. exists s. by rewrite R, L.
    + destruct (M (unclaimed_conflict s "target role label has malformed generation identity")). unfold unclaimed_conflicts.
      apply list_elem_of_omap. exists s. by rewrite R, L.
  - split; [done|]. destruct (HasPrefix _ _) eqn:Pf; [|done].
    destruct (M (unclaimed_conflict s "world target name is not accompanied by an exact target role identity")). unfold unclaimed_conflicts.
    apply list_elem_of_omap. exists s. by rewrite R, Pf.
Qed.
Lemma accepted_held h states item v terminal allowedMissing allowedStopped b index : settled h states item v ->
  accepted terminal allowedMissing allowedStopped (target_observation v.1) b -> index ∈ targetCandidates states item ->
  is_container_of (exp_plan item) (nth index states no_runtime) (tobs_RuntimeID v.1).
Proof.
  intros S A C. assert (H : held states item (tobs_RuntimeID v.1)).
  { destruct S as [o R N M H|o r R N U E|o r R N H|o r R N H]; try done; [|by rewrite E in C; apply elem_of_nil in C].
    destruct A as [x T Cl|T P|T M' Cl|T M' St Cl P|T M' Cl]; cbn in *; try done; try by apply H.
    all: rewrite (M Cl) in C; by apply elem_of_nil in C. }
  destruct H as (index' & E & I). rewrite E in C. apply list_elem_of_singleton in C as ->. done.
Qed.
Lemma identity_confined input plan s : BuildContainerPlan input build = Ok plan -> validateRuntimeIdentity s plan = Ok tt ->
  (MemoryBytes (cp_Resources plan) <= MaxInt64)%Z -> confined plan (st_Configuration s).
Proof.
  intros B V M. apply no_difference_confined with (bc_TargetRoot build); [|done|].
  - unfold BuildContainerPlan in B.
    repeat (rewrite res_bind_ok in B; let x := fresh "x" in let X := fresh "X" in destruct B as (x & X & B)).
    apply Ok_inj in B. rewrite <-B. by destruct x4.
  - unfold validateRuntimeIdentity in V. repeat (rewrite res_bind_ok in V; let x := fresh "x" in let X := fresh "X" in destruct V as (x & X & V)).
    apply check_ok, is_ok_true in V as [[] V]. done.
Qed.

(** C10: A clean inventory is confined.  If [ReconcileTargets] succeeds and the
    assessment of its report raises no issue, whatever absences and
    interruptions it tolerates, then in the inventory every container that has
    the role or the name of a target is the identified container of a requested
    plan and runs under exactly its confinement (memory limits are [int64]). *)
Theorem clean_inventory_is_confined `{PL : Plans} active cleanupOnly w report w' expected terminal allowedMissing allowedStopped
  (Reconciled : ReconcileTargets build active cleanupOnly w = (Ok report, w'))
  (Clean : (assessTargetReconciliationWithRecovery expected terminal allowedMissing allowedStopped report).2 = []) :
  exists states, inventory (w_calls w') states /\ forall s, s ∈ states ->
    (exists input plan, input ∈ active ++ cleanupOnly /\ BuildContainerPlan input build = Ok plan /\ is_container_of plan s (st_ID s)
       /\ ((MemoryBytes (cp_Resources plan) <= MaxInt64)%Z -> confined plan (st_Configuration s)))
    \/ (has_target_role s = false /\ HasPrefix (st_Name s) "world-target-" = false).
Proof.
  apply assess_target_clean in Clean. destruct Clean as [_ _ _ _ _ _ Acc U Co]. apply fmap_nil_inv in U.
  assert (W : wp (reconcile_call active) (ReconcileTargets build active cleanupOnly) (fun r v => r = Ok report ->
    exists prepared states verdicts, inventory (w_calls v) states /\ Forall (prepared_for active cleanupOnly) prepared
      /\ Forall2 (settled (w_calls v) states) prepared verdicts /\ trep_Expected report = verdicts.*1
      /\ classifyUnclaimedTargets (unclaimed_containers prepared states) = ([], [])) w).
  { apply wp_ReconcileTargets; [|done]. intros prepared states verdicts t h Pr P In F unclaimed conflicts E R. apply Ok_inj in R. subst report.
    cbn in U, Co. subst unclaimed conflicts. exists prepared, states, verdicts. split; [done|]. split; [by eapply prepared_each|done]. }
  destruct W as [_ W]. rewrite Reconciled in W. destruct (W eq_refl) as (prepared & states & verdicts & In & Each & F & Ex & Cl).
  exists states. split; [done|]. intros s I. destruct (claimed_or_unclaimed prepared states s I) as [X|(item & index & X & C & N)].
  - right. by eapply unclaimed_reported.
  - left. apply list_elem_of_lookup in X as [j J]. destruct (Forall2_lookup_l _ _ _ _ _ F J) as (v & J' & S).
    pose proof (Forall_lookup_1 _ _ _ _ Each J) as (B & _ & A).
    assert (V : target_observation v.1 ∈ target_observation <$> trep_Expected report).
    { apply list_elem_of_fmap_2. rewrite Ex. apply list_elem_of_fmap_2. by eapply list_elem_of_lookup_2. }
    rewrite Forall_forall in Acc. destruct (Acc _ V) as (_ & b & Ab). pose proof (accepted_held _ _ _ _ _ _ _ _ _ S Ab C) as [E Id].
    rewrite N in E, Id. exists (exp_input item), (exp_plan item). split; [|split; [done|split; [done|by apply identity_confined with (exp_input item)]]].
    apply elem_of_app. destruct (exp_cleanupOnly item); auto.
Qed.
End Reconcile.

(** * Lifecycle of a generation *)
Section Lifecycle.
Context `{SS : SliceSort} `{MR : MapRange} `{HP : HostPaths} `{PE : PlanEncoding} `{TH : TargetHost}.
Context (build : BuildConfig).

Definition removed (h : calls) (id : string) : Prop :=
  exists h0, h0 ++ [RemoveContainer id] `prefix_of` h /\ runtime_Remove h0 id = Ok tt.
Lemma removed_mono h h' id : h `prefix_of` h' -> removed h id -> removed h' id.
Proof. intros P (h0 & P0 & R). exists h0. split; [by transitivity h|done]. Qed.

(** ** Destroy *)

(** The record a destruction works on. *)
Definition known (d : Driver) (ref : TargetRef) (record : targetRecord) : Prop :=
  d_targets d !! refKey ref = Some record \/ (d_targets d !! refKey ref = None /\ d_cleanupOnly d !! refKey ref = Some record).
(** The generation was seen to be absent; without an inventory, only its
    removal was acknowledged. *)
Definition gone (h : calls) (ref : TargetRef) : Prop :=
  (exists h0 states, h0 ++ [ListContainers] `prefix_of` h /\ runtime_List h0 = Ok states /\ targetRefCandidates states ref = [])
  \/ (RuntimeInventory = false /\ exists id, removed h id).
Definition destroy_call (ref : TargetRef) (d : Driver) (h : calls) (c : host_call) : Prop :=
  match c with
  | RemoveContainer id => hasUnstoppedRun d ref = false /\ exists record, known d ref record /\ identified (rec_plan record) h id
  | RemoveDirectory directory => hasUnstoppedRun d ref = false /\ gone h ref
      /\ (directory = targetDirectory build ref \/ exists record, known d ref record /\ directory = cp_TargetDirectory (rec_plan record))
  | _ => passive c = true
  end.


Section Destroy.
Context (ref : TargetRef) (d : Driver).
Local Abbreviation ok := (destroy_call ref d).






End Destroy.

(** ** Reset *)

(** The generation [previous] may be replaced by the plan [next]. *)
Record replacing (d : Driver) (targetID : uuidV7) (reset : ResetPlan) (previous : targetRecord) (next : ContainerPlan) : Prop := {
  rep_record : d_targets d !! targetKey targetID (tref_Generation (rp_Previous reset)) = Some previous;
  rep_free : rec_quarantine previous = None /\ hasUnstoppedRun d (mkTargetRef targetID (tref_Generation (rp_Previous reset))) = false;
  rep_lease : cp_LeaseID (rec_plan previous) = rp_LeaseID reset;
  rep_next : replacementContainerPlan (rec_plan previous) (rp_NextGeneration reset) (bc_TargetRoot build) = Ok next }.
Definition intent_for (previous : targetRecord) (next : ContainerPlan) (intent : persistedResetIntent) : Prop :=
  pri_PreviousPlan intent = rec_plan previous /\ pri_PreviousRuntimeID intent = rec_runtimeID previous /\ pri_NextPlan intent = next.
(** The intent of the reset is durable. *)
Definition recorded (h : calls) (previous : targetRecord) (next : ContainerPlan) : Prop :=
  exists h0 intent, h0 ++ [PersistResetIntent (cp_TargetDirectory next) intent] `prefix_of` h /\ intent_for previous next intent
    /\ persist_reset_intent h0 (cp_TargetDirectory next) intent = Ok tt.
(** What a reset may do, and when: the previous container is stopped only once
    the next one serves, and removed only once it has stopped. *)
Definition reset_step (previous : targetRecord) (next : ContainerPlan) (h : calls) (c : host_call) : Prop :=
  match c with
  | PrepareDirectories plan => plan = next
  | PersistResetIntent directory intent => directory = cp_TargetDirectory next /\ intent_for previous next intent
  | CreateContainer plan => plan = next /\ recorded h previous next
  | StartContainer id => recorded h previous next /\ created next h id /\ identified next h id
  | StopContainer id mode => id = rec_runtimeID previous /\ mode = StopForce /\ identified (rec_plan previous) h id
      /\ exists successor, serving next h successor
  | RemoveContainer id => created next h id
      \/ (id = rec_runtimeID previous /\ (exists s, at_rest (rec_plan previous) h s id) /\ exists successor, serving next h successor)
  | RemoveDirectory directory => (directory = cp_TargetDirectory next /\ exists id, created next h id /\ removed h id)
      \/ (directory = cp_TargetDirectory (rec_plan previous) /\ removed h (rec_runtimeID previous))
  | PersistResetReceipt directory receipt => directory = cp_TargetDirectory next /\ removed h (rec_runtimeID previous)
      /\ serving next h (ts_RuntimeID (res_Status (prr_Result receipt)))
  | _ => False
  end.

Section Reset.
Context (targetID : uuidV7) (reset : ResetPlan) (d : Driver).
Definition reset_call (h : calls) (c : host_call) : Prop :=
  passive c = true \/ exists previous next, replacing d targetID reset previous next /\ reset_step previous next h c.
Local Abbreviation ok := reset_call.
Lemma look_reset h c : passive c = true -> ok h c.
Proof. by left. Qed.

(** How a reset that is answered came about: it was remembered, its records
    were found, or it has been done. *)
Definition from_memory (w' : world) (outcome : resetOutcome) : Prop :=
  d_resetResults d !! rp_IdempotencyKey reset = Some outcome /\ w_driver w' = d.
Definition from_records (w' : world) (outcome : resetOutcome) : Prop :=
  exists record, d_targets (w_driver w') !! targetKey targetID (rp_NextGeneration reset) = Some record
    /\ rec_reset record = Some outcome /\ rec_runtimeID record = ts_RuntimeID (res_Status (out_result outcome)).
Definition from_replacement (w' : world) (outcome : resetOutcome) : Prop :=
  let status := res_Status (out_result outcome) in
  exists previous next, replacing d targetID reset previous next /\ serving next (w_calls w') (ts_RuntimeID status)
    /\ removed (w_calls w') (rec_runtimeID previous)
    /\ w_driver w' = commitReset previous next (ts_RuntimeID status) status targetID reset (out_result outcome) (out_err outcome) d.
Definition reset_post (r : dresult (TargetResult * option driver_error)) (w' : world) : Prop :=
  match r with
  | Ok answer => exists outcome, d_resetResults (w_driver w') !! rp_IdempotencyKey reset = Some outcome
      /\ out_targetID outcome = targetID /\ out_plan outcome = reset /\ answer = (out_result outcome, out_err outcome)
      /\ (from_memory w' outcome \/ from_records w' outcome \/ from_replacement w' outcome)
  | Err _ => w_driver w' = d
  end.

Section Owned.
Context (previous : targetRecord) (next : ContainerPlan) (Rep : replacing d targetID reset previous next).
Lemma step_ok h c : reset_step previous next h c -> ok h c.
Proof using Rep. intros S. right. by exists previous, next. Qed.

Lemma wp_abandon {A} e id (Q : dresult A -> world -> Prop) h0 : id = "" \/ created next h0 id ->
  (forall e h, Q (Err e) (mkWorld d h)) -> wp ok (abandon e id (cp_TargetDirectory next)) Q (mkWorld d h0).
Proof using Rep.
  intros C F. unfold abandon, cleanupFailedRuntime, removeTargetDirectory. wp_step. case_bool_decide as Em; [repeat wp_step; apply F|].
  destruct C as [|C]; [done|]. do 2 wp_step; [apply step_ok; by left|]. destruct (runtime_Remove _ _) as [[]|] eqn:R; cbn [is_ok negb]; [|repeat wp_step; apply F].
  repeat wp_step; [|apply F]. apply step_ok. left. split; [done|]. exists id. split; [eapply created_mono; [|done]; prefixes|]. exists h0. done.
Qed.

(** The end of a reset: the previous generation is removed and forgotten. *)
Definition finish (runtimeID : string) (state : RuntimeState) (intent : persistedResetIntent) : TM (TargetResult * option driver_error) :=
  removed ← ask (RemoveContainer (rec_runtimeID previous)) (fun h => runtime_Remove h (rec_runtimeID previous));
  if negb (is_ok removed) then abandon (Because (reset_failure CodeUnavailable "runtime.remove")) runtimeID (cp_TargetDirectory next) else
  cleaned ← removeTargetDirectory (cp_TargetDirectory (rec_plan previous));
  observedAt ← peek now;
  let status := mkTargetStatus targetID (rp_NextGeneration reset) Domain.TargetLinuxContainer TargetGenerationReady true runtimeID
                  (st_CgroupID state) observedAt in
  let result := mkTargetResult status true in
  let failure := if is_ok cleaned then None else Some cleanup_outcome in
  persisted ← persistResetOutcome intent result failure;
  let outcomeErr := match persisted with
                    | Err _ => Some (Because (reset_failure CodeUnavailable "receipt"))
                    | Ok _ => outcome_error <$> failure end in
  _ ← modify (commitReset previous next runtimeID status targetID reset result outcomeErr);
  mret (result, outcomeErr).

Lemma wp_finish runtimeID state intent h0 : intent_for previous next intent -> created next h0 runtimeID -> serving next h0 runtimeID ->
  (exists s, at_rest (rec_plan previous) h0 s (rec_runtimeID previous)) -> wp ok (finish runtimeID state intent) reset_post (mkWorld d h0).
Proof using Rep.
  intros I C Sv Rest. unfold finish. do 2 wp_step. { apply step_ok. right. eauto. }
  destruct (runtime_Remove _ _) as [[]|] eqn:R; cbn [is_ok negb]; [|apply wp_abandon; [right; eapply created_mono; [|done]; prefixes|done]].
  set (h1 := h0 ++ [RemoveContainer (rec_runtimeID previous)]).
  assert (Rm : removed h1 (rec_runtimeID previous)) by (by exists h0).
  assert (Sv1 : serving next h1 runtimeID) by (eapply serving_mono; [|done]; prefixes).
  unfold removeTargetDirectory. do 2 wp_step. { apply step_ok. by right. }
  do 2 wp_step. cbv zeta. set (cleaned := is_ok _). set (h2 := h1 ++ _). unfold persistResetOutcome.
  set (result := mkTargetResult _ true). set (failure := if cleaned then None else _).
  wp_step. apply wp_mono with (Q := fun r w' => w_driver w' = d /\ h2 `prefix_of` w_calls w' /\ exists a, r = Ok a).
  - do 3 wp_step; [|by eauto]. unfold newResetReceipt in E. rewrite res_bind_ok in E. destruct E as (encoded & _ & E).
    rewrite res_bind_ok in E. destruct E as ([] & _ & E). apply Ok_inj in E.
    do 2 wp_step. { apply step_ok. rewrite <-E. destruct I as (_ & _ & ->). split; [done|].
      split; [eapply removed_mono; [|done]; prefixes|eapply serving_mono; [|done]; prefixes]. }
    wp_step; (split; [done|]; split; [prefixes|eauto]).
  - intros r [d' h] T (D & P & [persisted ->]). cbn in D, P, T. subst d'. repeat wp_step.
    eexists. split; [cbn; apply lookup_insert_eq|]. do 3 (split; [done|]).
    right; right. exists previous, next. split; [done|]. split; [|split; [|done]]; cbn [w_calls].
    + eapply serving_mono; [|done]. etransitivity; [|exact P]. prefixes.
    + eapply removed_mono; [|done]. etransitivity; [|exact P]. prefixes.
Qed.

(** From the durable intent on. *)
Definition replace (intent : persistedResetIntent) : TM (TargetResult * option driver_error) :=
  created ← createRuntime next;
  match created with
  | (runtimeID, Err e) => abandon e runtimeID (cp_TargetDirectory next)
  | (runtimeID, Ok state) =>
      stopped ← requireOwnedRuntimeStopped previous StopForce;
      match stopped.2 with
      | Some _ => abandon (Because (reset_failure CodeUnavailable "runtime.stop")) runtimeID (cp_TargetDirectory next)
      | None => finish runtimeID state intent
      end
  end.

Lemma recorded_mono h h' : h `prefix_of` h' -> recorded h previous next -> recorded h' previous next.
Proof. intros P (h0 & i & P0 & I). exists h0, i. split; [by transitivity h|done]. Qed.
Lemma wp_replace intent h0 : intent_for previous next intent -> recorded h0 previous next ->
  wp ok (replace intent) reset_post (mkWorld d h0).
Proof using Rep.
  intros I Rec. unfold replace. wp_step. apply wp_createRuntime; [exact look_reset|..]; cbn [w_calls w_driver].
  - by apply step_ok.
  - intros h id P Id C. apply step_ok. split; [by eapply recorded_mono|done].
  - intros id r h P C S. destruct r as [state|e]; [|by apply wp_abandon]. destruct (S _ eq_refl) as (C' & [E _] & R & Sv).
    wp_step. apply wp_stopped; [exact look_reset|..]; cbn [w_calls w_driver].
    + intros h' P' Id. apply step_ok. do 3 (split; [done|]). exists id. by eapply serving_mono.
    + intros s e h' P' Rest _. cbn [snd]. destruct e as [e|]; [by apply wp_abandon; [right; eapply created_mono|]|].
      apply wp_finish; [done|by eapply created_mono|by eapply serving_mono|]. exists s. by apply Rest.
Qed.
End Owned.

Lemma wp_reset_owned h0 : wp ok (reset_owned build targetID reset) reset_post (mkWorld d h0).
Proof.
  unfold reset_owned. do 4 (wp_step; try done). unfold requireTarget in E. apply from_option_err_ok in E. rename a into previous.
  do 8 (wp_step; try done). rename a into next. apply check_ok in E0, E1, E2.
  assert (Rep : replacing d targetID reset previous next).
  { split; [done|split|..|done].
    - rewrite negb_true_iff, bool_decide_eq_false in E0. by destruct (rec_quarantine previous); [destruct E0; eauto|].
    - by apply negb_true_iff in E2.
    - by apply bool_decide_eq_true in E1. }
  do 2 wp_step; [by eapply step_ok|]. do 4 (wp_step; try done). rename a into intent.
  assert (I : intent_for previous next intent).
  { destruct (newResetIntent reset previous next) as [i|] eqn:N; [|done]. apply Ok_inj in E5 as <-. unfold newResetIntent in N.
    rewrite res_bind_ok in N. destruct N as ([] & _ & N). by apply Ok_inj in N as <-. }
  do 2 wp_step; [by eapply step_ok|]. do 2 (wp_step; try done). apply (wp_replace _ _ Rep intent); [done|].
  set (h := _ ++ [PrepareDirectories next]) in *. exists h, intent. split; [done|]. split; [done|].
  destruct (persist_reset_intent _ _ _) as [[]|]; [done|]. by case_bool_decide.
Qed.

Lemma outcome_of_plan intent receipt durable : persistedResetPlan_plan (pri_Reset intent) = Ok durable ->
  out_targetID (persistedResetReceipt_outcome receipt intent) = tref_ID (rp_Previous durable)
  /\ out_plan (persistedResetReceipt_outcome receipt intent) = durable.
Proof.
  unfold persistedResetPlan_plan, persistedResetReceipt_outcome. intros H. rewrite res_bind_ok in H. destruct H as (plan & -> & H).
  rewrite res_bind_ok in H. destruct H as ([] & _ & H). by apply Ok_inj in H as <-.
Qed.
Lemma wp_replay h0 Q : (forall h, Q (Ok None) (mkWorld d h)) -> (forall answer w', reset_post (Ok answer) w' -> Q (Ok (Some answer)) w') ->
  (forall e h, Q (Err e) (mkWorld d h)) -> wp ok (replayDurableReset build targetID reset) Q (mkWorld d h0).
Proof.
  intros N S F. unfold replayDurableReset, loadResetRecords. do 3 wp_step; [by apply look_reset|]. do 2 wp_step. wp_step; [|apply F].
  wp_case [[intent receipt]|]; [|wp_step; apply N]. do 2 (wp_step; try apply F). do 2 (wp_step; try apply F).
  do 2 wp_step. destruct (persistedResetPlan_plan (pri_Reset intent)) as [durable|] eqn:D; [|done]. apply Ok_inj in E0 as <-.
  apply check_ok, andb_true_iff in E1 as [E1 E2]. apply bool_decide_eq_true in E1, E2. destruct receipt as [receipt|].
  2:{ case_bool_decide; wp_step; [apply N|apply F]. }
  destruct (d_targets d !! _) as [record|] eqn:T; [|wp_step; apply F]. case_bool_decide as R; [|wp_step; apply F].
  do 3 wp_step. destruct (outcome_of_plan intent receipt durable D) as [O1 O2]. apply S.
  exists (persistedResetReceipt_outcome receipt intent). split; [cbn; apply lookup_insert_eq|]. split; [congruence|]. split; [congruence|].
  split; [done|]. right; left. eexists. split; [cbn; apply lookup_insert_eq|]. done.
Qed.

Lemma wp_Reset h0 : wp ok (Reset build targetID reset) reset_post (mkWorld d h0).
Proof.
  unfold Reset. do 8 (wp_step; try done). destruct (d_resetResults d !! _) as [prior|] eqn:M.
  - do 3 (wp_step; try done). apply check_ok, andb_true_iff in E1 as [E1 E2]. apply bool_decide_eq_true in E1, E2.
    exists prior. split; [done|]. do 3 (split; [done|]). by left.
  - do 5 (wp_step; try done). apply wp_replay; [|intros answer w' P; by wp_step|done]. intros h. apply wp_reset_owned.
Qed.

End Reset.

(** Repeating an answered reset gives the same answer without any call. *)
Theorem Reset_is_replayed targetID reset w answer w' (Done : Reset build targetID reset w = (Ok answer, w')) h
  (Alive : RequireDeadline h = Ok tt) :
  Reset build targetID reset (mkWorld (w_driver w') h) = (Ok answer, mkWorld (w_driver w') h).
Proof.
  destruct w as [d h0]. pose proof (wp_Reset targetID reset d h0) as [_ P]. rewrite Done in P. destruct P as (outcome & M & T & R & -> & _).
  assert (V : ResetPlan_Validate reset = Ok tt).
  { unfold Reset, peek, tm_lift, mbind, TM_bind in Done. cbn in Done. destruct (RequireDeadline h0) as [[]|]; [|done]. cbn in Done.
    by destruct (ResetPlan_Validate reset) as [[]|]. }
  unfold Reset, peek, tm_lift, get_driver, mbind, TM_bind. cbn. rewrite Alive. cbn. rewrite V. cbn. cbn in M. rewrite M.
  by rewrite T, R, !bool_decide_eq_true_2.
Qed.

(** ** Create *)
Definition create_call (input : TargetPlan) (d : Driver) (h : calls) (c : host_call) : Prop :=
  passive c = true \/ exists plan, BuildContainerPlan input build = Ok plan /\ d_targets d !! refKey (plan_ref plan) = None /\
  match c with
  | PrepareDirectories p | CreateContainer p => p = plan
  | StartContainer id => identified plan h id
  | RemoveContainer id => created plan h id \/ identified plan h id
  | RemoveDirectory directory => directory = cp_TargetDirectory plan /\ exists id, (created plan h id \/ identified plan h id) /\ removed h id
  | _ => False
  end.

Section Create.
Context (input : TargetPlan) (d : Driver).
Local Abbreviation ok := (create_call input d).
Lemma look_create h c : passive c = true -> ok h c.
Proof. by left. Qed.

(** The answer is the status of a record: one for the same request that was
    there, or a new one whose container serves. *)
Definition create_post (r : dresult TargetResult) (w' : world) : Prop :=
  match r with
  | Ok answer => exists plan record, BuildContainerPlan input build = Ok plan
      /\ d_targets (w_driver w') !! refKey (plan_ref plan) = Some record /\ res_Status answer = rec_status record
      /\ d_idempotency (w_driver w') !! tp_IdempotencyKey input = Some (refKey (plan_ref plan))
      /\ ((w_driver w' = d /\ res_Created answer = false /\ sameTargetPlanIdentity (rec_input record) input = Ok true)
          \/ (d_targets d !! refKey (plan_ref plan) = None /\ rec_input record = input /\ rec_plan record = plan
              /\ ts_State (rec_status record) = TargetGenerationReady /\ ts_RuntimeID (rec_status record) = rec_runtimeID record
              /\ serving plan (w_calls w') (rec_runtimeID record)))
  | Err _ => w_driver w' = d
  end.

Section New.
Context (plan : ContainerPlan) (Build : BuildContainerPlan input build = Ok plan) (New : d_targets d !! refKey (plan_ref plan) = None).
Definition ours (h : calls) (id : string) : Prop := created plan h id \/ identified plan h id.
Lemma ours_mono h h' id : h `prefix_of` h' -> ours h id -> ours h' id.
Proof. intros P [C|I]; [left; by eapply created_mono|right; by eapply identified_mono]. Qed.

Lemma wp_abandon_new {A} e id (Q : dresult A -> world -> Prop) h0 : id = "" \/ ours h0 id ->
  (forall e h, Q (Err e) (mkWorld d h)) -> wp ok (abandon e id (cp_TargetDirectory plan)) Q (mkWorld d h0).
Proof using Build New.
  intros C F. unfold abandon, cleanupFailedRuntime, removeTargetDirectory. wp_step. case_bool_decide as Em; [repeat wp_step; apply F|].
  destruct C as [|C]; [done|]. do 2 wp_step; [right; by exists plan|]. destruct (runtime_Remove _ _) as [[]|] eqn:R; cbn [is_ok negb]; [|repeat wp_step; apply F].
  repeat wp_step; [|apply F]. right. exists plan. do 3 (split; [done|]). exists id. split; [eapply ours_mono; [|done]; prefixes|]. exists h0. done.
Qed.

Lemma wp_resumeOrCreate Q h0 :
  (forall id r c h, id = "" \/ ours h id -> (forall s, r = Ok s -> serving plan h id) -> Q (Ok (id, r, c)) (mkWorld d h)) ->
  wp ok (resumeOrCreateRuntime plan input) Q (mkWorld d h0).
Proof using Build New.
  intros S. unfold resumeOrCreateRuntime. cbv zeta.
  assert (Cr : forall h, wp ok (r ← createRuntime plan; mret (r.1, r.2, true)) Q (mkWorld d h)).
  { intros h. wp_step. apply wp_createRuntime; [exact look_create|right; by exists plan| |].
    - intros h' id _ I _. right. exists plan. by do 2 (split; [done|]).
    - intros id r h' _ C H. wp_step. apply S; [destruct C; [by left|by right; left]|]. intros s E. by apply H in E as (_ & _ & _ & Sv). }
  destruct (negb RuntimeInventory); [apply Cr|]. do 2 wp_step. apply wp_list; [exact look_create| |intros e; wp_step; apply S; [by left|done]].
  intros l L V. cbn [w_calls w_driver] in *. destruct (targetCandidates l _) as [|index [|]] eqn:C; [apply Cr| |wp_step; apply S; [by left|done]].
  destruct (candidate_in l (mkExpected input plan (plan_ref plan) false) index) as (N & _ & _); [rewrite C; by left|].
  destruct (validateRuntimeIdentity _ _) as [[]|e] eqn:Vi; [|wp_step; apply S; [by left|done]].
  assert (O : observed (h0 ++ [ListContainers]) (nth index l no_runtime)) by (by apply observed_list with l).
  assert (I : identified plan (h0 ++ [ListContainers]) (st_ID (nth index l no_runtime))) by (eexists; split; [exact O|done]).
  do 2 wp_step. apply wp_resume; [exact look_create|done|..]; cbn [w_calls w_driver].
  - intros h P Id. right. exists plan. by do 2 (split; [done|]).
  - intros s h P _ _ Sv. wp_step. apply S; [|done]. right; right. by eapply identified_mono.
  - intros e [d' h] D P. cbn in D, P. subst d'. wp_step. apply S; [|done]. right; right. by eapply identified_mono.
Qed.
End New.

(** A creation removes only the container that it created or that is already the
    one of its plan, never touches a generation the driver owns, and answers only
    with the status of a record: that of the same request, or a new one whose
    container serves. *)
Theorem Create_is_safe h0 : trace ok h0 (w_calls (Create build input (mkWorld d h0)).2)
  /\ create_post (Create build input (mkWorld d h0)).1 (Create build input (mkWorld d h0)).2.
Proof.
  change (wp ok (Create build input) create_post (mkWorld d h0)). unfold Create. do 8 (wp_step; try done). rename a into plan.
  destruct (d_idempotency d !! _) as [existing|] eqn:K.
  - destruct (d_targets d !! existing) as [record|] eqn:T; [|by wp_step]. do 6 (wp_step; try done). apply check_ok, bool_decide_eq_true in E1. subst existing.
    apply check_ok in E3. destruct (sameTargetPlanIdentity _ _) as [same|] eqn:Sm; [|done]. apply Ok_inj in E2 as <-. rewrite E3 in Sm. wp_step.
    exists plan, record. do 4 (split; [done|]). by left.
  - do 2 (wp_step; try done). apply check_ok, negb_true_iff, bool_decide_eq_false, eq_None_not_Some in E1.
    do 2 (wp_step; try done); [right; by exists plan|]. wp_step. apply (wp_resumeOrCreate plan E0 E1). intros id r c h O Sv.
    destruct r as [s|e]; [|by apply (wp_abandon_new plan E0 E1)]. repeat wp_step.
    exists plan. eexists. split; [done|]. split; [cbn; apply lookup_insert_eq|]. split; [done|]. split; [cbn; apply lookup_insert_eq|].
    right. do 5 (split; [done|]). by eapply Sv.
Qed.
End Create.
End Lifecycle.

(** ** A concrete driver

    One container, "one", that Docker lists and whose guest answers; a reset
    creates "two" to replace it. *)
Module TargetDemo.
#[local] Existing Instance BundleDemo.slice_sort.
#[export] Instance map_range : MapRange := {| range_map A m := map_to_list m; range_map_permutes A m := reflexivity _ |}.
#[export] Instance host_paths : HostPaths := {| os_Getwd := Ok "/" |}.
#[export] Instance encoding : PlanEncoding := {| json_plan p := bytes_of (cp_Name p); json_request p := Ok (bytes_of (tp_IdempotencyKey p)) |}.
Definition uuid (n : N) : uuidV7 := (repeat 0 6 ++ [112; 0; 128] ++ repeat 0 6 ++ [n])%N.
Definition digest (n : N) : list N := repeat n 32.
Definition template : TargetTemplate :=
  mkTemplate "shell" Domain.TargetLinuxContainer "docker" RuncRuntime (digest 1) "observable-container" "" false false false false 0 0.
Definition input : TargetPlan :=
  mkTargetPlan "create-1" (uuid 1) (Domain.mkTarget (uuid 2) (uuid 3) Domain.TargetLinuxContainer 1 InitialRevision 1 1)
    (Domain.mkTargetGenerationRecord (Domain.mkTargetGenerationSpec (uuid 2) 1 (digest 2) (digest 3) 0 zero_uuid 1)
       TargetGenerationProvisioning InitialRevision 1)
    template (digest 2) (digest 3) (mkResources 1000 1048576 0 1 1 1 64 ∅).
Definition config : BuildConfig := mkBuildConfig "/targets" "registry/world" false "".
Definition plan_of (r : result ContainerPlan) : ContainerPlan :=
  match r with Ok plan => plan | Err _ => unlabelled_plan input config end.
Definition plan : ContainerPlan := Eval vm_compute in plan_of (BuildContainerPlan input config).
Lemma plan_built : BuildContainerPlan input config = Ok plan.
Proof. vm_compute. reflexivity. Qed.

Fixpoint times (n : nat) (c : string) : string := match n with O => "" | S n => c +:+ times n c end.
Definition one : string := times 64 "a".
Definition two : string := times 64 "b".
Definition next : ContainerPlan := Eval vm_compute in plan_of (replacementContainerPlan plan 2 "/targets").
Definition state_of (p : ContainerPlan) (id status : string) (running : bool) : RuntimeState :=
  mkRuntimeState id (cp_Name p) running false false false status (cp_Labels p) "" (expectedTargetConfiguration p).
Definition happened (f : host_call -> bool) (h : calls) : bool := existsb f h.
Definition inspect (h : calls) (id : string) : result RuntimeState :=
  if bool_decide (id = one) then
    Ok (if happened (fun c => match c with StopContainer id _ => bool_decide (id = one) | _ => false end) h
        then state_of plan one "exited" false else state_of plan one "running" true)
  else if bool_decide (id = two) then
    Ok (if happened (fun c => match c with StartContainer id => bool_decide (id = two) | _ => false end) h
        then state_of next two "running" true else state_of next two "created" false)
  else Err (ErrText "no such container").
#[export] Instance host : TargetHost := {|
  runtime_Create h p := Ok two; runtime_Start h id := Ok tt; runtime_Inspect := inspect; runtime_Stop h id mode := Ok tt;
  runtime_Remove h id := Ok tt; runtime_List h := Ok [state_of plan one "running" true];
  runtime_Quarantine h id := Err (ErrText "not supported"); guest_readiness h id := Ok tt; RuntimeInventory := true; RuntimeContainment := false;
  read_reset h directory := Ok (None, None); read_quarantine h directory := Ok (None, None); read_claim h directory := Ok None;
  persist_reset_intent h directory intent := Ok tt; persist_reset_receipt h directory receipt := Ok tt;
  persist_quarantine_receipt h directory receipt := Ok tt; prepare_directories h p := Ok tt; directory_present h directory := Ok true;
  remove_directory h directory := Ok tt; now h := 5%Z; RequireDeadline h := Ok tt;
  json_reset_intent intent := Ok (bytes_of (prp_IdempotencyKey (pri_Reset intent))); json_quarantine_intent intent := Ok [] |}.

Definition start : world := mkWorld NewDriver [].
Definition report_of {A} (default : A) (r : dresult A) : A := match r with Ok a => a | Err _ => default end.
Definition reconciled := ReconcileTargets config [input] [] start.
Definition report : TargetReconciliationReport := report_of no_target_report reconciled.1.
Example adopts : tobs_Classification <$> trep_Expected report = [PhysicalResourceAdopted].
Proof. vm_compute. reflexivity. Qed.

Definition reset_plan : ResetPlan := mkResetPlan "reset-1" (uuid 1) (mkTargetRef (uuid 2) 1) 2 ResetRecreate "" zero_uuid.
Definition reset := Reset config (uuid 2) reset_plan reconciled.2.
Definition reset_runtime : string := match reset.1 with Ok (answer, None) => ts_RuntimeID (res_Status answer) | _ => "" end.
Example resets : (reset_runtime, elements (dom (d_targets (w_driver reset.2)))) = (two, [targetKey (uuid 2) 2]).
Proof. vm_compute. reflexivity. Qed.

#[export] Instance plans : Plans := {|
  AgentWorkspacePlan := unit; agent_plan_ref _ := mkAgentWorkspaceRef zero_uuid 0; AgentProvisioningPlan := unit; app_Agent _ := tt;
  Inventory.TargetPlan := TargetPlan;
  target_plan_ref p := mkTargetRef (Domain.tgs_TargetID (Domain.tg_spec (tp_Generation p))) (Domain.tgs_Generation (Domain.tg_spec (tp_Generation p)));
  TargetRunPlan := unit; run_plan_ref _ := mkTargetRef zero_uuid 0 |}.
Lemma report_clean : (assessTargetReconciliationWithRecovery [input] ∅ ∅ ∅ report).2 = [].
Proof. vm_compute. reflexivity. Qed.
Lemma reconciled_ok : reconciled = (Ok report, reconciled.2).
Proof. vm_compute. reflexivity. Qed.
Lemma reset_ok : exists answer, reset = (Ok answer, reset.2).
Proof.
  assert (E : is_ok reset.1 = true) by (vm_compute; reflexivity). apply is_ok_true in E as [answer E]. exists answer.
  rewrite <-E. apply surjective_pairing.
Qed.

Lemma clean_inventory_is_confined_witness : exists states, inventory (w_calls reconciled.2) states /\ forall s, s ∈ states ->
  (exists i p, i ∈ [input] /\ BuildContainerPlan i config = Ok p /\ is_container_of p s (st_ID s)
     /\ ((MemoryBytes (cp_Resources p) <= MaxInt64)%Z -> confined p (st_Configuration s)))
  \/ (has_target_role s = false /\ HasPrefix (st_Name s) "world-target-" = false).
Proof. exact (clean_inventory_is_confined config [input] [] start report reconciled.2 [input] ∅ ∅ ∅ reconciled_ok report_clean). Defined.
Lemma Reset_is_replayed_witness : exists answer, reset.1 = Ok answer /\
  Reset config (uuid 2) reset_plan (mkWorld (w_driver reset.2) []) = (Ok answer, mkWorld (w_driver reset.2) []).
Proof.
  destruct reset_ok as [answer E]. exists answer. split; [by rewrite E|].
  exact (Reset_is_replayed config (uuid 2) reset_plan reconciled.2 answer reset.2 E [] eq_refl).
Defined.
End TargetDemo.
