(* ===== verification/Witnesses.v ===== *)
(** * The theorems at work

    Each theorem with hypotheses is applied to a state of the concrete run of
    [Hazards], where the hypotheses are evaluated; so none of them is vacuous. *)
From S2P Require Import Prelude Errors Sha256 GoStrings States Values Ids Models Records Store StoreFacts Requests.
From S2P Require Import Machine Replay Sync Advance Integrity Refs Sessions Targets Termination Incidents.
From S2P Require Import Completion System Admission Guarantees Quiesce Effects Hazards.
Import Demo.

(** ** States of the run *)
Lemma run_all_steps `{Env} cmds w : rtc step w (run_all cmds w).
Proof.
  revert w. induction cmds as [|cmd cmds IH]; intros w; [constructor|].
  eapply rtc_l; [constructor|]. apply IH.
Qed.
Lemma run_all_reachable `{Env} cmds w : reachable w -> reachable (run_all cmds w).
Proof.
  revert w. induction cmds as [|cmd cmds IH]; intros w R; [done|]. apply IH.
  eapply reachable_step; [exact R|constructor].
Qed.

Lemma reachable_acquired : reachable w_acquired.
Proof. apply (run_all_reachable [acquire] initial_world). constructor. Qed.
Lemma reachable_ready : reachable w_ready.
Proof. exact (run_all_reachable [boot; ready] _ reachable_acquired). Qed.
Lemma reachable_target : reachable w_target.
Proof. exact (run_all_reachable [createTarget] _ reachable_ready). Qed.
Lemma reachable_targetReady : reachable w_targetReady.
Proof. exact (run_all_reachable [instrument; targetReady] _ reachable_target). Qed.
Lemma reachable_run : reachable w_run.
Proof. exact (run_all_reachable [startRun] _ reachable_targetReady). Qed.
Lemma reachable_releasing : reachable w_releasing.
Proof. exact (run_all_reachable [beginRelease] _ reachable_targetReady). Qed.

(** The worlds are evaluated by [vm_compute] only. *)
#[local] Opaque w_acquired w_ready w_target w_targetReady w_run w_exec w_releasing w_released run_all.

Lemma reachable_keyed w : reachable w -> core_keyed (w_core w).
Proof. intros R. apply co_keyed, safe_core_ok. by apply reachable_safe. Qed.

(** A computation that succeeds, as an equation. *)
Definition from_ok {A} (d : A) (r : result A) : A := match r with Ok a => a | Err _ => d end.
Lemma ran {A} (d : A) (m : M A) w : is_ok (fst (m w)) = true -> m w = (Ok (from_ok d (fst (m w))), snd (m w)).
Proof. by destruct (m w) as [[a|e] w']. Qed.

Definition no_response : response := RSessionID "".
Ltac evaluates := vm_compute; reflexivity.

(** ** The journal *)
Definition row_text (r : ControlRecord (list N)) : list N := cr_Payload r.
Definition first_row : ControlRecord (list N) :=
  mkControlRecord 0 "session" "s1" 1 "session.requested" [123; 125]%N start zero_hash zero_hash.
Definition one_row_store : Store (list N) unit :=
  match AppendControl (fun b => b) empty_store first_row start with Ok (_, s) => s | Err _ => empty_store end.

Lemma AppendControl_preserves_witness :
  store_ok (fun b => b) one_row_store /\ length (st_records one_row_store) = 1%nat.
Proof.
  destruct (AppendControl_preserves (R := unit) (fun b => b) empty_store first_row start
    (match AppendControl (R := unit) (fun b => b) empty_store first_row start with
     | Ok (r, _) => r | Err _ => first_row end) one_row_store) as (O & L & _).
  - apply empty_store_ok.
  - evaluates.
  - split; [exact O|exact L].
Defined.

Lemma row_fits_one : Forall (row_fits (fun b => b)) (st_records one_row_store).
Proof.
  repeat constructor; evaluates.
Qed.
Lemma Verify_tamper_evident_witness :
  let rows := st_records one_row_store in
  Forall2 (same_content (fun b => b)) rows rows \/
  (exists r1 r2, r1 ∈ rows /\ r2 ∈ rows /\
     sha256_collision (control_preimage (fun b => b) r1) (control_preimage (fun b => b) r2)) \/
  (exists r, r ∈ rows ++ rows /\ hashControl (fun b => b) r = zero_hash).
Proof.
  apply (Verify_tamper_evident (fun b => b) (st_records one_row_store) (st_records one_row_store));
    [apply row_fits_one..|evaluates|evaluates|evaluates].
Defined.

(** ** The projection *)
(** A process that has just started. *)
Definition restarted (w : World) : World := w <| w_core := empty_core |>.
Lemma restarted_store_ok w : reachable w -> store_ok payload_bytes (w_store (restarted w)).
Proof. intros R. exact (proj1 (proj1 (reachable_safe _ R))). Qed.
Lemma restarted_replayed w : replayed (w_store (restarted w)) (w_core (restarted w)) 0.
Proof. split; [apply Nat.le_0_l|done]. Qed.

Lemma syncLocked_single_pass_witness :
  let '(r, c) := apply_batch (drop 0 (st_records (w_store (restarted w_releasing)))) (w_core (restarted w_releasing)) in
  syncLocked (restarted w_releasing) = (r, (restarted w_releasing) <| w_core := c |>) /\
  (r = Ok tt -> NewCore (restarted w_releasing) = (Ok tt, (restarted w_releasing) <| w_core := c |>)).
Proof.
  exact (syncLocked_single_pass (restarted w_releasing) 0 (restarted_store_ok _ reachable_releasing)
    (restarted_replayed _)).
Defined.

(** ** Reachable states *)
Lemma reachable_journal_ok_witness : Verify payload_bytes (w_store w_releasing) = Ok tt.
Proof. exact (proj1 (reachable_journal_ok w_releasing reachable_releasing)). Defined.

Lemma reachable_core_ok_witness : core_ok (w_core w_releasing).
Proof. exact (reachable_core_ok w_releasing reachable_releasing). Defined.

Lemma synced_released : fst (syncLocked w_released) = Ok tt.
Proof. evaluates. Qed.
Lemma history_only_advances_witness :
  core_le (w_core (snd (syncLocked w_releasing))) (w_core (snd (syncLocked w_released))).
Proof.
  refine (proj2 (proj2 (proj2 (history_only_advances w_releasing w_released reachable_releasing _)) _)).
  - exact (run_all_steps [completeRelease] w_releasing).
  - exact synced_released.
Defined.

Lemma journals_create_exec r : journals (create_exec_handler r).
Proof. unfold create_exec_handler. journaling. Qed.
Definition exec_call : M (response * bool) :=
  RunIdempotent "create_exec" "exec" [4%N] (create_exec_handler createExecRequest).
Lemma exec_call_writes : w_store (snd (exec_call w_ready)) <> w_store w_ready.
Proof.
  intros E. apply (f_equal (fun s => length (st_records s))) in E. vm_compute in E. discriminate E.
Qed.
Lemma mutations_exactly_once_witness :
  exists r, (fst (exec_call w_ready) = Ok (r, false) \/ exists e, fst (exec_call w_ready) = Err e) /\
    let w2 := run_all [CRestart] (snd (exec_call w_ready)) in
    w_store (snd (exec_call w2)) = w_store w2 /\ fst (exec_call w2) = Ok (r, true).
Proof.
  destruct (mutations_exactly_once "create_exec" "exec" [4%N] (create_exec_handler createExecRequest) w_ready
    (fst (exec_call w_ready)) (snd (exec_call w_ready)) [4%N] (create_exec_handler createExecRequest)
    (run_all [CRestart] (snd (exec_call w_ready)))) as (r & O & S & Same & _).
  - exact (reachable_safe _ reachable_ready).
  - apply journals_create_exec.
  - apply surjective_pairing.
  - exact exec_call_writes.
  - apply run_all_steps.
  - intros n p L. reflexivity.
  - discriminate.
  - exists r. split; [exact O|]. split; [exact S|exact (Same eq_refl)].
Defined.

(** ** A terminating lease *)
(** The journal holds a termination of the lease, as a test. *)
Definition closes (id : string) (r : ControlRecord payload) : bool :=
  match cr_Payload r with
  | PLease l => bool_decide (lease_ID l = id) && negb (bool_decide (lease_Termination l = zero_termination))
  | _ => false
  end.
Lemma closes_closed (s : CoreStore) id : existsb (closes id) (st_records s) = true -> lease_closed s id.
Proof.
  intros E. apply existsb_exists in E as (r & I & C). apply list_elem_of_In, list_elem_of_lookup in I as [i I].
  unfold closes in C. destruct (cr_Payload r) as [v|v|v|v|v|v|v] eqn:P; try discriminate C.
  to_prop. destruct C as [C N]. by exists i, r, v.
Qed.

Lemma closed_lease_admits_nothing_witness :
  w_store (snd (run createExec w_released)) = w_store w_released.
Proof.
  apply (closed_lease_admits_nothing w_releasing w_released leaseID createExec).
  - exact reachable_releasing.
  - apply closes_closed. evaluates.
  - exact (run_all_steps [completeRelease] w_releasing).
  - evaluates.
Defined.

Definition ready_lease : LeaseRecord := default zero_lease (core_leases (w_core w_targetReady) !! leaseID).
Definition begin_params : beginLeaseTerminationParams :=
  mkBeginParams "research_session.begin_release" LeaseTerminationRelease "done" 1 "release"
    (canonicalDigest (QRelease (stableRelease (releaseRequest 1)))).
Lemma termination_begins_once_runs : is_ok (fst (beginLeaseTermination ready_lease begin_params w_targetReady)) = true.
Proof. evaluates. Qed.
Lemma termination_begins_once_witness :
  lease_Termination ready_lease = zero_termination /\
  lease_closed (w_store (snd (beginLeaseTermination ready_lease begin_params w_targetReady)))
    (lease_ID ready_lease).
Proof.
  destruct (termination_begins_once ready_lease begin_params w_targetReady _ _
    (ran no_response (beginLeaseTermination ready_lease begin_params) w_targetReady termination_begins_once_runs))
    as (Z & _ & _ & _ & C & _).
  exact (conj Z C).
Defined.

Definition releasing_lease : LeaseRecord := default zero_lease (core_leases (w_core w_releasing) !! leaseID).
Definition complete_identity : completionIdentity :=
  mkCompletionIdentity "research_session.complete_release" 2 "release"
    (canonicalDigest (QRelease (stableRelease (releaseRequest 2)))).
Definition no_outcome : LeaseTerminationOutcome :=
  mkLeaseTerminationOutcome "" "" LeaseTerminationRelease LeaseActive 0.
Lemma termination_completes_cleanly_runs : is_ok (fst (completeLeaseTermination releasing_lease complete_identity w_releasing)) = true.
Proof. evaluates. Qed.
Lemma termination_completes_cleanly_witness :
  lease_work_finished (w_core w_releasing) (lease_ID releasing_lease).
Proof.
  exact (proj1 (termination_completes_cleanly w_releasing releasing_lease complete_identity _ _
    (reachable_keyed _ reachable_releasing)
    (ran no_outcome (completeLeaseTermination releasing_lease complete_identity) w_releasing termination_completes_cleanly_runs))).
Defined.

(** The lease is due in an environment whose clock has passed its expiry. *)
Lemma termination_work_complete_runs : is_ok (fst (ListLeaseTerminationWork w_releasing)) = true.
Proof. evaluates. Qed.
Lemma termination_work_complete_witness :
  exists items w', ListLeaseTerminationWork w_releasing = (Ok items, w') /\ Sorted work_le items.
Proof.
  pose proof (ran [] ListLeaseTerminationWork w_releasing termination_work_complete_runs) as R.
  eexists _, _. split; [exact R|].
  exact (proj1 (termination_work_complete w_releasing _ _ R)).
Defined.

Definition renewRequest : RenewLeaseRequest := mkRenewLeaseRequest (meta "renew") leaseID 1 (7200 * second).
Lemma renewal_extends_runs : is_ok (fst (renew_handler renewRequest w_ready)) = true.
Proof. evaluates. Qed.
Lemma renewal_extends_witness :
  exists lease, core_leases (w_core w_ready) !! leaseID = Some lease /\ lease_State lease = LeaseActive.
Proof.
  destruct (renewal_extends renewRequest w_ready _ _
    (ran no_response (renew_handler renewRequest) w_ready renewal_extends_runs)) as (lease & row & L & S & _).
  exists lease. exact (conj L S).
Defined.

(** ** Quiescing *)
Definition quiesceRequest : TransitionAgentRequest :=
  mkTransitionAgentRequest (meta "quiesce") agentID 1 3 AgentGenerationQuiescing.
Lemma quiesce_only_when_idle_runs : is_ok (fst (transition_agent_handler quiesceRequest w_ready)) = true.
Proof. evaluates. Qed.
Lemma quiesce_only_when_idle_witness : idle (w_core w_ready) agentID 1.
Proof.
  exact (proj1 (quiesce_only_when_idle quiesceRequest w_ready _ _ (reachable_keyed _ reachable_ready) eq_refl
    (ran no_response (transition_agent_handler quiesceRequest) w_ready quiesce_only_when_idle_runs))).
Defined.

Definition w_quiescing : World := run_all [quiesce] w_ready.
Lemma reachable_quiescing : reachable w_quiescing.
Proof. exact (run_all_reachable [quiesce] _ reachable_ready). Qed.
#[local] Opaque w_quiescing.
(** The generation is shut, as a test. *)
Definition shut_now (c : Core) (ws : string) (n : N) : bool :=
  match core_agents c !! ws with
  | Some a => match findAgentGeneration a n with Ok (_, g) => shut_state (agen_State g) | Err _ => false end
  | None => false
  end.
Lemma shut_now_shut c ws n : shut_now c ws n = true -> shut c ws n.
Proof.
  unfold shut_now. destruct (core_agents c !! ws) as [a|] eqn:L; [|done].
  destruct (findAgentGeneration a n) as [[i g]|] eqn:F; [|done]. intros S. by exists a, i, g.
Qed.
Lemma shut_generation_admits_no_work_witness :
  w_store (snd (run createExec w_quiescing)) = w_store w_quiescing.
Proof.
  apply (shut_generation_admits_no_work w_quiescing w_quiescing agentID 1 createExec).
  - exact reachable_quiescing.
  - apply shut_now_shut. evaluates.
  - constructor.
  - evaluates.
Defined.

(** ** A journal that does not replay *)
Lemma unreplayable_journal_fails_closed_witness :
  w_store (snd (@run crossing createExec w_crossed)) = w_store w_crossed.
Proof.
  refine (proj2 (@unreplayable_journal_fails_closed crossing w_crossed w_crossed createExec _ _ _) eq_refl).
  - exact (run_all_from_start crossing [acquire; beginRelease]).
  - evaluates.
  - constructor.
Defined.

(** ** Targets and runs *)
Definition digest_bytes : list N := sha256 [1%N].
Lemma run_needs_fresh_generation_runs : is_ok (fst (start_run_handler startRunRequest digest_bytes w_targetReady)) = true.
Proof. evaluates. Qed.
Lemma run_needs_fresh_generation_witness :
  exists target, core_targets (w_core w_targetReady) !! targetID = Some target /\
    forall r, r ∈ target_Runs target -> run_Generation r <> target_CurrentGeneration target.
Proof.
  destruct (run_needs_fresh_generation startRunRequest digest_bytes w_targetReady _ _
    (ran no_response (start_run_handler startRunRequest digest_bytes) w_targetReady run_needs_fresh_generation_runs))
    as (t & l & i & g & run & row & now & L & _ & _ & _ & _ & _ & F & _).
  exists t. exact (conj L F).
Defined.

Definition run_target : TargetRecord := default zero_target (core_targets (w_core w_run) !! targetID).
Definition runID : string := match target_Runs run_target with r :: _ => run_ID r | [] => "" end.
Definition quarantineRequest : QuarantineTargetRequest :=
  mkQuarantineTargetRequest (meta "quarantine") targetID (target_Revision run_target) "suspicious"
    (mkTargetQuarantineEvidence (mkTargetRef (from_ok zero_uuid (parseID prefix_target targetID)) 1) "runtime-1"
       true true true start).
Lemma quarantine_stops_generation_runs : is_ok (fst (quarantine_mutate quarantineRequest run_target w_run)) = true.
Proof. evaluates. Qed.
Lemma quarantine_stops_generation_witness :
  exists i g, findTargetGeneration (from_ok zero_target (fst (quarantine_mutate quarantineRequest run_target w_run)))
      (target_CurrentGeneration run_target) = Ok (i, g) /\ tgen_State g = TargetGenerationQuarantined.
Proof.
  exact (proj1 (proj2 (quarantine_stops_generation quarantineRequest run_target w_run _ _
    (ran zero_target (quarantine_mutate quarantineRequest run_target) w_run quarantine_stops_generation_runs)))).
Defined.

Definition finalizeRequest : FinalizeTargetRunRequest :=
  mkFinalizeTargetRunRequest (meta "finalize") targetID runID 1 true
    "bundle_018bcfe5-6800-7000-8000-000000000009" "" "" [].
Definition finalized_target : TargetRecord :=
  from_ok zero_target (fst (finalize_run_mutate finalizeRequest run_target w_run)).
Lemma finalized_run_is_sealed_runs : is_ok (fst (finalize_run_mutate finalizeRequest run_target w_run)) = true.
Proof. evaluates. Qed.
Lemma finalized_run_is_sealed_witness :
  exists i run, findRun finalized_target runID = Ok (i, run) /\ run_State run = TargetRunFailed.
Proof.
  destruct (finalized_run_is_sealed finalizeRequest run_target w_run _ _
    (ran zero_target (finalize_run_mutate finalizeRequest run_target) w_run finalized_run_is_sealed_runs))
    as (i & run & run' & _ & _ & _ & F & S & _).
  exists i, run'. exact (conj F S).
Defined.

Definition resetRequest : ResetTargetRequest :=
  mkResetTargetRequest (meta "reset") targetID (target_Revision finalized_target) ResetRecreate "" "".
Definition no_mutation : TargetRecord * string := (zero_target, "").
Lemma reset_runs : is_ok (fst (reset_mutate resetRequest zero_uuid finalized_target w_run)) = true.
Proof. evaluates. Qed.
Definition reset_result : TargetRecord * string :=
  from_ok no_mutation (fst (reset_mutate resetRequest zero_uuid finalized_target w_run)).
Lemma reset_opens_next_generation_witness :
  target_CurrentGeneration (fst reset_result) = (target_CurrentGeneration finalized_target + 1)%N.
Proof.
  destruct (reset_opens_next_generation resetRequest zero_uuid finalized_target w_run (fst reset_result)
    (snd reset_result) (snd (reset_mutate resetRequest zero_uuid finalized_target w_run)))
    as (i & old & _ & _ & _ & _ & _ & C & _).
  - rewrite <-surjective_pairing. exact (ran no_mutation _ w_run reset_runs).
  - exact C.
Defined.

(** ** Authorization *)
Definition authorizeRequest : AuthorizationRequest :=
  mkAuthorizationRequest "alice" digest "" leaseID "" "" "" "" "".
Lemma authorization_runs : Authorize authorizeRequest w_ready = (Ok tt, snd (Authorize authorizeRequest w_ready)).
Proof. apply (ran tt). evaluates. Qed.
Lemma authorization_sound_witness :
  exists sid session, core_sessions (w_core (snd (syncLocked w_ready))) !! sid = Some session /\
    session_OwnerSubject session = "alice".
Proof.
  destruct (authorization_sound authorizeRequest w_ready _ authorization_runs)
    as (_ & _ & _ & sid & session & L & _ & O & _).
  exists sid, session. exact (conj L O).
Defined.
